(* ===== verification/_CoqProject ===== *)
-Q . S2P
Prelude.v
State.v
Equiv.v
CMem.v
Strings.v
Spinlock.v
Mmu.v
Kalloc.v
Console.v
Vm.v
VmUser.v
VmCopy.v
Sched.v
Resume.v
Ring.v
Bio.v
Bytes.v
Log.v
LogCrash.v
LogOps.v
Umem.v
Pipe.v
Devices.v
Rtc.v
ProcInfo.v
Inode.v
FsTx.v
Alloc.v
FsExample.v
AllocSpec.v
FileData.v
ConsoleIO.v
ConsoleSpec.v
Kbd.v
Fs.v
Dinode.v
ReadSpec.v
WriteSpec.v
Path.v
File.v
Proc.v
ForkSpec.v
WaitSpec.v
Exec.v
Sysarg.v
Sysfile.v
Syscall.v
Trap.v
TrapSpec.v
Mp.v
Main.v
User.v
Utils.v
UtilsSpec.v
Grep.v
GrepSpec.v
Sh.v
ShParse.v
ShSpec.v
ShRun.v
Umalloc.v
UmallocSpec.v
UmallocRun.v
Mkfs.v
MkfsSpec.v
MkfsRun.v
MkfsMain.v
MkfsBoot.v
Ide.v
IdeSpec.v
IdeRun.v
IcacheSpec.v
ExitSpec.v
DirSpec.v
Usertests.v
UsertestsSpec.v
