(* ===== verification/Prelude.v ===== *)
(** * A verification development for the xv6 system of this repository

    The repository is xv6, a small Unix for the 32-bit x86, with the changes of two
    labs (a system call counter, process listings, two scheduling priorities).  The
    development models the kernel, the C library and programs that run on it, and
    the host program that builds its file system, as executable functions, and
    proves what makes them correct.  Names are those of the C code; the files
    below say which source file they translate (paths are relative to src/).

    ** The parts and how they interact

    A program makes system calls ([User]); the kernel takes them in [Trap] and
    [Syscall], checks the arguments ([Sysarg]) and runs them ([Sysfile], [Proc]).
    Files are pipes, devices or inodes ([File]); inodes and directories ([Inode],
    [Fs]) live in blocks that the buffer cache ([Bio]) reads and writes, every
    change inside a transaction of the log ([Log]), and the disk is either in
    memory (memide.c, in [Bio]) or behind the IDE driver ([Ide]).  Processes have
    address spaces ([Vm]) made of pages of the allocator ([Kalloc]), sleep and are
    woken ([Sched]), and locks ([Spinlock]) order what the CPUs do.  [Mkfs] builds
    the disk image the kernel starts from.

    ** How the code is modelled

    Kernel code is a state transformer on the record [kernel] of State.v, with the
    outcomes of Prelude.v: it returns, it stops in [panic], or it gives up the CPU
    ([Blocked]) with the rest of the call as a function of the state it finds when
    it runs again.  So a theorem about a call that sleeps quantifies over what other
    processes do meanwhile (Resume.v).  Integers are [Z] at their width, [u32], [s32]
    and so on where C wraps.  Memory is a map from addresses to bytes; page tables,
    the free list, ELF headers and user memory are in it.  Kernel tables are lists of
    records.  A kernel function holds its spin lock from [acquire] to [release];
    that this excludes the other CPUs is shown once, for the interleaved accesses of
    any number of CPUs ([Spinlock.Smp]), and the same is done for the race of
    [sleep] and [wakeup] ([Sched.SleepWake]).

    A user program is a tree of system calls, [User.prog], run against any kernel
    (a function from calls to results); what a theorem needs of the kernel is a
    class: [Stdio] (reads and writes of byte streams), [Fds] (a descriptor table, with
    the processes a shell forks), [Sbrks] (growing the heap).  mkfs is a state
    transformer on the image.  The disk controller of the IDE driver is a parameter
    with the documented behaviour of an ATA channel, the class [IdeSpec.Ata]: status
    polling, one or two drives, commands that fail; [IdeSpec.Prompt] is what the driver
    relies on beyond it, that a disk takes the data of a write at once.  The clock chip
    is a parameter too, the class [Rtc.Chip], whose registers are undefined while it
    updates them.  The keyboard of [Kbd] is a table of key caps and scan codes that does
    not come from the driver's tables.

    ** Files

    - Prelude, State, Equiv: outcomes, machine integers, the kernel's records and
      constants (param.h, memlayout.h, proc.h, file.h, fs.h, x86.h), equivalence of
      kernel code.
    - CMem, Strings, Bytes, Ring, Umem: memory and string routines (string.c, the
      string instructions of x86.h), bytes in blocks, circular lists, user memory.
    - Spinlock (spinlock.c); Sched, Resume (sleep, wakeup, sched, yield, kill and
      scheduler of proc.c); Proc, ProcInfo, ForkSpec, WaitSpec, ExitSpec (the rest of
      proc.c).
    - Mmu (mmu.h); Kalloc (kalloc.c); Vm, VmUser, VmCopy (vm.c); Exec (exec.c, elf.h,
      loaduvm).
    - Bio (memide.c, bio.c); Ide, IdeSpec, IdeRun (ide.c); Log, LogCrash, LogOps
      (log.c).
    - Inode, Alloc, AllocSpec, FileData, Dinode, IcacheSpec, Fs, ReadSpec, WriteSpec,
      Path, DirSpec (fs.c); FsTx, FsExample: file system code in a transaction, an
      example.
    - Pipe (pipe.c); File (file.c); Console, ConsoleIO, ConsoleSpec (console.c);
      Devices (picirq.c, ioapic.c, lapic.c, timer.c, kbd.c, uart.c); Kbd (the
      interrupts of kbd.c and uart.c); Rtc (the clock of lapic.c, date.h).
    - Sysarg, Sysfile, Syscall (syscall.c, sysfile.c, sysproc.c); Trap, TrapSpec
      (trap.c); Mp (mp.c); Main (main.c, bootmain.c).
    - User (ulib.c, printf.c); Utils, UtilsSpec (cat, echo, wc, kill, ln, ls, mkdir,
      rm, init, zombie, stressfs, forktest, lab2call, lab3info, lab3pri); Grep,
      GrepSpec (grep.c); Sh, ShParse, ShSpec, ShRun (sh.c); Umalloc, UmallocSpec,
      UmallocRun (umalloc.c).
    - Usertests, UsertestsSpec (usertests.c).
    - Mkfs, MkfsSpec, MkfsRun, MkfsMain, MkfsBoot (mkfs.c).

    ** What the theorems show

    - Storage.  [commit_atomic]: a transaction is on disk completely or not at all,
      whenever the machine stops, also during recovery.  [bread_correct] (also when
      other processes hold the block), [log_write_correct], [begin_op_correct], [end_op_correct]: the cache and the
      log give the abstraction of blocks with atomic groups of writes.
      [balloc_bfree_correct], [readi_correct], [writei_correct],
      [write_read_roundtrip], [icache_typed], [namex_correct]: blocks, file contents,
      the inode cache and path names on top of it.  [dirlookup_correct],
      [dirlink_correct]: a directory is a table of names, found by their first 14
      bytes, a new one put into the first free slot.  [ide_refines]: the IDE driver
      serves concurrent requests as a queue, each as the memory disk does unless the
      disk reports an error.
      [mkfs_correct], [mkfs_mounts]: the image mkfs builds is right, satisfies the
      kernel's invariant, and reads back.
    - Memory.  [kinit_frees_all], [kalloc_never_aliases]: pages are never handed out
      twice.  [setupkvm_correct], [mappages_correct], [allocuvm_correct],
      [deallocuvm_correct], [copyuvm_correct], [freevm_correct]: address spaces
      translate as intended and own their pages.  [malloc_free_correct]: the same for
      the heap of a program.
    - Processes.  [mutual_exclusion], [no_lost_wakeup], [sleep_correct],
      [wakeup_kill_correct]; [scheduler_fair]: every round of the scheduler runs every
      runnable process; [fork_correct],
      [time_slice_exact]; [exit_correct] and [wait_correct]: a process that ends
      is found by its parent once, and exactly its memory becomes free; and where
      the code does not do what it means to, [fork_ignores_failed_copy] and
      [raised_process_keeps_cpu].
    - Streams and devices.  [pipe_fifo], [consoleintr_refines]; [kbdintr_types]:
      the scan codes of typing a text are that text to the console;
      [cmostime_correct]: a date read while the clock ticks is one the clock showed.
    - Programs.  [parse_terminates], [parse_correct] and [runcmd_descriptors]: the
      shell's parser accepts its grammar and ends, and the processes the runner forks
      have the descriptors the line asks for.  [match_correct], [grep_correct],
      [wc_correct]: the matcher decides the pattern's language, and the programs
      print what they should, for the reads the theorems allow.
      [pipe1_correct]: the pipe test accepts what the writer sends in any pieces.

    ** Bounds

    Loops that are not structural carry fuel that is enough for every run: the size
    of the file or directory for [readi], [writei], [dirlookup]; the length of the
    path for [namex]; 4n + 4 for the parser on n characters ([parse_terminates]);
    twice the free list and 3 for [malloc]; the bytes to append for mkfs; the number
    of buffers for the disk queue; and [patience] polls for a disk that gets ready
    within them.  A kernel call that sleeps has room for 1000 sleeps ([max_sleeps]);
    the theorems that let other processes run meanwhile name the outcome in which it
    is used up.  Programs that read to the end of a stream have fuel for one more
    read than the stream has bytes.  [cmostime] has as many rounds as the chip needs to
    show the same date twice, and one.  The loops of usertests.c that have no counter
    take their number of rounds as an argument.

    ** Not modelled

    Assembly (bootasm.S, entry.S, entryother.S, initcode.S, swtch.S, trapasm.S,
    usys.S, vectors.pl): the model has the effect of the switches it makes.
    The tests of usertests.c are programs here and are not run; the one theorem about
    them is [pipe1_correct].  The polling of [uartputc] and the endless loop
    of [panic] are left out: serial output is a log, and [panic] an outcome.  The hardware's address translation is a
    function of the page tables in memory; caches, the TLB and timing are not modelled.  The
    shell's constructors are taken to get memory from malloc, which is modelled on
    its own. *)

From stdpp Require Export base list list_numbers numbers gmap strings fin_maps.
From stdpp Require Export sorting.
From Stdlib Require Export ZArith Lia.

#[global] Open Scope Z_scope.

(** ** Outcomes of kernel code

    Kernel functions are modelled as state transformers.  A call either
    returns, stops the machine in [panic] (console.c), or gives up the CPU: it
    switches to the scheduler or spins on a lock another CPU holds.  In the last
    case the outcome holds the rest of the call, which goes on from whatever
    state the kernel is in when the thread runs again. *)

Section Outcome.
Context {W S : Type}.

Inductive outcome (A : Type) : Type :=
| Ok (a : A) (s : S)
| Panic (msg : string)
| Blocked (w : W) (s : S) (k : S -> outcome A).

Definition M (A : Type) : Type := S -> outcome A.
End Outcome.

Arguments outcome W S A : clear implicits.
Arguments M W S A : clear implicits.
Arguments Ok {W S A} a s.
Arguments Panic {W S A} msg.
Arguments Blocked {W S A} w s k.

Section Monad.
Context {W S : Type}.

Definition ret {A} (a : A) : M W S A := fun s => Ok a s.

Fixpoint obind {A B} (o : outcome W S A) (f : A -> M W S B) : outcome W S B :=
  match o with
  | Ok a s => f a s
  | Panic msg => Panic msg
  | Blocked w s k => Blocked w s (fun s' => obind (k s') f)
  end.

Definition bind {A B} (m : M W S A) (f : A -> M W S B) : M W S B :=
  fun s => obind (m s) f.

Definition panic {A} (msg : string) : M W S A := fun _ => Panic msg.
Definition block (w : W) : M W S unit := fun s => Blocked w s (fun s' => Ok tt s').
(** The bound of a loop that the model runs with fuel was too small. *)
Definition out_of_fuel {A} : M W S A := panic "model: loop bound exceeded".
(** The C code would dereference a null pointer; the model stops. *)
Definition null_pointer {A} : M W S A := panic "model: null pointer".
(** The C code would access an array outside its bounds; the model stops. *)
Definition out_of_bounds {A} : M W S A := panic "model: access out of bounds".
Definition gets {A} (f : S -> A) : M W S A := fun s => Ok (f s) s.
Definition modify (f : S -> S) : M W S unit := fun s => Ok tt (f s).

(** [if(b) m], with no [else] branch. *)
Definition when (b : bool) (m : M W S unit) : M W S unit :=
  if b then m else ret tt.

Lemma bind_ok {A B} (m : M W S A) (f : A -> M W S B) s a s' :
  m s = Ok a s' -> bind m f s = f a s'.
Proof. intros H. unfold bind. now rewrite H. Qed.

Lemma bind_panic {A B} (m : M W S A) (f : A -> M W S B) s msg :
  m s = Panic msg -> bind m f s = Panic msg.
Proof. intros H. unfold bind. now rewrite H. Qed.

Lemma bind_blocked {A B} (m : M W S A) (f : A -> M W S B) s w s' k :
  m s = Blocked w s' k -> bind m f s = Blocked w s' (fun s'' => obind (k s'') f).
Proof. intros H. unfold bind. now rewrite H. Qed.

Lemma bind_gets {A B} (g : S -> A) (f : A -> M W S B) s :
  bind (gets g) f s = f (g s) s.
Proof. reflexivity. Qed.

Lemma bind_modify {B} (g : S -> S) (f : unit -> M W S B) s :
  bind (modify g) f s = f tt (g s).
Proof. reflexivity. Qed.

Lemma bind_ret {A B} (a : A) (f : A -> M W S B) s : bind (ret a) f s = f a s.
Proof. reflexivity. Qed.

(** The call does not give up the CPU. *)
Definition returns {A} (m : M W S A) (s : S) : Prop :=
  match m s with Blocked _ _ _ => False | _ => True end.

Lemma bind_assoc {A B C} (m : M W S A) (f : A -> M W S B) (g : B -> M W S C) s :
  returns m s -> bind (bind m f) g s = bind m (fun a => bind (f a) g) s.
Proof. unfold returns, bind. now destruct (m s). Qed.

Lemma bind_ok_inv {A B} (m : M W S A) (f : A -> M W S B) s b s' :
  bind m f s = Ok b s' -> exists a s1, m s = Ok a s1 /\ f a s1 = Ok b s'.
Proof. unfold bind. destruct (m s); intros H; try discriminate; eauto. Qed.
End Monad.

Declare Scope kernel_scope.
Delimit Scope kernel_scope with kernel.
Notation "x <- m ;; k" := (bind m (fun x => k))
  (at level 100, m at next level, k at level 200, right associativity) : kernel_scope.
Notation "m ;; k" := (bind m (fun _ => k))
  (at level 100, k at level 200, right associativity) : kernel_scope.
#[global] Open Scope kernel_scope.

(** One monadic step whose result is known by a hypothesis or lemma. *)
Tactic Notation "mok" uconstr(H) := rewrite (bind_ok _ _ _ _ _ H).
Ltac mred :=
  repeat (first [rewrite bind_gets | rewrite bind_modify | rewrite bind_ret]; cbn beta).

(** Integer operations stay folded under [cbn]. *)
#[global] Arguments Z.land : simpl never.
#[global] Arguments Z.lor : simpl never.
#[global] Arguments Z.lxor : simpl never.
#[global] Arguments Z.ldiff : simpl never.
#[global] Arguments Z.testbit : simpl never.
#[global] Arguments Z.shiftl : simpl never.
#[global] Arguments Z.shiftr : simpl never.
#[global] Arguments Z.add : simpl never.
#[global] Arguments Z.sub : simpl never.
#[global] Arguments Z.mul : simpl never.
#[global] Arguments Z.pow : simpl never.
#[global] Arguments Z.div : simpl never.
#[global] Arguments Z.modulo : simpl never.
#[global] Arguments Z.opp : simpl never.
#[global] Arguments Z.of_nat : simpl never.
#[global] Arguments Z.to_nat : simpl never.

(** ** Machine integers

    C integers are [Z] values kept at their width: [uint] in [0, 2^32), [int]
    in [-2^31, 2^31), and so on for the narrower types. *)

Definition u8 (z : Z) : Z := z mod 2 ^ 8.
Definition u16 (z : Z) : Z := z mod 2 ^ 16.
Definition u32 (z : Z) : Z := z mod 2 ^ 32.
Definition s8 (z : Z) : Z := (z + 2 ^ 7) mod 2 ^ 8 - 2 ^ 7.
Definition s16 (z : Z) : Z := (z + 2 ^ 15) mod 2 ^ 16 - 2 ^ 15.
Definition s32 (z : Z) : Z := (z + 2 ^ 31) mod 2 ^ 32 - 2 ^ 31.

Lemma u32_range z : 0 <= u32 z < 2 ^ 32.
Proof. apply Z.mod_pos_bound. lia. Qed.

Lemma u32_small z : 0 <= z < 2 ^ 32 -> u32 z = z.
Proof. apply Z.mod_small. Qed.

Lemma u32_idemp z : u32 (u32 z) = u32 z.
Proof. apply u32_small, u32_range. Qed.

Lemma u32_add_l a b : u32 (u32 a + b) = u32 (a + b).
Proof. unfold u32. apply Zplus_mod_idemp_l. Qed.

Lemma u32_add_r a b : u32 (a + u32 b) = u32 (a + b).
Proof. unfold u32. apply Zplus_mod_idemp_r. Qed.

Lemma u8_range z : 0 <= u8 z < 256.
Proof. apply Z.mod_pos_bound. lia. Qed.

Lemma u8_small z : 0 <= z < 256 -> u8 z = z.
Proof. apply Z.mod_small. Qed.

Lemma s32_range z : - 2 ^ 31 <= s32 z < 2 ^ 31.
Proof. unfold s32. pose proof (Z.mod_pos_bound (z + 2 ^ 31) (2 ^ 32)). lia. Qed.

Lemma s32_small z : - 2 ^ 31 <= z < 2 ^ 31 -> s32 z = z.
Proof. intros H. unfold s32. rewrite Z.mod_small; lia. Qed.

Lemma s32_u32 z : s32 (u32 z) = s32 z.
Proof. unfold s32, u32. now rewrite Zplus_mod_idemp_l. Qed.

Lemma u32_s32 z : u32 (s32 z) = u32 z.
Proof.
  unfold s32, u32. rewrite Zminus_mod_idemp_l. f_equal. lia.
Qed.

(** The bytes of a C string literal. *)
Definition str (s : string) : list Z :=
  (fun a => Z.of_N (Ascii.N_of_ascii a)) <$> String.list_ascii_of_string s.

(** ** Flag words

    [has f m] is the C test [(f & m) != 0].  Every mask the kernel tests is a
    single bit, so the tests reduce to [Z.testbit]. *)

Definition has (f m : Z) : bool := negb (Z.land f m =? 0).

Lemma has_pow2 f k : 0 <= k -> has f (2 ^ k) = Z.testbit f k.
Proof.
  intros Hk. unfold has. destruct (Z.testbit f k) eqn:E.
  - apply negb_true_iff, Z.eqb_neq. intros H0.
    assert (Z.testbit (Z.land f (2 ^ k)) k = false) as Hb
      by (rewrite H0; apply Z.bits_0).
    rewrite Z.land_spec, Z.pow2_bits_true, E in Hb by lia. discriminate.
  - apply negb_false_iff, Z.eqb_eq, Z.bits_inj'. intros n Hn.
    rewrite Z.land_spec, Z.bits_0.
    destruct (Z.eq_dec n k) as [->|Hne]; [now rewrite E|].
    rewrite Z.pow2_bits_false by lia. apply andb_false_r.
Qed.

(** Bitwise goals: reduce to a statement about one bit. *)
Ltac bitwise n Hn := apply Z.bits_inj'; intros n Hn.

#[global] Arguments u8 : simpl never.
#[global] Arguments u16 : simpl never.
#[global] Arguments u32 : simpl never.
#[global] Arguments s8 : simpl never.
#[global] Arguments s16 : simpl never.
#[global] Arguments s32 : simpl never.
#[global] Arguments has : simpl never.
