(* ===== verification/State.v ===== *)
(** * Kernel data structures and constants

    The C headers (param.h, memlayout.h, mmu.h, proc.h, spinlock.h, buf.h,
    file.h, fs.h, x86.h) and the static variables of the kernel's translation
    units, as one record [kernel].  Arrays of structures are lists; a pointer
    into such an array is the index of the element, and the null pointer is
    [None].  Pointers to pages obtained from [kalloc] are kernel virtual
    addresses (type [Z], null is 0). *)

From S2P Require Import Prelude.

(** ** Constants *)

(** param.h *)
Definition NPROC : Z := 64.
Definition KSTACKSIZE : Z := 4096.
Definition NCPU : Z := 8.
Definition NOFILE : Z := 16.
Definition NFILE : Z := 100.
Definition NINODE : Z := 50.
Definition NDEV : Z := 10.
Definition ROOTDEV : Z := 1.
Definition MAXARG : Z := 32.
Definition MAXOPBLOCKS : Z := 10.
Definition LOGSIZE : Z := MAXOPBLOCKS * 3.
Definition NBUF : Z := MAXOPBLOCKS * 3.
Definition FSSIZE : Z := 1000.

(** memlayout.h *)
Definition EXTMEM : Z := 0x100000.
Definition PHYSTOP : Z := 0xE000000.
Definition DEVSPACE : Z := 0xFE000000.
Definition KERNBASE : Z := 0x80000000.
Definition KERNLINK : Z := KERNBASE + EXTMEM.
Definition V2P (a : Z) : Z := u32 (a - KERNBASE).
Definition P2V (a : Z) : Z := u32 (a + KERNBASE).

(** mmu.h *)
Definition FL_IF : Z := 0x200.
Definition PGSIZE : Z := 4096.
Definition NPDENTRIES : Z := 1024.
Definition NPTENTRIES : Z := 1024.

(** fs.h *)
Definition ROOTINO : Z := 1.
Definition BSIZE : Z := 512.
Definition NDIRECT : Z := 12.
Definition NINDIRECT : Z := BSIZE / 4.
Definition MAXFILE : Z := NDIRECT + NINDIRECT.
Definition DIRSIZ : Z := 14.

(** buf.h *)
Definition B_BUSY : Z := 0x1.
Definition B_VALID : Z := 0x2.
Definition B_DIRTY : Z := 0x4.

(** file.h *)
Definition I_BUSY : Z := 0x1.
Definition I_VALID : Z := 0x2.

(** The constants stay folded under [cbn]. *)
#[global] Arguments NPROC : simpl never.
#[global] Arguments KSTACKSIZE : simpl never.
#[global] Arguments NCPU : simpl never.
#[global] Arguments NOFILE : simpl never.
#[global] Arguments NFILE : simpl never.
#[global] Arguments NINODE : simpl never.
#[global] Arguments NDEV : simpl never.
#[global] Arguments ROOTDEV : simpl never.
#[global] Arguments MAXARG : simpl never.
#[global] Arguments MAXOPBLOCKS : simpl never.
#[global] Arguments LOGSIZE : simpl never.
#[global] Arguments NBUF : simpl never.
#[global] Arguments FSSIZE : simpl never.
#[global] Arguments EXTMEM : simpl never.
#[global] Arguments PHYSTOP : simpl never.
#[global] Arguments DEVSPACE : simpl never.
#[global] Arguments KERNBASE : simpl never.
#[global] Arguments KERNLINK : simpl never.
#[global] Arguments FL_IF : simpl never.
#[global] Arguments PGSIZE : simpl never.
#[global] Arguments NPDENTRIES : simpl never.
#[global] Arguments NPTENTRIES : simpl never.
#[global] Arguments ROOTINO : simpl never.
#[global] Arguments BSIZE : simpl never.
#[global] Arguments NDIRECT : simpl never.
#[global] Arguments NINDIRECT : simpl never.
#[global] Arguments MAXFILE : simpl never.
#[global] Arguments DIRSIZ : simpl never.
#[global] Arguments B_BUSY : simpl never.
#[global] Arguments B_VALID : simpl never.
#[global] Arguments B_DIRTY : simpl never.
#[global] Arguments I_BUSY : simpl never.
#[global] Arguments I_VALID : simpl never.
#[global] Arguments V2P a : simpl never.
#[global] Arguments P2V a : simpl never.

(** ** Locks and channels *)

(** The spin locks of the kernel, by the variable that holds them. *)
Inductive lockid : Type :=
| Lptable | Lkmem | Lbcache | Lidelock | Llog | Licache | Lftable | Lcons
| Ltickslock | Lpipe (p : Z).

#[global] Instance lockid_eq_dec : EqDecision lockid.
Proof. solve_decision. Defined.

Definition lockid_enc (l : lockid) : Z + Z :=
  match l with
  | Lptable => inl 0 | Lkmem => inl 1 | Lbcache => inl 2 | Lidelock => inl 3
  | Llog => inl 4 | Licache => inl 5 | Lftable => inl 6 | Lcons => inl 7
  | Ltickslock => inl 8 | Lpipe p => inr p
  end.

Definition lockid_dec (z : Z + Z) : option lockid :=
  match z with
  | inl 0 => Some Lptable | inl 1 => Some Lkmem | inl 2 => Some Lbcache
  | inl 3 => Some Lidelock | inl 4 => Some Llog | inl 5 => Some Licache
  | inl 6 => Some Lftable | inl 7 => Some Lcons | inl 8 => Some Ltickslock
  | inl _ => None | inr p => Some (Lpipe p)
  end.

#[global] Instance lockid_countable : Countable lockid.
Proof. apply (inj_countable lockid_enc lockid_dec). now intros []. Defined.

(** Sleep channels: the addresses the kernel sleeps on. *)
Inductive chan : Type :=
| CNull | CProc (p : nat) | CLog | CBuf (b : nat) | CInode (i : nat)
| CPipeR (p : Z) | CPipeW (p : Z) | CTicks | CInputR.

#[global] Instance chan_eq_dec : EqDecision chan.
Proof. solve_decision. Defined.

(** Why a call cannot go on: it switched to the scheduler in [sched], it is the
    scheduler and switched to process [p], it
    spins in [acquire] on a lock that another CPU holds, or it waits in
    [startothers] for CPU [c] to come up. *)
Inductive waiting : Type :=
| WSwtch | WRun (p : nat) | WSpin (l : lockid) | WStarted (c : Z).

(** ** Structures *)

(** [struct spinlock] (spinlock.h); [pcs] is debugging output only. *)
Record spinlock : Type := mkSpinlock {
  lname : string;
  locked : Z;
  lcpu : option nat
}.

(** [struct trapframe] (x86.h), without its padding. *)
Record trapframe : Type := mkTrapframe {
  tf_edi : Z;
  tf_esi : Z;
  tf_ebp : Z;
  tf_oesp : Z;
  tf_ebx : Z;
  tf_edx : Z;
  tf_ecx : Z;
  tf_eax : Z;
  tf_gs : Z;
  tf_fs : Z;
  tf_es : Z;
  tf_ds : Z;
  tf_trapno : Z;
  tf_err : Z;
  tf_eip : Z;
  tf_cs : Z;
  tf_eflags : Z;
  tf_esp : Z;
  tf_ss : Z
}.

(** [struct context] (proc.h). *)
Record context : Type := mkContext {
  c_edi : Z;
  c_esi : Z;
  c_ebx : Z;
  c_ebp : Z;
  c_eip : Z
}.

(** [enum procstate] (proc.h). *)
Inductive procstate : Type :=
| UNUSED | EMBRYO | SLEEPING | RUNNABLE | RUNNING | ZOMBIE.

#[global] Instance procstate_eq_dec : EqDecision procstate.
Proof. solve_decision. Defined.

(** [struct proc] (proc.h).  The trap frame and the context live on the kernel
    stack; the record holds what the pointers refer to. *)
Record proc : Type := mkProc {
  p_sz : Z;
  p_pgdir : Z;
  p_kstack : Z;
  p_state : procstate;
  p_pid : Z;
  p_parent : option nat;
  p_tf : trapframe;
  p_context : context;
  p_chan : chan;
  p_killed : Z;
  p_ofile : list (option nat);
  p_cwd : option nat;
  p_name : list Z;
  p_priority : Z;
  p_timecpu : Z
}.

(** [struct segdesc] (mmu.h). *)
Record segdesc : Type := mkSegdesc {
  lim_15_0 : Z;
  base_15_0 : Z;
  base_23_16 : Z;
  sd_type : Z;
  sd_s : Z;
  sd_dpl : Z;
  sd_p : Z;
  lim_19_16 : Z;
  sd_avl : Z;
  sd_rsv1 : Z;
  sd_db : Z;
  sd_g : Z;
  base_31_24 : Z
}.

(** [struct cpu] (proc.h), the state of the running CPU: the fields of its task
    state segment that the kernel sets are [cpu_esp0], [cpu_ss0] and
    [cpu_iomb]; its registers are [cpu_eflags], [cpu_cr3], [cpu_gs] and
    [cpu_tr]. *)
Record cpu : Type := mkCpu {
  cpu_id : nat;
  cpu_ncli : Z;
  cpu_intena : Z;
  cpu_eflags : Z;
  cpu_cr3 : Z;
  cpu_esp0 : Z;
  cpu_ss0 : Z;
  cpu_iomb : Z;
  cpu_tr : Z;
  cpu_gs : Z;
  cpu_gdt : list segdesc;
  cpu_proc : option nat
}.

(** [struct file] (file.h). *)
Inductive filetype : Type := FD_NONE | FD_PIPE | FD_INODE.

#[global] Instance filetype_eq_dec : EqDecision filetype.
Proof. solve_decision. Defined.

Record file : Type := mkFile {
  f_type : filetype;
  f_ref : Z;
  f_readable : Z;
  f_writable : Z;
  f_pipe : Z;
  f_ip : option nat;
  f_off : Z
}.

(** [struct inode] (file.h): the in-memory copy of an inode. *)
Record inode : Type := mkInode {
  i_dev : Z;
  i_inum : Z;
  i_ref : Z;
  i_flags : Z;
  i_type : Z;
  i_major : Z;
  i_minor : Z;
  i_nlink : Z;
  i_size : Z;
  i_addrs : list Z
}.

(** The entries of [devsw] (file.h): the read and write functions of a device.
    consoleinit installs the only pair there is, [consoleread] and [consolewrite]. *)
Inductive device : Type := ConsoleDevice.

(** [struct superblock] (fs.h). *)
Record superblock : Type := mkSuperblock {
  sb_size : Z;
  sb_nblocks : Z;
  sb_ninodes : Z;
  sb_nlog : Z;
  sb_logstart : Z;
  sb_inodestart : Z;
  sb_bmapstart : Z
}.

(** [struct buf] (buf.h).  [b_prev] and [b_next] link the LRU list; the array of
    the model has [NBUF] buffers followed by the list head [bcache.head]. *)
Record buf : Type := mkBuf {
  b_flags : Z;
  b_dev : Z;
  b_blockno : Z;
  b_prev : nat;
  b_next : nat;
  b_data : list Z
}.

(** [struct log] with its [struct logheader] (log.c). *)
Record log_t : Type := mkLog {
  lg_start : Z;
  lg_size : Z;
  lg_outstanding : Z;
  lg_committing : Z;
  lg_dev : Z;
  lh_n : Z;
  lh_block : list Z
}.

(** [struct pipe] (pipe.c). *)
Record pipe : Type := mkPipe {
  pi_data : list Z;
  pi_nread : Z;
  pi_nwrite : Z;
  pi_readopen : Z;
  pi_writeopen : Z
}.

(** The console's input buffer (console.c). *)
Record input_t : Type := mkInput {
  in_buf : list Z;
  in_r : Z;
  in_w : Z;
  in_e : Z
}.

(** What the linker provides (kernel.ld and the object files): the symbols [end]
    and [data], the addresses of [trapret], [forkret] and of the running CPU's
    [cpu] and [ts] fields, and the bytes of initcode.  The build fixes them; the model takes them as given. *)
Record linkinfo : Type := mkLinkinfo {
  sym_end : Z;
  sym_data : Z;
  sym_trapret : Z;
  sym_forkret : Z;
  sym_cpu : Z;
  sym_ts : Z;
  sym_initcode : list Z
}.

(** The static variables of the kernel.  [mem] is physical memory as the kernel
    sees it through its linear map: byte by kernel virtual address.  [memdisk]
    is the disk, block by block, and [diskwrites] the history of the block
    writes made to it (which no code reads).  [conslog] is the byte stream the console has
    sent to the serial port, [k_crt] and [k_crtpos] are the CGA text memory and
    its cursor register.  [k_devsw] is the device switch and [k_first] the static
    flag of [forkret].  [k_ports] is the history of the bytes written to I/O ports
    by the interrupt and timer setup, [k_ioapic] the registers of the I/O APIC,
    [k_lapic] those of the local APIC ([None]: the pointer [lapic] is null). *)
Record kernel : Type := mkKernel {
  k_link : linkinfo;
  k_cpu : cpu;
  k_locks : gmap lockid spinlock;
  k_mem : gmap Z Z;
  kmem_use_lock : Z;
  kmem_freelist : Z;
  k_kpgdir : Z;
  ptable : list proc;
  nextpid : Z;
  initproc : option nat;
  ftable : list file;
  icache : list inode;
  k_sb : superblock;
  bcache : list buf;
  memdisk : list (list Z);
  diskwrites : list (Z * list Z);
  k_log : log_t;
  k_pipes : gmap Z pipe;
  k_input : input_t;
  cons_locking : Z;
  conslog : list Z;
  k_crt : list Z;
  k_crtpos : Z;
  ticks : Z;
  k_count : Z;
  prioritybump : Z;
  k_devsw : list (option device);
  k_first : Z;
  k_ports : list (Z * Z);
  k_irqmask : Z;
  k_ioapic : gmap Z Z;
  k_lapic : option (gmap Z Z);
  k_ismp : Z
}.

(** ** Field updates *)

Definition set_tf_edi (v : Z) (t : trapframe) : trapframe :=
  mkTrapframe v (t.(tf_esi)) (t.(tf_ebp)) (t.(tf_oesp)) (t.(tf_ebx)) (t.(tf_edx)) (t.(tf_ecx)) (t.(tf_eax)) (t.(tf_gs)) (t.(tf_fs)) (t.(tf_es)) (t.(tf_ds)) (t.(tf_trapno)) (t.(tf_err)) (t.(tf_eip)) (t.(tf_cs)) (t.(tf_eflags)) (t.(tf_esp)) (t.(tf_ss)).
Definition set_tf_esi (v : Z) (t : trapframe) : trapframe :=
  mkTrapframe (t.(tf_edi)) v (t.(tf_ebp)) (t.(tf_oesp)) (t.(tf_ebx)) (t.(tf_edx)) (t.(tf_ecx)) (t.(tf_eax)) (t.(tf_gs)) (t.(tf_fs)) (t.(tf_es)) (t.(tf_ds)) (t.(tf_trapno)) (t.(tf_err)) (t.(tf_eip)) (t.(tf_cs)) (t.(tf_eflags)) (t.(tf_esp)) (t.(tf_ss)).
Definition set_tf_ebp (v : Z) (t : trapframe) : trapframe :=
  mkTrapframe (t.(tf_edi)) (t.(tf_esi)) v (t.(tf_oesp)) (t.(tf_ebx)) (t.(tf_edx)) (t.(tf_ecx)) (t.(tf_eax)) (t.(tf_gs)) (t.(tf_fs)) (t.(tf_es)) (t.(tf_ds)) (t.(tf_trapno)) (t.(tf_err)) (t.(tf_eip)) (t.(tf_cs)) (t.(tf_eflags)) (t.(tf_esp)) (t.(tf_ss)).
Definition set_tf_oesp (v : Z) (t : trapframe) : trapframe :=
  mkTrapframe (t.(tf_edi)) (t.(tf_esi)) (t.(tf_ebp)) v (t.(tf_ebx)) (t.(tf_edx)) (t.(tf_ecx)) (t.(tf_eax)) (t.(tf_gs)) (t.(tf_fs)) (t.(tf_es)) (t.(tf_ds)) (t.(tf_trapno)) (t.(tf_err)) (t.(tf_eip)) (t.(tf_cs)) (t.(tf_eflags)) (t.(tf_esp)) (t.(tf_ss)).
Definition set_tf_ebx (v : Z) (t : trapframe) : trapframe :=
  mkTrapframe (t.(tf_edi)) (t.(tf_esi)) (t.(tf_ebp)) (t.(tf_oesp)) v (t.(tf_edx)) (t.(tf_ecx)) (t.(tf_eax)) (t.(tf_gs)) (t.(tf_fs)) (t.(tf_es)) (t.(tf_ds)) (t.(tf_trapno)) (t.(tf_err)) (t.(tf_eip)) (t.(tf_cs)) (t.(tf_eflags)) (t.(tf_esp)) (t.(tf_ss)).
Definition set_tf_edx (v : Z) (t : trapframe) : trapframe :=
  mkTrapframe (t.(tf_edi)) (t.(tf_esi)) (t.(tf_ebp)) (t.(tf_oesp)) (t.(tf_ebx)) v (t.(tf_ecx)) (t.(tf_eax)) (t.(tf_gs)) (t.(tf_fs)) (t.(tf_es)) (t.(tf_ds)) (t.(tf_trapno)) (t.(tf_err)) (t.(tf_eip)) (t.(tf_cs)) (t.(tf_eflags)) (t.(tf_esp)) (t.(tf_ss)).
Definition set_tf_ecx (v : Z) (t : trapframe) : trapframe :=
  mkTrapframe (t.(tf_edi)) (t.(tf_esi)) (t.(tf_ebp)) (t.(tf_oesp)) (t.(tf_ebx)) (t.(tf_edx)) v (t.(tf_eax)) (t.(tf_gs)) (t.(tf_fs)) (t.(tf_es)) (t.(tf_ds)) (t.(tf_trapno)) (t.(tf_err)) (t.(tf_eip)) (t.(tf_cs)) (t.(tf_eflags)) (t.(tf_esp)) (t.(tf_ss)).
Definition set_tf_eax (v : Z) (t : trapframe) : trapframe :=
  mkTrapframe (t.(tf_edi)) (t.(tf_esi)) (t.(tf_ebp)) (t.(tf_oesp)) (t.(tf_ebx)) (t.(tf_edx)) (t.(tf_ecx)) v (t.(tf_gs)) (t.(tf_fs)) (t.(tf_es)) (t.(tf_ds)) (t.(tf_trapno)) (t.(tf_err)) (t.(tf_eip)) (t.(tf_cs)) (t.(tf_eflags)) (t.(tf_esp)) (t.(tf_ss)).
Definition set_tf_gs (v : Z) (t : trapframe) : trapframe :=
  mkTrapframe (t.(tf_edi)) (t.(tf_esi)) (t.(tf_ebp)) (t.(tf_oesp)) (t.(tf_ebx)) (t.(tf_edx)) (t.(tf_ecx)) (t.(tf_eax)) v (t.(tf_fs)) (t.(tf_es)) (t.(tf_ds)) (t.(tf_trapno)) (t.(tf_err)) (t.(tf_eip)) (t.(tf_cs)) (t.(tf_eflags)) (t.(tf_esp)) (t.(tf_ss)).
Definition set_tf_fs (v : Z) (t : trapframe) : trapframe :=
  mkTrapframe (t.(tf_edi)) (t.(tf_esi)) (t.(tf_ebp)) (t.(tf_oesp)) (t.(tf_ebx)) (t.(tf_edx)) (t.(tf_ecx)) (t.(tf_eax)) (t.(tf_gs)) v (t.(tf_es)) (t.(tf_ds)) (t.(tf_trapno)) (t.(tf_err)) (t.(tf_eip)) (t.(tf_cs)) (t.(tf_eflags)) (t.(tf_esp)) (t.(tf_ss)).
Definition set_tf_es (v : Z) (t : trapframe) : trapframe :=
  mkTrapframe (t.(tf_edi)) (t.(tf_esi)) (t.(tf_ebp)) (t.(tf_oesp)) (t.(tf_ebx)) (t.(tf_edx)) (t.(tf_ecx)) (t.(tf_eax)) (t.(tf_gs)) (t.(tf_fs)) v (t.(tf_ds)) (t.(tf_trapno)) (t.(tf_err)) (t.(tf_eip)) (t.(tf_cs)) (t.(tf_eflags)) (t.(tf_esp)) (t.(tf_ss)).
Definition set_tf_ds (v : Z) (t : trapframe) : trapframe :=
  mkTrapframe (t.(tf_edi)) (t.(tf_esi)) (t.(tf_ebp)) (t.(tf_oesp)) (t.(tf_ebx)) (t.(tf_edx)) (t.(tf_ecx)) (t.(tf_eax)) (t.(tf_gs)) (t.(tf_fs)) (t.(tf_es)) v (t.(tf_trapno)) (t.(tf_err)) (t.(tf_eip)) (t.(tf_cs)) (t.(tf_eflags)) (t.(tf_esp)) (t.(tf_ss)).
Definition set_tf_trapno (v : Z) (t : trapframe) : trapframe :=
  mkTrapframe (t.(tf_edi)) (t.(tf_esi)) (t.(tf_ebp)) (t.(tf_oesp)) (t.(tf_ebx)) (t.(tf_edx)) (t.(tf_ecx)) (t.(tf_eax)) (t.(tf_gs)) (t.(tf_fs)) (t.(tf_es)) (t.(tf_ds)) v (t.(tf_err)) (t.(tf_eip)) (t.(tf_cs)) (t.(tf_eflags)) (t.(tf_esp)) (t.(tf_ss)).
Definition set_tf_err (v : Z) (t : trapframe) : trapframe :=
  mkTrapframe (t.(tf_edi)) (t.(tf_esi)) (t.(tf_ebp)) (t.(tf_oesp)) (t.(tf_ebx)) (t.(tf_edx)) (t.(tf_ecx)) (t.(tf_eax)) (t.(tf_gs)) (t.(tf_fs)) (t.(tf_es)) (t.(tf_ds)) (t.(tf_trapno)) v (t.(tf_eip)) (t.(tf_cs)) (t.(tf_eflags)) (t.(tf_esp)) (t.(tf_ss)).
Definition set_tf_eip (v : Z) (t : trapframe) : trapframe :=
  mkTrapframe (t.(tf_edi)) (t.(tf_esi)) (t.(tf_ebp)) (t.(tf_oesp)) (t.(tf_ebx)) (t.(tf_edx)) (t.(tf_ecx)) (t.(tf_eax)) (t.(tf_gs)) (t.(tf_fs)) (t.(tf_es)) (t.(tf_ds)) (t.(tf_trapno)) (t.(tf_err)) v (t.(tf_cs)) (t.(tf_eflags)) (t.(tf_esp)) (t.(tf_ss)).
Definition set_tf_cs (v : Z) (t : trapframe) : trapframe :=
  mkTrapframe (t.(tf_edi)) (t.(tf_esi)) (t.(tf_ebp)) (t.(tf_oesp)) (t.(tf_ebx)) (t.(tf_edx)) (t.(tf_ecx)) (t.(tf_eax)) (t.(tf_gs)) (t.(tf_fs)) (t.(tf_es)) (t.(tf_ds)) (t.(tf_trapno)) (t.(tf_err)) (t.(tf_eip)) v (t.(tf_eflags)) (t.(tf_esp)) (t.(tf_ss)).
Definition set_tf_eflags (v : Z) (t : trapframe) : trapframe :=
  mkTrapframe (t.(tf_edi)) (t.(tf_esi)) (t.(tf_ebp)) (t.(tf_oesp)) (t.(tf_ebx)) (t.(tf_edx)) (t.(tf_ecx)) (t.(tf_eax)) (t.(tf_gs)) (t.(tf_fs)) (t.(tf_es)) (t.(tf_ds)) (t.(tf_trapno)) (t.(tf_err)) (t.(tf_eip)) (t.(tf_cs)) v (t.(tf_esp)) (t.(tf_ss)).
Definition set_tf_esp (v : Z) (t : trapframe) : trapframe :=
  mkTrapframe (t.(tf_edi)) (t.(tf_esi)) (t.(tf_ebp)) (t.(tf_oesp)) (t.(tf_ebx)) (t.(tf_edx)) (t.(tf_ecx)) (t.(tf_eax)) (t.(tf_gs)) (t.(tf_fs)) (t.(tf_es)) (t.(tf_ds)) (t.(tf_trapno)) (t.(tf_err)) (t.(tf_eip)) (t.(tf_cs)) (t.(tf_eflags)) v (t.(tf_ss)).
Definition set_tf_ss (v : Z) (t : trapframe) : trapframe :=
  mkTrapframe (t.(tf_edi)) (t.(tf_esi)) (t.(tf_ebp)) (t.(tf_oesp)) (t.(tf_ebx)) (t.(tf_edx)) (t.(tf_ecx)) (t.(tf_eax)) (t.(tf_gs)) (t.(tf_fs)) (t.(tf_es)) (t.(tf_ds)) (t.(tf_trapno)) (t.(tf_err)) (t.(tf_eip)) (t.(tf_cs)) (t.(tf_eflags)) (t.(tf_esp)) v.

Definition set_c_edi (v : Z) (c : context) : context :=
  mkContext v (c.(c_esi)) (c.(c_ebx)) (c.(c_ebp)) (c.(c_eip)).
Definition set_c_esi (v : Z) (c : context) : context :=
  mkContext (c.(c_edi)) v (c.(c_ebx)) (c.(c_ebp)) (c.(c_eip)).
Definition set_c_ebx (v : Z) (c : context) : context :=
  mkContext (c.(c_edi)) (c.(c_esi)) v (c.(c_ebp)) (c.(c_eip)).
Definition set_c_ebp (v : Z) (c : context) : context :=
  mkContext (c.(c_edi)) (c.(c_esi)) (c.(c_ebx)) v (c.(c_eip)).
Definition set_c_eip (v : Z) (c : context) : context :=
  mkContext (c.(c_edi)) (c.(c_esi)) (c.(c_ebx)) (c.(c_ebp)) v.

Definition set_p_sz (v : Z) (p : proc) : proc :=
  mkProc v (p.(p_pgdir)) (p.(p_kstack)) (p.(p_state)) (p.(p_pid)) (p.(p_parent)) (p.(p_tf)) (p.(p_context)) (p.(p_chan)) (p.(p_killed)) (p.(p_ofile)) (p.(p_cwd)) (p.(p_name)) (p.(p_priority)) (p.(p_timecpu)).
Definition set_p_pgdir (v : Z) (p : proc) : proc :=
  mkProc (p.(p_sz)) v (p.(p_kstack)) (p.(p_state)) (p.(p_pid)) (p.(p_parent)) (p.(p_tf)) (p.(p_context)) (p.(p_chan)) (p.(p_killed)) (p.(p_ofile)) (p.(p_cwd)) (p.(p_name)) (p.(p_priority)) (p.(p_timecpu)).
Definition set_p_kstack (v : Z) (p : proc) : proc :=
  mkProc (p.(p_sz)) (p.(p_pgdir)) v (p.(p_state)) (p.(p_pid)) (p.(p_parent)) (p.(p_tf)) (p.(p_context)) (p.(p_chan)) (p.(p_killed)) (p.(p_ofile)) (p.(p_cwd)) (p.(p_name)) (p.(p_priority)) (p.(p_timecpu)).
Definition set_p_state (v : procstate) (p : proc) : proc :=
  mkProc (p.(p_sz)) (p.(p_pgdir)) (p.(p_kstack)) v (p.(p_pid)) (p.(p_parent)) (p.(p_tf)) (p.(p_context)) (p.(p_chan)) (p.(p_killed)) (p.(p_ofile)) (p.(p_cwd)) (p.(p_name)) (p.(p_priority)) (p.(p_timecpu)).
Definition set_p_pid (v : Z) (p : proc) : proc :=
  mkProc (p.(p_sz)) (p.(p_pgdir)) (p.(p_kstack)) (p.(p_state)) v (p.(p_parent)) (p.(p_tf)) (p.(p_context)) (p.(p_chan)) (p.(p_killed)) (p.(p_ofile)) (p.(p_cwd)) (p.(p_name)) (p.(p_priority)) (p.(p_timecpu)).
Definition set_p_parent (v : option nat) (p : proc) : proc :=
  mkProc (p.(p_sz)) (p.(p_pgdir)) (p.(p_kstack)) (p.(p_state)) (p.(p_pid)) v (p.(p_tf)) (p.(p_context)) (p.(p_chan)) (p.(p_killed)) (p.(p_ofile)) (p.(p_cwd)) (p.(p_name)) (p.(p_priority)) (p.(p_timecpu)).
Definition set_p_tf (v : trapframe) (p : proc) : proc :=
  mkProc (p.(p_sz)) (p.(p_pgdir)) (p.(p_kstack)) (p.(p_state)) (p.(p_pid)) (p.(p_parent)) v (p.(p_context)) (p.(p_chan)) (p.(p_killed)) (p.(p_ofile)) (p.(p_cwd)) (p.(p_name)) (p.(p_priority)) (p.(p_timecpu)).
Definition set_p_context (v : context) (p : proc) : proc :=
  mkProc (p.(p_sz)) (p.(p_pgdir)) (p.(p_kstack)) (p.(p_state)) (p.(p_pid)) (p.(p_parent)) (p.(p_tf)) v (p.(p_chan)) (p.(p_killed)) (p.(p_ofile)) (p.(p_cwd)) (p.(p_name)) (p.(p_priority)) (p.(p_timecpu)).
Definition set_p_chan (v : chan) (p : proc) : proc :=
  mkProc (p.(p_sz)) (p.(p_pgdir)) (p.(p_kstack)) (p.(p_state)) (p.(p_pid)) (p.(p_parent)) (p.(p_tf)) (p.(p_context)) v (p.(p_killed)) (p.(p_ofile)) (p.(p_cwd)) (p.(p_name)) (p.(p_priority)) (p.(p_timecpu)).
Definition set_p_killed (v : Z) (p : proc) : proc :=
  mkProc (p.(p_sz)) (p.(p_pgdir)) (p.(p_kstack)) (p.(p_state)) (p.(p_pid)) (p.(p_parent)) (p.(p_tf)) (p.(p_context)) (p.(p_chan)) v (p.(p_ofile)) (p.(p_cwd)) (p.(p_name)) (p.(p_priority)) (p.(p_timecpu)).
Definition set_p_ofile (v : list (option nat)) (p : proc) : proc :=
  mkProc (p.(p_sz)) (p.(p_pgdir)) (p.(p_kstack)) (p.(p_state)) (p.(p_pid)) (p.(p_parent)) (p.(p_tf)) (p.(p_context)) (p.(p_chan)) (p.(p_killed)) v (p.(p_cwd)) (p.(p_name)) (p.(p_priority)) (p.(p_timecpu)).
Definition set_p_cwd (v : option nat) (p : proc) : proc :=
  mkProc (p.(p_sz)) (p.(p_pgdir)) (p.(p_kstack)) (p.(p_state)) (p.(p_pid)) (p.(p_parent)) (p.(p_tf)) (p.(p_context)) (p.(p_chan)) (p.(p_killed)) (p.(p_ofile)) v (p.(p_name)) (p.(p_priority)) (p.(p_timecpu)).
Definition set_p_name (v : list Z) (p : proc) : proc :=
  mkProc (p.(p_sz)) (p.(p_pgdir)) (p.(p_kstack)) (p.(p_state)) (p.(p_pid)) (p.(p_parent)) (p.(p_tf)) (p.(p_context)) (p.(p_chan)) (p.(p_killed)) (p.(p_ofile)) (p.(p_cwd)) v (p.(p_priority)) (p.(p_timecpu)).
Definition set_p_priority (v : Z) (p : proc) : proc :=
  mkProc (p.(p_sz)) (p.(p_pgdir)) (p.(p_kstack)) (p.(p_state)) (p.(p_pid)) (p.(p_parent)) (p.(p_tf)) (p.(p_context)) (p.(p_chan)) (p.(p_killed)) (p.(p_ofile)) (p.(p_cwd)) (p.(p_name)) v (p.(p_timecpu)).
Definition set_p_timecpu (v : Z) (p : proc) : proc :=
  mkProc (p.(p_sz)) (p.(p_pgdir)) (p.(p_kstack)) (p.(p_state)) (p.(p_pid)) (p.(p_parent)) (p.(p_tf)) (p.(p_context)) (p.(p_chan)) (p.(p_killed)) (p.(p_ofile)) (p.(p_cwd)) (p.(p_name)) (p.(p_priority)) v.

Definition set_lim_15_0 (v : Z) (s : segdesc) : segdesc :=
  mkSegdesc v (s.(base_15_0)) (s.(base_23_16)) (s.(sd_type)) (s.(sd_s)) (s.(sd_dpl)) (s.(sd_p)) (s.(lim_19_16)) (s.(sd_avl)) (s.(sd_rsv1)) (s.(sd_db)) (s.(sd_g)) (s.(base_31_24)).
Definition set_base_15_0 (v : Z) (s : segdesc) : segdesc :=
  mkSegdesc (s.(lim_15_0)) v (s.(base_23_16)) (s.(sd_type)) (s.(sd_s)) (s.(sd_dpl)) (s.(sd_p)) (s.(lim_19_16)) (s.(sd_avl)) (s.(sd_rsv1)) (s.(sd_db)) (s.(sd_g)) (s.(base_31_24)).
Definition set_base_23_16 (v : Z) (s : segdesc) : segdesc :=
  mkSegdesc (s.(lim_15_0)) (s.(base_15_0)) v (s.(sd_type)) (s.(sd_s)) (s.(sd_dpl)) (s.(sd_p)) (s.(lim_19_16)) (s.(sd_avl)) (s.(sd_rsv1)) (s.(sd_db)) (s.(sd_g)) (s.(base_31_24)).
Definition set_sd_type (v : Z) (s : segdesc) : segdesc :=
  mkSegdesc (s.(lim_15_0)) (s.(base_15_0)) (s.(base_23_16)) v (s.(sd_s)) (s.(sd_dpl)) (s.(sd_p)) (s.(lim_19_16)) (s.(sd_avl)) (s.(sd_rsv1)) (s.(sd_db)) (s.(sd_g)) (s.(base_31_24)).
Definition set_sd_s (v : Z) (s : segdesc) : segdesc :=
  mkSegdesc (s.(lim_15_0)) (s.(base_15_0)) (s.(base_23_16)) (s.(sd_type)) v (s.(sd_dpl)) (s.(sd_p)) (s.(lim_19_16)) (s.(sd_avl)) (s.(sd_rsv1)) (s.(sd_db)) (s.(sd_g)) (s.(base_31_24)).
Definition set_sd_dpl (v : Z) (s : segdesc) : segdesc :=
  mkSegdesc (s.(lim_15_0)) (s.(base_15_0)) (s.(base_23_16)) (s.(sd_type)) (s.(sd_s)) v (s.(sd_p)) (s.(lim_19_16)) (s.(sd_avl)) (s.(sd_rsv1)) (s.(sd_db)) (s.(sd_g)) (s.(base_31_24)).
Definition set_sd_p (v : Z) (s : segdesc) : segdesc :=
  mkSegdesc (s.(lim_15_0)) (s.(base_15_0)) (s.(base_23_16)) (s.(sd_type)) (s.(sd_s)) (s.(sd_dpl)) v (s.(lim_19_16)) (s.(sd_avl)) (s.(sd_rsv1)) (s.(sd_db)) (s.(sd_g)) (s.(base_31_24)).
Definition set_lim_19_16 (v : Z) (s : segdesc) : segdesc :=
  mkSegdesc (s.(lim_15_0)) (s.(base_15_0)) (s.(base_23_16)) (s.(sd_type)) (s.(sd_s)) (s.(sd_dpl)) (s.(sd_p)) v (s.(sd_avl)) (s.(sd_rsv1)) (s.(sd_db)) (s.(sd_g)) (s.(base_31_24)).
Definition set_sd_avl (v : Z) (s : segdesc) : segdesc :=
  mkSegdesc (s.(lim_15_0)) (s.(base_15_0)) (s.(base_23_16)) (s.(sd_type)) (s.(sd_s)) (s.(sd_dpl)) (s.(sd_p)) (s.(lim_19_16)) v (s.(sd_rsv1)) (s.(sd_db)) (s.(sd_g)) (s.(base_31_24)).
Definition set_sd_rsv1 (v : Z) (s : segdesc) : segdesc :=
  mkSegdesc (s.(lim_15_0)) (s.(base_15_0)) (s.(base_23_16)) (s.(sd_type)) (s.(sd_s)) (s.(sd_dpl)) (s.(sd_p)) (s.(lim_19_16)) (s.(sd_avl)) v (s.(sd_db)) (s.(sd_g)) (s.(base_31_24)).
Definition set_sd_db (v : Z) (s : segdesc) : segdesc :=
  mkSegdesc (s.(lim_15_0)) (s.(base_15_0)) (s.(base_23_16)) (s.(sd_type)) (s.(sd_s)) (s.(sd_dpl)) (s.(sd_p)) (s.(lim_19_16)) (s.(sd_avl)) (s.(sd_rsv1)) v (s.(sd_g)) (s.(base_31_24)).
Definition set_sd_g (v : Z) (s : segdesc) : segdesc :=
  mkSegdesc (s.(lim_15_0)) (s.(base_15_0)) (s.(base_23_16)) (s.(sd_type)) (s.(sd_s)) (s.(sd_dpl)) (s.(sd_p)) (s.(lim_19_16)) (s.(sd_avl)) (s.(sd_rsv1)) (s.(sd_db)) v (s.(base_31_24)).
Definition set_base_31_24 (v : Z) (s : segdesc) : segdesc :=
  mkSegdesc (s.(lim_15_0)) (s.(base_15_0)) (s.(base_23_16)) (s.(sd_type)) (s.(sd_s)) (s.(sd_dpl)) (s.(sd_p)) (s.(lim_19_16)) (s.(sd_avl)) (s.(sd_rsv1)) (s.(sd_db)) (s.(sd_g)) v.

Definition set_cpu_id (v : nat) (c : cpu) : cpu :=
  mkCpu v (c.(cpu_ncli)) (c.(cpu_intena)) (c.(cpu_eflags)) (c.(cpu_cr3)) (c.(cpu_esp0)) (c.(cpu_ss0)) (c.(cpu_iomb)) (c.(cpu_tr)) (c.(cpu_gs)) (c.(cpu_gdt)) (c.(cpu_proc)).
Definition set_cpu_ncli (v : Z) (c : cpu) : cpu :=
  mkCpu (c.(cpu_id)) v (c.(cpu_intena)) (c.(cpu_eflags)) (c.(cpu_cr3)) (c.(cpu_esp0)) (c.(cpu_ss0)) (c.(cpu_iomb)) (c.(cpu_tr)) (c.(cpu_gs)) (c.(cpu_gdt)) (c.(cpu_proc)).
Definition set_cpu_intena (v : Z) (c : cpu) : cpu :=
  mkCpu (c.(cpu_id)) (c.(cpu_ncli)) v (c.(cpu_eflags)) (c.(cpu_cr3)) (c.(cpu_esp0)) (c.(cpu_ss0)) (c.(cpu_iomb)) (c.(cpu_tr)) (c.(cpu_gs)) (c.(cpu_gdt)) (c.(cpu_proc)).
Definition set_cpu_eflags (v : Z) (c : cpu) : cpu :=
  mkCpu (c.(cpu_id)) (c.(cpu_ncli)) (c.(cpu_intena)) v (c.(cpu_cr3)) (c.(cpu_esp0)) (c.(cpu_ss0)) (c.(cpu_iomb)) (c.(cpu_tr)) (c.(cpu_gs)) (c.(cpu_gdt)) (c.(cpu_proc)).
Definition set_cpu_cr3 (v : Z) (c : cpu) : cpu :=
  mkCpu (c.(cpu_id)) (c.(cpu_ncli)) (c.(cpu_intena)) (c.(cpu_eflags)) v (c.(cpu_esp0)) (c.(cpu_ss0)) (c.(cpu_iomb)) (c.(cpu_tr)) (c.(cpu_gs)) (c.(cpu_gdt)) (c.(cpu_proc)).
Definition set_cpu_esp0 (v : Z) (c : cpu) : cpu :=
  mkCpu (c.(cpu_id)) (c.(cpu_ncli)) (c.(cpu_intena)) (c.(cpu_eflags)) (c.(cpu_cr3)) v (c.(cpu_ss0)) (c.(cpu_iomb)) (c.(cpu_tr)) (c.(cpu_gs)) (c.(cpu_gdt)) (c.(cpu_proc)).
Definition set_cpu_ss0 (v : Z) (c : cpu) : cpu :=
  mkCpu (c.(cpu_id)) (c.(cpu_ncli)) (c.(cpu_intena)) (c.(cpu_eflags)) (c.(cpu_cr3)) (c.(cpu_esp0)) v (c.(cpu_iomb)) (c.(cpu_tr)) (c.(cpu_gs)) (c.(cpu_gdt)) (c.(cpu_proc)).
Definition set_cpu_iomb (v : Z) (c : cpu) : cpu :=
  mkCpu (c.(cpu_id)) (c.(cpu_ncli)) (c.(cpu_intena)) (c.(cpu_eflags)) (c.(cpu_cr3)) (c.(cpu_esp0)) (c.(cpu_ss0)) v (c.(cpu_tr)) (c.(cpu_gs)) (c.(cpu_gdt)) (c.(cpu_proc)).
Definition set_cpu_tr (v : Z) (c : cpu) : cpu :=
  mkCpu (c.(cpu_id)) (c.(cpu_ncli)) (c.(cpu_intena)) (c.(cpu_eflags)) (c.(cpu_cr3)) (c.(cpu_esp0)) (c.(cpu_ss0)) (c.(cpu_iomb)) v (c.(cpu_gs)) (c.(cpu_gdt)) (c.(cpu_proc)).
Definition set_cpu_gs (v : Z) (c : cpu) : cpu :=
  mkCpu (c.(cpu_id)) (c.(cpu_ncli)) (c.(cpu_intena)) (c.(cpu_eflags)) (c.(cpu_cr3)) (c.(cpu_esp0)) (c.(cpu_ss0)) (c.(cpu_iomb)) (c.(cpu_tr)) v (c.(cpu_gdt)) (c.(cpu_proc)).
Definition set_cpu_gdt (v : list segdesc) (c : cpu) : cpu :=
  mkCpu (c.(cpu_id)) (c.(cpu_ncli)) (c.(cpu_intena)) (c.(cpu_eflags)) (c.(cpu_cr3)) (c.(cpu_esp0)) (c.(cpu_ss0)) (c.(cpu_iomb)) (c.(cpu_tr)) (c.(cpu_gs)) v (c.(cpu_proc)).
Definition set_cpu_proc (v : option nat) (c : cpu) : cpu :=
  mkCpu (c.(cpu_id)) (c.(cpu_ncli)) (c.(cpu_intena)) (c.(cpu_eflags)) (c.(cpu_cr3)) (c.(cpu_esp0)) (c.(cpu_ss0)) (c.(cpu_iomb)) (c.(cpu_tr)) (c.(cpu_gs)) (c.(cpu_gdt)) v.

Definition set_f_type (v : filetype) (f : file) : file :=
  mkFile v (f.(f_ref)) (f.(f_readable)) (f.(f_writable)) (f.(f_pipe)) (f.(f_ip)) (f.(f_off)).
Definition set_f_ref (v : Z) (f : file) : file :=
  mkFile (f.(f_type)) v (f.(f_readable)) (f.(f_writable)) (f.(f_pipe)) (f.(f_ip)) (f.(f_off)).
Definition set_f_readable (v : Z) (f : file) : file :=
  mkFile (f.(f_type)) (f.(f_ref)) v (f.(f_writable)) (f.(f_pipe)) (f.(f_ip)) (f.(f_off)).
Definition set_f_writable (v : Z) (f : file) : file :=
  mkFile (f.(f_type)) (f.(f_ref)) (f.(f_readable)) v (f.(f_pipe)) (f.(f_ip)) (f.(f_off)).
Definition set_f_pipe (v : Z) (f : file) : file :=
  mkFile (f.(f_type)) (f.(f_ref)) (f.(f_readable)) (f.(f_writable)) v (f.(f_ip)) (f.(f_off)).
Definition set_f_ip (v : option nat) (f : file) : file :=
  mkFile (f.(f_type)) (f.(f_ref)) (f.(f_readable)) (f.(f_writable)) (f.(f_pipe)) v (f.(f_off)).
Definition set_f_off (v : Z) (f : file) : file :=
  mkFile (f.(f_type)) (f.(f_ref)) (f.(f_readable)) (f.(f_writable)) (f.(f_pipe)) (f.(f_ip)) v.

Definition set_i_dev (v : Z) (ip : inode) : inode :=
  mkInode v (ip.(i_inum)) (ip.(i_ref)) (ip.(i_flags)) (ip.(i_type)) (ip.(i_major)) (ip.(i_minor)) (ip.(i_nlink)) (ip.(i_size)) (ip.(i_addrs)).
Definition set_i_inum (v : Z) (ip : inode) : inode :=
  mkInode (ip.(i_dev)) v (ip.(i_ref)) (ip.(i_flags)) (ip.(i_type)) (ip.(i_major)) (ip.(i_minor)) (ip.(i_nlink)) (ip.(i_size)) (ip.(i_addrs)).
Definition set_i_ref (v : Z) (ip : inode) : inode :=
  mkInode (ip.(i_dev)) (ip.(i_inum)) v (ip.(i_flags)) (ip.(i_type)) (ip.(i_major)) (ip.(i_minor)) (ip.(i_nlink)) (ip.(i_size)) (ip.(i_addrs)).
Definition set_i_flags (v : Z) (ip : inode) : inode :=
  mkInode (ip.(i_dev)) (ip.(i_inum)) (ip.(i_ref)) v (ip.(i_type)) (ip.(i_major)) (ip.(i_minor)) (ip.(i_nlink)) (ip.(i_size)) (ip.(i_addrs)).
Definition set_i_type (v : Z) (ip : inode) : inode :=
  mkInode (ip.(i_dev)) (ip.(i_inum)) (ip.(i_ref)) (ip.(i_flags)) v (ip.(i_major)) (ip.(i_minor)) (ip.(i_nlink)) (ip.(i_size)) (ip.(i_addrs)).
Definition set_i_major (v : Z) (ip : inode) : inode :=
  mkInode (ip.(i_dev)) (ip.(i_inum)) (ip.(i_ref)) (ip.(i_flags)) (ip.(i_type)) v (ip.(i_minor)) (ip.(i_nlink)) (ip.(i_size)) (ip.(i_addrs)).
Definition set_i_minor (v : Z) (ip : inode) : inode :=
  mkInode (ip.(i_dev)) (ip.(i_inum)) (ip.(i_ref)) (ip.(i_flags)) (ip.(i_type)) (ip.(i_major)) v (ip.(i_nlink)) (ip.(i_size)) (ip.(i_addrs)).
Definition set_i_nlink (v : Z) (ip : inode) : inode :=
  mkInode (ip.(i_dev)) (ip.(i_inum)) (ip.(i_ref)) (ip.(i_flags)) (ip.(i_type)) (ip.(i_major)) (ip.(i_minor)) v (ip.(i_size)) (ip.(i_addrs)).
Definition set_i_size (v : Z) (ip : inode) : inode :=
  mkInode (ip.(i_dev)) (ip.(i_inum)) (ip.(i_ref)) (ip.(i_flags)) (ip.(i_type)) (ip.(i_major)) (ip.(i_minor)) (ip.(i_nlink)) v (ip.(i_addrs)).
Definition set_i_addrs (v : list Z) (ip : inode) : inode :=
  mkInode (ip.(i_dev)) (ip.(i_inum)) (ip.(i_ref)) (ip.(i_flags)) (ip.(i_type)) (ip.(i_major)) (ip.(i_minor)) (ip.(i_nlink)) (ip.(i_size)) v.

Definition set_b_flags (v : Z) (b : buf) : buf :=
  mkBuf v (b.(b_dev)) (b.(b_blockno)) (b.(b_prev)) (b.(b_next)) (b.(b_data)).
Definition set_b_dev (v : Z) (b : buf) : buf :=
  mkBuf (b.(b_flags)) v (b.(b_blockno)) (b.(b_prev)) (b.(b_next)) (b.(b_data)).
Definition set_b_blockno (v : Z) (b : buf) : buf :=
  mkBuf (b.(b_flags)) (b.(b_dev)) v (b.(b_prev)) (b.(b_next)) (b.(b_data)).
Definition set_b_prev (v : nat) (b : buf) : buf :=
  mkBuf (b.(b_flags)) (b.(b_dev)) (b.(b_blockno)) v (b.(b_next)) (b.(b_data)).
Definition set_b_next (v : nat) (b : buf) : buf :=
  mkBuf (b.(b_flags)) (b.(b_dev)) (b.(b_blockno)) (b.(b_prev)) v (b.(b_data)).
Definition set_b_data (v : list Z) (b : buf) : buf :=
  mkBuf (b.(b_flags)) (b.(b_dev)) (b.(b_blockno)) (b.(b_prev)) (b.(b_next)) v.

Definition set_lg_start (v : Z) (l : log_t) : log_t :=
  mkLog v (l.(lg_size)) (l.(lg_outstanding)) (l.(lg_committing)) (l.(lg_dev)) (l.(lh_n)) (l.(lh_block)).
Definition set_lg_size (v : Z) (l : log_t) : log_t :=
  mkLog (l.(lg_start)) v (l.(lg_outstanding)) (l.(lg_committing)) (l.(lg_dev)) (l.(lh_n)) (l.(lh_block)).
Definition set_lg_outstanding (v : Z) (l : log_t) : log_t :=
  mkLog (l.(lg_start)) (l.(lg_size)) v (l.(lg_committing)) (l.(lg_dev)) (l.(lh_n)) (l.(lh_block)).
Definition set_lg_committing (v : Z) (l : log_t) : log_t :=
  mkLog (l.(lg_start)) (l.(lg_size)) (l.(lg_outstanding)) v (l.(lg_dev)) (l.(lh_n)) (l.(lh_block)).
Definition set_lg_dev (v : Z) (l : log_t) : log_t :=
  mkLog (l.(lg_start)) (l.(lg_size)) (l.(lg_outstanding)) (l.(lg_committing)) v (l.(lh_n)) (l.(lh_block)).
Definition set_lh_n (v : Z) (l : log_t) : log_t :=
  mkLog (l.(lg_start)) (l.(lg_size)) (l.(lg_outstanding)) (l.(lg_committing)) (l.(lg_dev)) v (l.(lh_block)).
Definition set_lh_block (v : list Z) (l : log_t) : log_t :=
  mkLog (l.(lg_start)) (l.(lg_size)) (l.(lg_outstanding)) (l.(lg_committing)) (l.(lg_dev)) (l.(lh_n)) v.

Definition set_pi_data (v : list Z) (p : pipe) : pipe :=
  mkPipe v (p.(pi_nread)) (p.(pi_nwrite)) (p.(pi_readopen)) (p.(pi_writeopen)).
Definition set_pi_nread (v : Z) (p : pipe) : pipe :=
  mkPipe (p.(pi_data)) v (p.(pi_nwrite)) (p.(pi_readopen)) (p.(pi_writeopen)).
Definition set_pi_nwrite (v : Z) (p : pipe) : pipe :=
  mkPipe (p.(pi_data)) (p.(pi_nread)) v (p.(pi_readopen)) (p.(pi_writeopen)).
Definition set_pi_readopen (v : Z) (p : pipe) : pipe :=
  mkPipe (p.(pi_data)) (p.(pi_nread)) (p.(pi_nwrite)) v (p.(pi_writeopen)).
Definition set_pi_writeopen (v : Z) (p : pipe) : pipe :=
  mkPipe (p.(pi_data)) (p.(pi_nread)) (p.(pi_nwrite)) (p.(pi_readopen)) v.

Definition set_in_buf (v : list Z) (i : input_t) : input_t :=
  mkInput v (i.(in_r)) (i.(in_w)) (i.(in_e)).
Definition set_in_r (v : Z) (i : input_t) : input_t :=
  mkInput (i.(in_buf)) v (i.(in_w)) (i.(in_e)).
Definition set_in_w (v : Z) (i : input_t) : input_t :=
  mkInput (i.(in_buf)) (i.(in_r)) v (i.(in_e)).
Definition set_in_e (v : Z) (i : input_t) : input_t :=
  mkInput (i.(in_buf)) (i.(in_r)) (i.(in_w)) v.

Definition set_k_link (v : linkinfo) (k : kernel) : kernel :=
  mkKernel v (k.(k_cpu)) (k.(k_locks)) (k.(k_mem)) (k.(kmem_use_lock)) (k.(kmem_freelist)) (k.(k_kpgdir)) (k.(ptable)) (k.(nextpid)) (k.(initproc)) (k.(ftable)) (k.(icache)) (k.(k_sb)) (k.(bcache)) (k.(memdisk)) (k.(diskwrites)) (k.(k_log)) (k.(k_pipes)) (k.(k_input)) (k.(cons_locking)) (k.(conslog)) (k.(k_crt)) (k.(k_crtpos)) (k.(ticks)) (k.(k_count)) (k.(prioritybump)) (k.(k_devsw)) (k.(k_first)) (k.(k_ports)) (k.(k_irqmask)) (k.(k_ioapic)) (k.(k_lapic)) (k.(k_ismp)).
Definition set_k_cpu (v : cpu) (k : kernel) : kernel :=
  mkKernel (k.(k_link)) v (k.(k_locks)) (k.(k_mem)) (k.(kmem_use_lock)) (k.(kmem_freelist)) (k.(k_kpgdir)) (k.(ptable)) (k.(nextpid)) (k.(initproc)) (k.(ftable)) (k.(icache)) (k.(k_sb)) (k.(bcache)) (k.(memdisk)) (k.(diskwrites)) (k.(k_log)) (k.(k_pipes)) (k.(k_input)) (k.(cons_locking)) (k.(conslog)) (k.(k_crt)) (k.(k_crtpos)) (k.(ticks)) (k.(k_count)) (k.(prioritybump)) (k.(k_devsw)) (k.(k_first)) (k.(k_ports)) (k.(k_irqmask)) (k.(k_ioapic)) (k.(k_lapic)) (k.(k_ismp)).
Definition set_k_locks (v : gmap lockid spinlock) (k : kernel) : kernel :=
  mkKernel (k.(k_link)) (k.(k_cpu)) v (k.(k_mem)) (k.(kmem_use_lock)) (k.(kmem_freelist)) (k.(k_kpgdir)) (k.(ptable)) (k.(nextpid)) (k.(initproc)) (k.(ftable)) (k.(icache)) (k.(k_sb)) (k.(bcache)) (k.(memdisk)) (k.(diskwrites)) (k.(k_log)) (k.(k_pipes)) (k.(k_input)) (k.(cons_locking)) (k.(conslog)) (k.(k_crt)) (k.(k_crtpos)) (k.(ticks)) (k.(k_count)) (k.(prioritybump)) (k.(k_devsw)) (k.(k_first)) (k.(k_ports)) (k.(k_irqmask)) (k.(k_ioapic)) (k.(k_lapic)) (k.(k_ismp)).
Definition set_k_mem (v : gmap Z Z) (k : kernel) : kernel :=
  mkKernel (k.(k_link)) (k.(k_cpu)) (k.(k_locks)) v (k.(kmem_use_lock)) (k.(kmem_freelist)) (k.(k_kpgdir)) (k.(ptable)) (k.(nextpid)) (k.(initproc)) (k.(ftable)) (k.(icache)) (k.(k_sb)) (k.(bcache)) (k.(memdisk)) (k.(diskwrites)) (k.(k_log)) (k.(k_pipes)) (k.(k_input)) (k.(cons_locking)) (k.(conslog)) (k.(k_crt)) (k.(k_crtpos)) (k.(ticks)) (k.(k_count)) (k.(prioritybump)) (k.(k_devsw)) (k.(k_first)) (k.(k_ports)) (k.(k_irqmask)) (k.(k_ioapic)) (k.(k_lapic)) (k.(k_ismp)).
Definition set_kmem_use_lock (v : Z) (k : kernel) : kernel :=
  mkKernel (k.(k_link)) (k.(k_cpu)) (k.(k_locks)) (k.(k_mem)) v (k.(kmem_freelist)) (k.(k_kpgdir)) (k.(ptable)) (k.(nextpid)) (k.(initproc)) (k.(ftable)) (k.(icache)) (k.(k_sb)) (k.(bcache)) (k.(memdisk)) (k.(diskwrites)) (k.(k_log)) (k.(k_pipes)) (k.(k_input)) (k.(cons_locking)) (k.(conslog)) (k.(k_crt)) (k.(k_crtpos)) (k.(ticks)) (k.(k_count)) (k.(prioritybump)) (k.(k_devsw)) (k.(k_first)) (k.(k_ports)) (k.(k_irqmask)) (k.(k_ioapic)) (k.(k_lapic)) (k.(k_ismp)).
Definition set_kmem_freelist (v : Z) (k : kernel) : kernel :=
  mkKernel (k.(k_link)) (k.(k_cpu)) (k.(k_locks)) (k.(k_mem)) (k.(kmem_use_lock)) v (k.(k_kpgdir)) (k.(ptable)) (k.(nextpid)) (k.(initproc)) (k.(ftable)) (k.(icache)) (k.(k_sb)) (k.(bcache)) (k.(memdisk)) (k.(diskwrites)) (k.(k_log)) (k.(k_pipes)) (k.(k_input)) (k.(cons_locking)) (k.(conslog)) (k.(k_crt)) (k.(k_crtpos)) (k.(ticks)) (k.(k_count)) (k.(prioritybump)) (k.(k_devsw)) (k.(k_first)) (k.(k_ports)) (k.(k_irqmask)) (k.(k_ioapic)) (k.(k_lapic)) (k.(k_ismp)).
Definition set_k_kpgdir (v : Z) (k : kernel) : kernel :=
  mkKernel (k.(k_link)) (k.(k_cpu)) (k.(k_locks)) (k.(k_mem)) (k.(kmem_use_lock)) (k.(kmem_freelist)) v (k.(ptable)) (k.(nextpid)) (k.(initproc)) (k.(ftable)) (k.(icache)) (k.(k_sb)) (k.(bcache)) (k.(memdisk)) (k.(diskwrites)) (k.(k_log)) (k.(k_pipes)) (k.(k_input)) (k.(cons_locking)) (k.(conslog)) (k.(k_crt)) (k.(k_crtpos)) (k.(ticks)) (k.(k_count)) (k.(prioritybump)) (k.(k_devsw)) (k.(k_first)) (k.(k_ports)) (k.(k_irqmask)) (k.(k_ioapic)) (k.(k_lapic)) (k.(k_ismp)).
Definition set_ptable (v : list proc) (k : kernel) : kernel :=
  mkKernel (k.(k_link)) (k.(k_cpu)) (k.(k_locks)) (k.(k_mem)) (k.(kmem_use_lock)) (k.(kmem_freelist)) (k.(k_kpgdir)) v (k.(nextpid)) (k.(initproc)) (k.(ftable)) (k.(icache)) (k.(k_sb)) (k.(bcache)) (k.(memdisk)) (k.(diskwrites)) (k.(k_log)) (k.(k_pipes)) (k.(k_input)) (k.(cons_locking)) (k.(conslog)) (k.(k_crt)) (k.(k_crtpos)) (k.(ticks)) (k.(k_count)) (k.(prioritybump)) (k.(k_devsw)) (k.(k_first)) (k.(k_ports)) (k.(k_irqmask)) (k.(k_ioapic)) (k.(k_lapic)) (k.(k_ismp)).
Definition set_nextpid (v : Z) (k : kernel) : kernel :=
  mkKernel (k.(k_link)) (k.(k_cpu)) (k.(k_locks)) (k.(k_mem)) (k.(kmem_use_lock)) (k.(kmem_freelist)) (k.(k_kpgdir)) (k.(ptable)) v (k.(initproc)) (k.(ftable)) (k.(icache)) (k.(k_sb)) (k.(bcache)) (k.(memdisk)) (k.(diskwrites)) (k.(k_log)) (k.(k_pipes)) (k.(k_input)) (k.(cons_locking)) (k.(conslog)) (k.(k_crt)) (k.(k_crtpos)) (k.(ticks)) (k.(k_count)) (k.(prioritybump)) (k.(k_devsw)) (k.(k_first)) (k.(k_ports)) (k.(k_irqmask)) (k.(k_ioapic)) (k.(k_lapic)) (k.(k_ismp)).
Definition set_initproc (v : option nat) (k : kernel) : kernel :=
  mkKernel (k.(k_link)) (k.(k_cpu)) (k.(k_locks)) (k.(k_mem)) (k.(kmem_use_lock)) (k.(kmem_freelist)) (k.(k_kpgdir)) (k.(ptable)) (k.(nextpid)) v (k.(ftable)) (k.(icache)) (k.(k_sb)) (k.(bcache)) (k.(memdisk)) (k.(diskwrites)) (k.(k_log)) (k.(k_pipes)) (k.(k_input)) (k.(cons_locking)) (k.(conslog)) (k.(k_crt)) (k.(k_crtpos)) (k.(ticks)) (k.(k_count)) (k.(prioritybump)) (k.(k_devsw)) (k.(k_first)) (k.(k_ports)) (k.(k_irqmask)) (k.(k_ioapic)) (k.(k_lapic)) (k.(k_ismp)).
Definition set_ftable (v : list file) (k : kernel) : kernel :=
  mkKernel (k.(k_link)) (k.(k_cpu)) (k.(k_locks)) (k.(k_mem)) (k.(kmem_use_lock)) (k.(kmem_freelist)) (k.(k_kpgdir)) (k.(ptable)) (k.(nextpid)) (k.(initproc)) v (k.(icache)) (k.(k_sb)) (k.(bcache)) (k.(memdisk)) (k.(diskwrites)) (k.(k_log)) (k.(k_pipes)) (k.(k_input)) (k.(cons_locking)) (k.(conslog)) (k.(k_crt)) (k.(k_crtpos)) (k.(ticks)) (k.(k_count)) (k.(prioritybump)) (k.(k_devsw)) (k.(k_first)) (k.(k_ports)) (k.(k_irqmask)) (k.(k_ioapic)) (k.(k_lapic)) (k.(k_ismp)).
Definition set_icache (v : list inode) (k : kernel) : kernel :=
  mkKernel (k.(k_link)) (k.(k_cpu)) (k.(k_locks)) (k.(k_mem)) (k.(kmem_use_lock)) (k.(kmem_freelist)) (k.(k_kpgdir)) (k.(ptable)) (k.(nextpid)) (k.(initproc)) (k.(ftable)) v (k.(k_sb)) (k.(bcache)) (k.(memdisk)) (k.(diskwrites)) (k.(k_log)) (k.(k_pipes)) (k.(k_input)) (k.(cons_locking)) (k.(conslog)) (k.(k_crt)) (k.(k_crtpos)) (k.(ticks)) (k.(k_count)) (k.(prioritybump)) (k.(k_devsw)) (k.(k_first)) (k.(k_ports)) (k.(k_irqmask)) (k.(k_ioapic)) (k.(k_lapic)) (k.(k_ismp)).
Definition set_k_sb (v : superblock) (k : kernel) : kernel :=
  mkKernel (k.(k_link)) (k.(k_cpu)) (k.(k_locks)) (k.(k_mem)) (k.(kmem_use_lock)) (k.(kmem_freelist)) (k.(k_kpgdir)) (k.(ptable)) (k.(nextpid)) (k.(initproc)) (k.(ftable)) (k.(icache)) v (k.(bcache)) (k.(memdisk)) (k.(diskwrites)) (k.(k_log)) (k.(k_pipes)) (k.(k_input)) (k.(cons_locking)) (k.(conslog)) (k.(k_crt)) (k.(k_crtpos)) (k.(ticks)) (k.(k_count)) (k.(prioritybump)) (k.(k_devsw)) (k.(k_first)) (k.(k_ports)) (k.(k_irqmask)) (k.(k_ioapic)) (k.(k_lapic)) (k.(k_ismp)).
Definition set_bcache (v : list buf) (k : kernel) : kernel :=
  mkKernel (k.(k_link)) (k.(k_cpu)) (k.(k_locks)) (k.(k_mem)) (k.(kmem_use_lock)) (k.(kmem_freelist)) (k.(k_kpgdir)) (k.(ptable)) (k.(nextpid)) (k.(initproc)) (k.(ftable)) (k.(icache)) (k.(k_sb)) v (k.(memdisk)) (k.(diskwrites)) (k.(k_log)) (k.(k_pipes)) (k.(k_input)) (k.(cons_locking)) (k.(conslog)) (k.(k_crt)) (k.(k_crtpos)) (k.(ticks)) (k.(k_count)) (k.(prioritybump)) (k.(k_devsw)) (k.(k_first)) (k.(k_ports)) (k.(k_irqmask)) (k.(k_ioapic)) (k.(k_lapic)) (k.(k_ismp)).
Definition set_memdisk (v : list (list Z)) (k : kernel) : kernel :=
  mkKernel (k.(k_link)) (k.(k_cpu)) (k.(k_locks)) (k.(k_mem)) (k.(kmem_use_lock)) (k.(kmem_freelist)) (k.(k_kpgdir)) (k.(ptable)) (k.(nextpid)) (k.(initproc)) (k.(ftable)) (k.(icache)) (k.(k_sb)) (k.(bcache)) v (k.(diskwrites)) (k.(k_log)) (k.(k_pipes)) (k.(k_input)) (k.(cons_locking)) (k.(conslog)) (k.(k_crt)) (k.(k_crtpos)) (k.(ticks)) (k.(k_count)) (k.(prioritybump)) (k.(k_devsw)) (k.(k_first)) (k.(k_ports)) (k.(k_irqmask)) (k.(k_ioapic)) (k.(k_lapic)) (k.(k_ismp)).
Definition set_diskwrites (v : list (Z * list Z)) (k : kernel) : kernel :=
  mkKernel (k.(k_link)) (k.(k_cpu)) (k.(k_locks)) (k.(k_mem)) (k.(kmem_use_lock)) (k.(kmem_freelist)) (k.(k_kpgdir)) (k.(ptable)) (k.(nextpid)) (k.(initproc)) (k.(ftable)) (k.(icache)) (k.(k_sb)) (k.(bcache)) (k.(memdisk)) v (k.(k_log)) (k.(k_pipes)) (k.(k_input)) (k.(cons_locking)) (k.(conslog)) (k.(k_crt)) (k.(k_crtpos)) (k.(ticks)) (k.(k_count)) (k.(prioritybump)) (k.(k_devsw)) (k.(k_first)) (k.(k_ports)) (k.(k_irqmask)) (k.(k_ioapic)) (k.(k_lapic)) (k.(k_ismp)).
Definition set_k_log (v : log_t) (k : kernel) : kernel :=
  mkKernel (k.(k_link)) (k.(k_cpu)) (k.(k_locks)) (k.(k_mem)) (k.(kmem_use_lock)) (k.(kmem_freelist)) (k.(k_kpgdir)) (k.(ptable)) (k.(nextpid)) (k.(initproc)) (k.(ftable)) (k.(icache)) (k.(k_sb)) (k.(bcache)) (k.(memdisk)) (k.(diskwrites)) v (k.(k_pipes)) (k.(k_input)) (k.(cons_locking)) (k.(conslog)) (k.(k_crt)) (k.(k_crtpos)) (k.(ticks)) (k.(k_count)) (k.(prioritybump)) (k.(k_devsw)) (k.(k_first)) (k.(k_ports)) (k.(k_irqmask)) (k.(k_ioapic)) (k.(k_lapic)) (k.(k_ismp)).
Definition set_k_pipes (v : gmap Z pipe) (k : kernel) : kernel :=
  mkKernel (k.(k_link)) (k.(k_cpu)) (k.(k_locks)) (k.(k_mem)) (k.(kmem_use_lock)) (k.(kmem_freelist)) (k.(k_kpgdir)) (k.(ptable)) (k.(nextpid)) (k.(initproc)) (k.(ftable)) (k.(icache)) (k.(k_sb)) (k.(bcache)) (k.(memdisk)) (k.(diskwrites)) (k.(k_log)) v (k.(k_input)) (k.(cons_locking)) (k.(conslog)) (k.(k_crt)) (k.(k_crtpos)) (k.(ticks)) (k.(k_count)) (k.(prioritybump)) (k.(k_devsw)) (k.(k_first)) (k.(k_ports)) (k.(k_irqmask)) (k.(k_ioapic)) (k.(k_lapic)) (k.(k_ismp)).
Definition set_k_input (v : input_t) (k : kernel) : kernel :=
  mkKernel (k.(k_link)) (k.(k_cpu)) (k.(k_locks)) (k.(k_mem)) (k.(kmem_use_lock)) (k.(kmem_freelist)) (k.(k_kpgdir)) (k.(ptable)) (k.(nextpid)) (k.(initproc)) (k.(ftable)) (k.(icache)) (k.(k_sb)) (k.(bcache)) (k.(memdisk)) (k.(diskwrites)) (k.(k_log)) (k.(k_pipes)) v (k.(cons_locking)) (k.(conslog)) (k.(k_crt)) (k.(k_crtpos)) (k.(ticks)) (k.(k_count)) (k.(prioritybump)) (k.(k_devsw)) (k.(k_first)) (k.(k_ports)) (k.(k_irqmask)) (k.(k_ioapic)) (k.(k_lapic)) (k.(k_ismp)).
Definition set_cons_locking (v : Z) (k : kernel) : kernel :=
  mkKernel (k.(k_link)) (k.(k_cpu)) (k.(k_locks)) (k.(k_mem)) (k.(kmem_use_lock)) (k.(kmem_freelist)) (k.(k_kpgdir)) (k.(ptable)) (k.(nextpid)) (k.(initproc)) (k.(ftable)) (k.(icache)) (k.(k_sb)) (k.(bcache)) (k.(memdisk)) (k.(diskwrites)) (k.(k_log)) (k.(k_pipes)) (k.(k_input)) v (k.(conslog)) (k.(k_crt)) (k.(k_crtpos)) (k.(ticks)) (k.(k_count)) (k.(prioritybump)) (k.(k_devsw)) (k.(k_first)) (k.(k_ports)) (k.(k_irqmask)) (k.(k_ioapic)) (k.(k_lapic)) (k.(k_ismp)).
Definition set_conslog (v : list Z) (k : kernel) : kernel :=
  mkKernel (k.(k_link)) (k.(k_cpu)) (k.(k_locks)) (k.(k_mem)) (k.(kmem_use_lock)) (k.(kmem_freelist)) (k.(k_kpgdir)) (k.(ptable)) (k.(nextpid)) (k.(initproc)) (k.(ftable)) (k.(icache)) (k.(k_sb)) (k.(bcache)) (k.(memdisk)) (k.(diskwrites)) (k.(k_log)) (k.(k_pipes)) (k.(k_input)) (k.(cons_locking)) v (k.(k_crt)) (k.(k_crtpos)) (k.(ticks)) (k.(k_count)) (k.(prioritybump)) (k.(k_devsw)) (k.(k_first)) (k.(k_ports)) (k.(k_irqmask)) (k.(k_ioapic)) (k.(k_lapic)) (k.(k_ismp)).
Definition set_k_crt (v : list Z) (k : kernel) : kernel :=
  mkKernel (k.(k_link)) (k.(k_cpu)) (k.(k_locks)) (k.(k_mem)) (k.(kmem_use_lock)) (k.(kmem_freelist)) (k.(k_kpgdir)) (k.(ptable)) (k.(nextpid)) (k.(initproc)) (k.(ftable)) (k.(icache)) (k.(k_sb)) (k.(bcache)) (k.(memdisk)) (k.(diskwrites)) (k.(k_log)) (k.(k_pipes)) (k.(k_input)) (k.(cons_locking)) (k.(conslog)) v (k.(k_crtpos)) (k.(ticks)) (k.(k_count)) (k.(prioritybump)) (k.(k_devsw)) (k.(k_first)) (k.(k_ports)) (k.(k_irqmask)) (k.(k_ioapic)) (k.(k_lapic)) (k.(k_ismp)).
Definition set_k_crtpos (v : Z) (k : kernel) : kernel :=
  mkKernel (k.(k_link)) (k.(k_cpu)) (k.(k_locks)) (k.(k_mem)) (k.(kmem_use_lock)) (k.(kmem_freelist)) (k.(k_kpgdir)) (k.(ptable)) (k.(nextpid)) (k.(initproc)) (k.(ftable)) (k.(icache)) (k.(k_sb)) (k.(bcache)) (k.(memdisk)) (k.(diskwrites)) (k.(k_log)) (k.(k_pipes)) (k.(k_input)) (k.(cons_locking)) (k.(conslog)) (k.(k_crt)) v (k.(ticks)) (k.(k_count)) (k.(prioritybump)) (k.(k_devsw)) (k.(k_first)) (k.(k_ports)) (k.(k_irqmask)) (k.(k_ioapic)) (k.(k_lapic)) (k.(k_ismp)).
Definition set_ticks (v : Z) (k : kernel) : kernel :=
  mkKernel (k.(k_link)) (k.(k_cpu)) (k.(k_locks)) (k.(k_mem)) (k.(kmem_use_lock)) (k.(kmem_freelist)) (k.(k_kpgdir)) (k.(ptable)) (k.(nextpid)) (k.(initproc)) (k.(ftable)) (k.(icache)) (k.(k_sb)) (k.(bcache)) (k.(memdisk)) (k.(diskwrites)) (k.(k_log)) (k.(k_pipes)) (k.(k_input)) (k.(cons_locking)) (k.(conslog)) (k.(k_crt)) (k.(k_crtpos)) v (k.(k_count)) (k.(prioritybump)) (k.(k_devsw)) (k.(k_first)) (k.(k_ports)) (k.(k_irqmask)) (k.(k_ioapic)) (k.(k_lapic)) (k.(k_ismp)).
Definition set_k_count (v : Z) (k : kernel) : kernel :=
  mkKernel (k.(k_link)) (k.(k_cpu)) (k.(k_locks)) (k.(k_mem)) (k.(kmem_use_lock)) (k.(kmem_freelist)) (k.(k_kpgdir)) (k.(ptable)) (k.(nextpid)) (k.(initproc)) (k.(ftable)) (k.(icache)) (k.(k_sb)) (k.(bcache)) (k.(memdisk)) (k.(diskwrites)) (k.(k_log)) (k.(k_pipes)) (k.(k_input)) (k.(cons_locking)) (k.(conslog)) (k.(k_crt)) (k.(k_crtpos)) (k.(ticks)) v (k.(prioritybump)) (k.(k_devsw)) (k.(k_first)) (k.(k_ports)) (k.(k_irqmask)) (k.(k_ioapic)) (k.(k_lapic)) (k.(k_ismp)).
Definition set_prioritybump (v : Z) (k : kernel) : kernel :=
  mkKernel (k.(k_link)) (k.(k_cpu)) (k.(k_locks)) (k.(k_mem)) (k.(kmem_use_lock)) (k.(kmem_freelist)) (k.(k_kpgdir)) (k.(ptable)) (k.(nextpid)) (k.(initproc)) (k.(ftable)) (k.(icache)) (k.(k_sb)) (k.(bcache)) (k.(memdisk)) (k.(diskwrites)) (k.(k_log)) (k.(k_pipes)) (k.(k_input)) (k.(cons_locking)) (k.(conslog)) (k.(k_crt)) (k.(k_crtpos)) (k.(ticks)) (k.(k_count)) v (k.(k_devsw)) (k.(k_first)) (k.(k_ports)) (k.(k_irqmask)) (k.(k_ioapic)) (k.(k_lapic)) (k.(k_ismp)).
Definition set_k_devsw (v : list (option device)) (k : kernel) : kernel :=
  mkKernel (k.(k_link)) (k.(k_cpu)) (k.(k_locks)) (k.(k_mem)) (k.(kmem_use_lock)) (k.(kmem_freelist)) (k.(k_kpgdir)) (k.(ptable)) (k.(nextpid)) (k.(initproc)) (k.(ftable)) (k.(icache)) (k.(k_sb)) (k.(bcache)) (k.(memdisk)) (k.(diskwrites)) (k.(k_log)) (k.(k_pipes)) (k.(k_input)) (k.(cons_locking)) (k.(conslog)) (k.(k_crt)) (k.(k_crtpos)) (k.(ticks)) (k.(k_count)) (k.(prioritybump)) v (k.(k_first)) (k.(k_ports)) (k.(k_irqmask)) (k.(k_ioapic)) (k.(k_lapic)) (k.(k_ismp)).
Definition set_k_first (v : Z) (k : kernel) : kernel :=
  mkKernel (k.(k_link)) (k.(k_cpu)) (k.(k_locks)) (k.(k_mem)) (k.(kmem_use_lock)) (k.(kmem_freelist)) (k.(k_kpgdir)) (k.(ptable)) (k.(nextpid)) (k.(initproc)) (k.(ftable)) (k.(icache)) (k.(k_sb)) (k.(bcache)) (k.(memdisk)) (k.(diskwrites)) (k.(k_log)) (k.(k_pipes)) (k.(k_input)) (k.(cons_locking)) (k.(conslog)) (k.(k_crt)) (k.(k_crtpos)) (k.(ticks)) (k.(k_count)) (k.(prioritybump)) (k.(k_devsw)) v (k.(k_ports)) (k.(k_irqmask)) (k.(k_ioapic)) (k.(k_lapic)) (k.(k_ismp)).
Definition set_k_ports (v : list (Z * Z)) (k : kernel) : kernel :=
  mkKernel (k.(k_link)) (k.(k_cpu)) (k.(k_locks)) (k.(k_mem)) (k.(kmem_use_lock)) (k.(kmem_freelist)) (k.(k_kpgdir)) (k.(ptable)) (k.(nextpid)) (k.(initproc)) (k.(ftable)) (k.(icache)) (k.(k_sb)) (k.(bcache)) (k.(memdisk)) (k.(diskwrites)) (k.(k_log)) (k.(k_pipes)) (k.(k_input)) (k.(cons_locking)) (k.(conslog)) (k.(k_crt)) (k.(k_crtpos)) (k.(ticks)) (k.(k_count)) (k.(prioritybump)) (k.(k_devsw)) (k.(k_first)) v (k.(k_irqmask)) (k.(k_ioapic)) (k.(k_lapic)) (k.(k_ismp)).
Definition set_k_irqmask (v : Z) (k : kernel) : kernel :=
  mkKernel (k.(k_link)) (k.(k_cpu)) (k.(k_locks)) (k.(k_mem)) (k.(kmem_use_lock)) (k.(kmem_freelist)) (k.(k_kpgdir)) (k.(ptable)) (k.(nextpid)) (k.(initproc)) (k.(ftable)) (k.(icache)) (k.(k_sb)) (k.(bcache)) (k.(memdisk)) (k.(diskwrites)) (k.(k_log)) (k.(k_pipes)) (k.(k_input)) (k.(cons_locking)) (k.(conslog)) (k.(k_crt)) (k.(k_crtpos)) (k.(ticks)) (k.(k_count)) (k.(prioritybump)) (k.(k_devsw)) (k.(k_first)) (k.(k_ports)) v (k.(k_ioapic)) (k.(k_lapic)) (k.(k_ismp)).
Definition set_k_ioapic (v : gmap Z Z) (k : kernel) : kernel :=
  mkKernel (k.(k_link)) (k.(k_cpu)) (k.(k_locks)) (k.(k_mem)) (k.(kmem_use_lock)) (k.(kmem_freelist)) (k.(k_kpgdir)) (k.(ptable)) (k.(nextpid)) (k.(initproc)) (k.(ftable)) (k.(icache)) (k.(k_sb)) (k.(bcache)) (k.(memdisk)) (k.(diskwrites)) (k.(k_log)) (k.(k_pipes)) (k.(k_input)) (k.(cons_locking)) (k.(conslog)) (k.(k_crt)) (k.(k_crtpos)) (k.(ticks)) (k.(k_count)) (k.(prioritybump)) (k.(k_devsw)) (k.(k_first)) (k.(k_ports)) (k.(k_irqmask)) v (k.(k_lapic)) (k.(k_ismp)).
Definition set_k_lapic (v : option (gmap Z Z)) (k : kernel) : kernel :=
  mkKernel (k.(k_link)) (k.(k_cpu)) (k.(k_locks)) (k.(k_mem)) (k.(kmem_use_lock)) (k.(kmem_freelist)) (k.(k_kpgdir)) (k.(ptable)) (k.(nextpid)) (k.(initproc)) (k.(ftable)) (k.(icache)) (k.(k_sb)) (k.(bcache)) (k.(memdisk)) (k.(diskwrites)) (k.(k_log)) (k.(k_pipes)) (k.(k_input)) (k.(cons_locking)) (k.(conslog)) (k.(k_crt)) (k.(k_crtpos)) (k.(ticks)) (k.(k_count)) (k.(prioritybump)) (k.(k_devsw)) (k.(k_first)) (k.(k_ports)) (k.(k_irqmask)) (k.(k_ioapic)) v (k.(k_ismp)).
Definition set_k_ismp (v : Z) (k : kernel) : kernel :=
  mkKernel (k.(k_link)) (k.(k_cpu)) (k.(k_locks)) (k.(k_mem)) (k.(kmem_use_lock)) (k.(kmem_freelist)) (k.(k_kpgdir)) (k.(ptable)) (k.(nextpid)) (k.(initproc)) (k.(ftable)) (k.(icache)) (k.(k_sb)) (k.(bcache)) (k.(memdisk)) (k.(diskwrites)) (k.(k_log)) (k.(k_pipes)) (k.(k_input)) (k.(cons_locking)) (k.(conslog)) (k.(k_crt)) (k.(k_crtpos)) (k.(ticks)) (k.(k_count)) (k.(prioritybump)) (k.(k_devsw)) (k.(k_first)) (k.(k_ports)) (k.(k_irqmask)) (k.(k_ioapic)) (k.(k_lapic)) v.

(** ** Zero-initialised structures *)

Definition tf0 : trapframe := mkTrapframe 0 0 0 0 0 0 0 0 0 0 0 0 0 0 0 0 0 0 0.
Definition context0 : context := mkContext 0 0 0 0 0.
Definition proc0 : proc :=
  mkProc 0 0 0 UNUSED 0 None tf0 context0 CNull 0 (replicate 16 None) None
    (replicate 16 0) 0 0.
Definition file0 : file := mkFile FD_NONE 0 0 0 0 None 0.
Definition inode0 : inode := mkInode 0 0 0 0 0 0 0 0 0 (replicate 13 0).
Definition buf0 : buf := mkBuf 0 0 0 0 0 (replicate 512 0).
Definition pipe0 : pipe := mkPipe (replicate 512 0) 0 0 0 0.
Definition unlocked (nm : string) : spinlock := mkSpinlock nm 0 None.
Definition log0 : log_t := mkLog 0 0 0 0 0 0 (replicate 30 0).
Definition input0 : input_t := mkInput (replicate 128 0) 0 0 0.
Definition sb0 : superblock := mkSuperblock 0 0 0 0 0 0 0.
Definition segdesc0 : segdesc := mkSegdesc 0 0 0 0 0 0 0 0 0 0 0 0 0.
Definition cpu0 : cpu := mkCpu 0 0 0 0 0 0 0 0 0 0 (replicate 7 segdesc0) None.

(** The statically allocated locks after their [initlock] calls. *)
Definition locks0 : gmap lockid spinlock :=
  list_to_map
    [(Lptable, unlocked "ptable"); (Lkmem, unlocked "kmem"); (Lbcache, unlocked "bcache");
     (Lidelock, unlocked "ide"); (Llog, unlocked "log"); (Licache, unlocked "icache");
     (Lftable, unlocked "ftable"); (Lcons, unlocked "console"); (Ltickslock, unlocked "time")].

(** Example addresses for the linker's symbols. *)
Definition link0 : linkinfo :=
  mkLinkinfo 0x80115000 0x80108000 0x80105b00 0x80103c00 0x80114f00 0x80114e80 (replicate 44 0).

(** The kernel's static data before [main] runs the initialisers, with the
    locks already initialised. *)
Definition kernel0 : kernel :=
  mkKernel link0 cpu0 locks0 empty 0 0 0 (replicate 64 proc0) 1 None (replicate 100 file0)
    (replicate 50 inode0) sb0 (replicate 31 buf0) [] [] log0 empty input0 0 [] (replicate 2001 0) 0 0 0 0
    (replicate 10 None) 1 [] 0xFFFB empty None 0.

#[global] Instance proc_inhabited : Inhabited proc := populate proc0.
#[global] Instance file_inhabited : Inhabited file := populate file0.
#[global] Instance inode_inhabited : Inhabited inode := populate inode0.
#[global] Instance buf_inhabited : Inhabited buf := populate buf0.
#[global] Instance kernel_inhabited : Inhabited kernel := populate kernel0.

(** [ksimpl] computes field updates and projections; [krun] also runs the
    monad's primitives.  Neither unfolds the kernel's functions. *)
Ltac ksimpl := cbn [
  lname locked lcpu tf_edi tf_esi tf_ebp tf_oesp tf_ebx tf_edx tf_ecx tf_eax
  tf_gs tf_fs tf_es tf_ds tf_trapno tf_err tf_eip tf_cs tf_eflags tf_esp
  tf_ss c_edi c_esi c_ebx c_ebp c_eip p_sz p_pgdir p_kstack p_state p_pid
  p_parent p_tf p_context p_chan p_killed p_ofile p_cwd p_name p_priority
  p_timecpu lim_15_0 base_15_0 base_23_16 sd_type sd_s sd_dpl sd_p lim_19_16
  sd_avl sd_rsv1 sd_db sd_g base_31_24 cpu_id cpu_ncli cpu_intena cpu_eflags
  cpu_cr3 cpu_esp0 cpu_ss0 cpu_iomb cpu_tr cpu_gs cpu_gdt cpu_proc f_type
  f_ref f_readable f_writable f_pipe f_ip f_off i_dev i_inum i_ref i_flags
  i_type i_major i_minor i_nlink i_size i_addrs sb_size sb_nblocks
  sb_ninodes sb_nlog sb_logstart sb_inodestart sb_bmapstart b_flags b_dev
  b_blockno b_prev b_next b_data lg_start lg_size lg_outstanding
  lg_committing lg_dev lh_n lh_block pi_data pi_nread pi_nwrite pi_readopen
  pi_writeopen in_buf in_r in_w in_e sym_end sym_data sym_trapret
  sym_forkret sym_cpu sym_ts sym_initcode k_link k_cpu k_locks k_mem
  kmem_use_lock kmem_freelist k_kpgdir ptable nextpid initproc ftable icache
  k_sb bcache memdisk diskwrites k_log k_pipes k_input cons_locking conslog
  k_crt k_crtpos ticks k_count prioritybump k_devsw k_first k_ports
  k_irqmask k_ioapic k_lapic k_ismp set_tf_edi set_tf_esi set_tf_ebp
  set_tf_oesp set_tf_ebx set_tf_edx set_tf_ecx set_tf_eax set_tf_gs
  set_tf_fs set_tf_es set_tf_ds set_tf_trapno set_tf_err set_tf_eip
  set_tf_cs set_tf_eflags set_tf_esp set_tf_ss set_c_edi set_c_esi set_c_ebx
  set_c_ebp set_c_eip set_p_sz set_p_pgdir set_p_kstack set_p_state
  set_p_pid set_p_parent set_p_tf set_p_context set_p_chan set_p_killed
  set_p_ofile set_p_cwd set_p_name set_p_priority set_p_timecpu set_lim_15_0
  set_base_15_0 set_base_23_16 set_sd_type set_sd_s set_sd_dpl set_sd_p
  set_lim_19_16 set_sd_avl set_sd_rsv1 set_sd_db set_sd_g set_base_31_24
  set_cpu_id set_cpu_ncli set_cpu_intena set_cpu_eflags set_cpu_cr3
  set_cpu_esp0 set_cpu_ss0 set_cpu_iomb set_cpu_tr set_cpu_gs set_cpu_gdt
  set_cpu_proc set_f_type set_f_ref set_f_readable set_f_writable set_f_pipe
  set_f_ip set_f_off set_i_dev set_i_inum set_i_ref set_i_flags set_i_type
  set_i_major set_i_minor set_i_nlink set_i_size set_i_addrs set_b_flags
  set_b_dev set_b_blockno set_b_prev set_b_next set_b_data set_lg_start
  set_lg_size set_lg_outstanding set_lg_committing set_lg_dev set_lh_n
  set_lh_block set_pi_data set_pi_nread set_pi_nwrite set_pi_readopen
  set_pi_writeopen set_in_buf set_in_r set_in_w set_in_e set_k_link
  set_k_cpu set_k_locks set_k_mem set_kmem_use_lock set_kmem_freelist
  set_k_kpgdir set_ptable set_nextpid set_initproc set_ftable set_icache
  set_k_sb set_bcache set_memdisk set_diskwrites set_k_log set_k_pipes
  set_k_input set_cons_locking set_conslog set_k_crt set_k_crtpos set_ticks
  set_k_count set_prioritybump set_k_devsw set_k_first set_k_ports
  set_k_irqmask set_k_ioapic set_k_lapic set_k_ismp obind id Z.eqb Z.ltb
  Z.leb Z.compare Pos.eqb Pos.compare Pos.compare_cont negb andb orb fst snd
  default from_option unlocked option_map].
Ltac ksimpl_in H := cbn [
  lname locked lcpu tf_edi tf_esi tf_ebp tf_oesp tf_ebx tf_edx tf_ecx tf_eax
  tf_gs tf_fs tf_es tf_ds tf_trapno tf_err tf_eip tf_cs tf_eflags tf_esp
  tf_ss c_edi c_esi c_ebx c_ebp c_eip p_sz p_pgdir p_kstack p_state p_pid
  p_parent p_tf p_context p_chan p_killed p_ofile p_cwd p_name p_priority
  p_timecpu lim_15_0 base_15_0 base_23_16 sd_type sd_s sd_dpl sd_p lim_19_16
  sd_avl sd_rsv1 sd_db sd_g base_31_24 cpu_id cpu_ncli cpu_intena cpu_eflags
  cpu_cr3 cpu_esp0 cpu_ss0 cpu_iomb cpu_tr cpu_gs cpu_gdt cpu_proc f_type
  f_ref f_readable f_writable f_pipe f_ip f_off i_dev i_inum i_ref i_flags
  i_type i_major i_minor i_nlink i_size i_addrs sb_size sb_nblocks
  sb_ninodes sb_nlog sb_logstart sb_inodestart sb_bmapstart b_flags b_dev
  b_blockno b_prev b_next b_data lg_start lg_size lg_outstanding
  lg_committing lg_dev lh_n lh_block pi_data pi_nread pi_nwrite pi_readopen
  pi_writeopen in_buf in_r in_w in_e sym_end sym_data sym_trapret
  sym_forkret sym_cpu sym_ts sym_initcode k_link k_cpu k_locks k_mem
  kmem_use_lock kmem_freelist k_kpgdir ptable nextpid initproc ftable icache
  k_sb bcache memdisk diskwrites k_log k_pipes k_input cons_locking conslog
  k_crt k_crtpos ticks k_count prioritybump k_devsw k_first k_ports
  k_irqmask k_ioapic k_lapic k_ismp set_tf_edi set_tf_esi set_tf_ebp
  set_tf_oesp set_tf_ebx set_tf_edx set_tf_ecx set_tf_eax set_tf_gs
  set_tf_fs set_tf_es set_tf_ds set_tf_trapno set_tf_err set_tf_eip
  set_tf_cs set_tf_eflags set_tf_esp set_tf_ss set_c_edi set_c_esi set_c_ebx
  set_c_ebp set_c_eip set_p_sz set_p_pgdir set_p_kstack set_p_state
  set_p_pid set_p_parent set_p_tf set_p_context set_p_chan set_p_killed
  set_p_ofile set_p_cwd set_p_name set_p_priority set_p_timecpu set_lim_15_0
  set_base_15_0 set_base_23_16 set_sd_type set_sd_s set_sd_dpl set_sd_p
  set_lim_19_16 set_sd_avl set_sd_rsv1 set_sd_db set_sd_g set_base_31_24
  set_cpu_id set_cpu_ncli set_cpu_intena set_cpu_eflags set_cpu_cr3
  set_cpu_esp0 set_cpu_ss0 set_cpu_iomb set_cpu_tr set_cpu_gs set_cpu_gdt
  set_cpu_proc set_f_type set_f_ref set_f_readable set_f_writable set_f_pipe
  set_f_ip set_f_off set_i_dev set_i_inum set_i_ref set_i_flags set_i_type
  set_i_major set_i_minor set_i_nlink set_i_size set_i_addrs set_b_flags
  set_b_dev set_b_blockno set_b_prev set_b_next set_b_data set_lg_start
  set_lg_size set_lg_outstanding set_lg_committing set_lg_dev set_lh_n
  set_lh_block set_pi_data set_pi_nread set_pi_nwrite set_pi_readopen
  set_pi_writeopen set_in_buf set_in_r set_in_w set_in_e set_k_link
  set_k_cpu set_k_locks set_k_mem set_kmem_use_lock set_kmem_freelist
  set_k_kpgdir set_ptable set_nextpid set_initproc set_ftable set_icache
  set_k_sb set_bcache set_memdisk set_diskwrites set_k_log set_k_pipes
  set_k_input set_cons_locking set_conslog set_k_crt set_k_crtpos set_ticks
  set_k_count set_prioritybump set_k_devsw set_k_first set_k_ports
  set_k_irqmask set_k_ioapic set_k_lapic set_k_ismp obind id Z.eqb Z.ltb
  Z.leb Z.compare Pos.eqb Pos.compare Pos.compare_cont negb andb orb fst snd
  default from_option unlocked option_map] in H.
Ltac krun := cbv beta delta [bind ret gets modify when panic block]; ksimpl.

(** ** The kernel monad *)

Definition K (A : Type) : Type := M waiting kernel A.

(** [ptable.proc[i]], [ftable.file[i]], [icache.inode[i]], [bcache.buf[i]] and
    their updates. *)
Definition getproc (i : nat) : K proc := gets (fun k => ptable k !!! i).
Definition updproc (i : nat) (f : proc -> proc) : K unit :=
  modify (fun k => set_ptable (alter f i (ptable k)) k).
Definition getfile (i : nat) : K file := gets (fun k => ftable k !!! i).
Definition updfile (i : nat) (f : file -> file) : K unit :=
  modify (fun k => set_ftable (alter f i (ftable k)) k).
Definition getinode (i : nat) : K inode := gets (fun k => icache k !!! i).
Definition updinode (i : nat) (f : inode -> inode) : K unit :=
  modify (fun k => set_icache (alter f i (icache k)) k).
Definition getbuf (i : nat) : K buf := gets (fun k => bcache k !!! i).
Definition updbuf (i : nat) (f : buf -> buf) : K unit :=
  modify (fun k => set_bcache (alter f i (bcache k)) k).
Definition updlog (f : log_t -> log_t) : K unit :=
  modify (fun k => set_k_log (f (k_log k)) k).
Definition updcpu (f : cpu -> cpu) : K unit :=
  modify (fun k => set_k_cpu (f (k_cpu k)) k).
Definition updmem (f : gmap Z Z -> gmap Z Z) : K unit :=
  modify (fun k => set_k_mem (f (k_mem k)) k).

(** The current process [proc]; kernel code that uses it runs in a process. *)
Definition curproc : K nat := gets (fun k => default O (cpu_proc (k_cpu k))).
