(* ===== verification/Equiv.v ===== *)
(** * Equivalence of kernel code

    Two outcomes are similar when they agree up to a relation on the results: they
    return from the same state, stop with the same message, or give up the CPU in
    the same state and are similar however they go on.  This is coarser than
    equality of outcomes, which would compare continuations as functions. *)

From S2P Require Import Prelude State.

Section Sim.
Context {W S : Type}.

Inductive osim {A B : Type} (R : A -> B -> Prop) : outcome W S A -> outcome W S B -> Prop :=
| osim_ok a b s : R a b -> osim R (Ok a s) (Ok b s)
| osim_panic msg : osim R (Panic msg) (Panic msg)
| osim_blocked w s k1 k2 : (forall s', osim R (k1 s') (k2 s')) -> osim R (Blocked w s k1) (Blocked w s k2).

Definition msim {A B : Type} (R : A -> B -> Prop) (m1 : M W S A) (m2 : M W S B) : Prop :=
  forall s, osim R (m1 s) (m2 s).

Lemma osim_bind {A1 A2 B1 B2} (R : A1 -> A2 -> Prop) (Q : B1 -> B2 -> Prop) o1 o2 f1 f2 :
  osim R o1 o2 -> (forall a b, R a b -> msim Q (f1 a) (f2 b)) -> osim Q (obind o1 f1) (obind o2 f2).
Proof.
  intros H Hf. induction H as [a b s Hab|msg|w s k1 k2 Hk IH]; cbn.
  - now apply Hf.
  - constructor.
  - constructor. exact IH.
Qed.

Lemma msim_bind {A1 A2 B1 B2} (R : A1 -> A2 -> Prop) (Q : B1 -> B2 -> Prop) m1 m2 f1 f2 :
  msim R m1 m2 -> (forall a b, R a b -> msim Q (f1 a) (f2 b)) -> msim Q (bind m1 f1) (bind m2 f2).
Proof. intros H Hf s. exact (osim_bind R Q _ _ _ _ (H s) Hf). Qed.

Lemma osim_refl {A} (R : A -> A -> Prop) (o : outcome W S A) : (forall a, R a a) -> osim R o o.
Proof. intros HR. induction o; constructor; auto. Qed.

Lemma msim_refl {A} (m : M W S A) : msim eq m m.
Proof. intros s. now apply osim_refl. Qed.

Lemma msim_ret {A B} (R : A -> B -> Prop) a b : R a b -> msim R (ret a) (ret b).
Proof. intros H s. now constructor. Qed.

(** The same first step. *)
Lemma msim_step {A B1 B2} (Q : B1 -> B2 -> Prop) (m : M W S A) f1 f2 :
  (forall a, msim Q (f1 a) (f2 a)) -> msim Q (bind m f1) (bind m f2).
Proof. intros H. apply (msim_bind eq); [apply msim_refl|]. intros a b ->. apply H. Qed.

Lemma msim_mono {A B} (R Q : A -> B -> Prop) m1 m2 :
  (forall a b, R a b -> Q a b) -> msim R m1 m2 -> msim Q m1 m2.
Proof. intros HRQ H s. specialize (H s). induction H; constructor; auto. Qed.
End Sim.

(** Similarity with equal results is an equivalence. *)
Definition meq {A} : K A -> K A -> Prop := msim eq.

Lemma osim_sym {A} (o1 o2 : outcome waiting kernel A) : osim eq o1 o2 -> osim eq o2 o1.
Proof. induction 1; constructor; auto. Qed.

Lemma osim_trans {A} (o1 o2 o3 : outcome waiting kernel A) : osim eq o1 o2 -> osim eq o2 o3 -> osim eq o1 o3.
Proof.
  intros H. revert o3. induction H as [a b s ->|msg|w s k1 k2 Hk IH]; intros o3 H3; [done|done|].
  inversion H3; subst. constructor. auto.
Qed.

#[global] Instance meq_equiv {A} : Equivalence (@meq A).
Proof.
  split.
  - intros m. apply msim_refl.
  - intros m1 m2 H s. apply osim_sym, H.
  - intros m1 m2 m3 H1 H2 s. exact (osim_trans _ _ _ (H1 s) (H2 s)).
Qed.

#[global] Instance bind_proper {A B} :
  Proper (meq ==> pointwise_relation A meq ==> meq) (@bind waiting kernel A B).
Proof. intros m1 m2 H f1 f2 Hf. apply (msim_bind eq); [exact H|]. intros a b ->. apply Hf. Qed.
