(* ===== verification/CMem.v ===== *)
(** * Memory and string routines (string.c, x86.h)

    Memory is a finite map from addresses to bytes; an address that was never
    written reads 0.  The routines are written with the loops of string.c, and
    the theorems give what each leaves in every byte of memory. *)

From S2P Require Import Prelude.

(** ** Loads and stores *)

Definition load8 (m : gmap Z Z) (a : Z) : Z := default 0 (m !! a).
Definition store8 (m : gmap Z Z) (a v : Z) : gmap Z Z := <[a := u8 v]> m.

(** Little-endian 32-bit words. *)
Definition load32 (m : gmap Z Z) (a : Z) : Z :=
  load8 m a + load8 m (a + 1) * 2 ^ 8 + load8 m (a + 2) * 2 ^ 16
  + load8 m (a + 3) * 2 ^ 24.
Definition store32 (m : gmap Z Z) (a v : Z) : gmap Z Z :=
  store8 (store8 (store8 (store8 m a v) (a + 1) (v / 2 ^ 8)) (a + 2) (v / 2 ^ 16))
    (a + 3) (v / 2 ^ 24).

(** Every stored byte is in range. *)
Definition mem_ok (m : gmap Z Z) : Prop := forall a, 0 <= load8 m a < 256.

(** ** memset *)

(** [rep stosb] and [rep stosl] (x86.h). *)
Fixpoint stosb (m : gmap Z Z) (addr data : Z) (cnt : nat) : gmap Z Z :=
  match cnt with
  | O => m
  | S cnt' => stosb (store8 m addr data) (addr + 1) data cnt'
  end.

Fixpoint stosl (m : gmap Z Z) (addr data : Z) (cnt : nat) : gmap Z Z :=
  match cnt with
  | O => m
  | S cnt' => stosl (store32 m addr data) (addr + 4) data cnt'
  end.

Definition memset (m : gmap Z Z) (dst c n : Z) : gmap Z Z :=
  if (dst mod 4 =? 0) && (n mod 4 =? 0) then
    let c := Z.land c 0xFF in
    stosl m dst
      (Z.lor (Z.lor (Z.lor (Z.shiftl c 24) (Z.shiftl c 16)) (Z.shiftl c 8)) c)
      (Z.to_nat (n / 4))
  else stosb m dst c (Z.to_nat n).

(** ** memcmp, memmove *)

Fixpoint memcmp (m : gmap Z Z) (s1 s2 : Z) (n : nat) : Z :=
  match n with
  | O => 0
  | S n' =>
      if load8 m s1 =? load8 m s2 then memcmp m (s1 + 1) (s2 + 1) n'
      else load8 m s1 - load8 m s2
  end.

(** [while(n-- > 0) *d++ = *s++;] *)
Fixpoint copy_up (m : gmap Z Z) (d s : Z) (n : nat) : gmap Z Z :=
  match n with
  | O => m
  | S n' => copy_up (store8 m d (load8 m s)) (d + 1) (s + 1) n'
  end.

(** [while(n-- > 0) *--d = *--s;] *)
Fixpoint copy_down (m : gmap Z Z) (d s : Z) (n : nat) : gmap Z Z :=
  match n with
  | O => m
  | S n' => copy_down (store8 m (d - 1) (load8 m (s - 1))) (d - 1) (s - 1) n'
  end.

Definition memmove (m : gmap Z Z) (dst src n : Z) : gmap Z Z :=
  if (src <? dst) && (dst <? src + n) then
    copy_down m (dst + n) (src + n) (Z.to_nat n)
  else copy_up m dst src (Z.to_nat n).

(** ** Strings *)

Fixpoint strncmp (m : gmap Z Z) (p q : Z) (n : nat) : Z :=
  match n with
  | O => 0
  | S n' =>
      if negb (load8 m p =? 0) && (load8 m p =? load8 m q)
      then strncmp m (p + 1) (q + 1) n'
      else load8 m p - load8 m q
  end.

(** The first loop of [strncpy] returns the memory, the next destination and
    the count left for the padding loop. *)
Fixpoint strncpy_copy (m : gmap Z Z) (s t : Z) (n : nat) : gmap Z Z * Z * nat :=
  match n with
  | O => (m, s, O)
  | S n' =>
      let c := load8 m t in
      let m' := store8 m s c in
      if c =? 0 then (m', s + 1, n') else strncpy_copy m' (s + 1) (t + 1) n'
  end.

Fixpoint strncpy_pad (m : gmap Z Z) (s : Z) (n : nat) : gmap Z Z :=
  match n with
  | O => m
  | S n' => strncpy_pad (store8 m s 0) (s + 1) n'
  end.

Definition strncpy (m : gmap Z Z) (s t n : Z) : gmap Z Z :=
  let '(m1, s1, n1) := strncpy_copy m s t (Z.to_nat n) in strncpy_pad m1 s1 n1.

(** The loop of [safestrcpy] and its final NUL: [n] is the number of characters
    the loop may still copy. *)
Fixpoint safestrcpy_loop (m : gmap Z Z) (s t : Z) (n : nat) : gmap Z Z :=
  match n with
  | O => store8 m s 0
  | S n' =>
      let c := load8 m t in
      let m' := store8 m s c in
      if c =? 0 then store8 m' (s + 1) 0 else safestrcpy_loop m' (s + 1) (t + 1) n'
  end.

Definition safestrcpy (m : gmap Z Z) (s t n : Z) : gmap Z Z :=
  if n <=? 0 then m else safestrcpy_loop m s t (Z.to_nat (n - 1)).

(** [for(n = 0; s[n]; n++)], within [fuel] characters. *)
Fixpoint strlen_from (m : gmap Z Z) (s n : Z) (fuel : nat) : option Z :=
  match fuel with
  | O => None
  | S fuel' =>
      if load8 m (s + n) =? 0 then Some n else strlen_from m s (n + 1) fuel'
  end.

Definition strlen (m : gmap Z Z) (s : Z) (fuel : nat) : option Z :=
  strlen_from m s 0 fuel.

(** ** Lemmas on single accesses *)

Lemma load8_store8 m a v b :
  load8 (store8 m a v) b = if decide (a = b) then u8 v else load8 m b.
Proof.
  unfold load8, store8. rewrite lookup_insert. now case_decide.
Qed.

Lemma load8_store8_eq m a v : load8 (store8 m a v) a = u8 v.
Proof. rewrite load8_store8. now rewrite decide_True. Qed.

Lemma load8_store8_ne m a v b : a <> b -> load8 (store8 m a v) b = load8 m b.
Proof. intros H. rewrite load8_store8. now rewrite decide_False. Qed.

Lemma mem_ok_store8 m a v : mem_ok m -> mem_ok (store8 m a v).
Proof.
  intros H b. rewrite load8_store8. case_decide; [apply u8_range | apply H].
Qed.

Lemma u8_load m a : mem_ok m -> u8 (load8 m a) = load8 m a.
Proof. intros H. apply u8_small, H. Qed.

Create HintDb cmem.
Create Rewrite HintDb cmem.
#[export] Hint Rewrite load8_store8_eq : cmem.
#[export] Hint Rewrite load8_store8_ne using lia : cmem.
#[export] Hint Resolve mem_ok_store8 : cmem.

Lemma load32_store32_eq m a v : load32 (store32 m a v) a = u32 v.
Proof.
  unfold load32, store32. autorewrite with cmem.
  unfold u8, u32. Z.div_mod_to_equations. lia.
Qed.

Lemma load8_store32_ne m a v b :
  b < a \/ a + 4 <= b -> load8 (store32 m a v) b = load8 m b.
Proof. intros H. unfold store32. now autorewrite with cmem. Qed.

Lemma load32_store32_ne m a v b :
  b + 4 <= a \/ a + 4 <= b -> load32 (store32 m a v) b = load32 m b.
Proof. intros H. unfold load32. now rewrite !load8_store32_ne by lia. Qed.

Lemma mem_ok_store32 m a v : mem_ok m -> mem_ok (store32 m a v).
Proof. intros H. unfold store32. auto with cmem. Qed.

Lemma load32_range m a : mem_ok m -> 0 <= load32 m a < 2 ^ 32.
Proof.
  intros H. unfold load32.
  pose proof (H a); pose proof (H (a + 1)); pose proof (H (a + 2));
    pose proof (H (a + 3)). lia.
Qed.

Lemma load32_ext m m' a :
  (forall b, a <= b < a + 4 -> load8 m' b = load8 m b) -> load32 m' a = load32 m a.
Proof. intros H. unfold load32. now rewrite !H by lia. Qed.

(** ** memset *)

Lemma stosb_spec cnt : forall m addr data a,
  load8 (stosb m addr data cnt) a =
    if decide (addr <= a < addr + Z.of_nat cnt) then u8 data else load8 m a.
Proof.
  induction cnt as [|cnt IH]; intros m addr data a; cbn [stosb].
  - rewrite decide_False by lia. reflexivity.
  - rewrite IH, load8_store8. repeat case_decide; try reflexivity; lia.
Qed.

Lemma word_byte c i :
  0 <= c < 256 -> 0 <= i < 4 ->
  u8 (Z.lor (Z.lor (Z.lor (Z.shiftl c 24) (Z.shiftl c 16)) (Z.shiftl c 8)) c
      / 2 ^ (8 * i)) = c.
Proof.
  intros Hc Hi. unfold u8.
  assert (Hhi : forall n, 8 <= n -> Z.testbit c n = false).
  { intros n Hn. rewrite <- (Z.mod_small c (2 ^ 8)) by lia.
    apply Z.mod_pow2_bits_high. lia. }
  bitwise n Hn. destruct (Z.lt_ge_cases n 8).
  - rewrite Z.mod_pow2_bits_low, Z.div_pow2_bits by lia.
    rewrite !Z.lor_spec, !Z.shiftl_spec by lia.
    assert (Hlo : forall n, n < 0 -> Z.testbit c n = false)
      by (intros; now apply Z.testbit_neg_r).
    assert (i = 0 \/ i = 1 \/ i = 2 \/ i = 3) as [-> | [-> | [-> | ->]]] by lia;
      [ rewrite (Hlo (n + 8 * 0 - 24)), (Hlo (n + 8 * 0 - 16)), (Hlo (n + 8 * 0 - 8)) by lia
      | rewrite (Hlo (n + 8 * 1 - 24)), (Hlo (n + 8 * 1 - 16)), (Hhi (n + 8 * 1)) by lia
      | rewrite (Hlo (n + 8 * 2 - 24)), (Hhi (n + 8 * 2 - 8)), (Hhi (n + 8 * 2)) by lia
      | rewrite (Hhi (n + 8 * 3 - 16)), (Hhi (n + 8 * 3 - 8)), (Hhi (n + 8 * 3)) by lia ];
      rewrite ?orb_false_r, ?orb_false_l; f_equal; lia.
  - rewrite Z.mod_pow2_bits_high by lia. symmetry. now apply Hhi.
Qed.

Lemma stosl_spec cnt : forall m addr data a,
  (forall i, 0 <= i < 4 -> u8 (data / 2 ^ (8 * i)) = u8 data) ->
  load8 (stosl m addr data cnt) a =
    if decide (addr <= a < addr + 4 * Z.of_nat cnt) then u8 data else load8 m a.
Proof.
  induction cnt as [|cnt IH]; intros m addr data a Hd; cbn [stosl].
  - rewrite decide_False by lia. reflexivity.
  - rewrite IH by done. unfold store32. rewrite !load8_store8.
    pose proof (Hd 1 ltac:(lia)) as H1. pose proof (Hd 2 ltac:(lia)) as H2.
    pose proof (Hd 3 ltac:(lia)) as H3.
    change (8 * 1) with 8 in H1. change (8 * 2) with 16 in H2.
    change (8 * 3) with 24 in H3. rewrite H1, H2, H3.
    repeat case_decide; try reflexivity; lia.
Qed.

(** The word-filling path of [memset] and its byte-filling path leave the same
    memory: [n] bytes of value [c] from [dst] on, and nothing else changed. *)
Lemma memset_spec m dst c n a :
  0 <= n ->
  load8 (memset m dst c n) a =
    if decide (dst <= a < dst + n) then u8 c else load8 m a.
Proof.
  intros Hn. unfold memset.
  destruct ((dst mod 4 =? 0) && (n mod 4 =? 0)) eqn:E.
  - apply andb_true_iff in E as [_ E%Z.eqb_eq].
    assert (Hc : Z.land c 0xFF = u8 c) by (apply (Z.land_ones c 8); lia).
    pose proof (u8_range c) as Hr. rewrite <- Hc in Hr |- *.
    set (c' := Z.land c 0xFF) in *. clearbody c'.
    pose proof (word_byte c' 0 Hr ltac:(lia)) as H0.
    change (2 ^ (8 * 0)) with 1 in H0. rewrite Z.div_1_r in H0.
    rewrite stosl_spec.
    + rewrite H0, Z2Nat.id by (apply Z.div_pos; lia).
      replace (4 * (n / 4)) with n by (pose proof (Z.div_mod n 4); lia). reflexivity.
    + intros i Hi. rewrite word_byte by lia. now rewrite H0.
  - rewrite stosb_spec, Z2Nat.id by done. reflexivity.
Qed.

Lemma mem_ok_memset m dst c n : 0 <= n -> mem_ok m -> mem_ok (memset m dst c n).
Proof.
  intros Hn H a. rewrite memset_spec by done. case_decide; [apply u8_range | apply H].
Qed.

(** ** memcmp, memmove *)

Lemma memcmp_spec n : forall m s1 s2,
  memcmp m s1 s2 n = 0 <->
  (forall i, 0 <= i < Z.of_nat n -> load8 m (s1 + i) = load8 m (s2 + i)).
Proof.
  induction n as [|n IH]; intros m s1 s2; cbn [memcmp].
  - split; [intros _ i; lia | done].
  - destruct (Z.eqb_spec (load8 m s1) (load8 m s2)) as [E|E].
    + rewrite IH. split; intros H i Hi.
      * destruct (Z.eq_dec i 0) as [->|]; [now rewrite !Z.add_0_r|].
        replace (s1 + i) with (s1 + 1 + (i - 1)) by lia.
        replace (s2 + i) with (s2 + 1 + (i - 1)) by lia. apply H. lia.
      * replace (s1 + 1 + i) with (s1 + (1 + i)) by lia.
        replace (s2 + 1 + i) with (s2 + (1 + i)) by lia. apply H. lia.
    + split; [lia|]. intros H. specialize (H 0 ltac:(lia)).
      rewrite !Z.add_0_r in H. lia.
Qed.

Lemma copy_up_spec n : forall m d s a,
  mem_ok m -> d <= s \/ s + Z.of_nat n <= d ->
  load8 (copy_up m d s n) a =
    if decide (d <= a < d + Z.of_nat n) then load8 m (s + (a - d)) else load8 m a.
Proof.
  induction n as [|n IH]; intros m d s a Hok Hsep; cbn [copy_up].
  - rewrite decide_False by lia. reflexivity.
  - rewrite IH by (auto with cmem; lia). rewrite !load8_store8, u8_load by done.
    repeat case_decide; try lia; try (f_equal; lia).
Qed.

Lemma copy_down_spec n : forall m d s a,
  mem_ok m -> s <= d ->
  load8 (copy_down m d s n) a =
    if decide (d - Z.of_nat n <= a < d) then load8 m (s + (a - d)) else load8 m a.
Proof.
  induction n as [|n IH]; intros m d s a Hok Hsep; cbn [copy_down].
  - rewrite decide_False by lia. reflexivity.
  - rewrite IH by (auto with cmem; lia). rewrite !load8_store8, u8_load by done.
    repeat case_decide; try lia; try (f_equal; lia).
Qed.

(** [memmove] is right for every overlap of the two regions. *)
Lemma memmove_spec m dst src n a :
  mem_ok m -> 0 <= n ->
  load8 (memmove m dst src n) a =
    if decide (dst <= a < dst + n) then load8 m (src + (a - dst)) else load8 m a.
Proof.
  intros Hok Hn. unfold memmove.
  destruct ((src <? dst) && (dst <? src + n)) eqn:E.
  - rewrite copy_down_spec by (done || lia). rewrite Z2Nat.id by done.
    repeat case_decide; try lia; try (f_equal; lia).
  - rewrite copy_up_spec by (done || lia). now rewrite Z2Nat.id by done.
Qed.

Lemma mem_ok_memmove m dst src n : 0 <= n -> mem_ok m -> mem_ok (memmove m dst src n).
Proof. intros Hn H a. rewrite memmove_spec by done. case_decide; apply H. Qed.

(** ** Strings *)

(** [strl m s l]: a string of [l] non-NUL characters stands at [s]. *)
Definition strl (m : gmap Z Z) (s l : Z) : Prop :=
  0 <= l /\ load8 m (s + l) = 0 /\ forall i, 0 <= i < l -> load8 m (s + i) <> 0.

Lemma strlen_from_spec fuel : forall m s n l,
  strl m s l -> 0 <= n <= l -> l < n + Z.of_nat fuel ->
  strlen_from m s n fuel = Some l.
Proof.
  induction fuel as [|fuel IH]; intros m s n l Hs Hn Hf; [lia|]. cbn [strlen_from].
  destruct Hs as (Hl & H0 & Hne).
  destruct (Z.eqb_spec (load8 m (s + n)) 0) as [E|E].
  - destruct (Z.eq_dec n l); [congruence|]. now destruct (Hne n ltac:(lia)).
  - destruct (Z.eq_dec n l) as [->|]; [done|]. apply IH; try lia. now split.
Qed.

Lemma strlen_spec m s l fuel :
  strl m s l -> l < Z.of_nat fuel -> strlen m s fuel = Some l.
Proof. intros Hs Hf. apply strlen_from_spec; [done | destruct Hs; lia | lia]. Qed.

(** [strncmp] is 0 exactly when the two strings agree up to the first NUL or
    the first [n] characters. *)
Lemma strncmp_spec n : forall m p q,
  strncmp m p q n = 0 <->
  exists k, 0 <= k <= Z.of_nat n /\
    (forall i, 0 <= i < k -> load8 m (p + i) = load8 m (q + i)) /\
    (k = Z.of_nat n \/ (load8 m (p + k) = 0 /\ load8 m (q + k) = 0)).
Proof.
  induction n as [|n IH]; intros m p q; cbn [strncmp].
  - split; [intros _; exists 0|done]. split; [lia|]. split; [intros; lia|]. now left.
  - destruct (Z.eqb_spec (load8 m p) 0) as [E0|E0]; cbn [negb andb].
    { split.
      - intros H. exists 0. rewrite !Z.add_0_r. split; [lia|]. split; [intros; lia|].
        right. lia.
      - intros (k & Hk & Heq & Hend).
        destruct (Z.eq_dec k 0) as [->|].
        + rewrite !Z.add_0_r in Hend. lia.
        + specialize (Heq 0 ltac:(lia)). rewrite !Z.add_0_r in Heq. lia. }
    destruct (Z.eqb_spec (load8 m p) (load8 m q)) as [E|E].
    + rewrite IH. split; intros (k & Hk & Heq & Hend).
      * exists (k + 1). split; [lia|]. split.
        -- intros i Hi. destruct (Z.eq_dec i 0) as [->|]; [now rewrite !Z.add_0_r|].
           replace (p + i) with (p + 1 + (i - 1)) by lia.
           replace (q + i) with (q + 1 + (i - 1)) by lia. apply Heq. lia.
        -- replace (p + (k + 1)) with (p + 1 + k) by lia.
           replace (q + (k + 1)) with (q + 1 + k) by lia.
           destruct Hend; [left; lia | now right].
      * destruct (Z.eq_dec k 0) as [->|].
        { rewrite !Z.add_0_r in Hend. lia. }
        exists (k - 1). split; [lia|]. split.
        -- intros i Hi. replace (p + 1 + i) with (p + (1 + i)) by lia.
           replace (q + 1 + i) with (q + (1 + i)) by lia. apply Heq. lia.
        -- replace (p + 1 + (k - 1)) with (p + k) by lia.
           replace (q + 1 + (k - 1)) with (q + k) by lia.
           destruct Hend; [left; lia | now right].
    + split; [lia|]. intros (k & Hk & Heq & Hend).
      destruct (Z.eq_dec k 0) as [->|].
      * rewrite !Z.add_0_r in Hend. lia.
      * specialize (Heq 0 ltac:(lia)). rewrite !Z.add_0_r in Heq. lia.
Qed.

Lemma strncpy_pad_spec n : forall m s a,
  load8 (strncpy_pad m s n) a =
    if decide (s <= a < s + Z.of_nat n) then 0 else load8 m a.
Proof.
  induction n as [|n IH]; intros m s a; cbn [strncpy_pad].
  - now rewrite decide_False by lia.
  - rewrite IH, load8_store8. change (u8 0) with 0. repeat case_decide; done || lia.
Qed.

(** What [strncpy] leaves in the [i]-th byte of its destination. *)
Definition strncpy_byte (m r : gmap Z Z) (s t i : Z) : Prop :=
  ((forall j, 0 <= j < i -> load8 m (t + j) <> 0) -> load8 r (s + i) = load8 m (t + i)) /\
  ((exists j, 0 <= j < i /\ load8 m (t + j) = 0) -> load8 r (s + i) = 0).

Lemma strncpy_byte_shift m m' r s t i :
  0 < i -> load8 m t <> 0 ->
  (forall j, 1 <= j <= i -> load8 m' (t + j) = load8 m (t + j)) ->
  strncpy_byte m' r (s + 1) (t + 1) (i - 1) -> strncpy_byte m r s t i.
Proof.
  intros Hi H0 Hm [H1 H2]. split.
  - intros Hn. replace (s + i) with (s + 1 + (i - 1)) by lia. rewrite H1.
    + replace (t + 1 + (i - 1)) with (t + i) by lia. apply Hm. lia.
    + intros j Hj. replace (t + 1 + j) with (t + (1 + j)) by lia.
      rewrite Hm by lia. apply Hn. lia.
  - intros (j & Hj & E). replace (s + i) with (s + 1 + (i - 1)) by lia. apply H2.
    destruct (Z.eq_dec j 0) as [->|]; [now rewrite Z.add_0_r in E|].
    exists (j - 1). split; [lia|].
    replace (t + 1 + (j - 1)) with (t + j) by lia. now rewrite Hm by lia.
Qed.

Lemma strncpy_loop_spec n : forall m s t,
  mem_ok m -> s + Z.of_nat n <= t \/ t + Z.of_nat n <= s ->
  let r := let '(m1, s1, n1) := strncpy_copy m s t n in strncpy_pad m1 s1 n1 in
  (forall a, a < s \/ s + Z.of_nat n <= a -> load8 r a = load8 m a) /\
  (forall i, 0 <= i < Z.of_nat n -> strncpy_byte m r s t i).
Proof.
  induction n as [|n IH]; intros m s t Hok Hsep; cbn [strncpy_copy].
  { split; [intros; reflexivity | intros; lia]. }
  destruct (Z.eqb_spec (load8 m t) 0) as [E|E].
  - split.
    + intros a Ha. rewrite strncpy_pad_spec, decide_False by lia.
      apply load8_store8_ne. lia.
    + intros i Hi. unfold strncpy_byte. rewrite strncpy_pad_spec, load8_store8, u8_load by done.
      destruct (Z.eq_dec i 0) as [->|]; rewrite ?Z.add_0_r.
      * rewrite decide_False, decide_True by lia. split; [done|].
        intros (j & Hj & _). lia.
      * rewrite decide_True by lia. split; [|done]. intros Hn.
        specialize (Hn 0 ltac:(lia)). now rewrite Z.add_0_r in Hn.
  - specialize (IH (store8 m s (load8 m t)) (s + 1) (t + 1)
                  ltac:(auto with cmem) ltac:(lia)) as [Hout Hin].
    split.
    + intros a Ha. rewrite Hout by lia. apply load8_store8_ne. lia.
    + intros i Hi. destruct (Z.eq_dec i 0) as [->|].
      * split; [|intros (j & Hj & _); lia]. intros _. rewrite !Z.add_0_r, Hout by lia.
        now rewrite load8_store8_eq, u8_load.
      * eapply strncpy_byte_shift; [lia | done | | apply Hin; lia].
        intros j Hj. apply load8_store8_ne. lia.
Qed.

(** [strncpy] writes exactly [n] bytes: the source up to its first NUL, then
    zeros. *)
Lemma strncpy_spec m s t n :
  mem_ok m -> 0 <= n -> s + n <= t \/ t + n <= s ->
  (forall a, a < s \/ s + n <= a -> load8 (strncpy m s t n) a = load8 m a) /\
  (forall i, 0 <= i < n -> strncpy_byte m (strncpy m s t n) s t i).
Proof.
  intros Hok Hn Hsep.
  pose proof (strncpy_loop_spec (Z.to_nat n) m s t Hok) as H.
  rewrite Z2Nat.id in H by done. exact (H Hsep).
Qed.

Lemma safestrcpy_loop_spec n : forall m s t,
  mem_ok m -> s + Z.of_nat n < t \/ t + Z.of_nat n <= s ->
  let r := safestrcpy_loop m s t n in
  (forall a, a < s \/ s + Z.of_nat n < a -> load8 r a = load8 m a) /\
  exists l, 0 <= l <= Z.of_nat n /\ strl r s l /\
    (forall i, 0 <= i < l -> load8 r (s + i) = load8 m (t + i)) /\
    (l = Z.of_nat n \/ load8 m (t + l) = 0).
Proof.
  induction n as [|n IH]; intros m s t Hok Hsep; cbn [safestrcpy_loop].
  { split; [intros; apply load8_store8_ne; lia|]. exists 0. unfold strl.
    rewrite Z.add_0_r, load8_store8_eq.
    split; [lia|]. split; [split_and!; try done; intros; lia|].
    split; [intros; lia | now left]. }
  destruct (Z.eqb_spec (load8 m t) 0) as [E|E].
  - split; [intros; autorewrite with cmem; done|]. exists 0. unfold strl.
    rewrite !Z.add_0_r. autorewrite with cmem. rewrite E. change (u8 0) with 0.
    split; [lia|]. split; [split_and!; try done; intros; lia|].
    split; [intros; lia | now right].
  - specialize (IH (store8 m s (load8 m t)) (s + 1) (t + 1)
                  ltac:(auto with cmem) ltac:(lia)) as [Hout (l & Hl & (_ & Hz & Hnz) & Hin & Hend)].
    split; [intros a Ha; rewrite Hout by lia; apply load8_store8_ne; lia|].
    set (r := safestrcpy_loop _ _ _ _) in *.
    assert (Hr0 : load8 r s = load8 m t)
      by (rewrite Hout by lia; now rewrite load8_store8_eq, u8_load).
    exists (l + 1). unfold strl. replace (s + (l + 1)) with (s + 1 + l) by lia.
    split; [lia|]. split; [split_and!; [lia | done |]|split].
    + intros i Hi. destruct (Z.eq_dec i 0) as [->|]; [now rewrite Z.add_0_r, Hr0|].
      replace (s + i) with (s + 1 + (i - 1)) by lia. apply Hnz. lia.
    + intros i Hi. destruct (Z.eq_dec i 0) as [->|]; [now rewrite !Z.add_0_r|].
      replace (s + i) with (s + 1 + (i - 1)) by lia. rewrite Hin by lia.
      rewrite load8_store8_ne by lia. f_equal. lia.
    + destruct (Z.eq_dec l (Z.of_nat n)) as [->|]; [left; lia|].
      destruct Hend as [->|Hend]; [lia|]. right.
      rewrite load8_store8_ne in Hend by lia. now replace (t + (l + 1)) with (t + 1 + l) by lia.
Qed.

(** [safestrcpy] always leaves a NUL-terminated string, writes nothing outside
    its [n] bytes, and keeps the longest prefix that fits. *)
Lemma safestrcpy_spec m s t n :
  mem_ok m -> 0 < n -> s + n <= t \/ t + n <= s ->
  (forall a, a < s \/ s + n <= a -> load8 (safestrcpy m s t n) a = load8 m a) /\
  exists l, 0 <= l < n /\ strl (safestrcpy m s t n) s l /\
    (forall i, 0 <= i < l -> load8 (safestrcpy m s t n) (s + i) = load8 m (t + i)) /\
    (l = n - 1 \/ load8 m (t + l) = 0).
Proof.
  intros Hok Hn Hsep. unfold safestrcpy.
  destruct (Z.leb_spec n 0); [lia|].
  pose proof (safestrcpy_loop_spec (Z.to_nat (n - 1)) m s t Hok) as H1.
  rewrite Z2Nat.id in H1 by lia. destruct H1 as [Hout (l & Hl & Hstr & Hin & Hend)]; [lia|].
  split; [intros a Ha; apply Hout; lia|]. exists l. split_and!; [lia|lia|done|done|].
  destruct Hend; [left; lia | now right].
Qed.

(**  [memmove] and [memset] on every byte of memory: [memmove] copies the
    source as it was before the call whatever the overlap of the regions, the
    word-at-a-time and byte-at-a-time paths of [memset] agree, and neither
    touches a byte outside its destination. *)
Lemma memmove_memset_correct m dst src c n a :
  mem_ok m -> 0 <= n ->
  load8 (memmove m dst src n) a
    = (if decide (dst <= a < dst + n) then load8 m (src + (a - dst)) else load8 m a) /\
  load8 (memset m dst c n) a
    = (if decide (dst <= a < dst + n) then u8 c else load8 m a).
Proof. intros Hok Hn. split; [now apply memmove_spec | now apply memset_spec]. Qed.

(** A memory holding the given bytes from [a] on. *)
Fixpoint mem_of (a : Z) (bs : list Z) : gmap Z Z :=
  match bs with
  | [] => ∅
  | b :: bs' => store8 (mem_of (a + 1) bs') a b
  end.

Lemma mem_ok_empty : mem_ok ∅.
Proof. intros a. unfold load8. rewrite lookup_empty. cbn. lia. Qed.

Lemma mem_of_ok bs : forall a, mem_ok (mem_of a bs).
Proof.
  induction bs as [|b bs IH]; intros a; cbn; [apply mem_ok_empty | auto with cmem].
Qed.

Lemma memmove_memset_correct_witness :
  load8 (memmove (mem_of 8 [1; 2; 3; 4; 5]) 9 8 4) 12 = 4 /\
  load8 (memset (mem_of 8 [1; 2; 3; 4; 5]) 8 0x1ff 4) 11 = 0xff.
Proof.
  pose proof (memmove_memset_correct (mem_of 8 [1; 2; 3; 4; 5]) 9 8 0 4 12
                (mem_of_ok _ _) ltac:(lia)) as [-> _].
  pose proof (memmove_memset_correct (mem_of 8 [1; 2; 3; 4; 5]) 8 8 0x1ff 4 11
                (mem_of_ok _ _) ltac:(lia)) as [_ ->].
  split; reflexivity.
Defined.

(**  Strings: [strlen] finds the first NUL whenever it is within reach;
    [strncpy] copies up to the first NUL and pads to exactly [n] bytes;
    [safestrcpy] always leaves a NUL-terminated prefix.  Both copies stay inside
    the destination. *)
Lemma string_copies_correct m s t n :
  mem_ok m -> 0 < n -> s + n <= t \/ t + n <= s ->
  (forall l fuel, strl m s l -> l < Z.of_nat fuel -> strlen m s fuel = Some l) /\
  (forall a, a < s \/ s + n <= a ->
     load8 (strncpy m s t n) a = load8 m a /\ load8 (safestrcpy m s t n) a = load8 m a) /\
  (forall i, 0 <= i < n -> strncpy_byte m (strncpy m s t n) s t i) /\
  (exists l, 0 <= l < n /\ strl (safestrcpy m s t n) s l /\
     (forall i, 0 <= i < l -> load8 (safestrcpy m s t n) (s + i) = load8 m (t + i)) /\
     (l = n - 1 \/ load8 m (t + l) = 0)).
Proof.
  intros Hok Hn Hsep.
  destruct (strncpy_spec m s t n Hok ltac:(lia) Hsep) as [H1 H2].
  destruct (safestrcpy_spec m s t n Hok Hn Hsep) as [H3 H4].
  split_and!; [intros; now apply strlen_spec | auto | done | done].
Qed.

Lemma string_copies_correct_witness :
  let m := mem_of 0x100 [97; 98; 99; 0; 120] in
  (0 < 3 /\ (0x200 + 3 <= 0x100 \/ 0x100 + 3 <= 0x200)) /\
  exists l, 0 <= l < 3 /\ strl (safestrcpy m 0x200 0x100 3) 0x200 l /\
     (forall i, 0 <= i < l -> load8 (safestrcpy m 0x200 0x100 3) (0x200 + i) = load8 m (0x100 + i)) /\
     (l = 3 - 1 \/ load8 m (0x100 + l) = 0).
Proof.
  split; [lia|].
  apply (string_copies_correct (mem_of 0x100 [97; 98; 99; 0; 120]) 0x200 0x100 3);
    [apply mem_of_ok | lia | lia].
Defined.
