(* ===== verification/Strings.v ===== *)
(** * Strings in local arrays (string.c)

    The string routines on character arrays that live in a C local variable or
    a structure field: an array is the list of its bytes, and a string literal
    the list of its characters, so reading past the end of the list is reading the
    terminating NUL.  CMem.v has the same routines on byte-addressed memory. *)

From S2P Require Import Prelude State.

(** The string in a character array. *)
Fixpoint cstr (l : list Z) : list Z :=
  match l with
  | [] => []
  | b :: l' => if b =? 0 then [] else b :: cstr l'
  end.

Fixpoint strncmp_arr (n : nat) (p q : list Z) : Z :=
  match n with
  | O => 0
  | S n' =>
      let a := default 0 (head p) in
      let b := default 0 (head q) in
      if negb (a =? 0) && (a =? b) then strncmp_arr n' (tail p) (tail q)
      else u8 a - u8 b
  end.

(** The [n] bytes [strncpy] stores. *)
Fixpoint strncpy_arr (n : nat) (t : list Z) : list Z :=
  match n with
  | O => []
  | S n' =>
      let c := default 0 (head t) in
      if c =? 0 then replicate n 0 else c :: strncpy_arr n' (tail t)
  end.

(** The bytes [safestrcpy(s, t, n+1)] stores: at most [n] characters; the NUL
    that ends a shorter string is stored twice. *)
Fixpoint safestrcpy_bytes (n : nat) (t : list Z) : list Z :=
  match n with
  | O => [0]
  | S n' =>
      let c := default 0 (head t) in
      if c =? 0 then [0; 0] else c :: safestrcpy_bytes n' (tail t)
  end.

Definition safestrcpy_arr (s t : list Z) (n : nat) : list Z :=
  match n with
  | O => s
  | S n' => list_inserts 0 (safestrcpy_bytes n' t) s
  end.

(** The bytes of the string [s] with no NUL among them. *)
Definition is_str (s : list Z) : Prop := Forall (fun c => 0 < c < 256) s.

Lemma is_str_head s : is_str s -> s <> [] -> 0 < default 0 (head s) < 256.
Proof. intros H Hs. destruct H; [done|]. cbn. done. Qed.

Lemma cstr_is_str l : Forall (fun c => 0 <= c < 256) l -> is_str (cstr l).
Proof.
  induction 1 as [|b l Hb Hl IH]; cbn; [constructor|].
  destruct (Z.eqb_spec b 0); [constructor|]. constructor; [lia|exact IH].
Qed.

Lemma cstr_app_nul s r : is_str s -> cstr (s ++ 0 :: r) = s.
Proof.
  induction 1 as [|b l Hb Hl IH]; cbn; [done|].
  destruct (Z.eqb_spec b 0); [lia|]. now rewrite IH.
Qed.

Lemma length_strncpy_arr n : forall t, length (strncpy_arr n t) = n.
Proof.
  induction n as [|n IH]; intros t; cbn; [done|].
  destruct (_ =? 0); cbn; [now rewrite length_replicate|]. now rewrite IH.
Qed.

(** What [strncpy] stores is the string, cut off or padded with NULs. *)
Lemma strncpy_arr_spec n : forall t, is_str t ->
  strncpy_arr n t = take n t ++ replicate (n - length t) 0.
Proof.
  induction n as [|n IH]; intros t Ht; [done|].
  destruct Ht as [|c t Hc Ht]; cbn; [done|].
  destruct (Z.eqb_spec c 0); [lia|]. cbn. now rewrite IH.
Qed.

(** [strncmp] compares the first [n] characters of two strings. *)
Lemma strncmp_arr_eq n : forall p q r1 r2, is_str p -> is_str q ->
  (strncmp_arr n (p ++ 0 :: r1) (q ++ 0 :: r2) = 0 <-> take n p = take n q).
Proof.
  induction n as [|n IH]; intros p q r1 r2 Hp Hq; [done|].
  destruct Hp as [|a p Ha Hp], Hq as [|b q Hb Hq]; cbn; try done.
  - unfold u8. rewrite (Z.mod_small 0), (Z.mod_small b) by lia. split; [lia|done].
  - destruct (Z.eqb_spec a 0); [lia|]. destruct (Z.eqb_spec a 0); [lia|]. cbn.
    unfold u8. rewrite (Z.mod_small 0), (Z.mod_small a) by lia. split; [lia|done].
  - destruct (Z.eqb_spec a 0); [lia|]. destruct (Z.eqb_spec a b) as [->|Hne]; cbn.
    + rewrite IH by done. split; [now intros ->|now intros [= ->]].
    + unfold u8. rewrite !Z.mod_small by lia. split; [lia|]. now intros [= ].
Qed.

(** After [safestrcpy] the array holds the string, cut off to [n-1] characters. *)
Lemma cstr_safestrcpy n : forall s t, is_str t -> (n < length s)%nat ->
  cstr (list_inserts 0 (safestrcpy_bytes n t) s) = take n t.
Proof.
  induction n as [|n IH]; intros s t Ht Hs; (destruct s as [|x s]; cbn in Hs; [lia|]); [done|].
  destruct Ht as [|c t Hc Ht]; cbn [safestrcpy_bytes head default tail]; cbn.
  - done.
  - rewrite (proj2 (Z.eqb_neq c 0)) by lia. cbn [list_inserts]. rewrite list_inserts_cons. cbn.
    rewrite (proj2 (Z.eqb_neq c 0)) by lia. f_equal. apply IH; [done|lia].
Qed.
