(* ===== verification/Spinlock.v ===== *)
(** * Spin locks and interrupt masking (spinlock.c)

    [acquire], [release], [pushcli], [popcli] and [holding] as operations on the
    kernel state of one CPU, and the frame lemmas the other files use: on a free
    lock, [acquire] and [release] bracket a critical section and restore the CPU
    and the lock exactly.  Module [Smp] models the same code on several CPUs,
    one memory access at a time, for mutual exclusion. *)

From stdpp Require Import functions.
From S2P Require Import Prelude State CMem.

(** ** The operations *)

Definition initlock (l : lockid) (name : string) : K unit :=
  modify (fun k => set_k_locks (<[l := mkSpinlock name 0 None]> (k_locks k)) k).

Definition readeflags : K Z := gets (fun k => cpu_eflags (k_cpu k)).
Definition cli : K unit :=
  updcpu (fun c => set_cpu_eflags (Z.ldiff (cpu_eflags c) FL_IF) c).
Definition sti : K unit :=
  updcpu (fun c => set_cpu_eflags (Z.lor (cpu_eflags c) FL_IF) c).

Definition pushcli : K unit :=
  eflags <- readeflags ;;
  cli ;;
  ncli <- gets (fun k => cpu_ncli (k_cpu k)) ;;
  updcpu (set_cpu_ncli (ncli + 1)) ;;
  when (ncli =? 0) (updcpu (set_cpu_intena (Z.land eflags FL_IF))).

Definition popcli : K unit :=
  eflags <- readeflags ;;
  if has eflags FL_IF then panic "popcli - interruptible" else
  updcpu (fun c => set_cpu_ncli (cpu_ncli c - 1) c) ;;
  c <- gets k_cpu ;;
  if cpu_ncli c <? 0 then panic "popcli" else
  when ((cpu_ncli c =? 0) && negb (cpu_intena c =? 0)) sti.

Definition getlock (l : lockid) (k : kernel) : spinlock :=
  default (unlocked "") (k_locks k !! l).

Definition updlock (l : lockid) (f : spinlock -> spinlock) : K unit :=
  modify (fun k => set_k_locks (<[l := f (getlock l k)]> (k_locks k)) k).

Definition holding (l : lockid) : K bool :=
  gets (fun k =>
    negb (locked (getlock l k) =? 0) &&
    bool_decide (lcpu (getlock l k) = Some (cpu_id (k_cpu k)))).

(** [xchg(&lk->locked, v)]: returns the old value. *)
Definition xchg_locked (l : lockid) (v : Z) : K Z :=
  old <- gets (fun k => locked (getlock l k)) ;;
  updlock l (fun lk => mkSpinlock (lname lk) v (lcpu lk)) ;;
  ret old.

(** [while(xchg(&lk->locked, 1) != 0)]: a thread that finds the lock taken goes on
    when its exchange succeeds. *)
Definition acquire (l : lockid) : K unit :=
  pushcli ;;
  h <- holding l ;;
  if h : bool then panic "acquire" else
  old <- xchg_locked l 1 ;;
  when (negb (old =? 0))
    (block (WSpin l) ;; updlock l (fun lk => mkSpinlock (lname lk) 1 (lcpu lk))) ;;
  id <- gets (fun k => cpu_id (k_cpu k)) ;;
  updlock l (fun lk => mkSpinlock (lname lk) (locked lk) (Some id)).

Definition release (l : lockid) : K unit :=
  h <- holding l ;;
  if negb h then panic "release" else
  updlock l (fun lk => mkSpinlock (lname lk) (locked lk) None) ;;
  updlock l (fun lk => mkSpinlock (lname lk) 0 (lcpu lk)) ;;
  popcli.

(** [getcallerpcs] follows the %ebp chain from [v], at most ten frames. *)
Fixpoint getcallerpcs_loop (m : gmap Z Z) (ebp : Z) (i : nat) : list Z :=
  match i with
  | O => []
  | S i' =>
      if (ebp =? 0) || (ebp <? KERNBASE) || (ebp =? 0xffffffff)
      then replicate i 0
      else load32 m (ebp + 4) :: getcallerpcs_loop m (load32 m ebp) i'
  end.

Definition getcallerpcs (m : gmap Z Z) (v : Z) : list Z :=
  getcallerpcs_loop m (v - 8) 10.

(** ** One CPU *)

(** A CPU between kernel operations: when nothing is pushed the saved interrupt
    flag agrees with the register, and otherwise interrupts are off. *)
Definition cpu_ok (c : cpu) : Prop :=
  0 <= cpu_ncli c /\
  (cpu_ncli c = 0 -> cpu_intena c = Z.land (cpu_eflags c) FL_IF) /\
  (0 < cpu_ncli c -> has (cpu_eflags c) FL_IF = false).

Definition lock_free (l : lockid) (k : kernel) : Prop :=
  exists nm, k_locks k !! l = Some (unlocked nm).

(** The CPU after [pushcli] and the kernel after [acquire] on a free lock. *)
Definition pushed (c : cpu) : cpu :=
  set_cpu_intena (if cpu_ncli c =? 0 then Z.land (cpu_eflags c) FL_IF else cpu_intena c)
    (set_cpu_ncli (cpu_ncli c + 1)
       (set_cpu_eflags (Z.ldiff (cpu_eflags c) FL_IF) c)).

Definition held (l : lockid) (k : kernel) : kernel :=
  set_k_cpu (pushed (k_cpu k))
    (set_k_locks
       (<[l := mkSpinlock (lname (getlock l k)) 1 (Some (cpu_id (k_cpu k)))]> (k_locks k)) k).

Lemma has_FL_IF f : has f FL_IF = Z.testbit f 9.
Proof. apply (has_pow2 f 9). lia. Qed.

Lemma testbit_FL_IF n : 0 <= n -> Z.testbit FL_IF n = (n =? 9).
Proof.
  intros Hn. change FL_IF with (2 ^ 9).
  destruct (Z.eqb_spec n 9) as [->|]; [now apply Z.pow2_bits_true|].
  apply Z.pow2_bits_false. lia.
Qed.

Lemma ldiff_FL_IF_off f : has f FL_IF = false -> Z.ldiff f FL_IF = f.
Proof.
  rewrite has_FL_IF. intros H. bitwise n Hn.
  rewrite Z.ldiff_spec, testbit_FL_IF by done.
  destruct (Z.eqb_spec n 9) as [->|]; rewrite ?H; [done | now rewrite andb_true_r].
Qed.

Lemma lor_ldiff_FL_IF_on f : has f FL_IF = true -> Z.lor (Z.ldiff f FL_IF) FL_IF = f.
Proof.
  rewrite has_FL_IF. intros H. bitwise n Hn.
  rewrite Z.lor_spec, Z.ldiff_spec, testbit_FL_IF by done.
  destruct (Z.eqb_spec n 9) as [->|]; rewrite ?H;
    [done | now rewrite andb_true_r, orb_false_r].
Qed.

Lemma has_ldiff_FL_IF f : has (Z.ldiff f FL_IF) FL_IF = false.
Proof. rewrite has_FL_IF, Z.ldiff_spec, testbit_FL_IF by lia. apply andb_false_r. Qed.

Lemma cpu_ok_pushed c : cpu_ok c -> cpu_ok (pushed c).
Proof.
  intros (H0 & _ & _). unfold cpu_ok, pushed; cbn. split_and!; [lia|lia|].
  intros _. apply has_ldiff_FL_IF.
Qed.

Lemma pushcli_run k : pushcli k = Ok tt (set_k_cpu (pushed (k_cpu k)) k).
Proof.
  unfold pushcli, readeflags, cli, updcpu, when. mred. cbn.
  destruct (cpu_ncli (k_cpu k) =? 0) eqn:E; cbn; unfold pushed; cbn; now rewrite E.
Qed.

Lemma popcli_pushed k c :
  cpu_ok c -> k_cpu k = pushed c -> popcli k = Ok tt (set_k_cpu c k).
Proof.
  intros (H0 & Hi & Hoff) Hk. destruct k as [kl kc]. ksimpl_in Hk. subst kc.
  destruct c as [id ncli intena eflags cr3 esp0 pr].
  ksimpl_in H0. ksimpl_in Hi. ksimpl_in Hoff.
  unfold popcli, readeflags, updcpu, sti, updcpu, pushed. krun.
  rewrite has_ldiff_FL_IF. ksimpl.
  replace (ncli + 1 - 1) with ncli by lia.
  destruct (Z.ltb_spec ncli 0); [lia|].
  destruct (Z.eqb_spec ncli 0) as [->|Hne]; ksimpl.
  - rewrite (Hi eq_refl). destruct (has eflags FL_IF) eqn:E; pose proof E as E';
      unfold has in E'; rewrite E'; krun.
    + now rewrite lor_ldiff_FL_IF_on.
    + now rewrite ldiff_FL_IF_off.
  - now rewrite ldiff_FL_IF_off by (apply Hoff; lia).
Qed.

Lemma getlock_set l l' lk k :
  getlock l (set_k_locks (<[l' := lk]> (k_locks k)) k)
  = if decide (l' = l) then lk else getlock l k.
Proof. unfold getlock; cbn. rewrite lookup_insert. now case_decide. Qed.

Lemma acquire_free l k : lock_free l k -> acquire l k = Ok tt (held l k).
Proof.
  intros [nm Hl]. unfold acquire. mok (pushcli_run k).
  unfold held, holding, xchg_locked, updlock, getlock. krun.
  rewrite Hl; krun. rewrite Hl; krun. rewrite !lookup_insert_eq; krun.
  now rewrite insert_insert_eq.
Qed.

Lemma release_held l k :
  cpu_ok (k_cpu k) -> lock_free l k -> release l (held l k) = Ok tt k.
Proof.
  intros Hc [nm Hl]. unfold release, holding, held, updlock, getlock. krun.
  rewrite lookup_insert_eq, Hl; krun. rewrite bool_decide_true by done. krun.
  rewrite !lookup_insert_eq. krun. rewrite !insert_insert_eq.
  erewrite popcli_pushed; [|exact Hc|reflexivity]. krun.
  change (mkSpinlock nm 0 None) with (unlocked nm). rewrite insert_id by done.
  now destruct k.
Qed.

Lemma holding_held l k : holding l (held l k) = Ok true (held l k).
Proof.
  unfold holding, gets, held, getlock. ksimpl. rewrite lookup_insert_eq. ksimpl.
  now rewrite bool_decide_true.
Qed.

Lemma acquire_twice l k : lock_free l k -> acquire l (held l k) = Panic "acquire".
Proof.
  intros [nm Hl]. unfold acquire. mok (pushcli_run (held l k)).
  unfold holding, held, getlock. krun. rewrite lookup_insert_eq; krun.
  now rewrite bool_decide_true.
Qed.

Lemma lock_free_held l l' k : l <> l' -> lock_free l k -> lock_free l (held l' k).
Proof. intros Hne [nm Hl]. exists nm. cbn. now rewrite lookup_insert_ne. Qed.

Lemma getcallerpcs_length m v : length (getcallerpcs m v) = 10%nat.
Proof.
  unfold getcallerpcs. generalize (v - 8), 10%nat. intros e n. revert e.
  induction n as [|n IH]; intros e; cbn [getcallerpcs_loop]; [done|].
  case_match; [now rewrite length_replicate | cbn; now rewrite IH].
Qed.

(**  One CPU: on a free lock, [acquire] disables interrupts and records the
    holder, a second [acquire] panics, and [release] restores the lock, the
    nesting depth and the interrupt flag exactly; [release] without the lock
    panics. *)
Lemma acquire_release_balanced l k :
  cpu_ok (k_cpu k) -> lock_free l k ->
  (exists k', acquire l k = Ok tt k' /\ has (cpu_eflags (k_cpu k')) FL_IF = false /\
     holding l k' = Ok true k' /\ acquire l k' = Panic "acquire" /\
     release l k' = Ok tt k) /\
  release l k = Panic "release".
Proof.
  intros Hc Hl. split.
  - exists (held l k). rewrite acquire_free by done. split_and!; [done | | | |].
    + apply has_ldiff_FL_IF.
    + apply holding_held.
    + now apply acquire_twice.
    + now apply release_held.
  - destruct Hl as [nm Hl]. unfold release, holding. mred. unfold getlock. now rewrite Hl.
Qed.

Lemma acquire_release_balanced_witness :
  exists k', acquire Lkmem kernel0 = Ok tt k' /\ release Lkmem k' = Ok tt kernel0.
Proof.
  destruct (acquire_release_balanced Lkmem kernel0) as [(k' & Ha & _ & _ & _ & Hr) _].
  - unfold cpu_ok. cbn. split_and!; [lia | reflexivity | lia].
  - exists "kmem". reflexivity.
  - exists k'. now split.
Defined.

(** ** Several CPUs *)

(** The code of [acquire], [holding] and [release] with one shared-memory access
    per step, any number of CPUs, one lock. *)
Module Smp.

(** Where a CPU is.  [Critical] is between the two calls; [Panicked] is a call
    of [panic("acquire")] or [panic("release")]. *)
Inductive pc : Type :=
| Outside        (* not using the lock *)
| AcqHolding1    (* acquire: holding reads lk->locked *)
| AcqHolding2    (* acquire: holding reads lk->cpu *)
| AcqXchg        (* acquire: while(xchg(&lk->locked, 1) != 0) *)
| AcqSetCpu      (* acquire: lk->cpu = cpu *)
| Critical
| RelHolding1    (* release: holding reads lk->locked *)
| RelHolding2    (* release: holding reads lk->cpu *)
| RelClearCpu    (* release: lk->cpu = 0 *)
| RelClearLocked (* release: lk->locked = 0 *)
| Panicked.

Record state : Type := mkState { lk : spinlock; at_pc : nat -> pc }.

Definition goto (s : state) (i : nat) (p : pc) : state :=
  mkState (lk s) (<[i := p]> (at_pc s)).
Definition with_lock (s : state) (l : spinlock) : state := mkState l (at_pc s).

(** CPU [i] executes its next access. *)
Definition exec (i : nat) (s : state) : state :=
  let l := lk s in
  match at_pc s i with
  | Outside => goto s i AcqHolding1
  | AcqHolding1 => goto s i (if locked l =? 0 then AcqXchg else AcqHolding2)
  | AcqHolding2 => goto s i (if decide (lcpu l = Some i) then Panicked else AcqXchg)
  | AcqXchg =>
      goto (with_lock s (mkSpinlock (lname l) 1 (lcpu l))) i
        (if locked l =? 0 then AcqSetCpu else AcqXchg)
  | AcqSetCpu => goto (with_lock s (mkSpinlock (lname l) (locked l) (Some i))) i Critical
  | Critical => goto s i RelHolding1
  | RelHolding1 => goto s i (if locked l =? 0 then Panicked else RelHolding2)
  | RelHolding2 => goto s i (if decide (lcpu l = Some i) then RelClearCpu else Panicked)
  | RelClearCpu =>
      goto (with_lock s (mkSpinlock (lname l) (locked l) None)) i RelClearLocked
  | RelClearLocked => goto (with_lock s (mkSpinlock (lname l) 0 (lcpu l))) i Outside
  | Panicked => s
  end.

Inductive reachable (nm : string) : state -> Prop :=
| reach_init : reachable nm (mkState (unlocked nm) (fun _ => Outside))
| reach_step s i : reachable nm s -> reachable nm (exec i s).

Definition owns (p : pc) : bool :=
  match p with
  | AcqSetCpu | Critical | RelHolding1 | RelHolding2 | RelClearCpu | RelClearLocked => true
  | _ => false
  end.

Definition recorded (p : pc) : bool :=
  match p with Critical | RelHolding1 | RelHolding2 | RelClearCpu => true | _ => false end.

(** [o] is the CPU that owns the lock. *)
Definition inv_owner (o : option nat) (s : state) : Prop :=
  (forall i, at_pc s i <> Panicked) /\
  (forall i, owns (at_pc s i) = true <-> o = Some i) /\
  locked (lk s) = match o with Some _ => 1 | None => 0 end /\
  lcpu (lk s) = (i ← o; if recorded (at_pc s i) then Some i else None)%stdpp.

Ltac at_cpu i j :=
  destruct (decide (i = j)) as [<-|];
  [rewrite ?fn_lookup_insert in * | rewrite ?fn_lookup_insert_ne in * by done].

(** Moving CPU [i] within the code of one side of the lock. *)
Lemma inv_goto o s i p :
  inv_owner o s -> p <> Panicked -> owns p = owns (at_pc s i) ->
  (owns p = true -> recorded p = recorded (at_pc s i)) -> inv_owner o (goto s i p).
Proof.
  intros (Hp & Ho & Hl & Hc) Hnp Hown Hrec. split_and!.
  - intros j. cbn. at_cpu i j; [done | apply Hp].
  - intros j. cbn. at_cpu i j; [rewrite Hown; apply Ho | apply Ho].
  - done.
  - cbn. rewrite Hc. destruct o as [j|]; [|done]. cbn. at_cpu i j; [|done].
    rewrite Hrec; [done|]. rewrite Hown. now apply Ho.
Qed.

Lemma inv_step o s i : inv_owner o s -> exists o', inv_owner o' (exec i s).
Proof.
  intros Hinv. pose proof Hinv as (Hp & Ho & Hl & Hc).
  pose proof (Ho i) as Hi. unfold exec.
  destruct (at_pc s i) eqn:E; cbn in Hi.
  - exists o. apply inv_goto; rewrite ?E; done.
  - exists o. destruct (locked (lk s) =? 0); apply inv_goto; rewrite ?E; done.
  - exists o. assert (lcpu (lk s) <> Some i).
    { rewrite Hc. destruct o as [j|]; cbn; [|done].
      destruct (recorded (at_pc s j)); [|done]. intros [= ->].
      now pose proof (proj2 Hi eq_refl). }
    rewrite decide_False by done. apply inv_goto; rewrite ?E; done.
  - destruct o as [j|]; rewrite Hl; cbn.
    + exists (Some j). apply inv_goto; cbn; rewrite ?E; try done.
    + exists (Some i). split_and!; cbn.
      * intros j. at_cpu i j; [done | apply Hp].
      * intros j. at_cpu i j; [done|]. rewrite Ho. split; [done | now intros [= ->]].
      * done.
      * rewrite fn_lookup_insert. cbn. now rewrite Hc.
  - assert (o = Some i) as -> by now apply Hi. exists (Some i). split_and!; cbn.
    + intros j. at_cpu i j; [done | apply Hp].
    + intros j. at_cpu i j; [done | apply Ho].
    + done.
    + now rewrite fn_lookup_insert.
  - exists o. apply inv_goto; rewrite ?E; done.
  - assert (o = Some i) as -> by now apply Hi. exists (Some i). rewrite Hl. cbn.
    apply inv_goto; rewrite ?E; done.
  - assert (o = Some i) as -> by now apply Hi. exists (Some i). cbn in Hc. rewrite E in Hc.
    cbn in Hc. rewrite Hc, decide_True by done. apply inv_goto; rewrite ?E; done.
  - assert (o = Some i) as -> by now apply Hi. exists (Some i). split_and!; cbn.
    + intros j. at_cpu i j; [done | apply Hp].
    + intros j. at_cpu i j; [done | apply Ho].
    + done.
    + now rewrite fn_lookup_insert.
  - assert (o = Some i) as -> by now apply Hi. exists None. split_and!; cbn.
    + intros j. at_cpu i j; [done | apply Hp].
    + intros j. at_cpu i j; [done|]. rewrite Ho. split; [now intros [= ->] | done].
    + done.
    + cbn in Hc. now rewrite E in Hc.
  - now destruct (Hp i).
Qed.

Lemma reachable_inv nm s : reachable nm s -> exists o, inv_owner o s.
Proof.
  induction 1 as [|s i _ [o IH]]; [|now apply inv_step with o].
  exists None. now split_and!.
Qed.

(** C5.  Mutual exclusion on any number of CPUs, with every shared access
    interleaved: two CPUs are never both between the [xchg] that takes the lock
    and the store that frees it, the lock word is 1 exactly when some CPU is
    there, and neither [panic("acquire")] nor [panic("release")] is reached. *)
Theorem mutual_exclusion nm s :
  reachable nm s ->
  (forall i j, owns (at_pc s i) = true -> owns (at_pc s j) = true -> i = j) /\
  (locked (lk s) = 1 <-> exists i, owns (at_pc s i) = true) /\
  (forall i, at_pc s i <> Panicked).
Proof.
  intros [o (Hp & Ho & Hl & _)]%reachable_inv. split_and!.
  - intros i j Hi Hj. apply Ho in Hi, Hj. congruence.
  - rewrite Hl. destruct o as [i|]; split; intros H.
    + exists i. now apply Ho.
    + done.
    + lia.
    + destruct H as [i Hi]. now apply Ho in Hi.
  - done.
Qed.

(** Two CPUs race; CPU 1 wins and CPU 0 spins. *)
Lemma mutual_exclusion_witness :
  exists s, at_pc s 0%nat = AcqXchg /\ at_pc s 1%nat = Critical /\ locked (lk s) = 1 /\
    forall i, at_pc s i <> Panicked.
Proof.
  set (s0 := mkState (unlocked "lk") (fun _ => Outside)).
  set (s := fold_left (fun s i => exec i s) [0; 1; 0; 1; 1; 1; 0]%nat s0).
  assert (Hs : reachable "lk" s) by (repeat constructor).
  exists s. split_and!; [reflexivity | reflexivity | reflexivity |].
  exact (proj2 (proj2 (mutual_exclusion "lk" s Hs))).
Defined.
End Smp.
