(* ===== verification/Mmu.v ===== *)
(** * Address arithmetic of the x86 MMU (mmu.h)

    The macros that split a linear address and a page table entry, as the bit
    operations of mmu.h, and what they compute as arithmetic. *)

From S2P Require Import Prelude State.

Definition PTXSHIFT : Z := 12.
Definition PDXSHIFT : Z := 22.

Definition PDX (va : Z) : Z := Z.land (Z.shiftr (u32 va) PDXSHIFT) 0x3FF.
Definition PTX (va : Z) : Z := Z.land (Z.shiftr (u32 va) PTXSHIFT) 0x3FF.
Definition PGADDR (d t o : Z) : Z :=
  u32 (Z.lor (Z.lor (Z.shiftl d PDXSHIFT) (Z.shiftl t PTXSHIFT)) o).

Definition PGROUNDUP (sz : Z) : Z := Z.land (u32 (sz + PGSIZE - 1)) (Z.lnot (PGSIZE - 1)).
Definition PGROUNDDOWN (a : Z) : Z := Z.land (u32 a) (Z.lnot (PGSIZE - 1)).

Definition PTE_P : Z := 0x001.
Definition PTE_W : Z := 0x002.
Definition PTE_U : Z := 0x004.
Definition PTE_PS : Z := 0x080.

Definition PTE_ADDR (pte : Z) : Z := Z.land (u32 pte) (Z.lnot 0xFFF).
Definition PTE_FLAGS (pte : Z) : Z := Z.land (u32 pte) 0xFFF.

#[global] Arguments PTE_P : simpl never.
#[global] Arguments PTE_W : simpl never.
#[global] Arguments PTE_U : simpl never.

(** ** Segment and gate descriptors *)

Definition SEG (type base lim dpl : Z) : segdesc :=
  mkSegdesc (Z.land (Z.shiftr lim 12) 0xffff) (Z.land (u32 base) 0xffff)
    (Z.land (Z.shiftr (u32 base) 16) 0xff) type 1 dpl 1
    (Z.shiftr (u32 lim) 28) 0 0 1 1 (Z.shiftr (u32 base) 24).

Definition SEG16 (type base lim dpl : Z) : segdesc :=
  mkSegdesc (Z.land lim 0xffff) (Z.land (u32 base) 0xffff)
    (Z.land (Z.shiftr (u32 base) 16) 0xff) type 1 dpl 1
    (Z.shiftr (u32 lim) 16) 0 0 1 0 (Z.shiftr (u32 base) 24).

Definition STS_IG32 : Z := 0xE.
Definition STS_TG32 : Z := 0xF.

Record gatedesc : Type := mkGatedesc {
  off_15_0 : Z; gd_cs : Z; gd_args : Z; gd_rsv1 : Z; gd_type : Z; gd_s : Z; gd_dpl : Z;
  gd_p : Z; off_31_16 : Z
}.

Definition SETGATE (istrap : bool) (sel off d : Z) : gatedesc :=
  mkGatedesc (Z.land (u32 off) 0xffff) sel 0 0 (if istrap then STS_TG32 else STS_IG32)
    0 d 1 (Z.shiftr (u32 off) 16).

(** The base and the limit the hardware reads back from a descriptor. *)
Definition seg_base (s : segdesc) : Z :=
  base_15_0 s + base_23_16 s * 2 ^ 16 + base_31_24 s * 2 ^ 24.
Definition seg_limit (s : segdesc) : Z :=
  let l := lim_15_0 s + lim_19_16 s * 2 ^ 16 in
  if sd_g s =? 1 then l * 2 ^ 12 + 0xFFF else l.
Definition gate_off (g : gatedesc) : Z := off_15_0 g + off_31_16 g * 2 ^ 16.

(** ** Lemmas *)

Lemma land_lnot_ones a n : 0 <= n -> Z.land a (Z.lnot (2 ^ n - 1)) = a / 2 ^ n * 2 ^ n.
Proof.
  intros Hn. replace (2 ^ n - 1) with (Z.ones n) by (rewrite Z.ones_equiv; lia).
  rewrite <- Z.ldiff_land, Z.ldiff_ones_r by done.
  now rewrite Z.shiftl_mul_pow2, Z.shiftr_div_pow2 by done.
Qed.

Lemma land_low a n : 0 <= n -> Z.land a (2 ^ n - 1) = a mod 2 ^ n.
Proof.
  intros Hn. replace (2 ^ n - 1) with (Z.ones n) by (rewrite Z.ones_equiv; lia).
  now apply Z.land_ones.
Qed.

Lemma PGROUNDDOWN_arith a : PGROUNDDOWN a = u32 a / 4096 * 4096.
Proof. apply (land_lnot_ones (u32 a) 12). lia. Qed.

Lemma PGROUNDUP_arith sz : PGROUNDUP sz = u32 (sz + 4095) / 4096 * 4096.
Proof.
  unfold PGROUNDUP. replace (sz + PGSIZE - 1) with (sz + 4095) by (unfold PGSIZE; lia).
  apply (land_lnot_ones (u32 (sz + 4095)) 12). lia.
Qed.

Lemma PTE_ADDR_arith pte : PTE_ADDR pte = u32 pte / 4096 * 4096.
Proof. apply (land_lnot_ones (u32 pte) 12). lia. Qed.

Lemma PTE_FLAGS_arith pte : PTE_FLAGS pte = u32 pte mod 4096.
Proof. apply (land_low (u32 pte) 12). lia. Qed.

Lemma PDX_arith va : PDX va = u32 va / 2 ^ 22.
Proof.
  unfold PDX, PDXSHIFT. rewrite (land_low _ 10), Z.shiftr_div_pow2 by lia.
  pose proof (u32_range va). apply Z.mod_small. split; [apply Z.div_pos; lia|].
  apply Z.div_lt_upper_bound; lia.
Qed.

Lemma PTX_arith va : PTX va = u32 va / 4096 mod 1024.
Proof.
  unfold PTX, PTXSHIFT. now rewrite (land_low _ 10), Z.shiftr_div_pow2 by lia.
Qed.

Lemma PDX_range va : 0 <= PDX va < 1024.
Proof.
  rewrite PDX_arith. pose proof (u32_range va). split; [apply Z.div_pos; lia|].
  apply Z.div_lt_upper_bound; lia.
Qed.

Lemma PTX_range va : 0 <= PTX va < 1024.
Proof. rewrite PTX_arith. apply Z.mod_pos_bound. lia. Qed.

(** Disjoint fields: [lor] is addition. *)
Lemma lor_disjoint a b n :
  0 <= n -> 0 <= b < 2 ^ n -> Z.lor (a * 2 ^ n) b = a * 2 ^ n + b.
Proof.
  intros Hn Hb. symmetry. rewrite Z.add_comm, Z.lor_comm.
  rewrite <- Z.shiftl_mul_pow2 by lia.
  assert (Z.land b (Z.shiftl a n) = 0) as H0.
  { bitwise i Hi. rewrite Z.land_spec, Z.bits_0.
    destruct (Z.lt_ge_cases i n).
    - rewrite Z.shiftl_spec_low by lia. apply andb_false_r.
    - rewrite <- (Z.mod_small b (2 ^ n)), Z.mod_pow2_bits_high by lia. reflexivity. }
  rewrite <- Z.lxor_lor by done. now apply Z.add_nocarry_lxor.
Qed.

Lemma PGADDR_arith d t o :
  0 <= d < 1024 -> 0 <= t < 1024 -> 0 <= o < 4096 ->
  PGADDR d t o = d * 2 ^ 22 + t * 2 ^ 12 + o.
Proof.
  intros Hd Ht Ho. unfold PGADDR, PDXSHIFT, PTXSHIFT.
  rewrite !Z.shiftl_mul_pow2 by lia. rewrite <- Z.lor_assoc.
  rewrite (lor_disjoint t o 12), (lor_disjoint d _ 22) by lia.
  rewrite u32_small; lia.
Qed.

Lemma PTE_split pa flags :
  pa mod 4096 = 0 -> 0 <= pa < 2 ^ 32 -> 0 <= flags < 4096 ->
  Z.lor pa flags = pa + flags /\
  PTE_ADDR (Z.lor pa flags) = pa /\ PTE_FLAGS (Z.lor pa flags) = flags.
Proof.
  intros Ha Hp Hf. assert (Hpa : pa = pa / 4096 * 4096) by (Z.div_mod_to_equations; lia).
  assert (Hl : Z.lor pa flags = pa + flags).
  { pose proof (lor_disjoint (pa / 4096) flags 12 ltac:(lia) ltac:(lia)) as H.
    change (2 ^ 12) with 4096 in H. now rewrite <- Hpa in H. }
  rewrite PTE_ADDR_arith, PTE_FLAGS_arith, Hl, u32_small by (Z.div_mod_to_equations; lia).
  split; [done|]. Z.div_mod_to_equations. lia.
Qed.

(** A small constant is not changed by taking its low bits. *)
Lemma PGROUNDUP_spec sz :
  0 <= sz <= 2 ^ 32 - 4096 ->
  PGROUNDUP sz mod 4096 = 0 /\ sz <= PGROUNDUP sz < sz + 4096.
Proof.
  intros Hs. rewrite PGROUNDUP_arith, u32_small by lia. Z.div_mod_to_equations. lia.
Qed.

Lemma PGROUNDUP_aligned sz : 0 <= sz < 2 ^ 32 -> sz mod 4096 = 0 -> PGROUNDUP sz = sz.
Proof.
  intros Hs Ha. rewrite PGROUNDUP_arith, u32_small; Z.div_mod_to_equations; lia.
Qed.

Lemma PGROUNDDOWN_spec a :
  0 <= a < 2 ^ 32 -> PGROUNDDOWN a = a - a mod 4096.
Proof. intros Ha. rewrite PGROUNDDOWN_arith, u32_small by lia. Z.div_mod_to_equations. lia. Qed.

(** The address macros: splitting a linear address into directory index,
    table index and offset and rebuilding it are inverse to each other, in both
    directions. *)
Theorem pgaddr_split :
  (forall d t o, 0 <= d < 1024 -> 0 <= t < 1024 -> 0 <= o < 4096 ->
     PDX (PGADDR d t o) = d /\ PTX (PGADDR d t o) = t /\
     PTE_FLAGS (PGADDR d t o) = o) /\
  (forall va, 0 <= va < 2 ^ 32 -> PGADDR (PDX va) (PTX va) (PTE_FLAGS va) = va).
Proof.
  split.
  - intros d t o Hd Ht Ho. rewrite PGADDR_arith by done.
    rewrite PDX_arith, PTX_arith, PTE_FLAGS_arith, u32_small by lia.
    Z.div_mod_to_equations. lia.
  - intros va Hva. pose proof (PDX_range va). pose proof (PTX_range va).
    assert (0 <= PTE_FLAGS va < 4096) by (rewrite PTE_FLAGS_arith; Z.div_mod_to_equations; lia).
    rewrite PGADDR_arith by done.
    rewrite PDX_arith, PTX_arith, PTE_FLAGS_arith, u32_small by lia.
    Z.div_mod_to_equations. lia.
Qed.

(** The descriptors built by [SEG], [SEG16] and [SETGATE] spread a base, a
    limit and an offset over bit fields; the hardware's view of those fields is
    the value that was given. *)
Theorem descriptors_faithful :
  (forall type base dpl, 0 <= base < 2 ^ 32 ->
     seg_base (SEG type base 0xffffffff dpl) = base /\
     seg_limit (SEG type base 0xffffffff dpl) = 0xffffffff) /\
  (forall type base lim dpl, 0 <= base < 2 ^ 32 -> 0 <= lim < 2 ^ 20 ->
     seg_base (SEG16 type base lim dpl) = base /\
     seg_limit (SEG16 type base lim dpl) = lim) /\
  (forall istrap sel off d, 0 <= off < 2 ^ 32 -> gate_off (SETGATE istrap sel off d) = off).
Proof.
  assert (Hb : forall b, 0 <= b < 2 ^ 32 ->
    Z.land (u32 b) 0xffff + Z.land (Z.shiftr (u32 b) 16) 0xff * 2 ^ 16
    + Z.shiftr (u32 b) 24 * 2 ^ 24 = b).
  { intros b Hb. rewrite u32_small, !Z.shiftr_div_pow2 by lia.
    rewrite (land_low _ 16), (land_low _ 8) by lia. Z.div_mod_to_equations. lia. }
  split_and!.
  - intros type base dpl H. split; [now apply Hb | reflexivity].
  - intros type base lim dpl H Hl. split; [now apply Hb|].
    unfold seg_limit, SEG16; cbn. rewrite u32_small, Z.shiftr_div_pow2 by lia.
    rewrite (land_low _ 16) by lia. Z.div_mod_to_equations. lia.
  - intros istrap sel off d H. unfold gate_off, SETGATE; cbn.
    rewrite u32_small, Z.shiftr_div_pow2, (land_low _ 16) by lia.
    Z.div_mod_to_equations. lia.
Qed.
