(* ===== verification/Kalloc.v ===== *)
(** * Physical page allocator (kalloc.c)

    The free list is threaded through the free pages themselves: the first word
    of a free page holds the address of the next one.  [flist] says which list
    of pages the words in memory spell out; the theorems show that [kfree] and
    [kalloc] push and pop it, and that no page is ever handed out twice. *)

From S2P Require Import Prelude State CMem Spinlock Mmu.

(** ** The operations *)

Definition kfree (v : Z) : K unit :=
  kend <- gets (fun k => sym_end (k_link k)) ;;
  if negb (u32 v mod PGSIZE =? 0) || (v <? kend) || (PHYSTOP <=? V2P v)
  then panic "kfree" else
  updmem (fun m => memset m v 1 PGSIZE) ;;
  use_lock <- gets kmem_use_lock ;;
  when (negb (use_lock =? 0)) (acquire Lkmem) ;;
  freelist <- gets kmem_freelist ;;
  updmem (fun m => store32 m v freelist) ;;
  modify (set_kmem_freelist v) ;;
  use_lock <- gets kmem_use_lock ;;
  when (negb (use_lock =? 0)) (release Lkmem).

Definition kalloc : K Z :=
  use_lock <- gets kmem_use_lock ;;
  when (negb (use_lock =? 0)) (acquire Lkmem) ;;
  r <- gets kmem_freelist ;;
  when (negb (r =? 0)) (modify (fun k => set_kmem_freelist (load32 (k_mem k) r) k)) ;;
  use_lock <- gets kmem_use_lock ;;
  when (negb (use_lock =? 0)) (release Lkmem) ;;
  ret r.

(** [for(; p + PGSIZE <= vend; p += PGSIZE) kfree(p);] *)
Fixpoint freerange_loop (fuel : nat) (p vend : Z) : K unit :=
  match fuel with
  | O => ret tt
  | S fuel' =>
      if p + PGSIZE <=? vend then kfree p ;; freerange_loop fuel' (p + PGSIZE) vend
      else ret tt
  end.

Definition freerange (vstart vend : Z) : K unit :=
  let p := PGROUNDUP vstart in
  freerange_loop (Z.to_nat ((vend - p) / PGSIZE)) p vend.

Definition kinit1 (vstart vend : Z) : K unit :=
  initlock Lkmem "kmem" ;;
  modify (set_kmem_use_lock 0) ;;
  freerange vstart vend.

Definition kinit2 (vstart vend : Z) : K unit :=
  freerange vstart vend ;;
  modify (set_kmem_use_lock 1).

(** ** Invariant *)

(** Pages [kfree] accepts: aligned, above the kernel image, below the top of
    physical memory. *)
Definition valid_page (k : kernel) (p : Z) : Prop :=
  p mod PGSIZE = 0 /\ sym_end (k_link k) <= p /\ KERNBASE <= p < KERNBASE + PHYSTOP.

(** The words in memory spell out the list [l], starting at [head]. *)
Fixpoint flist (m : gmap Z Z) (head : Z) (l : list Z) : Prop :=
  match l with
  | [] => head = 0
  | p :: l' => head = p /\ flist m (load32 m p) l'
  end.

Record kmem_inv (k : kernel) (l : list Z) : Prop := {
  inv_ok : mem_ok (k_mem k);
  inv_list : flist (k_mem k) (kmem_freelist k) l;
  inv_nodup : NoDup l;
  inv_valid : Forall (valid_page k) l
}.

(** The lock the allocator takes is available. *)
Definition kmem_quiet (k : kernel) : Prop :=
  kmem_use_lock k = 0 \/ (lock_free Lkmem k /\ cpu_ok (k_cpu k)).

(** ** Lemmas *)

Lemma page_disjoint p q :
  p mod PGSIZE = 0 -> q mod PGSIZE = 0 -> p <> q -> p + PGSIZE <= q \/ q + PGSIZE <= p.
Proof. unfold PGSIZE. intros Hp Hq Hne. Z.div_mod_to_equations. lia. Qed.

Lemma flist_ext m m' l : forall head,
  (forall p, p ∈ l -> load32 m' p = load32 m p) -> flist m head l -> flist m' head l.
Proof.
  induction l as [|p l IH]; intros head Heq; cbn; [done|]. intros [-> Hl]. split; [done|].
  rewrite Heq by set_solver. apply IH; [|done]. intros q Hq. apply Heq. set_solver.
Qed.

Lemma valid_page_range k p : valid_page k p -> 0 < p < 2 ^ 32 /\ u32 p = p /\ V2P p < PHYSTOP.
Proof.
  intros (_ & _ & H). unfold KERNBASE, PHYSTOP in *.
  rewrite u32_small by lia. unfold V2P, KERNBASE. rewrite u32_small by lia. lia.
Qed.

Definition after_kfree (v : Z) (k : kernel) : kernel :=
  set_kmem_freelist v
    (set_k_mem (store32 (memset (k_mem k) v 1 PGSIZE) v (kmem_freelist k)) k).

Lemma kfree_run k v :
  kmem_quiet k -> valid_page k v -> kfree v k = Ok tt (after_kfree v k).
Proof.
  intros Hq Hv. pose proof (valid_page_range k v Hv) as (Hr & Hu & Hp).
  destruct Hv as (Ha & He & _). unfold kfree. mred. rewrite Hu.
  rewrite (proj2 (Z.eqb_eq _ _) Ha), (proj2 (Z.ltb_ge _ _) He). cbn [negb orb].
  destruct (Z.leb_spec PHYSTOP (V2P v)); [lia|].
  unfold updmem. mred. ksimpl. unfold when.
  destruct Hq as [Hu0 | [Hfree Hc]].
  - rewrite Hu0. krun. now rewrite Hu0.
  - destruct (Z.eqb_spec (kmem_use_lock k) 0) as [Hu0|Hu0]; [krun; now rewrite Hu0|].
    cbn [negb]. set (k1 := set_k_mem _ k).
    mok (acquire_free Lkmem k1 Hfree). mred. ksimpl.
    change (kmem_use_lock (held Lkmem k1)) with (kmem_use_lock k).
    rewrite (proj2 (Z.eqb_neq _ _) Hu0). cbn [negb].
    exact (release_held Lkmem (after_kfree v k) Hc Hfree).
Qed.

Definition after_kalloc (k : kernel) : kernel :=
  if kmem_freelist k =? 0 then k
  else set_kmem_freelist (load32 (k_mem k) (kmem_freelist k)) k.

Lemma kalloc_run k : kmem_quiet k -> kalloc k = Ok (kmem_freelist k) (after_kalloc k).
Proof.
  intros Hq. unfold kalloc, when, after_kalloc.
  destruct Hq as [Hu0 | [Hfree Hc]].
  - mred. rewrite Hu0. krun. destruct (Z.eqb_spec (kmem_freelist k) 0); krun; now rewrite Hu0.
  - mred. destruct (Z.eqb_spec (kmem_use_lock k) 0) as [Hu0|Hu0]; cbn [negb].
    { krun. destruct (Z.eqb_spec (kmem_freelist k) 0); krun; now rewrite Hu0. }
    mok (acquire_free Lkmem k Hfree). mred.
    change (kmem_freelist (held Lkmem k)) with (kmem_freelist k).
    destruct (Z.eqb_spec (kmem_freelist k) 0) as [Hz|Hz]; cbn [negb]; mred; ksimpl.
    + change (kmem_use_lock (held Lkmem k)) with (kmem_use_lock k).
      rewrite (proj2 (Z.eqb_neq _ _) Hu0). cbn [negb].
      now mok (release_held Lkmem k Hc Hfree).
    + change (kmem_use_lock (held Lkmem k)) with (kmem_use_lock k).
      rewrite (proj2 (Z.eqb_neq _ _) Hu0). cbn [negb].
      set (k1 := set_kmem_freelist (load32 (k_mem k) (kmem_freelist k)) k).
      now mok (release_held Lkmem k1 Hc Hfree).
Qed.

(** Bytes outside the freed page keep their value. *)
Lemma after_kfree_frame v k a :
  a < v \/ v + PGSIZE <= a -> load8 (k_mem (after_kfree v k)) a = load8 (k_mem k) a.
Proof.
  intros Ha. unfold after_kfree. ksimpl. unfold PGSIZE in *.
  rewrite load8_store32_ne, memset_spec, decide_False by lia. reflexivity.
Qed.

Lemma after_kfree_frame32 v k a :
  a + 4 <= v \/ v + PGSIZE <= a -> load32 (k_mem (after_kfree v k)) a = load32 (k_mem k) a.
Proof.
  intros Ha. apply load32_ext. intros b Hb. apply after_kfree_frame. unfold PGSIZE in *. lia.
Qed.

Lemma kfree_inv k l v :
  kmem_inv k l -> valid_page k v -> v ∉ l -> kmem_inv (after_kfree v k) (v :: l).
Proof.
  intros [Hok Hl Hnd Hval] Hv Hnot.
  assert (Hfl : 0 <= kmem_freelist k < 2 ^ 32).
  { destruct l as [|p l]; cbn in Hl; [lia|]. destruct Hl as [-> _].
    apply Forall_cons in Hval as [Hp _]. apply valid_page_range in Hp. lia. }
  split.
  - apply mem_ok_store32, mem_ok_memset; [unfold PGSIZE; lia | done].
  - split; [done|]. unfold after_kfree at 2. ksimpl.
    rewrite load32_store32_eq, u32_small by done.
    apply (flist_ext (k_mem k)); [|done]. intros p Hp. apply after_kfree_frame32.
    rewrite Forall_forall in Hval. destruct (Hval p Hp) as (Hpa & _).
    destruct Hv as (Hva & _).
    assert (Hne : p <> v) by (intros ->; done).
    pose proof (page_disjoint p v Hpa Hva Hne). unfold PGSIZE in *. lia.
  - now constructor.
  - now constructor.
Qed.

Lemma kalloc_inv k p l :
  kmem_inv k (p :: l) ->
  kmem_freelist k = p /\ valid_page k p /\ (p ∉ l) /\ kmem_inv (after_kalloc k) l.
Proof.
  intros [Hok [Hp Hl] Hnd Hval]. apply Forall_cons in Hval as [Hv Hval].
  apply NoDup_cons in Hnd as [Hni Hnd]. split_and!; try done.
  unfold after_kalloc. pose proof (valid_page_range k p Hv).
  destruct (Z.eqb_spec (kmem_freelist k) 0); [lia|]. split; try done. ksimpl. now rewrite Hp.
Qed.

Lemma kalloc_empty k : kmem_inv k [] -> kmem_freelist k = 0 /\ after_kalloc k = k.
Proof.
  intros [_ Hl _ _]. cbn in Hl. split; [done|]. unfold after_kalloc. now rewrite Hl.
Qed.

Lemma kmem_quiet_after_kfree v k : kmem_quiet k -> kmem_quiet (after_kfree v k).
Proof. done. Qed.

Lemma kmem_quiet_after_kalloc k : kmem_quiet k -> kmem_quiet (after_kalloc k).
Proof. unfold after_kalloc. now destruct (kmem_freelist k =? 0). Qed.

(** ** Initialisation *)

(** The pages of [p, p + n * PGSIZE), in order. *)
Definition pages (p : Z) (n : nat) : list Z :=
  (fun i => p + Z.of_nat i * PGSIZE) <$> seq 0 n.

Lemma pages_S p n : pages p (S n) = p :: pages (p + PGSIZE) n.
Proof.
  unfold pages. cbn [seq fmap list_fmap]. f_equal; [unfold PGSIZE; lia|].
  rewrite <- fmap_S_seq, <- list_fmap_compose. apply list_fmap_ext.
  intros i x _. unfold compose. unfold PGSIZE. lia.
Qed.

Lemma elem_of_pages p n q :
  q ∈ pages p n <-> exists i, 0 <= i < Z.of_nat n /\ q = p + i * PGSIZE.
Proof.
  unfold pages. rewrite list_elem_of_fmap. split.
  - intros (i & -> & Hi%elem_of_seq). exists (Z.of_nat i). lia.
  - intros (i & Hi & ->). exists (Z.to_nat i). rewrite elem_of_seq, Z2Nat.id by lia. lia.
Qed.

Lemma freerange_loop_run vend n : forall k l p,
  kmem_quiet k -> kmem_inv k l -> p + Z.of_nat n * PGSIZE <= vend ->
  Forall (fun q => valid_page k q /\ (q ∉ l)) (pages p n) ->
  exists k', freerange_loop n p vend k = Ok tt k' /\
    kmem_quiet k' /\ k_link k' = k_link k /\ kmem_inv k' (reverse (pages p n) ++ l).
Proof.
  induction n as [|n IH]; intros k l p Hq Hinv Hend Hall; cbn [freerange_loop].
  { exists k. now split_and!. }
  rewrite pages_S in Hall |- *. apply Forall_cons in Hall as [[Hv Hn] Hall].
  destruct (Z.leb_spec (p + PGSIZE) vend); [|unfold PGSIZE in *; lia].
  mok (kfree_run k p Hq Hv).
  destruct (IH (after_kfree p k) (p :: l) (p + PGSIZE)) as (k' & Hrun & Hq' & Hlk & Hinv').
  - done.
  - now apply kfree_inv.
  - unfold PGSIZE in *. lia.
  - rewrite Forall_forall in Hall |- *. intros q Hqp.
    destruct (Hall q Hqp) as [Hvq Hnq]. split; [done|].
    apply elem_of_pages in Hqp as (i & Hi & ->). rewrite not_elem_of_cons.
    split; [unfold PGSIZE; lia | done].
  - exists k'. rewrite Hrun, reverse_cons, <- app_assoc. now split_and!.
Qed.

Lemma freerange_run k l vstart vend :
  kmem_quiet k -> kmem_inv k l -> 0 <= vstart <= 2 ^ 32 - 4096 -> PGROUNDUP vstart <= vend ->
  let ps := pages (PGROUNDUP vstart) (Z.to_nat ((vend - PGROUNDUP vstart) / PGSIZE)) in
  Forall (fun q => valid_page k q /\ (q ∉ l)) ps ->
  exists k', freerange vstart vend k = Ok tt k' /\
    kmem_quiet k' /\ k_link k' = k_link k /\ kmem_inv k' (reverse ps ++ l).
Proof.
  intros Hq Hinv Hv Hle ps Hall. apply freerange_loop_run; try done.
  rewrite Z2Nat.id by (apply Z.div_pos; unfold PGSIZE; lia).
  unfold PGSIZE. Z.div_mod_to_equations. lia.
Qed.

Lemma pages_valid k p n :
  p mod PGSIZE = 0 -> sym_end (k_link k) <= p -> KERNBASE <= p ->
  p + Z.of_nat n * PGSIZE <= KERNBASE + PHYSTOP ->
  Forall (valid_page k) (pages p n).
Proof.
  intros Ha He Hb Ht. apply Forall_forall. intros q (i & Hi & ->)%elem_of_pages.
  unfold valid_page, PGSIZE in *. split_and!; try lia.
  rewrite Z.mod_add by lia. done.
Qed.

Lemma elem_of_pages_range p n vend q :
  p mod PGSIZE = 0 -> p <= vend -> n = Z.to_nat ((vend - p) / PGSIZE) ->
  q ∈ pages p n <-> q mod PGSIZE = 0 /\ p <= q /\ q + PGSIZE <= vend.
Proof.
  unfold PGSIZE. intros Ha Hle ->. rewrite elem_of_pages, Z2Nat.id by (apply Z.div_pos; lia).
  unfold PGSIZE. split.
  - intros (i & Hi & ->). rewrite Z.mod_add by lia. split; [done|].
    Z.div_mod_to_equations. lia.
  - intros (Hq & H1 & H2). exists ((q - p) / 4096). Z.div_mod_to_equations. lia.
Qed.

Lemma NoDup_pages p n : NoDup (pages p n).
Proof.
  apply NoDup_fmap_2; [|apply NoDup_seq]. intros i j. unfold PGSIZE. lia.
Qed.

(** A free range of whole pages above everything already free. *)
Lemma freerange_fresh k l vstart vend :
  kmem_quiet k -> kmem_inv k l -> KERNBASE <= vstart <= vend -> sym_end (k_link k) <= vstart ->
  PGROUNDUP vstart <= vend -> vend <= KERNBASE + PHYSTOP ->
  (forall p, p ∈ l -> p + PGSIZE <= vstart) ->
  exists k' l', freerange vstart vend k = Ok tt k' /\
    kmem_quiet k' /\ k_link k' = k_link k /\ kmem_inv k' (l' ++ l) /\
    forall p, p ∈ l' <-> p mod PGSIZE = 0 /\ vstart <= p /\ p + PGSIZE <= vend.
Proof.
  intros Hq Hinv Hb He Hle Ht Hl. unfold KERNBASE, PHYSTOP in *.
  destruct (PGROUNDUP_spec vstart) as [Hal Hup]; [lia|].
  set (n := Z.to_nat ((vend - PGROUNDUP vstart) / PGSIZE)).
  pose proof (elem_of_pages_range (PGROUNDUP vstart) n vend) as Hin.
  assert (Hn : PGROUNDUP vstart + Z.of_nat n * PGSIZE <= vend).
  { unfold n. rewrite Z2Nat.id by (apply Z.div_pos; unfold PGSIZE; lia).
    unfold PGSIZE. Z.div_mod_to_equations. lia. }
  destruct (freerange_run k l vstart vend Hq Hinv) as (k' & Hrun & Hq' & Hlk & Hinv').
  - lia.
  - done.
  - fold n. apply Forall_forall. intros q Hqn. split.
    + revert q Hqn. apply Forall_forall, pages_valid; unfold KERNBASE, PHYSTOP; try lia.
      exact Hal.
    + intros Hql. apply Hl in Hql. apply Hin in Hqn; [|exact Hal|done|reflexivity].
      unfold PGSIZE in *. lia.
  - fold n in Hinv'. exists k', (reverse (pages (PGROUNDUP vstart) n)).
    split_and!; try done. intros p. rewrite elem_of_reverse, Hin by (exact Hal || done).
    unfold PGSIZE in *. split; [lia|]. intros (H1 & H2 & H3). split_and!; try done.
    rewrite PGROUNDUP_arith, u32_small by lia. Z.div_mod_to_equations. lia.
Qed.

Lemma kinit_run k mid top :
  mem_ok (k_mem k) -> kmem_freelist k = 0 -> KERNBASE <= sym_end (k_link k) <= mid ->
  mid mod PGSIZE = 0 -> mid <= top <= KERNBASE + PHYSTOP ->
  exists k' l,
    (kinit1 (sym_end (k_link k)) mid ;; kinit2 mid top) k = Ok tt k' /\
    kmem_use_lock k' = 1 /\ kmem_inv k' l /\
    forall p, p ∈ l <->
      p mod PGSIZE = 0 /\ sym_end (k_link k) <= p /\ p + PGSIZE <= top.
Proof.
  intros Hok Hf Hend Hmid Htop. set (e := sym_end (k_link k)) in *.
  unfold kinit1, initlock. rewrite bind_assoc by exact I. mred. rewrite bind_assoc by exact I. mred. ksimpl.
  set (k1 := set_kmem_use_lock 0 _).
  assert (Hinv1 : kmem_inv k1 []) by (split; [done | done | constructor | constructor]).
  assert (Hmup : PGROUNDUP mid = mid)
    by (apply PGROUNDUP_aligned; [unfold KERNBASE, PHYSTOP in *; lia | done]).
  assert (Heup : PGROUNDUP e <= mid).
  { unfold KERNBASE, PHYSTOP, PGSIZE in *.
    rewrite PGROUNDUP_arith, u32_small by lia. Z.div_mod_to_equations. lia. }
  destruct (freerange_fresh k1 [] e mid) as (k2 & l1 & Hrun1 & Hq2 & Hl2 & Hinv2 & Hl1);
    [now left | done | lia | fold e; done | done | lia | intros p Hp; set_solver |].
  mok Hrun1. rewrite app_nil_r in Hinv2. unfold kinit2.
  destruct (freerange_fresh k2 l1 mid top) as (k3 & l2 & Hrun2 & Hq3 & Hl3 & Hinv3 & Hl2').
  { done. } { done. } { lia. } { rewrite Hl2. exact (proj2 Hend). } { lia. } { lia. }
  { intros p (_ & _ & H)%Hl1. done. }
  mok Hrun2. exists (set_kmem_use_lock 1 k3), (l2 ++ l1). split_and!; [done | done | |].
  - destruct Hinv3. now split.
  - intros p. rewrite elem_of_app, Hl1, Hl2'. unfold PGSIZE in *.
    split; [lia|]. intros (Hp & H1 & H2).
    destruct (Z.le_gt_cases mid p); [left; lia|]. right.
    Z.div_mod_to_equations. lia.
Qed.

(** Allocator set-up: with [kinit1] and [kinit2] called as [main] calls
    them, from an empty free list, the free list holds every whole page between
    the end of the kernel and the top of physical memory exactly once. *)
Theorem kinit_frees_all k :
  mem_ok (k_mem k) -> kmem_freelist k = 0 ->
  KERNBASE <= sym_end (k_link k) <= P2V (4 * 1024 * 1024) ->
  exists k' l,
    (kinit1 (sym_end (k_link k)) (P2V (4 * 1024 * 1024)) ;;
     kinit2 (P2V (4 * 1024 * 1024)) (P2V PHYSTOP)) k = Ok tt k' /\
    kmem_use_lock k' = 1 /\ kmem_inv k' l /\
    forall p, p ∈ l <->
      p mod PGSIZE = 0 /\ sym_end (k_link k) <= p /\ p + PGSIZE <= P2V PHYSTOP.
Proof.
  intros Hok Hf Hend. apply kinit_run; [done | done | done | reflexivity |].
  split; [now vm_compute | now vm_compute].
Qed.

(** ** Use of the allocator over time *)

(** One use of the allocator by the rest of the kernel; [a] are the pages it
    holds.  It may write the pages it holds, free one of them, or ask for one. *)
Inductive use_step : kernel * list Z -> kernel * list Z -> Prop :=
| use_alloc k a p k' :
    kalloc k = Ok p k' -> p <> 0 -> use_step (k, a) (k', p :: a)
| use_alloc_fail k a k' :
    kalloc k = Ok 0 k' -> use_step (k, a) (k', a)
| use_free k a1 p a2 k' :
    kfree p k = Ok tt k' -> use_step (k, a1 ++ p :: a2) (k', a1 ++ a2)
| use_write k a m :
    mem_ok m ->
    (forall b, (forall p, p ∈ a -> b < p \/ p + PGSIZE <= b) ->
       load8 m b = load8 (k_mem k) b) ->
    use_step (k, a) (set_k_mem m k, a).

Record use_inv (l0 : list Z) (k : kernel) (a l : list Z) : Prop := {
  ui_quiet : kmem_quiet k;
  ui_kmem : kmem_inv k l;
  ui_held : Forall (valid_page k) a;
  ui_perm : Permutation (a ++ l) l0
}.

Lemma use_inv_step l0 k a l k' a' :
  NoDup l0 -> use_inv l0 k a l -> use_step (k, a) (k', a') -> exists l', use_inv l0 k' a' l'.
Proof.
  intros Hnd0 [Hq Hinv Hh Hp] Hs.
  assert (Hnd : NoDup (a ++ l)) by now rewrite Hp. 
  inversion Hs as [? ? p ? Hk Hne|? ? ? Hk|? a1 p a2 ? Hk|? ? m Hm Hfr]; subst; clear Hs.
  - rewrite kalloc_run in Hk by done. injection Hk as Hpe <-.
    destruct l as [|q l]; [now rewrite (proj1 (kalloc_empty k Hinv)) in Hpe; congruence|].
    destruct (kalloc_inv k q l Hinv) as (Hfl & Hv & Hni & Hinv'). exists l.
    assert (Hlk : k_link (after_kalloc k) = k_link k)
      by (unfold after_kalloc; now destruct (kmem_freelist k =? 0)).
    split; [now apply kmem_quiet_after_kalloc | done | |].
    + subst p. rewrite Hfl. unfold valid_page in *. rewrite Hlk. now constructor.
    + subst p. rewrite Hfl, <- Hp. cbn. apply Permutation_middle.
  - rewrite kalloc_run in Hk by done. injection Hk as Hz <-. exists l.
    unfold after_kalloc. rewrite Hz. cbn. done.
  - apply Forall_app in Hh as [Hh1 [Hv Hh2]%Forall_cons].
    rewrite kfree_run in Hk by done. injection Hk as <-. exists (p :: l).
    assert (Hni : p ∉ l).
    { apply NoDup_app in Hnd as (_ & Hd & _). apply Hd. set_solver. }
    split; [done | now apply kfree_inv | now apply Forall_app |].
    rewrite <- Hp. rewrite <- !app_assoc. cbn. apply Permutation_app_head.
    symmetry. apply Permutation_middle.
  - exists l. destruct Hinv as [Hok Hl Hn Hval]. split; try done. split; try done.
    ksimpl. apply (flist_ext (k_mem k)); [|done]. intros p Hpl. apply load32_ext.
    intros b Hb. apply Hfr. intros q Hqa.
    rewrite Forall_forall in Hval, Hh. destruct (Hval p Hpl) as (Hpa & _).
    destruct (Hh q Hqa) as (Hqal & _).
    assert (Hne : p <> q).
    { intros ->. apply NoDup_app in Hnd as (_ & Hd & _). now apply (Hd q). }
    pose proof (page_disjoint p q Hpa Hqal Hne). unfold PGSIZE in *. lia.
Qed.

Lemma use_inv_star l0 s s' :
  NoDup l0 -> rtc use_step s s' ->
  (exists l, use_inv l0 s.1 s.2 l) -> exists l, use_inv l0 s'.1 s'.2 l.
Proof.
  intros Hnd. induction 1 as [|[k a] [k1 a1] s' Hs _ IH]; [done|].
  intros [l Hi]. apply IH. eapply use_inv_step; eauto.
Qed.

(** C4.  Memory safety of the allocator: however the kernel allocates, frees
    pages it holds and writes inside pages it holds, the pages it holds are
    distinct, valid and not on the free list, none is lost, and a page that
    [kalloc] returns is one that is not held. *)
Theorem kalloc_never_aliases k l0 k' a :
  kmem_quiet k -> kmem_inv k l0 -> rtc use_step (k, []) (k', a) ->
  NoDup a /\ Forall (valid_page k') a /\
  exists l, kmem_inv k' l /\ Permutation (a ++ l) l0 /\
    (forall p k'', kalloc k' = Ok p k'' -> (p ∉ a) \/ p = 0).
Proof.
  intros Hq Hinv Hr.
  destruct (use_inv_star l0 _ _ (inv_nodup _ _ Hinv) Hr) as [l Hi]; cbn [fst snd] in *.
  { exists l0. split; [done | done | constructor | done]. }
  destruct Hi as [Hq' Hinv' Hh Hp].
  assert (Hnd : NoDup (a ++ l)) by (rewrite Hp; apply (inv_nodup _ _ Hinv)).
  apply NoDup_app in Hnd as (Hna & Hd & _). split_and!; [done | done |].
  exists l. split_and!; [done | done |]. intros p k'' Hk.
  rewrite kalloc_run in Hk by done. injection Hk as <- _.
  destruct l as [|q l]; [right; now apply kalloc_empty in Hinv' as [-> _]|].
  apply kalloc_inv in Hinv' as (-> & _). left. intros Ha. apply (Hd q Ha). set_solver.
Qed.

(**  [kfree] then [kalloc] gives the page back, refilled only in its first
    word, and leaves every byte outside the page and the free list as it was. *)
Lemma kfree_kalloc_roundtrip k l v :
  kmem_quiet k -> kmem_inv k l -> valid_page k v -> v ∉ l ->
  exists k', (kfree v ;; kalloc) k = Ok v k' /\ kmem_inv k' l /\
    kmem_freelist k' = kmem_freelist k /\
    (forall a, a < v \/ v + PGSIZE <= a -> load8 (k_mem k') a = load8 (k_mem k) a) /\
    (forall a, v + 4 <= a < v + PGSIZE -> load8 (k_mem k') a = 1).
Proof.
  intros Hq Hinv Hv Hn. mok (kfree_run k v Hq Hv).
  pose proof (kfree_inv k l v Hinv Hv Hn) as Hinv1.
  destruct (kalloc_inv _ _ _ Hinv1) as (Hf & _ & _ & Hinv2).
  rewrite kalloc_run by done. rewrite Hf. exists (after_kalloc (after_kfree v k)).
  pose proof (valid_page_range k v Hv) as (Hr & _ & _).
  assert (Hst : after_kalloc (after_kfree v k) =
    set_kmem_freelist (load32 (k_mem (after_kfree v k)) v) (after_kfree v k)).
  { unfold after_kalloc. rewrite Hf. destruct (Z.eqb_spec v 0); [lia | done]. }
  split_and!; [done | done | | |]; rewrite ?Hst; ksimpl.
  - unfold after_kfree; ksimpl. rewrite load32_store32_eq. apply u32_small.
    destruct Hinv as [_ Hl _ Hval]. destruct l as [|p l]; cbn in Hl; [lia|].
    destruct Hl as [-> _]. apply Forall_cons in Hval as [Hp _].
    apply valid_page_range in Hp. lia.
  - intros a Ha. now apply after_kfree_frame.
  - intros a Ha. unfold after_kfree; ksimpl. unfold PGSIZE in *.
    rewrite load8_store32_ne, memset_spec, decide_True by lia. reflexivity.
Qed.

(** ** Examples *)

(** The static kernel state with one page freed. *)
Definition kernel1 : kernel := after_kfree 0x80200000 kernel0.

Lemma kernel0_inv : kmem_inv kernel0 [].
Proof. split; [apply mem_ok_empty | done | constructor | constructor]. Qed.

Lemma kernel1_inv : kmem_inv kernel1 [0x80200000].
Proof.
  apply kfree_inv; [apply kernel0_inv | | set_solver].
  unfold valid_page. cbn. unfold PGSIZE, KERNBASE, PHYSTOP. split_and!; done || lia.
Qed.

Lemma kinit_frees_all_witness :
  exists k' l,
    (kinit1 0x80115000 (P2V (4 * 1024 * 1024)) ;;
     kinit2 (P2V (4 * 1024 * 1024)) (P2V PHYSTOP)) kernel0 = Ok tt k' /\
    kmem_use_lock k' = 1 /\ kmem_inv k' l /\ 0x80115000 ∈ l.
Proof.
  destruct (kinit_frees_all kernel0) as (k' & l & H1 & H2 & H3 & H4).
  - apply mem_ok_empty.
  - reflexivity.
  - split; vm_compute; discriminate.
  - exists k', l. split_and!; [exact H1 | exact H2 | exact H3 |].
    apply H4. split_and!; vm_compute; congruence.
Defined.

Lemma kalloc_never_aliases_witness :
  rtc use_step (kernel1, []) (after_kalloc kernel1, [0x80200000]) /\ NoDup [0x80200000].
Proof.
  assert (Hr : rtc use_step (kernel1, []) (after_kalloc kernel1, [0x80200000])).
  { apply rtc_once, use_alloc; [apply (kalloc_run kernel1); now left | done]. }
  split; [exact Hr|].
  apply (kalloc_never_aliases kernel1 [0x80200000] (after_kalloc kernel1));
    [now left | apply kernel1_inv | exact Hr].
Defined.

Lemma kfree_kalloc_roundtrip_witness :
  exists k', (kfree 0x80300000 ;; kalloc) kernel1 = Ok 0x80300000 k' /\
    kmem_freelist k' = 0x80200000.
Proof.
  destruct (kfree_kalloc_roundtrip kernel1 [0x80200000] 0x80300000)
    as (k' & H1 & _ & H2 & _).
  - now left.
  - apply kernel1_inv.
  - unfold valid_page. cbn. unfold PGSIZE, KERNBASE, PHYSTOP. split_and!; done || lia.
  - rewrite list_elem_of_singleton. lia.
  - exists k'. now split.
Defined.
