(* ===== verification/Console.v ===== *)
(** * Console output (console.c)

    [printint], [cprintf] and the character output path [consputc]/[cgaputc].
    The serial port is the byte stream [conslog]; the CGA screen is the array
    [crt] of 16-bit cells with the hardware cursor. *)

From S2P Require Import Prelude State Spinlock.

Definition BACKSPACE : Z := 0x100.

(** ** Screen *)

(** [memmove(crt, crt+80, sizeof(crt[0])*23*80)] followed by the clearing of the
    cells from [pos] to the end of the 24th row. *)
Definition scroll (crt : list Z) (pos : Z) : list Z :=
  let moved := take 1840 (drop 80 crt) ++ drop 1840 crt in
  take (Z.to_nat pos) moved
    ++ replicate (Z.to_nat (24 * 80 - pos)) 0
    ++ drop (Z.to_nat (24 * 80)) moved.

Definition cgaputc (c : Z) : K unit :=
  pos <- gets k_crtpos ;;
  crt <- gets k_crt ;;
  let '(pos, crt) :=
    if c =? 10 then (pos + (80 - pos mod 80), crt)
    else if c =? BACKSPACE then ((if 0 <? pos then pos - 1 else pos), crt)
    else (pos + 1, <[Z.to_nat pos := Z.lor (Z.land c 0xff) 0x0700]> crt) in
  if (pos <? 0) || (25 * 80 <? pos) then panic "pos under/overflow" else
  let '(pos, crt) :=
    if 24 <=? pos / 80 then (pos - 80, scroll crt (pos - 80)) else (pos, crt) in
  modify (set_k_crtpos pos) ;;
  modify (set_k_crt (<[Z.to_nat pos := Z.lor 32 0x0700]> crt)).

Definition consputc (c : Z) : K unit :=
  modify (fun k => set_conslog (conslog k ++ (if c =? BACKSPACE then [8; 32; 8] else [u8 c])) k) ;;
  cgaputc c.

(** Print a list of characters in order. *)
Fixpoint consputs (cs : list Z) : K unit :=
  match cs with
  | [] => ret tt
  | c :: cs' => consputc c ;; consputs cs'
  end.

(** ** printint *)

Definition digits : list Z := str "0123456789abcdef".

(** The do-while loop: [buf], least significant digit first. *)
Fixpoint printint_loop (fuel : nat) (x base : Z) : list Z :=
  match fuel with
  | O => []
  | S fuel' =>
      (digits !!! Z.to_nat (x mod base)) ::
      (if x / base =? 0 then [] else printint_loop fuel' (x / base) base)
  end.

(** The characters [printint] prints.  32 digits suffice for every base. *)
Definition printint_chars (xx base : Z) (sign : bool) : list Z :=
  let neg := sign && (xx <? 0) in
  let x := u32 (if neg then - xx else xx) in
  let buf := printint_loop 32 x base ++ (if neg then [45] else []) in
  reverse buf.

Definition printint (xx base : Z) (sign : bool) : K unit :=
  consputs (printint_chars xx base sign).

(** ** cprintf *)

(** A variadic argument: a word, or the string a pointer refers to ([None] is
    the null pointer). *)
Inductive karg : Type := KInt (z : Z) | KStr (s : option (list Z)).

Definition arg_int (a : option karg) : Z := match a with Some (KInt z) => z | _ => 0 end.
Definition arg_str (a : option karg) : list Z :=
  match a with Some (KStr (Some s)) => s | _ => str "(null)" end.

(** The loop over the format string; the arguments not yet used are [args]. *)
Fixpoint cprintf_loop (fmt : list Z) (args : list karg) : K unit :=
  match fmt with
  | [] => ret tt
  | c :: fmt' =>
      if negb (c =? 37) then consputc c ;; cprintf_loop fmt' args
      else
        match fmt' with
        | [] => ret tt
        | c :: fmt'' =>
            if c =? 100 then
              printint (s32 (arg_int (head args))) 10 true ;; cprintf_loop fmt'' (tail args)
            else if (c =? 120) || (c =? 112) then
              printint (s32 (arg_int (head args))) 16 false ;; cprintf_loop fmt'' (tail args)
            else if c =? 115 then
              consputs (arg_str (head args)) ;; cprintf_loop fmt'' (tail args)
            else if c =? 37 then consputc 37 ;; cprintf_loop fmt'' args
            else consputc 37 ;; consputc c ;; cprintf_loop fmt'' args
        end
  end.

Definition cprintf (fmt : string) (args : list karg) : K unit :=
  locking <- gets cons_locking ;;
  when (negb (locking =? 0)) (acquire Lcons) ;;
  cprintf_loop (str fmt) args ;;
  when (negb (locking =? 0)) (release Lcons).

(** ** Screen invariant *)

(** The cursor is on one of the first 24 rows and the text memory has its 25
    rows (and the cell after them that the cursor may touch). *)
Definition screen_ok (k : kernel) : Prop :=
  0 <= k_crtpos k < 24 * 80 /\ length (k_crt k) = 2001%nat.

Lemma scroll_length crt pos :
  length crt = 2001%nat -> 0 <= pos <= 24 * 80 -> length (scroll crt pos) = 2001%nat.
Proof.
  intros Hl Hp. unfold scroll.
  rewrite !length_app, !length_take, !length_drop, !length_app, !length_take, !length_drop,
    length_replicate. lia.
Qed.

(** A kernel state that differs only in what the console has printed. *)
Definition with_console (log crt : list Z) (pos : Z) (k : kernel) : kernel :=
  set_k_crt crt (set_k_crtpos pos (set_conslog log k)).

Lemma cgaputc_run c k :
  screen_ok k ->
  exists crt pos, cgaputc c k = Ok tt (set_k_crt crt (set_k_crtpos pos k)) /\
    0 <= pos < 24 * 80 /\ length crt = 2001%nat.
Proof.
  intros [Hp Hl]. unfold cgaputc. mred.
  set (pc := if c =? 10 then _ else _).
  assert (Hpc : 0 <= pc.1 <= 24 * 80 /\ length pc.2 = 2001%nat).
  { unfold pc. destruct (c =? 10); [|destruct (c =? BACKSPACE); [destruct (Z.ltb_spec 0 (k_crtpos k))|]];
      cbn [fst snd]; rewrite ?length_insert; Z.div_mod_to_equations; lia. }
  destruct pc as [pos crt]. cbn [fst snd] in Hpc. destruct Hpc as [Hpos Hlen].
  destruct (Z.ltb_spec pos 0); [lia|]. destruct (Z.ltb_spec (25 * 80) pos); [lia|]. cbn [orb].
  destruct (Z.leb_spec 24 (pos / 80)).
  - assert (pos = 24 * 80) by (Z.div_mod_to_equations; lia).
    eexists _, _. split; [reflexivity|]. split; [lia|].
    rewrite length_insert. apply scroll_length; lia.
  - assert (pos < 24 * 80) by (Z.div_mod_to_equations; lia).
    eexists _, _. split; [reflexivity|]. split; [lia|]. now rewrite length_insert.
Qed.

Lemma consputc_run c k :
  screen_ok k ->
  exists log crt pos, consputc c k = Ok tt (with_console log crt pos k) /\
    screen_ok (with_console log crt pos k).
Proof.
  intros Hs. unfold consputc. mred.
  set (k1 := set_conslog _ k).
  destruct (cgaputc_run c k1) as (crt & pos & Hrun & Hp & Hl); [now destruct Hs|].
  rewrite Hrun. eexists _, crt, pos. split; [reflexivity|]. split; done.
Qed.

Lemma with_console_twice l1 c1 p1 l2 c2 p2 k :
  with_console l2 c2 p2 (with_console l1 c1 p1 k) = with_console l2 c2 p2 k.
Proof. reflexivity. Qed.

(** [prints m]: from a good screen, [m] returns and only prints. *)
Definition prints (m : K unit) : Prop :=
  forall k, screen_ok k ->
    exists log crt pos, m k = Ok tt (with_console log crt pos k) /\
      screen_ok (with_console log crt pos k).

Lemma prints_ret : prints (ret tt).
Proof.
  intros k Hs. exists (conslog k), (k_crt k), (k_crtpos k).
  assert (E : with_console (conslog k) (k_crt k) (k_crtpos k) k = k) by now destruct k.
  now rewrite E.
Qed.

Lemma prints_bind m (f : unit -> K unit) : prints m -> prints (f tt) -> prints (bind m f).
Proof.
  intros Hm Hf k Hs. destruct (Hm k Hs) as (l & c & p & Hr & Hs1). mok Hr.
  destruct (Hf _ Hs1) as (l' & c' & p' & Hr' & Hs2).
  rewrite with_console_twice in Hr', Hs2. eauto.
Qed.

Lemma prints_consputc c : prints (consputc c).
Proof. intros k. apply consputc_run. Qed.

Create HintDb console.
#[export] Hint Resolve prints_ret prints_bind prints_consputc : console.

Lemma prints_consputs cs : prints (consputs cs).
Proof. induction cs; cbn [consputs]; auto with console. Qed.
#[export] Hint Resolve prints_consputs : console.

Lemma prints_cprintf_loop n : forall fmt args,
  (length fmt <= n)%nat -> prints (cprintf_loop fmt args).
Proof.
  induction n as [|n IH]; intros [|c [|d fmt]] args Hl; cbn [cprintf_loop];
    cbn in Hl; try lia; auto with console; unfold printint.
  - destruct (negb (c =? 37)); auto with console.
  - destruct (negb (c =? 37)).
    { apply prints_bind; [auto with console|]. apply (IH (d :: fmt)). cbn. lia. }
    repeat case_match;
      repeat first [apply prints_consputc | apply prints_consputs | apply IH; lia | apply prints_bind].
Qed.

Lemma cprintf_run fmt args k :
  screen_ok k -> cons_locking k = 0 \/ (lock_free Lcons k /\ cpu_ok (k_cpu k)) ->
  exists log crt pos, cprintf fmt args k = Ok tt (with_console log crt pos k) /\
    screen_ok (with_console log crt pos k).
Proof.
  intros Hs Hl. unfold cprintf. mred. unfold when.
  destruct (Z.eqb_spec (cons_locking k) 0) as [E|E]; cbn [negb].
  - mred. destruct (prints_cprintf_loop _ (str fmt) args (le_n _) k Hs) as (l & c & p & Hr & Hs1).
    mok Hr. eauto.
  - destruct Hl as [|[Hf Hc]]; [done|]. mok (acquire_free Lcons k Hf).
    destruct (prints_cprintf_loop _ (str fmt) args (le_n _) (held Lcons k))
      as (l & c & p & Hr & Hs1); [now destruct Hs|].
    mok Hr. exists l, c, p.
    split; [exact (release_held Lcons (with_console l c p k) Hc Hf)|]. now destruct Hs1.
Qed.

(** ** What printint prints *)

(** The value of a digit character, and of a numeral in base [base]. *)
Definition digit_val (c : Z) : Z := if c <? 58 then c - 48 else c - 87.

Definition numeral (base : Z) (cs : list Z) : Z :=
  foldl (fun acc c => acc * base + digit_val c) 0 cs.

Definition read_int (base : Z) (cs : list Z) : Z :=
  match cs with
  | c :: cs' => if c =? 45 then - numeral base cs' else numeral base cs
  | [] => 0
  end.

Lemma digit_val_digits d :
  0 <= d < 16 -> digit_val (digits !!! Z.to_nat d) = d /\ (digits !!! Z.to_nat d) <> 45.
Proof.
  intros Hd.
  assert (H : forallb (fun n => (digit_val (digits !!! n) =? Z.of_nat n)
                         && negb ((digits !!! n) =? 45)) (seq 0 16) = true) by reflexivity.
  rewrite forallb_forall in H. specialize (H (Z.to_nat d)).
  rewrite in_seq, andb_true_iff, negb_true_iff, Z.eqb_eq, Z.eqb_neq in H.
  destruct H as [Hv Hn]; [lia|]. split; [rewrite Hv; lia|exact Hn].
Qed.

Lemma numeral_snoc base cs c : numeral base (cs ++ [c]) = numeral base cs * base + digit_val c.
Proof. unfold numeral. now rewrite foldl_snoc. Qed.

Lemma printint_loop_numeral base fuel : forall x,
  2 <= base <= 16 -> 0 <= x < base ^ Z.of_nat fuel -> (0 < fuel)%nat ->
  numeral base (reverse (printint_loop fuel x base)) = x /\
  (length (printint_loop fuel x base) > 0)%nat /\
  Forall (fun c => c <> 45) (printint_loop fuel x base).
Proof.
  induction fuel as [|fuel IH]; intros x Hb Hx Hf; [lia|]. cbn [printint_loop].
  pose proof (Z.mod_pos_bound x base) as Hm.
  destruct (digit_val_digits (x mod base)) as [Hv Hn]; [lia|].
  pose proof (Z.div_mod x base) as Hdm.
  rewrite reverse_cons, numeral_snoc, Hv.
  destruct (Z.eqb_spec (x / base) 0) as [E|E].
  - split_and!; [cbn; lia|cbn; lia|repeat constructor; done].
  - assert (0 <= x / base) by (apply Z.div_pos; lia).
    destruct fuel as [|fuel'].
    { rewrite Z.pow_1_r in Hx. rewrite Z.div_small in E; lia. }
    destruct (IH (x / base)) as (Hn' & Hl & Hd); [lia| |lia|].
    { split; [lia|]. apply Z.div_lt_upper_bound; [lia|].
      rewrite <- Z.pow_succ_r by lia.
      replace (Z.succ (Z.of_nat (S fuel'))) with (Z.of_nat (S (S fuel'))) by lia. lia. }
    split_and!; [rewrite Hn'; lia|cbn; lia|constructor; done].
Qed.

Lemma printint_loop_length base fuel : forall x n,
  2 <= base -> 0 <= x < base ^ Z.of_nat n -> (0 < n)%nat ->
  (length (printint_loop fuel x base) <= n)%nat.
Proof.
  induction fuel as [|fuel IH]; intros x n Hb Hx Hn; cbn; [lia|].
  destruct (Z.eqb_spec (x / base) 0) as [E|E]; cbn; [lia|].
  assert (0 <= x / base) by (apply Z.div_pos; lia).
  destruct n as [|[|n]]; [lia| |].
  { rewrite Z.pow_1_r in Hx. rewrite Z.div_small in E; lia. }
  apply le_n_S, IH; [lia| |lia].
  split; [lia|]. apply Z.div_lt_upper_bound; [lia|].
  rewrite <- Z.pow_succ_r by lia.
  replace (Z.succ (Z.of_nat (S n))) with (Z.of_nat (S (S n))) by lia. lia.
Qed.

(** printint is correct for every 32-bit argument in base 10 and 16: the
    characters it prints read back as the number (as a signed number when sign
    is set, INT_MIN included; as the unsigned word otherwise), and the digits
    and sign never exceed its 16-byte buffer. *)
Lemma printint_roundtrip : forall xx base sign,
  - 2 ^ 31 <= xx < 2 ^ 31 -> base = 10 \/ base = 16 ->
  read_int base (printint_chars xx base sign) = (if sign then xx else u32 xx) /\
  (length (printint_chars xx base sign) <= 16)%nat.
Proof.
  intros xx base sign Hx Hb. unfold printint_chars.
  set (neg := sign && (xx <? 0)). set (x := u32 _).
  pose proof (u32_range (if neg then - xx else xx)) as Hr. fold x in Hr.
  destruct (printint_loop_numeral base 32 x) as (Hn & Hl & Hd); [lia| |lia|].
  { change (Z.of_nat 32) with 32. assert (2 ^ 32 <= base ^ 32) by (destruct Hb; subst; vm_compute; congruence). lia. }
  assert (Hlen : (length (printint_loop 32 x base) <= 10)%nat).
  { apply printint_loop_length; [lia| |lia]. change (Z.of_nat 10) with 10.
    assert (2 ^ 32 <= base ^ 10) by (destruct Hb; subst; vm_compute; congruence). lia. }
  rewrite reverse_app. destruct neg eqn:En; cbn [reverse].
  - assert (sign = true /\ xx < 0) as [-> Hneg] by (unfold neg in En; destruct sign; cbn in En; lia).
    cbn [read_int]. change (reverse [45]) with [45]. cbn [app read_int]. rewrite Z.eqb_refl.
    split; [|rewrite length_cons, length_reverse; lia].
    rewrite Hn. unfold x. rewrite u32_small; lia.
  - change (reverse []) with (@nil Z). cbn [app].
    split; [|rewrite length_reverse; lia].
    assert (Hrd : read_int base (reverse (printint_loop 32 x base)) = x).
    { destruct (reverse (printint_loop 32 x base)) as [|c cs] eqn:E.
      { apply (f_equal length) in E. rewrite length_reverse in E. cbn in E. lia. }
      cbn [read_int]. destruct (Z.eqb_spec c 45) as [->|]; [|done].
      apply Forall_reverse in Hd. rewrite E in Hd. now inversion Hd. }
    rewrite Hrd. unfold x. destruct sign; [|done]. unfold neg in En. cbn in En.
    rewrite u32_small; lia.
Qed.

Lemma printint_roundtrip_witness :
  printint_chars (- 2 ^ 31) 10 true = str "-2147483648" /\
  read_int 10 (printint_chars (- 2 ^ 31) 10 true) = - 2 ^ 31.
Proof.
  split; [reflexivity|].
  apply (printint_roundtrip (- 2 ^ 31) 10 true); [lia | now left].
Defined.

(** The console never fails: from a screen whose cursor is on the first 24
    rows, cprintf with any format and arguments returns (no pos under/overflow
    panic in cgaputc), changes nothing but the screen and the serial output,
    leaves the cursor on the first 24 rows again, and gives back cons.lock and
    the interrupt state exactly as they were. *)
Lemma cprintf_total : forall fmt args k,
  screen_ok k -> cons_locking k = 0 \/ (lock_free Lcons k /\ cpu_ok (k_cpu k)) ->
  exists log crt pos, cprintf fmt args k = Ok tt (with_console log crt pos k) /\
    screen_ok (with_console log crt pos k).
Proof. exact cprintf_run. Qed.

Lemma cprintf_total_witness :
  exists log crt pos,
    cprintf "cpu%d: %x %s" [KInt 3; KInt 255; KStr (Some (str "ok"))] kernel0
      = Ok tt (with_console log crt pos kernel0) /\
    screen_ok (with_console log crt pos kernel0).
Proof. apply cprintf_total; [split; vm_compute; split; congruence | now left]. Defined.
