(* ===== verification/Vm.v ===== *)
(** * Virtual memory (vm.c)

    Page directories and page tables are pages of [k_mem]; the functions below
    read and write their words as vm.c does.  [lookup_pte] is the hardware's
    view of a page directory, and the theorems describe each function by what it
    does to that view, to the contents of pages and to the free list. *)

From S2P Require Import Prelude State CMem Spinlock Mmu Kalloc Console.

(** ** Segments *)

Definition SEG_KCODE : Z := 1.
Definition SEG_KDATA : Z := 2.
Definition SEG_KCPU : Z := 3.
Definition SEG_UCODE : Z := 4.
Definition SEG_UDATA : Z := 5.
Definition SEG_TSS : Z := 6.
Definition DPL_USER : Z := 0x3.
Definition STA_X : Z := 0x8.
Definition STA_W : Z := 0x2.
Definition STA_R : Z := 0x2.
Definition STS_T32A : Z := 0x9.

(** [sizeof(struct taskstate)]. *)
Definition sizeof_taskstate : Z := 104.

Definition set_gdt (i : Z) (d : segdesc) (c : cpu) : cpu :=
  set_cpu_gdt (<[Z.to_nat i := d]> (cpu_gdt c)) c.

Definition seginit : K unit :=
  lk <- gets k_link ;;
  updcpu (set_gdt SEG_KCODE (SEG (Z.lor STA_X STA_R) 0 0xffffffff 0)) ;;
  updcpu (set_gdt SEG_KDATA (SEG STA_W 0 0xffffffff 0)) ;;
  updcpu (set_gdt SEG_UCODE (SEG (Z.lor STA_X STA_R) 0 0xffffffff DPL_USER)) ;;
  updcpu (set_gdt SEG_UDATA (SEG STA_W 0 0xffffffff DPL_USER)) ;;
  updcpu (set_gdt SEG_KCPU (SEG STA_W (sym_cpu lk) 8 0)) ;;
  updcpu (set_cpu_gs (Z.shiftl SEG_KCPU 3)) ;;
  updcpu (set_cpu_proc None).

(** ** Page tables *)

(** A [pte_t*] is the address of the entry; 0 is the null pointer. *)
Definition walkpgdir (pgdir va : Z) (alloc : bool) : K Z :=
  let pde := pgdir + 4 * PDX va in
  e <- gets (fun k => load32 (k_mem k) pde) ;;
  if has e PTE_P then ret (P2V (PTE_ADDR e) + 4 * PTX va)
  else if negb alloc then ret 0
  else
    pgtab <- kalloc ;;
    if pgtab =? 0 then ret 0 else
    updmem (fun m => memset m pgtab 0 PGSIZE) ;;
    updmem (fun m => store32 m pde (Z.lor (Z.lor (Z.lor (V2P pgtab) PTE_P) PTE_W) PTE_U)) ;;
    ret (pgtab + 4 * PTX va).

Fixpoint mappages_loop (fuel : nat) (pgdir a last pa perm : Z) : K Z :=
  match fuel with
  | O => out_of_fuel
  | S fuel' =>
      pte <- walkpgdir pgdir a true ;;
      if pte =? 0 then ret (-1) else
      e <- gets (fun k => load32 (k_mem k) pte) ;;
      if has e PTE_P then panic "remap" else
      updmem (fun m => store32 m pte (Z.lor (Z.lor pa perm) PTE_P)) ;;
      if a =? last then ret 0
      else mappages_loop fuel' pgdir (u32 (a + PGSIZE)) last (u32 (pa + PGSIZE)) perm
  end.

Definition mappages (pgdir va size pa perm : Z) : K Z :=
  let a := PGROUNDDOWN va in
  let last := PGROUNDDOWN (u32 (va + size - 1)) in
  mappages_loop (S (Z.to_nat (u32 (last - a) / PGSIZE))) pgdir a last pa perm.

(** The table of the kernel's mappings; [virt], [phys_start], [phys_end] and
    [perm] of each entry. *)
Record kmap_entry : Type := mkKmap {
  km_virt : Z; km_start : Z; km_end : Z; km_perm : Z
}.

Definition kmap (data : Z) : list kmap_entry :=
  [ mkKmap KERNBASE 0 EXTMEM PTE_W;
    mkKmap KERNLINK (V2P KERNLINK) (V2P data) 0;
    mkKmap data (V2P data) PHYSTOP PTE_W;
    mkKmap DEVSPACE DEVSPACE 0 PTE_W ].

Fixpoint setupkvm_loop (ks : list kmap_entry) (pgdir : Z) : K Z :=
  match ks with
  | [] => ret pgdir
  | e :: ks' =>
      r <- mappages pgdir (km_virt e) (u32 (km_end e - km_start e)) (km_start e) (km_perm e) ;;
      if r <? 0 then ret 0 else setupkvm_loop ks' pgdir
  end.

Definition setupkvm : K Z :=
  pgdir <- kalloc ;;
  if pgdir =? 0 then ret 0 else
  updmem (fun m => memset m pgdir 0 PGSIZE) ;;
  if DEVSPACE <? P2V PHYSTOP then panic "PHYSTOP too high" else
  data <- gets (fun k => sym_data (k_link k)) ;;
  setupkvm_loop (kmap data) pgdir.

Definition switchkvm : K unit :=
  kpgdir <- gets k_kpgdir ;;
  updcpu (set_cpu_cr3 (V2P kpgdir)).

Definition kvmalloc : K unit :=
  kpgdir <- setupkvm ;;
  modify (set_k_kpgdir kpgdir) ;;
  switchkvm.

(** [proc->kstack] is the kernel stack of the CPU's current process, which the
    callers have set to [p]. *)
Definition switchuvm (p : nat) : K unit :=
  pushcli ;;
  lk <- gets k_link ;;
  let d := SEG16 STS_T32A (sym_ts lk) (sizeof_taskstate - 1) 0 in
  updcpu (set_gdt SEG_TSS d) ;;
  updcpu (set_gdt SEG_TSS (set_sd_s 0 d)) ;;
  updcpu (set_cpu_ss0 (Z.shiftl SEG_KDATA 3)) ;;
  c <- curproc ;;
  kstack <- gets (fun k => p_kstack (ptable k !!! c)) ;;
  updcpu (set_cpu_esp0 (u32 (kstack + KSTACKSIZE))) ;;
  updcpu (set_cpu_iomb 0xFFFF) ;;
  updcpu (set_cpu_tr (Z.shiftl SEG_TSS 3)) ;;
  pgdir <- gets (fun k => p_pgdir (ptable k !!! p)) ;;
  if pgdir =? 0 then panic "switchuvm: no pgdir" else
  updcpu (set_cpu_cr3 (V2P pgdir)) ;;
  popcli.

(** ** User memory *)

(** [memmove] from bytes that are not in page memory (the kernel's image or its
    stack). *)
Fixpoint store_bytes (m : gmap Z Z) (a : Z) (bs : list Z) : gmap Z Z :=
  match bs with
  | [] => m
  | b :: bs' => store_bytes (store8 m a b) (a + 1) bs'
  end.

Definition inituvm (pgdir : Z) (init : list Z) (sz : Z) : K unit :=
  if PGSIZE <=? sz then panic "inituvm: more than a page" else
  mem <- kalloc ;;
  updmem (fun m => memset m mem 0 PGSIZE) ;;
  mappages pgdir 0 PGSIZE (V2P mem) (Z.lor PTE_W PTE_U) ;;
  updmem (fun m => store_bytes m mem (take (Z.to_nat sz) init)).

Fixpoint deallocuvm_loop (fuel : nat) (pgdir a oldsz newsz : Z) : K Z :=
  if negb (a <? oldsz) then ret newsz else
  match fuel with
  | O => out_of_fuel
  | S fuel' =>
      pte <- walkpgdir pgdir a false ;;
      if pte =? 0 then
        deallocuvm_loop fuel' pgdir (u32 (a + (NPTENTRIES - 1) * PGSIZE + PGSIZE)) oldsz newsz
      else
        e <- gets (fun k => load32 (k_mem k) pte) ;;
        (if has e PTE_P then
           let pa := PTE_ADDR e in
           if pa =? 0 then panic "kfree" else
           kfree (P2V pa) ;;
           updmem (fun m => store32 m pte 0)
         else ret tt) ;;
        deallocuvm_loop fuel' pgdir (u32 (a + PGSIZE)) oldsz newsz
  end.

Definition deallocuvm (pgdir oldsz newsz : Z) : K Z :=
  if oldsz <=? newsz then ret oldsz else
  deallocuvm_loop (Z.to_nat (oldsz / PGSIZE + 1)) pgdir (PGROUNDUP newsz) oldsz newsz.

Fixpoint allocuvm_loop (fuel : nat) (pgdir a oldsz newsz : Z) : K Z :=
  if negb (a <? newsz) then ret newsz else
  match fuel with
  | O => out_of_fuel
  | S fuel' =>
      mem <- kalloc ;;
      if mem =? 0 then
        cprintf "allocuvm out of memory
" [] ;;
        deallocuvm pgdir newsz oldsz ;;
        ret 0
      else
        updmem (fun m => memset m mem 0 PGSIZE) ;;
        r <- mappages pgdir a PGSIZE (V2P mem) (Z.lor PTE_W PTE_U) ;;
        if r <? 0 then
          cprintf "allocuvm out of memory (2)
" [] ;;
          deallocuvm pgdir newsz oldsz ;;
          kfree mem ;;
          ret 0
        else allocuvm_loop fuel' pgdir (u32 (a + PGSIZE)) oldsz newsz
  end.

Definition allocuvm (pgdir oldsz newsz : Z) : K Z :=
  if KERNBASE <=? newsz then ret 0
  else if newsz <? oldsz then ret oldsz
  else allocuvm_loop (Z.to_nat (newsz / PGSIZE + 1)) pgdir (PGROUNDUP oldsz) oldsz newsz.

(** The loop over the directory that frees the page tables. *)
Fixpoint freevm_loop (n : nat) (i pgdir : Z) : K unit :=
  match n with
  | O => ret tt
  | S n' =>
      e <- gets (fun k => load32 (k_mem k) (pgdir + 4 * i)) ;;
      when (has e PTE_P) (kfree (P2V (PTE_ADDR e))) ;;
      freevm_loop n' (i + 1) pgdir
  end.

Definition freevm (pgdir : Z) : K unit :=
  if pgdir =? 0 then panic "freevm: no pgdir" else
  deallocuvm pgdir KERNBASE 0 ;;
  freevm_loop (Z.to_nat NPDENTRIES) 0 pgdir ;;
  kfree pgdir.

Definition clearpteu (pgdir uva : Z) : K unit :=
  pte <- walkpgdir pgdir uva false ;;
  if pte =? 0 then panic "clearpteu" else
  updmem (fun m => store32 m pte (Z.land (load32 m pte) (Z.lnot PTE_U))).

Fixpoint copyuvm_loop (fuel : nat) (pgdir d i sz : Z) : K Z :=
  if negb (i <? sz) then ret d else
  match fuel with
  | O => out_of_fuel
  | S fuel' =>
      pte <- walkpgdir pgdir i false ;;
      if pte =? 0 then panic "copyuvm: pte should exist" else
      e <- gets (fun k => load32 (k_mem k) pte) ;;
      if negb (has e PTE_P) then panic "copyuvm: page not present" else
      let pa := PTE_ADDR e in
      let flags := PTE_FLAGS e in
      mem <- kalloc ;;
      if mem =? 0 then freevm d ;; ret 0 else
      updmem (fun m => memmove m mem (P2V pa) PGSIZE) ;;
      r <- mappages d i PGSIZE (V2P mem) flags ;;
      if r <? 0 then freevm d ;; ret 0
      else copyuvm_loop fuel' pgdir d (u32 (i + PGSIZE)) sz
  end.

Definition copyuvm (pgdir sz : Z) : K Z :=
  d <- setupkvm ;;
  if d =? 0 then ret 0
  else copyuvm_loop (Z.to_nat (sz / PGSIZE + 1)) pgdir d PGSIZE sz.

(** [walkpgdir] may return the null pointer here, and the code reads through it:
    address 0 of the kernel's address space is user memory, so the model stops. *)
Definition uva2ka (pgdir uva : Z) : K Z :=
  pte <- walkpgdir pgdir uva false ;;
  if pte =? 0 then panic "uva2ka: null page table entry" else
  e <- gets (fun k => load32 (k_mem k) pte) ;;
  if negb (has e PTE_P) then ret 0
  else if negb (has e PTE_U) then ret 0
  else ret (P2V (PTE_ADDR e)).

(** [p] are the bytes the source pointer refers to. *)
Fixpoint copyout_loop (fuel : nat) (pgdir va : Z) (p : list Z) (len : Z) : K Z :=
  if negb (0 <? len) then ret 0 else
  match fuel with
  | O => out_of_fuel
  | S fuel' =>
      let va0 := PGROUNDDOWN va in
      pa0 <- uva2ka pgdir va0 ;;
      if pa0 =? 0 then ret (-1) else
      let n := PGSIZE + 1 - (va - va0) in
      let n := if len <? n then len else n in
      updmem (fun m => store_bytes m (pa0 + (va - va0)) (take (Z.to_nat n) p)) ;;
      copyout_loop fuel' pgdir (u32 (va0 + PGSIZE)) (drop (Z.to_nat n) p) (len - n)
  end.

Definition copyout (pgdir va : Z) (p : list Z) (len : Z) : K Z :=
  copyout_loop (Z.to_nat len) pgdir va p len.

(** ** The hardware's view of a page directory *)

Definition tab_of (m : gmap Z Z) (pgdir i : Z) : option Z :=
  let e := load32 m (pgdir + 4 * i) in
  if has e PTE_P then Some (P2V (PTE_ADDR e)) else None.

(** The present page table entry that translates [va], if there is one. *)
Definition xlate (m : gmap Z Z) (pgdir va : Z) : option Z :=
  match tab_of m pgdir (PDX va) with
  | Some t =>
      let e := load32 m (t + 4 * PTX va) in if has e PTE_P then Some e else None
  | None => None
  end.

(** The pages of a map's values. *)
Definition vals (T : gmap Z Z) : list Z := (map_to_list T).*2.

(** [pgdir] is a page directory whose page tables are [T], indexed by directory
    entry; [l] is the free list. *)
Record vm_inv (k : kernel) (l : list Z) (pgdir : Z) (T : gmap Z Z) : Prop := {
  vm_kmem : kmem_inv k l;
  vm_tab : forall i, 0 <= i < 1024 -> tab_of (k_mem k) pgdir i = T !! i;
  vm_dom : forall i t, T !! i = Some t -> 0 <= i < 1024;
  vm_valid : Forall (valid_page k) (pgdir :: vals T);
  vm_nodup : NoDup (pgdir :: vals T ++ l)
}.

(** Only bytes of the pages [P] differ. *)
Definition changes_only (P : list Z) (m m' : gmap Z Z) : Prop :=
  forall a, (forall p, p ∈ P -> a < p \/ p + PGSIZE <= a) -> load8 m' a = load8 m a.

(** The state after memory and the free list have changed. *)
Definition with_mem (m : gmap Z Z) (f : Z) (k : kernel) : kernel :=
  set_kmem_freelist f (set_k_mem m k).

(** ** Lemmas on memory *)

Lemma changes_only_refl P m : changes_only P m m.
Proof. now intros a _. Qed.

Lemma changes_only_trans P Q R m1 m2 m3 :
  changes_only P m1 m2 -> changes_only Q m2 m3 -> P ⊆ R -> Q ⊆ R -> changes_only R m1 m3.
Proof. intros H1 H2 HP HQ a Ha. rewrite H2, H1; eauto. Qed.

Lemma changes_only_mono P Q m m' : changes_only P m m' -> P ⊆ Q -> changes_only Q m m'.
Proof. intros H1 HP a Ha. apply H1. auto. Qed.

Lemma changes_store32 p a v m :
  p <= a -> a + 4 <= p + PGSIZE -> changes_only [p] m (store32 m a v).
Proof.
  intros H1 H2 b Hb. apply load8_store32_ne.
  specialize (Hb p (list_elem_of_here _ _)). unfold PGSIZE in *. lia.
Qed.

Lemma changes_memset p c m : changes_only [p] m (memset m p c PGSIZE).
Proof.
  intros b Hb. unfold PGSIZE in *. rewrite memset_spec, decide_False; [done| |lia].
  specialize (Hb p (list_elem_of_here _ _)). lia.
Qed.

Lemma changes_load8 P m m' q a :
  changes_only P m m' -> q ∉ P -> q mod PGSIZE = 0 -> Forall (fun p => p mod PGSIZE = 0) P ->
  q <= a < q + PGSIZE -> load8 m' a = load8 m a.
Proof.
  intros Hc Hq Ha HP Hr. apply Hc. intros p Hp.
  rewrite Forall_forall in HP. specialize (HP p Hp).
  assert (p <> q) by congruence. destruct (page_disjoint p q); [done|done|done|lia|lia].
Qed.

Lemma changes_load32 P m m' q a :
  changes_only P m m' -> q ∉ P -> q mod PGSIZE = 0 -> Forall (fun p => p mod PGSIZE = 0) P ->
  q <= a -> a + 4 <= q + PGSIZE -> load32 m' a = load32 m a.
Proof.
  intros Hc Hq Ha HP H1 H2. apply load32_ext. intros b Hb.
  apply (changes_load8 P m m' q); [done..|lia].
Qed.

Lemma valid_aligned k P : Forall (valid_page k) P -> Forall (fun p => p mod PGSIZE = 0) P.
Proof. intros H. eapply Forall_impl; [exact H|]. now intros p (Ha & _). Qed.

Lemma kmem_inv_changes k l P m :
  kmem_inv k l -> mem_ok m -> changes_only P (k_mem k) m ->
  Forall (fun p => p mod PGSIZE = 0) P -> (forall p, p ∈ P -> p ∉ l) ->
  kmem_inv (set_k_mem m k) l.
Proof.
  intros [Hok Hl Hnd Hv] Hm Hc HP Hd. split; try done. ksimpl.
  apply (flist_ext (k_mem k)); [|done]. intros p Hp.
  rewrite Forall_forall in Hv. destruct (Hv p Hp) as (Ha & _).
  apply (changes_load32 P _ _ p); [done| |done|done|lia|unfold PGSIZE; lia].
  intros Hp'. now apply (Hd p).
Qed.

(** ** Lemmas on entries *)

Lemma V2P_P2V p : 0 <= p < 2 ^ 32 -> P2V (V2P p) = p.
Proof. intros H. unfold P2V, V2P. rewrite u32_add_l, u32_small; lia. Qed.

Lemma V2P_valid k p :
  valid_page k p -> 0 <= V2P p < 2 ^ 32 /\ V2P p mod 4096 = 0 /\ P2V (V2P p) = p /\ V2P p = p - KERNBASE.
Proof.
  intros Hv. pose proof (valid_page_range k p Hv) as (Hr & _ & _).
  destruct Hv as (Ha & _ & Hb). rewrite V2P_P2V by lia.
  unfold V2P, PGSIZE, KERNBASE, PHYSTOP in *.
  rewrite u32_small by lia. split_and!; try lia. Z.div_mod_to_equations. lia.
Qed.

(** An entry built from a page address and permission bits. *)
Lemma pte_fields pa flags :
  pa mod 4096 = 0 -> 0 <= pa < 2 ^ 32 -> 0 <= flags < 4096 ->
  let e := Z.lor (Z.lor pa flags) PTE_P in
  PTE_ADDR e = pa /\ has e PTE_P = true /\ 0 <= e < 2 ^ 32 /\
  PTE_FLAGS e = Z.lor flags PTE_P.
Proof.
  intros Ha Hp Hf e.
  assert (Hf' : 0 <= Z.lor flags PTE_P < 4096).
  { split; [apply Z.lor_nonneg; unfold PTE_P; lia|].
    destruct (Z.eq_dec (Z.lor flags PTE_P) 0) as [E|E]; [lia|].
    assert (0 <= Z.lor flags PTE_P) by (apply Z.lor_nonneg; unfold PTE_P; lia).
    apply (Z.log2_lt_pow2 _ 12); [lia|].
    rewrite Z.log2_lor by (unfold PTE_P; lia). apply Z.max_lub_lt; [|now vm_compute].
    destruct (Z.eq_dec flags 0) as [->|]; [now vm_compute|].
    apply Z.log2_lt_pow2; lia. }
  destruct (PTE_split pa (Z.lor flags PTE_P) Ha Hp Hf') as (Hs & Hadr & Hfl).
  unfold e. rewrite <- Z.lor_assoc. split_and!; try done.
  - change PTE_P with (2 ^ 0). rewrite has_pow2 by lia.
    rewrite !Z.lor_spec, Z.pow2_bits_true by lia. now rewrite !orb_true_r.
  - rewrite Hs. lia.
  - rewrite Hs. assert (pa <= 2 ^ 32 - 4096) by (Z.div_mod_to_equations; lia). lia.
Qed.

Lemma has_0 f : has 0 f = false.
Proof. reflexivity. Qed.

Definition vpn (va : Z) : Z := u32 va / PGSIZE.

Lemma vpn_split a b : vpn a = vpn b <-> PDX a = PDX b /\ PTX a = PTX b.
Proof.
  rewrite !PDX_arith, !PTX_arith. unfold vpn, PGSIZE. Z.div_mod_to_equations. lia.
Qed.

Lemma elem_of_vals T p : p ∈ vals T <-> exists i, T !! i = Some p.
Proof.
  unfold vals. rewrite list_elem_of_fmap. split.
  - intros ([i q] & -> & H%elem_of_map_to_list). eauto.
  - intros (i & H%elem_of_map_to_list). now exists (i, p).
Qed.

Lemma vals_insert T i p : T !! i = None -> Permutation (vals (<[i := p]> T)) (p :: vals T).
Proof. intros H. unfold vals. now rewrite map_to_list_insert by done. Qed.

Lemma NoDup_vals_inj T i j p :
  NoDup (vals T) -> T !! i = Some p -> T !! j = Some p -> i = j.
Proof.
  intros Hnd Hi Hj. destruct (decide (i = j)) as [|Hne]; [done|]. exfalso.
  rewrite <- (insert_delete_id T i p Hi) in Hnd.
  rewrite vals_insert in Hnd by apply lookup_delete_eq.
  apply NoDup_cons in Hnd as [Hni _]. apply Hni, elem_of_vals. exists j.
  now rewrite lookup_delete_ne.
Qed.

Lemma not_in1 (x y : Z) : x <> y -> x ∉ [y].
Proof. set_solver. Qed.

Lemma not_in2 (x y z : Z) : x <> y -> x <> z -> x ∉ [y; z].
Proof. set_solver. Qed.

(** ** walkpgdir *)

Lemma vm_inv_tables k l pgdir T i t :
  vm_inv k l pgdir T -> T !! i = Some t ->
  0 <= i < 1024 /\ valid_page k t /\ t <> pgdir /\ (t ∉ l) /\ tab_of (k_mem k) pgdir i = Some t.
Proof.
  intros [Hk Ht Hd Hv Hnd] Hi. apply Forall_cons in Hv as [_ Hv].
  apply NoDup_cons in Hnd as [Hnp Hnd]. apply NoDup_app in Hnd as (_ & Hdj & _).
  assert (Hin : t ∈ vals T) by (apply elem_of_vals; eauto).
  rewrite Forall_forall in Hv. pose proof (Hd i t Hi).
  split_and!; try done; auto.
  - lia.
  - lia.
  - intros ->. apply Hnp. set_solver.
  - now rewrite Ht by lia.
Qed.

Lemma vm_inv_pgdir k l pgdir T : vm_inv k l pgdir T -> valid_page k pgdir /\ (pgdir ∉ l).
Proof.
  intros [_ _ _ Hv Hnd]. apply Forall_cons in Hv as [Hv _].
  apply NoDup_cons in Hnd as [Hnp _]. split; [done|]. set_solver.
Qed.

(** Reading the tables of a directory depends on the directory page only. *)
Lemma tab_of_changes P m m' pgdir i :
  changes_only P m m' -> pgdir ∉ P -> pgdir mod PGSIZE = 0 ->
  Forall (fun p => p mod PGSIZE = 0) P -> 0 <= i < 1024 -> tab_of m' pgdir i = tab_of m pgdir i.
Proof.
  intros Hc Hp Ha HP Hi. unfold tab_of.
  rewrite (changes_load32 P m m' pgdir) by (unfold PGSIZE in *; done || lia). done.
Qed.

(** Writing an entry of a page table changes the translation of that page only. *)
Lemma set_pte_spec k l pgdir T va t e :
  vm_inv k l pgdir T -> T !! PDX va = Some t -> 0 <= e < 2 ^ 32 ->
  let m' := store32 (k_mem k) (t + 4 * PTX va) e in
  vm_inv (set_k_mem m' k) l pgdir T /\
  changes_only [t] (k_mem k) m' /\
  (forall va', xlate m' pgdir va' =
     if decide (vpn va' = vpn va) then (if has e PTE_P then Some e else None)
     else xlate (k_mem k) pgdir va').
Proof.
  intros Hinv Ht He m'.
  destruct (vm_inv_tables _ _ _ _ _ _ Hinv Ht) as (Hi & Hvt & Hne & Hnl & Htab).
  destruct (vm_inv_pgdir _ _ _ _ Hinv) as (Hvp & Hpl).
  pose proof (PTX_range va) as Hr.
  assert (Hc : changes_only [t] (k_mem k) m') by (apply changes_store32; unfold PGSIZE; lia).
  assert (Hal : Forall (fun p => p mod PGSIZE = 0) [t]) by (repeat constructor; now destruct Hvt).
  assert (Htabs : forall i, 0 <= i < 1024 -> tab_of m' pgdir i = tab_of (k_mem k) pgdir i).
  { intros i Hi'. apply (tab_of_changes [t]); [done|now apply not_in1|apply Hvp|done|done]. }
  destruct Hinv as [Hk HT Hd Hv Hnd]. split_and!; [|done|].
  - split; [|intros i Hi'; ksimpl; rewrite Htabs by done; now apply HT|exact Hd|exact Hv|exact Hnd].
    apply (kmem_inv_changes k l [t]); [done|apply mem_ok_store32, Hk|done|done|].
    now intros p ->%list_elem_of_singleton.
  - intros va'. unfold xlate. pose proof (PDX_range va') as Hr'. rewrite Htabs by done.
    rewrite HT by done. destruct (T !! PDX va') as [t'|] eqn:Et'.
    + pose proof (PTX_range va'). case_decide as Hvpn.
      * apply vpn_split in Hvpn as [E1 E2]. rewrite E1, Ht in Et'. injection Et' as <-.
        rewrite E2. unfold m'. now rewrite load32_store32_eq, u32_small.
      * assert (Hld : load32 m' (t' + 4 * PTX va') = load32 (k_mem k) (t' + 4 * PTX va'));
          [|now rewrite Hld].
        destruct (decide (t' = t)) as [->|Hnt].
        { unfold m'. apply load32_store32_ne.
          assert (PTX va <> PTX va'); [|lia]. intros E. apply Hvpn, vpn_split. split; [|done].
          apply (NoDup_vals_inj T _ _ t); [|done|done].
          apply NoDup_cons in Hnd as [_ Hnd]. now apply NoDup_app in Hnd as (? & _ & _). }
        apply (changes_load32 [t] _ _ t'); [done|now apply not_in1| |done|lia|unfold PGSIZE; lia].
        apply Forall_cons in Hv as [_ Hv]. rewrite Forall_forall in Hv.
        apply (Hv t'), elem_of_vals. eauto.
    + case_decide as Hvpn; [|done]. apply vpn_split in Hvpn as [E1 E2]. congruence.
Qed.

(** Hanging a fresh zeroed page into a free directory slot. *)
Lemma new_table_spec k p l pgdir T va :
  vm_inv k (p :: l) pgdir T -> T !! PDX va = None ->
  let m' := store32 (memset (k_mem k) p 0 PGSIZE) (pgdir + 4 * PDX va)
              (Z.lor (Z.lor (Z.lor (V2P p) PTE_P) PTE_W) PTE_U) in
  vm_inv (with_mem m' (load32 (k_mem k) p) k) l pgdir (<[PDX va := p]> T) /\
  changes_only [pgdir; p] (k_mem k) m' /\
  (forall va', xlate m' pgdir va' = xlate (k_mem k) pgdir va').
Proof.
  intros Hinv Hnone m'. destruct (vm_inv_pgdir _ _ _ _ Hinv) as (Hvp & Hpl).
  pose proof Hinv as [Hk HT Hd Hv Hnd]. pose proof (PDX_range va) as Hr.
  destruct (kalloc_inv k p l Hk) as (Hfl & Hvpp & Hni & Hk').
  assert (Hk1 : kmem_inv (set_kmem_freelist (load32 (k_mem k) p) k) l).
  { revert Hk'. unfold after_kalloc. rewrite Hfl.
    pose proof (valid_page_range k p Hvpp). destruct (Z.eqb_spec p 0); [lia|done]. }
  destruct (V2P_valid k p Hvpp) as (Hb & Ha & Hback & _).
  assert (Hc : changes_only [pgdir; p] (k_mem k) m').
  { apply (changes_only_trans [p] [pgdir] _ _ (memset (k_mem k) p 0 PGSIZE));
      [apply changes_memset| |clear; set_solver|clear; set_solver].
    apply changes_store32; unfold PGSIZE; lia. }
  assert (Hal : Forall (fun q => q mod PGSIZE = 0) [pgdir; p])
    by (repeat constructor; [now destruct Hvp | now destruct Hvpp]).
  assert (Hppg : p <> pgdir) by (intros ->; now apply Hpl, list_elem_of_here).
  set (e := Z.lor _ PTE_U) in *.
  assert (He : PTE_ADDR e = V2P p /\ has e PTE_P = true /\ 0 <= e < 2 ^ 32).
  { replace e with (Z.lor (Z.lor (V2P p) (Z.lor PTE_W PTE_U)) PTE_P).
    - destruct (pte_fields (V2P p) (Z.lor PTE_W PTE_U) Ha Hb) as (? & ? & ? & _);
        [vm_compute; split; congruence|]. done.
    - unfold e. bitwise n Hn. rewrite !Z.lor_spec.
      destruct (Z.testbit (V2P p) n), (Z.testbit PTE_P n), (Z.testbit PTE_W n),
        (Z.testbit PTE_U n); done. }
  destruct He as (He1 & He2 & He3).
  assert (Hzero : forall j, 0 <= j < 1024 -> load32 m' (p + 4 * j) = 0).
  { intros j Hj. unfold m'. rewrite load32_store32_ne.
    - unfold load32. rewrite !memset_spec by (unfold PGSIZE; lia).
      rewrite !decide_True by (unfold PGSIZE; lia). reflexivity.
    - destruct (page_disjoint p pgdir); [apply Hvpp|apply Hvp|done|unfold PGSIZE in *; lia..]. }
  assert (Htabs : forall i, 0 <= i < 1024 ->
            tab_of m' pgdir i = if decide (i = PDX va) then Some p else tab_of (k_mem k) pgdir i).
  { intros i Hi. unfold tab_of. case_decide as Hd'.
    - subst i. unfold m'. rewrite load32_store32_eq, u32_small by done. now rewrite He2, He1, Hback.
    - unfold m'. rewrite load32_store32_ne by lia.
      rewrite (changes_load32 [p] (k_mem k) _ pgdir); [done|apply changes_memset|now apply not_in1| | |lia|].
      + apply Hvp. + apply Forall_cons in Hal as [_ Hal]. done. + unfold PGSIZE. lia. }
  split_and!; [split|done|].
  - apply (kmem_inv_changes (set_kmem_freelist (load32 (k_mem k) p) k) l [pgdir; p]); try done.
    + apply mem_ok_store32, mem_ok_memset; [unfold PGSIZE; lia|apply Hk].
    + intros q [->|[->|[]%not_elem_of_nil]%elem_of_cons]%elem_of_cons; [|done].
      intros Hin. apply Hpl. now apply list_elem_of_further.
  - intros i Hi. ksimpl. unfold with_mem. ksimpl. rewrite Htabs by done. case_decide as Hd'.
    + subst i. now rewrite lookup_insert_eq.
    + rewrite lookup_insert_ne by done. now apply HT.
  - intros i t Hi. destruct (decide (i = PDX va)) as [->|Hne]; [done|].
    rewrite lookup_insert_ne in Hi by done. eauto.
  - change (Forall (valid_page k) (pgdir :: vals (<[PDX va:=p]> T))).
    rewrite vals_insert by done. apply Forall_cons in Hv as [Hv1 Hv2].
    constructor; [exact Hv1|]. constructor; [exact Hvpp|exact Hv2].
  - assert (HP : Permutation (vals (<[PDX va := p]> T) ++ l) (vals T ++ p :: l))
      by (rewrite vals_insert by done; apply (Permutation_middle (vals T))).
    rewrite HP. exact Hnd.
  - intros va'. unfold xlate. pose proof (PDX_range va') as Hr'. rewrite Htabs by done.
    pose proof (PTX_range va'). case_decide as Hd'.
    + rewrite Hzero, has_0 by done. now rewrite HT, Hd', Hnone.
    + rewrite HT by done. destruct (T !! PDX va') as [t'|] eqn:Et'; [|done].
      destruct (vm_inv_tables _ _ _ _ _ _ Hinv Et') as (_ & Hvt & Hne & Hnl & _).
      rewrite (changes_load32 [pgdir; p] (k_mem k) _ t'); [done|done| |apply Hvt|done|lia|unfold PGSIZE; lia].
      apply not_in2; [done|]. intros ->. now apply Hnl, list_elem_of_here.
Qed.

(** From [k] to [k'] the directory may have gained page tables, taken from the
    free list, and only the directory, its tables and free pages were written. *)
Definition grows (pgdir : Z) (k : kernel) (l : list Z) (T : gmap Z Z)
    (k' : kernel) (l' : list Z) (T' : gmap Z Z) : Prop :=
  (exists m f, k' = with_mem m f k) /\
  vm_inv k' l' pgdir T' /\
  Permutation (vals T' ++ l') (vals T ++ l) /\
  changes_only (pgdir :: vals T ++ l) (k_mem k) (k_mem k').

Lemma grows_refl pgdir k l T : vm_inv k l pgdir T -> grows pgdir k l T k l T.
Proof.
  intros H. split_and!; [|done|done|apply changes_only_refl].
  exists (k_mem k), (kmem_freelist k). now destruct k.
Qed.

Lemma grows_trans pgdir k l T k1 l1 T1 k2 l2 T2 :
  grows pgdir k l T k1 l1 T1 -> grows pgdir k1 l1 T1 k2 l2 T2 -> grows pgdir k l T k2 l2 T2.
Proof.
  intros ((m1 & f1 & ->) & _ & HP1 & Hc1) ((m2 & f2 & ->) & Hv & HP2 & Hc2).
  split_and!; [|done|now rewrite HP2|].
  - exists m2, f2. reflexivity.
  - eapply changes_only_trans; [exact Hc1|exact Hc2|done|]. now rewrite HP1.
Qed.

Lemma grows_quiet pgdir k l T k' l' T' :
  grows pgdir k l T k' l' T' -> kmem_quiet k -> kmem_quiet k'.
Proof. now intros ((m & f & ->) & _). Qed.

Lemma grows_inv pgdir k l T k' l' T' : grows pgdir k l T k' l' T' -> vm_inv k' l' pgdir T'.
Proof. now intros (_ & H & _). Qed.

(** The page table entry of [va] after a successful walk. *)
Definition entry_of (T : gmap Z Z) (va r : Z) : Prop :=
  exists t, T !! PDX va = Some t /\ r = t + 4 * PTX va.

Lemma entry_of_nonzero k l pgdir T va r : vm_inv k l pgdir T -> entry_of T va r -> (r =? 0) = false.
Proof.
  intros Hinv (t & Ht & ->).
  destruct (vm_inv_tables _ _ _ _ _ _ Hinv Ht) as (_ & Hv & _).
  pose proof (valid_page_range _ _ Hv). pose proof (PTX_range va). lia.
Qed.

Lemma walkpgdir_lookup k l pgdir T va :
  vm_inv k l pgdir T ->
  walkpgdir pgdir va false k =
    Ok (match T !! PDX va with Some t => t + 4 * PTX va | None => 0 end) k.
Proof.
  intros [_ HT _ _ _]. specialize (HT _ (PDX_range va)). rewrite <- HT.
  unfold walkpgdir, tab_of. mred.
  now destruct (has (load32 (k_mem k) (pgdir + 4 * PDX va)) PTE_P).
Qed.

Lemma walkpgdir_alloc k l pgdir T va :
  kmem_quiet k -> vm_inv k l pgdir T ->
  exists r k' l' T', walkpgdir pgdir va true k = Ok r k' /\
    grows pgdir k l T k' l' T' /\
    (forall va', xlate (k_mem k') pgdir va' = xlate (k_mem k) pgdir va') /\
    (entry_of T' va r \/ (r = 0 /\ l' = [] /\ T' !! PDX va = None)).
Proof.
  intros Hq Hinv. pose proof Hinv as [Hk HT _ _ _]. specialize (HT _ (PDX_range va)).
  unfold walkpgdir. mred. unfold tab_of in HT.
  destruct (has (load32 (k_mem k) (pgdir + 4 * PDX va)) PTE_P).
  - eexists _, k, l, T. split; [reflexivity|]. split; [now apply grows_refl|]. split; [done|].
    left. exists (P2V (PTE_ADDR (load32 (k_mem k) (pgdir + 4 * PDX va)))).
    split; [exact (eq_sym HT)|reflexivity].
  - cbn [negb]. mok (kalloc_run k Hq). destruct l as [|p l].
    + destruct (kalloc_empty k Hk) as [-> ->].
      eexists 0, k, [], T. split; [reflexivity|]. split; [now apply grows_refl|].
      split; [done|]. right. split_and!; [done|done|exact (eq_sym HT)].
    + destruct (kalloc_inv k p l Hk) as (Hfl & Hv & _ & _). rewrite Hfl.
      pose proof (valid_page_range k p Hv). destruct (Z.eqb_spec p 0); [lia|].
      destruct (new_table_spec k p l pgdir T va Hinv) as (Hinv' & Hc & Hx); [congruence|].
      unfold after_kalloc. rewrite Hfl, (proj2 (Z.eqb_neq p 0)) by done.
      eexists (p + 4 * PTX va), _, l, (<[PDX va := p]> T).
      split; [reflexivity|]. split_and!; [split_and!| |].
      * eexists _, (load32 (k_mem k) p). reflexivity.
      * exact Hinv'.
      * rewrite vals_insert by congruence. apply (Permutation_middle (vals T)).
      * apply (changes_only_mono _ _ _ _ Hc). clear. set_solver.
      * exact Hx.
      * left. exists p. split; [apply lookup_insert_eq|reflexivity].
Qed.

(** ** mappages *)

(** The index of the page of [va] counted from the page of [a]. *)
Definition pgidx (a va : Z) : Z := u32 (u32 va - a) / PGSIZE.

Lemma pgidx_step a va :
  0 <= a < 2 ^ 32 -> a mod PGSIZE = 0 ->
  (vpn va = vpn a /\ pgidx a va = 0) \/
  (vpn va <> vpn a /\ pgidx a va = pgidx (u32 (a + PGSIZE)) va + 1).
Proof.
  unfold pgidx, vpn, u32, PGSIZE. intros Ha Hal. Z.div_mod_to_equations. lia.
Qed.

Lemma pgidx_range a va : 0 <= pgidx a va.
Proof. unfold pgidx. apply Z.div_pos; [apply u32_range | unfold PGSIZE; lia]. Qed.

(** The translations after [j] pages from [a] are mapped to [pa] with [perm]. *)
Definition mapped (a pa perm j : Z) (x : Z -> option Z) (va : Z) : option Z :=
  if pgidx a va <? j
  then Some (Z.lor (Z.lor (u32 (pa + pgidx a va * PGSIZE)) perm) PTE_P)
  else x va.

Lemma mapped_step a pa perm j x va :
  0 <= a < 2 ^ 32 -> a mod PGSIZE = 0 -> 0 <= pa < 2 ^ 32 -> 0 <= j ->
  mapped (u32 (a + PGSIZE)) (u32 (pa + PGSIZE)) perm j
    (fun v => if decide (vpn v = vpn a) then Some (Z.lor (Z.lor pa perm) PTE_P) else x v) va
  = mapped a pa perm (j + 1) x va
  \/ 2 ^ 20 <= j.
Proof.
  intros Ha Hal Hpa Hj. unfold mapped.
  pose proof (pgidx_range (u32 (a + PGSIZE)) va).
  destruct (pgidx_step a va Ha Hal) as [[E1 E2]|[E1 E2]].
  - assert (Hbig : pgidx (u32 (a + PGSIZE)) va = 2 ^ 20 - 1).
    { revert E1 Ha Hal. unfold pgidx, vpn, u32, PGSIZE. clear. intros. Z.div_mod_to_equations. lia. }
    rewrite Hbig, E2, decide_True by done.
    destruct (Z.ltb_spec (2 ^ 20 - 1) j); [right; lia|].
    destruct (Z.ltb_spec 0 (j + 1)); [|lia]. left.
    rewrite Z.mul_0_l, Z.add_0_r, u32_small by done. done.
  - rewrite decide_False by done. rewrite E2. left.
    destruct (Z.ltb_spec (pgidx (u32 (a + PGSIZE)) va) j);
      destruct (Z.ltb_spec (pgidx (u32 (a + PGSIZE)) va + 1) (j + 1)); try lia; [|done].
    do 3 f_equal. rewrite u32_add_l. f_equal. lia.
Qed.

Lemma xlate_entry k l pgdir T va t :
  vm_inv k l pgdir T -> T !! PDX va = Some t ->
  xlate (k_mem k) pgdir va =
    (let e := load32 (k_mem k) (t + 4 * PTX va) in if has e PTE_P then Some e else None).
Proof. intros [_ HT _ _ _] Ht. unfold xlate. now rewrite HT, Ht by apply PDX_range. Qed.

Lemma grows_set_pte k l pgdir T va t e :
  vm_inv k l pgdir T -> T !! PDX va = Some t -> 0 <= e < 2 ^ 32 ->
  grows pgdir k l T (set_k_mem (store32 (k_mem k) (t + 4 * PTX va) e) k) l T.
Proof.
  intros Hinv Ht He. destruct (set_pte_spec k l pgdir T va t e Hinv Ht He) as (H1 & H2 & _).
  split_and!; [|exact H1|reflexivity|].
  - exists (store32 (k_mem k) (t + 4 * PTX va) e), (kmem_freelist k). now destruct k.
  - apply (changes_only_mono _ _ _ _ H2). intros q ->%list_elem_of_singleton.
    apply list_elem_of_further, elem_of_app. left. apply elem_of_vals. eauto.
Qed.

(** One iteration of the loop of [mappages] up to the test of the end. *)
Lemma mappages_iter k l pgdir T a pa perm fuel last :
  kmem_quiet k -> vm_inv k l pgdir T -> 0 <= pa < 2 ^ 32 -> pa mod 4096 = 0 -> 0 <= perm < 4096 ->
  xlate (k_mem k) pgdir a = None ->
  exists k' l' T', grows pgdir k l T k' l' T' /\
    ((mappages_loop (S fuel) pgdir a last pa perm k =
       (if a =? last then Ok 0 k'
        else mappages_loop fuel pgdir (u32 (a + PGSIZE)) last (u32 (pa + PGSIZE)) perm k') /\
      forall va, xlate (k_mem k') pgdir va =
        if decide (vpn va = vpn a) then Some (Z.lor (Z.lor pa perm) PTE_P)
        else xlate (k_mem k) pgdir va) \/
     (mappages_loop (S fuel) pgdir a last pa perm k = Ok (-1) k' /\
      l' = [] /\ T' !! PDX a = None /\
      forall va, xlate (k_mem k') pgdir va = xlate (k_mem k) pgdir va)).
Proof.
  intros Hq Hinv Hpa Hal Hperm Hnone. cbn [mappages_loop].
  destruct (walkpgdir_alloc k l pgdir T a Hq Hinv) as (r & k1 & l1 & T1 & Hrun & Hg & Hx & Hr).
  mok Hrun. pose proof (grows_inv _ _ _ _ _ _ _ Hg) as Hinv1.
  destruct Hr as [He|(-> & Hl1 & HT1)].
  2:{ exists k1, l1, T1. split; [done|]. right. split_and!; done. }
  rewrite (entry_of_nonzero k1 l1 pgdir T1 a r Hinv1 He).
  destruct He as (t & Ht & ->). mred.
  pose proof (xlate_entry k1 l1 pgdir T1 a t Hinv1 Ht) as Hxe. cbn zeta in Hxe.
  rewrite Hx, Hnone in Hxe.
  destruct (has (load32 (k_mem k1) (t + 4 * PTX a)) PTE_P); [congruence|].
  destruct (pte_fields pa perm Hal Hpa Hperm) as (_ & Hp & Hrng & _).
  unfold updmem. mred.
  set (e := Z.lor (Z.lor pa perm) PTE_P) in *.
  set (k2 := set_k_mem (store32 (k_mem k1) (t + 4 * PTX a) e) k1).
  exists k2, l1, T1. split; [eapply grows_trans; [exact Hg|now apply grows_set_pte]|].
  left. split; [now destruct (a =? last)|].
  intros va. destruct (set_pte_spec k1 l1 pgdir T1 a t e Hinv1 Ht Hrng) as (_ & _ & Hxx).
  rewrite Hp in Hxx. unfold k2. ksimpl. rewrite Hxx. now rewrite Hx.
Qed.

Lemma mappages_loop_spec n : forall k l T pgdir a pa perm,
  kmem_quiet k -> vm_inv k l pgdir T -> 0 <= a < 2 ^ 32 -> a mod PGSIZE = 0 ->
  0 <= pa < 2 ^ 32 -> pa mod 4096 = 0 -> 0 <= perm < 4096 -> Z.of_nat n < 2 ^ 20 ->
  (forall va, pgidx a va <= Z.of_nat n -> xlate (k_mem k) pgdir va = None) ->
  exists r k' l' T' j,
    mappages_loop (S n) pgdir a (u32 (a + Z.of_nat n * PGSIZE)) pa perm k = Ok r k' /\
    grows pgdir k l T k' l' T' /\
    (forall va, xlate (k_mem k') pgdir va = mapped a pa perm j (xlate (k_mem k) pgdir) va) /\
    ((r = 0 /\ j = Z.of_nat n + 1) \/
     (r = -1 /\ 0 <= j <= Z.of_nat n /\ l' = [] /\ exists va, T' !! PDX va = None)).
Proof.
  assert (Hself : forall a, 0 <= a < 2 ^ 32 -> pgidx a a = 0).
  { intros a Ha. unfold pgidx. rewrite (u32_small a) by done. now rewrite Z.sub_diag. }
  induction n as [|n IH]; intros k l T pgdir a pa perm Hq Hinv Ha Hal Hpa Hpal Hperm Hn Hfree.
  - destruct (mappages_iter k l pgdir T a pa perm 0 (u32 (a + Z.of_nat 0 * PGSIZE)))
      as (k' & l' & T' & Hg & Hc); try assumption; [apply Hfree; rewrite Hself; lia|].
    replace (u32 (a + Z.of_nat 0 * PGSIZE)) with a in Hc |- *
      by (rewrite Z.mul_0_l, Z.add_0_r, u32_small; lia).
    destruct Hc as [[Hrun Hx]|(Hrun & Hl & HT & Hx)].
    + rewrite Z.eqb_refl in Hrun. exists 0, k', l', T', 1. split_and!; try done; [|left; lia].
      intros va. rewrite Hx. unfold mapped. pose proof (pgidx_range a va).
      destruct (pgidx_step a va Ha Hal) as [[E1 E2]|[E1 E2]].
      * rewrite decide_True, E2 by done. cbn. now rewrite Z.mul_0_l, Z.add_0_r, u32_small.
      * pose proof (pgidx_range (u32 (a + PGSIZE)) va). rewrite decide_False by done.
        destruct (Z.ltb_spec (pgidx a va) 1); [lia|done].
    + exists (-1), k', l', T', 0. split_and!; try done; [|right; split_and!; [done|lia|lia|done|eauto]].
      intros va. rewrite Hx. unfold mapped. pose proof (pgidx_range a va).
      destruct (Z.ltb_spec (pgidx a va) 0); [lia|done].
  - set (a' := u32 (a + PGSIZE)). set (pa' := u32 (pa + PGSIZE)).
    assert (Hlast : u32 (a + Z.of_nat (S n) * PGSIZE) = u32 (a' + Z.of_nat n * PGSIZE)).
    { unfold a'. rewrite u32_add_l. f_equal. lia. }
    assert (Hne : (a =? u32 (a' + Z.of_nat n * PGSIZE)) = false).
    { rewrite <- Hlast. apply Z.eqb_neq. revert Ha Hal Hn. unfold u32, PGSIZE. clear.
      intros. Z.div_mod_to_equations. lia. }
    rewrite Hlast.
    destruct (mappages_iter k l pgdir T a pa perm (S n) (u32 (a' + Z.of_nat n * PGSIZE)))
      as (k1 & l1 & T1 & Hg & Hc); try assumption; [apply Hfree; rewrite Hself; lia|].
    destruct Hc as [[Hrun Hx]|(Hrun & Hl & HT & Hx)].
    2:{ exists (-1), k1, l1, T1, 0. split_and!; try done; [|right; split_and!; [done|lia|lia|done|eauto]].
      intros va. rewrite Hx. unfold mapped. pose proof (pgidx_range a va).
      destruct (Z.ltb_spec (pgidx a va) 0); [lia|done]. }
    rewrite Hne in Hrun.
    destruct (IH k1 l1 T1 pgdir a' pa' perm) as (r & k2 & l2 & T2 & j & Hr2 & Hg2 & Hx2 & Hres).
    + eapply grows_quiet; eauto.
    + eapply grows_inv; eauto.
    + apply u32_range.
    + revert Hal. unfold a', u32, PGSIZE. clear. intros. Z.div_mod_to_equations. lia.
    + apply u32_range.
    + revert Hpal. unfold pa', u32, PGSIZE. clear. intros. Z.div_mod_to_equations. lia.
    + done.
    + lia.
    + intros va Hva. rewrite Hx. pose proof (pgidx_range a' va).
      destruct (pgidx_step a va Ha Hal) as [[E1 E2]|[E1 E2]]; fold a' in E2.
      * exfalso. revert E1 Hva Hn Ha Hal. unfold a', pgidx, vpn, u32, PGSIZE. clear.
        intros. Z.div_mod_to_equations. lia.
      * rewrite decide_False by done. apply Hfree. lia.
    + exists r, k2, l2, T2, (j + 1). split_and!; [rewrite Hrun; exact Hr2|eapply grows_trans; eauto| |].
      * intros va. rewrite Hx2.
        assert (0 <= j <= Z.of_nat n + 1) by lia.
        destruct (mapped_step a pa perm j (xlate (k_mem k) pgdir) va) as [<-|]; try done; try lia.
        unfold mapped. fold a' pa'. destruct (pgidx a' va <? j); [done|]. apply Hx.
      * destruct Hres as [[-> ->]|(-> & Hj & -> & He)]; [left; lia|right].
        split_and!; [done|lia|lia|done|done].
Qed.

(** The number of pages after the first that [va, va + size) touches. *)
Definition npages (va size : Z) : Z :=
  u32 (PGROUNDDOWN (u32 (va + size - 1)) - PGROUNDDOWN va) / PGSIZE.

Lemma npages_range va size : 0 <= npages va size < 2 ^ 20.
Proof.
  unfold npages, PGSIZE. pose proof (u32_range (PGROUNDDOWN (u32 (va + size - 1)) - PGROUNDDOWN va)).
  Z.div_mod_to_equations. lia.
Qed.

Lemma PGROUNDDOWN_range va : 0 <= PGROUNDDOWN va < 2 ^ 32 /\ PGROUNDDOWN va mod PGSIZE = 0.
Proof.
  rewrite PGROUNDDOWN_arith. unfold PGSIZE. pose proof (u32_range va). Z.div_mod_to_equations. lia.
Qed.

Lemma mappages_spec k l T pgdir va size pa perm :
  kmem_quiet k -> vm_inv k l pgdir T ->
  0 <= pa < 2 ^ 32 -> pa mod 4096 = 0 -> 0 <= perm < 4096 ->
  (forall v, pgidx (PGROUNDDOWN va) v <= npages va size -> xlate (k_mem k) pgdir v = None) ->
  exists r k' l' T' j,
    mappages pgdir va size pa perm k = Ok r k' /\
    grows pgdir k l T k' l' T' /\
    (forall v, xlate (k_mem k') pgdir v =
       mapped (PGROUNDDOWN va) pa perm j (xlate (k_mem k) pgdir) v) /\
    ((r = 0 /\ j = npages va size + 1) \/
     (r = -1 /\ 0 <= j <= npages va size /\ l' = [] /\ exists v, T' !! PDX v = None)).
Proof.
  intros Hq Hinv Hpa Hal Hperm Hfree. unfold mappages. fold (npages va size).
  pose proof (npages_range va size) as Hn. pose proof (PGROUNDDOWN_range va) as [Ha Haa].
  pose proof (PGROUNDDOWN_range (u32 (va + size - 1))) as [Hl Hla].
  replace (PGROUNDDOWN (u32 (va + size - 1)))
    with (u32 (PGROUNDDOWN va + Z.of_nat (Z.to_nat (npages va size)) * PGSIZE)).
  - destruct (mappages_loop_spec (Z.to_nat (npages va size)) k l T pgdir (PGROUNDDOWN va) pa perm)
      as (r & k' & l' & T' & j & H); try assumption.
    + lia.
    + intros v Hv. apply Hfree. lia.
    + exists r, k', l', T', j. rewrite Z2Nat.id in H by lia. rewrite Z2Nat.id by lia. exact H.
  - rewrite Z2Nat.id by lia. unfold npages. revert Ha Haa Hl Hla.
    generalize (PGROUNDDOWN (u32 (va + size - 1))) (PGROUNDDOWN va). clear.
    unfold u32, PGSIZE. intros. Z.div_mod_to_equations. lia.
Qed.

Lemma mappages_remap k l T pgdir va size pa perm e :
  kmem_quiet k -> vm_inv k l pgdir T -> xlate (k_mem k) pgdir (PGROUNDDOWN va) = Some e ->
  mappages pgdir va size pa perm k = Panic "remap".
Proof.
  intros Hq Hinv Hx. unfold mappages. cbn [mappages_loop].
  set (a := PGROUNDDOWN va) in *. clearbody a.
  destruct (walkpgdir_alloc k l pgdir T a Hq Hinv) as (r & k1 & l1 & T1 & Hrun & Hg & Hxx & Hr).
  mok Hrun. pose proof (grows_inv _ _ _ _ _ _ _ Hg) as Hinv1. rewrite <- Hxx in Hx.
  destruct Hr as [He|(-> & Hl1 & HT1)].
  - rewrite (entry_of_nonzero k1 l1 pgdir T1 a r Hinv1 He). destruct He as (t & Ht & ->).
    rewrite (xlate_entry k1 l1 pgdir T1 a t Hinv1 Ht) in Hx. cbn zeta in Hx. mred.
    destruct (has (load32 (k_mem k1) (t + 4 * PTX a)) PTE_P); [reflexivity|congruence].
  - exfalso. destruct Hinv1 as [_ HT _ _ _]. unfold xlate in Hx.
    rewrite HT, HT1 in Hx by apply PDX_range. congruence.
Qed.

(** ** setupkvm *)

(** The translations after the entries [ks] of the table are mapped over [x]. *)
Fixpoint kmapped (ks : list kmap_entry) (x : Z -> option Z) : Z -> option Z :=
  match ks with
  | [] => x
  | e :: ks' =>
      kmapped ks' (mapped (PGROUNDDOWN (km_virt e)) (km_start e) (km_perm e)
        (npages (km_virt e) (u32 (km_end e - km_start e)) + 1) x)
  end.

(** Each entry is well formed and its pages are not mapped by the ones before. *)
Fixpoint kmap_ok (ks : list kmap_entry) (x : Z -> option Z) : Prop :=
  match ks with
  | [] => True
  | e :: ks' =>
      (0 <= km_start e < 2 ^ 32 /\ km_start e mod 4096 = 0 /\ 0 <= km_perm e < 4096) /\
      (forall v, pgidx (PGROUNDDOWN (km_virt e)) v
         <= npages (km_virt e) (u32 (km_end e - km_start e)) -> x v = None) /\
      kmap_ok ks' (mapped (PGROUNDDOWN (km_virt e)) (km_start e) (km_perm e)
        (npages (km_virt e) (u32 (km_end e - km_start e)) + 1) x)
  end.

Lemma mapped_ext a pa perm j x y va : x va = y va -> mapped a pa perm j x va = mapped a pa perm j y va.
Proof. intros H. unfold mapped. now destruct (pgidx a va <? j). Qed.

Lemma kmapped_ext ks : forall x y va, x va = y va -> kmapped ks x va = kmapped ks y va.
Proof.
  induction ks as [|e ks IH]; intros x y va H; [done|]. cbn [kmapped]. apply IH.
  now apply mapped_ext.
Qed.

Lemma kmap_ok_ext ks : forall x y, (forall va, x va = y va) -> kmap_ok ks x -> kmap_ok ks y.
Proof.
  induction ks as [|e ks IH]; intros x y H; [done|]. cbn [kmap_ok]. intros (H1 & H2 & H3).
  split_and!; [apply H1..| |].
  - intros v Hv. rewrite <- H. auto.
  - eapply IH; [|exact H3]. intros va. apply mapped_ext, H.
Qed.

Lemma setupkvm_loop_spec ks : forall k l T pgdir,
  kmem_quiet k -> vm_inv k l pgdir T -> pgdir <> 0 -> kmap_ok ks (xlate (k_mem k) pgdir) ->
  exists r k' l' T', setupkvm_loop ks pgdir k = Ok r k' /\ grows pgdir k l T k' l' T' /\
    ((r = pgdir /\ forall v, xlate (k_mem k') pgdir v = kmapped ks (xlate (k_mem k) pgdir) v) \/
     (r = 0 /\ l' = [] /\ exists v, T' !! PDX v = None)).
Proof.
  induction ks as [|e ks IH]; intros k l T pgdir Hq Hinv Hnz Hok.
  { exists pgdir, k, l, T. split_and!; [reflexivity|now apply grows_refl|now left]. }
  cbn [kmap_ok setupkvm_loop kmapped] in *. destruct Hok as ((Hs & Hsa & Hp) & Hfree & Hok).
  destruct (mappages_spec k l T pgdir (km_virt e) (u32 (km_end e - km_start e)) (km_start e) (km_perm e))
    as (r & k1 & l1 & T1 & j & Hrun & Hg & Hx & Hr); try assumption.
  mok Hrun. destruct Hr as [[-> ->]|(-> & _ & Hl & Hv)]; cbn [Z.ltb Z.compare].
  - destruct (IH k1 l1 T1 pgdir) as (r & k2 & l2 & T2 & Hrun2 & Hg2 & Hres); try done.
    + eapply grows_quiet; eauto.
    + eapply grows_inv; eauto.
    + eapply kmap_ok_ext; [|exact Hok]. intros va. symmetry. apply Hx.
    + exists r, k2, l2, T2. split_and!; [exact Hrun2|eapply grows_trans; eauto|].
      destruct Hres as [[-> Hx2]|Hres]; [left|now right]. split; [done|].
      intros v. rewrite Hx2. apply kmapped_ext, Hx.
  - exists 0, k1, l1, T1. split_and!; [reflexivity|exact Hg|right; auto].
Qed.

(** What the comment above [kmap] promises: the kernel part of every page
    table, as the entry for each linear address. *)
Definition kernel_pte (data va : Z) : option Z :=
  let pg := PGROUNDDOWN va in
  if va <? KERNBASE then None
  else if va <? KERNLINK then Some (Z.lor (Z.lor (pg - KERNBASE) PTE_W) PTE_P)
  else if va <? data then Some (Z.lor (Z.lor (pg - KERNBASE) 0) PTE_P)
  else if va <? KERNBASE + PHYSTOP then Some (Z.lor (Z.lor (pg - KERNBASE) PTE_W) PTE_P)
  else if va <? DEVSPACE then None
  else Some (Z.lor (Z.lor pg PTE_W) PTE_P).

(** The linker puts [data] on a page boundary between the kernel's text and the
    top of memory (kernel.ld). *)
Definition data_ok (data : Z) : Prop :=
  data mod PGSIZE = 0 /\ KERNLINK < data < KERNBASE + PHYSTOP.

Lemma npages_aligned s size :
  s mod 4096 = 0 -> 0 <= s -> 0 < size -> s + size <= 2 ^ 32 -> size mod 4096 = 0 ->
  PGROUNDDOWN s = s /\ npages s size = size / 4096 - 1.
Proof.
  intros Hs H0 Hz Hle Hm. unfold npages, PGSIZE. rewrite !PGROUNDDOWN_arith.
  rewrite (u32_small (u32 _)) by apply u32_range. rewrite (u32_small s), (u32_small (s + size - 1)) by lia.
  assert (E : s / 4096 * 4096 = s) by (Z.div_mod_to_equations; lia). rewrite E. split; [done|].
  rewrite u32_small; Z.div_mod_to_equations; lia.
Qed.

(** A region of whole pages, mapped entry by entry. *)
Lemma mapped_region s size pa perm x va :
  s mod 4096 = 0 -> 0 <= s -> 0 < size -> s + size <= 2 ^ 32 -> size mod 4096 = 0 ->
  0 <= pa -> pa + size <= 2 ^ 32 ->
  mapped (PGROUNDDOWN s) pa perm (npages s size + 1) x va =
    if decide (s <= u32 va < s + size) then Some (Z.lor (Z.lor (PGROUNDDOWN va - s + pa) perm) PTE_P)
    else x va.
Proof.
  intros Hs H0 Hz Hle Hm Hpa Hpl.
  destruct (npages_aligned s size) as [-> ->]; try done. unfold mapped, pgidx, PGSIZE.
  rewrite PGROUNDDOWN_arith. pose proof (u32_range va) as Hva.
  generalize (x va). intros y.
  generalize dependent (u32 va). clear va. intros va Hva. case_decide as Hd.
  - rewrite (u32_small (va - s)) by lia.
    destruct (Z.ltb_spec ((va - s) / 4096) (size / 4096 - 1 + 1)); [|Z.div_mod_to_equations; lia].
    replace (u32 (pa + (va - s) / 4096 * 4096)) with (va / 4096 * 4096 - s + pa); [done|].
    rewrite u32_small; Z.div_mod_to_equations; lia.
  - destruct (Z.ltb_spec (u32 (va - s) / 4096) (size / 4096 - 1 + 1)) as [H|]; [exfalso|done].
    apply Hd. revert H. unfold u32. Z.div_mod_to_equations. lia.
Qed.

Lemma region_free s size v :
  s mod 4096 = 0 -> 0 <= s -> 0 < size -> s + size <= 2 ^ 32 -> size mod 4096 = 0 ->
  pgidx (PGROUNDDOWN s) v <= npages s size -> s <= u32 v < s + size.
Proof.
  intros Hs H0 Hz Hle Hm. destruct (npages_aligned s size) as [-> ->]; try done.
  unfold pgidx, PGSIZE. pose proof (u32_range v). generalize dependent (u32 v). intros w.
  unfold u32. Z.div_mod_to_equations. lia.
Qed.

Lemma xlate_u32 m pgdir va : xlate m pgdir (u32 va) = xlate m pgdir va.
Proof.
  unfold xlate. rewrite !PDX_arith, !PTX_arith, !u32_idemp. reflexivity.
Qed.

Lemma kmap_sizes data :
  data_ok data ->
  V2P KERNLINK = EXTMEM /\ V2P data = data - KERNBASE /\
  u32 (EXTMEM - 0) = EXTMEM /\ u32 (V2P data - V2P KERNLINK) = data - KERNLINK /\
  u32 (PHYSTOP - V2P data) = KERNBASE + PHYSTOP - data /\ u32 (0 - DEVSPACE) = 2 ^ 32 - DEVSPACE.
Proof.
  intros (Ha & Hd). unfold KERNLINK, KERNBASE, EXTMEM, PHYSTOP, DEVSPACE, V2P in *.
  assert (E : u32 (data - 0x80000000) = data - 0x80000000) by (apply u32_small; lia).
  change (u32 (_ + _ - _)) with 0x100000. unfold KERNBASE. rewrite E. split_and!; try reflexivity.
  - rewrite u32_small; lia.
  - rewrite u32_small; lia.
Qed.

Ltac kmap_side :=
  unfold data_ok, KERNLINK, KERNBASE, EXTMEM, PHYSTOP, DEVSPACE, PGSIZE in *;
  solve [lia | reflexivity | Z.div_mod_to_equations; lia].

Lemma kmapped_kmap data va :
  data_ok data -> 0 <= va < 2 ^ 32 -> kmapped (kmap data) (fun _ => None) va = kernel_pte data va.
Proof.
  intros Hd Hva. destruct (kmap_sizes data Hd) as (E1 & E2 & E3 & E4 & E5 & E6).
  unfold kmap. cbn [kmapped km_virt km_start km_end km_perm]. rewrite E3, E4, E5, E6, E1, E2.
  destruct Hd as (Ha & Hd).
  rewrite !mapped_region, !u32_small by kmap_side.
  unfold kernel_pte. unfold KERNLINK, KERNBASE, EXTMEM, PHYSTOP, DEVSPACE, PGSIZE in *.
  repeat case_decide; repeat case_match; try lia; try reflexivity; do 3 f_equal; lia.
Qed.

Lemma kmap_ok_kmap data : data_ok data -> kmap_ok (kmap data) (fun _ => None).
Proof.
  intros Hd. destruct (kmap_sizes data Hd) as (E1 & E2 & E3 & E4 & E5 & E6).
  unfold kmap. cbn [kmap_ok km_virt km_start km_end km_perm]. rewrite E3, E4, E5, E6, E1, E2.
  destruct Hd as (Ha & Hd).
  assert (HW : 0 <= PTE_W < 4096) by (unfold PTE_W; lia).
  split_and!; [kmap_side|kmap_side|reflexivity|lia|lia|reflexivity
    |kmap_side|kmap_side|reflexivity|lia|lia| |kmap_side|kmap_side|kmap_side|lia|lia|
    |kmap_side|kmap_side|reflexivity|lia|lia| |exact I];
    intros v Hv; apply region_free in Hv; try kmap_side; pose proof (u32_range v);
    rewrite !mapped_region by kmap_side;
    unfold KERNLINK, KERNBASE, EXTMEM, PHYSTOP, DEVSPACE, PGSIZE in *;
    repeat case_decide; lia || reflexivity.
Qed.

Lemma vals_empty : vals ∅ = [].
Proof. reflexivity. Qed.

Lemma length_vals T : length (vals T) = size T.
Proof. unfold vals. now rewrite length_fmap, length_map_to_list. Qed.

(** A directory with a free slot has fewer than 1024 tables. *)
Lemma vals_bound k l pgdir T va :
  vm_inv k l pgdir T -> T !! PDX va = None -> (length (vals T) < 1024)%nat.
Proof.
  intros [_ _ Hd _ _] Hn. rewrite length_vals, <- size_dom.
  assert (Hsub : dom T ⊆ (list_to_set (seqZ 0 1024) ∖ {[PDX va]} : gset Z)).
  { intros i Hi. apply elem_of_dom in Hi as [t Ht]. apply elem_of_difference. split.
    - apply elem_of_list_to_set, elem_of_seqZ. apply Hd in Ht. lia.
    - intros ->%elem_of_singleton. congruence. }
  apply subseteq_size in Hsub. rewrite size_difference in Hsub.
  - rewrite size_list_to_set, length_seqZ, size_singleton in Hsub by apply NoDup_seqZ. lia.
  - intros i ->%elem_of_singleton. apply elem_of_list_to_set, elem_of_seqZ.
    pose proof (PDX_range va). lia.
Qed.

Lemma vals_le k l pgdir T : vm_inv k l pgdir T -> (length (vals T) <= 1024)%nat.
Proof.
  intros [_ _ Hd _ _]. rewrite length_vals, <- size_dom.
  assert (Hsub : dom T ⊆ (list_to_set (seqZ 0 1024) : gset Z)).
  { intros i Hi. apply elem_of_dom in Hi as [t Ht].
    apply elem_of_list_to_set, elem_of_seqZ. apply Hd in Ht. lia. }
  apply subseteq_size in Hsub.
  rewrite size_list_to_set, length_seqZ in Hsub by apply NoDup_seqZ. lia.
Qed.

(** A zeroed page is an empty directory. *)
Lemma new_directory k p l :
  kmem_inv k (p :: l) ->
  let k' := set_k_mem (memset (k_mem (after_kalloc k)) p 0 PGSIZE) (after_kalloc k) in
  (exists m f, k' = with_mem m f k) /\ vm_inv k' l p ∅ /\
  (forall va, xlate (k_mem k') p va = None) /\ changes_only [p] (k_mem k) (k_mem k').
Proof.
  intros Hk k'. destruct (kalloc_inv k p l Hk) as (Hfl & Hv & Hni & Hk').
  pose proof (valid_page_range k p Hv) as (Hp0 & _).
  assert (Hz : forall i, 0 <= i < 1024 -> tab_of (k_mem k') p i = None).
  { intros i Hi. unfold tab_of, k'. ksimpl. unfold load32. rewrite !memset_spec by (unfold PGSIZE; lia).
    rewrite !decide_True by (unfold PGSIZE; lia). reflexivity. }
  assert (E : after_kalloc k = set_kmem_freelist (load32 (k_mem k) p) k).
  { unfold after_kalloc. rewrite Hfl. destruct (Z.eqb_spec p 0); [lia|reflexivity]. }
  unfold k' in *. clear k'. rewrite E in Hz, Hk' |- *.
  split_and!.
  - exists (memset (k_mem k) p 0 PGSIZE), (load32 (k_mem k) p). reflexivity.
  - split.
    + apply (kmem_inv_changes (set_kmem_freelist (load32 (k_mem k) p) k) l [p]); [done| | | |].
      * apply mem_ok_memset; [unfold PGSIZE; lia|apply Hk].
      * apply changes_memset.
      * constructor; [apply Hv|constructor].
      * now intros q ->%list_elem_of_singleton.
    + intros i Hi. rewrite lookup_empty. now apply Hz.
    + intros i t. rewrite lookup_empty. congruence.
    + rewrite vals_empty. constructor; [exact Hv|constructor].
    + rewrite vals_empty. constructor; [exact Hni|apply Hk'].
  - intros va. unfold xlate. now rewrite Hz by apply PDX_range.
  - apply changes_memset.
Qed.

Lemma setupkvm_spec k l :
  kmem_quiet k -> kmem_inv k l -> data_ok (sym_data (k_link k)) ->
  exists r k' l', setupkvm k = Ok r k' /\ (exists m f, k' = with_mem m f k) /\
    kmem_inv k' l' /\ changes_only l (k_mem k) (k_mem k') /\
    ((r = 0 /\ l' = [] /\ (length l < 1025)%nat) \/
     (exists T, r <> 0 /\ vm_inv k' l' r T /\ Permutation (r :: vals T ++ l') l /\
        forall va, xlate (k_mem k') r va = kernel_pte (sym_data (k_link k)) (u32 va))).
Proof.
  intros Hq Hk Hd. unfold setupkvm. mok (kalloc_run k Hq). destruct l as [|p l].
  { destruct (kalloc_empty k Hk) as [-> ->]. exists 0, k, []. split_and!; [reflexivity| |done| |].
    - exists (k_mem k), (kmem_freelist k). now destruct k.
    - apply changes_only_refl.
    - left. cbn. split_and!; [done|done|lia]. }
  destruct (kalloc_inv k p l Hk) as (Hfl & Hv & Hni & Hk'). rewrite Hfl.
  pose proof (valid_page_range k p Hv) as (Hp0 & _). destruct (Z.eqb_spec p 0); [lia|].
  destruct (new_directory k p l Hk) as ((m0 & f0 & E0) & Hinv & Hnone & Hc). unfold updmem. mred.
  set (k1 := set_k_mem _ (after_kalloc k)) in *.
  change (DEVSPACE <? P2V PHYSTOP) with false. cbn match. mred.
  assert (Hlk : k_link k1 = k_link k) by now rewrite E0. rewrite Hlk.
  destruct (setupkvm_loop_spec (kmap (sym_data (k_link k))) k1 l ∅ p)
    as (r & k' & l' & T' & Hrun & Hg & Hr).
  - now rewrite E0.
  - done.
  - done.
  - apply (kmap_ok_ext _ (fun _ => None)); [intros va; now rewrite Hnone|]. now apply kmap_ok_kmap.
  - exists r, k', l'.
    destruct Hg as ((m & f & E) & Hinv' & HP & Hc'). rewrite vals_empty in HP, Hc'.
    cbn [app] in HP, Hc'. split_and!.
    + exact Hrun.
    + exists m, f. rewrite E, E0. reflexivity.
    + apply Hinv'.
    + eapply changes_only_trans; [exact Hc|exact Hc'| |done]. clear. set_solver.
    + destruct Hr as [[-> Hx]|(-> & -> & v & HvT)]; [right|left].
      * exists T'. split_and!; [done|done|now rewrite HP|]. intros va.
        rewrite <- xlate_u32, Hx.
        rewrite (kmapped_ext _ _ (fun _ => None)) by apply Hnone.
        apply kmapped_kmap; [done|apply u32_range].
      * split_and!; [done|done|]. pose proof (vals_bound _ _ _ _ _ Hinv' HvT) as Hb.
        apply Permutation_length in HP. rewrite length_app in HP. cbn in HP |- *. lia.
Qed.

(** ** Properties of the kernel page tables *)

(** The static kernel state with [n] pages freed, for the examples. *)
Definition booted (n : nat) : kernel := foldr after_kfree kernel0 (pages 0x80400000 n).

Lemma booted_spec n :
  Z.of_nat n <= 50000 ->
  kmem_inv (booted n) (pages 0x80400000 n) /\ exists m f, booted n = with_mem m f kernel0.
Proof.
  intros Hn.
  assert (H : forall ps, NoDup ps -> Forall (valid_page kernel0) ps ->
            kmem_inv (foldr after_kfree kernel0 ps) ps /\
            exists m f, foldr after_kfree kernel0 ps = with_mem m f kernel0).
  { induction ps as [|p ps IH]; intros Hnd Hv; cbn [foldr].
    - split; [apply kernel0_inv|]. exists ∅, 0. reflexivity.
    - apply NoDup_cons in Hnd as [Hni Hnd]. apply Forall_cons in Hv as [Hvp Hv].
      destruct (IH Hnd Hv) as (Hk & m & f & E). split.
      + apply kfree_inv; [done| |done]. rewrite E. exact Hvp.
      + rewrite E. eexists _, _. reflexivity. }
  apply H; [apply NoDup_pages|]. apply pages_valid; [reflexivity|now vm_compute|now vm_compute|].
  unfold PGSIZE, KERNBASE, PHYSTOP. lia.
Qed.

(** mappages: on a well-formed directory whose pages in the range are
    unmapped, the call returns; 0 means exactly the range is mapped, page by
    page, to consecutive physical pages with the given permissions; -1 means
    the allocator ran dry and a prefix is mapped.  All other translations, and
    all memory outside the directory, its tables and free pages, are unchanged,
    and every page is still accounted for.  A range whose first page is already
    mapped panics. *)
Theorem mappages_correct : forall k l T pgdir va size pa perm,
  kmem_quiet k -> vm_inv k l pgdir T ->
  0 <= pa < 2 ^ 32 -> pa mod 4096 = 0 -> 0 <= perm < 4096 ->
  ((forall v, pgidx (PGROUNDDOWN va) v <= npages va size -> xlate (k_mem k) pgdir v = None) ->
   exists r k' l' T' j,
    mappages pgdir va size pa perm k = Ok r k' /\
    grows pgdir k l T k' l' T' /\
    (forall v, xlate (k_mem k') pgdir v =
       mapped (PGROUNDDOWN va) pa perm j (xlate (k_mem k) pgdir) v) /\
    ((r = 0 /\ j = npages va size + 1) \/
     (r = -1 /\ 0 <= j <= npages va size /\ l' = [] /\ exists v, T' !! PDX v = None))) /\
  (is_Some (xlate (k_mem k) pgdir (PGROUNDDOWN va)) ->
   mappages pgdir va size pa perm k = Panic "remap").
Proof.
  intros k l T pgdir va size pa perm Hq Hinv Hpa Hal Hperm. split.
  - now apply mappages_spec.
  - intros [e He]. now apply (mappages_remap k l T pgdir va size pa perm e).
Qed.

Lemma mappages_correct_witness :
  exists k l pgdir T, vm_inv k l pgdir T /\
    exists r k' l' T' j, mappages pgdir 0x1234 8192 0x300000 PTE_W k = Ok r k' /\
      grows pgdir k l T k' l' T' /\ (r = 0 \/ r = -1) /\ 0 <= j <= 3.
Proof.
  destruct (booted_spec 10) as (Hk & m & f & E); [lia|].
  rewrite pages_S in Hk.
  destruct (new_directory _ _ _ Hk) as ((m1 & f1 & E1) & Hinv & Hx & _).
  set (k := set_k_mem _ _) in *. eexists k, _, _, _. split; [exact Hinv|].
  assert (Hq : kmem_quiet k) by (rewrite E1, E; now left).
  destruct (mappages_correct k _ _ _ 0x1234 8192 0x300000 PTE_W Hq Hinv) as [H _].
  - lia.
  - reflexivity.
  - unfold PTE_W. lia.
  - destruct H as (r & k' & l' & T' & j & H1 & H2 & _ & H3); [intros v _; apply Hx|].
    change (npages 0x1234 8192) with 2 in H3.
    exists r, k', l', T', j. split_and!; [exact H1|exact H2|lia..].
Defined.

(** C31. setupkvm: the directory it returns translates every linear address as
    the memory layout table says (I/O space, kernel text read-only, kernel data
    and free memory writable, devices, nothing below KERNBASE), uses only pages
    that were free, and gives 0 only when fewer than 1025 pages were free; in
    that case all of them are used up and not given back. *)
Theorem setupkvm_correct : forall k l,
  kmem_quiet k -> kmem_inv k l -> data_ok (sym_data (k_link k)) ->
  exists r k' l', setupkvm k = Ok r k' /\ (exists m f, k' = with_mem m f k) /\
    kmem_inv k' l' /\ changes_only l (k_mem k) (k_mem k') /\
    ((r = 0 /\ l' = [] /\ (length l < 1025)%nat) \/
     (exists T, r <> 0 /\ vm_inv k' l' r T /\ Permutation (r :: vals T ++ l') l /\
        forall va, xlate (k_mem k') r va = kernel_pte (sym_data (k_link k)) (u32 va))).
Proof. exact setupkvm_spec. Qed.

Lemma setupkvm_correct_witness :
  exists r k' l', setupkvm (booted 2000) = Ok r k' /\ r <> 0 /\
    xlate (k_mem k') r 0x80100123 = Some (Z.lor (Z.lor 0x100000 0) PTE_P) /\ kmem_inv k' l'.
Proof.
  destruct (booted_spec 2000) as (Hk & m & f & E); [lia|].
  destruct (setupkvm_correct (booted 2000) (pages 0x80400000 2000))
    as (r & k' & l' & H1 & _ & H2 & _ & H3).
  - rewrite E. now left.
  - exact Hk.
  - rewrite E. change (data_ok 0x80108000). split; [reflexivity|].
    unfold KERNLINK, KERNBASE, EXTMEM, PHYSTOP. lia.
  - exists r, k', l'. destruct H3 as [(_ & _ & H3)|(T & Hr & _ & _ & Hx)].
    + exfalso. unfold pages in H3. rewrite length_fmap, length_seq in H3. lia.
    + split_and!; [exact H1|exact Hr| |exact H2]. rewrite Hx, E. reflexivity.
Defined.
