(* ===== verification/VmUser.v ===== *)
(** * User address spaces (vm.c)

    The invariant of a process's page table and what deallocuvm, allocuvm,
    freevm, copyuvm and copyout do to it. *)

From S2P Require Import Prelude State CMem Spinlock Mmu Kalloc Console Vm.

(** ** User address spaces *)

(** The kernel address of the page an entry refers to. *)
Definition upage (e : Z) : Z := P2V (PTE_ADDR e).
Definition upages (U : gmap Z Z) : list Z := upage <$> vals U.

(** The linker's symbols lie where the memory layout puts them. *)
Definition link_ok (k : kernel) : Prop :=
  KERNBASE < sym_end (k_link k) /\ data_ok (sym_data (k_link k)).

(** [pgdir] is the page directory of an address space: [T] are its page tables,
    [U] its user part (entry by page number), every page it owns is its own and
    not free, and above [KERNBASE] it maps the kernel. *)
Record as_inv (k : kernel) (l : list Z) (pgdir : Z) (T U : gmap Z Z) : Prop := {
  as_vm : vm_inv k l pgdir T;
  as_user : forall v, 0 <= v < 2 ^ 19 -> xlate (k_mem k) pgdir (v * PGSIZE) = U !! v;
  as_kern : forall va, KERNBASE <= va < 2 ^ 32 ->
    xlate (k_mem k) pgdir va = kernel_pte (sym_data (k_link k)) va;
  as_dom : forall v e, U !! v = Some e -> 0 <= v < 2 ^ 19;
  as_valid : Forall (valid_page k) (upages U);
  as_nodup : NoDup ((pgdir :: vals T ++ l) ++ upages U)
}.

Lemma elem_of_upages U p : p ∈ upages U <-> exists v e, U !! v = Some e /\ p = upage e.
Proof.
  unfold upages. rewrite list_elem_of_fmap. setoid_rewrite elem_of_vals. naive_solver.
Qed.

Lemma upages_insert U v e :
  U !! v = None -> Permutation (upages (<[v := e]> U)) (upage e :: upages U).
Proof. intros H. unfold upages. now rewrite vals_insert by done. Qed.

Lemma upages_delete U v e :
  U !! v = Some e -> Permutation (upages U) (upage e :: upages (delete v U)).
Proof.
  intros H. rewrite <- (insert_delete_id U v e H) at 1.
  now rewrite upages_insert by apply lookup_delete_eq.
Qed.

(** Writes outside the directory and its tables leave the translations alone. *)
Lemma xlate_changes k l pgdir T P m' va :
  vm_inv k l pgdir T -> changes_only P (k_mem k) m' ->
  Forall (fun p => p mod PGSIZE = 0) P -> (forall p, p ∈ P -> p ∉ pgdir :: vals T) ->
  xlate m' pgdir va = xlate (k_mem k) pgdir va.
Proof.
  intros Hinv Hc HP Hd. destruct (vm_inv_pgdir _ _ _ _ Hinv) as (Hvp & _).
  assert (Hpg : pgdir ∉ P) by (intros Hp; apply (Hd _ Hp), list_elem_of_here).
  unfold xlate. pose proof (PDX_range va). pose proof (PTX_range va).
  rewrite (tab_of_changes P (k_mem k)) by (done || apply Hvp). destruct Hinv as [Hk HT Hdm Hv Hnd].
  rewrite HT by done. destruct (T !! PDX va) as [t|] eqn:Et; [|done].
  assert (Ht : t ∈ vals T) by (apply elem_of_vals; eauto).
  rewrite (changes_load32 P (k_mem k) _ t); [done|done| | |done|lia|unfold PGSIZE; lia].
  - intros Hp. now apply (Hd _ Hp), list_elem_of_further.
  - apply Forall_cons in Hv as [_ Hv]. rewrite Forall_forall in Hv. now apply Hv.
Qed.

Lemma vm_inv_changes k l pgdir T P m' :
  vm_inv k l pgdir T -> mem_ok m' -> changes_only P (k_mem k) m' ->
  Forall (fun p => p mod PGSIZE = 0) P -> (forall p, p ∈ P -> p ∉ pgdir :: vals T ++ l) ->
  vm_inv (set_k_mem m' k) l pgdir T.
Proof.
  intros Hinv Hok Hc HP Hd. destruct (vm_inv_pgdir _ _ _ _ Hinv) as (Hvp & _).
  destruct Hinv as [Hk HT Hdm Hv Hnd]. split; [| |exact Hdm|exact Hv|exact Hnd].
  - apply (kmem_inv_changes k l P); [done..|]. intros p Hp Hl. apply (Hd _ Hp).
    apply list_elem_of_further, elem_of_app. now right.
  - intros i Hi. rewrite <- HT by done. apply (tab_of_changes P); [done| |apply Hvp|done|done].
    intros Hp. apply (Hd _ Hp), list_elem_of_here.
Qed.

(** Giving a page that the directory does not use back to the allocator. *)
Lemma changes_kfree p k : changes_only [p] (k_mem k) (k_mem (after_kfree p k)).
Proof.
  intros a Ha. apply after_kfree_frame. apply Ha, list_elem_of_here.
Qed.

Lemma vm_inv_kfree k l pgdir T p :
  vm_inv k l pgdir T -> valid_page k p -> p ∉ pgdir :: vals T ++ l ->
  vm_inv (after_kfree p k) (p :: l) pgdir T /\
  (forall va, xlate (k_mem (after_kfree p k)) pgdir va = xlate (k_mem k) pgdir va).
Proof.
  intros Hinv Hv Hn. destruct (vm_inv_pgdir _ _ _ _ Hinv) as (Hvp & _).
  assert (Hal : Forall (fun p => p mod PGSIZE = 0) [p]) by (constructor; [apply Hv|constructor]).
  apply not_elem_of_cons in Hn as [Hne Hn]. apply not_elem_of_app in Hn as [HnT Hnl].
  pose proof (changes_kfree p k) as Hc. split.
  - destruct Hinv as [Hk HT Hdm Hvl Hnd]. split; [now apply kfree_inv| |exact Hdm|exact Hvl|].
    + intros i Hi. rewrite <- HT by done.
      apply (tab_of_changes [p]); [done|now apply not_in1|apply Hvp|done|done].
    + rewrite <- Permutation_middle. apply NoDup_cons in Hnd as [Hn1 Hn2].
      constructor; [|constructor; [|exact Hn2]].
      * rewrite not_elem_of_cons. split; [done|exact Hn1].
      * rewrite not_elem_of_app. done.
  - intros va. apply (xlate_changes k l pgdir T [p]); [done..|].
    intros q ->%list_elem_of_singleton. now rewrite not_elem_of_cons.
Qed.

Lemma vpn_user v : 0 <= v < 2 ^ 19 -> vpn (v * PGSIZE) = v.
Proof.
  intros Hv. unfold vpn, PGSIZE. rewrite u32_small by lia. now rewrite Z.div_mul by lia.
Qed.

Lemma vpn_kern va v : KERNBASE <= va < 2 ^ 32 -> 0 <= v < 2 ^ 19 -> vpn va <> v.
Proof.
  intros Ha Hv. unfold vpn, PGSIZE, KERNBASE in *. rewrite u32_small by lia.
  Z.div_mod_to_equations. lia.
Qed.

(** What the entry of a user page says. *)
Lemma as_entry k l pgdir T U v :
  as_inv k l pgdir T U -> 0 <= v < 2 ^ 19 ->
  match T !! PDX (v * PGSIZE) with
  | Some t =>
      let e := load32 (k_mem k) (t + 4 * PTX (v * PGSIZE)) in
      U !! v = if has e PTE_P then Some e else None
  | None => U !! v = None
  end.
Proof.
  intros [Hvm Hu _ _ _ _] Hv. rewrite <- Hu by done.
  destruct (T !! PDX (v * PGSIZE)) as [t|] eqn:Et.
  - apply (xlate_entry k l pgdir T); done.
  - destruct Hvm as [_ HT _ _ _]. unfold xlate. now rewrite HT, Et by apply PDX_range.
Qed.

Lemma as_upage k l pgdir T U v e :
  as_inv k l pgdir T U -> U !! v = Some e ->
  valid_page k (upage e) /\ (upage e ∉ pgdir :: vals T ++ l).
Proof.
  intros [_ _ _ _ Hv Hnd] HU. assert (Hin : upage e ∈ upages U) by (apply elem_of_upages; eauto).
  rewrite Forall_forall in Hv. split; [now apply Hv|]. apply NoDup_app in Hnd as (_ & Hd & _).
  intros H. now apply (Hd _ H).
Qed.

Lemma as_free_page k l pgdir T U v e t :
  as_inv k l pgdir T U -> U !! v = Some e -> T !! PDX (v * PGSIZE) = Some t ->
  let k1 := after_kfree (upage e) k in
  let k2 := set_k_mem (store32 (k_mem k1) (t + 4 * PTX (v * PGSIZE)) 0) k1 in
  as_inv k2 (upage e :: l) pgdir T (delete v U) /\
  changes_only [upage e; t] (k_mem k) (k_mem k2).
Proof.
  intros Has HU Ht k1 k2. destruct (as_upage _ _ _ _ _ _ _ Has HU) as (Hvp & Hnp).
  pose proof (as_dom _ _ _ _ _ Has v e HU) as Hv.
  destruct (vm_inv_kfree k l pgdir T (upage e) (as_vm _ _ _ _ _ Has) Hvp Hnp) as (Hvm1 & Hx1).
  destruct (set_pte_spec k1 (upage e :: l) pgdir T (v * PGSIZE) t 0 Hvm1 Ht) as (Hvm2 & Hc2 & Hx2);
    [lia|]. rewrite has_0 in Hx2. split.
  - pose proof (upages_delete U v e HU) as HP. pose proof Has as [Hvm Hu Hk Hd Hval Hnd].
    split.
    + exact Hvm2.
    + intros w Hw. unfold k2. ksimpl. rewrite Hx2, !vpn_user by done. case_decide as E.
      * subst w. now rewrite lookup_delete_eq.
      * rewrite lookup_delete_ne by done. rewrite Hx1. now apply Hu.
    + intros va Hva. unfold k2. ksimpl. rewrite Hx2.
      rewrite (vpn_user v), decide_False by (try done; now apply vpn_kern). rewrite Hx1. now apply Hk.
    + intros w e' He'. rewrite lookup_delete_Some in He'. destruct He' as [_ He']. eauto.
    + change (Forall (valid_page k) (upages (delete v U))).
      rewrite HP in Hval. now apply Forall_cons in Hval as [_ ?].
    + rewrite HP in Hnd. clear - Hnd.
      assert (E : Permutation ((pgdir :: vals T ++ upage e :: l) ++ upages (delete v U))
                ((pgdir :: vals T ++ l) ++ upage e :: upages (delete v U))); [|now rewrite E].
      rewrite <- !Permutation_middle. cbn. now rewrite <- perm_swap.
  - eapply changes_only_trans; [apply (changes_kfree (upage e))|exact Hc2| |]; clear; set_solver.
Qed.

(** ** deallocuvm *)

(** From directory entry [i] on, no page table is missing below a user page. *)
Definition no_holes (T U : gmap Z Z) (i : Z) : Prop :=
  forall v e j, U !! v = Some e -> i <= j <= v / NPTENTRIES -> is_Some (T !! j).

Lemma PDX_user v : 0 <= v < 2 ^ 20 -> PDX (v * PGSIZE) = v / NPTENTRIES.
Proof.
  intros Hv. rewrite PDX_arith. unfold PGSIZE, NPTENTRIES. rewrite u32_small by lia.
  Z.div_mod_to_equations. lia.
Qed.

Lemma upage_addr k e :
  link_ok k -> valid_page k (upage e) -> (PTE_ADDR e =? 0) = false.
Proof.
  intros [Hl _] (_ & Hv & _). apply Z.eqb_neq. intros E. unfold upage in Hv. rewrite E in Hv.
  change (P2V 0) with KERNBASE in Hv. lia.
Qed.

Section Dealloc.
Context (pgdir oldsz newsz : Z) (T : gmap Z Z).
Hypothesis Hold : oldsz <= KERNBASE.

(** The outcome of freeing the user pages in [a, oldsz). *)
Definition dealloc_post (k : kernel) (l : list Z) (U : gmap Z Z) (a : Z) (k' : kernel)
    (fr : list Z) (U' : gmap Z Z) : Prop :=
  (exists m f, k' = with_mem m f k) /\
  as_inv k' (fr ++ l) pgdir T U' /\
  Permutation (upages U) (fr ++ upages U') /\
  changes_only (vals T ++ fr) (k_mem k) (k_mem k') /\
  (forall v, U' !! v = if decide (a <= v * PGSIZE < oldsz) then None else U !! v).

Lemma dealloc_post_nil k l U a :
  as_inv k l pgdir T U -> (forall v e, U !! v = Some e -> a <= v * PGSIZE < oldsz -> False) ->
  dealloc_post k l U a k [] U.
Proof.
  intros Has H. split_and!; [|done|done|apply changes_only_refl|].
  - exists (k_mem k), (kmem_freelist k). now destruct k.
  - intros v. case_decide as Hd; [|done]. destruct (U !! v) eqn:E; [|done]. exfalso. eauto.
Qed.

(** Pages below the next address are dealt with; the rest follows. *)
Lemma dealloc_post_skip k l U a b k' fr U' :
  dealloc_post k l U b k' fr U' -> a <= b ->
  (forall v e, U !! v = Some e -> a <= v * PGSIZE < b -> False) ->
  dealloc_post k l U a k' fr U'.
Proof.
  intros (H1 & H2 & H3 & H4 & H5) Hab Hn. split_and!; try assumption.
  intros v. rewrite H5. destruct (U !! v) as [e|] eqn:E; repeat case_decide; try done; try lia.
  exfalso. apply (Hn v e E). lia.
Qed.

Lemma dealloc_post_cons k l U v e t k2 k' fr U' :
  as_inv k l pgdir T U -> U !! v = Some e -> T !! PDX (v * PGSIZE) = Some t ->
  v * PGSIZE < oldsz ->
  k2 = set_k_mem (store32 (k_mem (after_kfree (upage e) k)) (t + 4 * PTX (v * PGSIZE)) 0)
         (after_kfree (upage e) k) ->
  dealloc_post k2 (upage e :: l) (delete v U) ((v + 1) * PGSIZE) k' fr U' ->
  dealloc_post k l U (v * PGSIZE) k' (fr ++ [upage e]) U'.
Proof.
  intros Has HU Ht Hlt -> ((m & f & ->) & H2 & H3 & H4 & H5).
  destruct (as_free_page k l pgdir T U v e t Has HU Ht) as (_ & Hc).
  split_and!.
  - exists m, f. reflexivity.
  - rewrite <- app_assoc. exact H2.
  - rewrite (upages_delete U v e HU), H3, <- app_assoc. cbn. now rewrite Permutation_middle.
  - eapply changes_only_trans; [exact Hc|exact H4| |].
    + intros q [->|[->|[]%not_elem_of_nil]%elem_of_cons]%elem_of_cons; rewrite !elem_of_app.
      * right. right. apply list_elem_of_here.
      * left. apply elem_of_vals. eauto.
    + clear. set_solver.
  - intros w. rewrite H5. destruct (decide (w = v)) as [->|Hne].
    + rewrite lookup_delete_eq. rewrite (decide_True (P := v * PGSIZE <= _ < _)) by lia.
      now case_decide.
    + rewrite lookup_delete_ne by done. unfold PGSIZE in *. repeat case_decide; lia || done.
Qed.

Lemma deallocuvm_loop_spec fuel : forall k l U v,
  kmem_quiet k -> link_ok k -> as_inv k l pgdir T U -> no_holes T U (v / NPTENTRIES) ->
  0 <= v -> v * PGSIZE <= KERNBASE + 2 ^ 22 -> oldsz <= (v + Z.of_nat fuel) * PGSIZE ->
  exists k' fr U', deallocuvm_loop fuel pgdir (v * PGSIZE) oldsz newsz k = Ok newsz k' /\
    dealloc_post k l U (v * PGSIZE) k' fr U'.
Proof.
  induction fuel as [|fuel IH]; intros k l U v Hq Hlk Has Hnh Hv Hvt Hf;
    cbn [deallocuvm_loop]; destruct (Z.ltb_spec (v * PGSIZE) oldsz) as [Hlt|Hge]; cbn [negb].
  1: lia.
  1, 3: exists k, [], U; split; [reflexivity|apply dealloc_post_nil; [done|lia]].
  assert (Hvu : 0 <= v < 2 ^ 19) by (unfold KERNBASE, PGSIZE in *; lia).
  mok (walkpgdir_lookup k l pgdir T (v * PGSIZE) (as_vm _ _ _ _ _ Has)).
  pose proof (as_entry k l pgdir T U v Has Hvu) as He.
  assert (Hnext : u32 (v * PGSIZE + PGSIZE) = (v + 1) * PGSIZE).
  { unfold PGSIZE, KERNBASE in *. rewrite u32_small; lia. }
  assert (Hnh' : forall U1, U1 ⊆ U -> no_holes T U1 ((v + 1) / NPTENTRIES)).
  { intros U1 Hsub w e j Hw Hj. apply (Hnh w e j); [eapply lookup_weaken; eauto|].
    unfold NPTENTRIES in *. Z.div_mod_to_equations. lia. }
  destruct (T !! PDX (v * PGSIZE)) as [t|] eqn:Et.
  2:{ cbn [Z.eqb].
    replace (u32 (v * PGSIZE + (NPTENTRIES - 1) * PGSIZE + PGSIZE)) with ((v + 1024) * PGSIZE)
      by (unfold PGSIZE, KERNBASE, NPTENTRIES in *; rewrite u32_small; lia).
    assert (Hnone : forall w e, U !! w = Some e -> v <= w -> False).
    { intros w e Hw Hle. destruct (Hnh w e (v / NPTENTRIES)) as [t Ht]; [done| |].
      - split; [lia|]. apply Z.div_le_mono; [unfold NPTENTRIES|]; lia.
      - rewrite PDX_user in Et by lia. congruence. }
    destruct (IH k l U (v + 1024)) as (k' & fr & U' & Hrun & Hpost); try done.
    - intros w e j Hw Hj. exfalso. apply (Hnone w e Hw).
      unfold NPTENTRIES in *. Z.div_mod_to_equations. lia.
    - lia.
    - unfold PGSIZE, KERNBASE in *. lia.
    - unfold PGSIZE in *. lia.
    - exists k', fr, U'. split; [exact Hrun|]. apply (dealloc_post_skip _ _ _ _ _ _ _ _ Hpost).
      + unfold PGSIZE. lia.
      + intros w e Hw Hr. apply (Hnone w e Hw). unfold PGSIZE in *. lia. }
  cbn zeta in He.
  rewrite (entry_of_nonzero k l pgdir T (v * PGSIZE)); [|apply Has|exists t; done].
  mred. rewrite Hnext.
  set (e := load32 (k_mem k) (t + 4 * PTX (v * PGSIZE))) in *.
  destruct (has e PTE_P) eqn:Hp.
  - destruct (as_upage _ _ _ _ _ _ _ Has He) as (Hval & _).
    rewrite (upage_addr k e Hlk Hval).
    rewrite bind_assoc by (unfold returns; fold (upage e); now rewrite (kfree_run k (upage e) Hq Hval)).
    mok (kfree_run k (upage e) Hq Hval). unfold updmem. rewrite bind_modify.
    set (k2 := set_k_mem _ (after_kfree (upage e) k)).
    destruct (as_free_page k l pgdir T U v e t Has He Et) as (Has2 & Hc2).
    destruct (IH k2 (upage e :: l) (delete v U) (v + 1)) as (k' & fr & U' & Hrun & Hpost).
    + exact Hq. + exact Hlk. + exact Has2.
    + apply Hnh', delete_subseteq. + lia.
    + unfold PGSIZE, KERNBASE in *; lia. + unfold PGSIZE in *; lia.
    + exists k', (fr ++ [upage e]), U'. split; [exact Hrun|].
      apply (dealloc_post_cons k l U v e t k2); done.
  - mred. destruct (IH k l U (v + 1)) as (k' & fr & U' & Hrun & Hpost); try done.
    + now apply Hnh'. + lia. + unfold PGSIZE, KERNBASE in *; lia. + unfold PGSIZE in *; lia.
    + exists k', fr, U'. split; [exact Hrun|]. apply (dealloc_post_skip _ _ _ _ _ _ _ _ Hpost).
      * unfold PGSIZE; lia.
      * intros w e' Hw Hr. assert (w = v) by (unfold PGSIZE in *; lia). congruence.
Qed.
End Dealloc.

Lemma deallocuvm_spec k l pgdir T U oldsz newsz :
  kmem_quiet k -> link_ok k -> as_inv k l pgdir T U ->
  0 <= newsz < oldsz -> oldsz <= KERNBASE -> no_holes T U (PGROUNDUP newsz / PGSIZE / NPTENTRIES) ->
  exists k' fr U', deallocuvm pgdir oldsz newsz k = Ok newsz k' /\
    dealloc_post pgdir oldsz T k l U (PGROUNDUP newsz) k' fr U'.
Proof.
  intros Hq Hlk Has Hn Ho Hh. unfold deallocuvm. destruct (Z.leb_spec oldsz newsz); [lia|].
  destruct (PGROUNDUP_spec newsz) as (Ha & Hr); [unfold KERNBASE in *; lia|].
  destruct (deallocuvm_loop_spec pgdir oldsz newsz T Ho (Z.to_nat (oldsz / PGSIZE + 1)) k l U
              (PGROUNDUP newsz / PGSIZE)) as (k' & fr & U' & Hrun & Hpost); try done.
  - apply Z.div_pos; unfold PGSIZE; lia.
  - unfold PGSIZE, KERNBASE in *. Z.div_mod_to_equations. lia.
  - unfold PGSIZE in *. rewrite Z2Nat.id by (apply Z.add_nonneg_nonneg; [apply Z.div_pos|]; lia).
    Z.div_mod_to_equations. lia.
  - replace (PGROUNDUP newsz / PGSIZE * PGSIZE) with (PGROUNDUP newsz) in Hrun, Hpost
      by (unfold PGSIZE in *; Z.div_mod_to_equations; lia). eauto.
Qed.

(** ** Changing an address space *)

(** Writes to pages that are neither free nor part of the tables (user pages
    among them) keep the invariant. *)
Lemma as_inv_changes k l pgdir T U P m' :
  as_inv k l pgdir T U -> mem_ok m' -> changes_only P (k_mem k) m' ->
  Forall (fun p => p mod PGSIZE = 0) P -> (forall p, p ∈ P -> p ∉ pgdir :: vals T ++ l) ->
  as_inv (set_k_mem m' k) l pgdir T U.
Proof.
  intros [Hvm Hu Hk Hd Hv Hnd] Hok Hc HP Hdj.
  assert (Hx : forall va, xlate m' pgdir va = xlate (k_mem k) pgdir va).
  { intros va. apply (xlate_changes k l pgdir T P); [done..|]. intros p Hp Hin.
    apply (Hdj p Hp). clear - Hin. set_solver. }
  split; [now apply (vm_inv_changes k l pgdir T P)| | |exact Hd|exact Hv|exact Hnd].
  - intros v Hvr. ksimpl. rewrite Hx. now apply Hu.
  - intros va Hva. ksimpl. rewrite Hx. now apply Hk.
Qed.

Lemma as_inv_kalloc k p l pgdir T U :
  as_inv k (p :: l) pgdir T U ->
  kmem_freelist k = p /\ p <> 0 /\ valid_page k p /\
  (p ∉ (pgdir :: vals T ++ l) ++ upages U) /\
  after_kalloc k = set_kmem_freelist (load32 (k_mem k) p) k /\
  as_inv (after_kalloc k) l pgdir T U.
Proof.
  intros [[Hkm HT Hdt Hvt Hndt] Hu Hk Hd Hv Hnd].
  destruct (kalloc_inv k p l Hkm) as (Hfl & Hvp & Hni & Hk').
  pose proof (valid_page_range k p Hvp) as (Hp0 & _).
  assert (E : after_kalloc k = set_kmem_freelist (load32 (k_mem k) p) k).
  { unfold after_kalloc. rewrite Hfl. destruct (Z.eqb_spec p 0); [lia|reflexivity]. }
  assert (HP : Permutation ((pgdir :: vals T ++ p :: l) ++ upages U)
                 (p :: (pgdir :: vals T ++ l) ++ upages U)).
  { rewrite <- Permutation_middle. cbn. apply perm_swap. }
  rewrite HP in Hnd. apply NoDup_cons in Hnd as [Hn Hnd].
  split_and!; [done|lia|done|done|done|]. rewrite E in Hk' |- *.
  split; [split|exact Hu|exact Hk|exact Hd|exact Hv|exact Hnd];
    [exact Hk'|exact HT|exact Hdt|exact Hvt|].
  now apply NoDup_app in Hnd as (? & _ & _).
Qed.

(** A page taken from the allocator and cleared. *)
Lemma as_inv_fresh k p l pgdir T U :
  as_inv k (p :: l) pgdir T U ->
  let k' := set_k_mem (memset (k_mem (after_kalloc k)) p 0 PGSIZE) (after_kalloc k) in
  as_inv k' l pgdir T U /\ changes_only [p] (k_mem k) (k_mem k') /\
  (forall b, p <= b < p + PGSIZE -> load8 (k_mem k') b = 0).
Proof.
  intros Has k'. destruct (as_inv_kalloc k p l pgdir T U Has) as (_ & _ & Hv & Hn & E & Has').
  split_and!.
  - apply (as_inv_changes (after_kalloc k) l pgdir T U [p]); [done| |apply changes_memset| |].
    + apply mem_ok_memset; [unfold PGSIZE; lia|]. apply Has'.
    + constructor; [apply Hv|constructor].
    + intros q ->%list_elem_of_singleton Hin. apply Hn. clear - Hin. set_solver.
  - unfold k'. rewrite E. apply changes_memset.
  - intros b Hb. unfold k'. ksimpl. rewrite memset_spec by (unfold PGSIZE; lia).
    now rewrite decide_True by done.
Qed.

Lemma as_inv_kfree k l pgdir T U p :
  as_inv k l pgdir T U -> valid_page k p -> p ∉ (pgdir :: vals T ++ l) ++ upages U ->
  as_inv (after_kfree p k) (p :: l) pgdir T U.
Proof.
  intros [Hvm Hu Hk Hd Hv Hnd] Hvp Hn.
  destruct (vm_inv_kfree k l pgdir T p Hvm Hvp) as (Hvm' & Hx); [clear - Hn; set_solver|].
  split; [done| | |exact Hd|exact Hv|].
  - intros v Hvr. rewrite Hx. now apply Hu.
  - intros va Hva. rewrite Hx. now apply Hk.
  - assert (HP : Permutation ((pgdir :: vals T ++ p :: l) ++ upages U)
                 (p :: (pgdir :: vals T ++ l) ++ upages U)).
    { rewrite <- Permutation_middle. cbn. apply perm_swap. }
    rewrite HP. now constructor.
Qed.

(** The entry [mappages] writes for the page [p]. *)
Definition mkpte (p perm : Z) : Z := Z.lor (Z.lor (V2P p) perm) PTE_P.

Lemma mkpte_fields k p perm :
  valid_page k p -> 0 <= perm < 4096 ->
  upage (mkpte p perm) = p /\ PTE_FLAGS (mkpte p perm) = Z.lor perm PTE_P.
Proof.
  intros Hv Hp. destruct (V2P_valid k p Hv) as (Hr & Ha & Hb & _).
  destruct (pte_fields (V2P p) perm Ha Hr Hp) as (E & _ & _ & Hf). unfold upage, mkpte.
  now rewrite E, Hb.
Qed.

Lemma as_inv_grows k l pgdir T U k' l' T' :
  as_inv k l pgdir T U -> grows pgdir k l T k' l' T' ->
  NoDup ((pgdir :: vals T' ++ l') ++ upages U) /\ Forall (valid_page k') (upages U).
Proof.
  intros [Hvm Hu Hk Hd Hv Hnd] ((m & f & ->) & Hvm' & HP & _). split; [|exact Hv].
  now rewrite HP.
Qed.

Lemma pgidx_user v w :
  0 <= v < 2 ^ 19 -> pgidx (v * PGSIZE) w < 1 <-> vpn w = v.
Proof.
  intros Hv. unfold pgidx, vpn, PGSIZE. pose proof (u32_range w).
  generalize dependent (u32 w). intros w' Hw. unfold u32. split; Z.div_mod_to_equations; lia.
Qed.

Lemma map_user_page k l pgdir T U v p perm :
  kmem_quiet k -> as_inv k l pgdir T U -> 0 <= v < 2 ^ 19 -> U !! v = None ->
  valid_page k p -> p ∉ (pgdir :: vals T ++ l) ++ upages U -> 0 <= perm < 4096 ->
  exists r k' l' T', mappages pgdir (v * PGSIZE) PGSIZE (V2P p) perm k = Ok r k' /\
    grows pgdir k l T k' l' T' /\
    ((r = 0 /\ as_inv k' l' pgdir T' (<[v := mkpte p perm]> U)) \/
     (r = -1 /\ l' = [] /\ as_inv k' l' pgdir T' U)).
Proof.
  intros Hq Has Hv Hn Hvp Hnp Hperm. pose proof Has as [Hvm Hu Hk Hd Hval Hnd].
  destruct (V2P_valid k p Hvp) as (Hr & Ha & Hb & _).
  destruct (npages_aligned (v * PGSIZE) PGSIZE) as [Eg En];
    [unfold PGSIZE; rewrite Z.mod_mul; lia|unfold PGSIZE; lia..|reflexivity|].
  change (PGSIZE / 4096 - 1) with 0 in En.
  destruct (mappages_spec k l T pgdir (v * PGSIZE) PGSIZE (V2P p) perm)
    as (r & k' & l' & T' & j & Hrun & Hg & Hx & Hres); try assumption.
  { intros w Hw. rewrite Eg, En in Hw. apply Z.lt_succ_r, pgidx_user in Hw; [|done].
    rewrite <- Hn, <- Hu by done. unfold xlate. rewrite <- (vpn_user v) in Hw by done.
    apply vpn_split in Hw as [-> ->]. reflexivity. }
  exists r, k', l', T'. split; [exact Hrun|]. split; [exact Hg|].
  destruct (as_inv_grows _ _ _ _ _ _ _ _ Has Hg) as [Hnd' Hval'].
  pose proof Hg as ((m & f & E) & Hvm' & HP & Hc). rewrite Eg in Hx. rewrite En in Hres.
  destruct Hres as [[-> ->]|(-> & Hj & -> & _)]; [left|right].
  - split; [done|]. destruct (mkpte_fields k p perm Hvp Hperm) as [Eu _].
    assert (Hx' : forall w, xlate (k_mem k') pgdir w =
              if decide (vpn w = v) then Some (mkpte p perm) else xlate (k_mem k) pgdir w).
    { intros w. rewrite Hx. unfold mapped. pose proof (pgidx_range (v * PGSIZE) w).
      pose proof (pgidx_user v w Hv). case_decide as Ew.
      - assert (E0 : pgidx (v * PGSIZE) w = 0) by (apply H0 in Ew; lia). rewrite E0.
        cbn. now rewrite Z.mul_0_l, Z.add_0_r, u32_small.
      - destruct (Z.ltb_spec (pgidx (v * PGSIZE) w) (0 + 1)); [|done]. exfalso. apply Ew, H0. lia. }
    split; [exact Hvm'| | | | |].
    + intros w Hw. rewrite Hx', vpn_user by done. case_decide as Ew.
      * subst w. now rewrite lookup_insert_eq.
      * rewrite lookup_insert_ne by done. now apply Hu.
    + intros va Hva. rewrite Hx', decide_False by now apply vpn_kern. rewrite Hk by done. now rewrite E.
    + intros w e He. destruct (decide (w = v)) as [->|Hne]; [done|].
      rewrite lookup_insert_ne in He by done. eauto.
    + rewrite upages_insert by done. constructor; [|exact Hval']. rewrite Eu, E. exact Hvp.
    + rewrite upages_insert, Eu by done. rewrite <- Permutation_middle.
      constructor; [|exact Hnd']. rewrite HP. exact Hnp.
  - split_and!; [done|done|]. assert (j = 0) by lia. subst j.
    assert (Hx' : forall w, xlate (k_mem k') pgdir w = xlate (k_mem k) pgdir w).
    { intros w. rewrite Hx. unfold mapped. pose proof (pgidx_range (v * PGSIZE) w).
      destruct (Z.ltb_spec (pgidx (v * PGSIZE) w) 0); [lia|done]. }
    split; [exact Hvm'| | |exact Hd|exact Hval'|exact Hnd'].
    + intros w Hw. rewrite Hx'. now apply Hu.
    + intros va Hva. rewrite Hx', Hk by done. now rewrite E.
Qed.

(** A map with keys in [a, b) has at most [b - a] pages. *)
Lemma upages_length a b (U : gmap Z Z) :
  a <= b -> (forall w e, U !! w = Some e -> a <= w < b) -> Z.of_nat (length (upages U)) <= b - a.
Proof.
  intros Hv Hd. unfold upages. rewrite length_fmap, length_vals, <- size_dom.
  assert (Hsub : dom U ⊆ (list_to_set (seqZ a (b - a)) : gset Z)).
  { intros i Hi. apply elem_of_dom in Hi as [t Ht].
    apply elem_of_list_to_set, elem_of_seqZ. apply Hd in Ht. lia. }
  apply subseteq_size in Hsub.
  rewrite size_list_to_set, length_seqZ in Hsub by apply NoDup_seqZ. lia.
Qed.

(** ** allocuvm *)

(** The console can print. *)
Definition cons_ok (k : kernel) : Prop :=
  screen_ok k /\ (cons_locking k = 0 \/ (lock_free Lcons k /\ cpu_ok (k_cpu k))).

(** One step of managing an address space: memory, the free list and the console
    output change; the pages owned or free stay the same altogether; and only
    those pages are written. *)
Definition as_step (pgdir : Z) (k : kernel) (l : list Z) (T U : gmap Z Z)
    (k' : kernel) (l' : list Z) (T' U' : gmap Z Z) : Prop :=
  (exists m f log crt pos, k' = with_console log crt pos (with_mem m f k)) /\
  as_inv k' l' pgdir T' U' /\
  Permutation ((pgdir :: vals T' ++ l') ++ upages U') ((pgdir :: vals T ++ l) ++ upages U) /\
  changes_only ((pgdir :: vals T ++ l) ++ upages U) (k_mem k) (k_mem k') /\
  (cons_ok k -> cons_ok k').

Lemma with_mem_console m f k : exists log crt pos, with_mem m f k = with_console log crt pos (with_mem m f k).
Proof. exists (conslog k), (k_crt k), (k_crtpos k). now destruct k. Qed.

Lemma with_mem_frame m f log crt pos m' f' k :
  with_mem m' f' (with_console log crt pos (with_mem m f k)) = with_console log crt pos (with_mem m' f' k).
Proof. now destruct k. Qed.

Lemma with_console_frame l1 c1 p1 l2 c2 p2 m f m' f' k :
  with_console l2 c2 p2 (with_mem m' f' (with_console l1 c1 p1 (with_mem m f k))) =
  with_console l2 c2 p2 (with_mem m' f' k).
Proof. now destruct k. Qed.

Lemma as_step_refl pgdir k l T U : as_inv k l pgdir T U -> as_step pgdir k l T U k l T U.
Proof.
  intros H. split_and!; [|done|done|apply changes_only_refl|done].
  exists (k_mem k), (kmem_freelist k), (conslog k), (k_crt k), (k_crtpos k). now destruct k.
Qed.

Lemma as_step_trans pgdir k l T U k1 l1 T1 U1 k2 l2 T2 U2 :
  as_step pgdir k l T U k1 l1 T1 U1 -> as_step pgdir k1 l1 T1 U1 k2 l2 T2 U2 ->
  as_step pgdir k l T U k2 l2 T2 U2.
Proof.
  intros ((m1 & f1 & g1 & c1 & p1 & E1) & _ & HP1 & Hc1 & Ho1)
    ((m2 & f2 & g2 & c2 & p2 & E2) & H & HP2 & Hc2 & Ho2).
  split_and!; [|exact H|rewrite HP2; exact HP1| |exact (fun Hk => Ho2 (Ho1 Hk))].
  - exists m2, f2, g2, c2, p2. rewrite E2, E1. apply with_console_frame.
  - eapply changes_only_trans; [exact Hc1|exact Hc2|done|]. now rewrite HP1.
Qed.

Lemma as_step_dealloc pgdir oldsz k l T U a k' fr U' :
  dealloc_post pgdir oldsz T k l U a k' fr U' -> as_step pgdir k l T U k' (fr ++ l) T U'.
Proof.
  intros ((m & f & ->) & Has & HP & Hc & _).
  assert (HP' : Permutation ((pgdir :: vals T ++ fr ++ l) ++ upages U')
                  ((pgdir :: vals T ++ l) ++ upages U)) by (rewrite HP; solve_Permutation).
  split_and!; [|done|done| |done].
  - destruct (with_mem_console m f k) as (log & crt & pos & E). exists m, f, log, crt, pos. exact E.
  - apply (changes_only_mono _ _ _ _ Hc). rewrite <- HP'. clear. set_solver.
Qed.

(** If the mapped pages from [v0] on are contiguous, no table is missing. *)
Lemma contiguous_no_holes k l pgdir T U v0 v :
  as_inv k l pgdir T U -> 0 <= v0 ->
  (forall w e, U !! w = Some e -> w < v) -> (forall w, v0 <= w < v -> is_Some (U !! w)) ->
  no_holes T U (v0 / NPTENTRIES).
Proof.
  intros Has H0 Hlt Hall w e j Hw Hj.
  assert (Hsome : forall x, is_Some (U !! x) -> is_Some (T !! (x / NPTENTRIES))).
  { intros x [ex Hx]. pose proof (as_dom _ _ _ _ _ Has x ex Hx) as Hr.
    pose proof (as_entry k l pgdir T U x Has Hr) as He. rewrite PDX_user in He by lia.
    destruct (T !! (x / NPTENTRIES)); [eauto|congruence]. }
  pose proof (Hlt w e Hw) as Hwv. unfold NPTENTRIES in *.
  destruct (Z.le_gt_cases v0 w) as [Hge|Hl].
  - destruct (Z.le_gt_cases (j * 1024) v0) as [Hj1|Hj1].
    + replace j with (v0 / 1024) by (Z.div_mod_to_equations; lia). apply Hsome, Hall. lia.
    + replace j with (j * 1024 / 1024) by (rewrite Z.div_mul; lia). apply Hsome, Hall.
      Z.div_mod_to_equations. lia.
  - replace j with (w / 1024) by (Z.div_mod_to_equations; lia). apply Hsome. eauto.
Qed.

Lemma changes_upage k l pgdir T U P m' v e b :
  as_inv k l pgdir T U -> U !! v = Some e -> changes_only P (k_mem k) m' ->
  Forall (fun p => p mod PGSIZE = 0) P -> upage e ∉ P ->
  upage e <= b < upage e + PGSIZE -> load8 m' b = load8 (k_mem k) b.
Proof.
  intros Has HU Hc HP Hn Hb. destruct (as_upage _ _ _ _ _ _ _ Has HU) as (Hv & _).
  apply (changes_load8 P _ _ (upage e)); [done|done|apply Hv|done|done].
Qed.

Lemma as_aligned k l pgdir T U :
  as_inv k l pgdir T U -> Forall (fun p => p mod PGSIZE = 0) ((pgdir :: vals T ++ l) ++ upages U).
Proof.
  intros [[Hkm _ _ Hv _] _ _ _ Hu _]. apply (valid_aligned k). apply Forall_app. split; [|done].
  apply Forall_cons in Hv as [H1 H2]. constructor; [done|]. apply Forall_app. split; [done|apply Hkm].
Qed.

Section Alloc.
Context (pgdir oldsz newsz : Z).
Let v0 : Z := PGROUNDUP oldsz / PGSIZE.
Hypothesis Holdr : 0 <= oldsz <= newsz.
Hypothesis Hnewr : newsz < KERNBASE.

Lemma v0_spec : PGROUNDUP oldsz = v0 * PGSIZE /\ 0 <= v0 /\ oldsz <= v0 * PGSIZE.
Proof.
  destruct (PGROUNDUP_spec oldsz) as (Ha & Hr); [unfold KERNBASE in *; lia|].
  unfold v0, PGSIZE in *. split_and!; [| |]; Z.div_mod_to_equations; lia.
Qed.

(** The user pages are those below [v0] and all the pages of [v0, v). *)
Definition filled (U : gmap Z Z) (v : Z) : Prop :=
  (forall w e, U !! w = Some e -> w < v) /\ (forall w, v0 <= w < v -> is_Some (U !! w)).

(** The page contents of the entries below [v0] are kept. *)
Definition keeps_below (U : gmap Z Z) (m m' : gmap Z Z) : Prop :=
  forall w e b, U !! w = Some e -> w < v0 -> upage e <= b < upage e + PGSIZE -> load8 m' b = load8 m b.

(** The address space is back to what it was before [v0]. *)
Definition rolled_back (U U' : gmap Z Z) : Prop :=
  forall w, U' !! w = if decide (v0 <= w) then None else U !! w.

(** The error exits: print and free the pages added so far. *)
Lemma alloc_rollback msg k l T U v :
  kmem_quiet k -> link_ok k -> cons_ok k -> as_inv k l pgdir T U ->
  v0 <= v -> filled U v -> v * PGSIZE < newsz ->
  exists k1 k' fr U', cprintf msg [] k = Ok tt k1 /\ deallocuvm pgdir newsz oldsz k1 = Ok oldsz k' /\
    as_step pgdir k l T U k' (fr ++ l) T U' /\ rolled_back U U' /\ keeps_below U (k_mem k) (k_mem k').
Proof.
  intros Hq Hlk [Hs Hcl] Has Hv Hf Hlt. destruct v0_spec as (Ev & H0 & Hov).
  destruct (cprintf_run msg [] k Hs Hcl) as (log & crt & pos & Hrun & Hs1).
  set (k1 := with_console log crt pos k) in *.
  assert (Has1 : as_inv k1 l pgdir T U) by (destruct Has as [[[]]]; repeat (split; try assumption)).
  destruct Hf as [Hf1 Hf2].
  destruct (deallocuvm_spec k1 l pgdir T U newsz oldsz) as (k' & fr & U' & Hrun' & Hpost).
  - exact Hq.
  - exact Hlk.
  - exact Has1.
  - unfold PGSIZE in *. lia.
  - lia.
  - fold v0. eapply contiguous_no_holes; eauto.
  - exists k1, k', fr, U'. split_and!; [exact Hrun|exact Hrun'| | |].
    + pose proof (as_step_dealloc _ _ _ _ _ _ _ _ _ _ Hpost) as Hst.
      eapply as_step_trans; [|exact Hst].
      split_and!; [|exact Has1|done|apply changes_only_refl|done].
      exists (k_mem k), (kmem_freelist k), log, crt, pos. unfold k1. now destruct k.
    + destruct Hpost as (_ & _ & _ & _ & HU). intros w. rewrite HU, Ev.
      destruct (U !! w) as [e|] eqn:Ew; [|now repeat case_decide].
      apply Hf1 in Ew. unfold PGSIZE in *. repeat case_decide; lia || done.
    + intros w e b Hw Hlw Hb.
      destruct Hpost as (_ & Has' & HPu & Hc & HU).
      assert (Hw' : U' !! w = Some e).
      { rewrite HU, Ev, decide_False; [done|]. unfold PGSIZE. lia. }
      pose proof (as_aligned _ _ _ _ _ Has1) as Hal.
      apply (changes_upage k1 l pgdir T U (vals T ++ fr) _ w e); try done.
      * rewrite HPu in Hal. rewrite !Forall_app in Hal. rewrite Forall_cons in Hal.
        rewrite Forall_app in Hal |- *. tauto.
      * destruct (as_upage _ _ _ _ _ _ _ Has1 Hw) as (_ & Hn1).
        destruct (as_upage _ _ _ _ _ _ _ Has' Hw') as (_ & Hn2).
        clear - Hn1 Hn2. set_solver.
Qed.

(** What a user page looks like right after it was added. *)
Definition fresh_page (m : gmap Z Z) (o : option Z) : Prop :=
  exists e, o = Some e /\ PTE_FLAGS e = Z.lor (Z.lor PTE_W PTE_U) PTE_P /\
    forall b, upage e <= b < upage e + PGSIZE -> load8 m b = 0.

Definition alloc_post (k : kernel) (l : list Z) (T U : gmap Z Z) (v : Z) (r : Z)
    (k' : kernel) (U' : gmap Z Z) : Prop :=
  (r = newsz /\ changes_only (pgdir :: vals T ++ l) (k_mem k) (k_mem k') /\
   forall w, if decide (v <= w /\ w * PGSIZE < newsz) then fresh_page (k_mem k') (U' !! w)
             else U' !! w = U !! w) \/
  (r = 0 /\ rolled_back U U' /\ keeps_below U (k_mem k) (k_mem k') /\
   Z.of_nat (length (vals T ++ l)) <= 1024 + (newsz + PGSIZE - 1) / PGSIZE - v).

(** Both pages obtained in an iteration: the step up to the next one. *)
Lemma alloc_add_page k p l T U v k1 l1 T1 :
  as_inv k (p :: l) pgdir T U -> 0 <= v < 2 ^ 19 -> U !! v = None ->
  let k0 := set_k_mem (memset (k_mem (after_kalloc k)) p 0 PGSIZE) (after_kalloc k) in
  let e := mkpte p (Z.lor PTE_W PTE_U) in
  grows pgdir k0 l T k1 l1 T1 -> as_inv k1 l1 pgdir T1 (<[v := e]> U) ->
  as_step pgdir k (p :: l) T U k1 l1 T1 (<[v := e]> U) /\
  changes_only (pgdir :: vals T ++ p :: l) (k_mem k) (k_mem k1) /\
  fresh_page (k_mem k1) (Some e) /\ upage e = p.
Proof.
  intros Has Hv Hn k0 e Hg Has1.
  destruct (as_inv_kalloc k p l pgdir T U Has) as (_ & _ & Hvp & Hnp & E & _).
  destruct (as_inv_fresh k p l pgdir T U Has) as (Has0 & Hc0 & Hz). fold k0 in Has0, Hc0, Hz.
  destruct (mkpte_fields k p (Z.lor PTE_W PTE_U) Hvp) as [Eu Ef]; [vm_compute; split; congruence|].
  fold e in Eu, Ef. pose proof Hg as ((m & f & E1) & _ & HP & Hc).
  assert (Hcc : changes_only (pgdir :: vals T ++ p :: l) (k_mem k) (k_mem k1)).
  { eapply changes_only_trans; [exact Hc0|exact Hc| |]; clear; set_solver. }
  assert (HPP : Permutation (pgdir :: vals T ++ p :: l) (p :: pgdir :: vals T ++ l))
    by solve_Permutation.
  split_and!; [split_and!| | |done].
  - subst k1. destruct (with_mem_console m f k) as (log & crt & pos & Ek).
    exists m, f, log, crt, pos. rewrite <- Ek. unfold k0. rewrite E. reflexivity.
  - exact Has1.
  - rewrite upages_insert, Eu, HPP by done. rewrite <- Permutation_middle, HP. reflexivity.
  - apply (changes_only_mono _ _ _ _ Hcc). clear. set_solver.
  - intros Hco. rewrite E1. unfold k0. rewrite E. exact Hco.
  - exact Hcc.
  - exists e. split_and!; [done|done|]. intros b Hb. rewrite Eu in Hb.
    rewrite (changes_load8 (pgdir :: vals T ++ l) (k_mem k0) (k_mem k1) p); [now apply Hz|done| |apply Hvp| |done].
    + clear - Hnp. set_solver.
    + pose proof (as_aligned _ _ _ _ _ Has0) as Hal. now apply Forall_app in Hal as [? _].
Qed.

Lemma allocuvm_loop_spec fuel : forall k l T U v,
  kmem_quiet k -> link_ok k -> cons_ok k -> as_inv k l pgdir T U ->
  v0 <= v -> filled U v -> newsz <= (v + Z.of_nat fuel) * PGSIZE ->
  exists r k' l' T' U', allocuvm_loop fuel pgdir (v * PGSIZE) oldsz newsz k = Ok r k' /\
    as_step pgdir k l T U k' l' T' U' /\ alloc_post k l T U v r k' U'.
Proof.
  induction fuel as [|fuel IH]; intros k l T U v Hq Hlk Hco Has Hv Hf Hfu;
    cbn [allocuvm_loop]; destruct (Z.ltb_spec (v * PGSIZE) newsz) as [Hlt|Hge]; cbn [negb].
  1: lia.
  1, 3: exists newsz, k, l, T, U; split_and!; [done|now apply as_step_refl|left];
    split_and!; [done|apply changes_only_refl|]; intros w; rewrite decide_False; [done|];
    unfold PGSIZE in *; lia.
  destruct v0_spec as (Ev & H0 & Hov).
  assert (Hvr : 0 <= v < 2 ^ 19) by (unfold KERNBASE, PGSIZE in *; lia).
  assert (Hnone : U !! v = None).
  { destruct (U !! v) eqn:E; [|done]. apply Hf in E. lia. }
  mok (kalloc_run k Hq). destruct l as [|p l].
  { destruct (kalloc_empty k (vm_kmem _ _ _ _ (as_vm _ _ _ _ _ Has))) as [-> ->]. cbn [Z.eqb].
    destruct (alloc_rollback "allocuvm out of memory
" k [] T U v Hq Hlk Hco Has Hv Hf Hlt) as (k1 & k' & fr & U' & Hr1 & Hr2 & Hst & Hrb & Hkb).
    mok Hr1. mok Hr2. exists 0, k', (fr ++ []), T, U'. split_and!; [done|done|].
    right. split_and!; [done|done|done|]. rewrite app_nil_r.
    pose proof (vals_le _ _ _ _ (as_vm _ _ _ _ _ Has)).
    unfold PGSIZE in *. Z.div_mod_to_equations. lia. }
  destruct (as_inv_kalloc k p l pgdir T U Has) as (Hfl & Hp0 & Hvp & Hnp & E & Has').
  rewrite Hfl. destruct (Z.eqb_spec p 0); [done|]. unfold updmem. mred.
  destruct (as_inv_fresh k p l pgdir T U Has) as (Has0 & Hc0 & Hz).
  set (k0 := set_k_mem _ (after_kalloc k)) in *.
  assert (Hq0 : kmem_quiet k0) by (unfold k0; rewrite E; exact Hq).
  assert (Hvp0 : valid_page k0 p) by (unfold k0; rewrite E; exact Hvp).
  destruct (map_user_page k0 l pgdir T U v p (Z.lor PTE_W PTE_U)) as (r & k1 & l1 & T1 & Hrun & Hg & Hres);
    try done.
  mok Hrun. pose proof (grows_quiet _ _ _ _ _ _ _ Hg Hq0) as Hq1.
  assert (Ek1 : exists m f, k1 = with_mem m f k).
  { destruct Hg as ((m & f & ->) & _). exists m, f. unfold k0. rewrite E. reflexivity. }
  destruct Ek1 as (m1 & f1 & Ek1).
  destruct Hres as [[-> Has1]|(-> & -> & Has1)]; cbn [Z.ltb Z.compare].
  - (* mapped: go on with the next page *)
    destruct (alloc_add_page k p l T U v k1 l1 T1 Has Hvr Hnone Hg Has1) as (Hst & Hcc & Hfr & Eu).
    set (e := mkpte p (Z.lor PTE_W PTE_U)) in *.
    replace (u32 (v * PGSIZE + PGSIZE)) with ((v + 1) * PGSIZE)
      by (unfold PGSIZE, KERNBASE in *; rewrite u32_small; lia).
    destruct (IH k1 l1 T1 (<[v := e]> U) (v + 1)) as (r & k' & l' & T' & U' & Hrun' & Hst' & Hpost).
    + exact Hq1.
    + rewrite Ek1. exact Hlk.
    + rewrite Ek1. exact Hco.
    + exact Has1.
    + lia.
    + destruct Hf as [Hf1 Hf2]. split; intros w.
      * intros e' He'. destruct (decide (w = v)) as [->|]; [lia|].
        rewrite lookup_insert_ne in He' by done. apply Hf1 in He'. lia.
      * intros Hw. destruct (decide (w = v)) as [->|]; [rewrite lookup_insert_eq; eauto|].
        rewrite lookup_insert_ne by done. apply Hf2. lia.
    + unfold PGSIZE in *. lia.
    + exists r, k', l', T', U'. split_and!; [exact Hrun'|eapply as_step_trans; eauto|].
      destruct Hpost as [(-> & Hc' & HU)|(-> & Hrb & Hkb & Hsh)]; [left|right].
      * split_and!; [done| |].
        { eapply changes_only_trans; [exact Hcc|exact Hc'|done|].
          destruct Hg as (_ & _ & HP & _). rewrite HP. clear. set_solver. }
        intros w. specialize (HU w). destruct (decide (w = v)) as [->|Hne].
        -- rewrite (decide_False (P := v + 1 <= v /\ _)) in HU by lia. rewrite decide_True by lia.
           rewrite HU, lookup_insert_eq. destruct Hfr as (e' & [= <-] & Hfl' & Hzz).
           exists e. split_and!; [done|done|]. intros b Hb.
           rewrite (changes_upage k1 l1 pgdir T1 (<[v := e]> U) (pgdir :: vals T1 ++ l1) _ v e); try done.
           ++ now apply Hzz.
           ++ apply lookup_insert_eq.
           ++ pose proof (as_aligned _ _ _ _ _ Has1) as Hal. now apply Forall_app in Hal as [? _].
           ++ apply (as_upage _ _ _ _ _ v e Has1). apply lookup_insert_eq.
        -- rewrite lookup_insert_ne in HU by done. repeat case_decide; try lia; done.
      * split_and!; [done| | |].
        { intros w. rewrite Hrb. case_decide; [done|]. rewrite lookup_insert_ne; [done|lia]. }
        2:{ destruct Hg as (_ & _ & HPg & _). apply Permutation_length in HPg.
            rewrite !length_app in HPg. rewrite !length_app in Hsh. rewrite length_app. cbn [length].
            generalize dependent ((newsz + PGSIZE - 1) / PGSIZE). clear - HPg.
            intros q Hq.
            lia. }
        intros w e' b Hw Hlw Hb.
        rewrite (Hkb w e' b); [|rewrite lookup_insert_ne; [done|lia]|done|done].
        apply (changes_upage k (p :: l) pgdir T U (pgdir :: vals T ++ p :: l) _ w e'); try done.
        -- pose proof (as_aligned _ _ _ _ _ Has) as Hal. now apply Forall_app in Hal as [? _].
        -- apply (as_upage _ _ _ _ _ w e' Has Hw).
  - (* no page table: undo and give the page back *)
    destruct (alloc_rollback "allocuvm out of memory (2)
" k1 [] T1 U v) as (k2 & k3 & fr & U' & Hr1 & Hr2 & Hst & Hrb & Hkb); try done.
    { rewrite Ek1. exact Hlk. } { rewrite Ek1. exact Hco. }
    mok Hr1. mok Hr2. pose proof Hst as ((m3 & f3 & g3 & c3 & p3 & Ek3) & Has3 & HP3 & Hc3 & Ho3).
    assert (Hq3 : kmem_quiet k3) by (rewrite Ek3; exact Hq1).
    assert (Hv3 : valid_page k3 p) by (rewrite Ek3, Ek1; exact Hvp).
    assert (Hn3 : p ∉ (pgdir :: vals T1 ++ fr ++ []) ++ upages U').
    { rewrite HP3. destruct Hg as (_ & _ & HP & _). rewrite HP. exact Hnp. }
    mok (kfree_run k3 p Hq3 Hv3).
    pose proof (as_inv_kfree k3 (fr ++ []) pgdir T1 U' p Has3 Hv3 Hn3) as Has4.
    exists 0, (after_kfree p k3), (p :: fr ++ []), T1, U'.
    assert (HPg : Permutation (vals T1 ++ []) (vals T ++ l)) by apply Hg.
    assert (Hcg : changes_only (pgdir :: vals T ++ p :: l) (k_mem k) (k_mem k1)).
    { eapply changes_only_trans; [exact Hc0|apply Hg| |]; clear; set_solver. }
    split_and!; [done| |right].
    + split_and!; [|exact Has4| | |].
      * eexists _, p, g3, c3, p3. etransitivity; [|apply with_mem_frame].
        unfold after_kfree at 1, with_mem at 1. rewrite Ek3 at 3. rewrite Ek1 at 1. reflexivity.
      * transitivity (p :: (pgdir :: vals T1 ++ fr ++ []) ++ upages U'); [solve_Permutation|].
        rewrite HP3, HPg. solve_Permutation.
      * apply (changes_only_trans (pgdir :: vals T ++ p :: l) ((pgdir :: vals T ++ p :: l) ++ upages U)
          _ _ (k_mem k1)); [exact Hcg| |clear; set_solver|done].
        apply (changes_only_trans ((pgdir :: vals T ++ l) ++ upages U) [p] _ _ (k_mem k3));
          [|apply changes_kfree|clear; set_solver|clear; set_solver].
        apply (changes_only_mono _ _ _ _ Hc3). now rewrite HPg.
      * intros Hok. assert (cons_ok k3) by (apply Ho3; rewrite Ek1; exact Hok). done.
    + split_and!; [done|done| |].
      2:{ pose proof (vals_le _ _ _ _ (as_vm _ _ _ _ _ Has1)). apply Permutation_length in HPg.
          rewrite !length_app in HPg. rewrite length_app. cbn [length] in *.
          unfold PGSIZE in *. Z.div_mod_to_equations. lia. }
      intros w e' b Hw Hlw Hb.
      destruct (as_upage _ _ _ _ _ _ _ Has Hw) as (Hvw & Hnw).
      assert (Hpw : upage e' <> p) by (intros Ep; apply Hnw; rewrite Ep; clear; set_solver).
      rewrite (changes_load8 [p] (k_mem k3) _ (upage e') b);
        [|apply changes_kfree|now apply not_in1|apply Hvw|constructor; [apply Hvp|constructor]|done].
      rewrite (Hkb w e' b) by done.
      apply (changes_upage k (p :: l) pgdir T U (pgdir :: vals T ++ p :: l) _ w e'); try done.
      pose proof (as_aligned _ _ _ _ _ Has) as Hal. now apply Forall_app in Hal as [? _].
Qed.
End Alloc.

Lemma allocuvm_spec k l pgdir T U oldsz newsz :
  kmem_quiet k -> link_ok k -> cons_ok k -> as_inv k l pgdir T U ->
  0 <= oldsz <= newsz -> newsz < KERNBASE ->
  (forall w e, U !! w = Some e -> w * PGSIZE < PGROUNDUP oldsz) ->
  exists r k' l' T' U', allocuvm pgdir oldsz newsz k = Ok r k' /\
    as_step pgdir k l T U k' l' T' U' /\
    alloc_post pgdir oldsz newsz k l T U (PGROUNDUP oldsz / PGSIZE) r k' U'.
Proof.
  intros Hq Hlk Hco Has Ho Hn HU. unfold allocuvm.
  destruct (Z.leb_spec KERNBASE newsz); [lia|]. destruct (Z.ltb_spec newsz oldsz); [lia|].
  destruct (v0_spec oldsz newsz Ho Hn) as (Ev & Hv0 & _).
  set (v := PGROUNDUP oldsz / PGSIZE) in *. rewrite Ev.
  apply allocuvm_loop_spec; try done.
  - split; [|lia]. intros w e Hw. apply HU in Hw. unfold PGSIZE in *. lia.
  - rewrite Z2Nat.id by (apply Z.add_nonneg_nonneg; [apply Z.div_pos; unfold PGSIZE|]; lia).
    unfold PGSIZE in *. Z.div_mod_to_equations. lia.
Qed.

(** ** Properties of user address spaces *)

(** The directory [setupkvm] returns is an address space with no user pages. *)
Lemma setupkvm_as k l :
  kmem_quiet k -> link_ok k -> kmem_inv k l ->
  exists r k' l', setupkvm k = Ok r k' /\ (exists m f, k' = with_mem m f k) /\
    kmem_inv k' l' /\ changes_only l (k_mem k) (k_mem k') /\
    ((r = 0 /\ l' = [] /\ (length l < 1025)%nat) \/
     (r <> 0 /\ exists T, as_inv k' l' r T ∅ /\ Permutation (r :: vals T ++ l') l)).
Proof.
  intros Hq [_ Hd] Hk.
  destruct (setupkvm_spec k l Hq Hk Hd) as (r & k' & l' & Hrun & (m & f & E) & Hk' & Hc & Hr).
  exists r, k', l'. split_and!; [done|eauto|done|done|].
  destruct Hr as [Hr|(T & Hr & Hvm & HP & Hx)]; [now left|right]. split; [done|].
  exists T. split; [|done]. split; [done| | | |constructor|].
  - intros v Hv. rewrite Hx, lookup_empty. unfold kernel_pte.
    destruct (Z.ltb_spec (u32 (v * PGSIZE)) KERNBASE) as [|H]; [done|].
    unfold PGSIZE, KERNBASE in *. rewrite u32_small in H; lia.
  - intros va Hva. rewrite Hx, u32_small, E by (unfold KERNBASE in *; lia). reflexivity.
  - intros v e He. now rewrite lookup_empty in He.
  - change (upages ∅) with (@nil Z). rewrite app_nil_r. apply Hvm.
Qed.

(** Example: a new address space with plenty of free memory. *)
Lemma kernel0_ok : kmem_quiet kernel0 /\ link_ok kernel0 /\ cons_ok kernel0.
Proof.
  split_and!; [now left| |].
  - split; [vm_compute; reflexivity|]. split; [reflexivity|]. split; vm_compute; reflexivity.
  - split; [|now left]. split; [|reflexivity]. split; [vm_compute; congruence|vm_compute; reflexivity].
Qed.

Lemma example_space0 :
  exists m f l pgdir T, as_inv (with_mem m f kernel0) l pgdir T ∅ /\ (2975 <= length l)%nat.
Proof.
  destruct (booted_spec 4000) as (Hk & m & f & E); [lia|].
  destruct kernel0_ok as (Hq & Hl & Hc).
  destruct (setupkvm_as (booted 4000) (pages 0x80400000 4000))
    as (r & k' & l' & _ & (m' & f' & E') & _ & _ & Hr); [rewrite E; exact Hq|rewrite E; exact Hl|exact Hk|].
  assert (Hlen : length (pages 0x80400000 4000) = 4000%nat)
    by (unfold pages; now rewrite length_fmap, length_seq).
  destruct Hr as [(_ & _ & Hl')|(Hr & T & Has & HP)]; [lia|].
  exists m', f', l', r, T. rewrite E', E in Has. split; [exact Has|].
  apply Permutation_length in HP. rewrite length_cons, length_app in HP.
  pose proof (vals_le _ _ _ _ (as_vm _ _ _ _ _ Has)). lia.
Qed.

Lemma example_space :
  exists k l pgdir T, kmem_quiet k /\ link_ok k /\ cons_ok k /\ as_inv k l pgdir T ∅ /\
    (2975 <= length l)%nat.
Proof.
  destruct example_space0 as (m & f & l & pgdir & T & Has & Hlen). destruct kernel0_ok as (Hq & Hl & Hc).
  exists (with_mem m f kernel0), l, pgdir, T. split_and!; [exact Hq|exact Hl|exact Hc|exact Has|exact Hlen].
Qed.

(** C30. [deallocuvm]: in an address space without missing page tables below its
    pages, shrinking returns the new size, unmaps exactly the user pages from
    the rounded-up new size up to the old size, gives exactly those pages back
    to the allocator, and changes no other mapping and no page that stays; when
    the new size is not smaller nothing changes. *)
Theorem deallocuvm_correct : forall k l pgdir T U oldsz newsz,
  kmem_quiet k -> link_ok k -> as_inv k l pgdir T U -> 0 <= newsz -> oldsz <= KERNBASE ->
  no_holes T U (PGROUNDUP newsz / PGSIZE / NPTENTRIES) ->
  if newsz <? oldsz then
    exists k' fr U', deallocuvm pgdir oldsz newsz k = Ok newsz k' /\
      (exists m f, k' = with_mem m f k) /\
      as_inv k' (fr ++ l) pgdir T U' /\
      Permutation (upages U) (fr ++ upages U') /\
      changes_only (vals T ++ fr) (k_mem k) (k_mem k') /\
      (forall v, U' !! v = if decide (PGROUNDUP newsz <= v * PGSIZE < oldsz) then None else U !! v)
  else deallocuvm pgdir oldsz newsz k = Ok oldsz k.
Proof.
  intros k l pgdir T U oldsz newsz Hq Hl Has Hn Ho Hh. destruct (Z.ltb_spec newsz oldsz).
  - now apply deallocuvm_spec.
  - unfold deallocuvm. destruct (Z.leb_spec oldsz newsz); [done|lia].
Qed.

(** C29. allocuvm: growing returns the new size with every page from the
    rounded-up old size mapped user-writable to a zeroed page of its own and all
    other mappings and pages unchanged, or returns 0 with the address space and
    its contents as before; it gives up only when there were not enough free
    pages for the new pages and 1024 page tables.  Sizes at or above KERNBASE are
    refused and a smaller size changes nothing. *)
Theorem allocuvm_correct : forall k l pgdir T U oldsz newsz,
  kmem_quiet k -> link_ok k -> cons_ok k -> as_inv k l pgdir T U -> 0 <= oldsz ->
  (forall w e, U !! w = Some e -> w * PGSIZE < PGROUNDUP oldsz) ->
  if KERNBASE <=? newsz then allocuvm pgdir oldsz newsz k = Ok 0 k
  else if newsz <? oldsz then allocuvm pgdir oldsz newsz k = Ok oldsz k
  else exists r k' l' T' U', allocuvm pgdir oldsz newsz k = Ok r k' /\
    as_step pgdir k l T U k' l' T' U' /\
    ((r = newsz /\ changes_only (pgdir :: vals T ++ l) (k_mem k) (k_mem k') /\
      forall w, if decide (PGROUNDUP oldsz / PGSIZE <= w /\ w * PGSIZE < newsz)
                then fresh_page (k_mem k') (U' !! w) else U' !! w = U !! w) \/
     (r = 0 /\ rolled_back oldsz U U' /\ keeps_below oldsz U (k_mem k) (k_mem k') /\
      Z.of_nat (length (vals T ++ l))
        <= 1024 + (newsz + PGSIZE - 1) / PGSIZE - PGROUNDUP oldsz / PGSIZE)).
Proof.
  intros k l pgdir T U oldsz newsz Hq Hl Hc Has Ho HU. unfold allocuvm at 1 2.
  destruct (Z.leb_spec KERNBASE newsz); [done|]. destruct (Z.ltb_spec newsz oldsz); [done|].
  apply allocuvm_spec; (done || lia).
Qed.

Lemma example_grow k l pgdir T n :
  kmem_quiet k -> link_ok k -> cons_ok k -> as_inv k l pgdir T ∅ -> (2975 <= length l)%nat ->
  0 < n <= 500 ->
  exists k' l' T' U', allocuvm pgdir 0 (n * PGSIZE) k = Ok (n * PGSIZE) k' /\
    kmem_quiet k' /\ link_ok k' /\ cons_ok k' /\ as_inv k' l' pgdir T' U' /\
    (1400 <= length l')%nat /\
    forall w, (0 <= w < n -> fresh_page (k_mem k') (U' !! w)) /\ (~ 0 <= w < n -> U' !! w = None).
Proof.
  intros Hq Hl Hc Has Hlen Hn.
  destruct (allocuvm_spec k l pgdir T ∅ 0 (n * PGSIZE))
    as (r & k' & l' & T' & U' & Hrun & Hst & Hpost); try done; try (unfold KERNBASE, PGSIZE; lia).
  change (PGROUNDUP 0 / PGSIZE) with 0 in Hpost.
  destruct Hpost as [(-> & _ & HU)|(_ & _ & _ & Hb)].
  - exists k', l', T', U'. destruct Hst as ((m & f & g & c & p & E) & Has' & HP & _ & Ho).
    split; [exact Hrun|]. split; [rewrite E; exact Hq|]. split; [rewrite E; exact Hl|].
    split; [now apply Ho|]. split; [exact Has'|].
    assert (Hlen' : Z.of_nat (length (upages U')) <= n).
    { replace n with (n - 0) by lia. apply (upages_length 0 n U'); [lia|]. intros w e Hw. specialize (HU w).
      destruct (decide (0 <= w < n)); [lia|]. rewrite decide_False in HU by (unfold PGSIZE; lia).
      rewrite HU, lookup_empty in Hw. congruence. }
    split.
    { pose proof (vals_le _ _ _ _ (as_vm _ _ _ _ _ Has')). apply Permutation_length in HP.
      cbn [app length] in HP. rewrite !length_app in HP. lia. }
    intros w. specialize (HU w). split; intros Hw.
    + rewrite decide_True in HU; [done|unfold PGSIZE; lia].
    + rewrite decide_False in HU; [|unfold PGSIZE; lia]. rewrite HU. apply lookup_empty.
  - exfalso. rewrite length_app in Hb. unfold PGSIZE in *. Z.div_mod_to_equations. lia.
Qed.

Lemma example_no_holes k l pgdir T U n m :
  as_inv k l pgdir T U -> 0 <= m ->
  (forall w, (0 <= w < n -> fresh_page (k_mem k) (U !! w)) /\ (~ 0 <= w < n -> U !! w = None)) ->
  no_holes T U (m / NPTENTRIES).
Proof.
  intros Has Hm HU. apply (contiguous_no_holes k l pgdir T U m n); [done|done| |].
  - intros w e Hw. destruct (Z.lt_ge_cases w n); [done|]. destruct (HU w) as [_ H1].
    rewrite H1 in Hw by lia. congruence.
  - intros w Hw. destruct (HU w) as [H1 _]. destruct H1 as (e & -> & _); [lia|eauto].
Qed.

Lemma allocuvm_correct_witness :
  exists k l pgdir T r k' l' T' U', as_inv k l pgdir T ∅ /\ allocuvm pgdir 0 10000 k = Ok r k' /\
    as_step pgdir k l T ∅ k' l' T' U' /\ r = 10000 /\ fresh_page (k_mem k') (U' !! 2).
Proof.
  destruct example_space as (k & l & pgdir & T & Hq & Hl & Hc & Has & Hlen).
  pose proof (allocuvm_correct k l pgdir T ∅ 0 10000 Hq Hl Hc Has) as H.
  destruct H as (r & k' & l' & T' & U' & H1 & H2 & H3); [lia|done|].
  exists k, l, pgdir, T, r, k', l', T', U'. split_and!; [exact Has|exact H1|exact H2|..];
    (destruct H3 as [(-> & _ & HU)|(_ & _ & _ & Hb)];
      [|exfalso; rewrite length_app in Hb; change ((10000 + PGSIZE - 1) / PGSIZE) with 3 in Hb;
        change (PGROUNDUP 0 / PGSIZE) with 0 in Hb; lia]).
  - reflexivity.
  - specialize (HU 2). rewrite decide_True in HU; [exact HU|]. split; [vm_compute; congruence|reflexivity].
Defined.

Lemma deallocuvm_correct_witness :
  exists k l pgdir T U k' fr U', as_inv k l pgdir T U /\ is_Some (U !! 2) /\
    deallocuvm pgdir (3 * PGSIZE) 5000 k = Ok 5000 k' /\
    as_inv k' (fr ++ l) pgdir T U' /\ U' !! 2 = None /\ U' !! 1 = U !! 1.
Proof.
  destruct example_space as (k & l & pgdir & T & Hq & Hl & Hc & Has & Hlen).
  destruct (example_grow k l pgdir T 3 Hq Hl Hc Has Hlen) as (k1 & l1 & T1 & U1 & _ & Hq1 & Hl1 & _ & Has1 & _ & HU);
    [lia|].
  assert (Hh : no_holes T1 U1 (PGROUNDUP 5000 / PGSIZE / NPTENTRIES)).
  { apply (example_no_holes k1 l1 pgdir T1 U1 3); [done|vm_compute; congruence|done]. }
  pose proof (deallocuvm_correct k1 l1 pgdir T1 U1 (3 * PGSIZE) 5000 Hq1 Hl1 Has1) as H.
  destruct H as (k' & fr & U' & H1 & _ & H2 & _ & _ & H3); [lia|vm_compute; congruence|exact Hh|].
  exists k1, l1, pgdir, T1, U1, k', fr, U'. split_and!; [exact Has1| |exact H1|exact H2| |].
  - destruct (HU 2) as [H4 _]. destruct H4 as (e & -> & _); [lia|eauto].
  - rewrite H3. now rewrite decide_True by (split; vm_compute; congruence || reflexivity).
  - rewrite H3. rewrite decide_False; [done|]. change (PGROUNDUP 5000) with 8192. unfold PGSIZE. lia.
Defined.

(** deallocuvm steps over a whole directory entry from an address inside it:
    when the page table of the first page to free is missing, the loop goes on
    4 MB further, so pages mapped in the next directory entry below that point
    stay mapped although the new size is reported. *)
Lemma deallocuvm_skips_pages : forall k l pgdir T oldsz newsz va e,
  vm_inv k l pgdir T -> 0 <= newsz < oldsz -> oldsz <= KERNBASE ->
  T !! PDX (PGROUNDUP newsz) = None -> oldsz <= PGROUNDUP newsz + NPTENTRIES * PGSIZE ->
  xlate (k_mem k) pgdir va = Some e -> PGROUNDUP newsz <= va < oldsz ->
  exists k', deallocuvm pgdir oldsz newsz k = Ok newsz k' /\ xlate (k_mem k') pgdir va = Some e.
Proof.
  intros k l pgdir T oldsz newsz va e Hvm Hn Ho Hnone Hle Hx Hv. exists k. split; [|done].
  unfold deallocuvm. destruct (Z.leb_spec oldsz newsz); [lia|].
  destruct (PGROUNDUP_spec newsz) as (Ha & Hr); [unfold KERNBASE in *; lia|].
  assert (H0 : 0 <= oldsz / PGSIZE) by (apply Z.div_pos; unfold PGSIZE; lia).
  destruct (Z.to_nat (oldsz / PGSIZE + 1)) as [|n] eqn:En; [lia|].
  cbn [deallocuvm_loop]. destruct (Z.ltb_spec (PGROUNDUP newsz) oldsz); [|lia]. cbn [negb].
  mok (walkpgdir_lookup k l pgdir T (PGROUNDUP newsz) Hvm). rewrite Hnone. cbn [Z.eqb].
  unfold NPTENTRIES, PGSIZE, KERNBASE in *. rewrite u32_small by lia.
  destruct n as [|n]; cbn [deallocuvm_loop];
    (destruct (Z.ltb_spec (PGROUNDUP newsz + (1024 - 1) * 4096 + 4096) oldsz); [lia|done]).
Qed.

Lemma deallocuvm_skips_pages_witness :
  exists k l pgdir T e k', vm_inv k l pgdir T /\ xlate (k_mem k) pgdir 0x400000 = Some e /\
    deallocuvm pgdir 0x401000 0x1000 k = Ok 0x1000 k' /\ xlate (k_mem k') pgdir 0x400000 = Some e.
Proof.
  destruct (booted_spec 10) as (Hk & _); [lia|]. rewrite pages_S in Hk.
  destruct (new_directory _ _ _ Hk) as (_ & Hinv & _ & _). rewrite pages_S in Hinv.
  destruct (new_table_spec _ _ _ _ ∅ 0x400000 Hinv eq_refl) as (Hinv1 & _).
  change (PDX 0x400000) with 1 in Hinv1.
  set (pg := 0x80400000) in *. set (t := pg + PGSIZE) in *. set (k1 := with_mem _ _ _) in Hinv1.
  destruct (set_pte_spec k1 _ pg (<[1 := t]> ∅) 0x400000 t 0x5007 Hinv1 eq_refl) as (Hinv2 & _ & Hx);
    [lia|].
  set (k2 := set_k_mem _ k1) in Hinv2.
  assert (Hx2 : xlate (k_mem k2) pg 0x400000 = Some 0x5007).
  { unfold k2. ksimpl. rewrite Hx, decide_True by reflexivity. reflexivity. }
  destruct (deallocuvm_skips_pages k2 _ pg _ 0x401000 0x1000 0x400000 0x5007 Hinv2)
    as (k' & Hrun & Hx'); [lia|unfold KERNBASE; lia|reflexivity|vm_compute; congruence|exact Hx2
      |vm_compute; split; congruence|].
  exists k2, (pages (t + PGSIZE) 8), pg, (<[1 := t]> ∅), 0x5007, k'. split_and!; [exact Hinv2|exact Hx2|exact Hrun|exact Hx'].
Defined.
