(* ===== verification/VmCopy.v ===== *)
(** * Destroying and copying address spaces (vm.c)

    [freevm], [copyuvm] and [copyout]. *)

From S2P Require Import Prelude State CMem Spinlock Mmu Kalloc Console Vm VmUser.

(** ** freevm *)

Lemma vals_delete T i t : T !! i = Some t -> Permutation (vals T) (t :: vals (delete i T)).
Proof.
  intros H. rewrite <- (insert_delete_id T i t H) at 1.
  now rewrite vals_insert by apply lookup_delete_eq.
Qed.

(** The loop over the directory: [T] are the tables not yet freed. *)
Lemma freevm_loop_spec pgdir n : forall i k l T,
  kmem_quiet k -> kmem_inv k l -> valid_page k pgdir ->
  0 <= i -> i + Z.of_nat n = 1024 ->
  (forall j, i <= j < 1024 -> tab_of (k_mem k) pgdir j = T !! j) ->
  (forall j t, T !! j = Some t -> i <= j < 1024) ->
  Forall (valid_page k) (vals T) -> NoDup (pgdir :: vals T ++ l) ->
  exists k' l', freevm_loop n i pgdir k = Ok tt k' /\ (exists m f, k' = with_mem m f k) /\
    kmem_inv k' l' /\ Permutation l' (vals T ++ l) /\
    changes_only (vals T) (k_mem k) (k_mem k').
Proof.
  induction n as [|n IH]; intros i k l T Hq Hk Hvp H0 Hn HT Hd Hv Hnd; cbn [freevm_loop].
  - assert (T = ∅) as ->.
    { apply map_eq. intros j. rewrite lookup_empty. destruct (T !! j) eqn:E; [|done].
      apply Hd in E. lia. }
    rewrite vals_empty in *. exists k, l. split_and!; [done| |done|done|apply changes_only_refl].
    exists (k_mem k), (kmem_freelist k). now destruct k.
  - mred. pose proof (HT i) as Hi. unfold tab_of in Hi. unfold when.
    destruct (has (load32 (k_mem k) (pgdir + 4 * i)) PTE_P) eqn:Ep.
    + set (t := P2V (PTE_ADDR (load32 (k_mem k) (pgdir + 4 * i)))) in *.
      assert (Ht : T !! i = Some t) by (rewrite <- Hi; [reflexivity|lia]).
      pose proof (vals_delete T i t Ht) as HP.
      rewrite HP in Hv. apply Forall_cons in Hv as [Hvt Hv].
      rewrite HP in Hnd. apply NoDup_cons in Hnd as [Hn1 Hnd].
      apply not_elem_of_cons in Hn1 as [Hpt Hn1]. apply NoDup_cons in Hnd as [Hn2 Hnd].
      apply not_elem_of_app in Hn2 as [Hn2 Hn3].
      mok (kfree_run k t Hq Hvt).
      destruct (IH (i + 1) (after_kfree t k) (t :: l) (delete i T))
        as (k' & l' & Hrun & (m & f & E) & Hk' & HPl & Hc).
      * exact Hq.
      * now apply kfree_inv.
      * exact Hvp.
      * lia.
      * lia.
      * intros j Hj. rewrite lookup_delete_ne by lia.
        rewrite (tab_of_changes [t] (k_mem k)); [apply HT; lia|apply changes_kfree|now apply not_in1| | |lia].
        -- apply Hvp.
        -- constructor; [apply Hvt|constructor].
      * intros j t' Hj. apply lookup_delete_Some in Hj as [Hne Hj]. apply Hd in Hj. lia.
      * exact Hv.
      * constructor.
        -- clear - Hpt Hn1. set_solver.
        -- rewrite <- Permutation_middle. constructor; [now rewrite not_elem_of_app|exact Hnd].
      * exists k', l'. split_and!; [exact Hrun|exists m, f; rewrite E; reflexivity|done| |].
        -- rewrite HPl, HP. solve_Permutation.
        -- eapply changes_only_trans; [apply (changes_kfree t)|exact Hc| |]; rewrite HP; clear; set_solver.
    + assert (Ht : T !! i = None) by (rewrite <- Hi; [reflexivity|lia]). mred.
      apply (IH (i + 1) k l T); try assumption; [lia|lia|intros j Hj; apply HT; lia|].
      intros j t Hj. destruct (decide (j = i)) as [->|]; [congruence|]. apply Hd in Hj. lia.
Qed.

Lemma freevm_spec k l pgdir T U :
  kmem_quiet k -> link_ok k -> as_inv k l pgdir T U -> no_holes T U 0 ->
  exists k' l', freevm pgdir k = Ok tt k' /\ (exists m f, k' = with_mem m f k) /\
    kmem_inv k' l' /\ Permutation l' ((pgdir :: vals T ++ l) ++ upages U) /\
    changes_only ((pgdir :: vals T) ++ upages U) (k_mem k) (k_mem k').
Proof.
  intros Hq Hlk Has Hnh. unfold freevm.
  destruct (vm_inv_pgdir _ _ _ _ (as_vm _ _ _ _ _ Has)) as (Hvp & Hpl).
  pose proof (valid_page_range _ _ Hvp) as (Hp0 & _). destruct (Z.eqb_spec pgdir 0); [lia|].
  destruct (deallocuvm_spec k l pgdir T U KERNBASE 0 Hq Hlk Has)
    as (k1 & fr & U1 & Hrun1 & ((m1 & f1 & E1) & Has1 & HP1 & Hc1 & HU1));
    [unfold KERNBASE; lia|lia|exact Hnh|].
  mok Hrun1.
  assert (U1 = ∅) as ->.
  { apply map_eq. intros v. rewrite lookup_empty, HU1. change (PGROUNDUP 0) with 0.
    case_decide as Hv; [done|]. destruct (U !! v) eqn:Ev; [|done].
    apply (as_dom _ _ _ _ _ Has) in Ev. unfold KERNBASE, PGSIZE in *. lia. }
  change (upages ∅) with (@nil Z) in *. rewrite app_nil_r in HP1.
  pose proof (as_vm _ _ _ _ _ Has1) as [Hk1 HT1 Hd1 Hv1 Hnd1].
  destruct (freevm_loop_spec pgdir (Z.to_nat NPDENTRIES) 0 k1 (fr ++ l) T)
    as (k2 & l2 & Hrun2 & (m2 & f2 & E2) & Hk2 & HP2 & Hc2).
  - rewrite E1. exact Hq.
  - exact Hk1.
  - rewrite E1. exact Hvp.
  - lia.
  - reflexivity.
  - exact HT1.
  - exact Hd1.
  - now apply Forall_cons in Hv1 as [_ ?].
  - exact Hnd1.
  - mok Hrun2.
    assert (Hq2 : kmem_quiet k2) by (rewrite E2, E1; exact Hq).
    assert (Hv2 : valid_page k2 pgdir) by (rewrite E2, E1; exact Hvp).
    exists (after_kfree pgdir k2), (pgdir :: l2). split_and!.
    + exact (kfree_run k2 pgdir Hq2 Hv2).
    + unfold after_kfree. rewrite E2, E1. eexists _, _. reflexivity.
    + apply kfree_inv; [done|done|]. rewrite HP2. now apply NoDup_cons in Hnd1 as [? _].
    + rewrite HP2, HP1. solve_Permutation.
    + apply (changes_only_trans (vals T ++ fr) (pgdir :: vals T) _ _ (k_mem k1)); [exact Hc1| | |].
      * apply (changes_only_trans (vals T) [pgdir] _ _ (k_mem k2));
          [exact Hc2|apply changes_kfree| |]; clear; set_solver.
      * rewrite HP1. clear. set_solver.
      * clear. set_solver.
Qed.

(** ** copyuvm *)

(** An address space other than the one being changed: it is untouched by writes
    to the pages [P], which it does not use to translate. *)
Lemma as_inv_move k l pgdir T U P m f l' :
  as_inv k l pgdir T U -> kmem_inv (with_mem m f k) l' -> changes_only P (k_mem k) m ->
  Forall (fun p => p mod PGSIZE = 0) P -> (forall p, p ∈ P -> p ∉ pgdir :: vals T) ->
  NoDup ((pgdir :: vals T ++ l') ++ upages U) ->
  as_inv (with_mem m f k) l' pgdir T U.
Proof.
  intros [Hvm Hu Hk Hd Hv _] Hk' Hc Hal Hdj Hnd'.
  destruct (vm_inv_pgdir _ _ _ _ Hvm) as (Hvp & _).
  assert (Hpl : pgdir ∉ P) by (intros Hp; apply (Hdj _ Hp), list_elem_of_here).
  assert (Hx : forall va, xlate m pgdir va = xlate (k_mem k) pgdir va)
    by (intros va; now apply (xlate_changes k l pgdir T P)).
  split; [split|..]; try exact Hd; try exact Hv; try exact Hnd'.
  - exact Hk'.
  - intros i Hi. change (k_mem (with_mem m f k)) with m.
    rewrite (tab_of_changes P (k_mem k)); [now apply Hvm|done..|apply Hvp|done|done].
  - apply Hvm.
  - apply Hvm.
  - now apply NoDup_app in Hnd' as (? & _ & _).
  - intros v Hvr. change (k_mem (with_mem m f k)) with m. rewrite Hx. now apply Hu.
  - intros va Hva. change (k_mem (with_mem m f k)) with m. rewrite Hx. now apply Hk.
Qed.

(** So it is by writes to pages that were free, whichever of them are still free. *)
Lemma as_inv_frame k l pgdir T U m f l' :
  as_inv k l pgdir T U -> kmem_inv (with_mem m f k) l' -> changes_only l (k_mem k) m -> l' ⊆ l ->
  as_inv (with_mem m f k) l' pgdir T U.
Proof.
  intros Has Hk' Hc Hsub. pose proof (as_aligned _ _ _ _ _ Has) as Hal.
  rewrite Forall_app, Forall_cons, Forall_app in Hal. destruct Hal as [(_ & _ & Hal) _].
  apply (as_inv_move k l pgdir T U l); [done..| |].
  - intros p Hp. pose proof (vm_nodup _ _ _ _ (as_vm _ _ _ _ _ Has)) as [H1 H2]%NoDup_cons.
    apply NoDup_app in H2 as (_ & H2 & _). rewrite not_elem_of_cons. split; [set_solver|]. intros Hin. now apply (H2 p).
  - pose proof (as_nodup _ _ _ _ _ Has) as Hnd.
    assert (HP : forall x, Permutation ((pgdir :: vals T ++ x) ++ upages U)
                   (x ++ (pgdir :: vals T) ++ upages U)) by (intros x; solve_Permutation).
    rewrite HP in Hnd |- *. apply NoDup_app in Hnd as (_ & Hdj & Hnd). apply NoDup_app.
    split_and!; [apply Hk'| |done]. intros p Hp. apply Hdj, Hsub, Hp.
Qed.

(** Looking a page up in a directory. *)
Lemma walkpgdir_found k pgdir va e :
  xlate (k_mem k) pgdir va = Some e ->
  exists t, tab_of (k_mem k) pgdir (PDX va) = Some t /\
    walkpgdir pgdir va false k = Ok (t + 4 * PTX va) k /\
    load32 (k_mem k) (t + 4 * PTX va) = e /\ has e PTE_P = true.
Proof.
  unfold xlate, walkpgdir, tab_of. mred. intros H.
  destruct (has (load32 (k_mem k) (pgdir + 4 * PDX va)) PTE_P); [|congruence].
  set (t := P2V _) in *. exists t. cbn zeta in H.
  destruct (has (load32 (k_mem k) (t + 4 * PTX va)) PTE_P) eqn:Ep; [|congruence].
  injection H as <-. done.
Qed.

(** The child's page [o'] in memory [m] is a copy of the parent's page [o] in
    memory [m0]. *)
Definition copied_page (m0 m : gmap Z Z) (o o' : option Z) : Prop :=
  exists e e', o = Some e /\ o' = Some e' /\ PTE_FLAGS e' = PTE_FLAGS e /\
    forall i, 0 <= i < PGSIZE -> load8 m (upage e' + i) = load8 m0 (upage e + i).

Section Copy.
Context (pgdir sz : Z) (k0 : kernel) (l0 : list Z) (T U : gmap Z Z).
Hypothesis Hq0 : kmem_quiet k0.
Hypothesis Hlk0 : link_ok k0.
Hypothesis Has0 : as_inv k0 l0 pgdir T U.
Hypothesis Hsz : sz <= KERNBASE.
Hypothesis Hpresent : forall w, 1 <= w -> w * PGSIZE < sz -> is_Some (U !! w).

(** The pages copied so far: those of [1, v). *)
Definition copied_upto (v : Z) (m : gmap Z Z) (Ud : gmap Z Z) : Prop :=
  forall w, if decide (1 <= w < v) then copied_page (k_mem k0) m (U !! w) (Ud !! w)
            else Ud !! w = None.

(** The child [d] is built from pages that were free in [k0]. *)
Definition child_inv (v : Z) (k : kernel) (l : list Z) (d : Z) (Td Ud : gmap Z Z) : Prop :=
  (exists m f, k = with_mem m f k0) /\ as_inv k l d Td Ud /\
  Permutation ((d :: vals Td ++ l) ++ upages Ud) l0 /\
  changes_only l0 (k_mem k0) (k_mem k) /\ copied_upto v (k_mem k) Ud.

Lemma parent_page k v e :
  changes_only l0 (k_mem k0) (k_mem k) -> 0 <= v < 2 ^ 19 -> U !! v = Some e ->
  xlate (k_mem k) pgdir (v * PGSIZE) = Some e /\
  (forall t, tab_of (k_mem k) pgdir (PDX (v * PGSIZE)) = Some t -> valid_page k0 t) /\
  (forall i, 0 <= i < PGSIZE -> load8 (k_mem k) (upage e + i) = load8 (k_mem k0) (upage e + i)).
Proof.
  intros Hc Hv HU. pose proof (as_aligned _ _ _ _ _ Has0) as Hal.
  rewrite Forall_app, Forall_cons, Forall_app in Hal. destruct Hal as [(_ & _ & Hal) _].
  destruct (as_upage _ _ _ _ _ _ _ Has0 HU) as (_ & Hn).
  destruct (vm_inv_pgdir _ _ _ _ (as_vm _ _ _ _ _ Has0)) as (Hvp & Hpl). split_and!.
  - rewrite (xlate_changes k0 l0 pgdir T l0); [|apply Has0|done..|].
    + now rewrite (as_user _ _ _ _ _ Has0).
    + intros p Hp. pose proof (vm_nodup _ _ _ _ (as_vm _ _ _ _ _ Has0)) as Hnd.
      apply NoDup_cons in Hnd as [H1 H2]. apply NoDup_app in H2 as (_ & H2 & _).
      rewrite not_elem_of_cons. split.
      * intros ->. apply H1, elem_of_app. now right.
      * intros Hin. now apply (H2 p).
  - intros t. rewrite (tab_of_changes l0 (k_mem k0)) by (done || apply Hvp || apply PDX_range).
    rewrite (vm_tab _ _ _ _ (as_vm _ _ _ _ _ Has0)) by apply PDX_range. intros Ht.
    now apply (vm_inv_tables _ _ _ _ _ _ (as_vm _ _ _ _ _ Has0) Ht).
  - intros i Hi. apply (changes_upage k0 l0 pgdir T U l0 _ v e); try done; [|lia].
    intros Hin. apply Hn, list_elem_of_further, elem_of_app. now right.
Qed.

Lemma copied_keys v m Ud :
  copied_upto v m Ud ->
  (forall w e, Ud !! w = Some e -> 1 <= w < v) /\ (forall w, 1 <= w < v -> is_Some (Ud !! w)).
Proof.
  intros H. split; intros w.
  - intros e He. specialize (H w). case_decide; [done|congruence].
  - intros Hw. specialize (H w). rewrite decide_True in H by done.
    destruct H as (e & e' & _ & -> & _). eauto.
Qed.

(** The label [bad]: the child is destroyed; [lost] are pages taken for it that
    it does not own. *)
Lemma copy_abort v k l d Td Ud lost :
  1 <= v -> (exists m f, k = with_mem m f k0) -> as_inv k l d Td Ud ->
  (forall w e, Ud !! w = Some e -> 1 <= w < v) -> (forall w, 1 <= w < v -> is_Some (Ud !! w)) ->
  Permutation (lost ++ (d :: vals Td ++ l) ++ upages Ud) l0 ->
  changes_only l0 (k_mem k0) (k_mem k) ->
  exists k' l', freevm d k = Ok tt k' /\ (exists m f, k' = with_mem m f k0) /\
    kmem_inv k' l' /\ Permutation (lost ++ l') l0 /\ changes_only l0 (k_mem k0) (k_mem k').
Proof.
  intros Hv (m & f & E) Has Hk1 Hk2 HP Hc.
  destruct (freevm_spec k l d Td Ud) as (k' & l' & Hrun & (m' & f' & E') & Hk' & HP' & Hc').
  - rewrite E. exact Hq0.
  - rewrite E. exact Hlk0.
  - exact Has.
  - change 0 with (1 / NPTENTRIES). eapply contiguous_no_holes; [exact Has|lia| |exact Hk2].
    intros w e He. apply Hk1 in He. lia.
  - exists k', l'. split_and!; [done|exists m', f'; rewrite E', E; reflexivity|done| |].
    + now rewrite HP'.
    + eapply changes_only_trans; [exact Hc|exact Hc'|done|]. rewrite <- HP. clear. set_solver.
Qed.

Lemma flags_present e : has e PTE_P = true -> 0 <= e < 2 ^ 32 -> Z.lor (PTE_FLAGS e) PTE_P = PTE_FLAGS e.
Proof.
  intros Hp He. change PTE_P with (2 ^ 0) in *. rewrite has_pow2 in Hp by lia.
  rewrite PTE_FLAGS_arith, u32_small by done. change 4096 with (2 ^ 12).
  bitwise n Hn. rewrite Z.lor_spec. destruct (Z.eq_dec n 0) as [->|Hne].
  - rewrite Z.mod_pow2_bits_low, Hp by lia. reflexivity.
  - rewrite Z.pow2_bits_false by lia. apply orb_false_r.
Qed.

(** A page of the parent copied into the fresh page [p]. *)
Lemma copy_fill k p l d Td Ud src :
  as_inv k (p :: l) d Td Ud ->
  let k' := set_k_mem (memmove (k_mem (after_kalloc k)) p src PGSIZE) (after_kalloc k) in
  as_inv k' l d Td Ud /\ changes_only [p] (k_mem k) (k_mem k') /\
  (forall i, 0 <= i < PGSIZE -> load8 (k_mem k') (p + i) = load8 (k_mem k) (src + i)).
Proof.
  intros Has k'. destruct (as_inv_kalloc k p l d Td Ud Has) as (_ & _ & Hv & Hn & E & Has').
  assert (Hok : mem_ok (k_mem (after_kalloc k))) by apply Has'.
  assert (Hmm : forall a, load8 (k_mem k') a =
            if decide (p <= a < p + PGSIZE) then load8 (k_mem k) (src + (a - p)) else load8 (k_mem k) a).
  { intros a. unfold k'. ksimpl. rewrite memmove_spec by (done || (unfold PGSIZE; lia)). now rewrite E. }
  assert (Hc : changes_only [p] (k_mem k) (k_mem k')).
  { intros a Ha. rewrite Hmm, decide_False; [done|]. specialize (Ha p (list_elem_of_here _ _)). lia. }
  split_and!; [|done|].
  - apply (as_inv_changes (after_kalloc k) l d Td Ud [p]); [done| | | |].
    + apply mem_ok_memmove; [unfold PGSIZE; lia|done].
    + intros a Ha. transitivity (load8 (k_mem k) a); [exact (Hc a Ha)|]. rewrite E. reflexivity.
    + constructor; [apply Hv|constructor].
    + intros q ->%list_elem_of_singleton Hin. apply Hn. clear - Hin. set_solver.
  - intros i Hi. rewrite Hmm, decide_True by lia. f_equal. lia.
Qed.

Lemma copy_advance v k p l d Td Ud e k3 l3 Td3 :
  1 <= v < 2 ^ 19 -> child_inv v k (p :: l) d Td Ud -> U !! v = Some e ->
  has e PTE_P = true -> 0 <= e < 2 ^ 32 ->
  let k2 := set_k_mem (memmove (k_mem (after_kalloc k)) p (upage e) PGSIZE) (after_kalloc k) in
  let e' := mkpte p (PTE_FLAGS e) in
  grows d k2 l Td k3 l3 Td3 -> as_inv k3 l3 d Td3 (<[v := e']> Ud) ->
  child_inv (v + 1) k3 l3 d Td3 (<[v := e']> Ud).
Proof.
  intros Hv ((m & f & Ek) & Has & HP & Hc & Hcp) HU Hp He k2 e' Hg Has3.
  destruct (as_inv_kalloc k p l d Td Ud Has) as (_ & _ & Hvp & Hnp & E & _).
  destruct (copy_fill k p l d Td Ud (upage e) Has) as (Has2 & Hc2 & Hfill). fold k2 in Has2, Hc2, Hfill.
  destruct (mkpte_fields k p (PTE_FLAGS e) Hvp) as [Eu Ef].
  { rewrite PTE_FLAGS_arith. apply Z.mod_pos_bound. lia. }
  rewrite flags_present in Ef by done. fold e' in Eu, Ef.
  pose proof Hg as ((m3 & f3 & E3) & _ & HPg & Hcg).
  assert (Hnone : Ud !! v = None).
  { specialize (Hcp v). now rewrite decide_False in Hcp by lia. }
  assert (Hck : changes_only (d :: vals Td ++ p :: l) (k_mem k) (k_mem k3)).
  { eapply changes_only_trans; [exact Hc2|exact Hcg| |]; clear; set_solver. }
  assert (Hal : Forall (fun p => p mod PGSIZE = 0) (d :: vals Td ++ p :: l)).
  { pose proof (as_aligned _ _ _ _ _ Has) as Hal. now apply Forall_app in Hal as [? _]. }
  split_and!.
  - exists m3, f3. rewrite E3. unfold k2. rewrite E, Ek. reflexivity.
  - exact Has3.
  - rewrite <- HP. rewrite upages_insert, Eu by done.
    transitivity (p :: (d :: vals Td3 ++ l3) ++ upages Ud); [solve_Permutation|].
    rewrite HPg. solve_Permutation.
  - eapply changes_only_trans; [exact Hc|exact Hck|done|]. rewrite <- HP. clear. set_solver.
  - intros w. specialize (Hcp w). destruct (decide (w = v)) as [->|Hne].
    + rewrite decide_True by lia. exists e, e'. rewrite lookup_insert_eq. split_and!; [done|done|done|].
      intros i Hi. rewrite Eu.
      rewrite (changes_load8 (d :: vals Td ++ l) (k_mem k2) (k_mem k3) p);
        [|exact Hcg| |apply Hvp| |lia].
      * rewrite Hfill by done. destruct (parent_page k v e Hc) as (_ & _ & Hpp); [lia|done|]. now apply Hpp.
      * clear - Hnp. set_solver.
      * clear - Hal. rewrite Forall_cons, Forall_app, ?Forall_cons in *. tauto.
    + rewrite lookup_insert_ne by done.
      repeat case_decide; try lia; [|done]. destruct Hcp as (e1 & e2 & H1 & H2 & H3 & H4).
      exists e1, e2. split_and!; try done. intros i Hi.
      rewrite (changes_upage k (p :: l) d Td Ud (d :: vals Td ++ p :: l) _ w e2); try done;
        [now apply H4|apply (as_upage _ _ _ _ _ w e2 Has H2)|lia].
Qed.

(** What copyuvm returns: the child, or nothing when memory ran out. *)
Definition copy_post (d r : Z) (k' : kernel) : Prop :=
  (exists m f, k' = with_mem m f k0) /\ changes_only l0 (k_mem k0) (k_mem k') /\
  ((r = d /\ exists l' Td Ud v, child_inv v k' l' d Td Ud /\
      forall w, 1 <= w < v <-> 1 <= w /\ w * PGSIZE < sz) \/
   (r = 0 /\ exists l' lost, kmem_inv k' l' /\ Permutation (lost ++ l') l0 /\
      (length lost <= 1)%nat /\ Z.of_nat (length l0) <= 1025 + sz / PGSIZE + 1)).

Lemma copyuvm_loop_spec fuel : forall k l d Td Ud v,
  child_inv v k l d Td Ud -> 1 <= v -> (v = 1 \/ (v - 1) * PGSIZE < sz) ->
  sz <= (v + Z.of_nat fuel) * PGSIZE ->
  exists r k', copyuvm_loop fuel pgdir d (v * PGSIZE) sz k = Ok r k' /\ copy_post d r k'.
Proof.
  induction fuel as [|fuel IH]; intros k l d Td Ud v Hch Hv Hlast Hf;
    cbn [copyuvm_loop]; destruct (Z.ltb_spec (v * PGSIZE) sz) as [Hlt|Hge]; cbn [negb].
  1: lia.
  1, 3: exists d, k; split; [done|]; split_and!; [apply Hch|apply Hch|left]; split; [done|];
    exists l, Td, Ud, v; split; [done|]; unfold PGSIZE in *; lia.
  assert (Hvr : 1 <= v < 2 ^ 19) by (unfold KERNBASE, PGSIZE in *; lia).
  pose proof Hch as ((m & f & Ek) & Has & HP & Hc & Hcp).
  destruct (Hpresent v) as [e HU]; [lia|done|].
  destruct (parent_page k v e Hc) as (Hx & Htab & Hpg); [lia|done|].
  destruct (walkpgdir_found k pgdir (v * PGSIZE) e Hx) as (t & Ht & Hw & He & Hp).
  mok Hw. apply Htab, valid_page_range in Ht as (Ht & _). pose proof (PTX_range (v * PGSIZE)) as Hpx.
  destruct (Z.eqb_spec (t + 4 * PTX (v * PGSIZE)) 0); [lia|]. mred. rewrite He, Hp. cbn [negb].
  assert (Her : 0 <= e < 2 ^ 32) by (rewrite <- He; apply load32_range, Has).
  assert (Hfl : 0 <= PTE_FLAGS e < 4096) by (rewrite PTE_FLAGS_arith; apply Z.mod_pos_bound; lia).
  assert (Hq : kmem_quiet k) by (rewrite Ek; exact Hq0).
  assert (Hnone : Ud !! v = None).
  { specialize (Hcp v). now rewrite decide_False in Hcp by lia. }
  destruct (copied_keys _ _ _ Hcp) as [Hk1 Hk2]. pose proof (upages_length 1 v Ud Hv Hk1) as Hlen.
  assert (Hvsz : v <= sz / PGSIZE) by (unfold PGSIZE in *; Z.div_mod_to_equations; lia).
  fold (upage e). mok (kalloc_run k Hq). destruct l as [|p l].
  { destruct (kalloc_empty k (vm_kmem _ _ _ _ (as_vm _ _ _ _ _ Has))) as [-> ->]. cbn [Z.eqb].
    destruct (copy_abort v k [] d Td Ud []) as (k' & l' & Hrun & E' & Hk' & HP' & Hc'); try done.
    { rewrite Ek. eauto. }
    mok Hrun. exists 0, k'. split; [done|]. split_and!; [done|done|right]. split; [done|].
    exists l', []. split_and!; [done|done|cbn; lia|].
    pose proof (vals_le _ _ _ _ (as_vm _ _ _ _ _ Has)). apply Permutation_length in HP.
    cbn [app length] in HP. rewrite !length_app in HP. cbn [length] in HP. lia. }
  destruct (as_inv_kalloc k p l d Td Ud Has) as (Hfr & Hp0 & Hvp & Hnp & E & _).
  rewrite Hfr. destruct (Z.eqb_spec p 0); [done|]. unfold updmem. mred.
  destruct (copy_fill k p l d Td Ud (upage e) Has) as (Has2 & Hc2 & _).
  set (k2 := set_k_mem _ (after_kalloc k)) in *.
  assert (Hq2 : kmem_quiet k2) by (unfold k2; rewrite E; exact Hq).
  assert (Hvp2 : valid_page k2 p) by (unfold k2; rewrite E; exact Hvp).
  destruct (map_user_page k2 l d Td Ud v p (PTE_FLAGS e)) as (r & k3 & l3 & Td3 & Hrun & Hg & Hres);
    [done|done|lia|done|done|done|done|].
  mok Hrun. pose proof Hg as ((m3 & f3 & E3) & _ & HPg & Hcg).
  assert (Ek3 : k3 = with_mem m3 f3 k0) by (rewrite E3; unfold k2; rewrite E, Ek; reflexivity).
  destruct Hres as [[-> Has3]|(-> & -> & Has3)]; cbn [Z.ltb Z.compare].
  - replace (u32 (v * PGSIZE + PGSIZE)) with ((v + 1) * PGSIZE)
      by (unfold PGSIZE, KERNBASE in *; rewrite u32_small; lia).
    apply (IH k3 l3 d Td3 (<[v := mkpte p (PTE_FLAGS e)]> Ud) (v + 1)).
    + now apply (copy_advance v k p l d Td Ud e k3 l3 Td3).
    + lia.
    + right. replace (v + 1 - 1) with v by lia. done.
    + unfold PGSIZE in *. lia.
  - assert (HP3 : Permutation ([p] ++ (d :: vals Td3 ++ []) ++ upages Ud) l0).
    { rewrite <- HP, HPg. solve_Permutation. }
    destruct (copy_abort v k3 [] d Td3 Ud [p]) as (k' & l' & Hrun' & E' & Hk' & HP' & Hc'); try done.
    { eauto. }
    { eapply changes_only_trans; [exact Hc| |reflexivity|reflexivity].
      eapply changes_only_trans; [exact Hc2|exact Hcg| |]; rewrite <- HP; clear; set_solver. }
    mok Hrun'. exists 0, k'. split; [done|]. split_and!; [done|done|right]. split; [done|].
    exists l', [p]. split_and!; [done|done|cbn; lia|].
    pose proof (vals_le _ _ _ _ (as_vm _ _ _ _ _ Has3)). apply Permutation_length in HP3.
    cbn [app length] in HP3. rewrite !length_app in HP3. cbn [length] in HP3. lia.
Qed.
End Copy.

Lemma copyuvm_spec k l pgdir T U sz :
  kmem_quiet k -> link_ok k -> as_inv k l pgdir T U -> 0 <= sz <= KERNBASE ->
  (forall w, 1 <= w -> w * PGSIZE < sz -> is_Some (U !! w)) ->
  exists r k', copyuvm pgdir sz k = Ok r k' /\
    ((exists d, d <> 0 /\ copy_post sz k l U d r k') \/
     (r = 0 /\ (exists m f, k' = with_mem m f k) /\ kmem_inv k' [] /\ (length l < 1025)%nat /\
      changes_only l (k_mem k) (k_mem k'))).
Proof.
  intros Hq Hlk Has Hsz Hpr. unfold copyuvm.
  destruct (setupkvm_as k l Hq Hlk (vm_kmem _ _ _ _ (as_vm _ _ _ _ _ Has)))
    as (r & k1 & l1 & Hrun & HE & Hk1 & Hc & Hr). mok Hrun.
  destruct Hr as [(-> & -> & Hl)|(Hr & Td & Has1 & HP)].
  { exists 0, k1. split; [done|]. right. done. }
  destruct (Z.eqb_spec r 0); [done|]. change PGSIZE with (1 * PGSIZE) at 2.
  destruct (copyuvm_loop_spec pgdir sz k l T U Hq Hlk Has (proj2 Hsz) Hpr
              (Z.to_nat (sz / PGSIZE + 1)) k1 l1 r Td ∅ 1) as (r' & k' & Hrun' & Hpost).
  - split_and!; [done|done| |done|].
    + change (upages ∅) with (@nil Z). now rewrite app_nil_r.
    + intros w. rewrite decide_False by lia. apply lookup_empty.
  - lia.
  - now left.
  - rewrite Z2Nat.id by (apply Z.add_nonneg_nonneg; [apply Z.div_pos; unfold PGSIZE|]; lia).
    unfold PGSIZE in *. Z.div_mod_to_equations. lia.
  - exists r', k'. split; [exact Hrun'|]. left. eauto.
Qed.

(** freevm: every page of the address space, its user pages, page tables and
    directory, goes back to the allocator exactly once, and nothing else is
    written. *)
Theorem freevm_correct : forall k l pgdir T U,
  kmem_quiet k -> link_ok k -> as_inv k l pgdir T U -> no_holes T U 0 ->
  exists k' l', freevm pgdir k = Ok tt k' /\ (exists m f, k' = with_mem m f k) /\
    kmem_inv k' l' /\ Permutation l' ((pgdir :: vals T ++ l) ++ upages U) /\
    changes_only ((pgdir :: vals T) ++ upages U) (k_mem k) (k_mem k').
Proof. exact freevm_spec. Qed.

Lemma freevm_correct_witness :
  exists k l pgdir T U k' l', as_inv k l pgdir T U /\ is_Some (U !! 2) /\
    freevm pgdir k = Ok tt k' /\ kmem_inv k' l' /\ pgdir ∈ l'.
Proof.
  destruct example_space as (k & l & pgdir & T & Hq & Hl & Hc & Has & Hlen).
  destruct (example_grow k l pgdir T 3 Hq Hl Hc Has Hlen) as (k1 & l1 & T1 & U1 & _ & Hq1 & Hl1 & _ & Has1 & Hlen1 & HU);
    [lia|].
  destruct (freevm_correct k1 l1 pgdir T1 U1 Hq1 Hl1 Has1) as (k' & l' & H1 & _ & H2 & H3 & _).
  - exact (example_no_holes k1 l1 pgdir T1 U1 3 0 Has1 (Z.le_refl 0) HU).
  - exists k1, l1, pgdir, T1, U1, k', l'. split_and!; [exact Has1| |exact H1|exact H2|].
    + destruct (HU 2) as [H4 _]. destruct H4 as (e & -> & _); [lia|eauto].
    + rewrite H3. apply elem_of_app. left. apply list_elem_of_here.
Defined.

Lemma copyuvm_run : forall k l pgdir T U sz,
  kmem_quiet k -> link_ok k -> as_inv k l pgdir T U -> 0 <= sz <= KERNBASE ->
  (forall w, 1 <= w -> w * PGSIZE < sz -> is_Some (U !! w)) ->
  exists r k' l', copyuvm pgdir sz k = Ok r k' /\ (exists m f, k' = with_mem m f k) /\
    changes_only l (k_mem k) (k_mem k') /\ as_inv k' l' pgdir T U /\
    ((r <> 0 /\ exists Td Ud, as_inv k' l' r Td Ud /\
        Permutation ((r :: vals Td ++ l') ++ upages Ud) l /\
        forall w, if decide (1 <= w /\ w * PGSIZE < sz)
                  then copied_page (k_mem k) (k_mem k') (U !! w) (Ud !! w) else Ud !! w = None) \/
     (r = 0 /\ Z.of_nat (length l) <= 1025 + sz / PGSIZE + 1)).
Proof.
  intros k l pgdir T U sz Hq Hl Has Hsz Hpr.
  destruct (copyuvm_spec k l pgdir T U sz Hq Hl Has Hsz Hpr) as (r & k' & Hrun & Hr).
  assert (Hs0 : 0 <= sz / PGSIZE) by (apply Z.div_pos; unfold PGSIZE; lia).
  destruct Hr as [(d & Hd & (m & f & E) & Hc & Hr)|(-> & (m & f & E) & Hk' & Hlen & Hc)].
  - destruct Hr as [(-> & l' & Td & Ud & v & (_ & Has' & HP & _ & Hcp) & Hv)
                   |(-> & l' & lost & Hk' & HP & _ & Hlen)].
    + exists d, k', l'. split; [done|]. split; [eauto|]. split; [done|]. split.
      { subst k'. eapply as_inv_frame; [exact Has|apply Has'|exact Hc|]. rewrite <- HP. clear. set_solver. }
      left. split; [done|]. exists Td, Ud. split_and!; [done|done|]. intros w. specialize (Hcp w).
      specialize (Hv w). repeat case_decide; tauto.
    + exists 0, k', l'. split; [done|]. split; [eauto|]. split; [done|]. split; [|right; done].
      subst k'. eapply as_inv_frame; [exact Has|exact Hk'|exact Hc|]. rewrite <- HP. clear. set_solver.
  - exists 0, k', []. split; [done|]. split; [eauto|]. split; [done|]. split; [|right; lia].
    subst k'. eapply as_inv_frame; [exact Has|exact Hk'|exact Hc|]. clear. set_solver.
Qed.

(** C7. copyuvm: for a parent whose pages from PGSIZE to its size are present,
    the call returns a new address space, built from free pages only, that maps
    exactly those pages with the parent's permissions to pages of its own with
    the parent's contents, and the parent's address space is untouched; or it
    returns 0, only when memory was short, and the parent is untouched too. *)
Theorem copyuvm_correct : forall k l pgdir T U sz,
  kmem_quiet k -> link_ok k -> as_inv k l pgdir T U -> 0 <= sz <= KERNBASE ->
  (forall w, 1 <= w -> w * PGSIZE < sz -> is_Some (U !! w)) ->
  exists r k' l', copyuvm pgdir sz k = Ok r k' /\ (exists m f, k' = with_mem m f k) /\
    changes_only l (k_mem k) (k_mem k') /\ as_inv k' l' pgdir T U /\
    ((r <> 0 /\ exists Td Ud, as_inv k' l' r Td Ud /\
        Permutation ((r :: vals Td ++ l') ++ upages Ud) l /\
        forall w, if decide (1 <= w /\ w * PGSIZE < sz)
                  then copied_page (k_mem k) (k_mem k') (U !! w) (Ud !! w) else Ud !! w = None) \/
     (r = 0 /\ Z.of_nat (length l) <= 1025 + sz / PGSIZE + 1)).
Proof. exact copyuvm_run. Qed.

Lemma copyuvm_correct_witness :
  exists k l pgdir T U r k' l' Td Ud, as_inv k l pgdir T U /\
    copyuvm pgdir (3 * PGSIZE) k = Ok r k' /\ as_inv k' l' r Td Ud /\
    copied_page (k_mem k) (k_mem k') (U !! 2) (Ud !! 2) /\ Ud !! 0 = None.
Proof.
  destruct example_space as (k & l & pgdir & T & Hq & Hl & Hc & Has & Hlen).
  destruct (example_grow k l pgdir T 3 Hq Hl Hc Has Hlen) as (k1 & l1 & T1 & U1 & _ & Hq1 & Hl1 & _ & Has1 & Hlen1 & HU);
    [lia|].
  assert (Hpr : forall w, 1 <= w -> w * PGSIZE < 3 * PGSIZE -> is_Some (U1 !! w)).
  { intros w H1 H2. destruct (HU w) as [H3 _]. unfold PGSIZE in *.
    destruct H3 as (e & -> & _); [lia|eauto]. }
  destruct (copyuvm_correct k1 l1 pgdir T1 U1 (3 * PGSIZE) Hq1 Hl1 Has1)
    as (r & k' & l' & H1 & _ & _ & _ & H2); [unfold PGSIZE, KERNBASE; lia|exact Hpr|].
  change (3 * PGSIZE / PGSIZE) with 3 in H2.
  destruct H2 as [(_ & Td & Ud & H3 & _ & H4)|(_ & H2)]; [|exfalso; lia].
  exists k1, l1, pgdir, T1, U1, r, k', l', Td, Ud. split_and!; [exact Has1|exact H1|exact H3| |].
  - specialize (H4 2). rewrite decide_True in H4; [exact H4|unfold PGSIZE; lia].
  - specialize (H4 0). rewrite decide_False in H4; [exact H4|lia].
Defined.

(** ** copyout *)

Lemma store_bytes_spec bs : forall m a x,
  load8 (store_bytes m a bs) x =
    if decide (a <= x < a + Z.of_nat (length bs)) then u8 (bs !!! Z.to_nat (x - a)) else load8 m x.
Proof.
  induction bs as [|b bs IH]; intros m a x; cbn [store_bytes length].
  - now rewrite decide_False by lia.
  - rewrite IH. destruct (decide (x = a)) as [->|Hne].
    + rewrite decide_False, decide_True, load8_store8_eq by lia. now rewrite Z.sub_diag.
    + rewrite load8_store8_ne by congruence. repeat case_decide; try lia; try done.
      replace (Z.to_nat (x - a)) with (S (Z.to_nat (x - (a + 1)))) by lia. reflexivity.
Qed.

Lemma uva2ka_user k l pgdir T U v :
  as_inv k l pgdir T U -> 0 <= v < 2 ^ 19 -> is_Some (T !! PDX (v * PGSIZE)) ->
  uva2ka pgdir (v * PGSIZE) k =
    Ok (match U !! v with Some e => if has e PTE_U then upage e else 0 | None => 0 end) k.
Proof.
  intros Has Hv [t Ht]. unfold uva2ka.
  mok (walkpgdir_lookup k l pgdir T (v * PGSIZE) (as_vm _ _ _ _ _ Has)). rewrite Ht.
  rewrite (entry_of_nonzero k l pgdir T (v * PGSIZE) _ (as_vm _ _ _ _ _ Has)
    (ex_intro _ t (conj Ht eq_refl))). mred.
  pose proof (as_entry k l pgdir T U v Has Hv) as He. rewrite Ht in He. cbn zeta in He. rewrite He.
  destruct (has (load32 (k_mem k) (t + 4 * PTX (v * PGSIZE))) PTE_P); cbn [negb]; [|done].
  unfold upage. now destruct (has (load32 (k_mem k) (t + 4 * PTX (v * PGSIZE))) PTE_U).
Qed.

(** A copy whose bytes all go through the first page table entry. *)
Lemma copyout_once k l pgdir T U v off p e :
  as_inv k l pgdir T U -> U !! v = Some e -> has e PTE_U = true ->
  0 <= off < PGSIZE -> 0 < Z.of_nat (length p) <= PGSIZE + 1 - off ->
  copyout pgdir (v * PGSIZE + off) p (Z.of_nat (length p)) k =
    Ok 0 (set_k_mem (store_bytes (k_mem k) (upage e + off) p) k).
Proof.
  intros Has HU Hu Hoff Hlen. pose proof (as_dom _ _ _ _ _ Has v e HU) as Hv.
  unfold copyout. destruct (Z.to_nat (Z.of_nat (length p))) as [|n] eqn:En; [lia|].
  cbn [copyout_loop]. destruct (Z.ltb_spec 0 (Z.of_nat (length p))); [|lia]. cbn [negb].
  assert (E0 : PGROUNDDOWN (v * PGSIZE + off) = v * PGSIZE).
  { unfold PGSIZE in *. rewrite PGROUNDDOWN_spec by lia. Z.div_mod_to_equations. lia. }
  rewrite E0. pose proof (as_entry k l pgdir T U v Has Hv) as Hen.
  assert (HT : is_Some (T !! PDX (v * PGSIZE))).
  { destruct (T !! PDX (v * PGSIZE)); [eauto|congruence]. }
  mok (uva2ka_user k l pgdir T U v Has Hv HT). rewrite HU, Hu.
  destruct (as_upage _ _ _ _ _ _ _ Has HU) as (Hvp & _).
  pose proof (valid_page_range _ _ Hvp) as (Hp0 & _). destruct (Z.eqb_spec (upage e) 0); [lia|].
  replace (v * PGSIZE + off - v * PGSIZE) with off by lia.
  replace (if Z.of_nat (length p) <? PGSIZE + 1 - off then Z.of_nat (length p) else PGSIZE + 1 - off)
    with (Z.of_nat (length p)) by (destruct (Z.ltb_spec (Z.of_nat (length p)) (PGSIZE + 1 - off)); lia).
  rewrite Nat2Z.id. unfold updmem. mred. rewrite Z.sub_diag, drop_all.
  rewrite take_ge by lia. destruct n; reflexivity.
Qed.

(** copyout within one page: the bytes arrive at the user address, nothing
    else in memory changes, and 0 is returned; a page that is absent or not
    user-accessible gives -1 with nothing written. *)
Lemma copyout_page_correct : forall k l pgdir T U v off p,
  as_inv k l pgdir T U -> 0 <= v < 2 ^ 19 -> is_Some (T !! PDX (v * PGSIZE)) ->
  0 <= off < PGSIZE -> 0 < Z.of_nat (length p) <= PGSIZE - off ->
  match U !! v with
  | Some e =>
      if has e PTE_U then
        exists k', copyout pgdir (v * PGSIZE + off) p (Z.of_nat (length p)) k = Ok 0 k' /\
          as_inv k' l pgdir T U /\
          forall a, load8 (k_mem k') a =
            if decide (upage e + off <= a < upage e + off + Z.of_nat (length p))
            then u8 (p !!! Z.to_nat (a - (upage e + off))) else load8 (k_mem k) a
      else copyout pgdir (v * PGSIZE + off) p (Z.of_nat (length p)) k = Ok (-1) k
  | None => copyout pgdir (v * PGSIZE + off) p (Z.of_nat (length p)) k = Ok (-1) k
  end.
Proof.
  intros k l pgdir T U v off p Has Hv HT Hoff Hlen.
  assert (Hfail : (match U !! v with Some e => if has e PTE_U then upage e else 0 | None => 0 end) = 0 ->
            copyout pgdir (v * PGSIZE + off) p (Z.of_nat (length p)) k = Ok (-1) k).
  { intros Hz. unfold copyout. destruct (Z.to_nat (Z.of_nat (length p))) as [|n] eqn:En; [lia|].
    cbn [copyout_loop]. destruct (Z.ltb_spec 0 (Z.of_nat (length p))); [|lia]. cbn [negb].
    assert (E0 : PGROUNDDOWN (v * PGSIZE + off) = v * PGSIZE).
    { unfold PGSIZE in *. rewrite PGROUNDDOWN_spec by lia. Z.div_mod_to_equations. lia. }
    rewrite E0. mok (uva2ka_user k l pgdir T U v Has Hv HT). now rewrite Hz. }
  destruct (U !! v) as [e|] eqn:HU; [|now apply Hfail].
  destruct (has e PTE_U) eqn:Hu; [|now apply Hfail].
  destruct (as_upage _ _ _ _ _ _ _ Has HU) as (Hvp & Hn).
  eexists. split; [apply (copyout_once k l pgdir T U v off p e); (done || lia)|]. split.
  - apply (as_inv_changes k l pgdir T U [upage e]); [done| | | |].
    + intros a. rewrite store_bytes_spec. case_decide; [apply u8_range|apply Has].
    + intros a Ha. rewrite store_bytes_spec, decide_False; [done|].
      specialize (Ha _ (list_elem_of_here _ _)). lia.
    + constructor; [apply Hvp|constructor].
    + now intros q ->%list_elem_of_singleton.
  - intros a. ksimpl. now rewrite store_bytes_spec.
Qed.

(** copyout across a page boundary is wrong (n = PGSIZE+1 - (va - va0)): a
    copy that reaches one byte into the next user page writes that byte into the
    physical page that follows the first one, whatever that page is used for,
    still returns 0, and leaves the next user page as it was. *)
Lemma copyout_overruns_page : forall k l pgdir T U v off p e e',
  as_inv k l pgdir T U -> U !! v = Some e -> has e PTE_U = true -> U !! (v + 1) = Some e' ->
  0 <= off < PGSIZE -> Z.of_nat (length p) = PGSIZE + 1 - off ->
  exists k', copyout pgdir (v * PGSIZE + off) p (Z.of_nat (length p)) k = Ok 0 k' /\
    load8 (k_mem k') (upage e + PGSIZE) = u8 (p !!! Z.to_nat (PGSIZE - off)) /\
    (upage e' <> upage e + PGSIZE -> load8 (k_mem k') (upage e') = load8 (k_mem k) (upage e')).
Proof.
  intros k l pgdir T U v off p e e' Has HU Hu HU' Hoff Hlen.
  eexists. split; [apply (copyout_once k l pgdir T U v off p e); (done || lia)|]. ksimpl.
  split; [|intros Hne']; rewrite store_bytes_spec.
  - rewrite decide_True by lia. do 3 f_equal. lia.
  - rewrite decide_False; [done|].
    destruct (as_upage _ _ _ _ _ _ _ Has HU) as (Hv1 & _).
    destruct (as_upage _ _ _ _ _ _ _ Has HU') as (Hv2 & _).
    assert (upage e' <> upage e).
    { intros E. pose proof (as_nodup _ _ _ _ _ Has) as Hnd. apply NoDup_app in Hnd as (_ & _ & Hnd).
      rewrite (upages_delete U v e HU) in Hnd. apply NoDup_cons in Hnd as [Hnd _]. apply Hnd.
      apply elem_of_upages. exists (v + 1), e'. rewrite lookup_delete_ne by lia. now rewrite E. }
    destruct (page_disjoint (upage e) (upage e')); [apply Hv1|apply Hv2|done|lia..].
Qed.

Lemma copyout_overruns_page_witness :
  exists k l pgdir T U e k', as_inv k l pgdir T U /\ U !! 1 = Some e /\
    copyout pgdir (1 * PGSIZE + 4094) [1; 2; 3] 3 k = Ok 0 k' /\
    load8 (k_mem k') (upage e + PGSIZE) = 3.
Proof.
  destruct example_space as (k & l & pgdir & T & Hq & Hl & Hc & Has & Hlen).
  destruct (example_grow k l pgdir T 3 Hq Hl Hc Has Hlen) as (k1 & l1 & T1 & U1 & _ & Hq1 & Hl1 & _ & Has1 & _ & HU);
    [lia|].
  destruct (proj1 (HU 1)) as (e & He & Hf & _); [lia|].
  destruct (proj1 (HU 2)) as (e' & He' & _ & _); [lia|].
  assert (Hu : has e PTE_U = true).
  { change PTE_U with (2 ^ 2). rewrite has_pow2 by lia.
    assert (Hb : Z.testbit (PTE_FLAGS e) 2 = true) by now rewrite Hf.
    unfold PTE_FLAGS in Hb. rewrite Z.land_spec in Hb. apply andb_true_iff in Hb as [Hb _].
    unfold u32 in Hb. now rewrite Z.mod_pow2_bits_low in Hb by lia. }
  destruct (copyout_overruns_page k1 l1 pgdir T1 U1 1 4094 [1; 2; 3] e e' Has1 He Hu He')
    as (k' & H1 & H2 & _); [unfold PGSIZE; lia|reflexivity|].
  exists k1, l1, pgdir, T1, U1, e, k'. split_and!; [exact Has1|exact He|exact H1|exact H2].
Defined.

Lemma copyout_page_correct_witness :
  exists k l pgdir T U e k', as_inv k l pgdir T U /\ U !! 1 = Some e /\
    (if has e PTE_U then copyout pgdir (1 * PGSIZE + 100) [65; 66] 2 k = Ok 0 k' /\
       load8 (k_mem k') (upage e + 101) = 66
     else copyout pgdir (1 * PGSIZE + 100) [65; 66] 2 k = Ok (-1) k).
Proof.
  destruct example_space as (k & l & pgdir & T & Hq & Hl & Hc & Has & Hlen).
  destruct (example_grow k l pgdir T 3 Hq Hl Hc Has Hlen) as (k1 & l1 & T1 & U1 & _ & Hq1 & Hl1 & _ & Has1 & _ & HU);
    [lia|].
  destruct (proj1 (HU 1)) as (e & He & _); [lia|].
  assert (HT : is_Some (T1 !! PDX (1 * PGSIZE))).
  { pose proof (as_entry k1 l1 pgdir T1 U1 1 Has1) as Hen.
    destruct (T1 !! PDX (1 * PGSIZE)); [eauto|]. rewrite Hen in He by lia. congruence. }
  pose proof (copyout_page_correct k1 l1 pgdir T1 U1 1 100 [65; 66] Has1) as H.
  rewrite He in H. specialize (H ltac:(lia) HT ltac:(unfold PGSIZE; lia) ltac:(cbn; unfold PGSIZE; lia)).
  destruct (has e PTE_U) eqn:Hu.
  - destruct H as (k' & H1 & _ & H2). exists k1, l1, pgdir, T1, U1, e, k'. rewrite Hu.
    split_and!; [exact Has1|exact He|exact H1|]. rewrite H2, decide_True by (cbn; lia).
    replace (upage e + 101 - (upage e + 100)) with 1 by lia. reflexivity.
  - exists k1, l1, pgdir, T1, U1, e, k1. rewrite Hu. split_and!; [exact Has1|exact He|exact H].
Defined.
