(* ===== verification/Sched.v ===== *)
(** * Sleeping, waking and scheduling (proc.c)

    [sleep], [wakeup], [sched], [yield], [kill] and [scheduler].  A switch to
    the scheduler suspends the calling thread ([Blocked WSwtch] with the rest of
    the call); a switch from the scheduler to process [p] suspends the scheduler
    ([Blocked (WRun p)]). *)

From stdpp Require Import functions.
From S2P Require Import Prelude State CMem Spinlock Mmu Kalloc Console Vm.

(** ** The operations *)

Definition wakeup1_proc (ch : chan) (p : proc) : proc :=
  if bool_decide (p_state p = SLEEPING) && bool_decide (p_chan p = ch)
  then set_p_state RUNNABLE p else p.

Definition wakeup1 (ch : chan) : K unit :=
  modify (fun k => set_ptable (wakeup1_proc ch <$> ptable k) k).

Definition wakeup (ch : chan) : K unit :=
  acquire Lptable ;;
  wakeup1 ch ;;
  release Lptable.

Definition sched : K unit :=
  h <- holding Lptable ;;
  if negb h then panic "sched ptable.lock" else
  ncli <- gets (fun k => cpu_ncli (k_cpu k)) ;;
  if negb (ncli =? 1) then panic "sched locks" else
  c <- curproc ;;
  p <- getproc c ;;
  if bool_decide (p_state p = RUNNING) then panic "sched running" else
  eflags <- readeflags ;;
  if has eflags FL_IF then panic "sched interruptible" else
  intena <- gets (fun k => cpu_intena (k_cpu k)) ;;
  block WSwtch ;;
  updcpu (set_cpu_intena intena).

Definition yield : K unit :=
  acquire Lptable ;;
  c <- curproc ;;
  updproc c (set_p_state RUNNABLE) ;;
  sched ;;
  release Lptable.

(** The lock argument of [sleep] is never null: it is one of the kernel's locks. *)
Definition sleep (ch : chan) (lk : lockid) : K unit :=
  o <- gets (fun k => cpu_proc (k_cpu k)) ;;
  match o with
  | None => panic "sleep"
  | Some c =>
      when (negb (bool_decide (lk = Lptable))) (acquire Lptable ;; release lk) ;;
      updproc c (set_p_chan ch) ;;
      updproc c (set_p_state SLEEPING) ;;
      sched ;;
      c <- curproc ;;
      updproc c (set_p_chan CNull) ;;
      when (negb (bool_decide (lk = Lptable))) (release Lptable ;; acquire lk)
  end.

(** The loop of [kill] over the process table, from slot [i]. *)
Fixpoint kill_loop (ps : list proc) (i : nat) (pid : Z) : K Z :=
  match ps with
  | [] => release Lptable ;; ret (-1)
  | p :: ps' =>
      if p_pid p =? pid then
        updproc i (set_p_killed 1) ;;
        when (bool_decide (p_state p = SLEEPING)) (updproc i (set_p_state RUNNABLE)) ;;
        release Lptable ;;
        ret 0
      else kill_loop ps' (S i) pid
  end.

Definition kill (pid : Z) : K Z :=
  acquire Lptable ;;
  ps <- gets ptable ;;
  kill_loop ps 0 pid.

(** ** The scheduler *)

(** The minute's priority reset: every runnable process of priority 0 gets 1. *)
Definition reset_priority (p : proc) : proc :=
  if bool_decide (p_state p = RUNNABLE) && (p_priority p =? 0) then set_p_priority 1 p else p.

(** The loop over the process table, for the given slots. *)
Fixpoint scheduler_loop (slots : list nat) : K unit :=
  match slots with
  | [] => ret tt
  | p :: rest =>
      pr <- getproc p ;;
      if negb (bool_decide (p_state pr = RUNNABLE)) then scheduler_loop rest else
      updcpu (set_cpu_proc (Some p)) ;;
      switchuvm p ;;
      updproc p (set_p_state RUNNING) ;;
      block (WRun p) ;;
      switchkvm ;;
      updcpu (set_cpu_proc None) ;;
      scheduler_loop rest
  end.

(** One round of the endless loop. *)
Definition scheduler_round : K unit :=
  sti ;;
  modify (fun k => set_prioritybump (s32 (prioritybump k + 1)) k) ;;
  pb <- gets prioritybump ;;
  when (600000000 <=? pb)
    (cprintf "Priority Shift!
" [] ;;
     modify (set_prioritybump 0) ;;
     modify (fun k => set_ptable (reset_priority <$> ptable k) k)) ;;
  acquire Lptable ;;
  scheduler_loop (seq 0 (Z.to_nat NPROC)) ;;
  release Lptable.

Fixpoint scheduler (rounds : nat) : K unit :=
  match rounds with
  | O => ret tt
  | S n => scheduler_round ;; scheduler n
  end.

(** ** Lemmas *)

(** The interrupt flag of the CPU set to [i] (0 or [FL_IF]). *)
Definition with_if (i : Z) (k : kernel) : kernel :=
  set_k_cpu (set_cpu_intena i
    (set_cpu_eflags (Z.lor (Z.ldiff (cpu_eflags (k_cpu k)) FL_IF) i) (k_cpu k))) k.

(** A CPU that runs kernel code and holds no lock. *)
Definition cpu_idle (k : kernel) : Prop := cpu_ok (k_cpu k) /\ cpu_ncli (k_cpu k) = 0.

Definition intr_flag (k : kernel) : Z := Z.land (cpu_eflags (k_cpu k)) FL_IF.

Definition put_proc (p : nat) (f : proc -> proc) (k : kernel) : kernel :=
  set_ptable (alter f p (ptable k)) k.

Lemma intr_flag_cases k : intr_flag k = 0 \/ intr_flag k = FL_IF.
Proof.
  unfold intr_flag. destruct (Z.testbit (cpu_eflags (k_cpu k)) 9) eqn:E; [right|left];
    bitwise n Hn; rewrite Z.land_spec, testbit_FL_IF, ?Z.bits_0 by done;
    destruct (Z.eqb_spec n 9) as [->|]; rewrite ?E; try done; apply andb_false_r.
Qed.

Lemma set_intena_held l i k :
  cpu_ncli (k_cpu k) = 0 -> i = 0 \/ i = FL_IF ->
  set_k_cpu (set_cpu_intena i (k_cpu (held l k))) (held l k) = held l (with_if i k).
Proof.
  intros Hn Hi. unfold held, with_if, pushed. ksimpl. rewrite Hn. cbn [Z.eqb].
  assert (E1 : Z.land (Z.lor (Z.ldiff (cpu_eflags (k_cpu k)) FL_IF) i) FL_IF = i).
  { bitwise n Hnn. rewrite Z.land_spec, Z.lor_spec, Z.ldiff_spec, testbit_FL_IF by done.
    destruct Hi as [->| ->]; rewrite ?Z.bits_0, ?testbit_FL_IF by done;
      destruct (n =? 9), (Z.testbit (cpu_eflags (k_cpu k)) n); done. }
  assert (E2 : Z.ldiff (Z.lor (Z.ldiff (cpu_eflags (k_cpu k)) FL_IF) i) FL_IF
               = Z.ldiff (cpu_eflags (k_cpu k)) FL_IF).
  { bitwise n Hnn. rewrite !Z.ldiff_spec, Z.lor_spec, Z.ldiff_spec, !testbit_FL_IF by done.
    destruct Hi as [->| ->]; rewrite ?Z.bits_0, ?testbit_FL_IF by done;
      destruct (n =? 9), (Z.testbit (cpu_eflags (k_cpu k)) n); done. }
  rewrite E1, E2. destruct k as [? c]. destruct c. reflexivity.
Qed.

(** Releasing a lock taken before another one that is kept. *)
Lemma release_under l l2 k :
  l <> l2 -> cpu_ok (k_cpu k) -> lock_free l k -> lock_free l2 k ->
  release l (held l2 (held l k)) = Ok tt (held l2 k).
Proof.
  intros Hne Hc [nm Hl] [nm2 Hl2]. unfold release, holding, updlock, getlock.
  assert (Hll : k_locks (held l2 (held l k)) !! l
                = Some (mkSpinlock nm 1 (Some (cpu_id (k_cpu k))))).
  { unfold held. ksimpl. rewrite lookup_insert_ne, lookup_insert_eq by done.
    unfold getlock. now rewrite Hl. }
  mred. rewrite Hll. ksimpl. rewrite bool_decide_true by done. cbn [negb andb]. mred. ksimpl.
  rewrite Hll, !lookup_insert_eq. ksimpl.
  set (k1 := set_k_locks _ _).
  rewrite (popcli_pushed k1 (pushed (k_cpu k)));
    [|now apply cpu_ok_pushed|reflexivity].
  f_equal. transitivity (set_k_cpu (pushed (k_cpu k)) (set_k_locks (k_locks k1) k)); [reflexivity|].
  unfold held. do 2 f_equal. apply map_eq. intros i. unfold k1, held, getlock. ksimpl.
  destruct (decide (i = l2)) as [->|]; [|destruct (decide (i = l)) as [->|]];
    repeat (rewrite lookup_insert_eq || rewrite lookup_insert_ne by done);
    rewrite ?Hl, ?Hl2; reflexivity.
Qed.

Lemma sched_spec k p :
  cpu_idle k -> lock_free Lptable k -> cpu_proc (k_cpu k) = Some p ->
  p_state (ptable k !!! p) <> RUNNING ->
  exists cont, sched (held Lptable k) = Blocked WSwtch (held Lptable k) cont /\
    forall k3, cpu_ncli (k_cpu k3) = 0 ->
      cont (held Lptable k3) = Ok tt (held Lptable (with_if (intr_flag k) k3)).
Proof.
  intros [Hc Hn] Hl Hp Hst. unfold sched, curproc, getproc, readeflags.
  mok (holding_held Lptable k). cbn [negb]. mred.
  change (cpu_ncli (k_cpu (held Lptable k))) with (cpu_ncli (k_cpu k) + 1). rewrite Hn. cbn [Z.eqb negb].
  change (0 + 1 =? 1) with true. cbn [negb]. mred.
  change (cpu_proc (k_cpu (held Lptable k))) with (cpu_proc (k_cpu k)). rewrite Hp. cbn [default].
  change (ptable (held Lptable k)) with (ptable k). rewrite bool_decide_false by done. mred.
  change (cpu_eflags (k_cpu (held Lptable k))) with (Z.ldiff (cpu_eflags (k_cpu k)) FL_IF).
  rewrite has_ldiff_FL_IF. mred.
  assert (Ei : cpu_intena (k_cpu (held Lptable k)) = intr_flag k).
  { unfold held, pushed. ksimpl. rewrite Hn. reflexivity. }
  rewrite Ei. eexists. split; [reflexivity|].
  intros k3 Hn3. cbn [obind]. unfold updcpu, modify. f_equal.
  apply set_intena_held; [done|apply intr_flag_cases].
Qed.

(** The process as [sleep] leaves it, and as it comes back. *)
Definition sleeping (p : nat) (ch : chan) (k : kernel) : kernel :=
  put_proc p (set_p_state SLEEPING) (put_proc p (set_p_chan ch) k).
Definition awake (p : nat) (k : kernel) : kernel := put_proc p (set_p_chan CNull) k.

Lemma lookup_alter_state (ps : list proc) p f :
  (p < length ps)%nat -> alter f p ps !!! p = f (ps !!! p).
Proof.
  intros Hp. apply list_lookup_total_correct.
  rewrite list_lookup_alter_eq. rewrite list_lookup_lookup_total_lt by done. reflexivity.
Qed.

Lemma sleep_spec ch lk k p :
  cpu_idle k -> lock_free Lptable k -> lock_free lk k -> lk <> Lptable ->
  cpu_proc (k_cpu k) = Some p -> (p < length (ptable k))%nat ->
  exists cont,
    sleep ch lk (held lk k) = Blocked WSwtch (held Lptable (sleeping p ch k)) cont /\
    forall k3, cpu_idle k3 -> lock_free Lptable k3 -> lock_free lk k3 ->
      cpu_proc (k_cpu k3) = Some p ->
      cont (held Lptable k3) = Ok tt (held lk (with_if (intr_flag k) (awake p k3))).
Proof.
  intros [Hc Hn] Hpt Hlk Hne Hp Hpl. unfold sleep. mred.
  change (cpu_proc (k_cpu (held lk k))) with (cpu_proc (k_cpu k)). rewrite Hp.
  rewrite bool_decide_false by done. cbn [negb when]. unfold when. cbn match.
  assert (Hfree : lock_free Lptable (held lk k)) by (apply lock_free_held; [congruence|done]).
  rewrite bind_assoc by (unfold returns; now rewrite (acquire_free _ _ Hfree)).
  mok (acquire_free Lptable (held lk k) Hfree).
  mok (release_under lk Lptable k Hne Hc Hlk Hpt).
  unfold updproc. mred.
  set (k1 := sleeping p ch k).
  change (set_ptable _ (set_ptable _ (held Lptable k))) with (held Lptable k1).
  destruct (sched_spec k1 p) as (cont & Hrun & Hcont); [done|done|done| |].
  { unfold k1, sleeping, put_proc. ksimpl.
    rewrite lookup_alter_state by now rewrite length_alter. ksimpl. done. }
  rewrite (bind_blocked _ _ _ _ _ _ Hrun). eexists. split; [reflexivity|].
  intros k3 [Hc3 Hn3] Hpt3 Hlk3 Hp3. rewrite (Hcont k3 Hn3). cbn [obind].
  unfold curproc. mred.
  change (cpu_proc (k_cpu (held Lptable (with_if (intr_flag k1) k3)))) with (cpu_proc (k_cpu k3)).
  rewrite Hp3. cbn [default].
  set (k4 := with_if (intr_flag k) (awake p k3)).
  change (set_ptable _ (held Lptable (with_if (intr_flag k1) k3))) with (held Lptable k4).
  assert (Hc4 : cpu_ok (k_cpu k4)).
  { split_and!; [unfold k4; cbn; lia| |unfold k4; cbn; lia]. intros _. unfold k4. cbn.
    bitwise n Hnn. rewrite Z.land_spec, Z.lor_spec, Z.ldiff_spec, testbit_FL_IF by done.
    destruct (intr_flag_cases k) as [->| ->]; rewrite ?Z.bits_0, ?testbit_FL_IF by done;
      destruct (n =? 9), (Z.testbit (cpu_eflags (k_cpu k3)) n); done. }
  mok (release_held Lptable k4 Hc4 Hpt3).
  exact (acquire_free lk k4 Hlk3).
Qed.

Lemma with_if_ok i k :
  cpu_ncli (k_cpu k) = 0 -> i = 0 \/ i = FL_IF -> cpu_ok (k_cpu (with_if i k)).
Proof.
  intros Hn Hi. split_and!; cbn; [lia| |lia]. intros _.
  bitwise n Hnn. rewrite Z.land_spec, Z.lor_spec, Z.ldiff_spec, testbit_FL_IF by done.
  destruct Hi as [->| ->]; rewrite ?Z.bits_0, ?testbit_FL_IF by done;
    destruct (n =? 9), (Z.testbit (cpu_eflags (k_cpu k)) n); done.
Qed.

Lemma yield_spec k p :
  cpu_idle k -> lock_free Lptable k -> cpu_proc (k_cpu k) = Some p ->
  (p < length (ptable k))%nat ->
  exists cont,
    yield k = Blocked WSwtch (held Lptable (put_proc p (set_p_state RUNNABLE) k)) cont /\
    forall k3, cpu_idle k3 -> lock_free Lptable k3 ->
      cont (held Lptable k3) = Ok tt (with_if (intr_flag k) k3).
Proof.
  intros [Hc Hn] Hpt Hp Hpl. unfold yield, curproc, updproc.
  mok (acquire_free Lptable k Hpt). mred.
  change (cpu_proc (k_cpu (held Lptable k))) with (cpu_proc (k_cpu k)). rewrite Hp. cbn [default].
  set (k1 := put_proc p (set_p_state RUNNABLE) k).
  change (set_ptable _ (held Lptable k)) with (held Lptable k1).
  destruct (sched_spec k1 p) as (cont & Hrun & Hcont); [done|done|done| |].
  { unfold k1, put_proc. ksimpl. rewrite lookup_alter_state by done. ksimpl. done. }
  rewrite (bind_blocked _ _ _ _ _ _ Hrun). eexists. split; [reflexivity|].
  intros k3 [Hc3 Hn3] Hpt3. rewrite (Hcont k3 Hn3). cbn [obind].
  apply release_held; [|done]. apply with_if_ok; [done|apply intr_flag_cases].
Qed.

Lemma wakeup_run ch k :
  cpu_ok (k_cpu k) -> lock_free Lptable k ->
  wakeup ch k = Ok tt (set_ptable (wakeup1_proc ch <$> ptable k) k).
Proof.
  intros Hc Hl. unfold wakeup, wakeup1. mok (acquire_free Lptable k Hl). mred.
  pose (k1 := set_ptable (wakeup1_proc ch <$> ptable k) k).
  exact (release_held Lptable k1 Hc Hl).
Qed.

(** *** kill *)

(** What [kill] does to its victim. *)
Definition killed_proc (p : proc) : proc :=
  let p := set_p_killed 1 p in
  if bool_decide (p_state p = SLEEPING) then set_p_state RUNNABLE p else p.

Lemma put_proc_ext i f g k :
  (forall p, ptable k !! i = Some p -> f p = g p) -> put_proc i f k = put_proc i g k.
Proof. intros H. unfold put_proc. f_equal. now apply list_alter_ext. Qed.

Lemma put_proc_twice i f g k : put_proc i f (put_proc i g k) = put_proc i (fun p => f (g p)) k.
Proof.
  transitivity (set_ptable (alter f i (alter g i (ptable k))) k); [reflexivity|].
  unfold put_proc. now rewrite list_alter_alter_eq.
Qed.

Lemma kill_loop_run k pid ps : forall i,
  cpu_ok (k_cpu k) -> lock_free Lptable k -> drop i (ptable k) = ps ->
  kill_loop ps i pid (held Lptable k) =
    match list_find (fun p => p_pid p = pid) ps with
    | Some (j, _) => Ok 0 (put_proc (i + j) killed_proc k)
    | None => Ok (-1) k
    end.
Proof.
  induction ps as [|p ps IH]; intros i Hc Hl Hd; cbn [kill_loop list_find].
  - now mok (release_held Lptable k Hc Hl).
  - assert (Hi : ptable k !! i = Some p).
    { rewrite <- (Nat.add_0_r i), <- lookup_drop, Hd. reflexivity. }
    destruct (Z.eqb_spec (p_pid p) pid) as [E|E].
    + rewrite decide_True by done. rewrite Nat.add_0_r. unfold updproc, when. mred.
      assert (Hfin : forall k1, lock_free Lptable k1 -> cpu_ok (k_cpu k1) ->
                bind (release Lptable) (fun _ => ret 0) (held Lptable k1) = Ok 0 k1).
      { intros k1 Hf1 Hc1. now mok (release_held Lptable k1 Hc1 Hf1). }
      destruct (bool_decide (p_state p = SLEEPING)) eqn:Es; mred.
      * rewrite (put_proc_ext i killed_proc (fun p => set_p_state RUNNABLE (set_p_killed 1 p))).
        -- rewrite <- put_proc_twice. now apply (Hfin (put_proc i _ (put_proc i _ k))).
        -- intros q Hq. rewrite Hi in Hq. injection Hq as <-. unfold killed_proc. ksimpl. now rewrite Es.
      * rewrite (put_proc_ext i killed_proc (set_p_killed 1)).
        -- now apply (Hfin (put_proc i _ k)).
        -- intros q Hq. rewrite Hi in Hq. injection Hq as <-. unfold killed_proc. ksimpl. now rewrite Es.
    + rewrite decide_False by done. rewrite IH; [|done|done|].
      * destruct (list_find _ ps) as [[j q]|]; cbn; [|done]. now rewrite Nat.add_succ_r.
      * replace (S i) with (i + 1)%nat by lia. rewrite <- drop_drop, Hd. reflexivity.
Qed.

Lemma kill_run pid k :
  cpu_ok (k_cpu k) -> lock_free Lptable k ->
  kill pid k = match list_find (fun p => p_pid p = pid) (ptable k) with
               | Some (i, _) => Ok 0 (put_proc i killed_proc k)
               | None => Ok (-1) k
               end.
Proof.
  intros Hc Hl. unfold kill. mok (acquire_free Lptable k Hl). mred.
  change (ptable (held Lptable k)) with (ptable k).
  exact (kill_loop_run k pid (ptable k) 0 Hc Hl eq_refl).
Qed.

(** *** Dispatching *)

(** The CPU after [proc = p; switchuvm(p)]. *)
Definition loaded (k : kernel) (p : nat) (c : cpu) : cpu :=
  let d := set_sd_s 0 (SEG16 STS_T32A (sym_ts (k_link k)) (sizeof_taskstate - 1) 0) in
  let c := set_gdt SEG_TSS d (set_cpu_proc (Some p) c) in
  let c := set_cpu_esp0 (u32 (p_kstack (ptable k !!! p) + KSTACKSIZE))
             (set_cpu_ss0 (Z.shiftl SEG_KDATA 3) c) in
  set_cpu_cr3 (V2P (p_pgdir (ptable k !!! p)))
    (set_cpu_tr (Z.shiftl SEG_TSS 3) (set_cpu_iomb 0xFFFF c)).

Lemma set_gdt_twice i d d' c : set_gdt i d (set_gdt i d' c) = set_gdt i d c.
Proof. unfold set_gdt. cbn. now rewrite list_insert_insert_eq. Qed.

Lemma switchuvm_run k p :
  cpu_ok (k_cpu k) -> p_pgdir (ptable k !!! p) <> 0 -> cpu_proc (k_cpu k) = Some p ->
  switchuvm p k = Ok tt (set_k_cpu (loaded k p (k_cpu k)) k).
Proof.
  intros Hc Hpg Hp. unfold switchuvm, updcpu, curproc. mok (pushcli_run k). mred. ksimpl.
  rewrite set_gdt_twice.
  change (cpu_proc (pushed (k_cpu k))) with (cpu_proc (k_cpu k)).
  change (cpu_proc (set_gdt _ _ (pushed (k_cpu k)))) with (cpu_proc (k_cpu k)).
  rewrite Hp. cbn [default].
  rewrite (proj2 (Z.eqb_neq _ _) Hpg). mred. ksimpl.
  erewrite (popcli_pushed _ (loaded k p (k_cpu k))); [reflexivity| |].
  - destruct Hc as (H1 & H2 & H3). split_and!; [exact H1|exact H2|exact H3].
  - unfold loaded. rewrite <- Hp. destruct (k_cpu k). reflexivity.
Qed.

(** The kernel when process [p] gets the CPU, and when the scheduler has it back. *)
Definition dispatched (p : nat) (k : kernel) : kernel :=
  put_proc p (set_p_state RUNNING) (set_k_cpu (loaded k p (k_cpu k)) k).
Definition undispatched (k : kernel) : kernel :=
  set_k_cpu (set_cpu_proc None (set_cpu_cr3 (V2P (k_kpgdir k)) (k_cpu k))) k.

Lemma scheduler_dispatch p rest k :
  cpu_ok (k_cpu k) -> p_state (ptable k !!! p) = RUNNABLE -> p_pgdir (ptable k !!! p) <> 0 ->
  exists cont,
    scheduler_loop (p :: rest) (held Lptable k) = Blocked (WRun p) (held Lptable (dispatched p k)) cont /\
    forall k3, cont (held Lptable k3) = scheduler_loop rest (held Lptable (undispatched k3)).
Proof.
  intros Hc Hst Hpg. cbn [scheduler_loop]. unfold getproc, updcpu, updproc. mred.
  change (ptable (held Lptable k)) with (ptable k). rewrite bool_decide_true by done. cbn [negb]. mred.
  set (k1 := set_k_cpu (set_cpu_proc (Some p) (k_cpu k)) k).
  change (set_k_cpu _ (held Lptable k)) with (held Lptable k1).
  assert (Hc1 : cpu_ok (k_cpu (held Lptable k1))) by (apply cpu_ok_pushed; exact Hc).
  mok (switchuvm_run (held Lptable k1) p Hc1 Hpg eq_refl). mred.
  eexists. split; [reflexivity|]. intros k3. reflexivity.
Qed.

Lemma scheduler_skip p rest k :
  p_state (ptable k !!! p) <> RUNNABLE ->
  scheduler_loop (p :: rest) (held Lptable k) = scheduler_loop rest (held Lptable k).
Proof.
  intros Hst. cbn [scheduler_loop]. unfold getproc. mred.
  change (ptable (held Lptable k)) with (ptable k). now rewrite bool_decide_false.
Qed.

(** *** Rounds of the scheduler *)

(** What happens while a process has the CPU: [env p] takes the kernel from the
    switch to [p] to the switch back.  The processes switched to, each with the
    state at the switch, and the state in the end. *)
Fixpoint drive (env : nat -> kernel -> kernel) (o : outcome waiting kernel unit)
    : list (nat * kernel) * option kernel :=
  match o with
  | Ok _ s => ([], Some s)
  | Blocked (WRun p) s cont =>
      let '(ps, r) := drive env (cont (env p s)) in ((p, s) :: ps, r)
  | _ => ([], None)
  end.

(** The scheduler can go on: it holds no lock, the locks it takes are free, and
    every process that can run has an address space. *)
Record sched_ready (k : kernel) : Prop := {
  sr_cpu : cpu_idle k;
  sr_lock : lock_free Lptable k;
  sr_screen : screen_ok k;
  sr_cons : cons_locking k = 0 \/ lock_free Lcons k;
  sr_pgdir : forall p, p_state (ptable k !!! p) = RUNNABLE -> p_pgdir (ptable k !!! p) <> 0
}.

(** A process that runs comes back holding ptable.lock, and does not take away
    another process's right to run (only its own turn ends). *)
Definition env_ok (env : nat -> kernel -> kernel) : Prop :=
  forall p k, sched_ready k -> exists k', env p (held Lptable (dispatched p k)) = held Lptable k' /\
    sched_ready k' /\
    forall q, q <> p -> p_state (ptable k !!! q) = RUNNABLE -> p_state (ptable k' !!! q) = RUNNABLE.

Lemma drive_bind env (o : outcome waiting kernel unit) f : forall ps s qs r,
  drive env o = (ps, Some s) -> drive env (f tt s) = (qs, r) -> drive env (obind o f) = (ps ++ qs, r).
Proof.
  induction o as [[] s0|msg|w s0 cont IH]; intros ps s qs r H1 H2; cbn in H1 |- *.
  - injection H1 as <- <-. exact H2.
  - discriminate.
  - destruct w; try discriminate. destruct (drive env (cont (env p s0))) as [ps' r'] eqn:E.
    injection H1 as <- ->. now rewrite (IH _ _ _ _ _ E H2).
Qed.

Lemma sched_ready_undispatched k : sched_ready k -> sched_ready (undispatched k).
Proof. intros [[H1 H2] H3 H4 H5 H6]. split; [split|..]; done. Qed.

(** A pass over the slots, which starts in the state [k]. *)
Lemma drive_round env slots : forall k,
  env_ok env -> sched_ready k -> NoDup slots ->
  exists ps k', drive env (scheduler_loop slots (held Lptable k)) = (ps, Some (held Lptable k')) /\
    sched_ready k' /\ sublist ps.*1 slots /\
    (forall p s, head ps = Some (p, s) -> s = held Lptable (dispatched p k)) /\
    (forall q, q ∈ slots -> p_state (ptable k !!! q) = RUNNABLE -> q ∈ ps.*1).
Proof.
  induction slots as [|p rest IH]; intros k Henv Hr Hnd.
  { exists [], k. split_and!; [reflexivity|done|constructor|done|]. intros q Hq. now apply not_elem_of_nil in Hq. }
  apply NoDup_cons in Hnd as [Hni Hnd].
  destruct (decide (p_state (ptable k !!! p) = RUNNABLE)) as [Hst|Hst].
  - destruct (scheduler_dispatch p rest k) as (cont & Hrun & Hcont); [apply Hr|done|now apply Hr|].
    destruct (Henv p k Hr) as (k1 & Hk1 & Hr1 & Hkeep).
    rewrite Hrun. cbn [drive]. rewrite Hk1, Hcont.
    destruct (IH (undispatched k1) Henv (sched_ready_undispatched _ Hr1) Hnd) as (ps & k' & Hd & Hr' & Hsub & _ & Hall).
    rewrite Hd. eexists _, k'. split_and!; [reflexivity|done|now constructor|now intros ? ? [= <- <-]|].
    intros q [->|Hq]%elem_of_cons Hq'; [apply list_elem_of_here|].
    apply list_elem_of_further, Hall; [done|].
    change (p_state (ptable k1 !!! q) = RUNNABLE). apply Hkeep; [|done]. intros ->. done.
  - rewrite scheduler_skip by done. destruct (IH k Henv Hr Hnd) as (ps & k' & Hd & Hr' & Hsub & Hhd & Hall).
    exists ps, k'. split_and!; [done|done|now constructor|done|].
    intros q [->|Hq]%elem_of_cons Hq'; [done|now apply Hall].
Qed.

(** The state in which a round passes over the table: interrupts are on, the round
    is counted, and at every 600000000th the runnable processes of the low priority
    get the high one. *)
Definition bumped (k : kernel) : kernel :=
  let k1 := with_if FL_IF k in
  if s32 (prioritybump k + 1) <? 600000000 then set_prioritybump (s32 (prioritybump k + 1)) k1
  else set_prioritybump 0 (set_ptable (reset_priority <$> ptable k) k1).

(** The same, after what the round may have printed. *)
Definition starts (k kb : kernel) : Prop :=
  if s32 (prioritybump k + 1) <? 600000000 then kb = bumped k
  else exists log crt pos, kb = with_console log crt pos (bumped k).

Lemma reset_priority_state p : p_state (reset_priority p) = p_state p /\ p_pgdir (reset_priority p) = p_pgdir p.
Proof. unfold reset_priority. now destruct (_ && _). Qed.

Lemma reset_priority_lookup (ps : list proc) q :
  p_state ((reset_priority <$> ps) !!! q) = p_state (ps !!! q) /\
  p_pgdir ((reset_priority <$> ps) !!! q) = p_pgdir (ps !!! q).
Proof.
  rewrite !list_lookup_total_alt, list_lookup_fmap. destruct (ps !! q) as [p|]; cbn; [apply reset_priority_state|done].
Qed.

(** A CPU that holds no lock: [sti] and then [acquire]. *)
Lemma held_sti l k : cpu_ncli (k_cpu k) = 0 ->
  held l (set_k_cpu (set_cpu_eflags (Z.lor (cpu_eflags (k_cpu k)) FL_IF) (k_cpu k)) k) = held l (with_if FL_IF k).
Proof.
  intros Hn. unfold held, with_if, pushed, getlock. ksimpl. rewrite Hn. cbn [Z.eqb].
  assert (E : Z.lor (cpu_eflags (k_cpu k)) FL_IF = Z.lor (Z.ldiff (cpu_eflags (k_cpu k)) FL_IF) FL_IF).
  { bitwise n Hnn. rewrite !Z.lor_spec, Z.ldiff_spec. now destruct (Z.testbit _ _), (Z.testbit FL_IF n). }
  rewrite E. reflexivity.
Qed.

(** The state after [sti]. *)
Definition enabled (k : kernel) : kernel :=
  set_k_cpu (set_cpu_eflags (Z.lor (cpu_eflags (k_cpu k)) FL_IF) (k_cpu k)) k.

Lemma cprintf_enabled fmt args k :
  sched_ready k -> exists log crt pos k1, cprintf fmt args (enabled k) = Ok tt (with_console log crt pos k1) /\
    (k1 = enabled k \/ k1 = with_if FL_IF k) /\ screen_ok (with_console log crt pos k).
Proof.
  intros [[Hc Hn] Hl Hs Hcl _]. destruct (Z.eqb_spec (cons_locking k) 0) as [E|E].
  - destruct (cprintf_run fmt args (enabled k) Hs (or_introl E)) as (log & crt & pos & R & Hs'). eauto 10.
  - destruct Hcl as [|Hcl]; [done|].
    destruct (cprintf_run fmt args (with_if FL_IF k) Hs) as (log & crt & pos & R & Hs').
    { right. split; [exact Hcl|apply with_if_ok; [done|now right]]. }
    exists log, crt, pos, (with_if FL_IF k). split_and!; [|now right|done]. rewrite <- R. unfold cprintf, when. mred.
    change (cons_locking (enabled k)) with (cons_locking k). change (cons_locking (with_if FL_IF k)) with (cons_locking k).
    rewrite (proj2 (Z.eqb_neq _ _)) by done. cbn [negb].
    mok (acquire_free Lcons (enabled k) Hcl). mok (acquire_free Lcons (with_if FL_IF k) Hcl). unfold enabled. now rewrite held_sti.
Qed.

(** A round up to its pass over the table. *)
Lemma round_starts k : sched_ready k ->
  exists kb, starts k kb /\ sched_ready kb /\
    (forall q, p_state (ptable kb !!! q) = p_state (ptable k !!! q)) /\
    scheduler_round k = (scheduler_loop (seq 0 (Z.to_nat NPROC)) ;; release Lptable) (held Lptable kb).
Proof.
  intros Hr. pose proof Hr as [[Hc Hn] Hl Hs Hcl Hpg].
  assert (Hi : cpu_idle (with_if FL_IF k)) by (split; [apply with_if_ok; [done|now right]|done]).
  unfold scheduler_round, starts, bumped, sti, updcpu. mred. fold (enabled k).
  change (prioritybump (enabled k)) with (prioritybump k). set (pb := s32 (prioritybump k + 1)).
  rewrite (Z.leb_antisym pb). destruct (Z.ltb_spec pb 600000000) as [E|E]; cbn [negb].
  - exists (set_prioritybump pb (with_if FL_IF k)). split_and!; [done|by split|done|]. unfold when. mred.
    mok (acquire_free Lptable (set_prioritybump pb (enabled k)) Hl).
    f_equal. exact (held_sti Lptable (set_prioritybump pb k) Hn).
  - set (k1 := set_prioritybump pb k).
    destruct (cprintf_enabled "Priority Shift!
" [] k1) as (log & crt & pos & k2 & R & Hk2 & Hs2); [by split|].
    change (enabled k1) with (set_prioritybump pb (enabled k)) in R.
    set (pt := reset_priority <$> ptable k).
    set (kb := with_console log crt pos (set_prioritybump 0 (set_ptable pt (with_if FL_IF k)))).
    exists kb. split; [now exists log, crt, pos|].
    assert (Hq : forall q, p_state (ptable kb !!! q) = p_state (ptable k !!! q)) by (intros q; apply reset_priority_lookup).
    split_and!.
    + split; try done. intros q Hst. rewrite Hq in Hst.
      intros Hz. apply (Hpg q Hst). rewrite <- (proj2 (reset_priority_lookup (ptable k) q)). exact Hz.
    + done.
    + unfold when. cbn match. rewrite bind_assoc by (unfold returns; now rewrite R). mok R. rewrite bind_assoc by exact I. mred.
      assert (Ept : ptable (with_console log crt pos k2) = ptable k) by now destruct Hk2 as [->| ->].
      cbn [ptable set_prioritybump]. rewrite Ept. fold pt.
      assert (El : lock_free Lptable (set_ptable pt (set_prioritybump 0 (with_console log crt pos k2)))) by now destruct Hk2 as [->| ->].
      mok (acquire_free Lptable _ El). f_equal. destruct Hk2 as [->| ->]; [|reflexivity].
      exact (held_sti Lptable (with_console log crt pos (set_prioritybump 0 (set_ptable pt k1))) Hn).
Qed.

Lemma drive_scheduler env n : forall k, env_ok env -> sched_ready k ->
  exists rounds k', drive env (scheduler n k) = (concat rounds, Some k') /\ length rounds = n /\
    forall i ps, rounds !! i = Some ps -> sublist ps.*1 (seq 0 (Z.to_nat NPROC)) /\
      exists ki kb, drive env (scheduler i k) = (concat (take i rounds), Some ki) /\ starts ki kb /\
        (forall p s, head ps = Some (p, s) -> s = held Lptable (dispatched p kb)) /\
        (forall q, Z.of_nat q < NPROC -> p_state (ptable ki !!! q) = RUNNABLE -> q ∈ ps.*1).
Proof.
  induction n as [|n IH]; intros k Henv Hr.
  { exists [], k. split_and!; [done|done|]. intros i ps Hi. now rewrite lookup_nil in Hi. }
  destruct (round_starts k Hr) as (kb & Hst & Hrb & Hq & R).
  destruct (drive_round env (seq 0 (Z.to_nat NPROC)) kb Henv Hrb (NoDup_seq _ _)) as (ps & k1 & Hd & Hr1 & Hsub & Hhd & Hall).
  assert (D1 : drive env (scheduler_round k) = (ps, Some k1)).
  { rewrite R, <- (app_nil_r ps). unfold bind. apply (drive_bind _ _ _ _ _ _ _ Hd).
    now rewrite (release_held Lptable k1 (proj1 (sr_cpu _ Hr1)) (sr_lock _ Hr1)). }
  destruct (IH k1 Henv Hr1) as (rounds & k' & Hd' & Hlen & Hrounds).
  exists (ps :: rounds), k'. split_and!.
  - cbn [scheduler concat]. exact (drive_bind _ _ _ _ _ _ _ D1 Hd').
  - cbn. now rewrite Hlen.
  - intros [|i] qs Hi; cbn in Hi.
    + injection Hi as <-. split; [done|]. exists k, kb. split_and!; [done|done|done|].
      intros q Hlt Hs. apply Hall; [apply elem_of_seq; unfold NPROC in *; lia|now rewrite Hq].
    + destruct (Hrounds i qs Hi) as (Hs' & ki & kb' & Hdi & H). split; [done|]. exists ki, kb'. split; [|done].
      cbn [scheduler take concat]. exact (drive_bind _ _ _ _ _ _ _ D1 Hdi).
Qed.

(** ** No lost wakeups *)

(** The sleep/wakeup protocol on several CPUs, one access to shared data per
    step: a sleeper runs [acquire(lk); while(!cond) sleep(chan, lk); cond = 0;
    release(lk)], a waker runs [acquire(lk); cond = 1; wakeup(chan);
    release(lk)].  The two locks are taken and given back atomically, as
    Module [Smp] of the spin-lock file shows they are. *)
Module SleepWake.

Inductive pc : Type :=
| SAcqLk      (* sleeper: acquire(lk) *)
| STest       (* while(!cond) *)
| SAcqPt      (* sleep: acquire(&ptable.lock) *)
| SRelLk      (* sleep: release(lk) *)
| SSetChan    (* sleep: proc->chan = chan; proc->state = SLEEPING *)
| SSwtch      (* sleep: sched(), the scheduler releases ptable.lock *)
| SAsleep     (* off the CPU until made RUNNABLE and chosen *)
| STidy       (* sleep: proc->chan = 0, ptable.lock held again *)
| SRelPt      (* sleep: release(&ptable.lock) *)
| SReacq      (* sleep: acquire(lk) *)
| SUse        (* cond = 0 *)
| SRel        (* release(lk) *)
| WAcqLk      (* waker: acquire(lk) *)
| WSet        (* cond = 1 *)
| WAcqPt      (* wakeup: acquire(&ptable.lock) *)
| WWake       (* wakeup1(chan) *)
| WRelPt      (* wakeup: release(&ptable.lock) *)
| WRel        (* release(lk) *)
| Done.

Record state : Type := mkState {
  lk : option nat; pt : option nat; cond : bool;
  at_pc : nat -> pc; asleep : nat -> bool   (* state == SLEEPING on the channel *)
}.

Definition goto (s : state) (i : nat) (p : pc) : state :=
  mkState (lk s) (pt s) (cond s) (<[i := p]> (at_pc s)) (asleep s).

Definition take_lk (s : state) (i : nat) (p : pc) : state :=
  match lk s with
  | None => mkState (Some i) (pt s) (cond s) (<[i := p]> (at_pc s)) (asleep s)
  | Some _ => s
  end.
Definition take_pt (s : state) (i : nat) (p : pc) : state :=
  match pt s with
  | None => mkState (lk s) (Some i) (cond s) (<[i := p]> (at_pc s)) (asleep s)
  | Some _ => s
  end.
Definition drop_lk (s : state) : state := mkState None (pt s) (cond s) (at_pc s) (asleep s).
Definition drop_pt (s : state) : state := mkState (lk s) None (cond s) (at_pc s) (asleep s).
Definition set_cond (s : state) (b : bool) : state :=
  mkState (lk s) (pt s) b (at_pc s) (asleep s).
Definition set_asleep (s : state) (f : nat -> bool) : state :=
  mkState (lk s) (pt s) (cond s) (at_pc s) f.

(** Thread [i] executes its next step. *)
Definition exec (i : nat) (s : state) : state :=
  match at_pc s i with
  | SAcqLk => take_lk s i STest
  | STest => goto s i (if cond s then SUse else SAcqPt)
  | SAcqPt => take_pt s i SRelLk
  | SRelLk => goto (drop_lk s) i SSetChan
  | SSetChan => goto (set_asleep s (<[i := true]> (asleep s))) i SSwtch
  | SSwtch => goto (drop_pt s) i SAsleep
  | SAsleep => if asleep s i then s else take_pt s i STidy
  | STidy => goto s i SRelPt
  | SRelPt => goto (drop_pt s) i SReacq
  | SReacq => take_lk s i STest
  | SUse => goto (set_cond s false) i SRel
  | SRel => goto (drop_lk s) i Done
  | WAcqLk => take_lk s i WSet
  | WSet => goto (set_cond s true) i WAcqPt
  | WAcqPt => take_pt s i WWake
  | WWake => goto (set_asleep s (fun _ => false)) i WRelPt
  | WRelPt => goto (drop_pt s) i WRel
  | WRel => goto (drop_lk s) i Done
  | Done => s
  end.

(** Any number of sleepers and wakers. *)
Inductive reachable : state -> Prop :=
| reach_init start :
    (forall i, start i = SAcqLk \/ start i = WAcqLk \/ start i = Done) ->
    reachable (mkState None None false start (fun _ => false))
| reach_step s i : reachable s -> reachable (exec i s).

Definition has_lk (p : pc) : bool :=
  match p with
  | STest | SAcqPt | SRelLk | SUse | SRel | WSet | WAcqPt | WWake | WRelPt | WRel => true
  | _ => false
  end.
Definition has_pt (p : pc) : bool :=
  match p with SRelLk | SSetChan | SSwtch | STidy | SRelPt | WWake | WRelPt => true | _ => false end.

(** The waker has set the condition and not yet woken the sleepers. *)
Definition about_to_wake (p : pc) : bool :=
  match p with WAcqPt | WWake => true | _ => false end.

Definition may_sleep (p : pc) : bool := match p with SSwtch | SAsleep => true | _ => false end.

Record inv (s : state) : Prop := {
  inv_lk : forall i, has_lk (at_pc s i) = true <-> lk s = Some i;
  inv_pt : forall i, has_pt (at_pc s i) = true <-> pt s = Some i;
  inv_tested : forall i, at_pc s i = SAcqPt \/ at_pc s i = SRelLk -> cond s = false;
  inv_asleep : forall i, asleep s i = true -> may_sleep (at_pc s i) = true;
  inv_wake : forall i, asleep s i = true \/ at_pc s i = SSetChan -> cond s = true ->
    exists j, about_to_wake (at_pc s j) = true
}.

Ltac at_thread i j :=
  destruct (decide (i = j)) as [<-|];
  [rewrite ?fn_lookup_insert in * | rewrite ?fn_lookup_insert_ne in * by done].

(** A thread moves on without touching locks, the condition or the sleepers. *)
Lemma sw_inv_goto s i p :
  inv s -> has_lk p = has_lk (at_pc s i) -> has_pt p = has_pt (at_pc s i) ->
  (p = SAcqPt \/ p = SRelLk -> cond s = false) ->
  (asleep s i = true -> may_sleep p = true) ->
  (p = SSetChan -> at_pc s i = SSetChan) ->
  (about_to_wake (at_pc s i) = true -> about_to_wake p = true) ->
  inv (goto s i p).
Proof.
  intros [H1 H2 H3 H4 H5] Hl Hp Ht Hs Hc Ha. split; cbn.
  - intros j. at_thread i j; [rewrite Hl|]; apply H1.
  - intros j. at_thread i j; [rewrite Hp|]; apply H2.
  - intros j. at_thread i j; [done|apply H3].
  - intros j. at_thread i j; [done|apply H4].
  - intros j Hj Hcond.
    assert (Hold : asleep s j = true \/ at_pc s j = SSetChan) by (at_thread i j; tauto).
    destruct (H5 j Hold Hcond) as [j' Hj']. exists j'. at_thread i j'; auto.
Qed.

Lemma lk_owner s i j : inv s -> has_lk (at_pc s i) = true -> has_lk (at_pc s j) = true -> i = j.
Proof. intros [H _ _ _ _] Hi Hj. apply H in Hi, Hj. congruence. Qed.

Lemma pt_owner s i j : inv s -> has_pt (at_pc s i) = true -> has_pt (at_pc s j) = true -> i = j.
Proof. intros [_ H _ _ _] Hi Hj. apply H in Hi, Hj. congruence. Qed.

(** Taking and releasing the two locks. *)
Lemma inv_take_lk s i p :
  inv s -> has_lk (at_pc s i) = false -> has_lk p = true -> has_pt p = has_pt (at_pc s i) ->
  p <> SAcqPt -> p <> SRelLk -> asleep s i = false -> p <> SSetChan ->
  about_to_wake (at_pc s i) = false -> inv (take_lk s i p).
Proof.
  intros Hinv Hn Hy Hp H1 H2 Hs Hc Ha. unfold take_lk. destruct (lk s) eqn:El; [done|].
  pose proof Hinv as [I1 I2 I3 I4 I5]. split; cbn.
  - intros j. at_thread i j; [split; congruence|]. rewrite (I1 j), El. split; congruence.
  - intros j. at_thread i j; [rewrite Hp|]; apply I2.
  - intros j. at_thread i j; [intros []; congruence|apply I3].
  - intros j. at_thread i j; [congruence|apply I4].
  - intros j Hj Hcond.
    assert (Hold : asleep s j = true \/ at_pc s j = SSetChan) by (at_thread i j; [destruct Hj; congruence|tauto]).
    destruct (I5 j Hold Hcond) as [j' Hj']. exists j'. at_thread i j'; congruence.
Qed.

Lemma inv_take_pt s i p :
  inv s -> has_pt (at_pc s i) = false -> has_pt p = true -> has_lk p = has_lk (at_pc s i) ->
  (p = SRelLk -> at_pc s i = SAcqPt) -> p <> SAcqPt -> asleep s i = false -> p <> SSetChan ->
  about_to_wake p = about_to_wake (at_pc s i) -> inv (take_pt s i p).
Proof.
  intros Hinv Hn Hy Hl H1 H2 Hs Hc Ha. unfold take_pt. destruct (pt s) eqn:El; [done|].
  pose proof Hinv as [I1 I2 I3 I4 I5]. split; cbn.
  - intros j. at_thread i j; [rewrite Hl|]; apply I1.
  - intros j. at_thread i j; [split; congruence|]. rewrite (I2 j), El. split; congruence.
  - intros j. at_thread i j; [intros [|E]; [congruence|]; apply (I3 i); auto|apply I3].
  - intros j. at_thread i j; [congruence|apply I4].
  - intros j Hj Hcond.
    assert (Hold : asleep s j = true \/ at_pc s j = SSetChan) by (at_thread i j; [destruct Hj; congruence|tauto]).
    destruct (I5 j Hold Hcond) as [j' Hj']. exists j'. at_thread i j'; congruence.
Qed.

Lemma inv_drop_lk s i p :
  inv s -> has_lk (at_pc s i) = true -> has_lk p = false -> has_pt p = has_pt (at_pc s i) ->
  (p = SSetChan -> cond s = false) -> p <> SAcqPt -> p <> SRelLk -> asleep s i = false ->
  about_to_wake (at_pc s i) = false -> inv (goto (drop_lk s) i p).
Proof.
  intros Hinv Hy Hn Hp Hc H1 H2 Hs Ha. pose proof Hinv as [I1 I2 I3 I4 I5].
  pose proof (proj1 (I1 i) Hy) as El. split; cbn.
  - intros j. at_thread i j; [split; congruence|]. rewrite (I1 j), El. split; congruence.
  - intros j. at_thread i j; [rewrite Hp|]; apply I2.
  - intros j. at_thread i j; [intros []; congruence|apply I3].
  - intros j. at_thread i j; [congruence|apply I4].
  - intros j Hj Hcond.
    assert (Hold : asleep s j = true \/ at_pc s j = SSetChan)
      by (at_thread i j; [destruct Hj as [|Hj]; [congruence|specialize (Hc Hj); congruence]|tauto]).
    destruct (I5 j Hold Hcond) as [j' Hj']. exists j'. at_thread i j'; congruence.
Qed.

Lemma inv_drop_pt s i p :
  inv s -> has_pt (at_pc s i) = true -> has_pt p = false -> has_lk p = has_lk (at_pc s i) ->
  p <> SAcqPt -> p <> SRelLk -> p <> SSetChan -> (asleep s i = true -> may_sleep p = true) ->
  about_to_wake (at_pc s i) = false -> inv (goto (drop_pt s) i p).
Proof.
  intros Hinv Hy Hn Hl H1 H2 Hc Hs Ha. pose proof Hinv as [I1 I2 I3 I4 I5].
  pose proof (proj1 (I2 i) Hy) as El. split; cbn.
  - intros j. at_thread i j; [rewrite Hl|]; apply I1.
  - intros j. at_thread i j; [split; congruence|]. rewrite (I2 j), El. split; congruence.
  - intros j. at_thread i j; [intros []; congruence|apply I3].
  - intros j. at_thread i j; [done|apply I4].
  - intros j Hj Hcond.
    assert (Hold : asleep s j = true \/ at_pc s j = SSetChan) by (at_thread i j; [destruct Hj; [tauto|congruence]|tauto]).
    destruct (I5 j Hold Hcond) as [j' Hj']. exists j'. at_thread i j'; congruence.
Qed.

(** The holder of lk changes the condition. *)
Lemma inv_set_cond s i b p :
  inv s -> has_lk (at_pc s i) = true -> at_pc s i <> SAcqPt -> at_pc s i <> SRelLk ->
  has_lk p = true -> has_pt p = has_pt (at_pc s i) -> p <> SAcqPt -> p <> SRelLk ->
  asleep s i = false -> (b = true -> about_to_wake p = true) -> inv (goto (set_cond s b) i p).
Proof.
  intros Hinv Hy H1 H2 Hl Hp H3 H4 Hs Hb. pose proof Hinv as [I1 I2 I3 I4 I5]. split; cbn.
  - intros j. at_thread i j; [rewrite Hl, <- I1, Hy; done|apply I1].
  - intros j. at_thread i j; [rewrite Hp|]; apply I2.
  - intros j Hj. exfalso. at_thread i j; [destruct Hj; congruence|].
    assert (has_lk (at_pc s j) = true) by (destruct Hj as [-> | ->]; done).
    now apply (lk_owner s i j Hinv) in Hy.
  - intros j. at_thread i j; [congruence|apply I4].
  - intros j _ Hcond. exists i. rewrite fn_lookup_insert. auto.
Qed.

Ltac solve_side E Hns :=
  rewrite ?E; auto; try done; try (intros []; discriminate);
  try (intros Hx; rewrite (Hns eq_refl) in Hx; discriminate).

Lemma inv_exec s i : inv s -> inv (exec i s).
Proof.
  intros Hinv. pose proof Hinv as [I1 I2 I3 I4 I5]. unfold exec.
  pose proof (I4 i) as Hsl.
  assert (Hns : may_sleep (at_pc s i) = false -> asleep s i = false).
  { intros Hm. destruct (asleep s i); [|done]. rewrite Hsl in Hm; congruence. }
  destruct (at_pc s i) eqn:E; cbn in Hns.
  - apply inv_take_lk; solve_side E Hns.
  - destruct (cond s) eqn:Ec; apply sw_inv_goto; solve_side E Hns.
  - apply inv_take_pt; solve_side E Hns.
  - apply inv_drop_lk; solve_side E Hns. intros _. apply (I3 i). auto.
  - (* the process goes to sleep *)
    split; cbn.
    + intros j. at_thread i j; [rewrite <- I1, E; done|apply I1].
    + intros j. at_thread i j; [rewrite <- I2, E; done|apply I2].
    + intros j. at_thread i j; [intros []; congruence|apply I3].
    + intros j. at_thread i j; [done|apply I4].
    + intros j Hj Hcond.
      assert (Hold : asleep s j = true \/ at_pc s j = SSetChan) by (at_thread i j; tauto).
      destruct (I5 j Hold Hcond) as [j' Hj']. exists j'. at_thread i j'; [|done].
      rewrite E in Hj'. done.
  - apply inv_drop_pt; solve_side E Hns.
  - destruct (asleep s i) eqn:Ea; [done|]. apply inv_take_pt; solve_side E Hns.
  - apply sw_inv_goto; solve_side E Hns.
  - apply inv_drop_pt; solve_side E Hns.
  - apply inv_take_lk; solve_side E Hns.
  - apply inv_set_cond; solve_side E Hns.
  - apply inv_drop_lk; solve_side E Hns.
  - apply inv_take_lk; solve_side E Hns.
  - apply inv_set_cond; solve_side E Hns.
  - apply inv_take_pt; solve_side E Hns.
  - (* every sleeper is woken *)
    split; cbn.
    + intros j. at_thread i j; [rewrite <- I1, E; done|apply I1].
    + intros j. at_thread i j; [rewrite <- I2, E; done|apply I2].
    + intros j. at_thread i j; [intros []; congruence|apply I3].
    + done.
    + intros j [|Hj] Hcond; [done|]. exfalso. at_thread i j; [congruence|].
      assert (Hi : has_pt (at_pc s i) = true) by now rewrite E.
      apply (pt_owner s i j Hinv) in Hi; [done|]. now rewrite Hj.
  - apply inv_drop_pt; solve_side E Hns.
  - apply inv_drop_lk; solve_side E Hns.
  - done.
Qed.

Lemma sw_reachable_inv s : reachable s -> inv s.
Proof.
  induction 1 as [start Hs|s i _ IH]; [|now apply inv_exec].
  split; cbn.
  - intros i. destruct (Hs i) as [->|[->| ->]]; done.
  - intros i. destruct (Hs i) as [->|[->| ->]]; done.
  - intros i [H|H]; destruct (Hs i) as [H'|[H'|H']]; congruence.
  - done.
  - done.
Qed.

(** C6. No wakeup is lost: on any number of CPUs, whenever the condition holds
    while some process is asleep on the channel, a waker that set the condition
    is still on its way to wakeup1; so once every waker is through its wakeup,
    no process sleeps while the condition holds. *)
Theorem no_lost_wakeup : forall s i,
  reachable s -> asleep s i = true -> cond s = true ->
  exists j, at_pc s j = WAcqPt \/ at_pc s j = WWake.
Proof.
  intros s i Hr Ha Hc. destruct (inv_wake s (sw_reachable_inv s Hr) i (or_introl Ha) Hc) as [j Hj].
  exists j. destruct (at_pc s j); cbn in Hj; try discriminate; auto.
Qed.

(** Thread 0 sleeps, thread 1 sets the condition. *)
Definition example : state :=
  fold_left (fun s i => exec i s) [0; 0; 0; 0; 0; 0; 1; 1]%nat
    (mkState None None false
       (fun i => match i with 0%nat => SAcqLk | 1%nat => WAcqLk | _ => Done end) (fun _ => false)).

Lemma no_lost_wakeup_witness :
  asleep example 0 = true /\ cond example = true /\
  exists j, at_pc example j = WAcqPt \/ at_pc example j = WWake.
Proof.
  split; [reflexivity|]. split; [reflexivity|]. apply (no_lost_wakeup example 0).
  - unfold example. cbn [fold_left]. repeat apply reach_step. apply reach_init.
    intros [|[|i]]; auto.
  - reflexivity.
  - reflexivity.
Defined.
End SleepWake.

(** ** Properties *)

Lemma sleep_ptable_spec ch k p :
  cpu_idle k -> lock_free Lptable k -> cpu_proc (k_cpu k) = Some p -> (p < length (ptable k))%nat ->
  exists cont,
    sleep ch Lptable (held Lptable k) = Blocked WSwtch (held Lptable (sleeping p ch k)) cont /\
    forall k3, cpu_idle k3 -> cpu_proc (k_cpu k3) = Some p ->
      cont (held Lptable k3) = Ok tt (held Lptable (with_if (intr_flag k) (awake p k3))).
Proof.
  intros [Hc Hn] Hpt Hp Hpl. unfold sleep. mred.
  change (cpu_proc (k_cpu (held Lptable k))) with (cpu_proc (k_cpu k)). rewrite Hp.
  rewrite bool_decide_true by done. cbn [negb]. unfold when. mred. unfold updproc. mred.
  set (k1 := sleeping p ch k).
  change (set_ptable _ (set_ptable _ (held Lptable k))) with (held Lptable k1).
  destruct (sched_spec k1 p) as (cont & Hrun & Hcont); [done|done|done| |].
  { unfold k1, sleeping, put_proc. ksimpl.
    rewrite lookup_alter_state by now rewrite length_alter. ksimpl. done. }
  rewrite (bind_blocked _ _ _ _ _ _ Hrun). eexists. split; [reflexivity|].
  intros k3 [Hc3 Hn3] Hp3. rewrite (Hcont k3 Hn3). cbn [obind].
  unfold curproc. mred.
  change (cpu_proc (k_cpu (held Lptable (with_if (intr_flag k1) k3)))) with (cpu_proc (k_cpu k3)).
  rewrite Hp3. cbn [default]. reflexivity.
Qed.

(** C33. sleep: called with lk (or ptable.lock) as the only lock held, it never
    trips a check of sched; it switches away with ptable.lock as the only lock
    held, interrupts off, lk free for others, and the process marked SLEEPING on
    the channel; and when the scheduler resumes it, in whatever state the kernel
    then is, it clears the channel and returns holding exactly lk again, with
    the interrupt state the caller had.  Without a current process it panics. *)
Theorem sleep_correct : forall ch lk k p,
  cpu_idle k -> lock_free Lptable k -> lock_free lk k ->
  cpu_proc (k_cpu k) = Some p -> (p < length (ptable k))%nat ->
  (exists cont,
    sleep ch lk (held lk k) = Blocked WSwtch (held Lptable (sleeping p ch k)) cont /\
    forall k3, cpu_idle k3 -> lock_free Lptable k3 -> lock_free lk k3 ->
      cpu_proc (k_cpu k3) = Some p ->
      cont (held Lptable k3) = Ok tt (held lk (with_if (intr_flag k) (awake p k3)))) /\
  (forall k0, cpu_proc (k_cpu k0) = None -> sleep ch lk k0 = Panic "sleep").
Proof.
  intros ch lk k p Hi Hpt Hlk Hp Hpl. split.
  - destruct (decide (lk = Lptable)) as [->|Hne].
    + destruct (sleep_ptable_spec ch k p Hi Hpt Hp Hpl) as (cont & H1 & H2).
      exists cont. split; [exact H1|]. intros k3 H3 _ _ H4. now apply H2.
    + now apply sleep_spec.
  - intros k0 H0. unfold sleep. mred. now rewrite H0.
Qed.

(** Process 3 runs on the CPU, interrupts on. *)
Definition kernel_p3 : kernel :=
  set_k_cpu (mkCpu 0 0 FL_IF FL_IF 0 0 0 0 0 0 (replicate 7 segdesc0) (Some 3%nat)) kernel0.

Lemma kernel_p3_idle : cpu_idle kernel_p3.
Proof. split; [|reflexivity]. split_and!; [reflexivity|reflexivity|cbn; lia]. Qed.

Lemma sleep_correct_witness :
  exists cont, sleep CTicks Ltickslock (held Ltickslock kernel_p3)
    = Blocked WSwtch (held Lptable (sleeping 3 CTicks kernel_p3)) cont.
Proof.
  destruct (sleep_correct CTicks Ltickslock kernel_p3 3) as [(cont & H & _) _].
  - exact kernel_p3_idle.
  - exists "ptable". reflexivity.
  - exists "time". reflexivity.
  - reflexivity.
  - vm_compute. repeat constructor.
  - exists cont. exact H.
Defined.

(** C34. wakeup and kill: wakeup makes RUNNABLE exactly the processes that are
    SLEEPING on the channel; kill marks exactly the first process with the pid,
    makes it RUNNABLE if it was asleep, and returns 0, or returns -1 and changes
    nothing when there is none.  Everything else, the locks and the interrupt
    state included, is as before. *)
Theorem wakeup_kill_correct : forall k,
  cpu_ok (k_cpu k) -> lock_free Lptable k ->
  (forall ch, exists ps, wakeup ch k = Ok tt (set_ptable ps k) /\
     length ps = length (ptable k) /\
     forall i p, ptable k !! i = Some p ->
       ps !! i = Some (if decide (p_state p = SLEEPING /\ p_chan p = ch)
                       then set_p_state RUNNABLE p else p)) /\
  (forall pid,
     (exists i p, ptable k !! i = Some p /\ p_pid p = pid /\
        (forall j q, (j < i)%nat -> ptable k !! j = Some q -> p_pid q <> pid) /\
        kill pid k = Ok 0 (set_ptable (<[i := killed_proc p]> (ptable k)) k)) \/
     ((forall p, p ∈ ptable k -> p_pid p <> pid) /\ kill pid k = Ok (-1) k)).
Proof.
  intros k Hc Hl. split.
  - intros ch. exists (wakeup1_proc ch <$> ptable k). split_and!.
    + now apply wakeup_run.
    + apply length_fmap.
    + intros i p Hp. rewrite list_lookup_fmap, Hp. cbn. f_equal. unfold wakeup1_proc.
      repeat case_bool_decide; case_decide; tauto.
  - intros pid. rewrite kill_run by done.
    destruct (list_find (fun p => p_pid p = pid) (ptable k)) as [[i p]|] eqn:E.
    + apply list_find_Some in E as (Hi & Hp & Hmin). left. exists i, p.
      split_and!; [done|done|intros j q Hj Hq; eapply Hmin; eauto|].
      unfold put_proc. do 2 f_equal. apply list_eq. intros j. destruct (decide (j = i)) as [->|Hne].
      * rewrite list_lookup_alter_eq, Hi. rewrite list_lookup_insert_eq; [done|]. now apply lookup_lt_Some in Hi.
      * now rewrite list_lookup_alter_ne, list_lookup_insert_ne.
    + apply list_find_None in E. right. split; [|done]. rewrite Forall_forall in E. exact E.
Qed.

Lemma wakeup_kill_correct_witness :
  exists ps, wakeup CLog kernel0 = Ok tt (set_ptable ps kernel0) /\ length ps = 64%nat.
Proof.
  destruct (wakeup_kill_correct kernel0) as [H _].
  - split_and!; [reflexivity|reflexivity|cbn; lia].
  - exists "ptable". reflexivity.
  - destruct (H CLog) as (ps & H1 & H2 & _). exists ps. split; [exact H1|exact H2].
Defined.


(** Processes that run their turn and go to sleep. *)
Definition env_sleep (p : nat) (k : kernel) : kernel := put_proc p (set_p_state SLEEPING) k.

Lemma env_sleep_ok : env_ok env_sleep.
Proof.
  intros p k [[Hc Hn] Hl Hs Hcl Hr]. exists (put_proc p (set_p_state SLEEPING) (dispatched p k)).
  split; [reflexivity|].
  assert (Hne : forall q, q <> p ->
    ptable (put_proc p (set_p_state SLEEPING) (dispatched p k)) !!! q = ptable k !!! q).
  { intros q Hq. unfold dispatched, put_proc. ksimpl. rewrite !list_lookup_total_alter_ne by done. done. }
  split; [split; [split|..]; try done|].
  - intros q. destruct (decide (q = p)) as [->|Hq].
    + destruct (decide (p < length (ptable k))%nat) as [Hlt|Hge].
      * unfold dispatched, put_proc. ksimpl.
        rewrite lookup_alter_state by now rewrite length_alter. ksimpl. done.
      * intros Hst. exfalso. revert Hst. unfold dispatched, put_proc. ksimpl.
        rewrite list_lookup_total_alt, lookup_ge_None_2; [done|]. rewrite !length_alter. lia.
    + rewrite Hne by done. apply Hr.
  - intros q Hq. now rewrite Hne.
Qed.

(** Slots 1 and 2 are runnable, and the next round resets the priorities. *)
Definition kernel_two : kernel :=
  set_prioritybump 599999999 (put_proc 1 (set_p_pgdir 0x80400000) (put_proc 1 (set_p_state RUNNABLE)
    (put_proc 2 (set_p_pgdir 0x80401000) (put_proc 2 (set_p_state RUNNABLE) kernel0)))).

Lemma kernel_two_ready : sched_ready kernel_two.
Proof.
  split.
  - split; [split_and!; [reflexivity|reflexivity|cbn; lia]|reflexivity].
  - now exists "ptable"%string.
  - split; vm_compute; split; congruence.
  - right. now exists "console"%string.
  - intros p. destruct p as [|[|[|p]]]; try (vm_compute; congruence).
    intros Hs. exfalso. revert Hs.
    destruct (decide (p < 61)%nat) as [Hlt|Hge].
    + assert (E : ptable kernel_two !!! (3 + p)%nat = proc0).
      { unfold kernel_two, put_proc. ksimpl. rewrite !list_lookup_total_alter_ne by lia.
        apply list_lookup_total_correct. apply lookup_replicate_2. lia. }
      change (S (S (S p))) with (3 + p)%nat. rewrite E. done.
    + rewrite list_lookup_total_alt, lookup_ge_None_2; [done|].
      unfold kernel_two, put_proc. ksimpl. rewrite !length_alter. cbn. lia.
Qed.

