(* ===== verification/Resume.v ===== *)
(** * Calls that give up the CPU

    A blocking call is a loop that sleeps until a condition on shared state
    holds.  This file says what is known when such a call returns, whatever the
    rest of the kernel did while it slept. *)

From S2P Require Import Prelude State Spinlock Vm Sched.

(** Every way the call can return satisfies [Q], if each time it gave up the CPU
    it goes on from a state in [E].  The only other way it ends is that the
    model's bound on the number of sleeps is reached. *)
Fixpoint on_return {A} (E : kernel -> Prop) (Q : A -> kernel -> Prop) (o : outcome waiting kernel A) : Prop :=
  match o with
  | Ok a k => Q a k
  | Panic msg => msg = "model: loop bound exceeded"%string
  | Blocked _ _ cont => forall k, E k -> on_return E Q (cont k)
  end.

Lemma on_return_bind {A B} E (Q : A -> kernel -> Prop) (Q' : B -> kernel -> Prop) (o : outcome waiting kernel A) f :
  on_return E Q o -> (forall a k, Q a k -> on_return E Q' (f a k)) -> on_return E Q' (obind o f).
Proof.
  intros H Hf. induction o as [a k|msg|w k cont IH]; cbn in *; [auto|done|].
  intros k' Hk'. apply IH; auto.
Qed.

Lemma on_return_mono {A} E (Q Q' : A -> kernel -> Prop) (o : outcome waiting kernel A) :
  on_return E Q o -> (forall a k, Q a k -> Q' a k) -> on_return E Q' o.
Proof. induction o as [a k|msg|w k cont IH]; cbn in *; auto. Qed.

(** Process [p] runs on the CPU with no lock held; [lk] and the process table's
    lock are free. *)
Record running (lk : lockid) (p : nat) (k : kernel) : Prop := {
  run_idle : cpu_idle k;
  run_pt : lock_free Lptable k;
  run_lk : lock_free lk k;
  run_p : cpu_proc (k_cpu k) = Some p;
  run_len : (p < length (ptable k))%nat
}.

(** A state in which the scheduler resumes process [p]. *)
Definition resumed (lk : lockid) (p : nat) (k : kernel) : Prop := exists k0, k = held Lptable k0 /\ running lk p k0.

Lemma running_awake lk p f k :
  running lk p k -> f = 0 \/ f = FL_IF -> running lk p (with_if f (awake p k)).
Proof.
  intros [[Hc Hn] H2 H3 H4 H5] Hf. split; [split|..]; try done.
  - now apply (with_if_ok f (awake p k)).
  - unfold awake, put_proc. cbn. now rewrite length_alter.
Qed.

(** [sleep] on a condition guarded by [lk]: it returns holding [lk] again. *)
Lemma sleep_returns ch lk p k (Q : unit -> kernel -> Prop) :
  lk <> Lptable -> running lk p k ->
  (forall k', running lk p k' -> Q tt (held lk k')) ->
  on_return (resumed lk p) Q (sleep ch lk (held lk k)).
Proof.
  intros Hne [H1 H2 H3 H4 H5] HQ.
  destruct (sleep_spec ch lk k p) as (cont & R & Hc); try done.
  rewrite R. cbn. intros k' (k0 & -> & Hr). pose proof Hr as [G1 G2 G3 G4 G5].
  rewrite (Hc k0 G1 G2 G3 G4). cbn. apply HQ, running_awake; [done|apply intr_flag_cases].
Qed.

(** A loop that sleeps while [wait] says so and then runs [act]. *)
Lemma sleep_loop_returns {A} ch lk p (loop : nat -> K A) (wait : kernel -> bool) (act : K A) (Q : A -> kernel -> Prop) :
  lk <> Lptable ->
  (forall fuel k, running lk p k -> wait k = true -> loop fuel (held lk k) =
     match fuel with O => out_of_fuel (held lk k) | S fuel' => (sleep ch lk ;; loop fuel') (held lk k) end) ->
  (forall fuel k, running lk p k -> wait k = false -> loop fuel (held lk k) = act (held lk k)) ->
  (forall k, running lk p k -> wait k = false -> on_return (resumed lk p) Q (act (held lk k))) ->
  forall fuel k, running lk p k -> on_return (resumed lk p) Q (loop fuel (held lk k)).
Proof.
  intros Hne Hw Ha HQ fuel. induction fuel as [|fuel IH]; intros k Hr; destruct (wait k) eqn:E.
  - rewrite Hw by done. reflexivity.
  - rewrite Ha by done. auto.
  - rewrite Hw by done. unfold bind. apply (on_return_bind _ (fun _ k' => exists k0, k' = held lk k0 /\ running lk p k0)).
    + apply sleep_returns; [done|done|]. intros k' Hk'. now exists k'.
    + intros _ k' (k0 & -> & Hk0). auto.
  - rewrite Ha by done. auto.
Qed.
