(* ===== verification/Ring.v ===== *)
(** * Circular doubly linked lists

    The links of an array whose elements have next and previous indices, as two
    functions, and the two list operations the buffer cache does with them:
    unlinking an element and inserting one after the head. *)

From stdpp Require Import functions.
From S2P Require Import Prelude.

(** Following [N] from [x] visits [l] and arrives at [y]; [P] goes back. *)
Fixpoint chain (N P : nat -> nat) (x : nat) (l : list nat) (y : nat) : Prop :=
  match l with
  | [] => N x = y /\ P y = x
  | z :: l' => (N x = z /\ P z = x) /\ chain N P z l' y
  end.

Definition ring (N P : nat -> nat) (h : nat) (l : list nat) : Prop :=
  chain N P h l h /\ NoDup (h :: l).

Lemma chain_ext N P N' P' l : forall x y,
  chain N P x l y -> (forall z, z ∈ x :: l -> N' z = N z) -> (forall z, z ∈ l ++ [y] -> P' z = P z) ->
  chain N' P' x l y.
Proof.
  induction l as [|z l IH]; intros x y; cbn [chain].
  - intros [H1 H2] HN HP. rewrite HN, HP by set_solver. done.
  - intros [[H1 H2] Hc] HN HP. rewrite HN, HP by set_solver. split; [done|].
    apply IH; [done| |]; intros w Hw; [apply HN|apply HP]; set_solver.
Qed.

Lemma chain_app N P l1 z l2 : forall x y,
  chain N P x (l1 ++ z :: l2) y <-> chain N P x l1 z /\ chain N P z l2 y.
Proof.
  induction l1 as [|w l1 IH]; intros x y; cbn [chain app]; [done|]. rewrite IH. tauto.
Qed.

(** The neighbours of an element. *)
Lemma chain_mid N P b l2 y : forall l1 x,
  chain N P x (l1 ++ b :: l2) y -> P b ∈ x :: l1 /\ N b ∈ l2 ++ [y].
Proof.
  induction l1 as [|z l1 IH]; intros x; cbn [chain app].
  - intros [[_ ->] Hc]. split; [set_solver|]. destruct l2; cbn in Hc; [destruct Hc as [-> _]|
      destruct Hc as [[-> _] _]]; set_solver.
  - intros [_ Hc]. apply IH in Hc as [H1 H2]. set_solver.
Qed.

Lemma chain_unlink N P b l2 y l1 : forall x,
  chain N P x (l1 ++ b :: l2) y -> NoDup (x :: l1 ++ b :: l2) -> y ∉ l1 ++ b :: l2 ->
  chain (<[P b := N b]> N) (<[N b := P b]> P) x (l1 ++ l2) y.
Proof.
  induction l1 as [|z l1 IH]; intros x; cbn [chain app].
  - intros [[H1 H2] Hc] Hnd Hy. rewrite H2.
    apply NoDup_cons in Hnd as [Hx Hnd]. apply NoDup_cons in Hnd as [Hb Hnd].
    destruct l2 as [|z l2]; cbn [chain] in Hc |- *.
    + destruct Hc as [Hc _]. rewrite Hc, !fn_lookup_insert. done.
    + destruct Hc as [[Hc _] Hc']. rewrite Hc, !fn_lookup_insert. split; [done|].
      apply (chain_ext N P); [done| |].
      * intros w Hw. rewrite fn_lookup_insert_ne; [done|]. intros ->. set_solver.
      * intros w Hw. rewrite fn_lookup_insert_ne; [done|]. intros ->.
        apply NoDup_cons in Hnd as [Hz _]. set_solver.
  - intros [[H1 H2] Hc] Hnd Hy. pose proof (chain_mid _ _ _ _ _ _ _ Hc) as [Hm1 Hm2].
    apply NoDup_cons in Hnd as [Hx Hnd]. split.
    + rewrite !fn_lookup_insert_ne; [done| |].
      * intros E. apply NoDup_cons in Hnd as [Hz _]. rewrite E in Hm2. set_solver.
      * intros E. rewrite E in Hm1. set_solver.
    + apply IH; [done|done|set_solver].
Qed.

(** Unlinking [b]. *)
Lemma ring_unlink N P h l1 b l2 :
  ring N P h (l1 ++ b :: l2) -> ring (<[P b := N b]> N) (<[N b := P b]> P) h (l1 ++ l2).
Proof.
  intros [Hc Hnd]. split.
  - apply chain_unlink; [done|done|]. now apply NoDup_cons in Hnd as [? _].
  - apply NoDup_cons in Hnd as [Hh Hnd]. rewrite <- Permutation_middle in Hnd, Hh.
    apply NoDup_cons in Hnd as [_ Hnd]. constructor; [|done]. set_solver.
Qed.

(** Inserting [b] after the head. *)
Lemma ring_push N P h l b :
  ring N P h l -> b ∉ h :: l ->
  ring (<[h := b]> (<[b := N h]> N)) (<[N h := b]> (<[b := h]> P)) h (b :: l).
Proof.
  intros [Hc Hnd] Hb. apply not_elem_of_cons in Hb as [Hbh Hb].
  apply NoDup_cons in Hnd as [Hh Hnd]. split.
  2:{ constructor; [set_solver|]. now constructor. }
  cbn [chain]. rewrite fn_lookup_insert.
  assert (HNh : N h <> b).
  { destruct l as [|z l]; cbn [chain] in Hc; [destruct Hc as [-> _]; congruence|].
    destruct Hc as [[-> _] _]. set_solver. }
  rewrite fn_lookup_insert_ne, fn_lookup_insert by done. split; [done|].
  destruct l as [|z l]; cbn [chain] in Hc |- *.
  - destruct Hc as [-> _]. rewrite fn_lookup_insert_ne, !fn_lookup_insert by congruence. done.
  - destruct Hc as [[-> _] Hc]. rewrite fn_lookup_insert_ne, !fn_lookup_insert by congruence.
    split; [done|]. apply NoDup_cons in Hnd as [Hz Hnd]. apply (chain_ext N P); [done| |].
    + intros w Hw. rewrite !fn_lookup_insert_ne; [done| |]; intros <-; set_solver.
    + intros w Hw. rewrite !fn_lookup_insert_ne; [done| |]; intros <-; set_solver.
Qed.

(** Walking forward and backward visits the list. *)
Lemma ring_first N P h l : ring N P h l -> N h = default h (head l) /\ P h = default h (last l).
Proof.
  intros [Hc _]. split.
  - destruct l; cbn in Hc |- *; tauto.
  - destruct l as [|z l _] using rev_ind; [cbn in Hc; tauto|]. rewrite last_snoc. cbn.
    apply chain_app in Hc as [_ Hc]. cbn in Hc. tauto.
Qed.
