(* ===== verification/Bio.v ===== *)
(** * Disk and buffer cache (memide.c, bio.c)

    The memory-backed disk driver and the cache of disk blocks.  The cache is the
    array [bcache] whose buffers are linked into a circular list by recency;
    index [NBUF] is the list head.  The invariant says which list the links
    spell out, that no block is cached twice, and that a valid clean buffer
    agrees with the disk. *)

From stdpp Require Import functions.
From S2P Require Import Prelude State CMem Spinlock Mmu Kalloc Console Vm Sched Resume Ring.

(** ** memide.c *)

Definition ideinit (img : list (list Z)) : K unit := modify (set_memdisk img).

Definition iderw (b : nat) : K unit :=
  bf <- getbuf b ;;
  if negb (has (b_flags bf) B_BUSY) then panic "iderw: buf not busy" else
  if Z.land (b_flags bf) (Z.lor B_VALID B_DIRTY) =? B_VALID then panic "iderw: nothing to do" else
  if negb (b_dev bf =? 1) then panic "iderw: request not for disk 1" else
  disksize <- gets (fun k => Z.of_nat (length (memdisk k))) ;;
  if disksize <=? b_blockno bf then panic "iderw: block out of range" else
  (if has (b_flags bf) B_DIRTY then
     updbuf b (fun bf => set_b_flags (Z.ldiff (b_flags bf) B_DIRTY) bf) ;;
     modify (fun k => set_memdisk (<[Z.to_nat (b_blockno bf) := b_data bf]> (memdisk k)) k) ;;
     modify (fun k => set_diskwrites (diskwrites k ++ [(b_blockno bf, b_data bf)]) k)
   else
     modify (fun k =>
       set_bcache (alter (set_b_data (memdisk k !!! Z.to_nat (b_blockno bf))) b (bcache k)) k)) ;;
  updbuf b (fun bf => set_b_flags (Z.lor (b_flags bf) B_VALID) bf).

(** ** bio.c *)

(** The index of [bcache.head]. *)
Definition bhead : nat := Z.to_nat NBUF.

(** The loop of [binit], for the buffers [bs] in order. *)
Fixpoint binit_loop (bs : list nat) : K unit :=
  match bs with
  | [] => ret tt
  | b :: bs' =>
      h <- getbuf bhead ;;
      updbuf b (set_b_next (b_next h)) ;;
      updbuf b (set_b_prev bhead) ;;
      updbuf b (set_b_dev (u32 (-1))) ;;
      h <- getbuf bhead ;;
      updbuf (b_next h) (set_b_prev b) ;;
      updbuf bhead (set_b_next b) ;;
      binit_loop bs'
  end.

Definition binit : K unit :=
  initlock Lbcache "bcache" ;;
  updbuf bhead (set_b_prev bhead) ;;
  updbuf bhead (set_b_next bhead) ;;
  binit_loop (seq 0 (Z.to_nat NBUF)).

(** The first loop of [bget]: the cached buffer of the block, from [b] on. *)
Fixpoint bget_find (fuel : nat) (bs : list buf) (b : nat) (dev blockno : Z) : option nat :=
  match fuel with
  | O => None
  | S fuel' =>
      if (b =? bhead)%nat then None
      else if (b_dev (bs !!! b) =? dev) && (b_blockno (bs !!! b) =? blockno) then Some b
      else bget_find fuel' bs (b_next (bs !!! b)) dev blockno
  end.

(** The second loop: the least recently used buffer that is neither busy nor
    dirty, from [b] back. *)
Fixpoint bget_victim (fuel : nat) (bs : list buf) (b : nat) : option nat :=
  match fuel with
  | O => None
  | S fuel' =>
      if (b =? bhead)%nat then None
      else if negb (has (b_flags (bs !!! b)) B_BUSY) && negb (has (b_flags (bs !!! b)) B_DIRTY)
      then Some b
      else bget_victim fuel' bs (b_prev (bs !!! b))
  end.

(** The list has [NBUF] buffers, so its loops end within [NBUF + 1] steps.
    [fuel] bounds the number of times the caller may be put to sleep. *)
Fixpoint bget_loop (fuel : nat) (dev blockno : Z) : K nat :=
  bs <- gets bcache ;;
  match bget_find (S bhead) bs (b_next (bs !!! bhead)) dev blockno with
  | Some b =>
      if negb (has (b_flags (bs !!! b)) B_BUSY) then
        updbuf b (fun bf => set_b_flags (Z.lor (b_flags bf) B_BUSY) bf) ;;
        release Lbcache ;;
        ret b
      else
        match fuel with
        | O => out_of_fuel
        | S fuel' => sleep (CBuf b) Lbcache ;; bget_loop fuel' dev blockno
        end
  | None =>
      match bget_victim (S bhead) bs (b_prev (bs !!! bhead)) with
      | Some b =>
          updbuf b (set_b_dev dev) ;;
          updbuf b (set_b_blockno blockno) ;;
          updbuf b (set_b_flags B_BUSY) ;;
          release Lbcache ;;
          ret b
      | None => panic "bget: no buffers"
      end
  end.

(** How often a thread may find its buffer busy again; any bound will do. *)
Definition max_sleeps : nat := 1000.

Definition bget (dev blockno : Z) : K nat :=
  acquire Lbcache ;;
  bget_loop max_sleeps dev blockno.

Definition bread (dev blockno : Z) : K nat :=
  b <- bget dev blockno ;;
  bf <- getbuf b ;;
  when (negb (has (b_flags bf) B_VALID)) (iderw b) ;;
  ret b.

Definition bwrite (b : nat) : K unit :=
  bf <- getbuf b ;;
  if negb (has (b_flags bf) B_BUSY) then panic "bwrite" else
  updbuf b (fun bf => set_b_flags (Z.lor (b_flags bf) B_DIRTY) bf) ;;
  iderw b.

Definition brelse (b : nat) : K unit :=
  bf <- getbuf b ;;
  if negb (has (b_flags bf) B_BUSY) then panic "brelse" else
  acquire Lbcache ;;
  bf <- getbuf b ;;
  updbuf (b_next bf) (set_b_prev (b_prev bf)) ;;
  bf <- getbuf b ;;
  updbuf (b_prev bf) (set_b_next (b_next bf)) ;;
  h <- getbuf bhead ;;
  updbuf b (set_b_next (b_next h)) ;;
  updbuf b (set_b_prev bhead) ;;
  h <- getbuf bhead ;;
  updbuf (b_next h) (set_b_prev b) ;;
  updbuf bhead (set_b_next b) ;;
  updbuf b (fun bf => set_b_flags (Z.ldiff (b_flags bf) B_BUSY) bf) ;;
  wakeup (CBuf b) ;;
  release Lbcache.

(** ** Invariant *)

Definition nxt (bs : list buf) (i : nat) : nat := b_next (bs !!! i).
Definition prv (bs : list buf) (i : nat) : nat := b_prev (bs !!! i).

(** The cache can be used: its lock and the process table's are free. *)
Definition io_ok (k : kernel) : Prop :=
  cpu_ok (k_cpu k) /\ lock_free Lbcache k /\ lock_free Lptable k.

Definition is_blk (b : Z) (bf : buf) : bool := (b_dev bf =? 1) && (b_blockno bf =? b).

(** Two buffers that differ at most in their links. *)
Definition same_buf (x y : buf) : Prop :=
  b_flags x = b_flags y /\ b_dev x = b_dev y /\ b_blockno x = b_blockno y /\ b_data x = b_data y.

(** The cache [bs] over the disk [d]; [l] is the list of buffers by recency. *)
Record bc_inv (bs : list buf) (d : list (list Z)) (l : list nat) : Prop := {
  bc_len : length bs = S bhead;
  bc_ring : ring (nxt bs) (prv bs) bhead l;
  bc_perm : Permutation l (seq 0 bhead);
  bc_flags : forall i, 0 <= b_flags (bs !!! i) < 8;
  bc_dev : forall i, (i < bhead)%nat -> b_dev (bs !!! i) = 1 \/ b_flags (bs !!! i) = 0;
  bc_keys : forall i j b, (i < bhead)%nat -> (j < bhead)%nat ->
    is_blk b (bs !!! i) = true -> is_blk b (bs !!! j) = true -> i = j;
  bc_range : forall i b, (i < bhead)%nat -> is_blk b (bs !!! i) = true ->
    0 <= b < Z.of_nat (length d);
  bc_idle : forall i b, (i < bhead)%nat -> is_blk b (bs !!! i) = true ->
    has (b_flags (bs !!! i)) B_BUSY = false ->
    has (b_flags (bs !!! i)) B_VALID = true /\
    (has (b_flags (bs !!! i)) B_DIRTY = false -> b_data (bs !!! i) = d !!! Z.to_nat b)
}.

(** The buffer of block [b], if it is cached. *)
Definition cached (bs : list buf) (b : Z) : option nat :=
  snd <$> list_find (fun i => is_blk b (bs !!! i) = true) (seq 0 bhead).

(** The contents of block [b] as the kernel sees it through the cache. *)
Definition bview (bs : list buf) (d : list (list Z)) (b : Z) : list Z :=
  match cached bs b with
  | Some i => if has (b_flags (bs !!! i)) B_VALID then b_data (bs !!! i) else d !!! Z.to_nat b
  | None => d !!! Z.to_nat b
  end.

(** Whether block [b] waits to be written. *)
Definition bdirty (bs : list buf) (b : Z) : bool :=
  match cached bs b with
  | Some i => has (b_flags (bs !!! i)) B_DIRTY
  | None => false
  end.

(** ** Lemmas on flags *)

Lemma flags_lor f m : 0 <= f < 8 -> m = B_BUSY \/ m = B_VALID \/ m = B_DIRTY ->
  0 <= Z.lor f m < 8 /\ has (Z.lor f m) m = true /\
  (forall m', m' <> m -> m' = B_BUSY \/ m' = B_VALID \/ m' = B_DIRTY ->
     has (Z.lor f m) m' = has f m').
Proof.
  intros Hf Hm. assert (Hc : f = 0 \/ f = 1 \/ f = 2 \/ f = 3 \/ f = 4 \/ f = 5 \/ f = 6 \/ f = 7) by lia.
  split_and!.
  1-3: destruct Hm as [->|[->| ->]]; destruct Hc as [->|[->|[->|[->|[->|[->|[->| ->]]]]]]];
    vm_compute; (reflexivity || congruence).
  intros m' Hne Hm'. destruct Hm as [->|[->| ->]], Hm' as [->|[->| ->]]; try done;
    destruct Hc as [->|[->|[->|[->|[->|[->|[->| ->]]]]]]]; reflexivity.
Qed.

Lemma flags_ldiff f m : 0 <= f < 8 -> m = B_BUSY \/ m = B_VALID \/ m = B_DIRTY ->
  0 <= Z.ldiff f m < 8 /\ has (Z.ldiff f m) m = false /\
  (forall m', m' <> m -> m' = B_BUSY \/ m' = B_VALID \/ m' = B_DIRTY ->
     has (Z.ldiff f m) m' = has f m').
Proof.
  intros Hf Hm. assert (Hc : f = 0 \/ f = 1 \/ f = 2 \/ f = 3 \/ f = 4 \/ f = 5 \/ f = 6 \/ f = 7) by lia.
  split_and!.
  1-3: destruct Hm as [->|[->| ->]]; destruct Hc as [->|[->|[->|[->|[->|[->|[->| ->]]]]]]];
    vm_compute; (reflexivity || congruence).
  intros m' Hne Hm'. destruct Hm as [->|[->| ->]], Hm' as [->|[->| ->]]; try done;
    destruct Hc as [->|[->|[->|[->|[->|[->|[->| ->]]]]]]]; reflexivity.
Qed.

Lemma flags_nothing_to_do f :
  0 <= f < 8 -> (Z.land f (Z.lor B_VALID B_DIRTY) =? B_VALID)
               = has f B_VALID && negb (has f B_DIRTY).
Proof.
  intros Hf. assert (Hc : f = 0 \/ f = 1 \/ f = 2 \/ f = 3 \/ f = 4 \/ f = 5 \/ f = 6 \/ f = 7) by lia.
  destruct Hc as [->|[->|[->|[->|[->|[->|[->| ->]]]]]]]; reflexivity.
Qed.

(** ** Lemmas on the scans of the list *)

Lemma bget_find_chain bs dev b l : forall fuel x,
  chain (nxt bs) (prv bs) x l bhead -> bhead ∉ l -> (length l < fuel)%nat ->
  bget_find fuel bs (nxt bs x) dev b =
    snd <$> list_find (fun i => (b_dev (bs !!! i) =? dev) && (b_blockno (bs !!! i) =? b) = true) l.
Proof.
  induction l as [|z l IH]; intros fuel x Hc Hh Hf; cbn [chain] in Hc;
    (destruct fuel as [|fuel]; [cbn in Hf; lia|]); cbn [bget_find list_find].
  - destruct Hc as [-> _]. now rewrite Nat.eqb_refl.
  - destruct Hc as [[-> _] Hc]. apply not_elem_of_cons in Hh as [Hz Hh].
    rewrite (proj2 (Nat.eqb_neq z bhead)) by congruence.
    destruct ((b_dev (bs !!! z) =? dev) && (b_blockno (bs !!! z) =? b)) eqn:E.
    + now rewrite decide_True.
    + rewrite decide_False by congruence.
      change (b_next (bs !!! z)) with (nxt bs z). rewrite (IH fuel z) by (done || (cbn in Hf; lia)).
      now destruct (list_find _ l) as [[? ?]|].
Qed.

Lemma bget_victim_chain bs l : forall fuel y,
  chain (nxt bs) (prv bs) bhead l y -> bhead ∉ l -> (length l < fuel)%nat ->
  bget_victim fuel bs (prv bs y) =
    snd <$> list_find (fun i => negb (has (b_flags (bs !!! i)) B_BUSY)
                         && negb (has (b_flags (bs !!! i)) B_DIRTY) = true) (reverse l).
Proof.
  induction l as [|z l IH] using rev_ind; intros fuel y Hc Hh Hf;
    (destruct fuel as [|fuel]; [cbn in Hf; lia|]); cbn [bget_victim].
  - cbn in Hc. destruct Hc as [_ ->]. now rewrite Nat.eqb_refl.
  - apply chain_app in Hc as [Hc1 Hc2]. cbn in Hc2. destruct Hc2 as [_ ->].
    rewrite not_elem_of_app, list_elem_of_singleton in Hh. destruct Hh as [Hh Hz].
    rewrite (proj2 (Nat.eqb_neq z bhead)) by congruence. rewrite reverse_snoc. cbn [list_find].
    rewrite length_app in Hf. cbn in Hf.
    destruct (negb (has (b_flags (bs !!! z)) B_BUSY) && negb (has (b_flags (bs !!! z)) B_DIRTY)) eqn:E.
    + now rewrite decide_True.
    + rewrite decide_False by congruence.
      change (b_prev (bs !!! z)) with (prv bs z). rewrite (IH fuel z) by (done || lia).
      now destruct (list_find _ (reverse l)) as [[? ?]|].
Qed.

(** ** Lemmas on the invariant *)

Lemma is_blk_dev b bf : is_blk b bf = true -> b_dev bf = 1.
Proof. unfold is_blk. lia. Qed.

Lemma is_blk_eq b b' bf : is_blk b bf = true -> is_blk b' bf = true -> b = b'.
Proof. unfold is_blk. lia. Qed.

Lemma alter_total (f : buf -> buf) bs i j :
  (i < length bs)%nat -> alter f i bs !!! j = if decide (i = j) then f (bs !!! i) else bs !!! j.
Proof.
  intros Hi. case_decide as E; [subst j|now apply list_lookup_total_alter_ne].
  apply list_lookup_total_correct. rewrite list_lookup_alter_eq.
  now rewrite list_lookup_lookup_total_lt.
Qed.

Lemma ring_ext N P N' P' h l :
  ring N P h l -> (forall i, N' i = N i) -> (forall i, P' i = P i) -> ring N' P' h l.
Proof. intros [Hc Hnd] HN HP. split; [|done]. eapply chain_ext; eauto. Qed.

Lemma bc_inv_alter bs d d' l i f :
  bc_inv bs d l -> (i < bhead)%nat -> length d' = length d ->
  (forall x, b_next (f x) = b_next x /\ b_prev (f x) = b_prev x) ->
  0 <= b_flags (f (bs !!! i)) < 8 ->
  b_dev (f (bs !!! i)) = 1 \/ b_flags (f (bs !!! i)) = 0 ->
  (forall b, is_blk b (f (bs !!! i)) = true ->
     0 <= b < Z.of_nat (length d) /\
     (forall j, (j < bhead)%nat -> j <> i -> is_blk b (bs !!! j) = false) /\
     (has (b_flags (f (bs !!! i))) B_BUSY = false ->
        has (b_flags (f (bs !!! i))) B_VALID = true /\
        (has (b_flags (f (bs !!! i))) B_DIRTY = false -> b_data (f (bs !!! i)) = d' !!! Z.to_nat b))) ->
  (forall j b, (j < bhead)%nat -> j <> i -> is_blk b (bs !!! j) = true ->
     d' !!! Z.to_nat b = d !!! Z.to_nat b) ->
  bc_inv (alter f i bs) d' l.
Proof.
  intros [Hlen Hring Hperm Hfl Hdev Hkeys Hrange Hidle] Hi Hd Hlinks Hfl' Hdev' Hnew Hold.
  assert (Hat : forall j, alter f i bs !!! j = if decide (i = j) then f (bs !!! i) else bs !!! j)
    by (intros j; apply alter_total; lia).
  split.
  - now rewrite length_alter.
  - apply (ring_ext (nxt bs) (prv bs)); [done| |]; intros j; unfold nxt, prv; rewrite Hat;
      case_decide as E; [subst j; apply Hlinks|done|subst j; apply Hlinks|done].
  - done.
  - intros j. rewrite Hat. case_decide; auto.
  - intros j Hj. rewrite Hat. case_decide; auto.
  - intros j j' b Hj Hj'. rewrite !Hat. repeat case_decide; subst; try done.
    + intros H1 H2. destruct (Hnew b H1) as (_ & Hn & _). rewrite Hn in H2 by done. congruence.
    + intros H1 H2. destruct (Hnew b H2) as (_ & Hn & _). rewrite Hn in H1 by done. congruence.
    + now apply Hkeys.
  - intros j b Hj. rewrite Hat, Hd. case_decide; [intros Hb; now apply Hnew in Hb as (? & _)|].
    now apply Hrange.
  - intros j b Hj. rewrite Hat. case_decide; [intros Hb; now apply Hnew in Hb as (_ & _ & ?)|].
    intros H1 H2. destruct (Hidle j b Hj H1 H2) as [H3 H4]. split; [done|].
    rewrite (Hold j b) by (done || congruence). done.
Qed.

Lemma cached_Some bs b i :
  cached bs b = Some i -> (i < bhead)%nat /\ is_blk b (bs !!! i) = true.
Proof.
  unfold cached. destruct (list_find _ _) as [[j i']|] eqn:E; [|done]. cbn. intros [= ->].
  apply list_find_Some in E as (Hl & Hb & _). apply lookup_seq in Hl as [-> Hlt].
  split; [lia|done].
Qed.

Lemma cached_None bs b i :
  cached bs b = None -> (i < bhead)%nat -> is_blk b (bs !!! i) = false.
Proof.
  unfold cached. destruct (list_find _ _) as [[j i']|] eqn:E; [done|]. intros _ Hi.
  apply list_find_None in E. rewrite Forall_forall in E.
  destruct (is_blk b (bs !!! i)) eqn:Eb; [|done]. exfalso. apply (E i); [|done].
  apply elem_of_seq. lia.
Qed.

Lemma cached_unique bs d l b i :
  bc_inv bs d l -> (i < bhead)%nat -> is_blk b (bs !!! i) = true -> cached bs b = Some i.
Proof.
  intros Hinv Hi Hb. destruct (cached bs b) as [j|] eqn:E.
  - apply cached_Some in E as [Hj Hb']. f_equal. now apply (bc_keys bs d l Hinv j i b).
  - now rewrite (cached_None bs b i E Hi) in Hb.
Qed.

(** The search of [bget] finds the cached buffer. *)
Lemma bget_find_cached bs d l b :
  bc_inv bs d l -> bget_find (S bhead) bs (b_next (bs !!! bhead)) 1 b = cached bs b.
Proof.
  intros Hinv. pose proof Hinv as [Hlen [Hc Hnd] Hperm _ _ _ _ _].
  apply NoDup_cons in Hnd as [Hh _].
  change (b_next (bs !!! bhead)) with (nxt bs bhead).
  rewrite (bget_find_chain bs 1 b l); [|done|done|].
  2:{ rewrite Hperm, length_seq. lia. }
  destruct (list_find _ l) as [[j i]|] eqn:E; cbn.
  - apply list_find_Some in E as (Hl & Hb & _). symmetry.
    apply (cached_unique bs d l); [done| |done].
    apply list_elem_of_lookup_2 in Hl. rewrite Hperm in Hl. apply elem_of_seq in Hl. lia.
  - apply list_find_None in E. destruct (cached bs b) as [i|] eqn:Ec; [|done]. exfalso.
    apply cached_Some in Ec as [Hi Hb]. rewrite Forall_forall in E.
    apply (E i); [|exact Hb]. rewrite Hperm. apply elem_of_seq. lia.
Qed.

(** A buffer that can be recycled. *)
Definition free_buf (bs : list buf) (i : nat) : Prop :=
  (i < bhead)%nat /\ has (b_flags (bs !!! i)) B_BUSY = false /\ has (b_flags (bs !!! i)) B_DIRTY = false.

Lemma bget_victim_found bs d l :
  bc_inv bs d l ->
  (exists i, bget_victim (S bhead) bs (b_prev (bs !!! bhead)) = Some i /\ free_buf bs i) \/
  (bget_victim (S bhead) bs (b_prev (bs !!! bhead)) = None /\ forall i, ~ free_buf bs i).
Proof.
  intros Hinv. pose proof Hinv as [Hlen [Hc Hnd] Hperm _ _ _ _ _].
  apply NoDup_cons in Hnd as [Hh _].
  change (b_prev (bs !!! bhead)) with (prv bs bhead).
  rewrite (bget_victim_chain bs l); [|done|done|].
  2:{ rewrite Hperm, length_seq. lia. }
  destruct (list_find _ (reverse l)) as [[j i]|] eqn:E; cbn.
  - apply list_find_Some in E as (Hl & Hb & _). left. exists i. split; [done|].
    apply list_elem_of_lookup_2 in Hl. rewrite elem_of_reverse, Hperm in Hl. apply elem_of_seq in Hl.
    apply andb_true_iff in Hb as [H1 H2]. apply negb_true_iff in H1, H2. split_and!; [lia|done|done].
  - apply list_find_None in E. right. split; [done|]. intros i (Hi & H1 & H2).
    rewrite Forall_forall in E. apply (E i).
    + rewrite elem_of_reverse, Hperm. apply elem_of_seq. lia.
    + now rewrite H1, H2.
Qed.

Lemma same_buf_refl x : same_buf x x.
Proof. done. Qed.

(** The view of a block after one buffer, [i], has changed. *)
Lemma bview_change bs d l bs' d' l' i b :
  bc_inv bs d l -> bc_inv bs' d' l' -> (i < bhead)%nat ->
  (forall j, (j < bhead)%nat -> j <> i -> same_buf (bs' !!! j) (bs !!! j)) ->
  (is_blk b (bs' !!! i) = false -> d' !!! Z.to_nat b = d !!! Z.to_nat b) ->
  (is_blk b (bs' !!! i) = false -> is_blk b (bs !!! i) = true -> bview bs d b = d !!! Z.to_nat b) ->
  bview bs' d' b = if is_blk b (bs' !!! i)
                   then (if has (b_flags (bs' !!! i)) B_VALID then b_data (bs' !!! i) else d' !!! Z.to_nat b)
                   else bview bs d b.
Proof.
  intros Hinv Hinv' Hi Hsame Hd Hev.
  destruct (is_blk b (bs' !!! i)) eqn:Eb.
  { unfold bview. now rewrite (cached_unique bs' d' l' b i). }
  assert (Hblk : forall j, (j < bhead)%nat -> j <> i -> is_blk b (bs' !!! j) = is_blk b (bs !!! j)).
  { intros j Hj Hne. destruct (Hsame j Hj Hne) as (_ & H1 & H2 & _). unfold is_blk. now rewrite H1, H2. }
  unfold bview at 1. destruct (cached bs' b) as [j|] eqn:Ec.
  - apply cached_Some in Ec as [Hj Hb]. assert (Hne : j <> i) by congruence.
    destruct (Hsame j Hj Hne) as (H1 & _ & _ & H2). rewrite H1, H2, Hd by done.
    rewrite Hblk in Hb by done. unfold bview. now rewrite (cached_unique bs d l b j).
  - rewrite Hd by done. unfold bview. destruct (cached bs b) as [j|] eqn:Ec'; [|done].
    pose proof (cached_Some _ _ _ Ec') as [Hj Hb].
    destruct (decide (j = i)) as [->|Hne].
    + specialize (Hev eq_refl Hb). unfold bview in Hev. now rewrite Ec' in Hev.
    + rewrite <- Hblk, (cached_None bs' b j Ec Hj) in Hb by done. congruence.
Qed.

Lemma bdirty_change bs d l bs' d' l' i b :
  bc_inv bs d l -> bc_inv bs' d' l' -> (i < bhead)%nat ->
  (forall j, (j < bhead)%nat -> j <> i -> same_buf (bs' !!! j) (bs !!! j)) ->
  (is_blk b (bs' !!! i) = false -> is_blk b (bs !!! i) = true -> bdirty bs b = false) ->
  bdirty bs' b = if is_blk b (bs' !!! i) then has (b_flags (bs' !!! i)) B_DIRTY else bdirty bs b.
Proof.
  intros Hinv Hinv' Hi Hsame Hev.
  destruct (is_blk b (bs' !!! i)) eqn:Eb.
  { unfold bdirty. now rewrite (cached_unique bs' d' l' b i). }
  assert (Hblk : forall j, (j < bhead)%nat -> j <> i -> is_blk b (bs' !!! j) = is_blk b (bs !!! j)).
  { intros j Hj Hne. destruct (Hsame j Hj Hne) as (_ & H1 & H2 & _). unfold is_blk. now rewrite H1, H2. }
  unfold bdirty at 1. destruct (cached bs' b) as [j|] eqn:Ec.
  - apply cached_Some in Ec as [Hj Hb]. assert (Hne : j <> i) by congruence.
    destruct (Hsame j Hj Hne) as (H1 & _ & _ & _). rewrite H1.
    rewrite Hblk in Hb by done. unfold bdirty. now rewrite (cached_unique bs d l b j).
  - destruct (cached bs b) as [j|] eqn:Ec'; [|unfold bdirty; now rewrite Ec'].
    pose proof (cached_Some _ _ _ Ec') as [Hj Hb].
    destruct (decide (j = i)) as [->|Hne]; [now rewrite Hev|].
    rewrite <- Hblk, (cached_None bs' b j Ec Hj) in Hb by done. congruence.
Qed.

Lemma alter_others (f : buf -> buf) (bs : list buf) (i j : nat) : j <> i -> alter f i bs !!! j = bs !!! j.
Proof. intros H. apply list_lookup_total_alter_ne. congruence. Qed.

(** What a caller of [bread] gets: buffer [i] holds block [b], busy and valid. *)
Record got (bs : list buf) (d : list (list Z)) (b : Z) (i : nat) (bs' : list buf) : Prop := {
  got_i : (i < bhead)%nat;
  got_was_idle : has (b_flags (bs !!! i)) B_BUSY = false;
  got_blk : is_blk b (bs' !!! i) = true;
  got_busy : has (b_flags (bs' !!! i)) B_BUSY = true;
  got_valid : has (b_flags (bs' !!! i)) B_VALID = true;
  got_data : b_data (bs' !!! i) = bview bs d b;
  got_dirty : forall b', bdirty bs' b' = bdirty bs b';
  got_others : forall j, (j < bhead)%nat -> j <> i -> bs' !!! j = bs !!! j;
  got_view : forall b', bview bs' d b' = bview bs d b'
}.

(** [bread] from a look at the cache on, with the cache's lock held. *)
Definition bread_look (n : nat) (b : Z) : K nat :=
  i <- bget_loop n 1 b ;;
  bf <- getbuf i ;;
  when (negb (has (b_flags bf) B_VALID)) (iderw i) ;;
  ret i.

(** One look, for any bound on the sleeps to come. *)
Lemma bget_loop_eq n dev b : bget_loop n dev b =
  (bs <- gets bcache ;;
   match bget_find (S bhead) bs (b_next (bs !!! bhead)) dev b with
   | Some i =>
       if negb (has (b_flags (bs !!! i)) B_BUSY)
       then updbuf i (fun bf => set_b_flags (Z.lor (b_flags bf) B_BUSY) bf) ;; release Lbcache ;; ret i
       else match n with O => out_of_fuel | S n' => sleep (CBuf i) Lbcache ;; bget_loop n' dev b end
   | None =>
       match bget_victim (S bhead) bs (b_prev (bs !!! bhead)) with
       | Some i => updbuf i (set_b_dev dev) ;; updbuf i (set_b_blockno b) ;; updbuf i (set_b_flags B_BUSY) ;;
           release Lbcache ;; ret i
       | None => panic "bget: no buffers"
       end
   end).
Proof. now destruct n. Qed.

Lemma bread_enter k b : lock_free Lbcache k -> bread 1 b k = bread_look max_sleeps b (held Lbcache k).
Proof.
  intros Hl. unfold bread, bget, bread_look. rewrite bind_assoc by (unfold returns; now rewrite (acquire_free _ _ Hl)).
  now mok (acquire_free Lbcache k Hl).
Qed.

Lemma look_cached n k l b i :
  io_ok k -> bc_inv (bcache k) (memdisk k) l -> cached (bcache k) b = Some i ->
  has (b_flags (bcache k !!! i)) B_BUSY = false ->
  exists bs', bread_look n b (held Lbcache k) = Ok i (set_bcache bs' k) /\ bc_inv bs' (memdisk k) l /\
    got (bcache k) (memdisk k) b i bs'.
Proof.
  intros (Hc & Hl & Hpt) Hinv Hca Hnb. pose proof (cached_Some _ _ _ Hca) as [Hi Hb].
  set (bs := bcache k) in *. set (d := memdisk k) in *.
  destruct (bc_idle _ _ _ Hinv i b Hi Hb Hnb) as [Hval Hcl].
  destruct (flags_lor (b_flags (bs !!! i)) B_BUSY (bc_flags _ _ _ Hinv i)) as (F1 & F2 & F3); [now left|].
  set (f := fun bf => set_b_flags (Z.lor (b_flags bf) B_BUSY) bf).
  assert (Hil : (i < length bs)%nat) by (rewrite (bc_len _ _ _ Hinv); lia).
  assert (Hat : alter f i bs !!! i = f (bs !!! i)) by (rewrite alter_total, decide_True; done).
  assert (Hvi : has (b_flags (f (bs !!! i))) B_VALID = true) by (unfold f; ksimpl; rewrite F3; auto; done).
  assert (Hinv' : bc_inv (alter f i bs) d l).
  { apply (bc_inv_alter bs d); try done.
    - left. now apply is_blk_dev in Hb.
    - intros b' Hb'. change (is_blk b' (bs !!! i) = true) in Hb'.
      split_and!; [now apply (bc_range _ _ _ Hinv i b')..| |].
      + intros j Hj Hne. destruct (is_blk b' (bs !!! j)) eqn:E; [|done].
        exfalso. apply Hne. now apply (bc_keys _ _ _ Hinv j i b').
      + unfold f. ksimpl. rewrite F2. congruence. }
  exists (alter f i bs). split_and!; [|done|].
  - unfold bread_look. rewrite bget_loop_eq, bind_assoc by exact I. mred. change (bcache (held Lbcache k)) with bs.
    rewrite (bget_find_cached bs d l b Hinv), Hca, Hnb. cbn [negb].
    unfold updbuf. rewrite bind_assoc by exact I. mred.
    set (k1 := set_bcache (alter f i bs) k).
    change (set_bcache _ (held Lbcache k)) with (held Lbcache k1).
    rewrite bind_assoc by (unfold returns; now rewrite (release_held Lbcache k1 Hc Hl)).
    mok (release_held Lbcache k1 Hc Hl). unfold getbuf. mred.
    change (bcache k1) with (alter f i bs). now rewrite Hat, Hvi.
  - split; try done.
    + now rewrite Hat.
    + rewrite Hat. exact F2.
    + now rewrite Hat.
    + rewrite Hat. unfold bview. now rewrite Hca, Hval.
    + intros b'. rewrite (bdirty_change bs d l (alter f i bs) d l i b'); try done.
      * rewrite Hat. change (is_blk b' (f (bs !!! i))) with (is_blk b' (bs !!! i)).
        destruct (is_blk b' (bs !!! i)) eqn:E; [|done]. unfold bdirty.
        rewrite (cached_unique bs d l b' i) by done. unfold f. ksimpl. apply F3; auto.
      * intros j Hj Hne. rewrite alter_others by done. apply same_buf_refl.
      * rewrite Hat. change (is_blk b' (f (bs !!! i))) with (is_blk b' (bs !!! i)). congruence.
    + intros j Hj Hne. now apply alter_others.
    + intros b'. rewrite (bview_change bs d l (alter f i bs) d l i b'); try done.
      * rewrite Hat, Hvi. change (is_blk b' (f (bs !!! i))) with (is_blk b' (bs !!! i)).
        destruct (is_blk b' (bs !!! i)) eqn:E; [|done]. unfold bview.
        now rewrite (cached_unique bs d l b' i), Hval.
      * intros j Hj Hne. rewrite alter_others by done. apply same_buf_refl.
      * rewrite Hat. change (is_blk b' (f (bs !!! i))) with (is_blk b' (bs !!! i)). congruence.
Qed.

(** The driver reads a busy, invalid buffer, or writes a busy, dirty one. *)
Lemma iderw_read k i b :
  (i < length (bcache k))%nat -> 0 <= b < Z.of_nat (length (memdisk k)) ->
  is_blk b (bcache k !!! i) = true -> b_flags (bcache k !!! i) = B_BUSY ->
  iderw i k = Ok tt (set_bcache (alter (fun bf =>
    set_b_flags (Z.lor B_BUSY B_VALID) (set_b_data (memdisk k !!! Z.to_nat b) bf)) i (bcache k)) k).
Proof.
  intros Hi Hb Hblk Hf. unfold iderw, getbuf, updbuf. mred. rewrite Hf. cbn [negb].
  change (has B_BUSY B_BUSY) with true. cbn [negb].
  change (Z.land B_BUSY (Z.lor B_VALID B_DIRTY) =? B_VALID) with false.
  unfold is_blk in Hblk. apply andb_true_iff in Hblk as [Hd Hn]. rewrite Hd. cbn [negb]. mred.
  apply Z.eqb_eq in Hn. rewrite Hn. destruct (Z.leb_spec (Z.of_nat (length (memdisk k))) b); [lia|].
  change (has B_BUSY B_DIRTY) with false. cbn match. mred.
  unfold modify. f_equal. transitivity (set_bcache (alter (fun bf => set_b_flags (Z.lor (b_flags bf) B_VALID) bf) i
    (alter (set_b_data (memdisk k !!! Z.to_nat b)) i (bcache k))) k); [reflexivity|].
  f_equal. rewrite list_alter_alter_eq. apply list_alter_ext; [|done].
  intros x Hx. rewrite (list_lookup_lookup_total_lt _ _ Hi) in Hx. injection Hx as <-.
  unfold compose. ksimpl. now rewrite Hf.
Qed.

Lemma look_miss n k l b :
  io_ok k -> bc_inv (bcache k) (memdisk k) l -> cached (bcache k) b = None ->
  0 <= b < Z.of_nat (length (memdisk k)) -> (exists i, free_buf (bcache k) i) ->
  exists i bs', bread_look n b (held Lbcache k) = Ok i (set_bcache bs' k) /\ bc_inv bs' (memdisk k) l /\
    got (bcache k) (memdisk k) b i bs'.
Proof.
  intros (Hc & Hl & Hpt) Hinv Hca Hb [i0 Hi0].
  set (bs := bcache k) in *. set (d := memdisk k) in *.
  destruct (bget_victim_found bs d l Hinv) as [(i & Hv & Hi & Hnb & Hnd)|[_ Hno]]; [|now destruct (Hno i0)].
  assert (Hil : (i < length bs)%nat) by (rewrite (bc_len _ _ _ Hinv); lia).
  set (f := fun bf => set_b_flags B_BUSY (set_b_blockno b (set_b_dev 1 bf))).
  set (g := fun bf => set_b_flags (Z.lor B_BUSY B_VALID) (set_b_data (d !!! Z.to_nat b) bf)).
  assert (Hat : forall h, alter h i bs !!! i = h (bs !!! i)) by (intros h; rewrite alter_total, decide_True; done).
  assert (Hfg : alter g i (alter f i bs) = alter (fun bf => g (f bf)) i bs) by apply list_alter_alter_eq.
  assert (Hblk : forall b', is_blk b' (g (f (bs !!! i))) = true -> b' = b).
  { intros b' H. unfold is_blk in H. cbn in H. lia. }
  assert (Hview : forall b', is_blk b' (bs !!! i) = true -> bview bs d b' = d !!! Z.to_nat b').
  { intros b' H. destruct (bc_idle _ _ _ Hinv i b' Hi H Hnb) as [H1 H2].
    unfold bview. rewrite (cached_unique bs d l b' i Hinv Hi H), H1. auto. }
  assert (Hinv' : bc_inv (alter (fun bf => g (f bf)) i bs) d l).
  { apply (bc_inv_alter bs d); try done; [now left|].
    intros b' H. apply Hblk in H as ->. split_and!; [lia|lia| |done].
    intros j Hj _. now apply cached_None. }
  exists i, (alter (fun bf => g (f bf)) i bs). split_and!; [|done|].
  - unfold bread_look. rewrite bget_loop_eq, bind_assoc by exact I. mred. change (bcache (held Lbcache k)) with bs.
    rewrite (bget_find_cached bs d l b Hinv), Hca, Hv.
    unfold updbuf. rewrite bind_assoc by exact I. mred. rewrite bind_assoc by exact I. mred.
    rewrite bind_assoc by exact I. mred.
    set (k1 := set_bcache (alter f i bs) k).
    assert (E1 : alter (set_b_flags B_BUSY) i (alter (set_b_blockno b) i (alter (set_b_dev 1) i bs)) = alter f i bs)
      by (rewrite !list_alter_alter_eq; reflexivity).
    match goal with |- bind _ _ ?s = _ => assert (E2 : s = held Lbcache k1) end.
    { unfold k1. rewrite <- E1. reflexivity. }
    rewrite E2.
    rewrite bind_assoc by (unfold returns; now rewrite (release_held Lbcache k1 Hc Hl)).
    mok (release_held Lbcache k1 Hc Hl). unfold getbuf. mred.
    change (bcache k1) with (alter f i bs). rewrite Hat.
    change (has (b_flags (f (bs !!! i))) B_VALID) with false. cbn [negb]. unfold when.
    rewrite (bind_ok (iderw i) _ _ tt (set_bcache (alter (fun bf => g (f bf)) i bs) k)); [reflexivity|].
    rewrite (iderw_read k1 i b); [|unfold k1; ksimpl; now rewrite length_alter|exact Hb| |].
    + f_equal. change (bcache k1) with (alter f i bs). now rewrite <- Hfg.
    + change (bcache k1) with (alter f i bs). rewrite Hat. unfold is_blk, f. ksimpl.
      now rewrite Z.eqb_refl.
    + change (bcache k1) with (alter f i bs). now rewrite Hat.
  - split.
    + done.
    + done.
    + rewrite Hat. unfold is_blk, f, g. ksimpl. now rewrite Z.eqb_refl.
    + now rewrite Hat.
    + now rewrite Hat.
    + rewrite Hat. unfold bview. now rewrite Hca.
    + intros b'. rewrite (bdirty_change bs d l _ d l i b'); [|done|done|done| |].
      * rewrite Hat. destruct (is_blk b' (g (f (bs !!! i)))) eqn:E; [|done].
        apply Hblk in E as ->. unfold bdirty. now rewrite Hca.
      * intros j Hj Hne. rewrite alter_others by done. apply same_buf_refl.
      * intros _ H. unfold bdirty. now rewrite (cached_unique bs d l b' i).
    + intros j Hj Hne. now apply alter_others.
    + intros b'. rewrite (bview_change bs d l _ d l i b'); [|done|done|done| |done|].
      * rewrite Hat. destruct (is_blk b' (g (f (bs !!! i)))) eqn:E; [|done].
        apply Hblk in E as ->. unfold bview. now rewrite Hca.
      * intros j Hj Hne. rewrite alter_others by done. apply same_buf_refl.
      * intros _ H. now apply Hview.
Qed.

(** ** Releasing a buffer *)

(** The list operations of [brelse], and the buffer made idle. *)
Definition bmove (bs : list buf) (b : nat) : list buf :=
  let bs := alter (set_b_prev (prv bs b)) (nxt bs b) bs in
  let bs := alter (set_b_next (nxt bs b)) (prv bs b) bs in
  let bs := alter (set_b_next (nxt bs bhead)) b bs in
  let bs := alter (set_b_prev bhead) b bs in
  let bs := alter (set_b_prev b) (nxt bs bhead) bs in
  alter (set_b_next b) bhead bs.

Definition bidle (bs : list buf) (b : nat) : list buf :=
  alter (fun bf => set_b_flags (Z.ldiff (b_flags bf) B_BUSY) bf) b (bmove bs b).

Lemma nxt_alter_next v j bs x :
  (j < length bs)%nat -> nxt (alter (set_b_next v) j bs) x = (<[j:=v]> (nxt bs)) x.
Proof.
  intros Hj. unfold nxt. rewrite alter_total by done. case_decide as E.
  - subst. now rewrite fn_lookup_insert.
  - now rewrite fn_lookup_insert_ne.
Qed.

Lemma prv_alter_prev v j bs x :
  (j < length bs)%nat -> prv (alter (set_b_prev v) j bs) x = (<[j:=v]> (prv bs)) x.
Proof.
  intros Hj. unfold prv. rewrite alter_total by done. case_decide as E.
  - subst. now rewrite fn_lookup_insert.
  - now rewrite fn_lookup_insert_ne.
Qed.

Lemma nxt_alter (f : buf -> buf) j bs x :
  (j < length bs)%nat -> (forall y, b_next (f y) = b_next y) -> nxt (alter f j bs) x = nxt bs x.
Proof. intros Hj Hf. unfold nxt. rewrite alter_total by done. case_decide; subst; auto. Qed.

Lemma prv_alter (f : buf -> buf) j bs x :
  (j < length bs)%nat -> (forall y, b_prev (f y) = b_prev y) -> prv (alter f j bs) x = prv bs x.
Proof. intros Hj Hf. unfold prv. rewrite alter_total by done. case_decide; subst; auto. Qed.

(** The cache has [NBUF + 1] entries, linked by [N] and [P]. *)
Definition links (bs : list buf) (N P : nat -> nat) : Prop :=
  length bs = S bhead /\ (forall x, nxt bs x = N x) /\ (forall x, prv bs x = P x).

Lemma fn_insert_ext (f g : nat -> nat) i v x : f x = g x -> (<[i:=v]> f) x = (<[i:=v]> g) x.
Proof.
  intros H. destruct (decide (i = x)) as [->|Hne]; [now rewrite !fn_lookup_insert|].
  now rewrite !fn_lookup_insert_ne.
Qed.

Lemma links_next bs N P v j :
  links bs N P -> (j <= bhead)%nat -> links (alter (set_b_next v) j bs) (<[j:=v]> N) P.
Proof.
  intros (Hl & HN & HP) Hj. split_and!.
  - now rewrite length_alter.
  - intros x. rewrite nxt_alter_next by lia. now apply fn_insert_ext.
  - intros x. rewrite prv_alter; auto. lia.
Qed.

Lemma links_prev bs N P v j :
  links bs N P -> (j <= bhead)%nat -> links (alter (set_b_prev v) j bs) N (<[j:=v]> P).
Proof.
  intros (Hl & HN & HP) Hj. split_and!.
  - now rewrite length_alter.
  - intros x. rewrite nxt_alter; auto. lia.
  - intros x. rewrite prv_alter_prev by lia. now apply fn_insert_ext.
Qed.

Lemma same_buf_alter (f : buf -> buf) (j : nat) (bs bs0 : list buf) (x : nat) :
  (forall y, same_buf (f y) y) -> same_buf (bs !!! x) (bs0 !!! x) ->
  same_buf (alter f j bs !!! x) (bs0 !!! x).
Proof.
  intros Hf Hs. destruct (decide (j < length bs)%nat) as [Hj|Hj].
  - rewrite alter_total by done. case_decide as E; [subst j|done].
    destruct (Hf (bs !!! x)) as (? & ? & ? & ?), Hs as (? & ? & ? & ?). repeat split; congruence.
  - destruct (decide (j = x)) as [->|Hne]; [|now rewrite alter_others by congruence].
    assert (Hn : bs !! x = None) by (apply lookup_ge_None_2; lia).
    rewrite list_lookup_total_alt, list_lookup_alter_eq, Hn.
    now rewrite list_lookup_total_alt, Hn in Hs.
Qed.

Lemma bmove_same bs b x : same_buf (bmove bs b !!! x) (bs !!! x).
Proof. unfold bmove. do 6 (apply same_buf_alter; [done|]). apply same_buf_refl. Qed.

Lemma ring_bounds bs l i :
  ring (nxt bs) (prv bs) bhead l -> Permutation l (seq 0 bhead) -> i ∈ bhead :: l ->
  (nxt bs i <= bhead)%nat /\ (prv bs i <= bhead)%nat.
Proof.
  intros [Hc Hnd] Hp Hi.
  assert (Hl : forall x, x ∈ l -> (x < bhead)%nat).
  { intros x Hx. rewrite Hp, elem_of_seq in Hx. lia. }
  apply elem_of_cons in Hi as [->|Hi].
  - destruct (ring_first (nxt bs) (prv bs) bhead l) as [-> ->]; [done|]. split.
    + destruct (head l) as [x|] eqn:E; cbn; [|lia].
      enough (x ∈ l) as Hx by (apply Hl in Hx; lia). now apply head_Some_elem_of.
    + destruct (last l) as [x|] eqn:E; cbn; [|lia].
      enough (x ∈ l) as Hx by (apply Hl in Hx; lia). now apply last_Some_elem_of.
  - apply list_elem_of_split in Hi as (l1 & l2 & ->). apply chain_mid in Hc as [Hpv Hn].
    apply elem_of_cons in Hpv. apply elem_of_app in Hn. rewrite list_elem_of_singleton in Hn.
    split.
    + destruct Hn as [Hn| ->]; [|lia]. enough (nxt bs i < bhead)%nat by lia. apply Hl. set_solver.
    + destruct Hpv as [->|Hn']; [lia|]. enough (prv bs i < bhead)%nat by lia. apply Hl. set_solver.
Qed.

(** The released buffer moves to the front of the list. *)
Lemma bmove_ring bs d l1 b l2 :
  bc_inv bs d (l1 ++ b :: l2) ->
  ring (nxt (bmove bs b)) (prv (bmove bs b)) bhead (b :: l1 ++ l2).
Proof.
  intros [Hlen Hring Hperm _ _ _ _ _].
  assert (Hb : (b < bhead)%nat).
  { enough (b ∈ seq 0 bhead) as H by (apply elem_of_seq in H; lia). rewrite <- Hperm. set_solver. }
  destruct (ring_bounds bs _ b Hring Hperm) as [B1 B2]; [set_solver|].
  pose proof (ring_unlink _ _ _ _ _ _ Hring) as Hu.
  apply (ring_push _ _ _ _ b) in Hu.
  2:{ destruct Hring as [_ Hnd]. rewrite <- Permutation_middle, NoDup_cons in Hnd.
      destruct Hnd as [H1 H2]. apply NoDup_cons in H2 as [H2 _]. set_solver. }
  set (N2 := <[prv bs b := nxt bs b]> (nxt bs)) in *.
  set (P2 := <[nxt bs b := prv bs b]> (prv bs)) in *.
  assert (HN2 : (N2 bhead <= bhead)%nat).
  { unfold N2. destruct (ring_bounds bs _ bhead Hring Hperm) as [B3 _]; [set_solver|].
    destruct (decide (prv bs b = bhead)) as [->|]; [now rewrite fn_lookup_insert|
      now rewrite fn_lookup_insert_ne]. }
  unfold bmove.
  set (bs1 := alter (set_b_prev (prv bs b)) (nxt bs b) bs).
  assert (E1 : links bs1 (nxt bs) P2) by (apply links_prev; [done|lia]).
  assert (Pb : P2 b = prv bs b).
  { unfold P2. destruct (decide (nxt bs b = b)) as [E|E];
      [rewrite E at 1; apply fn_lookup_insert|now apply fn_lookup_insert_ne]. }
  destruct (E1) as (_ & HN1 & HP1). rewrite (HN1 b), (HP1 b), Pb.
  set (bs2 := alter (set_b_next (nxt bs b)) (prv bs b) bs1).
  assert (E2 : links bs2 N2 P2) by (apply links_next; [done|lia]).
  destruct (E2) as (_ & HN & _). rewrite (HN bhead).
  set (bs3 := alter (set_b_next (N2 bhead)) b bs2).
  assert (E3 : links bs3 (<[b := N2 bhead]> N2) P2) by (apply links_next; [done|lia]).
  set (bs4 := alter (set_b_prev bhead) b bs3).
  assert (E4 : links bs4 (<[b := N2 bhead]> N2) (<[b := bhead]> P2)) by (apply links_prev; [done|lia]).
  destruct (E4) as (_ & HN4 & _). rewrite (HN4 bhead), fn_lookup_insert_ne by lia.
  set (bs5 := alter (set_b_prev b) (N2 bhead) bs4).
  assert (E5 : links bs5 (<[b := N2 bhead]> N2) (<[N2 bhead := b]> (<[b := bhead]> P2)))
    by (apply links_prev; [done|lia]).
  assert (E6 : links (alter (set_b_next b) bhead bs5) (<[bhead := b]> (<[b := N2 bhead]> N2))
    (<[N2 bhead := b]> (<[b := bhead]> P2))) by (apply links_next; [done|lia]).
  destruct E6 as (_ & H1 & H2). now apply (ring_ext _ _ _ _ _ _ Hu).
Qed.

Lemma bc_inv_links bs bs' d l l' :
  bc_inv bs d l -> length bs' = length bs -> (forall j, same_buf (bs' !!! j) (bs !!! j)) ->
  ring (nxt bs') (prv bs') bhead l' -> Permutation l' l -> bc_inv bs' d l'.
Proof.
  intros [Hlen Hring Hperm Hfl Hdev Hkeys Hrange Hidle] Hl Hs Hr Hp.
  assert (Hblk : forall j b, is_blk b (bs' !!! j) = is_blk b (bs !!! j)).
  { intros j b. destruct (Hs j) as (_ & H1 & H2 & _). unfold is_blk. now rewrite H1, H2. }
  assert (Hf : forall j, b_flags (bs' !!! j) = b_flags (bs !!! j)) by (intros j; apply Hs).
  split.
  - congruence.
  - done.
  - now rewrite Hp.
  - intros i. now rewrite Hf.
  - intros i Hi. rewrite Hf. destruct (Hs i) as (_ & -> & _). auto.
  - intros i j b Hi Hj. rewrite !Hblk. now apply Hkeys.
  - intros i b Hi. rewrite Hblk. now apply Hrange.
  - intros i b Hi. rewrite Hblk, Hf. destruct (Hs i) as (_ & _ & _ & ->). now apply Hidle.
Qed.

(** ** The block layer

    What the clients of the cache rely on: the contents of each block as seen
    through the cache, which blocks wait to be written, and which buffers the
    caller holds. *)

Definition view (k : kernel) (b : Z) : list Z := bview (bcache k) (memdisk k) b.

Definition dirty (k : kernel) (b : Z) : bool := bdirty (bcache k) b.

(** The cache is well formed and the buffers [hs] are the busy ones. *)
Record blocks (k : kernel) (hs : list nat) : Prop := {
  blk_io : io_ok k;
  blk_inv : exists l, bc_inv (bcache k) (memdisk k) l;
  blk_busy : forall i, i ∈ hs <-> (i < bhead)%nat /\ has (b_flags (bcache k !!! i)) B_BUSY = true
}.

(** Buffer [i] holds block [b]. *)
Definition holds (k : kernel) (i : nat) (b : Z) : Prop :=
  (i < bhead)%nat /\ is_blk b (bcache k !!! i) = true /\ has (b_flags (bcache k !!! i)) B_VALID = true.

(** The buffer cache wakes the processes that wait for a buffer. *)
Definition woken (p p' : proc) : Prop :=
  p' = p \/ (p_state p = SLEEPING /\ p' = set_p_state RUNNABLE p).

(** The block layer changes nothing but the cache, the disk and who waits. *)
Definition io_frame (k k' : kernel) : Prop :=
  exists bs d w pt, Forall2 woken (ptable k) pt /\
    k' = set_ptable pt (set_diskwrites w (set_memdisk d (set_bcache bs k))).

Record bstep (k k' : kernel) (vw : Z -> list Z) (dt : Z -> bool) (dk : list (list Z))
    (ws : list (Z * list Z)) : Prop := {
  bs_frame : io_frame k k';
  bs_view : forall b, 0 <= b -> view k' b = vw b;
  bs_dirty : forall b, dirty k' b = dt b;
  bs_disk : memdisk k' = dk;
  bs_writes : diskwrites k' = ws
}.

Lemma woken_refl l : Forall2 woken l l.
Proof. induction l; constructor; [now left|done]. Qed.

Lemma woken_trans l1 l2 l3 : Forall2 woken l1 l2 -> Forall2 woken l2 l3 -> Forall2 woken l1 l3.
Proof.
  intros H. revert l3. induction H as [|p q l1 l2 Hpq _ IH]; intros l3 H3; inversion H3 as [|? r ? l4 Hqr Hl]; subst;
    constructor; [|auto].
  destruct Hpq as [->|[H1 ->]], Hqr as [->|[H2 ->]]; [now left|now right|now right|].
  cbn in H2. congruence.
Qed.

Lemma woken_wakeup ch l : Forall2 woken l (wakeup1_proc ch <$> l).
Proof.
  induction l as [|p l IH]; cbn; constructor; [|done].
  unfold woken, wakeup1_proc. case_match eqn:E; [right|now left].
  split; [|done]. apply andb_true_iff in E as [E _]. now apply bool_decide_eq_true in E.
Qed.

Lemma io_frame_refl k : io_frame k k.
Proof.
  exists (bcache k), (memdisk k), (diskwrites k), (ptable k). split; [apply woken_refl|].
  now destruct k.
Qed.

Lemma io_frame_trans k1 k2 k3 : io_frame k1 k2 -> io_frame k2 k3 -> io_frame k1 k3.
Proof.
  intros (bs & d & w & pt & Hw & ->) (bs' & d' & w' & pt' & Hw' & ->).
  exists bs', d', w', pt'. split; [|reflexivity]. now apply (woken_trans _ pt).
Qed.

Lemma io_frame_ok k k' : io_frame k k' -> io_ok k -> io_ok k'.
Proof. intros (bs & d & w & pt & _ & ->) H. exact H. Qed.

(** A block that is not dirty and that nobody holds is as the disk has it. *)
Lemma view_coherent k hs b :
  blocks k hs -> (forall i, i ∈ hs -> is_blk b (bcache k !!! i) = false) -> dirty k b = false ->
  view k b = memdisk k !!! Z.to_nat b.
Proof.
  intros [_ [l Hinv] Hb] Hnh. unfold dirty, bdirty, view, bview. destruct (cached (bcache k) b) as [i|] eqn:E; [|done].
  intros Hd. pose proof (cached_Some _ _ _ E) as [Hi Hbl].
  destruct (bc_idle _ _ _ Hinv i b Hi Hbl) as [Hv Hc].
  { apply not_true_iff_false. intros Hbi. rewrite Hnh in Hbl; [done|now apply Hb]. }
  rewrite Hv. auto.
Qed.

(** There is a buffer to recycle as long as the dirty blocks and the busy
    buffers do not fill the cache. *)
Lemma room k hs (L : list Z) :
  blocks k hs -> (forall b, dirty k b = true -> b ∈ L) -> (length L + length hs < bhead)%nat ->
  exists i, free_buf (bcache k) i.
Proof.
  intros [_ [l Hinv] Hbusy] HL Hlen.
  set (bs := bcache k) in *.
  destruct (bget_victim_found bs (memdisk k) l Hinv) as [(i & _ & Hi)|[_ Hno]]; [now exists i|exfalso].
  set (ds := filter (fun i => has (b_flags (bs !!! i)) B_DIRTY = true) (seq 0 bhead)).
  assert (Hds : forall i, i ∈ ds <-> (i < bhead)%nat /\ has (b_flags (bs !!! i)) B_DIRTY = true).
  { intros i. unfold ds. rewrite list_elem_of_filter, elem_of_seq. intuition lia. }
  assert (Hown : forall i, i ∈ ds -> is_blk (b_blockno (bs !!! i)) (bs !!! i) = true).
  { intros i Hi. apply Hds in Hi as [Hi Hd]. destruct (bc_dev _ _ _ Hinv i Hi) as [Hdev|Hf].
    - unfold is_blk. now rewrite Hdev, !Z.eqb_refl.
    - rewrite Hf in Hd. discriminate. }
  assert (Hcov : seq 0 bhead ⊆ hs ++ ds).
  { intros i Hi. apply elem_of_seq in Hi. apply elem_of_app.
    destruct (has (b_flags (bs !!! i)) B_BUSY) eqn:Eb; [left; apply Hbusy; auto with lia|].
    destruct (has (b_flags (bs !!! i)) B_DIRTY) eqn:Ed; [right; apply Hds; auto with lia|].
    exfalso. apply (Hno i). split_and!; auto. lia. }
  assert (Hnd : NoDup ((fun i => b_blockno (bs !!! i)) <$> ds)).
  { apply NoDup_fmap_2_strong; [|apply NoDup_filter, NoDup_seq].
    intros i j Hi Hj E. pose proof (Hown i Hi) as Oi. pose proof (Hown j Hj) as Oj. rewrite E in Oi.
    apply (bc_keys _ _ _ Hinv i j (b_blockno (bs !!! j))); [apply Hds in Hi; tauto|apply Hds in Hj; tauto|done|done]. }
  assert (Hsub : ((fun i => b_blockno (bs !!! i)) <$> ds) ⊆ L).
  { intros b Hb. apply list_elem_of_fmap in Hb as (i & -> & Hi). apply HL. unfold dirty, bdirty. fold bs.
    rewrite (cached_unique bs _ l _ i Hinv); [now apply Hds|now apply Hds in Hi|now apply Hown]. }
  apply NoDup_submseteq, submseteq_length in Hcov; [|apply NoDup_seq].
  apply NoDup_submseteq, submseteq_length in Hsub; [|done].
  rewrite length_app, length_seq in Hcov. rewrite length_fmap in Hsub. lia.
Qed.


(** Buffer [i] was given to the caller with block [b] in it: it was not busy and now is, it has the
    block's contents, and nothing else changed. *)
Definition handed (b : Z) (hs : list nat) (k : kernel) (i : nat) (k' : kernel) : Prop :=
  blocks k' (i :: hs) /\ holds k' i b /\ (i ∉ hs) /\
  b_data (bcache k' !!! i) = view k b /\
  (forall j, j ∈ hs -> bcache k' !!! j = bcache k !!! j) /\
  bstep k k' (view k) (dirty k) (memdisk k) (diskwrites k).

Lemma look_blocks n k hs b :
  blocks k hs -> 0 <= b < Z.of_nat (length (memdisk k)) ->
  (forall i, i ∈ hs -> is_blk b (bcache k !!! i) = false) ->
  is_Some (cached (bcache k) b) \/ (exists i, free_buf (bcache k) i) ->
  exists i k', bread_look n b (held Lbcache k) = Ok i k' /\ handed b hs k i k'.
Proof.
  unfold handed. intros [Hio [l Hinv] Hbusy] Hb Hnh Hroom.
  assert (Hnb : forall i, cached (bcache k) b = Some i -> has (b_flags (bcache k !!! i)) B_BUSY = false).
  { intros i E. apply cached_Some in E as [Hi Hbl]. apply not_true_iff_false. intros Hbi.
    rewrite Hnh in Hbl; [done|now apply Hbusy]. }
  assert (Hspec : exists i bs', bread_look n b (held Lbcache k) = Ok i (set_bcache bs' k) /\ bc_inv bs' (memdisk k) l /\
    got (bcache k) (memdisk k) b i bs').
  { destruct (cached (bcache k) b) as [i|] eqn:E.
    - exists i. apply look_cached; auto.
    - destruct Hroom as [[? [=]]|Hf]. now apply look_miss. }
  destruct Hspec as (i & bs' & Hrun & Hinv' & Hg).
  assert (Hni : i ∉ hs).
  { intros Hin. apply Hbusy in Hin as [_ Hin]. rewrite (got_was_idle _ _ _ _ _ Hg) in Hin. done. }
  exists i, (set_bcache bs' k). split_and!; try done.
  - split; [exact Hio|exists l; exact Hinv'|]. intros j. rewrite elem_of_cons, Hbusy.
    change (bcache (set_bcache bs' k)) with bs'. destruct (decide (j = i)) as [->|Hne].
    + pose proof (got_busy _ _ _ _ _ Hg). pose proof (got_i _ _ _ _ _ Hg). tauto.
    + split.
      * intros [?|[Hj Hbj]]; [done|]. now rewrite (got_others _ _ _ _ _ Hg j Hj Hne).
      * intros [Hj Hbj]. rewrite (got_others _ _ _ _ _ Hg j Hj Hne) in Hbj. auto.
  - split_and!; apply Hg.
  - apply Hg.
  - intros j Hj. apply (got_others _ _ _ _ _ Hg); [now apply Hbusy in Hj|congruence].
  - split; try done.
    + exists bs', (memdisk k), (diskwrites k), (ptable k). split; [apply woken_refl|now destruct k].
    + intros b' _. apply Hg.
    + apply Hg.
Qed.

Lemma bread_blocks k hs b :
  blocks k hs -> 0 <= b < Z.of_nat (length (memdisk k)) ->
  (forall i, i ∈ hs -> is_blk b (bcache k !!! i) = false) ->
  is_Some (cached (bcache k) b) \/ (exists i, free_buf (bcache k) i) ->
  exists i k', bread 1 b k = Ok i k' /\ handed b hs k i k'.
Proof. intros H. rewrite bread_enter by apply H. now apply look_blocks. Qed.

(** What the holder of a buffer may do to it. *)
Record keeps (f : buf -> buf) (x : buf) : Prop := {
  kp_next : forall y, b_next (f y) = b_next y;
  kp_prev : forall y, b_prev (f y) = b_prev y;
  kp_dev : b_dev (f x) = b_dev x;
  kp_blockno : b_blockno (f x) = b_blockno x;
  kp_flags : 0 <= b_flags (f x) < 8;
  kp_busy : has (b_flags (f x)) B_BUSY = true;
  kp_valid : has (b_flags (f x)) B_VALID = true
}.

Lemma blocks_alter k hs i b f d' :
  blocks k hs -> i ∈ hs -> holds k i b -> keeps f (bcache k !!! i) ->
  length d' = length (memdisk k) ->
  (forall b', 0 <= b' -> b' <> b -> d' !!! Z.to_nat b' = memdisk k !!! Z.to_nat b') ->
  let k' := set_memdisk d' (set_bcache (alter f i (bcache k)) k) in
  blocks k' hs /\ holds k' i b /\ bcache k' !!! i = f (bcache k !!! i) /\
  (forall j, j <> i -> bcache k' !!! j = bcache k !!! j) /\
  (forall b', 0 <= b' -> view k' b' = if decide (b' = b) then b_data (f (bcache k !!! i)) else view k b') /\
  (forall b', dirty k' b' = if decide (b' = b) then has (b_flags (f (bcache k !!! i))) B_DIRTY else dirty k b').
Proof.
  intros [Hio [l Hinv] Hbusy] Hin (Hi & Hblk & Hval) [K1 K2 K3 K4 K5 K6 K7] Hlen Hd k'.
  set (bs := bcache k) in *. set (bs' := alter f i bs).
  assert (Hil : (i < length bs)%nat) by (rewrite (bc_len _ _ _ Hinv); lia).
  assert (Hat : bs' !!! i = f (bs !!! i)) by (unfold bs'; rewrite alter_total, decide_True; done).
  assert (Hot : forall j, j <> i -> bs' !!! j = bs !!! j) by (intros j Hj; now apply alter_others).
  assert (Hfb : forall b', is_blk b' (f (bs !!! i)) = bool_decide (b' = b)).
  { intros b'. unfold is_blk in *. rewrite K3, K4. case_bool_decide; lia. }
  assert (Hinv' : bc_inv bs' d' l).
  { apply (bc_inv_alter bs (memdisk k)); try done.
    - left. rewrite K3. now apply is_blk_dev in Hblk.
    - intros b' E. rewrite Hfb in E. apply bool_decide_eq_true in E as ->.
      split_and!; [now apply (bc_range _ _ _ Hinv i b)..| |congruence].
      intros j Hj Hne. destruct (is_blk b (bs !!! j)) eqn:E; [|done].
      exfalso. apply Hne. now apply (bc_keys _ _ _ Hinv j i b).
    - intros j b' Hj Hne E. apply Hd; [apply (bc_range _ _ _ Hinv j b' Hj E)|].
      intros ->. apply Hne. now apply (bc_keys _ _ _ Hinv j i b). }
  assert (Hsame : forall j, (j < bhead)%nat -> j <> i -> same_buf (bs' !!! j) (bs !!! j)).
  { intros j _ Hne. rewrite Hot by done. apply same_buf_refl. }
  assert (Hno : forall b', is_blk b' (bs' !!! i) = false -> is_blk b' (bs !!! i) = true -> False).
  { intros b'. rewrite Hat, Hfb, bool_decide_eq_false. intros Hne E. apply Hne.
    now apply (is_blk_eq b' b (bs !!! i)). }
  split_and!; try done.
  - split; [exact Hio|now exists l|]. intros j. rewrite Hbusy. change (bcache k') with bs'.
    destruct (decide (j = i)) as [->|Hne]; [rewrite Hat|now rewrite Hot].
    apply Hbusy in Hin. tauto.
  - unfold holds. change (bcache k') with bs'. rewrite Hat, Hfb, bool_decide_eq_true_2; done.
  - intros b' Hb'. change (bview bs' d' b' = if decide (b' = b) then b_data (f (bs !!! i)) else bview bs (memdisk k) b').
    rewrite (bview_change bs (memdisk k) l bs' d' l i b'); try done; [|..].
    + rewrite Hat, Hfb. case_decide as E; [now rewrite bool_decide_eq_true_2, K7|now rewrite bool_decide_eq_false_2].
    + rewrite Hat, Hfb, bool_decide_eq_false. auto.
    + intros H1 H2. now destruct (Hno b').
  - intros b'. change (bdirty bs' b' = if decide (b' = b) then has (b_flags (f (bs !!! i))) B_DIRTY else bdirty bs b').
    rewrite (bdirty_change bs (memdisk k) l bs' d' l i b'); try done.
    + rewrite Hat, Hfb. case_decide as E; [now rewrite bool_decide_eq_true_2|now rewrite bool_decide_eq_false_2].
    + intros H1 H2. now destruct (Hno b').
Qed.

Lemma holds_view k hs i b :
  blocks k hs -> holds k i b ->
  view k b = b_data (bcache k !!! i) /\ dirty k b = has (b_flags (bcache k !!! i)) B_DIRTY /\
  0 <= b < Z.of_nat (length (memdisk k)) /\ cached (bcache k) b = Some i.
Proof.
  intros [_ [l Hinv] _] (Hi & Hb & Hv). unfold view, bview, dirty, bdirty.
  rewrite (cached_unique _ _ l b i Hinv Hi Hb), Hv. split_and!; try done; now apply (bc_range _ _ _ Hinv i b).
Qed.

Definition upd {A} (V : Z -> A) (b : Z) (x : A) : Z -> A :=
  fun b' => if decide (b' = b) then x else V b'.

(** Changing the data of a held buffer. *)
Lemma setdata_blocks k hs i b x :
  blocks k hs -> i ∈ hs -> holds k i b ->
  exists k', updbuf i (set_b_data x) k = Ok tt k' /\ blocks k' hs /\ holds k' i b /\
    bcache k' !!! i = set_b_data x (bcache k !!! i) /\
    (forall j, j <> i -> bcache k' !!! j = bcache k !!! j) /\
    bstep k k' (upd (view k) b x) (dirty k) (memdisk k) (diskwrites k).
Proof.
  intros Hbl Hin Hh. pose proof (holds_view _ _ _ _ Hbl Hh) as (_ & Hdt & _ & _).
  destruct (blocks_alter k hs i b (set_b_data x) (memdisk k)) as (B1 & B2 & B3 & B4 & B5 & B6); try done.
  { destruct Hbl as [_ [l Hinv] Hbusy]. apply Hbusy in Hin as [_ Hin]. destruct Hh as (_ & _ & Hv).
    split; try done. apply (bc_flags _ _ _ Hinv). }
  set (k1 := set_memdisk _ _) in *. exists k1. split_and!; [reflexivity|done..|].
  split; try done.
  - exists (bcache k1), (memdisk k), (diskwrites k), (ptable k). split; [apply woken_refl|now destruct k].
  - intros b'. rewrite B6. case_decide; subst; auto.
Qed.

Lemma bwrite_blocks k hs i b :
  blocks k hs -> i ∈ hs -> holds k i b ->
  exists k', bwrite i k = Ok tt k' /\ blocks k' hs /\ holds k' i b /\
    b_data (bcache k' !!! i) = b_data (bcache k !!! i) /\
    (forall j, j <> i -> bcache k' !!! j = bcache k !!! j) /\
    bstep k k' (view k) (upd (dirty k) b false) (<[Z.to_nat b := view k b]> (memdisk k))
      (diskwrites k ++ [(b, view k b)]).
Proof.
  intros Hbl Hin Hh. pose proof (holds_view _ _ _ _ Hbl Hh) as (Hvw & Hdt & Hrg & _).
  set (bs := bcache k) in *.
  set (f := fun bf => set_b_flags (Z.lor (Z.ldiff (Z.lor (b_flags bf) B_DIRTY) B_DIRTY) B_VALID) bf).
  pose proof Hbl as [_ [l Hinv] Hbusy]. apply Hbusy in Hin as Hbi. destruct Hbi as [Hi Hbi].
  pose proof Hh as (_ & Hblk & Hv). fold bs in Hinv, Hbi, Hblk, Hv.
  assert (Hil : (i < length bs)%nat) by (rewrite (bc_len _ _ _ Hinv); lia).
  destruct (flags_lor (b_flags (bs !!! i)) B_DIRTY (bc_flags _ _ _ Hinv i)) as (F1 & F2 & F3); [auto|].
  destruct (flags_ldiff (Z.lor (b_flags (bs !!! i)) B_DIRTY) B_DIRTY F1) as (F4 & F5 & F6); [auto|].
  destruct (flags_lor (Z.ldiff (Z.lor (b_flags (bs !!! i)) B_DIRTY) B_DIRTY) B_VALID F4) as (F7 & F8 & F9); [auto|].
  assert (Fb : has (b_flags (f (bs !!! i))) B_BUSY = true)
    by (unfold f; ksimpl; rewrite F9, F6, F3; auto; done).
  assert (Fd : has (b_flags (f (bs !!! i))) B_DIRTY = false)
    by (unfold f; ksimpl; rewrite F9; auto; done).
  destruct (blocks_alter k hs i b f (<[Z.to_nat b := view k b]> (memdisk k))) as (B1 & B2 & B3 & B4 & B5 & B6);
    [done|done|done|split; try done|apply length_insert| |].
  { intros b' Hb' Hne. apply list_lookup_total_insert_ne. lia. }
  set (k1 := set_memdisk _ _) in *.
  exists (set_diskwrites (diskwrites k ++ [(b, view k b)]) k1). split_and!.
  - unfold bwrite, iderw, getbuf, updbuf. mred. fold bs. rewrite Hbi. cbn [negb]. mred. ksimpl.
    fold bs. rewrite alter_total, decide_True by done. ksimpl. rewrite flags_nothing_to_do by done.
    rewrite F2, F3, Hbi by (auto || done). rewrite andb_false_r. cbn [negb].
    rewrite (is_blk_dev _ _ Hblk). cbn [negb Z.eqb Pos.eqb].
    assert (Eb : b_blockno (bs !!! i) = b) by (unfold is_blk in Hblk; lia). rewrite Eb. mred. ksimpl.
    destruct (Z.leb_spec (Z.of_nat (length (memdisk k))) b); [lia|]. unfold bind, modify. cbn [obind]. ksimpl.
    f_equal. unfold k1. rewrite Hvw. fold bs.
    assert (E : alter f i bs = alter (fun bf => set_b_flags (Z.lor (b_flags bf) B_VALID) bf) i
      (alter (fun bf => set_b_flags (Z.ldiff (b_flags bf) B_DIRTY) bf) i
      (alter (fun bf => set_b_flags (Z.lor (b_flags bf) B_DIRTY) bf) i bs)))
      by (rewrite !list_alter_alter_eq; reflexivity).
    rewrite E. reflexivity.
  - destruct B1 as [C1 C2 C3]. split; [exact C1|exact C2|exact C3].
  - exact B2.
  - change (bcache (set_diskwrites _ k1)) with (bcache k1). now rewrite B3.
  - exact B4.
  - split; try done.
    + exists (bcache k1), (memdisk k1), (diskwrites k ++ [(b, view k b)]), (ptable k).
      split; [apply woken_refl|now destruct k].
    + intros b' Hb'. change (view k1 b' = view k b'). rewrite B5 by done. case_decide; [subst|done].
      rewrite Hvw. done.
    + intros b'. change (dirty k1 b' = upd (dirty k) b false b'). rewrite B6. fold bs. now rewrite Fd.
Qed.

Lemma bmove_length bs i : length (bmove bs i) = length bs.
Proof. unfold bmove. now rewrite !length_alter. Qed.

Lemma brelse_run k i :
  io_ok k -> has (b_flags (bcache k !!! i)) B_BUSY = true ->
  brelse i k = Ok tt (set_bcache (bidle (bcache k) i) (set_ptable (wakeup1_proc (CBuf i) <$> ptable k) k)).
Proof.
  intros (Hc & Hl & Hpt) Hb. unfold brelse, getbuf, updbuf. mred. rewrite Hb. cbn [negb].
  mok (acquire_free Lbcache k Hl). mred.
  set (k1 := set_bcache (bidle (bcache k) i) k).
  match goal with |- bind _ _ ?s = _ => change s with (held Lbcache k1) end.
  assert (Hpt' : lock_free Lptable (held Lbcache k1)) by now apply lock_free_held.
  mok (wakeup_run (CBuf i) (held Lbcache k1) (cpu_ok_pushed _ Hc) Hpt').
  set (k2 := set_ptable (wakeup1_proc (CBuf i) <$> ptable k) k1).
  exact (release_held Lbcache k2 Hc Hl).
Qed.

Lemma bidle_inv bs d l1 i l2 b :
  bc_inv bs d (l1 ++ i :: l2) -> (i < bhead)%nat -> is_blk b (bs !!! i) = true ->
  has (b_flags (bs !!! i)) B_VALID = true ->
  (has (b_flags (bs !!! i)) B_DIRTY = false -> b_data (bs !!! i) = d !!! Z.to_nat b) ->
  bc_inv (bidle bs i) d (i :: l1 ++ l2).
Proof.
  intros Hinv Hi Hblk Hv Hsync.
  assert (Hm : bc_inv (bmove bs i) d (i :: l1 ++ l2)).
  { apply (bc_inv_links bs _ d _ _ Hinv); [apply bmove_length|apply bmove_same| |apply Permutation_middle].
    now apply (bmove_ring bs d). }
  destruct (bmove_same bs i i) as (S1 & S2 & S3 & S4).
  destruct (flags_ldiff (b_flags (bs !!! i)) B_BUSY (bc_flags _ _ _ Hinv i)) as (F1 & F2 & F3); [auto|].
  assert (Hd : b_dev (bmove bs i !!! i) = 1) by (rewrite S2; now apply is_blk_dev in Hblk).
  apply (bc_inv_alter (bmove bs i) d); try done; ksimpl; rewrite ?S1; [done|now left|].
  intros b' E.
  assert (E' : is_blk b' (bs !!! i) = true) by (unfold is_blk in *; ksimpl_in E; now rewrite S2, S3 in E).
  rewrite (is_blk_eq b' b (bs !!! i)) in * by done.
  split_and!; [now apply (bc_range _ _ _ Hinv i b)..| |].
  - intros j Hj Hne. destruct (is_blk b (bmove bs i !!! j)) eqn:Ej; [|done].
    exfalso. apply Hne. apply (bc_keys _ _ _ Hm j i b); try done.
    unfold is_blk in E' |- *. now rewrite S2, S3.
  - intros _. rewrite !F3 by (auto || done). now rewrite S4.
Qed.

(** Releasing a buffer whose contents the disk has, or will get from the log. *)
Lemma brelse_blocks k hs i b :
  blocks k (i :: hs) -> (i ∉ hs) -> holds k i b ->
  (dirty k b = false -> view k b = memdisk k !!! Z.to_nat b) ->
  exists k', brelse i k = Ok tt k' /\ blocks k' hs /\
    (forall j, j <> i -> same_buf (bcache k' !!! j) (bcache k !!! j)) /\
    bstep k k' (view k) (dirty k) (memdisk k) (diskwrites k).
Proof.
  intros Hbl Hni Hh Hsync. pose proof (holds_view _ _ _ _ Hbl Hh) as (Hvw & Hdt & Hrg & _).
  destruct Hbl as [Hio [l Hinv] Hbusy]. pose proof Hio as (Hc & Hl & Hpt).
  set (bs := bcache k) in *. set (d := memdisk k) in *.
  destruct (Hbusy i) as [Hbi _]. destruct Hbi as [Hi Hbi]; [set_solver|]. destruct Hh as (_ & Hblk & Hv).
  fold bs in Hblk, Hv, Hvw, Hdt.
  assert (Hil : i ∈ l) by (rewrite (bc_perm _ _ _ Hinv), elem_of_seq; lia).
  apply list_elem_of_split in Hil as (l1 & l2 & ->).
  assert (Hinv' : bc_inv (bidle bs i) d (i :: l1 ++ l2)).
  { apply (bidle_inv bs d l1 i l2 b); try done. intros E. rewrite <- Hvw. apply Hsync. now rewrite Hdt. }
  destruct (bmove_same bs i i) as (S1 & S2 & S3 & S4).
  destruct (flags_ldiff (b_flags (bs !!! i)) B_BUSY (bc_flags _ _ _ Hinv i)) as (F1 & F2 & F3); [auto|].
  set (f := fun bf => set_b_flags (Z.ldiff (b_flags bf) B_BUSY) bf).
  assert (Hat : bidle bs i !!! i = f (bmove bs i !!! i)).
  { unfold bidle. rewrite alter_total, decide_True; [done..|].
    rewrite bmove_length, (bc_len _ _ _ Hinv). lia. }
  assert (Hbd : forall b', is_blk b' (bidle bs i !!! i) = is_blk b' (bs !!! i)).
  { intros b'. rewrite Hat. unfold is_blk, f. ksimpl. now rewrite S2, S3. }
  assert (Hot : forall j, j <> i -> same_buf (bidle bs i !!! j) (bs !!! j)).
  { intros j Hne. unfold bidle. rewrite alter_others by done. apply bmove_same. }
  assert (Ff : b_flags (bidle bs i !!! i) = Z.ldiff (b_flags (bs !!! i)) B_BUSY).
  { rewrite Hat. unfold f. ksimpl. now rewrite S1. }
  assert (Fdat : b_data (bidle bs i !!! i) = b_data (bs !!! i)) by (rewrite Hat; exact S4).
  exists (set_bcache (bidle bs i) (set_ptable (wakeup1_proc (CBuf i) <$> ptable k) k)). split_and!.
  - now apply brelse_run.
  - split; [exact Hio|now exists (i :: l1 ++ l2)|]. intros j.
    change (bcache (set_bcache (bidle bs i) _)) with (bidle bs i).
    destruct (decide (j = i)) as [->|Hne].
    + rewrite Ff, F2. split; [done|]. intros [_ [=]].
    + destruct (Hot j Hne) as (-> & _). rewrite <- Hbusy. set_solver.
  - exact Hot.
  - split; try done.
    + exists (bidle bs i), d, (diskwrites k), (wakeup1_proc (CBuf i) <$> ptable k).
      split; [apply woken_wakeup|now destruct k].
    + intros b' _. change (bview (bidle bs i) d b' = bview bs d b').
      rewrite (bview_change bs d _ (bidle bs i) d _ i b' Hinv Hinv'); try done; [|auto|].
      * rewrite Hbd. destruct (is_blk b' (bs !!! i)) eqn:E; [|done].
        rewrite Ff, F3, Hv, Fdat by (auto || done). unfold bview.
        now rewrite (cached_unique bs d _ b' i Hinv), Hv.
      * rewrite Hbd. congruence.
    + intros b'. change (bdirty (bidle bs i) b' = bdirty bs b').
      rewrite (bdirty_change bs d _ (bidle bs i) d _ i b' Hinv Hinv'); try done; [|auto|].
      * rewrite Hbd. destruct (is_blk b' (bs !!! i)) eqn:E; [|done].
        rewrite Ff, F3 by (auto || done). unfold bdirty. now rewrite (cached_unique bs d _ b' i Hinv).
      * rewrite Hbd. congruence.
Qed.

(** ** Boot *)

(** One round of [binit]'s loop. *)
Definition binit_step (bs : list buf) (b : nat) : list buf :=
  let bs := alter (set_b_next (nxt bs bhead)) b bs in
  let bs := alter (set_b_prev bhead) b bs in
  let bs := alter (set_b_dev (u32 (-1))) b bs in
  let bs := alter (set_b_prev b) (nxt bs bhead) bs in
  alter (set_b_next b) bhead bs.

Definition binit_bs (bs : list buf) : list buf :=
  foldl binit_step (alter (set_b_next bhead) bhead (alter (set_b_prev bhead) bhead bs)) (seq 0 bhead).

Lemma binit_loop_run l : forall k, binit_loop l k = Ok tt (set_bcache (foldl binit_step (bcache k) l) k).
Proof.
  induction l as [|b l IH]; intros k; cbn [binit_loop foldl]; [now destruct k|].
  unfold getbuf, updbuf. mred. now rewrite IH.
Qed.

Lemma binit_run k :
  binit k = Ok tt (set_bcache (binit_bs (bcache k))
    (set_k_locks (<[Lbcache := unlocked "bcache"]> (k_locks k)) k)).
Proof.
  unfold binit, initlock, updbuf. mred. rewrite binit_loop_run. fold bhead.
  unfold binit_bs. f_equal.
Qed.

Definition bss_bcache : list buf := replicate (S bhead) buf0.

Lemma binit_bs_inv d : bc_inv (binit_bs bss_bcache) d (reverse (seq 0 bhead)).
Proof.
  assert (Hf : forall i, b_flags (binit_bs bss_bcache !!! i) = 0).
  { intros i. do 32 (destruct i as [|i]; [vm_compute; reflexivity|]). vm_compute; reflexivity. }
  assert (Hb : forall i b, (i < bhead)%nat -> is_blk b (binit_bs bss_bcache !!! i) = false).
  { intros i b Hi. unfold is_blk.
    do 30 (destruct i as [|i]; [replace (b_dev _ =? 1) with false by (vm_compute; reflexivity); reflexivity|]).
    change bhead with 30%nat in Hi. lia. }
  assert (Hl : length (binit_bs bss_bcache) = S bhead) by (vm_compute; reflexivity).
  assert (Hr : ring (nxt (binit_bs bss_bcache)) (prv (binit_bs bss_bcache)) bhead (reverse (seq 0 bhead))).
  { split; [vm_compute; tauto|]. apply (bool_decide_unpack _). vm_compute. exact I. }
  generalize dependent (binit_bs bss_bcache). intros bs Hf Hb Hl Hr.
  split; auto.
  - apply reverse_Permutation.
  - intros i. rewrite Hf. lia.
  - intros i j b Hi _ H. rewrite Hb in H; done.
  - intros i b Hi H. rewrite Hb in H; done.
  - intros i b Hi H. rewrite Hb in H; done.
Qed.

Lemma cached_fresh bs b : (forall i, (i < bhead)%nat -> is_blk b (bs !!! i) = false) -> cached bs b = None.
Proof.
  intros H. destruct (cached bs b) as [i|] eqn:E; [|done].
  apply cached_Some in E as [Hi Hb]. now rewrite H in Hb.
Qed.

(** After [binit] at boot the cache is empty: it shows the disk. *)
Lemma binit_blocks k :
  bcache k = bss_bcache -> cpu_ok (k_cpu k) -> lock_free Lptable k ->
  exists k', binit k = Ok tt k' /\ blocks k' [] /\
    k' = set_bcache (binit_bs bss_bcache) (set_k_locks (<[Lbcache := unlocked "bcache"]> (k_locks k)) k) /\
    (forall b, dirty k' b = false) /\ (forall b, view k' b = memdisk k !!! Z.to_nat b).
Proof.
  intros Hbs Hc Hpt. pose proof (binit_bs_inv (memdisk k)) as Hinv.
  assert (Hf : forall i, (i < bhead)%nat -> b_dev (binit_bs bss_bcache !!! i) = u32 (-1) /\
     b_flags (binit_bs bss_bcache !!! i) = 0).
  { intros i Hi. do 30 (destruct i as [|i]; [vm_compute; auto|]). change bhead with 30%nat in Hi. lia. }
  rewrite binit_run, Hbs. generalize dependent (binit_bs bss_bcache). intros bs Hinv Hf.
  eexists. split; [reflexivity|]. split_and!; [|reflexivity| |].
  - split; [split_and!; [exact Hc| |]|exists (reverse (seq 0 bhead)); exact Hinv|].
    + exists "bcache"%string. apply lookup_insert_eq.
    + destruct Hpt as [nm Hpt]. exists nm. cbn. now rewrite lookup_insert_ne.
    + intros i. split; [set_solver|]. intros [Hi Hbi]. cbn in Hbi.
      destruct (Hf i Hi) as [_ E]. rewrite E in Hbi. done.
  - intros b. unfold dirty, bdirty. ksimpl. rewrite cached_fresh; [done|].
    intros i Hi. destruct (Hf i Hi) as [E _]. unfold is_blk. now rewrite E.
  - intros b. unfold view, bview. ksimpl. rewrite cached_fresh; [done|].
    intros i Hi. destruct (Hf i Hi) as [E _]. unfold is_blk. now rewrite E.
Qed.

(** ** Properties *)

(** A process [p] that can read blocks: it runs, holds no spin lock, and the cache is well formed. *)
Definition reader (p : nat) (k : kernel) : Prop := running Lbcache p k /\ exists hs, blocks k hs.

(** The buffer of the block, when somebody holds it. *)
Definition busy_buf (k : kernel) (b : Z) (i : nat) : Prop :=
  cached (bcache k) b = Some i /\ has (b_flags (bcache k !!! i)) B_BUSY = true.

Definition no_buffers (k : kernel) (b : Z) : Prop :=
  cached (bcache k) b = None /\ forall i, ~ free_buf (bcache k) i.

(** A read of block [b] by process [p] that looks at the cache in state [k] and may sleep [n] times:
    it returns a buffer, or stops for want of buffers, or the block's buffer is busy; then it sleeps
    on that buffer with the cache's lock given up, and whatever state the scheduler resumes it in, it
    looks again. *)
Fixpoint reads (p : nat) (b : Z) (n : nat) (k : kernel) (o : outcome waiting kernel nat) {struct n} : Prop :=
  match o with
  | Ok i k' => forall hs, blocks k hs -> handed b hs k i k'
  | Panic msg =>
      (no_buffers k b /\ msg = "bget: no buffers"%string) \/
      (n = O /\ (exists i, busy_buf k b i) /\ msg = "model: loop bound exceeded"%string)
  | Blocked w s cont =>
      match n with
      | O => False
      | S n' =>
          exists i, busy_buf k b i /\ w = WSwtch /\ s = held Lptable (sleeping p (CBuf i) k) /\
          forall k3, reader p k3 -> 0 <= b < Z.of_nat (length (memdisk k3)) ->
            reads p b n' (with_if (intr_flag k) (awake p k3)) (cont (held Lptable k3))
      end
  end.

Lemma look_no_buffers n k hs b : blocks k hs -> no_buffers k b -> bread_look n b (held Lbcache k) = Panic "bget: no buffers".
Proof.
  intros [_ [l Hinv] _] [Hca Hno]. unfold bread_look. rewrite bget_loop_eq, bind_assoc by exact I. mred.
  change (bcache (held Lbcache k)) with (bcache k). rewrite (bget_find_cached _ _ l b Hinv), Hca.
  destruct (bget_victim_found _ _ l Hinv) as [(i & _ & Hi)|[-> _]]; [now destruct (Hno i)|reflexivity].
Qed.

(** The cases of a look. *)
Lemma look_cases k hs b : blocks k hs ->
  (exists i, busy_buf k b i) \/ no_buffers k b \/
  (forall i, i ∈ hs -> is_blk b (bcache k !!! i) = false) /\
  (is_Some (cached (bcache k) b) \/ (exists i, free_buf (bcache k) i)).
Proof.
  intros [_ [l Hinv] Hb]. destruct (cached (bcache k) b) as [i|] eqn:E.
  - destruct (has (b_flags (bcache k !!! i)) B_BUSY) eqn:Ei; [left; now exists i|right; right]. split; [|left; now exists i].
    intros j [Hj Hbj]%Hb. apply not_true_iff_false. intros Hk. rewrite (cached_unique _ _ l b j Hinv Hj Hk) in E. congruence.
  - right. destruct (bget_victim_found _ _ l Hinv) as [(i & _ & Hi)|[_ Hno]]; [right|now left]. split; [|right; now exists i].
    intros j [Hj _]%Hb. now apply cached_None.
Qed.

Lemma reader_awake p f k : reader p k -> f = 0 \/ f = FL_IF -> reader p (with_if f (awake p k)).
Proof.
  intros [Hr (hs & [(Hc & H1 & H2) Hi Hb])] Hf. pose proof (running_awake Lbcache p f k Hr Hf) as Hr'. split; [done|].
  exists hs. split; [split_and!; [apply (run_idle _ _ _ Hr')|done|done]|done|done].
Qed.

Lemma look_handed n k hs b :
  blocks k hs -> 0 <= b < Z.of_nat (length (memdisk k)) ->
  (forall i, i ∈ hs -> is_blk b (bcache k !!! i) = false) ->
  is_Some (cached (bcache k) b) \/ (exists i, free_buf (bcache k) i) ->
  exists i k', bread_look n b (held Lbcache k) = Ok i k' /\ forall hs', blocks k hs' -> handed b hs' k i k'.
Proof.
  intros Hbl Hb Hnh Hroom. destruct (look_blocks n k hs b Hbl Hb Hnh Hroom) as (i & k' & R & _). exists i, k'. split; [done|].
  intros hs' Hbl'. destruct (look_blocks n k hs' b Hbl' Hb) as (i2 & k2 & R2 & H2); [|done|congruence].
  intros j Hj. apply Hnh, (blk_busy _ _ Hbl), (blk_busy _ _ Hbl'), Hj.
Qed.

Lemma look_busy n k hs b i : blocks k hs -> busy_buf k b i -> bread_look n b (held Lbcache k) =
  match n with
  | O => Panic "model: loop bound exceeded"
  | S n' => (i' <- (sleep (CBuf i) Lbcache ;; bget_loop n' 1 b) ;; bf <- getbuf i' ;;
      when (negb (has (b_flags bf) B_VALID)) (iderw i') ;; ret i') (held Lbcache k)
  end.
Proof.
  intros [_ [l Hinv] _] [Hca Hbu]. unfold bread_look. rewrite bget_loop_eq, bind_assoc by exact I. mred.
  change (bcache (held Lbcache k)) with (bcache k). rewrite (bget_find_cached _ _ l b Hinv), Hca, Hbu. now destruct n.
Qed.

Lemma look_reads p b n : forall k, reader p k -> 0 <= b < Z.of_nat (length (memdisk k)) ->
  reads p b n k (bread_look n b (held Lbcache k)).
Proof.
  induction n as [|n IH]; intros k [Hr [hs Hbl]] Hb; destruct (look_cases k hs b Hbl) as [[i Hi]|[Hno|[Hnh Hroom]]].
  2, 5: rewrite (look_no_buffers _ k hs b Hbl Hno); now left.
  2, 4: lazymatch goal with |- reads _ _ ?m _ _ => destruct (look_handed m k hs b Hbl Hb Hnh Hroom) as (i & k' & -> & H) end; exact H.
  all: rewrite (look_busy _ k hs b i Hbl Hi).
  - right. split_and!; [done|now exists i|done].
  - pose proof Hr as [R1 R2 R3 R4 R5]. destruct (sleep_spec (CBuf i) Lbcache k p) as (cont & R & Hcont); try done.
    rewrite (bind_blocked _ _ _ _ _ _ (bind_blocked _ _ _ _ _ _ R)). exists i. split_and!; try done.
    intros k3 Hk3 Hb3. pose proof Hk3 as [[G1 G2 G3 G4 G5] _]. rewrite (Hcont k3 G1 G2 G3 G4). cbn [obind].
    apply IH; [|done]. apply reader_awake; [done|apply intr_flag_cases].
Qed.

(** A read of a block whose buffer is busy sleeps: it cannot return or stop. *)
Lemma reads_busy p b n k hs o i : blocks k hs -> busy_buf k b i -> reads p b (S n) k o ->
  exists cont, o = Blocked WSwtch (held Lptable (sleeping p (CBuf i) k)) cont /\
    forall k3, reader p k3 -> 0 <= b < Z.of_nat (length (memdisk k3)) ->
      reads p b n (with_if (intr_flag k) (awake p k3)) (cont (held Lptable k3)).
Proof.
  intros Hbl [Hca Hbu] H. pose proof (cached_Some _ _ _ Hca) as [Hi Hib]. destruct o as [j k'|msg|w s cont]; cbn [reads] in H.
  - destruct (H hs Hbl) as ([_ [l Hinv] _] & (Hj & Hjb & _) & Hn & _ & Hk & _). destruct Hn.
    assert (Hin : i ∈ hs) by now apply (blk_busy _ _ Hbl). rewrite <- (Hk i Hin) in Hib.
    now rewrite (bc_keys _ _ _ Hinv j i b).
  - destruct H as [[[Hca' _] _]|[? _]]; congruence.
  - destruct H as (i' & [Hca' _] & -> & -> & H). exists cont. split; [|done]. congruence.
Qed.

(** C8. [bread] hands out a busy, valid buffer of the block that holds the
    contents the kernel last gave the block.  The buffer was not busy before, the
    block has no second buffer ([blocks] holds afterwards), other held buffers keep
    their contents, and no block's contents or dirtiness change.  Only when the
    block is not cached and every buffer is busy or dirty does the kernel stop.
    When somebody holds the block's buffer, the caller sleeps on that buffer with
    the cache's lock given up, and it looks again, with the same result, in
    whatever state it is resumed in while the cache is well formed ([reads]). *)
Theorem bread_correct k hs b :
  blocks k hs -> 0 <= b < Z.of_nat (length (memdisk k)) ->
  ((forall i, i ∈ hs -> is_blk b (bcache k !!! i) = false) ->
   is_Some (cached (bcache k) b) \/ (exists i, free_buf (bcache k) i) ->
   exists i k', bread 1 b k = Ok i k' /\ handed b hs k i k') /\
  (no_buffers k b -> bread 1 b k = Panic "bget: no buffers") /\
  (forall p, running Lbcache p k -> reads p b max_sleeps k (bread 1 b k)).
Proof.
  intros Hbl Hb. split_and!; [intros Hnh Hr; now apply bread_blocks|..]; rewrite bread_enter by apply Hbl.
  - now apply (look_no_buffers _ k hs).
  - intros p Hp. apply look_reads; [|done]. split; [done|now exists hs].
Qed.

(** Reading a block, changing it, writing it through and releasing it:
    the disk holds the new contents and has seen exactly that one write, the
    kernel sees the new contents, no other block changes, and no buffer stays
    busy. *)
Lemma bupdate_correct k b x :
  blocks k [] -> 0 <= b < Z.of_nat (length (memdisk k)) ->
  is_Some (cached (bcache k) b) \/ (exists i, free_buf (bcache k) i) ->
  exists k', (i <- bread 1 b ;; updbuf i (set_b_data x) ;; bwrite i ;; brelse i) k = Ok tt k' /\
    blocks k' [] /\
    bstep k k' (upd (view k) b x) (upd (dirty k) b false) (<[Z.to_nat b := x]> (memdisk k))
      (diskwrites k ++ [(b, x)]).
Proof.
  intros Hbl Hb Hr.
  destruct (bread_blocks k [] b Hbl Hb) as (i & k1 & R1 & B1 & H1 & _ & _ & _ & S1); [set_solver|done|].
  destruct (setdata_blocks k1 [i] i b x B1) as (k2 & R2 & B2 & H2 & _ & _ & S2); [set_solver|done|].
  destruct (bwrite_blocks k2 [i] i b B2) as (k3 & R3 & B3 & H3 & _ & _ & S3); [set_solver|done|].
  assert (V2 : view k2 b = x).
  { rewrite (bs_view _ _ _ _ _ _ S2) by lia. unfold upd. now rewrite decide_True. }
  destruct (brelse_blocks k3 [] i b B3) as (k4 & R4 & B4 & _ & S4); [set_solver|done| |].
  { intros _. rewrite (bs_view _ _ _ _ _ _ S3), (bs_disk _ _ _ _ _ _ S3) by lia.
    rewrite list_lookup_total_insert_eq; [done|]. destruct S1 as [_ _ _ E1 _], S2 as [_ _ _ E2 _].
    rewrite E2, E1. lia. }
  exists k4. split_and!; [mok R1; mok R2; mok R3; exact R4|done|].
  destruct S1 as [F1 V1 D1 E1 W1], S2 as [F2 V2' D2 E2 W2], S3 as [F3 V3 D3 E3 W3], S4 as [F4 V4 D4 E4 W4].
  split.
  - eauto using io_frame_trans.
  - intros b' Hb'. rewrite V4, V3, V2' by done. unfold upd. case_decide; [done|]. now apply V1.
  - intros b'. rewrite D4, D3. unfold upd. case_decide; [done|]. now rewrite D2, D1.
  - rewrite E4, E3, E2, E1, V2. done.
  - rewrite W4, W3, W2, W1, V2. done.
Qed.

(** Process 3 runs on a machine whose disk has 8 blocks of sevens. *)
Definition example_disk : kernel := set_memdisk (replicate 8 (replicate 512 7)) kernel_p3.

Lemma example_disk_ok : bcache example_disk = bss_bcache /\ cpu_ok (k_cpu example_disk) /\
  lock_free Lptable example_disk.
Proof. split_and!; [reflexivity|apply kernel_p3_idle|exists "ptable"%string; reflexivity]. Qed.

Lemma room_idle k : blocks k [] -> (forall b, dirty k b = false) -> exists i, free_buf (bcache k) i.
Proof.
  intros Hbl Hd. apply (room k [] []); [done| |]; [intros b; now rewrite Hd|].
  unfold bhead. change (Z.to_nat NBUF) with 30%nat. cbn. lia.
Qed.

Lemma bread_correct_witness :
  exists k i k' cont, binit example_disk = Ok tt k /\ bread 1 3 k = Ok i k' /\
    b_data (bcache k' !!! i) = replicate 512 7 /\
    bread 1 3 k' = Blocked WSwtch (held Lptable (sleeping 3 (CBuf i) k')) cont.
Proof.
  destruct example_disk_ok as (H1 & H2 & H3).
  destruct (binit_blocks example_disk H1 H2 H3) as (k & R & Hbl & E & Hd & Hv).
  assert (Hlen : length (memdisk k) = 8%nat) by (rewrite E; reflexivity).
  assert (Hv3 : view k 3 = replicate 512 7) by (rewrite Hv; reflexivity).
  assert (Hr : running Lbcache 3 k).
  { rewrite E. split; [apply kernel_p3_idle|exists "ptable"%string; reflexivity|exists "bcache"%string; reflexivity|reflexivity|].
    apply Nat.ltb_lt. reflexivity. }
  clear E Hv. destruct (bread_correct k [] 3 Hbl) as [Hok _]; [lia|].
  destruct Hok as (i & k' & R' & Hh); [intros i Hi; now apply elem_of_nil in Hi|right; now apply room_idle|].
  destruct Hh as (Hbl' & (Hi & Hib & _) & _ & Hdat & _ & [(bs & d & w & pt & Hw & Ek) _ _ Em _]).
  destruct (bread_correct k' [i] 3 Hbl') as (_ & _ & Hs); [rewrite Em; lia|].
  assert (Hbusy : busy_buf k' 3 i).
  { destruct Hbl' as [_ [l Hinv] Hb]. split; [now apply (cached_unique _ (memdisk k') l)|apply Hb, list_elem_of_here]. }
  assert (Hr' : running Lbcache 3 k').
  { rewrite Ek. destruct Hr as [G1 G2 G3 G4 G5]. split; [exact G1|exact G2|exact G3|exact G4|].
    change (3 < length pt)%nat. now rewrite <- (Forall2_length _ _ _ Hw). }
  destruct (reads_busy 3 3 999 k' [i] (bread 1 3 k') i Hbl' Hbusy (Hs 3%nat Hr')) as (cont & Rs & _).
  exists k, i, k', cont. split_and!; [exact R|exact R'|now rewrite Hdat|exact Rs].
Defined.

Lemma bupdate_correct_witness :
  exists k k', binit example_disk = Ok tt k /\
    (i <- bread 1 3 ;; updbuf i (set_b_data [1]) ;; bwrite i ;; brelse i) k = Ok tt k' /\
    memdisk k' = <[3%nat := [1]]> (replicate 8 (replicate 512 7)).
Proof.
  destruct example_disk_ok as (H1 & H2 & H3).
  destruct (binit_blocks example_disk H1 H2 H3) as (k & R & Hbl & E & Hd & Hv).
  assert (Hlen : memdisk k = replicate 8 (replicate 512 7)) by (rewrite E; reflexivity). clear E Hv.
  destruct (bupdate_correct k 3 [1] Hbl) as (k' & R' & _ & S).
  - rewrite Hlen. cbn. lia.
  - right. now apply room_idle.
  - exists k, k'. split_and!; [exact R|exact R'|]. rewrite (bs_disk _ _ _ _ _ _ S), Hlen. reflexivity.
Defined.
