(* ===== verification/Bytes.v ===== *)
(** * Byte blocks

    The contents of disk blocks, pipe buffers and the like are lists of bytes.
    The file holds the little-endian loads and stores the C code makes through
    casts of a [data] array, and the laws that relate them. *)

From S2P Require Import Prelude State.

(** ** Loads and stores *)

Definition ld8 (l : list Z) (o : Z) : Z := l !!! Z.to_nat o.
Definition ld16 (l : list Z) (o : Z) : Z := ld8 l o + 2 ^ 8 * ld8 l (o + 1).
Definition ld32 (l : list Z) (o : Z) : Z :=
  ld8 l o + 2 ^ 8 * ld8 l (o + 1) + 2 ^ 16 * ld8 l (o + 2) + 2 ^ 24 * ld8 l (o + 3).

Definition le16 (v : Z) : list Z := [u8 v; u8 (v / 2 ^ 8)].
Definition le32 (v : Z) : list Z := [u8 v; u8 (v / 2 ^ 8); u8 (v / 2 ^ 16); u8 (v / 2 ^ 24)].

(** Bytes [d] written from offset [o] on. *)
Definition put (l : list Z) (o : Z) (d : list Z) : list Z := list_inserts (Z.to_nat o) d l.
Definition st8 (l : list Z) (o v : Z) : list Z := put l o [u8 v].
Definition st16 (l : list Z) (o v : Z) : list Z := put l o (le16 v).
Definition st32 (l : list Z) (o v : Z) : list Z := put l o (le32 v).

(** The [n] bytes from offset [o] on. *)
Definition slice (l : list Z) (o n : Z) : list Z := take (Z.to_nat n) (drop (Z.to_nat o) l).

Definition bytes_ok (l : list Z) : Prop := Forall (fun b => 0 <= b < 256) l.

(** The contents of a disk block. *)
Definition block_ok (l : list Z) : Prop := length l = Z.to_nat BSIZE /\ bytes_ok l.

#[global] Arguments put : simpl never.
#[global] Arguments st8 : simpl never.
#[global] Arguments st16 : simpl never.
#[global] Arguments st32 : simpl never.
#[global] Arguments ld8 : simpl never.
#[global] Arguments ld16 : simpl never.
#[global] Arguments ld32 : simpl never.
#[global] Arguments slice : simpl never.

(** ** Laws *)

Lemma length_put l o d : length (put l o d) = length l.
Proof. apply length_inserts. Qed.

Lemma ld8_put l o d i :
  0 <= o -> o + Z.of_nat (length d) <= Z.of_nat (length l) -> 0 <= i ->
  ld8 (put l o d) i =
    if decide (o <= i < o + Z.of_nat (length d)) then d !!! Z.to_nat (i - o) else ld8 l i.
Proof.
  intros Ho Hl Hi. unfold ld8, put. case_decide as H; rewrite !list_lookup_total_alt; f_equal.
  - rewrite list_lookup_inserts by lia. f_equal. lia.
  - destruct (decide (i < o)).
    + apply list_lookup_inserts_lt. lia.
    + apply list_lookup_inserts_ge. lia.
Qed.

Lemma ld8_put_ne l o d i :
  0 <= o -> o + Z.of_nat (length d) <= Z.of_nat (length l) -> 0 <= i ->
  i < o \/ o + Z.of_nat (length d) <= i -> ld8 (put l o d) i = ld8 l i.
Proof. intros. rewrite ld8_put by done. rewrite decide_False; [done|lia]. Qed.

Lemma ld32_put_ne l o d i :
  0 <= o -> o + Z.of_nat (length d) <= Z.of_nat (length l) -> 0 <= i ->
  i + 4 <= o \/ o + Z.of_nat (length d) <= i -> ld32 (put l o d) i = ld32 l i.
Proof. intros. unfold ld32. rewrite !ld8_put_ne by lia. done. Qed.

Lemma ld16_put_ne l o d i :
  0 <= o -> o + Z.of_nat (length d) <= Z.of_nat (length l) -> 0 <= i ->
  i + 2 <= o \/ o + Z.of_nat (length d) <= i -> ld16 (put l o d) i = ld16 l i.
Proof. intros. unfold ld16. rewrite !ld8_put_ne by lia. done. Qed.

Lemma word32_bytes v :
  u8 v + 2 ^ 8 * u8 (v / 2 ^ 8) + 2 ^ 16 * u8 (v / 2 ^ 16) + 2 ^ 24 * u8 (v / 2 ^ 24) = u32 v.
Proof. unfold u8, u32. Z.div_mod_to_equations. lia. Qed.

Lemma word16_bytes v : u8 v + 2 ^ 8 * u8 (v / 2 ^ 8) = u16 v.
Proof. unfold u8, u16. Z.div_mod_to_equations. lia. Qed.

Lemma ld32_st32 l o v :
  0 <= o -> o + 4 <= Z.of_nat (length l) -> ld32 (st32 l o v) o = u32 v.
Proof.
  intros Ho Hl. unfold ld32, st32. rewrite !ld8_put by (cbn; lia). cbn [length le32].
  rewrite !decide_True by (cbn; lia).
  replace (o - o) with 0 by lia. replace (o + 1 - o) with 1 by lia.
  replace (o + 2 - o) with 2 by lia. replace (o + 3 - o) with 3 by lia.
  apply word32_bytes.
Qed.

Lemma ld16_st16 l o v :
  0 <= o -> o + 2 <= Z.of_nat (length l) -> ld16 (st16 l o v) o = u16 v.
Proof.
  intros Ho Hl. unfold ld16, st16. rewrite !ld8_put by (cbn; lia). cbn [length le16].
  rewrite !decide_True by (cbn; lia).
  replace (o - o) with 0 by lia. replace (o + 1 - o) with 1 by lia.
  apply word16_bytes.
Qed.

Lemma bytes_ok_put l o d : bytes_ok l -> bytes_ok d -> bytes_ok (put l o d).
Proof.
  unfold bytes_ok. intros Hl Hd. apply Forall_lookup. intros i x Hx.
  apply list_lookup_inserts_Some in Hx. rewrite Forall_lookup in Hl, Hd.
  destruct Hx as [[_ Hx]|(_ & _ & Hx)]; eauto.
Qed.

Lemma bytes_ok_le32 v : bytes_ok (le32 v).
Proof. unfold le32, bytes_ok. repeat constructor; apply u8_range. Qed.

Lemma bytes_ok_le16 v : bytes_ok (le16 v).
Proof. unfold le16, bytes_ok. repeat constructor; apply u8_range. Qed.

Lemma block_ok_put l o d : block_ok l -> bytes_ok d -> block_ok (put l o d).
Proof. intros [H1 H2] Hd. split; [now rewrite length_put|now apply bytes_ok_put]. Qed.

Lemma ld8_range l o : bytes_ok l -> 0 <= o < Z.of_nat (length l) -> 0 <= ld8 l o < 256.
Proof.
  intros Hl Ho. unfold ld8. unfold bytes_ok in Hl. rewrite Forall_lookup in Hl. apply (Hl (Z.to_nat o)).
  apply list_lookup_lookup_total_lt. lia.
Qed.

Lemma ld32_range l o : bytes_ok l -> 0 <= o -> o + 4 <= Z.of_nat (length l) -> 0 <= ld32 l o < 2 ^ 32.
Proof.
  intros Hl Ho Hle. unfold ld32.
  pose proof (ld8_range l o Hl). pose proof (ld8_range l (o + 1) Hl).
  pose proof (ld8_range l (o + 2) Hl). pose proof (ld8_range l (o + 3) Hl). lia.
Qed.
