(* ===== verification/Log.v ===== *)
(** * The write-ahead log (log.c)

    The operations of log.c on the block layer of Bio.v, and [readsb] of fs.c,
    which [initlog] calls.  The theorems say that a commit is atomic under
    crashes: whatever prefix of its disk writes reached the disk, and however
    often recovery itself is cut short, recovery ends with all of the
    transaction's blocks or none. *)

From S2P Require Import Prelude State Spinlock Sched Bio Bytes.

(** ** fs.c: the superblock *)

Definition decode_sb (d : list Z) : superblock :=
  mkSuperblock (ld32 d 0) (ld32 d 4) (ld32 d 8) (ld32 d 12) (ld32 d 16) (ld32 d 20) (ld32 d 24).

Definition readsb (dev : Z) : K superblock :=
  bp <- bread (u32 dev) 1 ;;
  bf <- getbuf bp ;;
  let sb := decode_sb (b_data bf) in
  brelse bp ;;
  ret sb.

(** ** log.c *)

(** [log.lh.block[i]], an access to an array of [LOGSIZE] words. *)
Definition get_block (i : Z) : K Z :=
  l <- gets k_log ;;
  match lh_block l !! Z.to_nat i with
  | Some v => ret v
  | None => out_of_bounds
  end.

Definition set_block (i v : Z) : K unit :=
  l <- gets k_log ;;
  match lh_block l !! Z.to_nat i with
  | Some _ => updlog (fun l => set_lh_block (<[Z.to_nat i := v]> (lh_block l)) l)
  | None => out_of_bounds
  end.

(** The loops run [log.lh.n] rounds; [fuel] is that number. *)
Fixpoint install_trans_loop (fuel : nat) (tail : Z) : K unit :=
  l <- gets k_log ;;
  if tail <? lh_n l then
    match fuel with
    | O => out_of_fuel
    | S fuel' =>
        lbuf <- bread (u32 (lg_dev l)) (u32 (lg_start l + tail + 1)) ;;
        blk <- get_block tail ;;
        dbuf <- bread (u32 (lg_dev l)) (u32 blk) ;;
        lb <- getbuf lbuf ;;
        updbuf dbuf (set_b_data (b_data lb)) ;;
        bwrite dbuf ;;
        brelse lbuf ;;
        brelse dbuf ;;
        install_trans_loop fuel' (tail + 1)
    end
  else ret tt.

Definition install_trans : K unit :=
  l <- gets k_log ;;
  install_trans_loop (Z.to_nat (lh_n l)) 0.

(** [lh->block[i]] of a header block. *)
Definition hd_block (d : list Z) (i : Z) : Z := s32 (ld32 d (4 + 4 * i)).
Definition hd_n (d : list Z) : Z := s32 (ld32 d 0).

Fixpoint read_head_loop (fuel : nat) (d : list Z) (i : Z) : K unit :=
  l <- gets k_log ;;
  if i <? lh_n l then
    match fuel with
    | O => out_of_fuel
    | S fuel' => set_block i (hd_block d i) ;; read_head_loop fuel' d (i + 1)
    end
  else ret tt.

Definition read_head : K unit :=
  l <- gets k_log ;;
  buf <- bread (u32 (lg_dev l)) (u32 (lg_start l)) ;;
  bf <- getbuf buf ;;
  let lh := b_data bf in
  updlog (set_lh_n (hd_n lh)) ;;
  read_head_loop (Z.to_nat (hd_n lh)) lh 0 ;;
  brelse buf.

Fixpoint write_head_loop (fuel : nat) (buf : nat) (i : Z) : K unit :=
  l <- gets k_log ;;
  if i <? lh_n l then
    match fuel with
    | O => out_of_fuel
    | S fuel' =>
        v <- get_block i ;;
        updbuf buf (fun bf => set_b_data (st32 (b_data bf) (4 + 4 * i) v) bf) ;;
        write_head_loop fuel' buf (i + 1)
    end
  else ret tt.

Definition write_head : K unit :=
  l <- gets k_log ;;
  buf <- bread (u32 (lg_dev l)) (u32 (lg_start l)) ;;
  updbuf buf (fun bf => set_b_data (st32 (b_data bf) 0 (lh_n l)) bf) ;;
  write_head_loop (Z.to_nat (lh_n l)) buf 0 ;;
  bwrite buf ;;
  brelse buf.

Definition recover_from_log : K unit :=
  read_head ;;
  install_trans ;;
  updlog (set_lh_n 0) ;;
  write_head.

(** [sizeof(struct logheader)] is [4 + 4 * LOGSIZE]. *)
Definition initlog (dev : Z) : K unit :=
  if BSIZE <=? 4 + 4 * LOGSIZE then panic "initlog: too big logheader" else
  initlock Llog "log" ;;
  sb <- readsb dev ;;
  updlog (set_lg_start (s32 (sb_logstart sb))) ;;
  updlog (set_lg_size (s32 (sb_nlog sb))) ;;
  updlog (set_lg_dev dev) ;;
  recover_from_log.

(** [fuel] bounds the number of times the caller is put to sleep. *)
Fixpoint begin_op_loop (fuel : nat) : K unit :=
  l <- gets k_log ;;
  if negb (lg_committing l =? 0) then
    match fuel with
    | O => out_of_fuel
    | S fuel' => sleep CLog Llog ;; begin_op_loop fuel'
    end
  else if LOGSIZE <? lh_n l + (lg_outstanding l + 1) * MAXOPBLOCKS then
    match fuel with
    | O => out_of_fuel
    | S fuel' => sleep CLog Llog ;; begin_op_loop fuel'
    end
  else
    updlog (fun l => set_lg_outstanding (lg_outstanding l + 1) l) ;;
    release Llog.

Definition begin_op : K unit :=
  acquire Llog ;;
  begin_op_loop max_sleeps.

Fixpoint write_log_loop (fuel : nat) (tail : Z) : K unit :=
  l <- gets k_log ;;
  if tail <? lh_n l then
    match fuel with
    | O => out_of_fuel
    | S fuel' =>
        to <- bread (u32 (lg_dev l)) (u32 (lg_start l + tail + 1)) ;;
        blk <- get_block tail ;;
        from <- bread (u32 (lg_dev l)) (u32 blk) ;;
        fb <- getbuf from ;;
        updbuf to (set_b_data (b_data fb)) ;;
        bwrite to ;;
        brelse from ;;
        brelse to ;;
        write_log_loop fuel' (tail + 1)
    end
  else ret tt.

Definition write_log : K unit :=
  l <- gets k_log ;;
  write_log_loop (Z.to_nat (lh_n l)) 0.

Definition commit : K unit :=
  l <- gets k_log ;;
  when (0 <? lh_n l)
    (write_log ;;
     write_head ;;
     install_trans ;;
     updlog (set_lh_n 0) ;;
     write_head).

Definition end_op : K unit :=
  acquire Llog ;;
  updlog (fun l => set_lg_outstanding (lg_outstanding l - 1) l) ;;
  l <- gets k_log ;;
  if negb (lg_committing l =? 0) then panic "log.committing" else
  do_commit <-
    (if lg_outstanding l =? 0 then updlog (set_lg_committing 1) ;; ret true
     else wakeup CLog ;; ret false) ;;
  release Llog ;;
  when do_commit
    (commit ;;
     acquire Llog ;;
     updlog (set_lg_committing 0) ;;
     wakeup CLog ;;
     release Llog).

(** The search of [log_write]: the first [i < n] whose entry is [blockno], or [n]. *)
Fixpoint log_find (fuel : nat) (i n : Z) (bl : list Z) (blockno : Z) : Z :=
  match fuel with
  | O => i
  | S fuel' =>
      if i <? n then
        if u32 (bl !!! Z.to_nat i) =? blockno then i else log_find fuel' (i + 1) n bl blockno
      else i
  end.

Definition log_write (b : nat) : K unit :=
  l <- gets k_log ;;
  if (LOGSIZE <=? lh_n l) || (lg_size l - 1 <=? lh_n l) then panic "too big a transaction" else
  if lg_outstanding l <? 1 then panic "log_write outside of trans" else
  acquire Llog ;;
  l <- gets k_log ;;
  bf <- getbuf b ;;
  let i := log_find (Z.to_nat (lh_n l)) 0 (lh_n l) (lh_block l) (b_blockno bf) in
  set_block i (s32 (b_blockno bf)) ;;
  when (i =? lh_n l) (updlog (fun l => set_lh_n (lh_n l + 1) l)) ;;
  updbuf b (fun bf => set_b_flags (Z.lor (b_flags bf) B_DIRTY) bf) ;;
  release Llog.

(** ** Sequences of disk writes *)

Definition writes : Type := list (Z * list Z).

Definition apply_writes (d : list (list Z)) (wr : writes) : list (list Z) :=
  foldl (fun d w => <[Z.to_nat (fst w) := snd w]> d) d wr.

(** The contents of the blocks after the writes. *)
Definition upds (V : Z -> list Z) (wr : writes) : Z -> list Z :=
  foldl (fun V w => upd V (fst w) (snd w)) V wr.

Lemma apply_writes_app d w1 w2 : apply_writes d (w1 ++ w2) = apply_writes (apply_writes d w1) w2.
Proof. apply foldl_app. Qed.

Lemma upds_app V w1 w2 : upds V (w1 ++ w2) = upds (upds V w1) w2.
Proof. apply foldl_app. Qed.

Lemma length_apply_writes wr : forall d, length (apply_writes d wr) = length d.
Proof. induction wr as [|w wr IH]; intros d; cbn; [done|]. now rewrite IH, length_insert. Qed.

Lemma upds_ext V V' wr b : V b = V' b -> upds V wr b = upds V' wr b.
Proof.
  revert V V'. induction wr as [|w wr IH]; intros V V' H; cbn; [done|].
  apply IH. unfold upd. now case_decide.
Qed.

Lemma upds_other V wr b : b ∉ wr.*1 -> upds V wr b = V b.
Proof.
  revert V. induction wr as [|w wr IH]; intros V H; cbn; [done|].
  rewrite IH by set_solver. unfold upd. rewrite decide_False; [done|set_solver].
Qed.

(** The disk as a function of the block number. *)
Definition dsk (d : list (list Z)) (b : Z) : list Z := d !!! Z.to_nat b.

Definition in_range (d : list (list Z)) (b : Z) : Prop := 0 <= b < Z.of_nat (length d).

Lemma dsk_apply_writes wr : forall d b,
  Forall (fun w => in_range d (fst w)) wr -> 0 <= b ->
  dsk (apply_writes d wr) b = upds (dsk d) wr b.
Proof.
  induction wr as [|w wr IH]; intros d b Hw Hb; [done|].
  apply Forall_cons in Hw as [Hw1 Hw2].
  change (dsk (apply_writes (<[Z.to_nat (fst w) := snd w]> d) wr) b
    = upds (upd (dsk d) (fst w) (snd w)) wr b).
  rewrite IH; [|unfold in_range in *; now rewrite length_insert|done].
  apply upds_ext. unfold dsk, upd, in_range in *. case_decide as E.
  - subst. apply list_lookup_total_insert_eq. lia.
  - apply list_lookup_total_insert_ne. lia.
Qed.

(** Writing through: the block layer's contents and the disk change alike. *)
Record wsteps (k k' : kernel) (wr : writes) : Prop := {
  ws_frame : io_frame k k';
  ws_view : forall b, 0 <= b -> view k' b = upds (view k) wr b;
  ws_dirty : forall b, dirty k' b = dirty k b && negb (bool_decide (b ∈ wr.*1));
  ws_disk : memdisk k' = apply_writes (memdisk k) wr;
  ws_writes : diskwrites k' = diskwrites k ++ wr
}.

Lemma wsteps_refl k : wsteps k k [].
Proof.
  split; try done.
  - apply io_frame_refl.
  - intros b. rewrite bool_decide_false by set_solver. now rewrite andb_true_r.
  - now rewrite app_nil_r.
Qed.

Lemma wsteps_trans k1 k2 k3 w1 w2 : wsteps k1 k2 w1 -> wsteps k2 k3 w2 -> wsteps k1 k3 (w1 ++ w2).
Proof.
  intros [F1 V1 D1 E1 W1] [F2 V2 D2 E2 W2]. split.
  - now apply (io_frame_trans k1 k2).
  - intros b Hb. rewrite V2, upds_app by done. now apply upds_ext, V1.
  - intros b. rewrite D2, D1, <- andb_assoc. f_equal. clear.
    rewrite fmap_app, <- negb_orb, <- bool_decide_or. f_equal. apply bool_decide_ext. now rewrite elem_of_app.
  - now rewrite E2, E1, apply_writes_app.
  - now rewrite W2, W1, app_assoc.
Qed.

Lemma bstep_wsteps k k' b x :
  bstep k k' (upd (view k) b x) (upd (dirty k) b false) (<[Z.to_nat b := x]> (memdisk k))
    (diskwrites k ++ [(b, x)]) -> wsteps k k' [(b, x)].
Proof.
  intros [F V D E W]. split; try done.
  intros b'. rewrite D. unfold upd. cbn [fmap list_fmap fst].
  rewrite (bool_decide_ext _ (b' = b)) by apply list_elem_of_singleton.
  case_decide; case_bool_decide; try done; [now rewrite andb_false_r|now rewrite andb_true_r].
Qed.

Lemma bstep_quiet k k' :
  bstep k k' (view k) (dirty k) (memdisk k) (diskwrites k) -> wsteps k k' [].
Proof.
  intros [F V D E W]. split; try done.
  - intros b. rewrite D, bool_decide_false by (clear; set_solver). now rewrite andb_true_r.
  - now rewrite app_nil_r.
Qed.

Lemma io_frame_log k k' : io_frame k k' -> k_log k' = k_log k /\ k_locks k' = k_locks k /\ k_cpu k' = k_cpu k.
Proof. now intros (bs & d & w & pt & _ & ->). Qed.

Lemma blocks_perm k hs hs' : blocks k hs -> (forall i, i ∈ hs <-> i ∈ hs') -> blocks k hs'.
Proof. intros [H1 H2 H3] He. split; [done|done|]. intros i. now rewrite <- He. Qed.

(** ** One copied block *)

(** The end of both copy loops: source and destination are held. *)
Lemma copy_tail k src dst bs bd :
  blocks k [src; dst] -> src <> dst -> holds k src bs -> holds k dst bd -> bs <> bd ->
  (dirty k bs = false -> view k bs = memdisk k !!! Z.to_nat bs) ->
  exists k', (forall c : K unit, (fb <- getbuf src ;; updbuf dst (set_b_data (b_data fb)) ;; bwrite dst ;;
              brelse src ;; brelse dst ;; c) k = c k') /\
    blocks k' [] /\ wsteps k k' [(bd, view k bs)].
Proof.
  intros Hbl Hne Hs Hd Hb Hsync.
  destruct (holds_view _ _ _ _ Hbl Hs) as (Vs & _ & Rs & _).
  destruct (holds_view _ _ _ _ Hbl Hd) as (_ & _ & Rd & _).
  set (x := b_data (bcache k !!! src)) in *.
  destruct (setdata_blocks k [src; dst] dst bd x Hbl) as (k2 & R2 & B2 & H2 & _ & O2 & S2); [set_solver|done|].
  destruct (bwrite_blocks k2 [src; dst] dst bd B2) as (k3 & R3 & B3 & H3 & _ & O3 & S3); [set_solver|done|].
  assert (Hs3 : holds k3 src bs).
  { destruct Hs as (P1 & P2 & P3). unfold holds. rewrite O3, O2 by done. done. }
  destruct S2 as [F2 V2 D2 E2 W2], S3 as [F3 V3 D3 E3 W3].
  destruct (brelse_blocks k3 [dst] src bs B3) as (k4 & R4 & B4 & O4 & S4); [set_solver|done| |].
  { rewrite D3, V3, E3, E2, V2 by lia. unfold upd. rewrite !(decide_False (P := bs = bd)), D2 by done.
    rewrite list_lookup_total_insert_ne by lia. exact Hsync. }
  destruct S4 as [F4 V4 D4 E4 W4].
  assert (Hd4 : holds k4 dst bd).
  { destruct H3 as (P1 & P2 & P3). destruct (O4 dst) as (Q1 & Q2 & Q3 & Q4); [done|].
    unfold holds, is_blk in *. rewrite Q1, Q2, Q3. done. }
  assert (Vd : view k2 bd = x) by (rewrite V2 by lia; unfold upd; now rewrite decide_True).
  destruct (brelse_blocks k4 [] dst bd B4) as (k5 & R5 & B5 & _ & S5); [set_solver|done| |].
  { intros _. rewrite V4, V3, E4, E3, Vd by lia. rewrite list_lookup_total_insert_eq; [done|].
    rewrite E2. lia. }
  destruct S5 as [F5 V5 D5 E5 W5].
  exists k5. split_and!.
  - intros c. unfold getbuf. mred. fold x. mok R2. mok R3. mok R4. now mok R5.
  - done.
  - apply bstep_wsteps. rewrite Vs. split.
    + eauto using io_frame_trans.
    + intros b Hb0. now rewrite V5, V4, V3, V2 by done.
    + intros b. rewrite D5, D4, D3. unfold upd. case_decide; [done|]. now rewrite D2.
    + now rewrite E5, E4, E3, E2, Vd.
    + now rewrite W5, W4, W3, W2, Vd.
Qed.

(** The cache can take [n] more blocks. *)
Definition spare (k : kernel) (n : nat) : Prop :=
  exists D : list Z, (forall b, dirty k b = true -> b ∈ D) /\ (length D + n <= bhead)%nat.

Lemma spare_wsteps k k' wr n : wsteps k k' wr -> spare k n -> spare k' n.
Proof.
  intros S (D & HD & Hn). exists D. split; [|done]. intros b. rewrite (ws_dirty _ _ _ S).
  intros E. apply andb_true_iff in E as [E _]. auto.
Qed.

Lemma spare_room k hs : blocks k hs -> spare k (S (length hs)) -> exists i, free_buf (bcache k) i.
Proof. intros Hb (D & HD & Hn). apply (room k hs D); [done|done|lia]. Qed.

(** Reading a log block and a home block. *)
Lemma read2 k x y :
  blocks k [] -> in_range (memdisk k) x -> in_range (memdisk k) y -> x <> y ->
  spare k 1 -> dirty k y = true \/ spare k 2 ->
  exists i j k1 k2, bread 1 x k = Ok i k1 /\ bread 1 y k1 = Ok j k2 /\ io_frame k k1 /\
    blocks k2 [j; i] /\ i <> j /\ holds k2 i x /\ holds k2 j y /\
    wsteps k k2 [] /\ (forall b, 0 <= b -> view k2 b = view k b) /\
    (forall b, 0 <= b -> dirty k2 b = false -> view k2 b = memdisk k2 !!! Z.to_nat b).
Proof.
  intros Hbl Hx Hy Hxy Hsp Hy2.
  destruct (bread_blocks k [] x Hbl Hx) as (i & k1 & R1 & B1 & H1 & _ & _ & _ & S1); [clear; set_solver| |].
  { right. now apply (spare_room k []). }
  pose proof S1 as [F1 V1 D1 E1 W1].
  destruct (bread_blocks k1 [i] y B1) as (j & k2 & R2 & B2 & H2 & Hj & _ & O2 & S2).
  { unfold in_range in Hy. now rewrite E1. }
  { intros i' ->%list_elem_of_singleton. destruct H1 as (_ & H1 & _).
    destruct (is_blk y (bcache k1 !!! i)) eqn:E; [|done]. destruct Hxy. now apply (is_blk_eq x y (bcache k1 !!! i)). }
  { destruct Hy2 as [Hy2|Hy2].
    - left. rewrite <- D1 in Hy2. unfold dirty, bdirty in Hy2. destruct (cached (bcache k1) y); [eauto|done].
    - right. apply (spare_room k1 [i]); [done|]. apply (spare_wsteps k k1 []); [now apply bstep_quiet|done]. }
  exists i, j, k1, k2. pose proof S2 as [F2 V2 D2 E2 W2].
  assert (HV : forall b, 0 <= b -> view k2 b = view k b) by (intros b Hb; now rewrite V2, V1).
  split_and!; try done.
  - intros ->. clear -Hj. set_solver.
  - destruct H1 as (P1 & P2 & P3). unfold holds. rewrite O2 by (clear; set_solver). done.
  - change (@nil (Z * list Z)) with (@nil (Z * list Z) ++ []).
    apply (wsteps_trans k k1 k2); now apply bstep_quiet.
  - intros b Hb Hd. rewrite HV, E2, E1 by done.
    apply (view_coherent k []); [done|clear; set_solver|]. now rewrite <- D1, <- D2.
Qed.

(** ** The geometry of the log *)

(** The blocks of the running transaction. *)
Definition txn (lg : log_t) : list Z := take (Z.to_nat (lh_n lg)) (lh_block lg).

(** A block that transactions may write: on the disk, outside the log, not the
    superblock. *)
Definition data_block (lg : log_t) (len : nat) (b : Z) : Prop :=
  0 <= b < Z.of_nat len /\ ~ (lg_start lg <= b < lg_start lg + lg_size lg) /\ b <> 1.

Record lg_ok (lg : log_t) (len : nat) : Prop := {
  lg_dev1 : lg_dev lg = 1;
  lg_fits : 1 < lg_start lg /\ lg_start lg + lg_size lg <= Z.of_nat len < 2 ^ 31;
  lg_n : 0 <= lh_n lg < lg_size lg /\ lg_size lg <= LOGSIZE;
  lg_len : length (lh_block lg) = Z.to_nat LOGSIZE;
  lg_txn : Forall (data_block lg len) (txn lg)
}.

Lemma length_txn lg len : lg_ok lg len -> length (txn lg) = Z.to_nat (lh_n lg).
Proof.
  intros H. unfold txn. rewrite length_take, (lg_len _ _ H). pose proof (lg_n _ _ H). lia.
Qed.

Lemma txn_lookup lg len t :
  lg_ok lg len -> (t < Z.to_nat (lh_n lg))%nat ->
  lh_block lg !! t = Some (txn lg !!! t) /\ data_block lg len (txn lg !!! t).
Proof.
  intros H Ht. pose proof (length_txn _ _ H) as Hl.
  assert (E : txn lg !! t = Some (txn lg !!! t)) by (apply list_lookup_lookup_total_lt; lia).
  split.
  - rewrite <- E. unfold txn. now rewrite lookup_take_lt.
  - pose proof (lg_txn _ _ H) as HF. rewrite Forall_lookup in HF. eauto.
Qed.

Lemma get_block_run k len t :
  lg_ok (k_log k) len -> (t < Z.to_nat (lh_n (k_log k)))%nat ->
  get_block (Z.of_nat t) k = Ok (txn (k_log k) !!! t) k.
Proof.
  intros H Ht. unfold get_block. mred. rewrite Nat2Z.id.
  destruct (txn_lookup _ _ t H Ht) as [-> _]. done.
Qed.

(** The disk writes of [write_log] and [install_trans] for the blocks [bl] and
    the log at [s], from round [t] on for [m] rounds, when the blocks' contents
    are [V]. *)
Definition log_writes (s : Z) (bl : list Z) (V : Z -> list Z) (t m : nat) : writes :=
  (fun t => (s + 1 + Z.of_nat t, V (bl !!! t))) <$> seq t m.
Definition home_writes (s : Z) (bl : list Z) (V : Z -> list Z) (t m : nat) : writes :=
  (fun t => (bl !!! t, V (s + 1 + Z.of_nat t))) <$> seq t m.

Lemma home_writes_ext s bl V V' t m :
  (forall t', (t <= t' < t + m)%nat -> V (s + 1 + Z.of_nat t') = V' (s + 1 + Z.of_nat t')) ->
  home_writes s bl V t m = home_writes s bl V' t m.
Proof.
  intros H. apply list_fmap_ext. intros i x Hx. apply lookup_seq in Hx as [-> Hi]. f_equal. apply H. lia.
Qed.

Lemma log_writes_ext s bl V V' t m :
  (forall t', (t <= t' < t + m)%nat -> V (bl !!! t') = V' (bl !!! t')) ->
  log_writes s bl V t m = log_writes s bl V' t m.
Proof.
  intros H. apply list_fmap_ext. intros i x Hx. apply lookup_seq in Hx as [-> Hi]. f_equal. apply H. lia.
Qed.

Section Copy.
Context (lg : log_t) (len : nat) (Hlg : lg_ok lg len).
#[local] Abbreviation s := (lg_start lg).
#[local] Abbreviation n := (Z.to_nat (lh_n lg)).

#[local] Abbreviation log_writes := (log_writes s (txn lg)).
#[local] Abbreviation home_writes := (home_writes s (txn lg)).

Lemma log_slot t : (t < n)%nat ->
  u32 (s + Z.of_nat t + 1) = s + 1 + Z.of_nat t /\ u32 (txn lg !!! t) = txn lg !!! t /\
  0 <= s + 1 + Z.of_nat t < Z.of_nat len /\ 0 <= txn lg !!! t < Z.of_nat len /\
  s + 1 + Z.of_nat t <> txn lg !!! t.
Proof.
  intros Ht. destruct (txn_lookup lg len t Hlg Ht) as [_ (H1 & H2 & _)].
  pose proof (lg_fits _ _ Hlg). pose proof (lg_n _ _ Hlg). 
  rewrite !u32_small by lia. split_and!; lia.
Qed.

Lemma log_home t t' : (t < n)%nat -> (t' < n)%nat -> s + 1 + Z.of_nat t <> txn lg !!! t'.
Proof.
  intros Ht Ht'. destruct (txn_lookup lg len t' Hlg Ht') as [_ (H1 & H2 & _)].
  pose proof (lg_fits _ _ Hlg). pose proof (lg_n _ _ Hlg).  lia.
Qed.

Lemma install_trans_loop_spec m : forall t k,
  (t + m = n)%nat -> blocks k [] -> k_log k = lg -> length (memdisk k) = len ->
  spare k 1 -> spare k 2 \/ (NoDup (txn lg) /\ forall t', (t <= t' < n)%nat -> dirty k (txn lg !!! t') = true) ->
  exists k', install_trans_loop m (Z.of_nat t) k = Ok tt k' /\ blocks k' [] /\
    wsteps k k' (home_writes (view k) t m).
Proof.
  induction m as [|m IH]; intros t k Htm Hbl Hk Hlen Hs1 Hs2; cbn [install_trans_loop]; mred; rewrite Hk.
  { destruct (Z.ltb_spec (Z.of_nat t) (lh_n lg)); [lia|]. exists k. split_and!; [done..|apply wsteps_refl]. }
  destruct (Z.ltb_spec (Z.of_nat t) (lh_n lg)); [|lia].
  destruct (log_slot t) as (U1 & U2 & R1 & R2 & Hne); [lia|]. rewrite U1, (lg_dev1 _ _ Hlg).
  change (u32 1) with 1.
  destruct (read2 k (s + 1 + Z.of_nat t) (txn lg !!! t)) as
    (i & j & k1 & k2 & Ra & Rb & F1 & B2 & Hij & Hi & Hj & S2 & V2 & Sync); try done.
  { unfold in_range. lia. } { unfold in_range. lia. }
  { destruct Hs2 as [Hs2|[_ Hs2]]; [now right|left; apply Hs2; lia]. }
  mok Ra. destruct (io_frame_log _ _ F1) as (L1 & _ & _).
  assert (Hg : get_block (Z.of_nat t) k1 = Ok (txn lg !!! t) k1).
  { rewrite <- Hk, <- L1. apply (get_block_run k1 len); rewrite L1, Hk; [done|lia]. }
  mok Hg. rewrite U2. mok Rb.
  destruct (copy_tail k2 i j (s + 1 + Z.of_nat t) (txn lg !!! t)) as (k3 & R3 & B3 & S3); try done.
  { apply (blocks_perm _ [j; i]); [done|clear; set_solver]. } { apply Sync; lia. }
  rewrite R3. rewrite (V2 (s + 1 + Z.of_nat t)) in S3 by lia.
  assert (S : wsteps k k3 [(txn lg !!! t, view k (s + 1 + Z.of_nat t))]) by exact (wsteps_trans _ _ _ _ _ S2 S3).
  replace (Z.of_nat t + 1) with (Z.of_nat (Datatypes.S t)) by lia.
  destruct (IH (Datatypes.S t) k3) as (k4 & R4 & B4 & S4); try done.
  - lia.
  - destruct (io_frame_log _ _ (ws_frame _ _ _ S)) as (-> & _ & _). done.
  - now rewrite (ws_disk _ _ _ S), length_apply_writes.
  - now apply (spare_wsteps _ _ _ _ S).
  - destruct Hs2 as [Hs2|[Hnd Hs2]]; [left; now apply (spare_wsteps _ _ _ _ S)|right; split; [done|]].
    intros t' Ht'. rewrite (ws_dirty _ _ _ S), Hs2 by lia. cbn.
    rewrite bool_decide_false; [done|]. rewrite list_elem_of_singleton.
    intros E. rewrite NoDup_alt in Hnd.
    enough (t' = t) by lia. apply (Hnd t' t (txn lg !!! t')); [|rewrite E];
      apply list_lookup_lookup_total_lt; rewrite (length_txn lg len Hlg); lia.
  - exists k4. split_and!; [done|done|].
    rewrite (home_writes_ext s (txn lg) (view k3) (view k)) in S4; [exact (wsteps_trans _ _ _ _ _ S S4)|].
    intros t' Ht'. rewrite (ws_view _ _ _ S) by (destruct (log_slot t'); lia).
    apply upds_other. cbn. rewrite list_elem_of_singleton. apply log_home; lia.
Qed.

Lemma write_log_loop_spec m : forall t k,
  (t + m = n)%nat -> blocks k [] -> k_log k = lg -> length (memdisk k) = len ->
  spare k 1 -> (forall t', (t <= t' < n)%nat -> dirty k (txn lg !!! t') = true) ->
  exists k', write_log_loop m (Z.of_nat t) k = Ok tt k' /\ blocks k' [] /\
    wsteps k k' (log_writes (view k) t m).
Proof.
  induction m as [|m IH]; intros t k Htm Hbl Hk Hlen Hs1 Hs2; cbn [write_log_loop]; mred; rewrite Hk.
  { destruct (Z.ltb_spec (Z.of_nat t) (lh_n lg)); [lia|]. exists k. split_and!; [done..|apply wsteps_refl]. }
  destruct (Z.ltb_spec (Z.of_nat t) (lh_n lg)); [|lia].
  destruct (log_slot t) as (U1 & U2 & R1 & R2 & Hne); [lia|]. rewrite U1, (lg_dev1 _ _ Hlg).
  change (u32 1) with 1.
  destruct (read2 k (s + 1 + Z.of_nat t) (txn lg !!! t)) as
    (i & j & k1 & k2 & Ra & Rb & F1 & B2 & Hij & Hi & Hj & S2 & V2 & Sync); try done.
  { unfold in_range. lia. } { unfold in_range. lia. } { left; apply Hs2; lia. }
  mok Ra. destruct (io_frame_log _ _ F1) as (L1 & _ & _).
  assert (Hg : get_block (Z.of_nat t) k1 = Ok (txn lg !!! t) k1).
  { rewrite <- Hk, <- L1. apply (get_block_run k1 len); rewrite L1, Hk; [done|lia]. }
  mok Hg. rewrite U2. mok Rb.
  destruct (copy_tail k2 j i (txn lg !!! t) (s + 1 + Z.of_nat t)) as (k3 & R3 & B3 & S3); try done.
  { apply Sync; lia. }
  rewrite R3. rewrite (V2 (txn lg !!! t)) in S3 by lia.
  assert (S : wsteps k k3 [(s + 1 + Z.of_nat t, view k (txn lg !!! t))]) by exact (wsteps_trans _ _ _ _ _ S2 S3).
  replace (Z.of_nat t + 1) with (Z.of_nat (Datatypes.S t)) by lia.
  destruct (IH (Datatypes.S t) k3) as (k4 & R4 & B4 & S4); try done.
  - lia.
  - destruct (io_frame_log _ _ (ws_frame _ _ _ S)) as (-> & _ & _). done.
  - now rewrite (ws_disk _ _ _ S), length_apply_writes.
  - now apply (spare_wsteps _ _ _ _ S).
  - intros t' Ht'. rewrite (ws_dirty _ _ _ S), Hs2 by lia. cbn.
    rewrite bool_decide_false; [done|]. rewrite list_elem_of_singleton.
    intros E. symmetry in E. revert E. apply log_home; lia.
  - exists k4. split_and!; [done|done|].
    rewrite (log_writes_ext s (txn lg) (view k3) (view k)) in S4; [exact (wsteps_trans _ _ _ _ _ S S4)|].
    intros t' Ht'. rewrite (ws_view _ _ _ S) by (destruct (log_slot t'); lia).
    apply upds_other. cbn. rewrite list_elem_of_singleton. intros E. symmetry in E. revert E. apply log_home; lia.
Qed.
End Copy.

(** ** The header block *)

Fixpoint hdr_words (d : list Z) (i : nat) (bl : list Z) : list Z :=
  match bl with
  | [] => d
  | b :: bl' => hdr_words (st32 d (4 + 4 * Z.of_nat i) b) (S i) bl'
  end.

(** The header block with [n] and the block numbers [bl] stored over [d]. *)
Definition hdr (d : list Z) (n : Z) (bl : list Z) : list Z := hdr_words (st32 d 0 n) 0 bl.

Lemma hdr_words_length bl : forall d i, length (hdr_words d i bl) = length d.
Proof. induction bl as [|b bl IH]; intros d i; cbn; [done|]. rewrite IH. apply length_put. Qed.

Lemma hdr_words_before bl : forall d i o,
  (4 + 4 * (i + length bl) <= length d)%nat -> 0 <= o -> o + 4 <= 4 + 4 * Z.of_nat i ->
  ld32 (hdr_words d i bl) o = ld32 d o.
Proof.
  induction bl as [|b bl IH]; intros d i o Hl H0 Ho; cbn [hdr_words]; [done|]. cbn [length] in Hl.
  assert (Hp : length (st32 d (4 + 4 * Z.of_nat i) b) = length d) by apply length_put.
  rewrite IH by (rewrite ?Hp; lia). apply ld32_put_ne; cbn; lia.
Qed.

Lemma hdr_words_at bl : forall d i j,
  (4 + 4 * (i + length bl) <= length d)%nat -> (j < length bl)%nat ->
  ld32 (hdr_words d i bl) (4 + 4 * Z.of_nat (i + j)) = u32 (bl !!! j).
Proof.
  induction bl as [|b bl IH]; intros d i j Hl Hj; cbn [hdr_words length] in *; [lia|].
  assert (Hp : length (st32 d (4 + 4 * Z.of_nat i) b) = length d) by apply length_put.
  destruct j as [|j].
  - rewrite Nat.add_0_r, hdr_words_before by (rewrite ?Hp; lia). rewrite ld32_st32 by lia. done.
  - replace (i + S j)%nat with (S i + j)%nat by lia. rewrite IH by (rewrite ?Hp; lia). done.
Qed.

Lemma hdr_read d n bl :
  length d = Z.to_nat BSIZE -> (length bl <= Z.to_nat LOGSIZE)%nat -> 0 <= n < 2 ^ 31 ->
  Forall (fun b => 0 <= b < 2 ^ 31) bl ->
  length (hdr d n bl) = Z.to_nat BSIZE /\ hd_n (hdr d n bl) = n /\
  forall j, (j < length bl)%nat -> hd_block (hdr d n bl) (Z.of_nat j) = bl !!! j.
Proof.
  intros Hd Hbl Hn Hr. change (Z.to_nat BSIZE) with 512%nat in *. change (Z.to_nat LOGSIZE) with 30%nat in *.
  assert (Hp : length (st32 d 0 n) = length d) by apply length_put.
  unfold hdr. split_and!.
  - now rewrite hdr_words_length, Hp.
  - unfold hd_n. rewrite hdr_words_before by (rewrite ?Hp; lia).
    rewrite ld32_st32, u32_small, s32_small by lia. done.
  - intros j Hj. unfold hd_block. rewrite (hdr_words_at bl _ 0 j) by (rewrite ?Hp; lia).
    rewrite Forall_lookup in Hr. specialize (Hr j (bl !!! j)).
    rewrite u32_small, s32_small; [done|..]; specialize (Hr (list_lookup_lookup_total_lt _ _ Hj)); lia.
Qed.

(** A held buffer changed in place. *)
Lemma moddata_blocks k hs i b (g : list Z -> list Z) :
  blocks k hs -> i ∈ hs -> holds k i b ->
  exists k', updbuf i (fun bf => set_b_data (g (b_data bf)) bf) k = Ok tt k' /\ blocks k' hs /\
    holds k' i b /\ bstep k k' (upd (view k) b (g (view k b))) (dirty k) (memdisk k) (diskwrites k).
Proof.
  intros Hbl Hin Hh. destruct (holds_view _ _ _ _ Hbl Hh) as (Vb & _ & _ & _).
  destruct (setdata_blocks k hs i b (g (view k b)) Hbl Hin Hh) as (k' & R & B & H & _ & _ & S).
  exists k'. split_and!; try done. rewrite <- R. unfold updbuf, modify. do 2 f_equal.
  apply list_alter_ext; [|done]. intros x Hx. rewrite Vb. do 2 f_equal.
  apply list_lookup_total_correct in Hx. now rewrite Hx.
Qed.

Lemma write_head_loop_spec lg len buf m : forall t k,
  lg_ok lg len -> (t + m = Z.to_nat (lh_n lg))%nat -> blocks k [buf] -> k_log k = lg ->
  holds k buf (lg_start lg) ->
  exists k', write_head_loop m buf (Z.of_nat t) k = Ok tt k' /\ blocks k' [buf] /\ holds k' buf (lg_start lg) /\
    bstep k k' (upd (view k) (lg_start lg) (hdr_words (view k (lg_start lg)) t (drop t (txn lg))))
      (dirty k) (memdisk k) (diskwrites k).
Proof.
  induction m as [|m IH]; intros t k Hlg Htm Hbl Hk Hh; cbn [write_head_loop]; mred; rewrite Hk.
  - destruct (Z.ltb_spec (Z.of_nat t) (lh_n lg)); [lia|]. exists k. split_and!; try done.
    rewrite drop_ge by (rewrite (length_txn lg len Hlg); lia). cbn. split; try done; [apply io_frame_refl|].
    intros b _. unfold upd. now case_decide; subst.
  - destruct (Z.ltb_spec (Z.of_nat t) (lh_n lg)); [|lia].
    assert (Hg : get_block (Z.of_nat t) k = Ok (txn lg !!! t) k)
      by (rewrite <- Hk; apply (get_block_run k len); rewrite Hk; [done|lia]).
    mok Hg.
    destruct (moddata_blocks k [buf] buf (lg_start lg)
      (fun d => st32 d (4 + 4 * Z.of_nat t) (txn lg !!! t)) Hbl) as (k1 & R1 & B1 & H1 & S1); [clear; set_solver|done|].
    mok R1. replace (Z.of_nat t + 1) with (Z.of_nat (S t)) by lia.
    destruct S1 as [F1 V1 D1 E1 W1].
    destruct (IH (S t) k1 Hlg) as (k2 & R2 & B2 & H2 & [F2 V2 D2 E2 W2]); [lia|done| |done|].
    { destruct (io_frame_log _ _ F1) as (-> & _ & _). done. }
    exists k2. split_and!; try done.
    rewrite (drop_S (txn lg) (txn lg !!! t) t)
      by (apply list_lookup_lookup_total_lt; rewrite (length_txn lg len Hlg); lia).
    cbn [hdr_words]. split.
    + eauto using io_frame_trans.
    + intros b Hb. rewrite V2 by done. unfold upd. pose proof (lg_fits _ _ Hlg). case_decide; [subst b|].
      * rewrite V1 by lia. unfold upd. now rewrite decide_True.
      * rewrite V1 by lia. unfold upd. now rewrite decide_False.
    + intros b. now rewrite D2, D1.
    + congruence.
    + congruence.
Qed.

Lemma write_head_spec k lg len :
  lg_ok lg len -> blocks k [] -> k_log k = lg -> length (memdisk k) = len -> spare k 1 ->
  exists k', write_head k = Ok tt k' /\ blocks k' [] /\
    wsteps k k' [(lg_start lg, hdr (view k (lg_start lg)) (lh_n lg) (txn lg))].
Proof.
  intros Hlg Hbl Hk Hlen Hsp. unfold write_head. mred. rewrite Hk. pose proof (lg_fits _ _ Hlg) as Hf.
  pose proof (lg_n _ _ Hlg) as Hn.
  rewrite (lg_dev1 _ _ Hlg), (u32_small (lg_start lg)) by lia. change (u32 1) with 1.
  destruct (bread_blocks k [] (lg_start lg) Hbl) as (i & k1 & R1 & B1 & H1 & _ & _ & _ & [F1 V1 D1 E1 W1]);
    [lia|clear; set_solver|right; now apply (spare_room k [])|].
  mok R1.
  destruct (moddata_blocks k1 [i] i (lg_start lg) (fun d => st32 d 0 (lh_n lg)) B1) as
    (k2 & R2 & B2 & H2 & [F2 V2 D2 E2 W2]); [clear; set_solver|done|].
  mok R2.
  destruct (write_head_loop_spec lg len i (Z.to_nat (lh_n lg)) 0 k2 Hlg) as
    (k3 & R3 & B3 & H3 & [F3 V3 D3 E3 W3]); [lia|done| |done|].
  { destruct (io_frame_log _ _ F2) as (-> & _ & _). destruct (io_frame_log _ _ F1) as (-> & _ & _). done. }
  change (Z.of_nat 0) with 0 in R3. mok R3.
  destruct (bwrite_blocks k3 [i] i (lg_start lg) B3) as (k4 & R4 & B4 & H4 & _ & _ & [F4 V4 D4 E4 W4]);
    [clear; set_solver|done|].
  mok R4. set (h := hdr _ _ _).
  assert (Vh : view k3 (lg_start lg) = h).
  { rewrite V3 by lia. unfold upd at 1. rewrite decide_True by done. rewrite V2 by lia. unfold upd.
    rewrite decide_True by done. rewrite V1 by lia. reflexivity. }
  assert (E : memdisk k3 = memdisk k) by congruence.
  destruct (brelse_blocks k4 [] i (lg_start lg) B4) as (k5 & R5 & B5 & _ & [F5 V5 D5 E5 W5]);
    [clear; set_solver|done| |].
  { intros _. rewrite V4, E4, list_lookup_total_insert_eq; [done|rewrite E|]; lia. }
  exists k5. split_and!; [exact R5|done|]. apply bstep_wsteps. split.
  - eauto 6 using io_frame_trans.
  - intros b Hb. rewrite V5, V4 by done. destruct (decide (b = lg_start lg)) as [->|Hne].
    + rewrite Vh. unfold upd. now rewrite decide_True.
    + rewrite V3 by done. unfold upd. rewrite !decide_False by done.
      rewrite V2 by done. unfold upd. rewrite decide_False by done. now apply V1.
  - intros b. rewrite D5, D4. unfold upd. case_decide; [done|]. now rewrite D3, D2, D1.
  - now rewrite E5, E4, Vh, E.
  - rewrite W5, W4, W3, W2, W1, Vh. done.
Qed.
