(* ===== verification/LogCrash.v ===== *)
(** * Crash safety of the log (log.c)

    What the disk holds after a crash in the middle of [commit] or of recovery,
    and what [initlog] makes of it at the next boot. *)

From S2P Require Import Prelude State Spinlock Sched Bio Bytes Log.

(** ** More on sequences of writes *)

Lemma upds_in V V' wr b : b ∈ wr.*1 -> upds V wr b = upds V' wr b.
Proof.
  induction wr as [|w wr IH] using rev_ind; intros Hb; [now apply elem_of_nil in Hb|].
  rewrite !upds_app. unfold upds at 1 3. cbn. unfold upd. case_decide; [done|]. apply IH.
  rewrite fmap_app, elem_of_app in Hb. destruct Hb as [Hb|Hb]; [done|].
  cbn in Hb. apply list_elem_of_singleton in Hb. congruence.
Qed.

(** Writes that all give blocks their contents in [V]. *)
Lemma upds_const X V wr b :
  Forall (fun w => snd w = V (fst w)) wr -> b ∈ wr.*1 -> upds X wr b = V b.
Proof.
  induction wr as [|w wr IH] using rev_ind; intros Hw Hb; [now apply elem_of_nil in Hb|].
  rewrite upds_app. unfold upds at 1. cbn. unfold upd. apply Forall_app in Hw as [Hw1 Hw2].
  apply Forall_cons in Hw2 as [Hw2 _]. case_decide; [subst b; exact Hw2|]. apply IH; [done|].
  rewrite fmap_app, elem_of_app in Hb. destruct Hb as [Hb|Hb]; [done|].
  cbn in Hb. apply list_elem_of_singleton in Hb. congruence.
Qed.

Lemma prefix_fst (p wr : writes) b : p `prefix_of` wr -> b ∈ p.*1 -> b ∈ wr.*1.
Proof. intros [x ->] Hb. rewrite fmap_app. apply elem_of_app. now left. Qed.

Lemma prefix_app_inv {A} (p a b : list A) :
  p `prefix_of` a ++ b -> p `prefix_of` a \/ exists p', p = a ++ p' /\ p' `prefix_of` b.
Proof.
  revert p. induction a as [|x a IH]; intros p Hp; cbn in Hp; [right; now exists p|].
  destruct p as [|y p]; [left; apply prefix_nil|]. apply prefix_cons_inv_1 in Hp as Hx. subst y.
  apply prefix_cons_inv_2 in Hp. destruct (IH p Hp) as [H|(p' & -> & H)].
  - left. now apply prefix_cons.
  - right. now exists p'.
Qed.

Lemma prefix_singleton_inv {A} (p : list A) x : p `prefix_of` [x] -> p = [] \/ p = [x].
Proof.
  destruct p as [|y p]; [now left|]. intros H. right. apply prefix_cons_inv_1 in H as Hx. subst.
  apply prefix_cons_inv_2, prefix_nil_inv in H. now subst.
Qed.

(** ** The disk and its log *)

(** The blocks the header [h] lists. *)
Definition hd_txn (h : list Z) : list Z := (fun t => hd_block h (Z.of_nat t)) <$> seq 0 (Z.to_nat (hd_n h)).

Lemma hd_txn_lookup h t : (t < Z.to_nat (hd_n h))%nat -> hd_txn h !!! t = hd_block h (Z.of_nat t).
Proof.
  intros Ht. apply list_lookup_total_correct. unfold hd_txn.
  rewrite list_lookup_fmap, lookup_seq_lt by done. done.
Qed.

(** The superblock places the log where [lg] has it. *)
Definition sb_ok (lg : log_t) (D : list (list Z)) : Prop :=
  s32 (sb_logstart (decode_sb (dsk D 1))) = lg_start lg /\ s32 (sb_nlog (decode_sb (dsk D 1))) = lg_size lg.

(** A disk whose log is well formed. *)
Record disk_ok (lg : log_t) (D : list (list Z)) : Prop := {
  do_sb : sb_ok lg D;
  do_len : length (dsk D (lg_start lg)) = Z.to_nat BSIZE;
  do_n : 0 <= hd_n (dsk D (lg_start lg)) < lg_size lg;
  do_txn : Forall (data_block lg (length D)) (hd_txn (dsk D (lg_start lg)))
}.

(** What recovery writes to the disk [D]. *)
Definition rec_home (lg : log_t) (D : list (list Z)) : writes :=
  let h := dsk D (lg_start lg) in
  home_writes (lg_start lg) (hd_txn h) (dsk D) 0 (Z.to_nat (hd_n h)).
Definition rec_writes (lg : log_t) (D : list (list Z)) : writes :=
  rec_home lg D ++ [(lg_start lg, hdr (dsk D (lg_start lg)) 0 [])].

(** Recovery turns the data blocks of [D] into [V]. *)
Definition recoverable (lg : log_t) (D : list (list Z)) (V : Z -> list Z) : Prop :=
  disk_ok lg D /\ forall b, data_block lg (length D) b -> upds (dsk D) (rec_home lg D) b = V b.

Section Pure.
Context (lg : log_t).
#[local] Abbreviation s := (lg_start lg).

Lemma home_addrs s' bl V t m : (home_writes s' bl V t m).*1 = (fun t => bl !!! t) <$> seq t m.
Proof. unfold home_writes. now rewrite <- list_fmap_compose. Qed.

Lemma rec_home_data D b :
  disk_ok lg D -> b ∈ (rec_home lg D).*1 -> data_block lg (length D) b.
Proof.
  intros HD. unfold rec_home. rewrite home_addrs. intros Hb.
  apply list_elem_of_fmap in Hb as (t & -> & Ht). apply elem_of_seq in Ht.
  pose proof (do_txn _ _ HD) as HF. rewrite Forall_lookup in HF. apply (HF t).
  apply list_lookup_lookup_total_lt. unfold hd_txn. rewrite length_fmap, length_seq. lia.
Qed.

Lemma home_range D V m bl s' :
  Forall (data_block lg (length D)) bl -> (m <= length bl)%nat ->
  Forall (fun w => in_range D (fst w)) (home_writes s' bl V 0 m).
Proof.
  intros HF Hm. apply Forall_fmap, Forall_forall. intros t Ht. apply elem_of_seq in Ht. cbn.
  rewrite Forall_lookup in HF. destruct (HF t (bl !!! t)) as [H _]; [|exact H].
  apply list_lookup_lookup_total_lt. lia.
Qed.

Context (Hs : 1 < s).

(** Blocks outside the data area keep their contents under writes to data blocks. *)
Lemma data_writes_same D wr b :
  Forall (fun w => data_block lg (length D) (fst w)) wr -> 0 <= b -> ~ data_block lg (length D) b ->
  dsk (apply_writes D wr) b = dsk D b.
Proof.
  intros Hw Hb Hnd. rewrite dsk_apply_writes; [|eapply Forall_impl; [exact Hw|]; intros w [H _]; exact H|done].
  apply upds_other. intros Hin. apply Hnd. apply list_elem_of_fmap in Hin as (w & -> & Hin).
  rewrite Forall_forall in Hw. auto.
Qed.

Lemma not_data_log (D : list (list Z)) b : s <= b < s + lg_size lg -> ~ data_block lg (length D) b.
Proof. intros Hb (_ & H & _). lia. Qed.

Lemma rec_home_writes D : disk_ok lg D -> Forall (fun w => data_block lg (length D) (fst w)) (rec_home lg D).
Proof.
  intros HD. apply Forall_forall. intros w Hw. apply (rec_home_data D); [done|].
  apply list_elem_of_fmap. eauto.
Qed.

(** Recovery cut short while it installs blocks can start over. *)
Lemma recoverable_home D V p :
  recoverable lg D V -> p `prefix_of` rec_home lg D -> recoverable lg (apply_writes D p) V.
Proof.
  intros [HD HV] Hp. pose proof (do_n _ _ HD) as Hn.
  assert (Hwp : Forall (fun w => data_block lg (length D) (fst w)) p).
  { pose proof (rec_home_writes D HD) as Hr. destruct Hp as [x Hx]. rewrite Hx in Hr.
    now apply Forall_app in Hr as [? _]. }
  pose proof (fun b => data_writes_same D p b Hwp) as Hsame.
  assert (Hh : dsk (apply_writes D p) s = dsk D s) by (apply Hsame; [lia|apply not_data_log; lia]).
  assert (Hhome : rec_home lg (apply_writes D p) = rec_home lg D).
  { unfold rec_home. rewrite Hh. apply home_writes_ext. intros t Ht.
    apply Hsame; [lia|]. apply not_data_log. lia. }
  split.
  - split; rewrite ?Hh, ?length_apply_writes; try apply HD.
    unfold sb_ok. rewrite Hsame; [apply HD|lia|]. intros (_ & _ & H). now apply H.
  - intros b Hb. rewrite length_apply_writes in Hb. rewrite Hhome, <- HV by done.
    destruct (decide (b ∈ (rec_home lg D).*1)) as [Hin|Hni]; [now apply upds_in|].
    rewrite !upds_other by done. rewrite dsk_apply_writes.
    + apply upds_other. intros Hin. apply Hni. now apply (prefix_fst p).
    + eapply Forall_impl; [exact Hwp|]. intros w [H _]; exact H.
    + apply Hb.
Qed.

(** Writing the header block. *)
Lemma write_header D n bl h :
  disk_ok lg D -> s < Z.of_nat (length D) -> 0 <= n < lg_size lg -> lg_size lg <= LOGSIZE ->
  Forall (data_block lg (length D)) bl -> length bl = Z.to_nat n -> length h = Z.to_nat BSIZE ->
  Z.of_nat (length D) < 2 ^ 31 ->
  let D' := apply_writes D [(s, hdr h n bl)] in
  disk_ok lg D' /\ length D' = length D /\ hd_n (dsk D' s) = n /\ hd_txn (dsk D' s) = bl /\
  (forall b, 0 <= b -> b <> s -> dsk D' b = dsk D b) /\ dsk D' s = hdr h n bl.
Proof.
  intros HD Hsl Hn Hsz Hbl Hlen Hh Hdl D'.
  assert (Hl : length D' = length D) by apply length_apply_writes.
  assert (Hother : forall b, 0 <= b -> b <> s -> dsk D' b = dsk D b).
  { intros b Hb Hne. unfold D', dsk. cbn. apply list_lookup_total_insert_ne. lia. }
  assert (Hat : dsk D' s = hdr h n bl).
  { unfold D', dsk. cbn. apply list_lookup_total_insert_eq. lia. }
  destruct (hdr_read h n bl) as (R1 & R2 & R3); [done|lia| |..].
  { change LOGSIZE with 30 in *. lia. }
  { eapply Forall_impl; [exact Hbl|]. intros b [? _]. lia. }
  assert (Ht : hd_txn (hdr h n bl) = bl).
  { apply list_eq. intros i. unfold hd_txn. rewrite R2, list_lookup_fmap.
    destruct (decide (i < length bl)%nat) as [Hi|Hi].
    - rewrite lookup_seq_lt by lia. cbn. rewrite R3 by done. symmetry. now apply list_lookup_lookup_total_lt.
    - rewrite lookup_seq_ge, lookup_ge_None_2 by lia. done. }
  rewrite Hat. split_and!; try done.
  split; rewrite ?Hat, ?Ht, ?R2, ?Hl; try done.
  unfold sb_ok. rewrite Hother by lia. apply HD.
Qed.

(** With an empty log the data blocks are what they are. *)
Lemma rec_home_empty D : hd_n (dsk D s) = 0 -> rec_home lg D = [].
Proof. intros E. unfold rec_home. now rewrite E. Qed.

Lemma recoverable_done D V b :
  recoverable lg D V -> hd_n (dsk D s) = 0 -> data_block lg (length D) b -> dsk D b = V b.
Proof. intros [_ HV] E Hb. specialize (HV b Hb). now rewrite rec_home_empty in HV. Qed.

Lemma data_not_start (len : nat) b : 0 < lg_size lg -> data_block lg len b -> b <> s /\ 0 <= b.
Proof. intros Hsz (H0 & H & _). lia. Qed.

Context (Hsz : lg_size lg <= LOGSIZE).

(** A crash in the middle of recovery loses nothing. *)
Lemma recoverable_prefix D V p :
  s + lg_size lg <= Z.of_nat (length D) < 2 ^ 31 -> recoverable lg D V -> p `prefix_of` rec_writes lg D ->
  recoverable lg (apply_writes D p) V.
Proof.
  intros Hfit HR Hp. unfold rec_writes in Hp. pose proof (do_n _ _ (proj1 HR)) as Hn.
  apply prefix_app_inv in Hp as [Hp|(p' & -> & Hp)]; [now apply recoverable_home|].
  rewrite apply_writes_app.
  pose proof (recoverable_home D V (rec_home lg D) HR ltac:(reflexivity)) as HR1.
  assert (Hd1 : forall b, data_block lg (length D) b -> dsk (apply_writes D (rec_home lg D)) b = V b).
  { intros b Hb. rewrite dsk_apply_writes; [now apply HR| |apply Hb].
    eapply Forall_impl; [apply rec_home_writes, HR|]. now intros w [H _]. }
  assert (Hh : length (dsk D s) = Z.to_nat BSIZE) by apply HR.
  assert (Hl1 : length (apply_writes D (rec_home lg D)) = length D) by apply length_apply_writes.
  generalize dependent (apply_writes D (rec_home lg D)). intros D1 [HD1 HV1] Hd1 Hl1.
  apply prefix_singleton_inv in Hp as [->| ->]; [now split|].
  destruct (write_header D1 0 [] (dsk D s)) as (W1 & W2 & W3 & W4 & W5 & W6); try done; try lia.
  split; [done|]. intros b Hb. rewrite W2, Hl1 in Hb. rewrite rec_home_empty by done. cbn.
  destruct (data_not_start _ b ltac:(lia) Hb). rewrite W5 by done. auto.
Qed.

(** *** Commit *)

Definition txn_writes (bl : list Z) (V : Z -> list Z) : writes := (fun b => (b, V b)) <$> bl.

(** What [commit] writes when the blocks hold [V]. *)
Definition commit_writes (V : Z -> list Z) : writes :=
  let n := Z.to_nat (lh_n lg) in
  log_writes s (txn lg) V 0 n ++ [(s, hdr (V s) (lh_n lg) (txn lg))] ++
  txn_writes (txn lg) V ++ [(s, hdr (hdr (V s) (lh_n lg) (txn lg)) 0 [])].

Lemma log_addrs bl V n b : b ∈ (log_writes s bl V 0 n).*1 -> s + 1 <= b <= s + Z.of_nat n.
Proof.
  unfold log_writes. rewrite <- list_fmap_compose. intros Hb.
  apply list_elem_of_fmap in Hb as (t & -> & Ht). apply elem_of_seq in Ht. cbn. lia.
Qed.

(** Before the header is written, recovery leaves the old contents. *)
Lemma crash_before D V p :
  lg_ok lg (length D) -> disk_ok lg D -> hd_n (dsk D s) = 0 ->
  p `prefix_of` log_writes s (txn lg) V 0 (Z.to_nat (lh_n lg)) ->
  recoverable lg (apply_writes D p) (dsk D).
Proof.
  intros Hlg HD Hn0 Hp. pose proof (lg_fits _ _ Hlg) as Hf. pose proof (lg_n _ _ Hlg) as Hn.
  assert (Hin : forall b, b ∈ p.*1 -> s + 1 <= b < s + lg_size lg).
  { intros b Hb. apply (prefix_fst _ _ b Hp), log_addrs in Hb. lia. }
  assert (Hr : Forall (fun w => in_range D (fst w)) p).
  { apply Forall_forall. intros w Hw. unfold in_range.
    assert (fst w ∈ p.*1) as Hw' by (apply list_elem_of_fmap; eauto). apply Hin in Hw'. lia. }
  assert (Hsame : forall b, 0 <= b -> ~ (s + 1 <= b < s + lg_size lg) -> dsk (apply_writes D p) b = dsk D b).
  { intros b Hb Hni. rewrite dsk_apply_writes by done. apply upds_other. auto. }
  assert (Hh : dsk (apply_writes D p) s = dsk D s) by (apply Hsame; lia).
  split.
  - split; rewrite ?Hh, ?length_apply_writes; try apply HD.
    unfold sb_ok. rewrite Hsame by lia. apply HD.
  - intros b Hb. rewrite length_apply_writes in Hb. rewrite rec_home_empty by (now rewrite Hh). cbn.
    destruct Hb as (H1 & H2 & _). apply Hsame; lia.
Qed.

Lemma log_writes_upds X V n t :
  (t < n)%nat -> upds X (log_writes s (txn lg) V 0 n) (s + 1 + Z.of_nat t) = V (txn lg !!! t).
Proof.
  intros Ht. rewrite (upds_const _ (fun b => V (txn lg !!! Z.to_nat (b - s - 1)))).
  - do 2 f_equal. lia.
  - apply Forall_fmap, Forall_forall. intros t' Ht'. cbn. do 2 f_equal. lia.
  - unfold log_writes. rewrite <- list_fmap_compose. apply list_elem_of_fmap. exists t.
    split; [done|]. apply elem_of_seq. lia.
Qed.

Lemma log_writes_at D V t :
  lg_ok lg (length D) -> (t < Z.to_nat (lh_n lg))%nat ->
  dsk (apply_writes D (log_writes s (txn lg) V 0 (Z.to_nat (lh_n lg)))) (s + 1 + Z.of_nat t) = V (txn lg !!! t).
Proof.
  intros Hlg Ht. pose proof (lg_fits _ _ Hlg) as Hf. pose proof (lg_n _ _ Hlg) as Hn.
  rewrite dsk_apply_writes; [|apply Forall_fmap, Forall_forall; intros t' Ht'; apply elem_of_seq in Ht';
    unfold in_range; cbn; lia|lia].
  now apply log_writes_upds.
Qed.

(** Once the header is written, recovery gives the new contents. *)
Lemma crash_after D V p :
  lg_ok lg (length D) -> disk_ok lg D -> hd_n (dsk D s) = 0 -> V s = dsk D s ->
  (forall b, data_block lg (length D) b -> b ∉ txn lg -> V b = dsk D b) ->
  p `prefix_of` txn_writes (txn lg) V ++ [(s, hdr (hdr (V s) (lh_n lg) (txn lg)) 0 [])] ->
  recoverable lg (apply_writes D (log_writes s (txn lg) V 0 (Z.to_nat (lh_n lg)) ++
    [(s, hdr (V s) (lh_n lg) (txn lg))] ++ p)) V.
Proof.
  intros Hlg HD Hn0 Hvs Hclean Hp. pose proof (lg_fits _ _ Hlg) as Hf. pose proof (lg_n _ _ Hlg) as Hn.
  rewrite !apply_writes_app.
  pose proof (crash_before D V _ Hlg HD Hn0 ltac:(reflexivity)) as [HD1 HV1].
  pose proof (fun t => log_writes_at D V t Hlg) as Hlog.
  assert (Hl1 : length (apply_writes D (log_writes s (txn lg) V 0 (Z.to_nat (lh_n lg)))) = length D)
    by apply length_apply_writes.
  assert (Hd1 : forall b, data_block lg (length D) b ->
    dsk (apply_writes D (log_writes s (txn lg) V 0 (Z.to_nat (lh_n lg)))) b = dsk D b).
  { intros b Hb. rewrite <- HV1 by now rewrite Hl1. rewrite rec_home_empty; [done|].
    rewrite <- Hn0. f_equal. rewrite dsk_apply_writes; [|apply Forall_fmap, Forall_forall; intros t' Ht';
      apply elem_of_seq in Ht'; unfold in_range; cbn; lia|lia].
    apply upds_other. intros Hin. apply log_addrs in Hin. lia. }
  generalize dependent (apply_writes D (log_writes s (txn lg) V 0 (Z.to_nat (lh_n lg)))).
  intros D1 HD1 HV1 Hlog Hl1 Hd1.
  destruct (write_header D1 (lh_n lg) (txn lg) (V s)) as (W1 & W2 & W3 & W4 & W5 & W6); try done; try lia.
  { rewrite Hl1. apply Hlg. } { now apply (length_txn lg (length D)). } { rewrite Hvs. apply HD. }
  generalize dependent (apply_writes D1 [(s, hdr (V s) (lh_n lg) (txn lg))]). intros D2 W1 W2 W3 W4 W5 W6.
  assert (Hrh : rec_home lg D2 = txn_writes (txn lg) V).
  { unfold rec_home. rewrite W3, W4. unfold home_writes, txn_writes. apply list_eq. intros t.
    rewrite !list_lookup_fmap. destruct (decide (t < Z.to_nat (lh_n lg))%nat) as [Ht|Ht].
    - rewrite lookup_seq_lt by done. rewrite (list_lookup_lookup_total_lt (txn lg) t)
        by (rewrite (length_txn lg (length D)) by done; lia). cbn.
      rewrite W5, Hlog by (done || lia). done.
    - rewrite lookup_seq_ge, lookup_ge_None_2 by (rewrite ?(length_txn lg (length D)) by done; lia). done. }
  apply (recoverable_prefix D2 V p); [lia| |].
  - split; [done|]. intros b Hb. rewrite W2, Hl1 in Hb. rewrite Hrh.
    assert (Ha : (txn_writes (txn lg) V).*1 = txn lg).
    { unfold txn_writes. rewrite <- list_fmap_compose. apply list_fmap_id. }
    destruct (decide (b ∈ txn lg)) as [Hin|Hni].
    + apply upds_const; [|now rewrite Ha]. apply Forall_fmap, Forall_forall. done.
    + rewrite upds_other by now rewrite Ha. destruct (data_not_start _ b ltac:(lia) Hb).
      rewrite W5, Hd1 by done. symmetry. now apply Hclean.
  - unfold rec_writes. now rewrite Hrh, W6.
Qed.
End Pure.

(** ** Running commit *)

(** The state outside [commit], when the buffers [hs] are held: the log on
    disk is empty and the dirty blocks are those of the running transaction. *)
Record log_inv (k : kernel) (hs : list nat) : Prop := {
  li_ok : lg_ok (k_log k) (length (memdisk k));
  li_blocks : blocks k hs;
  li_disk : disk_ok (k_log k) (memdisk k);
  li_empty : hd_n (dsk (memdisk k) (lg_start (k_log k))) = 0;
  li_dirty : forall b, dirty k b = true <-> b ∈ txn (k_log k);
  li_nodup : NoDup (txn (k_log k))
}.

Lemma wsteps_set_log l k k' wr : wsteps k k' wr -> wsteps (set_k_log l k) (set_k_log l k') wr.
Proof.
  intros [F V D E W]. split; try done. destruct F as (bs & d & w & pt & Hw & ->).
  exists bs, d, w, pt. split; [exact Hw|reflexivity].
Qed.

Lemma blocks_set_log l k hs : blocks k hs -> blocks (set_k_log l k) hs.
Proof. intros [H1 H2 H3]. split; [exact H1|exact H2|exact H3]. Qed.

Lemma lg_ok_reset lg len : lg_ok lg len -> lg_ok (set_lh_n 0 lg) len.
Proof. intros [H1 H2 H3 H4 H5]. split; try done. cbn. lia. Qed.

Lemma home_txn lg len V V' :
  lg_ok lg len -> (forall t, (t < Z.to_nat (lh_n lg))%nat -> V (lg_start lg + 1 + Z.of_nat t) = V' (txn lg !!! t)) ->
  home_writes (lg_start lg) (txn lg) V 0 (Z.to_nat (lh_n lg)) = txn_writes (txn lg) V'.
Proof.
  intros Hlg H. unfold home_writes, txn_writes. apply list_eq. intros t.
  rewrite !list_lookup_fmap. pose proof (length_txn lg len Hlg) as Hl.
  destruct (decide (t < Z.to_nat (lh_n lg))%nat) as [Ht|Ht].
  - rewrite lookup_seq_lt, (list_lookup_lookup_total_lt (txn lg) t) by lia. cbn. now rewrite H.
  - rewrite lookup_seq_ge, lookup_ge_None_2 by lia. done.
Qed.

Lemma commit_run k :
  log_inv k [] -> 0 < lh_n (k_log k) ->
  let lg := k_log k in
  exists k', commit k = Ok tt k' /\ blocks k' [] /\ k_log k' = set_lh_n 0 lg /\
    (forall b, dirty k' b = false) /\
    wsteps (set_k_log (set_lh_n 0 lg) k) k' (commit_writes lg (view k)).
Proof.
  intros [Hlg Hbl HD H0 Hdt Hnd] Hpos lg. fold lg in Hlg, HD, H0, Hdt, Hnd, Hpos.
  pose proof (lg_fits _ _ Hlg) as Hf. pose proof (lg_n _ _ Hlg) as Hn.
  pose proof (length_txn _ _ Hlg) as Hlt.
  assert (Hsp : spare k 1).
  { exists (txn lg). split; [intros b; apply Hdt|]. unfold bhead. rewrite Hlt.
    change NBUF with LOGSIZE. lia. }
  assert (Hdirty : forall t, (t < Z.to_nat (lh_n lg))%nat -> dirty k (txn lg !!! t) = true).
  { intros t Ht. apply Hdt. apply list_elem_of_lookup_total_2. lia. }
  assert (Htx : forall t, (t < Z.to_nat (lh_n lg))%nat ->
     0 <= txn lg !!! t /\ ~ (lg_start lg <= txn lg !!! t < lg_start lg + lg_size lg)).
  { intros t Ht. destruct (txn_lookup lg _ t Hlg Ht) as [_ (H1 & H2 & _)]. split; [lia|done]. }
  unfold commit. mred. fold lg. destruct (Z.ltb_spec 0 (lh_n lg)); [|lia]. unfold when.
  destruct (write_log_loop_spec lg _ Hlg (Z.to_nat (lh_n lg)) 0 k) as (k1 & R1 & B1 & S1); try done.
  { intros t Ht. apply Hdirty. lia. }
  assert (R1' : write_log k = Ok tt k1) by (unfold write_log; mred; exact R1). mok R1'.
  destruct (io_frame_log _ _ (ws_frame _ _ _ S1)) as (L1 & _ & _).
  assert (E1 : length (memdisk k1) = length (memdisk k)) by (rewrite (ws_disk _ _ _ S1); apply length_apply_writes).
  destruct (write_head_spec k1 lg _ Hlg B1) as (k2 & R2 & B2 & S2); [exact L1|done|now apply (spare_wsteps _ _ _ _ S1)|].
  mok R2. destruct (io_frame_log _ _ (ws_frame _ _ _ S2)) as (L2 & _ & _).
  assert (V1s : view k1 (lg_start lg) = view k (lg_start lg)).
  { rewrite (ws_view _ _ _ S1) by lia. apply upds_other. intros Hin. apply log_addrs in Hin. lia. }
  rewrite V1s in S2. set (h1 := hdr _ _ _) in S2.
  assert (E2 : length (memdisk k2) = length (memdisk k))
    by (rewrite (ws_disk _ _ _ S2), length_apply_writes; done).
  pose proof (wsteps_trans _ _ _ _ _ S1 S2) as S12.
  assert (V2 : forall t, (t < Z.to_nat (lh_n lg))%nat -> view k2 (lg_start lg + 1 + Z.of_nat t) = view k (txn lg !!! t)).
  { intros t Ht. rewrite (ws_view _ _ _ S2) by lia. rewrite upds_other.
    - rewrite (ws_view _ _ _ S1) by lia. now apply log_writes_upds.
    - cbn. rewrite list_elem_of_singleton. lia. }
  destruct (install_trans_loop_spec lg _ Hlg (Z.to_nat (lh_n lg)) 0 k2) as (k3 & R3 & B3 & S3); try done.
  { exact (eq_trans L2 L1). } { now apply (spare_wsteps _ _ _ _ S12). }
  { right. split; [done|]. intros t Ht. rewrite (ws_dirty _ _ _ S12), Hdirty by lia. cbn.
    rewrite bool_decide_false; [done|]. rewrite fmap_app, elem_of_app. destruct (Htx t) as [_ Hno]; [lia|].
    intros [Hin|Hin]; [apply log_addrs in Hin; lia|]. cbn in Hin. apply list_elem_of_singleton in Hin. lia. }
  assert (R3' : install_trans k2 = Ok tt k3) by (unfold install_trans; mred; rewrite L2, L1; exact R3).
  mok R3'. rewrite (home_txn lg _ (view k2) (view k) Hlg V2) in S3.
  pose proof (wsteps_trans _ _ _ _ _ S12 S3) as S123.
  destruct (io_frame_log _ _ (ws_frame _ _ _ S3)) as (L3 & _ & _).
  unfold updlog. mred. rewrite L3, L2, L1. fold lg.
  set (k3' := set_k_log (set_lh_n 0 lg) k3).
  assert (E3 : length (memdisk k3) = length (memdisk k)).
  { rewrite (ws_disk _ _ _ S123). apply length_apply_writes. }
  destruct (write_head_spec k3' (set_lh_n 0 lg) _ (lg_ok_reset _ _ Hlg)) as (k4 & R4 & B4 & S4); try done.
  { now apply blocks_set_log. }
  { exact (spare_wsteps _ _ _ 1 (wsteps_set_log (set_lh_n 0 lg) _ _ _ S123) Hsp). }
  assert (Ha : (txn_writes (txn lg) (view k)).*1 = txn lg).
  { unfold txn_writes. rewrite <- list_fmap_compose. apply list_fmap_id. }
  assert (V3 : view k3' (lg_start lg) = h1).
  { change (view k3 (lg_start lg) = h1). rewrite (ws_view _ _ _ S3), upds_other by (rewrite ?Ha; try lia;
      intros Hin; apply list_elem_of_lookup_total_1 in Hin as (t & Ht & E); destruct (Htx t); lia).
    rewrite (ws_view _ _ _ S2) by lia. cbn. unfold upd. now rewrite decide_True. }
  change (lg_start (set_lh_n 0 lg)) with (lg_start lg) in S4. rewrite V3 in S4.
  pose proof (wsteps_trans _ _ _ _ _ (wsteps_set_log (set_lh_n 0 lg) _ _ _ S123) S4) as S.
  assert (Hw : (log_writes (lg_start lg) (txn lg) (view k) 0 (Z.to_nat (lh_n lg)) ++ [(lg_start lg, h1)]) ++
     txn_writes (txn lg) (view k) = log_writes (lg_start lg) (txn lg) (view k) 0 (Z.to_nat (lh_n lg)) ++
     [(lg_start lg, h1)] ++ txn_writes (txn lg) (view k)) by now rewrite <- app_assoc.
  exists k4. split_and!; [exact R4|done| | |].
  - destruct (io_frame_log _ _ (ws_frame _ _ _ S4)) as (-> & _ & _). done.
  - intros b. rewrite (ws_dirty _ _ _ S). change (dirty (set_k_log (set_lh_n 0 lg) k) b) with (dirty k b).
    destruct (dirty k b) eqn:E; [|done]. apply Hdt in E. rewrite bool_decide_true; [done|].
    rewrite !fmap_app, Ha, !elem_of_app. auto.
  - unfold commit_writes. rewrite Hw in S. rewrite <- !app_assoc in S. exact S.
Qed.

(** ** Running recovery *)

Lemma read_head_loop_run d m : forall t k,
  lh_n (k_log k) = Z.of_nat (t + m) -> length (lh_block (k_log k)) = Z.to_nat LOGSIZE ->
  (t + m <= Z.to_nat LOGSIZE)%nat ->
  exists bl, read_head_loop m d (Z.of_nat t) k = Ok tt (set_k_log (set_lh_block bl (k_log k)) k) /\
    length bl = Z.to_nat LOGSIZE /\
    (forall i, (t <= i < t + m)%nat -> bl !!! i = hd_block d (Z.of_nat i)) /\
    (forall i, (i < t)%nat -> bl !!! i = lh_block (k_log k) !!! i).
Proof.
  induction m as [|m IH]; intros t k Hn Hl Hm; cbn [read_head_loop]; mred.
  - destruct (Z.ltb_spec (Z.of_nat t) (lh_n (k_log k))); [lia|]. exists (lh_block (k_log k)).
    split_and!; try done; [|lia]. destruct k as []. now destruct k_log.
  - destruct (Z.ltb_spec (Z.of_nat t) (lh_n (k_log k))); [|lia].
    unfold set_block at 1. rewrite bind_assoc by exact I. mred. rewrite Nat2Z.id.
    destruct (lookup_lt_is_Some_2 (lh_block (k_log k)) t) as [v Hv]; [lia|]. rewrite Hv.
    unfold updlog. mred. replace (Z.of_nat t + 1) with (Z.of_nat (S t)) by lia.
    destruct (IH (S t) (set_k_log (set_lh_block (<[t:=hd_block d (Z.of_nat t)]> (lh_block (k_log k))) (k_log k)) k))
      as (bl & R & B1 & B2 & B3).
    + cbn. rewrite Hn. lia.
    + cbn. now rewrite length_insert.
    + lia.
    + exists bl. split_and!; [exact R|done| |].
      * intros i Hi. destruct (decide (i = t)) as [->|Hne]; [|apply B2; lia].
        rewrite B3 by lia. cbn. apply list_lookup_total_insert_eq. lia.
      * intros i Hi. rewrite B3 by lia. cbn. apply list_lookup_total_insert_ne. lia.
Qed.

(** The in-memory log once [read_head] has read the header [h]. *)
Definition loaded_log (lg : log_t) (h : list Z) (bl : list Z) : log_t :=
  set_lh_block bl (set_lh_n (hd_n h) lg).

Lemma read_head_spec k lg :
  blocks k [] -> k_log k = lg -> lg_dev lg = 1 -> 0 <= lg_start lg < Z.of_nat (length (memdisk k)) ->
  Z.of_nat (length (memdisk k)) < 2 ^ 31 -> spare k 1 -> length (lh_block lg) = Z.to_nat LOGSIZE ->
  let h := view k (lg_start lg) in
  0 <= hd_n h <= LOGSIZE ->
  (dirty k (lg_start lg) = false -> h = memdisk k !!! Z.to_nat (lg_start lg)) ->
  exists k' bl, read_head k = Ok tt k' /\ blocks k' [] /\ length bl = Z.to_nat LOGSIZE /\
    txn (loaded_log lg h bl) = hd_txn h /\ wsteps (set_k_log (loaded_log lg h bl) k) k' [].
Proof.
  intros Hbl Hk Hdev Hs Hlen Hsp Hl h Hn Hsync. unfold read_head. mred. rewrite Hk, Hdev.
  rewrite (u32_small (lg_start lg)) by lia. change (u32 1) with 1.
  destruct (bread_blocks k [] (lg_start lg) Hbl) as (i & k1 & R1 & B1 & H1 & _ & Dat & _ & S1);
    [lia|clear; set_solver|right; now apply (spare_room k [])|].
  mok R1. unfold getbuf, updlog. mred. rewrite Dat. fold h. cbn match.
  destruct (io_frame_log _ _ (bs_frame _ _ _ _ _ _ S1)) as (L1 & _ & _). rewrite L1, Hk.
  destruct (read_head_loop_run h (Z.to_nat (hd_n h)) 0 (set_k_log (set_lh_n (hd_n h) lg) k1)) as
    (bl & R2 & P1 & P2 & _); [cbn; lia|done|lia|].
  change (Z.of_nat 0) with 0 in R2. mok R2.
  set (k2 := set_k_log (loaded_log lg h bl) k1).
  change (set_k_log _ (set_k_log _ k1)) with k2.
  destruct (brelse_blocks k2 [] i (lg_start lg)) as (k3 & R3 & B3 & _ & S3).
  - now apply blocks_set_log.
  - clear; set_solver.
  - exact H1.
  - change (dirty k1 (lg_start lg) = false -> view k1 (lg_start lg) = memdisk k1 !!! Z.to_nat (lg_start lg)).
    destruct S1 as [_ V1 D1 E1 _]. rewrite D1, E1, V1 by lia. exact Hsync.
  - exists k3, bl. split_and!; [exact R3|done|done| |].
    + apply list_eq. intros t. unfold txn, loaded_log, hd_txn. cbn [lh_n lh_block set_lh_block set_lh_n].
      rewrite list_lookup_fmap. destruct (decide (t < Z.to_nat (hd_n h))%nat) as [Ht|Ht].
      * rewrite lookup_take_lt, lookup_seq_lt by done. cbn.
        rewrite (list_lookup_lookup_total_lt bl t) by lia. now rewrite P2 by lia.
      * rewrite lookup_take_ge, lookup_seq_ge by lia. done.
    + apply (wsteps_trans _ k2 k3 [] []); [|now apply bstep_quiet].
      apply wsteps_set_log. now apply bstep_quiet.
Qed.

Definition clean (k : kernel) : Prop := forall b, dirty k b = false.

Lemma clean_spare k n : clean k -> (n <= bhead)%nat -> spare k n.
Proof. intros H Hn. exists []. split; [intros b; now rewrite H|cbn; lia]. Qed.

Lemma clean_wsteps k k' wr : wsteps k k' wr -> clean k -> clean k'.
Proof. intros S H b. now rewrite (ws_dirty _ _ _ S), H. Qed.

Lemma clean_view k b : blocks k [] -> clean k -> view k b = dsk (memdisk k) b.
Proof. intros Hb Hc. apply (view_coherent k []); [done|clear; set_solver|apply Hc]. Qed.

(** The fields that place the log. *)
Definition same_place (lg lg' : log_t) : Prop :=
  lg_dev lg' = 1 /\ lg_start lg' = lg_start lg /\ lg_size lg' = lg_size lg /\
  length (lh_block lg') = Z.to_nat LOGSIZE.

Lemma recover_run k lg :
  blocks k [] -> clean k -> same_place lg (k_log k) -> disk_ok lg (memdisk k) ->
  1 < lg_start lg -> lg_start lg + lg_size lg <= Z.of_nat (length (memdisk k)) < 2 ^ 31 ->
  lg_size lg <= LOGSIZE ->
  exists k', recover_from_log k = Ok tt k' /\ blocks k' [] /\ clean k' /\
    same_place lg (k_log k') /\ lh_n (k_log k') = 0 /\
    lg_outstanding (k_log k') = lg_outstanding (k_log k) /\
    lg_committing (k_log k') = lg_committing (k_log k) /\
    wsteps (set_k_log (k_log k') k) k' (rec_writes lg (memdisk k)).
Proof.
  intros Hbl Hc (P1 & P2 & P3 & P4) HD Hs Hf Hsz.
  pose proof (do_n _ _ HD) as Hn. set (D := memdisk k) in *. set (h := dsk D (lg_start lg)) in *.
  assert (Hv : view k (lg_start lg) = h) by now apply clean_view.
  assert (Hb2 : (2 <= bhead)%nat) by (unfold bhead; change (Z.to_nat NBUF) with 30%nat; lia).
  destruct (read_head_spec k (k_log k)) as (k1 & bl & R1 & B1 & Hl & Htx & S1); try done; rewrite ?P2, ?Hv.
  { fold D. lia. } { fold D. lia. } { apply clean_spare; [done|lia]. } { lia. } { intros _. exact eq_refl. }
  rewrite P2, Hv in Htx, S1. set (lg1 := loaded_log (k_log k) h bl) in *.
  unfold recover_from_log. mok R1.
  destruct (io_frame_log _ _ (ws_frame _ _ _ S1)) as (L1 & _ & _). change (k_log k1 = lg1) in L1.
  assert (C1 : clean k1) by exact (clean_wsteps _ _ _ S1 Hc).
  assert (E1 : memdisk k1 = D) by exact (ws_disk _ _ _ S1).
  assert (Hlg1 : lg_ok lg1 (length D)).
  { split; cbn [lg1 loaded_log lg_dev lg_start lg_size lh_n lh_block set_lh_block set_lh_n].
    - done.
    - rewrite P2, P3. lia.
    - rewrite P3. lia.
    - done.
    - rewrite Htx. eapply Forall_impl; [apply HD|]. intros b (H1 & H2 & H3).
      unfold data_block. cbn. now rewrite P2, P3. }
  destruct (install_trans_loop_spec lg1 _ Hlg1 (Z.to_nat (hd_n h)) 0 k1) as (k2 & R2 & B2 & S2);
    [done|done|done|now rewrite E1|apply clean_spare; [done|lia]|left; now apply clean_spare|].
  assert (R2' : install_trans k1 = Ok tt k2) by (unfold install_trans; mred; rewrite L1; exact R2).
  mok R2'. destruct (io_frame_log _ _ (ws_frame _ _ _ S2)) as (L2 & _ & _).
  unfold updlog. mred. rewrite L2, L1.
  assert (Hw : home_writes (lg_start lg1) (txn lg1) (view k1) 0 (Z.to_nat (hd_n h)) = rec_home lg D).
  { change (lg_start lg1) with (lg_start (k_log k)). rewrite P2, Htx. unfold rec_home. fold h.
    apply home_writes_ext. intros t _. rewrite clean_view by done. now rewrite E1. }
  rewrite Hw in S2. pose proof (wsteps_trans _ _ _ _ _ S1 S2) as S12. cbn [app] in S12.
  set (lg2 := set_lh_n 0 lg1). set (k2' := set_k_log lg2 k2).
  assert (C2 : clean k2) by exact (clean_wsteps _ _ _ S2 C1).
  assert (E2 : memdisk k2 = apply_writes D (rec_home lg D)) by exact (ws_disk _ _ _ S12).
  destruct (write_head_spec k2' lg2 (length D) (lg_ok_reset _ _ Hlg1)) as (k3 & R3 & B3 & S3); try done.
  { now apply blocks_set_log. }
  { change (memdisk k2') with (memdisk k2). rewrite E2. apply length_apply_writes. }
  { apply clean_spare; [exact C2|lia]. }
  assert (V2 : view k2' (lg_start lg2) = h).
  { change (view k2 (lg_start (k_log k)) = h). rewrite P2, clean_view, E2 by done.
    apply (data_writes_same lg); [now apply rec_home_writes|lia|apply not_data_log; lia]. }
  change (lg_start lg2) with (lg_start (k_log k)) in S3, V2. rewrite V2, P2 in S3.
  exists k3. destruct (io_frame_log _ _ (ws_frame _ _ _ S3)) as (L3 & _ & _). rewrite L3.
  change (k_log k2') with lg2.
  split_and!; try done.
  - exact (clean_wsteps _ _ _ S3 C2).
  - exact (wsteps_trans _ _ _ _ _ (wsteps_set_log lg2 _ _ _ S12) S3).
Qed.

(** The kernel at boot, before [initlog]: the cache is idle and shows the disk. *)
Definition boot_ok (k : kernel) : Prop :=
  blocks k [] /\ clean k /\ length (lh_block (k_log k)) = Z.to_nat LOGSIZE.

(** The log's place on a disk of [len] blocks. *)
Definition geometry (lg : log_t) (len : nat) : Prop :=
  1 < lg_start lg /\ lg_start lg + lg_size lg <= Z.of_nat len < 2 ^ 31 /\ lg_size lg <= LOGSIZE.

Lemma readsb_run k :
  blocks k [] -> clean k -> (1 < length (memdisk k))%nat ->
  exists k', readsb 1 k = Ok (decode_sb (dsk (memdisk k) 1)) k' /\ blocks k' [] /\ wsteps k k' [].
Proof.
  intros Hb Hc Hl. unfold readsb. change (u32 1) with 1.
  destruct (bread_blocks k [] 1 Hb) as (i & k1 & R1 & B1 & H1 & _ & Dat & _ & S1);
    [lia|clear; set_solver|right; apply (spare_room k []); [done|]; apply clean_spare; [done|]|].
  { unfold bhead. change (Z.to_nat NBUF) with 30%nat. cbn. lia. }
  mok R1. unfold getbuf. mred. rewrite Dat, clean_view by done.
  destruct (brelse_blocks k1 [] i 1) as (k2 & R2 & B2 & _ & S2); [done|clear; set_solver|done| |].
  { destruct S1 as [_ V1 D1 E1 _]. rewrite V1, E1 by lia. intros _. now apply clean_view. }
  mok R2. exists k2. split_and!; [done|done|].
  apply (wsteps_trans _ k1 k2 [] []); now apply bstep_quiet.
Qed.

Lemma initlog_run k lg :
  boot_ok k -> disk_ok lg (memdisk k) -> geometry lg (length (memdisk k)) ->
  exists k', initlog 1 k = Ok tt k' /\ blocks k' [] /\ clean k' /\
    same_place lg (k_log k') /\ lh_n (k_log k') = 0 /\
    lg_outstanding (k_log k') = lg_outstanding (k_log k) /\
    lg_committing (k_log k') = lg_committing (k_log k) /\ lock_free Llog k' /\
    memdisk k' = apply_writes (memdisk k) (rec_writes lg (memdisk k)) /\
    diskwrites k' = diskwrites k ++ rec_writes lg (memdisk k).
Proof.
  intros (Hb & Hc & Hl) HD (Hs & Hf & Hsz). unfold initlog, initlock. change (BSIZE <=? 4 + 4 * LOGSIZE) with false.
  cbn match. mred. set (k0 := set_k_locks _ k). pose proof (do_n _ _ HD) as Hn.
  assert (B0 : blocks k0 []).
  { destruct Hb as [(C1 & [n1 C2] & [n2 C3]) H2 H3]. split; [|exact H2|exact H3]. split_and!; [exact C1| |].
    - exists n1. cbn. now rewrite lookup_insert_ne.
    - exists n2. cbn. now rewrite lookup_insert_ne. }
  destruct (readsb_run k0 B0 Hc) as (k1 & R1 & B1 & S1); [change (1 < length (memdisk k))%nat; lia|].
  mok R1. unfold updlog. mred. destruct (io_frame_log _ _ (ws_frame _ _ _ S1)) as (L1 & _ & _).
  rewrite L1. destruct (do_sb _ _ HD) as [Sb1 Sb2].
  change (memdisk k0) with (memdisk k). rewrite Sb1, Sb2. change (k_log k0) with (k_log k).
  set (lg1 := set_lg_dev 1 (set_lg_size (lg_size lg) (set_lg_start (lg_start lg) (k_log k)))).
  match goal with |- context [recover_from_log ?s] => change s with (set_k_log lg1 k1) end.
  assert (E1 : memdisk k1 = memdisk k) by exact (ws_disk _ _ _ S1).
  assert (C1 : clean k1) by exact (clean_wsteps _ _ _ S1 Hc).
  destruct (recover_run (set_k_log lg1 k1) lg) as (k2 & R2 & B2 & C2 & P2 & N2 & O2 & M2 & S2);
    [now apply blocks_set_log|exact C1|done| | | | |];
    change (memdisk (set_k_log lg1 k1)) with (memdisk k1) in *; rewrite ?E1 in *; try done.
  exists k2. split_and!; try done.
  - exists "log"%string. destruct (io_frame_log _ _ (ws_frame _ _ _ S2)) as (_ & -> & _).
    destruct (io_frame_log _ _ (ws_frame _ _ _ S1)) as (_ & E & _). cbn. rewrite E. apply lookup_insert_eq.
  - rewrite (ws_disk _ _ _ S2). cbn. now rewrite E1.
  - rewrite (ws_writes _ _ _ S2). cbn. pose proof (ws_writes _ _ _ S1) as W1. rewrite W1. cbn.
    now rewrite app_nil_r.
Qed.

(** ** Properties *)

Lemma header_cleared D wr s h :
  0 <= s < Z.of_nat (length D) -> length h = Z.to_nat BSIZE ->
  hd_n (dsk (apply_writes D (wr ++ [(s, hdr h 0 [])])) s) = 0.
Proof.
  intros Hs Hh. rewrite apply_writes_app. unfold dsk. cbn [apply_writes foldl fst snd].
  rewrite list_lookup_total_insert_eq by (rewrite length_apply_writes; lia).
  apply (hdr_read h 0 []); try done; cbn; lia.
Qed.

(** A disk as it is found after the power failed during recovery, any number of
    times: some prefix of each recovery's writes took place. *)
Inductive crashed (D : list (list Z)) : list (list Z) -> Prop :=
| crashed_once : crashed D D
| crashed_again D' k k' wr p :
    crashed D D' -> boot_ok k -> memdisk k = D' -> initlog 1 k = Ok tt k' ->
    diskwrites k' = diskwrites k ++ wr -> p `prefix_of` wr ->
    crashed D (apply_writes D' p).

Lemma crashed_recoverable lg D V D' :
  geometry lg (length D) -> recoverable lg D V -> crashed D D' ->
  recoverable lg D' V /\ length D' = length D.
Proof.
  intros Hg HR Hc. induction Hc as [|D1 k k' wr p _ IH Hb Hk Hi Hw Hp]; [done|].
  destruct IH as [HR1 Hl1]. subst D1.
  destruct (initlog_run k lg Hb (proj1 HR1)) as (k2 & R2 & _ & _ & _ & _ & _ & _ & _ & _ & W2); [now rewrite Hl1|].
  rewrite R2 in Hi. injection Hi as ->. rewrite W2 in Hw. apply app_inv_head in Hw as <-.
  destruct Hg as (G1 & G2 & G3). rewrite length_apply_writes. split; [|done].
  apply recoverable_prefix; auto. now rewrite Hl1.
Qed.

Lemma log_inv_intro k lg :
  blocks k [] -> clean k -> same_place lg (k_log k) -> lh_n (k_log k) = 0 ->
  geometry lg (length (memdisk k)) -> disk_ok lg (memdisk k) ->
  hd_n (dsk (memdisk k) (lg_start lg)) = 0 -> log_inv k [].
Proof.
  intros Hb Hc (P1 & P2 & P3 & P4) Hn (G1 & G2 & G3) [D1 D2 D3 D4] H0.
  assert (Ht : txn (k_log k) = []) by (unfold txn; now rewrite Hn).
  split; rewrite ?P2, ?Ht; try done.
  - split; rewrite ?P2, ?P3, ?Hn, ?Ht; try done; lia.
  - split; unfold sb_ok; rewrite ?P2, ?P3; try done. unfold hd_txn. now rewrite H0.
  - intros b. rewrite Hc, elem_of_nil. done.
  - constructor.
Qed.

(** Recovery from any disk it is meant for ends with the expected contents. *)
Lemma recovered lg V k :
  boot_ok k -> geometry lg (length (memdisk k)) -> recoverable lg (memdisk k) V ->
  exists k', initlog 1 k = Ok tt k' /\ log_inv k' [] /\
    (forall b, data_block lg (length (memdisk k)) b -> dsk (memdisk k') b = V b) /\
    lock_free Llog k' /\ lg_outstanding (k_log k') = lg_outstanding (k_log k) /\
    lg_committing (k_log k') = lg_committing (k_log k) /\ same_place lg (k_log k') /\
    length (memdisk k') = length (memdisk k) /\ lh_n (k_log k') = 0.
Proof.
  intros Hb Hg HR. destruct (initlog_run k lg Hb (proj1 HR) Hg) as (k' & R & B & C & P & N & Ho & Hm & Hl0 & E & W).
  pose proof Hg as (G1 & G2 & G3). pose proof (do_n _ _ (proj1 HR)) as Hn.
  assert (HR' : recoverable lg (memdisk k') V) by (rewrite E; now apply recoverable_prefix).
  assert (H0 : hd_n (dsk (memdisk k') (lg_start lg)) = 0).
  { rewrite E. apply header_cleared; [lia|apply HR]. }
  assert (Hl : length (memdisk k') = length (memdisk k)) by (rewrite E; apply length_apply_writes).
  exists k'. split_and!; [done| | |done..].
  - apply (log_inv_intro k' lg); try done; [now rewrite Hl|apply HR'].
  - intros b Hd. apply (recoverable_done lg); [done|done|now rewrite Hl].
Qed.

Lemma log_inv_geometry k : log_inv k [] -> geometry (k_log k) (length (memdisk k)).
Proof.
  intros H. pose proof (lg_fits _ _ (li_ok _ _ H)). pose proof (lg_n _ _ (li_ok _ _ H)). unfold geometry. lia.
Qed.

Lemma view_clean k b : log_inv k [] -> b ∉ txn (k_log k) -> view k b = dsk (memdisk k) b.
Proof.
  intros [_ Hbl _ _ Hdt _] Hb. apply (view_coherent k []); [done|clear; set_solver|].
  apply not_true_iff_false. now rewrite Hdt.
Qed.

Lemma view_start k : log_inv k [] -> view k (lg_start (k_log k)) = dsk (memdisk k) (lg_start (k_log k)).
Proof.
  intros H. apply view_clean; [done|]. intros Hin. pose proof (lg_txn _ _ (li_ok _ _ H)) as HF.
  rewrite Forall_forall in HF. pose proof (lg_n _ _ (li_ok _ _ H)).
  destruct (HF _ Hin) as (_ & H' & _). lia.
Qed.

Lemma commit_header_length k :
  log_inv k [] -> length (hdr (view k (lg_start (k_log k))) (lh_n (k_log k)) (txn (k_log k))) = Z.to_nat BSIZE.
Proof.
  intros H. unfold hdr. rewrite hdr_words_length, view_start by done. unfold st32. rewrite length_put.
  apply H.
Qed.

(** Every prefix of a commit's writes is recoverable, to the old or the new contents. *)
Lemma commit_prefixes k p :
  log_inv k [] -> p `prefix_of` commit_writes (k_log k) (view k) ->
  exists V, (V = dsk (memdisk k) \/ V = view k) /\ (p = commit_writes (k_log k) (view k) -> V = view k) /\
    recoverable (k_log k) (apply_writes (memdisk k) p) V.
Proof.
  intros Hinv Hp. pose proof Hinv as [Hlg Hbl HD H0 Hdt Hnd]. set (lg := k_log k) in *.
  destruct (log_inv_geometry k Hinv) as (G1 & G2 & G3). fold lg in G1, G2, G3.
  pose proof (lg_n _ _ Hlg) as Hn.
  assert (Hcl : forall b, b ∉ txn lg -> view k b = dsk (memdisk k) b) by (intros b; now apply view_clean).
  pose proof (view_start k Hinv : view k (lg_start lg) = dsk (memdisk k) (lg_start lg)) as Hvs.
  unfold commit_writes in Hp |- *. apply prefix_app_inv in Hp as [Hp|(p' & -> & Hp)].
  - exists (dsk (memdisk k)). split_and!; [now left| |now apply (crash_before lg G1 _ (view k))].
    intros ->. apply prefix_length in Hp. rewrite !length_app in Hp. cbn in Hp. lia.
  - apply prefix_app_inv in Hp as [Hp|(p2 & -> & Hp)].
    + apply prefix_singleton_inv in Hp as [->| ->].
      * exists (dsk (memdisk k)). split_and!; [now left| |rewrite app_nil_r; now apply (crash_before lg G1 _ (view k))].
        intros E. apply (f_equal length) in E. rewrite !length_app in E. cbn in E. lia.
      * exists (view k). split_and!; [now right|done|].
        apply (crash_after lg G1 G3 _ (view k) []); auto using prefix_nil.
    + exists (view k). split_and!; [now right|done|]. apply (crash_after lg G1 G3); auto.
Qed.
