(* ===== verification/LogOps.v ===== *)
(** * Transactions (log.c)

    What [log_write], [begin_op] and [end_op] do for the file system: a layer
    in which blocks are read and changed inside a transaction.  The main
    theorems are about whole transactions. *)

From S2P Require Import Prelude State Spinlock Sched Resume Bio Bytes Log LogCrash.

(** ** log_write *)

Lemma log_find_run lg len b m : forall t,
  lg_ok lg len -> 0 <= b < Z.of_nat len -> (t + m = Z.to_nat (lh_n lg))%nat ->
  (forall t', (t' < t)%nat -> txn lg !!! t' <> b) ->
  exists j, log_find m (Z.of_nat t) (lh_n lg) (lh_block lg) b = Z.of_nat j /\ (j <= Z.to_nat (lh_n lg))%nat /\
    ((j < Z.to_nat (lh_n lg))%nat -> txn lg !!! j = b) /\
    (forall t', (t' < j)%nat -> txn lg !!! t' <> b).
Proof.
  induction m as [|m IH]; intros t Hlg Hb Htm Hno; cbn [log_find].
  - exists t. split_and!; [done|lia|lia|done].
  - destruct (Z.ltb_spec (Z.of_nat t) (lh_n lg)); [|lia]. rewrite Nat2Z.id.
    destruct (txn_lookup lg len t Hlg) as [E (R & _ & _)]; [lia|].
    rewrite (list_lookup_total_correct _ _ _ E). pose proof (lg_fits _ _ Hlg). rewrite u32_small by lia.
    destruct (Z.eqb_spec (txn lg !!! t) b) as [Heq|Hne].
    + exists t. split_and!; [done|lia|done|done].
    + replace (Z.of_nat t + 1) with (Z.of_nat (S t)) by lia. apply IH; [done|done|lia|].
      intros t' Ht'. destruct (decide (t' = t)) as [->|]; [done|apply Hno; lia].
Qed.

(** The log after [log_write] of block [b]. *)
Definition logged (lg : log_t) (b : Z) : log_t :=
  if decide (b ∈ txn lg) then lg
  else set_lh_n (lh_n lg + 1) (set_lh_block (<[Z.to_nat (lh_n lg) := b]> (lh_block lg)) lg).

Lemma txn_logged lg len b :
  lg_ok lg len -> lh_n lg < LOGSIZE -> txn (logged lg b) = if decide (b ∈ txn lg) then txn lg else txn lg ++ [b].
Proof.
  intros Hlg Hn. unfold logged. case_decide as Hin; [done|].
  pose proof (lg_n _ _ Hlg) as Hr. pose proof (lg_len _ _ Hlg) as Hl.
  unfold txn. cbn. replace (Z.to_nat (lh_n lg + 1)) with (S (Z.to_nat (lh_n lg))) by lia.
  rewrite (take_S_r _ _ b) by (apply list_lookup_insert_eq; lia).
  f_equal. now rewrite take_insert_ge by lia.
Qed.

Lemma lg_ok_logged lg len b :
  lg_ok lg len -> lh_n lg < lg_size lg - 1 -> data_block lg len b -> lg_ok (logged lg b) len.
Proof.
  intros Hlg Hn Hb. pose proof (txn_logged lg len b Hlg) as Ht. unfold logged in *. case_decide as Hin; [done|].
  pose proof (lg_n _ _ Hlg) as Hr. destruct Hlg as [L1 L2 L3 L4 L5]. split; cbn; try done.
  - lia.
  - now rewrite length_insert.
  - rewrite Ht by lia. apply Forall_app. split; [done|]. now constructor.
Qed.

Lemma log_write_run k i b :
  cpu_ok (k_cpu k) -> lock_free Llog k -> lg_ok (k_log k) (length (memdisk k)) ->
  lh_n (k_log k) < lg_size (k_log k) - 1 -> 0 < lg_outstanding (k_log k) ->
  b_blockno (bcache k !!! i) = b -> data_block (k_log k) (length (memdisk k)) b ->
  log_write i k = Ok tt (set_k_log (logged (k_log k) b)
    (set_bcache (alter (fun bf => set_b_flags (Z.lor (b_flags bf) B_DIRTY) bf) i (bcache k)) k)).
Proof.
  intros Hc Hl Hlg Hn Ho Hb Hdb. set (lg := k_log k) in *.
  pose proof (lg_n _ _ Hlg) as Hr. pose proof (lg_fits _ _ Hlg) as Hf. pose proof (lg_len _ _ Hlg) as Hlen.
  unfold log_write. mred. fold lg.
  rewrite (proj2 (Z.leb_gt LOGSIZE (lh_n lg))), (proj2 (Z.leb_gt (lg_size lg - 1) (lh_n lg))) by lia. cbn [orb].
  rewrite (proj2 (Z.ltb_ge (lg_outstanding lg) 1)) by lia.
  mok (acquire_free Llog k Hl). mred. unfold getbuf. mred.
  change (k_log (held Llog k)) with lg. change (bcache (held Llog k)) with (bcache k). rewrite Hb.
  destruct (log_find_run lg _ b (Z.to_nat (lh_n lg)) 0 Hlg) as (j & Ej & Hj & Hjb & Hno); [apply Hdb|lia|lia|].
  change (Z.of_nat 0) with 0 in Ej. rewrite Ej. cbn match.
  assert (Hs : s32 b = b) by (apply s32_small; destruct Hdb as [? _]; lia). rewrite Hs.
  unfold set_block. rewrite bind_assoc by exact I. mred. change (k_log (held Llog k)) with lg. rewrite Nat2Z.id.
  destruct (lookup_lt_is_Some_2 (lh_block lg) j) as [v Hv]; [lia|]. rewrite Hv. unfold updlog, updbuf. mred.
  change (k_log (held Llog k)) with lg.
  pose proof (length_txn lg _ Hlg) as Htl.
  assert (Hlog : (if decide (Z.of_nat j = lh_n lg) then set_lh_n (lh_n lg + 1) (set_lh_block (<[j := b]> (lh_block lg)) lg)
     else set_lh_block (<[j := b]> (lh_block lg)) lg) = logged lg b).
  { unfold logged. case_decide as E; case_decide as E2.
    - apply list_elem_of_lookup_total_1 in E2 as (t & Ht & Et). destruct (Hno t); [lia|done].
    - do 3 f_equal. lia.
    - assert (Ejb : lh_block lg !! j = Some b).
      { destruct (txn_lookup lg _ j Hlg) as [-> _]; [lia|]. f_equal. apply Hjb. lia. }
      rewrite list_insert_id by done. now destruct lg.
    - destruct E2. rewrite <- (Hjb ltac:(lia)). apply list_elem_of_lookup_total_2. lia. }
  set (k1 := set_k_log (logged lg b)
    (set_bcache (alter (fun bf => set_b_flags (Z.lor (b_flags bf) B_DIRTY) bf) i (bcache k)) k)).
  destruct (Z.eqb_spec (Z.of_nat j) (lh_n lg)) as [E|E]; unfold when; mred;
    [rewrite decide_True in Hlog by done|rewrite decide_False in Hlog by done];
    match goal with |- release Llog ?s = _ => replace s with (held Llog k1) by (unfold k1; rewrite <- Hlog; reflexivity) end;
    exact (release_held Llog k1 Hc Hl).
Qed.

(** ** The transaction layer *)

(** Between the steps of file system calls: the log is sound and its lock is
    free. *)
Record tx (k : kernel) (hs : list nat) : Prop := {
  tx_log : log_inv k hs;
  tx_lock : lock_free Llog k
}.

(** Some file system call is registered, and the log takes one more block. *)
Definition log_open (k : kernel) : Prop :=
  lh_n (k_log k) < lg_size (k_log k) - 1 /\ 0 < lg_outstanding (k_log k).

(** The cache can take one more block. *)
Definition tx_room (k : kernel) (hs : list nat) : Prop :=
  (length (txn (k_log k)) + length hs < bhead)%nat.

Lemma tx_bstep k k' hs hs' vw ws :
  tx k hs -> bstep k k' vw (dirty k) (memdisk k) ws -> blocks k' hs' -> tx k' hs'.
Proof.
  intros [[H1 H2 H3 H4 H5 H6] HL] [F V D E W] Hb.
  destruct (io_frame_log _ _ F) as (L & K & _).
  split; [split|..]; rewrite ?L, ?E; try done.
  - intros b. rewrite D. apply H5.
  - unfold lock_free. now rewrite K.
Qed.

Lemma tx_read k hs b :
  tx k hs -> in_range (memdisk k) b -> (forall i, i ∈ hs -> is_blk b (bcache k !!! i) = false) ->
  tx_room k hs \/ b ∈ txn (k_log k) ->
  exists i k', bread 1 b k = Ok i k' /\ tx k' (i :: hs) /\ holds k' i b /\ (i ∉ hs) /\
    b_data (bcache k' !!! i) = view k b /\
    (forall j, j ∈ hs -> bcache k' !!! j = bcache k !!! j) /\
    bstep k k' (view k) (dirty k) (memdisk k) (diskwrites k).
Proof.
  intros Ht Hb Hnh Hr. pose proof (li_blocks _ _ (tx_log _ _ Ht)) as Hbl.
  pose proof (li_dirty _ _ (tx_log _ _ Ht)) as Hdt.
  destruct (bread_blocks k hs b Hbl Hb Hnh) as (i & k' & R & B & H & Hni & Dat & O & S).
  - destruct Hr as [Hr|Hin].
    + right. apply (room k hs (txn (k_log k))); [done|intros b'; apply Hdt|done].
    + left. apply Hdt in Hin. unfold dirty, bdirty in Hin. destruct (cached (bcache k) b); [eauto|done].
  - exists i, k'. split_and!; try done. exact (tx_bstep _ _ _ _ _ _ Ht S B).
Qed.

Lemma tx_modify k hs i b (g : list Z -> list Z) :
  tx k hs -> i ∈ hs -> holds k i b ->
  exists k', updbuf i (fun bf => set_b_data (g (b_data bf)) bf) k = Ok tt k' /\ tx k' hs /\
    holds k' i b /\ bstep k k' (upd (view k) b (g (view k b))) (dirty k) (memdisk k) (diskwrites k).
Proof.
  intros Ht Hi Hh. destruct (moddata_blocks k hs i b g (li_blocks _ _ (tx_log _ _ Ht)) Hi Hh) as (k' & R & B & H & S).
  exists k'. split_and!; try done. exact (tx_bstep _ _ _ _ _ _ Ht S B).
Qed.

Lemma tx_relse k hs i b :
  tx k (i :: hs) -> (i ∉ hs) -> holds k i b ->
  (b ∈ txn (k_log k) \/ view k b = memdisk k !!! Z.to_nat b) ->
  exists k', brelse i k = Ok tt k' /\ tx k' hs /\
    (forall j, j <> i -> same_buf (bcache k' !!! j) (bcache k !!! j)) /\
    bstep k k' (view k) (dirty k) (memdisk k) (diskwrites k).
Proof.
  intros Ht Hni Hh Hs. destruct (brelse_blocks k hs i b) as (k' & R & B & O & S); [apply Ht|done|done| |].
  - intros Hd. destruct Hs as [Hs|Hs]; [|done]. apply (li_dirty _ _ (tx_log _ _ Ht)) in Hs. congruence.
  - exists k'. split_and!; try done. exact (tx_bstep _ _ _ _ _ _ Ht S B).
Qed.

(** The frame of [log_write]: the cache, the log and nothing else. *)
Lemma tx_log_write k hs i b :
  tx k hs -> i ∈ hs -> holds k i b -> data_block (k_log k) (length (memdisk k)) b ->
  log_open k ->
  exists k', log_write i k = Ok tt k' /\ tx k' hs /\ holds k' i b /\
    k_log k' = logged (k_log k) b /\ (forall j, j <> i -> bcache k' !!! j = bcache k !!! j) /\
    bstep (set_k_log (logged (k_log k) b) k) k' (view k) (upd (dirty k) b true) (memdisk k) (diskwrites k).
Proof.
  intros [[Hlg Hbl HD H0 Hdt Hnd] HL] Hi Hh Hdb [Hn HO].
  pose proof (holds_view _ _ _ _ Hbl Hh) as (Vb & Db & Rb & _).
  set (f := fun bf => set_b_flags (Z.lor (b_flags bf) B_DIRTY) bf).
  set (k1 := set_bcache (alter f i (bcache k)) k).
  assert (Hnb : b_blockno (bcache k !!! i) = b) by (destruct Hh as (_ & H & _); unfold is_blk in H; lia).
  pose proof Hbl as [(Hc & _) [l Hinv] Hbusy]. apply Hbusy in Hi as Hbi. destruct Hbi as [Hib Hbi].
  destruct (flags_lor (b_flags (bcache k !!! i)) B_DIRTY (bc_flags _ _ _ Hinv i)) as (F1 & F2 & F3); [auto|].
  destruct (blocks_alter k hs i b f (memdisk k)) as (B1 & B2 & B3 & B4 & B5 & B6); try done.
  { destruct Hh as (_ & _ & Hv). unfold f. split; try done; ksimpl; rewrite ?F3; try done; auto. }
  change (set_memdisk (memdisk k) (set_bcache (alter f i (bcache k)) k)) with k1 in *.
  exists (set_k_log (logged (k_log k) b) k1).
  pose proof (txn_logged (k_log k) _ b Hlg) as Ht. pose proof (lg_n _ _ Hlg) as Hr.
  split_and!; try done.
  - now apply log_write_run.
  - split; [split|..]; try done.
    + now apply (lg_ok_logged (k_log k)).
    + now apply blocks_set_log.
    + unfold logged. case_decide; [done|]. destruct HD as [D1 D2 D3 D4]. split; done.
    + unfold logged. now case_decide.
    + intros b'. change (dirty (set_k_log (logged (k_log k) b) k1) b') with (dirty k1 b').
      rewrite B6. change (k_log (set_k_log (logged (k_log k) b) k1)) with (logged (k_log k) b).
      rewrite Ht by lia. unfold f. ksimpl. rewrite F2. specialize (Hdt b').
      repeat case_decide; subst; rewrite ?elem_of_app, ?list_elem_of_singleton, ?Hdt; tauto.
    + change (k_log (set_k_log (logged (k_log k) b) k1)) with (logged (k_log k) b).
      rewrite Ht by lia. case_decide; [done|]. apply NoDup_app. split_and!; [done| |apply NoDup_singleton].
      intros x Hx ->%list_elem_of_singleton. done.
  - split; try done.
    + exists (bcache k1), (memdisk k), (diskwrites k), (ptable k). split; [apply woken_refl|now destruct k].
    + intros b' Hb'. change (view k1 b' = view k b'). rewrite (B5 b' Hb').
      destruct (decide (b' = b)) as [->|]; [now rewrite Vb|reflexivity].
    + intros b'. change (dirty k1 b' = upd (dirty k) b true b'). rewrite B6. unfold upd, f. ksimpl.
      now rewrite F2.
Qed.

(** One block changed inside a transaction, as the file system does it. *)
Lemma tx_update k hs b x :
  tx k hs -> data_block (k_log k) (length (memdisk k)) b ->
  (forall i, i ∈ hs -> is_blk b (bcache k !!! i) = false) -> tx_room k hs ->
  log_open k ->
  exists k', (i <- bread 1 b ;; updbuf i (set_b_data x) ;; log_write i ;; brelse i) k = Ok tt k' /\
    tx k' hs /\ k_log k' = logged (k_log k) b /\
    (forall b', 0 <= b' -> view k' b' = upd (view k) b x b') /\
    memdisk k' = memdisk k /\ diskwrites k' = diskwrites k /\
    io_frame (set_k_log (logged (k_log k) b) k) k'.
Proof.
  intros Ht Hb Hnh Hr Hn. pose proof Hb as (Hrg & _ & _).
  destruct (tx_read k hs b Ht Hrg Hnh) as (i & k1 & R1 & T1 & H1 & Hni & _ & _ & [F1 V1 D1 E1 W1]); [now left|].
  destruct (io_frame_log _ _ F1) as (L1 & _ & _).
  destruct (tx_modify k1 (i :: hs) i b (fun _ => x) T1) as (k2 & R2 & T2 & H2 & [F2 V2 D2 E2 W2]); [clear; set_solver|done|].
  destruct (io_frame_log _ _ F2) as (L2 & _ & _).
  destruct (tx_log_write k2 (i :: hs) i b T2) as (k3 & R3 & T3 & H3 & L3 & O3 & [F3 V3 D3 E3 W3]);
    [clear; set_solver|done|now rewrite L2, L1, E2, E1|unfold log_open; now rewrite L2, L1|].
  destruct (tx_relse k3 hs i b T3 Hni H3) as (k4 & R4 & T4 & O4 & [F4 V4 D4 E4 W4]).
  { left. apply (li_dirty _ _ (tx_log _ _ T3)). rewrite D3. unfold upd. now rewrite decide_True. }
  exists k4. destruct (io_frame_log _ _ F4) as (L4 & _ & _).
  assert (F12 : io_frame k k2) by eauto using io_frame_trans. rewrite L2, L1 in F3, L3.
  split_and!.
  - mok R1. assert (R2' : updbuf i (set_b_data x) k1 = Ok tt k2) by exact R2. mok R2'. mok R3. exact R4.
  - done.
  - congruence.
  - intros b' Hb'. rewrite V4, V3, V2 by done. unfold upd. case_decide; [done|]. now apply V1.
  - congruence.
  - congruence.
  - apply (io_frame_trans _ k3); [|done].
    apply (io_frame_trans _ (set_k_log (logged (k_log k) b) k2)); [|done].
    destruct F12 as (bs & d & w & pt & Hw & ->). exists bs, d, w, pt. split; [exact Hw|reflexivity].
Qed.

(** ** begin_op and end_op *)

Lemma begin_op_run k :
  cpu_ok (k_cpu k) -> lock_free Llog k -> lg_committing (k_log k) = 0 ->
  lh_n (k_log k) + (lg_outstanding (k_log k) + 1) * MAXOPBLOCKS <= LOGSIZE ->
  begin_op k = Ok tt (set_k_log (set_lg_outstanding (lg_outstanding (k_log k) + 1) (k_log k)) k).
Proof.
  intros Hc Hl Hcm Hn. unfold begin_op. mok (acquire_free Llog k Hl). generalize max_sleeps as fuel. intros fuel.
  assert (E : begin_op_loop fuel (held Llog k) = (updlog (fun l => set_lg_outstanding (lg_outstanding l + 1) l) ;;
    release Llog) (held Llog k)).
  { destruct fuel; cbn [begin_op_loop]; mred; change (k_log (held Llog k)) with (k_log k);
      rewrite Hcm, (proj2 (Z.ltb_ge LOGSIZE _)) by lia; reflexivity. }
  rewrite E.
  unfold updlog. mred.
  pose (k1 := set_k_log (set_lg_outstanding (lg_outstanding (k_log k) + 1) (k_log k)) k).
  exact (release_held Llog k1 Hc Hl).
Qed.

(** Changes of the counters do not matter to the log. *)
Definition counters (o c : Z) (lg : log_t) : log_t := set_lg_committing c (set_lg_outstanding o lg).

Lemma log_inv_counters k hs o c : log_inv k hs -> log_inv (set_k_log (counters o c (k_log k)) k) hs.
Proof.
  intros [[L1 L2 L3 L4 L5] H2 [D1 D2 D3 D4] H4 H5 H6]. split; try done.
  now apply blocks_set_log.
Qed.

Lemma log_inv_woken k hs pt : log_inv k hs -> log_inv (set_ptable pt k) hs.
Proof.
  intros [H1 [B1 B2 B3] H3 H4 H5 H6]. split; [exact H1| |exact H3|exact H4|exact H5|exact H6].
  split; [exact B1|exact B2|exact B3].
Qed.

Lemma commit_spec k :
  log_inv k [] -> 0 < lh_n (k_log k) ->
  exists k', commit k = Ok tt k' /\ log_inv k' [] /\ k_log k' = set_lh_n 0 (k_log k) /\
    (forall b, data_block (k_log k) (length (memdisk k)) b -> dsk (memdisk k') b = view k b) /\
    wsteps (set_k_log (set_lh_n 0 (k_log k)) k) k' (commit_writes (k_log k) (view k)).
Proof.
  intros Hinv Hpos. destruct (commit_run k Hinv Hpos) as (k' & R & B & L & C & S).
  pose proof (log_inv_geometry k Hinv) as Hg.
  assert (E : memdisk k' = apply_writes (memdisk k) (commit_writes (k_log k) (view k))) by exact (ws_disk _ _ _ S).
  assert (Hlen : length (memdisk k') = length (memdisk k)) by (rewrite E; apply length_apply_writes).
  destruct (commit_prefixes k (commit_writes (k_log k) (view k)) Hinv ltac:(reflexivity)) as (V & _ & HV & HR).
  rewrite (HV eq_refl), <- E in HR. clear V HV. pose proof Hg as (G1 & G2 & G3).
  assert (H0 : hd_n (dsk (memdisk k') (lg_start (k_log k))) = 0).
  { rewrite E. unfold commit_writes. rewrite !app_assoc. apply header_cleared.
    - pose proof (lg_n _ _ (li_ok _ _ Hinv)). lia.
    - now apply commit_header_length. }
  exists k'. split_and!; [done| |done| |done].
  - apply (log_inv_intro k' (k_log k)); try done.
    + rewrite L. split_and!; try done; apply (li_ok _ _ Hinv).
    + now rewrite L.
    + now rewrite Hlen.
    + apply HR.
  - intros b Hb. apply (recoverable_done (k_log k)); [done|done|now rewrite Hlen].
Qed.

Lemma end_op_last k :
  log_inv k [] -> lock_free Llog k -> 0 < lh_n (k_log k) ->
  lg_outstanding (k_log k) = 1 -> lg_committing (k_log k) = 0 ->
  exists k', end_op k = Ok tt k' /\ log_inv k' [] /\ lock_free Llog k' /\
    k_log k' = counters 0 0 (set_lh_n 0 (k_log k)) /\
    memdisk k' = apply_writes (memdisk k) (commit_writes (k_log k) (view k)) /\
    diskwrites k' = diskwrites k ++ commit_writes (k_log k) (view k) /\
    (forall b, data_block (k_log k) (length (memdisk k)) b -> dsk (memdisk k') b = view k b).
Proof.
  intros Hinv Hl Hpos Ho Hcm. pose proof (li_blocks _ _ Hinv) as [(Hc & Hb & Hpt) _ _].
  unfold end_op. mok (acquire_free Llog k Hl). unfold updlog. mred. change (k_log (held Llog k)) with (k_log k).
  cbn [k_log set_k_log lg_committing lg_outstanding set_lg_outstanding]. rewrite Ho, Hcm. cbn [negb Z.eqb].
  change (1 - 1 =? 0) with true. cbn match. rewrite bind_assoc by exact I. mred.
  set (k1 := set_k_log (counters 0 1 (k_log k)) k).
  match goal with |- context [bind (release Llog) _ ?s] => change s with (held Llog k1) end.
  mok (release_held Llog k1 Hc Hl). unfold when.
  assert (Hinv1 : log_inv k1 []) by now apply log_inv_counters.
  destruct (commit_spec k1 Hinv1 Hpos) as (k2 & R2 & J2 & L2 & V2 & S2). mok R2.
  destruct (io_frame_log _ _ (ws_frame _ _ _ S2)) as (_ & K2 & P2).
  assert (Hl2 : lock_free Llog k2) by (unfold lock_free; rewrite K2; exact Hl).
  assert (Hc2 : cpu_ok (k_cpu k2)) by (rewrite P2; exact Hc).
  assert (Hpt2 : lock_free Lptable k2) by (unfold lock_free; rewrite K2; exact Hpt).
  mok (acquire_free Llog k2 Hl2). unfold updlog. mred.
  set (k3 := set_k_log (counters 0 0 (set_lh_n 0 (k_log k))) k2).
  assert (E3 : set_k_log (set_lg_committing 0 (k_log (held Llog k2))) (held Llog k2) = held Llog k3).
  { change (k_log (held Llog k2)) with (k_log k2). rewrite L2. reflexivity. }
  rewrite E3.
  assert (Hpt3 : lock_free Lptable (held Llog k3)) by now apply lock_free_held.
  mok (wakeup_run CLog (held Llog k3) (cpu_ok_pushed _ Hc2) Hpt3).
  set (k4 := set_ptable (wakeup1_proc CLog <$> ptable k2) k3).
  exists k4. split_and!.
  - exact (release_held Llog k4 Hc2 Hl2).
  - apply log_inv_woken. unfold k3. change (counters 0 0 (set_lh_n 0 (k_log k))) with
      (counters 0 0 (set_lh_n 0 (k_log k1))). rewrite <- L2. now apply log_inv_counters.
  - exact Hl2.
  - reflexivity.
  - exact (ws_disk _ _ _ S2).
  - exact (ws_writes _ _ _ S2).
  - exact V2.
Qed.

(** ** Properties *)

(** C1. A commit is atomic and durable.  [commit] puts the contents of all the
    transaction's blocks on the disk.  If the machine stops after any prefix [p]
    of the disk writes it makes, and then any number of times again while it
    recovers, then the boot that completes recovery finds all data blocks with
    their contents before the transaction, or all with their contents after it,
    as [p] decides; after a complete commit it is the latter. *)
Theorem commit_atomic k :
  log_inv k [] -> 0 < lh_n (k_log k) ->
  exists k' wr, commit k = Ok tt k' /\ log_inv k' [] /\ lh_n (k_log k') = 0 /\
    memdisk k' = apply_writes (memdisk k) wr /\ diskwrites k' = diskwrites k ++ wr /\
    (forall b, data_block (k_log k) (length (memdisk k)) b -> dsk (memdisk k') b = view k b) /\
    forall p, p `prefix_of` wr ->
    exists V, (V = dsk (memdisk k) \/ V = view k) /\ (p = wr -> V = view k) /\
    forall D kb, crashed (apply_writes (memdisk k) p) D -> boot_ok kb -> memdisk kb = D ->
    exists kr, initlog 1 kb = Ok tt kr /\ log_inv kr [] /\
      forall b, data_block (k_log k) (length (memdisk k)) b -> dsk (memdisk kr) b = V b.
Proof.
  intros Hinv Hpos. destruct (commit_spec k Hinv Hpos) as (k' & R & Hinv' & L & Hv & S).
  pose proof (log_inv_geometry k Hinv) as Hg.
  exists k', (commit_writes (k_log k) (view k)).
  split_and!; [done|done|now rewrite L|exact (ws_disk _ _ _ S)|exact (ws_writes _ _ _ S)|done|].
  intros p Hp. destruct (commit_prefixes k p Hinv Hp) as (V & HV & HV' & HRp).
  exists V. split_and!; [done|done|]. intros D kb Hc Hb Hk. subst D.
  apply (crashed_recoverable (k_log k) _ V) in Hc as [HRb Hl]; [|now rewrite length_apply_writes|done].
  rewrite length_apply_writes in Hl. rewrite <- Hl.
  destruct (recovered (k_log k) V kb) as (kr & Rr & Ir & Vr & _); [done|now rewrite Hl|done|]. now exists kr.
Qed.

(** *** A concrete file system *)

(** Twelve blocks; the superblock places a log of four blocks at block 2. *)
Definition example_sb : list Z := st32 (st32 (replicate 512 0) 12 4) 16 2.
Definition example_img : list (list Z) := <[1%nat := example_sb]> (replicate 12 (replicate 512 0)).
Definition example_lg : log_t := mkLog 2 4 0 0 1 0 (replicate 30 0).

Lemma example_disk_layout : disk_ok example_lg example_img /\ hd_n (dsk example_img 2) = 0 /\
  geometry example_lg (length example_img).
Proof.
  assert (H0 : hd_n (dsk example_img 2) = 0) by (vm_compute; reflexivity).
  assert (Hs : sb_ok example_lg example_img) by (split; vm_compute; reflexivity).
  assert (Hl : length (dsk example_img 2) = Z.to_nat BSIZE) by (vm_compute; reflexivity).
  assert (Hg : geometry example_lg (length example_img))
    by (unfold geometry; cbn; change LOGSIZE with 30; lia).
  split_and!; [|done|done]. split; cbn [lg_start example_lg]; done.
Qed.

Lemma example_boot :
  exists k, binit (set_memdisk example_img kernel0) = Ok tt k /\ boot_ok k /\ memdisk k = example_img /\
    k_log k = log0.
Proof.
  destruct (binit_blocks (set_memdisk example_img kernel0)) as (k & R & Hbl & E & Hd & _).
  - reflexivity.
  - unfold cpu_ok. cbn. split_and!; [lia|reflexivity|lia].
  - exists "ptable"%string. reflexivity.
  - exists k. split_and!; [exact R|split_and!; [exact Hbl|exact Hd|rewrite E; reflexivity]|rewrite E; reflexivity..].
Qed.

(** After boot, one call has changed block 8 and not yet ended. *)
Lemma example_tx :
  exists k, tx k [] /\ lh_n (k_log k) = 1 /\ lg_outstanding (k_log k) = 1 /\ lg_committing (k_log k) = 0 /\
    view k 8 = [7] /\ data_block (k_log k) (length (memdisk k)) 8 /\ lg_size (k_log k) = 4.
Proof.
  destruct example_boot as (k & _ & Hb & E & L). destruct example_disk_layout as (HD & H0 & Hg).
  destruct (recovered example_lg (dsk example_img) k Hb) as (k1 & _ & I1 & _ & L1 & O1 & C1 & P1 & E1 & N1);
    [now rewrite E| |].
  { rewrite E. split; [exact HD|]. intros b _. now rewrite rec_home_empty. }
  rewrite L in O1, C1. cbn in O1, C1. destruct P1 as (P1 & P2 & P3 & P4). cbn in P2, P3.
  assert (Hl : length (memdisk k1) = 12%nat) by (rewrite E1, E; reflexivity). clear E1 E Hb L HD H0 Hg.
  pose proof (li_blocks _ _ I1) as [(Hc & _) _ _].
  set (k2 := set_k_log (set_lg_outstanding (lg_outstanding (k_log k1) + 1) (k_log k1)) k1).
  assert (T2 : tx k2 []).
  { split; [|exact L1].
    pose proof (log_inv_counters k1 [] (lg_outstanding (k_log k1) + 1) (lg_committing (k_log k1)) I1) as H.
    unfold counters in H. unfold k2. now destruct (k_log k1). }
  assert (Hdb : data_block (k_log k2) (length (memdisk k2)) 8).
  { unfold data_block. cbn. rewrite Hl, P2, P3. lia. }
  assert (Htx : txn (k_log k2) = []) by (unfold txn; cbn; rewrite N1; reflexivity).
  destruct (tx_update k2 [] 8 [7] T2 Hdb) as (k3 & _ & T3 & L3 & V3 & E3 & _ & _).
  - intros i Hi. now apply elem_of_nil in Hi.
  - unfold tx_room. rewrite Htx. unfold bhead. change (Z.to_nat NBUF) with 30%nat. cbn. lia.
  - unfold log_open. cbn. rewrite N1, P3, O1. lia.
  - exists k3. unfold logged in L3. rewrite Htx, decide_False in L3 by (clear; set_solver).
    rewrite L3, E3. cbn. rewrite N1, O1, C1, P3. split_and!; try done.
    rewrite V3 by lia. unfold upd. now rewrite decide_True.
Qed.

Lemma commit_atomic_witness :
  exists k k', log_inv k [] /\ 0 < lh_n (k_log k) /\ commit k = Ok tt k' /\ dsk (memdisk k') 8 = [7].
Proof.
  destruct example_tx as (k & T & N & _ & _ & V & Hdb & _).
  destruct (commit_atomic k) as (k' & wr & R & _ & _ & _ & _ & Hv & _); [apply T|lia|].
  exists k, k'. split_and!; [apply T|lia|exact R|]. rewrite Hv by exact Hdb. exact V.
Defined.

(** Changing a block inside a transaction (read, change, [log_write],
    release): the kernel sees the new contents, the disk is not written, the
    block is in the log's list exactly once however often it is changed, and the
    log's invariant is kept.  A transaction that does not fit in the log, or a
    [log_write] outside a transaction, stops the kernel. *)
Theorem log_write_correct k hs b x :
  tx k hs -> data_block (k_log k) (length (memdisk k)) b ->
  (forall i, i ∈ hs -> is_blk b (bcache k !!! i) = false) -> tx_room k hs ->
  (log_open k ->
   exists k', (i <- bread 1 b ;; updbuf i (set_b_data x) ;; log_write i ;; brelse i) k = Ok tt k' /\
    tx k' hs /\ (forall b', 0 <= b' -> view k' b' = upd (view k) b x b') /\
    memdisk k' = memdisk k /\ diskwrites k' = diskwrites k /\
    txn (k_log k') = (if decide (b ∈ txn (k_log k)) then txn (k_log k) else txn (k_log k) ++ [b]) /\
    NoDup (txn (k_log k'))) /\
  (lg_size (k_log k) - 1 <= lh_n (k_log k) -> forall i, log_write i k = Panic "too big a transaction") /\
  (forall i k0, lh_n (k_log k0) < LOGSIZE -> lh_n (k_log k0) < lg_size (k_log k0) - 1 ->
     lg_outstanding (k_log k0) = 0 -> log_write i k0 = Panic "log_write outside of trans").
Proof.
  intros Ht Hb Hnh Hr. split_and!.
  - intros Hn. destruct (tx_update k hs b x Ht Hb Hnh Hr Hn) as (k' & R & T & L & V & E & W & _).
    exists k'. split_and!; try done.
    + rewrite L. apply (txn_logged _ (length (memdisk k))); [apply Ht|].
      pose proof (lg_n _ _ (li_ok _ _ (tx_log _ _ Ht))). unfold log_open in Hn. lia.
    + apply T.
  - intros Hn i. unfold log_write. mred. rewrite (proj2 (Z.leb_le (lg_size (k_log k) - 1) _)) by done.
    now rewrite orb_true_r.
  - intros i k0 H1 H2 H3. unfold log_write. mred. rewrite H3.
    rewrite (proj2 (Z.leb_gt LOGSIZE _)), (proj2 (Z.leb_gt (lg_size (k_log k0) - 1) _)) by done. done.
Qed.

Lemma log_write_correct_witness :
  exists k k', tx k [] /\ (i <- bread 1 8 ;; updbuf i (set_b_data [1; 2]) ;; log_write i ;; brelse i) k = Ok tt k' /\
    view k' 8 = [1; 2].
Proof.
  destruct example_tx as (k & T & N & O & _ & _ & Hdb & Sz).
  destruct (log_write_correct k [] 8 [1; 2] T Hdb) as [H _].
  - intros i Hi. now apply elem_of_nil in Hi.
  - unfold tx_room. rewrite (length_txn _ _ (li_ok _ _ (tx_log _ _ T))), N.
    unfold bhead. change (Z.to_nat NBUF) with 30%nat. cbn. lia.
  - destruct H as (k' & R & _ & V & _); [unfold log_open; rewrite N, Sz, O; lia|].
    exists k, k'. split_and!; [exact T|exact R|]. rewrite V by lia. unfold upd. now rewrite decide_True.
Defined.

(** C35. The end of a file system call.  The last call to end commits: every
    block the calls changed is on the disk, the log is empty, and new calls may
    start.  A call that ends while others run writes nothing. *)
Theorem end_op_correct k :
  tx k [] -> lg_committing (k_log k) = 0 ->
  (lg_outstanding (k_log k) = 1 -> 0 < lh_n (k_log k) ->
   exists k', end_op k = Ok tt k' /\ log_inv k' [] /\ lock_free Llog k' /\
    lg_outstanding (k_log k') = 0 /\ lg_committing (k_log k') = 0 /\ txn (k_log k') = [] /\
    (forall b, data_block (k_log k) (length (memdisk k)) b -> dsk (memdisk k') b = view k b)) /\
  (1 < lg_outstanding (k_log k) ->
   end_op k = Ok tt (set_ptable (wakeup1_proc CLog <$> ptable k)
     (set_k_log (set_lg_outstanding (lg_outstanding (k_log k) - 1) (k_log k)) k))).
Proof.
  intros [Hinv Hl] Hcm. split.
  - intros H1 Hpos. destruct (end_op_last k Hinv Hl Hpos H1 Hcm) as (k' & R & I & Hl' & L & _ & _ & V).
    exists k'. rewrite L. split_and!; done.
  - intros H1. pose proof (li_blocks _ _ Hinv) as [(Hc & Hb & Hpt) _ _].
    unfold end_op. mok (acquire_free Llog k Hl). unfold updlog. mred. change (k_log (held Llog k)) with (k_log k).
    cbn [k_log set_k_log lg_committing lg_outstanding set_lg_outstanding]. rewrite Hcm. cbn [negb Z.eqb].
    rewrite (proj2 (Z.eqb_neq _ 0)) by lia.
    set (k1 := set_k_log (set_lg_outstanding (lg_outstanding (k_log k) - 1) (k_log k)) k).
    change (set_k_log _ (held Llog k)) with (held Llog k1).
    assert (Hpt1 : lock_free Lptable (held Llog k1)) by now apply lock_free_held.
    pose proof (wakeup_run CLog (held Llog k1) (cpu_ok_pushed _ Hc) Hpt1) as W.
    rewrite bind_assoc by (unfold returns; now rewrite W). mok W. mred.
    pose (k2 := set_ptable (wakeup1_proc CLog <$> ptable k) k1).
    pose proof (release_held Llog k2 Hc Hl) as R. mok R. reflexivity.
Qed.

Lemma end_op_correct_witness :
  exists k k', tx k [] /\ end_op k = Ok tt k' /\ dsk (memdisk k') 8 = [7].
Proof.
  destruct example_tx as (k & T & N & O & C & V & Hdb & _).
  destruct (end_op_correct k T C) as [H _]. destruct H as (k' & R & _ & _ & _ & _ & _ & Hv); [done|lia|].
  exists k, k'. split_and!; [exact T|exact R|]. rewrite Hv by exact Hdb. exact V.
Defined.

(** *** Space in the log *)

(** The calls that run have room for what they may write. *)
Definition reserved (lg : log_t) : Prop := lh_n lg + lg_outstanding lg * MAXOPBLOCKS <= LOGSIZE.

(** What [begin_op] waits for. *)
Definition must_wait (k : kernel) : bool :=
  negb (lg_committing (k_log k) =? 0) ||
  (LOGSIZE <? lh_n (k_log k) + (lg_outstanding (k_log k) + 1) * MAXOPBLOCKS).

Definition admit_call : K unit :=
  updlog (fun l => set_lg_outstanding (lg_outstanding l + 1) l) ;;
  release Llog.

Lemma begin_op_loop_wait fuel k :
  must_wait k = true -> begin_op_loop fuel (held Llog k) =
    match fuel with
    | O => out_of_fuel (held Llog k)
    | S fuel' => (sleep CLog Llog ;; begin_op_loop fuel') (held Llog k)
    end.
Proof.
  intros Hw. unfold must_wait in Hw. destruct fuel as [|fuel]; cbn [begin_op_loop]; mred;
    change (k_log (held Llog k)) with (k_log k);
    (destruct (lg_committing (k_log k) =? 0); cbn [negb orb] in *; [rewrite Hw|]; reflexivity).
Qed.

Lemma begin_op_loop_go fuel k :
  must_wait k = false -> begin_op_loop fuel (held Llog k) = admit_call (held Llog k).
Proof.
  intros Hw. apply orb_false_iff in Hw as [H1 H2]. destruct fuel as [|fuel]; cbn [begin_op_loop]; mred;
    change (k_log (held Llog k)) with (k_log k); rewrite H1, H2; reflexivity.
Qed.

(** [begin_op] returns at once when no commit is under way and the log has
    room for one more call.  Otherwise it gives up the CPU, and however the rest
    of the kernel changes the state while it sleeps, when it returns no commit is
    under way, it is counted as a running call, and the log has room for the
    worst case of all running calls. *)
Theorem begin_op_correct p k :
  running Llog p k ->
  (must_wait k = false ->
   begin_op k = Ok tt (set_k_log (set_lg_outstanding (lg_outstanding (k_log k) + 1) (k_log k)) k)) /\
  (must_wait k = true ->
   exists cont, begin_op k = Blocked WSwtch (held Lptable (sleeping p CLog k)) cont) /\
  on_return (resumed Llog p)
    (fun _ k' => running Llog p k' /\ lg_committing (k_log k') = 0 /\ reserved (k_log k'))
    (begin_op k).
Proof.
  intros Hr. split_and!.
  - intros Hw. apply orb_false_iff in Hw as [H1 H2]. destruct Hr as [[Hc _] _ Hl _ _].
    apply begin_op_run; [done|done|lia|lia].
  - intros Hw. destruct Hr as [Hi Hpt Hl Hp Hpl].
    destruct (sleep_spec CLog Llog k p) as (cont & R & _); try done.
    eexists. unfold begin_op. mok (acquire_free Llog k Hl). rewrite begin_op_loop_wait by done.
    exact (bind_blocked _ _ _ _ _ _ R).
  - unfold begin_op. mok (acquire_free Llog k (run_lk _ _ _ Hr)).
    apply (sleep_loop_returns CLog Llog p begin_op_loop must_wait admit_call); auto using begin_op_loop_wait, begin_op_loop_go.
    intros k1 Hr1 Hw. pose proof Hr1 as [[Hc1 Hn1] Hpt1 Hl1 Hp1 Hpl1]. apply orb_false_iff in Hw as [H1 H2].
    set (k2 := set_k_log (set_lg_outstanding (lg_outstanding (k_log k1) + 1) (k_log k1)) k1).
    assert (R : admit_call (held Llog k1) = Ok tt k2) by exact (release_held Llog k2 Hc1 Hl1).
    rewrite R. cbn. split_and!; [|lia|unfold reserved; cbn; lia].
    split; [split|..]; done.
Qed.

Lemma begin_op_correct_witness :
  begin_op kernel_p3 = Ok tt (set_k_log (set_lg_outstanding 1 log0) kernel_p3).
Proof.
  apply (begin_op_correct 3 kernel_p3).
  - split; [exact kernel_p3_idle|exists "ptable"%string; reflexivity|exists "log"%string; reflexivity|reflexivity|].
    vm_compute. repeat constructor.
  - reflexivity.
Defined.
