(* ===== verification/Umem.v ===== *)
(** * Memory as kernel code sees it through a pointer

    System calls pass user addresses on to code that dereferences them while the
    calling process's page table is loaded (pipe.c, fs.c, sysfile.c).  A load or
    a store at a kernel address goes to the kernel's linear map; one at a user
    address is translated by the page directory in [cr3].  A store also needs
    the page to be writable, since entry.S sets [CR0_WP].  An access the hardware
    would refuse stops the model. *)

From S2P Require Import Prelude State CMem Mmu Vm.

(** The directory [cr3] points to. *)
Definition cur_pgdir (k : kernel) : Z := P2V (cpu_cr3 (k_cpu k)).

(** The kernel address of the byte at [va]; [w] says whether it is written. *)
Definition phys (w : bool) (k : kernel) (va : Z) : option Z :=
  if KERNBASE <=? va then Some va
  else
    match xlate (k_mem k) (cur_pgdir k) va with
    | Some e => if negb w || has e PTE_W then Some (P2V (PTE_ADDR e) + va mod PGSIZE) else None
    | None => None
    end.

Definition page_fault {A} : K A := panic "model: page fault in the kernel".

Definition vload8 (va : Z) : K Z :=
  k <- gets (fun k => k) ;;
  match phys false k va with
  | Some a => ret (load8 (k_mem k) a)
  | None => page_fault
  end.

Definition vstore8 (va v : Z) : K unit :=
  k <- gets (fun k => k) ;;
  match phys true k va with
  | Some a => updmem (fun m => store8 m a v)
  | None => page_fault
  end.

(** [n] bytes from [va] on, and their replacement. *)
Fixpoint vload (n : nat) (va : Z) : K (list Z) :=
  match n with
  | O => ret []
  | S n' => b <- vload8 va ;; bs <- vload n' (va + 1) ;; ret (b :: bs)
  end.

Fixpoint vstore (va : Z) (bs : list Z) : K unit :=
  match bs with
  | [] => ret tt
  | b :: bs' => vstore8 va b ;; vstore (va + 1) bs'
  end.

(** A 32-bit word. *)
Definition vload32 (va : Z) : K Z :=
  bs <- vload 4 va ;;
  ret (match bs with
       | [a; b; c; d] => a + 2 ^ 8 * b + 2 ^ 16 * c + 2 ^ 24 * d
       | _ => 0
       end).

Definition vstore32 (va v : Z) : K unit :=
  vstore va [u8 v; u8 (v / 2 ^ 8); u8 (v / 2 ^ 16); u8 (v / 2 ^ 24)].

(** ** Reading *)

(** The bytes at [va] are [bs], and can be read. *)
Fixpoint readable (k : kernel) (va : Z) (bs : list Z) : Prop :=
  match bs with
  | [] => True
  | b :: bs' => (exists a, phys false k va = Some a /\ load8 (k_mem k) a = b) /\ readable k (va + 1) bs'
  end.

Lemma vload8_run k va b bs : readable k va (b :: bs) -> vload8 va k = Ok b k.
Proof. intros [(a & H1 & H2) _]. unfold vload8. mred. now rewrite H1, H2. Qed.

Lemma vload_run bs : forall k va, readable k va bs -> vload (length bs) va k = Ok bs k.
Proof.
  induction bs as [|b bs IH]; intros k va H; cbn [vload length]; [done|].
  rewrite (bind_ok _ _ _ _ _ (vload8_run _ _ _ _ H)). destruct H as [_ H].
  rewrite (bind_ok _ _ _ _ _ (IH _ _ H)). done.
Qed.

Lemma readable_drop k bs : forall n va,
  readable k va bs -> readable k (va + Z.of_nat n) (drop n bs).
Proof.
  induction bs as [|b bs IH]; intros n va H; [now rewrite drop_nil|].
  destruct n as [|n]; [cbn [drop]; now replace (va + Z.of_nat 0) with va by lia|].
  cbn [drop]. destruct H as [_ H]. apply (IH n) in H. now replace (va + Z.of_nat (S n)) with (va + 1 + Z.of_nat n) by lia.
Qed.

(** What can be read depends on memory and the page table only. *)
Lemma readable_same k k' bs : forall va,
  k_mem k' = k_mem k -> cpu_cr3 (k_cpu k') = cpu_cr3 (k_cpu k) -> readable k va bs -> readable k' va bs.
Proof.
  induction bs as [|b bs IH]; intros va Hm Hc; cbn; [done|].
  intros [(a & H1 & H2) H3]. split; [|now apply IH]. exists a. unfold phys, cur_pgdir in *. now rewrite Hm, Hc.
Qed.

(** ** Writing *)

(** A buffer at [va] that can be written, byte [i] of it at the kernel address
    [pas !! i]; its pages hold no page table, so writing it does not move it. *)
Definition writable (k : kernel) (va : Z) (pas : list Z) : Prop :=
  NoDup pas /\
  forall m', (forall a, a ∉ pas -> load8 m' a = load8 (k_mem k) a) ->
  forall i a, pas !! i = Some a -> phys true (set_k_mem m' k) (va + Z.of_nat i) = Some a.

Lemma vstore8_run k va pas i a v :
  writable k va pas -> pas !! i = Some a ->
  vstore8 (va + Z.of_nat i) v k = Ok tt (set_k_mem (store8 (k_mem k) a v) k) /\
  writable (set_k_mem (store8 (k_mem k) a v) k) va pas.
Proof.
  intros [Hnd Hw] Hi. split; [|split; [done|]].
  - unfold vstore8. mred. assert (E : set_k_mem (k_mem k) k = k) by now destruct k.
    pose proof (Hw (k_mem k) (fun _ _ => eq_refl) i a Hi) as Hp. rewrite E in Hp. now rewrite Hp.
  - intros m' Hm' j a' Hj. refine (Hw m' _ j a' Hj). intros a0 Ha0. rewrite Hm' by done. cbn.
    apply load8_store8_ne. intros ->. apply Ha0. now apply list_elem_of_lookup_2 in Hi.
Qed.

Lemma writable_same k k' va pas :
  k_mem k' = k_mem k -> cpu_cr3 (k_cpu k') = cpu_cr3 (k_cpu k) -> writable k va pas -> writable k' va pas.
Proof.
  intros Hm Hc [Hnd Hw]. split; [done|]. intros m' Hm' i a Hi. rewrite Hm in Hm'.
  specialize (Hw m' Hm' i a Hi). unfold phys, cur_pgdir in *. cbn in *. now rewrite Hc.
Qed.

(** The first bytes of the buffer are [bs]. *)
Definition stored (k : kernel) (pas bs : list Z) : Prop :=
  forall i b, bs !! i = Some b -> exists a, pas !! i = Some a /\ load8 (k_mem k) a = u8 b.

Lemma stored_same k k' pas bs : k_mem k' = k_mem k -> stored k pas bs -> stored k' pas bs.
Proof. intros Hm H i b Hi. rewrite Hm. auto. Qed.

Lemma stored_snoc k pas bs a b :
  NoDup pas -> stored k pas bs -> pas !! length bs = Some a ->
  stored (set_k_mem (store8 (k_mem k) a b) k) pas (bs ++ [b]).
Proof.
  intros Hnd Hs Ha i x Hx. cbn. destruct (decide (i = length bs)) as [->|Hne].
  - rewrite list_lookup_middle in Hx by done. injection Hx as ->. exists a. split; [done|apply load8_store8_eq].
  - rewrite lookup_app_l in Hx.
    + destruct (Hs i x Hx) as (a' & H1 & H2). exists a'. split; [done|].
      rewrite load8_store8_ne; [done|]. intros ->. apply Hne. now apply (NoDup_lookup pas i (length bs) a').
    + apply lookup_lt_Some in Hx. rewrite length_app in Hx. cbn in Hx. lia.
Qed.

(** Memory outside the buffer is as in [k]. *)
Definition untouched (k k' : kernel) (pas : list Z) : Prop :=
  forall a, a ∉ pas -> load8 (k_mem k') a = load8 (k_mem k) a.

Lemma untouched_store k k' pas i a v :
  untouched k k' pas -> pas !! i = Some a -> untouched k (set_k_mem (store8 (k_mem k') a v) k') pas.
Proof.
  intros H Hi a0 Ha0. cbn. rewrite load8_store8_ne; [now apply H|].
  intros ->. apply Ha0. now apply list_elem_of_lookup_2 in Hi.
Qed.
