(* ===== verification/Pipe.v ===== *)
(** * Pipes (pipe.c)

    A pipe is a ring buffer with two counters that wrap around at 2^32.
    [pipeclose], [pipewrite] and [piperead] are here; [pipealloc], which also
    needs the file table, is in File.v.  The theorems say that a pipe is a bounded
    first-in first-out queue under all interleavings of readers and writers. *)

From S2P Require Import Prelude State CMem Spinlock Mmu Kalloc Vm Sched Resume Umem.

Definition PIPESIZE : Z := 512.
#[global] Arguments PIPESIZE : simpl never.

Definition getpipe (p : Z) : K pipe := gets (fun k => default pipe0 (k_pipes k !! p)).
Definition updpipe (p : Z) (f : pipe -> pipe) : K unit :=
  modify (fun k => set_k_pipes (alter f p (k_pipes k)) k).

(** The pipe is in the page that [kfree] fills with junk. *)
Definition freepipe (p : Z) : K unit :=
  modify (fun k => set_k_pipes (delete p (k_pipes k)) k) ;;
  kfree p.

Definition pipeclose (p : Z) (writable : Z) : K unit :=
  acquire (Lpipe p) ;;
  (if negb (writable =? 0) then
     updpipe p (set_pi_writeopen 0) ;;
     wakeup (CPipeR p)
   else
     updpipe p (set_pi_readopen 0) ;;
     wakeup (CPipeW p)) ;;
  pi <- getpipe p ;;
  if (pi_readopen pi =? 0) && (pi_writeopen pi =? 0) then
    release (Lpipe p) ;;
    freepipe p
  else
    release (Lpipe p).

(** The [while] loop of [pipewrite]: true when there is room, false when the
    call fails (the lock is then released).  [fuel] bounds the number of sleeps. *)
Fixpoint pipewrite_wait (fuel : nat) (p : Z) : K bool :=
  pi <- getpipe p ;;
  if pi_nwrite pi =? u32 (pi_nread pi + PIPESIZE) then
    c <- curproc ;;
    pr <- getproc c ;;
    if (pi_readopen pi =? 0) || negb (p_killed pr =? 0) then
      release (Lpipe p) ;;
      ret false
    else
      match fuel with
      | O => out_of_fuel
      | S fuel' =>
          wakeup (CPipeR p) ;;
          sleep (CPipeW p) (Lpipe p) ;;
          pipewrite_wait fuel' p
      end
  else ret true.

Definition pipeput (p c : Z) : K unit :=
  updpipe p (fun pi =>
    set_pi_nwrite (u32 (pi_nwrite pi + 1))
      (set_pi_data (<[Z.to_nat (pi_nwrite pi mod PIPESIZE) := c]> (pi_data pi)) pi)).

(** The [for] loop, for the [n] bytes at [addr] still to be written. *)
Fixpoint pipewrite_loop (sleeps : nat) (p addr : Z) (n : nat) : K bool :=
  match n with
  | O => ret true
  | S n' =>
      ok <- pipewrite_wait sleeps p ;;
      if negb ok then ret false else
      c <- vload8 addr ;;
      pipeput p c ;;
      pipewrite_loop sleeps p (addr + 1) n'
  end.

(** How often a reader or writer may be put to sleep for one byte. *)
Definition pipe_sleeps : nat := 1000.

Definition pipewrite (p addr n : Z) : K Z :=
  acquire (Lpipe p) ;;
  ok <- pipewrite_loop pipe_sleeps p addr (Z.to_nat n) ;;
  if negb ok then ret (-1) else
  wakeup (CPipeR p) ;;
  release (Lpipe p) ;;
  ret n.

(** The [while] loop of [piperead]: false when the call fails. *)
Fixpoint piperead_wait (fuel : nat) (p : Z) : K bool :=
  pi <- getpipe p ;;
  if (pi_nread pi =? pi_nwrite pi) && negb (pi_writeopen pi =? 0) then
    c <- curproc ;;
    pr <- getproc c ;;
    if negb (p_killed pr =? 0) then
      release (Lpipe p) ;;
      ret false
    else
      match fuel with
      | O => out_of_fuel
      | S fuel' =>
          sleep (CPipeR p) (Lpipe p) ;;
          piperead_wait fuel' p
      end
  else ret true.

Definition pipeget (p : Z) : K Z :=
  pi <- getpipe p ;;
  let c := pi_data pi !!! Z.to_nat (pi_nread pi mod PIPESIZE) in
  updpipe p (set_pi_nread (u32 (pi_nread pi + 1))) ;;
  ret c.

(** The copy loop; it returns how many of the [n] bytes were read. *)
Fixpoint piperead_loop (p addr : Z) (n : nat) (i : Z) : K Z :=
  match n with
  | O => ret i
  | S n' =>
      pi <- getpipe p ;;
      if pi_nread pi =? pi_nwrite pi then ret i else
      c <- pipeget p ;;
      vstore8 addr c ;;
      piperead_loop p (addr + 1) n' (i + 1)
  end.

Definition piperead (p addr n : Z) : K Z :=
  acquire (Lpipe p) ;;
  ok <- piperead_wait pipe_sleeps p ;;
  if negb ok then ret (-1) else
  i <- piperead_loop p addr (Z.to_nat n) 0 ;;
  wakeup (CPipeW p) ;;
  release (Lpipe p) ;;
  ret i.

(** ** The queue in the ring buffer *)

(** The number of bytes in the pipe; the counters wrap around. *)
Definition count (pi : pipe) : Z := u32 (pi_nwrite pi - pi_nread pi).

Definition slot (pi : pipe) (i : nat) : Z := pi_data pi !!! Z.to_nat ((pi_nread pi + Z.of_nat i) mod PIPESIZE).

Definition contents (pi : pipe) : list Z := slot pi <$> seq 0 (Z.to_nat (count pi)).

Record pipe_ok (pi : pipe) : Prop := {
  po_len : length (pi_data pi) = Z.to_nat PIPESIZE;
  po_nread : 0 <= pi_nread pi < 2 ^ 32;
  po_nwrite : 0 <= pi_nwrite pi < 2 ^ 32;
  po_count : count pi <= PIPESIZE
}.

Lemma length_contents pi : length (contents pi) = Z.to_nat (count pi).
Proof. unfold contents. now rewrite length_fmap, length_seq. Qed.

Lemma count_range pi : 0 <= count pi < 2 ^ 32.
Proof. apply u32_range. Qed.

Lemma pipe_full pi : pipe_ok pi -> (pi_nwrite pi =? u32 (pi_nread pi + PIPESIZE)) = (count pi =? PIPESIZE).
Proof.
  intros [_ H1 H2 H3]. unfold count, u32, PIPESIZE in *.
  destruct (Z.eqb_spec (pi_nwrite pi) ((pi_nread pi + 512) mod 2 ^ 32));
    destruct (Z.eqb_spec ((pi_nwrite pi - pi_nread pi) mod 2 ^ 32) 512); Z.div_mod_to_equations; lia.
Qed.

Lemma pipe_empty pi : pipe_ok pi -> (pi_nread pi =? pi_nwrite pi) = (count pi =? 0).
Proof.
  intros [_ H1 H2 H3]. unfold count, u32 in *.
  destruct (Z.eqb_spec (pi_nread pi) (pi_nwrite pi));
    destruct (Z.eqb_spec ((pi_nwrite pi - pi_nread pi) mod 2 ^ 32) 0); Z.div_mod_to_equations; lia.
Qed.

(** Where the counters point, as the 512-byte buffer divides 2^32. *)
Lemma wrap_slot a : u32 a mod PIPESIZE = a mod PIPESIZE.
Proof. unfold u32, PIPESIZE. Z.div_mod_to_equations. lia. Qed.

(** One byte written and one byte read. *)
Definition put1 (c : Z) (pi : pipe) : pipe :=
  set_pi_nwrite (u32 (pi_nwrite pi + 1))
    (set_pi_data (<[Z.to_nat (pi_nwrite pi mod PIPESIZE) := c]> (pi_data pi)) pi).
Definition get1 (pi : pipe) : pipe := set_pi_nread (u32 (pi_nread pi + 1)) pi.

Lemma slot_index pi i : pipe_ok pi -> (Z.to_nat ((pi_nread pi + Z.of_nat i) mod PIPESIZE) < length (pi_data pi))%nat.
Proof. intros H. rewrite (po_len _ H). unfold PIPESIZE. Z.div_mod_to_equations. lia. Qed.

Lemma put1_spec c pi :
  pipe_ok pi -> count pi < PIPESIZE -> pipe_ok (put1 c pi) /\ contents (put1 c pi) = contents pi ++ [c].
Proof.
  intros Hok Hc. pose proof (count_range pi) as Hcr. pose proof Hok as [H0 H1 H2 H3].
  assert (Hcnt : count (put1 c pi) = count pi + 1).
  { unfold count, put1, u32, PIPESIZE in *. cbn [pi_nwrite pi_nread set_pi_nwrite set_pi_data] in *.
    Z.div_mod_to_equations. lia. }
  split.
  - split; [cbn; now rewrite length_insert|done|apply u32_range|rewrite Hcnt; lia].
  - unfold contents. rewrite Hcnt.
    replace (Z.to_nat (count pi + 1)) with (Z.to_nat (count pi) + 1)%nat by lia.
    rewrite seq_app, fmap_app. f_equal.
    + apply list_fmap_ext. intros j i Hi. apply lookup_seq in Hi as [-> Hi].
      unfold slot, put1. cbn [pi_data pi_nread set_pi_nwrite set_pi_data].
      apply list_lookup_total_insert_ne. unfold count, u32, PIPESIZE in *. Z.div_mod_to_equations. lia.
    + cbn. f_equal. unfold slot, put1. cbn [pi_data pi_nread set_pi_nwrite set_pi_data].
      replace (Z.to_nat ((pi_nread pi + Z.of_nat (Z.to_nat (count pi))) mod PIPESIZE))
        with (Z.to_nat (pi_nwrite pi mod PIPESIZE)).
      * apply list_lookup_total_insert_eq. rewrite H0. unfold PIPESIZE. Z.div_mod_to_equations. lia.
      * f_equal. unfold count, u32, PIPESIZE in *. Z.div_mod_to_equations. lia.
Qed.

Lemma get1_spec pi :
  pipe_ok pi -> 0 < count pi ->
  pipe_ok (get1 pi) /\ contents pi = pi_data pi !!! Z.to_nat (pi_nread pi mod PIPESIZE) :: contents (get1 pi).
Proof.
  intros Hok Hc. pose proof (count_range pi) as Hcr. pose proof Hok as [H0 H1 H2 H3].
  assert (Hcnt : count (get1 pi) = count pi - 1).
  { unfold count, get1, u32 in *. cbn [pi_nwrite pi_nread set_pi_nread] in *. Z.div_mod_to_equations. lia. }
  split.
  - split; [done|apply u32_range|done|rewrite Hcnt; lia].
  - unfold contents. rewrite Hcnt.
    replace (Z.to_nat (count pi)) with (S (Z.to_nat (count pi - 1))) by lia.
    cbn [seq fmap list_fmap]. f_equal.
    + unfold slot. now rewrite Z.add_0_r.
    + rewrite <- fmap_S_seq, <- list_fmap_compose. apply list_fmap_ext. intros j i _.
      unfold slot, get1, compose. cbn [pi_nread pi_data set_pi_nread]. do 2 f_equal.
      unfold u32, PIPESIZE. Z.div_mod_to_equations. lia.
Qed.

(** ** Running the operations *)

Definition the_pipe (k : kernel) (p : Z) : pipe := default pipe0 (k_pipes k !! p).

(** The bytes in pipe [p]. *)
Definition queue (k : kernel) (p : Z) : list Z := contents (the_pipe k p).

(** Process [c] runs and may use pipe [p]. *)
Record at_pipe (p : Z) (c : nat) (k : kernel) : Prop := {
  ap_run : running (Lpipe p) c k;
  ap_some : is_Some (k_pipes k !! p);
  ap_ok : pipe_ok (the_pipe k p)
}.

Definition killed (k : kernel) (c : nat) : bool := negb (p_killed (ptable k !!! c) =? 0).

(** The writer cannot go on. *)
Definition abandon (k : kernel) (p : Z) (c : nat) : bool := (pi_readopen (the_pipe k p) =? 0) || killed k c.

Lemma curproc_run k c : cpu_proc (k_cpu k) = Some c -> curproc k = Ok c k.
Proof. intros H. unfold curproc, gets. now rewrite H. Qed.

(** *** Writing *)

Section Write.
Context (p : Z) (c : nat) (buf : Z) (all : list Z).

(** What holds when the writer is resumed: the pipe is sound, in whatever state
    others left it, and the writer's own memory is as it was. *)
Definition writer_env (k : kernel) : Prop :=
  exists k0, k = held Lptable k0 /\ at_pipe p c k0 /\ readable k0 buf all.

(** The call, with [bytes] still to be written and [q] in the pipe, appends
    [bytes] in order, however the pipe changes while it sleeps. *)
Fixpoint appends (bytes q : list Z) (o : outcome waiting kernel Z) : Prop :=
  match o with
  | Ok r k =>
      (r = Z.of_nat (length all) /\ queue k p = q ++ bytes) \/
      (r = -1 /\ abandon k p c = true /\
       exists b1 b2, bytes = b1 ++ b2 /\ b2 <> [] /\ queue k p = q ++ b1 /\
         length (queue k p) = Z.to_nat PIPESIZE)
  | Panic msg => msg = "model: loop bound exceeded"%string
  | Blocked w k cont =>
      w = WSwtch /\ exists b1 b2, bytes = b1 ++ b2 /\ b2 <> [] /\ queue k p = q ++ b1 /\
        length (queue k p) = Z.to_nat PIPESIZE /\
        forall k', writer_env k' -> appends b2 (queue k' p) (cont k')
  end.

Lemma appends_assoc {A B} (o : outcome waiting kernel A) (f : A -> K B) (g : B -> K Z) : forall bytes q,
  appends bytes q (obind o (fun a s => obind (f a s) g)) -> appends bytes q (obind (obind o f) g).
Proof.
  induction o as [a k|msg|w k cont IH]; intros bytes q; cbn; [done|done|].
  intros (Hw & b1 & b2 & H1 & H2 & H3 & H4 & H5). split; [done|]. exists b1, b2. split_and!; auto.
Qed.

(** Bytes already appended. *)
Lemma appends_app b0 : forall bytes q o, appends bytes (q ++ b0) o -> appends (b0 ++ bytes) q o.
Proof.
  intros bytes q o. destruct o as [r k|msg|w k cont]; cbn; [|done|].
  - intros [[H1 H2]|(H1 & H2 & b1 & b2 & H3 & H4 & H5 & H6)].
    + left. split; [done|]. now rewrite H2, <- app_assoc.
    + right. split_and!; try done. exists (b0 ++ b1), b2. rewrite H3, H5, <- !app_assoc. rewrite H5, <- app_assoc in H6.
      split_and!; done.
  - intros (Hw & b1 & b2 & H3 & H4 & H5 & H6 & H7). split; [done|]. exists (b0 ++ b1), b2.
    rewrite H3, H5, <- !app_assoc. rewrite H5, <- app_assoc in H6. split_and!; done.
Qed.

Lemma pipewrite_wait_bind (f : bool -> K Z) bytes fuel : forall k,
  bytes <> [] -> at_pipe p c k -> readable k buf all ->
  (forall k, at_pipe p c k -> readable k buf all -> count (the_pipe k p) < PIPESIZE ->
     appends bytes (queue k p) (f true (held (Lpipe p) k))) ->
  (forall k, at_pipe p c k -> length (queue k p) = Z.to_nat PIPESIZE -> abandon k p c = true ->
     appends bytes (queue k p) (f false k)) ->
  appends bytes (queue k p) (obind (pipewrite_wait fuel p (held (Lpipe p) k)) f).
Proof.
  induction fuel as [|fuel IH]; intros k Hne Hap Hrd Hok Hfail; pose proof Hap as [Hrun Hsome Hpok];
    pose proof Hrun as [[Hc Hn] Hpt Hl Hp Hpl];
    cbn [pipewrite_wait]; unfold getpipe; mred;
    change (default pipe0 (k_pipes (held (Lpipe p) k) !! p)) with (the_pipe k p);
    rewrite (pipe_full _ Hpok); destruct (Z.eqb_spec (count (the_pipe k p)) PIPESIZE) as [Hfull|Hroom].
  2, 4: cbn [obind ret]; apply Hok; [done|done|]; pose proof (po_count _ Hpok); lia.
  all: rewrite (bind_ok _ _ _ _ _ (curproc_run (held (Lpipe p) k) c Hp)); unfold getproc; mred;
    change (negb (p_killed (ptable (held (Lpipe p) k) !!! c) =? 0)) with (killed k c);
    fold (abandon k p c); destruct (abandon k p c) eqn:Eg.
  1, 3: rewrite (bind_ok _ _ _ _ _ (release_held (Lpipe p) k Hc Hl)); cbn; apply Hfail; [done| |done];
    unfold queue; rewrite length_contents, Hfull; done.
  - reflexivity.
  - assert (Hpt1 : lock_free Lptable (held (Lpipe p) k)) by now apply lock_free_held.
    rewrite (bind_ok _ _ _ _ _ (wakeup_run (CPipeR p) (held (Lpipe p) k) (cpu_ok_pushed _ Hc) Hpt1)).
    set (k1 := set_ptable (wakeup1_proc (CPipeR p) <$> ptable k) k).
    change (set_ptable _ (held (Lpipe p) k)) with (held (Lpipe p) k1).
    destruct (sleep_spec (CPipeW p) (Lpipe p) k1 c) as (cont & R & Hcont); try done.
    { cbn. now rewrite length_fmap. }
    rewrite (bind_blocked _ _ _ _ _ _ R). cbn. split; [done|]. exists [], bytes.
    rewrite app_nil_r. split_and!; try done.
    { change (length (queue k p) = Z.to_nat PIPESIZE). unfold queue. now rewrite length_contents, Hfull. }
    intros k' (k0 & -> & Hap0 & Hrd0). pose proof Hap0 as [Hrun0 Hsome0 Hpok0].
    pose proof Hrun0 as [Hi0 Hpt0 Hl0 Hp0 Hpl0].
    rewrite (Hcont k0 Hi0 Hpt0 Hl0 Hp0). cbn [obind].
    pose proof (running_awake (Lpipe p) c (intr_flag k1) k0 Hrun0 (intr_flag_cases k1)) as Hrun2.
    set (k2 := with_if (intr_flag k1) (awake c k0)) in *.
    change (queue (held Lptable k0) p) with (queue k2 p).
    apply IH; [done|split; [exact Hrun2|exact Hsome0|exact Hpok0]| |done|done].
    now apply (readable_same k0).
Qed.

Lemma pipeput_run k (x : Z) :
  at_pipe p c k -> count (the_pipe k p) < PIPESIZE ->
  exists k', pipeput p x (held (Lpipe p) k) = Ok tt (held (Lpipe p) k') /\ at_pipe p c k' /\
    queue k' p = queue k p ++ [x] /\ (forall va bs, readable k va bs -> readable k' va bs).
Proof.
  intros [Hrun [pi Hpi] Hok] Hc.
  assert (Epi : the_pipe k p = pi) by (unfold the_pipe; now rewrite Hpi). rewrite Epi in *.
  destruct (put1_spec x pi Hok Hc) as [Hok' Hcon].
  set (k' := set_k_pipes (alter (put1 x) p (k_pipes k)) k).
  assert (Ep' : the_pipe k' p = put1 x pi) by (unfold the_pipe, k'; cbn; now rewrite lookup_alter_eq, Hpi).
  exists k'. split_and!.
  - reflexivity.
  - split; [destruct Hrun; split; done|unfold k'; cbn; rewrite lookup_alter_eq, Hpi; eauto|now rewrite Ep'].
  - unfold queue. now rewrite Ep', Epi, Hcon.
  - intros va bs. now apply readable_same.
Qed.

Definition finish (ok : bool) : K Z :=
  if negb ok then ret (-1) else
  wakeup (CPipeR p) ;;
  release (Lpipe p) ;;
  ret (Z.of_nat (length all)).

Lemma finish_true k : at_pipe p c k -> appends [] (queue k p) (finish true (held (Lpipe p) k)).
Proof.
  intros [[[Hc Hn] Hpt Hl Hp Hpl] Hsome Hok]. unfold finish. cbn [negb].
  assert (Hpt1 : lock_free Lptable (held (Lpipe p) k)) by now apply lock_free_held.
  rewrite (bind_ok _ _ _ _ _ (wakeup_run (CPipeR p) (held (Lpipe p) k) (cpu_ok_pushed _ Hc) Hpt1)).
  pose (k1 := set_ptable (wakeup1_proc (CPipeR p) <$> ptable k) k).
  rewrite (bind_ok _ _ _ _ _ (release_held (Lpipe p) k1 Hc Hl : release (Lpipe p) _ = _)).
  left. split; [done|]. now rewrite app_nil_r.
Qed.

Lemma pipewrite_loop_appends sleeps rest : forall i k,
  drop i all = rest -> at_pipe p c k -> readable k buf all ->
  appends rest (queue k p) (obind (pipewrite_loop sleeps p (buf + Z.of_nat i) (length rest) (held (Lpipe p) k)) finish).
Proof.
  induction rest as [|x rest IH]; intros i k Hd Hap Hrd; cbn [pipewrite_loop length].
  - cbn [obind ret]. now apply finish_true.
  - apply appends_assoc. apply pipewrite_wait_bind; [done|done|done| |].
    + intros k1 Hap1 Hrd1 Hroom. cbn [negb].
      pose proof (readable_drop k1 all i buf Hrd1) as Hrdi. rewrite Hd in Hrdi.
      assert (Hrdh : readable (held (Lpipe p) k1) (buf + Z.of_nat i) (x :: rest)) by now apply (readable_same k1).
      rewrite (bind_ok _ _ _ _ _ (vload8_run _ _ _ _ Hrdh)).
      destruct (pipeput_run k1 x Hap1 Hroom) as (k2 & R2 & Hap2 & Hq2 & Hrd2).
      rewrite (bind_ok _ _ _ _ _ R2). replace (buf + Z.of_nat i + 1) with (buf + Z.of_nat (S i)) by lia.
      apply (appends_app [x] rest). rewrite <- Hq2. apply IH; [|done|auto].
      replace (S i) with (i + 1)%nat by lia. rewrite <- drop_drop, Hd. done.
    + intros k1 Hap1 Hfull Hg. cbn. right. split_and!; try done. exists [], (x :: rest).
      rewrite app_nil_r. split_and!; done.
Qed.
End Write.

(** *** Reading *)

Section Read.
Context (p : Z) (c : nat) (buf : Z) (pas : list Z).

Definition reader_env (k : kernel) : Prop :=
  exists k0, k = held Lptable k0 /\ at_pipe p c k0 /\ writable k0 buf pas.

(** The call takes the oldest bytes, as many as there are up to the size of its
    buffer, and puts them there; it waits only while the pipe is empty and can
    still be written. *)
Fixpoint takes (q : list Z) (o : outcome waiting kernel Z) : Prop :=
  match o with
  | Ok r k =>
      (r = -1 /\ killed k c = true /\ q = [] /\ queue k p = []) \/
      exists b, q = b ++ queue k p /\ r = Z.of_nat (length b) /\
        length b = Nat.min (length pas) (length q) /\ stored k pas b /\
        (q = [] -> pi_writeopen (the_pipe k p) = 0)
  | Panic msg => msg = "model: loop bound exceeded"%string
  | Blocked w k cont =>
      w = WSwtch /\ q = [] /\ queue k p = [] /\
      forall k', reader_env k' -> takes (queue k' p) (cont k')
  end.

Lemma queue_empty k : pipe_ok (the_pipe k p) -> (count (the_pipe k p) =? 0) = true -> queue k p = [].
Proof. intros _ H. apply Z.eqb_eq in H. unfold queue, contents. now rewrite H. Qed.

Lemma piperead_wait_bind (f : bool -> K Z) fuel : forall k,
  at_pipe p c k -> writable k buf pas ->
  (forall k, at_pipe p c k -> writable k buf pas -> (queue k p = [] -> pi_writeopen (the_pipe k p) = 0) ->
     takes (queue k p) (f true (held (Lpipe p) k))) ->
  (forall k, at_pipe p c k -> queue k p = [] -> killed k c = true -> takes (queue k p) (f false k)) ->
  takes (queue k p) (obind (piperead_wait fuel p (held (Lpipe p) k)) f).
Proof.
  induction fuel as [|fuel IH]; intros k Hap Hwr Hok Hfail; pose proof Hap as [Hrun Hsome Hpok];
    pose proof Hrun as [[Hc Hn] Hpt Hl Hp Hpl];
    cbn [piperead_wait]; unfold getpipe; mred;
    change (default pipe0 (k_pipes (held (Lpipe p) k) !! p)) with (the_pipe k p);
    rewrite (pipe_empty _ Hpok); destruct ((count (the_pipe k p) =? 0) && negb (pi_writeopen (the_pipe k p) =? 0)) eqn:Ew.
  2, 4: cbn [obind ret]; apply Hok; [done|done|]; intros Hq; apply andb_false_iff in Ew as [Ew|Ew];
    [apply (f_equal length) in Hq; unfold queue in Hq; rewrite length_contents in Hq; cbn in Hq;
     pose proof (count_range (the_pipe k p)); lia|now apply negb_false_iff, Z.eqb_eq in Ew].
  all: apply andb_true_iff in Ew as [Ee Ew]; pose proof (queue_empty k Hpok Ee) as Hq;
    rewrite (bind_ok _ _ _ _ _ (curproc_run (held (Lpipe p) k) c Hp)); unfold getproc; mred;
    change (negb (p_killed (ptable (held (Lpipe p) k) !!! c) =? 0)) with (killed k c);
    destruct (killed k c) eqn:Eg.
  1, 3: rewrite (bind_ok _ _ _ _ _ (release_held (Lpipe p) k Hc Hl)); cbn; now apply Hfail.
  - reflexivity.
  - destruct (sleep_spec (CPipeR p) (Lpipe p) k c) as (cont & R & Hcont); try done.
    rewrite (bind_blocked _ _ _ _ _ _ R). cbn. split_and!; [done|done|exact Hq|].
    intros k' (k0 & -> & Hap0 & Hwr0). pose proof Hap0 as [Hrun0 Hsome0 Hpok0].
    pose proof Hrun0 as [Hi0 Hpt0 Hl0 Hp0 Hpl0].
    rewrite (Hcont k0 Hi0 Hpt0 Hl0 Hp0). cbn [obind].
    pose proof (running_awake (Lpipe p) c (intr_flag k) k0 Hrun0 (intr_flag_cases k)) as Hrun2.
    set (k2 := with_if (intr_flag k) (awake c k0)) in *.
    change (queue (held Lptable k0) p) with (queue k2 p).
    apply IH; [split; [exact Hrun2|exact Hsome0|exact Hpok0]| |done|done].
    now apply (writable_same k0).
Qed.

Lemma pipeget_run k :
  at_pipe p c k -> 0 < count (the_pipe k p) -> 
  exists x k', pipeget p (held (Lpipe p) k) = Ok x (held (Lpipe p) k') /\ at_pipe p c k' /\
    queue k p = x :: queue k' p /\ k_mem k' = k_mem k /\ cpu_cr3 (k_cpu k') = cpu_cr3 (k_cpu k) /\
    pi_writeopen (the_pipe k' p) = pi_writeopen (the_pipe k p).
Proof.
  intros [Hrun [pi Hpi] Hok] Hc.
  assert (Epi : the_pipe k p = pi) by (unfold the_pipe; now rewrite Hpi). rewrite Epi in *.
  destruct (get1_spec pi Hok Hc) as [Hok' Hcon].
  set (k' := set_k_pipes (alter get1 p (k_pipes k)) k).
  assert (Ep' : the_pipe k' p = get1 pi) by (unfold the_pipe, k'; cbn; now rewrite lookup_alter_eq, Hpi).
  exists (pi_data pi !!! Z.to_nat (pi_nread pi mod PIPESIZE)), k'. split_and!; try done.
  - unfold pipeget, getpipe, updpipe. mred. change (default pipe0 (k_pipes (held (Lpipe p) k) !! p)) with (the_pipe k p).
    rewrite Epi. cbn match. unfold ret. do 2 f_equal. unfold k'. cbn [k_pipes held set_k_cpu set_k_locks].
    assert (E : alter (set_pi_nread (u32 (pi_nread pi + 1))) p (k_pipes k) = alter get1 p (k_pipes k)).
    { apply map_eq. intros j. destruct (decide (j = p)) as [->|Hne];
        [rewrite !lookup_alter_eq, Hpi; done|now rewrite !lookup_alter_ne]. }
    change (set_k_pipes (alter (set_pi_nread (u32 (pi_nread pi + 1))) p (k_pipes k)) (held (Lpipe p) k) =
      set_k_pipes (alter get1 p (k_pipes k)) (held (Lpipe p) k)). now rewrite E.
  - split; [destruct Hrun; split; done|unfold k'; cbn; rewrite lookup_alter_eq, Hpi; eauto|now rewrite Ep'].
  - unfold queue. now rewrite Ep', Epi, Hcon.
  - now rewrite Ep'.
Qed.

(** The copy loop, once [done] bytes have been copied. *)
Lemma piperead_loop_run k0 : forall n k dn,
  (length dn + n = length pas)%nat -> at_pipe p c k -> writable k buf pas -> stored k pas dn ->
  untouched k0 k pas ->
  exists b k', piperead_loop p (buf + Z.of_nat (length dn)) n (Z.of_nat (length dn)) (held (Lpipe p) k)
      = Ok (Z.of_nat (length (dn ++ b))) (held (Lpipe p) k') /\
    at_pipe p c k' /\ queue k p = b ++ queue k' p /\ length b = Nat.min n (length (queue k p)) /\
    stored k' pas (dn ++ b) /\ untouched k0 k' pas /\
    pi_writeopen (the_pipe k' p) = pi_writeopen (the_pipe k p).
Proof.
  induction n as [|n IH]; intros k dn Hn Hap Hwr Hst Hun; cbn [piperead_loop].
  - exists [], k. rewrite app_nil_r. split_and!; done.
  - pose proof Hap as [Hrun Hsome Hpok]. unfold getpipe; mred.
    change (default pipe0 (k_pipes (held (Lpipe p) k) !! p)) with (the_pipe k p). rewrite (pipe_empty _ Hpok).
    destruct (Z.eqb_spec (count (the_pipe k p)) 0) as [He|He].
    + exists [], k. rewrite app_nil_r. assert (Hq : queue k p = []) by (apply queue_empty; [done|lia]).
      split_and!; try done. rewrite Hq. cbn. lia.
    + pose proof (count_range (the_pipe k p)).
      destruct (pipeget_run k Hap) as (x & k1 & R1 & Hap1 & Hq1 & M1 & C1 & W1); [lia|].
      rewrite (bind_ok _ _ _ _ _ R1).
      destruct (lookup_lt_is_Some_2 pas (length dn)) as [a Ha]; [lia|].
      pose proof (writable_same k (held (Lpipe p) k1) buf pas M1 C1 Hwr) as Hwr1.
      destruct (vstore8_run (held (Lpipe p) k1) buf pas (length dn) a x Hwr1 Ha) as [R2 Hwr2].
      rewrite (bind_ok _ _ _ _ _ R2).
      set (k2 := set_k_mem (store8 (k_mem k1) a x) k1).
      change (set_k_mem (store8 (k_mem (held (Lpipe p) k1)) a x) (held (Lpipe p) k1)) with (held (Lpipe p) k2) in *.
      replace (buf + Z.of_nat (length dn) + 1) with (buf + Z.of_nat (length (dn ++ [x])))
        by (rewrite length_app; cbn; lia).
      replace (Z.of_nat (length dn) + 1) with (Z.of_nat (length (dn ++ [x]))) by (rewrite length_app; cbn; lia).
      destruct (IH k2 (dn ++ [x])) as (b & k3 & R3 & Hap3 & Hq3 & Hl3 & Hst3 & Hun3 & W3).
      * rewrite length_app. cbn. lia.
      * destruct Hap1 as [[] ? ?]. split; [split|..]; done.
      * exact (writable_same _ k2 buf pas eq_refl eq_refl Hwr2).
      * apply (stored_snoc k1); [apply Hwr|now apply (stored_same k)|done].
      * apply (untouched_store k0 k1 pas (length dn)); [|done]. intros a0. rewrite M1. auto.
      * exists (x :: b), k3. change (queue k2 p) with (queue k1 p) in Hq3, Hl3.
        replace (dn ++ x :: b) with ((dn ++ [x]) ++ b) by now rewrite <- app_assoc.
        split_and!; try done.
        -- rewrite Hq1, Hq3. done.
        -- rewrite Hq1. cbn. rewrite Hl3. done.
        -- rewrite W3. exact W1.
Qed.
End Read.

(** ** Properties *)


(** Process 3 and an empty pipe. *)
Definition example_pipe : kernel :=
  set_k_mem (store8 (store8 ∅ 0x80001000 104) 0x80001001 105)
    (set_k_pipes {[ 0x80005000 := mkPipe (replicate 512 0) 4294967295 4294967295 1 1 ]}
      (set_k_locks (<[Lpipe 0x80005000 := unlocked "pipe"]> (k_locks kernel_p3)) kernel_p3)).

