(* ===== verification/Devices.v ===== *)
(** * Interrupt controllers, timer and keyboard (picirq.c, ioapic.c, lapic.c,
    timer.c, kbd.c, uart.c)

    A write to an I/O port is recorded in [k_ports]; the registers of the two
    APICs are maps from register index to value that keep what is written to them.
    What a device answers on an input port is an argument. *)

From S2P Require Import Prelude State Spinlock Console.

Definition outb (port data : Z) : K unit :=
  modify (fun k => set_k_ports (k_ports k ++ [(u16 port, u8 data)]) k).

(** traps.h *)
Definition T_SYSCALL : Z := 64.
Definition T_PGFLT : Z := 14.
Definition T_IRQ0 : Z := 32.
Definition IRQ_TIMER : Z := 0.
Definition IRQ_KBD : Z := 1.
Definition IRQ_COM1 : Z := 4.
Definition IRQ_IDE : Z := 14.
Definition IRQ_ERROR : Z := 19.
Definition IRQ_SPURIOUS : Z := 31.

(** ** picirq.c *)

Definition IO_PIC1 : Z := 0x20.
Definition IO_PIC2 : Z := 0xA0.
Definition IRQ_SLAVE : Z := 2.

Definition picsetmask (mask : Z) : K unit :=
  modify (set_k_irqmask (u16 mask)) ;;
  outb (IO_PIC1 + 1) (u16 mask) ;;
  outb (IO_PIC2 + 1) (Z.shiftr (u16 mask) 8).

Definition picenable (irq : Z) : K unit :=
  m <- gets k_irqmask ;;
  picsetmask (Z.ldiff m (Z.shiftl 1 irq)).

Definition picinit : K unit :=
  outb (IO_PIC1 + 1) 0xFF ;;
  outb (IO_PIC2 + 1) 0xFF ;;
  outb IO_PIC1 0x11 ;;
  outb (IO_PIC1 + 1) T_IRQ0 ;;
  outb (IO_PIC1 + 1) (Z.shiftl 1 IRQ_SLAVE) ;;
  outb (IO_PIC1 + 1) 0x3 ;;
  outb IO_PIC2 0x11 ;;
  outb (IO_PIC2 + 1) (T_IRQ0 + 8) ;;
  outb (IO_PIC2 + 1) IRQ_SLAVE ;;
  outb (IO_PIC2 + 1) 0x3 ;;
  outb IO_PIC1 0x68 ;;
  outb IO_PIC1 0x0a ;;
  outb IO_PIC2 0x68 ;;
  outb IO_PIC2 0x0a ;;
  m <- gets k_irqmask ;;
  when (negb (m =? 0xFFFF)) (picsetmask m).

(** ** timer.c *)

Definition IO_TIMER1 : Z := 0x040.
Definition TIMER_FREQ : Z := 1193182.
Definition TIMER_DIV (x : Z) : Z := (TIMER_FREQ + x / 2) / x.
Definition TIMER_MODE : Z := IO_TIMER1 + 3.
Definition TIMER_SEL0 : Z := 0x00.
Definition TIMER_RATEGEN : Z := 0x04.
Definition TIMER_16BIT : Z := 0x30.

Definition timerinit : K unit :=
  outb TIMER_MODE (Z.lor (Z.lor TIMER_SEL0 TIMER_RATEGEN) TIMER_16BIT) ;;
  outb IO_TIMER1 (TIMER_DIV 100 mod 256) ;;
  outb IO_TIMER1 (TIMER_DIV 100 / 256) ;;
  picenable IRQ_TIMER.

(** ** ioapic.c *)

Definition REG_ID : Z := 0x00.
Definition REG_VER : Z := 0x01.
Definition REG_TABLE : Z := 0x10.
Definition INT_DISABLED : Z := 0x00010000.

Definition ioapicread (reg : Z) : K Z := gets (fun k => default 0 (k_ioapic k !! reg)).
Definition ioapicwrite (reg data : Z) : K unit :=
  modify (fun k => set_k_ioapic (<[reg := u32 data]> (k_ioapic k)) k).

(** The loop from interrupt [i] on, with [n] rounds left. *)
Fixpoint ioapicinit_loop (n : nat) (i : Z) : K unit :=
  match n with
  | O => ret tt
  | S n' =>
      ioapicwrite (REG_TABLE + 2 * i) (Z.lor INT_DISABLED (T_IRQ0 + i)) ;;
      ioapicwrite (REG_TABLE + 2 * i + 1) 0 ;;
      ioapicinit_loop n' (i + 1)
  end.

Definition ioapicinit (ioapicid : Z) : K unit :=
  mp <- gets k_ismp ;;
  if mp =? 0 then ret tt else
  ver <- ioapicread REG_VER ;;
  let maxintr := Z.land (Z.shiftr ver 16) 0xFF in
  idr <- ioapicread REG_ID ;;
  let id := Z.shiftr idr 24 in
  when (negb (id =? ioapicid))
    (cprintf "ioapicinit: id isn't equal to ioapicid; not a MP
" []) ;;
  ioapicinit_loop (Z.to_nat (maxintr + 1)) 0.

Definition ioapicenable (irq cpunum : Z) : K unit :=
  mp <- gets k_ismp ;;
  if mp =? 0 then ret tt else
  ioapicwrite (REG_TABLE + 2 * irq) (T_IRQ0 + irq) ;;
  ioapicwrite (REG_TABLE + 2 * irq + 1) (Z.shiftl cpunum 24).

(** ** lapic.c *)

Definition LID : Z := 0x0020 / 4.
Definition LVER : Z := 0x0030 / 4.
Definition TPR : Z := 0x0080 / 4.
Definition EOI : Z := 0x00B0 / 4.
Definition SVR : Z := 0x00F0 / 4.
Definition ENABLE : Z := 0x00000100.
Definition ESR : Z := 0x0280 / 4.
Definition ICRLO : Z := 0x0300 / 4.
Definition INIT : Z := 0x00000500.
Definition STARTUP : Z := 0x00000600.
Definition DELIVS : Z := 0x00001000.
Definition ASSERT : Z := 0x00004000.
Definition LEVEL : Z := 0x00008000.
Definition BCAST : Z := 0x00080000.
Definition ICRHI : Z := 0x0310 / 4.
Definition TIMER : Z := 0x0320 / 4.
Definition X1 : Z := 0x0000000B.
Definition PERIODIC : Z := 0x00020000.
Definition PCINT : Z := 0x0340 / 4.
Definition LINT0 : Z := 0x0350 / 4.
Definition LINT1 : Z := 0x0360 / 4.
Definition ERROR : Z := 0x0370 / 4.
Definition MASKED : Z := 0x00010000.
Definition TICR : Z := 0x0380 / 4.
Definition TDCR : Z := 0x03E0 / 4.

Definition lapicr (index : Z) : K Z :=
  gets (fun k => match k_lapic k with Some r => default 0 (r !! index) | None => 0 end).

(** The read of [ID] that waits for the write to finish changes nothing. *)
Definition lapicw (index value : Z) : K unit :=
  modify (fun k => set_k_lapic ((fun r => <[index := u32 value]> r) <$> k_lapic k) k).

(** The [while] loop at the end waits for the hardware to clear [DELIVS]; it does
    not end when the bit stays set. *)
Definition lapic_delivered : K unit :=
  v <- lapicr ICRLO ;;
  when (has v DELIVS) out_of_fuel.

Definition lapicinit : K unit :=
  l <- gets k_lapic ;;
  match l with
  | None => ret tt
  | Some _ =>
      lapicw SVR (Z.lor ENABLE (T_IRQ0 + IRQ_SPURIOUS)) ;;
      lapicw TDCR X1 ;;
      lapicw TIMER (Z.lor PERIODIC (T_IRQ0 + IRQ_TIMER)) ;;
      lapicw TICR 10000000 ;;
      lapicw LINT0 MASKED ;;
      lapicw LINT1 MASKED ;;
      v <- lapicr LVER ;;
      when (4 <=? Z.land (Z.shiftr v 16) 0xFF) (lapicw PCINT MASKED) ;;
      lapicw ERROR (T_IRQ0 + IRQ_ERROR) ;;
      lapicw ESR 0 ;;
      lapicw ESR 0 ;;
      lapicw EOI 0 ;;
      lapicw ICRHI 0 ;;
      lapicw ICRLO (Z.lor (Z.lor BCAST INIT) LEVEL) ;;
      lapic_delivered ;;
      lapicw TPR 0
  end.

Definition lapiceoi : K unit :=
  l <- gets k_lapic ;;
  match l with
  | None => ret tt
  | Some _ => lapicw EOI 0
  end.

(** ** kbd.c and kbd.h *)

Definition KBS_DIB : Z := 0x01.
Definition SHIFT : Z := Z.shiftl 1 0.
Definition CTL : Z := Z.shiftl 1 1.
Definition ALT : Z := Z.shiftl 1 2.
Definition CAPSLOCK : Z := Z.shiftl 1 3.
Definition NUMLOCK : Z := Z.shiftl 1 4.
Definition SCROLLLOCK : Z := Z.shiftl 1 5.
Definition E0ESC : Z := Z.shiftl 1 6.

Definition KEY_HOME : Z := 0xE0.
Definition KEY_END : Z := 0xE1.
Definition KEY_UP : Z := 0xE2.
Definition KEY_DN : Z := 0xE3.
Definition KEY_LF : Z := 0xE4.
Definition KEY_RT : Z := 0xE5.
Definition KEY_PGUP : Z := 0xE6.
Definition KEY_PGDN : Z := 0xE7.
Definition KEY_INS : Z := 0xE8.
Definition KEY_DEL : Z := 0xE9.

(** A 256-entry table: the entries in order, then those with an index. *)
Definition table (l : list Z) (ix : list (Z * Z)) : list Z :=
  foldl (fun t e => <[Z.to_nat (fst e) := snd e]> t) (l ++ replicate (256 - length l) 0) ix.

Definition shiftcode : list Z :=
  table [] [(0x1D, CTL); (0x2A, SHIFT); (0x36, SHIFT); (0x38, ALT); (0x9D, CTL); (0xB8, ALT)].
Definition togglecode : list Z :=
  table [] [(0x3A, CAPSLOCK); (0x45, NUMLOCK); (0x46, SCROLLLOCK)].

(** The keys that send an E0 escape first. *)
Definition e0keys : list (Z * Z) :=
  [(0xC8, KEY_UP); (0xD0, KEY_DN); (0xC9, KEY_PGUP); (0xD1, KEY_PGDN); (0xCB, KEY_LF);
   (0xCD, KEY_RT); (0x97, KEY_HOME); (0xCF, KEY_END); (0xD2, KEY_INS); (0xD3, KEY_DEL)].

Definition keypad : list Z := str "789-456+1230.".

Definition normalmap : list Z :=
  table
    ([0; 0x1B] ++ str "1234567890-=" ++ [8; 9] ++ str "qwertyuiop[]" ++ [10; 0] ++
     str "asdfghjkl;'`" ++ [0; 92] ++ str "zxcvbnm,./" ++ [0] ++ str "*" ++ [0] ++ str " " ++
     replicate 13 0 ++ keypad)
    ((0x9C, 10) :: (0xB5, 47) :: e0keys).

Definition shiftmap : list Z :=
  table
    ([0; 27] ++ str "!@#$%^&*()_+" ++ [8; 9] ++ str "QWERTYUIOP{}" ++ [10; 0] ++
     str "ASDFGHJKL:" ++ [34] ++ str "~" ++ [0] ++ str "|ZXCVBNM<>?" ++ [0] ++ str "*" ++ [0] ++ str " " ++
     replicate 13 0 ++ keypad)
    ((0x9C, 10) :: (0xB5, 47) :: e0keys).

Definition control (s : string) : list Z := (fun c => c - 64) <$> str s.

Definition ctlmap : list Z :=
  table
    (replicate 16 0 ++ control "QWERTYUIOP" ++ [0; 0; 13; 0] ++ control "ASDFGHJKL" ++
     replicate 4 0 ++ [92 - 64] ++ control "ZXCVBNM" ++ [0; 0; u8 (47 - 64); 0; 0])
    ((0x9C, 13) :: (0xB5, u8 (47 - 64)) :: e0keys).

Definition charcode (i : Z) : list Z :=
  if i =? 0 then normalmap else if i =? 1 then shiftmap else ctlmap.

(** The state is the static variable [shift]; [st] and [data] are what the status
    and the data port give. *)
Definition kbdgetc (st data shift : Z) : Z * Z :=
  if Z.land st KBS_DIB =? 0 then (-1, shift) else
  if data =? 0xE0 then (0, Z.lor shift E0ESC) else
  if has data 0x80 then
    let data := if has shift E0ESC then data else Z.land data 0x7F in
    (0, Z.ldiff shift (Z.lor (shiftcode !!! Z.to_nat data) E0ESC))
  else
    let '(data, shift) :=
      if has shift E0ESC then (Z.lor data 0x80, Z.ldiff shift E0ESC) else (data, shift) in
    let shift := Z.lor shift (shiftcode !!! Z.to_nat data) in
    let shift := Z.lxor shift (togglecode !!! Z.to_nat data) in
    let c := charcode (Z.land shift (Z.lor CTL SHIFT)) !!! Z.to_nat data in
    let c :=
      if has shift CAPSLOCK then
        if (97 <=? c) && (c <=? 122) then c + (65 - 97)
        else if (65 <=? c) && (c <=? 90) then c + (97 - 65)
        else c
      else c in
    (c, shift).

(** ** uart.c *)

Definition COM1 : Z := 0x3f8.

(** The receive path: [lsr] and [rbr] are what ports [COM1+5] and [COM1+0] give. *)
Definition uartgetc (uart lsr rbr : Z) : Z :=
  if uart =? 0 then -1 else if Z.land lsr 0x01 =? 0 then -1 else rbr.

(** [uartinit] when the status port answers [status]; the characters it announces
    itself with go out like all others.  The result is the new value of [uart]. *)
Definition uartinit (status : Z) : K Z :=
  outb (COM1 + 2) 0 ;;
  outb (COM1 + 3) 0x80 ;;
  outb (COM1 + 0) (115200 / 9600) ;;
  outb (COM1 + 1) 0 ;;
  outb (COM1 + 3) 0x03 ;;
  outb (COM1 + 4) 0 ;;
  outb (COM1 + 1) 0x01 ;;
  if status =? 0xFF then ret 0 else
  picenable IRQ_COM1 ;;
  ioapicenable IRQ_COM1 0 ;;
  modify (fun k => set_conslog (conslog k ++ str "xv6...
") k) ;;
  ret 1.
