(* ===== verification/Rtc.v ===== *)
(** * The real-time clock (lapic.c, date.h)

    [cmostime] reads the registers of the clock chip through two ports until two
    readings agree, and decodes them.  The chip is a parameter: [reads n r] is the
    byte it returns for register [r] at the [n]-th access of the program. *)

From S2P Require Import Prelude State.

Definition CMOS_PORT : Z := 0x70.
Definition CMOS_RETURN : Z := 0x71.
Definition CMOS_STATA : Z := 0x0a.
Definition CMOS_STATB : Z := 0x0b.
Definition CMOS_UIP : Z := Z.shiftl 1 7.

Definition SECS : Z := 0x00.
Definition MINS : Z := 0x02.
Definition HOURS : Z := 0x04.
Definition DAY : Z := 0x07.
Definition MONTH : Z := 0x08.
Definition YEAR : Z := 0x09.

Record rtcdate : Type := mkDate { second : Z; minute : Z; hour : Z; day : Z; month : Z; year : Z }.

#[export] Instance rtcdate_eq_dec : EqDecision rtcdate.
Proof. solve_decision. Defined.

Section Clock.
Context (reads : nat -> Z -> Z).

(** The register selected by the last [outb] to [CMOS_PORT], and the number of
    registers read. *)
Record cmos : Type := mkCmos { selected : Z; accesses : nat }.

Definition outb (port data : Z) (d : cmos) : cmos :=
  if port =? CMOS_PORT then mkCmos (u8 data) (accesses d) else d.

Definition inb (port : Z) (d : cmos) : Z * cmos :=
  if port =? CMOS_RETURN then (u8 (reads (accesses d) (selected d)), mkCmos (selected d) (S (accesses d))) else (0, d).

(** [microdelay] does nothing. *)
Definition cmos_read (reg : Z) (d : cmos) : Z * cmos :=
  let d := outb CMOS_PORT reg d in
  inb CMOS_RETURN d.

Definition fill_rtcdate (d : cmos) : rtcdate * cmos :=
  let '(s, d) := cmos_read SECS d in
  let '(mi, d) := cmos_read MINS d in
  let '(h, d) := cmos_read HOURS d in
  let '(da, d) := cmos_read DAY d in
  let '(mo, d) := cmos_read MONTH d in
  let '(y, d) := cmos_read YEAR d in
  (mkDate s mi h da mo y, d).

(** The endless loop, within [fuel] rounds: [t1] once two readings agree. *)
Fixpoint cmostime_loop (fuel : nat) (d : cmos) : option (rtcdate * cmos) :=
  match fuel with
  | O => None
  | S fuel' =>
      let '(t1, d) := fill_rtcdate d in
      let '(a, d) := cmos_read CMOS_STATA d in
      if negb (Z.land a CMOS_UIP =? 0) then cmostime_loop fuel' d
      else
        let '(t2, d) := fill_rtcdate d in
        if decide (t1 = t2) then Some (t1, d) else cmostime_loop fuel' d
  end.

Definition CONV (x : Z) : Z := u32 (u32 (Z.shiftr x 4 * 10) + Z.land x 0xf).

Definition cmostime (fuel : nat) (d : cmos) : option (rtcdate * cmos) :=
  let '(sb, d) := cmos_read CMOS_STATB d in
  let bcd := Z.land sb (Z.shiftl 1 2) =? 0 in
  match cmostime_loop fuel d with
  | None => None
  | Some (t1, d) =>
      let t1 :=
        if bcd then mkDate (CONV (second t1)) (CONV (minute t1)) (CONV (hour t1)) (CONV (day t1)) (CONV (month t1)) (CONV (year t1))
        else t1 in
      Some (mkDate (second t1) (minute t1) (hour t1) (day t1) (month t1) (u32 (year t1 + 2000)), d)
  end.
End Clock.

(** ** The chip *)

(** How the chip shows a number. *)
Definition encode (bcd : bool) (x : Z) : Z := if bcd then 16 * (x / 10) + x mod 10 else x.

(** The registers of the date. *)
Definition regs : list (Z * (rtcdate -> Z)) :=
  [(SECS, second); (MINS, minute); (HOURS, hour); (DAY, day); (MONTH, month); (YEAR, year)].

(** What the driver relies on, from the data sheet of the chip.  [time n] is the time
    in seconds at access [n], [calendar] the date of a second, [updating n] whether an
    update of the registers is in progress.  Then bit UIP of status register A is set,
    and the registers of the date may return any value; otherwise they show the date
    of that second, in binary or in binary-coded decimal, as bit 2 of status register
    B says.  Updates are a second apart, so at most one falls into the 13 accesses of
    a round ([a] and [b] are where it begins and ends); and within [rest] accesses
    there come 26 at a stretch with no update. *)
Class Chip (reads : nat -> Z -> Z) : Type := {
  time : nat -> Z;
  updating : nat -> bool;
  calendar : Z -> rtcdate;
  bcd_mode : bool;
  rest : nat;
  chip_range : forall t r f, (r, f) ∈ regs -> 0 <= f (calendar t) < 100;
  chip_time : forall n, time n <= time (S n);
  chip_regs : forall n r f, (r, f) ∈ regs -> updating n = false -> reads n r = encode bcd_mode (f (calendar (time n)));
  chip_uip : forall n, (Z.land (u8 (reads n CMOS_STATA)) CMOS_UIP =? 0) = negb (updating n);
  chip_statb : forall n, (Z.land (u8 (reads n CMOS_STATB)) (Z.shiftl 1 2) =? 0) = bcd_mode;
  chip_once : forall n, exists a b, (a <= b)%nat /\
    (forall i, (n <= i < n + 13)%nat -> updating i = true <-> (a <= i < b)%nat) /\
    (forall i j, (n <= i <= j)%nat -> (j < n + 13)%nat -> (j < a \/ b <= i)%nat -> time i = time j);
  chip_rest : forall n, exists m, (n <= m <= n + rest)%nat /\
    forall i, (m <= i < m + 26)%nat -> updating i = false /\ time i = time m
}.

Lemma encode_range b x : 0 <= x < 100 -> 0 <= encode b x < 256.
Proof. intros Hx. unfold encode. destruct b; Z.div_mod_to_equations; lia. Qed.

Lemma CONV_encode x : 0 <= x < 100 -> CONV (encode true x) = x.
Proof.
  intros Hx. assert (E : encode true x = 16 * (x / 10) + x mod 10) by reflexivity.
  unfold CONV. rewrite Z.shiftr_div_pow2, (Z.land_ones _ 4) by lia. rewrite E.
  unfold u32. Z.div_mod_to_equations. lia.
Qed.

Section Driver.
Context {reads : nat -> Z -> Z} `{!Chip reads}.

Lemma time_mono n m : (n <= m)%nat -> time n <= time m.
Proof using.
  intros H. induction H as [|m H IH]; [lia|]. pose proof (chip_time m). lia.
Qed.

(** What [fill_rtcdate] reads from access [n] on. *)
Definition date_at (n : nat) : rtcdate :=
  let byte i r := u8 (reads (i + n)%nat r) in
  mkDate (byte 0%nat SECS) (byte 1%nat MINS) (byte 2%nat HOURS) (byte 3%nat DAY) (byte 4%nat MONTH) (byte 5%nat YEAR).

Lemma cmos_read_run r s n : 0 <= r < 256 -> cmos_read reads r (mkCmos s n) = (u8 (reads n r), mkCmos r (S n)).
Proof using. intros Hr. unfold cmos_read, outb, inb. rewrite !Z.eqb_refl, (u8_small r) by done. reflexivity. Qed.

Lemma fill_run s n : fill_rtcdate reads (mkCmos s n) = (date_at n, mkCmos YEAR (6 + n)).
Proof using. unfold fill_rtcdate. now rewrite !cmos_read_run by done. Qed.

(** The date of the second [t], as the chip shows it. *)
Definition shown_date (t : Z) : rtcdate :=
  let f g := encode bcd_mode (g (calendar t)) in
  mkDate (f second) (f minute) (f hour) (f day) (f month) (f year).

(** Six registers read while there is no update. *)
Lemma date_at_steady n t :
  (forall i, (n <= i <= 5 + n)%nat -> updating i = false /\ time i = t) -> date_at n = shown_date t.
Proof using.
  intros H. assert (R : forall i r f, (i <= 5)%nat -> (r, f) ∈ regs -> u8 (reads (i + n)%nat r) = encode bcd_mode (f (calendar t))).
  { intros i r f Hi Hr. destruct (H (i + n)%nat ltac:(lia)) as [H1 <-]. rewrite (chip_regs _ r f Hr H1).
    apply u8_small, encode_range. exact (chip_range _ r f Hr). }
  unfold date_at, shown_date.
  rewrite (R 0%nat SECS second), (R 1%nat MINS minute), (R 2%nat HOURS hour), (R 3%nat DAY day), (R 4%nat MONTH month),
    (R 5%nat YEAR year); [reflexivity|lia || (unfold regs; set_solver)..].
Qed.

(** Two readings that agree, with no update between them, show one second: an update
    in the round leaves one of them whole. *)
Lemma date_at_eq n : updating (6 + n) = false -> date_at n = date_at (7 + n) ->
  exists t, time n <= t <= time (13 + n) /\ date_at n = shown_date t.
Proof using.
  intros Hu E. destruct (chip_once n) as (a & b & Hab & Hup & Ht).
  assert (Hcalm : forall i, (n <= i < n + 13)%nat -> (i < a \/ b <= i)%nat -> updating i = false).
  { intros i Hi Ho. destruct (updating i) eqn:Ei; [|done]. apply Hup in Ei; [lia|done]. }
  assert (H6 : (6 + n < a \/ b <= 6 + n)%nat).
  { destruct (decide (a <= 6 + n < b)%nat) as [Hin|]; [|lia]. apply Hup in Hin; [congruence|lia]. }
  destruct H6 as [H6|H6].
  - exists (time n). split; [pose proof (time_mono n (13 + n) ltac:(lia)); lia|]. apply date_at_steady.
    intros i Hi. split; [apply Hcalm; lia|]. symmetry. apply Ht; lia.
  - exists (time (7 + n)). split.
    { pose proof (time_mono n (7 + n) ltac:(lia)). pose proof (time_mono (7 + n) (13 + n) ltac:(lia)). lia. }
    rewrite E. apply date_at_steady. intros i Hi. split; [apply Hcalm; lia|]. symmetry. apply Ht; lia.
Qed.

(** One round of the loop. *)
Lemma rtc_round_run fuel s n :
  cmostime_loop reads (S fuel) (mkCmos s n) =
    if updating (6 + n) then cmostime_loop reads fuel (mkCmos CMOS_STATA (7 + n))
    else if decide (date_at n = date_at (7 + n)) then Some (date_at n, mkCmos YEAR (13 + n))
    else cmostime_loop reads fuel (mkCmos YEAR (13 + n)).
Proof using.
  cbn [cmostime_loop]. rewrite fill_run, cmos_read_run, chip_uip, negb_involutive by done. cbn [Nat.add].
  destruct (updating _); [done|]. now rewrite fill_run.
Qed.

(** The loop ends once a round falls into a stretch [m, m + 26) without updates. *)
Lemma loop_run m : (forall i, (m <= i < m + 26)%nat -> updating i = false /\ time i = time m) ->
  forall fuel s n, (n <= m + 13)%nat -> (m - n < fuel)%nat ->
  exists n', (n <= n')%nat /\ updating (6 + n') = false /\ date_at n' = date_at (7 + n') /\
    cmostime_loop reads fuel (mkCmos s n) = Some (date_at n', mkCmos YEAR (13 + n')).
Proof using.
  intros Hq. induction fuel as [|fuel IH]; intros s n Hn Hf; [lia|]. rewrite rtc_round_run.
  destruct (decide (n < m)%nat) as [Hlt|Hge].
  - destruct (updating (6 + n)) eqn:Eu.
    { destruct (IH CMOS_STATA (7 + n)%nat) as (n' & H1 & H2); [lia|lia|]. exists n'. split; [lia|done]. }
    destruct (decide (date_at n = date_at (7 + n))) as [E|E]; [now exists n|].
    destruct (IH YEAR (13 + n)%nat) as (n' & H1 & H2); [lia|lia|]. exists n'. split; [lia|done].
  - assert (E : date_at n = date_at (7 + n)).
    { rewrite !(date_at_steady _ (time m)); [done|intros i Hi; apply Hq; lia..]. }
    destruct (Hq (6 + n)%nat ltac:(lia)) as [Eu _]. rewrite Eu. exists n. rewrite decide_True by done. done.
Qed.
End Driver.

(** C24. The real-time clock.  For a clock chip whose registers may return anything
    while it updates them, in binary or in decimal digits, however the updates fall
    between the accesses, [cmostime] returns within [rest + 1] rounds, and the date it
    returns is the date of one second between its start and its end: never one put
    together from the registers of two different times, nor one read during an
    update. *)
Theorem cmostime_correct (reads : nat -> Z -> Z) `{!Chip reads} s n fuel : (rest < fuel)%nat ->
  exists r d t, cmostime reads fuel (mkCmos s n) = Some (r, d) /\ time n <= t <= time (accesses d) /\
    r = mkDate (second (calendar t)) (minute (calendar t)) (hour (calendar t)) (day (calendar t)) (month (calendar t))
      (year (calendar t) + 2000).
Proof.
  intros Hf. unfold cmostime. rewrite cmos_read_run by done. rewrite chip_statb.
  destruct (chip_rest (S n)) as (m & Hm & Hq).
  destruct (loop_run m Hq fuel CMOS_STATB (S n)) as (n' & Hn' & Hu & E & R); [lia|lia|]. rewrite R.
  destruct (date_at_eq n' Hu E) as (t & Ht & Ed). rewrite Ed. unfold shown_date.
  assert (Hr : forall r f, (r, f) ∈ regs -> CONV (encode true (f (calendar t))) = f (calendar t))
    by (intros r f Hrf; apply CONV_encode, (chip_range t r f Hrf)).
  assert (Hy : u32 (year (calendar t) + 2000) = year (calendar t) + 2000)
    by (apply u32_small; pose proof (chip_range t YEAR year ltac:(unfold regs; set_solver)); lia).
  eexists _, _, t. split; [reflexivity|]. cbn [accesses second minute hour day month year]. split.
  - pose proof (time_mono n n' ltac:(lia)). lia.
  - destruct bcd_mode; cbn [second minute hour day month year].
    + rewrite (Hr SECS second), (Hr MINS minute), (Hr HOURS hour), (Hr DAY day), (Hr MONTH month), (Hr YEAR year), Hy;
        [done|unfold regs; set_solver..].
    + unfold encode. now rewrite Hy.
Qed.

(** A clock that ticks every 100 accesses and shows the date in decimal digits; the
    last ten before the tick are the update, in which every register reads 0. *)
Definition ex_calendar (t : Z) : rtcdate :=
  mkDate (t mod 60) (t / 60 mod 60) (t / 3600 mod 24) (1 + t / 86400 mod 28) 11 26.

Definition ex_updating (n : nat) : bool := 90 <=? Z.of_nat n mod 100.

Definition ex_reads (n : nat) (r : Z) : Z :=
  let c := ex_calendar (Z.of_nat n / 100) in
  if r =? CMOS_STATA then (if ex_updating n then CMOS_UIP else 0)
  else if r =? CMOS_STATB then 0
  else if ex_updating n then 0
  else encode true (if r =? SECS then second c else if r =? MINS then minute c else if r =? HOURS then hour c
    else if r =? DAY then day c else if r =? MONTH then month c else year c).

#[export] Program Instance ex_chip : Chip ex_reads := {|
  time := fun n => Z.of_nat n / 100;
  updating := ex_updating;
  calendar := ex_calendar;
  bcd_mode := true;
  rest := 100 |}.
Next Obligation.
  intros t r f Hr. unfold regs in Hr. repeat (apply elem_of_cons in Hr as [[= -> ->]|Hr]; [cbn; Z.div_mod_to_equations; lia|]).
  now apply elem_of_nil in Hr.
Qed.
Next Obligation. intros n. cbn beta. Z.div_mod_to_equations. lia. Qed.
Next Obligation.
  intros n r f Hr Hu. unfold ex_reads. rewrite Hu. unfold regs in Hr.
  repeat (apply elem_of_cons in Hr as [[= -> ->]|Hr]; [reflexivity|]). now apply elem_of_nil in Hr.
Qed.
Next Obligation. intros n. unfold ex_reads. rewrite Z.eqb_refl. now destruct (ex_updating n). Qed.
Next Obligation. reflexivity. Qed.
Next Obligation.
  intros n. set (q := ((n + 10) / 100)%nat). pose proof (Nat.div_mod_eq (n + 10) 100).
  pose proof (Nat.mod_upper_bound (n + 10) 100 ltac:(lia)). fold q in H.
  destruct (decide (n < 100 * q)%nat) as [Hlt|Hge].
  - exists (100 * q - 10)%nat, (100 * q)%nat. split_and!; [lia| |].
    + intros i Hi. unfold ex_updating. rewrite Z.leb_le. Z.div_mod_to_equations. lia.
    + intros i j Hij Hj Ho. Z.div_mod_to_equations. lia.
  - exists (100 * (q + 1) - 10)%nat, (100 * (q + 1))%nat. split_and!; [lia| |].
    + intros i Hi. unfold ex_updating. rewrite Z.leb_le. Z.div_mod_to_equations. lia.
    + intros i j Hij Hj Ho. Z.div_mod_to_equations. lia.
Qed.
Next Obligation.
  intros n. exists (100 * (n / 100 + 1))%nat. pose proof (Nat.div_mod_eq n 100). pose proof (Nat.mod_upper_bound n 100 ltac:(lia)).
  split; [lia|]. intros i Hi. unfold ex_updating. rewrite Z.leb_gt. split; Z.div_mod_to_equations; lia.
Qed.

Lemma cmostime_correct_witness : exists d t, cmostime ex_reads 101 (mkCmos 0 4785) = Some (mkDate 48 0 0 1 11 2026, d) /\
  time 4785 <= t <= time (accesses d).
Proof.
  destruct (cmostime_correct ex_reads 0 4785 101) as (r & d & t & R & Ht & _); [cbn; lia|].
  exists d, t. split; [|exact Ht]. rewrite R. do 2 f_equal. apply (f_equal (fun x => fst <$> x)) in R. revert R. vm_compute. congruence.
Defined.
