(* ===== verification/ProcInfo.v ===== *)
(** * Process listings (proc.c)

    [procdump], which the console runs on control-P, and [processinfo], the
    system call of the scheduling lab.  Both print from the process table without
    taking its lock. *)

From S2P Require Import Prelude State Spinlock Console Strings.

Definition state_name (st : procstate) : list Z :=
  str (match st with
       | UNUSED => "unused" | EMBRYO => "embryo" | SLEEPING => "sleep "
       | RUNNABLE => "runble" | RUNNING => "run   " | ZOMBIE => "zombie"
       end).

(** The loop over the program counters, up to the first 0. *)
Fixpoint print_pcs (pc : list Z) : K unit :=
  match pc with
  | [] => ret tt
  | x :: pc' => if x =? 0 then ret tt else cprintf " %p" [KInt x] ;; print_pcs pc'
  end.

Fixpoint procdump_loop (n : nat) (i : nat) : K unit :=
  match n with
  | O => ret tt
  | S n' =>
      p <- getproc i ;;
      (if decide (p_state p = UNUSED) then ret tt
       else
         cprintf "%d %s %s" [KInt (p_pid p); KStr (Some (state_name (p_state p))); KStr (Some (cstr (p_name p)))] ;;
         (if decide (p_state p = SLEEPING) then
            m <- gets k_mem ;;
            print_pcs (getcallerpcs m (c_ebp (p_context p) + 8))
          else ret tt) ;;
         cprintf " PP= %d
" [KInt (p_priority p)] ;;
         cprintf "
" []) ;;
      procdump_loop n' (S i)
  end.

Definition procdump : K unit := procdump_loop (Z.to_nat NPROC) 0.

Fixpoint processinfo_loop (n : nat) (i : nat) : K unit :=
  match n with
  | O => ret tt
  | S n' =>
      p <- getproc i ;;
      (if decide (p_state p = UNUSED \/ p_state p = SLEEPING) then ret tt
       else
         cprintf "Name:  %s    PID: %d        Priority: %d
" [KStr (Some (cstr (p_name p))); KInt (p_pid p); KInt (p_priority p)]) ;;
      processinfo_loop n' (S i)
  end.

Definition processinfo : K unit :=
  cprintf "Currently Running Process:
" [] ;;
  processinfo_loop (Z.to_nat NPROC) 0.
