(* ===== verification/Inode.v ===== *)
(** * Blocks and inodes (fs.c)

    The block allocator ([bzero], [balloc], [bfree]), the inode cache ([iget],
    [idup], [ilock], [iunlock], [iput]), inodes on disk ([ialloc], [iupdate])
    and the blocks of a file ([bmap], [itrunc], [stati]).  An inode pointer is the
    index of the entry of [icache.inode]; C code that receives a null pointer is
    not reached, since [iget] and [ialloc] panic rather than return one. *)

From S2P Require Import Prelude State Spinlock Console Sched Bio Bytes Log.

(** ** Layout (fs.h) *)

(** Bitmap bits per block, inodes per block, [sizeof(struct dinode)]. *)
Definition BPB : Z := BSIZE * 8.
Definition DINODE : Z := 64.
Definition IPB : Z := BSIZE / DINODE.
#[global] Arguments BPB : simpl never.
#[global] Arguments DINODE : simpl never.
#[global] Arguments IPB : simpl never.

Definition BBLOCK (b : Z) (sb : superblock) : Z := u32 (b / BPB + sb_bmapstart sb).
Definition IBLOCK (i : Z) (sb : superblock) : Z := u32 (i / IPB + sb_inodestart sb).

(** stat.h *)
Definition T_DIR : Z := 1.
Definition T_FILE : Z := 2.
Definition T_DEV : Z := 3.

(** An assignment to the [data] of a buffer the caller holds. *)
Definition upddata (bp : nat) (f : list Z -> list Z) : K unit :=
  updbuf bp (fun bf => set_b_data (f (b_data bf)) bf).
Definition getdata (bp : nat) : K (list Z) :=
  bf <- getbuf bp ;;
  ret (b_data bf).

(** ** Blocks *)

(** [readsb(dev, &sb)] with the global [sb]. *)
Definition load_sb (dev : Z) : K unit :=
  sb <- readsb dev ;;
  modify (set_k_sb sb).

Definition bzero (dev bno : Z) : K unit :=
  bp <- bread (u32 dev) (u32 bno) ;;
  upddata bp (fun _ => replicate (Z.to_nat BSIZE) 0) ;;
  log_write bp ;;
  brelse bp.

(** The mask of bit [bi] in its byte. *)
Definition bitmask (bi : Z) : Z := Z.shiftl 1 (bi mod 8).

(** The inner loop: the first clear bit from [bi] on whose block is on the disk.
    It makes at most [BPB] rounds. *)
Fixpoint bfind (fuel : nat) (d : list Z) (b bi size : Z) : option Z :=
  match fuel with
  | O => None
  | S fuel' =>
      if (bi <? BPB) && (b + bi <? size) then
        if Z.land (ld8 d (bi / 8)) (bitmask bi) =? 0 then Some bi
        else bfind fuel' d b (bi + 1) size
      else None
  end.

(** The outer loop, over the blocks of the bitmap. *)
Fixpoint balloc_loop (fuel : nat) (dev b : Z) : K Z :=
  sb <- gets k_sb ;;
  if b <? sb_size sb then
    match fuel with
    | O => out_of_fuel
    | S fuel' =>
        bp <- bread dev (BBLOCK b sb) ;;
        d <- getdata bp ;;
        match bfind (Z.to_nat BPB) d b 0 (sb_size sb) with
        | Some bi =>
            upddata bp (fun d => st8 d (bi / 8) (Z.lor (ld8 d (bi / 8)) (bitmask bi))) ;;
            log_write bp ;;
            brelse bp ;;
            bzero dev (b + bi) ;;
            ret (b + bi)
        | None =>
            brelse bp ;;
            balloc_loop fuel' dev (b + BPB)
        end
    end
  else panic "balloc: out of blocks".

Definition balloc (dev : Z) : K Z :=
  sb <- gets k_sb ;;
  balloc_loop (Z.to_nat (sb_size sb / BPB + 1)) dev 0.

Definition bfree (dev b : Z) : K unit :=
  load_sb dev ;;
  sb <- gets k_sb ;;
  bp <- bread (u32 dev) (BBLOCK b sb) ;;
  let bi := b mod BPB in
  d <- getdata bp ;;
  if Z.land (ld8 d (bi / 8)) (bitmask bi) =? 0 then panic "freeing free block" else
  upddata bp (fun d => st8 d (bi / 8) (Z.ldiff (ld8 d (bi / 8)) (bitmask bi))) ;;
  log_write bp ;;
  brelse bp.

(** ** The inode cache *)

Definition iinit (dev : Z) : K unit :=
  initlock Licache "icache" ;;
  load_sb dev ;;
  sb <- gets k_sb ;;
  cprintf "sb: size %d nblocks %d ninodes %d nlog %d logstart %d inodestart %d bmap start %d
"
    [KInt (sb_size sb); KInt (sb_nblocks sb); KInt (sb_ninodes sb); KInt (sb_nlog sb);
     KInt (sb_logstart sb); KInt (sb_inodestart sb); KInt (sb_bmapstart sb)].

(** The loop of [iget] over the cache: the entry in use for the inode, if any,
    and the first free entry before it. *)
Fixpoint iget_scan (l : list inode) (i : nat) (dev inum : Z) (empty : option nat) : option nat * option nat :=
  match l with
  | [] => (None, empty)
  | ip :: l' =>
      if (0 <? i_ref ip) && (i_dev ip =? dev) && (i_inum ip =? inum) then (Some i, empty)
      else
        iget_scan l' (S i) dev inum
          (match empty with
           | Some e => Some e
           | None => if i_ref ip =? 0 then Some i else None
           end)
  end.

Definition iget (dev inum : Z) : K nat :=
  acquire Licache ;;
  l <- gets icache ;;
  match iget_scan l 0 dev inum None with
  | (Some ip, _) =>
      updinode ip (fun n => set_i_ref (s32 (i_ref n + 1)) n) ;;
      release Licache ;;
      ret ip
  | (None, None) => panic "iget: no inodes"
  | (None, Some ip) =>
      updinode ip (fun n => set_i_flags 0 (set_i_ref 1 (set_i_inum inum (set_i_dev dev n)))) ;;
      release Licache ;;
      ret ip
  end.

Definition idup (ip : nat) : K nat :=
  acquire Licache ;;
  updinode ip (fun n => set_i_ref (s32 (i_ref n + 1)) n) ;;
  release Licache ;;
  ret ip.

(** ** Inodes on disk *)

(** The fields of the [struct dinode] at offset [o] of a block. *)
Definition dip_type (d : list Z) (o : Z) : Z := s16 (ld16 d o).
Definition dip_addrs (d : list Z) (o : Z) : list Z :=
  (fun i => ld32 d (o + 12 + 4 * Z.of_nat i)) <$> seq 0 13.

(** Their assignment to the cached inode, and back. *)
Definition load_dinode (d : list Z) (o : Z) (n : inode) : inode :=
  mkInode (i_dev n) (i_inum n) (i_ref n) (i_flags n)
    (dip_type d o) (s16 (ld16 d (o + 2))) (s16 (ld16 d (o + 4))) (s16 (ld16 d (o + 6)))
    (ld32 d (o + 8)) (dip_addrs d o).

Definition store_dinode (n : inode) (o : Z) (d : list Z) : list Z :=
  let d := st16 d o (i_type n) in
  let d := st16 d (o + 2) (i_major n) in
  let d := st16 d (o + 4) (i_minor n) in
  let d := st16 d (o + 6) (i_nlink n) in
  let d := st32 d (o + 8) (i_size n) in
  put d (o + 12) (mjoin (le32 <$> i_addrs n)).

Fixpoint ialloc_loop (fuel : nat) (dev type inum : Z) : K nat :=
  sb <- gets k_sb ;;
  if inum <? sb_ninodes sb then
    match fuel with
    | O => out_of_fuel
    | S fuel' =>
        bp <- bread dev (IBLOCK inum sb) ;;
        d <- getdata bp ;;
        let o := inum mod IPB * DINODE in
        if dip_type d o =? 0 then
          upddata bp (fun d => st16 (put d o (replicate (Z.to_nat DINODE) 0)) o type) ;;
          log_write bp ;;
          brelse bp ;;
          iget dev inum
        else
          brelse bp ;;
          ialloc_loop fuel' dev type (inum + 1)
    end
  else panic "ialloc: no inodes".

Definition ialloc (dev type : Z) : K nat :=
  sb <- gets k_sb ;;
  ialloc_loop (Z.to_nat (sb_ninodes sb)) dev type 1.

Definition iupdate (ip : nat) : K unit :=
  n <- getinode ip ;;
  sb <- gets k_sb ;;
  bp <- bread (i_dev n) (IBLOCK (i_inum n) sb) ;;
  n <- getinode ip ;;
  upddata bp (store_dinode n (i_inum n mod IPB * DINODE)) ;;
  log_write bp ;;
  brelse bp.

(** ** Locking an inode *)

(** [fuel] bounds the number of times the caller is put to sleep. *)
Fixpoint ilock_wait (fuel : nat) (ip : nat) : K unit :=
  n <- getinode ip ;;
  if has (i_flags n) I_BUSY then
    match fuel with
    | O => out_of_fuel
    | S fuel' => sleep (CInode ip) Licache ;; ilock_wait fuel' ip
    end
  else ret tt.

Definition ilock (ip : nat) : K unit :=
  n <- getinode ip ;;
  if i_ref n <? 1 then panic "ilock" else
  acquire Licache ;;
  ilock_wait max_sleeps ip ;;
  updinode ip (fun n => set_i_flags (Z.lor (i_flags n) I_BUSY) n) ;;
  release Licache ;;
  n <- getinode ip ;;
  when (negb (has (i_flags n) I_VALID))
    (sb <- gets k_sb ;;
     bp <- bread (i_dev n) (IBLOCK (i_inum n) sb) ;;
     d <- getdata bp ;;
     updinode ip (fun n => load_dinode d (i_inum n mod IPB * DINODE) n) ;;
     brelse bp ;;
     updinode ip (fun n => set_i_flags (Z.lor (i_flags n) I_VALID) n) ;;
     n <- getinode ip ;;
     when (i_type n =? 0) (panic "ilock: no type")).

Definition iunlock (ip : nat) : K unit :=
  n <- getinode ip ;;
  if negb (has (i_flags n) I_BUSY) || (i_ref n <? 1) then panic "iunlock" else
  acquire Licache ;;
  updinode ip (fun n => set_i_flags (Z.ldiff (i_flags n) I_BUSY) n) ;;
  wakeup (CInode ip) ;;
  release Licache.

(** ** The blocks of a file *)

Definition setaddr (ip : nat) (i v : Z) : K unit :=
  updinode ip (fun n => set_i_addrs (<[Z.to_nat i := v]> (i_addrs n)) n).

(** [ip->addrs[i]], allocated when it is 0. *)
Definition addr_or_alloc (ip : nat) (i : Z) : K Z :=
  n <- getinode ip ;;
  let addr := i_addrs n !!! Z.to_nat i in
  if addr =? 0 then
    addr <- balloc (i_dev n) ;;
    setaddr ip i addr ;;
    ret addr
  else ret addr.

Definition bmap (ip : nat) (bn : Z) : K Z :=
  if bn <? NDIRECT then addr_or_alloc ip bn
  else
    let bn := bn - NDIRECT in
    if bn <? NINDIRECT then
      addr <- addr_or_alloc ip NDIRECT ;;
      n <- getinode ip ;;
      bp <- bread (i_dev n) addr ;;
      d <- getdata bp ;;
      let addr := ld32 d (4 * bn) in
      addr <-
        (if addr =? 0 then
           addr <- balloc (i_dev n) ;;
           upddata bp (fun d => st32 d (4 * bn) addr) ;;
           log_write bp ;;
           ret addr
         else ret addr) ;;
      brelse bp ;;
      ret addr
    else panic "bmap: out of range".

(** The two loops of [itrunc], with [n] rounds left. *)
Fixpoint itrunc_direct (n : nat) (ip : nat) (i : Z) : K unit :=
  match n with
  | O => ret tt
  | S n' =>
      nd <- getinode ip ;;
      let addr := i_addrs nd !!! Z.to_nat i in
      when (negb (addr =? 0)) (bfree (i_dev nd) addr ;; setaddr ip i 0) ;;
      itrunc_direct n' ip (i + 1)
  end.

Fixpoint itrunc_indirect (n : nat) (ip bp : nat) (j : Z) : K unit :=
  match n with
  | O => ret tt
  | S n' =>
      d <- getdata bp ;;
      nd <- getinode ip ;;
      let addr := ld32 d (4 * j) in
      when (negb (addr =? 0)) (bfree (i_dev nd) addr) ;;
      itrunc_indirect n' ip bp (j + 1)
  end.

Definition itrunc (ip : nat) : K unit :=
  itrunc_direct (Z.to_nat NDIRECT) ip 0 ;;
  n <- getinode ip ;;
  let addr := i_addrs n !!! Z.to_nat NDIRECT in
  when (negb (addr =? 0))
    (bp <- bread (i_dev n) addr ;;
     itrunc_indirect (Z.to_nat NINDIRECT) ip bp 0 ;;
     brelse bp ;;
     n <- getinode ip ;;
     bfree (i_dev n) (i_addrs n !!! Z.to_nat NDIRECT) ;;
     setaddr ip NDIRECT 0) ;;
  updinode ip (set_i_size 0) ;;
  iupdate ip.

Definition iput (ip : nat) : K unit :=
  acquire Licache ;;
  n <- getinode ip ;;
  (if (i_ref n =? 1) && has (i_flags n) I_VALID && (i_nlink n =? 0) then
     if has (i_flags n) I_BUSY then panic "iput busy" else
     updinode ip (fun n => set_i_flags (Z.lor (i_flags n) I_BUSY) n) ;;
     release Licache ;;
     itrunc ip ;;
     updinode ip (set_i_type 0) ;;
     iupdate ip ;;
     acquire Licache ;;
     updinode ip (set_i_flags 0) ;;
     wakeup (CInode ip)
   else ret tt) ;;
  updinode ip (fun n => set_i_ref (s32 (i_ref n - 1)) n) ;;
  release Licache.

Definition iunlockput (ip : nat) : K unit :=
  iunlock ip ;;
  iput ip.

(** [struct stat] (stat.h), and what [stati] puts in it. *)
Record stat : Type := mkStat { st_type : Z; st_dev : Z; st_ino : Z; st_nlink : Z; st_size : Z }.

Definition stati (ip : nat) : K stat :=
  n <- getinode ip ;;
  ret (mkStat (i_type n) (s32 (i_dev n)) (i_inum n) (i_nlink n) (i_size n)).
