(* ===== verification/FsTx.v ===== *)
(** * File system code inside a transaction

    The steps the file system takes on blocks (fs.c) on top of the log: what they
    change, and what they leave alone.  [fx] is the effect of such code: the new
    contents of the blocks, the blocks that joined the transaction, the inode cache
    and memory. *)

From S2P Require Import Prelude State Spinlock Sched Bio Bytes Log LogCrash LogOps Inode.

(** ** Frames *)

(** The file system changes the buffers, the log's list, the inode cache and
    memory, and wakes processes. *)
Definition fs_frame (k k' : kernel) : Prop :=
  exists bs pt lg ic m, Forall2 woken (ptable k) pt /\
    k' = set_k_mem m (set_icache ic (set_k_log lg (set_ptable pt (set_bcache bs k)))).

Lemma fs_frame_refl k : fs_frame k k.
Proof.
  exists (bcache k), (ptable k), (k_log k), (icache k), (k_mem k). split; [apply woken_refl|]. now destruct k.
Qed.

Lemma fs_frame_trans k1 k2 k3 : fs_frame k1 k2 -> fs_frame k2 k3 -> fs_frame k1 k3.
Proof.
  intros (bs & pt & lg & ic & m & Hw & ->) (bs' & pt' & lg' & ic' & m' & Hw' & ->).
  exists bs', pt', lg', ic', m'. split; [|now destruct k1]. now apply (woken_trans _ pt).
Qed.

Lemma fs_frame_fields k k' :
  fs_frame k k' -> memdisk k' = memdisk k /\ diskwrites k' = diskwrites k /\ k_sb k' = k_sb k /\
    k_cpu k' = k_cpu k /\ k_locks k' = k_locks k /\ k_devsw k' = k_devsw k.
Proof. intros (bs & pt & lg & ic & m & _ & ->). done. Qed.

Lemma io_frame_fs k k' lg :
  io_frame (set_k_log lg k) k' -> memdisk k' = memdisk k -> diskwrites k' = diskwrites k ->
  fs_frame k k' /\ icache k' = icache k /\ k_mem k' = k_mem k.
Proof.
  intros (bs & d & w & pt & Hw & ->) Hd Hdw. cbn in Hd, Hdw. subst d w. split; [|done].
  exists bs, pt, lg, (icache k), (k_mem k). split; [exact Hw|]. now destruct k.
Qed.

(** The log keeps its place and counters, and blocks [ls] may have joined it. *)
Record log_step (lg lg' : log_t) (ls : list Z) : Prop := {
  ls_start : lg_start lg' = lg_start lg;
  ls_size : lg_size lg' = lg_size lg;
  ls_out : lg_outstanding lg' = lg_outstanding lg;
  ls_new : forall b, b ∈ txn lg' -> b ∈ txn lg \/ b ∈ ls;
  ls_old : forall b, b ∈ txn lg -> b ∈ txn lg'
}.

Lemma log_step_refl lg : log_step lg lg [].
Proof. split; auto. Qed.

Lemma log_step_trans l1 l2 l3 s1 s2 : log_step l1 l2 s1 -> log_step l2 l3 s2 -> log_step l1 l3 (s1 ++ s2).
Proof.
  intros [A1 A2 A3 A4 A5] [B1 B2 B3 B4 B5]. split; try congruence; [|auto].
  intros b Hb. rewrite elem_of_app. apply B4 in Hb as [Hb|Hb]; [|auto]. apply A4 in Hb as [Hb|Hb]; auto.
Qed.

Lemma log_step_mono l1 l2 s1 s2 : log_step l1 l2 s1 -> (forall b, b ∈ s1 -> b ∈ s2) -> log_step l1 l2 s2.
Proof. intros [A1 A2 A3 A4 A5] H. split; try done. intros b Hb. apply A4 in Hb as [Hb|Hb]; auto. Qed.

Lemma log_step_logged lg len b : lg_ok lg len -> lh_n lg < LOGSIZE -> log_step lg (logged lg b) [b].
Proof.
  intros Hlg Hn. pose proof (txn_logged lg len b Hlg Hn) as Ht. split; unfold logged in *; case_decide; try done.
  - auto.
  - intros b'. rewrite Ht, elem_of_app. tauto.
  - intros b'. rewrite Ht, elem_of_app. tauto.
Qed.

Lemma data_block_step lg lg' ls len b : log_step lg lg' ls -> (data_block lg' len b <-> data_block lg len b).
Proof. intros [A1 A2 _ _ _]. unfold data_block. now rewrite A1, A2. Qed.

#[global] Arguments data_block_step {lg lg' ls len b}.

(** ** Effects *)

(** [hs] are buffers held throughout. *)
Record fx (hs : list nat) (k k' : kernel) (V : Z -> list Z) (ls : list Z) (ic : list inode) (m : gmap Z Z) : Prop := {
  fx_frame : fs_frame k k';
  fx_view : forall b, 0 <= b -> view k' b = V b;
  fx_log : log_step (k_log k) (k_log k') ls;
  fx_icache : icache k' = ic;
  fx_mem : k_mem k' = m;
  fx_held : forall j, j ∈ hs -> same_buf (bcache k' !!! j) (bcache k !!! j)
}.

#[global] Arguments fx_frame {hs k k' V ls ic m}.
#[global] Arguments fx_view {hs k k' V ls ic m}.
#[global] Arguments fx_log {hs k k' V ls ic m}.
#[global] Arguments fx_icache {hs k k' V ls ic m}.
#[global] Arguments fx_mem {hs k k' V ls ic m}.
#[global] Arguments fx_held {hs k k' V ls ic m}.

Lemma same_buf_trans x y z : same_buf x y -> same_buf y z -> same_buf x z.
Proof. unfold same_buf. intros (A & B & C & D) (A' & B' & C' & D'). split_and!; congruence. Qed.

Lemma fx_refl hs k : fx hs k k (view k) [] (icache k) (k_mem k).
Proof. split; try done; [apply fs_frame_refl|apply log_step_refl]. Qed.

Lemma fx_trans hs k1 k2 k3 V1 V2 s1 s2 i1 i2 m1 m2 :
  fx hs k1 k2 V1 s1 i1 m1 -> fx hs k2 k3 V2 s2 i2 m2 -> fx hs k1 k3 V2 (s1 ++ s2) i2 m2.
Proof.
  intros [A1 A2 A3 A4 A5 A6] [B1 B2 B3 B4 B5 B6]. split; try done.
  - now apply (fs_frame_trans _ k2).
  - now apply (log_step_trans _ (k_log k2)).
  - intros j Hj. apply (same_buf_trans _ (bcache k2 !!! j)); auto.
Qed.

#[global] Arguments fx_trans {hs k1 k2 k3 V1 V2 s1 s2 i1 i2 m1 m2}.

(** The same effect, with the contents stated in another way. *)
Lemma fx_conv hs hs' k k' V V' ls ls' ic m :
  fx hs k k' V ls ic m -> (forall j, j ∈ hs' -> j ∈ hs) -> (forall b, 0 <= b -> V b = V' b) ->
  (forall b, b ∈ ls -> b ∈ ls') -> fx hs' k k' V' ls' ic m.
Proof.
  intros [A1 A2 A3 A4 A5 A6] Hh HV Hs. split; try done; [|now apply (log_step_mono _ _ ls)|auto].
  intros b Hb. now rewrite A2, HV.
Qed.

Lemma fx_then hs k1 k2 k3 V1 V2 V s1 s2 i1 m1 :
  fx hs k1 k2 V1 s1 i1 m1 -> fx hs k2 k3 V2 s2 (icache k2) (k_mem k2) -> (forall b, 0 <= b -> V2 b = V b) ->
  fx hs k1 k3 V (s1 ++ s2) i1 m1.
Proof.
  intros X1 X2 HV. pose proof (fx_trans X1 X2) as X. rewrite (fx_icache X1), (fx_mem X1) in X.
  exact (fx_conv _ _ _ _ _ V _ _ _ _ X (fun _ H => H) HV (fun _ H => H)).
Qed.
#[global] Arguments fx_then {hs k1 k2 k3 V1 V2} V {s1 s2 i1 m1}.
#[global] Arguments fx_conv {hs hs' k k' V V' ls ls' ic m}.

(** No held buffer is the block's. *)
Definition unheld (hs : list nat) (k : kernel) (b : Z) : Prop := forall i, i ∈ hs -> is_blk b (bcache k !!! i) = false.

Lemma is_blk_same b x y : same_buf x y -> is_blk b x = is_blk b y.
Proof. unfold same_buf, is_blk. intros (A & B & C & D). now rewrite ?A, ?B, ?C. Qed.

Lemma fx_unheld hs k k' V ls ic m b : fx hs k k' V ls ic m -> unheld hs k b -> unheld hs k' b.
Proof. intros H Hu i Hi. rewrite (is_blk_same _ _ _ (fx_held H i Hi)). auto. Qed.

Lemma fx_holds hs k k' V ls ic m i b : fx hs k k' V ls ic m -> i ∈ hs -> holds k i b -> holds k' i b.
Proof.
  intros H Hi (H1 & H2 & H3). pose proof (fx_held H i Hi) as Hs.
  split_and!; [done|now rewrite (is_blk_same _ _ _ Hs)|]. destruct Hs as (E & _). congruence.
Qed.

(** What releases a buffer without losing anything. *)
Definition safe (k : kernel) (b : Z) : Prop := b ∈ txn (k_log k) \/ view k b = memdisk k !!! Z.to_nat b.

Lemma tx_safe k hs b : tx k hs -> unheld hs k b -> safe k b.
Proof.
  intros [Hl _] Hu. destruct (decide (b ∈ txn (k_log k))) as [|Hn]; [now left|right].
  apply (view_coherent k hs); [apply Hl|done|]. apply not_true_iff_false. rewrite (li_dirty _ _ Hl). done.
Qed.

Lemma fx_safe hs k k' V ls ic m b : fx hs k k' V ls ic m -> 0 <= b -> V b = view k b -> safe k b -> safe k' b.
Proof.
  intros [A1 A2 A3 A4 A5 A6] Hb HV [H|H]; [left; now apply A3|right].
  rewrite A2, HV, H by done. destruct (fs_frame_fields _ _ A1) as (-> & _). done.
Qed.

(** ** Steps *)

Lemma fs_bread k hs b :
  tx k hs -> in_range (memdisk k) b -> unheld hs k b -> tx_room k hs \/ b ∈ txn (k_log k) ->
  exists i k', bread 1 b k = Ok i k' /\ tx k' (i :: hs) /\ holds k' i b /\ (i ∉ hs) /\
    b_data (bcache k' !!! i) = view k b /\ fx hs k k' (view k) [] (icache k) (k_mem k) /\ safe k' b.
Proof.
  intros Ht Hb Hu Hr. destruct (tx_read k hs b Ht Hb Hu Hr) as (i & k' & R & T & H & Hni & D & O & [F V Dt E W]).
  destruct (io_frame_fs k k' (k_log k)) as (F' & I & M); [now destruct k|done|done|].
  assert (X : fx hs k k' (view k) [] (icache k) (k_mem k)).
  { split; try done; [|intros j Hj; rewrite O by done; apply same_buf_refl].
    destruct (io_frame_log _ _ F) as (-> & _ & _). apply log_step_refl. }
  exists i, k'. split_and!; try done. apply (fx_safe hs k k' (view k) [] (icache k) (k_mem k)); [done|apply Hb|done|].
  now apply (tx_safe k hs).
Qed.

Lemma fs_getdata k i : getdata i k = Ok (b_data (bcache k !!! i)) k.
Proof. reflexivity. Qed.

Lemma fs_upddata k hs i b g :
  tx k hs -> i ∈ hs -> holds k i b ->
  exists k', upddata i g k = Ok tt k' /\ tx k' hs /\ holds k' i b /\
    fx (filter (fun j => j <> i) hs) k k' (upd (view k) b (g (view k b))) [] (icache k) (k_mem k).
Proof.
  intros Ht Hi Hh. destruct (tx_modify k hs i b g Ht Hi Hh) as (k' & R & T & H & [F V Dt E W]).
  destruct (io_frame_fs k k' (k_log k)) as (F' & I & M); [now destruct k|done|done|].
  exists k'. split_and!; try done. split; try done.
  - destruct (io_frame_log _ _ F) as (-> & _ & _). apply log_step_refl.
  - intros j Hj. apply list_elem_of_filter in Hj as [Hj _]. unfold updbuf, modify in R. injection R as <-.
    cbn. rewrite alter_others by done. apply same_buf_refl.
Qed.

Lemma fs_log_write k hs i b :
  tx k hs -> i ∈ hs -> holds k i b -> data_block (k_log k) (length (memdisk k)) b ->
  log_open k ->
  exists k', log_write i k = Ok tt k' /\ tx k' hs /\ holds k' i b /\ b ∈ txn (k_log k') /\
    fx (filter (fun j => j <> i) hs) k k' (view k) [b] (icache k) (k_mem k).
Proof.
  intros Ht Hi Hh Hdb Hn. destruct (tx_log_write k hs i b Ht Hi Hh Hdb Hn) as (k' & R & T & H & L & O & [F V Dt E W]).
  destruct (io_frame_fs k k' (logged (k_log k) b)) as (F' & I & M); [done|done|done|].
  exists k'. split_and!; try done.
  - apply (li_dirty _ _ (tx_log _ _ T)). rewrite Dt. unfold upd. now rewrite decide_True.
  - split; try done.
    + rewrite L. apply (log_step_logged _ (length (memdisk k))); [apply Ht|].
      pose proof (lg_n _ _ (li_ok _ _ (tx_log _ _ Ht))). lia.
    + intros j Hj. apply list_elem_of_filter in Hj as [Hj _]. rewrite O by done. apply same_buf_refl.
Qed.

Lemma fs_brelse k hs i b :
  tx k (i :: hs) -> (i ∉ hs) -> holds k i b -> safe k b ->
  exists k', brelse i k = Ok tt k' /\ tx k' hs /\ fx hs k k' (view k) [] (icache k) (k_mem k).
Proof.
  intros Ht Hni Hh Hs. destruct (tx_relse k hs i b Ht Hni Hh Hs) as (k' & R & T & O & [F V Dt E W]).
  destruct (io_frame_fs k k' (k_log k)) as (F' & I & M); [now destruct k|done|done|].
  exists k'. split_and!; try done. split; try done.
  - destruct (io_frame_log _ _ F) as (-> & _ & _). apply log_step_refl.
  - intros j Hj. apply O. intros ->. done.
Qed.
