(* ===== verification/Alloc.v ===== *)
(** * The block allocator (fs.c)

    What [balloc] and [bfree] do to the free-block bitmap, inside a transaction. *)

From S2P Require Import Prelude State Spinlock Sched Bio Bytes Log LogCrash LogOps Inode FsTx.

(** ** Bits of a block *)

Definition dbit (d : list Z) (i : Z) : bool := Z.testbit (ld8 d (i / 8)) (i mod 8).
Definition setbit (i : Z) (d : list Z) : list Z := st8 d (i / 8) (Z.lor (ld8 d (i / 8)) (bitmask i)).
Definition clrbit (i : Z) (d : list Z) : list Z := st8 d (i / 8) (Z.ldiff (ld8 d (i / 8)) (bitmask i)).

Lemma bitmask_pow i : bitmask i = 2 ^ (i mod 8).
Proof. unfold bitmask. apply Z.shiftl_1_l. Qed.

Lemma bit_test d i : (Z.land (ld8 d (i / 8)) (bitmask i) =? 0) = negb (dbit d i).
Proof.
  rewrite bitmask_pow. pose proof (has_pow2 (ld8 d (i / 8)) (i mod 8)) as H. unfold has in H. unfold dbit.
  rewrite <- H by (Z.div_mod_to_equations; lia). now rewrite negb_involutive.
Qed.

Lemma ld8_st8 d o v i :
  0 <= o < Z.of_nat (length d) -> 0 <= i -> ld8 (st8 d o v) i = if decide (i = o) then u8 v else ld8 d i.
Proof.
  intros Ho Hi. unfold st8. rewrite ld8_put by (cbn; lia). cbn [length].
  destruct (decide (i = o)) as [->|Hne].
  - rewrite decide_True by lia. now rewrite Z.sub_diag.
  - rewrite decide_False by lia. done.
Qed.

Lemma u8_testbit v n : 0 <= n < 8 -> Z.testbit (u8 v) n = Z.testbit v n.
Proof. intros Hn. unfold u8. apply Z.mod_pow2_bits_low. lia. Qed.

(** One byte of the bitmap changed by [f], which acts on bits. *)
Lemma dbit_change d i j f g :
  length d = Z.to_nat BSIZE -> 0 <= i < BPB -> 0 <= j < BPB ->
  (forall n, 0 <= n < 8 -> Z.testbit (f (ld8 d (i / 8))) n = g (n =? i mod 8) (Z.testbit (ld8 d (i / 8)) n)) ->
  (forall b, g false b = b) ->
  dbit (st8 d (i / 8) (f (ld8 d (i / 8)))) j = g (j =? i) (dbit d j).
Proof.
  intros Hl Hi Hj Hf Hg. unfold dbit, BPB, BSIZE in *. rewrite ld8_st8 by (rewrite ?Hl; Z.div_mod_to_equations; lia).
  destruct (decide (j / 8 = i / 8)) as [E|E].
  - rewrite u8_testbit, Hf, E by (Z.div_mod_to_equations; lia). f_equal.
    destruct (Z.eqb_spec j i), (Z.eqb_spec (j mod 8) (i mod 8)); try done; exfalso; Z.div_mod_to_equations; lia.
  - destruct (Z.eqb_spec j i) as [->|]; [done|]. now rewrite Hg.
Qed.

Lemma bitmask_testbit i n : 0 <= n -> Z.testbit (bitmask i) n = (n =? i mod 8).
Proof.
  intros Hn. rewrite bitmask_pow, Z.pow2_bits_eqb by (Z.div_mod_to_equations; lia). apply Z.eqb_sym.
Qed.

Lemma dbit_setbit d i j :
  length d = Z.to_nat BSIZE -> 0 <= i < BPB -> 0 <= j < BPB -> dbit (setbit i d) j = (j =? i) || dbit d j.
Proof.
  intros Hl Hi Hj. apply (dbit_change d i j (fun x => Z.lor x (bitmask i)) orb); try done.
  intros n Hn. rewrite Z.lor_spec, bitmask_testbit by lia. apply orb_comm.
Qed.

Lemma dbit_clrbit d i j :
  length d = Z.to_nat BSIZE -> 0 <= i < BPB -> 0 <= j < BPB -> dbit (clrbit i d) j = negb (j =? i) && dbit d j.
Proof.
  intros Hl Hi Hj. apply (dbit_change d i j (fun x => Z.ldiff x (bitmask i)) (fun e b => negb e && b)); try done.
  intros n Hn. rewrite Z.ldiff_spec, bitmask_testbit by lia. apply andb_comm.
Qed.

Lemma block_ok_st8 d o v : block_ok d -> block_ok (st8 d o v).
Proof. intros H. apply block_ok_put; [done|]. repeat constructor; apply u8_range. Qed.

(** The inner loop of [balloc] finds the first clear bit. *)
Lemma bfind_spec d b size n : forall bi, 0 <= bi -> Z.of_nat n = BPB - bi ->
  match bfind n d b bi size with
  | Some i => bi <= i < BPB /\ b + i < size /\ dbit d i = false /\ (forall j, bi <= j < i -> dbit d j = true)
  | None => forall j, bi <= j < BPB -> b + j < size -> dbit d j = true
  end.
Proof.
  induction n as [|n IH]; intros bi H0 Hn; cbn [bfind]; [lia|].
  rewrite (proj2 (Z.ltb_lt bi BPB)) by lia. cbn [andb].
  destruct (Z.ltb_spec (b + bi) size) as [Hs|Hs]; [|intros j Hj Hjs; lia].
  rewrite bit_test. destruct (dbit d bi) eqn:E; cbn [negb].
  - specialize (IH (bi + 1)). destruct (bfind n d b (bi + 1) size) as [i|].
    + destruct IH as (H1 & H2 & H3 & H4); [lia|lia|]. split_and!; [lia|lia|done|done|].
      intros j Hj. destruct (decide (j = bi)) as [->|]; [done|]. apply H4. lia.
    + intros j Hj Hjs. destruct (decide (j = bi)) as [->|]; [done|]. apply IH; lia.
  - split_and!; [lia|lia|done|done|lia].
Qed.

(** ** The layout of the file system *)

(** The bitmap and the inode blocks are on the disk, outside the log, and apart. *)
Record layout (sb : superblock) (lg : log_t) (len : nat) : Prop := {
  lay_size : sb_size sb = Z.of_nat len;
  lay_start : 0 <= sb_bmapstart sb /\ 0 <= sb_inodestart sb /\ 0 <= sb_ninodes sb < 2 ^ 32;
  lay_bitmap : forall b, 0 <= b < sb_size sb -> data_block lg len (sb_bmapstart sb + b / BPB);
  lay_inode : forall i, 0 <= i < sb_ninodes sb -> data_block lg len (sb_inodestart sb + i / IPB);
  lay_apart : forall b i, 0 <= b < sb_size sb -> 0 <= i < sb_ninodes sb ->
    sb_bmapstart sb + b / BPB <> sb_inodestart sb + i / IPB
}.

(** The blocks that hold the bitmap and the inodes. *)
Definition meta (sb : superblock) (b : Z) : Prop :=
  (exists b', 0 <= b' < sb_size sb /\ b = sb_bmapstart sb + b' / BPB) \/
  (exists i, 0 <= i < sb_ninodes sb /\ b = sb_inodestart sb + i / IPB).

(** Whether block [b] is in use. *)
Definition used (k : kernel) (b : Z) : bool := dbit (view k (sb_bmapstart (k_sb k) + b / BPB)) (b mod BPB).

(** A block that files may use. *)
Definition file_block (k : kernel) (b : Z) : Prop :=
  data_block (k_log k) (length (memdisk k)) b /\ ~ meta (k_sb k) b /\ b <> 0.

Record fs_ok (k : kernel) : Prop := {
  fo_layout : layout (k_sb k) (k_log k) (length (memdisk k));
  fo_blocks : forall b, in_range (memdisk k) b -> block_ok (view k b);
  fo_free : forall b, 0 <= b < sb_size (k_sb k) -> used k b = false -> file_block k b
}.

(** Room for [n] more blocks in the transaction, and one to spare. *)
Definition cap (k : kernel) (n : nat) : Prop :=
  Z.of_nat (length (txn (k_log k)) + n) < lg_size (k_log k) - 1 /\ 0 < lg_outstanding (k_log k).

Lemma cap_room k hs n : tx k hs -> cap k n -> (length hs <= S n)%nat -> tx_room k hs.
Proof.
  intros Ht Hc Hh. pose proof (lg_n _ _ (li_ok _ _ (tx_log _ _ Ht))) as Hn. unfold cap, tx_room, LOGSIZE, MAXOPBLOCKS in *.
  unfold bhead. change (Z.to_nat NBUF) with 30%nat. lia.
Qed.

Lemma cap_log k hs n : tx k hs -> cap k n -> log_open k.
Proof.
  intros Ht Hc. pose proof (li_ok _ _ (tx_log _ _ Ht)) as Hl. unfold cap in Hc. rewrite (length_txn _ _ Hl) in Hc.
  pose proof (lg_n _ _ Hl). unfold log_open. lia.
Qed.

(** The transaction after blocks [ls] joined it. *)
Lemma cap_step k k' hs ls n :
  tx k' hs -> log_step (k_log k) (k_log k') ls -> cap k (length ls + n) -> cap k' n.
Proof.
  intros Ht [_ Hs Ho Hnew _] Hc. unfold cap in *. rewrite Hs, Ho.
  assert (Hle : (length (txn (k_log k')) <= length (txn (k_log k) ++ ls))%nat).
  { apply submseteq_length, NoDup_submseteq; [apply (li_nodup _ _ (tx_log _ _ Ht))|].
    intros b Hb. rewrite elem_of_app. auto. }
  rewrite length_app in Hle. lia.
Qed.

(** ** Changing a block *)

(** The end of an update: change the buffer, log it, release it. *)
Lemma fs_finish k hs i b g :
  tx k (i :: hs) -> (i ∉ hs) -> holds k i b -> data_block (k_log k) (length (memdisk k)) b ->
  log_open k ->
  exists k1 k2 k', upddata i g k = Ok tt k1 /\ log_write i k1 = Ok tt k2 /\ brelse i k2 = Ok tt k' /\
    tx k' hs /\ b ∈ txn (k_log k') /\ fx hs k k' (upd (view k) b (g (view k b))) [b] (icache k) (k_mem k).
Proof.
  intros Ht Hni Hh Hdb Hn.
  assert (Hsub : forall j, j ∈ hs -> j ∈ filter (fun j => j <> i) (i :: hs)).
  { intros j Hj. apply list_elem_of_filter. split; [intros ->; done|]. apply elem_of_cons. now right. }
  assert (Hi : i ∈ i :: hs) by (apply elem_of_cons; now left).
  destruct (fs_upddata k (i :: hs) i b g Ht Hi Hh) as (k1 & R1 & T1 & H1 & X1).
  destruct (fs_frame_fields _ _ (fx_frame X1)) as (D1 & _).
  destruct (fs_log_write k1 (i :: hs) i b T1 Hi H1) as (k2 & R2 & T2 & H2 & B2 & X2).
  { rewrite D1. now apply (data_block_step (fx_log X1)). }
  { pose proof R1 as E. unfold upddata, updbuf, modify in E. injection E as E. rewrite <- E. exact Hn. }
  destruct (fs_brelse k2 hs i b T2 Hni H2) as (k3 & R3 & T3 & X3); [now left|].
  exists k1, k2, k3. split_and!; [done|done|done|done|apply (fx_log X3); done|].
  pose proof (fx_then (upd (view k) b (g (view k b))) X1 X2 (fx_view X1)) as X12.
  assert (X12' : fx hs k k2 (upd (view k) b (g (view k b))) [b] (icache k) (k_mem k)) by (apply (fx_conv X12); auto).
  exact (fx_then _ X12' X3 (fx_view X12)).
Qed.

(** A whole update. *)
Lemma fs_update k hs b g :
  tx k hs -> data_block (k_log k) (length (memdisk k)) b -> unheld hs k b -> tx_room k hs ->
  log_open k ->
  exists i k1 k2 k3 k', bread 1 b k = Ok i k1 /\ b_data (bcache k1 !!! i) = view k b /\
    upddata i g k1 = Ok tt k2 /\ log_write i k2 = Ok tt k3 /\ brelse i k3 = Ok tt k' /\ icache k1 = icache k /\
    tx k' hs /\ b ∈ txn (k_log k') /\ fx hs k k' (upd (view k) b (g (view k b))) [b] (icache k) (k_mem k).
Proof.
  intros Ht Hdb Hu Hr Hn.
  destruct (fs_bread k hs b Ht (proj1 Hdb) Hu (or_introl Hr)) as (i & k1 & R1 & T1 & H1 & Hni & D & X1 & _).
  destruct (fs_frame_fields _ _ (fx_frame X1)) as (D1 & _).
  destruct (fs_finish k1 hs i b g T1 Hni H1) as (k2 & k3 & k4 & R2 & R3 & R4 & T4 & B4 & X4).
  { rewrite D1. now apply (data_block_step (fx_log X1)). }
  { pose proof (lg_n _ _ (li_ok _ _ (tx_log _ _ Ht))). pose proof (length_txn _ _ (li_ok _ _ (tx_log _ _ Ht))) as L0.
    apply (cap_log k1 (i :: hs) 0 T1). apply (cap_step k k1 (i :: hs) [] 0 T1 (fx_log X1)). unfold log_open in Hn. unfold cap. cbn. lia. }
  exists i, k1, k2, k3, k4. split_and!; try done; [apply (fx_icache X1)|].
  apply (fx_then _ X1 X4). destruct Hdb as [[Hb _] _].
  intros b' Hb'. unfold upd. rewrite !(fx_view X1) by done. done.
Qed.

(** ** balloc *)

Section Balloc.
Context (k : kernel) (hs : list nat).
Context (Ht : tx k hs) (Hfs : fs_ok k).

Lemma disk_bound : Z.of_nat (length (memdisk k)) < 2 ^ 31.
Proof. pose proof (lg_fits _ _ (li_ok _ _ (tx_log _ _ Ht))). lia. Qed.

Lemma BBLOCK_eq b : 0 <= b < sb_size (k_sb k) -> BBLOCK b (k_sb k) = sb_bmapstart (k_sb k) + b / BPB.
Proof.
  intros Hb. destruct (lay_bitmap _ _ _ (fo_layout _ Hfs) b Hb) as [[H1 H2] _]. pose proof disk_bound.
  unfold BBLOCK. rewrite u32_small by lia. lia.
Qed.
End Balloc.

(** No held buffer is of the bitmap or of a free block. *)
Definition alloc_unheld (hs : list nat) (k : kernel) : Prop :=
  forall b, 0 <= b < sb_size (k_sb k) ->
    unheld hs k (sb_bmapstart (k_sb k) + b / BPB) /\ (used k b = false -> unheld hs k b).

(** The bitmap with block [x] marked, and the block cleared. *)
Definition allocated (k : kernel) (x : Z) : Z -> list Z :=
  let bb := sb_bmapstart (k_sb k) + x / BPB in
  upd (upd (view k) bb (setbit (x mod BPB) (view k bb))) x (replicate (Z.to_nat BSIZE) 0).

Lemma bzero_run k hs x :
  tx k hs -> data_block (k_log k) (length (memdisk k)) x -> unheld hs k x -> tx_room k hs ->
  log_open k ->
  exists k', bzero 1 x k = Ok tt k' /\ tx k' hs /\ x ∈ txn (k_log k') /\
    fx hs k k' (upd (view k) x (replicate (Z.to_nat BSIZE) 0)) [x] (icache k) (k_mem k).
Proof.
  intros Ht Hdb Hu Hr Hn. unfold bzero. pose proof (disk_bound k hs Ht) as Hd. pose proof Hdb as [[Hx _] _].
  rewrite (u32_small 1), (u32_small x) by (destruct Hdb as [[? ?] _]; lia).
  destruct (fs_update k hs x (fun _ => replicate (Z.to_nat BSIZE) 0) Ht Hdb Hu Hr Hn)
    as (i & k1 & k2 & k3 & k' & R1 & _ & R2 & R3 & R4 & _ & T & B & X).
  exists k'. split_and!; [|done|done|exact X]. mok R1. mok R2. mok R3. exact R4.
Qed.

(** Code that leaves all blocks as they are. *)
Lemma used_same hs k k' V ls ic m b :
  fx hs k k' V ls ic m -> (forall b, 0 <= b -> V b = view k b) -> fs_ok k -> 0 <= b -> used k' b = used k b.
Proof.
  intros X HV H Hb. destruct (fs_frame_fields _ _ (fx_frame X)) as (_ & _ & E & _). unfold used. rewrite E.
  pose proof (lay_start _ _ _ (fo_layout _ H)). assert (0 <= sb_bmapstart (k_sb k) + b / BPB).
  { assert (0 <= b / BPB) by (apply Z.div_pos; [done|reflexivity]). lia. }
  rewrite (fx_view X), HV by done. done.
Qed.

Lemma fs_ok_step hs k k' V ls ic m :
  fx hs k k' V ls ic m -> fs_ok k ->
  (forall b, in_range (memdisk k) b -> block_ok (V b)) ->
  (forall b, 0 <= b < sb_size (k_sb k) -> used k' b = false -> used k b = false \/ file_block k b) -> fs_ok k'.
Proof.
  intros X [[L1 L2 L3 L4 L5] H2 H3] HB HU. destruct (fs_frame_fields _ _ (fx_frame X)) as (E1 & _ & E2 & _).
  pose proof (fx_log X) as S. split.
  - rewrite E1, E2. split; try done.
    + intros b Hb. now apply (data_block_step S), L3.
    + intros b Hb. now apply (data_block_step S), L4.
  - intros b. rewrite E1. intros Hb. rewrite (fx_view X) by apply Hb. auto.
  - intros b. rewrite E2. intros Hb Hu.
    assert (G : file_block k b) by (destruct (HU b Hb Hu) as [Hu'|]; [now apply H3|done]).
    unfold file_block in *. rewrite E1, E2. destruct G as (G1 & G2 & G3). split_and!; try done.
    now apply (data_block_step S).
Qed.

Lemma fs_ok_same hs k k' V ls ic m :
  fx hs k k' V ls ic m -> (forall b, 0 <= b -> V b = view k b) -> fs_ok k -> fs_ok k'.
Proof.
  intros X HV H. apply (fs_ok_step hs k k' V ls ic m X H).
  - intros b Hb. rewrite HV by apply Hb. now apply (fo_blocks _ H).
  - intros b Hb. rewrite (used_same _ _ _ _ _ _ _ _ X HV H) by lia. now left.
Qed.

Lemma alloc_unheld_same hs k k' V ls ic m :
  fx hs k k' V ls ic m -> (forall b, 0 <= b -> V b = view k b) -> fs_ok k -> alloc_unheld hs k -> alloc_unheld hs k'.
Proof.
  intros X HV H Hu b. destruct (fs_frame_fields _ _ (fx_frame X)) as (_ & _ & E & _). rewrite E. intros Hb.
  rewrite (used_same _ _ _ _ _ _ _ _ X HV H) by lia. destruct (Hu b Hb) as [H1 H2].
  split; [now apply (fx_unheld _ _ _ _ _ _ _ _ X)|]. intros Hf. now apply (fx_unheld _ _ _ _ _ _ _ _ X), H2.
Qed.

(** A block is read and released. *)
Lemma fs_peek k hs b :
  tx k hs -> in_range (memdisk k) b -> unheld hs k b -> tx_room k hs ->
  exists i k1 k', bread 1 b k = Ok i k1 /\ b_data (bcache k1 !!! i) = view k b /\ brelse i k1 = Ok tt k' /\
    tx k' hs /\ fx hs k k1 (view k) [] (icache k) (k_mem k) /\ fx hs k k' (view k) [] (icache k) (k_mem k).
Proof.
  intros Ht Hb Hu Hr.
  destruct (fs_bread k hs b Ht Hb Hu (or_introl Hr)) as (i & k1 & R1 & T1 & H1 & Hni & D & X1 & S1).
  destruct (fs_brelse k1 hs i b T1 Hni H1 S1) as (k2 & R2 & T2 & X2).
  exists i, k1, k2. split_and!; try done. exact (fx_then _ X1 X2 (fx_view X1)).
Qed.

(** The bitmap block for [b] has no free block from [b] on: the loop goes on. *)
Lemma balloc_skip fuel k hs b :
  tx k hs -> fs_ok k -> alloc_unheld hs k -> tx_room k hs ->
  0 <= b < sb_size (k_sb k) -> b mod BPB = 0 ->
  (forall x, b <= x < b + BPB -> x < sb_size (k_sb k) -> used k x = true) ->
  exists k', balloc_loop (S fuel) 1 b k = balloc_loop fuel 1 (b + BPB) k' /\ tx k' hs /\
    fx hs k k' (view k) [] (icache k) (k_mem k).
Proof.
  intros Ht Hfs Hu Hr Hb Hm Hall. cbn [balloc_loop]. mred. rewrite (proj2 (Z.ltb_lt _ _)) by lia.
  rewrite (BBLOCK_eq k hs Ht Hfs) by lia.
  destruct (fs_peek k hs (sb_bmapstart (k_sb k) + b / BPB) Ht) as (i & k1 & k2 & R1 & D1 & R2 & T2 & _ & X2);
    [apply (lay_bitmap _ _ _ (fo_layout _ Hfs) b); lia|exact (proj1 (Hu b Hb))|done|].
  mok R1. mok (fs_getdata k1 i). rewrite D1.
  pose proof (bfind_spec (view k (sb_bmapstart (k_sb k) + b / BPB)) b (sb_size (k_sb k)) (Z.to_nat BPB) 0) as Hf.
  destruct (bfind _ _ _ _ _) as [i0|].
  - exfalso. destruct Hf as (F1 & F2 & F3 & _); [lia|reflexivity|].
    specialize (Hall (b + i0)). unfold used in Hall.
    replace ((b + i0) / BPB) with (b / BPB) in Hall by (unfold BPB, BSIZE in *; Z.div_mod_to_equations; lia).
    replace ((b + i0) mod BPB) with i0 in Hall by (unfold BPB, BSIZE in *; Z.div_mod_to_equations; lia).
    rewrite Hall in F3; [done|lia|lia].
  - mok R2. exists k2. split_and!; done.
Qed.

(** The bitmap block for [b] has a free block: the first one is taken. *)
Lemma balloc_hit fuel k hs b :
  tx k hs -> fs_ok k -> alloc_unheld hs k -> cap k 2 -> (length hs <= 2)%nat ->
  0 <= b < sb_size (k_sb k) -> b mod BPB = 0 ->
  (exists x, b <= x < b + BPB /\ x < sb_size (k_sb k) /\ used k x = false) ->
  exists x k', balloc_loop (S fuel) 1 b k = Ok x k' /\ b <= x < b + BPB /\ x < sb_size (k_sb k) /\ used k x = false /\
    (forall y, b <= y < x -> used k y = true) /\ tx k' hs /\ x ∈ txn (k_log k') /\
    fx hs k k' (allocated k x) [sb_bmapstart (k_sb k) + x / BPB; x] (icache k) (k_mem k).
Proof.
  intros Ht Hfs Hu Hc Hh Hb Hm (x0 & Hx0 & Hxs & Hxf). cbn [balloc_loop]. mred. rewrite (proj2 (Z.ltb_lt _ _)) by lia.
  rewrite (BBLOCK_eq k hs Ht Hfs) by lia. set (bb := sb_bmapstart (k_sb k) + b / BPB).
  assert (Hdb : data_block (k_log k) (length (memdisk k)) bb) by (apply (lay_bitmap _ _ _ (fo_layout _ Hfs) b); lia).
  destruct (fs_bread k hs bb Ht (proj1 Hdb) (proj1 (Hu b Hb))) as (i & k1 & R1 & T1 & H1 & Hni & D1 & X1 & _);
    [left; now apply (cap_room k hs 2); [| |lia]|].
  mok R1. mok (fs_getdata k1 i). rewrite D1.
  assert (Hused : forall y, b <= y < b + BPB -> used k y = dbit (view k bb) (y - b)).
  { intros y Hy. unfold used, bb. replace (y / BPB) with (b / BPB) by (unfold BPB, BSIZE in *; Z.div_mod_to_equations; lia).
    f_equal. unfold BPB, BSIZE in *. Z.div_mod_to_equations. lia. }
  pose proof (bfind_spec (view k bb) b (sb_size (k_sb k)) (Z.to_nat BPB) 0) as Hf.
  destruct (bfind _ _ _ _ _) as [i0|].
  2:{ exfalso. rewrite Hused in Hxf by done. rewrite Hf in Hxf; [done|lia|reflexivity|lia|lia]. }
  destruct Hf as (F1 & F2 & F3 & F4); [lia|reflexivity|]. set (x := b + i0) in *.
  assert (Ex1 : x / BPB = b / BPB) by (unfold x, BPB, BSIZE in *; Z.div_mod_to_equations; lia).
  assert (Ex2 : x mod BPB = i0) by (unfold x, BPB, BSIZE in *; Z.div_mod_to_equations; lia).
  assert (Hxu : used k x = false) by (rewrite Hused by (unfold x; lia); unfold x; now rewrite Z.add_simpl_l).
  destruct (fs_frame_fields _ _ (fx_frame X1)) as (E1 & _ & E2 & _).
  destruct (fs_finish k1 hs i bb (setbit i0) T1 Hni H1) as (k2 & k3 & k4 & R2 & R3 & R4 & T4 & B4 & X4).
  { rewrite E1. now apply (data_block_step (fx_log X1)). }
  { apply (cap_log k1 (i :: hs) 2 T1). now apply (cap_step k k1 (i :: hs) [] 2 T1 (fx_log X1)). }
  mok R2. mok R3. mok R4.
  pose proof (fx_then (upd (view k) bb (setbit i0 (view k bb))) X1 X4) as X14. cbn [app] in X14.
  assert (X : fx hs k k4 (upd (view k) bb (setbit i0 (view k bb))) [bb] (icache k) (k_mem k)).
  { apply X14. intros b' Hb'. unfold upd. rewrite !(fx_view X1) by (done || apply Hdb). done. }
  clear X14. destruct (fo_free _ Hfs x) as (Gx1 & Gx2 & Gx3); [unfold x in *; lia|done|].
  destruct (fs_frame_fields _ _ (fx_frame X)) as (E41 & _ & _).
  pose proof (cap_step k k4 hs [bb] 1 T4 (fx_log X) Hc) as Hc4.
  destruct (bzero_run k4 hs x T4) as (k5 & R5 & T5 & B5 & X5).
  { rewrite E41. now apply (data_block_step (fx_log X)). }
  { apply (fx_unheld _ _ _ _ _ _ _ _ X). apply (Hu x); [unfold x in *; lia|done]. }
  { apply (cap_room k4 hs 1); [done|done|lia]. }
  { now apply (cap_log k4 hs 1). }
  mok R5. exists x, k5. split_and!; try done; try (unfold x in *; lia).
  - intros y Hy. rewrite Hused by (unfold x in *; lia). apply F4. unfold x in *. lia.
  - pose proof (fx_then (allocated k x) X X5) as Z5. cbn [app] in Z5. rewrite Ex1. apply Z5.
    intros b' Hb'. unfold allocated. rewrite Ex1, Ex2. fold bb. unfold upd at 1. unfold upd at 1.
    case_decide; [done|]. now apply (fx_view X).
Qed.

Lemma balloc_loop_run fuel : forall k hs b,
  tx k hs -> fs_ok k -> alloc_unheld hs k -> cap k 2 -> (length hs <= 2)%nat ->
  0 <= b -> b mod BPB = 0 -> sb_size (k_sb k) <= b + Z.of_nat fuel * BPB ->
  (exists x, b <= x < sb_size (k_sb k) /\ used k x = false) ->
  exists x k', balloc_loop fuel 1 b k = Ok x k' /\ b <= x < sb_size (k_sb k) /\ used k x = false /\
    (forall y, b <= y < x -> used k y = true) /\ tx k' hs /\ x ∈ txn (k_log k') /\
    fx hs k k' (allocated k x) [sb_bmapstart (k_sb k) + x / BPB; x] (icache k) (k_mem k).
Proof.
  induction fuel as [|fuel IH]; intros k hs b Ht Hfs Hu Hc Hh Hb Hm Hsz (x0 & Hx0 & Hxf); [lia|].
  destruct (decide (Exists (fun x => x < sb_size (k_sb k) /\ used k x = false) (seqZ b BPB))) as [Hhit|Hmiss];
    rewrite Exists_exists in *.
  - destruct (balloc_hit fuel k hs b Ht Hfs Hu Hc Hh) as (x & k' & R & H1 & H2 & H3 & H4 & H5 & H6 & H7); [lia|done| |].
    { destruct Hhit as (x & Hx & Hy). exists x. apply elem_of_seqZ in Hx. done. }
    exists x, k'. split_and!; try done; lia.
  - assert (Hall : forall x, b <= x < b + BPB -> x < sb_size (k_sb k) -> used k x = true).
    { intros x Hx Hxs. apply not_false_iff_true. intros Hfx. apply Hmiss. exists x. rewrite elem_of_seqZ. done. }
    destruct (balloc_skip fuel k hs b Ht Hfs Hu) as (k1 & R1 & T1 & X1); [|lia|done|done|].
    { now apply (cap_room k hs 2); [| |lia]. }
    destruct (fs_frame_fields _ _ (fx_frame X1)) as (_ & _ & E2 & _).
    assert (Hus : forall y, 0 <= y -> used k1 y = used k y) by (intros y Hy; now apply (used_same _ _ _ _ _ _ _ _ X1)).
    destruct (IH k1 hs (b + BPB)) as (x & k2 & R2 & H1 & H2 & H3 & T2 & B2 & X2).
    + done.
    + now apply (fs_ok_same _ _ _ _ _ _ _ X1).
    + now apply (alloc_unheld_same _ _ _ _ _ _ _ X1).
    + now apply (cap_step k k1 hs [] 2 T1 (fx_log X1)).
    + done.
    + unfold BPB, BSIZE. lia.
    + unfold BPB, BSIZE in *. Z.div_mod_to_equations. lia.
    + rewrite E2. unfold BPB, BSIZE in *. lia.
    + exists x0. rewrite E2, Hus by lia. destruct (decide (x0 < b + BPB)); [|split; [lia|done]].
      rewrite Hall in Hxf by lia. done.
    + rewrite E2 in *. assert (0 <= b + BPB) by (unfold BPB, BSIZE; lia). rewrite Hus in H2 by lia.
      exists x, k2. split_and!; [now rewrite R1| | |done| |done|done|].
      * unfold BPB, BSIZE in *. lia.
      * lia.
      * intros y Hy. destruct (decide (y < b + BPB)); [apply Hall; lia|]. rewrite <- Hus by lia. apply H3. lia.
      * apply (fx_then _ X1 X2). intros b' Hb'. unfold allocated, upd. rewrite E2.
        assert (0 <= sb_bmapstart (k_sb k) + x / BPB).
        { pose proof (lay_start _ _ _ (fo_layout _ Hfs)). assert (0 <= x / BPB) by (apply Z.div_pos; [lia|reflexivity]). lia. }
        rewrite !(fx_view X1) by done. done.
Qed.

(** ** What allocation and freeing mean *)

Lemma bmap_pos k b : fs_ok k -> 0 <= b -> 0 <= sb_bmapstart (k_sb k) + b / BPB.
Proof.
  intros H Hb. pose proof (lay_start _ _ _ (fo_layout _ H)). assert (0 <= b / BPB) by (apply Z.div_pos; [done|reflexivity]).
  lia.
Qed.

(** The bit of [y] when the bitmap block of [x] has been changed by [f]. *)
Lemma used_change k k' x y f :
  fs_ok k -> k_sb k' = k_sb k -> 0 <= x < sb_size (k_sb k) -> 0 <= y < sb_size (k_sb k) ->
  (forall b, meta (k_sb k) b -> view k' b =
    upd (view k) (sb_bmapstart (k_sb k) + x / BPB) (f (view k (sb_bmapstart (k_sb k) + x / BPB))) b) ->
  used k' y =
    if decide (y / BPB = x / BPB) then dbit (f (view k (sb_bmapstart (k_sb k) + x / BPB))) (y mod BPB) else used k y.
Proof.
  intros H E Hx Hy HV. unfold used. rewrite E, HV by (left; now exists y). unfold upd.
  destruct (decide (y / BPB = x / BPB)) as [Ey|Ey]; [|rewrite decide_False by lia; done].
  rewrite Ey, decide_True by done. done.
Qed.

Lemma mod_BPB x : 0 <= x mod BPB < BPB.
Proof. apply Z.mod_pos_bound. reflexivity. Qed.

Lemma same_bit x y : y / BPB = x / BPB -> (y mod BPB =? x mod BPB) = (y =? x).
Proof.
  intros H. destruct (Z.eqb_spec (y mod BPB) (x mod BPB)), (Z.eqb_spec y x); try done; exfalso; [|congruence].
  unfold BPB, BSIZE in *. Z.div_mod_to_equations. lia.
Qed.

Lemma bitmap_block_length k x :
  fs_ok k -> 0 <= x < sb_size (k_sb k) -> block_ok (view k (sb_bmapstart (k_sb k) + x / BPB)).
Proof. intros H Hx. apply (fo_blocks _ H), (lay_bitmap _ _ _ (fo_layout _ H) x Hx). Qed.

Lemma allocated_ok hs k k' x ls :
  fs_ok k -> 0 <= x < sb_size (k_sb k) -> used k x = false ->
  fx hs k k' (allocated k x) ls (icache k) (k_mem k) ->
  fs_ok k' /\ (forall y, 0 <= y < sb_size (k_sb k) -> used k' y = (y =? x) || used k y) /\
  view k' x = replicate (Z.to_nat BSIZE) 0 /\
  (forall b, 0 <= b -> b <> x -> ~ meta (k_sb k) b -> view k' b = view k b).
Proof.
  intros H Hx Hu X. destruct (fo_free _ H x Hx Hu) as (_ & Hm & _).
  destruct (fs_frame_fields _ _ (fx_frame X)) as (E1 & _ & E2 & _). set (bb := sb_bmapstart (k_sb k) + x / BPB).
  assert (Hbb : meta (k_sb k) bb) by (left; now exists x).
  assert (Hxb : x <> bb) by congruence. pose proof (bitmap_block_length k x H Hx) as Hok.
  assert (HU : forall y, 0 <= y < sb_size (k_sb k) -> used k' y = (y =? x) || used k y).
  { intros y Hy. rewrite (used_change k k' x y (setbit (x mod BPB))); try done.
    - destruct (decide (y / BPB = x / BPB)) as [Ey|Ey].
      + rewrite dbit_setbit, same_bit by (done || apply mod_BPB || apply Hok). unfold used. now rewrite Ey.
      + destruct (Z.eqb_spec y x) as [->|]; [done|]. done.
    - intros b Hb. assert (b <> x) by congruence. rewrite (fx_view X).
      + unfold allocated. fold bb. unfold upd at 1. now rewrite decide_False.
      + destruct Hb as [(b' & Hb' & ->)|(i & Hi & ->)]; [now apply bmap_pos|].
        pose proof (lay_start _ _ _ (fo_layout _ H)). assert (0 <= i / IPB) by (apply Z.div_pos; [lia|reflexivity]). lia. }
  split_and!; [|done| |].
  - apply (fs_ok_step _ _ _ _ _ _ _ X H).
    + intros b Hb. unfold allocated. fold bb. unfold upd. case_decide.
      { split; [now rewrite length_replicate|]. apply Forall_replicate. lia. }
      case_decide; [now apply block_ok_st8|now apply (fo_blocks _ H)].
    + intros b Hb Hf. left. rewrite HU in Hf by done. now apply orb_false_iff in Hf as [_ Hf].
  - rewrite (fx_view X) by lia. unfold allocated. unfold upd at 1. now rewrite decide_True.
  - intros b Hb Hbx Hbm. rewrite (fx_view X) by done. unfold allocated. fold bb. unfold upd.
    rewrite decide_False by done. rewrite decide_False; [done|]. intros ->. done.
Qed.

Lemma balloc_run k hs :
  tx k hs -> fs_ok k -> alloc_unheld hs k -> cap k 2 -> (length hs <= 2)%nat ->
  (exists x, 0 <= x < sb_size (k_sb k) /\ used k x = false) ->
  exists x k', balloc 1 k = Ok x k' /\ 0 <= x < sb_size (k_sb k) /\ used k x = false /\
    (forall y, 0 <= y < x -> used k y = true) /\ tx k' hs /\ x ∈ txn (k_log k') /\
    fx hs k k' (allocated k x) [sb_bmapstart (k_sb k) + x / BPB; x] (icache k) (k_mem k).
Proof.
  intros Ht Hfs Hu Hc Hh Hx. unfold balloc. mred. apply balloc_loop_run; try done.
  destruct Hx as (x & Hx & _). unfold BPB, BSIZE. Z.div_mod_to_equations. lia.
Qed.

Lemma balloc_none fuel : forall k hs b,
  tx k hs -> fs_ok k -> alloc_unheld hs k -> tx_room k hs -> 0 <= b -> b mod BPB = 0 ->
  sb_size (k_sb k) <= b + Z.of_nat fuel * BPB -> (forall x, b <= x < sb_size (k_sb k) -> used k x = true) ->
  balloc_loop fuel 1 b k = Panic "balloc: out of blocks".
Proof.
  induction fuel as [|fuel IH]; intros k hs b Ht Hfs Hu Hr Hb Hm Hsz Hall.
  { cbn [balloc_loop]. mred. rewrite (proj2 (Z.ltb_ge _ _)) by lia. done. }
  destruct (decide (b < sb_size (k_sb k))) as [Hlt|Hge].
  2:{ cbn [balloc_loop]. mred. rewrite (proj2 (Z.ltb_ge _ _)) by lia. done. }
  destruct (balloc_skip fuel k hs b Ht Hfs Hu Hr) as (k1 & -> & T1 & X1); [lia|done| |].
  { intros x Hx Hxs. apply Hall. lia. }
  destruct (fs_frame_fields _ _ (fx_frame X1)) as (_ & _ & E2 & _).
  apply (IH k1 hs).
  - done.
  - now apply (fs_ok_same _ _ _ _ _ _ _ X1).
  - now apply (alloc_unheld_same _ _ _ _ _ _ _ X1).
  - unfold tx_room in *. assert (L : (length (txn (k_log k1)) <= length (txn (k_log k)))%nat); [|lia].
    apply submseteq_length, NoDup_submseteq; [apply (li_nodup _ _ (tx_log _ _ T1))|].
    intros b' Hb'. apply (ls_new _ _ _ (fx_log X1)) in Hb' as [|Hn]; [done|now apply elem_of_nil in Hn].
  - unfold BPB, BSIZE. lia.
  - unfold BPB, BSIZE in *. Z.div_mod_to_equations. lia.
  - rewrite E2. unfold BPB, BSIZE in *. lia.
  - intros x. rewrite E2. intros Hx. rewrite (used_same _ _ _ _ _ _ _ _ X1) by (done || unfold BPB, BSIZE in *; lia).
    apply Hall. unfold BPB, BSIZE in *. lia.
Qed.

(** ** bfree *)

(** The superblock in memory is the one on disk. *)
Definition sb_loaded (k : kernel) : Prop := decode_sb (view k 1) = k_sb k.

Lemma load_sb_run k hs :
  tx k hs -> sb_loaded k -> unheld hs k 1 -> tx_room k hs ->
  exists k', load_sb 1 k = Ok tt k' /\ tx k' hs /\ fx hs k k' (view k) [] (icache k) (k_mem k).
Proof.
  intros Ht Hsb Hu Hr.
  assert (H1 : in_range (memdisk k) 1).
  { pose proof (lg_fits _ _ (li_ok _ _ (tx_log _ _ Ht))). pose proof (lg_n _ _ (li_ok _ _ (tx_log _ _ Ht))).
    unfold in_range. lia. }
  destruct (fs_peek k hs 1 Ht H1 Hu Hr) as (i & k1 & k2 & R1 & D1 & R2 & T2 & X1 & X2).
  exists k2. split_and!; [|done|done]. unfold load_sb.
  assert (R : readsb 1 k = Ok (k_sb k) k2).
  { unfold readsb. rewrite (u32_small 1) by lia. mok R1. unfold getbuf. mred. rewrite D1, Hsb. now mok R2. }
  mok R. unfold modify. f_equal.
  destruct (fs_frame_fields _ _ (fx_frame X2)) as (_ & _ & E & _). rewrite <- E. now destruct k2.
Qed.

Lemma bfree_run k hs x :
  tx k hs -> fs_ok k -> sb_loaded k -> unheld hs k 1 -> unheld hs k (sb_bmapstart (k_sb k) + x / BPB) ->
  cap k 1 -> (length hs <= 2)%nat -> 0 <= x < sb_size (k_sb k) ->
  (used k x = true ->
   exists k', bfree 1 x k = Ok tt k' /\ tx k' hs /\
    fx hs k k' (upd (view k) (sb_bmapstart (k_sb k) + x / BPB)
      (clrbit (x mod BPB) (view k (sb_bmapstart (k_sb k) + x / BPB)))) [sb_bmapstart (k_sb k) + x / BPB]
      (icache k) (k_mem k)) /\
  (used k x = false -> bfree 1 x k = Panic "freeing free block").
Proof.
  intros Ht Hfs Hsb Hu1 Hub Hc Hh Hx. set (bb := sb_bmapstart (k_sb k) + x / BPB) in *.
  assert (Hdb : data_block (k_log k) (length (memdisk k)) bb) by (apply (lay_bitmap _ _ _ (fo_layout _ Hfs) x); lia).
  destruct (load_sb_run k hs Ht Hsb Hu1) as (k1 & R1 & T1 & X1); [apply (cap_room k hs 1); [done|done|lia]|].
  destruct (fs_frame_fields _ _ (fx_frame X1)) as (E1 & _ & E2 & _).
  pose proof (cap_step k k1 hs [] 1 T1 (fx_log X1) Hc) as Hc1.
  destruct (fs_bread k1 hs bb T1) as (i & k2 & R2 & T2 & H2 & Hni & D2 & X2 & _).
  { rewrite E1. apply Hdb. } { now apply (fx_unheld _ _ _ _ _ _ _ _ X1). }
  { left. apply (cap_room k1 hs 1); [done|done|lia]. }
  assert (Eb : bfree 1 x k = (d <- getdata i ;; if Z.land (ld8 d (x mod BPB / 8)) (bitmask (x mod BPB)) =? 0
    then panic "freeing free block" else upddata i (clrbit (x mod BPB)) ;; log_write i ;; brelse i) k2).
  { unfold bfree. mok R1. mred. rewrite (u32_small 1) by lia. rewrite E2, (BBLOCK_eq k hs Ht Hfs) by lia. fold bb.
    mok R2. reflexivity. }
  rewrite Eb. mok (fs_getdata k2 i). rewrite D2, (fx_view X1), bit_test by apply Hdb.
  change (dbit (view k bb) (x mod BPB)) with (used k x). split; intros Hus; rewrite Hus; cbn [negb]; [|done].
  destruct (fs_frame_fields _ _ (fx_frame X2)) as (E3 & _ & _).
  pose proof (fx_then (view k) X1 X2 (fx_view X1)) as X12. cbn [app] in X12.
  destruct (fs_finish k2 hs i bb (clrbit (x mod BPB)) T2 Hni H2) as (k3 & k4 & k5 & R3 & R4 & R5 & T5 & _ & X5).
  { rewrite E3, E1. now apply (data_block_step (fx_log X12)). }
  { apply (cap_log k2 (i :: hs) 1 T2). now apply (cap_step k k2 (i :: hs) [] 1 T2 (fx_log X12)). }
  exists k5. split_and!; [mok R3; mok R4; exact R5|done|].
  apply (fx_then _ X12 X5). intros b' Hb'. unfold upd. rewrite !(fx_view X12) by (done || apply Hdb). done.
Qed.

Lemma freed_ok hs k k' x ls :
  fs_ok k -> 0 <= x < sb_size (k_sb k) -> file_block k x ->
  fx hs k k' (upd (view k) (sb_bmapstart (k_sb k) + x / BPB)
    (clrbit (x mod BPB) (view k (sb_bmapstart (k_sb k) + x / BPB)))) ls (icache k) (k_mem k) ->
  fs_ok k' /\ (forall y, 0 <= y < sb_size (k_sb k) -> used k' y = negb (y =? x) && used k y) /\
  (forall b, 0 <= b -> ~ meta (k_sb k) b -> view k' b = view k b).
Proof.
  intros H Hx Hfb X. destruct (fs_frame_fields _ _ (fx_frame X)) as (E1 & _ & E2 & _).
  pose proof (bitmap_block_length k x H Hx) as Hok.
  assert (HU : forall y, 0 <= y < sb_size (k_sb k) -> used k' y = negb (y =? x) && used k y).
  { intros y Hy. rewrite (used_change k k' x y (clrbit (x mod BPB))); try done.
    - destruct (decide (y / BPB = x / BPB)) as [Ey|Ey].
      + rewrite dbit_clrbit, same_bit by (done || apply mod_BPB || apply Hok). unfold used. now rewrite Ey.
      + destruct (Z.eqb_spec y x) as [->|]; [done|]. done.
    - intros b Hb. rewrite (fx_view X); [done|].
      destruct Hb as [(b' & Hb' & ->)|(i & Hi & ->)]; [now apply bmap_pos|].
      pose proof (lay_start _ _ _ (fo_layout _ H)). assert (0 <= i / IPB) by (apply Z.div_pos; [lia|reflexivity]). lia. }
  split_and!; [|done|].
  - apply (fs_ok_step _ _ _ _ _ _ _ X H).
    + intros b Hb. unfold upd. case_decide; [now apply block_ok_st8|now apply (fo_blocks _ H)].
    + intros b Hb Hf. rewrite HU in Hf by done. destruct (Z.eqb_spec b x) as [->|]; [now right|now left].
  - intros b Hb Hbm. rewrite (fx_view X) by done. unfold upd. rewrite decide_False; [done|].
    intros ->. apply Hbm. left. now exists x.
Qed.
