(* ===== verification/FsExample.v ===== *)
(** * A small file system

    A concrete disk with its log, inodes and bitmap, and the kernel in the middle of a
    file system call on it.  The witnesses of the file system theorems use it. *)

From S2P Require Import Prelude State Spinlock Sched Bio Bytes Log LogCrash LogOps Inode FsTx Alloc.

(** 64 blocks: a log of 20 blocks at 2, eight inodes in block 22, the bitmap in block
    23, and blocks 24 to 63 for files, the first of them in use. *)
Definition ex_sb : superblock := mkSuperblock 64 40 8 20 2 22 23.

Definition ex_sb_block : list Z :=
  mjoin (le32 <$> [64; 40; 8; 20; 2; 22; 23]) ++ replicate 484 0.

(** Inode 1 is a file of three bytes in block 24. *)
Definition ex_inode : inode := mkInode 1 1 1 3 2 0 0 1 3 (24 :: replicate 12 0).

Definition ex_bitmap : list Z := [255; 255; 255; 1] ++ replicate 508 0.

Definition ex_img : list (list Z) :=
  <[24%nat := [104; 105; 33] ++ replicate 509 0]> (<[23%nat := ex_bitmap]>
    (<[22%nat := store_dinode ex_inode 64 (replicate 512 0)]>
       (<[1%nat := ex_sb_block]> (replicate 64 (replicate 512 0))))).

Definition ex_lg : log_t := mkLog 2 20 1 0 1 0 (replicate 30 0).

(** The inode cache has inode 1, locked and valid. *)
Definition ex_start : kernel :=
  set_k_log ex_lg (set_k_sb ex_sb (set_icache (<[0%nat := ex_inode]> (icache kernel0))
    (set_memdisk ex_img kernel0))).

Definition byte_ok (b : Z) : bool := (0 <=? b) && (b <? 256).

Lemma ex_blocks : Forall block_ok ex_img.
Proof.
  assert (H : forallb (fun d => (length d =? 512)%nat && forallb byte_ok d) ex_img = true) by (vm_compute; reflexivity).
  apply Forall_forall. intros d Hd. rewrite forallb_forall in H.
  specialize (H d (proj1 (list_elem_of_In _ _) Hd)). apply andb_true_iff in H as [H1 H2].
  split; [now apply Nat.eqb_eq in H1|]. apply Forall_forall. intros b Hb. rewrite forallb_forall in H2.
  specialize (H2 b (proj1 (list_elem_of_In _ _) Hb)). unfold byte_ok in H2. lia.
Qed.

Lemma ex_disk : disk_ok ex_lg ex_img /\ hd_n (dsk ex_img 2) = 0 /\ geometry ex_lg (length ex_img).
Proof.
  split_and!.
  - split; [split; vm_compute; reflexivity|vm_compute; reflexivity|vm_compute; split; [discriminate|reflexivity]|].
    assert (E : hd_txn (dsk ex_img (lg_start ex_lg)) = []) by (vm_compute; reflexivity). rewrite E. constructor.
  - vm_compute. reflexivity.
  - unfold geometry. change (length ex_img) with 64%nat. cbn. unfold LOGSIZE, MAXOPBLOCKS. lia.
Qed.

(** The kernel of the examples. *)
Lemma ex_kernel :
  exists k, tx k [] /\ fs_ok k /\ sb_loaded k /\ icache k = icache ex_start /\ k_sb k = ex_sb /\ memdisk k = ex_img /\
    txn (k_log k) = [] /\ lg_size (k_log k) = 20 /\ (forall b, view k b = dsk ex_img b) /\
    k_log k = ex_lg /\ k_locks k = <[Lbcache := unlocked "bcache"]> (k_locks kernel0) /\ k_cpu k = k_cpu kernel0.
Proof.
  destruct (binit_blocks ex_start) as (k & _ & Hbl & E & Hd & Hv).
  { reflexivity. } { split_and!; [cbn; lia|reflexivity|cbn; lia]. } { exists "ptable"%string. reflexivity. }
  destruct ex_disk as (D1 & D2 & D3).
  assert (Em : memdisk k = ex_img) by (rewrite E; reflexivity). assert (El : k_log k = ex_lg) by (rewrite E; reflexivity).
  assert (Es : k_sb k = ex_sb) by (rewrite E; reflexivity). assert (Ei : icache k = icache ex_start) by (rewrite E; generalize ex_start; intros []; reflexivity).
  assert (Hv' : forall b, view k b = dsk ex_img b) by (intros b; rewrite Hv; reflexivity).
  assert (Ek : k_locks k = <[Lbcache := unlocked "bcache"]> (k_locks kernel0)) by (rewrite E; reflexivity).
  assert (Ec : k_cpu k = k_cpu kernel0) by (rewrite E; reflexivity). clear E Hv.
  exists k. split_and!; try done; try (now rewrite El).
  - split; [|exists "log"%string; rewrite Ek; reflexivity].
    apply (log_inv_intro k ex_lg); rewrite ?Em, ?El; try done.
  - split; rewrite ?Es, ?Em, ?El.
    + split; cbn [sb_size sb_bmapstart sb_inodestart sb_ninodes ex_sb].
      * reflexivity.
      * lia.
      * intros b Hb. unfold data_block. cbn. change (length ex_img) with 64%nat. unfold BPB, BSIZE.
        rewrite Z.div_small by lia. lia.
      * intros b Hb. unfold data_block. cbn. change (length ex_img) with 64%nat. unfold IPB, BSIZE, DINODE.
        rewrite Z.div_small by (Z.div_mod_to_equations; lia). lia.
      * intros b i Hb Hi. unfold BPB, IPB, BSIZE, DINODE. rewrite !Z.div_small by (Z.div_mod_to_equations; lia). lia.
    + intros b Hb. rewrite Hv'. apply (Forall_lookup_total_1 _ _ (Z.to_nat b) ex_blocks).
      unfold in_range in Hb. lia.
    + intros b Hb Hu. cbn [sb_size ex_sb] in Hb. unfold used in Hu. rewrite Hv', Es in Hu. cbn [sb_bmapstart ex_sb] in Hu.
      assert (Hs : Forall (fun b => dbit (dsk ex_img (23 + b / BPB)) (b mod BPB) = (b <? 25)) (seqZ 0 64)).
      { apply Forall_forall. intros x Hx. rewrite elem_of_seqZ in Hx.
        assert (Hall : forallb (fun b => Bool.eqb (dbit (dsk ex_img (23 + b / BPB)) (b mod BPB)) (b <? 25)) (seqZ 0 64) = true)
          by (vm_compute; reflexivity).
        rewrite forallb_forall in Hall. apply eqb_prop, Hall, list_elem_of_In. now apply elem_of_seqZ. }
      rewrite Forall_forall in Hs. rewrite Hs in Hu by (apply elem_of_seqZ; lia).
      split_and!; [|rewrite Es|lia].
      * rewrite El, Em. unfold data_block. cbn. change (length ex_img) with 64%nat. lia.
      * intros [(b' & Hb' & ->)|(i & Hi & ->)]; cbn [sb_size sb_bmapstart sb_inodestart sb_ninodes ex_sb] in *;
          unfold BPB, IPB, BSIZE, DINODE in *; [rewrite Z.div_small in Hu by lia|rewrite Z.div_small in Hu by (Z.div_mod_to_equations; lia)];
          lia.
  - unfold sb_loaded. rewrite Hv', Es. vm_compute. reflexivity.
Qed.
