(* ===== verification/AllocSpec.v ===== *)
(** * Theorems on the block allocator (fs.c) *)

From S2P Require Import Prelude State Spinlock Sched Bio Bytes Log LogCrash LogOps Inode FsTx Alloc FsExample.

(** C36.  Allocating and freeing blocks inside a transaction.  [balloc] returns the first block
    whose bit is clear, marks exactly that block as used, fills it with zeros, and changes no other
    block that is not metadata; the file system stays well formed and nothing is written to disk.
    With no block free it panics.  [bfree] of that block afterwards clears exactly its bit again,
    and [bfree] of a block that is free panics. *)
Theorem balloc_bfree_correct k hs :
  tx k hs -> fs_ok k -> alloc_unheld hs k -> cap k 3 -> (length hs <= 2)%nat -> sb_loaded k -> unheld hs k 1 ->
  ((exists x, 0 <= x < sb_size (k_sb k) /\ used k x = false) ->
   exists x k1, balloc 1 k = Ok x k1 /\ tx k1 hs /\ fs_ok k1 /\ 0 <= x < sb_size (k_sb k) /\ file_block k x /\
     used k x = false /\ (forall y, 0 <= y < x -> used k y = true) /\
     (forall y, 0 <= y < sb_size (k_sb k) -> used k1 y = (y =? x) || used k y) /\
     view k1 x = replicate (Z.to_nat BSIZE) 0 /\
     (forall b, 0 <= b -> b <> x -> ~ meta (k_sb k) b -> view k1 b = view k b) /\
     memdisk k1 = memdisk k /\ icache k1 = icache k /\ k_mem k1 = k_mem k /\
     (exists k2, bfree 1 x k1 = Ok tt k2 /\ tx k2 hs /\ fs_ok k2 /\
       (forall y, 0 <= y < sb_size (k_sb k) -> used k2 y = used k y))) /\
  ((forall x, 0 <= x < sb_size (k_sb k) -> used k x = true) -> balloc 1 k = Panic "balloc: out of blocks") /\
  (forall x, 0 <= x < sb_size (k_sb k) -> used k x = false -> bfree 1 x k = Panic "freeing free block").
Proof.
  intros Ht Hfs Hu Hc Hh Hsb H1. split_and!.
  - intros Hx. assert (Hc2 : cap k 2) by (unfold cap in *; lia).
    destruct (balloc_run k hs Ht Hfs Hu Hc2 Hh Hx) as (x & k1 & R & Hxr & Hxf & Hy & T1 & _ & X1).
    destruct (allocated_ok hs k k1 x _ Hfs Hxr Hxf X1) as (F1 & U1 & Z1 & O1).
    destruct (fs_frame_fields _ _ (fx_frame X1)) as (D1 & _ & S1 & _).
    pose proof (fo_free _ Hfs x Hxr Hxf) as Hfb. pose proof Hfb as (Hdb & Hnm & _).
    exists x, k1. split_and!; try done; try lia; [apply (fx_icache X1)|apply (fx_mem X1)|].
    pose proof (cap_step k k1 hs _ 1 T1 (fx_log X1) Hc) as Hc1.
    destruct (bfree_run k1 hs x T1 F1) as [Hfree _]; rewrite ?S1; try done.
    + assert (E : view k1 1 = view k 1); [|unfold sb_loaded in *; now rewrite E, S1].
      apply O1; [lia|intros <-; destruct Hdb as (_ & _ & Hn); done|].
      intros [(b & Hb & E)|(i & Hi & E)]; [destruct (lay_bitmap _ _ _ (fo_layout _ Hfs) b Hb) as (_ & _ & Hn)
        |destruct (lay_inode _ _ _ (fo_layout _ Hfs) i Hi) as (_ & _ & Hn)]; congruence.
    + now apply (fx_unheld _ _ _ _ _ _ _ _ X1).
    + apply (fx_unheld _ _ _ _ _ _ _ _ X1), (Hu x Hxr).
    + destruct Hfree as (k2 & R2 & T2 & X2). { rewrite U1, Z.eqb_refl by done. done. }
      assert (Hfb1 : file_block k1 x).
      { unfold file_block in *. rewrite D1, S1. destruct Hfb as (G1 & G2 & G3). split_and!; try done.
        now apply (data_block_step (fx_log X1)). }
      rewrite <- S1 in Hxr. destruct (freed_ok hs k1 k2 x _ F1 Hxr Hfb1 X2) as (F2 & U2 & _). rewrite S1 in U2.
      exists k2. split_and!; try done. intros y Hyr. rewrite U2, U1 by done.
      destruct (Z.eqb_spec y x) as [->|]; [now rewrite Hxf|done].
  - intros Hall. unfold balloc. mred. apply (balloc_none _ k hs); try done.
    + apply (cap_room k hs 3); [done|done|lia].
    + pose proof (lay_size _ _ _ (fo_layout _ Hfs)). unfold BPB, BSIZE. Z.div_mod_to_equations. lia.
  - intros x Hx Hxf. assert (Hc1 : cap k 1) by (unfold cap in *; lia).
    now apply (bfree_run k hs x Ht Hfs Hsb H1 (proj1 (Hu x Hx)) Hc1 Hh Hx).
Qed.

Lemma balloc_bfree_correct_witness :
  exists k k1, tx k [] /\ balloc 1 k = Ok 25 k1 /\ view k1 25 = replicate 512 0.
Proof.
  destruct ex_kernel as (k & Ht & Hfs & Hsb & _ & Es & _ & Etx & Esz & Hv & El & _).
  destruct (balloc_bfree_correct k []) as [H _]; try done.
  - intros b Hb. split; [|intros _]; intros i Hi; now apply elem_of_nil in Hi.
  - unfold cap. rewrite Etx, Esz, El. cbn. lia.
  - cbn. lia.
  - intros i Hi. now apply elem_of_nil in Hi.
  - assert (Hu : forall y, used k y = dbit (dsk ex_img (23 + y / BPB)) (y mod BPB)).
    { intros y. unfold used. now rewrite Es, Hv. }
    destruct H as (x & k1 & R & _ & _ & Hxr & _ & Hxf & Hy & _ & Z1 & _).
    { exists 25. rewrite Es, Hu. split; [cbn; lia|vm_compute; reflexivity]. }
    assert (Hs : forallb (fun y => dbit (dsk ex_img (23 + y / BPB)) (y mod BPB)) (seqZ 0 25) = true) by (vm_compute; reflexivity).
    assert (H25 : dbit (dsk ex_img (23 + 25 / BPB)) (25 mod BPB) = false) by (vm_compute; reflexivity).
    rewrite forallb_forall in Hs. rewrite Hu in Hxf. destruct (Z.lt_trichotomy x 25) as [Hl|[->|Hg]].
    + rewrite Hs in Hxf; [done|]. apply list_elem_of_In, elem_of_seqZ. lia.
    + now exists k, k1.
    + specialize (Hy 25). rewrite Hu, H25 in Hy. discriminate Hy; lia.
Defined.
