(* ===== verification/FileData.v ===== *)
(** * The contents of a file (fs.c)

    The blocks of a file and [bmap], inside a transaction. *)

From S2P Require Import Prelude State Spinlock Sched Bio Bytes Log LogCrash LogOps Inode FsTx Alloc.

(** ** The blocks of a file *)

Definition ind (nd : inode) : Z := i_addrs nd !!! Z.to_nat NDIRECT.

(** The address of block [n] of the file; 0 when there is none. *)
Definition baddr (k : kernel) (nd : inode) (n : Z) : Z :=
  if n <? NDIRECT then i_addrs nd !!! Z.to_nat n
  else if ind nd =? 0 then 0 else ld32 (view k (ind nd)) (4 * (n - NDIRECT)).

(** Byte [o] of the file. *)
Definition fbyte (k : kernel) (nd : inode) (o : Z) : Z :=
  ld8 (view k (baddr k nd (o / BSIZE))) (o mod BSIZE).

(** A block in use by a file. *)
Definition taken (k : kernel) (a : Z) : Prop := 0 <= a < sb_size (k_sb k) /\ file_block k a /\ used k a = true.

Record file_ok (k : kernel) (nd : inode) : Prop := {
  fl_dev : i_dev nd = 1;
  fl_inum : 0 <= i_inum nd < sb_ninodes (k_sb k);
  fl_addrs : length (i_addrs nd) = 13%nat;
  fl_size : 0 <= i_size nd <= MAXFILE * BSIZE;
  fl_taken : forall n, 0 <= n < MAXFILE -> baddr k nd n <> 0 -> taken k (baddr k nd n);
  fl_ind : ind nd <> 0 -> taken k (ind nd);
  fl_inj : forall n m, 0 <= n < MAXFILE -> 0 <= m < MAXFILE -> n <> m -> baddr k nd n <> 0 ->
    baddr k nd n <> baddr k nd m;
  fl_apart : forall n, 0 <= n < MAXFILE -> baddr k nd n <> 0 -> baddr k nd n <> ind nd;
  fl_mapped : forall n, 0 <= n -> n * BSIZE < i_size nd -> baddr k nd n <> 0
}.

(** The number of free blocks. *)
Definition frees (k : kernel) : nat := length (filter (fun b => used k b = false) (seqZ 0 (sb_size (k_sb k)))).

Lemma frees_pos k : (0 < frees k)%nat -> exists x, 0 <= x < sb_size (k_sb k) /\ used k x = false.
Proof.
  unfold frees. destruct (filter _ _) as [|x l] eqn:E; cbn; [lia|]. intros _. exists x.
  assert (H : x ∈ filter (fun b => used k b = false) (seqZ 0 (sb_size (k_sb k)))) by (rewrite E; apply elem_of_cons; now left).
  apply list_elem_of_filter in H as [H1 H2]. rewrite elem_of_seqZ in H2. split; [lia|done].
Qed.

Lemma frees_alloc k k' x :
  k_sb k' = k_sb k -> (forall y, 0 <= y < sb_size (k_sb k) -> used k' y = (y =? x) || used k y) ->
  (frees k <= frees k' + 1)%nat.
Proof.
  intros E H. unfold frees. rewrite E.
  set (l := seqZ 0 (sb_size (k_sb k))). set (l1 := filter (fun b => used k b = false) l).
  set (l2 := filter (fun b => used k' b = false) l).
  assert (Hs : l1 ⊆+ x :: l2).
  { apply NoDup_submseteq; [apply NoDup_filter, NoDup_seqZ|]. intros y Hy. apply list_elem_of_filter in Hy as [Hy1 Hy2].
    apply elem_of_cons. destruct (decide (y = x)) as [->|Hne]; [now left|right].
    apply list_elem_of_filter. split; [|done]. unfold l in Hy2. rewrite elem_of_seqZ in Hy2. rewrite H by lia.
    rewrite Hy1, (proj2 (Z.eqb_neq y x)) by done. done. }
  apply submseteq_length in Hs. cbn in Hs. lia.
Qed.

(** ** Growing a file *)

(** The inodes on disk are as they were. *)
Definition inodes_kept (k k' : kernel) : Prop := forall i, 0 <= i < sb_ninodes (k_sb k) ->
  view k' (sb_inodestart (k_sb k) + i / IPB) = view k (sb_inodestart (k_sb k) + i / IPB).

Lemma inodes_kept_trans k1 k2 k3 : k_sb k2 = k_sb k1 -> inodes_kept k1 k2 -> inodes_kept k2 k3 -> inodes_kept k1 k3.
Proof. unfold inodes_kept. intros E H1 H2 i Hi. rewrite E in H2. now rewrite H2, H1. Qed.

Lemma inodes_kept_upd hs k k' b v ls ic m :
  fs_ok k -> fx hs k k' (upd (view k) b v) ls ic m -> ~ meta (k_sb k) b -> inodes_kept k k'.
Proof.
  intros H X Hm i Hi. destruct (lay_inode _ _ _ (fo_layout _ H) i Hi) as [[H0 _] _]. rewrite (fx_view X) by done. unfold upd.
  rewrite decide_False; [done|]. intros E. apply Hm. right. exists i. split; [done|congruence].
Qed.

Lemma inodes_kept_alloc hs k k' x ls ic m :
  fs_ok k -> fx hs k k' (allocated k x) ls ic m -> 0 <= x < sb_size (k_sb k) -> ~ meta (k_sb k) x -> inodes_kept k k'.
Proof.
  intros H X Hx Hm i Hi. destruct (lay_inode _ _ _ (fo_layout _ H) i Hi) as [[H0 _] _]. rewrite (fx_view X) by done.
  unfold allocated, upd. rewrite decide_False, decide_False; [done| |].
  - pose proof (lay_apart _ _ _ (fo_layout _ H) x i Hx Hi). congruence.
  - intros E. apply Hm. right. exists i. split; [done|congruence].
Qed.

(** A block of the file: a data block, or the indirect block. *)
Definition owns (k : kernel) (nd : inode) (b : Z) : Prop :=
  b = ind nd \/ exists n, 0 <= n < MAXFILE /\ baddr k nd n = b.

(** From [(k, nd)] to [(k', nd')]: at most new blocks have been mapped. *)
Record grown (k : kernel) (nd : inode) (k' : kernel) (nd' : inode) : Prop := {
  gr_nd : nd' = set_i_addrs (i_addrs nd') nd;
  gr_file : file_ok k' nd';
  gr_fs : fs_ok k';
  gr_kept : forall n, 0 <= n < MAXFILE -> baddr k nd n <> 0 -> baddr k' nd' n = baddr k nd n;
  gr_ind : ind nd <> 0 -> ind nd' = ind nd;
  gr_new : ind nd = 0 -> ind nd' <> 0 -> used k (ind nd') = false;
  gr_fresh : forall n, 0 <= n < MAXFILE -> baddr k nd n = 0 -> baddr k' nd' n <> 0 -> used k (baddr k' nd' n) = false;
  gr_used : forall b, 0 <= b < sb_size (k_sb k) -> used k b = true -> used k' b = true;
  gr_view : forall b, 0 <= b < sb_size (k_sb k) -> ~ meta (k_sb k) b -> used k b = true -> b <> ind nd -> view k' b = view k b;
  gr_inodes : inodes_kept k k';
  gr_only : forall b, 0 <= b < sb_size (k_sb k) -> b <> 0 -> used k' b = true -> used k b = true \/ owns k' nd' b
}.

Lemma owns_grown k nd k' nd' b : grown k nd k' nd' -> b <> 0 -> owns k nd b -> owns k' nd' b.
Proof.
  intros G Hb [->|(n & Hn & <-)]; [left; now rewrite (gr_ind _ _ _ _ G)|right; exists n]. split; [done|]. now apply (gr_kept _ _ _ _ G).
Qed.

Lemma ld8_zeros n i : 0 <= i < Z.of_nat n -> ld8 (replicate n 0) i = 0.
Proof. intros H. unfold ld8. rewrite list_lookup_total_alt, lookup_replicate_2 by lia. done. Qed.

Lemma ld32_zeros n i : 0 <= i -> i + 4 <= Z.of_nat n -> ld32 (replicate n 0) i = 0.
Proof. intros H1 H2. unfold ld32. rewrite !ld8_zeros by lia. done. Qed.

Lemma taken_view k k' a :
  fs_frame k k' -> (exists ls, log_step (k_log k) (k_log k') ls) -> used k' a = true -> taken k a -> taken k' a.
Proof.
  intros F [ls L] Hu (H1 & (H2 & H3 & H4) & _). destruct (fs_frame_fields _ _ F) as (E1 & _ & E2 & _).
  unfold taken, file_block. rewrite E1, E2. split_and!; try done; try lia. now apply (data_block_step L).
Qed.

Section Slots.
Context (k : kernel) (nd : inode).
Context (Hfs : fs_ok k) (Hfl : file_ok k nd).

Definition set_slot (i v : Z) : inode := set_i_addrs (<[Z.to_nat i := v]> (i_addrs nd)) nd.

Lemma slot_lookup i j v :
  0 <= i < 13 -> 0 <= j < 13 ->
  i_addrs (set_slot i v) !!! Z.to_nat j = if decide (j = i) then v else i_addrs nd !!! Z.to_nat j.
Proof.
  intros Hi Hj. cbn. destruct (decide (j = i)) as [->|Hne].
  - apply list_lookup_total_insert_eq. rewrite (fl_addrs _ _ Hfl). lia.
  - apply list_lookup_total_insert_ne. lia.
Qed.

(** A fresh block [x] is none of the file's. *)
Lemma fresh_apart x n : used k x = false -> 0 <= n < MAXFILE -> baddr k nd n <> 0 -> baddr k nd n <> x.
Proof. intros Hx Hn Hz E. destruct (fl_taken _ _ Hfl n Hn Hz) as (_ & _ & H). congruence. Qed.

Lemma fresh_ind x : used k x = false -> ind nd <> 0 -> ind nd <> x.
Proof. intros Hx Hz E. destruct (fl_ind _ _ Hfl Hz) as (_ & _ & H). congruence. Qed.
End Slots.

(** A fresh block [x] becomes block [n] of the file, or (with [None]) its indirect block. *)
Lemma file_ok_grow k nd k' nd' x (n0 : option Z) :
  file_ok k nd -> used k x = false -> k_sb k' = k_sb k -> x <> 0 -> taken k' x ->
  (forall a, taken k a -> taken k' a) ->
  nd' = set_i_addrs (i_addrs nd') nd -> length (i_addrs nd') = 13%nat ->
  (forall n, 0 <= n < MAXFILE -> baddr k' nd' n = if decide (n0 = Some n) then x else baddr k nd n) ->
  ind nd' = (match n0 with Some _ => ind nd | None => x end) -> (n0 = None -> ind nd = 0) ->
  (forall n, n0 = Some n -> baddr k nd n = 0) -> file_ok k' nd'.
Proof.
  intros H Hx Esb Hx0 Tx Tk End Hl HB HI HI0 HN.
  assert (Hfa : forall n, 0 <= n < MAXFILE -> baddr k nd n <> 0 -> baddr k nd n <> x) by (intros n; exact (fresh_apart k nd H x n Hx)).
  assert (Hfi : ind nd <> 0 -> ind nd <> x) by exact (fresh_ind k nd H x Hx).
  assert (E : i_dev nd' = i_dev nd /\ i_inum nd' = i_inum nd /\ i_size nd' = i_size nd) by (rewrite End; done).
  clear End. destruct E as (E1 & E2 & E3). split; rewrite ?E1, ?E2, ?E3, ?Esb; try apply H.
  - done.
  - intros n Hn. rewrite HB by done. case_decide; [done|]. intros Hz. apply Tk. now apply (fl_taken _ _ H).
  - rewrite HI. destruct n0; [|done]. intros Hz. apply Tk. now apply (fl_ind _ _ H).
  - intros n m Hn Hm Hne. rewrite !HB by done. repeat case_decide; try congruence.
    + intros _ E. apply (Hfa m); [done| |done]. congruence.
    + intros Hz. now apply Hfa.
    + now apply (fl_inj _ _ H).
  - intros n Hn. rewrite HB, HI by done. case_decide as Hd.
    + subst n0. intros _ E. destruct (decide (ind nd = 0)) as [E0|E0]; [congruence|]. now apply Hfi.
    + intros Hz. destruct n0; [now apply (fl_apart _ _ H)|now apply Hfa].
  - intros n Hn Hs. pose proof (fl_mapped _ _ H n Hn Hs) as Hz.
    assert (n < MAXFILE) by (pose proof (fl_size _ _ H); unfold BSIZE in *; lia).
    rewrite HB by lia. case_decide; done.
Qed.

(** What an allocation of [x] leaves as it was. *)
Lemma alloc_keeps hs k k' x ls :
  fs_ok k -> 0 <= x < sb_size (k_sb k) -> used k x = false ->
  fx hs k k' (allocated k x) ls (icache k) (k_mem k) ->
  k_sb k' = k_sb k /\ (forall a, taken k a -> taken k' a /\ view k' a = view k a) /\ taken k' x /\ x <> 0 /\
  (forall b, 0 <= b < sb_size (k_sb k) -> used k b = true -> used k' b = true) /\
  (forall b, 0 <= b < sb_size (k_sb k) -> ~ meta (k_sb k) b -> used k b = true -> view k' b = view k b).
Proof.
  intros H Hx Hu X. destruct (allocated_ok hs k k' x ls H Hx Hu X) as (F & U & Zx & O).
  destruct (fs_frame_fields _ _ (fx_frame X)) as (E1 & _ & E2 & _). pose proof (fo_free _ H x Hx Hu) as Hfb.
  assert (HO : forall b, 0 <= b < sb_size (k_sb k) -> ~ meta (k_sb k) b -> used k b = true -> view k' b = view k b).
  { intros b Hb Hm Hub. apply O; [lia| |done]. intros ->. congruence. }
  assert (HU : forall b, 0 <= b < sb_size (k_sb k) -> used k b = true -> used k' b = true).
  { intros b Hb Hub. rewrite U, Hub by done. apply orb_true_r. }
  split_and!; try done.
  - intros a Ha. pose proof Ha as (Ha1 & (_ & Ha2 & _) & Ha3). split; [|now apply HO].
    apply (taken_view k k'); [apply (fx_frame X)|exists ls; apply (fx_log X)|now apply HU|done].
  - destruct Hfb as (G1 & G2 & G3). unfold taken, file_block. rewrite E1, E2, U, Z.eqb_refl by done.
    split_and!; try done; try lia. now apply (data_block_step (fx_log X)).
  - apply Hfb.
Qed.

(** A free slot of the inode gets the fresh block [x]. *)
Lemma slot_grown hs k k' nd x ls i :
  fs_ok k -> file_ok k nd -> 0 <= x < sb_size (k_sb k) -> used k x = false ->
  fx hs k k' (allocated k x) ls (icache k) (k_mem k) ->
  0 <= i <= NDIRECT -> i_addrs nd !!! Z.to_nat i = 0 -> grown k nd k' (set_slot nd i x) /\ taken k' x /\ x <> 0.
Proof.
  intros Hfs Hfl Hx Hu X Hi Hz. destruct (allocated_ok hs k k' x ls Hfs Hx Hu X) as (F & U & Zx & O).
  destruct (alloc_keeps hs k k' x ls Hfs Hx Hu X) as (Es & Tk & Tx & Hx0 & HU & HV). unfold NDIRECT in *.
  assert (Hind : ind (set_slot nd i x) = if decide (i = 12) then x else ind nd).
  { unfold ind, NDIRECT. rewrite (slot_lookup k nd Hfl) by lia. repeat case_decide; done || lia. }
  assert (HB : forall n, 0 <= n < MAXFILE ->
    baddr k' (set_slot nd i x) n = if decide (i < 12 /\ n = i) then x else baddr k nd n).
  { intros n Hn. unfold baddr. unfold NDIRECT at 1 3. destruct (Z.ltb_spec n 12) as [Hl|Hl].
    - rewrite (slot_lookup k nd Hfl) by lia. repeat case_decide; try done; lia.
    - rewrite decide_False by lia. rewrite Hind. case_decide as Hd.
      + subst i. replace (ind nd) with 0 by (symmetry; exact Hz). rewrite (proj2 (Z.eqb_neq x 0)) by done. cbn.
        rewrite Zx. unfold NDIRECT, MAXFILE, NDIRECT, NINDIRECT, BSIZE in *. apply ld32_zeros; Z.div_mod_to_equations; lia.
      + destruct (Z.eqb_spec (ind nd) 0) as [|Hn0]; [done|].
        destruct (Tk _ (fl_ind _ _ Hfl Hn0)) as [_ ->]. done. }
  assert (Hb0 : i < 12 -> baddr k nd i = 0) by (intros H; unfold baddr, NDIRECT; rewrite (proj2 (Z.ltb_lt i 12)) by lia; done).
  split_and!; try done. split.
  - done.
  - apply (file_ok_grow k nd k' _ x (if decide (i < 12) then Some i else None)); try done.
    + intros a Ha. now apply Tk.
    + cbn. rewrite length_insert. apply Hfl.
    + intros n Hn. rewrite HB by done. repeat case_decide; try done; naive_solver.
    + rewrite Hind. repeat case_decide; done || lia.
    + destruct (decide (i < 12)); [discriminate|]. intros _. replace i with 12 in Hz by lia. exact Hz.
    + intros n. destruct (decide (i < 12)); [|discriminate]. intros [= <-]. auto.
  - done.
  - intros n Hn Hnz. rewrite HB by done. destruct (decide (i < 12 /\ n = i)) as [[Hd ->]|]; [|reflexivity].
    now rewrite Hb0 in Hnz.
  - rewrite Hind. destruct (decide (i = 12)) as [->|]; [|done]. intros Hnz. exfalso. apply Hnz. exact Hz.
  - rewrite Hind. destruct (decide (i = 12)); [done|]. now intros ->.
  - intros n Hn Hnz. rewrite HB by done. destruct (decide (i < 12 /\ n = i)); done.
  - done.
  - intros b Hb Hm Hub _. now apply HV.
  - apply (inodes_kept_alloc hs k k' x ls _ _ Hfs X Hx). apply (fo_free _ Hfs x Hx Hu).
  - intros b Hb _. rewrite U by done. destruct (Z.eqb_spec b x) as [->|]; [intros _; right|now left]. unfold owns.
    destruct (decide (i = 12)) as [E|E]; [left; now rewrite Hind|right]. exists i.
    assert (Hi' : 0 <= i < MAXFILE) by (unfold MAXFILE, NDIRECT, NINDIRECT, BSIZE; Z.div_mod_to_equations; lia).
    rewrite HB, decide_True by lia. done.
Qed.

Lemma grown_refl k nd : fs_ok k -> file_ok k nd -> grown k nd k nd.
Proof. intros Hfs Hfl. split; try done. { now destruct nd. } intros b _ _ H. now left. Qed.

Lemma grown_trans k1 nd1 k2 nd2 k3 nd3 :
  k_sb k2 = k_sb k1 -> k_sb k3 = k_sb k2 -> grown k1 nd1 k2 nd2 -> grown k2 nd2 k3 nd3 -> grown k1 nd1 k3 nd3.
Proof.
  intros Es Es3 GA GB. pose proof GA as [A1 A2 A3 A4 A5 A6 A9 A7 A8 A10 A11]. pose proof GB as [B1 B2 B3 B4 B5 B6 B9 B7 B8 B10 B11]. split; try done.
  - rewrite B1, A1. reflexivity.
  - intros n Hn Hz. rewrite B4, A4; try done. now rewrite A4.
  - intros Hz. rewrite B5, A5; try done. now rewrite A5.
  - intros Hz Hz3. destruct (decide (ind nd2 = 0)) as [E|E].
    + assert (Hsz : 0 <= ind nd3 < sb_size (k_sb k1)).
      { destruct (fl_ind _ _ B2 Hz3) as (H & _). now rewrite Es3, Es in H. }
      apply not_true_iff_false. intros Hu. apply A7 in Hu; [|done]. now rewrite B6 in Hu.
    + rewrite B5 in * by done. now apply A6.
  - intros n Hn Hz Hz3. destruct (decide (baddr k2 nd2 n = 0)) as [E|E].
    + assert (Hsz : 0 <= baddr k3 nd3 n < sb_size (k_sb k1)).
      { destruct (fl_taken _ _ B2 n Hn Hz3) as (H & _). now rewrite Es3, Es in H. }
      apply not_true_iff_false. intros Hu. apply A7 in Hu; [|done]. now rewrite B9 in Hu.
    + rewrite B4 in * by done. now apply A9.
  - rewrite Es in B7. auto.
  - rewrite Es in B8. intros b Hb Hm Hu Hni. rewrite B8, A8; auto.
    intros ->. destruct (decide (ind nd1 = 0)) as [E|E]; [|now rewrite A5 in Hni].
    rewrite A6 in Hu; [done|done|congruence].
  - now apply (inodes_kept_trans _ k2).
  - rewrite Es in B11. intros b Hb Hz Hu. destruct (B11 b Hb Hz Hu) as [H|H]; [|now right].
    destruct (A11 b Hb Hz H) as [|H']; [now left|right]. now apply (owns_grown k2 nd2).
Qed.

(** ** The inode cache does not matter to the blocks *)

Lemma tx_set_icache k hs ic : tx k hs -> tx (set_icache ic k) hs.
Proof. intros [[H1 [B1 B2 B3] H3 H4 H5 H6] HL]. split; [split; try done|exact HL]. Qed.

Lemma fs_ok_set_icache k ic : fs_ok k -> fs_ok (set_icache ic k).
Proof. intros [H1 H2 H3]. split; done. Qed.

Lemma grown_set_icache k nd k' nd' ic : grown k nd k' nd' -> grown k nd (set_icache ic k') nd'.
Proof. intros [A1 [F1 F2 F3 F4 F5 F6 F7 F8 F9] A3 A4 A5 A6 A7 A8 A9 A10 A11]. split; try done. now apply fs_ok_set_icache. Qed.

Lemma fs_frame_set_icache k k' ic : fs_frame k k' -> fs_frame k (set_icache ic k').
Proof. intros (bs & pt & lg & ic0 & m & Hw & ->). exists bs, pt, lg, ic, m. now split. Qed.

(** ** bmap *)

(** What a call that maps blocks does: the file grows, blocks [ls] join the transaction, at most [c] free
    blocks are used up. *)
Record maps (ip : nat) (k : kernel) (nd : inode) (k' : kernel) (nd' : inode) (ls : list Z) (c : nat) : Prop := {
  mp_tx : tx k' [];
  mp_grown : grown k nd k' nd';
  mp_frame : fs_frame k k';
  mp_icache : icache k' = <[ip := nd']> (icache k);
  mp_mem : k_mem k' = k_mem k;
  mp_log : log_step (k_log k) (k_log k') ls;
  mp_frees : (frees k <= frees k' + c)%nat
}.

Lemma maps_trans ip k1 nd1 k2 nd2 k3 nd3 l1 l2 c1 c2 :
  maps ip k1 nd1 k2 nd2 l1 c1 -> maps ip k2 nd2 k3 nd3 l2 c2 -> maps ip k1 nd1 k3 nd3 (l1 ++ l2) (c1 + c2).
Proof.
  intros [A1 A2 A3 A4 A5 A6 A7] [B1 B2 B3 B4 B5 B6 B7].
  destruct (fs_frame_fields _ _ A3) as (_ & _ & Es & _). destruct (fs_frame_fields _ _ B3) as (_ & _ & Es3 & _). split.
  - done.
  - now apply (grown_trans _ _ k2 nd2).
  - now apply (fs_frame_trans _ k2).
  - now rewrite B4, A4, list_insert_insert_eq.
  - congruence.
  - now apply (log_step_trans _ (k_log k2)).
  - lia.
Qed.

(** Slot [i] of the inode, filled if it was empty. *)
Lemma addr_or_alloc_run k ip nd i :
  tx k [] -> fs_ok k -> file_ok k nd -> icache k !! ip = Some nd -> 0 <= i <= NDIRECT -> cap k 2 ->
  (i_addrs nd !!! Z.to_nat i = 0 -> (0 < frees k)%nat) ->
  let old := i_addrs nd !!! Z.to_nat i in
  exists a k' nd', addr_or_alloc ip i k = Ok a k' /\ a <> 0 /\ taken k' a /\
    nd' = (if old =? 0 then set_slot nd i a else nd) /\
    (old = 0 -> view k' a = replicate (Z.to_nat BSIZE) 0 /\ used k a = false) /\ (old <> 0 -> a = old /\ k' = k) /\
    maps ip k nd k' nd' (if old =? 0 then [sb_bmapstart (k_sb k) + a / BPB; a] else []) (if old =? 0 then 1 else 0).
Proof.
  intros Ht Hfs Hfl Hip Hi Hc Hfr old. unfold addr_or_alloc, getinode. mred.
  rewrite (list_lookup_total_correct _ _ _ Hip). fold old.
  destruct (Z.eqb_spec old 0) as [E|E].
  - destruct (balloc_run k [] Ht Hfs) as (x & k1 & R & Hx & Hxf & _ & T1 & _ & X1); [|done|cbn; lia|now apply frees_pos; auto|].
    { intros b Hb. split; [|intros _]; intros j Hj; now apply elem_of_nil in Hj. }
    rewrite (fl_dev _ _ Hfl). mok R. unfold setaddr, updinode. mred.
    destruct (slot_grown [] k k1 nd x _ i Hfs Hfl Hx Hxf X1 Hi E) as (G & Tx & Hx0).
    destruct (allocated_ok [] k k1 x _ Hfs Hx Hxf X1) as (_ & U & Zx & _).
    destruct (fs_frame_fields _ _ (fx_frame X1)) as (_ & _ & Es & _).
    eexists x, _, (set_slot nd i x). split_and!; [reflexivity|done|exact Tx|done|intros _; split; [exact Zx|done]|done|].
    assert (Eic : alter (fun n => set_i_addrs (<[Z.to_nat i := x]> (i_addrs n)) n) ip (icache k1) = <[ip := set_slot nd i x]> (icache k)).
    { rewrite (fx_icache X1). apply list_eq. intros j. destruct (decide (j = ip)) as [->|Hne].
      - rewrite list_lookup_alter_eq, list_lookup_insert_eq by (eapply lookup_lt_Some; exact Hip). now rewrite Hip.
      - now rewrite list_lookup_alter_ne, list_lookup_insert_ne. }
    rewrite Eic. split.
    + now apply tx_set_icache.
    + now apply grown_set_icache.
    + apply fs_frame_set_icache, (fx_frame X1).
    + reflexivity.
    + apply (fx_mem X1).
    + exact (fx_log X1).
    + change (frees (set_icache _ k1)) with (frees k1). now apply (frees_alloc k k1 x).
  - exists old, k, nd. split_and!; try done.
    + unfold NDIRECT in *. destruct (decide (i = 12)) as [->|Hi12].
      * now apply (fl_ind _ _ Hfl).
      * assert (Eb : baddr k nd i = old) by (unfold baddr, NDIRECT; rewrite (proj2 (Z.ltb_lt i 12)) by lia; done).
        rewrite <- Eb. apply (fl_taken _ _ Hfl); [unfold MAXFILE, NDIRECT, NINDIRECT, BSIZE; Z.div_mod_to_equations; lia|congruence].
    + split; try done; [now apply grown_refl|apply fs_frame_refl| |apply log_step_refl|lia].
      now rewrite list_insert_id.
Qed.

(** A change of a block that is not metadata. *)
Lemma data_update hs k k' b v ls ic m :
  fs_ok k -> fx hs k k' (upd (view k) b v) ls ic m -> ~ meta (k_sb k) b -> block_ok v ->
  fs_ok k' /\ (forall y, 0 <= y < sb_size (k_sb k) -> used k' y = used k y).
Proof.
  intros H X Hm Hv. destruct (fs_frame_fields _ _ (fx_frame X)) as (_ & _ & Es & _).
  assert (HU : forall y, 0 <= y < sb_size (k_sb k) -> used k' y = used k y).
  { intros y Hy. unfold used. rewrite Es, (fx_view X) by (apply bmap_pos; [done|lia]). unfold upd.
    rewrite decide_False; [done|]. intros <-. apply Hm. left. now exists y. }
  split; [|done]. apply (fs_ok_step _ _ _ _ _ _ _ X H).
  - intros b' Hb'. unfold upd. case_decide; [done|now apply (fo_blocks _ H)].
  - intros b' Hb' Hu. left. now rewrite <- HU.
Qed.

Lemma frees_same k k' :
  k_sb k' = k_sb k -> (forall y, 0 <= y < sb_size (k_sb k) -> used k' y = used k y) -> (frees k <= frees k')%nat.
Proof.
  intros E H. unfold frees. rewrite E. apply submseteq_length, NoDup_submseteq; [apply NoDup_filter, NoDup_seqZ|].
  intros y Hy. apply list_elem_of_filter in Hy as [Hy1 Hy2]. apply list_elem_of_filter. split; [|done].
  rewrite elem_of_seqZ in Hy2. rewrite H by lia. done.
Qed.

Lemma view_taken_same hs k k' b v ls ic m a :
  fs_ok k -> fx hs k k' (upd (view k) b v) ls ic m -> ~ meta (k_sb k) b -> block_ok v -> taken k a -> taken k' a.
Proof.
  intros H X Hm Hv Ha. destruct (data_update _ _ _ _ _ _ _ _ H X Hm Hv) as [_ HU].
  apply (taken_view k k'); [apply (fx_frame X)|eexists; apply (fx_log X)| |done].
  destruct Ha as (Ha & _ & Hu). now rewrite HU.
Qed.

(** The indirect block [a0] gets the entry [x] for block [n]. *)
Lemma entry_grown k nd n k1 x l1 hs k2 l2 :
  fs_ok k -> file_ok k nd -> NDIRECT <= n < MAXFILE -> ind nd <> 0 -> baddr k nd n = 0 ->
  0 <= x < sb_size (k_sb k) -> used k x = false -> sb_size (k_sb k) < 2 ^ 31 ->
  fx hs k k1 (allocated k x) l1 (icache k) (k_mem k) ->
  fx [] k1 k2 (upd (view k1) (ind nd) (st32 (view k1 (ind nd)) (4 * (n - NDIRECT)) x)) l2 (icache k1) (k_mem k1) ->
  grown k nd k2 nd /\ baddr k2 nd n = x /\ x <> 0 /\ view k2 x = replicate (Z.to_nat BSIZE) 0 /\ (frees k <= frees k2 + 1)%nat.
Proof.
  intros Hfs Hfl Hn Hind Hz Hx Hxf Hsz X1 X2.
  destruct (allocated_ok hs k k1 x l1 Hfs Hx Hxf X1) as (F1 & U1 & Zx & _).
  destruct (alloc_keeps hs k k1 x l1 Hfs Hx Hxf X1) as (Es & Tk & Tx & Hx0 & HU & HV).
  pose proof (fl_ind _ _ Hfl Hind) as Hti. pose proof Hti as (Hir & (Hid & Him & _) & Hiu).
  destruct (fs_frame_fields _ _ (fx_frame X2)) as (_ & _ & Es2 & _).
  assert (Hix : ind nd <> x) by congruence.
  assert (Hbi : block_ok (view k1 (ind nd))).
  { apply (fo_blocks _ F1). destruct (fs_frame_fields _ _ (fx_frame X1)) as (-> & _). apply Hid. }
  assert (Hbv : block_ok (st32 (view k1 (ind nd)) (4 * (n - NDIRECT)) x)) by (apply block_ok_put; [done|apply bytes_ok_le32]).
  rewrite <- Es in Him. destruct (data_update _ _ _ _ _ _ _ _ F1 X2 Him Hbv) as [F2 U2]. rewrite Es in Him, U2.
  assert (HV2 : forall a, 0 <= a -> a <> ind nd -> view k2 a = view k1 a).
  { intros a Ha Hne. rewrite (fx_view X2) by done. unfold upd. now rewrite decide_False. }
  assert (Hlen : length (view k1 (ind nd)) = 512%nat) by apply Hbi.
  assert (Hvi : view k1 (ind nd) = view k (ind nd)) by now apply Tk.
  assert (HB : forall m, 0 <= m < MAXFILE -> baddr k2 nd m = if decide (Some n = Some m) then x else baddr k nd m).
  { intros m Hm. unfold baddr. destruct (Z.ltb_spec m NDIRECT) as [Hl|Hl].
    - rewrite decide_False; [done|]. intros [= ->]. lia.
    - rewrite (proj2 (Z.eqb_neq (ind nd) 0)) by done. rewrite (fx_view X2) by lia. unfold upd. rewrite decide_True by done.
      unfold NDIRECT, MAXFILE, NINDIRECT, NDIRECT, BSIZE in *. destruct (decide (Some n = Some m)) as [[= ->]|Hne].
      + rewrite ld32_st32 by (rewrite ?Hlen; Z.div_mod_to_equations; lia). now rewrite u32_small by lia.
      + assert (n <> m) by congruence. unfold st32. rewrite ld32_put_ne; [now rewrite Hvi| | | |];
          cbn [length le32]; rewrite ?Hlen; Z.div_mod_to_equations; lia. }
  assert (Tk2 : forall a, taken k a -> taken k2 a).
  { intros a Ha. rewrite <- Es in Him. apply (view_taken_same _ _ _ _ _ _ _ _ _ F1 X2 Him Hbv). now apply Tk. }
  assert (Tx2 : taken k2 x) by (rewrite <- Es in Him; now apply (view_taken_same _ _ _ _ _ _ _ _ _ F1 X2 Him Hbv)).
  unfold NDIRECT, MAXFILE, NDIRECT, NINDIRECT, BSIZE in Hn.
  split_and!; [split|rewrite HB; [now rewrite decide_True|unfold MAXFILE, NDIRECT, NINDIRECT, BSIZE; lia]|done| |].
  - now destruct nd.
  - apply (file_ok_grow k nd k2 nd x (Some n)); try done; [congruence|now destruct nd|apply Hfl|]. intros m [= <-]. done.
  - done.
  - intros m Hm Hmz. rewrite HB by done. destruct (decide (Some n = Some m)) as [[= ->]|]; [done|reflexivity].
  - done.
  - intros E0. done.
  - intros m Hm Hmz. rewrite HB by done. destruct (decide (Some n = Some m)); done.
  - intros b Hb Hu. rewrite U2 by done. now apply HU.
  - intros b Hb Hm Hu Hne. rewrite HV2 by (done || lia). now apply HV.
  - apply (inodes_kept_trans _ k1); [done| |].
    + apply (inodes_kept_alloc hs k k1 x l1 _ _ Hfs X1 Hx). apply (fo_free _ Hfs x Hx Hxf).
    + apply (inodes_kept_upd _ _ _ _ _ _ _ _ F1 X2). now rewrite Es.
  - intros b Hb _. rewrite U2, U1 by done. destruct (Z.eqb_spec b x) as [->|]; [intros _; right; right|now left].
    exists n.
    assert (Hn' : 0 <= n < MAXFILE) by (unfold MAXFILE, NDIRECT, NINDIRECT, BSIZE; Z.div_mod_to_equations; lia).
    rewrite HB, decide_True by done. done.
  - rewrite HV2 by (done || lia). exact Zx.
  - transitivity (frees k1 + 1)%nat; [now apply (frees_alloc k k1 x)|]. rewrite <- Es in U2.
    pose proof (frees_same k1 k2 Es2 U2). lia.
Qed.

(** *** Steps that change no block *)

Section Same.
Context (hs : list nat) (k k' : kernel) (nd : inode) (ls : list Z) (ic : list inode) (m : gmap Z Z).
Context (X : fx hs k k' (view k) ls ic m) (Hfs : fs_ok k) (Hfl : file_ok k nd).

Lemma baddr_same n : baddr k' nd n = baddr k nd n.
Proof using X Hfs Hfl.
  unfold baddr. destruct (n <? NDIRECT); [done|]. destruct (Z.eqb_spec (ind nd) 0) as [|Hz]; [done|].
  destruct (fl_ind _ _ Hfl Hz) as ([H _] & _). now rewrite (fx_view X).
Qed.

Lemma taken_same a : taken k a -> taken k' a.
Proof using X Hfs.
  intros Ha. apply (taken_view k k'); [apply (fx_frame X)|exists ls; apply (fx_log X)| |done].
  rewrite (used_same _ _ _ _ _ _ _ _ X (fun _ _ => eq_refl) Hfs); [apply Ha|apply Ha].
Qed.

Lemma file_ok_same : file_ok k' nd.
Proof using X Hfs Hfl.
  destruct (fs_frame_fields _ _ (fx_frame X)) as (_ & _ & Es & _). split; rewrite ?Es; try apply Hfl.
  - intros n Hn. rewrite baddr_same. intros Hz. now apply taken_same, Hfl.
  - intros Hz. now apply taken_same, Hfl.
  - intros n1 n2. rewrite !baddr_same. apply Hfl.
  - intros n. rewrite baddr_same. apply Hfl.
  - intros n. rewrite baddr_same. apply Hfl.
Qed.

Lemma frees_view : (frees k <= frees k')%nat.
Proof using X Hfs.
  destruct (fs_frame_fields _ _ (fx_frame X)) as (_ & _ & Es & _). apply frees_same; [done|].
  intros y Hy. apply (used_same _ _ _ _ _ _ _ _ X (fun _ _ => eq_refl) Hfs). lia.
Qed.

Lemma grown_same : grown k nd k' nd.
Proof using X Hfs Hfl.
  assert (F' : fs_ok k') by exact (fs_ok_same _ _ _ _ _ _ _ X (fun _ _ => eq_refl) Hfs).
  split; try done; [now destruct nd|apply file_ok_same| | | | | |].
  - intros n _ _. apply baddr_same.
  - intros n _ Hz. rewrite baddr_same. done.
  - intros b Hb Hu. rewrite (used_same _ _ _ _ _ _ _ _ X (fun _ _ => eq_refl) Hfs); [done|lia].
  - intros b Hb _ _ _. apply (fx_view X). lia.
  - intros i Hi. apply (fx_view X). now destruct (lay_inode _ _ _ (fo_layout _ Hfs) i Hi) as [[? _] _].
  - intros b Hb _. rewrite (used_same _ _ _ _ _ _ _ _ X (fun _ _ => eq_refl) Hfs) by lia. now left.
Qed.
End Same.

Lemma maps_same ip k k' nd :
  tx k' [] -> fx [] k k' (view k) [] (icache k) (k_mem k) -> fs_ok k -> file_ok k nd -> icache k !! ip = Some nd ->
  maps ip k nd k' nd [] 0.
Proof.
  intros Ht X Hfs Hfl Hip. split; try done.
  - now apply (grown_same [] k k' nd [] (icache k) (k_mem k)).
  - apply (fx_frame X).
  - rewrite (fx_icache X). symmetry. now apply list_insert_id.
  - apply (fx_mem X).
  - apply (fx_log X).
  - rewrite Nat.add_0_r. now apply (frees_view [] k k' [] (icache k) (k_mem k)).
Qed.

Lemma unheld_nil k b : unheld [] k b.
Proof. intros j Hj. now apply elem_of_nil in Hj. Qed.
#[export] Hint Resolve unheld_nil : core.

Lemma addr_or_alloc_old k ip nd i :
  icache k !! ip = Some nd -> i_addrs nd !!! Z.to_nat i <> 0 -> addr_or_alloc ip i k = Ok (i_addrs nd !!! Z.to_nat i) k.
Proof.
  intros Hip Hz. unfold addr_or_alloc, getinode. mred.
  now rewrite (list_lookup_total_correct _ _ _ Hip), (proj2 (Z.eqb_neq _ _)).
Qed.

(** A block that is already there is found without changing anything. *)
Lemma bmap_mapped k ip nd n :
  tx k [] -> fs_ok k -> file_ok k nd -> icache k !! ip = Some nd -> tx_room k [] ->
  0 <= n < MAXFILE -> baddr k nd n <> 0 ->
  exists k', bmap ip n k = Ok (baddr k nd n) k' /\ tx k' [] /\ fx [] k k' (view k) [] (icache k) (k_mem k).
Proof.
  intros Ht Hfs Hfl Hip Hr Hn. unfold baddr, bmap. destruct (Z.ltb_spec n NDIRECT) as [Hl|Hl].
  - intros Hz. exists k. split_and!; [|done|apply fx_refl]. now apply addr_or_alloc_old.
  - destruct (Z.eqb_spec (ind nd) 0) as [|Hi]; [done|]. intros Hz.
    rewrite (proj2 (Z.ltb_lt _ _)) by (unfold MAXFILE in Hn; lia).
    pose proof (addr_or_alloc_old k ip nd NDIRECT Hip Hi) as R0. mok R0. fold (ind nd). unfold getinode. mred.
    rewrite (list_lookup_total_correct _ _ _ Hip), (fl_dev _ _ Hfl).
    destruct (fl_ind _ _ Hfl Hi) as (_ & [[Hb _] _] & _).
    destruct (fs_peek k [] (ind nd) Ht Hb (unheld_nil _ _) Hr) as (i & k1 & k2 & R1 & D1 & R2 & T2 & _ & X2).
    mok R1. mok (fs_getdata k1 i). rewrite D1, (proj2 (Z.eqb_neq _ _)) by done. mred. mok R2.
    exists k2. now split_and!.
Qed.

(** *** A new block *)

(** A buffer of a block in use does not stand in the way of [balloc]. *)
Lemma taken_unheld k i a : holds k i a -> taken k a -> alloc_unheld [i] k.
Proof.
  intros (_ & Hi & _) (_ & (_ & Hm & _) & Hu) b Hb.
  assert (Ho : forall c, c <> a -> unheld [i] k c).
  { intros c Hc j Hj. apply list_elem_of_singleton in Hj as ->. apply not_true_iff_false. intros Hj.
    apply Hc. exact (is_blk_eq _ _ _ Hj Hi). }
  split; [|intros Hf]; apply Ho; [|congruence]. intros <-. apply Hm. left. now exists b.
Qed.

(** A fresh block becomes block [n] of the file through its indirect block. *)
Lemma entry_run k ip nd n :
  tx k [] -> fs_ok k -> file_ok k nd -> icache k !! ip = Some nd -> NDIRECT <= n < MAXFILE -> ind nd <> 0 ->
  baddr k nd n = 0 -> cap k 3 -> (0 < frees k)%nat ->
  exists i x k1 k2 k3 k4 k', bread 1 (ind nd) k = Ok i k1 /\ b_data (bcache k1 !!! i) = view k (ind nd) /\
    balloc 1 k1 = Ok x k2 /\
    upddata i (fun d => st32 d (4 * (n - NDIRECT)) x) k2 = Ok tt k3 /\ log_write i k3 = Ok tt k4 /\
    brelse i k4 = Ok tt k' /\ x <> 0 /\ baddr k' nd n = x /\ view k' x = replicate (Z.to_nat BSIZE) 0 /\ used k x = false /\
    maps ip k nd k' nd [sb_bmapstart (k_sb k) + x / BPB; x; ind nd] 1.
Proof.
  intros Ht Hfs Hfl Hip Hn Hi Hz Hc Hfr. pose proof (fl_ind _ _ Hfl Hi) as (Hir & (Hid & Him & _) & Hiu).
  assert (Hc2 : cap k 2) by (unfold cap in *; lia).
  destruct (fs_bread k [] (ind nd) Ht (proj1 Hid) (unheld_nil _ _) (or_introl (cap_room k [] 3 Ht Hc ltac:(cbn; lia))))
    as (i & k1 & R1 & T1 & H1 & Hni & D1 & X1 & S1).
  assert (F1 : fs_ok k1) by exact (fs_ok_same _ _ _ _ _ _ _ X1 (fun _ _ => eq_refl) Hfs).
  pose proof (file_ok_same _ _ _ _ _ _ _ X1 Hfs Hfl) as L1.
  destruct (fs_frame_fields _ _ (fx_frame X1)) as (Em & _ & Es & _).
  pose proof (taken_unheld k1 i (ind nd) H1 (fl_ind _ _ L1 Hi)) as Hu1.
  assert (C1 : cap k1 3) by (apply (cap_step k k1 [i] [] 3 T1 (fx_log X1)); exact Hc).
  assert (Fr : exists x, 0 <= x < sb_size (k_sb k1) /\ used k1 x = false).
  { apply frees_pos. pose proof (frees_view _ _ _ _ _ _ X1 Hfs). lia. }
  destruct (balloc_run k1 [i] T1 F1 Hu1 ltac:(unfold cap in *; lia) ltac:(cbn; lia) Fr) as (x & k2 & R2 & Hx & Hxu & _ & T2 & _ & X2).
  pose proof (fx_holds _ _ _ _ _ _ _ i _ X2 ltac:(now apply list_elem_of_singleton) H1) as H2.
  destruct (fs_frame_fields _ _ (fx_frame X2)) as (Em2 & _ & Es2 & _).
  assert (Hid2 : data_block (k_log k2) (length (memdisk k2)) (ind nd)).
  { rewrite Em2, Em. apply (data_block_step (fx_log X2)), (data_block_step (fx_log X1)). exact Hid. }
  assert (C2 : cap k2 1) by (apply (cap_step k1 k2 [i] _ 1 T2 (fx_log X2)); exact C1).
  destruct (fs_finish k2 [] i (ind nd) (fun d => st32 d (4 * (n - NDIRECT)) x) T2 ltac:(apply not_elem_of_nil) H2 Hid2
    (cap_log k2 [i] 1 T2 C2)) as (k3 & k4 & k5 & R3 & R4 & R5 & T5 & _ & X5).
  pose proof (disk_bound k [] Ht) as Hdb. pose proof (lay_size _ _ _ (fo_layout _ Hfs)) as Hls.
  destruct (entry_grown k1 nd n k2 x _ [i] k5 _ F1 L1 Hn Hi ltac:(now rewrite (baddr_same _ _ _ _ _ _ _ X1)) Hx Hxu
    ltac:(rewrite Es; lia) X2 X5) as (G & Hb & Hx0 & Hzx & Hf).
  exists i, x, k1, k2, k3, k4, k5. split_and!; try done.
  - rewrite <- Hxu. symmetry. apply (used_same _ _ _ _ _ _ _ _ X1 (fun _ _ => eq_refl) Hfs). lia.
  - pose proof (fx_frame X5) as Fr5. destruct (fs_frame_fields _ _ Fr5) as (_ & _ & Es5 & _). rewrite <- Es. split; try done.
    + apply (grown_trans k nd k1 nd k5 nd); [done|congruence| |done]. now apply (grown_same _ _ _ _ _ _ _ X1).
    + apply (fs_frame_trans _ k1); [apply (fx_frame X1)|]. now apply (fs_frame_trans _ k2); [apply (fx_frame X2)|].
    + rewrite (fx_icache X5), (fx_icache X2), (fx_icache X1). symmetry. now apply list_insert_id.
    + now rewrite (fx_mem X5), (fx_mem X2), (fx_mem X1).
    + exact (log_step_trans _ _ _ _ _ (fx_log X1) (log_step_trans _ _ _ _ _ (fx_log X2) (fx_log X5))).
    + pose proof (frees_view _ _ _ _ _ _ X1 Hfs). lia.
Qed.

Lemma maps_sb ip k nd k' nd' ls c : maps ip k nd k' nd' ls c -> k_sb k' = k_sb k.
Proof. intros M. now destruct (fs_frame_fields _ _ (mp_frame _ _ _ _ _ _ _ M)) as (_ & _ & E & _). Qed.

(** The indirect block, if there is one, and the block it still costs if there is none. *)
Definition indl (nd : inode) : list Z := if ind nd =? 0 then [] else [ind nd].
Definition slack (nd : inode) : nat := if ind nd =? 0 then 1 else 0.

Lemma elem_of_indl nd b : b ∈ indl nd <-> b = ind nd /\ ind nd <> 0.
Proof.
  unfold indl. destruct (Z.eqb_spec (ind nd) 0); [rewrite elem_of_nil; tauto|]. rewrite list_elem_of_singleton. tauto.
Qed.

(** [bmap] mapped a new block [a] as block [n]. *)
Definition mapped_new (ip : nat) (n : Z) (k : kernel) (nd : inode) : Prop :=
  exists a k' nd' ls c, bmap ip n k = Ok a k' /\ a <> 0 /\ baddr k' nd' n = a /\
    view k' a = replicate (Z.to_nat BSIZE) 0 /\ used k a = false /\ maps ip k nd k' nd' ls c /\
    (c + slack nd' <= 1 + slack nd)%nat /\
    (forall b, b ∈ ls -> b = sb_bmapstart (k_sb k) \/ b ∈ indl nd' \/ b = a).

Section Fresh.
Context (k : kernel) (ip : nat) (nd : inode) (n : Z).
Context (Ht : tx k []) (Hfs : fs_ok k) (Hfl : file_ok k nd) (Hip : icache k !! ip = Some nd).
Context (Hsz : sb_size (k_sb k) <= BPB) (Hn : 0 <= n < MAXFILE) (Hz : baddr k nd n = 0).
Context (Hc : cap k 5) (Hfr : (1 + slack nd <= frees k)%nat).

Lemma one_bitmap x : 0 <= x < sb_size (k_sb k) -> sb_bmapstart (k_sb k) + x / BPB = sb_bmapstart (k_sb k).
Proof using Hsz. intros Hx. clear Hfr. rewrite Z.div_small by lia. lia. Qed.

Lemma bmap_fresh_direct : n < NDIRECT -> mapped_new ip n k nd.
Proof using All.
  intros Hl. unfold mapped_new, bmap. rewrite (proj2 (Z.ltb_lt _ _)) by done.
  assert (Es : i_addrs nd !!! Z.to_nat n = 0) by (unfold baddr in Hz; now rewrite (proj2 (Z.ltb_lt _ _)) in Hz).
  destruct (addr_or_alloc_run k ip nd n Ht Hfs Hfl Hip ltac:(lia) ltac:(unfold cap in *; lia) ltac:(lia))
    as (a & k1 & nd1 & R & Ha & Ta & End & Hnew & _ & M). rewrite Es in End, M. cbn in End, M.
  destruct (Hnew Es) as [Za Ua]. exists a, k1, nd1, [sb_bmapstart (k_sb k) + a / BPB; a], 1%nat. split_and!; try done.
  - subst nd1. unfold baddr. rewrite (proj2 (Z.ltb_lt _ _)) by done.
    rewrite (slot_lookup k nd Hfl), decide_True; unfold NDIRECT in *; lia || done.
  - assert (Ei : ind nd1 = ind nd); [|unfold slack; rewrite Ei; lia]. subst nd1. unfold ind.
    rewrite (slot_lookup k nd Hfl), decide_False; unfold NDIRECT in *; lia || done.
  - intros b. rewrite !elem_of_cons, elem_of_nil. rewrite one_bitmap; [tauto|].
    destruct Ta as [Hr _]. now rewrite (maps_sb _ _ _ _ _ _ _ M) in Hr.
Qed.

Lemma bmap_fresh_indirect : NDIRECT <= n -> mapped_new ip n k nd.
Proof using All.
  intros Hl. unfold mapped_new, bmap. rewrite (proj2 (Z.ltb_ge _ _)) by done.
  rewrite (proj2 (Z.ltb_lt _ _)) by (unfold MAXFILE in Hn; lia).
  destruct (addr_or_alloc_run k ip nd NDIRECT Ht Hfs Hfl Hip ltac:(unfold NDIRECT; lia) ltac:(unfold cap in *; lia) ltac:(lia))
    as (a & k1 & nd1 & R & Ha & Ta & End & Hnew & Hold & M). fold (ind nd) in *. mok R.
  assert (Ei : ind nd1 = a).
  { subst nd1. destruct (Z.eqb_spec (ind nd) 0) as [E|E]; [|now destruct (Hold E)].
    unfold ind. rewrite (slot_lookup k nd Hfl), decide_True; unfold NDIRECT; lia || done. }
  pose proof (mp_grown _ _ _ _ _ _ _ M) as G. assert (Hip1 : icache k1 !! ip = Some nd1).
  { rewrite (mp_icache _ _ _ _ _ _ _ M). apply list_lookup_insert_eq. now apply lookup_lt_Some in Hip. }
  pose proof (gr_file _ _ _ _ G) as L1. pose proof (maps_sb _ _ _ _ _ _ _ M) as Es1.
  assert (Hz1 : baddr k1 nd1 n = 0).
  { unfold baddr in *. rewrite (proj2 (Z.ltb_ge _ _)) in * by done. rewrite Ei, (proj2 (Z.eqb_neq a 0)) by done.
    destruct (Z.eqb_spec (ind nd) 0) as [E|E].
    - destruct (Hnew E) as [-> _]. unfold MAXFILE, NDIRECT, NINDIRECT, BSIZE in *. apply ld32_zeros; Z.div_mod_to_equations; lia.
    - destruct (Hold E) as [-> ->]. done. }
  assert (C1 : cap k1 3).
  { apply (cap_step k k1 [] _ 3 (mp_tx _ _ _ _ _ _ _ M) (mp_log _ _ _ _ _ _ _ M)).
    destruct (ind nd =? 0); cbn; unfold cap in *; lia. }
  assert (Fr1 : (0 < frees k1)%nat) by (pose proof (mp_frees _ _ _ _ _ _ _ M); unfold slack in Hfr; destruct (ind nd =? 0); lia).
  destruct (entry_run k1 ip nd1 n (mp_tx _ _ _ _ _ _ _ M) (gr_fs _ _ _ _ G) L1 Hip1 ltac:(lia) ltac:(congruence) Hz1 C1 Fr1)
    as (i & x & k2 & k3 & k4 & k5 & k6 & R1 & D1 & R2 & R3 & R4 & R5 & Hx0 & Hbx & Zx & Ux & M2).
  unfold getinode. mred. rewrite (list_lookup_total_correct _ _ _ Hip1), (fl_dev _ _ L1), <- Ei. mok R1. mok (fs_getdata k2 i).
  rewrite D1. unfold baddr in Hz1. rewrite (proj2 (Z.ltb_ge _ _)), (proj2 (Z.eqb_neq (ind nd1) 0)) in Hz1 by congruence || done.
  rewrite Hz1. cbn [Z.eqb]. rewrite bind_assoc by (unfold returns; now rewrite R2). mok R2.
  rewrite bind_assoc by (unfold returns; now rewrite R3). mok R3.
  rewrite bind_assoc by (unfold returns; now rewrite R4). mok R4. mred. mok R5.
  pose proof (maps_trans _ _ _ _ _ _ _ _ _ _ _ M M2) as M3.
  assert (Hxr : 0 <= x < sb_size (k_sb k)).
  { assert (Hx0' : baddr k6 nd1 n <> 0) by congruence.
    destruct (fl_taken _ _ (gr_file _ _ _ _ (mp_grown _ _ _ _ _ _ _ M2)) n Hn Hx0') as [Hr _].
    rewrite Hbx in Hr. now rewrite (maps_sb _ _ _ _ _ _ _ M3) in Hr. }
  eexists x, k6, nd1, _, _. split_and!; [reflexivity|done|done|done| |exact M3| |].
  - apply not_true_iff_false. intros Hu. apply (gr_used _ _ _ _ G) in Hu; [congruence|done].
  - unfold slack. rewrite (proj2 (Z.eqb_neq (ind nd1) 0)) by congruence. destruct (ind nd =? 0); lia.
  - intros b. rewrite Es1, elem_of_indl, !elem_of_app, !elem_of_cons, elem_of_nil, (one_bitmap x Hxr).
    destruct (Z.eqb_spec (ind nd) 0) as [E|E]; rewrite ?elem_of_nil, ?elem_of_cons, ?elem_of_nil; [|intuition congruence].
    rewrite one_bitmap; [rewrite Ei; intuition congruence|]. destruct Ta as [Hr _]. now rewrite Es1 in Hr.
Qed.

(** A block that is not there is allocated, zeroed and entered in the file. *)
Lemma bmap_fresh : mapped_new ip n k nd.
Proof using All.
  destruct (Z.lt_ge_cases n NDIRECT); [now apply bmap_fresh_direct|now apply bmap_fresh_indirect].
Qed.
End Fresh.
