(* ===== verification/ConsoleIO.v ===== *)
(** * Console input and the console device (console.c)

    [consoleintr] edits the line being typed in a ring buffer with three indices
    that wrap around at 2^32; [consoleread] and [consolewrite] are the functions
    the console puts in [devsw]. *)

From S2P Require Import Prelude State Mmu Vm Umem Spinlock Console Strings ProcInfo Sched Bio Inode Devices.

Definition INPUT_BUF : Z := 128.
#[global] Arguments INPUT_BUF : simpl never.

(** [C(x)] *)
Definition Ctl (c : Z) : Z := c - 64.

Definition updinput (f : input_t -> input_t) : K unit :=
  modify (fun k => set_k_input (f (k_input k)) k).

(** [input.buf[i % INPUT_BUF]] *)
Definition inbyte (inp : input_t) (i : Z) : Z := in_buf inp !!! Z.to_nat (i mod INPUT_BUF).

Definition erase : K unit :=
  updinput (fun inp => set_in_e (u32 (in_e inp - 1)) inp) ;;
  consputc BACKSPACE.

(** The loop of control-U.  At most [INPUT_BUF] characters are erased. *)
Fixpoint kill_line (fuel : nat) : K unit :=
  inp <- gets k_input ;;
  if negb (in_e inp =? in_w inp) && negb (inbyte inp (u32 (in_e inp - 1)) =? 10) then
    match fuel with
    | O => out_of_fuel
    | S fuel' => erase ;; kill_line fuel'
    end
  else ret tt.

(** One round of the [while] loop, for the character [c]; the result says whether
    a process listing was asked for. *)
Definition console_char (c : Z) : K bool :=
  if c =? Ctl 80 then ret true
  else if c =? Ctl 85 then kill_line (Z.to_nat INPUT_BUF) ;; ret false
  else if (c =? Ctl 72) || (c =? 127) then
    inp <- gets k_input ;;
    when (negb (in_e inp =? in_w inp)) erase ;;
    ret false
  else
    inp <- gets k_input ;;
    when (negb (c =? 0) && (u32 (in_e inp - in_r inp) <? INPUT_BUF))
      (let c := if c =? 13 then 10 else c in
       updinput (fun inp => set_in_e (u32 (in_e inp + 1))
         (set_in_buf (<[Z.to_nat (in_e inp mod INPUT_BUF) := u8 c]> (in_buf inp)) inp)) ;;
       consputc c ;;
       inp <- gets k_input ;;
       when ((c =? 10) || (c =? Ctl 68) || (in_e inp =? u32 (in_r inp + INPUT_BUF)))
         (updinput (fun inp => set_in_w (in_e inp) inp) ;;
          wakeup CInputR)) ;;
    ret false.

(** The characters that successive calls of [getc] give, up to the first
    negative one. *)
Fixpoint consoleintr_loop (cs : list Z) (doprocdump : bool) : K bool :=
  match cs with
  | [] => ret doprocdump
  | c :: cs' =>
      d <- console_char c ;;
      consoleintr_loop cs' (doprocdump || d)
  end.

Definition consoleintr (cs : list Z) : K unit :=
  acquire Lcons ;;
  d <- consoleintr_loop cs false ;;
  release Lcons ;;
  when d procdump.

(** Where a read puts its bytes: an address, or an array of the kernel that the
    caller gets back. *)
Inductive dest : Type := ToMem (va : Z) | ToBuf.
(** Where a write takes them from. *)
Inductive source : Type := FromMem (va : Z) | FromBuf (bs : list Z).

(** Bytes [bs] stored from offset [o] of the destination on. *)
Definition deliver (dst : dest) (o : Z) (bs : list Z) : K unit :=
  match dst with
  | ToMem va => vstore (va + o) bs
  | ToBuf => ret tt
  end.

(** [n] bytes from offset [o] of the source on. *)
Definition fetch (src : source) (o : Z) (n : Z) : K (list Z) :=
  match src with
  | FromMem va => vload (Z.to_nat n) (va + o)
  | FromBuf bs => ret (take (Z.to_nat n) (drop (Z.to_nat o) bs))
  end.

(** The inner loop of [consoleread]: false when the process was killed. *)
Fixpoint console_wait (fuel : nat) : K bool :=
  inp <- gets k_input ;;
  if in_r inp =? in_w inp then
    c <- curproc ;;
    p <- getproc c ;;
    if negb (p_killed p =? 0) then ret false
    else
      match fuel with
      | O => out_of_fuel
      | S fuel' => sleep CInputR Lcons ;; console_wait fuel'
      end
  else ret true.

(** The outer loop, with [n] of the [target] bytes left; [acc] is what has been
    read.  The result is [None] when the process was killed. *)
Fixpoint consoleread_loop (n : nat) (dst : dest) (target : Z) (acc : list Z) : K (option (list Z)) :=
  match n with
  | O => ret (Some acc)
  | S n' =>
      ok <- console_wait max_sleeps ;;
      if negb ok then ret None else
      inp <- gets k_input ;;
      let c := inbyte inp (in_r inp) in
      updinput (fun inp => set_in_r (u32 (in_r inp + 1)) inp) ;;
      if c =? Ctl 68 then
        when (Z.of_nat n <? target)
          (updinput (fun inp => set_in_r (u32 (in_r inp - 1)) inp)) ;;
        ret (Some acc)
      else
        deliver dst (Z.of_nat (length acc)) [c] ;;
        let acc := acc ++ [c] in
        if c =? 10 then ret (Some acc) else consoleread_loop n' dst target acc
  end.

Definition consoleread (ip : nat) (dst : dest) (n : Z) : K (Z * list Z) :=
  iunlock ip ;;
  acquire Lcons ;;
  r <- consoleread_loop (Z.to_nat n) dst (u32 n) [] ;;
  release Lcons ;;
  ilock ip ;;
  match r with
  | None => ret (-1, [])
  | Some acc =>
      (* [target - n] *)
      ret (Z.of_nat (length acc), acc)
  end.

Fixpoint consolewrite_loop (n : nat) (src : source) (i : Z) : K unit :=
  match n with
  | O => ret tt
  | S n' =>
      bs <- fetch src i 1 ;;
      consputc (Z.land (default 0 (head bs)) 0xff) ;;
      consolewrite_loop n' src (i + 1)
  end.

Definition consolewrite (ip : nat) (src : source) (n : Z) : K Z :=
  iunlock ip ;;
  acquire Lcons ;;
  consolewrite_loop (Z.to_nat n) src 0 ;;
  release Lcons ;;
  ilock ip ;;
  ret n.

Definition CONSOLE : Z := 1.

Definition consoleinit : K unit :=
  initlock Lcons "console" ;;
  modify (fun k => set_k_devsw (<[Z.to_nat CONSOLE := Some ConsoleDevice]> (k_devsw k)) k) ;;
  modify (set_cons_locking 1) ;;
  picenable IRQ_KBD ;;
  ioapicenable IRQ_KBD 0.
