(* ===== verification/ConsoleSpec.v ===== *)
(** * The console's line discipline (console.c)

    [consoleintr] and [consoleread] against an abstract line editor: a queue of
    committed characters and the line being typed. *)

From S2P Require Import Prelude State Spinlock Console VmUser Mmu Vm Umem Strings ProcInfo Sched Bio Inode Devices ConsoleIO.

(** ** The specification *)

Record line : Type := mkLine { committed : list Z; typed : list Z }.

(** What one character does to the line. *)
Definition line_char (c : Z) (l : line) : line :=
  if c =? Ctl 80 then l
  else if c =? Ctl 85 then mkLine (committed l) []
  else if (c =? Ctl 72) || (c =? 127) then mkLine (committed l) (take (pred (length (typed l))) (typed l))
  else if negb (c =? 0) && (Z.of_nat (length (committed l) + length (typed l)) <? INPUT_BUF) then
    let c := if c =? 13 then 10 else c in
    let t := typed l ++ [c] in
    if (c =? 10) || (c =? Ctl 68) || (Z.of_nat (length (committed l) + length t) =? INPUT_BUF)
    then mkLine (committed l ++ t) []
    else mkLine (committed l) t
  else l.

(** ** The ring buffer *)

(** The [n] characters from index [a] on. *)
Definition seg (inp : input_t) (a : Z) (n : nat) : list Z :=
  (fun i => inbyte inp (a + Z.of_nat i)) <$> seq 0 n.

Definition avail (inp : input_t) : nat := Z.to_nat (u32 (in_w inp - in_r inp)).
Definition editing (inp : input_t) : nat := Z.to_nat (u32 (in_e inp - in_w inp)).

Record input_ok (inp : input_t) : Prop := {
  io_len : length (in_buf inp) = Z.to_nat INPUT_BUF;
  io_r : 0 <= in_r inp < 2 ^ 32;
  io_w : 0 <= in_w inp < 2 ^ 32;
  io_e : 0 <= in_e inp < 2 ^ 32;
  io_fits : Z.of_nat (avail inp + editing inp) <= INPUT_BUF
}.

(** The buffer holds the line [l]. *)
Record shows (inp : input_t) (l : line) : Prop := {
  sh_ok : input_ok inp;
  sh_committed : seg inp (in_r inp) (avail inp) = committed l;
  sh_typed : seg inp (in_w inp) (editing inp) = typed l;
  sh_nl : (10 ∉ typed l)
}.

Ltac wrap :=
  unfold avail, editing, u32, INPUT_BUF in *;
  cbn [in_r in_w in_e in_buf set_in_r set_in_w set_in_e set_in_buf] in *;
  Z.div_mod_to_equations; lia.

Lemma length_seg inp a n : length (seg inp a n) = n.
Proof. unfold seg. now rewrite length_fmap, length_seq. Qed.

Lemma shows_lengths inp l :
  shows inp l -> length (committed l) = avail inp /\ length (typed l) = editing inp.
Proof. intros [_ <- <- _]. now rewrite !length_seg. Qed.

(** The index counters wrap around at a multiple of the buffer's size. *)
Lemma inbyte_wrap inp a b : a mod INPUT_BUF = b mod INPUT_BUF -> inbyte inp a = inbyte inp b.
Proof. unfold inbyte. now intros ->. Qed.

Lemma seg_app inp a n m : seg inp a (n + m) = seg inp a n ++ seg inp (a + Z.of_nat n) m.
Proof.
  unfold seg. rewrite seq_app, fmap_app. f_equal. rewrite <- (Nat.add_0_r (0 + n)), <- fmap_add_seq.
  rewrite <- list_fmap_compose. apply list_fmap_ext. intros _ i _. unfold compose. f_equal. lia.
Qed.

Lemma seg_wrap inp a b n : a mod INPUT_BUF = b mod INPUT_BUF -> seg inp a n = seg inp b n.
Proof.
  intros H. apply list_fmap_ext. intros _ i _. apply inbyte_wrap. unfold INPUT_BUF in *. Z.div_mod_to_equations. lia.
Qed.

Lemma seg_S inp a n : seg inp a (S n) = inbyte inp a :: seg inp (a + 1) n.
Proof. replace (S n) with (1 + n)%nat by lia. rewrite seg_app. unfold seg at 1. cbn. now rewrite Z.add_0_r. Qed.

Lemma seg_take inp a n : seg inp a (pred n) = take (pred n) (seg inp a n).
Proof.
  destruct n as [|n]; [done|]. cbn [pred]. replace (S n) with (n + 1)%nat by lia.
  rewrite seg_app, take_app_length'; [done|]. now rewrite length_seg.
Qed.

(** A character stored at index [e] does not change those before it. *)
Lemma seg_store inp a n e c :
  (forall i, (i < n)%nat -> (a + Z.of_nat i) mod INPUT_BUF <> e mod INPUT_BUF) ->
  seg (set_in_buf (<[Z.to_nat (e mod INPUT_BUF) := c]> (in_buf inp)) inp) a n = seg inp a n.
Proof.
  intros H. apply list_fmap_ext. intros j i Hi. apply lookup_seq in Hi as [-> Hi].
  unfold inbyte. cbn [in_buf set_in_buf]. apply list_lookup_total_insert_ne.
  specialize (H _ Hi). unfold INPUT_BUF in *. Z.div_mod_to_equations. lia.
Qed.

(** ** The editing operations on the buffer *)

Definition erase1 (inp : input_t) : input_t := set_in_e (u32 (in_e inp - 1)) inp.

Lemma shows_empty inp l : shows inp l -> (in_e inp =? in_w inp) = bool_decide (typed l = []).
Proof.
  intros H. pose proof (shows_lengths _ _ H) as [_ Hl]. destruct (sh_ok _ _ H) as [_ _ Hw He Hf].
  destruct (Z.eqb_spec (in_e inp) (in_w inp)) as [E|E]; symmetry.
  - apply bool_decide_eq_true. apply nil_length_inv. rewrite Hl. wrap.
  - apply bool_decide_eq_false. intros Ht. rewrite Ht in Hl. cbn in Hl. wrap.
Qed.

Lemma erase1_shows inp l :
  shows inp l -> typed l <> [] -> shows (erase1 inp) (mkLine (committed l) (take (pred (length (typed l))) (typed l))).
Proof.
  intros H Hne. pose proof (shows_lengths _ _ H) as [Hc Ht]. destruct H as [[H0 H1 H2 H3 H4] Ec Et Hn].
  assert (Hp : editing inp <> 0%nat) by (rewrite <- Ht; destruct (typed l); done).
  assert (He : editing (erase1 inp) = pred (editing inp)) by (unfold erase1; wrap).
  split; cbn [committed typed].
  - split; try done; [apply u32_range|]. rewrite He. change (avail (erase1 inp)) with (avail inp). lia.
  - exact Ec.
  - rewrite He, Ht, <- Et. change (seg (erase1 inp) (in_w (erase1 inp))) with (seg inp (in_w inp)). apply seg_take.
  - intros Hin. apply Hn. rewrite <- (take_drop (pred (length (typed l))) (typed l)). apply elem_of_app. now left.
Qed.

(** The character before the cursor is the last one typed. *)
Lemma shows_last inp l : shows inp l -> last (typed l) = Some (inbyte inp (u32 (in_e inp - 1))) \/ typed l = [].
Proof.
  intros H. pose proof (shows_lengths _ _ H) as [_ Ht]. destruct (typed l) as [|x t] eqn:E; [now right|left].
  destruct H as [[H0 H1 H2 H3 H4] _ Et _]. rewrite <- E, <- Et.
  replace (editing inp) with (pred (editing inp) + 1)%nat by (cbn in Ht; lia).
  rewrite seg_app, (seg_S _ _ 0). change (seg inp _ 0) with (@nil Z). rewrite last_snoc. f_equal. apply inbyte_wrap. cbn in Ht. wrap.
Qed.

Definition store1 (c : Z) (inp : input_t) : input_t :=
  set_in_e (u32 (in_e inp + 1)) (set_in_buf (<[Z.to_nat (in_e inp mod INPUT_BUF) := u8 c]> (in_buf inp)) inp).

Lemma store1_seg c inp l :
  shows inp l -> Z.of_nat (avail inp + editing inp) < INPUT_BUF ->
  avail (store1 c inp) = avail inp /\ editing (store1 c inp) = S (editing inp) /\
  seg (store1 c inp) (in_r inp) (avail inp) = committed l /\
  seg (store1 c inp) (in_w inp) (S (editing inp)) = typed l ++ [u8 c].
Proof.
  intros H Hf. destruct H as [[H0 H1 H2 H3 H4] Ec Et Hn].
  assert (Hs : forall a n, (forall i, (i < n)%nat -> (a + Z.of_nat i) mod INPUT_BUF <> in_e inp mod INPUT_BUF) ->
    seg (store1 c inp) a n = seg inp a n) by (intros a n; apply seg_store).
  split_and!; [done|unfold store1; wrap| |].
  - rewrite Hs; [done|]. intros i Hi. wrap.
  - replace (S (editing inp)) with (editing inp + 1)%nat by lia. rewrite seg_app, Hs by (intros i Hi; wrap).
    rewrite Et. f_equal. unfold seg. cbn. f_equal. unfold inbyte, store1. cbn [in_buf set_in_e set_in_buf].
    replace (Z.to_nat ((in_w inp + Z.of_nat (editing inp) + Z.of_nat 0) mod INPUT_BUF))
      with (Z.to_nat (in_e inp mod INPUT_BUF)) by (f_equal; wrap).
    apply list_lookup_total_insert_eq. rewrite H0. wrap.
Qed.

Lemma store1_ok c inp l :
  shows inp l -> Z.of_nat (avail inp + editing inp) < INPUT_BUF -> input_ok (store1 c inp).
Proof.
  intros H Hf. destruct (store1_seg c inp l H Hf) as (Ea & Ee & _). destruct (sh_ok _ _ H) as [H0 H1 H2 H3 H4].
  split; try done; [cbn; now rewrite length_insert|apply u32_range|]. rewrite Ea, Ee. lia.
Qed.

Lemma store1_shows c inp l :
  shows inp l -> Z.of_nat (avail inp + editing inp) < INPUT_BUF -> 0 <= c < 256 -> c <> 10 ->
  shows (store1 c inp) (mkLine (committed l) (typed l ++ [c])).
Proof.
  intros H Hf Hc Hnl. destruct (store1_seg c inp l H Hf) as (Ea & Ee & E1 & E2).
  rewrite u8_small in E2 by done. split; cbn [committed typed].
  - now apply (store1_ok c inp l).
  - now rewrite Ea.
  - now rewrite Ee.
  - rewrite elem_of_app, list_elem_of_singleton. intros [Hin|E]; [now apply (sh_nl _ _ H)|]. now apply Hnl.
Qed.

Definition commit1 (inp : input_t) : input_t := set_in_w (in_e inp) inp.

Lemma commit1_shows c inp l :
  shows inp l -> Z.of_nat (avail inp + editing inp) < INPUT_BUF -> 0 <= c < 256 ->
  shows (commit1 (store1 c inp)) (mkLine (committed l ++ typed l ++ [c]) []).
Proof.
  intros H Hf Hc. destruct (store1_seg c inp l H Hf) as (Ea & Ee & E1 & E2).
  rewrite u8_small in E2 by done. pose proof (store1_ok c inp l H Hf) as [H0 H1 H2 H3 H4].
  assert (Hav : avail (commit1 (store1 c inp)) = (avail inp + S (editing inp))%nat).
  { destruct (sh_ok _ _ H) as [_ G1 G2 G3 G4]. unfold commit1, store1. wrap. }
  assert (Hed : editing (commit1 (store1 c inp)) = 0%nat).
  { unfold commit1, editing. cbn [in_e in_w set_in_w]. now rewrite Z.sub_diag. }
  split; cbn [committed typed].
  - split; [exact H0|exact H1|exact H3|exact H3|]. rewrite Hav, Hed. lia.
  - rewrite Hav, seg_app. change (in_r (commit1 (store1 c inp))) with (in_r inp). f_equal; [exact E1|].
    rewrite <- E2. change (seg (commit1 (store1 c inp))) with (seg (store1 c inp)). apply seg_wrap.
    destruct (sh_ok _ _ H) as [_ G1 G2 G3 G4]. wrap.
  - now rewrite Hed.
  - apply not_elem_of_nil.
Qed.

(** ** One character *)

(** The processes waiting for input are woken when characters were committed. *)
Definition woken (l l' : line) (ps : list proc) : list proc :=
  if decide (committed l' = committed l) then ps else wakeup1_proc CInputR <$> ps.

(** From [k] with line [l] to [k'] with line [l']: only the input buffer, the console's
    output and the sleeping readers change. *)
Record cstep (k : kernel) (l : line) (k' : kernel) (l' : line) : Prop := {
  cs_frame : exists inp log crt pos,
    k' = set_k_input inp (with_console log crt pos (set_ptable (woken l l' (ptable k)) k));
  cs_screen : screen_ok k';
  cs_shows : shows (k_input k') l';
  cs_grows : committed l `prefix_of` committed l'
}.

Lemma wakeup1_proc_twice ch p : wakeup1_proc ch (wakeup1_proc ch p) = wakeup1_proc ch p.
Proof.
  unfold wakeup1_proc at 2. destruct (bool_decide (p_state p = SLEEPING) && bool_decide (p_chan p = ch)) eqn:E.
  - unfold wakeup1_proc. rewrite E. cbn. done.
  - unfold wakeup1_proc. now rewrite E.
Qed.

Lemma commit_woken_trans l1 l2 l3 ps :
  committed l1 `prefix_of` committed l2 -> committed l2 `prefix_of` committed l3 ->
  woken l2 l3 (woken l1 l2 ps) = woken l1 l3 ps.
Proof.
  intros H12 H23. unfold woken.
  destruct (decide (committed l2 = committed l1)) as [E1|E1], (decide (committed l3 = committed l2)) as [E2|E2],
    (decide (committed l3 = committed l1)) as [E3|E3]; try done; try congruence.
  - exfalso. apply E1. rewrite E3 in H23. apply prefix_length_eq; [exact H23|]. apply prefix_length, H12.
  - rewrite <- list_fmap_compose. apply list_fmap_ext. intros _ p _. apply wakeup1_proc_twice.
Qed.

Lemma cstep_refl k l : screen_ok k -> shows (k_input k) l -> cstep k l k l.
Proof.
  intros Hs Hl. split; [|done|done|reflexivity].
  exists (k_input k), (conslog k), (k_crt k), (k_crtpos k). unfold woken. rewrite decide_True by done. now destruct k.
Qed.

Lemma cstep_trans k1 l1 k2 l2 k3 l3 : cstep k1 l1 k2 l2 -> cstep k2 l2 k3 l3 -> cstep k1 l1 k3 l3.
Proof.
  intros [(i1 & g1 & c1 & p1 & E1) S1 H1 G1] [(i2 & g2 & c2 & p2 & E2) S2 H2 G2].
  split; [|done|done|now transitivity (committed l2)].
  exists i2, g2, c2, p2. rewrite E2, E1, <- (commit_woken_trans l1 l2 l3) by done. now destruct k1.
Qed.

(** A change of the buffer followed by output. *)
Lemma cstep_put c k l inp l' :
  screen_ok k -> shows inp l' -> committed l' = committed l ->
  exists k', consputc c (set_k_input inp k) = Ok tt k' /\ cstep k l k' l' /\ k_input k' = inp.
Proof.
  intros Hs Hl Hc. destruct (consputc_run c (set_k_input inp k)) as (g & crt & pos & Hr & Hs'); [exact Hs|].
  eexists. split; [exact Hr|]. split; [|done]. split; [|exact Hs'|exact Hl|now rewrite Hc].
  exists inp, g, crt, pos. unfold woken. rewrite decide_True by done. now destruct k.
Qed.

Lemma erase_run k l :
  screen_ok k -> shows (k_input k) l -> typed l <> [] ->
  exists k', erase k = Ok tt k' /\
    cstep k l k' (mkLine (committed l) (take (pred (length (typed l))) (typed l))).
Proof.
  intros Hs Hl Hne. unfold erase, updinput. mred.
  destruct (cstep_put BACKSPACE k l (erase1 (k_input k)) (mkLine (committed l) (take (pred (length (typed l))) (typed l)))
    Hs (erase1_shows _ _ Hl Hne) eq_refl) as (k' & Hr & Hc & _). now exists k'.
Qed.

Lemma kill_line_run n : forall k l,
  screen_ok k -> shows (k_input k) l -> (length (typed l) <= n)%nat ->
  exists k', kill_line n k = Ok tt k' /\ cstep k l k' (mkLine (committed l) []).
Proof.
  assert (Hdone : forall k l, screen_ok k -> shows (k_input k) l -> typed l = [] -> cstep k l k (mkLine (committed l) [])).
  { intros k [cl tl] Hs Hl Ht. cbn in Ht. subst tl. now apply cstep_refl. }
  induction n as [|n IH]; intros k l Hs Hl Hn; cbn [kill_line]; mred; rewrite (shows_empty _ _ Hl).
  { rewrite bool_decide_true by (apply nil_length_inv; lia). exists k. split; [done|].
    apply Hdone; [done|done|]. apply nil_length_inv. lia. }
  destruct (decide (typed l = [])) as [E|E].
  { rewrite bool_decide_true by done. exists k. split; [done|]. now apply Hdone. }
  rewrite bool_decide_false by done. cbn [negb andb].
  destruct (shows_last _ _ Hl) as [Hlast|]; [|done].
  assert (Hx : inbyte (k_input k) (u32 (in_e (k_input k) - 1)) <> 10).
  { intros Ex. apply (sh_nl _ _ Hl). rewrite Ex in Hlast. apply last_Some in Hlast as [t ->].
    apply elem_of_app. right. now apply list_elem_of_singleton. }
  rewrite (proj2 (Z.eqb_neq _ _) Hx). cbn [negb].
  destruct (erase_run k l Hs Hl E) as (k1 & Hr & Hc1). mok Hr.
  destruct (IH k1 _ (cs_screen _ _ _ _ Hc1) (cs_shows _ _ _ _ Hc1)) as (k2 & Hr2 & Hc2).
  { cbn [typed]. rewrite length_take. lia. }
  exists k2. split; [exact Hr2|]. exact (cstep_trans _ _ _ _ _ _ Hc1 Hc2).
Qed.

Lemma full_iff inp l c :
  shows inp l -> Z.of_nat (avail inp + editing inp) < INPUT_BUF ->
  (in_e (store1 c inp) =? u32 (in_r (store1 c inp) + INPUT_BUF)) =
  (Z.of_nat (length (committed l) + length (typed l ++ [c])) =? INPUT_BUF).
Proof.
  intros H Hf. destruct (shows_lengths _ _ H) as [H1 H2]. rewrite length_app, H1, H2. cbn [length].
  destruct (sh_ok _ _ H) as [G0 G1 G2 G3 G4]. unfold store1. cbn [in_e in_r set_in_e set_in_buf].
  destruct (Z.eqb_spec (u32 (in_e inp + 1)) (u32 (in_r inp + INPUT_BUF)));
    destruct (Z.eqb_spec (Z.of_nat (avail inp + (editing inp + 1))) INPUT_BUF); try done; exfalso; wrap.
Qed.

Lemma room_iff inp l :
  shows inp l ->
  (u32 (in_e inp - in_r inp) <? INPUT_BUF) = (Z.of_nat (length (committed l) + length (typed l)) <? INPUT_BUF).
Proof.
  intros H. destruct (shows_lengths _ _ H) as [-> ->]. destruct (sh_ok _ _ H) as [G0 G1 G2 G3 G4].
  destruct (Z.ltb_spec (u32 (in_e inp - in_r inp)) INPUT_BUF), (Z.ltb_spec (Z.of_nat (avail inp + editing inp)) INPUT_BUF);
    try done; exfalso; wrap.
Qed.

(** The branch that stores the character [c]. *)
Lemma store_run c k l :
  screen_ok k -> shows (k_input k) l -> cpu_ok (k_cpu k) -> lock_free Lptable k -> 0 <= c < 256 ->
  Z.of_nat (length (committed l) + length (typed l)) < INPUT_BUF ->
  exists k',
    (updinput (store1 c) ;; consputc c ;;
     inp <- gets k_input ;;
     when ((c =? 10) || (c =? Ctl 68) || (in_e inp =? u32 (in_r inp + INPUT_BUF)))
       (updinput commit1 ;; wakeup CInputR)) k = Ok tt k' /\
    cstep k l k'
      (if (c =? 10) || (c =? Ctl 68) || (Z.of_nat (length (committed l) + length (typed l ++ [c])) =? INPUT_BUF)
       then mkLine (committed l ++ typed l ++ [c]) [] else mkLine (committed l) (typed l ++ [c])).
Proof.
  intros Hs Hl Hc Hp Hch Hf. destruct (shows_lengths _ _ Hl) as [L1 L2]. rewrite L1, L2 in Hf.
  unfold updinput. mred. set (inp := store1 c (k_input k)).
  destruct (consputc_run c (set_k_input inp k)) as (g & crt & pos & Hr & Hs'); [exact Hs|]. mok Hr. mred.
  change (k_input (with_console g crt pos (set_k_input inp k))) with inp.
  unfold inp at 1 2. rewrite (full_iff _ l) by done. fold inp.
  set (cm := (c =? 10) || (c =? Ctl 68) || _). destruct cm eqn:Ecm; cbn [when].
  - mred. rewrite (wakeup_run CInputR) by assumption. eexists. split; [reflexivity|]. split.
    + exists (commit1 inp), g, crt, pos. unfold woken. rewrite decide_False; [now destruct k|].
      cbn [committed]. intros E. apply (f_equal length) in E. rewrite !length_app in E. cbn in E. lia.
    + exact Hs'.
    + now apply (commit1_shows c (k_input k) l).
    + now apply prefix_app_r.
  - eexists. split; [reflexivity|]. apply orb_false_iff in Ecm as [Ecm _]. apply orb_false_iff in Ecm as [Ecm _].
    apply Z.eqb_neq in Ecm. split; [|exact Hs'| |reflexivity].
    + exists inp, g, crt, pos. unfold woken. rewrite decide_True by done. now destruct k.
    + now apply (store1_shows c (k_input k) l).
Qed.

Lemma console_char_run c k l :
  screen_ok k -> shows (k_input k) l -> cpu_ok (k_cpu k) -> lock_free Lptable k -> 0 <= c < 256 ->
  exists k', console_char c k = Ok (c =? Ctl 80) k' /\ cstep k l k' (line_char c l).
Proof.
  intros Hs Hl Hc Hp Hch. unfold console_char, line_char.
  destruct (c =? Ctl 80) eqn:E1. { exists k. split; [done|]. now apply cstep_refl. }
  destruct (c =? Ctl 85) eqn:E2.
  { destruct (kill_line_run (Z.to_nat INPUT_BUF) k l Hs Hl) as (k' & Hr & Hst).
    { destruct (shows_lengths _ _ Hl) as [_ ->]. destruct (sh_ok _ _ Hl). lia. }
    mok Hr. now exists k'. }
  destruct ((c =? Ctl 72) || (c =? 127)) eqn:E3.
  { mred. rewrite (shows_empty _ _ Hl). destruct (decide (typed l = [])) as [E|E].
    - rewrite bool_decide_true by done. cbn [negb when]. mred. exists k. split; [done|].
      destruct l as [cl tl]. cbn in E. subst tl. now apply cstep_refl.
    - rewrite bool_decide_false by done. cbn [negb when].
      destruct (erase_run k l Hs Hl E) as (k' & Hr & Hst). mok Hr. now exists k'. }
  mred. rewrite (room_iff _ _ Hl). destruct (negb (c =? 0) && _) eqn:E4; cbn [when].
  - apply andb_true_iff in E4 as [_ E4]. apply Z.ltb_lt in E4.
    set (c' := if c =? 13 then 10 else c). assert (Hc' : 0 <= c' < 256) by (unfold c'; destruct (c =? 13); lia).
    destruct (store_run c' k l Hs Hl Hc Hp Hc' E4) as (k' & Hr & Hst). mok Hr. now exists k'.
  - mred. exists k. split; [done|]. now apply cstep_refl.
Qed.

(** ** Interrupts *)

Lemma cstep_keeps k l k' l' :
  cstep k l k' l' -> k_cpu k' = k_cpu k /\ k_locks k' = k_locks k /\ cons_locking k' = cons_locking k.
Proof. intros [(i & g & c & p & ->) _ _ _]. now destruct k. Qed.

Lemma consoleintr_loop_run cs : forall d k l,
  screen_ok k -> shows (k_input k) l -> cpu_ok (k_cpu k) -> lock_free Lptable k ->
  Forall (fun c => 0 <= c < 256) cs ->
  exists k', consoleintr_loop cs d k = Ok (d || existsb (Z.eqb (Ctl 80)) cs) k' /\
    cstep k l k' (foldl (fun l c => line_char c l) l cs).
Proof.
  induction cs as [|c cs IH]; intros d k l Hs Hl Hc Hp Hcs; cbn [consoleintr_loop foldl existsb].
  { exists k. rewrite orb_false_r. split; [done|]. now apply cstep_refl. }
  apply Forall_cons in Hcs as [Hch Hcs]. destruct (console_char_run c k l Hs Hl Hc Hp Hch) as (k1 & Hr & H1). mok Hr.
  destruct (cstep_keeps _ _ _ _ H1) as (E1 & E2 & _). destruct H1 as [F1 S1 L1 G1] eqn:EH.
  destruct (IH (d || (c =? Ctl 80)) k1 _ S1 L1) as (k2 & Hr2 & H2); [now rewrite E1| |done|].
  { unfold lock_free. rewrite E2. exact Hp. }
  exists k2. split; [|exact (cstep_trans _ _ _ _ _ _ H1 H2)].
  rewrite Hr2. f_equal. rewrite <- orb_assoc, (Z.eqb_sym (Ctl 80) c). done.
Qed.

(** [m] only prints, from a state in which the console can be used. *)
Definition printer (m : K unit) : Prop :=
  forall k, cons_ok k -> exists log crt pos, m k = Ok tt (with_console log crt pos k) /\
    cons_ok (with_console log crt pos k).

Lemma printer_cprintf fmt args : printer (cprintf fmt args).
Proof.
  intros k [Hs Hl]. destruct (cprintf_run fmt args k Hs Hl) as (g & c & p & Hr & Hs').
  exists g, c, p. split; [exact Hr|]. split; [exact Hs'|exact Hl].
Qed.

Lemma printer_ret : printer (ret tt).
Proof.
  intros k H. exists (conslog k), (k_crt k), (k_crtpos k).
  assert (E : with_console (conslog k) (k_crt k) (k_crtpos k) k = k) by now destruct k. now rewrite E.
Qed.

Lemma printer_bind m (f : unit -> K unit) : printer m -> printer (f tt) -> printer (bind m f).
Proof.
  intros Hm Hf k Hk. destruct (Hm k Hk) as (g & c & p & Hr & H1). mok Hr.
  destruct (Hf _ H1) as (g' & c' & p' & Hr' & H2). rewrite with_console_twice in Hr', H2. eauto.
Qed.

Lemma printer_gets {A} (g : kernel -> A) (f : A -> K unit) : (forall a, printer (f a)) -> printer (bind (gets g) f).
Proof. intros Hf k Hk. rewrite bind_gets. now apply Hf. Qed.

#[export] Hint Resolve printer_cprintf printer_ret printer_bind printer_gets : console.

Lemma printer_pcs pc : printer (print_pcs pc).
Proof. induction pc as [|x pc IH]; cbn [print_pcs]; [|destruct (x =? 0)]; auto with console. Qed.
#[export] Hint Resolve printer_pcs : console.

Lemma printer_procdump n : forall i, printer (procdump_loop n i).
Proof.
  induction n as [|n IH]; intros i; cbn [procdump_loop]; [auto with console|].
  apply printer_gets. intros p. apply printer_bind; [|apply IH].
  destruct (decide _); [auto with console|]. apply printer_bind; [auto with console|].
  apply printer_bind; [|auto with console]. destruct (decide _); auto with console.
Qed.

Lemma cstep_print k l log crt pos :
  screen_ok (with_console log crt pos k) -> shows (k_input k) l -> cstep k l (with_console log crt pos k) l.
Proof.
  intros Hs Hl. split; [|done|done|reflexivity]. exists (k_input k), log, crt, pos. unfold woken.
  rewrite decide_True by done. now destruct k.
Qed.

(** C21.  The console's interrupt handler implements the line editor: from a buffer that
    holds a line, whatever characters arrive, [consoleintr] returns, and the buffer
    then holds the line with the characters applied in order (control-U erases exactly
    the uncommitted line, backspace its last character, newline, end-of-file and a full
    buffer commit it, characters beyond 128 are dropped).  Processes sleeping for input
    are woken exactly when something was committed; nothing but the console changes. *)
Theorem consoleintr_refines cs k l :
  screen_ok k -> shows (k_input k) l -> cpu_ok (k_cpu k) -> lock_free Lcons k -> lock_free Lptable k ->
  Forall (fun c => 0 <= c < 256) cs ->
  exists k', consoleintr cs k = Ok tt k' /\ cstep k l k' (foldl (fun l c => line_char c l) l cs).
Proof.
  intros Hs Hl Hc Hcl Hp Hcs. unfold consoleintr. mok (acquire_free Lcons k Hcl).
  destruct (consoleintr_loop_run cs false (held Lcons k) l Hs Hl) as (kh & Hr & [(i & g & cr & p & E) S1 L1 G1]);
    [now apply cpu_ok_pushed|now apply lock_free_held|done|]. mok Hr.
  set (l' := foldl _ l cs) in *.
  set (k1 := set_k_input i (with_console g cr p (set_ptable (woken l l' (ptable k)) k))).
  assert (Ek : kh = held Lcons k1) by exact E.
  assert (H1 : cstep k l k1 l').
  { rewrite Ek in S1, L1. split; [now exists i, g, cr, p|exact S1|exact L1|exact G1]. }
  rewrite Ek. mok (release_held Lcons k1 Hc Hcl). destruct (false || _); cbn [when].
  - destruct (printer_procdump (Z.to_nat NPROC) 0 k1) as (g2 & c2 & p2 & Hr2 & [Hs2 _]).
    { split; [apply H1|right; split; [exact Hcl|exact Hc]]. }
    eexists. split; [exact Hr2|]. eapply cstep_trans; [exact H1|]. apply cstep_print; [exact Hs2|apply H1].
  - exists k1. split; [done|exact H1].
Qed.

(** The first keystrokes after start-up: "ab", backspace, "c", newline. *)
Lemma consoleintr_refines_witness :
  exists k', consoleintr [97; 98; 8; 99; 13] kernel0 = Ok tt k' /\
    cstep kernel0 (mkLine [] []) k' (mkLine [97; 99; 10] []).
Proof.
  apply (consoleintr_refines [97; 98; 8; 99; 13] kernel0 (mkLine [] [])).
  - split; [cbn; lia|reflexivity].
  - split; [|reflexivity|reflexivity|apply not_elem_of_nil].
    split; [reflexivity|cbn; lia|cbn; lia|cbn; lia|vm_compute; discriminate].
  - split_and!; [cbn; lia|reflexivity|cbn; lia].
  - eexists. reflexivity.
  - eexists. reflexivity.
  - repeat constructor; lia.
Defined.
