(* ===== verification/Kbd.v ===== *)
(** * The interrupts of the keyboard and of the serial port (kbd.c, uart.c)

    [kbdintr] and [uartintr] give [consoleintr] the characters of their device:
    [kbdgetc] once for each scan code the controller holds, [uartgetc] once for
    each byte received.  The theorem of the file is about typing: the scan codes that
    a PC keyboard sends for the keys struck, through the tables of kbd.h, are to the
    console the characters on the keys. *)

From S2P Require Import Prelude State Equiv Mmu Vm Umem Spinlock Console Strings ProcInfo Sched Bio Inode Devices ConsoleIO.

(** The calls of [kbdgetc] while the controller has the scan codes [data] for it,
    in that order: the characters, and [shift] afterwards.  The call after them
    sees no data and gives -1. *)
Fixpoint kbd_chars (data : list Z) (shift : Z) : list Z * Z :=
  match data with
  | [] => ([], shift)
  | d :: data' =>
      let '(c, shift) := kbdgetc KBS_DIB d shift in
      let '(cs, shift) := kbd_chars data' shift in
      (c :: cs, shift)
  end.

(** The result is the static variable [shift] of [kbdgetc]. *)
Definition kbdintr (data : list Z) (shift : Z) : K Z :=
  let '(cs, shift) := kbd_chars data shift in
  consoleintr cs ;;
  ret shift.

(** The calls of [uartgetc] while the port has the bytes [rbr]. *)
Fixpoint uart_chars (uart : Z) (rbr : list Z) : list Z :=
  match rbr with
  | [] => []
  | b :: rbr' =>
      let c := uartgetc uart 0x01 b in
      if c <? 0 then [] else c :: uart_chars uart rbr'
  end.

Definition uartintr (uart : Z) (rbr : list Z) : K unit :=
  consoleintr (uart_chars uart rbr).

(** ** The keyboard *)

(** A key of a US keyboard: the scan code it sends (set 1; an extended key sends 0xE0
    before it), and the characters on it, without and with shift. *)
Record keycap : Type := mkKey { extended : bool; code : Z; plain : Z; shifted : Z }.

(** Neighbouring keys, from the code [i] on. *)
Fixpoint row (i : Z) (ps ss : list Z) : list keycap :=
  match ps, ss with
  | p :: ps', s :: ss' => mkKey false i p s :: row (i + 1) ps' ss'
  | _, _ => []
  end.

(** A key with one character or function. *)
Definition single (ext : bool) (i c : Z) : keycap := mkKey ext i c c.

(** The character of the double quote. *)
Definition quote : Z := 34.

Definition keyboard : list keycap :=
  single false 0x01 27 ::
  row 0x02 (str "1234567890-=") (str "!@#$%^&*()_+") ++
  [single false 0x0E 8; single false 0x0F 9] ++
  row 0x10 (str "qwertyuiop[]") (str "QWERTYUIOP{}") ++
  [single false 0x1C 10] ++
  row 0x1E (str "asdfghjkl;'`") (str "ASDFGHJKL:" ++ [quote] ++ str "~") ++
  row 0x2B (str "\zxcvbnm,./") (str "|ZXCVBNM<>?") ++
  [single false 0x37 42; single false 0x39 32] ++
  row 0x47 (str "789-456+1230.") (str "789-456+1230.") ++
  [single true 0x1C 10; single true 0x35 47;
   single true 0x48 KEY_UP; single true 0x50 KEY_DN; single true 0x4B KEY_LF; single true 0x4D KEY_RT;
   single true 0x49 KEY_PGUP; single true 0x51 KEY_PGDN; single true 0x4F KEY_END;
   single true 0x52 KEY_INS; single true 0x53 KEY_DEL].

(** The key Home, for which the tables have no entry. *)
Definition home_key : keycap := single true 0x47 KEY_HOME.

Definition press (k : keycap) : list Z := if extended k then [0xE0; code k] else [code k].
Definition let_go (k : keycap) : list Z := if extended k then [0xE0; Z.lor (code k) 0x80] else [Z.lor (code k) 0x80].
Definition tap (k : keycap) : list Z := press k ++ let_go k.

(** The modifier held down while keys are struck. *)
Inductive hold : Type := Bare | LeftShift | RightShift | LeftCtl | RightCtl.

Definition holds : list hold := [Bare; LeftShift; RightShift; LeftCtl; RightCtl].

Definition modifier (h : hold) : option keycap :=
  match h with
  | Bare => None
  | LeftShift => Some (single false 0x2A 0)
  | RightShift => Some (single false 0x36 0)
  | LeftCtl => Some (single false 0x1D 0)
  | RightCtl => Some (single true 0x1D 0)
  end.

(** Keys struck while one modifier is down, and the scan codes of a typed text. *)
Definition strokes (h : hold) (ks : list keycap) : list Z :=
  match modifier h with
  | None => ks ≫= tap
  | Some m => press m ++ (ks ≫= tap) ++ let_go m
  end.

Definition text : Type := list (hold * list keycap).
Definition typing (t : text) : list Z := t ≫= fun '(h, ks) => strokes h ks.

(** ** What the keys mean *)

Definition is_lower (c : Z) : bool := (97 <=? c) && (c <=? 122).
Definition is_upper (c : Z) : bool := (65 <=? c) && (c <=? 90).

Definition swap_case (c : Z) : Z := if is_lower c then c - 32 else if is_upper c then c + 32 else c.

(** With control, a letter is its control character and the line feed a carriage
    return; the function keys stay what they are. *)
Definition control_char (c : Z) : Z := if is_lower c then c - 96 else if c =? 10 then 13 else c.

(** The character of a key struck while [h] is down; caps lock changes the case of
    letters. *)
Definition char_of (caps : bool) (h : hold) (k : keycap) : Z :=
  let c := match h with
           | Bare => plain k
           | LeftShift | RightShift => shifted k
           | LeftCtl | RightCtl => control_char (plain k)
           end in
  if caps then swap_case c else c.

(** A key of the keyboard; with control, only those that have a meaning of their own. *)
Definition typeable (h : hold) (k : keycap) : Prop :=
  k ∈ keyboard /\
  match h with
  | LeftCtl | RightCtl => is_lower (plain k) || (plain k =? 10) || (224 <=? plain k) = true
  | _ => True
  end.

Definition chars (caps : bool) (t : text) : list Z := t ≫= fun '(h, ks) => char_of caps h <$> ks.

(** The values of [shift] with no modifier held down; the locks may be on. *)
Definition locks : list Z :=
  [0; CAPSLOCK; NUMLOCK; Z.lor CAPSLOCK NUMLOCK; SCROLLLOCK; Z.lor CAPSLOCK SCROLLLOCK;
   Z.lor NUMLOCK SCROLLLOCK; Z.lor CAPSLOCK (Z.lor NUMLOCK SCROLLLOCK)].

Definition caps_on (sh : Z) : bool := Z.testbit sh 3.

(** The same with a modifier held down. *)
Definition held_down (h : hold) (sh : Z) : Z :=
  match h with
  | Bare => sh
  | LeftShift | RightShift => Z.lor sh SHIFT
  | LeftCtl | RightCtl => Z.lor sh CTL
  end.

#[global] Instance keycap_eq_dec : EqDecision keycap.
Proof. solve_decision. Defined.
#[global] Instance hold_eq_dec : EqDecision hold.
Proof. solve_decision. Defined.
#[global] Instance typeable_dec h k : Decision (typeable h k).
Proof. unfold typeable. destruct h; apply _. Defined.

(** The characters of [cs] that are not 0: [kbdgetc] gives 0 for a key that is no
    character, and for a release. *)
Definition nonzero (cs : list Z) : list Z := filter (fun c => c ≠ 0) cs.

(** ** Lemmas *)

Lemma kbd_chars_app d1 d2 sh :
  kbd_chars (d1 ++ d2) sh =
  ((kbd_chars d1 sh).1 ++ (kbd_chars d2 (kbd_chars d1 sh).2).1,
   (kbd_chars d2 (kbd_chars d1 sh).2).2).
Proof.
  revert sh. induction d1 as [|d d1 IH]; intros sh; cbn.
  - by destruct (kbd_chars d2 sh).
  - destruct (kbdgetc KBS_DIB d sh) as [c sh1]. rewrite IH.
    by destruct (kbd_chars d1 sh1).
Qed.

(** The scan codes [d] give the characters [cs] and take [shift] from [sh] to [sh']. *)
Definition gives (d : list Z) (sh : Z) (cs : list Z) (sh' : Z) : Prop :=
  nonzero (kbd_chars d sh).1 = cs /\ (kbd_chars d sh).2 = sh'.

#[global] Instance gives_dec d sh cs sh' : Decision (gives d sh cs sh').
Proof. unfold gives. apply _. Defined.

Lemma gives_app d1 d2 sh sh1 sh2 cs1 cs2 :
  gives d1 sh cs1 sh1 -> gives d2 sh1 cs2 sh2 -> gives (d1 ++ d2) sh (cs1 ++ cs2) sh2.
Proof.
  intros [<- <-] [<- <-]. unfold gives. rewrite kbd_chars_app. cbn. split; [apply filter_app|done].
Qed.

(** The tables of kbd.h, checked for every key, modifier and lock. *)
Lemma keys_right :
  Forall (fun sh => Forall (fun h => Forall (fun k =>
    typeable h k -> gives (tap k) (held_down h sh) [char_of (caps_on sh) h k] (held_down h sh)) keyboard) holds) locks.
Proof. apply (bool_decide_unpack _). vm_compute. exact I. Qed.

Lemma modifiers_right :
  Forall (fun sh => Forall (fun h => match modifier h with
    | Some m => gives (press m) sh [] (held_down h sh) /\ gives (let_go m) (held_down h sh) [] sh
    | None => True
    end) holds) locks.
Proof. repeat constructor; vm_compute; reflexivity. Qed.

Lemma hold_listed h : h ∈ holds.
Proof. destruct h; unfold holds; set_solver. Qed.

Lemma tap_gives sh h k : sh ∈ locks -> typeable h k ->
  gives (tap k) (held_down h sh) [char_of (caps_on sh) h k] (held_down h sh).
Proof.
  intros Hsh Hk. pose proof (proj1 (Forall_forall _ _) keys_right sh Hsh) as H1.
  pose proof (proj1 (Forall_forall _ _) H1 h (hold_listed h)) as H2.
  exact (proj1 (Forall_forall _ _) H2 k (proj1 Hk) Hk).
Qed.

Lemma taps_give sh h ks : sh ∈ locks -> Forall (typeable h) ks ->
  gives (ks ≫= tap) (held_down h sh) (char_of (caps_on sh) h <$> ks) (held_down h sh).
Proof.
  intros Hsh. induction 1 as [|k ks Hk Hks IH]; [done|].
  exact (gives_app _ _ _ _ _ [_] _ (tap_gives sh h k Hsh Hk) IH).
Qed.

Lemma strokes_give sh h ks : sh ∈ locks -> Forall (typeable h) ks ->
  gives (strokes h ks) sh (char_of (caps_on sh) h <$> ks) sh.
Proof.
  intros Hsh Hks. pose proof (taps_give sh h ks Hsh Hks) as Ht. unfold strokes.
  pose proof (proj1 (Forall_forall _ _) modifiers_right sh Hsh) as H1.
  pose proof (proj1 (Forall_forall _ _) H1 h (hold_listed h)) as H2. cbn beta in H2.
  destruct (modifier h) as [m|] eqn:E; [|destruct h; done].
  destruct H2 as [Hp Hl]. rewrite <- (app_nil_r (_ <$> ks)), <- (app_nil_l (_ ++ [])).
  exact (gives_app _ _ _ _ _ _ _ Hp (gives_app _ _ _ _ _ _ _ Ht Hl)).
Qed.

Lemma typing_gives t sh : sh ∈ locks -> Forall (fun '(h, ks) => Forall (typeable h) ks) t ->
  gives (typing t) sh (chars (caps_on sh) t) sh.
Proof.
  intros Hsh. induction 1 as [|[h ks] t Hk Ht IH]; [done|].
  exact (gives_app _ _ _ _ _ _ _ (strokes_give sh h ks Hsh Hk) IH).
Qed.

(** Home sends 0xE0 0x47, which is 0xC7 to the tables; kbd.h has it at 0x97. *)
Lemma home_types_nothing : gives (tap home_key) 0 [] 0.
Proof. split; reflexivity. Qed.

(** A character 0 is nothing to the console. *)
Lemma console_char_0 k : console_char 0 k = Ok false k.
Proof. reflexivity. Qed.

Lemma consoleintr_loop_nonzero cs d : meq (consoleintr_loop cs d) (consoleintr_loop (nonzero cs) d).
Proof.
  revert d. induction cs as [|c cs IH]; intros d; [reflexivity|].
  unfold nonzero. destruct (decide (c = 0)) as [->|Hc].
  - rewrite filter_cons_False by (intros H; by apply H). intros k. cbn [consoleintr_loop].
    rewrite (bind_ok _ _ _ _ _ (console_char_0 k)), orb_false_r. apply IH.
  - rewrite filter_cons_True by done. cbn [consoleintr_loop].
    apply msim_step. intros d'. apply IH.
Qed.

Lemma consoleintr_nonzero cs : meq (consoleintr cs) (consoleintr (nonzero cs)).
Proof. unfold consoleintr. apply msim_step. intros _. now rewrite consoleintr_loop_nonzero. Qed.

(** ** The theorem *)

(** C25. Typing at a US keyboard gives the console the characters on the keys: when no
    modifier is held down at the start, the interrupt that finds the scan codes of any
    sequence of key strokes, each group of them bare or while a shift or control key is
    held, does what [consoleintr] does for the characters of the keys (shifted, or the
    control characters of letters; with the case swapped when caps lock is on), and
    leaves the state of the modifiers and locks as it was. *)
Theorem kbdintr_types (t : text) (sh : Z) :
  sh ∈ locks -> Forall (fun '(h, ks) => Forall (typeable h) ks) t ->
  meq (kbdintr (typing t) sh) (consoleintr (chars (caps_on sh) t) ;; ret sh).
Proof.
  intros Hsh Ht. destruct (typing_gives t sh Hsh Ht) as [H1 H2].
  unfold kbdintr. destruct (kbd_chars (typing t) sh) as [cs sh'].
  cbn [fst snd] in H1, H2. subst sh'. now rewrite consoleintr_nonzero, H1.
Qed.

(** Shift and L, then s, the line feed and control-P, with caps lock on. *)
Definition ex_text : text :=
  [(LeftShift, [mkKey false 0x26 108 76]); (Bare, [mkKey false 0x1F 115 83; mkKey false 0x1C 10 10]);
   (RightCtl, [mkKey false 0x19 112 80])].

Lemma kbdintr_types_witness :
  CAPSLOCK ∈ locks /\ Forall (fun '(h, ks) => Forall (typeable h) ks) ex_text /\
  meq (kbdintr (typing ex_text) CAPSLOCK) (consoleintr (str "lS" ++ [10; 16]) ;; ret CAPSLOCK).
Proof.
  assert (CAPSLOCK ∈ locks) as H1 by (apply (bool_decide_unpack _); vm_compute; exact I).
  assert (Forall (fun '(h, ks) => Forall (typeable h) ks) ex_text) as H2
    by (repeat constructor; apply (bool_decide_unpack _); vm_compute; exact I).
  refine (conj H1 (conj H2 _)). exact (kbdintr_types ex_text CAPSLOCK H1 H2).
Defined.
