(* ===== verification/Fs.v ===== *)
(** * Files, directories and path names (fs.c)

    [readi] and [writei], which move bytes between a file's blocks and memory (or
    hand over to the device), directory entries, and path name lookup.  A path is
    the list of the characters of a C string. *)

From S2P Require Import Prelude State CMem Mmu Vm Umem Spinlock Console Strings Sched Bio Bytes Log Inode ConsoleIO.

(** ** readi and writei *)

(** The entry of [devsw] for a major number, if it has its functions. *)
Definition devsw_of (major : Z) : K (option device) :=
  if (major <? 0) || (NDEV <=? major) then ret None
  else gets (fun k => default None (k_devsw k !! Z.to_nat major)).

(** The loop, with [tot] of the [n] bytes read; [acc] are those bytes.  Every round
    but the first and the last moves a whole block, so [n / BSIZE + 2] rounds are
    enough. *)
Fixpoint readi_loop (fuel : nat) (ip : nat) (dst : dest) (tot off n : Z) (acc : list Z) : K (list Z) :=
  if tot <? n then
    match fuel with
    | O => out_of_fuel
    | S fuel' =>
        addr <- bmap ip (off / BSIZE) ;;
        nd <- getinode ip ;;
        bp <- bread (i_dev nd) addr ;;
        let m := Z.min (n - tot) (BSIZE - off mod BSIZE) in
        d <- getdata bp ;;
        let bs := slice d (off mod BSIZE) m in
        deliver dst tot bs ;;
        brelse bp ;;
        readi_loop fuel' ip dst (tot + m) (off + m) n (acc ++ bs)
    end
  else ret acc.

Definition rounds (n : Z) : nat := Z.to_nat (n / BSIZE + 2).

(** The result and the bytes put at the destination. *)
Definition readi (ip : nat) (dst : dest) (off n : Z) : K (Z * list Z) :=
  nd <- getinode ip ;;
  if i_type nd =? T_DEV then
    dev <- devsw_of (i_major nd) ;;
    match dev with
    | None => ret (-1, [])
    | Some ConsoleDevice => consoleread ip dst (s32 n)
    end
  else if (i_size nd <? off) || (u32 (off + n) <? off) then ret (-1, [])
  else
    let n := if i_size nd <? off + n then i_size nd - off else n in
    bs <- readi_loop (rounds n) ip dst 0 off n [] ;;
    ret (s32 n, bs).

Fixpoint writei_loop (fuel : nat) (ip : nat) (src : source) (tot off n : Z) : K Z :=
  if tot <? n then
    match fuel with
    | O => out_of_fuel
    | S fuel' =>
        addr <- bmap ip (off / BSIZE) ;;
        nd <- getinode ip ;;
        bp <- bread (i_dev nd) addr ;;
        let m := Z.min (n - tot) (BSIZE - off mod BSIZE) in
        bs <- fetch src tot m ;;
        upddata bp (fun d => put d (off mod BSIZE) bs) ;;
        log_write bp ;;
        brelse bp ;;
        writei_loop fuel' ip src (tot + m) (off + m) n
    end
  else ret off.

Definition writei (ip : nat) (src : source) (off n : Z) : K Z :=
  nd <- getinode ip ;;
  if i_type nd =? T_DEV then
    dev <- devsw_of (i_major nd) ;;
    match dev with
    | None => ret (-1)
    | Some ConsoleDevice => consolewrite ip src (s32 n)
    end
  else if (i_size nd <? off) || (u32 (off + n) <? off) then ret (-1)
  else if MAXFILE * BSIZE <? off + n then ret (-1)
  else
    off <- writei_loop (rounds n) ip src 0 off n ;;
    nd <- getinode ip ;;
    when ((0 <? n) && (i_size nd <? off))
      (updinode ip (set_i_size off) ;;
       iupdate ip) ;;
    ret (s32 n).

(** ** Directories *)

Definition namecmp (s t : list Z) : Z := strncmp_arr (Z.to_nat DIRSIZ) s t.

(** [struct dirent] (fs.h): a 16-bit inode number and the name; 16 bytes. *)
Definition DIRENT : Z := 16.
#[global] Arguments DIRENT : simpl never.
Definition de_inum (bs : list Z) : Z := ld16 bs 0.
Definition de_name (bs : list Z) : list Z := slice bs 2 DIRSIZ.

(** The read of the entry at [off] into the local [de], with the panic on a short
    read. *)
Definition read_dirent (dp : nat) (off : Z) (msg : string) : K (list Z) :=
  r <- readi dp ToBuf off DIRENT ;;
  if negb (fst r =? DIRENT) then panic msg else ret (snd r).

(** The loop from [off] on: the offset and the inode number of the entry.  A
    directory has at most [MAXFILE * BSIZE / DIRENT] entries. *)
Fixpoint dirlookup_loop (fuel : nat) (dp : nat) (name : list Z) (off : Z) : K (option (Z * Z)) :=
  nd <- getinode dp ;;
  if off <? i_size nd then
    match fuel with
    | O => out_of_fuel
    | S fuel' =>
        de <- read_dirent dp off "dirlink read" ;;
        if de_inum de =? 0 then dirlookup_loop fuel' dp name (off + DIRENT)
        else if namecmp name (de_name de) =? 0 then ret (Some (off, de_inum de))
        else dirlookup_loop fuel' dp name (off + DIRENT)
    end
  else ret None.

Definition dir_rounds (nd : inode) : nat := Z.to_nat (i_size nd / DIRENT + 1).

(** The inode and its entry's offset [*poff]. *)
Definition dirlookup (dp : nat) (name : list Z) : K (option (nat * Z)) :=
  nd <- getinode dp ;;
  if negb (i_type nd =? T_DIR) then panic "dirlookup not DIR" else
  r <- dirlookup_loop (dir_rounds nd) dp name 0 ;;
  match r with
  | None => ret None
  | Some (off, inum) =>
      nd <- getinode dp ;;
      ip <- iget (i_dev nd) inum ;;
      ret (Some (ip, off))
  end.

(** The search for an empty entry. *)
Fixpoint dirlink_loop (fuel : nat) (dp : nat) (off : Z) : K Z :=
  nd <- getinode dp ;;
  if off <? i_size nd then
    match fuel with
    | O => out_of_fuel
    | S fuel' =>
        de <- read_dirent dp off "dirlink read" ;;
        if de_inum de =? 0 then ret off else dirlink_loop fuel' dp (off + DIRENT)
    end
  else ret off.

Definition dirlink (dp : nat) (name : list Z) (inum : Z) : K Z :=
  r <- dirlookup dp name ;;
  match r with
  | Some (ip, _) => iput ip ;; ret (-1)
  | None =>
      nd <- getinode dp ;;
      off <- dirlink_loop (dir_rounds nd) dp 0 ;;
      let de := le16 inum ++ strncpy_arr (Z.to_nat DIRSIZ) name in
      w <- writei dp (FromBuf de) off DIRENT ;;
      if negb (w =? DIRENT) then panic "dirlink" else ret 0
  end.

(** ** Path names *)

(** The loop over leading slashes, and the one over the characters of an element. *)
Fixpoint skip_slashes (path : list Z) : list Z :=
  match path with
  | c :: path' => if c =? 47 then skip_slashes path' else path
  | [] => []
  end.

Fixpoint span_elem (path : list Z) : list Z * list Z :=
  match path with
  | c :: path' =>
      if c =? 47 then ([], path) else
      let '(s, rest) := span_elem path' in (c :: s, rest)
  | [] => ([], [])
  end.

(** The rest of the path, and the new contents of the array [name]. *)
Definition skipelem (path name : list Z) : option (list Z * list Z) :=
  let path := skip_slashes path in
  match path with
  | [] => None
  | _ =>
      let '(s, rest) := span_elem path in
      let len := Z.of_nat (length s) in
      let name :=
        if DIRSIZ <=? len then put name 0 (take (Z.to_nat DIRSIZ) s)
        else st8 (put name 0 s) len 0 in
      Some (skip_slashes rest, name)
  end.

(** The loop; every round takes at least one character of the path.  The result
    is the inode, if any, and the array [name]. *)
Fixpoint namex_loop (fuel : nat) (ip : nat) (path : list Z) (parent : bool) (name : list Z)
  : K (option nat * list Z) :=
  match skipelem path name with
  | None =>
      if parent then iput ip ;; ret (None, name) else ret (Some ip, name)
  | Some (path, name) =>
      match fuel with
      | O => out_of_fuel
      | S fuel' =>
          ilock ip ;;
          nd <- getinode ip ;;
          if negb (i_type nd =? T_DIR) then iunlockput ip ;; ret (None, name)
          else if parent && bool_decide (path = []) then iunlock ip ;; ret (Some ip, name)
          else
            next <- dirlookup ip name ;;
            match next with
            | None => iunlockput ip ;; ret (None, name)
            | Some (next, _) => iunlockput ip ;; namex_loop fuel' next path parent name
            end
      end
  end.

Definition namex (path : list Z) (parent : bool) (name : list Z) : K (option nat * list Z) :=
  ip <-
    (if bool_decide (head path = Some 47) then iget ROOTDEV ROOTINO
     else
       c <- curproc ;;
       p <- getproc c ;;
       match p_cwd p with
       | Some cwd => idup cwd
       | None => null_pointer
       end) ;;
  namex_loop (length path) ip path parent name.

Definition name0 : list Z := replicate (Z.to_nat DIRSIZ) 0.

(** The contents of the uninitialised local array [name] do not matter. *)
Definition namei (path : list Z) : K (option nat) :=
  r <- namex path false name0 ;;
  ret (fst r).

Definition nameiparent (path : list Z) : K (option nat * list Z) := namex path true name0.
