(* ===== verification/Dinode.v ===== *)
(** * Inodes on disk (fs.c, fs.h)

    The layout of [struct dinode]: what [iupdate] stores, [ilock] loads back. *)

From S2P Require Import Prelude State Bytes Inode.

(** The values the fields of [struct inode] can take. *)
Record inode_wf (n : inode) : Prop := {
  iw_type : - 2 ^ 15 <= i_type n < 2 ^ 15;
  iw_major : - 2 ^ 15 <= i_major n < 2 ^ 15;
  iw_minor : - 2 ^ 15 <= i_minor n < 2 ^ 15;
  iw_nlink : - 2 ^ 15 <= i_nlink n < 2 ^ 15;
  iw_size : 0 <= i_size n < 2 ^ 32;
  iw_addrs : length (i_addrs n) = 13%nat;
  iw_addr : Forall (fun a => 0 <= a < 2 ^ 32) (i_addrs n)
}.

Lemma s16_u16 z : - 2 ^ 15 <= z < 2 ^ 15 -> s16 (u16 z) = z.
Proof. intros H. unfold s16, u16. Z.div_mod_to_equations. lia. Qed.

Lemma length_words l : length (mjoin (le32 <$> l)) = (4 * length l)%nat.
Proof. induction l as [|a l IH]; [done|]. change (mjoin (le32 <$> a :: l)) with (le32 a ++ mjoin (le32 <$> l)).
  rewrite length_app, IH. cbn. lia. Qed.

Lemma words_lookup l i a j :
  l !! i = Some a -> (j < 4)%nat -> mjoin (le32 <$> l) !! (4 * i + j)%nat = le32 a !! j.
Proof.
  revert i. induction l as [|b l IH]; intros i H Hj; [done|].
  change (mjoin (le32 <$> b :: l)) with (le32 b ++ mjoin (le32 <$> l)). destruct i as [|i].
  - injection H as ->. rewrite lookup_app_l by (cbn; lia). f_equal.
  - rewrite lookup_app_r by (cbn; lia). rewrite <- (IH i H Hj). f_equal. cbn [length le32]. lia.
Qed.

(** Word [i] of an array stored at [o]. *)
Lemma ld32_words d o l i a :
  0 <= o -> o + 4 * Z.of_nat (length l) <= Z.of_nat (length d) -> l !! i = Some a ->
  ld32 (put d o (mjoin (le32 <$> l))) (o + 4 * Z.of_nat i) = u32 a.
Proof.
  intros Ho Hl Hi. pose proof (lookup_lt_Some _ _ _ Hi) as Hlt. unfold ld32.
  assert (H8 : forall j, (j < 4)%nat -> ld8 (put d o (mjoin (le32 <$> l))) (o + 4 * Z.of_nat i + Z.of_nat j) = le32 a !!! j).
  { intros j Hj. rewrite ld8_put by (rewrite ?length_words; lia). rewrite length_words, decide_True by lia.
    replace (Z.to_nat _) with (4 * i + j)%nat by lia. rewrite !list_lookup_total_alt. now rewrite (words_lookup l i a). }
  pose proof (H8 0%nat ltac:(lia)) as E0. rewrite Z.add_0_r in E0.
  pose proof (H8 1%nat ltac:(lia)) as E1. pose proof (H8 2%nat ltac:(lia)) as E2. pose proof (H8 3%nat ltac:(lia)) as E3.
  change (Z.of_nat 1) with 1 in E1. change (Z.of_nat 2) with 2 in E2. change (Z.of_nat 3) with 3 in E3. rewrite E0, E1, E2, E3. apply word32_bytes.
Qed.

Lemma length_store_dinode n o d : length (store_dinode n o d) = length d.
Proof. unfold store_dinode, st16, st32. now rewrite !length_put. Qed.

(** *** Loading what was stored *)
Section Stored.
Context (n : inode) (o : Z) (d : list Z).
Context (Hn : length (i_addrs n) = 13%nat) (Ho : 0 <= o) (Hd : o + DINODE <= Z.of_nat (length d)).

Ltac side := unfold DINODE in *; unfold st16, st32 in *; rewrite ?length_put, ?length_words, ?Hn in *; cbn [length le16 le32]; lia.

Lemma stored_frame i : 0 <= i -> i < o \/ o + DINODE <= i -> ld8 (store_dinode n o d) i = ld8 d i.
Proof using All. intros H0 Hi. unfold store_dinode, st16, st32. repeat rewrite ld8_put_ne by side. done. Qed.

Lemma stored_type : ld16 (store_dinode n o d) o = u16 (i_type n).
Proof using All.
  unfold store_dinode. rewrite ld16_put_ne by side. unfold st32. rewrite ld16_put_ne by side.
  unfold st16 at 1 2 3. rewrite !ld16_put_ne by side. apply ld16_st16; side.
Qed.

Lemma stored_major : ld16 (store_dinode n o d) (o + 2) = u16 (i_major n).
Proof using All.
  unfold store_dinode. rewrite ld16_put_ne by side. unfold st32. rewrite ld16_put_ne by side.
  unfold st16 at 1 2. rewrite !ld16_put_ne by side. apply ld16_st16; side.
Qed.

Lemma stored_minor : ld16 (store_dinode n o d) (o + 4) = u16 (i_minor n).
Proof using All.
  unfold store_dinode. rewrite ld16_put_ne by side. unfold st32. rewrite ld16_put_ne by side.
  unfold st16 at 1. rewrite !ld16_put_ne by side. apply ld16_st16; side.
Qed.

Lemma stored_nlink : ld16 (store_dinode n o d) (o + 6) = u16 (i_nlink n).
Proof using All.
  unfold store_dinode. rewrite ld16_put_ne by side. unfold st32. rewrite ld16_put_ne by side. apply ld16_st16; side.
Qed.

Lemma stored_size : ld32 (store_dinode n o d) (o + 8) = u32 (i_size n).
Proof using All. unfold store_dinode. rewrite ld32_put_ne by side. apply ld32_st32; side. Qed.

Lemma stored_addr i a : i_addrs n !! i = Some a -> ld32 (store_dinode n o d) (o + 12 + 4 * Z.of_nat i) = u32 a.
Proof using All. intros Hi. unfold store_dinode. apply ld32_words; [side|side|exact Hi]. Qed.
End Stored.

(** [iupdate]'s stores followed by [ilock]'s loads. *)
Lemma load_store_dinode n n0 o d :
  inode_wf n -> 0 <= o -> o + DINODE <= Z.of_nat (length d) ->
  load_dinode (store_dinode n o d) o n0 =
    mkInode (i_dev n0) (i_inum n0) (i_ref n0) (i_flags n0) (i_type n) (i_major n) (i_minor n) (i_nlink n) (i_size n) (i_addrs n).
Proof.
  intros [W1 W2 W3 W4 W5 W6 W7] Ho Hd. unfold load_dinode, dip_type.
  rewrite stored_type, stored_major, stored_minor, stored_nlink, stored_size, !s16_u16, u32_small by done. f_equal.
  apply list_eq_same_length with (n := 13%nat); [done|done|]. intros i x y Hi Hx Hy. unfold dip_addrs in Hx.
  rewrite list_lookup_fmap, lookup_seq_lt in Hx by done. injection Hx as <-.
  rewrite (stored_addr n o d W6 Ho Hd i y) by done. apply u32_small. rewrite Forall_lookup in W7. exact (W7 i y Hy).
Qed.
