(* ===== verification/ReadSpec.v ===== *)
(** * Reading a file (fs.c)

    What [readi] returns, in terms of the blocks the inode maps. *)

From S2P Require Import Prelude State CMem Spinlock Sched Bio Bytes Log LogCrash LogOps Umem Inode FsTx Alloc FsExample FileData ConsoleIO Fs.

(** ** Contents *)

(** [n] bytes of the file from [off] on. *)
Definition fdata (k : kernel) (nd : inode) (off n : Z) : list Z := (fun i => fbyte k nd (off + i)) <$> seqZ 0 n.

Lemma fdata_length k nd off n : length (fdata k nd off n) = Z.to_nat n.
Proof. unfold fdata. now rewrite length_fmap, length_seqZ. Qed.

Lemma fdata_lookup k nd off n i : 0 <= i < n -> fdata k nd off n !! Z.to_nat i = Some (fbyte k nd (off + i)).
Proof.
  intros Hi. unfold fdata. rewrite list_lookup_fmap, (lookup_seqZ_lt _ _ _) by lia. cbn. do 2 f_equal. lia.
Qed.

Lemma fdata_app k nd off n m : 0 <= n -> 0 <= m -> fdata k nd off (n + m) = fdata k nd off n ++ fdata k nd (off + n) m.
Proof.
  intros Hn Hm. unfold fdata. rewrite seqZ_app, fmap_app by lia. f_equal.
  replace (0 + n) with (n + 0) by lia. rewrite <- (fmap_add_seqZ n 0), <- list_fmap_compose.
  apply list_fmap_ext. intros _ i _. cbn. f_equal. lia.
Qed.

(** One round of the loops stays in one block. *)
Lemma block_of off m i : 0 <= off -> 0 <= i < m -> m <= BSIZE - off mod BSIZE ->
  (off + i) / BSIZE = off / BSIZE /\ (off + i) mod BSIZE = off mod BSIZE + i.
Proof. intros H0 Hi Hm. unfold BSIZE in *. Z.div_mod_to_equations. lia. Qed.

Lemma slice_fdata k nd off m :
  0 <= off -> 0 <= m <= BSIZE - off mod BSIZE -> length (view k (baddr k nd (off / BSIZE))) = Z.to_nat BSIZE ->
  slice (view k (baddr k nd (off / BSIZE))) (off mod BSIZE) m = fdata k nd off m.
Proof.
  intros Ho Hm Hl. set (d := view _ _) in *.
  assert (0 <= off mod BSIZE) by (apply Z.mod_pos_bound; reflexivity). assert (HB : BSIZE = 512) by done.
  apply list_eq_same_length with (n := Z.to_nat m); [now rewrite fdata_length| |].
  { unfold slice. rewrite length_take, length_drop, Hl. lia. }
  intros i x y Hi Hx Hy. rewrite <- (Nat2Z.id i), fdata_lookup in Hy by lia. injection Hy as <-.
  unfold slice in Hx. rewrite lookup_take_lt, lookup_drop in Hx by lia.
  destruct (block_of off m (Z.of_nat i)) as [E1 E2]; [done|lia..|].
  unfold fbyte. rewrite E1, E2. fold d. unfold ld8. symmetry. apply list_lookup_total_correct. rewrite <- Hx. f_equal. lia.
Qed.

(** ** Where the bytes go *)

(** The destination can take [length pas] bytes; nothing is said of a kernel variable. *)
Definition dst_at (dst : dest) (pas : list Z) (k : kernel) : Prop :=
  match dst with
  | ToMem va => writable k va pas
  | ToBuf => pas = []
  end.

Definition fits (dst : dest) (pas : list Z) (n : Z) : Prop :=
  match dst with
  | ToMem _ => n <= Z.of_nat (length pas)
  | ToBuf => True
  end.

(** The destination holds [bs]. *)
Definition dst_holds (dst : dest) (pas bs : list Z) (k : kernel) : Prop :=
  match dst with
  | ToMem _ => stored k pas bs
  | ToBuf => True
  end.

Lemma vstore_run bs : forall k va pas acc,
  writable k va pas -> stored k pas acc -> (length acc + length bs <= length pas)%nat ->
  exists m, vstore (va + Z.of_nat (length acc)) bs k = Ok tt (set_k_mem m k) /\ writable (set_k_mem m k) va pas /\
    stored (set_k_mem m k) pas (acc ++ bs) /\ untouched k (set_k_mem m k) pas.
Proof.
  induction bs as [|b bs IH]; intros k va pas acc Hw Hs Hl.
  - exists (k_mem k). replace (set_k_mem (k_mem k) k) with k by now destruct k. rewrite app_nil_r. now split_and!.
  - cbn [length] in Hl. destruct (lookup_lt_is_Some_2 pas (length acc)) as [a Ha]; [lia|].
    destruct (vstore8_run k va pas (length acc) a b Hw Ha) as [R Hw1]. pose proof Hw as [Hnd _].
    destruct (IH (set_k_mem (store8 (k_mem k) a b) k) va pas (acc ++ [b])) as (m & R1 & Hw2 & Hs2 & Hu2);
      [done|now apply stored_snoc|rewrite length_app; cbn; lia|].
    exists m. rewrite length_app in R1. cbn [length] in R1. cbn [vstore]. split_and!.
    + mok R. replace (va + Z.of_nat (length acc) + 1) with (va + Z.of_nat (length acc + 1)) by lia. exact R1.
    + exact Hw2.
    + now rewrite <- app_assoc in Hs2.
    + intros a0 Ha0. rewrite Hu2 by done. cbn. apply load8_store8_ne. intros ->. apply Ha0.
      now apply list_elem_of_lookup_2 in Ha.
Qed.

Lemma deliver_run dst pas k acc bs n :
  dst_at dst pas k -> fits dst pas n -> Z.of_nat (length acc + length bs) <= n -> dst_holds dst pas acc k ->
  exists m, deliver dst (Z.of_nat (length acc)) bs k = Ok tt (set_k_mem m k) /\ dst_at dst pas (set_k_mem m k) /\
    dst_holds dst pas (acc ++ bs) (set_k_mem m k) /\ untouched k (set_k_mem m k) pas.
Proof.
  intros Hd Hf Hn Hh. destruct dst as [va|]; cbn in *.
  - apply vstore_run; done || lia.
  - exists (k_mem k). replace (set_k_mem (k_mem k) k) with k by now destruct k. now split_and!.
Qed.

(** *** The memory does not matter to the blocks *)

Lemma tx_set_mem k hs m : tx k hs -> tx (set_k_mem m k) hs.
Proof. intros [[H1 [B1 B2 B3] H3 H4 H5 H6] HL]. split; [split; try done|exact HL]. Qed.

Lemma fx_set_mem hs k m : fx hs k (set_k_mem m k) (view k) [] (icache k) m.
Proof.
  split; try done; [|apply log_step_refl].
  exists (bcache k), (ptable k), (k_log k), (icache k), m. split; [apply woken_refl|now destruct k].
Qed.

(** ** The loop *)

Lemma room_step k k' hs : tx k' hs -> log_step (k_log k) (k_log k') [] -> tx_room k hs -> tx_room k' hs.
Proof.
  intros Ht [_ _ _ Hn _] Hr. unfold tx_room in *.
  assert (Hle : (length (txn (k_log k')) <= length (txn (k_log k)))%nat); [|lia].
  apply submseteq_length, NoDup_submseteq; [apply (li_nodup _ _ (tx_log _ _ Ht))|].
  intros b Hb. destruct (Hn b Hb) as [|Hb']; [done|now apply elem_of_nil in Hb'].
Qed.

(** What reading leaves of the file system. *)
Definition undisturbed (k k' : kernel) : Prop := tx k' [] /\ fx [] k k' (view k) [] (icache k) (k_mem k').

Lemma undisturbed_trans k1 k2 k3 : undisturbed k1 k2 -> undisturbed k2 k3 -> undisturbed k1 k3.
Proof.
  intros [T1 X1] [T2 X2]. split; [done|]. pose proof (fx_trans X1 X2) as X. rewrite (fx_icache X1) in X.
  apply (fx_conv X); auto. apply (fx_view X1).
Qed.

Lemma undisturbed_data k k' nd off n : undisturbed k k' -> fs_ok k -> file_ok k nd -> 0 <= off -> off + n <= MAXFILE * BSIZE ->
  (forall o, off <= o < off + n -> baddr k nd (o / BSIZE) <> 0) -> fdata k' nd off n = fdata k nd off n.
Proof.
  intros [_ X] Hfs Hfl Ho Hn Hm. unfold fdata. apply list_fmap_ext. intros i x Hx. apply lookup_seqZ in Hx as [-> Hi].
  unfold fbyte. rewrite (baddr_same _ _ _ _ _ _ _ X Hfs Hfl), (fx_view X); [done|].
  assert (Hq : 0 <= (off + (0 + Z.of_nat i)) / BSIZE < MAXFILE) by (unfold BSIZE in *; Z.div_mod_to_equations; lia).
  destruct (fl_taken _ _ Hfl _ Hq) as [[? _] _]; [apply Hm; lia|done].
Qed.

(** One round. *)
Lemma readi_round k ip nd dst pas tot off n acc fuel :
  undisturbed k k -> fs_ok k -> file_ok k nd -> icache k !! ip = Some nd -> tx_room k [] ->
  dst_at dst pas k -> fits dst pas n -> dst_holds dst pas acc k -> Z.of_nat (length acc) = tot ->
  tot < n -> 0 <= off < MAXFILE * BSIZE -> baddr k nd (off / BSIZE) <> 0 ->
  let m := Z.min (n - tot) (BSIZE - off mod BSIZE) in
  exists k', readi_loop (S fuel) ip dst tot off n acc k =
      readi_loop fuel ip dst (tot + m) (off + m) n (acc ++ fdata k nd off m) k' /\
    undisturbed k k' /\ dst_at dst pas k' /\ dst_holds dst pas (acc ++ fdata k nd off m) k' /\ untouched k k' pas.
Proof.
  intros [Ht _] Hfs Hfl Hip Hr Hd Hf Hh Ha Hn Ho Hz m. assert (HB : BSIZE = 512) by done.
  assert (Hm : 0 <= off mod BSIZE < BSIZE) by (apply Z.mod_pos_bound; reflexivity).
  assert (Hq : 0 <= off / BSIZE < MAXFILE) by (rewrite HB in *; Z.div_mod_to_equations; lia).
  destruct (bmap_mapped k ip nd _ Ht Hfs Hfl Hip Hr Hq Hz) as (k1 & R1 & T1 & X1).
  destruct (fl_taken _ _ Hfl _ Hq Hz) as (Hr1 & [[Hb1 _] _] & _).
  destruct (fs_frame_fields _ _ (fx_frame X1)) as (Em & _ & _ & Ec & _).
  destruct (fs_bread k1 [] (baddr k nd (off / BSIZE)) T1) as (i & k2 & R2 & T2 & H2 & Hni & D2 & X2 & S2);
    [now rewrite Em|apply unheld_nil|left; now apply (room_step k k1 [] T1 (fx_log X1))|].
  destruct (fs_frame_fields _ _ (fx_frame X2)) as (_ & _ & _ & Ec2 & _). rewrite (fx_view X1) in D2 by apply Hr1.
  assert (X12 : fx [] k k2 (view k) [] (icache k) (k_mem k)) by exact (fx_then _ X1 X2 (fx_view X1)).
  assert (E2 : k_mem k2 = k_mem k) by apply (fx_mem X12).
  assert (Hbs : slice (b_data (bcache k2 !!! i)) (off mod BSIZE) m = fdata k nd off m).
  { rewrite D2. apply slice_fdata; [lia|lia|]. now apply (fo_blocks _ Hfs). }
  assert (Hd2 : dst_at dst pas k2).
  { destruct dst; [|done]. cbn in *. apply (writable_same k k2); [done|congruence|done]. }
  assert (Hh2 : dst_holds dst pas acc k2) by (destruct dst; [now apply (stored_same k k2)|done]).
  destruct (deliver_run dst pas k2 acc (fdata k nd off m) n Hd2 Hf) as (mm & R3 & Hd3 & Hh3 & Hu3);
    [rewrite fdata_length; lia|done|].
  pose proof (fx_set_mem [] k2 mm) as X3. pose proof (tx_set_mem k2 [i] mm T2) as T3.
  destruct (fs_brelse (set_k_mem mm k2) [] i (baddr k nd (off / BSIZE)) T3) as (k4 & R4 & T4 & X4); [done|exact H2|exact S2|].
  destruct (fs_frame_fields _ _ (fx_frame X4)) as (_ & _ & _ & Ec4 & _). pose proof (fx_mem X4) as Em4.
  exists k4. split_and!.
  - cbn [readi_loop]. rewrite (proj2 (Z.ltb_lt _ _)) by done. mok R1. unfold getinode. mred.
    rewrite (fx_icache X1), (list_lookup_total_correct _ _ _ Hip), (fl_dev _ _ Hfl). mok R2. mok (fs_getdata k2 i).
    fold m. rewrite Hbs, <- Ha. mok R3. mok R4. done.
  - split; [done|]. pose proof (fx_trans X12 (fx_trans X3 X4)) as X. 
    assert (Ei : icache (set_k_mem mm k2) = icache k) by exact (fx_icache X12). rewrite Ei, <- Em4 in X.
    apply (fx_conv X); auto. intros b Hb. exact (fx_view X12 b Hb).
  - destruct dst; [|done]. cbn in *. apply (writable_same (set_k_mem mm k2) k4); [done|now rewrite Ec4|done].
  - destruct dst; [|done]. cbn in *. now apply (stored_same (set_k_mem mm k2)).
  - intros a Hna. rewrite Em4, Hu3 by done. now rewrite E2.
Qed.

(** The blocks from [off] to [off + n]. *)
Definition span (off n : Z) : Z := if n <=? 0 then 0 else (off + n - 1) / BSIZE - off / BSIZE + 1.

Lemma span_rounds off n : 0 <= off -> 0 <= n -> span off n <= Z.of_nat (rounds n).
Proof. intros Ho Hn. unfold span, rounds, BSIZE. destruct (Z.leb_spec n 0); Z.div_mod_to_equations; lia. Qed.

Lemma span_step off n :
  0 <= off -> 0 < n -> let m := Z.min n (BSIZE - off mod BSIZE) in
  0 < m <= n /\ m <= BSIZE - off mod BSIZE /\ 0 <= span (off + m) (n - m) /\ span (off + m) (n - m) + 1 = span off n.
Proof.
  intros Ho Hn m. assert (Hm : 0 < m <= n) by (unfold m, BSIZE; Z.div_mod_to_equations; lia). split; [done|].
  unfold span. rewrite (proj2 (Z.leb_gt n 0)) by done. destruct (Z.leb_spec (n - m) 0) as [H|H]; unfold BSIZE in *;
    Z.div_mod_to_equations; lia.
Qed.

Lemma readi_loop_run fuel : forall k ip nd dst pas tot off n acc,
  tx k [] -> fs_ok k -> file_ok k nd -> icache k !! ip = Some nd -> tx_room k [] ->
  dst_at dst pas k -> fits dst pas n -> dst_holds dst pas acc k -> Z.of_nat (length acc) = tot ->
  tot <= n -> 0 <= off -> off + (n - tot) <= i_size nd -> span off (n - tot) <= Z.of_nat fuel ->
  exists k', readi_loop fuel ip dst tot off n acc k = Ok (acc ++ fdata k nd off (n - tot)) k' /\ undisturbed k k' /\
    dst_holds dst pas (acc ++ fdata k nd off (n - tot)) k' /\ untouched k k' pas.
Proof.
  induction fuel as [|fuel IH]; intros k ip nd dst pas tot off n acc Ht Hfs Hfl Hip Hr Hd Hf Hh Ha Hn Ho Hs Hsp;
    pose proof (fl_size _ _ Hfl) as Hmx; assert (HB : BSIZE = 512) by done;
    (destruct (decide (tot = n)) as [->|Hne];
     [exists k; rewrite Z.sub_diag, app_nil_r; split_and!; try done; [|split; [done|apply fx_refl]];
      cbn [readi_loop]; now rewrite (proj2 (Z.ltb_ge _ _)) by lia|]);
    destruct (span_step off (n - tot)) as (Hm1 & Hm0 & Hm2 & Hm3); [lia..| ].
  assert (Hmap : forall o, off <= o < off + (n - tot) -> baddr k nd (o / BSIZE) <> 0).
  { intros o Ho'. apply (fl_mapped _ _ Hfl); rewrite ?HB; Z.div_mod_to_equations; lia. }
  destruct (readi_round k ip nd dst pas tot off n acc fuel) as (k1 & R & U & Hd1 & Hh1 & Hu1); try done; try lia.
  { split; [done|apply fx_refl]. } { apply Hmap. lia. }
  set (m := Z.min (n - tot) (BSIZE - off mod BSIZE)) in *. pose proof U as [T1 X1].
  destruct (IH k1 ip nd dst pas (tot + m) (off + m) n (acc ++ fdata k nd off m)) as (k2 & R2 & U2 & Hh2 & Hu2); try done; try lia.
  { exact (fs_ok_same _ _ _ _ _ _ _ X1 (fun _ _ => eq_refl) Hfs). }
  { exact (file_ok_same _ _ _ _ _ _ _ X1 Hfs Hfl). }
  { now rewrite (fx_icache X1). }
  { exact (room_step k k1 [] T1 (fx_log X1) Hr). }
  { rewrite length_app, fdata_length. lia. }
  { replace (n - (tot + m)) with (n - tot - m) by lia. lia. }
  assert (Ed : fdata k1 nd (off + m) (n - (tot + m)) = fdata k nd (off + m) (n - (tot + m))).
  { apply (undisturbed_data k k1); try done; try lia. intros o Ho'. apply Hmap. lia. }
  rewrite Ed in R2, Hh2.
  replace (n - tot) with (m + (n - (tot + m))) by lia. rewrite fdata_app by lia.
  exists k2. rewrite app_assoc. split_and!; [now rewrite R|now apply (undisturbed_trans _ k1)|done|].
  intros a Hna. now rewrite Hu2, Hu1.
Qed.

(** ** Properties *)

Lemma MAXFILE_eq : MAXFILE = 140.
Proof. reflexivity. Qed.

(** The file of the examples. *)
Lemma ex_file_calm :
  exists k, (icache k = icache ex_start /\ lock_free Licache k /\ lock_free Lptable k /\ cpu_ok (k_cpu k)) /\
    tx k [] /\ fs_ok k /\ file_ok k ex_inode /\ icache k !! 0%nat = Some ex_inode /\ cap k 17 /\
    k_sb k = ex_sb /\ (forall b, view k b = dsk ex_img b) /\ (forall o, 0 <= o < 512 -> fbyte k ex_inode o = ld8 (dsk ex_img 24) o).
Proof.
  destruct ex_kernel as (k & Ht & Hfs & _ & Ei & Es & Em & Etx & Esz & Hv & El & Elk & Ec).
  assert (HB : forall n, 0 <= n < MAXFILE -> baddr k ex_inode n = if decide (n = 0) then 24 else 0).
  { intros n Hn. unfold baddr. destruct (Z.ltb_spec n NDIRECT) as [Hl|Hl].
    - destruct (decide (n = 0)) as [->|Hne]; [done|]. cbn [i_addrs ex_inode]. unfold NDIRECT in *.
      replace (Z.to_nat n) with (S (Z.to_nat n - 1)) by lia. rewrite list_lookup_total_alt.
      rewrite lookup_cons_ne_0, lookup_replicate_2 by (cbn; lia). done.
    - rewrite decide_False by (unfold NDIRECT in *; lia). reflexivity. }
  assert (Hc : cap k 17) by (unfold cap; rewrite Etx, Esz, El; cbn; lia).
  assert (HU : used k 24 = true) by (unfold used; rewrite Hv, Es; vm_compute; reflexivity).
  assert (HT : taken k 24).
  { unfold taken, file_block. rewrite Es. split; [cbn; lia|]. split; [|done]. split_and!.
    - rewrite El, Em. unfold data_block. cbn. change (length ex_img) with 64%nat. lia.
    - intros [(b & Hb & E)|(i & Hi & E)]; cbn [sb_size sb_bmapstart sb_inodestart sb_ninodes ex_sb] in *;
        unfold BPB, IPB, BSIZE, DINODE in *; rewrite Z.div_small in E by (Z.div_mod_to_equations; lia); lia.
    - lia. }
  exists k. split; [|split_and!; try done].
  { unfold lock_free. rewrite Elk, Ec. split_and!; [done|eexists; reflexivity|eexists; reflexivity|].
    split_and!; [cbn; lia|reflexivity|cbn; lia]. }
  - split; try done; cbn [i_inum i_size ex_inode]; rewrite ?Es.
    + cbn. lia.
    + intros n Hn. rewrite HB by done. now case_decide.
    + intros n m Hn Hm Hne. rewrite !HB by done. repeat case_decide; lia.
    + intros n Hn Hs. unfold BSIZE in Hs. rewrite HB; [rewrite decide_True by lia; lia|].
      rewrite MAXFILE_eq. lia.
  - rewrite Ei. reflexivity.
  - intros o Ho. unfold fbyte. rewrite HB, decide_True, Hv; unfold BSIZE in *.
    + now rewrite Z.mod_small by lia.
    + now rewrite Z.div_small by lia.
    + rewrite Z.div_small by lia. done.
Qed.

Lemma ex_file :
  exists k, tx k [] /\ fs_ok k /\ file_ok k ex_inode /\ icache k !! 0%nat = Some ex_inode /\ cap k 17 /\
    k_sb k = ex_sb /\ (forall b, view k b = dsk ex_img b) /\ (forall o, 0 <= o < 512 -> fbyte k ex_inode o = ld8 (dsk ex_img 24) o).
Proof. destruct ex_file_calm as (k & _ & H). now exists k. Qed.

Lemma tx_room_nil k : tx k [] -> tx_room k [].
Proof.
  intros Ht. pose proof (li_ok _ _ (tx_log _ _ Ht)) as Hl. pose proof (lg_n _ _ Hl) as Hn. unfold tx_room.
  rewrite (length_txn _ _ Hl). unfold bhead. change (Z.to_nat NBUF) with 30%nat. unfold LOGSIZE, MAXOPBLOCKS in *. cbn. lia.
Qed.

Lemma readi_run k ip nd dst pas off n :
  tx k [] -> fs_ok k -> file_ok k nd -> icache k !! ip = Some nd -> i_type nd <> T_DEV -> 0 <= n -> off + n < 2 ^ 32 ->
  let cnt := Z.min n (i_size nd - off) in
  dst_at dst pas k -> fits dst pas cnt -> 0 <= off <= i_size nd ->
  exists k', readi ip dst off n k = Ok (cnt, fdata k nd off cnt) k' /\ undisturbed k k' /\
     dst_holds dst pas (fdata k nd off cnt) k' /\ untouched k k' pas.
Proof.
  intros Ht Hfs Hfl Hip Hty Hn H2 cnt Hd Hf Ho. pose proof (fl_size _ _ Hfl) as Hmx. pose proof (tx_room_nil k Ht) as Hr.
  unfold readi, getinode. rewrite bind_gets. cbn beta. rewrite (list_lookup_total_correct _ _ _ Hip).
  rewrite (proj2 (Z.eqb_neq _ _)) by done.
  rewrite (proj2 (Z.ltb_ge _ _)), (u32_small (off + n)), (proj2 (Z.ltb_ge _ _)) by lia. cbn [orb].
  assert (E : (if i_size nd <? off + n then i_size nd - off else n) = cnt)
    by (unfold cnt; destruct (Z.ltb_spec (i_size nd) (off + n)); lia). rewrite E.
  pose proof (span_rounds off cnt ltac:(lia) ltac:(lia)) as Hsp.
  destruct (readi_loop_run (rounds cnt) k ip nd dst pas 0 off cnt []) as (k' & R & U & Hh & Hu); rewrite ?Z.sub_0_r; try done; try lia.
  { destruct dst; [|done]. intros i b Hi. done. }
  rewrite Z.sub_0_r in R, Hh. exists k'. split_and!; try done. mok R. unfold ret. do 2 f_equal. apply s32_small.
  rewrite MAXFILE_eq in Hmx. unfold BSIZE in Hmx. lia.
Qed.

(** C9.  Reading a regular file or directory.  [readi] of [n] bytes at [off] returns the bytes of the
    file from [off] on, as its inode and indirect block map them, up to [n] bytes or the end of the file;
    they are put at the destination and no other memory changes.  An offset beyond the end, or [off + n]
    that wraps around, gives -1.  No block, inode or log entry changes, and the call terminates. *)
Theorem readi_correct k ip nd dst pas off n :
  tx k [] -> fs_ok k -> file_ok k nd -> icache k !! ip = Some nd -> i_type nd <> T_DEV ->
  0 <= off < 2 ^ 32 -> 0 <= n < 2 ^ 32 ->
  let cnt := Z.min n (i_size nd - off) in
  dst_at dst pas k -> fits dst pas cnt ->
  (i_size nd < off \/ 2 ^ 32 <= off + n -> readi ip dst off n k = Ok (-1, []) k) /\
  (off <= i_size nd -> off + n < 2 ^ 32 ->
   exists k', readi ip dst off n k = Ok (cnt, fdata k nd off cnt) k' /\ undisturbed k k' /\
     dst_holds dst pas (fdata k nd off cnt) k' /\ untouched k k' pas).
Proof.
  intros Ht Hfs Hfl Hip Hty Ho Hn cnt Hd Hf. split.
  - intros H. unfold readi, getinode. rewrite bind_gets. cbn beta. rewrite (list_lookup_total_correct _ _ _ Hip).
    rewrite (proj2 (Z.eqb_neq _ _)) by done.
    assert (E : (i_size nd <? off) || (u32 (off + n) <? off) = true); [|now rewrite E].
    apply orb_true_iff. destruct H as [H|H]; [left; lia|right]. unfold u32. Z.div_mod_to_equations. lia.
  - intros H1 H2. apply readi_run; try done; lia.
Qed.

Lemma readi_correct_witness : exists k k', readi 0 ToBuf 1 100 k = Ok (2, [105; 33]) k' /\ undisturbed k k'.
Proof.
  destruct ex_file as (k & Ht & Hfs & Hfl & Hip & _ & Es & Hv & Hby).
  destruct (readi_correct k 0 ex_inode ToBuf [] 1 100 Ht Hfs Hfl Hip) as [_ H]; try done; try lia.
  destruct H as (k' & R & U & _); [cbn; lia|lia|]. exists k, k'. split; [|done]. rewrite R. do 2 f_equal.
  change (Z.min 100 (i_size ex_inode - 1)) with 2. unfold fdata. cbn [seqZ fmap list_fmap].
  change (seqZ 0 2) with [0; 1]. cbn [fmap list_fmap]. rewrite !Hby by lia. vm_compute. reflexivity.
Defined.
