(* ===== verification/WriteSpec.v ===== *)
(** * Writing a file (fs.c)

    What [writei] does to the file, to the blocks of other files, and to the log. *)

From S2P Require Import Prelude State CMem Strings Spinlock Sched Bio Bytes Log LogCrash LogOps Umem Inode FsTx Alloc FsExample FileData ConsoleIO Fs Dinode ReadSpec.

(** ** One block *)

(** [bmap], whether the block is there or not. *)
Lemma bmap_run k ip nd n :
  tx k [] -> fs_ok k -> file_ok k nd -> icache k !! ip = Some nd -> sb_size (k_sb k) <= BPB ->
  0 <= n < MAXFILE -> cap k 5 -> (1 + slack nd <= frees k)%nat ->
  exists k' nd' ls c, bmap ip n k = Ok (baddr k' nd' n) k' /\ baddr k' nd' n <> 0 /\ maps ip k nd k' nd' ls c /\
    (c + slack nd' <= 1 + slack nd)%nat /\ (baddr k nd n <> 0 -> nd' = nd) /\
    (forall b, b ∈ ls -> b = sb_bmapstart (k_sb k) \/ b ∈ indl nd' \/ b = baddr k' nd' n).
Proof.
  intros Ht Hfs Hfl Hip Hsz Hn Hc Hfr. destruct (decide (baddr k nd n = 0)) as [E|E].
  - destruct (bmap_fresh k ip nd n Ht Hfs Hfl Hip Hsz Hn E Hc Hfr) as (a & k' & nd' & ls & c & R & Ha & Hb & _ & _ & M & Hs & Hl).
    subst a. exists k', nd', ls, c. now split_and!.
  - destruct (bmap_mapped k ip nd n Ht Hfs Hfl Hip (cap_room k [] 5 Ht Hc ltac:(cbn; lia)) Hn E) as (k' & R & T & X).
    exists k', nd, [], 0%nat. rewrite (baddr_same _ _ _ _ _ _ _ X Hfs Hfl). split_and!; try done.
    + now apply maps_same.
    + lia.
    + intros b Hb. now apply elem_of_nil in Hb.
Qed.

(** The bytes of block [q] of the file from [o] on become [bs]. *)
Definition blk_put (k : kernel) (nd : inode) (q o : Z) (bs : list Z) : Z -> list Z :=
  upd (view k) (baddr k nd q) (put (view k (baddr k nd q)) o bs).

Section Data.
Context (k k' : kernel) (nd : inode) (q o : Z) (bs : list Z) (ls : list Z) (ic : list inode) (m : gmap Z Z).
Context (Hfs : fs_ok k) (Hfl : file_ok k nd) (Hq : 0 <= q < MAXFILE) (Hz : baddr k nd q <> 0).
Context (Hbs : bytes_ok bs) (Ho : 0 <= o) (Hl : o + Z.of_nat (length bs) <= BSIZE).
Context (X : fx [] k k' (blk_put k nd q o bs) ls ic m).

Lemma put_ok : ~ meta (k_sb k) (baddr k nd q) /\ block_ok (view k (baddr k nd q)) /\
  block_ok (put (view k (baddr k nd q)) o bs).
Proof using Hfs Hfl Hq Hz Hbs.
  destruct (fl_taken _ _ Hfl q Hq Hz) as (_ & ([Hr _] & Hm & _) & _). pose proof (fo_blocks _ Hfs _ Hr) as Hb.
  split; [done|]. split; [exact Hb|now apply block_ok_put].
Qed.

Lemma put_fs : fs_ok k' /\ (forall y, 0 <= y < sb_size (k_sb k) -> used k' y = used k y).
Proof using Hfs Hfl Hq Hz Hbs X. destruct put_ok as (H1 & _ & H2). exact (data_update _ _ _ _ _ _ _ _ Hfs X H1 H2). Qed.

Lemma put_taken a : taken k a -> taken k' a.
Proof using Hfs Hfl Hq Hz Hbs X. destruct put_ok as (H1 & _ & H2). exact (view_taken_same _ _ _ _ _ _ _ _ _ Hfs X H1 H2). Qed.

Lemma put_baddr n : 0 <= n < MAXFILE -> baddr k' nd n = baddr k nd n.
Proof using Hfl Hq Hz X.
  intros Hn. unfold baddr. destruct (n <? NDIRECT); [done|]. destruct (Z.eqb_spec (ind nd) 0) as [|Hi]; [done|].
  rewrite (fx_view X) by apply (fl_ind _ _ Hfl Hi). unfold blk_put, upd. rewrite decide_False; [done|].
  intros E. now apply (fl_apart _ _ Hfl q).
Qed.

Lemma put_file : file_ok k' nd.
Proof using Hfs Hfl Hq Hz Hbs X.
  destruct (fs_frame_fields _ _ (fx_frame X)) as (_ & _ & Es & _). pose proof (fl_size _ _ Hfl) as Hmx.
  split; rewrite ?Es; try apply Hfl.
  - intros n Hn. rewrite put_baddr by done. intros Hnz. now apply put_taken, Hfl.
  - intros Hi. now apply put_taken, Hfl.
  - intros n1 n2 H1 H2. rewrite !put_baddr by done. now apply (fl_inj _ _ Hfl).
  - intros n Hn. rewrite put_baddr by done. now apply (fl_apart _ _ Hfl).
  - intros n Hn Hs. rewrite put_baddr; [now apply (fl_mapped _ _ Hfl)|]. unfold BSIZE in *. lia.
Qed.

Lemma put_bytes i : 0 <= i < MAXFILE * BSIZE -> baddr k nd (i / BSIZE) <> 0 ->
  fbyte k' nd i = if decide (q * BSIZE + o <= i < q * BSIZE + o + Z.of_nat (length bs))
                  then bs !!! Z.to_nat (i - (q * BSIZE + o)) else fbyte k nd i.
Proof using Hfs Hfl Hq Hz Hbs Ho Hl X.
  intros Hi Hiz. assert (HB : BSIZE = 512) by done.
  assert (Hn : 0 <= i / BSIZE < MAXFILE) by (rewrite HB in *; Z.div_mod_to_equations; lia).
  unfold fbyte. rewrite put_baddr, (fx_view X) by first [done|apply (fl_taken _ _ Hfl _ Hn Hiz)]. unfold blk_put, upd.
  destruct (decide (i / BSIZE = q)) as [E|Hne].
  - rewrite E, decide_True by done. destruct put_ok as (_ & [Hlen _] & _).
    rewrite ld8_put; [|done|rewrite Hlen, HB in *; lia|apply Z.mod_pos_bound; reflexivity].
    destruct (decide (o <= _ < _)) as [Hd|Hd]; [rewrite decide_True|rewrite decide_False; [done|]];
      rewrite HB in *; Z.div_mod_to_equations; [f_equal; lia|lia..].
  - rewrite decide_False.
    + rewrite decide_False; [done|]. rewrite HB in *. intros H. apply Hne. Z.div_mod_to_equations. lia.
    + intros E. apply (fl_inj _ _ Hfl q (i / BSIZE)); done.
Qed.
End Data.

(** ** What a write does *)

(** A block that is in use and is not the file's. *)
Definition foreign (k : kernel) (nd : inode) (b : Z) : Prop :=
  0 <= b < sb_size (k_sb k) /\ ~ meta (k_sb k) b /\ used k b = true /\ b <> ind nd /\
  (forall n, 0 <= n < MAXFILE -> baddr k nd n <> b).

(** From [(k, nd)] to [(k', nd')] the bytes [bs] have been written at [off]. *)
Record wrote (ip : nat) (k : kernel) (nd : inode) (k' : kernel) (nd' : inode) (off : Z) (bs : list Z) : Prop := {
  wr_tx : tx k' [];
  wr_fs : fs_ok k';
  wr_file : file_ok k' nd';
  wr_nd : nd' = set_i_addrs (i_addrs nd') nd;
  wr_frame : fs_frame k k';
  wr_icache : icache k' = <[ip := nd']> (icache k);
  wr_mem : k_mem k' = k_mem k;
  wr_kept : forall n, 0 <= n < MAXFILE -> baddr k nd n <> 0 -> baddr k' nd' n = baddr k nd n;
  wr_mapped : forall i, off <= i < off + Z.of_nat (length bs) -> baddr k' nd' (i / BSIZE) <> 0;
  wr_bytes : forall i, 0 <= i < MAXFILE * BSIZE -> baddr k nd (i / BSIZE) <> 0 \/ off <= i < off + Z.of_nat (length bs) ->
    fbyte k' nd' i = if decide (off <= i < off + Z.of_nat (length bs)) then bs !!! Z.to_nat (i - off) else fbyte k nd i;
  wr_foreign : forall b, foreign k nd b -> foreign k' nd' b /\ view k' b = view k b;
  wr_indl : forall b, b ∈ indl nd -> b ∈ indl nd';
  wr_same : (forall i, off <= i < off + Z.of_nat (length bs) -> baddr k nd (i / BSIZE) <> 0) -> nd' = nd;
  wr_inodes : inodes_kept k k';
  wr_used : forall b, 0 <= b < sb_size (k_sb k) -> used k b = true -> used k' b = true;
  wr_only : forall b, 0 <= b < sb_size (k_sb k) -> b <> 0 -> used k' b = true -> used k b = true \/ owns k' nd' b
}.

Lemma owns_wrote ip k nd k' nd' off bs b : wrote ip k nd k' nd' off bs -> b <> 0 -> owns k nd b -> owns k' nd' b.
Proof.
  intros W Hb [->|(n & Hn & <-)]; [left|right; exists n].
  - assert (H : ind nd ∈ indl nd') by (apply (wr_indl _ _ _ _ _ _ _ W), elem_of_indl; done). now apply elem_of_indl in H as [].
  - split; [done|]. now apply (wr_kept _ _ _ _ _ _ _ W).
Qed.

Lemma wrote_nil ip k nd off :
  tx k [] -> fs_ok k -> file_ok k nd -> icache k !! ip = Some nd -> wrote ip k nd k nd off [].
Proof.
  intros Ht Hfs Hfl Hip. split; try done.
  - now destruct nd.
  - apply fs_frame_refl.
  - symmetry. now apply list_insert_id.
  - cbn. lia.
  - intros i _ _. rewrite decide_False; [done|]. cbn. lia.
  - intros b _ _ H. now left.
Qed.

Lemma wrote_app ip k1 nd1 k2 nd2 k3 nd3 off bs1 bs2 :
  0 <= off -> off + Z.of_nat (length bs1 + length bs2) <= MAXFILE * BSIZE ->
  wrote ip k1 nd1 k2 nd2 off bs1 -> wrote ip k2 nd2 k3 nd3 (off + Z.of_nat (length bs1)) bs2 ->
  wrote ip k1 nd1 k3 nd3 off (bs1 ++ bs2).
Proof.
  intros Ho Hmx WA WB. pose proof WA as [A1 A2 A3 A4 A5 A6 A7 A8 A9 A10 A11 A12 A13 A14 A16 A15].
  pose proof WB as [B1 B2 B3 B4 B5 B6 B7 B8 B9 B10 B11 B12 B13 B14 B16 B15].
  assert (Hdiv : forall i, 0 <= i < MAXFILE * BSIZE -> 0 <= i / BSIZE < MAXFILE)
    by (intros i Hi; unfold BSIZE in *; Z.div_mod_to_equations; lia).
  split; try done.
  - rewrite B4, A4. reflexivity.
  - now apply (fs_frame_trans _ k2).
  - now rewrite B6, A6, list_insert_insert_eq.
  - congruence.
  - intros n Hn Hz. rewrite B8, A8; try done. now rewrite A8.
  - intros i Hi. rewrite length_app in Hi. destruct (decide (i < off + Z.of_nat (length bs1))); [|apply B9; lia].
    rewrite B8; [apply A9; lia|apply Hdiv; lia|apply A9; lia].
  - intros i Hi Hc. rewrite length_app in Hc |- *. rewrite B10; [|done|].
    + destruct (decide (off + Z.of_nat (length bs1) <= i < _)) as [Hd|Hd].
      * rewrite decide_True by lia. rewrite lookup_total_app_r by lia. f_equal. lia.
      * destruct (decide (off <= i < off + Z.of_nat (length bs1 + length bs2))) as [Hd2|Hd2];
          (rewrite A10; [|done|destruct Hc; [tauto|right; lia]]).
        -- rewrite decide_True, lookup_total_app_l by lia. done.
        -- now rewrite decide_False by lia.
    + destruct (decide (off <= i < off + Z.of_nat (length bs1))) as [Hd|Hd]; [left; now apply A9|].
      destruct Hc as [Hc|Hc]; [left; rewrite A8; [done|now apply Hdiv|done]|right; lia].
  - intros b Hb. destruct (A11 b Hb) as [H1 H2]. destruct (B11 b H1) as [H3 H4]. split; [done|congruence].
  - auto.
  - intros H. rewrite length_app in H. rewrite B13, A13; [done|intros i Hi; apply H; lia|].
    intros i Hi. rewrite A8; [apply H; lia|apply Hdiv; lia|apply H; lia].
  - apply (inodes_kept_trans _ k2); try done. now destruct (fs_frame_fields _ _ A5) as (_ & _ & E & _).
  - destruct (fs_frame_fields _ _ A5) as (_ & _ & Es & _). rewrite Es in B16. auto.
  - destruct (fs_frame_fields _ _ A5) as (_ & _ & Es & _). rewrite Es in B15. intros b Hb Hz Hu.
    destruct (B15 b Hb Hz Hu) as [H|H]; [|now right]. destruct (A15 b Hb Hz H) as [|H']; [now left|right].
    now apply (owns_wrote _ _ _ _ _ _ _ _ WB).
Qed.

(** Growing a file leaves the others alone. *)
Lemma foreign_grown k nd k' nd' b :
  k_sb k' = k_sb k -> grown k nd k' nd' -> foreign k nd b -> foreign k' nd' b /\ view k' b = view k b.
Proof.
  intros Es G (Hb & Hm & Hu & Hi & Ha). unfold foreign. rewrite Es. split; [split_and!|]; try done; try lia.
  - now apply (gr_used _ _ _ _ G).
  - intros ->. destruct (decide (ind nd = 0)) as [E|E]; [|now rewrite (gr_ind _ _ _ _ G E) in Hi].
    destruct (decide (ind nd' = 0)) as [E'|E']; [congruence|]. rewrite (gr_new _ _ _ _ G E E') in Hu. done.
  - intros n Hn E. destruct (decide (baddr k nd n = 0)) as [E0|E0].
    + destruct (decide (baddr k' nd' n = 0)) as [E1|E1]; [apply (Ha n Hn); congruence|].
      pose proof (gr_fresh _ _ _ _ G n Hn E0 E1). congruence.
    + rewrite (gr_kept _ _ _ _ G n Hn E0) in E. now apply (Ha n Hn).
  - now apply (gr_view _ _ _ _ G).
Qed.

(** ** Where the bytes come from *)

Definition src_at (src : source) (bs : list Z) (k : kernel) : Prop :=
  match src with
  | FromMem va => readable k va bs
  | FromBuf b => b = bs
  end.

Lemma readable_take k bs : forall n va, readable k va bs -> readable k va (take n bs).
Proof.
  induction bs as [|b bs IH]; intros [|n] va H; cbn; try done. destruct H as [H1 H2]. split; [done|now apply IH].
Qed.

Lemma fetch_run src bs k tot m :
  src_at src bs k -> 0 <= tot -> 0 <= m -> tot + m <= Z.of_nat (length bs) -> fetch src tot m k = Ok (slice bs tot m) k.
Proof.
  intros Hs Ht Hm Hl. unfold fetch, slice. destruct src as [va|b]; cbn in Hs; [|now subst b].
  pose proof (readable_take k _ (Z.to_nat m) _ (readable_drop k bs (Z.to_nat tot) va Hs)) as H. rewrite Z2Nat.id in H by done.
  apply vload_run in H. rewrite length_take, length_drop in H.
  replace (Z.to_nat m `min` (length bs - Z.to_nat tot))%nat with (Z.to_nat m) in H by lia. exact H.
Qed.

Lemma src_at_same src bs k k' :
  k_mem k' = k_mem k -> k_cpu k' = k_cpu k -> src_at src bs k -> src_at src bs k'.
Proof. intros Hm Hc. destruct src; [|done]. cbn. apply readable_same; congruence. Qed.

Lemma slice_app l o n m : 0 <= o -> 0 <= n -> 0 <= m -> slice l o n ++ slice l (o + n) m = slice l o (n + m).
Proof.
  intros Ho Hn Hm. unfold slice. rewrite (Z2Nat.inj_add n m), (Z2Nat.inj_add o n), <- drop_drop by done.
  apply take_take_drop.
Qed.

Lemma slice_length l o n : 0 <= o -> 0 <= n -> o + n <= Z.of_nat (length l) -> length (slice l o n) = Z.to_nat n.
Proof. intros Ho Hn Hl. unfold slice. rewrite length_take, length_drop. lia. Qed.

Lemma bytes_ok_slice l o n : bytes_ok l -> bytes_ok (slice l o n).
Proof. intros H. unfold slice, bytes_ok in *. now apply Forall_take, Forall_drop. Qed.

Lemma bytes_ok_strncpy n : forall t, bytes_ok t -> bytes_ok (strncpy_arr n t).
Proof.
  induction n as [|n IH]; intros t Ht; cbn [strncpy_arr]; [constructor|]. set (c := default 0 (head t)).
  assert (Hc : 0 <= c < 256) by (unfold c; destruct t; [cbn; lia|now apply Forall_cons in Ht as [Ht _]]).
  destruct (c =? 0); [apply (Forall_replicate (fun b => 0 <= b < 256) (S n)); lia|]. constructor; [done|]. apply IH. destruct t; [constructor|].
  now apply Forall_cons in Ht as [_ Ht].
Qed.

(** ** The log during a write *)

(** Besides what the log [lg0] had, at most the bitmap, the indirect block and [ds] are in it, and [r] more blocks fit. *)
Definition budget (k0 k : kernel) (nd : inode) (ds : list Z) (r : nat) : Prop :=
  log_step (k_log k0) (k_log k) (sb_bmapstart (k_sb k) :: indl nd ++ ds) /\ cap k0 (length ds + r + 8).

Lemma budget_cap k0 k nd ds r : tx k [] -> budget k0 k nd ds r -> cap k (r + 6).
Proof.
  intros Ht [L C]. apply (cap_step k0 k [] _ (r + 6) Ht L). cbn [length]. rewrite length_app.
  assert (length (indl nd) <= 1)%nat by (unfold indl; destruct (_ =? 0); cbn; lia). unfold cap in *. lia.
Qed.

Lemma budget_step k0 k nd ds r k' nd' ls a :
  k_sb k' = k_sb k -> (forall b, b ∈ indl nd -> b ∈ indl nd') -> budget k0 k nd ds (S r) ->
  log_step (k_log k) (k_log k') ls ->
  (forall b, b ∈ ls -> b = sb_bmapstart (k_sb k) \/ b ∈ indl nd' \/ b = a) -> budget k0 k' nd' (a :: ds) r.
Proof.
  intros Es Hi [L C] L' Hls. split; [|cbn [length]; unfold cap in *; lia]. rewrite Es.
  apply (log_step_mono _ _ _ _ (log_step_trans _ _ _ _ _ L L')). intros b.
  rewrite !elem_of_app, !elem_of_cons, !elem_of_app, !elem_of_cons.
  intros [[H|[H|H]]|H]; [tauto|auto|tauto|]. destruct (Hls b H) as [|[|]]; auto.
Qed.

(** ** The loop *)

(** The blocks that [grown] added hold no bytes yet; the old ones hold theirs. *)
Lemma fbyte_grown k nd k' nd' i :
  file_ok k nd -> grown k nd k' nd' -> 0 <= i < MAXFILE * BSIZE -> baddr k nd (i / BSIZE) <> 0 ->
  fbyte k' nd' i = fbyte k nd i.
Proof.
  intros Hfl G Hi Hz. assert (Hn : 0 <= i / BSIZE < MAXFILE) by (unfold BSIZE in *; Z.div_mod_to_equations; lia).
  unfold fbyte. rewrite (gr_kept _ _ _ _ G) by done. destruct (fl_taken _ _ Hfl _ Hn Hz) as (Hr & (_ & Hm & _) & Hu).
  rewrite (gr_view _ _ _ _ G); try done. now apply (fl_apart _ _ Hfl).
Qed.

(** After [bmap], writing into the block completes the round. *)
Lemma wrote_block ip k nd k1 nd1 ls1 c off bs k2 ls2 :
  file_ok k nd -> 0 <= off < MAXFILE * BSIZE -> bytes_ok bs -> Z.of_nat (length bs) <= BSIZE - off mod BSIZE ->
  maps ip k nd k1 nd1 ls1 c -> baddr k1 nd1 (off / BSIZE) <> 0 -> (baddr k nd (off / BSIZE) <> 0 -> nd1 = nd) ->
  bs <> [] -> tx k2 [] ->
  fx [] k1 k2 (blk_put k1 nd1 (off / BSIZE) (off mod BSIZE) bs) ls2 (icache k1) (k_mem k1) ->
  wrote ip k nd k2 nd1 off bs /\ (frees k1 <= frees k2)%nat.
Proof.
  intros Hfl Ho Hbs Hl M Hz Hsame Hne T2 X. assert (HB : BSIZE = 512) by done. pose proof (mp_grown _ _ _ _ _ _ _ M) as G.
  pose proof (gr_file _ _ _ _ G) as L1. pose proof (gr_fs _ _ _ _ G) as F1.
  assert (Hq : 0 <= off / BSIZE < MAXFILE) by (rewrite HB in *; Z.div_mod_to_equations; lia).
  assert (Hmod : 0 <= off mod BSIZE) by (apply Z.mod_pos_bound; reflexivity).
  pose proof (put_fs _ _ _ _ _ _ _ _ _ F1 L1 Hq Hz Hbs X) as [F2 U2].
  pose proof (put_baddr _ _ _ _ _ _ _ _ _ L1 Hq Hz X) as B2.
  destruct (fs_frame_fields _ _ (fx_frame X)) as (_ & _ & Es2 & _). pose proof (maps_sb _ _ _ _ _ _ _ M) as Es1.
  assert (Hoff : off / BSIZE * BSIZE + off mod BSIZE = off) by (rewrite HB; Z.div_mod_to_equations; lia).
  assert (Hin : forall i, off <= i < off + Z.of_nat (length bs) -> i / BSIZE = off / BSIZE)
    by (intros i Hi; rewrite HB in *; Z.div_mod_to_equations; lia).
  split; [|now apply frees_same]. split; try done.
  - exact (put_file _ _ _ _ _ _ _ _ _ F1 L1 Hq Hz Hbs X).
  - apply (gr_nd _ _ _ _ G).
  - apply (fs_frame_trans _ k1); [apply (mp_frame _ _ _ _ _ _ _ M)|apply (fx_frame X)].
  - rewrite (fx_icache X). apply (mp_icache _ _ _ _ _ _ _ M).
  - rewrite (fx_mem X). apply (mp_mem _ _ _ _ _ _ _ M).
  - intros n Hn Hnz. rewrite B2 by done. now apply (gr_kept _ _ _ _ G).
  - intros i Hi. rewrite Hin, B2 by done. done.
  - intros i Hi Hc. assert (Hz1 : baddr k1 nd1 (i / BSIZE) <> 0).
    { destruct Hc as [Hc|Hc]; [|now rewrite Hin]. rewrite (gr_kept _ _ _ _ G); [done| |done].
      rewrite HB in *. Z.div_mod_to_equations. lia. }
    rewrite (put_bytes _ _ _ _ _ _ _ _ _ F1 L1 Hq Hz Hbs Hmod ltac:(lia) X i Hi Hz1), Hoff.
    destruct (decide (off <= i < _)) as [Hd|Hd]; [done|]. apply fbyte_grown; try done. tauto.
  - intros b Hb. destruct (foreign_grown k nd k1 nd1 b Es1 G Hb) as [(H1 & H2 & H3 & H4 & H5) Hv].
    rewrite <- Hv, (fx_view X) by lia. unfold foreign. rewrite Es2, U2 by done. split; [split_and!; try done; try lia|].
    + intros n Hn. rewrite B2 by done. auto.
    + unfold blk_put, upd. rewrite decide_False; [done|]. intros ->. now apply (H5 (off / BSIZE)).
  - intros b. rewrite !elem_of_indl. intros [-> Hi]. now rewrite (gr_ind _ _ _ _ G Hi).
  - intros H. apply Hsame, (H off). destruct bs; [done|cbn; lia].
  - apply (inodes_kept_trans _ k1); [done|apply (gr_inodes _ _ _ _ G)|].
    apply (inodes_kept_upd _ _ _ _ _ _ _ _ F1 X). destruct (fl_taken _ _ L1 _ Hq Hz) as (_ & (_ & Hm & _) & _). done.
  - intros b Hb Hu. rewrite U2 by (rewrite Es1; lia). now apply (gr_used _ _ _ _ G).
  - intros b Hb Hb0. rewrite U2 by (rewrite Es1; lia). intros Hu. destruct (gr_only _ _ _ _ G b Hb Hb0 Hu) as [|[E|(n & Hn & E)]];
      [now left|right; now left|right; right]. exists n. split; [done|]. now rewrite B2.
Qed.

Lemma writei_round k0 k ip nd src bs ds tot off r fuel :
  tx k [] -> fs_ok k -> file_ok k nd -> icache k !! ip = Some nd -> sb_size (k_sb k) <= BPB ->
  src_at src bs k -> bytes_ok bs -> 0 <= tot < Z.of_nat (length bs) -> 0 <= off < MAXFILE * BSIZE ->
  budget k0 k nd ds (S r) -> (1 + slack nd <= frees k)%nat ->
  let m := Z.min (Z.of_nat (length bs) - tot) (BSIZE - off mod BSIZE) in
  exists k' nd' a, writei_loop (S fuel) ip src tot off (Z.of_nat (length bs)) k =
      writei_loop fuel ip src (tot + m) (off + m) (Z.of_nat (length bs)) k' /\
    wrote ip k nd k' nd' off (slice bs tot m) /\ budget k0 k' nd' (a :: ds) r /\
    (frees k + slack nd' <= frees k' + 1 + slack nd)%nat.
Proof.
  intros Ht Hfs Hfl Hip Hsz Hs Hbs Htot Ho Hbu Hfr m. assert (HB : BSIZE = 512) by done.
  assert (Hmod : 0 <= off mod BSIZE < BSIZE) by (apply Z.mod_pos_bound; reflexivity).
  assert (Hq : 0 <= off / BSIZE < MAXFILE) by (rewrite HB in *; Z.div_mod_to_equations; lia).
  pose proof (budget_cap k0 k nd ds (S r) Ht Hbu) as Hc.
  destruct (bmap_run k ip nd (off / BSIZE) Ht Hfs Hfl Hip Hsz Hq ltac:(unfold cap in *; lia) Hfr) as (k1 & nd1 & ls & c & R1 & Hz & M & Hsl & Hsame & Hls).
  pose proof (mp_grown _ _ _ _ _ _ _ M) as G. pose proof (gr_file _ _ _ _ G) as L1. pose proof (mp_tx _ _ _ _ _ _ _ M) as T1.
  set (a := baddr k1 nd1 (off / BSIZE)) in *. pose proof (maps_sb _ _ _ _ _ _ _ M) as Es1.
  assert (Hi : forall b, b ∈ indl nd -> b ∈ indl nd1).
  { intros b. rewrite !elem_of_indl. intros [-> Hi]. now rewrite (gr_ind _ _ _ _ G Hi). }
  pose proof (budget_step k0 k nd ds r k1 nd1 ls a Es1 Hi Hbu (mp_log _ _ _ _ _ _ _ M) Hls) as Hb1.
  pose proof (budget_cap k0 k1 nd1 (a :: ds) r T1 Hb1) as Hc1.
  destruct (fl_taken _ _ L1 _ Hq Hz) as (_ & (Hdb & _) & _).
  destruct (fs_update k1 [] a (fun d => put d (off mod BSIZE) (slice bs tot m)) T1 Hdb (unheld_nil _ _)
    (cap_room k1 [] _ T1 Hc1 ltac:(cbn; lia)) (cap_log k1 [] _ T1 Hc1))
    as (i & k2 & k3 & k4 & k5 & R2 & _ & R3 & R4 & R5 & Ei & T5 & _ & X5).
  assert (Hip1 : icache k1 !! ip = Some nd1).
  { rewrite (mp_icache _ _ _ _ _ _ _ M). apply list_lookup_insert_eq. now apply lookup_lt_Some in Hip. }
  assert (Hs2 : src_at src bs k2).
  { destruct (fs_bread k1 [] a T1 (proj1 Hdb) (unheld_nil _ _) (or_introl (cap_room k1 [] _ T1 Hc1 ltac:(cbn; lia))))
      as (i' & k2' & R2' & _ & _ & _ & _ & X2 & _). rewrite R2 in R2'. injection R2' as <- <-.
    destruct (fs_frame_fields _ _ (fx_frame X2)) as (_ & _ & _ & Ec2 & _).
    destruct (fs_frame_fields _ _ (mp_frame _ _ _ _ _ _ _ M)) as (_ & _ & _ & Ec1 & _).
    apply (src_at_same src bs k k2); [|congruence|done]. rewrite (fx_mem X2). apply (mp_mem _ _ _ _ _ _ _ M). }
  destruct (wrote_block ip k nd k1 nd1 ls c off (slice bs tot m) k5 [a]) as [W Hf5]; try done.
  { now apply bytes_ok_slice. } { rewrite slice_length by lia. lia. }
  { intros E. apply (f_equal length) in E. rewrite slice_length in E by lia. cbn in E. lia. }
  exists k5, nd1, a. split_and!.
  - cbn [writei_loop]. rewrite (proj2 (Z.ltb_lt _ _)) by lia. mok R1. unfold getinode. mred.
    rewrite (list_lookup_total_correct _ _ _ Hip1), (fl_dev _ _ L1). mok R2. fold m.
    mok (fetch_run src bs k2 tot m Hs2 ltac:(lia) ltac:(lia) ltac:(lia)). mok R3. mok R4. mok R5. done.
  - done.
  - destruct Hb1 as [B1 B2]. destruct (fs_frame_fields _ _ (fx_frame X5)) as (_ & _ & Es5 & _). split; [|done]. rewrite Es5.
    apply (log_step_mono _ _ _ _ (log_step_trans _ _ _ _ _ B1 (fx_log X5))). intros b.
    rewrite !elem_of_app, !elem_of_cons, !elem_of_app, !elem_of_cons, elem_of_nil. tauto.
  - pose proof (mp_frees _ _ _ _ _ _ _ M). lia.
Qed.

Lemma writei_loop_run k0 ip src bs r : forall fuel k nd ds tot off,
  tx k [] -> fs_ok k -> file_ok k nd -> icache k !! ip = Some nd -> sb_size (k_sb k) <= BPB ->
  src_at src bs k -> bytes_ok bs -> 0 <= tot <= Z.of_nat (length bs) -> 0 <= off ->
  off + (Z.of_nat (length bs) - tot) <= MAXFILE * BSIZE ->
  span off (Z.of_nat (length bs) - tot) = Z.of_nat r -> (r <= fuel)%nat ->
  budget k0 k nd ds r -> (r + slack nd <= frees k)%nat ->
  exists k' nd' ds', writei_loop fuel ip src tot off (Z.of_nat (length bs)) k = Ok (off + (Z.of_nat (length bs) - tot)) k' /\
    wrote ip k nd k' nd' off (slice bs tot (Z.of_nat (length bs) - tot)) /\ budget k0 k' nd' ds' 0.
Proof.
  induction r as [|r IH]; intros fuel k nd ds tot off Ht Hfs Hfl Hip Hsz Hs Hbs Htot Ho Hmx Hsp Hfu Hbu Hfr;
    (destruct (decide (tot = Z.of_nat (length bs))) as [->|Hne];
     [exists k, nd, ds; rewrite Z.sub_diag, Z.add_0_r; split_and!;
       [destruct fuel; cbn [writei_loop]; now rewrite (proj2 (Z.ltb_ge _ _)) by lia|now apply wrote_nil
       |unfold budget, cap in *; split; [apply Hbu|destruct Hbu; lia]]|]);
    destruct (span_step off (Z.of_nat (length bs) - tot) ltac:(lia) ltac:(lia)) as (Hm1 & Hm0 & Hm2 & Hm3); [exfalso; lia|].
  destruct fuel as [|fuel]; [lia|].
  destruct (writei_round k0 k ip nd src bs ds tot off r fuel) as (k1 & nd1 & a & R & W & Hb1 & Hf1); try done; try lia.
  set (m := Z.min (Z.of_nat (length bs) - tot) (BSIZE - off mod BSIZE)) in *.
  destruct (fs_frame_fields _ _ (wr_frame _ _ _ _ _ _ _ W)) as (_ & _ & Es & Ec & _).
  replace (Z.of_nat (length bs) - tot - m) with (Z.of_nat (length bs) - (tot + m)) in Hm3 by lia.
  destruct (IH fuel k1 nd1 (a :: ds) (tot + m) (off + m)) as (k2 & nd2 & ds2 & R2 & W2 & Hb2); try done; try lia.
  { apply W. } { apply W. } { apply W. }
  { rewrite (wr_icache _ _ _ _ _ _ _ W). apply list_lookup_insert_eq. now apply lookup_lt_Some in Hip. }
  { now rewrite Es. }
  { apply (src_at_same src bs k); [apply (wr_mem _ _ _ _ _ _ _ W)|done|done]. }
  exists k2, nd2, ds2. split_and!; [|clear R2|done].
  - rewrite R, R2. f_equal. lia.
  - replace (Z.of_nat (length bs) - tot) with (m + (Z.of_nat (length bs) - (tot + m))) by lia.
    rewrite <- slice_app by lia. apply (wrote_app ip k nd k1 nd1).
    + done.
    + rewrite !slice_length by lia. lia.
    + done.
    + rewrite slice_length by lia. now replace (Z.of_nat (Z.to_nat m)) with m by lia.
Qed.

(** ** The inode on disk *)

Definition iblock (k : kernel) (nd : inode) : Z := sb_inodestart (k_sb k) + i_inum nd / IPB.
Definition ioff (nd : inode) : Z := i_inum nd mod IPB * DINODE.

Lemma IBLOCK_eq k hs nd : tx k hs -> fs_ok k -> file_ok k nd -> IBLOCK (i_inum nd) (k_sb k) = iblock k nd.
Proof.
  intros Ht Hfs Hfl. destruct (lay_inode _ _ _ (fo_layout _ Hfs) _ (fl_inum _ _ Hfl)) as [[H1 H2] _].
  pose proof (disk_bound k hs Ht). unfold IBLOCK, iblock. rewrite u32_small by lia. lia.
Qed.

(** [iupdate] writes the inode to its place in its block. *)
Lemma iupdate_run k ip nd :
  tx k [] -> fs_ok k -> file_ok k nd -> icache k !! ip = Some nd -> cap k 1 ->
  exists k', iupdate ip k = Ok tt k' /\ tx k' [] /\
    fx [] k k' (upd (view k) (iblock k nd) (store_dinode nd (ioff nd) (view k (iblock k nd)))) [iblock k nd] (icache k) (k_mem k).
Proof.
  intros Ht Hfs Hfl Hip Hc. pose proof (lay_inode _ _ _ (fo_layout _ Hfs) _ (fl_inum _ _ Hfl)) as Hdb.
  destruct (fs_update k [] (iblock k nd) (store_dinode nd (ioff nd)) Ht Hdb (unheld_nil _ _)
    (cap_room k [] _ Ht Hc ltac:(cbn; lia)) (cap_log k [] _ Ht Hc))
    as (i & k2 & k3 & k4 & k5 & R2 & _ & R3 & R4 & R5 & Ei & T5 & _ & X5).
  exists k5. split_and!; try done. unfold iupdate, getinode. mred.
  rewrite (list_lookup_total_correct _ _ _ Hip), (IBLOCK_eq k [] nd), (fl_dev _ _ Hfl) by done. mok R2. mred.
  rewrite Ei, (list_lookup_total_correct _ _ _ Hip). fold (ioff nd). mok R3. mok R4. exact R5.
Qed.

Lemma block_ok_store_dinode nd o d : block_ok d -> block_ok (store_dinode nd o d).
Proof.
  intros H. unfold store_dinode, st16, st32.
  repeat apply block_ok_put; try done; try apply bytes_ok_le16; try apply bytes_ok_le32.
  unfold bytes_ok. induction (i_addrs nd) as [|a l IH]; cbn [fmap list_fmap mjoin list_join]; [done|].
  apply Forall_app. split; [apply bytes_ok_le32|exact IH].
Qed.

(** A change of an inode block concerns no file's blocks. *)
Section Inode_block.
Context (k k' : kernel) (nd0 : inode) (v : list Z) (ls : list Z) (ic : list inode) (m : gmap Z Z).
Context (Hfs : fs_ok k) (Hi : 0 <= i_inum nd0 < sb_ninodes (k_sb k)) (Hv : block_ok v).
Context (X : fx [] k k' (upd (view k) (iblock k nd0) v) ls ic m).

Lemma iblk_meta : meta (k_sb k) (iblock k nd0).
Proof using Hi. right. now exists (i_inum nd0). Qed.

Lemma iblk_view b : 0 <= b -> ~ meta (k_sb k) b -> view k' b = view k b.
Proof using Hi X.
  intros Hb Hm. rewrite (fx_view X) by done. unfold upd. rewrite decide_False; [done|]. intros E. apply Hm. pose proof iblk_meta. congruence.
Qed.

Lemma iblk_used b : 0 <= b < sb_size (k_sb k) -> used k' b = used k b.
Proof using Hfs Hi X.
  intros Hb. destruct (fs_frame_fields _ _ (fx_frame X)) as (_ & _ & Es & _). unfold used.
  rewrite Es, (fx_view X) by (apply bmap_pos; [done|lia]). unfold upd. rewrite decide_False; [done|].
  intros E. now apply (lay_apart _ _ _ (fo_layout _ Hfs) b (i_inum nd0)) in E.
Qed.

Lemma iblk_fs : fs_ok k'.
Proof using Hfs Hi Hv X.
  apply (fs_ok_step _ _ _ _ _ _ _ X Hfs).
  - intros b Hb. unfold upd. case_decide; [done|now apply (fo_blocks _ Hfs)].
  - intros b Hb Hu. left. now rewrite <- iblk_used.
Qed.

Lemma iblk_taken a : taken k a -> taken k' a.
Proof using Hfs Hi X.
  intros Ha. apply (taken_view k k'); [apply (fx_frame X)|eexists; apply (fx_log X)| |done].
  destruct Ha as (Ha & _ & Hu). now rewrite iblk_used.
Qed.

Context (nd : inode) (Hfl : file_ok k nd).

Lemma iblk_baddr n : baddr k' nd n = baddr k nd n.
Proof using Hfs Hi X Hfl.
  unfold baddr. destruct (n <? NDIRECT); [done|]. destruct (Z.eqb_spec (ind nd) 0) as [|Hz]; [done|].
  destruct (fl_ind _ _ Hfl Hz) as ([H0 _] & (_ & Hm & _) & _). now rewrite iblk_view.
Qed.

Lemma iblk_file : file_ok k' nd.
Proof using Hfs Hi X Hfl.
  destruct (fs_frame_fields _ _ (fx_frame X)) as (_ & _ & Es & _). split; rewrite ?Es; try apply Hfl.
  - intros n Hn. rewrite iblk_baddr. intros Hz. now apply iblk_taken, Hfl.
  - intros Hz. now apply iblk_taken, Hfl.
  - intros n1 n2. rewrite !iblk_baddr. apply Hfl.
  - intros n. rewrite iblk_baddr. apply Hfl.
  - intros n. rewrite iblk_baddr. apply Hfl.
Qed.

Lemma iblk_fbyte i : 0 <= i < MAXFILE * BSIZE -> baddr k nd (i / BSIZE) <> 0 -> fbyte k' nd i = fbyte k nd i.
Proof using Hfs Hi X Hfl.
  intros Hr Hz. assert (Hn : 0 <= i / BSIZE < MAXFILE) by (unfold BSIZE in *; Z.div_mod_to_equations; lia).
  unfold fbyte. rewrite iblk_baddr. destruct (fl_taken _ _ Hfl _ Hn Hz) as ([H0 _] & (_ & Hm & _) & _). now rewrite iblk_view.
Qed.

Lemma iblk_foreign b : foreign k nd b -> foreign k' nd b /\ view k' b = view k b.
Proof using Hfs Hi X Hfl.
  intros (H1 & H2 & H3 & H4 & H5). destruct (fs_frame_fields _ _ (fx_frame X)) as (_ & _ & Es & _).
  unfold foreign. rewrite Es, iblk_used by done. split; [split_and!; try done; try lia|apply iblk_view; [lia|done]].
  intros n Hn. rewrite iblk_baddr. auto.
Qed.
End Inode_block.

Lemma file_ok_set_icache k nd ic : file_ok k nd -> file_ok (set_icache ic k) nd.
Proof. intros [F1 F2 F3 F4 F5 F6 F7 F8 F9]. now split. Qed.

Lemma file_ok_resize k nd s :
  file_ok k nd -> 0 <= s <= MAXFILE * BSIZE -> (forall n, 0 <= n -> n * BSIZE < s -> baddr k nd n <> 0) -> file_ok k (set_i_size s nd).
Proof. intros [F1 F2 F3 F4 F5 F6 F7 F8 F9] Hs Hm. now split. Qed.

(** The inode on disk is the one in the cache. *)
Definition synced (k : kernel) (nd : inode) : Prop := load_dinode (view k (iblock k nd)) (ioff nd) nd = nd.

Lemma ioff_range nd : 0 <= ioff nd /\ ioff nd + DINODE <= BSIZE.
Proof. unfold ioff, IPB, DINODE, BSIZE. Z.div_mod_to_equations. lia. Qed.

(** The addresses of a file fit in 32 bits. *)
Lemma file_addrs k hs nd : tx k hs -> fs_ok k -> file_ok k nd -> Forall (fun a => 0 <= a < 2 ^ 32) (i_addrs nd).
Proof.
  intros Ht Hfs Hfl. pose proof (disk_bound k hs Ht) as Hd. pose proof (lay_size _ _ _ (fo_layout _ Hfs)) as Hs.
  apply Forall_lookup. intros i a Hi. pose proof (lookup_lt_Some _ _ _ Hi) as Hlt. rewrite (fl_addrs _ _ Hfl) in Hlt.
  destruct (decide (a = 0)) as [->|Hz]; [lia|]. assert (Ht' : taken k a); [|destruct Ht' as [? _]; lia].
  apply list_lookup_total_correct in Hi. destruct (decide (i = 12%nat)) as [->|Hne].
  - rewrite <- Hi. apply (fl_ind _ _ Hfl). unfold ind. change (Z.to_nat NDIRECT) with 12%nat. congruence.
  - assert (E : baddr k nd (Z.of_nat i) = a).
    { unfold baddr. rewrite (proj2 (Z.ltb_lt _ _)) by (unfold NDIRECT; lia). now rewrite Nat2Z.id. }
    rewrite <- E. apply (fl_taken _ _ Hfl); [rewrite MAXFILE_eq; lia|congruence].
Qed.

Lemma synced_store k' nd d :
  inode_wf nd -> length d = Z.to_nat BSIZE -> view k' (iblock k' nd) = store_dinode nd (ioff nd) d -> synced k' nd.
Proof.
  intros W Hl E. unfold synced. rewrite E. pose proof (ioff_range nd) as [H1 H2].
  rewrite load_store_dinode; [now destruct nd|done|done|]. rewrite Hl. unfold BSIZE in *. lia.
Qed.

(** The inode table is as it was, byte for byte, except for the [DINODE] bytes of inode [nd]. *)
Definition inodes_apart (k : kernel) (nd : inode) (k' : kernel) : Prop := forall i o,
  0 <= i < sb_ninodes (k_sb k) -> 0 <= o < BSIZE ->
  i / IPB <> i_inum nd / IPB \/ o < ioff nd \/ ioff nd + DINODE <= o ->
  ld8 (view k' (sb_inodestart (k_sb k) + i / IPB)) o = ld8 (view k (sb_inodestart (k_sb k) + i / IPB)) o.

Lemma inodes_apart_kept k nd k' : inodes_kept k k' -> inodes_apart k nd k'.
Proof. intros H i o Hi _ _. now rewrite H. Qed.

(** What [writei] did: the bytes [bs] at [off], the new size, and nothing else. *)
Record written (ip : nat) (k : kernel) (nd : inode) (k' : kernel) (nd' : inode) (off : Z) (bs : list Z) : Prop := {
  wn_tx : tx k' [];
  wn_fs : fs_ok k';
  wn_file : file_ok k' nd';
  wn_nd : nd' = set_i_size (Z.max (i_size nd) (off + Z.of_nat (length bs))) (set_i_addrs (i_addrs nd') nd);
  wn_icache : icache k' = <[ip := nd']> (icache k);
  wn_mem : k_mem k' = k_mem k;
  wn_disk : memdisk k' = memdisk k /\ k_cpu k' = k_cpu k /\ k_sb k' = k_sb k;
  wn_bytes : forall i, 0 <= i < i_size nd' ->
    fbyte k' nd' i = if decide (off <= i < off + Z.of_nat (length bs)) then bs !!! Z.to_nat (i - off) else fbyte k nd i;
  wn_foreign : forall b, foreign k nd b -> foreign k' nd' b /\ view k' b = view k b;
  wn_synced : inode_wf nd -> synced k nd -> synced k' nd';
  wn_inodes : inodes_apart k nd k';
  wn_used : forall b, 0 <= b < sb_size (k_sb k) -> used k b = true -> used k' b = true;
  wn_only : forall b, 0 <= b < sb_size (k_sb k) -> b <> 0 -> used k' b = true -> used k b = true \/ owns k' nd' b
}.

Section Finish.
Context (ip : nat) (k : kernel) (nd : inode) (k1 : kernel) (nd1 : inode) (off : Z) (bs : list Z).
Context (Hfl : file_ok k nd) (Hip : icache k !! ip = Some nd) (W : wrote ip k nd k1 nd1 off bs).
Context (Ho : 0 <= off <= i_size nd) (Hmx : off + Z.of_nat (length bs) <= MAXFILE * BSIZE).

Lemma wrote_mapped n : 0 <= n -> n * BSIZE < Z.max (i_size nd) (off + Z.of_nat (length bs)) -> baddr k1 nd1 n <> 0.
Proof using All.
  intros Hn Hs. assert (HB : BSIZE = 512) by done. pose proof (fl_size _ _ Hfl) as Hmx'.
  destruct (decide (n * BSIZE < i_size nd)) as [Hlt|Hge].
  - pose proof (fl_mapped _ _ Hfl n Hn Hlt) as Hz. rewrite (wr_kept _ _ _ _ _ _ _ W); [done|rewrite HB in *; lia|done].
  - pose proof (wr_mapped _ _ _ _ _ _ _ W (n * BSIZE)) as H. rewrite Z.div_mul in H by done. apply H. lia.
Qed.

Lemma wrote_data i : 0 <= i < Z.max (i_size nd) (off + Z.of_nat (length bs)) ->
  fbyte k1 nd1 i = if decide (off <= i < off + Z.of_nat (length bs)) then bs !!! Z.to_nat (i - off) else fbyte k nd i.
Proof using All.
  intros Hi. pose proof (fl_size _ _ Hfl) as Hmx'. apply (wr_bytes _ _ _ _ _ _ _ W); [unfold BSIZE in *; lia|].
  destruct (decide (off <= i < off + Z.of_nat (length bs))) as [|Hd]; [now right|left].
  apply (fl_mapped _ _ Hfl); unfold BSIZE in *; Z.div_mod_to_equations; lia.
Qed.

Lemma wrote_fields : i_dev nd1 = i_dev nd /\ i_inum nd1 = i_inum nd /\ i_size nd1 = i_size nd /\ i_type nd1 = i_type nd /\
  i_major nd1 = i_major nd /\ i_minor nd1 = i_minor nd /\ i_nlink nd1 = i_nlink nd.
Proof using W. rewrite (wr_nd _ _ _ _ _ _ _ W). done. Qed.

(** No growth: the inode is unchanged. *)
Lemma finish_same : off + Z.of_nat (length bs) <= i_size nd -> written ip k nd k1 nd1 off bs.
Proof using All.
  intros Hle. pose proof (fl_size _ _ Hfl) as Hmx'.
  destruct (fs_frame_fields _ _ (wr_frame _ _ _ _ _ _ _ W)) as (Em & _ & Es & Ec & _).
  assert (E : nd1 = nd).
  { apply (wr_same _ _ _ _ _ _ _ W). intros i Hi. apply (fl_mapped _ _ Hfl); unfold BSIZE in *; Z.div_mod_to_equations; lia. }
  pose proof wrote_data as HD. rewrite E in *. split; try apply W; try done.
  - rewrite Z.max_l by done. now destruct nd.
  - intros i Hi. apply HD. lia.
  - intros _ Hs. unfold synced, iblock in *. rewrite Es, (wr_inodes _ _ _ _ _ _ _ W); [done|apply (fl_inum _ _ Hfl)].
  - apply inodes_apart_kept, W.
Qed.
End Finish.

(** [iupdate]'s block differs from the old one in the inode's own bytes only. *)
Lemma iupdate_apart k k1 nd k2 k3 nd2 ls ic m :
  inodes_kept k k1 -> fs_ok k2 -> file_ok k2 nd2 -> i_inum nd2 = i_inum nd -> k_sb k1 = k_sb k -> k_sb k2 = k_sb k1 ->
  view k2 = view k1 -> fx [] k2 k3 (upd (view k2) (iblock k2 nd2) (store_dinode nd2 (ioff nd2) (view k2 (iblock k2 nd2)))) ls ic m ->
  inodes_apart k nd k3.
Proof.
  intros HK F2 L2 Ei Es1 Es2 Ev X i o Hi Ho Hc. rewrite <- (HK i Hi), <- Ev. rewrite <- Es1, <- Es2 in *.
  destruct (lay_inode _ _ _ (fo_layout _ F2) i Hi) as [[H0 _] _]. rewrite (fx_view X) by done.
  unfold upd. case_decide as E; [|done]. rewrite <- E. pose proof (ioff_range nd2) as [Hr1 Hr2].
  assert (Eo : ioff nd2 = ioff nd) by (unfold ioff; now rewrite Ei).
  destruct (lay_inode _ _ _ (fo_layout _ F2) _ (fl_inum _ _ L2)) as [Hib _]. change (sb_inodestart (k_sb k2) + i_inum nd2 / IPB) with (iblock k2 nd2) in Hib.
  rewrite E. apply stored_frame; [apply (fl_addrs _ _ L2)|done| |lia|].
  - rewrite (proj1 (fo_blocks _ F2 _ Hib)). unfold BSIZE in *. lia.
  - rewrite Eo. destruct Hc as [Hc|Hc]; [|done]. destruct Hc. unfold iblock in E. rewrite Ei in E. lia.
Qed.

(** Growth: the new size is set and the inode written. *)
Lemma finish_grow ip k nd k1 nd1 off bs :
  file_ok k nd -> icache k !! ip = Some nd -> wrote ip k nd k1 nd1 off bs ->
  0 <= off <= i_size nd -> off + Z.of_nat (length bs) <= MAXFILE * BSIZE ->
  i_size nd < off + Z.of_nat (length bs) -> cap k1 1 ->
  let nd2 := set_i_size (off + Z.of_nat (length bs)) nd1 in
  exists k3, (updinode ip (set_i_size (off + Z.of_nat (length bs))) ;; iupdate ip) k1 = Ok tt k3 /\
    written ip k nd k3 nd2 off bs.
Proof.
  intros Hfl Hip W Ho Hmx Hgt Hc nd2. set (sz := off + Z.of_nat (length bs)) in *.
  pose proof (wrote_mapped ip k nd k1 nd1 off bs Hfl Hip W Ho Hmx) as HM.
  pose proof (wrote_data ip k nd k1 nd1 off bs Hfl Hip W Ho Hmx) as HD. fold sz in HM, HD. rewrite Z.max_r in HM, HD by lia.
  destruct (wrote_fields ip k nd k1 nd1 off bs W) as (_ & Ei & _ & Et & Ej & En & El).
  destruct (fs_frame_fields _ _ (wr_frame _ _ _ _ _ _ _ W)) as (Em & _ & Es & Ec & _).
  set (k2 := set_icache (<[ip := nd2]> (icache k1)) k1). pose proof (fl_size _ _ Hfl) as Hsz.
  assert (L1 : file_ok k1 nd2) by (apply file_ok_resize; [apply W|lia|exact HM]).
  assert (Hip1 : icache k1 !! ip = Some nd1).
  { rewrite (wr_icache _ _ _ _ _ _ _ W). apply list_lookup_insert_eq. now apply lookup_lt_Some in Hip. }
  assert (Hip2 : icache k2 !! ip = Some nd2) by (apply list_lookup_insert_eq; now apply lookup_lt_Some in Hip1).
  assert (Eal : alter (set_i_size sz) ip (icache k1) = <[ip := nd2]> (icache k1)).
  { apply list_eq. intros j. destruct (decide (j = ip)) as [->|Hne].
    - rewrite list_lookup_alter_eq, list_lookup_insert_eq by (eapply lookup_lt_Some; exact Hip1). now rewrite Hip1.
    - now rewrite list_lookup_alter_ne, list_lookup_insert_ne. }
  destruct (iupdate_run k2 ip nd2) as (k3 & R3 & T3 & X3); try done.
  { now apply tx_set_icache, W. } { now apply fs_ok_set_icache, W. } { now apply file_ok_set_icache. }
  assert (F2 : fs_ok k2) by (apply fs_ok_set_icache, W). assert (L2 : file_ok k2 nd2) by now apply file_ok_set_icache.
  pose proof (fl_inum _ _ L2) as Hin. destruct (fs_frame_fields _ _ (fx_frame X3)) as (Em3 & _ & Es3 & Ec3 & _).
  pose proof (lay_inode _ _ _ (fo_layout _ F2) _ Hin) as [Hib _]. pose proof (fo_blocks _ F2 _ Hib) as Hblk.
  pose proof (block_ok_store_dinode nd2 (ioff nd2) _ Hblk) as Hv. change (sb_inodestart (k_sb k2) + i_inum nd2 / IPB) with (iblock k2 nd2) in *.
  exists k3. split; [unfold updinode; mred; rewrite Eal; exact R3|]. split; try done.
  - exact (iblk_fs _ _ _ _ _ _ _ F2 Hin Hv X3).
  - exact (iblk_file _ _ _ _ _ _ _ F2 Hin X3 nd2 L2).
  - fold sz. rewrite Z.max_r by lia. unfold nd2. rewrite (wr_nd _ _ _ _ _ _ _ W) at 1. done.
  - rewrite (fx_icache X3). unfold k2. cbn [icache set_icache]. now rewrite (wr_icache _ _ _ _ _ _ _ W), list_insert_insert_eq.
  - rewrite (fx_mem X3). apply (wr_mem _ _ _ _ _ _ _ W).
  - split_and!; [rewrite Em3|rewrite Ec3|rewrite Es3]; done.
  - intros i Hi. change (i_size nd2) with sz in Hi. fold sz. rewrite <- HD by done.
    rewrite (iblk_fbyte _ _ _ _ _ _ _ F2 Hin X3 nd2 L2); [done|lia|]. apply HM; unfold BSIZE; Z.div_mod_to_equations; lia.
  - intros b Hb. destruct (wr_foreign _ _ _ _ _ _ _ W b Hb) as [H1 <-].
    exact (iblk_foreign _ _ _ _ _ _ _ F2 Hin X3 nd2 L2 b H1).
  - intros Hw _. apply (synced_store k3 nd2 (view k2 (iblock k2 nd2))); [|apply Hblk|].
    + destruct Hw as [W1 W2 W3 W4 W5 W6 W7]. split; cbn; rewrite ?Et, ?Ej, ?En, ?El; try done.
      * rewrite MAXFILE_eq in Hmx. unfold BSIZE in Hmx. lia.
      * apply (fl_addrs _ _ L1).
      * apply (file_addrs k1 [] nd1); apply W.
    + unfold iblock at 1. rewrite Es3. fold (iblock k2 nd2). rewrite (fx_view X3) by apply Hib. unfold upd. now rewrite decide_True.
  - exact (iupdate_apart k k1 nd k2 k3 nd2 _ _ _ (wr_inodes _ _ _ _ _ _ _ W) F2 L2 Ei Es eq_refl eq_refl X3).
  - intros b Hb Hu. rewrite (iblk_used _ _ _ _ _ _ _ F2 Hin X3) by (cbn; rewrite Es; lia). now apply (wr_used _ _ _ _ _ _ _ W).
  - intros b Hb Hb0. rewrite (iblk_used _ _ _ _ _ _ _ F2 Hin X3) by (cbn; rewrite Es; lia). intros Hu.
    destruct (wr_only _ _ _ _ _ _ _ W b Hb Hb0 Hu) as [|[E|(n & Hn & E)]]; [now left|right; now left|right; right].
    exists n. split; [done|]. now rewrite (iblk_baddr _ _ _ _ _ _ _ F2 Hin X3 nd2 L2).
Qed.

Lemma writei_run k ip nd src bs off :
  tx k [] -> fs_ok k -> file_ok k nd -> icache k !! ip = Some nd -> sb_size (k_sb k) <= BPB -> i_type nd <> T_DEV ->
  src_at src bs k -> bytes_ok bs -> 0 <= off <= i_size nd -> off + Z.of_nat (length bs) <= MAXFILE * BSIZE ->
  cap k (Z.to_nat (span off (Z.of_nat (length bs))) + 8) ->
  (Z.to_nat (span off (Z.of_nat (length bs))) + slack nd <= frees k)%nat ->
  exists k' nd', writei ip src off (Z.of_nat (length bs)) k = Ok (Z.of_nat (length bs)) k' /\ written ip k nd k' nd' off bs.
Proof.
  intros Ht Hfs Hfl Hip Hsz Hty Hs Hbs Ho Hmx Hc Hfr. set (n := Z.of_nat (length bs)) in *.
  pose proof (span_rounds off n ltac:(lia) ltac:(lia)) as Hsp. pose proof (fl_size _ _ Hfl) as Hsize.
  rewrite MAXFILE_eq in *. assert (HB : BSIZE = 512) by done. rewrite HB in Hmx, Hsize.
  assert (Hsp0 : 0 <= span off n) by (unfold span; rewrite HB; destruct (Z.leb_spec n 0); Z.div_mod_to_equations; lia).
  assert (Hbu : budget k k nd [] (Z.to_nat (span off n))).
  { split; [|exact Hc]. apply (log_step_mono _ _ [] _ (log_step_refl _)). intros b Hb. now apply elem_of_nil in Hb. }
  destruct (writei_loop_run k ip src bs (Z.to_nat (span off n)) (rounds n) k nd [] 0 off) as (k1 & nd1 & ds & R1 & W & Hb1);
    fold n; rewrite ?Z.sub_0_r, ?MAXFILE_eq; try done; try lia.
  fold n in R1, W. rewrite Z.sub_0_r in R1, W. unfold slice in W. change (drop (Z.to_nat 0) bs) with bs in W.
  rewrite firstn_all2 in W by (unfold n; lia). pose proof (budget_cap _ _ _ _ _ (wr_tx _ _ _ _ _ _ _ W) Hb1) as Hc1.
  assert (Hip1 : icache k1 !! ip = Some nd1).
  { rewrite (wr_icache _ _ _ _ _ _ _ W). apply list_lookup_insert_eq. now apply lookup_lt_Some in Hip. }
  destruct (wrote_fields ip k nd k1 nd1 off bs W) as (_ & _ & Ez & _).
  unfold writei, getinode. mred. rewrite (list_lookup_total_correct _ _ _ Hip), (proj2 (Z.eqb_neq _ _)) by done.
  rewrite (proj2 (Z.ltb_ge (i_size nd) off)), (u32_small (off + n)), (proj2 (Z.ltb_ge (off + n) off)) by lia. cbn [orb].
  rewrite MAXFILE_eq, HB, (proj2 (Z.ltb_ge _ (off + n))) by lia. mok R1. mred.
  rewrite (list_lookup_total_correct _ _ _ Hip1), Ez, s32_small by lia. destruct (Z.ltb_spec (i_size nd) (off + n)) as [Hg|Hg].
  - rewrite (proj2 (Z.ltb_lt 0 n)) by lia. cbn [andb]. unfold when.
    destruct (finish_grow ip k nd k1 nd1 off bs) as (k3 & R3 & Wn); rewrite ?MAXFILE_eq; try done; [unfold cap in *; lia|].
    exists k3, (set_i_size (off + n) nd1). split; [|done]. fold n in R3. mok R3. done.
  - rewrite andb_false_r. unfold when. mred. exists k1, nd1. split; [done|]. apply finish_same; rewrite ?MAXFILE_eq; done.
Qed.

(** An offset past the end, a sum that wraps around, a file too large. *)
Lemma writei_refused k ip nd src off n :
  icache k !! ip = Some nd -> i_type nd <> T_DEV -> 0 <= off < 2 ^ 32 -> 0 <= n < 2 ^ 32 ->
  i_size nd < off \/ 2 ^ 32 <= off + n \/ MAXFILE * BSIZE < off + n -> writei ip src off n k = Ok (-1) k.
Proof.
  intros Hip Hty Ho Hn H. unfold writei, getinode. rewrite bind_gets. cbn beta. rewrite (list_lookup_total_correct _ _ _ Hip).
  rewrite (proj2 (Z.eqb_neq _ _)) by done. destruct ((i_size nd <? off) || (u32 (off + n) <? off)) eqn:E; [done|].
  rewrite (proj2 (Z.ltb_lt _ (off + n))); [done|]. apply orb_false_iff in E as [E1 E2].
  destruct H as [H|[H|H]]; [lia| |done]. exfalso. unfold u32 in E2. revert E2. Z.div_mod_to_equations. lia.
Qed.

(** ** Properties *)

(** C3.  Writing a regular file or directory inside a transaction.  [writei] of [n] bytes at an offset
    within the file puts exactly those bytes there, maps new zeroed blocks where the file had none,
    extends the size when the write goes past the end, and keeps every other byte of the file, every
    block of other files, every byte of the inode table that is not this inode's, the memory, and the
    disk (until the commit) as they were; the blocks marked as used are the old ones and the file's; the
    inode on disk agrees with the cached one again.  An offset past the end, a sum that wraps around, or
    a write past the largest file gives -1 and changes nothing. *)
Theorem writei_correct k ip nd src bs off :
  let n := Z.of_nat (length bs) in
  tx k [] -> fs_ok k -> file_ok k nd -> icache k !! ip = Some nd -> i_type nd <> T_DEV -> 0 <= off < 2 ^ 32 -> n < 2 ^ 32 ->
  (i_size nd < off \/ 2 ^ 32 <= off + n \/ MAXFILE * BSIZE < off + n -> writei ip src off n k = Ok (-1) k) /\
  (sb_size (k_sb k) <= BPB -> src_at src bs k -> bytes_ok bs -> off <= i_size nd -> off + n <= MAXFILE * BSIZE ->
   cap k (Z.to_nat (span off n) + 8) -> (Z.to_nat (span off n) + slack nd <= frees k)%nat ->
   exists k' nd', writei ip src off n k = Ok n k' /\ written ip k nd k' nd' off bs).
Proof.
  intros n Ht Hfs Hfl Hip Hty Ho Hn. split; [apply writei_refused; unfold n in *; try done; lia|].
  intros H1 H2 H3 H4 H5 H6 H7. apply writei_run; try done; lia.
Qed.

(** The examples' file system has free blocks. *)
Lemma ex_frees k : k_sb k = ex_sb -> (forall b, view k b = dsk ex_img b) -> frees k = 39%nat.
Proof.
  intros Es Hv. unfold frees. rewrite Es.
  assert (E : filter (fun b => used k b = false) (seqZ 0 (sb_size ex_sb)) =
    filter (fun b => dbit (dsk ex_img (23 + b / BPB)) (b mod BPB) = false) (seqZ 0 64)).
  { apply list_filter_iff. intros b. unfold used. now rewrite Es, Hv. }
  rewrite E. vm_compute. reflexivity.
Qed.

Lemma writei_correct_witness :
  exists k k' nd', writei 0 (FromBuf [88; 89]) 2 2 k = Ok 2 k' /\ i_size nd' = 4 /\ file_ok k' nd' /\
    fbyte k' nd' 1 = 105 /\ fbyte k' nd' 2 = 88 /\ fbyte k' nd' 3 = 89 /\ inodes_apart k ex_inode k'.
Proof.
  destruct ex_file as (k & Ht & Hfs & Hfl & Hip & Hc & Es & Hv & Hby).
  destruct (writei_correct k 0 ex_inode (FromBuf [88; 89]) [88; 89] 2 Ht Hfs Hfl Hip) as [_ H]; [done|lia|cbn; lia|].
  destruct H as (k' & nd' & R & W); cbn [length] in *; try done.
  - rewrite Es. cbn. unfold BPB, BSIZE. lia.
  - repeat constructor; lia.
  - change (Z.to_nat (span 2 (Z.of_nat 2))) with 1%nat. unfold cap in *. lia.
  - rewrite (ex_frees k Es Hv). change (Z.to_nat (span 2 (Z.of_nat 2))) with 1%nat. unfold slack. destruct (_ =? 0); lia.
  - assert (Esz : i_size nd' = 4) by (rewrite (wn_nd _ _ _ _ _ _ _ W); reflexivity).
    exists k, k', nd'. split_and!; [exact R|done|apply W| | | |apply W];
      rewrite (wn_bytes _ _ _ _ _ _ _ W) by (rewrite Esz; lia); cbn [length];
      [rewrite decide_False by lia; rewrite Hby by lia; vm_compute; reflexivity|rewrite decide_True by lia; reflexivity..].
Defined.

(** C37.  What [writei] writes, [readi] reads back: the same bytes, to a kernel variable or to the
    memory of the caller, and [readi] reports the full count. *)
Theorem write_read_roundtrip k ip nd src bs off dst pas :
  let n := Z.of_nat (length bs) in
  tx k [] -> fs_ok k -> file_ok k nd -> icache k !! ip = Some nd -> sb_size (k_sb k) <= BPB -> i_type nd <> T_DEV ->
  src_at src bs k -> bytes_ok bs -> 0 <= off <= i_size nd -> off + n <= MAXFILE * BSIZE ->
  cap k (Z.to_nat (span off n) + 8) -> (Z.to_nat (span off n) + slack nd <= frees k)%nat ->
  dst_at dst pas k -> fits dst pas n ->
  exists k1 k2, writei ip src off n k = Ok n k1 /\ readi ip dst off n k1 = Ok (n, bs) k2 /\ dst_holds dst pas bs k2.
Proof.
  intros n Ht Hfs Hfl Hip Hsz Hty Hs Hbs Ho Hmx Hc Hfr Hd Hf.
  destruct (writei_run k ip nd src bs off Ht Hfs Hfl Hip Hsz Hty Hs Hbs Ho Hmx Hc Hfr) as (k1 & nd1 & R1 & W).
  fold n in R1. assert (Esz : i_size nd1 = Z.max (i_size nd) (off + n)) by (rewrite (wn_nd _ _ _ _ _ _ _ W); done).
  destruct (wn_disk _ _ _ _ _ _ _ W) as (_ & Ec & _). pose proof (wn_mem _ _ _ _ _ _ _ W) as Em.
  assert (Ecnt : Z.min n (i_size nd1 - off) = n) by lia.
  assert (Ed : fdata k1 nd1 off n = bs).
  { apply list_eq_same_length with (n := length bs); [done|rewrite fdata_length; unfold n; lia|].
    intros i x y Hi Hx Hy. rewrite <- (Nat2Z.id i), fdata_lookup in Hx by (unfold n; lia). injection Hx as <-.
    rewrite (wn_bytes _ _ _ _ _ _ _ W), decide_True by (fold n; unfold n in *; lia).
    apply list_lookup_total_correct. rewrite <- Hy. f_equal. lia. }
  destruct (readi_run k1 ip nd1 dst pas off n) as (k2 & R2 & _ & Hh & _);
    [apply W|apply W|apply W| | |lia| | | |lia|].
  - rewrite (wn_icache _ _ _ _ _ _ _ W). apply list_lookup_insert_eq. now apply lookup_lt_Some in Hip.
  - rewrite (wn_nd _ _ _ _ _ _ _ W). exact Hty.
  - rewrite MAXFILE_eq in Hmx. unfold BSIZE in Hmx. lia.
  - destruct dst; [|done]. cbn in *. apply (writable_same k); [done|congruence|done].
  - now rewrite Ecnt.
  - rewrite Ecnt, Ed in *. now exists k1, k2.
Qed.

Lemma write_read_roundtrip_witness :
  exists k k1 k2, writei 0 (FromBuf [88; 89]) 2 2 k = Ok 2 k1 /\ readi 0 ToBuf 2 2 k1 = Ok (2, [88; 89]) k2.
Proof.
  destruct ex_file as (k & Ht & Hfs & Hfl & Hip & Hc & Es & Hv & Hby).
  destruct (write_read_roundtrip k 0 ex_inode (FromBuf [88; 89]) [88; 89] 2 ToBuf [] Ht Hfs Hfl Hip) as (k1 & k2 & R1 & R2 & _);
    cbn [length] in *; try done.
  - rewrite Es. cbn. unfold BPB, BSIZE. lia.
  - repeat constructor; lia.
  - change (Z.to_nat (span 2 (Z.of_nat 2))) with 1%nat. unfold cap in *. lia.
  - rewrite (ex_frees k Es Hv). change (Z.to_nat (span 2 (Z.of_nat 2))) with 1%nat. unfold slack. destruct (_ =? 0); lia.
  - now exists k, k1, k2.
Defined.
