(* ===== verification/Path.v ===== *)
(** * Path name theorems (fs.c)

    [skipelem] and [namex] against reference definitions: a path is the list of its
    non-empty elements between slashes, and lookup walks along that list. *)

From S2P Require Import Prelude State Equiv Strings Bytes Sched Bio Inode ConsoleIO Fs.

(** ** The elements of a path *)

(** The parts between slashes. *)
Fixpoint split (p : list Z) : list (list Z) :=
  match p with
  | [] => [[]]
  | c :: p' =>
      if c =? 47 then [] :: split p'
      else match split p' with
           | w :: ws => (c :: w) :: ws
           | [] => [[c]]
           end
  end.

Definition elems (p : list Z) : list (list Z) := filter (fun w => w <> []) (split p).

Lemma split_nonnil p : split p <> [].
Proof. induction p as [|c p IH]; cbn; [done|]. destruct (c =? 47); [done|]. now destruct (split p). Qed.

Lemma elems_slash p : elems (47 :: p) = elems p.
Proof. unfold elems. cbn. done. Qed.

Lemma elems_skip p : elems (skip_slashes p) = elems p.
Proof.
  induction p as [|c p IH]; cbn [skip_slashes]; [done|].
  destruct (Z.eqb_spec c 47) as [->|]; [|done]. now rewrite elems_slash.
Qed.

(** What starts with a slash or is empty. *)
Definition at_slash (p : list Z) : Prop := p = [] \/ exists p', p = 47 :: p'.

Definition no_slash (s : list Z) : Prop := Forall (fun c => c <> 47) s.

Lemma span_elem_spec p : let '(s, rest) := span_elem p in p = s ++ rest /\ no_slash s /\ at_slash rest.
Proof.
  induction p as [|c p IH]; cbn; [repeat split; [constructor|now left]|].
  destruct (Z.eqb_spec c 47) as [->|Hc].
  - repeat split; [constructor|]. right. now eexists.
  - destruct (span_elem p) as [s rest]. destruct IH as (-> & Hs & Hr).
    split; [done|]. split; [now constructor|done].
Qed.

Lemma split_app s rest : no_slash s -> at_slash rest -> split (s ++ rest) = s :: tail (split rest).
Proof.
  intros Hs Hr. induction Hs as [|c s Hc Hs IH]; cbn.
  - destruct Hr as [->|[p' ->]]; done.
  - rewrite (proj2 (Z.eqb_neq c 47)) by done. now rewrite IH.
Qed.

Lemma elems_tail rest : at_slash rest -> filter (fun w => w <> []) (tail (split rest)) = elems rest.
Proof. intros [->|[p' ->]]; [done|]. rewrite elems_slash. done. Qed.

Lemma elems_app s rest : s <> [] -> no_slash s -> at_slash rest -> elems (s ++ rest) = s :: elems rest.
Proof.
  intros Hn Hs Hr. unfold elems at 1. rewrite (split_app s rest Hs Hr).
  rewrite filter_cons_True by done. now rewrite elems_tail.
Qed.

(** ** skipelem *)

(** The string in the array [name]: it has no NUL when all [DIRSIZ] bytes are used. *)
Definition name_of (name : list Z) : list Z := cstr name.

Lemma skip_slashes_head p c p' : skip_slashes p = c :: p' -> c <> 47.
Proof.
  induction p as [|d p IH]; cbn; [done|]. destruct (Z.eqb_spec d 47); [done|]. now intros [= -> ->].
Qed.

Lemma skip_slashes_length p : (length (skip_slashes p) <= length p)%nat.
Proof. induction p as [|c p IH]; cbn; [done|]. destruct (c =? 47); cbn; lia. Qed.

Lemma skip_slashes_str p : is_str p -> is_str (skip_slashes p).
Proof. induction 1 as [|c p Hc Hp IH]; cbn; [constructor|]. destruct (c =? 47); [done|now constructor]. Qed.

Lemma cstr_full s : is_str s -> cstr s = s.
Proof.
  induction 1 as [|c s Hc Hs IH]; cbn; [done|]. destruct (Z.eqb_spec c 0); [lia|]. now rewrite IH.
Qed.

Lemma put_full l d : length d = length l -> put l 0 d = d.
Proof.
  unfold put. change (Z.to_nat 0) with 0%nat. revert l. induction d as [|x d IH]; intros l H; destruct l as [|y l]; try done.
  cbn [list_inserts]. rewrite list_inserts_cons. cbn. f_equal. apply IH. cbn in H. lia.
Qed.

Lemma put_prefix l d : (length d <= length l)%nat -> put l 0 d = d ++ drop (length d) l.
Proof.
  unfold put. change (Z.to_nat 0) with 0%nat. revert l. induction d as [|x d IH]; intros l H; destruct l as [|y l]; try done.
  { cbn in H. lia. }
  cbn [list_inserts]. rewrite list_inserts_cons. cbn. f_equal. apply IH. cbn in H. lia.
Qed.

(** The new contents of [name] for the element [s]. *)
Definition store_name (name s : list Z) : list Z :=
  if DIRSIZ <=? Z.of_nat (length s) then put name 0 (take (Z.to_nat DIRSIZ) s)
  else st8 (put name 0 s) (Z.of_nat (length s)) 0.

Lemma store_name_length name s : length (store_name name s) = length name.
Proof. unfold store_name. destruct (_ <=? _); unfold st8; now rewrite ?length_put. Qed.

Lemma store_name_cstr name s :
  is_str s -> length name = Z.to_nat DIRSIZ -> cstr (store_name name s) = take (Z.to_nat DIRSIZ) s.
Proof.
  intros Hs Hl. unfold store_name, DIRSIZ in *. destruct (Z.leb_spec 14 (Z.of_nat (length s))) as [H|H].
  - rewrite put_full by (rewrite length_take; lia). apply cstr_full. apply Forall_take. done.
  - rewrite put_prefix by lia. rewrite take_ge by lia.
    destruct (drop (length s) name) as [|x r] eqn:E.
    { apply (f_equal length) in E. rewrite length_drop in E. cbn in E. lia. }
    replace (st8 (s ++ x :: r) (Z.of_nat (length s)) 0) with (s ++ 0 :: r); [now apply cstr_app_nul|].
    unfold st8, put. rewrite Nat2Z.id. cbn. rewrite insert_app_r_alt by done. rewrite Nat.sub_diag. reflexivity.
Qed.

Lemma skipelem_nil path name : skip_slashes path = [] -> skipelem path name = None.
Proof. intros E. unfold skipelem. now rewrite E. Qed.

Lemma skipelem_cons path name s r :
  skip_slashes path <> [] -> span_elem (skip_slashes path) = (s, r) ->
  skipelem path name = Some (skip_slashes r, store_name name s).
Proof. intros H E. unfold skipelem. destruct (skip_slashes path) as [|c p]; [done|]. now rewrite E. Qed.

(** Everything [skipelem] does for a path with an element. *)
Lemma skipelem_some path name rest name' :
  is_str path -> length name = Z.to_nat DIRSIZ -> skipelem path name = Some (rest, name') ->
  exists e, elems path = e :: elems rest /\ is_str rest /\ (length rest < length path)%nat /\
    head rest <> Some 47 /\ length name' = Z.to_nat DIRSIZ /\
    cstr name' = take (Z.to_nat DIRSIZ) e.
Proof.
  intros Hp Hl. pose proof (skip_slashes_length path) as Hlen. pose proof (skip_slashes_str _ Hp) as Hq.
  destruct (decide (skip_slashes path = [])) as [E|E]; [now rewrite skipelem_nil|].
  pose proof (span_elem_spec (skip_slashes path)) as Hs.
  destruct (span_elem (skip_slashes path)) as [s r] eqn:Es. destruct Hs as (Eq & Hns & Hr).
  rewrite (skipelem_cons _ _ _ _ E Es). intros [= <- <-].
  assert (Hse : s <> []).
  { intros ->. destruct Hr as [->|[p' ->]]; [done|]. now apply skip_slashes_head in Eq. }
  assert (Hsr : is_str s /\ is_str r) by (rewrite Eq in Hq; now apply Forall_app in Hq).
  exists s. rewrite <- (elems_skip path), Eq, elems_app, elems_skip by done.
  split_and!; [done|apply skip_slashes_str, Hsr| | | |].
  - pose proof (skip_slashes_length r). apply (f_equal length) in Eq. rewrite length_app in Eq.
    destruct s; [done|]. cbn in *. lia.
  - destruct (skip_slashes r) as [|d r'] eqn:Er; [done|]. intros [= ->]. now apply skip_slashes_head in Er.
  - now rewrite store_name_length.
  - apply store_name_cstr; [apply Hsr|done].
Qed.

Lemma skipelem_none path name : skipelem path name = None <-> elems path = [].
Proof.
  destruct (skip_slashes path) as [|c p] eqn:E.
  - rewrite skipelem_nil by done. split; [|done]. intros _. now rewrite <- elems_skip, E.
  - destruct (span_elem (skip_slashes path)) as [s r] eqn:Es.
    assert (Hn : skip_slashes path <> []) by now rewrite E.
    rewrite (skipelem_cons path name s r Hn Es). split; [done|].
    pose proof (span_elem_spec (skip_slashes path)) as Hs. rewrite Es in Hs. destruct Hs as (Eq & Hns & Hr).
    rewrite <- elems_skip, Eq, elems_app; [done| |done|done].
    intros ->. rewrite E in Eq. destruct Hr as [->|[p' ->]]; [done|]. injection Eq as -> ->.
    now apply skip_slashes_head in E.
Qed.

(** ** Names *)

(** Comparing names looks at the string in the array only. *)
Lemma strncmp_same n : forall a b q, take n (cstr a) = take n (cstr b) -> strncmp_arr n a q = strncmp_arr n b q.
Proof.
  assert (H0 : forall l, cstr l = [] -> default 0 (head l) = 0).
  { intros [|x l]; cbn; [done|]. destruct (Z.eqb_spec x 0); [done|discriminate]. }
  assert (H1 : forall l x r, cstr l = x :: r -> x <> 0 /\ exists l', l = x :: l' /\ cstr l' = r).
  { intros [|y l] x r; cbn; [discriminate|]. destruct (Z.eqb_spec y 0); [discriminate|].
    intros [= <- <-]. split; [done|]. now exists l. }
  induction n as [|n IH]; intros a b q H; [done|].
  destruct (cstr a) as [|x ra] eqn:Ea, (cstr b) as [|y rb] eqn:Eb; try discriminate.
  - cbn. now rewrite (H0 _ Ea), (H0 _ Eb).
  - apply H1 in Ea as (Hx & a' & -> & <-). apply H1 in Eb as (Hy & b' & -> & <-).
    injection H as -> H. cbn. now rewrite (IH a' b').
Qed.

Definition same_name (n1 n2 : list Z) : Prop := take (Z.to_nat DIRSIZ) (cstr n1) = take (Z.to_nat DIRSIZ) (cstr n2).

Lemma cstr_strncpy n e : is_str e -> cstr (strncpy_arr n e) = take n e.
Proof.
  intros He. rewrite strncpy_arr_spec by done. destruct (n - length e)%nat as [|m] eqn:E.
  - rewrite app_nil_r. apply cstr_full, Forall_take, He.
  - apply cstr_app_nul, Forall_take, He.
Qed.

Lemma dirlookup_loop_same fuel : forall dp n1 n2 off, same_name n1 n2 ->
  msim eq (dirlookup_loop fuel dp n1 off) (dirlookup_loop fuel dp n2 off).
Proof.
  induction fuel as [|fuel IH]; intros dp n1 n2 off H; cbn [dirlookup_loop]; apply msim_step; intros nd.
  - apply msim_refl.
  - destruct (off <? i_size nd); [|apply msim_refl]. apply msim_step. intros de.
    destruct (de_inum de =? 0); [now apply IH|]. unfold namecmp.
    rewrite (strncmp_same _ n1 n2 _ H). destruct (strncmp_arr _ n2 _ =? 0); [apply msim_refl|now apply IH].
Qed.

Lemma dirlookup_same dp n1 n2 : same_name n1 n2 -> msim eq (dirlookup dp n1) (dirlookup dp n2).
Proof.
  intros H. unfold dirlookup. apply msim_step. intros nd. destruct (negb _); [apply msim_refl|].
  apply (msim_bind eq); [now apply dirlookup_loop_same|]. intros r ? <-. apply msim_refl.
Qed.

(** ** Lookup *)

(** Where the lookup of a path starts. *)
Definition path_start (path : list Z) : K nat :=
  if bool_decide (head path = Some 47) then iget ROOTDEV ROOTINO
  else
    c <- curproc ;;
    p <- getproc c ;;
    match p_cwd p with
    | Some cwd => idup cwd
    | None => null_pointer
    end.

(** Down the elements [es] from the directory [ip]; with [parent], to the directory
    that has the last element. *)
Fixpoint walk (ip : nat) (es : list (list Z)) (parent : bool) : K (option nat) :=
  match es with
  | [] => if parent then iput ip ;; ret None else ret (Some ip)
  | e :: es' =>
      ilock ip ;;
      nd <- getinode ip ;;
      if negb (i_type nd =? T_DIR) then iunlockput ip ;; ret None
      else if parent && bool_decide (es' = []) then iunlock ip ;; ret (Some ip)
      else
        next <- dirlookup ip (strncpy_arr (Z.to_nat DIRSIZ) e) ;;
        match next with
        | None => iunlockput ip ;; ret None
        | Some (next, _) => iunlockput ip ;; walk next es' parent
        end
  end.

(** The same inode, and the array [name] has the last element. *)
Definition same_lookup (parent : bool) (es : list (list Z)) (r : option nat * list Z) (o : option nat) : Prop :=
  fst r = o /\
  (parent = true -> o <> None -> exists e, last es = Some e /\ cstr (snd r) = take (Z.to_nat DIRSIZ) e).

Lemma rest_nil rest : head rest <> Some 47 -> (rest = [] <-> elems rest = []).
Proof.
  intros H. split; [now intros ->|]. rewrite <- (skipelem_none rest name0).
  destruct rest as [|c rest]; [done|].
  assert (Hs : skip_slashes (c :: rest) <> []) by (cbn; destruct (Z.eqb_spec c 47) as [->|]; done).
  destruct (span_elem (skip_slashes (c :: rest))) as [s r] eqn:Es.
  now rewrite (skipelem_cons _ _ _ _ Hs Es).
Qed.

Lemma elems_str p : is_str p -> Forall is_str (elems p).
Proof.
  intros H. apply Forall_forall. intros w Hw. unfold elems in Hw. apply list_elem_of_filter in Hw as [_ Hw].
  revert w Hw. apply Forall_forall. induction H as [|c p Hc Hp IH]; cbn; [repeat constructor|].
  destruct (c =? 47); [constructor; [constructor|done]|].
  destruct IH as [|w ws Hw Hws]; [repeat constructor; lia|]. constructor; [now constructor|done].
Qed.

Lemma namex_loop_walk fuel : forall ip path parent name,
  is_str path -> length name = Z.to_nat DIRSIZ -> (length path <= fuel)%nat ->
  msim (same_lookup parent (elems path)) (namex_loop fuel ip path parent name) (walk ip (elems path) parent).
Proof.
  induction fuel as [|fuel IH]; intros ip path parent name Hp Hl Hf;
    (destruct (skipelem path name) as [[rest name']|] eqn:E; cbn [namex_loop]; rewrite E;
     [destruct (skipelem_some _ _ _ _ Hp Hl E) as (e & Ee & Hr & Hlen & Hh & Hl' & Hn); rewrite Ee
     |apply skipelem_none in E; rewrite E; cbn [walk]; destruct parent;
      [apply msim_step; intros _; now apply msim_ret|now apply msim_ret]]); [lia|].
  cbn [walk]. apply msim_step; intros _. apply msim_step; intros nd.
  destruct (negb (i_type nd =? T_DIR)).
  { apply msim_step; intros _. now apply msim_ret. }
  rewrite (bool_decide_ext _ _ (rest_nil rest Hh)).
  destruct (parent && bool_decide (elems rest = [])) eqn:Ep.
  { apply andb_true_iff in Ep as [-> Ep]. apply bool_decide_eq_true in Ep.
    apply msim_step; intros _. apply msim_ret. split; [done|]. intros _ _. exists e. now rewrite Ep. }
  assert (He : is_str e).
  { pose proof (elems_str _ Hp) as He. rewrite Ee in He. now apply Forall_cons in He. }
  apply (msim_bind eq).
  { apply dirlookup_same. unfold same_name. now rewrite cstr_strncpy, Hn. }
  intros next ? <-. destruct next as [[next off]|].
  - apply msim_step; intros _. eapply msim_mono; [|now apply IH; [| |lia]].
    intros r o [H1 H2]. split; [done|]. intros Hpa Ho. destruct (H2 Hpa Ho) as (e' & Hl1 & Hl2).
    exists e'. split; [|done]. destruct (elems rest); [done|]. done.
  - apply msim_step; intros _. now apply msim_ret.
Qed.

(** C13.  Path lookup is the walk along the path's elements: from the root or the current
    directory, [namex] locks each directory in turn, looks the next element up by its
    first 14 characters, and stops with nothing at a missing element or at one that is
    not a directory; repeated, leading and trailing slashes do not matter.  Asked for the
    parent it stops at the directory before the last element and leaves that element in
    [name].  The loop takes no more rounds than the path has characters. *)
Theorem namex_correct path parent name :
  is_str path -> length name = Z.to_nat DIRSIZ ->
  msim (same_lookup parent (elems path)) (namex path parent name)
    (ip <- path_start path ;; walk ip (elems path) parent).
Proof. intros Hp Hl. apply msim_step. intros ip. now apply namex_loop_walk. Qed.

(** The path "//usr//bin/x/". *)
Definition example_path : list Z := [47; 47; 117; 115; 114; 47; 47; 98; 105; 110; 47; 120; 47].

Lemma namex_correct_witness :
  elems example_path = [[117; 115; 114]; [98; 105; 110]; [120]] /\
  msim (same_lookup true (elems example_path)) (namex example_path true name0)
    (ip <- path_start example_path ;; walk ip (elems example_path) true).
Proof.
  split; [reflexivity|]. apply (namex_correct example_path true name0); [|reflexivity].
  repeat constructor; lia.
Defined.
