(* ===== verification/File.v ===== *)
(** * Open files (file.c) and pipe creation (pipe.c)

    A file pointer is the index of the entry of [ftable.file]. *)

From S2P Require Import Prelude State CMem Spinlock Mmu Kalloc Vm Umem Console Sched Bio Bytes Log Inode ConsoleIO Fs Pipe.

Definition fileinit : K unit := initlock Lftable "ftable".

(** The loop of [filealloc]: the first entry without references. *)
Fixpoint file_free (l : list file) (i : nat) : option nat :=
  match l with
  | [] => None
  | f :: l' => if f_ref f =? 0 then Some i else file_free l' (S i)
  end.

Definition filealloc : K (option nat) :=
  acquire Lftable ;;
  l <- gets ftable ;;
  match file_free l 0 with
  | Some f =>
      updfile f (set_f_ref 1) ;;
      release Lftable ;;
      ret (Some f)
  | None =>
      release Lftable ;;
      ret None
  end.

Definition filedup (f : nat) : K nat :=
  acquire Lftable ;;
  ff <- getfile f ;;
  if f_ref ff <? 1 then panic "filedup" else
  updfile f (fun ff => set_f_ref (f_ref ff + 1) ff) ;;
  release Lftable ;;
  ret f.

(** A file of type [FD_INODE] has its inode. *)
Definition with_ip {A} (ff : file) (m : nat -> K A) : K A :=
  match f_ip ff with
  | Some ip => m ip
  | None => null_pointer
  end.

Definition fileclose (f : nat) : K unit :=
  acquire Lftable ;;
  ff <- getfile f ;;
  if f_ref ff <? 1 then panic "fileclose" else
  updfile f (fun ff => set_f_ref (f_ref ff - 1) ff) ;;
  ff <- getfile f ;;
  if 0 <? f_ref ff then release Lftable else
  updfile f (set_f_ref 0) ;;
  updfile f (set_f_type FD_NONE) ;;
  release Lftable ;;
  match f_type ff with
  | FD_PIPE => pipeclose (f_pipe ff) (f_writable ff)
  | FD_INODE =>
      begin_op ;;
      with_ip ff iput ;;
      end_op
  | FD_NONE => ret tt
  end.

(** [stati] with its stores to the user's [struct stat]: [type] at offset 0, [dev]
    at 4, [ino] at 8, [nlink] at 12, [size] at 16. *)
Definition stati_to (ip : nat) (st : Z) : K unit :=
  s <- stati ip ;;
  vstore (st + 4) (le32 (st_dev s)) ;;
  vstore (st + 8) (le32 (st_ino s)) ;;
  vstore st (le16 (st_type s)) ;;
  vstore (st + 12) (le16 (st_nlink s)) ;;
  vstore (st + 16) (le32 (st_size s)).

Definition filestat (f : nat) (st : Z) : K Z :=
  ff <- getfile f ;;
  match f_type ff with
  | FD_INODE =>
      with_ip ff (fun ip =>
        ilock ip ;;
        stati_to ip st ;;
        iunlock ip) ;;
      ret 0
  | _ => ret (-1)
  end.

Definition fileread (f : nat) (addr n : Z) : K Z :=
  ff <- getfile f ;;
  if f_readable ff =? 0 then ret (-1) else
  match f_type ff with
  | FD_PIPE => piperead (f_pipe ff) addr n
  | FD_INODE =>
      with_ip ff (fun ip =>
        ilock ip ;;
        ff <- getfile f ;;
        r <- readi ip (ToMem addr) (f_off ff) (u32 n) ;;
        when (0 <? fst r) (updfile f (fun ff => set_f_off (u32 (f_off ff + fst r)) ff)) ;;
        iunlock ip ;;
        ret (fst r))
  | FD_NONE => panic "fileread"
  end.

(** The largest write made in one transaction. *)
Definition max_write : Z := (LOGSIZE - 1 - 1 - 2) / 2 * 512.
#[global] Arguments max_write : simpl never.

(** The [while] loop; its result is [i].  Every round but the last writes
    [max_write] bytes. *)
Fixpoint filewrite_loop (fuel : nat) (f ip : nat) (addr i n : Z) : K Z :=
  if i <? n then
    match fuel with
    | O => out_of_fuel
    | S fuel' =>
        let n1 := if max_write <? n - i then max_write else n - i in
        begin_op ;;
        ilock ip ;;
        ff <- getfile f ;;
        r <- writei ip (FromMem (addr + i)) (f_off ff) n1 ;;
        when (0 <? r) (updfile f (fun ff => set_f_off (u32 (f_off ff + r)) ff)) ;;
        iunlock ip ;;
        end_op ;;
        if r <? 0 then ret i
        else if negb (r =? n1) then panic "short filewrite"
        else filewrite_loop fuel' f ip addr (i + r) n
    end
  else ret i.

Definition filewrite (f : nat) (addr n : Z) : K Z :=
  ff <- getfile f ;;
  if f_writable ff =? 0 then ret (-1) else
  match f_type ff with
  | FD_PIPE => pipewrite (f_pipe ff) addr n
  | FD_INODE =>
      with_ip ff (fun ip =>
        i <- filewrite_loop (Z.to_nat (n / max_write + 1)) f ip addr 0 n ;;
        ret (if i =? n then n else -1))
  | FD_NONE => panic "filewrite"
  end.

(** ** pipealloc *)

Definition open_pipe_end (f : nat) (readable writable p : Z) : K unit :=
  updfile f (fun ff => set_f_pipe p (set_f_writable writable (set_f_readable readable (set_f_type FD_PIPE ff)))).

(** The exit at [bad], where [p] is null: no path reaches it with a page. *)
Definition pipealloc_bad (f0 f1 : option nat) : K (option (nat * nat)) :=
  match f0 with Some f => fileclose f | None => ret tt end ;;
  match f1 with Some f => fileclose f | None => ret tt end ;;
  ret None.

(** The [n] bytes of memory from [a] on. *)
Definition page_bytes (m : gmap Z Z) (a : Z) (n : nat) : list Z := (fun i => load8 m (a + Z.of_nat i)) <$> seq 0 n.

(** The two files, or [None] for the result -1.  The ring buffer of the new pipe has
    the bytes of its page, after the lock (52 bytes). *)
Definition pipealloc : K (option (nat * nat)) :=
  f0 <- filealloc ;;
  match f0 with
  | None => pipealloc_bad None None
  | Some f0 =>
      f1 <- filealloc ;;
      match f1 with
      | None => pipealloc_bad (Some f0) None
      | Some f1 =>
          p <- kalloc ;;
          if p =? 0 then pipealloc_bad (Some f0) (Some f1) else
          m <- gets k_mem ;;
          modify (fun k => set_k_pipes
            (<[p := mkPipe (page_bytes m (p + 52) (Z.to_nat PIPESIZE)) 0 0 1 1]> (k_pipes k)) k) ;;
          initlock (Lpipe p) "pipe" ;;
          open_pipe_end f0 1 0 p ;;
          open_pipe_end f1 0 1 p ;;
          ret (Some (f0, f1))
      end
  end.
