(* ===== verification/Proc.v ===== *)
(** * Processes (proc.c)

    Creation, growth, exit and reaping of processes.  Scheduling, sleep, wakeup and
    kill are in Sched.v, the listings in ProcInfo.v. *)

From S2P Require Import Prelude State CMem Strings Spinlock Mmu Kalloc Console Vm VmUser VmCopy Sched Bio Log Inode Fs File.

Definition pinit : K unit := initlock Lptable "ptable".

(** [sizeof(struct trapframe)] and [sizeof(struct context)]. *)
Definition TRAPFRAME : Z := 76.
Definition CONTEXT : Z := 20.

(** The first loop of [allocproc]. *)
Fixpoint find_unused (l : list proc) (i : nat) : option nat :=
  match l with
  | [] => None
  | p :: l' => if decide (p_state p = UNUSED) then Some i else find_unused l' (S i)
  end.

(** The trap frame of the new process is what its fresh stack holds: the callers
    write all of it before it is used.  [p->context] is the record [p_context]. *)
Definition allocproc : K (option nat) :=
  l <- gets ptable ;;
  match find_unused l 0 with
  | None => ret None
  | Some p =>
      updproc p (set_p_state EMBRYO) ;;
      pid <- gets nextpid ;;
      updproc p (set_p_pid pid) ;;
      modify (set_nextpid (s32 (pid + 1))) ;;
      stk <- kalloc ;;
      updproc p (set_p_kstack stk) ;;
      if stk =? 0 then
        updproc p (set_p_state UNUSED) ;;
        ret None
      else
        let sp := stk + KSTACKSIZE in
        let sp := sp - TRAPFRAME in
        let sp := sp - 4 in
        lnk <- gets k_link ;;
        updmem (fun m => store32 m sp (sym_trapret lnk)) ;;
        updproc p (set_p_context (set_c_eip (sym_forkret lnk) context0)) ;;
        updproc p (set_p_priority 1) ;;
        updproc p (set_p_timecpu 0) ;;
        ret (Some p)
  end.

(** The trap frame [userinit] makes. *)
Definition user_tf : trapframe :=
  let cs := Z.lor (Z.shiftl SEG_UCODE 3) DPL_USER in
  let ds := Z.lor (Z.shiftl SEG_UDATA 3) DPL_USER in
  set_tf_eip 0 (set_tf_esp PGSIZE (set_tf_eflags FL_IF (set_tf_ss ds (set_tf_es ds
    (set_tf_ds ds (set_tf_cs cs tf0)))))).

Definition userinit : K unit :=
  acquire Lptable ;;
  op <- allocproc ;;
  modify (set_initproc op) ;;
  match op with
  | None => null_pointer
  | Some p =>
      pgdir <- setupkvm ;;
      updproc p (set_p_pgdir pgdir) ;;
      if pgdir =? 0 then panic "userinit: out of memory?" else
      lnk <- gets k_link ;;
      inituvm pgdir (sym_initcode lnk) (Z.of_nat (length (sym_initcode lnk))) ;;
      updproc p (set_p_sz PGSIZE) ;;
      updproc p (set_p_tf user_tf) ;;
      updproc p (fun pr => set_p_name (safestrcpy_arr (p_name pr) (str "initcode") 16) pr) ;;
      ip <- namei (str "/") ;;
      updproc p (set_p_cwd ip) ;;
      updproc p (set_p_state RUNNABLE) ;;
      release Lptable
  end.

Definition growproc (n : Z) : K Z :=
  c <- curproc ;;
  pr <- getproc c ;;
  let sz := p_sz pr in
  sz <-
    (if 0 <? n then allocuvm (p_pgdir pr) sz (u32 (sz + n))
     else if n <? 0 then deallocuvm (p_pgdir pr) sz (u32 (sz + n))
     else ret sz) ;;
  if negb (n =? 0) && (sz =? 0) then ret (-1) else
  updproc c (set_p_sz sz) ;;
  switchuvm c ;;
  ret 0.

(** [np->ofile[i] = filedup(proc->ofile[i])] for the open files from [i] on. *)
Fixpoint dup_files (n : nat) (c np : nat) (i : nat) : K unit :=
  match n with
  | O => ret tt
  | S n' =>
      pr <- getproc c ;;
      match p_ofile pr !!! i with
      | Some f =>
          f <- filedup f ;;
          updproc np (fun p => set_p_ofile (<[i := Some f]> (p_ofile p)) p)
      | None => ret tt
      end ;;
      dup_files n' c np (S i)
  end.

(** [idup(proc->cwd)] and the like, where the pointer may be null. *)
Definition cwd_of (pr : proc) : K nat :=
  match p_cwd pr with
  | Some ip => ret ip
  | None => null_pointer
  end.

(** The comparison of [copyuvm]'s result is with 0x1000, not with the null pointer
    that it returns when it fails. *)
Definition fork : K Z :=
  c <- curproc ;;
  acquire Lptable ;;
  onp <- allocproc ;;
  match onp with
  | None =>
      release Lptable ;;
      ret (-1)
  | Some np =>
      pr <- getproc c ;;
      pgdir <- copyuvm (p_pgdir pr) (p_sz pr) ;;
      updproc np (set_p_pgdir pgdir) ;;
      if pgdir =? 0x1000 then
        npr <- getproc np ;;
        kfree (p_kstack npr) ;;
        updproc np (set_p_kstack 0) ;;
        updproc np (set_p_state UNUSED) ;;
        release Lptable ;;
        ret (-1)
      else
        updproc np (set_p_sz (p_sz pr)) ;;
        updproc np (set_p_parent (Some c)) ;;
        updproc np (set_p_tf (p_tf pr)) ;;
        updproc np (fun p => set_p_tf (set_tf_eax 0 (p_tf p)) p) ;;
        dup_files (Z.to_nat NOFILE) c np 0 ;;
        cwd <- cwd_of pr ;;
        ip <- idup cwd ;;
        updproc np (set_p_cwd (Some ip)) ;;
        updproc np (fun p => set_p_name (safestrcpy_arr (p_name p) (p_name pr) 16) p) ;;
        npr <- getproc np ;;
        updproc np (set_p_state RUNNABLE) ;;
        release Lptable ;;
        ret (p_pid npr)
  end.

Fixpoint close_files (n : nat) (c : nat) (fd : nat) : K unit :=
  match n with
  | O => ret tt
  | S n' =>
      pr <- getproc c ;;
      match p_ofile pr !!! fd with
      | Some f =>
          fileclose f ;;
          updproc c (fun p => set_p_ofile (<[fd := None]> (p_ofile p)) p)
      | None => ret tt
      end ;;
      close_files n' c (S fd)
  end.

(** The channel that is the address of a process, or null. *)
Definition chan_of (p : option nat) : chan := match p with Some i => CProc i | None => CNull end.

(** The loop that passes the children of [c] to init. *)
Fixpoint reparent (n : nat) (c : nat) (i : nat) : K unit :=
  match n with
  | O => ret tt
  | S n' =>
      p <- getproc i ;;
      (if bool_decide (p_parent p = Some c) then
         ini <- gets initproc ;;
         updproc i (set_p_parent ini) ;;
         when (bool_decide (p_state p = ZOMBIE)) (wakeup1 (chan_of ini))
       else ret tt) ;;
      reparent n' c (S i)
  end.

Definition exit : K unit :=
  c <- curproc ;;
  ini <- gets initproc ;;
  if bool_decide (Some c = ini) then panic "init exiting" else
  close_files (Z.to_nat NOFILE) c 0 ;;
  begin_op ;;
  pr <- getproc c ;;
  ip <- cwd_of pr ;;
  iput ip ;;
  end_op ;;
  updproc c (set_p_cwd None) ;;
  acquire Lptable ;;
  pr <- getproc c ;;
  wakeup1 (chan_of (p_parent pr)) ;;
  reparent (Z.to_nat NPROC) c 0 ;;
  updproc c (set_p_state ZOMBIE) ;;
  sched ;;
  panic "zombie exit".

(** The reaping of the zombie [i]. *)
Definition reap (i : nat) : K Z :=
  p <- getproc i ;;
  kfree (p_kstack p) ;;
  updproc i (set_p_kstack 0) ;;
  freevm (p_pgdir p) ;;
  updproc i (fun p => set_p_state UNUSED (set_p_killed 0
    (set_p_name (<[0%nat := 0]> (p_name p)) (set_p_parent None (set_p_pid 0 p))))) ;;
  release Lptable ;;
  ret (p_pid p).

(** The scan of the process table: [inl pid] when a zombie child was reaped,
    otherwise whether there are children. *)
Fixpoint wait_scan (n : nat) (c : nat) (i : nat) (havekids : bool) : K (Z + bool) :=
  match n with
  | O => ret (inr havekids)
  | S n' =>
      p <- getproc i ;;
      if negb (bool_decide (p_parent p = Some c)) then wait_scan n' c (S i) havekids
      else if bool_decide (p_state p = ZOMBIE) then
        pid <- reap i ;;
        ret (inl pid)
      else wait_scan n' c (S i) true
  end.

(** [fuel] bounds how often the parent is put to sleep. *)
Fixpoint wait_loop (fuel : nat) (c : nat) : K Z :=
  r <- wait_scan (Z.to_nat NPROC) c 0 false ;;
  match r with
  | inl pid => ret pid
  | inr havekids =>
      pr <- getproc c ;;
      if negb havekids || negb (p_killed pr =? 0) then
        release Lptable ;;
        ret (-1)
      else
        match fuel with
        | O => out_of_fuel
        | S fuel' => sleep (CProc c) Lptable ;; wait_loop fuel' c
        end
  end.

Definition wait : K Z :=
  c <- curproc ;;
  acquire Lptable ;;
  wait_loop max_sleeps c.

Definition forkret : K unit :=
  release Lptable ;;
  first <- gets k_first ;;
  when (negb (first =? 0))
    (modify (set_k_first 0) ;;
     iinit ROOTDEV ;;
     initlog ROOTDEV).
