(* ===== verification/ForkSpec.v ===== *)
(** * Creating a process (proc.c)

    What [fork] puts in the process table, and what it does when memory runs out. *)

From S2P Require Import Prelude State CMem Strings Spinlock Mmu Kalloc Console Vm VmUser VmCopy Sched Bio Log Inode Fs File Proc.

(** ** The table entry under construction *)

(** The state with entry [np] of the process table set to [x]. *)
Definition entry (np : nat) (x : proc) (pt : list proc) (s : kernel) : kernel := set_ptable (<[np := x]> pt) s.

Lemma updproc_entry np x pt s f :
  (np < length pt)%nat -> updproc np f (entry np x pt s) = Ok tt (entry np (f x) pt s).
Proof.
  intros H. assert (E : alter f np (<[np := x]> pt) = <[np := f x]> pt).
  { apply list_eq. intros j. destruct (decide (j = np)) as [->|Hne].
    - now rewrite list_lookup_alter_eq, !list_lookup_insert_eq.
    - now rewrite list_lookup_alter_ne, !list_lookup_insert_ne. }
  unfold updproc, modify, entry. cbn [ptable set_ptable]. now rewrite E.
Qed.

Lemma bind_updproc {A} np x pt s f (g : unit -> K A) :
  (np < length pt)%nat -> bind (updproc np f) g (entry np x pt s) = g tt (entry np (f x) pt s).
Proof. intros H. apply bind_ok. now apply updproc_entry. Qed.

Lemma bind_getproc {A} np x pt s c pr (g : proc -> K A) :
  c <> np -> pt !! c = Some pr -> bind (getproc c) g (entry np x pt s) = g pr (entry np x pt s).
Proof.
  intros Hne Hp. unfold getproc. mred. f_equal. apply list_lookup_total_correct. cbn. now rewrite list_lookup_insert_ne.
Qed.

Lemma bind_getproc_new {A} np x pt s (g : proc -> K A) :
  (np < length pt)%nat -> bind (getproc np) g (entry np x pt s) = g x (entry np x pt s).
Proof. intros H. unfold getproc. mred. f_equal. apply list_lookup_total_correct. cbn. now apply list_lookup_insert_eq. Qed.

(** The laws of memory do not depend on the process table. *)
Lemma as_inv_same k k' l pgdir T U :
  k_mem k' = k_mem k -> kmem_freelist k' = kmem_freelist k -> k_link k' = k_link k ->
  as_inv k l pgdir T U -> as_inv k' l pgdir T U.
Proof.
  intros E1 E2 E3 [[[K1 K2 K3 K4] V2 V3 V4 V5] A2 A3 A4 A5 A6].
  assert (HV : forall p, valid_page k p -> valid_page k' p) by (unfold valid_page; now rewrite E3).
  split; rewrite ?E1, ?E3; try done; [split; rewrite ?E1; try done; [split; rewrite ?E1, ?E2; try done|]|];
    eapply Forall_impl; eauto.
Qed.

(** ** Allocation of an entry *)

Lemma find_unused_spec l : forall i,
  match find_unused l i with
  | Some j => (i <= j)%nat /\ exists p, l !! (j - i)%nat = Some p /\ p_state p = UNUSED /\
      (forall n q, (n < j - i)%nat -> l !! n = Some q -> p_state q <> UNUSED)
  | None => forall n q, l !! n = Some q -> p_state q <> UNUSED
  end.
Proof.
  induction l as [|p l IH]; intros i; cbn [find_unused]; [done|].
  destruct (decide (p_state p = UNUSED)) as [E|E].
  - split; [lia|]. exists p. rewrite Nat.sub_diag. split_and!; [done|done|lia].
  - specialize (IH (S i)). destruct (find_unused l (S i)) as [j|].
    + destruct IH as (Hij & q & Hq & Hs & Hb). split; [lia|]. exists q. replace (j - i)%nat with (S (j - S i)) by lia.
      split_and!; [done|done|]. intros [|n] q' Hn Hq'; [injection Hq' as <-; done|]. apply (Hb n); [lia|done].
    + intros [|n] q Hq; [now injection Hq as <-|]. now apply (IH n).
Qed.

(** The entry [allocproc] makes of [q]. *)
Definition newproc (q : proc) (pid stk eip : Z) : proc :=
  set_p_timecpu 0 (set_p_priority 1 (set_p_context (set_c_eip eip context0)
    (set_p_kstack stk (set_p_pid pid (set_p_state EMBRYO q))))).

Lemma allocproc_run s np q stk l pgdir T U :
  find_unused (ptable s) 0 = Some np -> ptable s !! np = Some q -> kmem_quiet s -> as_inv s (stk :: l) pgdir T U ->
  exists m f, changes_only [stk] (k_mem s) m /\
    let s' := set_nextpid (s32 (nextpid s + 1)) (with_mem m f s) in
    allocproc s = Ok (Some np) (entry np (newproc q (nextpid s) stk (sym_forkret (k_link s))) (ptable s) s') /\
    as_inv s' l pgdir T U.
Proof.
  intros Hf Hq Hqu Has. pose proof (lookup_lt_Some _ _ _ Hq) as Hlt.
  destruct (kalloc_inv s stk l (vm_kmem _ _ _ _ (as_vm _ _ _ _ _ Has))) as (Hfl & Hv & Hni & Hk1).
  pose proof (valid_page_range s stk Hv) as Hr.
  set (s1 := set_nextpid (s32 (nextpid s + 1)) (entry np (set_p_pid (nextpid s) (set_p_state EMBRYO q)) (ptable s) s)).
  pose proof (kalloc_run s1 Hqu) as Hka. change (kmem_freelist s1) with (kmem_freelist s) in Hka. rewrite Hfl in Hka.
  set (fl := load32 (k_mem s) stk).
  assert (E1 : after_kalloc s1 = entry np (set_p_pid (nextpid s) (set_p_state EMBRYO q)) (ptable s)
    (set_nextpid (s32 (nextpid s + 1)) (set_kmem_freelist fl s))).
  { unfold after_kalloc. change (kmem_freelist s1) with (kmem_freelist s). rewrite Hfl, (proj2 (Z.eqb_neq _ _)) by lia. done. }
  assert (E1' : after_kalloc s = set_kmem_freelist fl s).
  { unfold after_kalloc. rewrite Hfl, (proj2 (Z.eqb_neq _ _)) by lia. done. }
  set (sp := stk + KSTACKSIZE - TRAPFRAME - 4). set (m := store32 (k_mem s) sp (sym_trapret (k_link s))).
  assert (Hc : changes_only [stk] (k_mem s) m) by (apply changes_store32; unfold sp, KSTACKSIZE, TRAPFRAME, PGSIZE; lia).
  exists m, fl. split; [exact Hc|]. intros s'. split.
  - unfold allocproc. mred. rewrite Hf.
    assert (E0 : s = entry np q (ptable s) s).
    { unfold entry. rewrite list_insert_id by done. now destruct s. }
    rewrite E0 at 1. rewrite bind_updproc by done. mred. rewrite bind_updproc by done. mred. mok Hka. rewrite E1.
    rewrite bind_updproc by done. rewrite (proj2 (Z.eqb_neq _ _)) by lia. unfold updmem. mred.
    change (set_k_mem _ (entry np ?x ?pt _)) with (entry np x pt s').
    do 3 rewrite bind_updproc by done. reflexivity.
  - apply (as_inv_same (with_mem m fl s)); [done..|]. apply (as_inv_frame s (stk :: l)).
    + exact Has.
    + rewrite E1' in Hk1. apply (kmem_inv_changes (set_kmem_freelist fl s) l [stk] m Hk1).
      * apply mem_ok_store32, (vm_kmem _ _ _ _ (as_vm _ _ _ _ _ Has)).
      * exact Hc.
      * apply Forall_singleton, Hv.
      * intros p ->%list_elem_of_singleton. done.
    + apply (changes_only_mono [stk]); [done|]. clear. set_solver.
    + clear. set_solver.
Qed.

(** ** Open files *)

Definition inc_ref (ff : file) : file := set_f_ref (f_ref ff + 1) ff.

(** The file table after the files of a descriptor table have been duplicated. *)
Fixpoint dup_refs (l : list (option nat)) (ft : list file) : list file :=
  match l with
  | [] => ft
  | Some f :: l' => dup_refs l' (alter inc_ref f ft)
  | None :: l' => dup_refs l' ft
  end.

(** A descriptor table into which those from [i] on have been copied. *)
Fixpoint dup_tab (l : list (option nat)) (i : nat) (t : list (option nat)) : list (option nat) :=
  match l with
  | [] => t
  | Some f :: l' => dup_tab l' (S i) (<[i := Some f]> t)
  | None :: l' => dup_tab l' (S i) t
  end.

Lemma dup_tab_empty l : forall t, dup_tab l (length t) (t ++ replicate (length l) None) = t ++ l.
Proof.
  induction l as [|[f|] l IH]; intros t; cbn [dup_tab length replicate]; [done| |].
  - rewrite insert_app_r_alt, Nat.sub_diag by lia. cbn. specialize (IH (t ++ [Some f])). rewrite length_app in IH. cbn in IH.
    rewrite Nat.add_1_r, <- !app_assoc in IH. exact IH.
  - specialize (IH (t ++ [None])). rewrite length_app in IH. cbn in IH. rewrite Nat.add_1_r, <- !app_assoc in IH. exact IH.
Qed.

Definition uses (f : nat) (l : list (option nat)) : Z := Z.of_nat (length (filter (fun o => o = Some f) l)).

Lemma dup_refs_lookup l : forall ft f ff,
  ft !! f = Some ff -> dup_refs l ft !! f = Some (set_f_ref (f_ref ff + uses f l) ff).
Proof.
  induction l as [|[g|] l IH]; intros ft f ff Hf; cbn [dup_refs].
  - unfold uses. cbn. rewrite Z.add_0_r, Hf. f_equal. now destruct ff.
  - unfold uses. rewrite filter_cons. destruct (decide (Some g = Some f)) as [[= ->]|Hne].
    + rewrite (IH _ _ (inc_ref ff)) by (rewrite list_lookup_alter_eq; now rewrite Hf). unfold inc_ref, uses, set_f_ref. cbn.
      f_equal. f_equal. lia.
    + apply IH. rewrite list_lookup_alter_ne by congruence. done.
  - unfold uses. rewrite filter_cons, decide_False by done. now apply IH.
Qed.

Lemma filedup_run s f ff :
  lock_free Lftable s -> cpu_ok (k_cpu s) -> ftable s !! f = Some ff -> 1 <= f_ref ff ->
  filedup f s = Ok f (set_ftable (alter inc_ref f (ftable s)) s).
Proof.
  intros Hl Hc Hf Hr. unfold filedup. mok (acquire_free Lftable s Hl). unfold getfile, updfile. mred.
  change (ftable (held Lftable s)) with (ftable s). rewrite (list_lookup_total_correct _ _ _ Hf), (proj2 (Z.ltb_ge _ _)) by done.
  mred. change (set_ftable ?ft (held Lftable s)) with (held Lftable (set_ftable ft s)).
  mok (release_held Lftable (set_ftable (alter inc_ref f (ftable s)) s) Hc Hl). done.
Qed.

Lemma dup_files_run l : forall i s c np pr x pt,
  lock_free Lftable s -> cpu_ok (k_cpu s) -> (np < length pt)%nat -> c <> np -> pt !! c = Some pr ->
  drop i (p_ofile pr) = l ->
  (forall f, Some f ∈ l -> exists ff, ftable s !! f = Some ff /\ 1 <= f_ref ff) ->
  dup_files (length l) c np i (entry np x pt s) =
    Ok tt (entry np (set_p_ofile (dup_tab l i (p_ofile x)) x) pt (set_ftable (dup_refs l (ftable s)) s)).
Proof.
  induction l as [|o l IH]; intros i s c np pr x pt Hl Hc Hn Hne Hp Hd Hf; cbn [dup_files length dup_refs dup_tab].
  - unfold ret. f_equal. destruct x, s. done.
  - assert (Hi : p_ofile pr !! i = Some o) by (rewrite <- (Nat.add_0_r i), <- lookup_drop, Hd; done).
    assert (Hd' : drop (S i) (p_ofile pr) = l) by (rewrite <- Nat.add_1_r, <- drop_drop, Hd; done).
    rewrite (bind_getproc np x pt s c pr) by done. rewrite (list_lookup_total_correct _ _ _ Hi). destruct o as [f|].
    + destruct (Hf f) as (ff & Hff & Hr); [apply elem_of_cons; now left|].
      pose proof (filedup_run (entry np x pt s) f ff Hl Hc Hff Hr) as R.
      set (s1 := set_ftable (alter inc_ref f (ftable s)) s).
      change (set_ftable _ (entry np x pt s)) with (entry np x pt s1) in R.
      rewrite bind_assoc by (unfold returns; now rewrite R). mok R. rewrite bind_updproc by done.
      rewrite (IH (S i) s1 c np pr); try done.
      intros g Hg. unfold s1. cbn [ftable set_ftable]. destruct (Hf g) as (gg & Hgg & Hgr); [apply elem_of_cons; now right|].
        destruct (decide (g = f)) as [->|Hgf]; [|exists gg; now rewrite list_lookup_alter_ne].
        exists (inc_ref gg). rewrite list_lookup_alter_eq, Hgg. split; [done|]. unfold inc_ref. cbn. lia.
    + mred. apply (IH (S i) s c np pr); try done. intros g Hg. apply Hf. apply elem_of_cons. now right.
Qed.

Lemma idup_run s ip :
  lock_free Licache s -> cpu_ok (k_cpu s) ->
  idup ip s = Ok ip (set_icache (alter (fun n => set_i_ref (s32 (i_ref n + 1)) n) ip (icache s)) s).
Proof.
  intros Hl Hc. unfold idup. mok (acquire_free Licache s Hl). unfold updinode. mred.
  change (set_icache ?ic (held Licache s)) with (held Licache (set_icache ic s)).
  mok (release_held Licache (set_icache (alter (fun n => set_i_ref (s32 (i_ref n + 1)) n) ip (icache s)) s) Hc Hl). done.
Qed.

(** ** fork *)

(** The entry of the child of [pr], made of the unused entry [q]. *)
Definition child (c : nat) (pr q : proc) (pid stk eip pgdir : Z) : proc :=
  set_p_state RUNNABLE (set_p_name (safestrcpy_arr (p_name q) (p_name pr) 16) (set_p_cwd (p_cwd pr)
    (set_p_ofile (p_ofile pr) (set_p_tf (set_tf_eax 0 (p_tf pr)) (set_p_parent (Some c) (set_p_sz (p_sz pr)
      (set_p_pgdir pgdir (newproc q pid stk eip)))))))).

(** The tables after a [fork] that put [ch] in entry [np]. *)
Definition forked (np : nat) (ch : proc) (pr : proc) (ip : nat) (m : gmap Z Z) (f : Z) (k : kernel) : kernel :=
  entry np ch (ptable k)
    (set_icache (alter (fun n => set_i_ref (s32 (i_ref n + 1)) n) ip (icache k))
      (set_ftable (dup_refs (p_ofile pr) (ftable k))
        (set_nextpid (s32 (nextpid k + 1)) (with_mem m f k)))).

(** A process [c] that can call [fork], and the unused entry [np]. *)
Record forkable (k : kernel) (c : nat) (pr : proc) (ip np : nat) (q : proc) : Prop := {
  fk_cpu : cpu_ok (k_cpu k);
  fk_locks : lock_free Lptable k /\ lock_free Lftable k /\ lock_free Licache k /\ kmem_quiet k;
  fk_cur : cpu_proc (k_cpu k) = Some c;
  fk_proc : ptable k !! c = Some pr;
  fk_np : find_unused (ptable k) 0 = Some np;
  fk_q : ptable k !! np = Some q;
  fk_state : p_state pr <> UNUSED;
  fk_files : length (p_ofile pr) = Z.to_nat NOFILE /\ p_ofile q = replicate (Z.to_nat NOFILE) None;
  fk_refs : forall f, Some f ∈ p_ofile pr -> exists ff, ftable k !! f = Some ff /\ 1 <= f_ref ff;
  fk_cwd : p_cwd pr = Some ip
}.

Lemma forkable_ne k c pr ip np q : forkable k c pr ip np q -> c <> np.
Proof.
  intros H ->. pose proof (find_unused_spec (ptable k) 0) as Hs. rewrite (fk_np _ _ _ _ _ _ H) in Hs.
  destruct Hs as (_ & p & Hp & Hu & _). rewrite Nat.sub_0_r, (fk_proc _ _ _ _ _ _ H) in Hp. injection Hp as ->.
  now apply (fk_state _ _ _ _ _ _ H).
Qed.

Lemma kmem_quiet_held k : cpu_ok (k_cpu k) -> kmem_quiet k -> kmem_quiet (held Lptable k).
Proof.
  intros Hc [H|[Hl _]]; [now left|right]. split; [now apply lock_free_held|now apply cpu_ok_pushed].
Qed.

(** The part of [fork] after the address space has been copied. *)
Lemma fork_finish k c pr ip np q stk eip m f pgdir :
  forkable k c pr ip np q -> pgdir <> 0x1000 ->
  let s := set_nextpid (s32 (nextpid k + 1)) (with_mem m f (held Lptable k)) in
  let x := set_p_pgdir pgdir (newproc q (nextpid k) stk eip) in
  (updproc np (set_p_sz (p_sz pr)) ;;
   updproc np (set_p_parent (Some c)) ;;
   updproc np (set_p_tf (p_tf pr)) ;;
   updproc np (fun p => set_p_tf (set_tf_eax 0 (p_tf p)) p) ;;
   dup_files (Z.to_nat NOFILE) c np 0 ;;
   cwd <- cwd_of pr ;;
   ip <- idup cwd ;;
   updproc np (set_p_cwd (Some ip)) ;;
   updproc np (fun p => set_p_name (safestrcpy_arr (p_name p) (p_name pr) 16) p) ;;
   npr <- getproc np ;;
   updproc np (set_p_state RUNNABLE) ;;
   release Lptable ;;
   ret (p_pid npr)) (entry np x (ptable k) s) =
  Ok (nextpid k) (forked np (child c pr q (nextpid k) stk eip pgdir) pr ip m f k).
Proof.
  intros H Hpg s x. pose proof (forkable_ne _ _ _ _ _ _ H) as Hne. destruct H as [Hc (Hl1 & Hl2 & Hl3 & _) Hcur Hp Hnp Hq Hst [Hlen Hqf] Hrf Hcwd].
  pose proof (lookup_lt_Some _ _ _ Hq) as Hlt. do 4 rewrite bind_updproc by done.
  assert (Hc' : cpu_ok (k_cpu s)) by now apply cpu_ok_pushed.
  pose proof (dup_files_run (p_ofile pr) 0 s c np pr (set_p_tf (set_tf_eax 0 (p_tf (set_p_tf (p_tf pr) (set_p_parent (Some c)
    (set_p_sz (p_sz pr) x))))) (set_p_tf (p_tf pr) (set_p_parent (Some c) (set_p_sz (p_sz pr) x)))) (ptable k)) as R.
  rewrite Hlen in R. mok (R (lock_free_held Lftable Lptable k ltac:(done) Hl2) Hc' Hlt Hne Hp (drop_0 _) Hrf).
  unfold cwd_of. rewrite Hcwd. mred.
  set (s1 := set_ftable (dup_refs (p_ofile pr) (ftable s)) s).
  match goal with |- context [entry np ?y (ptable k) s1] => pose proof (idup_run (entry np y (ptable k) s1) ip) as Ri end.
  mok (Ri (lock_free_held Licache Lptable k ltac:(done) Hl3) Hc'). clear Ri R.
  change (set_icache ?ic (entry np ?y ?pt s1)) with (entry np y pt (set_icache ic s1)).
  do 2 rewrite bind_updproc by done. rewrite bind_getproc_new by done. rewrite bind_updproc by done.
  pose proof (release_held Lptable (forked np (child c pr q (nextpid k) stk eip pgdir) pr ip m f k) Hc Hl1) as Rr.
  assert (Et : dup_tab (p_ofile pr) 0 (p_ofile q) = p_ofile pr).
  { rewrite Hqf, <- Hlen. exact (dup_tab_empty (p_ofile pr) []). }
  match goal with |- context [entry np ?y (ptable k) ?t] =>
    assert (E : entry np y (ptable k) t = held Lptable (forked np (child c pr q (nextpid k) stk eip pgdir) pr ip m f k)) end.
  { change (p_ofile (set_p_tf _ _)) with (p_ofile q). rewrite Et. unfold forked, child. rewrite Hcwd. reflexivity. }
  rewrite E. mok Rr. reflexivity.
Qed.

Lemma copied_page_frame m m1 m' P o o' :
  changes_only P m m1 -> Forall (fun p => p mod PGSIZE = 0) P ->
  (forall e, o = Some e -> (upage e ∉ P) /\ upage e mod PGSIZE = 0) ->
  copied_page m1 m' o o' -> copied_page m m' o o'.
Proof.
  intros Hc HP He (e & e' & E1 & E2 & E3 & E4). exists e, e'. split_and!; try done. intros i Hi.
  destruct (He e E1) as [H1 H2]. rewrite E4 by done. apply (changes_load8 P m m1 (upage e)); [done..|lia].
Qed.

Section Fork.
Context (k : kernel) (c : nat) (pr : proc) (ip np : nat) (q : proc) (stk : Z) (l : list Z) (T U : gmap Z Z).
Context (H : forkable k c pr ip np q) (Hlk : link_ok k) (Has : as_inv k (stk :: l) (p_pgdir pr) T U).
Context (Hsz : 0 <= p_sz pr <= KERNBASE) (Hpr : forall w, 1 <= w -> w * PGSIZE < p_sz pr -> is_Some (U !! w)).

(** What [fork] does when a page for the stack is left. *)
Lemma fork_run :
  exists pgdir m f l',
    let k' := forked np (child c pr q (nextpid k) stk (sym_forkret (k_link k)) pgdir) pr ip m f k in
    fork k = Ok (nextpid k) k' /\ as_inv k' l' (p_pgdir pr) T U /\ changes_only (stk :: l) (k_mem k) (k_mem k') /\
    ((pgdir <> 0 /\ exists Td Ud, as_inv k' l' pgdir Td Ud /\ Permutation ((pgdir :: vals Td ++ l') ++ upages Ud) l /\
        forall w, if decide (1 <= w /\ w * PGSIZE < p_sz pr)
                  then copied_page (k_mem k) (k_mem k') (U !! w) (Ud !! w) else Ud !! w = None) \/
     (pgdir = 0 /\ Z.of_nat (length l) <= 1025 + p_sz pr / PGSIZE + 1)).
Proof using All.
  pose proof (fk_locks _ _ _ _ _ _ H) as (Hl1 & _ & _ & Hq). pose proof (fk_cpu _ _ _ _ _ _ H) as Hc.
  pose proof (kmem_quiet_held k Hc Hq) as Hq0. set (s0 := held Lptable k).
  assert (Has0 : as_inv s0 (stk :: l) (p_pgdir pr) T U) by (apply (as_inv_same k); done).
  destruct (allocproc_run s0 np q stk l (p_pgdir pr) T U (fk_np _ _ _ _ _ _ H) (fk_q _ _ _ _ _ _ H) Hq0 Has0) as (m1 & f1 & Hc1 & Ra & Has1).
  set (s1 := set_nextpid (s32 (nextpid k + 1)) (with_mem m1 f1 s0)) in *.
  set (x := newproc q (nextpid k) stk (sym_forkret (k_link k))) in *.
  assert (Has2 : as_inv (entry np x (ptable k) s1) l (p_pgdir pr) T U) by (apply (as_inv_same s1); done).
  destruct (copyuvm_run (entry np x (ptable k) s1) l (p_pgdir pr) T U (p_sz pr) Hq0 Hlk Has2 Hsz Hpr)
    as (r & k2 & l' & Rc & (m2 & f2 & E2) & Hc2 & Has3 & Hres).
  assert (Er : r <> 0x1000).
  { destruct Hres as [(_ & Td & Ud & Hr & _)|(-> & _)]; [|done]. pose proof (vm_valid _ _ _ _ (as_vm _ _ _ _ _ Hr)) as Hv.
    apply Forall_cons in Hv as [(_ & _ & Hv) _]. unfold KERNBASE in Hv. lia. }
  exists r, m2, f2, l'. intros k'. rewrite E2 in *.
  assert (HA : forall d Td Ud, as_inv (with_mem m2 f2 (entry np x (ptable k) s1)) l' d Td Ud -> as_inv k' l' d Td Ud)
    by (intros d Td Ud; apply as_inv_same; done).
  assert (Hal : Forall (fun p => p mod PGSIZE = 0) [stk]).
  { pose proof (inv_valid _ _ (vm_kmem _ _ _ _ (as_vm _ _ _ _ _ Has))) as Hv. apply Forall_cons in Hv as [Hv _].
    apply Forall_singleton, Hv. }
  split_and!.
  - unfold fork, curproc. mred. rewrite (fk_cur _ _ _ _ _ _ H). change (default 0%nat (Some c)) with c.
    mok (acquire_free Lptable k Hl1). fold s0.
    assert (Ra' : allocproc s0 = Ok (Some np) (entry np x (ptable k) s1)) by exact Ra. mok Ra'.
    rewrite (bind_getproc np x (ptable k) s1 c pr _ (forkable_ne _ _ _ _ _ _ H) (fk_proc _ _ _ _ _ _ H)). mok Rc.
    change (with_mem m2 f2 (entry np x (ptable k) s1)) with (entry np x (ptable k) (set_nextpid (s32 (nextpid k + 1)) (with_mem m2 f2 s0))).
    rewrite bind_updproc by (eapply lookup_lt_Some, (fk_q _ _ _ _ _ _ H)). rewrite (proj2 (Z.eqb_neq _ _)) by done.
    exact (fork_finish k c pr ip np q stk (sym_forkret (k_link k)) m2 f2 r H Er).
  - now apply HA.
  - apply (changes_only_trans [stk] l (stk :: l) _ m1); [exact Hc1|exact Hc2|clear; set_solver|clear; set_solver].
  - destruct Hres as [(Hr & Td & Ud & Hr1 & HP & Hw)|(-> & Hlen)]; [left|right; done]. split; [done|].
    exists Td, Ud. split_and!; [now apply HA|done|]. intros w. specialize (Hw w). case_decide; [|done].
    apply (copied_page_frame (k_mem k) m1 _ [stk]); [exact Hc1|done| |exact Hw]. intros e He.
    assert (Hin : upage e ∈ upages U) by (apply elem_of_upages; eauto).
    pose proof (as_nodup _ _ _ _ _ Has) as Hnd. pose proof (as_valid _ _ _ _ _ Has) as Hva. rewrite Forall_forall in Hva. split; [|now apply Hva].
    intros E%list_elem_of_singleton. rewrite E in Hin. apply NoDup_app in Hnd as (_ & Hd & _). apply (Hd stk); [|done]. clear. set_solver.
Qed.
End Fork.

(** ** Properties *)

(** C10.  [fork] with an unused entry and memory left returns the next pid; the table differs in that
    entry only, which is a runnable copy of the caller (size, trap frame with [eax] 0, open files,
    directory, name; priority 1, no ticks used) with the caller as parent; each file gains one reference
    per descriptor, the directory one, and the caller's address space is untouched.  The child's address
    space is a copy on pages of its own; only when memory is short is it the null pointer.  Without an
    unused entry [fork] returns -1 and changes nothing. *)
Theorem fork_correct k c pr ip np q stk l T U :
  forkable k c pr ip np q -> link_ok k -> as_inv k (stk :: l) (p_pgdir pr) T U -> 0 <= p_sz pr <= KERNBASE ->
  (forall w, 1 <= w -> w * PGSIZE < p_sz pr -> is_Some (U !! w)) ->
  (exists pgdir m f l',
    let k' := forked np (child c pr q (nextpid k) stk (sym_forkret (k_link k)) pgdir) pr ip m f k in
    fork k = Ok (nextpid k) k' /\ as_inv k' l' (p_pgdir pr) T U /\
    (forall i ff, ftable k !! i = Some ff -> ftable k' !! i = Some (set_f_ref (f_ref ff + uses i (p_ofile pr)) ff)) /\
    ((pgdir <> 0 /\ exists Td Ud, as_inv k' l' pgdir Td Ud /\ Permutation ((pgdir :: vals Td ++ l') ++ upages Ud) l /\
        forall w, if decide (1 <= w /\ w * PGSIZE < p_sz pr)
                  then copied_page (k_mem k) (k_mem k') (U !! w) (Ud !! w) else Ud !! w = None) \/
     (pgdir = 0 /\ Z.of_nat (length l) <= 1025 + p_sz pr / PGSIZE + 1))) /\
  (forall k0, cpu_ok (k_cpu k0) -> lock_free Lptable k0 -> Forall (fun p => p_state p <> UNUSED) (ptable k0) ->
     fork k0 = Ok (-1) k0).
Proof.
  intros H Hlk Has Hsz Hpr. split.
  - destruct (fork_run k c pr ip np q stk l T U H Hlk Has Hsz Hpr) as (pgdir & m & f & l' & R & A & _ & D).
    exists pgdir, m, f, l'. intros k'. split_and!; [exact R|exact A| |exact D]. intros i ff Hi. now apply dup_refs_lookup.
  - intros k0 Hc Hl Hall. unfold fork, curproc. mred. mok (acquire_free Lptable k0 Hl). unfold allocproc. rewrite bind_assoc by exact I. mred.
    change (ptable (held Lptable k0)) with (ptable k0). pose proof (find_unused_spec (ptable k0) 0) as Hf.
    destruct (find_unused (ptable k0) 0) as [j|].
    + destruct Hf as (_ & p & Hp & Hu & _). rewrite Forall_lookup in Hall. now apply Hall in Hp.
    + mred. mok (release_held Lptable k0 Hc Hl). done.
Qed.

(** A process of one page that may fork, with the free pages [l]. *)
Definition ex_parent (pgdir : Z) : proc :=
  set_p_cwd (Some 0%nat) (set_p_pgdir pgdir (set_p_sz PGSIZE (set_p_pid 1 (set_p_state RUNNING proc0)))).

Definition ex_fork (m : gmap Z Z) (f pgdir : Z) : kernel :=
  with_mem m f (set_k_cpu (set_cpu_proc (Some 0%nat) (k_cpu kernel0))
    (set_ptable (<[0%nat := ex_parent pgdir]> (ptable kernel0)) kernel0)).

Lemma ex_forkable m f pgdir : forkable (ex_fork m f pgdir) 0 (ex_parent pgdir) 0 1 proc0.
Proof.
  split; try reflexivity.
  - unfold cpu_ok. cbn. split_and!; [lia|reflexivity|lia].
  - split_and!; [exists "ptable"%string|exists "ftable"%string|exists "icache"%string|left]; reflexivity.
  - discriminate.
  - split; reflexivity.
  - intros i Hi. change (p_ofile (ex_parent pgdir)) with (replicate 16 (@None nat)) in Hi.
    apply elem_of_replicate in Hi as [Hi _]. discriminate.
Qed.

Lemma fork_correct_witness :
  exists m f pgdir k', fork (ex_fork m f pgdir) = Ok 1 k' /\ p_pgdir (ptable k' !!! 1%nat) <> 0 /\
    p_state (ptable k' !!! 1%nat) = RUNNABLE.
Proof.
  destruct example_space0 as (m & f & l & pgdir & T & Has & Hlen). destruct l as [|stk l]; [cbn in Hlen; lia|].
  assert (Has' : as_inv (ex_fork m f pgdir) (stk :: l) pgdir T ∅) by (apply (as_inv_same (with_mem m f kernel0)); done).
  destruct (fork_correct (ex_fork m f pgdir) 0 (ex_parent pgdir) 0 1 proc0 stk l T ∅ (ex_forkable m f pgdir)) as [Hf _].
  - apply kernel0_ok.
  - exact Has'.
  - vm_compute. split; congruence.
  - intros w H1 H2. change (p_sz (ex_parent pgdir)) with PGSIZE in H2. unfold PGSIZE in H2. lia.
  - destruct Hf as (pg & m1 & f1 & l' & R & _ & _ & D).
    eexists m, f, pgdir, _. split; [exact R|]. destruct D as [(Hpg & _)|(_ & Hb)]; [now split|].
    exfalso. change (p_sz (ex_parent pgdir) / PGSIZE) with 1 in Hb. cbn [length] in Hlen. lia.
Defined.

(** C38.  [fork] does not notice that [copyuvm] failed: it compares the result with 0x1000 instead of
    the null pointer.  With one free page left, which becomes the kernel stack, [fork] still reports
    success and leaves a runnable child without a page directory, and the scheduler that picks the child
    stops the kernel. *)
Theorem fork_ignores_failed_copy k c pr ip np q stk T U :
  forkable k c pr ip np q -> link_ok k -> as_inv k [stk] (p_pgdir pr) T U -> 0 <= p_sz pr <= KERNBASE ->
  (forall w, 1 <= w -> w * PGSIZE < p_sz pr -> is_Some (U !! w)) ->
  exists k' ch, fork k = Ok (nextpid k) k' /\ ptable k' !! np = Some ch /\ p_state ch = RUNNABLE /\ p_pgdir ch = 0 /\
    switchuvm np k' = Panic "switchuvm: no pgdir".
Proof.
  intros H Hlk Has Hsz Hpr. destruct (fork_run k c pr ip np q stk [] T U H Hlk Has Hsz Hpr) as (pgdir & m & f & l' & R & _ & _ & D).
  assert (E : pgdir = 0).
  { destruct D as [(_ & Td & Ud & _ & HP & _)|(-> & _)]; [|done]. apply Permutation_length in HP. cbn in HP. lia. }
  subst pgdir. eexists _, _. split; [exact R|]. pose proof (lookup_lt_Some _ _ _ (fk_q _ _ _ _ _ _ H)) as Hlt. split_and!.
  - apply list_lookup_insert_eq. exact Hlt.
  - reflexivity.
  - reflexivity.
  - unfold switchuvm. match goal with |- _ ?s = _ => mok (pushcli_run s) end. unfold updcpu, curproc. mred.
    assert (E : forall (c : cpu) s, p_pgdir (ptable (set_k_cpu c s) !!! np) = p_pgdir (ptable s !!! np)) by reflexivity.
    rewrite !E. unfold forked, entry. cbn [ptable set_ptable].
    rewrite (list_lookup_total_correct _ _ _ (list_lookup_insert_eq _ _ _ Hlt)). reflexivity.
Qed.

Lemma flist_last m l p : forall h, flist m h (l ++ [p]) -> flist m p [p].
Proof. induction l as [|a l IH]; intros h [-> Hl]; [now split|]. now apply (IH (load32 m a)). Qed.

Lemma fork_ignores_failed_copy_witness :
  exists m f pgdir k', fork (ex_fork m f pgdir) = Ok 1 k' /\ switchuvm 1 k' = Panic "switchuvm: no pgdir".
Proof.
  destruct example_space0 as (m & f & l & pgdir & T & Has & Hlen).
  destruct (exists_last (l := l)) as (l1 & p & ->); [intros ->; cbn in Hlen; lia|].
  assert (Hk : kmem_inv (with_mem m p kernel0) [p]).
  { destruct (vm_kmem _ _ _ _ (as_vm _ _ _ _ _ Has)) as [K1 K2 K3 K4]. split.
    - exact K1.
    - exact (flist_last m l1 p f K2).
    - apply NoDup_singleton.
    - apply Forall_app in K4 as [_ K4]. exact K4. }
  assert (Has1 : as_inv (ex_fork m p pgdir) [p] pgdir T ∅).
  { apply (as_inv_same (with_mem m p kernel0)); [done..|].
    apply (as_inv_frame (with_mem m f kernel0) (l1 ++ [p]) pgdir T ∅ m p [p] Has Hk).
    - apply changes_only_refl.
    - intros x Hx. apply elem_of_app. now right. }
  destruct (fork_ignores_failed_copy (ex_fork m p pgdir) 0 (ex_parent pgdir) 0 1 proc0 p T ∅ (ex_forkable m p pgdir))
    as (k' & ch & R & _ & _ & _ & S).
  - apply kernel0_ok.
  - exact Has1.
  - vm_compute. split; congruence.
  - intros w H1 H2. change (p_sz (ex_parent pgdir)) with PGSIZE in H2. unfold PGSIZE in H2. lia.
  - now exists m, p, pgdir, k'.
Defined.
