(* ===== verification/WaitSpec.v ===== *)
(** * Waiting for a child (proc.c)

    What [wait] does with the process table and the memory of a dead child, while
    other processes run whenever it sleeps. *)

From S2P Require Import Prelude State CMem Spinlock Mmu Kalloc Vm VmUser VmCopy Sched Resume Bio Log Inode File Proc ForkSpec.

(** ** What the table says *)

Definition is_child (c : nat) (p : proc) : Prop := p_parent p = Some c.
Definition zombie_child (c : nat) (p : proc) : Prop := is_child c p /\ p_state p = ZOMBIE.

#[global] Instance is_child_dec c p : Decision (is_child c p).
Proof. unfold is_child. apply _. Defined.
#[global] Instance zombie_child_dec c p : Decision (zombie_child c p).
Proof. unfold zombie_child. apply _. Defined.

(** The first dead child of [c]. *)
Definition first_zombie (c : nat) (pt : list proc) : option (nat * proc) := list_find (zombie_child c) pt.

(** [c] has to sleep: it has children, all of them alive, and is not killed. *)
Definition must_wait (c : nat) (k : kernel) : Prop :=
  first_zombie c (ptable k) = None /\ Exists (is_child c) (ptable k) /\ p_killed (ptable k !!! c) = 0.

(** The table entry of a child once it has been waited for. *)
Definition reaped (p : proc) : proc :=
  set_p_state UNUSED (set_p_killed 0 (set_p_name (<[0%nat := 0]> (p_name p))
    (set_p_parent None (set_p_pid 0 (set_p_kstack 0 p))))).

(** The pages of the process [p]: its stack, and its address space with the page
    tables [T] and the user pages [U]; [l] are the free ones. *)
Record owns (k : kernel) (p : proc) (l : list Z) (T U : gmap Z Z) : Prop := {
  own_space : as_inv k l (p_pgdir p) T U;
  own_holes : no_holes T U 0;
  own_stack : valid_page k (p_kstack p);
  own_apart : p_kstack p ∉ (p_pgdir p :: vals T ++ l) ++ upages U
}.

Definition pages (p : proc) (T U : gmap Z Z) : list Z := p_kstack p :: (p_pgdir p :: vals T) ++ upages U.

(** Process [c] runs, and its dead children still have their memory. *)
Record parent (c : nat) (k : kernel) : Prop := {
  par_run : running Lptable c k;
  par_len : length (ptable k) = Z.to_nat NPROC;
  par_mem : kmem_quiet k /\ link_ok k;
  par_dead : forall i p, ptable k !! i = Some p -> zombie_child c p -> exists l T U, owns k p l T U
}.

(** The result [r] and the state [k'] that [wait] may return when it looks at the
    table in the state [k]. *)
Inductive answer (c : nat) (k : kernel) : Z -> kernel -> Prop :=
| answer_zombie i p l T U m f l' :
    first_zombie c (ptable k) = Some (i, p) -> owns k p l T U ->
    let k' := set_ptable (<[i := reaped p]> (ptable k)) (with_mem m f k) in
    kmem_inv k' l' -> Permutation l' (pages p T U ++ l) -> changes_only (pages p T U) (k_mem k) m ->
    answer c k (p_pid p) k'
| answer_none :
    first_zombie c (ptable k) = None ->
    ~ Exists (is_child c) (ptable k) \/ p_killed (ptable k !!! c) <> 0 ->
    answer c k (-1) k.

(** [o] is an outcome of [wait], called or resumed in the state [k] with at most
    [n] sleeps left: it answers, or it sleeps because it must, and then the same
    holds from whatever state it is resumed in.  Only a process that has slept [n]
    times reaches the model's bound. *)
Fixpoint waits (c : nat) (n : nat) (k : kernel) (o : outcome waiting kernel Z) {struct n} : Prop :=
  match o with
  | Ok r k' => answer c k r k'
  | Panic msg => n = O /\ must_wait c k /\ msg = "model: loop bound exceeded"%string
  | Blocked w s cont =>
      match n with
      | O => False
      | S n' =>
          must_wait c k /\ w = WSwtch /\ s = held Lptable (sleeping c (CProc c) k) /\
          forall k3, parent c k3 ->
            waits c n' (with_if (intr_flag k) (awake c k3)) (cont (held Lptable k3))
      end
  end.

(** ** Lemmas *)

Lemma first_zombie_drop c pt i p :
  pt !! i = Some p ->
  first_zombie c (drop i pt) =
    if decide (zombie_child c p) then Some (0%nat, p) else prod_map S id <$> first_zombie c (drop (S i) pt).
Proof. intros Hp. unfold first_zombie. rewrite (drop_S _ _ _ Hp). reflexivity. Qed.

Lemma wait_scan_zombie c k pid k' n : forall i hk j p,
  (i + n)%nat = length (ptable k) -> first_zombie c (drop i (ptable k)) = Some (j, p) ->
  reap (i + j) k = Ok pid k' -> wait_scan n c i hk k = Ok (inl pid) k'.
Proof.
  induction n as [|n IH]; intros i hk j p Hl Hf Hr.
  { rewrite drop_ge in Hf by lia. discriminate. }
  destruct (lookup_lt_is_Some_2 (ptable k) i ltac:(lia)) as [q Hq].
  rewrite (first_zombie_drop c _ i q Hq) in Hf. cbn [wait_scan]. unfold getproc. mred.
  rewrite (list_lookup_total_correct _ _ _ Hq). fold (is_child c q).
  assert (Hrec : ~ zombie_child c q -> forall hk, wait_scan n c (S i) hk k = Ok (inl pid) k').
  { intros Hz hk'. rewrite decide_False in Hf by done.
    destruct (first_zombie c (drop (S i) (ptable k))) as [[j' p']|] eqn:E; [|discriminate].
    injection Hf as <- <-. apply (IH (S i) hk' j' p'); [lia|done|].
    now replace (S i + j')%nat with (i + S j')%nat by lia. }
  case_bool_decide as Hch; cbn [negb]; [|now apply Hrec; intros [H _]].
  case_bool_decide as Hz; [|now apply Hrec; intros [_ H]].
  rewrite decide_True in Hf by now split. injection Hf as <- <-. rewrite Nat.add_0_r in Hr. now mok Hr.
Qed.

Lemma wait_scan_none c k n : forall i hk,
  (i + n)%nat = length (ptable k) -> first_zombie c (drop i (ptable k)) = None ->
  wait_scan n c i hk k = Ok (inr (hk || bool_decide (Exists (is_child c) (drop i (ptable k))))) k.
Proof.
  induction n as [|n IH]; intros i hk Hl Hf; cbn [wait_scan].
  { rewrite drop_ge, bool_decide_false, orb_false_r by (lia || now rewrite Exists_nil). done. }
  destruct (lookup_lt_is_Some_2 (ptable k) i ltac:(lia)) as [q Hq].
  rewrite (first_zombie_drop c _ i q Hq) in Hf. unfold getproc. mred.
  rewrite (list_lookup_total_correct _ _ _ Hq). fold (is_child c q).
  case_decide as Hz; [discriminate|]. apply fmap_None in Hf.
  rewrite (drop_S _ _ _ Hq). case_bool_decide as Hch; cbn [negb].
  - rewrite bool_decide_false by (intros H; now apply Hz). rewrite IH by (done || lia).
    rewrite (bool_decide_true (Exists _ (_ :: _))) by now left. now rewrite orb_true_r.
  - rewrite IH by (done || lia). do 3 f_equal. apply bool_decide_ext. rewrite Exists_cons. tauto.
Qed.

(** The address space of the child once its stack is free again. *)
Lemma owns_kfree k p l T U :
  owns k p l T U -> as_inv (after_kfree (p_kstack p) k) (p_kstack p :: l) (p_pgdir p) T U.
Proof.
  intros [Has _ Hv Hn]. pose proof (valid_page_range _ _ Hv) as Hr.
  assert (Hl : p_kstack p ∉ l) by (clear -Hn; set_solver).
  apply (as_inv_move k l (p_pgdir p) T U [p_kstack p]).
  - exact Has.
  - exact (kfree_inv k l _ (vm_kmem _ _ _ _ (as_vm _ _ _ _ _ Has)) Hv Hl).
  - apply changes_kfree.
  - apply Forall_singleton, Hv.
  - intros q ->%list_elem_of_singleton. clear -Hn. set_solver.
  - rewrite <- Permutation_middle. cbn [app]. rewrite Permutation_swap. cbn [app].
    apply NoDup_cons. split; [exact Hn|apply (as_nodup _ _ _ _ _ Has)].
Qed.

Lemma owns_same k k' p l T U :
  k_mem k' = k_mem k -> kmem_freelist k' = kmem_freelist k -> k_link k' = k_link k -> owns k p l T U -> owns k' p l T U.
Proof.
  intros E1 E2 E3 [H1 H2 H3 H4]. split; [now apply (as_inv_same k)|done| |done].
  unfold valid_page in *. now rewrite E3.
Qed.

(** The reaping, up to the release of the lock. *)
Lemma reap_run k i p l T U :
  ptable k !! i = Some p -> cpu_ok (k_cpu k) -> lock_free Lptable k -> kmem_quiet k -> link_ok k -> owns k p l T U ->
  exists m f l', let k' := set_ptable (<[i := reaped p]> (ptable k)) (with_mem m f k) in
    reap i (held Lptable k) = Ok (p_pid p) k' /\ kmem_inv k' l' /\ Permutation l' (pages p T U ++ l) /\
    changes_only (pages p T U) (k_mem k) m.
Proof.
  intros Hp Hc Hpt Hq Hlk Ho. pose proof (lookup_lt_Some _ _ _ Hp) as Hlt.
  pose proof (kmem_quiet_held k Hc Hq) as Hq0. set (s0 := held Lptable k) in *.
  set (s1 := entry i (set_p_kstack 0 p) (ptable k) (after_kfree (p_kstack p) s0)).
  pose proof (owns_kfree s0 p l T U (owns_same k s0 p l T U eq_refl eq_refl eq_refl Ho)) as Has1.
  destruct (freevm_spec s1 (p_kstack p :: l) (p_pgdir p) T U) as (s2 & l' & R & (m & f & E) & Hk & HP & Hch).
  { exact (kmem_quiet_after_kfree _ _ Hq0). }
  { exact Hlk. }
  { apply (as_inv_same (after_kfree (p_kstack p) s0)); done. }
  { apply Ho. }
  set (k' := set_ptable (<[i := reaped p]> (ptable k)) (with_mem m f k)).
  exists m, f, l'. split_and!.
  - unfold reap, getproc. mred. change (ptable s0) with (ptable k). rewrite (list_lookup_total_correct _ _ _ Hp).
    mok (kfree_run s0 (p_kstack p) Hq0 (own_stack _ _ _ _ _ Ho)).
    assert (E0 : after_kfree (p_kstack p) s0 = entry i p (ptable k) (after_kfree (p_kstack p) s0)).
    { unfold entry. now rewrite list_insert_id by done. }
    rewrite E0. rewrite bind_updproc by done. fold s1. mok R. rewrite E.
    change (with_mem m f s1) with (entry i (set_p_kstack 0 p) (ptable k) (with_mem m f s0)).
    rewrite bind_updproc by done.
    change (entry i _ (ptable k) (with_mem m f s0)) with (held Lptable k').
    now mok (release_held Lptable k' Hc Hpt).
  - rewrite E in Hk. destruct Hk as [K1 K2 K3 K4]. split; assumption.
  - rewrite HP. unfold pages. solve_Permutation.
  - rewrite E in Hch. apply (changes_only_trans [p_kstack p] ((p_pgdir p :: vals T) ++ upages U) _ _ (k_mem s1)).
    + exact (changes_kfree (p_kstack p) s0).
    + exact Hch.
    + unfold pages. clear. set_solver.
    + unfold pages. clear. set_solver.
Qed.

Lemma parent_awake c k f : parent c k -> f = 0 \/ f = FL_IF -> parent c (with_if f (awake c k)).
Proof.
  intros [Hr Hl [Hq Hlk] Hd] Hf. pose proof (running_awake Lptable c f k Hr Hf) as Hr'. split.
  - exact Hr'.
  - cbn. now rewrite length_alter.
  - split; [|exact Hlk]. destruct Hq as [Hq|[Hq _]]; [now left|right]. split; [exact Hq|apply Hr'].
  - intros i p Hp Hz. cbn in Hp.
    destruct (decide (i = c)) as [->|Hne].
    + rewrite list_lookup_alter_eq in Hp. apply fmap_Some in Hp as (q & Hq' & ->).
      destruct (Hd c q Hq' Hz) as (l & T & U & Ho). exists l, T, U.
      destruct (owns_same k (with_if f (awake c k)) q l T U eq_refl eq_refl eq_refl Ho) as [O1 O2 O3 O4].
      split; assumption.
    + rewrite list_lookup_alter_ne in Hp by done.
      destruct (Hd i p Hp Hz) as (l & T & U & Ho). exists l, T, U. now apply (owns_same k).
Qed.

Lemma wait_loop_run c n : forall k, parent c k -> waits c n k (wait_loop n c (held Lptable k)).
Proof.
  induction n as [|n IH]; intros k Hpar; pose proof Hpar as [[[Hc Hn] Hpt _ Hp Hlt] Hlen [Hq Hlk] Hd]; cbn [wait_loop].
  all: destruct (first_zombie c (ptable k)) as [[i p]|] eqn:Hz.
  all: assert (Hlen' : (0 + Z.to_nat NPROC)%nat = length (ptable (held Lptable k))) by done.
  1, 3: pose proof Hz as (Hi & Hzi & _)%list_find_Some; destruct (Hd i p Hi Hzi) as (l & T & U & Ho);
    destruct (reap_run k i p l T U Hi Hc Hpt Hq Hlk Ho) as (m & f & l' & R & Hk & HP & Hch);
    mok (wait_scan_zombie c (held Lptable k) _ _ _ 0 false i p Hlen' Hz R); exact (answer_zombie c k i p l T U m f l' Hz Ho Hk HP Hch).
  all: mok (wait_scan_none c (held Lptable k) _ 0 false Hlen' Hz); cbn [orb]; rewrite drop_0;
    change (ptable (held Lptable k)) with (ptable k); unfold getproc; mred;
    change (ptable (held Lptable k)) with (ptable k);
    destruct (negb (bool_decide (Exists (is_child c) (ptable k))) || negb (p_killed (ptable k !!! c) =? 0)) eqn:Ew.
  1, 3: mok (release_held Lptable k Hc Hpt); apply answer_none; [exact Hz|];
    apply orb_true_iff in Ew as [E|E]; apply negb_true_iff in E; [left; now apply bool_decide_eq_false in E|right; lia].
  all: assert (Hm : must_wait c k) by
    (apply orb_false_iff in Ew as [E1 E2]; apply negb_false_iff in E1, E2; apply bool_decide_eq_true in E1; split_and!; [done|done|lia]).
  - split_and!; [done|exact Hm|done].
  - destruct (sleep_ptable_spec (CProc c) k c) as (cont & R & Hcont); [done..|].
    rewrite (bind_blocked _ _ _ _ _ _ R). cbn [waits]. split_and!; [exact Hm|done|done|].
    intros k3 H3. rewrite (Hcont k3 (run_idle _ _ _ (par_run _ _ H3)) (run_p _ _ _ (par_run _ _ H3))). cbn [obind].
    apply IH, parent_awake; [done|apply intr_flag_cases].
Qed.

(** ** The theorem *)

(** C11. [wait] of a process [c], while other processes change the kernel however
    they like whenever it sleeps: at each look at the process table, if a child is
    a zombie, the first one in the table is reaped (its pid is the result, its
    entry becomes unused, exactly its stack, page directory, page tables and user
    pages become free, and nothing else changes); if there are no children or the
    process was killed, the result is -1 and nothing changes; and only otherwise
    it sleeps, on its own table entry and with the table's lock given up, and looks
    again when it is resumed. *)
Theorem wait_correct c k : parent c k -> waits c max_sleeps k (wait k).
Proof.
  intros H. pose proof H as [[_ Hpt _ Hp _] _ _ _]. unfold wait, curproc. mred. rewrite Hp. cbn [default].
  mok (acquire_free Lptable k Hpt). now apply wait_loop_run.
Qed.

(** Process 0 with the dead child 1, whose pid is 7. *)
Definition ex_dead (stk pgdir : Z) : proc :=
  set_p_parent (Some 0%nat) (set_p_state ZOMBIE (set_p_pid 7 (set_p_kstack stk (set_p_pgdir pgdir proc0)))).
Definition ex_wait (m : gmap Z Z) (f stk pgdir : Z) : kernel :=
  with_mem m f (set_k_cpu (set_cpu_proc (Some 0%nat) (k_cpu kernel0))
    (set_ptable (<[1%nat := ex_dead stk pgdir]> (ptable kernel0)) kernel0)).

Lemma ex_wait_parent m f stk pgdir l T :
  owns (ex_wait m f stk pgdir) (ex_dead stk pgdir) l T ∅ -> parent 0 (ex_wait m f stk pgdir).
Proof.
  intros Ho. split.
  - split; [split; [unfold cpu_ok; cbn; split_and!; [lia|reflexivity|lia]|reflexivity]| | |reflexivity|];
      [exists "ptable"%string; reflexivity..|]. cbn. lia.
  - reflexivity.
  - split; [left; reflexivity|apply kernel0_ok].
  - intros i p Hp [Hc _]. change (ptable (ex_wait m f stk pgdir)) with (<[1%nat := ex_dead stk pgdir]> (ptable kernel0)) in Hp.
    destruct (decide (i = 1%nat)) as [->|Hne].
    + rewrite list_lookup_insert_eq in Hp by (vm_compute; lia). injection Hp as <-. eauto.
    + rewrite list_lookup_insert_ne in Hp by done. change (ptable kernel0) with (replicate 64 proc0) in Hp.
      apply lookup_replicate in Hp as [-> _]. discriminate.
Qed.

Lemma ex_wait_owns : exists m f stk pgdir l T, owns (ex_wait m f stk pgdir) (ex_dead stk pgdir) l T ∅.
Proof.
  destruct example_space0 as (m & f & l & pgdir & T & Has & Hlen). destruct l as [|stk l]; [cbn in Hlen; lia|].
  destruct (kalloc_inv _ stk l (vm_kmem _ _ _ _ (as_vm _ _ _ _ _ Has))) as (Hfl & Hv & Hni & Hk).
  pose proof (valid_page_range _ stk Hv) as Hr. cbn in Hfl. subst f.
  assert (E : after_kalloc (with_mem m stk kernel0) = with_mem m (load32 m stk) kernel0).
  { unfold after_kalloc. cbn [kmem_freelist with_mem set_kmem_freelist]. now rewrite (proj2 (Z.eqb_neq _ _)) by lia. }
  rewrite E in Hk. exists m, (load32 m stk), stk, pgdir, l, T. split.
  - apply (as_inv_same (with_mem m (load32 m stk) kernel0)); [done..|].
    apply (as_inv_frame (with_mem m stk kernel0) (stk :: l) pgdir T ∅ m (load32 m stk) l Has Hk).
    + apply changes_only_refl.
    + clear. set_solver.
  - intros v e j He. now rewrite lookup_empty in He.
  - exact Hv.
  - pose proof (as_nodup _ _ _ _ _ Has) as Hnd. rewrite <- Permutation_middle in Hnd. cbn [app] in Hnd.
    rewrite Permutation_swap in Hnd. now apply NoDup_cons in Hnd as [Hnd _].
Qed.

Lemma wait_correct_witness :
  exists k k', parent 0 k /\ wait k = Ok 7 k' /\ p_state (ptable k' !!! 1%nat) = UNUSED.
Proof.
  destruct ex_wait_owns as (m & f & stk & pgdir & l & T & Ho). pose proof (ex_wait_parent _ _ _ _ _ _ Ho) as Hpar.
  assert (Hz : first_zombie 0 (ptable (ex_wait m f stk pgdir)) = Some (1%nat, ex_dead stk pgdir)) by reflexivity.
  pose proof (wait_correct 0 (ex_wait m f stk pgdir) Hpar) as H. remember (wait (ex_wait m f stk pgdir)) as o eqn:E.
  destruct o as [r k'|msg|w s cont].
  - destruct H as [i p ? ? ? ? ? ? Hi|Hi]; [|congruence]. rewrite Hz in Hi. injection Hi as <- <-.
    eexists _, _. split; [exact Hpar|]. split; [symmetry; exact E|reflexivity].
  - exfalso. destruct H as (_ & (H & _) & _). congruence.
  - exfalso. destruct H as ((H & _) & _). congruence.
Defined.
