(* ===== verification/Exec.v ===== *)
(** * Program loading (exec.c, elf.h, and loaduvm of vm.c)

    The arguments of [exec] are the path and the argument strings; the strings are in
    the calling process's memory, which nothing else writes while it is in the
    kernel. *)

From S2P Require Import Prelude State CMem Strings Spinlock Mmu Kalloc Console Vm VmUser VmCopy Umem Sched Bio Bytes Log Inode ConsoleIO Fs File Proc.

(** ** loaduvm *)

Fixpoint loaduvm_loop (fuel : nat) (pgdir addr : Z) (ip : nat) (offset i sz : Z) : K Z :=
  if i <? sz then
    match fuel with
    | O => out_of_fuel
    | S fuel' =>
        pte <- walkpgdir pgdir (u32 (addr + i)) false ;;
        if pte =? 0 then panic "loaduvm: address should exist" else
        e <- gets (fun k => load32 (k_mem k) pte) ;;
        let pa := PTE_ADDR e in
        let n := if sz - i <? PGSIZE then sz - i else PGSIZE in
        r <- readi ip (ToMem (P2V pa)) (u32 (offset + i)) n ;;
        if negb (u32 (fst r) =? n) then ret (-1)
        else loaduvm_loop fuel' pgdir addr ip offset (i + PGSIZE) sz
    end
  else ret 0.

Definition loaduvm (pgdir addr : Z) (ip : nat) (offset sz : Z) : K Z :=
  if negb (addr mod PGSIZE =? 0) then panic "loaduvm: addr must be page aligned" else
  loaduvm_loop (Z.to_nat (sz / PGSIZE + 1)) pgdir addr ip offset 0 sz.

(** ** ELF headers *)

Definition ELF_MAGIC : Z := 0x464C457F.
Definition ELF_PROG_LOAD : Z := 1.

(** [struct elfhdr] (52 bytes) and [struct proghdr] (32 bytes). *)
Definition ELFHDR : Z := 52.
Definition PROGHDR : Z := 32.
Definition elf_magic (h : list Z) : Z := ld32 h 0.
Definition elf_entry (h : list Z) : Z := ld32 h 24.
Definition elf_phoff (h : list Z) : Z := ld32 h 28.
Definition elf_phnum (h : list Z) : Z := ld16 h 44.
Definition ph_type (h : list Z) : Z := ld32 h 0.
Definition ph_off (h : list Z) : Z := ld32 h 4.
Definition ph_vaddr (h : list Z) : Z := ld32 h 8.
Definition ph_filesz (h : list Z) : Z := ld32 h 16.
Definition ph_memsz (h : list Z) : Z := ld32 h 20.

(** ** exec *)

(** The loop over the program headers, with [n] of them left; [None] is the jump to
    [bad]. *)
Fixpoint load_segments (n : nat) (ip : nat) (pgdir off sz : Z) : K (option Z) :=
  match n with
  | O => ret (Some sz)
  | S n' =>
      r <- readi ip ToBuf off PROGHDR ;;
      if negb (u32 (fst r) =? PROGHDR) then ret None else
      let ph := snd r in
      if negb (ph_type ph =? ELF_PROG_LOAD) then load_segments n' ip pgdir (u32 (off + PROGHDR)) sz
      else if ph_memsz ph <? ph_filesz ph then ret None
      else if u32 (ph_vaddr ph + ph_memsz ph) <? ph_vaddr ph then ret None
      else
        sz <- allocuvm pgdir sz (u32 (ph_vaddr ph + ph_memsz ph)) ;;
        if sz =? 0 then ret None
        else if negb (ph_vaddr ph mod PGSIZE =? 0) then ret None
        else
          r <- loaduvm pgdir (ph_vaddr ph) ip (ph_off ph) (ph_filesz ph) ;;
          if r <? 0 then ret None
          else load_segments n' ip pgdir (u32 (off + PROGHDR)) sz
  end.

(** The loop that pushes the argument strings: the new stack pointer and the
    addresses of the strings.  [None] is the jump to [bad]. *)
Fixpoint push_args (argv : list (list Z)) (pgdir argc sp : Z) (ustack : list Z) : K (option (Z * list Z)) :=
  match argv with
  | [] => ret (Some (sp, ustack))
  | s :: argv' =>
      if MAXARG <=? argc then ret None else
      let len := Z.of_nat (length s) + 1 in
      let sp := Z.ldiff (u32 (sp - len)) 3 in
      r <- copyout pgdir sp (s ++ [0]) len ;;
      if r <? 0 then ret None
      else push_args argv' pgdir (argc + 1) sp (ustack ++ [sp])
  end.

(** The loop that finds the last element of the path. *)
Fixpoint last_elem (s last : list Z) : list Z :=
  match s with
  | [] => last
  | c :: s' => last_elem s' (if c =? 47 then s' else last)
  end.

(** The exit at [bad]. *)
Definition exec_bad (pgdir : Z) (ip : option nat) : K Z :=
  when (negb (pgdir =? 0)) (freevm pgdir) ;;
  match ip with
  | Some ip => iunlockput ip ;; end_op
  | None => ret tt
  end ;;
  ret (-1).

(** The part after the segments are loaded: the stack, the arguments and the switch
    to the new image. *)
Definition exec_image (path : list Z) (argv : list (list Z)) (entry pgdir sz : Z) : K Z :=
  let sz := PGROUNDUP sz in
  sz <- allocuvm pgdir sz (u32 (sz + 2 * PGSIZE)) ;;
  if sz =? 0 then exec_bad pgdir None else
  clearpteu pgdir (sz - 2 * PGSIZE) ;;
  a <- push_args argv pgdir 0 sz [] ;;
  match a with
  | None => exec_bad pgdir None
  | Some (sp, uargs) =>
      let argc := Z.of_nat (length uargs) in
      let ustack := [0xffffffff; argc; u32 (sp - (argc + 1) * 4)] ++ uargs ++ [0] in
      let sp := u32 (sp - (3 + argc + 1) * 4) in
      r <- copyout pgdir sp (mjoin (le32 <$> ustack)) ((3 + argc + 1) * 4) ;;
      if r <? 0 then exec_bad pgdir None else
      c <- curproc ;;
      updproc c (fun p => set_p_name (safestrcpy_arr (p_name p) (last_elem path path) 16) p) ;;
      pr <- getproc c ;;
      let oldpgdir := p_pgdir pr in
      updproc c (set_p_pgdir pgdir) ;;
      updproc c (set_p_sz sz) ;;
      updproc c (fun p => set_p_tf (set_tf_esp sp (set_tf_eip entry (p_tf p))) p) ;;
      switchuvm c ;;
      freevm oldpgdir ;;
      ret 0
  end.

(** [elf0] are the bytes the uninitialised local [elf] has; they stay where [readi]
    fails.  The test of its result compares an [int] with a [sizeof], as unsigned
    numbers. *)
Definition exec (elf0 : list Z) (path : list Z) (argv : list (list Z)) : K Z :=
  begin_op ;;
  oip <- namei path ;;
  match oip with
  | None =>
      end_op ;;
      ret (-1)
  | Some ip =>
      ilock ip ;;
      r <- readi ip ToBuf 0 ELFHDR ;;
      let elf := put elf0 0 (snd r) in
      if u32 (fst r) <? ELFHDR then exec_bad 0 (Some ip) else
      if negb (elf_magic elf =? ELF_MAGIC) then exec_bad 0 (Some ip) else
      pgdir <- setupkvm ;;
      if pgdir =? 0 then exec_bad 0 (Some ip) else
      osz <- load_segments (Z.to_nat (elf_phnum elf)) ip pgdir (elf_phoff elf) PGSIZE ;;
      match osz with
      | None => exec_bad pgdir (Some ip)
      | Some sz =>
          iunlockput ip ;;
          end_op ;;
          exec_image path argv (elf_entry elf) pgdir sz
      end
  end.
