(* ===== verification/Sysarg.v ===== *)
(** * System call arguments (syscall.c)

    The functions that fetch arguments from the user stack and check the addresses
    they contain.  A C function that returns -1 or stores a value through a pointer
    and returns 0 (or the length of a string) gives [None] or the value. *)

From S2P Require Import Prelude State Strings Mmu Vm Umem.

Definition fetchint (addr : Z) : K (option Z) :=
  c <- curproc ;;
  pr <- getproc c ;;
  if (p_sz pr <=? addr) || (p_sz pr <? u32 (addr + 4)) then ret None else
  v <- vload32 addr ;;
  ret (Some (s32 v)).

(** The loop over the string from [s] on, which ends at [ep]; [n] is the number of
    bytes left. *)
Fixpoint fetchstr_loop (n : nat) (s : Z) : K (option (list Z)) :=
  match n with
  | O => ret None
  | S n' =>
      b <- vload8 s ;;
      if b =? 0 then ret (Some [])
      else
        r <- fetchstr_loop n' (s + 1) ;;
        ret (match r with Some bs => Some (b :: bs) | None => None end)
  end.

(** The string itself, whose length is the C function's result. *)
Definition fetchstr (addr : Z) : K (option (list Z)) :=
  c <- curproc ;;
  pr <- getproc c ;;
  if p_sz pr <=? addr then ret None
  else fetchstr_loop (Z.to_nat (p_sz pr - addr)) addr.

Definition argint (n : Z) : K (option Z) :=
  c <- curproc ;;
  pr <- getproc c ;;
  fetchint (u32 (tf_esp (p_tf pr) + 4 + 4 * n)).

(** The pointer; the addition of [size], an [int], is modulo 2^32. *)
Definition argptr (n size : Z) : K (option Z) :=
  i <- argint n ;;
  match i with
  | None => ret None
  | Some i =>
      c <- curproc ;;
      pr <- getproc c ;;
      if (p_sz pr <=? u32 i) || (p_sz pr <? u32 (u32 i + size)) then ret None
      else ret (Some (u32 i))
  end.

Definition argstr (n : Z) : K (option (list Z)) :=
  addr <- argint n ;;
  match addr with
  | None => ret None
  | Some addr => fetchstr (u32 addr)
  end.
