(* ===== verification/Sysfile.v ===== *)
(** * File system calls (sysfile.c) *)

From S2P Require Import Prelude State Strings Spinlock Mmu Vm Console Umem Sched Bio Bytes Log Inode ConsoleIO Fs Pipe File Proc Exec Sysarg.

(** fcntl.h *)
Definition O_RDONLY : Z := 0x000.
Definition O_WRONLY : Z := 0x001.
Definition O_RDWR : Z := 0x002.
Definition O_CREATE : Z := 0x200.

(** [if((a = m) < 0) return -1;] *)
Definition or_fail {A} (m : K (option A)) (f : A -> K Z) : K Z :=
  o <- m ;;
  match o with
  | None => ret (-1)
  | Some a => f a
  end.

(** The same inside a transaction: [end_op(); return -1]. *)
Definition or_end_op {A} (m : K (option A)) (f : A -> K Z) : K Z :=
  o <- m ;;
  match o with
  | None => end_op ;; ret (-1)
  | Some a => f a
  end.

(** ** File descriptors *)

(** The descriptor and the file. *)
Definition argfd (n : Z) : K (option (Z * nat)) :=
  o <- argint n ;;
  match o with
  | None => ret None
  | Some fd =>
      c <- curproc ;;
      pr <- getproc c ;;
      if (fd <? 0) || (NOFILE <=? fd) then ret None
      else
        ret (match p_ofile pr !!! Z.to_nat fd with
             | None => None
             | Some f => Some (fd, f)
             end)
  end.

Fixpoint free_fd (l : list (option nat)) (fd : nat) : option nat :=
  match l with
  | [] => None
  | None :: _ => Some fd
  | Some _ :: l' => free_fd l' (S fd)
  end.

Definition set_ofile (c : nat) (fd : nat) (f : option nat) : K unit :=
  updproc c (fun p => set_p_ofile (<[fd := f]> (p_ofile p)) p).

Definition fdalloc (f : nat) : K Z :=
  c <- curproc ;;
  pr <- getproc c ;;
  match free_fd (p_ofile pr) 0 with
  | Some fd => set_ofile c fd (Some f) ;; ret (Z.of_nat fd)
  | None => ret (-1)
  end.

Definition sys_dup : K Z :=
  or_fail (argfd 0) (fun '(_, f) =>
  fd <- fdalloc f ;;
  if fd <? 0 then ret (-1) else
  filedup f ;;
  ret fd).

Definition sys_read : K Z :=
  or_fail (argfd 0) (fun '(_, f) =>
  or_fail (argint 2) (fun n =>
  or_fail (argptr 1 n) (fun p =>
  fileread f p n))).

Definition sys_write : K Z :=
  or_fail (argfd 0) (fun '(_, f) =>
  or_fail (argint 2) (fun n =>
  or_fail (argptr 1 n) (fun p =>
  filewrite f p n))).

Definition sys_close : K Z :=
  or_fail (argfd 0) (fun '(fd, f) =>
  c <- curproc ;;
  set_ofile c (Z.to_nat fd) None ;;
  fileclose f ;;
  ret 0).

(** [sizeof(struct stat)] is 20. *)
Definition sys_fstat : K Z :=
  or_fail (argfd 0) (fun '(_, f) =>
  or_fail (argptr 1 20) (fun st =>
  filestat f st)).

(** ** Links *)

Definition add_nlink (ip : nat) (d : Z) : K unit :=
  updinode ip (fun n => set_i_nlink (s16 (i_nlink n + d)) n).

(** The exit at [bad]. *)
Definition link_bad (ip : nat) : K Z :=
  ilock ip ;;
  add_nlink ip (-1) ;;
  iupdate ip ;;
  iunlockput ip ;;
  end_op ;;
  ret (-1).

Definition sys_link : K Z :=
  or_fail (argstr 0) (fun old =>
  or_fail (argstr 1) (fun new =>
  begin_op ;;
  or_end_op (namei old) (fun ip =>
  ilock ip ;;
  n <- getinode ip ;;
  if i_type n =? T_DIR then
    iunlockput ip ;;
    end_op ;;
    ret (-1)
  else
    add_nlink ip 1 ;;
    iupdate ip ;;
    iunlock ip ;;
    dn <- nameiparent new ;;
    match dn with
    | (None, _) => link_bad ip
    | (Some dp, name) =>
        ilock dp ;;
        d <- getinode dp ;;
        n <- getinode ip ;;
        r <- (if negb (i_dev d =? i_dev n) then ret (-1) else dirlink dp name (i_inum n)) ;;
        if r <? 0 then
          iunlockput dp ;;
          link_bad ip
        else
          iunlockput dp ;;
          iput ip ;;
          end_op ;;
          ret 0
    end))).

Fixpoint isdirempty_loop (fuel : nat) (dp : nat) (off : Z) : K bool :=
  nd <- getinode dp ;;
  if off <? i_size nd then
    match fuel with
    | O => out_of_fuel
    | S fuel' =>
        de <- read_dirent dp off "isdirempty: readi" ;;
        if negb (de_inum de =? 0) then ret false else isdirempty_loop fuel' dp (off + DIRENT)
    end
  else ret true.

Definition isdirempty (dp : nat) : K bool :=
  nd <- getinode dp ;;
  isdirempty_loop (dir_rounds nd) dp (2 * DIRENT).

Definition unlink_bad (dp : nat) : K Z :=
  iunlockput dp ;;
  end_op ;;
  ret (-1).

Definition sys_unlink : K Z :=
  or_fail (argstr 0) (fun path =>
  begin_op ;;
  dn <- nameiparent path ;;
  match dn with
  | (None, _) => end_op ;; ret (-1)
  | (Some dp, name) =>
      ilock dp ;;
      if (namecmp name (str ".") =? 0) || (namecmp name (str "..") =? 0) then unlink_bad dp else
      r <- dirlookup dp name ;;
      match r with
      | None => unlink_bad dp
      | Some (ip, off) =>
          ilock ip ;;
          n <- getinode ip ;;
          if i_nlink n <? 1 then panic "unlink: nlink < 1" else
          e <- (if i_type n =? T_DIR then isdirempty ip else ret true) ;;
          if negb e then
            iunlockput ip ;;
            unlink_bad dp
          else
            w <- writei dp (FromBuf (replicate (Z.to_nat DIRENT) 0)) off DIRENT ;;
            if negb (w =? DIRENT) then panic "unlink: writei" else
            n <- getinode ip ;;
            when (i_type n =? T_DIR) (add_nlink dp (-1) ;; iupdate dp) ;;
            iunlockput dp ;;
            add_nlink ip (-1) ;;
            iupdate ip ;;
            iunlockput ip ;;
            end_op ;;
            ret 0
      end
  end).

(** ** Creation *)

(** The new inode [ip] under [name] in [dp], both locked. *)
Definition create_new (dp ip : nat) (name : list Z) (type major minor : Z) : K (option nat) :=
  ilock ip ;;
  updinode ip (fun n => set_i_nlink 1 (set_i_minor minor (set_i_major major n))) ;;
  iupdate ip ;;
  n <- getinode ip ;;
  d <- getinode dp ;;
  when (type =? T_DIR)
    (add_nlink dp 1 ;;
     iupdate dp ;;
     r <- dirlink ip (str ".") (i_inum n) ;;
     r <- (if r <? 0 then ret r else dirlink ip (str "..") (i_inum d)) ;;
     when (r <? 0) (panic "create dots")) ;;
  r <- dirlink dp name (i_inum n) ;;
  when (r <? 0) (panic "create: dirlink") ;;
  iunlockput dp ;;
  ret (Some ip).

Definition create (path : list Z) (type major minor : Z) : K (option nat) :=
  dn <- nameiparent path ;;
  match dn with
  | (None, _) => ret None
  | (Some dp, name) =>
      ilock dp ;;
      r <- dirlookup dp name ;;
      match r with
      | Some (ip, _) =>
          iunlockput dp ;;
          ilock ip ;;
          n <- getinode ip ;;
          if (type =? T_FILE) && (i_type n =? T_FILE) then ret (Some ip)
          else
            iunlockput ip ;;
            ret None
      | None =>
          d <- getinode dp ;;
          ip <- ialloc (i_dev d) type ;;
          create_new dp ip name type major minor
      end
  end.

(** The first part of [sys_open]: the locked inode, or [None] where the call
    returns -1 (the transaction is then closed by the caller). *)
Definition open_ip (path : list Z) (omode : Z) : K (option nat) :=
  if has omode O_CREATE then create path T_FILE 0 0
  else
    oip <- namei path ;;
    match oip with
    | None => ret None
    | Some ip =>
        ilock ip ;;
        n <- getinode ip ;;
        if (i_type n =? T_DIR) && negb (omode =? O_RDONLY) then
          iunlockput ip ;;
          ret None
        else ret (Some ip)
    end.

Definition b2z (b : bool) : Z := if b then 1 else 0.

(** The exit when there is no file structure or no descriptor. *)
Definition open_fail (ofl : option nat) (ip : nat) : K Z :=
  match ofl with Some f => fileclose f | None => ret tt end ;;
  iunlockput ip ;;
  end_op ;;
  ret (-1).

Definition sys_open : K Z :=
  or_fail (argstr 0) (fun path =>
  or_fail (argint 1) (fun omode =>
  begin_op ;;
  or_end_op (open_ip path omode) (fun ip =>
  ofl <- filealloc ;;
  match ofl with
  | None => open_fail None ip
  | Some f =>
      fd <- fdalloc f ;;
      if fd <? 0 then open_fail (Some f) ip else
      iunlock ip ;;
      end_op ;;
      updfile f (fun ff => set_f_off 0 (set_f_ip (Some ip) (set_f_type FD_INODE ff))) ;;
      updfile f (set_f_readable (b2z (negb (has omode O_WRONLY)))) ;;
      updfile f (set_f_writable (b2z (has omode O_WRONLY || has omode O_RDWR))) ;;
      ret fd
  end))).

Definition sys_mkdir : K Z :=
  begin_op ;;
  or_end_op (argstr 0) (fun path =>
  or_end_op (create path T_DIR 0 0) (fun ip =>
  iunlockput ip ;;
  end_op ;;
  ret 0)).

Definition sys_mknod : K Z :=
  begin_op ;;
  or_end_op (argstr 0) (fun path =>
  or_end_op (argint 1) (fun major =>
  or_end_op (argint 2) (fun minor =>
  or_end_op (create path T_DEV (s16 major) (s16 minor)) (fun ip =>
  iunlockput ip ;;
  end_op ;;
  ret 0)))).

Definition sys_chdir : K Z :=
  begin_op ;;
  or_end_op (argstr 0) (fun path =>
  or_end_op (namei path) (fun ip =>
  ilock ip ;;
  n <- getinode ip ;;
  if negb (i_type n =? T_DIR) then
    iunlockput ip ;;
    end_op ;;
    ret (-1)
  else
    iunlock ip ;;
    c <- curproc ;;
    pr <- getproc c ;;
    cwd <- cwd_of pr ;;
    iput cwd ;;
    end_op ;;
    updproc c (set_p_cwd (Some ip)) ;;
    ret 0)).

(** ** exec and pipe *)

(** The loop that fetches the argument strings from [uargv[i]] on.  After [MAXARG]
    of them the call fails. *)
Fixpoint fetch_args (n : nat) (uargv i : Z) : K (option (list (list Z))) :=
  match n with
  | O => ret None
  | S n' =>
      o <- fetchint (u32 (uargv + 4 * i)) ;;
      match o with
      | None => ret None
      | Some uarg =>
          if uarg =? 0 then ret (Some [])
          else
            s <- fetchstr (u32 uarg) ;;
            match s with
            | None => ret None
            | Some s =>
                r <- fetch_args n' uargv (i + 1) ;;
                ret (match r with Some l => Some (s :: l) | None => None end)
            end
      end
  end.

Definition sys_exec (elf0 : list Z) : K Z :=
  or_fail (argstr 0) (fun path =>
  or_fail (argint 1) (fun uargv =>
  or_fail (fetch_args (Z.to_nat MAXARG) (u32 uargv) 0) (fun argv =>
  exec elf0 path argv))).

(** The exit when a descriptor is missing; [fd0] is -1 or the first descriptor. *)
Definition pipe_fail (fd0 : Z) (rf wf : nat) : K Z :=
  c <- curproc ;;
  when (0 <=? fd0) (set_ofile c (Z.to_nat fd0) None) ;;
  fileclose rf ;;
  fileclose wf ;;
  ret (-1).

Definition sys_pipe : K Z :=
  or_fail (argptr 0 8) (fun fd =>
  or_fail pipealloc (fun '(rf, wf) =>
  fd0 <- fdalloc rf ;;
  if fd0 <? 0 then pipe_fail fd0 rf wf else
  fd1 <- fdalloc wf ;;
  if fd1 <? 0 then pipe_fail fd0 rf wf else
  vstore32 fd fd0 ;;
  vstore32 (fd + 4) fd1 ;;
  ret 0)).
