(* ===== verification/Syscall.v ===== *)
(** * System calls (sysproc.c, syscall.c)

    The process system calls and the dispatcher. *)

From S2P Require Import Prelude State Strings Spinlock Console ProcInfo Mmu Vm Umem Sched Bio Inode ConsoleIO Fs File Proc Exec Sysarg Sysfile.

(** ** sysproc.c *)

Definition sys_getprocessinfo : K Z :=
  processinfo ;;
  ret 0.

Definition sys_increasepriority : K Z :=
  c <- curproc ;;
  pr <- getproc c ;;
  when (p_priority pr =? 0)
    (cprintf "Priority has increased from 0 to 1 for process %s
" [KStr (Some (cstr (p_name pr)))] ;;
     updproc c (set_p_priority 1)) ;;
  pr <- getproc c ;;
  ret (p_priority pr).

Definition sys_fork : K Z := fork.

Definition sys_exit : K Z :=
  exit ;;
  ret 0.

Definition sys_wait : K Z := wait.

Definition sys_kill : K Z := or_fail (argint 0) kill.

Definition sys_getpid : K Z :=
  c <- curproc ;;
  pr <- getproc c ;;
  ret (p_pid pr).

Definition sys_getcount : K Z :=
  n <- gets k_count ;;
  if n <? 0 then ret (-1) else ret n.

Definition sys_sbrk : K Z :=
  or_fail (argint 0) (fun n =>
  c <- curproc ;;
  pr <- getproc c ;;
  let addr := s32 (p_sz pr) in
  r <- growproc n ;;
  if r <? 0 then ret (-1) else ret addr).

(** The [while] loop: false when the process was killed.  The comparison is
    unsigned. *)
Fixpoint sleep_ticks (fuel : nat) (ticks0 n : Z) : K bool :=
  t <- gets ticks ;;
  if u32 (t - ticks0) <? u32 n then
    c <- curproc ;;
    pr <- getproc c ;;
    if negb (p_killed pr =? 0) then ret false
    else
      match fuel with
      | O => out_of_fuel
      | S fuel' => sleep CTicks Ltickslock ;; sleep_ticks fuel' ticks0 n
      end
  else ret true.

Definition sys_sleep : K Z :=
  or_fail (argint 0) (fun n =>
  acquire Ltickslock ;;
  ticks0 <- gets ticks ;;
  ok <- sleep_ticks max_sleeps ticks0 n ;;
  release Ltickslock ;;
  ret (if ok : bool then 0 else -1)).

Definition sys_uptime : K Z :=
  acquire Ltickslock ;;
  xticks <- gets ticks ;;
  release Ltickslock ;;
  ret (s32 xticks).

(** ** syscall.c *)

Definition syscalls (elf0 : list Z) : list (option (K Z)) :=
  [ None;
    Some sys_fork; Some sys_exit; Some sys_wait; Some sys_pipe; Some sys_read; Some sys_kill;
    Some (sys_exec elf0); Some sys_fstat; Some sys_chdir; Some sys_dup; Some sys_getpid; Some sys_sbrk;
    Some sys_sleep; Some sys_uptime; Some sys_open; Some sys_write; Some sys_mknod; Some sys_unlink;
    Some sys_link; Some sys_mkdir; Some sys_close; Some sys_getcount; Some sys_getprocessinfo;
    Some sys_increasepriority ].

Definition set_eax (c : nat) (v : Z) : K unit :=
  updproc c (fun p => set_p_tf (set_tf_eax (u32 v) (p_tf p)) p).

(** [elf0] is the junk in a local variable of [exec] (see Exec.v). *)
Definition syscall (elf0 : list Z) : K unit :=
  c <- curproc ;;
  pr <- getproc c ;;
  let num := s32 (tf_eax (p_tf pr)) in
  match (if 0 <? num then syscalls elf0 !! Z.to_nat num else None) with
  | Some (Some f) =>
      modify (fun k => set_k_count (s32 (k_count k + 1)) k) ;;
      r <- f ;;
      set_eax c r
  | _ =>
      cprintf "%d %s: unknown sys call %d
" [KInt (p_pid pr); KStr (Some (cstr (p_name pr))); KInt num] ;;
      set_eax c (-1)
  end.
