(* ===== verification/Trap.v ===== *)
(** * Traps and interrupts (trap.c) *)

From S2P Require Import Prelude State Strings Spinlock Console Mmu Vm Umem Sched Bio Inode Devices ConsoleIO Fs File Proc Exec Sysarg Sysfile Syscall.

(** [vectors] are the entry points of vectors.S, which the build generates. *)
Definition idt_table (vectors : Z -> Z) : list gatedesc :=
  let gates := (fun i => SETGATE false (Z.shiftl SEG_KCODE 3) (vectors (Z.of_nat i)) 0) <$> seq 0 256 in
  <[Z.to_nat T_SYSCALL := SETGATE true (Z.shiftl SEG_KCODE 3) (vectors T_SYSCALL) DPL_USER]> gates.

(** The result is the contents of [idt]. *)
Definition tvinit (vectors : Z -> Z) : K (list gatedesc) :=
  initlock Ltickslock "time" ;;
  ret (idt_table vectors).

(** What the hardware gives a trap handler besides the trap frame: the characters
    the keyboard or serial port has, the faulting address, and the junk of a local
    variable of [exec]. *)
Record hardware : Type := mkHardware { hw_input : list Z; hw_cr2 : Z; hw_elf0 : list Z }.

Definition clock_tick : K unit :=
  acquire Ltickslock ;;
  modify (fun k => set_ticks (u32 (ticks k + 1)) k) ;;
  wakeup CTicks ;;
  release Ltickslock.

(** The current process, if there is one. *)
Definition proc_opt : K (option (nat * proc)) :=
  o <- gets (fun k => cpu_proc (k_cpu k)) ;;
  match o with
  | None => ret None
  | Some c => pr <- getproc c ;; ret (Some (c, pr))
  end.

Definition set_killed : K unit :=
  c <- curproc ;;
  updproc c (set_p_killed 1).

(** The [switch].  The disk driver's [ideintr] (memide.c) does nothing. *)
Definition trap_dispatch (hw : hardware) (tf : trapframe) : K unit :=
  let no := tf_trapno tf in
  if no =? T_IRQ0 + IRQ_TIMER then
    id <- gets (fun k => cpu_id (k_cpu k)) ;;
    when (bool_decide (id = O)) clock_tick ;;
    lapiceoi
  else if no =? T_IRQ0 + IRQ_IDE then lapiceoi
  else if no =? T_IRQ0 + IRQ_IDE + 1 then ret tt
  else if no =? T_IRQ0 + IRQ_KBD then consoleintr (hw_input hw) ;; lapiceoi
  else if no =? T_IRQ0 + IRQ_COM1 then consoleintr (hw_input hw) ;; lapiceoi
  else if (no =? T_IRQ0 + 7) || (no =? T_IRQ0 + IRQ_SPURIOUS) then
    id <- gets (fun k => cpu_id (k_cpu k)) ;;
    cprintf "cpu%d: spurious interrupt at %x:%x
" [KInt (Z.of_nat id); KInt (tf_cs tf); KInt (tf_eip tf)] ;;
    lapiceoi
  else if no =? T_PGFLT then
    cprintf "Your process was just murdered.
" [] ;;
    o <- proc_opt ;;
    match o with
    | Some (c, _) => updproc c (set_p_killed 1)
    | None => null_pointer
    end
  else
    o <- proc_opt ;;
    id <- gets (fun k => cpu_id (k_cpu k)) ;;
    match (if Z.land (tf_cs tf) 3 =? 0 then None else o) with
    | None =>
        cprintf "unexpected trap %d from cpu %d eip %x (cr2=0x%x)
" [KInt no; KInt (Z.of_nat id); KInt (tf_eip tf); KInt (hw_cr2 hw)] ;;
        panic "trap"
    | Some (c, pr) =>
        cprintf "pid %d %s: trap %d err %d on cpu %d eip 0x%x addr 0x%x--kill proc
"
          [KInt (p_pid pr); KStr (Some (cstr (p_name pr))); KInt no; KInt (tf_err tf);
           KInt (Z.of_nat id); KInt (tf_eip tf); KInt (hw_cr2 hw)] ;;
        updproc c (set_p_killed 1)
    end.

(** [if(proc && proc->killed && (tf->cs&3) == DPL_USER) exit();] *)
Definition exit_if_killed (tf : trapframe) : K unit :=
  o <- proc_opt ;;
  match o with
  | Some (_, pr) =>
      when (negb (p_killed pr =? 0) && (Z.land (tf_cs tf) 3 =? DPL_USER)) exit
  | None => ret tt
  end.

(** The time slice of the scheduling lab: a process of priority 1 is moved down and
    yields at its first tick, one of priority 0 yields at every second tick. *)
Definition time_slice (c : nat) : K unit :=
  updproc c (fun p => set_p_timecpu (s32 (p_timecpu p + 1)) p) ;;
  pb <- gets prioritybump ;;
  when (pb =? 10)
    (modify (set_prioritybump 0) ;;
     cprintf "RESETTING TO 0
" []) ;;
  pr <- getproc c ;;
  if (p_priority pr =? 1) && (p_timecpu pr =? 1) then
    updproc c (fun p => set_p_timecpu (s32 (p_timecpu p - 1)) p) ;;
    updproc c (fun p => set_p_priority (s32 (p_priority p - 1)) p) ;;
    yield
  else if (p_priority pr =? 0) && (p_timecpu pr =? 2) then
    updproc c (set_p_timecpu 0) ;;
    yield
  else ret tt.

Definition clock_preempt (tf : trapframe) : K unit :=
  o <- proc_opt ;;
  match o with
  | Some (c, pr) =>
      when (bool_decide (p_state pr = RUNNING) && (tf_trapno tf =? T_IRQ0 + IRQ_TIMER)) (time_slice c)
  | None => ret tt
  end.

Definition trap (hw : hardware) (tf : trapframe) : K unit :=
  if tf_trapno tf =? T_SYSCALL then
    c <- curproc ;;
    pr <- getproc c ;;
    when (negb (p_killed pr =? 0)) exit ;;
    updproc c (set_p_tf tf) ;;
    syscall (hw_elf0 hw) ;;
    pr <- getproc c ;;
    when (negb (p_killed pr =? 0)) exit
  else
    trap_dispatch hw tf ;;
    exit_if_killed tf ;;
    clock_preempt tf ;;
    exit_if_killed tf.
