(* ===== verification/TrapSpec.v ===== *)
(** * The time slice (trap.c)

    When the clock makes a process give up the CPU, for the two priorities of the
    scheduling lab. *)

From S2P Require Import Prelude State Strings Spinlock Console Mmu Vm Umem Sched Bio Inode Devices ConsoleIO Fs File Proc Exec Sysarg Sysfile Syscall Trap.

(** The priority and the ticks used of a process; [None] when the next tick makes it yield. *)
Definition tick (pr tc : Z) : option (Z * Z) :=
  let tc := s32 (tc + 1) in
  if (pr =? 1) && (tc =? 1) || (pr =? 0) && (tc =? 2) then None else Some (pr, tc).

(** What a trap handler may rely on: the screen and the locks it takes are in order. *)
Record handler (k : kernel) (c : nat) (p : proc) : Prop := {
  hd_screen : screen_ok k;
  hd_cons : lock_free Lcons k;
  hd_ptable : lock_free Lptable k;
  hd_cpu : cpu_idle k;
  hd_cur : cpu_proc (k_cpu k) = Some c;
  hd_proc : ptable k !! c = Some p
}.

(** The state but for the process's entry, the console and the boost counter. *)
Definition same_but (c : nat) (p : proc) (k k' : kernel) : Prop :=
  exists log crt pos pb, k' = set_prioritybump pb (with_console log crt pos (set_ptable (<[c := p]> (ptable k)) k)).

Lemma alter_set {A} (f : A -> A) (l : list A) i x : l !! i = Some x -> alter f i l = <[i := f x]> l.
Proof.
  intros Hi. apply list_eq. intros j. destruct (decide (j = i)) as [->|Hne].
  - rewrite list_lookup_alter_eq, list_lookup_insert_eq by (eapply lookup_lt_Some; exact Hi). now rewrite Hi.
  - now rewrite list_lookup_alter_ne, list_lookup_insert_ne.
Qed.

Lemma handler_step k c p p' k' : handler k c p -> same_but c p' k k' -> screen_ok k' -> handler k' c p'.
Proof.
  intros [H1 H2 H3 H4 H5 H6] (log & crt & pos & pb & ->) Hs. split; try done.
  apply list_lookup_insert_eq. now apply lookup_lt_Some in H6.
Qed.

(** The part of the handler before the decision. *)
Lemma slice_prefix k c p :
  handler k c p ->
  exists k', same_but c (set_p_timecpu (s32 (p_timecpu p + 1)) p) k k' /\ screen_ok k' /\ forall A (f : K A),
    (updproc c (fun p => set_p_timecpu (s32 (p_timecpu p + 1)) p) ;;
     pb <- gets prioritybump ;;
     when (pb =? 10) (modify (set_prioritybump 0) ;; cprintf "RESETTING TO 0
" []) ;; f) k = f k'.
Proof.
  intros H. pose proof (hd_proc _ _ _ H) as Hp. set (p1 := set_p_timecpu (s32 (p_timecpu p + 1)) p).
  set (k1 := set_ptable (<[c := p1]> (ptable k)) k). unfold updproc. destruct (Z.eqb_spec (prioritybump k) 10) as [E|E].
  - set (k2 := set_prioritybump 0 k1).
    destruct (cprintf_run "RESETTING TO 0
" [] k2) as (log & crt & pos & R & Hs).
    { apply (hd_screen _ _ _ H). } { right. split; [apply (hd_cons _ _ _ H)|apply (hd_cpu _ _ _ H)]. }
    exists (with_console log crt pos k2). split_and!; [|done|].
    + exists log, crt, pos, 0. unfold k2, k1. now destruct k.
    + intros A f. mred. rewrite (alter_set _ _ _ _ Hp). fold p1. fold k1.
      change (prioritybump k1) with (prioritybump k). rewrite E. unfold when. cbn [Z.eqb Pos.eqb].
      rewrite bind_assoc by exact I. mred. fold k2. mok R. done.
  - exists k1. split_and!; [|apply (hd_screen _ _ _ H)|].
    + exists (conslog k), (k_crt k), (k_crtpos k), (prioritybump k). unfold k1. now destruct k.
    + intros A f. mred. rewrite (alter_set _ _ _ _ Hp). fold p1. fold k1.
      change (prioritybump k1) with (prioritybump k). rewrite (proj2 (Z.eqb_neq _ _)) by done. unfold when. mred. done.
Qed.

Lemma time_slice_prefix k c p :
  handler k c p ->
  exists k', same_but c (set_p_timecpu (s32 (p_timecpu p + 1)) p) k k' /\
    handler k' c (set_p_timecpu (s32 (p_timecpu p + 1)) p) /\
    time_slice c k =
      (if (p_priority p =? 1) && (s32 (p_timecpu p + 1) =? 1) then
         updproc c (fun p => set_p_timecpu (s32 (p_timecpu p - 1)) p) ;;
         updproc c (fun p => set_p_priority (s32 (p_priority p - 1)) p) ;;
         yield
       else if (p_priority p =? 0) && (s32 (p_timecpu p + 1) =? 2) then updproc c (set_p_timecpu 0) ;; yield
       else ret tt) k'.
Proof.
  intros H. destruct (slice_prefix k c p H) as (k' & S & Hs & R). exists k'.
  pose proof (handler_step _ _ _ _ _ H S Hs) as H'. split_and!; try done.
  unfold time_slice. rewrite R. unfold getproc. mred. now rewrite (list_lookup_total_correct _ _ _ (hd_proc _ _ _ H')).
Qed.

(** A tick that does not end the time slice. *)
Lemma slice_continues k c p pr tc :
  handler k c p -> tick (p_priority p) (p_timecpu p) = Some (pr, tc) ->
  exists k', time_slice c k = Ok tt k' /\ pr = p_priority p /\ same_but c (set_p_timecpu tc p) k k' /\
    handler k' c (set_p_timecpu tc p).
Proof.
  intros H Ht. unfold tick in Ht. destruct (_ || _) eqn:E; [done|]. injection Ht as <- <-.
  apply orb_false_iff in E as [E1 E2]. destruct (time_slice_prefix k c p H) as (k' & S & H' & R).
  exists k'. now rewrite R, E1, E2.
Qed.

(** A tick that ends it. *)
Lemma slice_ends k c p :
  handler k c p -> tick (p_priority p) (p_timecpu p) = None ->
  exists k' cont, time_slice c k = Blocked WSwtch (held Lptable k') cont /\
    same_but c (set_p_state RUNNABLE (set_p_priority 0 (set_p_timecpu 0 p))) k k'.
Proof.
  intros H Ht. unfold tick in Ht. destruct (_ || _) eqn:E; [|done].
  destruct (time_slice_prefix k c p H) as (k1 & (log & crt & pos & pb & Ek) & H1 & R). rewrite R. clear R.
  set (q := set_p_priority 0 (set_p_timecpu 0 p)). set (k2 := set_ptable (<[c := q]> (ptable k1)) k1).
  assert (H2 : handler k2 c q).
  { destruct H1 as [G1 G2 G3 G4 G5 G6]. split; try done. apply list_lookup_insert_eq. now apply lookup_lt_Some in G6. }
  destruct (yield_spec k2 c) as (cont & Y & _); try apply H2. { eapply lookup_lt_Some, H2. }
  exists (put_proc c (set_p_state RUNNABLE) k2), cont. pose proof (hd_proc _ _ _ H1) as Hp1. pose proof (hd_proc _ _ _ H2) as Hp2. split.
  - rewrite <- Y. unfold updproc. apply orb_true_iff in E as [E|E]; apply andb_true_iff in E as [E1 E2]; rewrite E1, E2; cbn [andb].
    + mred. cbn [ptable set_ptable]. rewrite (alter_set _ _ _ _ Hp1).
      rewrite (alter_set _ _ _ _ (list_lookup_insert_eq _ _ _ (lookup_lt_Some _ _ _ Hp1))), list_insert_insert_eq.
      f_equal. unfold k2. assert (Eq : set_p_priority (s32 (p_priority p - 1)) (set_p_timecpu (s32 (s32 (p_timecpu p + 1) - 1))
        (set_p_timecpu (s32 (p_timecpu p + 1)) p)) = q).
      { apply Z.eqb_eq in E1, E2. unfold q. rewrite E1, E2. reflexivity. }
      change (p_priority (set_p_timecpu _ (set_p_timecpu _ p))) with (p_priority p). cbn [p_timecpu set_p_timecpu] in *.
      rewrite <- Eq. now destruct k1.
    + assert (E0 : (p_priority p =? 1) = false) by lia. rewrite E0. cbn [andb]. mred. rewrite (alter_set _ _ _ _ Hp1).
      f_equal. unfold k2, q. apply Z.eqb_eq in E1. rewrite <- E1. now destruct p, k1.
  - unfold put_proc. rewrite (alter_set _ _ _ _ Hp2). unfold k2. cbn [ptable set_ptable]. rewrite list_insert_insert_eq.
    exists log, crt, pos, pb. rewrite Ek. cbn. rewrite list_insert_insert_eq. now destruct k.
Qed.

(** ** Properties *)

(** [n] clock ticks during which the process stays on the CPU. *)
Fixpoint run_ticks (n : nat) (c : nat) : K unit :=
  match n with
  | O => ret tt
  | S n' => time_slice c ;; run_ticks n' c
  end.

(** The tick at which a running process of priority [pr] that has used [tc] ticks
    loses the CPU: the counter has then reached 1 or 2, counting modulo 2^32. *)
Definition slice (pr tc : Z) : Z := (2 - pr - tc - 1) mod 2 ^ 32 + 1.

Lemma s32_eq a b : - 2 ^ 31 <= b < 2 ^ 31 -> s32 a = b <-> (a - b) mod 2 ^ 32 = 0.
Proof. intros H. unfold s32. Z.div_mod_to_equations. lia. Qed.

Lemma s32_s32_succ n : s32 (s32 n + 1) = s32 (n + 1).
Proof. unfold s32. Z.div_mod_to_equations. lia. Qed.

(** Before the last tick of a slice the process goes on, and the slice has one tick less. *)
Lemma tick_early pr tc : pr = 0 \/ pr = 1 -> 1 < slice pr tc ->
  tick pr tc = Some (pr, s32 (tc + 1)) /\ slice pr (s32 (tc + 1)) = slice pr tc - 1.
Proof.
  unfold slice, tick. intros [->| ->] H; cbn [Z.eqb andb orb]; rewrite ?orb_false_r.
  - rewrite (proj2 (Z.eqb_neq (s32 (tc + 1)) 2)).
    + split; [done|]. unfold s32. Z.div_mod_to_equations. lia.
    + rewrite s32_eq by lia. Z.div_mod_to_equations. lia.
  - rewrite (proj2 (Z.eqb_neq (s32 (tc + 1)) 1)).
    + split; [done|]. unfold s32. Z.div_mod_to_equations. lia.
    + rewrite s32_eq by lia. Z.div_mod_to_equations. lia.
Qed.

Lemma tick_last pr tc : pr = 0 \/ pr = 1 -> slice pr tc = 1 -> tick pr tc = None.
Proof.
  unfold slice, tick. intros [->| ->] H; cbn [Z.eqb andb orb]; rewrite ?orb_false_r.
  - rewrite (proj2 (Z.eqb_eq (s32 (tc + 1)) 2)); [done|]. rewrite s32_eq by lia. Z.div_mod_to_equations. lia.
  - rewrite (proj2 (Z.eqb_eq (s32 (tc + 1)) 1)); [done|]. rewrite s32_eq by lia. Z.div_mod_to_equations. lia.
Qed.

Lemma same_but_trans c p1 p2 k k1 k2 : same_but c p1 k k1 -> same_but c p2 k1 k2 -> same_but c p2 k k2.
Proof.
  intros (? & ? & ? & ? & ->) (log & crt & pos & pb & ->). exists log, crt, pos, pb.
  cbn. now rewrite list_insert_insert_eq.
Qed.

(** The process after [n] ticks that did not end its slice. *)
Lemma run_ticks_early n : forall k c p,
  handler k c p -> p_priority p = 0 \/ p_priority p = 1 -> - 2 ^ 31 <= p_timecpu p < 2 ^ 31 ->
  Z.of_nat n < slice (p_priority p) (p_timecpu p) ->
  exists k', run_ticks n c k = Ok tt k' /\ handler k' c (set_p_timecpu (s32 (p_timecpu p + Z.of_nat n)) p) /\
    same_but c (set_p_timecpu (s32 (p_timecpu p + Z.of_nat n)) p) k k' /\
    slice (p_priority p) (s32 (p_timecpu p + Z.of_nat n)) = slice (p_priority p) (p_timecpu p) - Z.of_nat n.
Proof.
  induction n as [|n IH]; intros k c p H Hpr Ht Hn; cbn [run_ticks].
  - exists k. rewrite Z.add_0_r, s32_small by done. assert (E : set_p_timecpu (p_timecpu p) p = p) by now destruct p. rewrite E.
    split_and!; [done|done| |lia]. exists (conslog k), (k_crt k), (k_crtpos k), (prioritybump k).
    rewrite list_insert_id by apply H. now destruct k.
  - destruct (tick_early (p_priority p) (p_timecpu p) Hpr ltac:(lia)) as [Et Es].
    destruct (slice_continues k c p _ _ H Et) as (k1 & R & _ & S1 & H1).
    destruct (IH k1 c _ H1) as (k2 & R2 & H2 & S2 & E2); [done| |cbn; lia|].
    { cbn. unfold s32. Z.div_mod_to_equations. lia. }
    cbn [p_timecpu p_priority set_p_timecpu] in *.
    assert (Ea : s32 (s32 (p_timecpu p + 1) + Z.of_nat n) = s32 (p_timecpu p + Z.of_nat (S n))).
    { unfold s32. Z.div_mod_to_equations. lia. }
    rewrite Ea in *. exists k2. split_and!; [mok R; exact R2|exact H2|exact (same_but_trans _ _ _ _ _ _ S1 S2)|lia].
Qed.

Lemma run_ticks_snoc n : forall c k k1,
  run_ticks n c k = Ok tt k1 -> forall k2 cont, time_slice c k1 = Blocked WSwtch k2 cont ->
  exists cont', run_ticks (S n) c k = Blocked WSwtch k2 cont'.
Proof.
  induction n as [|n IH]; intros c k k1 R k2 cont B.
  - injection R as <-. cbn [run_ticks]. rewrite (bind_blocked _ _ _ _ _ _ B). eauto.
  - cbn [run_ticks] in R. apply bind_ok_inv in R as ([] & k0 & R0 & R).
    destruct (IH c k0 k1 R k2 cont B) as (cont' & R'). exists cont'. change (run_ticks (S (S n)) c) with (time_slice c ;; run_ticks (S n) c).
    now mok R0.
Qed.


(** The process in slot 0 runs, at the low priority. *)
Definition ex_running (tc : Z) : kernel :=
  set_ptable (<[0%nat := set_p_state RUNNING (set_p_priority 0 (set_p_timecpu tc proc0))]> (ptable kernel0))
    (set_k_cpu (set_cpu_proc (Some 0%nat) (k_cpu kernel0)) kernel0).

Lemma ex_running_handler tc :
  handler (ex_running tc) 0 (set_p_state RUNNING (set_p_priority 0 (set_p_timecpu tc proc0))).
Proof.
  split; try reflexivity.
  - split; vm_compute; split; congruence.
  - exists "console"%string. reflexivity.
  - exists "ptable"%string. reflexivity.
  - split; [|reflexivity]. unfold cpu_ok. cbn. split_and!; [lia|reflexivity|lia].
Qed.


Lemma s32_succ_ne n : 1 <= n < 2 ^ 32 -> s32 (n + 1) <> 1.
Proof. intros H. unfold s32. Z.div_mod_to_equations. lia. Qed.

Lemma run_ticks_high n : forall k c p t,
  handler k c p -> p_priority p = 1 -> p_timecpu p = s32 t -> 1 <= t -> t + Z.of_nat n <= 2 ^ 32 ->
  exists k', run_ticks n c k = Ok tt k' /\ handler k' c (set_p_timecpu (s32 (t + Z.of_nat n)) p).
Proof.
  induction n as [|n IH]; intros k c p t H E1 E2 Ht Hn; cbn [run_ticks].
  - exists k. rewrite Z.add_0_r, <- E2. split; [done|]. now destruct p.
  - destruct (slice_continues k c p 1 (s32 (t + 1)) H) as (k1 & R & _ & _ & H1).
    { unfold tick. rewrite E1, E2, s32_s32_succ, (proj2 (Z.eqb_neq (s32 (t + 1)) 1)) by (apply s32_succ_ne; lia). done. }
    destruct (IH k1 c _ (t + 1) H1) as (k2 & R2 & H2); [done|done|lia|lia|].
    exists k2. split; [mok R; exact R2|]. replace (t + Z.of_nat (S n)) with (t + 1 + Z.of_nat n) by lia.
    exact H2.
Qed.

(** C40.  Raising the priority can take a process out of the time slicing.  A process of the low
    priority that has used one tick and calls [sys_increasepriority] is not preempted by any of the
    following clock ticks, until the tick counter has wrapped around after 2^32 - 1 of them: its
    counter has passed the 1 at which a process of the high priority yields. *)
Theorem raised_process_keeps_cpu k c p n :
  handler k c p -> p_priority p = 0 -> p_timecpu p = 1 -> Z.of_nat n < 2 ^ 32 ->
  exists k' p', (sys_increasepriority ;; run_ticks n c) k = Ok tt k' /\ handler k' c p' /\ p_state p' = p_state p.
Proof.
  intros H E1 E2 Hn. unfold sys_increasepriority, curproc, getproc. rewrite bind_assoc by exact I. mred.
  rewrite (hd_cur _ _ _ H). change (default 0%nat (Some c)) with c. rewrite bind_assoc by exact I. mred.
  rewrite (list_lookup_total_correct _ _ _ (hd_proc _ _ _ H)), E1. unfold when. cbn [Z.eqb].
  destruct (cprintf_run "Priority has increased from 0 to 1 for process %s
" [KStr (Some (cstr (p_name p)))] k) as (log & crt & pos & R & Hs).
  { apply (hd_screen _ _ _ H). } { right. split; [apply (hd_cons _ _ _ H)|apply (hd_cpu _ _ _ H)]. }
  set (k1 := with_console log crt pos k) in *. set (p1 := set_p_priority 1 p).
  set (k2 := set_ptable (<[c := p1]> (ptable k1)) k1).
  assert (R2 : (cprintf "Priority has increased from 0 to 1 for process %s
" [KStr (Some (cstr (p_name p)))] ;; updproc c (set_p_priority 1)) k = Ok tt k2).
  { mok R. unfold updproc, modify. now rewrite (alter_set _ _ _ _ (hd_proc _ _ _ H)). }
  rewrite bind_assoc by (unfold returns; now rewrite R2). mok R2. rewrite bind_assoc by exact I. mred.
  assert (H2 : handler k2 c p1).
  { destruct H as [G1 G2 G3 G4 G5 G6]. split; try done. apply list_lookup_insert_eq. now apply lookup_lt_Some in G6. }
  destruct (run_ticks_high n k2 c p1 1 H2) as (k3 & R3 & H3); [done|done|lia|lia|].
  exists k3, (set_p_timecpu (s32 (1 + Z.of_nat n)) p1). now split_and!.
Qed.

Lemma raised_process_keeps_cpu_witness :
  exists k', (sys_increasepriority ;; run_ticks 1000 0) (ex_running 1) = Ok tt k'.
Proof.
  destruct (raised_process_keeps_cpu (ex_running 1) 0 _ 1000 (ex_running_handler 1)) as (k' & p' & R & _); try reflexivity.
  now exists k'.
Defined.
