(* ===== verification/Mp.v ===== *)
(** * Multiprocessor configuration (mp.c, mp.h)

    The search for the MP structures in memory and the loop over the configuration
    table.  [m] is memory, by kernel address. *)

From S2P Require Import Prelude State CMem Spinlock Console Strings Devices.

(** The bytes [memcmp] compares with the first four characters of a string. *)
Definition has_signature (m : gmap Z Z) (a : Z) (s : string) : bool :=
  bool_decide ((fun i => load8 m (a + Z.of_nat i)) <$> seq 0 4 = str s).

Fixpoint sum_loop (n : nat) (m : gmap Z Z) (addr s : Z) : Z :=
  match n with
  | O => s
  | S n' => sum_loop n' m (addr + 1) (s + load8 m addr)
  end.

Definition sum (m : gmap Z Z) (addr len : Z) : Z := u8 (sum_loop (Z.to_nat len) m addr 0).

(** [sizeof(struct mp)] *)
Definition MP : Z := 16.

Fixpoint mpsearch_loop (n : nat) (m : gmap Z Z) (p : Z) : Z :=
  match n with
  | O => 0
  | S n' =>
      if has_signature m p "_MP_" && (sum m p MP =? 0) then p
      else mpsearch_loop n' m (p + MP)
  end.

(** [len] is a multiple of [sizeof(struct mp)]. *)
Definition mpsearch1 (m : gmap Z Z) (a len : Z) : Z := mpsearch_loop (Z.to_nat (len / MP)) m (P2V a).

Definition mpsearch (m : gmap Z Z) : Z :=
  let bda := P2V 0x400 in
  let p := Z.shiftl (Z.lor (Z.shiftl (load8 m (bda + 0x0F)) 8) (load8 m (bda + 0x0E))) 4 in
  let mp :=
    if negb (p =? 0) then mpsearch1 m p 1024
    else
      let p := Z.lor (Z.shiftl (load8 m (bda + 0x14)) 8) (load8 m (bda + 0x13)) * 1024 in
      mpsearch1 m (u32 (p - 1024)) 1024 in
  if negb (mp =? 0) then mp else mpsearch1 m 0xF0000 0x10000.

(** The fields of [struct mp] and [struct mpconf]. *)
Definition mp_physaddr (m : gmap Z Z) (mp : Z) : Z := load32 m (mp + 4).
Definition mp_imcrp (m : gmap Z Z) (mp : Z) : Z := load8 m (mp + 12).
Definition conf_length (m : gmap Z Z) (c : Z) : Z := load8 m (c + 4) + 2 ^ 8 * load8 m (c + 5).
Definition conf_version (m : gmap Z Z) (c : Z) : Z := load8 m (c + 6).
Definition conf_lapicaddr (m : gmap Z Z) (c : Z) : Z := load32 m (c + 36).

(** The configuration table and the MP structure, or [None] for 0. *)
Definition mpconfig (m : gmap Z Z) : option (Z * Z) :=
  let mp := mpsearch m in
  if (mp =? 0) || (mp_physaddr m mp =? 0) then None else
  let conf := P2V (mp_physaddr m mp) in
  if negb (has_signature m conf "PCMP") then None
  else if negb (conf_version m conf =? 1) && negb (conf_version m conf =? 4) then None
  else if negb (sum m conf (conf_length m conf) =? 0) then None
  else Some (conf, mp).

(** The variables [mpinit] sets; [cpus[i].id] is [i] for every processor found. *)
Record mpstate : Type := mkMp { mp_ismp : Z; mp_ncpu : Z; mp_lapic : Z; mp_ioapicid : Z }.

Definition MPPROC : Z := 0.
Definition MPBUS : Z := 1.
Definition MPIOAPIC : Z := 2.
Definition MPIOINTR : Z := 3.
Definition MPLINTR : Z := 4.

(** One round of the loop at [p]: the new state and the next [p].  [sizeof(struct
    mpproc)] is 20, [sizeof(struct mpioapic)] is 8. *)
Definition mp_entry (p : Z) (s : mpstate) : K (mpstate * Z) :=
  m <- gets k_mem ;;
  let t := load8 m p in
  if t =? MPPROC then
    let apicid := load8 m (p + 1) in
    s <-
      (if negb (mp_ncpu s =? apicid) then
         cprintf "mpinit: ncpu=%d apicid=%d
" [KInt (mp_ncpu s); KInt apicid] ;;
         ret (mkMp 0 (mp_ncpu s) (mp_lapic s) (mp_ioapicid s))
       else ret s) ;;
    if NCPU <=? mp_ncpu s then out_of_bounds else
    ret (mkMp (mp_ismp s) (mp_ncpu s + 1) (mp_lapic s) (mp_ioapicid s), p + 20)
  else if t =? MPIOAPIC then
    ret (mkMp (mp_ismp s) (mp_ncpu s) (mp_lapic s) (load8 m (p + 1)), p + 8)
  else if (t =? MPBUS) || (t =? MPIOINTR) || (t =? MPLINTR) then ret (s, p + 8)
  else
    cprintf "mpinit: unknown config type %x
" [KInt t] ;;
    ret (mkMp 0 (mp_ncpu s) (mp_lapic s) (mp_ioapicid s), p).

Fixpoint mpinit_loop (fuel : nat) (p e : Z) (s : mpstate) : K mpstate :=
  if p <? e then
    match fuel with
    | O => out_of_fuel
    | S fuel' =>
        r <- mp_entry p s ;;
        mpinit_loop fuel' (snd r) e (fst r)
    end
  else ret s.

(** The size of the table header, [sizeof(struct mpconf)]. *)
Definition MPCONF : Z := 44.

(** [imcr] is what port 0x23 gives and [regs] are the registers of the local APIC.
    A table of known entries has at most [conf_length / 8] of them. *)
Definition mpinit (imcr : Z) (regs : gmap Z Z) (s : mpstate) : K mpstate :=
  m <- gets k_mem ;;
  match mpconfig m with
  | None => ret s
  | Some (conf, mp) =>
      let s := mkMp 1 (mp_ncpu s) (conf_lapicaddr m conf) (mp_ioapicid s) in
      s <- mpinit_loop (Z.to_nat (conf_length m conf)) (conf + MPCONF) (conf + conf_length m conf) s ;;
      if mp_ismp s =? 0 then
        modify (set_k_ismp 0) ;;
        modify (set_k_lapic None) ;;
        ret (mkMp 0 1 0 0)
      else
        modify (set_k_ismp 1) ;;
        modify (set_k_lapic (if mp_lapic s =? 0 then None else Some regs)) ;;
        when (negb (mp_imcrp m mp =? 0))
          (outb 0x22 0x70 ;;
           outb 0x23 (Z.lor imcr 1)) ;;
        ret s
  end.
