(* ===== verification/Main.v ===== *)
(** * Start-up (main.c, bootmain.c)

    The boot loader, and [main] with the calls it makes in order. *)

From S2P Require Import Prelude State CMem Strings Spinlock Console Mmu Kalloc Vm VmUser VmCopy Sched Bio Bytes Log Inode Devices ConsoleIO Fs File Proc Exec Sysarg Sysfile Syscall Trap Mp.

(** ** bootmain.c *)

Module Boot.
Section Boot.
(** The sectors of the boot disk; sector 0 is the boot block itself. *)
Variable disk : Z -> list Z.

Definition SECTSIZE : Z := 512.

(** The data read by [insl] from sector [offset]. *)
Definition readsect (m : gmap Z Z) (dst offset : Z) : gmap Z Z := store_bytes m dst (disk offset).

(** The loop, with [n] sectors left. *)
Fixpoint readseg_loop (n : nat) (m : gmap Z Z) (pa offset : Z) : gmap Z Z :=
  match n with
  | O => m
  | S n' => readseg_loop n' (readsect m pa offset) (pa + SECTSIZE) (offset + 1)
  end.

Definition readseg (m : gmap Z Z) (pa count offset : Z) : gmap Z Z :=
  let epa := pa + count in
  let pa := pa - offset mod SECTSIZE in
  let offset := offset / SECTSIZE + 1 in
  readseg_loop (Z.to_nat ((epa - pa + SECTSIZE - 1) / SECTSIZE)) m pa offset.

(** The loop over the program headers, with [n] of them left, the next at [ph]. *)
Fixpoint bootmain_loop (n : nat) (m : gmap Z Z) (ph : Z) : gmap Z Z :=
  match n with
  | O => m
  | S n' =>
      let off := load32 m (ph + 4) in
      let pa := load32 m (ph + 12) in
      let filesz := load32 m (ph + 16) in
      let m1 := readseg m pa filesz off in
      let filesz := load32 m1 (ph + 16) in
      let memsz := load32 m1 (ph + 20) in
      let m2 := if filesz <? memsz then stosb m1 (pa + filesz) 0 (Z.to_nat (memsz - filesz)) else m1 in
      bootmain_loop n' m2 (ph + PROGHDR)
  end.

(** The memory and the entry point, or [None] when the image is not an ELF file. *)
Definition bootmain (m : gmap Z Z) : option (gmap Z Z * Z) :=
  let elf := 0x10000 in
  let m := readseg m elf 4096 0 in
  if negb (load32 m elf =? ELF_MAGIC) then None else
  let phoff := load32 m (elf + 28) in
  let phnum := load8 m (elf + 44) + 2 ^ 8 * load8 m (elf + 45) in
  let m := bootmain_loop (Z.to_nat phnum) m (elf + phoff) in
  Some (m, load32 m (elf + 24)).
End Boot.
End Boot.

(** ** main.c *)

(** What the hardware and the linker give [main]. *)
Record machine : Type := mkMachine {
  hw_imcr : Z;                 (* port 0x23 *)
  hw_lapic : gmap Z Z;         (* the local APIC's registers *)
  hw_uart : Z;                 (* the status port of the serial line *)
  hw_vectors : Z -> Z;         (* vectors.S *)
  sym_entryother : list Z;     (* the image of entryother.S *)
  sym_fs_img : list (list Z);  (* fs.img, block by block *)
  sym_mpenter : Z;
  sym_entrypgdir : Z
}.

(** lapic.c: start the CPU with the given APIC id at [addr]. *)
Definition lapicstartap (apicid addr : Z) : K unit :=
  outb 0x70 0xF ;;
  outb 0x71 0x0A ;;
  let wrv := P2V (Z.lor (Z.shiftl 0x40 4) 0x67) in
  updmem (fun m => store_bytes m wrv [0; 0]) ;;
  updmem (fun m => store_bytes m (wrv + 2) (le16 (Z.shiftr addr 4))) ;;
  lapicw ICRHI (Z.shiftl apicid 24) ;;
  lapicw ICRLO (Z.lor (Z.lor INIT LEVEL) ASSERT) ;;
  lapicw ICRLO (Z.lor INIT LEVEL) ;;
  lapicw ICRHI (Z.shiftl apicid 24) ;;
  lapicw ICRLO (Z.lor STARTUP (Z.shiftr addr 12)) ;;
  lapicw ICRHI (Z.shiftl apicid 24) ;;
  lapicw ICRLO (Z.lor STARTUP (Z.shiftr addr 12)).

(** The loop over the CPUs from [c] on, with [n] of them left.  [kalloc] is not
    checked: with no page left the CPU gets the stack at address 4096. *)
Fixpoint startothers_loop (n : nat) (hw : machine) (c : Z) : K unit :=
  match n with
  | O => ret tt
  | S n' =>
      id <- gets (fun k => cpu_id (k_cpu k)) ;;
      (if c =? Z.of_nat id then ret tt
       else
         let code := P2V 0x7000 in
         stack <- kalloc ;;
         updmem (fun m => store32 m (code - 4) (u32 (stack + KSTACKSIZE))) ;;
         updmem (fun m => store32 m (code - 8) (sym_mpenter hw)) ;;
         updmem (fun m => store32 m (code - 12) (V2P (sym_entrypgdir hw))) ;;
         lapicstartap c (V2P code) ;;
         block (WStarted c)) ;;
      startothers_loop n' hw (c + 1)
  end.

Definition startothers (hw : machine) (ncpu : Z) : K unit :=
  updmem (fun m => store_bytes m (P2V 0x7000) (sym_entryother hw)) ;;
  startothers_loop (Z.to_nat ncpu) hw 0.

(** [rounds] is how many rounds of the scheduler the model runs. *)
Definition mpmain (rounds : nat) : K unit :=
  id <- gets (fun k => cpu_id (k_cpu k)) ;;
  cprintf "cpu%d: starting
" [KInt (Z.of_nat id)] ;;
  scheduler rounds.

Definition mpenter (rounds : nat) : K unit :=
  switchkvm ;;
  seginit ;;
  lapicinit ;;
  mpmain rounds.

Definition main (hw : machine) (rounds : nat) : K unit :=
  lnk <- gets k_link ;;
  kinit1 (sym_end lnk) (P2V (4 * 1024 * 1024)) ;;
  kvmalloc ;;
  mp <- mpinit (hw_imcr hw) (hw_lapic hw) (mkMp 0 0 0 0) ;;
  lapicinit ;;
  seginit ;;
  id <- gets (fun k => cpu_id (k_cpu k)) ;;
  cprintf "
cpu%d: starting xv6

" [KInt (Z.of_nat id)] ;;
  picinit ;;
  ioapicinit (mp_ioapicid mp) ;;
  consoleinit ;;
  uartinit (hw_uart hw) ;;
  pinit ;;
  tvinit (hw_vectors hw) ;;
  binit ;;
  fileinit ;;
  ideinit (sym_fs_img hw) ;;
  (if mp_ismp mp =? 0 then timerinit else ret tt) ;;
  startothers hw (mp_ncpu mp) ;;
  kinit2 (P2V (4 * 1024 * 1024)) (P2V PHYSTOP) ;;
  userinit ;;
  mpmain rounds.
