(* ===== verification/User.v ===== *)
(** * User programs and their C library (user.h, ulib.c, printf.c)

    A user program computes on its own memory and makes system calls.  It is
    modelled as a tree: a node is a system call with one branch per answer of
    the kernel, a leaf is a return value or [exit].  The kernel is a function
    [os] that answers the calls in a state [W]; the theorems on programs hold
    for every [os] with the documented behaviour of the calls they make. *)

From S2P Require Import Prelude Strings Bytes Inode.

(** ** System calls

    [call R] is a system call whose effect on the caller is a value of type
    [R]: the return value, with what the kernel stored through pointers.  The last
    constructors are what usertests.c does to provoke the kernel. *)
Inductive call : Type -> Type :=
| Fork : call Z
| Wait : call Z
| Pipe : call (Z * Z * Z)                       (* return value, p[0], p[1] *)
| Write (fd : Z) (bs : list Z) : call Z
| Read (fd n : Z) : call (Z * list Z)           (* return value, bytes stored *)
| Close (fd : Z) : call Z
| Kill (pid : Z) : call Z
| Exec (path : list Z) (argv : list (list Z)) : call Z
| Open (path : list Z) (mode : Z) : call Z
| Mknod (path : list Z) (major minor : Z) : call Z
| Unlink (path : list Z) : call Z
| Fstat (fd : Z) : call (Z * stat)
| Link (old new : list Z) : call Z
| Mkdir (path : list Z) : call Z
| Chdir (path : list Z) : call Z
| Dup (fd : Z) : call Z
| Getpid : call Z
| Sbrk (n : Z) : call Z
| Sleep (n : Z) : call Z
| Uptime : call Z
| Getcount : call Z
| Getprocessinfo : call Z
| Increasepriority : call Z
(* Instructions the machine can refuse, and calls with pointers outside the program. *)
| Load (a : Z) : call Z                         (* the byte at address [a] *)
| Store (a v : Z) : call unit
| InPort (port : Z) : call Z
| OutPort (port v : Z) : call unit
| SleepAt (sp : Z) : call Z                     (* sleep with the stack at [sp] *)
| LinkAt (old : list Z) (new : Z) : call Z.     (* link with the pointer [new] *)

Inductive prog (A : Type) : Type :=
| Ret (a : A)
| Exit
| Call {R : Type} (c : call R) (k : R -> prog A)
| Spin.                            (* the bound on a loop was too small *)
Arguments Ret {A} a.
Arguments Exit {A}.
Arguments Call {A R} c k.
Arguments Spin {A}.

Fixpoint pbind {A B} (p : prog A) (f : A -> prog B) : prog B :=
  match p with
  | Ret a => f a
  | Exit => Exit
  | Call c k => Call c (fun r => pbind (k r) f)
  | Spin => Spin
  end.

Declare Scope user_scope.
Delimit Scope user_scope with user.
Notation "x <- p ;; q" := (pbind p (fun x => q))
  (at level 100, p at next level, q at level 200, right associativity) : user_scope.
Notation "p ;; q" := (pbind p (fun _ => q))
  (at level 100, q at level 200, right associativity) : user_scope.
#[global] Open Scope user_scope.

Definition sys {R} (c : call R) : prog R := Call c Ret.

(** ** Running a program *)

(** How a program ends: [main] returned, [exit], a call that does not come back
    (a successful [exec]), or a loop bound of the model. *)
Inductive result (W A : Type) : Type :=
| Returned (a : A) (w : W)
| Exited (w : W)
| Replaced (w : W)
| Spun.
Arguments Returned {W A} a w.
Arguments Exited {W A} w.
Arguments Replaced {W A} w.
Arguments Spun {W A}.

(** The kernel's answer to a call: [None] when the call does not return. *)
Definition kernel_fn (W : Type) : Type := forall R, call R -> W -> option R * W.

Section Run.
Context {W : Type} (os : kernel_fn W).

Fixpoint run {A} (p : prog A) (w : W) : result W A :=
  match p with
  | Ret a => Returned a w
  | Exit => Exited w
  | Call c k =>
      match os _ c w with
      | (Some r, w') => run (k r) w'
      | (None, w') => Replaced w'
      end
  | Spin => Spun
  end.

Definition and_then {A B} (r : result W A) (f : A -> W -> result W B) : result W B :=
  match r with
  | Returned a w => f a w
  | Exited w => Exited w
  | Replaced w => Replaced w
  | Spun => Spun
  end.

Lemma run_bind {A B} (p : prog A) (f : A -> prog B) w :
  run (pbind p f) w = and_then (run p w) (fun a => run (f a)).
Proof.
  revert w. induction p as [a| |R c k IH|]; intros w; cbn; try done.
  destruct (os R c w) as [[r|] w']; [apply IH|done].
Qed.

Lemma run_returned {A B} (p : prog A) (f : A -> prog B) w a w' :
  run p w = Returned a w' -> run (pbind p f) w = run (f a) w'.
Proof. intros H. now rewrite run_bind, H. Qed.

Lemma run_sys {R B} (c : call R) (f : R -> prog B) w r w' :
  os R c w = (Some r, w') -> run (pbind (sys c) f) w = run (f r) w'.
Proof. intros H. cbn. now rewrite H. Qed.
End Run.

(** ** ulib.c

    A [char*] is the list of bytes from the pointer on: to the end of its
    array, or the characters of the string alone.  The end of the list acts as
    the terminating NUL. *)
Module Ulib.

(** The bytes of [t] up to and with its NUL, stored from offset [o] of the array
    [s] on. *)
Fixpoint strcpy (s : list Z) (o : nat) (t : list Z) : list Z :=
  match t with
  | [] => <[o := 0]> s
  | c :: t' => if c =? 0 then <[o := 0]> s else strcpy (<[o := c]> s) (S o) t'
  end.

Fixpoint strcmp (p q : list Z) : Z :=
  let cp := default 0 (head p) in
  let cq := default 0 (head q) in
  match p with
  | [] => cp - cq
  | _ :: p' =>
      if negb (cp =? 0) && (cp =? cq) then strcmp p' (tail q) else cp - cq
  end.

Fixpoint strlen (s : list Z) : nat :=
  match s with
  | [] => O
  | c :: s' => if c =? 0 then O else S (strlen s')
  end.

(** [stosb(dst, c, n)] into an array, from offset [o] on. *)
Fixpoint memset (s : list Z) (o : nat) (c : Z) (n : nat) : list Z :=
  match n with
  | O => s
  | S n' => memset (<[o := u8 c]> s) (S o) c n'
  end.

(** The offset of the first [c] in the string, [None] for the null pointer. *)
Fixpoint strchr (s : list Z) (c : Z) : option nat :=
  match s with
  | [] => None
  | x :: s' =>
      if x =? 0 then None else if x =? c then Some O else S <$> strchr s' c
  end.

(** The loop of [gets]: [n] is the number of characters it may still store.  The
    result is the characters stored; the NUL goes after them. *)
Fixpoint gets_loop (n : nat) (acc : list Z) : prog (list Z) :=
  match n with
  | O => Ret acc
  | S n' =>
      r <- sys (Read 0 1) ;;
      let '(cc, bs) := r in
      if cc <? 1 then Ret acc
      else
        let c := default 0 (head bs) in
        let acc := acc ++ [c] in
        if (c =? 10) || (c =? 13) then Ret acc else gets_loop n' acc
  end.

(** [gets(buf, max)]: the new contents of the array. *)
Definition gets (buf : list Z) (max : Z) : prog (list Z) :=
  l <- gets_loop (Z.to_nat (max - 1)) [] ;;
  Ret (put buf 0 (l ++ [0])).

Definition stat (n : list Z) : prog (Z * option Inode.stat) :=
  fd <- sys (Open n 0) ;;
  if fd <? 0 then Ret (-1, None)
  else
    r <- sys (Fstat fd) ;;
    let '(r, st) := r in
    sys (Close fd) ;;
    Ret (r, Some st).

Fixpoint atoi_loop (s : list Z) (n : Z) : Z :=
  match s with
  | [] => n
  | c :: s' =>
      if (48 <=? c) && (c <=? 57) then atoi_loop s' (s32 (n * 10 + c - 48)) else n
  end.

Definition atoi (s : list Z) : Z := atoi_loop s 0.

(** The copy from the lowest byte up, inside one array. *)
Fixpoint memmove (l : list Z) (dst src n : nat) : list Z :=
  match n with
  | O => l
  | S n' => memmove (<[dst := l !!! src]> l) (S dst) (S src) n'
  end.

Lemma strchr_none s c : is_str s -> strchr s c = None <-> c ∉ s.
Proof.
  induction s as [|x s IH]; intros Hs.
  { split; [intros _; apply not_elem_of_nil | done]. }
  apply Forall_cons in Hs as [Hx Hs]. rewrite not_elem_of_cons. cbn [strchr].
  rewrite (proj2 (Z.eqb_neq x 0)) by lia.
  destruct (Z.eqb_spec x c) as [->|Hne]; [split; [done | now intros [? _]]|].
  rewrite fmap_None, (IH Hs). split; [intros H; split; [congruence|done] | now intros [_ H]].
Qed.
End Ulib.

(** ** printf.c *)
Module Printf.

Definition putc (fd c : Z) : prog unit := sys (Write fd [u8 c]) ;; Ret tt.

Definition digits : list Z := str "0123456789ABCDEF".

(** The do-while loop: the digits stored in [buf], least significant first. *)
Fixpoint printint_loop (fuel : nat) (x base : Z) : list Z :=
  match fuel with
  | O => []
  | S fuel' =>
      (digits !!! Z.to_nat (x mod base)) ::
      (if x / base =? 0 then [] else printint_loop fuel' (x / base) base)
  end.

(** [while(--i >= 0) putc(fd, buf[i]);] prints the buffer from its end. *)
Fixpoint puts (fd : Z) (cs : list Z) : prog unit :=
  match cs with
  | [] => Ret tt
  | c :: cs' => putc fd c ;; puts fd cs'
  end.

Definition printint (fd xx base : Z) (sgn : bool) : prog unit :=
  let neg := sgn && (xx <? 0) in
  let x := u32 (if neg then - xx else xx) in
  let buf := printint_loop 32 x base ++ (if neg then [45] else []) in
  puts fd (reverse buf).

(** A word of the argument list, and the string at that address when it is a
    pointer to one. *)
Record arg : Type := mkArg { word : Z; pointee : list Z }.

(** The loop over the format with its [state]: [ap] counts the arguments used,
    [args] is the argument words on the stack. *)
Fixpoint printf_loop (fd : Z) (fmt : list Z) (pct : bool) (args : nat -> arg) (ap : nat) : prog unit :=
  match fmt with
  | [] => Ret tt
  | c :: fmt' =>
      if c =? 0 then Ret tt
      else if negb pct then
        if c =? 37 then printf_loop fd fmt' true args ap
        else putc fd c ;; printf_loop fd fmt' false args ap
      else if c =? 100 then
        printint fd (s32 (word (args ap))) 10 true ;; printf_loop fd fmt' false args (S ap)
      else if (c =? 120) || (c =? 112) then
        printint fd (s32 (word (args ap))) 16 false ;; printf_loop fd fmt' false args (S ap)
      else if c =? 115 then
        puts fd (cstr (if word (args ap) =? 0 then str "(null)" else pointee (args ap))) ;;
        printf_loop fd fmt' false args (S ap)
      else if c =? 99 then
        putc fd (word (args ap)) ;; printf_loop fd fmt' false args (S ap)
      else if c =? 37 then putc fd c ;; printf_loop fd fmt' false args ap
      else putc fd 37 ;; putc fd c ;; printf_loop fd fmt' false args ap
  end.

Definition printf (fd : Z) (fmt : list Z) (args : nat -> arg) : prog unit :=
  printf_loop fd fmt false args O.
End Printf.
Import Printf.

(** A call of [printf] as the programs write it: a literal format and the
    arguments it uses.  A string argument is a pointer that is not null. *)
Definition Int (z : Z) : arg := mkArg z [].
Definition Ptr (s : list Z) : arg := mkArg 1 s.
Definition print (fd : Z) (fmt : string) (args : list arg) : prog unit :=
  printf fd (str fmt) (fun i => default (Int 0) (args !! i)).

(** ** Reading and writing byte streams

    What programs rely on when they read and write: [pending w fd] is what is
    still to be read from [fd], [output w fd] what has been written to it.  A
    read of [n] bytes takes some of the pending bytes, at most [n] and at least
    one unless none is left, when it returns 0; a write writes all its bytes. *)
Class Stdio {W : Type} (os : kernel_fn W) := {
  pending : W -> Z -> list Z;
  output : W -> Z -> list Z;
  read_law : forall w fd n, 0 < n -> exists bs rest w',
    os _ (Read fd n) w = (Some (Z.of_nat (length bs), bs), w') /\
    pending w fd = bs ++ rest /\ Z.of_nat (length bs) <= n /\ (bs = [] -> rest = []) /\
    (forall fd', pending w' fd' = if decide (fd' = fd) then rest else pending w fd') /\
    output w' = output w;
  write_law : forall w fd bs, exists w',
    os _ (Write fd bs) w = (Some (Z.of_nat (length bs)), w') /\
    pending w' = pending w /\
    forall fd', output w' fd' = if decide (fd' = fd) then output w fd' ++ bs else output w fd' }.

(** The text [printf] prints. *)
Definition int_text (xx base : Z) (sgn : bool) : list Z :=
  let neg := sgn && (xx <? 0) in
  (if neg then [45] else []) ++
  reverse (printint_loop 32 (u32 (if neg then - xx else xx)) base).

Fixpoint text (fmt : list Z) (args : list arg) : list Z :=
  match fmt with
  | [] => []
  | c :: fmt' =>
      if negb (c =? 37) then c :: text fmt' args else
      match fmt' with
      | [] => []
      | c :: fmt'' =>
          let a := default (Int 0) (head args) in
          if c =? 100 then int_text (s32 (word a)) 10 true ++ text fmt'' (tail args)
          else if (c =? 120) || (c =? 112) then
            int_text (s32 (word a)) 16 false ++ text fmt'' (tail args)
          else if c =? 115 then
            cstr (if word a =? 0 then str "(null)" else pointee a) ++ text fmt'' (tail args)
          else if c =? 99 then [u8 (word a)] ++ text fmt'' (tail args)
          else if c =? 37 then [37] ++ text fmt'' args
          else [37; c] ++ text fmt'' args
      end
  end.

Section Streams.
Context {W : Type} (os : kernel_fn W) `{!Stdio os}.

(** The state after [bs] went to [fd] and nothing else happened. *)
Definition wrote (w : W) (fd : Z) (bs : list Z) (w' : W) : Prop :=
  pending w' = pending w /\
  forall fd', output w' fd' = if decide (fd' = fd) then output w fd' ++ bs else output w fd'.

Lemma output_nil w fd : wrote w fd [] w.
Proof. split; [done|]. intros fd'. rewrite app_nil_r. now case_decide. Qed.

Lemma output_app w fd a b w1 w2 : wrote w fd a w1 -> wrote w1 fd b w2 -> wrote w fd (a ++ b) w2.
Proof.
  intros [P1 O1] [P2 O2]. split; [congruence|]. intros fd'. rewrite O2, O1.
  case_decide; [now rewrite app_assoc|done].
Qed.

Lemma putc_run fd c w : exists w', run os (putc fd c) w = Returned tt w' /\ wrote w fd [u8 c] w'.
Proof.
  destruct (write_law w fd [u8 c]) as (w' & E & P & O). exists w'. split; [|now split].
  unfold putc. now rewrite (run_sys os _ _ _ _ _ E).
Qed.

Lemma puts_run fd cs : forall w, bytes_ok cs ->
  exists w', run os (puts fd cs) w = Returned tt w' /\ wrote w fd cs w'.
Proof.
  induction cs as [|c cs IH]; intros w Hb.
  - exists w. split; [done | apply output_nil].
  - apply Forall_cons in Hb as [Hc Hb]. destruct (putc_run fd c w) as (w1 & R1 & O1).
    destruct (IH w1 Hb) as (w2 & R2 & O2). exists w2. split.
    + cbn [puts]. now rewrite (run_returned os _ _ _ _ _ R1).
    + rewrite u8_small in O1 by lia. exact (output_app _ _ [c] _ _ _ O1 O2).
Qed.

Lemma printint_loop_ok fuel : forall x base, 2 <= base <= 16 -> bytes_ok (printint_loop fuel x base).
Proof.
  induction fuel as [|fuel IH]; intros x base Hb; cbn [printint_loop]; [apply Forall_nil_2|].
  constructor.
  - assert (forall i, (i < 16)%nat -> 0 <= digits !!! i < 256) as D.
    { intros i Hi. do 16 (destruct i as [|i]; [vm_compute; split; congruence|]). lia. }
    apply D. pose proof (Z.mod_pos_bound x base). lia.
  - destruct (_ =? 0); [apply Forall_nil_2 | now apply IH].
Qed.

Lemma printint_run fd xx base sgn w : 2 <= base <= 16 ->
  exists w', run os (printint fd xx base sgn) w = Returned tt w' /\
    wrote w fd (int_text xx base sgn) w'.
Proof.
  intros Hb. unfold printint, int_text. rewrite reverse_app.
  destruct (sgn && (xx <? 0)); apply puts_run, Forall_app;
    (split; [repeat constructor; lia | apply Forall_reverse, printint_loop_ok; lia]).
Qed.

Lemma cstr_ok l : bytes_ok l -> bytes_ok (cstr l).
Proof.
  intros H. apply cstr_is_str in H. eapply Forall_impl; [exact H|]. cbn. lia.
Qed.

Lemma cstr_id s : is_str s -> cstr s = s.
Proof.
  induction s as [|c s IH]; intros Hs; [done|]. apply Forall_cons in Hs as [Hc Hs]. cbn.
  rewrite (proj2 (Z.eqb_neq c 0)) by lia. now rewrite IH.
Qed.

Lemma bytes_ok_str s : bytes_ok (str s).
Proof.
  unfold str. apply Forall_fmap, Forall_forall. intros a _. cbn.
  pose proof (Ascii.N_ascii_bounded a). lia.
Qed.

Lemma tail_drop_S {A} n (l : list A) : tail (drop n l) = drop (S n) l.
Proof.
  revert l. induction n as [|n IH]; intros [|x l]; try done. exact (IH l).
Qed.

(** [printf] prints the text of its format. *)
Definition args_ok (args : list arg) : Prop := Forall (fun a => bytes_ok (pointee a)) args.

Lemma printf_loop_run fd args : forall n fmt ap w,
  (length fmt < n)%nat -> is_str fmt -> args_ok args ->
  exists w', run os (printf_loop fd fmt false (fun i => default (Int 0) (args !! i)) ap) w
      = Returned tt w' /\ wrote w fd (text fmt (drop ap args)) w'.
Proof.
  induction n as [|n IH]; intros fmt ap w Hn Hs Ha; [lia|].
  destruct fmt as [|c fmt].
  { exists w. split; [done|apply output_nil]. }
  apply Forall_cons in Hs as [Hc Hs]. cbn [length] in Hn. cbn [printf_loop text].
  rewrite (proj2 (Z.eqb_neq c 0)) by lia. cbn [negb].
  (* a call that prints [a], then the rest of the format *)
  assert (step : forall w p a fmt' ap', (length fmt' < n)%nat -> is_str fmt' ->
    (forall w, exists w', run os p w = Returned tt w' /\ wrote w fd a w') ->
    exists w', run os (p ;; printf_loop fd fmt' false (fun i => default (Int 0) (args !! i)) ap') w
      = Returned tt w' /\ wrote w fd (a ++ text fmt' (drop ap' args)) w').
  { clear w. intros w p a fmt' ap' Hn' Hs' Hp. destruct (Hp w) as (w1 & R1 & O1).
    destruct (IH fmt' ap' w1 Hn' Hs' Ha) as (w2 & R2 & O2). exists w2. split.
    - now rewrite (run_returned os _ _ _ _ _ R1).
    - exact (output_app _ _ _ _ _ _ O1 O2). }
  destruct (Z.eqb_spec c 37) as [->|Hne]; cbn [negb].
  2:{ apply (step w _ [c] fmt ap); [lia|done|]. intros w0.
      destruct (putc_run fd c w0) as (w' & R & O). rewrite u8_small in O by lia. eauto. }
  destruct fmt as [|c' fmt]; [exists w; split; [done|apply output_nil]|].
  apply Forall_cons in Hs as [Hc' Hs]. cbn [length] in Hn. cbn [printf_loop].
  rewrite (proj2 (Z.eqb_neq c' 0)) by lia. cbn [negb].
  replace (default (Int 0) (head (drop ap args))) with (default (Int 0) (args !! ap))
    by now rewrite head_lookup, lookup_drop, Nat.add_0_r.
  rewrite tail_drop_S. set (a := default (Int 0) (args !! ap)).
  assert (Hp : bytes_ok (pointee a)).
  { unfold a. destruct (args !! ap) eqn:E; [|apply Forall_nil_2].
    exact (Forall_lookup_1 _ _ _ _ Ha E). }
  repeat case_match.
  7:{ destruct (putc_run fd 37 w) as (w1 & R1 & O1).
      destruct (step w1 (putc fd c') [c'] fmt ap) as (w2 & R2 & O2); [lia|done| |].
      - intros w0. pose proof (putc_run fd c' w0) as P. rewrite u8_small in P by lia. exact P.
      - exists w2. rewrite (run_returned os _ _ _ _ _ R1). split; [exact R2|].
        exact (output_app _ _ [37] _ _ _ O1 O2). }
  all: (apply step; [lia|done|]); intros w0.
  1,2: apply printint_run; lia.
  - apply puts_run, cstr_ok, bytes_ok_str.
  - now apply puts_run, cstr_ok.
  - apply putc_run.
  - replace c' with 37 by lia. apply putc_run.
Qed.
Lemma print_run fd fmt args w : is_str (str fmt) -> args_ok args ->
  exists w', run os (print fd fmt args) w = Returned tt w' /\ wrote w fd (text (str fmt) args) w'.
Proof.
  intros Hs Ha. exact (printf_loop_run fd args (S (length (str fmt))) (str fmt) 0 w ltac:(lia) Hs Ha).
Qed.
End Streams.
