(* ===== verification/Utils.v ===== *)
(** * User programs: utilities (cat.c, echo.c, wc.c, ls.c, kill.c, ln.c,
      mkdir.c, rm.c, init.c, zombie.c, stressfs.c, forktest.c, lab2call.c,
      lab3info.c, lab3pri.c)

    [argv] is the list of the arguments and [argc] its length.  The loops that
    read to the end of a file, and the endless loops of init, run within a
    bound [fuel]; the theorems show which bound is enough. *)

From S2P Require Import Prelude Strings Bytes Inode User.
Import Printf.

(** [for(i = 1; i < argc; i++) body(argv[i])] *)
Fixpoint each (argv : list (list Z)) (body : list Z -> prog unit) : prog unit :=
  match argv with
  | [] => Ret tt
  | a :: argv' => body a ;; each argv' body
  end.

(** ** cat.c *)
Module Cat.

Fixpoint cat_loop (fuel : nat) (fd : Z) : prog Z :=
  match fuel with
  | O => Spin
  | S fuel' =>
      r <- sys (Read fd 512) ;;
      let '(n, buf) := r in
      if 0 <? n then sys (Write 1 (take (Z.to_nat n) buf)) ;; cat_loop fuel' fd
      else Ret n
  end.

Definition cat (fuel : nat) (fd : Z) : prog unit :=
  n <- cat_loop fuel fd ;;
  if n <? 0 then print 1 "cat: read error
" [] ;; Exit else Ret tt.

Definition main (fuel : nat) (argv : list (list Z)) : prog unit :=
  if (length argv <=? 1)%nat then cat fuel 0 ;; Exit else
  each (tail argv) (fun a =>
    fd <- sys (Open a 0) ;;
    if fd <? 0 then print 1 "cat: cannot open %s
" [Ptr a] ;; Exit else
    cat fuel fd ;; sys (Close fd) ;; Ret tt) ;;
  Exit.
End Cat.

(** ** echo.c *)
Module Echo.

Fixpoint echo_loop (args : list (list Z)) : prog unit :=
  match args with
  | [] => Ret tt
  | a :: args' =>
      print 1 "%s%s" [Ptr a; Ptr (str (if decide (args' = []) then "
" else " "))] ;;
      echo_loop args'
  end.

Definition main (argv : list (list Z)) : prog unit := echo_loop (tail argv) ;; Exit.
End Echo.

(** ** wc.c *)
Module Wc.

Record counts : Type := mkCounts { l : Z; w : Z; c : Z; inword : bool }.

Definition space : list Z := [32; 13; 9; 10; 11].

(** The body of the inner loop, for one byte of the buffer. *)
Definition count1 (st : counts) (b : Z) : counts :=
  let l' := if b =? 10 then s32 (l st + 1) else l st in
  let c' := s32 (c st + 1) in
  match Ulib.strchr space b with
  | Some _ => mkCounts l' (w st) c' false
  | None =>
      if inword st then mkCounts l' (w st) c' true
      else mkCounts l' (s32 (w st + 1)) c' true
  end.

Fixpoint wc_loop (fuel : nat) (fd : Z) (st : counts) : prog (Z * counts) :=
  match fuel with
  | O => Spin
  | S fuel' =>
      r <- sys (Read fd 512) ;;
      let '(n, buf) := r in
      if 0 <? n then wc_loop fuel' fd (fold_left count1 (take (Z.to_nat n) buf) st)
      else Ret (n, st)
  end.

Definition wc (fuel : nat) (fd : Z) (name : list Z) : prog unit :=
  r <- wc_loop fuel fd (mkCounts 0 0 0 false) ;;
  let '(n, st) := r in
  if n <? 0 then print 1 "wc: read error
" [] ;; Exit else
  print 1 "%d %d %d %s
" [Int (l st); Int (w st); Int (c st); Ptr name].

Definition main (fuel : nat) (argv : list (list Z)) : prog unit :=
  if (length argv <=? 1)%nat then wc fuel 0 [] ;; Exit else
  each (tail argv) (fun a =>
    fd <- sys (Open a 0) ;;
    if fd <? 0 then print 1 "wc: cannot open %s
" [Ptr a] ;; Exit else
    wc fuel fd a ;; sys (Close fd) ;; Ret tt) ;;
  Exit.
End Wc.

(** ** kill.c, ln.c, mkdir.c, rm.c *)
Module KillCmd.
Definition main (argv : list (list Z)) : prog unit :=
  if (length argv <? 2)%nat then print 2 "usage: kill pid...
" [] ;; Exit else
  each (tail argv) (fun a => sys (Kill (Ulib.atoi a)) ;; Ret tt) ;;
  Exit.
End KillCmd.

Module Ln.
Definition main (argv : list (list Z)) : prog unit :=
  match argv with
  | [_; old; new] =>
      r <- sys (Link old new) ;;
      (if r <? 0 then print 2 "link %s %s: failed
" [Ptr old; Ptr new] else Ret tt) ;;
      Exit
  | _ => print 2 "Usage: ln old new
" [] ;; Exit
  end.
End Ln.

(** The loops of mkdir and rm: they stop at the first failure. *)
Fixpoint until_failure (argv : list (list Z)) (c : list Z -> call Z) (msg : string) : prog unit :=
  match argv with
  | [] => Ret tt
  | a :: argv' =>
      r <- sys (c a) ;;
      if r <? 0 then print 2 msg [Ptr a] else until_failure argv' c msg
  end.

Module MkdirCmd.
Definition main (argv : list (list Z)) : prog unit :=
  if (length argv <? 2)%nat then print 2 "Usage: mkdir files...
" [] ;; Exit else
  until_failure (tail argv) Mkdir "mkdir: %s failed to create
" ;;
  Exit.
End MkdirCmd.

Module Rm.
Definition main (argv : list (list Z)) : prog unit :=
  if (length argv <? 2)%nat then print 2 "Usage: rm files...
" [] ;; Exit else
  until_failure (tail argv) Unlink "rm: %s failed to delete
" ;;
  Exit.
End Rm.

(** ** ls.c *)
Module Ls.

Definition DIRSIZ : nat := 14.

(** [for(p=path+strlen(path); p >= path && *p != '/'; p--); p++]: the offset of
    the first character after the last slash, scanning down from [i]. *)
Fixpoint after_slash (path : list Z) (i : nat) : nat :=
  if default 0 (path !! i) =? 47 then S i
  else match i with O => O | S i' => after_slash path i' end.

(** [buf] is the static buffer of [DIRSIZ+1] bytes, all 0 at first; its last
    byte is never written.  The result is the string returned. *)
Definition fmtname (path : list Z) : list Z :=
  let p := drop (after_slash path (Ulib.strlen path)) path in
  let n := Ulib.strlen p in
  if (DIRSIZ <=? n)%nat then cstr p
  else
    let buf := put (replicate (S DIRSIZ) 0) 0 (take n p) in
    cstr (Ulib.memset buf n 32 (DIRSIZ - n)).

Definition entry_line (name : list Z) (st : stat) : prog unit :=
  print 1 "%s %d %d %d
" [Ptr (fmtname name); Int (st_type st); Int (st_ino st); Int (st_size st)].

(** The loop over the directory: the path prefix is in [buf], [p] is the offset
    after its slash. *)
Fixpoint ls_loop (fuel : nat) (fd : Z) (buf : list Z) (p : nat) (st : stat) : prog unit :=
  match fuel with
  | O => Spin
  | S fuel' =>
      r <- sys (Read fd 16) ;;
      let '(n, de) := r in
      if negb (n =? 16) then Ret tt
      else if ld16 de 0 =? 0 then ls_loop fuel' fd buf p st
      else
        let buf := put buf (Z.of_nat p) (slice de 2 14) in
        let buf := <[(p + DIRSIZ)%nat := 0]> buf in
        r <- Ulib.stat (cstr buf) ;;
        let '(r, o) := r in
        let st := default st o in
        if r <? 0 then
          print 1 "ls: cannot stat %s
" [Ptr (cstr buf)] ;;
          ls_loop fuel' fd buf p st
        else
          entry_line (cstr buf) st ;;
          ls_loop fuel' fd buf p st
  end.

(** [buf] is the uninitialised local array. *)
Definition ls (fuel : nat) (buf : list Z) (path : list Z) : prog unit :=
  fd <- sys (Open path 0) ;;
  if fd <? 0 then print 2 "ls: cannot open %s
" [Ptr path] else
  r <- sys (Fstat fd) ;;
  let '(r, st) := r in
  if r <? 0 then
    print 2 "ls: cannot stat %s
" [Ptr path] ;;
    sys (Close fd) ;; Ret tt
  else
    (if st_type st =? 2 then entry_line path st
     else if st_type st =? 1 then
       if (512 <? Ulib.strlen path + 1 + DIRSIZ + 1)%nat then
         print 1 "ls: path too long
" []
       else
         let buf := Ulib.strcpy buf 0 path in
         let p := Ulib.strlen buf in
         let buf := <[p := 47]> buf in
         ls_loop fuel fd buf (S p) st
     else Ret tt) ;;
    sys (Close fd) ;; Ret tt.

Definition main (fuel : nat) (buf : list Z) (argv : list (list Z)) : prog unit :=
  if (length argv <? 2)%nat then ls fuel buf (str ".") ;; Exit else
  each (tail argv) (ls fuel buf) ;;
  Exit.
End Ls.

(** ** init.c *)
Module Init.

(** [while((wpid=wait()) >= 0 && wpid != pid) printf(1, ...);] *)
Fixpoint reap (fuel : nat) (pid : Z) : prog unit :=
  match fuel with
  | O => Spin
  | S fuel' =>
      wpid <- sys Wait ;;
      if (0 <=? wpid) && negb (wpid =? pid) then
        print 1 "zombie!
" [] ;; reap fuel' pid
      else Ret tt
  end.

Fixpoint forever (fuel reaps : nat) : prog unit :=
  match fuel with
  | O => Spin
  | S fuel' =>
      print 1 "init: starting sh
" [] ;;
      pid <- sys Fork ;;
      if pid <? 0 then print 1 "init: fork failed
" [] ;; Exit
      else if pid =? 0 then
        sys (Exec (str "sh") [str "sh"]) ;;
        print 1 "init: exec sh failed
" [] ;;
        Exit
      else
        reap reaps pid ;;
        forever fuel' reaps
  end.

Definition main (fuel reaps : nat) : prog unit :=
  fd <- sys (Open (str "console") 2) ;;
  (if fd <? 0 then
     sys (Mknod (str "console") 1 1) ;;
     sys (Open (str "console") 2) ;; Ret tt
   else Ret tt) ;;
  sys (Dup 0) ;;
  sys (Dup 0) ;;
  forever fuel reaps.
End Init.

(** ** zombie.c, stressfs.c, forktest.c *)
Module Zombie.
Definition main : prog unit :=
  pid <- sys Fork ;;
  (if 0 <? pid then sys (Sleep 5) ;; Ret tt else Ret tt) ;;
  Exit.
End Zombie.

Fixpoint repeat_call {R} (n : nat) (c : call R) : prog unit :=
  match n with
  | O => Ret tt
  | S n' => sys c ;; repeat_call n' c
  end.

Module Stressfs.

(** [for(i = 0; i < 4; i++) if(fork() > 0) break;] *)
Fixpoint forks (n : nat) (i : Z) : prog Z :=
  match n with
  | O => Ret i
  | S n' =>
      pid <- sys Fork ;;
      if 0 <? pid then Ret i else forks n' (i + 1)
  end.

Definition main : prog unit :=
  let path := str "stressfs0" in
  print 1 "stressfs starting
" [] ;;
  let data := replicate 512 97 in
  i <- forks 4 0 ;;
  print 1 "write %d
" [Int i] ;;
  let path := <[8%nat := u8 (path !!! 8%nat + i)]> path in
  fd <- sys (Open path 0x202) ;;
  repeat_call 20 (Write fd data) ;;
  sys (Close fd) ;;
  print 1 "read
" [] ;;
  fd <- sys (Open path 0) ;;
  repeat_call 20 (Read fd 512) ;;
  sys (Close fd) ;;
  sys Wait ;;
  Exit.
End Stressfs.

Module Forktest.

Definition N : Z := 1000.

(** forktest has a [printf] of its own, which writes the format unchanged. *)
Definition printf (fd : Z) (s : string) : prog unit := sys (Write fd (str s)) ;; Ret tt.

(** The first loop: [n] when it ends. *)
Fixpoint forks (k : nat) (n : Z) : prog Z :=
  match k with
  | O => Ret n
  | S k' =>
      pid <- sys Fork ;;
      if pid <? 0 then Ret n
      else if pid =? 0 then Exit
      else forks k' (n + 1)
  end.

Fixpoint waits (n : nat) : prog unit :=
  match n with
  | O => Ret tt
  | S n' =>
      r <- sys Wait ;;
      if r <? 0 then printf 1 "wait stopped early
" ;; Exit else waits n'
  end.

Definition forktest : prog unit :=
  printf 1 "fork test
" ;;
  n <- forks (Z.to_nat N) 0 ;;
  if n =? N then printf 1 "fork claimed to work N times!
" ;; Exit else
  waits (Z.to_nat n) ;;
  r <- sys Wait ;;
  if negb (r =? -1) then printf 1 "wait got too many
" ;; Exit else
  printf 1 "fork test OK
".

Definition main : prog unit := forktest ;; Exit.
End Forktest.

(** ** lab2call.c, lab3info.c, lab3pri.c *)
Module Lab2call.
Definition main : prog unit :=
  n <- sys Getcount ;;
  print 1 "Number of System Calls = %d
" [Int n] ;;
  Exit.
End Lab2call.

Module Lab3info.

Definition report (msg : string) : prog unit := print 1 msg [] ;; sys Getprocessinfo ;; Ret tt.

(** A process that forks: [child] runs in the new process, and the parent waits
    and reports. *)
Definition level (child : prog unit) (msg : string) : prog unit :=
  pid <- sys Fork ;;
  if pid <? 0 then Exit
  else if pid =? 0 then child
  else sys Wait ;; report msg.

Definition main : prog unit :=
  level
    (level
      (level
        (level (report "Child4 printing
") "Child3 printing
")
        "Child2 printing
")
      "Child1 printing
")
    "Parent printing
" ;;
  Exit.
End Lab3info.

Module Lab3pri.

Fixpoint busy (n : nat) (i a b : Z) : prog (Z * Z) :=
  match n with
  | O => Ret (a, b)
  | S n' =>
      let a := Z.quot (s32 (a + (a + 2 + Z.quot i 2))) 4 in
      let b := Z.quot (s32 (b + i)) 2 in
      sys Increasepriority ;;
      busy n' (i + 1) a b
  end.

Definition main : prog unit :=
  sys Getprocessinfo ;;
  r <- busy (Z.to_nat 50000) 0 1 1 ;;
  let '(a, b) := r in
  print 1 "A= %d
B= %d
" [Int a; Int b] ;;
  sys Increasepriority ;;
  sys Getprocessinfo ;;
  Exit.
End Lab3pri.
