(* ===== verification/UtilsSpec.v ===== *)
(** * What the utilities do

    The theorems hold for every kernel whose [read] and [write] behave as the
    class [Stdio] says, however it cuts the input into pieces. *)

From stdpp Require Import pretty.
From S2P Require Import Prelude Strings Bytes Inode User Utils.
Import Printf.

(** ** Decimal numbers *)

Definition decimal (z : Z) : list Z := str (pretty z).

Lemma str_app s t : str (s +:+ t) = str s ++ str t.
Proof.
  unfold str. rewrite <- fmap_app. f_equal. induction s as [|a s IH]; [done|]. exact (f_equal (cons a) IH).
Qed.

Lemma digit_char x : 0 <= x < 10 ->
  str (String (pretty_N_char (Z.to_N x)) "") = [digits !!! Z.to_nat x].
Proof.
  intros H. assert (x = 0 \/ x = 1 \/ x = 2 \/ x = 3 \/ x = 4 \/ x = 5 \/ x = 6 \/ x = 7 \/ x = 8 \/ x = 9)
    as D by lia.
  repeat (destruct D as [->|D]; [reflexivity|]). now rewrite D.
Qed.

Lemma loop_pretty fuel : forall x s, 0 < x < 10 ^ Z.of_nat fuel ->
  str (pretty_N_go (Z.to_N x) s) = reverse (printint_loop fuel x 10) ++ str s.
Proof.
  induction fuel as [|fuel IH]; intros x s Hx.
  { change (10 ^ Z.of_nat 0) with 1 in Hx. lia. }
  rewrite pretty_N_go_step by lia. cbn [printint_loop].
  rewrite reverse_cons.
  replace (Z.to_N x `div` 10)%N with (Z.to_N (x / 10)) by (rewrite Z2N.inj_div by lia; done).
  replace (Z.to_N x `mod` 10)%N with (Z.to_N (x mod 10)) by (rewrite Z2N.inj_mod by lia; done).
  pose proof (Z.mod_pos_bound x 10 ltac:(lia)) as Hm.
  change (String ?a s) with (String a "" +:+ s).
  rewrite Nat2Z.inj_succ, Z.pow_succ_r in Hx by lia.
  destruct (Z.eqb_spec (x / 10) 0) as [E|E].
  - rewrite E. change (Z.to_N 0) with 0%N. rewrite pretty_N_go_0, str_app, digit_char by done.
    now rewrite app_nil_l.
  - rewrite IH by (Z.div_mod_to_equations; lia).
    rewrite str_app, digit_char by done. now rewrite <- app_assoc.
Qed.

(** [%d] prints the decimal numeral, INT_MIN included. *)
Lemma int_text_decimal z : - 2 ^ 31 <= z < 2 ^ 31 -> int_text z 10 true = decimal z.
Proof.
  intros Hz. unfold int_text, decimal. cbn [andb].
  assert (P : forall x, 0 < x <= 2 ^ 31 -> str (pretty x) = reverse (printint_loop 32 (u32 x) 10)).
  { intros x Hx. rewrite u32_small by lia. destruct x as [|p|p]; try lia.
    change (pretty (Z.pos p)) with (pretty_N_go (Z.to_N (Z.pos p)) "").
    rewrite (loop_pretty 32); [apply app_nil_r|].
    assert (2 ^ 31 < 10 ^ Z.of_nat 32) by (vm_compute; done). lia. }
  destruct (Z.ltb_spec z 0).
  - rewrite <- P by lia. destruct z as [|p|p]; try lia. cbn [Z.opp].
    change (pretty (Z.neg p)) with ("-" +:+ pretty (Z.pos p)). now rewrite str_app.
  - destruct (Z.eq_dec z 0) as [->|Hne]; [reflexivity|]. rewrite <- P by lia. done.
Qed.

(** ** A kernel to run programs on

    Reads return at most [chunk] bytes. *)
Definition streams : Type := (gmap Z (list Z) * gmap Z (list Z)).

Definition stream_os (chunk : nat) : kernel_fn streams := fun R c w =>
  match c in call R return option R * streams with
  | Read fd n =>
      let p := default [] (w.1 !! fd) in
      let k := Nat.min (S chunk) (Z.to_nat n) in
      (Some (Z.of_nat (length (take k p)), take k p), (<[fd := drop k p]> w.1, w.2))
  | Write fd bs =>
      (Some (Z.of_nat (length bs)), (w.1, <[fd := default [] (w.2 !! fd) ++ bs]> w.2))
  | _ => (None, w)
  end.

#[export] Program Instance stream_stdio chunk : Stdio (stream_os chunk) := {|
  pending := fun w fd => default [] (w.1 !! fd);
  output := fun w fd => default [] (w.2 !! fd) |}.
Next Obligation.
  intros chunk [i o] fd n Hn. cbn.
  set (p := default [] (i !! fd)). set (k := Nat.min (S chunk) (Z.to_nat n)).
  exists (take k p), (drop k p), (<[fd := drop k p]> i, o). split; [done|].
  split; [symmetry; apply take_drop|]. rewrite length_take. split; [unfold k; lia|]. split.
  - intros E. apply (f_equal length) in E. rewrite length_take in E.
    destruct p; [now rewrite drop_nil|]. cbn [length] in E. unfold k in E. lia.
  - split; [|done]. intros fd'. cbn. rewrite lookup_insert. now repeat case_decide; subst.
Qed.
Next Obligation.
  intros chunk [i o] fd bs. cbn. eexists. split; [done|]. split; [done|].
  intros fd'. cbn. rewrite lookup_insert. now repeat case_decide; subst.
Qed.

(** ** cat *)
Section Utilities.
Context {W : Type} (os : kernel_fn W) `{!Stdio os}.

(** The state after everything pending on [fd] was consumed. *)
Definition drained (w : W) (fd : Z) (w' : W) : Prop :=
  forall fd', pending w' fd' = if decide (fd' = fd) then [] else pending w fd'.

Lemma cat_loop_run fd : forall fuel w, (length (pending w fd) < fuel)%nat ->
  exists w', run os (Cat.cat_loop fuel fd) w = Returned 0 w' /\ drained w fd w' /\
    forall fd', output w' fd' =
      if decide (fd' = 1) then output w 1 ++ pending w fd else output w fd'.
Proof.
  induction fuel as [|fuel IH]; intros w Hf; [lia|].
  destruct (read_law w fd 512 ltac:(lia)) as (bs & rest & w1 & E & P & L & Z0 & P1 & O1).
  cbn [Cat.cat_loop]. rewrite (run_sys os _ _ _ _ _ E).
  destruct (Z.ltb_spec 0 (Z.of_nat (length bs))) as [Hp|Hp].
  - rewrite take_ge by lia.
    destruct (write_law w1 1 bs) as (w2 & E2 & P2 & O2).
    rewrite (run_sys os _ _ _ _ _ E2).
    assert (Q2 : pending w2 fd = rest) by (rewrite P2, P1; now rewrite decide_True).
    destruct (IH w2) as (w3 & R3 & D3 & O3).
    { rewrite Q2. rewrite P, length_app in Hf. lia. }
    exists w3. split; [exact R3|]. split.
    + intros fd'. rewrite D3, P2, P1. now repeat case_decide.
    + intros fd'. rewrite O3, Q2, P, !O2, O1. repeat case_decide; subst; try done.
      now rewrite app_assoc.
  - assert (bs = []) as -> by (destruct bs; [done|cbn [length] in Hp; lia]).
    rewrite (Z0 eq_refl) in P, P1. exists w1. split; [done|]. split; [exact P1|].
    intros fd'. rewrite O1, P. case_decide; subst; [now rewrite app_nil_r|done].
Qed.

(** ** wc *)

Definition space (b : Z) : bool := bool_decide (b ∈ Wc.space).

Lemma strchr_space b : Ulib.strchr Wc.space b = None <-> space b = false.
Proof.
  unfold space. rewrite bool_decide_eq_false. apply Ulib.strchr_none.
  repeat constructor; lia.
Qed.

(** The bytes between spaces; a word is such a piece that is not empty. *)
Fixpoint pieces (bs : list Z) : list (list Z) :=
  match bs with
  | [] => [[]]
  | b :: bs' =>
      if space b then [] :: pieces bs'
      else match pieces bs' with [] => [[b]] | p :: ps => (b :: p) :: ps end
  end.

Definition words (bs : list Z) : list (list Z) := filter (fun p => p <> []) (pieces bs).

Definition lines (bs : list Z) : list Z := filter (fun b => b = 10) bs.

(** The number of words that begin in [bs], when the byte before it was in a
    word or not. *)
Fixpoint starts (inw : bool) (bs : list Z) : nat :=
  match bs with
  | [] => 0
  | b :: bs' =>
      if space b then starts false bs' else ((if inw then 0 else 1) + starts true bs')%nat
  end.

Lemma starts_words bs :
  length (words bs) = starts false bs /\
  length (words bs) = (starts true bs + match pieces bs with (_ :: _) :: _ => 1 | _ => 0 end)%nat.
Proof.
  unfold words. induction bs as [|b bs [IH1 IH2]]; [done|]. cbn [pieces starts].
  destruct (space b).
  - rewrite filter_cons_False by (intros H; now apply H). split; [exact IH1|lia].
  - destruct (pieces bs) as [|p ps] eqn:E.
    + exfalso. clear -E. destruct bs as [|b bs]; cbn [pieces] in E; [done|].
      destruct (space b); [done|]. now destruct (pieces bs).
    + rewrite filter_cons_True by done. cbn [length].
      destruct p as [|c p].
      * rewrite filter_cons_False in IH1, IH2 by (intros H; now apply H). lia.
      * rewrite filter_cons_True in IH1, IH2 by done. cbn [length] in *. lia.
Qed.

Definition last_inword (inw : bool) (bs : list Z) : bool :=
  match last bs with Some b => negb (space b) | None => inw end.

(** The inner loop counts lines, word starts and bytes. *)
Lemma count_run bs : forall l w c inw,
  0 <= l -> 0 <= w -> 0 <= c -> Z.max l (Z.max w c) + Z.of_nat (length bs) < 2 ^ 31 ->
  fold_left Wc.count1 bs (Wc.mkCounts l w c inw) =
    Wc.mkCounts (l + Z.of_nat (length (lines bs))) (w + Z.of_nat (starts inw bs))
      (c + Z.of_nat (length bs)) (last_inword inw bs).
Proof.
  induction bs as [|b bs IH]; intros l w c inw Hl Hw Hc Hb.
  { cbn. f_equal; lia. }
  assert (Hstep : Wc.count1 (Wc.mkCounts l w c inw) b =
    Wc.mkCounts (if b =? 10 then l + 1 else l)
      (if space b then w else if inw then w else w + 1) (c + 1) (negb (space b))).
  { unfold Wc.count1. cbn [Wc.l Wc.w Wc.c Wc.inword length] in *. rewrite !s32_small by lia.
    destruct (Ulib.strchr Wc.space b) eqn:E.
    - destruct (space b) eqn:Es; [done|]. apply strchr_space in Es. congruence.
    - apply strchr_space in E as ->. now destruct inw. }
  cbn [fold_left length starts] in *. rewrite Hstep.
  rewrite IH by (destruct (b =? 10), (space b), inw; lia).
  f_equal.
  - unfold lines. rewrite filter_cons. destruct (Z.eqb_spec b 10); [rewrite decide_True by done | rewrite decide_False by done];
      cbn [length]; lia.
  - destruct (space b), inw; cbn [negb]; lia.
  - lia.
  - unfold last_inword. rewrite last_cons. now destruct (last bs), (space b).
Qed.

Lemma starts_app inw a b : starts inw (a ++ b) = (starts inw a + starts (last_inword inw a) b)%nat.
Proof.
  revert inw. induction a as [|x a IH]; intros inw; [done|]. cbn [app starts]. rewrite !IH.
  unfold last_inword. rewrite last_cons.
  destruct (space x) eqn:Ex, (last a); rewrite ?Ex; cbn [negb]; lia.
Qed.

Lemma starts_le inw bs : (starts inw bs <= length bs)%nat.
Proof.
  revert inw. induction bs as [|b bs IH]; intros inw; [done|]. cbn.
  pose proof (IH false). pose proof (IH true). destruct (space b), inw; lia.
Qed.

Lemma lines_le bs : (length (lines bs) <= length bs)%nat.
Proof. apply length_filter. Qed.

Lemma length_lines_app a b : length (lines (a ++ b)) = (length (lines a) + length (lines b))%nat.
Proof. unfold lines. now rewrite filter_app, length_app. Qed.

Lemma last_inword_app inw a b : last_inword inw (a ++ b) = last_inword (last_inword inw a) b.
Proof. unfold last_inword. rewrite last_app. now destruct (last b). Qed.

Lemma wc_loop_run fd : forall fuel w l n c inw, (length (pending w fd) < fuel)%nat ->
  0 <= l -> 0 <= n -> 0 <= c ->
  Z.max l (Z.max n c) + Z.of_nat (length (pending w fd)) < 2 ^ 31 ->
  exists w', run os (Wc.wc_loop fuel fd (Wc.mkCounts l n c inw)) w =
      Returned (0, Wc.mkCounts (l + Z.of_nat (length (lines (pending w fd))))
        (n + Z.of_nat (starts inw (pending w fd)))
        (c + Z.of_nat (length (pending w fd))) (last_inword inw (pending w fd))) w' /\
    drained w fd w' /\ output w' = output w.
Proof.
  induction fuel as [|fuel IH]; intros w l n c inw Hf Hl Hn Hc Hb; [lia|].
  destruct (read_law w fd 512 ltac:(lia)) as (bs & rest & w1 & E & P & L & Z0 & P1 & O1).
  cbn [Wc.wc_loop]. rewrite (run_sys os _ _ _ _ _ E).
  assert (Q1 : pending w1 fd = rest) by (rewrite P1; now rewrite decide_True).
  rewrite P, length_app in Hf, Hb. rewrite P.
  destruct (Z.ltb_spec 0 (Z.of_nat (length bs))) as [Hp|Hp].
  - rewrite take_ge by lia. rewrite count_run by lia.
    pose proof (starts_le inw bs). pose proof (lines_le bs).
    destruct (IH w1 (l + Z.of_nat (length (lines bs))) (n + Z.of_nat (starts inw bs))
      (c + Z.of_nat (length bs)) (last_inword inw bs)) as (w2 & R2 & D2 & O2); rewrite ?Q1; try lia.
    exists w2. rewrite R2, Q1, length_lines_app, starts_app, last_inword_app, length_app. split.
    + f_equal; f_equal; f_equal; lia.
    + split; [|congruence]. intros fd'. rewrite D2, P1. now repeat case_decide.
  - assert (bs = []) as -> by (destruct bs; [done|cbn [length] in Hp; lia]).
    rewrite (Z0 eq_refl) in *. exists w1. split; [|split; [exact P1|done]].
    cbn. do 3 f_equal; lia.
Qed.

(** wc.c: whatever pieces the reads of a file return, [wc] prints the number
    of newlines, the number of words (the nonempty pieces between spaces), the
    number of bytes, in decimal, and the name; the file has been read to its
    end.  One more round than the file has bytes bounds the loop. *)
Theorem wc_correct : forall fuel w fd name,
  (length (pending w fd) < fuel)%nat -> Z.of_nat (length (pending w fd)) < 2 ^ 31 ->
  is_str name ->
  exists w', run os (Wc.wc fuel fd name) w = Returned tt w' /\ drained w fd w' /\
    forall fd', output w' fd' =
      if decide (fd' = 1) then
        output w 1 ++ decimal (Z.of_nat (length (lines (pending w fd)))) ++ str " "
          ++ decimal (Z.of_nat (length (words (pending w fd)))) ++ str " "
          ++ decimal (Z.of_nat (length (pending w fd))) ++ str " " ++ name ++ [10]
      else output w fd'.
Proof.
  intros fuel w fd name Hf Hb Hname.
  destruct (wc_loop_run fd fuel w 0 0 0 false) as (w1 & R1 & D1 & O1); try lia.
  unfold Wc.wc. rewrite (run_returned os _ _ _ _ _ R1). cbv beta iota.
  set (st := Wc.mkCounts _ _ _ _). change (0 <? 0) with false. cbv iota.
  destruct (print_run os 1 "%d %d %d %s
" [Int (Wc.l st); Int (Wc.w st); Int (Wc.c st); Ptr name] w1) as (w2 & R2 & P2 & O2).
  { repeat constructor. }
  { repeat (apply Forall_cons; split; [apply Forall_nil_2|]). apply Forall_cons; split; [|apply Forall_nil_2].
    eapply Forall_impl; [exact Hname|]. cbn; lia. }
  exists w2. split; [exact R2|]. split; [intros fd'; rewrite P2; apply D1|].
  intros fd'. rewrite O2, O1. destruct (decide (fd' = 1)) as [->|]; [|done].
  f_equal. pose proof (starts_le false (pending w fd)). pose proof (lines_le (pending w fd)).
  rewrite (proj1 (starts_words _)).
  unfold st. cbn [Wc.l Wc.w Wc.c].
  change (text _ _) with
    (int_text (s32 (0 + Z.of_nat (length (lines (pending w fd))))) 10 true ++ [32] ++
     int_text (s32 (0 + Z.of_nat (starts false (pending w fd)))) 10 true ++ [32] ++
     int_text (s32 (0 + Z.of_nat (length (pending w fd)))) 10 true ++ [32] ++ cstr name ++ [10]).
  rewrite !Z.add_0_l, !s32_small, !int_text_decimal by lia.
  now rewrite cstr_id.
Qed.

(** ** echo *)

(** The arguments separated by blanks. *)
Fixpoint unwords (args : list (list Z)) : list Z :=
  match args with
  | [] => []
  | [a] => a
  | a :: args' => a ++ [32] ++ unwords args'
  end.

Lemma echo_loop_run args : forall w, Forall is_str args ->
  exists w', run os (Echo.echo_loop args) w = Returned tt w' /\
    wrote os w 1 (if decide (args = []) then [] else unwords args ++ [10]) w'.
Proof.
  induction args as [|a args IH]; intros w Hs.
  { exists w. split; [done|apply output_nil]. }
  apply Forall_cons in Hs as [Ha Hs]. cbn [Echo.echo_loop].
  set (sep := str (if decide (args = []) then _ else _)).
  destruct (print_run os 1 "%s%s" [Ptr a; Ptr sep] w) as (w1 & R1 & O1).
  { repeat constructor. }
  { apply Forall_cons; split; [eapply Forall_impl; [exact Ha|]; cbn; lia|].
    apply Forall_cons; split; [apply bytes_ok_str|apply Forall_nil_2]. }
  change (text _ _) with (cstr a ++ cstr sep ++ []) in O1.
  rewrite cstr_id, app_nil_r in O1 by done.
  destruct (IH w1 Hs) as (w2 & R2 & O2). exists w2. rewrite (run_returned os _ _ _ _ _ R1).
  split; [exact R2|]. pose proof (output_app os _ _ _ _ _ _ O1 O2) as O.
  rewrite decide_False by done. unfold sep in O. destruct args as [|b args].
  - rewrite app_nil_r in O. exact O.
  - rewrite !decide_False in O by done. rewrite <- app_assoc in O. cbn [unwords].
    now rewrite <- !app_assoc.
Qed.

(** cat.c, echo.c: [cat] copies everything it reads from a descriptor to
    descriptor 1, whatever pieces the reads return, and reads to the end;
    [echo] prints its arguments separated by blanks and a newline, nothing when
    it has none, and exits. *)
Lemma cat_echo_correct :
  (forall fuel w fd, (length (pending w fd) < fuel)%nat ->
    exists w', run os (Cat.cat fuel fd) w = Returned tt w' /\ drained w fd w' /\
      forall fd', output w' fd' =
        if decide (fd' = 1) then output w 1 ++ pending w fd else output w fd') /\
  (forall name args w, Forall is_str args ->
    exists w', run os (Echo.main (name :: args)) w = Exited w' /\
      wrote os w 1 (if decide (args = []) then [] else unwords args ++ [10]) w').
Proof.
  split.
  - intros fuel w fd Hf. destruct (cat_loop_run fd fuel w Hf) as (w' & R & D).
    exists w'. split; [|exact D]. unfold Cat.cat. now rewrite (run_returned os _ _ _ _ _ R).
  - intros name args w Hs. destruct (echo_loop_run args w Hs) as (w' & R & O).
    exists w'. split; [|exact O]. unfold Echo.main. now rewrite (run_returned os _ _ _ _ _ R).
Qed.
End Utilities.

(** A file with two lines and five words, read three bytes at a time. *)
Definition ex_text : list Z := str "to be or
not be".

Lemma wc_correct_witness :
  exists w', run (stream_os 2) (Wc.wc 40 3 (str "f")) ({[3 := ex_text]}, ∅) = Returned tt w' /\
    output (os := stream_os 2) w' 1 = str "1 5 15 f
".
Proof.
  destruct (wc_correct (stream_os 2) 40 ({[3 := ex_text]}, ∅) 3 (str "f")) as (w' & R & _ & O).
  - vm_compute. lia.
  - vm_compute. done.
  - repeat constructor.
  - exists w'. split; [exact R|]. rewrite O. vm_compute. done.
Defined.

Lemma cat_echo_correct_witness :
  (exists w', run (stream_os 2) (Cat.cat 40 3) ({[3 := ex_text]}, ∅) = Returned tt w' /\
    output (os := stream_os 2) w' 1 = ex_text) /\
  exists w', run (stream_os 2) (Echo.main [str "echo"; str "a"; str "b"]) (∅, ∅) = Exited w' /\
    output (os := stream_os 2) w' 1 = str "a b
".
Proof.
  destruct (cat_echo_correct (stream_os 2)) as [Hc He]. split.
  - destruct (Hc 40%nat ({[3 := ex_text]}, ∅) 3) as (w' & R & _ & O); [vm_compute; lia|].
    exists w'. split; [exact R|]. rewrite O. vm_compute. done.
  - destruct (He (str "echo") [str "a"; str "b"] (∅, ∅)) as (w' & R & _ & O); [repeat constructor|].
    exists w'. split; [exact R|]. rewrite O. vm_compute. done.
Defined.
