(* ===== verification/Grep.v ===== *)
(** * grep (grep.c)

    The regular-expression matcher of Kernighan and Pike and the line loop
    around it.  A string is the list of its characters; the buffer of [grep] is
    an array of 1024 bytes. *)

From S2P Require Import Prelude Strings Bytes User Utils.
Import Printf.

(** ** The matcher *)

(** The do-while loop of [matchstar], given the [matchhere] of the rest of the
    expression. *)
Fixpoint star_loop (here : list Z -> bool) (c : Z) (text : list Z) : bool :=
  if here text then true
  else match text with
       | [] => false
       | t :: text' => if (t =? c) || (c =? 46) then star_loop here c text' else false
       end.

Fixpoint matchhere (re text : list Z) {struct re} : bool :=
  match re with
  | [] => true
  | c :: re' =>
      let single :=
        if (c =? 36) && bool_decide (re' = []) then bool_decide (text = [])
        else match text with
             | [] => false
             | t :: text' => if (c =? 46) || (c =? t) then matchhere re' text' else false
             end in
      match re' with
      | [] => single
      | s :: re'' => if s =? 42 then star_loop (matchhere re'') c text else single
      end
  end.

Definition matchstar (c : Z) (re text : list Z) : bool := star_loop (matchhere re) c text.

(** The do-while loop of [match]. *)
Fixpoint match_loop (re text : list Z) : bool :=
  if matchhere re text then true
  else match text with [] => false | _ :: text' => match_loop re text' end.

Definition match_ (re text : list Z) : bool :=
  match re with
  | [] => match_loop re text
  | c :: re' => if c =? 94 then matchhere re' text else match_loop re text
  end.

(** ** The line loop *)

(** The inner loop: the lines of [buf] from offset [p] on.  Returns the buffer
    and the offset after the last newline. *)
Fixpoint grep_lines (fuel : nat) (pattern buf : list Z) (p : nat) : prog (list Z * nat) :=
  match fuel with
  | O => Spin
  | S fuel' =>
      match Ulib.strchr (drop p buf) 10 with
      | None => Ret (buf, p)
      | Some i =>
          let q := (p + i)%nat in
          let buf := <[q := 0]> buf in
          if match_ pattern (cstr (drop p buf)) then
            let buf := <[q := 10]> buf in
            sys (Write 1 (slice buf (Z.of_nat p) (Z.of_nat (q + 1 - p)))) ;;
            grep_lines fuel' pattern buf (q + 1)
          else grep_lines fuel' pattern buf (q + 1)
      end
  end.

Fixpoint grep_loop (fuel : nat) (pattern : list Z) (fd : Z) (buf : list Z) (m : nat) : prog (list Z) :=
  match fuel with
  | O => Spin
  | S fuel' =>
      r <- sys (Read fd (1024 - Z.of_nat m - 1)) ;;
      let '(n, bs) := r in
      if 0 <? n then
        let buf := put buf (Z.of_nat m) bs in
        let m := (m + Z.to_nat n)%nat in
        let buf := <[m := 0]> buf in
        r <- grep_lines (S (length buf)) pattern buf 0 ;;
        let '(buf, p) := r in
        let m := if (p =? 0)%nat then O else m in
        if (0 <? m)%nat then
          let m := (m - p)%nat in
          grep_loop fuel' pattern fd (Ulib.memmove buf 0 p m) m
        else grep_loop fuel' pattern fd buf m
      else Ret buf
  end.

(** [buf] is the global array; its contents at the end are returned. *)
Definition grep (fuel : nat) (pattern : list Z) (fd : Z) (buf : list Z) : prog (list Z) :=
  grep_loop fuel pattern fd buf 0.

(** The loop of [main] over the files. *)
Fixpoint grep_files (fuel : nat) (pattern buf : list Z) (files : list (list Z)) : prog unit :=
  match files with
  | [] => Ret tt
  | a :: files' =>
      fd <- sys (Open a 0) ;;
      if fd <? 0 then print 1 "grep: cannot open %s
" [Ptr a] ;; Exit else
      buf <- grep fuel pattern fd buf ;;
      sys (Close fd) ;;
      grep_files fuel pattern buf files'
  end.

Definition main (fuel : nat) (buf : list Z) (argv : list (list Z)) : prog unit :=
  match argv with
  | _ :: pattern :: [] => grep fuel pattern 0 buf ;; Exit
  | _ :: pattern :: files => grep_files fuel pattern buf files ;; Exit
  | _ => print 2 "usage: grep pattern [file ...]
" [] ;; Exit
  end.

(** ** What an expression means

    An expression is a sequence of items, optionally anchored at the beginning
    and the end of the text. *)

Inductive atom : Type := Any | Lit (c : Z).
Inductive item : Type := One (a : atom) | Star (a : atom).

Definition atom_of (c : Z) : atom := if c =? 46 then Any else Lit c.

Definition accepts (a : atom) (t : Z) : Prop :=
  match a with Any => True | Lit c => c = t end.

(** The items of an expression without its [^], and whether it ends in [$]. *)
Fixpoint items (re : list Z) : list item * bool :=
  match re with
  | [] => ([], false)
  | c :: re' =>
      let single :=
        if (c =? 36) && bool_decide (re' = []) then ([], true)
        else (One (atom_of c) :: (items re').1, (items re').2) in
      match re' with
      | [] => single
      | s :: re'' =>
          if s =? 42 then (Star (atom_of c) :: (items re'').1, (items re'').2) else single
      end
  end.

Definition anchored (re : list Z) : bool :=
  match re with c :: _ => c =? 94 | [] => false end.

(** The strings an item sequence describes. *)
Fixpoint lang (l : list item) (s : list Z) : Prop :=
  match l with
  | [] => s = []
  | One a :: l' => exists t s', s = t :: s' /\ accepts a t /\ lang l' s'
  | Star a :: l' => exists s1 s2, s = s1 ++ s2 /\ Forall (accepts a) s1 /\ lang l' s2
  end.

(** [text] begins with a string of the expression, and ends there when the
    expression ends in [$]. *)
Definition begins (it : list item * bool) (text : list Z) : Prop :=
  exists mid post, text = mid ++ post /\ lang it.1 mid /\ (it.2 = true -> post = []).

Lemma accepts_spec c t : accepts (atom_of c) t <-> ((c =? 46) || (c =? t)) = true.
Proof.
  unfold atom_of. destruct (Z.eqb_spec c 46); cbn; [tauto|]. rewrite Z.eqb_eq. done.
Qed.

(** The loop of [matchstar] takes a run of accepted characters. *)
Lemma star_loop_spec here c text :
  star_loop here c text = true <->
  exists s1 s2, text = s1 ++ s2 /\ Forall (accepts (atom_of c)) s1 /\ here s2 = true.
Proof.
  induction text as [|t text IH]; cbn [star_loop]; destruct (here _) eqn:Eh.
  - split; [|done]. intros _. exists [], []. now repeat split.
  - split; [done|]. intros (s1 & s2 & E & _ & H). symmetry in E. apply app_nil in E as [-> ->]. congruence.
  - split; [|done]. intros _. exists [], (t :: text). now repeat split.
  - replace ((t =? c) || (c =? 46)) with ((c =? 46) || (c =? t)) by (rewrite (Z.eqb_sym c t); apply orb_comm).
    destruct ((c =? 46) || (c =? t)) eqn:Ea; [rewrite IH|]; split.
    + intros (s1 & s2 & -> & Ha & H). exists (t :: s1), s2. split; [done|]. split; [|done].
      constructor; [now apply accepts_spec|done].
    + intros ([|x s1] & s2 & E & Ha & H); cbn in E; [subst s2; congruence|].
      injection E as <- ->. apply Forall_cons in Ha as [_ Ha]. eauto.
    + done.
    + intros ([|x s1] & s2 & E & Ha & H); cbn in E; [subst s2; congruence|].
      injection E as <- ->. apply Forall_cons in Ha as [Ha _]. apply accepts_spec in Ha. congruence.
Qed.

Lemma begins_one c l e text :
  begins (One (atom_of c) :: l, e) text <->
  exists t text', text = t :: text' /\ ((c =? 46) || (c =? t)) = true /\ begins (l, e) text'.
Proof.
  split.
  - intros (mid & post & -> & (t & s' & -> & Ha & Hl) & He). exists t, (s' ++ post).
    split; [done|]. split; [now apply accepts_spec|]. exists s', post. now repeat split.
  - intros (t & text' & -> & Ha & (mid & post & -> & Hl & He)). exists (t :: mid), post.
    split; [done|]. split; [|done]. exists t, mid. rewrite accepts_spec. now repeat split.
Qed.

Lemma begins_star c l e text :
  begins (Star (atom_of c) :: l, e) text <->
  exists s1 s2, text = s1 ++ s2 /\ Forall (accepts (atom_of c)) s1 /\ begins (l, e) s2.
Proof.
  split.
  - intros (mid & post & -> & (s1 & s2 & -> & Ha & Hl) & He). exists s1, (s2 ++ post).
    rewrite app_assoc. split; [done|]. split; [done|]. exists s2, post. now repeat split.
  - intros (s1 & s2 & -> & Ha & (mid & post & -> & Hl & He)). exists (s1 ++ mid), post.
    rewrite app_assoc. split; [done|]. split; [|done]. exists s1, mid. now repeat split.
Qed.

Lemma matchhere_spec n : forall re text, (length re <= n)%nat ->
  matchhere re text = true <-> begins (items re) text.
Proof.
  induction n as [|n IH]; intros re text Hn.
  { destruct re; [|cbn in Hn; lia]. split; [|done]. intros _. exists [], text. now repeat split. }
  destruct re as [|c re]; [split; [|done]; intros _; exists [], text; now repeat split|].
  cbn [length] in Hn. cbn [matchhere items].
  set (single := if (c =? 36) && _ then bool_decide (text = []) else _).
  set (sitem := if (c =? 36) && _ then ([], true) else _).
  assert (Hsingle : single = true <-> begins sitem text).
  { unfold single, sitem. destruct ((c =? 36) && bool_decide (re = [])).
    - rewrite bool_decide_eq_true. split.
      + intros ->. exists [], []. now repeat split.
      + intros (mid & post & -> & Hl & He). cbn in Hl. now rewrite Hl, He.
    - rewrite begins_one. destruct text as [|t text].
      + split; [done|]. now intros (? & ? & ? & _).
      + destruct ((c =? 46) || (c =? t)) eqn:Ea.
        * rewrite (IH re text) by lia. rewrite <- surjective_pairing. split.
          -- intros H. exists t, text. done.
          -- intros (t' & text' & E & _ & H). injection E as <- <-. done.
        * split; [done|]. intros (t' & text' & E & H & _). injection E as <- <-. congruence. }
  destruct re as [|s re]; [exact Hsingle|].
  destruct (s =? 42); [|exact Hsingle].
  cbn [length] in Hn. rewrite star_loop_spec, begins_star, <- surjective_pairing.
  split; intros (s1 & s2 & E & Ha & H); exists s1, s2; (split; [exact E|]; split; [exact Ha|]).
  - apply (IH re s2); [lia|exact H].
  - apply (IH re s2); [lia|exact H].
Qed.

Lemma match_loop_spec re text :
  match_loop re text = true <-> exists pre rest, text = pre ++ rest /\ matchhere re rest = true.
Proof.
  induction text as [|t text IH]; cbn [match_loop]; destruct (matchhere re _) eqn:Eh.
  - split; [|done]. intros _. now exists [], [].
  - split; [done|]. intros (pre & rest & E & H). symmetry in E. apply app_nil in E as [-> ->]. congruence.
  - split; [|done]. intros _. now exists [], (t :: text).
  - rewrite IH. split.
    + intros (pre & rest & -> & H). now exists (t :: pre), rest.
    + intros ([|x pre] & rest & E & H); cbn in E; [subst rest; congruence|].
      injection E as <- ->. eauto.
Qed.

(** The expression without a leading [^]. *)
Definition body (re : list Z) : list Z := if anchored re then tail re else re.

(** C20. grep.c match, matchhere, matchstar: [match] finds exactly the texts that
    contain a string of the expression: the text splits into a part before, a
    string of the language of the items and a part after, where an expression
    that begins with [^] leaves nothing before and one that ends in [$] nothing
    after.  The language of a sequence of items is defined on its own: a
    character or [.] stands for one character, and followed by a star for any
    run of such characters. *)
Theorem match_correct : forall re text,
  match_ re text = true <->
  exists pre mid post, text = pre ++ mid ++ post /\ lang (items (body re)).1 mid /\
    (anchored re = true -> pre = []) /\ ((items (body re)).2 = true -> post = []).
Proof.
  intros re text.
  assert (H : match_ re text = true <->
    exists pre rest, text = pre ++ rest /\ (anchored re = true -> pre = []) /\
      matchhere (body re) rest = true).
  { unfold match_, body, anchored. destruct re as [|c re]; cbn [tail];
      [|destruct (c =? 94); cbn [tail]].
    - rewrite match_loop_spec. split; intros (pre & rest & H); exists pre, rest; naive_solver.
    - split; [intros H; now exists [], text|]. intros (pre & rest & -> & Hp & H).
      now rewrite (Hp eq_refl).
    - rewrite match_loop_spec. split; intros (pre & rest & H); exists pre, rest; naive_solver. }
  rewrite H. split.
  - intros (pre & rest & -> & Hp & Hm). apply (matchhere_spec _ _ _ (le_n _)) in Hm
      as (mid & post & -> & Hl & He). now exists pre, mid, post.
  - intros (pre & mid & post & -> & Hl & Hp & He). exists pre, (mid ++ post). split; [done|].
    split; [done|]. apply (matchhere_spec _ _ _ (le_n _)). now exists mid, post.
Qed.
