(* ===== verification/GrepSpec.v ===== *)
(** * grep over a file

    [grep] prints the matching lines of a text whose lines fit its buffer, when every
    read returns as many bytes as it asked for or there still are, as reads of a file
    do, or else bytes with a newline among them, as reads of the console do.  A pipe
    promises neither, and there [grep] drops the beginning of a line that arrives in
    two reads. *)

From S2P Require Import Prelude Strings Bytes User Utils UtilsSpec Grep.

(** The complete lines of a text, and what follows the last newline; [acc] is
    the beginning of the current line. *)
Fixpoint split_lines (acc bs : list Z) : list (list Z) * list Z :=
  match bs with
  | [] => ([], acc)
  | b :: bs' =>
      if b =? 10 then (acc :: (split_lines [] bs').1, (split_lines [] bs').2)
      else split_lines (acc ++ [b]) bs'
  end.

(** What grep should print. *)
Definition selected (pattern : list Z) (ls : list (list Z)) : list Z :=
  concat ((fun l => l ++ [10]) <$> filter (fun l => match_ pattern l = true) ls).

Lemma selected_app pattern a b : selected pattern (a ++ b) = selected pattern a ++ selected pattern b.
Proof. unfold selected. now rewrite filter_app, fmap_app, concat_app. Qed.

Lemma split_lines_app a : forall acc b,
  split_lines acc (a ++ b) =
    ((split_lines acc a).1 ++ (split_lines (split_lines acc a).2 b).1,
     (split_lines (split_lines acc a).2 b).2).
Proof.
  induction a as [|x a IH]; intros acc b; cbn [app split_lines].
  - apply surjective_pairing.
  - destruct (x =? 10); [|apply IH]. now rewrite IH.
Qed.

(** A list without newline is one unfinished line. *)
Lemma split_lines_none acc bs : 10 ∉ bs -> split_lines acc bs = ([], acc ++ bs).
Proof.
  revert acc. induction bs as [|b bs IH]; intros acc H; cbn [split_lines].
  - now rewrite app_nil_r.
  - apply not_elem_of_cons in H as [Hb H]. rewrite (proj2 (Z.eqb_neq b 10)) by congruence.
    rewrite IH by done. now rewrite <- app_assoc.
Qed.

Lemma split_lines_cons line bs : 10 ∉ line ->
  split_lines [] (line ++ 10 :: bs) = (line :: (split_lines [] bs).1, (split_lines [] bs).2).
Proof. intros H. rewrite split_lines_app, split_lines_none by done. reflexivity. Qed.

(** The first newline of a string. *)
Lemma strchr_first s c i r : is_str s -> Ulib.strchr (s ++ 0 :: r) c = Some i ->
  exists a b, s = a ++ c :: b /\ length a = i /\ c ∉ a.
Proof.
  revert i. induction s as [|x s IH]; intros i Hs; cbn [app Ulib.strchr].
  - done.
  - apply Forall_cons in Hs as [Hx Hs]. rewrite (proj2 (Z.eqb_neq x 0)) by lia.
    destruct (Z.eqb_spec x c) as [->|Hne].
    + intros [= <-]. exists [], s. split; [done|]. split; [done|]. apply not_elem_of_nil.
    + destruct (Ulib.strchr _ c) as [j|] eqn:E; [|done]. cbn. intros [= <-].
      destruct (IH j Hs eq_refl) as (a & b & -> & <- & Ha). exists (x :: a), b.
      split; [done|]. split; [done|]. apply not_elem_of_cons. split; [congruence|done].
Qed.

Lemma strchr_absent s c r : is_str s -> Ulib.strchr (s ++ 0 :: r) c = None -> c ∉ s.
Proof.
  induction s as [|x s IH]; intros Hs; cbn [app Ulib.strchr]; [intros _; apply not_elem_of_nil|].
  apply Forall_cons in Hs as [Hx Hs]. rewrite (proj2 (Z.eqb_neq x 0)) by lia.
  destruct (Z.eqb_spec x c) as [->|Hne]; [done|]. destruct (Ulib.strchr _ c) eqn:E; [done|].
  intros _. apply not_elem_of_cons. split; [congruence|now apply IH].
Qed.

(** The bytes from [p] on, when the array is known to be [a ++ b] there. *)
Lemma insert_at (a b : list Z) (x y : Z) : <[length a := y]> (a ++ x :: b) = a ++ y :: b.
Proof. rewrite insert_app_r_alt by done. now rewrite Nat.sub_diag. Qed.

Lemma memmove_down n : forall (l : list Z) d s, (d <= s)%nat -> (s + n <= length l)%nat ->
  Ulib.memmove l d s n = take d l ++ take n (drop s l) ++ drop (d + n) l.
Proof.
  induction n as [|n IH]; intros l d s Hd Hs; cbn [Ulib.memmove].
  - rewrite Nat.add_0_r. cbn. symmetry. apply take_drop.
  - rewrite IH by (rewrite ?length_insert; lia).
    destruct (lookup_lt_is_Some_2 l s ltac:(lia)) as [x Hx].
    rewrite (list_lookup_total_correct _ _ _ Hx).
    rewrite (take_S_r _ _ x) by (rewrite list_lookup_insert_eq by lia; done).
    rewrite take_insert_ge, !drop_insert_lt by lia.
    rewrite (drop_S _ _ _ Hx). cbn [take].
    replace (S d + n)%nat with (d + S n)%nat by lia. now rewrite <- app_assoc.
Qed.

(** The unfinished line has no newline, and is the whole text when there is no
    complete line. *)
Lemma split_lines_rest bs : forall acc, 10 ∉ acc ->
  (10 ∉ (split_lines acc bs).2) /\
  (length (split_lines acc bs).2 <= length acc + length bs)%nat /\
  (length (split_lines acc bs).2 = (length acc + length bs)%nat -> 10 ∉ bs).
Proof.
  induction bs as [|b bs IH]; intros acc Ha; cbn [split_lines length].
  - split; [done|]. split; [cbn; lia|]. intros _. apply not_elem_of_nil.
  - destruct (Z.eqb_spec b 10) as [->|Hne]; cbn [fst snd].
    + destruct (IH [] (not_elem_of_nil _)) as (H1 & H2 & _). cbn [length] in H2.
      split; [done|]. split; lia.
    + destruct (IH (acc ++ [b])) as (H1 & H2 & H3).
      { rewrite elem_of_app, list_elem_of_singleton. intros [?|?]; [done|congruence]. }
      rewrite length_app in H2, H3. cbn [length] in H2, H3. split; [done|]. split; [lia|].
      intros E. apply not_elem_of_cons. split; [congruence|]. apply H3. lia.
Qed.

Lemma split_rest_str bs : forall acc, is_str acc -> is_str bs -> is_str (split_lines acc bs).2.
Proof.
  induction bs as [|b bs IH]; intros acc Ha Hb; cbn [split_lines]; [done|].
  apply Forall_cons in Hb as [Hb Hbs]. destruct (b =? 10); cbn [snd].
  - apply IH; [apply Forall_nil_2|done].
  - apply IH; [|done]. apply Forall_app. split; [done|]. now apply Forall_singleton.
Qed.

Lemma split_lines_acc acc bs : 10 ∉ acc -> split_lines acc bs = split_lines [] (acc ++ bs).
Proof. intros H. rewrite split_lines_app, (split_lines_none [] acc) by done. apply surjective_pairing. Qed.

(** No line is longer than the buffer can hold with its newline. *)
Definition short_lines (bs : list Z) : Prop :=
  Forall (fun l => length l <= 1022)%nat (split_lines [] bs).1.

Lemma short_no_newline a b : 10 ∉ a -> (1022 < length a)%nat -> short_lines (a ++ b) -> 10 ∉ b.
Proof.
  intros Ha Hl Hs Hb. apply list_elem_of_split_l in Hb as (x & y & -> & Hx).
  unfold short_lines in Hs.
  rewrite app_assoc, split_lines_cons in Hs by (rewrite elem_of_app; tauto).
  apply Forall_cons in Hs as [Hs _]. rewrite length_app in Hs. lia.
Qed.

Section Loop.
Context {W : Type} (os : kernel_fn W) `{!Stdio os} (pattern : list Z).

Lemma selected_one l ls :
  selected pattern (l :: ls) = (if match_ pattern l then l ++ [10] else []) ++ selected pattern ls.
Proof.
  unfold selected. rewrite filter_cons. destruct (match_ pattern l);
    [rewrite decide_True by done | rewrite decide_False by done]; done.
Qed.

(** The inner loop prints the matching lines and stops after the last newline. *)
Lemma grep_lines_run fuel : forall pre data tl w, (length data < fuel)%nat -> is_str data ->
  exists pre' w', run os (grep_lines fuel pattern (pre ++ data ++ 0 :: tl) (length pre)) w =
      Returned (pre' ++ (split_lines [] data).2 ++ 0 :: tl, length pre') w' /\
    (length pre' + length (split_lines [] data).2 = length pre + length data)%nat /\
    wrote os w 1 (selected pattern (split_lines [] data).1) w'.
Proof.
  induction fuel as [|fuel IH]; intros pre data tl w Hf Hs; [lia|]. cbn [grep_lines].
  rewrite drop_app_length. destruct (Ulib.strchr _ 10) as [i|] eqn:E.
  2:{ apply strchr_absent in E; [|done]. rewrite split_lines_none by done.
      exists pre, w. split; [done|]. split; [done|]. apply output_nil. }
  apply strchr_first in E as (line & rest & -> & <- & Hn); [|done].
  apply Forall_app in Hs as [Hl Hs]. apply Forall_cons in Hs as [_ Hs].
  rewrite length_app in Hf. cbn [length] in Hf.
  rewrite split_lines_cons by done. cbn [fst snd].
  replace (pre ++ (line ++ 10 :: rest) ++ 0 :: tl) with ((pre ++ line) ++ 10 :: rest ++ 0 :: tl)
    by now rewrite <- !app_assoc.
  rewrite <- length_app, insert_at, <- app_assoc, drop_app_length, cstr_app_nul by done.
  rewrite selected_one.
  assert (Hnext : forall b w1, exists pre' w', run os (grep_lines fuel pattern
      (pre ++ line ++ b :: rest ++ 0 :: tl) (length (pre ++ line) + 1)) w1 =
      Returned (pre' ++ (split_lines [] rest).2 ++ 0 :: tl, length pre') w' /\
    (length pre' + length (split_lines [] rest).2 = length pre + length (line ++ 10%Z :: rest))%nat /\
    wrote os w1 1 (selected pattern (split_lines [] rest).1) w').
  { intros b w1. destruct (IH (pre ++ line ++ [b]) rest tl w1) as (pre' & w' & R & L & O); [lia|done|].
    exists pre', w'. rewrite !length_app in *. cbn [length] in *. split; [|split; [lia|done]].
    rewrite <- R, <- !app_assoc. f_equal. f_equal. lia. }
  destruct (match_ pattern line); [|apply Hnext].
  rewrite app_assoc, insert_at, <- app_assoc.
  replace (slice _ _ _) with (line ++ [10]).
  2:{ unfold slice. rewrite !Nat2Z.id, drop_app_length, length_app.
      replace (length pre + length line + 1 - length pre)%nat with (length (line ++ [10]))
        by (rewrite length_app; cbn [length]; lia).
      replace (line ++ 10 :: rest ++ 0 :: tl) with ((line ++ [10]) ++ rest ++ 0 :: tl)
        by now rewrite <- app_assoc.
      now rewrite take_app_length. }
  destruct (write_law w 1 (line ++ [10])) as (w1 & E1 & W1). rewrite (run_sys os _ _ _ _ _ E1).
  destruct (Hnext 10 w1) as (pre' & w' & R & L & O). exists pre', w'. split; [exact R|].
  split; [exact L|]. exact (output_app os _ _ _ _ _ _ W1 O).
Qed.

(** A read returns as many bytes as asked for or left, or a newline is among them. *)
Definition read_whole (n : Z) (bs left : list Z) : Prop :=
  10 ∈ bs \/ Z.of_nat (length bs) = Z.min n (Z.of_nat (length left)).

Hypothesis whole_reads : forall w fd n k bs w', 0 < n <= 1024 ->
  os _ (Read fd n) w = (Some (k, bs), w') -> read_whole n bs (pending w fd).

(** The state after [fd] was read to its end and [bs] was printed. *)
Definition grepped (w : W) (fd : Z) (bs : list Z) (w' : W) : Prop :=
  (forall fd', pending w' fd' = if decide (fd' = fd) then [] else pending w fd') /\
  forall fd', output w' fd' = if decide (fd' = 1) then output w fd' ++ bs else output w fd'.

(** The buffer after a read and the terminating NUL. *)
Lemma buffer_filled buf (carry bs : list Z) : length buf = 1024%nat ->
  take (length carry) buf = carry -> (length carry + length bs <= 1023)%nat ->
  exists tl, <[(length carry + length bs)%nat := 0]> (put buf (Z.of_nat (length carry)) bs)
      = [] ++ (carry ++ bs) ++ 0 :: tl /\ (length (carry ++ bs) + length tl = 1023)%nat.
Proof.
  intros Hb Ht Hl. rewrite <- (take_drop (length carry) buf), Ht.
  set (r := drop (length carry) buf). assert (Hr : (length r = 1024 - length carry)%nat)
    by (unfold r; rewrite length_drop; lia).
  unfold put. rewrite Nat2Z.id.
  replace (list_inserts (length carry) bs (carry ++ r)) with (carry ++ list_inserts 0 bs r)
    by (rewrite <- list_inserts_app_r; f_equal; lia).
  assert (Hi : list_inserts 0 bs r = bs ++ drop (length bs) r).
  { rewrite <- (take_drop (length bs) r) at 1. rewrite list_inserts_0_r by (rewrite length_take; lia). done. }
  rewrite Hi, app_assoc. destruct (drop (length bs) r) as [|x tl] eqn:Ed.
  { apply (f_equal length) in Ed. rewrite length_drop in Ed. cbn in Ed. lia. }
  exists tl. rewrite <- length_app, insert_at. split; [done|].
  apply (f_equal length) in Ed. rewrite length_drop in Ed. cbn [length] in Ed.
  rewrite length_app. lia.
Qed.

(** What holds at the head of the loop: [carry] is the unfinished line kept at
    the beginning of the buffer. *)
Record head_inv (fd : Z) (buf carry : list Z) (w : W) : Prop := {
  hi_buf : length buf = 1024%nat;
  hi_carry : take (length carry) buf = carry;
  hi_len : (length carry <= 1022)%nat;
  hi_line : 10 ∉ carry;
  hi_str : is_str (carry ++ pending w fd);
  hi_short : short_lines (carry ++ pending w fd) }.

(** The new buffer and carry: the rest of the data, or nothing when there was no
    newline; in that case no complete line follows either. *)
Lemma next_head fd pre data rest tl w2 :
  (length pre + length (split_lines [] data).2 = length data)%nat ->
  (length data + length tl = 1023)%nat ->
  (10 ∈ data \/ length data = 1023%nat \/ rest = []) -> pending w2 fd = rest ->
  is_str (data ++ rest) -> short_lines (data ++ rest) ->
  let r := (split_lines [] data).2 in
  let carry' := if (length pre =? 0)%nat then [] else r in
  let buf := pre ++ r ++ 0 :: tl in
  let buf' := if (length pre =? 0)%nat then buf else Ulib.memmove buf 0 (length pre) (length r) in
  head_inv fd buf' carry' w2 /\
  (split_lines [] (data ++ rest)).1 = (split_lines [] data).1 ++ (split_lines [] (carry' ++ rest)).1.
Proof.
  intros L2 Htl Hfull Q2 Hs Hsh. cbn zeta. set (r := (split_lines [] data).2) in *.
  destruct (split_lines_rest data [] (not_elem_of_nil _)) as (N2 & _ & N3). cbn [length Nat.add] in N3.
  fold r in N2, N3. apply Forall_app in Hs as [Hd Hr].
  destruct (Nat.eqb_spec (length pre) 0) as [Hp0|Hp0].
  - assert (Hnd : 10 ∉ data) by (apply N3; lia).
    assert (Hnr : 10 ∉ rest).
    { destruct Hfull as [Hfull|[Hfull| ->]]; [done| |apply not_elem_of_nil].
      apply (short_no_newline data); [done|lia|done]. }
    assert (Hnn : 10 ∉ data ++ rest) by (rewrite elem_of_app; tauto).
    split; [split; rewrite ?Q2; cbn [app length take]; try done|].
    + rewrite !length_app in *. cbn [length]. lia.
    + lia.
    + apply not_elem_of_nil.
    + unfold short_lines. rewrite split_lines_none by done. constructor.
    + now rewrite !split_lines_none.
  - assert (Hsplit : split_lines [] (data ++ rest) =
      ((split_lines [] data).1 ++ (split_lines [] (r ++ rest)).1, (split_lines [] (r ++ rest)).2))
      by now rewrite split_lines_app, <- (split_lines_acc r rest N2).
    unfold short_lines in Hsh. rewrite Hsplit in Hsh. apply Forall_app in Hsh as [_ Hsh].
    rewrite memmove_down by (rewrite ?length_app; cbn [length]; lia).
    rewrite drop_app_length, take_app_length, take_0, app_nil_l.
    split; [split; rewrite ?Q2; try done|now rewrite Hsplit].
    + rewrite !length_app, length_drop, !length_app. cbn [length]. lia.
    + apply take_app_length.
    + lia.
    + apply Forall_app. split; [|done]. apply split_rest_str; [apply Forall_nil_2|done].
Qed.

(** One round that reads something. *)
Lemma grep_round fd fuel buf carry w : head_inv fd buf carry w -> pending w fd <> [] ->
  exists buf' carry' w2 ls,
    run os (grep_loop (S fuel) pattern fd buf (length carry)) w =
      run os (grep_loop fuel pattern fd buf' (length carry')) w2 /\
    head_inv fd buf' carry' w2 /\
    (length (pending w2 fd) < length (pending w fd))%nat /\
    (split_lines [] (carry ++ pending w fd)).1 = ls ++ (split_lines [] (carry' ++ pending w2 fd)).1 /\
    (forall fd', fd' <> fd -> pending w2 fd' = pending w fd') /\
    forall fd', output w2 fd' =
      if decide (fd' = 1) then output w fd' ++ selected pattern ls else output w fd'.
Proof.
  intros [Hb Ht Hc Hn Hs Hsh] Hne.
  destruct (read_law w fd (1024 - Z.of_nat (length carry) - 1) ltac:(lia))
    as (bs & rest & w1 & E & P & L & Z0 & P1 & O1).
  assert (Hfull := whole_reads w fd (1024 - Z.of_nat (length carry) - 1) _ _ _ ltac:(lia) E).
  assert (Hp : (0 < length bs)%nat).
  { destruct bs; [|cbn [length]; lia]. now rewrite P, (Z0 eq_refl) in Hne. }
  cbn [grep_loop]. rewrite (run_sys os _ _ _ _ _ E).
  rewrite (proj2 (Z.ltb_lt _ _)) by lia. rewrite Nat2Z.id.
  destruct (buffer_filled buf carry bs Hb Ht ltac:(lia)) as (tl & -> & Htl).
  rewrite P, ?app_assoc in Hs, Hsh |- *. unfold read_whole in Hfull. rewrite P, length_app in Hfull.
  set (data := carry ++ bs) in *.
  destruct (grep_lines_run (S (length ([] ++ data ++ 0 :: tl))) [] data tl w1) as (pre & w2 & R2 & L2 & [P2 O2]).
  { rewrite !length_app. cbn [length]. lia. }
  { now apply Forall_app in Hs as [? _]. }
  cbn [length] in R2, L2. rewrite (run_returned os _ _ _ _ _ R2). cbv beta iota.
  assert (Dl : length data = (length carry + length bs)%nat) by apply length_app.
  assert (Q2 : pending w2 fd = rest) by (rewrite P2, P1; now rewrite decide_True).
  destruct (next_head fd pre data rest tl w2) as [Hinv Hsp]; try done.
  { destruct Hfull as [Hfull|Hfull]; [left; apply elem_of_app; now right|right].
    destruct rest; [now right|left]. cbn [length] in Hfull. lia. }
  eexists _, _, w2, _. split; [|split; [exact Hinv|]].
  - destruct (Nat.eqb_spec (length pre) 0); [done|].
    rewrite (proj2 (Nat.ltb_lt 0 _)) by lia. do 2 f_equal; [|lia]. f_equal. lia.
  - rewrite Q2, length_app. split; [lia|]. split; [rewrite (app_assoc carry); exact Hsp|]. split.
    + intros fd' H. rewrite P2, P1. now rewrite decide_False.
    + intros fd'. rewrite O2, O1. done.
Qed.

Lemma grep_loop_run fd : forall fuel buf carry w,
  (length (pending w fd) < fuel)%nat -> head_inv fd buf carry w ->
  exists buf' w', run os (grep_loop fuel pattern fd buf (length carry)) w = Returned buf' w' /\
    grepped w fd (selected pattern (split_lines [] (carry ++ pending w fd)).1) w'.
Proof.
  induction fuel as [|fuel IH]; intros buf carry w Hf Hi; [lia|].
  destruct (decide (pending w fd = [])) as [He|Hne].
  - destruct Hi as [_ _ Hc Hn _ _]. rewrite He, app_nil_r, split_lines_none by done.
    destruct (read_law w fd (1024 - Z.of_nat (length carry) - 1) ltac:(lia))
      as (bs & rest & w1 & E & P & _ & _ & P1 & O1).
    rewrite He in P. symmetry in P. apply app_nil in P as [-> ->].
    cbn [grep_loop]. rewrite (run_sys os _ _ _ _ _ E). exists buf, w1. split; [done|].
    split; [exact P1|]. intros fd'. rewrite O1. cbn. rewrite app_nil_r. now case_decide.
  - destruct (grep_round fd fuel buf carry w Hi Hne) as (buf' & carry' & w2 & ls & -> & Hi' & Hl & -> & P2 & O2).
    destruct (IH buf' carry' w2 ltac:(lia) Hi') as (buf'' & w3 & R & D & O).
    exists buf'', w3. split; [exact R|]. split.
    + intros fd'. rewrite D. case_decide; [done|]. now apply P2.
    + intros fd'. rewrite O, O2, selected_app. case_decide; [|done]. now rewrite app_assoc.
Qed.

(** C28. grep.c grep: on a text without NUL bytes whose lines have at most 1022
    characters, when every read that returns fewer bytes than asked for and left has
    a newline among them (files, and the console, which returns a line at a time),
    [grep] prints exactly the complete lines that match, in order and each with its
    newline, whatever the buffer held before, and reads to the end.  The lines that a
    read splits are put together again by the [memmove].  One more round than there
    are bytes bounds the loop. *)
Theorem grep_correct : forall fuel buf w fd,
  (length (pending w fd) < fuel)%nat -> length buf = 1024%nat ->
  is_str (pending w fd) -> short_lines (pending w fd) ->
  exists buf' w', run os (grep fuel pattern fd buf) w = Returned buf' w' /\
    grepped w fd (selected pattern (split_lines [] (pending w fd)).1) w'.
Proof.
  intros fuel buf w fd Hf Hb Hs Hsh. apply (grep_loop_run fd fuel buf []); [done|].
  split; try done; [cbn; lia | apply not_elem_of_nil].
Qed.
End Loop.

(** A kernel whose reads return everything asked for, and one whose reads return a
    line at a time. *)
Lemma stream_full w fd n k bs w' : 0 < n <= 1024 ->
  stream_os 1024 _ (Read fd n) w = (Some (k, bs), w') ->
  read_whole n bs (pending (os := stream_os 1024) w fd).
Proof.
  intros Hn E. unfold stream_os in E. right.
  assert (bs = take (Nat.min 1025 (Z.to_nat n)) (default [] (w.1 !! fd))) as -> by congruence.
  rewrite length_take. unfold pending, stream_stdio. lia.
Qed.

(** The first line of a text, with its newline. *)
Fixpoint first_line (bs : list Z) : list Z :=
  match bs with
  | [] => []
  | b :: bs' => if b =? 10 then [b] else b :: first_line bs'
  end.

Lemma first_line_take bs : first_line bs = take (length (first_line bs)) bs.
Proof. induction bs as [|b bs IH]; cbn [first_line]; [done|]. destruct (b =? 10); cbn [length take]; [done|now rewrite <- IH]. Qed.

Lemma first_line_whole bs : 10 ∈ first_line bs \/ first_line bs = bs.
Proof.
  induction bs as [|b bs IH]; cbn [first_line]; [now right|]. destruct (Z.eqb_spec b 10) as [->|Hne].
  - left. apply list_elem_of_here.
  - destruct IH as [IH| ->]; [left; now apply list_elem_of_further|now right].
Qed.

Definition line_os : kernel_fn streams := fun R c w =>
  match c in call R return option R * streams with
  | Read fd n =>
      let p := default [] (w.1 !! fd) in
      let k := Nat.min (length (first_line p)) (Z.to_nat n) in
      (Some (Z.of_nat (length (take k p)), take k p), (<[fd := drop k p]> w.1, w.2))
  | Write fd bs =>
      (Some (Z.of_nat (length bs)), (w.1, <[fd := default [] (w.2 !! fd) ++ bs]> w.2))
  | _ => (None, w)
  end.

#[export] Program Instance line_stdio : Stdio line_os := {|
  pending := fun w fd => default [] (w.1 !! fd);
  output := fun w fd => default [] (w.2 !! fd) |}.
Next Obligation.
  intros [i o] fd n Hn. cbn.
  set (p := default [] (i !! fd)). set (k := Nat.min (length (first_line p)) (Z.to_nat n)).
  exists (take k p), (drop k p), (<[fd := drop k p]> i, o). split; [done|].
  split; [symmetry; apply take_drop|]. rewrite length_take. split; [unfold k; lia|]. split.
  - intros E. apply (f_equal length) in E. rewrite length_take in E. destruct p as [|b p]; [now rewrite drop_nil|].
    unfold k in E. cbn [first_line] in E. destruct (b =? 10); cbn [length] in E; lia.
  - split; [|done]. intros fd'. cbn. rewrite lookup_insert. now repeat case_decide; subst.
Qed.
Next Obligation.
  intros [i o] fd bs. cbn. eexists. split; [done|]. split; [done|].
  intros fd'. cbn. rewrite lookup_insert. now repeat case_decide; subst.
Qed.

Lemma line_whole w fd n k bs w' : 0 < n <= 1024 ->
  line_os _ (Read fd n) w = (Some (k, bs), w') -> read_whole n bs (pending (os := line_os) w fd).
Proof.
  intros Hn E. unfold line_os in E. injection E as _ <- _. unfold pending, line_stdio. set (p := default [] (w.1 !! fd)) in *.
  destruct (decide (length (first_line p) <= Z.to_nat n)%nat) as [Hle|Hgt].
  - rewrite Nat.min_l, <- first_line_take by lia. destruct (first_line_whole p) as [H|H]; [now left|right].
    rewrite H in *. lia.
  - right. rewrite length_take. assert (length (first_line p) <= length p)%nat; [|lia].
    rewrite first_line_take, length_take. lia.
Qed.

Definition ex_lines : list Z := str "cat
dog
caw
".

Lemma grep_correct_witness :
  (exists buf' w', run (stream_os 1024) (grep 20 (str "^ca.") 3 (replicate 1024 7)) ({[3 := ex_lines]}, ∅)
      = Returned buf' w' /\
    output (os := stream_os 1024) w' 1 = str "cat
caw
") /\
  exists buf' w', run line_os (grep 20 (str "^ca.") 3 (replicate 1024 7)) ({[3 := ex_lines]}, ∅)
      = Returned buf' w' /\
    output (os := line_os) w' 1 = str "cat
caw
".
Proof.
  assert (H2 : length (replicate 1024 7) = 1024%nat) by apply length_replicate.
  assert (H3 : is_str ex_lines) by repeat constructor.
  assert (H4 : short_lines ex_lines) by (vm_compute; repeat constructor; lia). split.
  - destruct (grep_correct (stream_os 1024) (str "^ca.") stream_full 20 (replicate 1024 7)
      ({[3 := ex_lines]}, ∅) 3) as (buf' & w' & R & D & O); [vm_compute; lia|done..|].
    exists buf', w'. split; [exact R|]. rewrite O. vm_compute. done.
  - destruct (grep_correct line_os (str "^ca.") line_whole 20 (replicate 1024 7)
      ({[3 := ex_lines]}, ∅) 3) as (buf' & w' & R & D & O); [vm_compute; lia|done..|].
    exists buf', w'. split; [exact R|]. rewrite O. vm_compute. done.
Defined.

(** Without whole reads the theorem fails: the line "ab" arrives as "a", "b" and
    the newline, each read without newline empties the buffer, and grep does
    not print the line although it matches. *)
Lemma grep_drops_pieces :
  exists buf' w', run (stream_os 0) (grep 20 (str "b") 3 (replicate 1024 0))
      ({[3 := str "ab
"]}, ∅) = Returned buf' w' /\
    output (os := stream_os 0) w' 1 = [] /\
    selected (str "b") (split_lines [] (str "ab
")).1 = str "ab
".
Proof. eexists _, _. split; [vm_compute; reflexivity|]. split; vm_compute; reflexivity. Qed.
