(* ===== verification/Sh.v ===== *)
(** * The shell (sh.c)

    The parser works on the line buffer: a position is an offset into it and a
    parsed command holds the offsets of its words, which [nulterminate] then
    turns into C strings inside the buffer.  [runcmd] and [main] make system
    calls.

    [malloc] is taken to succeed.  [parseexec] fills in its [execcmd] while
    redirections may already be wrapped around it; the model collects the
    arguments and the redirections and builds the same tree at the end. *)

From S2P Require Import Prelude Strings Bytes User.
Import Printf.

Definition MAXARGS : nat := 10.

(** [argv[i]] with [eargv[i]]: where a word begins and ends. *)
Definition span : Type := nat * nat.

(** [struct execcmd], [redircmd], [pipecmd], [listcmd], [backcmd]. *)
Inductive cmd : Type :=
| EXEC (argv : list span)
| REDIR (c : cmd) (file : span) (mode fd : Z)
| PIPE (left right : cmd)
| LIST (left right : cmd)
| BACK (c : cmd).

Definition O_RDONLY : Z := 0x000.
Definition O_WRONLY : Z := 0x001.
Definition O_CREATE : Z := 0x200.
Definition O_RDWR : Z := 0x002.

(** ** The parser's results *)

(** A parsing function returns a value and the new [*ps], or calls [panic]. *)
Inductive parsed (A : Type) : Type :=
| Parsed (a : A) (ps : nat)
| Panicked (msg : string)
| NoFuel.
Arguments Parsed {A} a ps.
Arguments Panicked {A} msg.
Arguments NoFuel {A}.

Definition P (A : Type) : Type := nat -> parsed A.
Definition pyield {A} (a : A) : P A := fun ps => Parsed a ps.
Definition ppanic {A} (msg : string) : P A := fun _ => Panicked msg.
Definition starve {A} : P A := fun _ => NoFuel.
Definition andthen {A B} (p : P A) (f : A -> P B) : P B := fun ps =>
  match p ps with
  | Parsed a ps' => f a ps'
  | Panicked msg => Panicked msg
  | NoFuel => NoFuel
  end.

Declare Scope parse_scope.
Delimit Scope parse_scope with parse.
Notation "x <- p ;; q" := (andthen p (fun x => q))
  (at level 100, p at next level, q at level 200, right associativity) : parse_scope.
Notation "p ;; q" := (andthen p (fun _ => q))
  (at level 100, q at level 200, right associativity) : parse_scope.

(** ** Tokens *)

Definition whitespace : list Z := [32; 9; 13; 10; 11].
Definition symbols : list Z := str "<|>&;()".

Definition isin (s : list Z) (c : Z) : bool :=
  match Ulib.strchr s c with Some _ => true | None => false end.

Section Parser.
Context (buf : list Z) (es : nat).

Definition ch (i : nat) : Z := default 0 (buf !! i).

(** [while(s < es && strchr(whitespace, *s)) s++;] with [n = es - s]. *)
Fixpoint skip (n s : nat) : nat :=
  match n with
  | O => s
  | S n' => if isin whitespace (ch s) then skip n' (S s) else s
  end.

(** [while(s < es && !strchr(whitespace, *s) && !strchr(symbols, *s)) s++;] *)
Fixpoint word_end (n s : nat) : nat :=
  match n with
  | O => s
  | S n' =>
      if negb (isin whitespace (ch s)) && negb (isin symbols (ch s)) then word_end n' (S s) else s
  end.

(** The [switch] of [gettoken]: the token and the position after it. *)
Definition scan (s : nat) : Z * nat :=
  let c := ch s in
  if c =? 0 then (0, s)
  else if (c =? 124) || (c =? 40) || (c =? 41) || (c =? 59) || (c =? 38) || (c =? 60) then (c, S s)
  else if c =? 62 then (if ch (S s) =? 62 then (43, S (S s)) else (62, S s))
  else (97, word_end (es - s) s).

(** The token, with [*q] and [*eq]. *)
Definition gettoken : P (Z * span) := fun ps =>
  let q := skip (es - ps) ps in
  let '(ret, s) := scan q in
  Parsed (ret, (q, s)) (skip (es - s) s).

Definition peek (toks : list Z) : P bool := fun ps =>
  let s := skip (es - ps) ps in
  Parsed (negb (ch s =? 0) && isin toks (ch s)) s.

(** ** The grammar *)
Open Scope parse_scope.

(** One redirection: [mode] and [fd] of its token. *)
Definition redirection : Type := span * Z * Z.

Definition redir_of (tok : Z) (file : span) : redirection :=
  if tok =? 60 then (file, O_RDONLY, 0) else (file, Z.lor O_WRONLY O_CREATE, 1).

(** The loop of [parseredirs], adding to the redirections [rs] found so far. *)
Fixpoint parseredirs_loop (fuel : nat) (rs : list redirection) : P (list redirection) :=
  match fuel with
  | O => starve
  | S fuel' =>
      b <- peek (str "<>") ;;
      if b then
        tok <- gettoken ;;
        t <- gettoken ;;
        if negb (t.1 =? 97) then ppanic "missing file for redirection"
        else parseredirs_loop fuel' (rs ++ [redir_of tok.1 t.2])
      else pyield rs
  end.

(** The command with redirections wrapped around it, the last one outermost. *)
Definition wrap (c : cmd) (rs : list redirection) : cmd :=
  fold_left (fun c '(file, mode, fd) => REDIR c file mode fd) rs c.

Definition parseredirs (c : cmd) : P cmd :=
  rs <- parseredirs_loop (S es) [] ;;
  pyield (wrap c rs).

(** The loop of [parseexec]: the arguments [argv] and redirections [rs] so far. *)
Fixpoint parseexec_loop (fuel : nat) (argv : list span) (rs : list redirection) : P cmd :=
  match fuel with
  | O => starve
  | S fuel' =>
      b <- peek (str "|)&;") ;;
      if b then pyield (wrap (EXEC argv) rs)
      else
        t <- gettoken ;;
        if t.1 =? 0 then pyield (wrap (EXEC argv) rs)
        else if negb (t.1 =? 97) then ppanic "syntax"
        else
          let argv := argv ++ [t.2] in
          if (MAXARGS <=? length argv)%nat then ppanic "too many args"
          else
            rs <- parseredirs_loop (S es) rs ;;
            parseexec_loop fuel' argv rs
  end.

(** [while(peek(ps, es, "&")) ...] of [parseline]. *)
Fixpoint amps_loop (fuel : nat) (c : cmd) : P cmd :=
  match fuel with
  | O => starve
  | S fuel' =>
      b <- peek (str "&") ;;
      if b then gettoken ;; amps_loop fuel' (BACK c) else pyield c
  end.

Fixpoint parseline (fuel : nat) : P cmd :=
  match fuel with
  | O => starve
  | S fuel' =>
      c <- parsepipe fuel' ;;
      c <- amps_loop (S es) c ;;
      b <- peek (str ";") ;;
      if b then
        gettoken ;;
        r <- parseline fuel' ;;
        pyield (LIST c r)
      else pyield c
  end
with parsepipe (fuel : nat) : P cmd :=
  match fuel with
  | O => starve
  | S fuel' =>
      c <- parseexec fuel' ;;
      b <- peek (str "|") ;;
      if b then
        gettoken ;;
        r <- parsepipe fuel' ;;
        pyield (PIPE c r)
      else pyield c
  end
with parseexec (fuel : nat) : P cmd :=
  match fuel with
  | O => starve
  | S fuel' =>
      b <- peek (str "(") ;;
      if b then parseblock fuel'
      else
        rs <- parseredirs_loop (S es) [] ;;
        parseexec_loop (S es) [] rs
  end
with parseblock (fuel : nat) : P cmd :=
  match fuel with
  | O => starve
  | S fuel' =>
      b <- peek (str "(") ;;
      if negb b then ppanic "parseblock"
      else
        gettoken ;;
        c <- parseline fuel' ;;
        b <- peek (str ")") ;;
        if negb b then ppanic "syntax - missing )"
        else
          gettoken ;;
          parseredirs c
  end.
End Parser.

(** ** nulterminate *)

Fixpoint nulterminate (c : cmd) (buf : list Z) : list Z :=
  match c with
  | EXEC argv => fold_left (fun b '(_, e) => <[e := 0]> b) argv buf
  | REDIR c (_, e) _ _ => <[e := 0]> (nulterminate c buf)
  | PIPE l r => nulterminate r (nulterminate l buf)
  | LIST l r => nulterminate r (nulterminate l buf)
  | BACK c => nulterminate c buf
  end.

(** ** Running commands *)

Open Scope user_scope.

Definition panic {A} (s : string) : prog A := print 2 "%s
" [Ptr (str s)] ;; Exit.

Definition fork1 : prog Z :=
  pid <- sys Fork ;;
  if pid =? -1 then panic "fork" else Ret pid.

(** The C string at an offset of the buffer. *)
Definition strat (buf : list Z) (s : span) : list Z := cstr (drop s.1 buf).

Definition child (pid : Z) (p : prog unit) : prog unit := if pid =? 0 then p else Ret tt.

Fixpoint runcmd (buf : list Z) (c : cmd) : prog unit :=
  (match c with
   | EXEC argv =>
       match argv with
       | [] => Exit
       | a :: _ =>
           sys (Exec (strat buf a) (strat buf <$> argv)) ;;
           print 2 "exec %s failed
" [Ptr (strat buf a)]
       end
   | REDIR c file mode fd =>
       sys (Close fd) ;;
       r <- sys (Open (strat buf file) mode) ;;
       if r <? 0 then
         print 2 "open %s failed
" [Ptr (strat buf file)] ;;
         Exit
       else runcmd buf c
   | LIST l r =>
       pid <- fork1 ;;
       child pid (runcmd buf l) ;;
       sys Wait ;;
       runcmd buf r
   | PIPE l r =>
       res <- sys Pipe ;;
       let '(e, p0, p1) := res in
       if e <? 0 then panic "pipe" else
       pid <- fork1 ;;
       child pid (sys (Close 1) ;; sys (Dup p1) ;; sys (Close p0) ;; sys (Close p1) ;; runcmd buf l) ;;
       pid <- fork1 ;;
       child pid (sys (Close 0) ;; sys (Dup p0) ;; sys (Close p0) ;; sys (Close p1) ;; runcmd buf r) ;;
       sys (Close p0) ;;
       sys (Close p1) ;;
       sys Wait ;;
       sys Wait ;;
       Ret tt
   | BACK c =>
       pid <- fork1 ;;
       child pid (runcmd buf c)
   end) ;;
  Exit.

(** ** The command loop *)

(** The bound on the nesting of the parser's calls. *)
Definition parse_fuel (es : nat) : nat := (4 * es + 4)%nat.

(** [parsecmd(buf)]: the command and the buffer with its words terminated. *)
Definition parsecmd (buf : list Z) : prog (cmd * list Z) :=
  let es := Ulib.strlen buf in
  match parseline buf es (parse_fuel es) 0%nat with
  | NoFuel => Spin
  | Panicked msg => panic msg
  | Parsed c ps =>
      let s := skip buf (es - ps) ps in
      if negb (s =? es)%nat then
        print 2 "leftovers: %s
" [Ptr (drop s buf)] ;;
        panic "syntax"
      else Ret (c, nulterminate c buf)
  end.

Definition getcmd (buf : list Z) (nbuf : Z) : prog (Z * list Z) :=
  print 2 "$ " [] ;;
  buf <- Ulib.gets (Ulib.memset buf 0%nat 0 (Z.to_nat nbuf)) nbuf ;;
  Ret (if ch buf 0%nat =? 0 then -1 else 0, buf).

(** [while((fd = open("console", O_RDWR)) >= 0) ...] *)
Fixpoint open_console (fuel : nat) : prog unit :=
  match fuel with
  | O => Spin
  | S fuel' =>
      fd <- sys (Open (str "console") O_RDWR) ;;
      if 0 <=? fd then
        if 3 <=? fd then sys (Close fd) ;; Ret tt else open_console fuel'
      else Ret tt
  end.

Definition is_cd (buf : list Z) : bool :=
  (ch buf 0%nat =? 99) && (ch buf 1%nat =? 100) && (ch buf 2%nat =? 32).

(** The read-eval loop; [buf] is the static array of 100 bytes. *)
Fixpoint shell_loop (fuel : nat) (buf : list Z) : prog unit :=
  match fuel with
  | O => Spin
  | S fuel' =>
      r <- getcmd buf 100 ;;
      let '(e, buf) := r in
      if 0 <=? e then
        if is_cd buf then
          let buf := <[(Ulib.strlen buf - 1)%nat := 0]> buf in
          r <- sys (Chdir (cstr (drop 3 buf))) ;;
          (if r <? 0 then print 2 "cannot cd %s
" [Ptr (cstr (drop 3 buf))] else Ret tt) ;;
          shell_loop fuel' buf
        else
          pid <- fork1 ;;
          child pid (r <- parsecmd buf ;; runcmd r.2 r.1) ;;
          sys Wait ;;
          shell_loop fuel' buf
      else Ret tt
  end.

Definition main (fuel : nat) : prog unit :=
  open_console fuel ;;
  shell_loop fuel (replicate 100 0) ;;
  Exit.
