(* ===== verification/ShParse.v ===== *)
(** * The shell's parser terminates and finds words

    On every line the parser returns or panics within the bound
    [parse_fuel]; every word of the command it returns is a maximal run of word
    characters, so the NULs that [nulterminate] stores fall between words. *)

From S2P Require Import Prelude Strings Bytes User Sh.

(** ** Character classes *)

Lemma isin_spec s c : is_str s -> isin s c = true <-> c ∈ s.
Proof.
  intros Hs. unfold isin. pose proof (Ulib.strchr_none s c Hs) as H.
  destruct (Ulib.strchr s c).
  - split; [|done]. intros _. destruct (decide (c ∈ s)); [done|]. apply H in n0. done.
  - split; [done|]. intros Hc. now apply H in Hc.
Qed.

Lemma isin_0 s : is_str s -> isin s 0 = false.
Proof.
  intros Hs. apply not_true_iff_false. rewrite isin_spec by done. intros H.
  apply (Forall_forall (fun c => 0 < c < 256) s) in H; [lia|done].
Qed.

Lemma whitespace_str : is_str whitespace.
Proof. repeat constructor. Qed.
Lemma symbols_str : is_str symbols.
Proof. repeat constructor. Qed.
#[export] Hint Resolve whitespace_str symbols_str : core.

Definition isws (c : Z) : bool := isin whitespace c.
Definition wordchar (c : Z) : bool := negb (c =? 0) && negb (isws c) && negb (isin symbols c).

Lemma wordchar_0 : wordchar 0 = false.
Proof. reflexivity. Qed.

Lemma isws_wordchar c : isws c = true -> wordchar c = false.
Proof. unfold wordchar. intros ->. now rewrite andb_false_r. Qed.

(** A character is NUL, white space, a symbol or a word character. *)
Lemma scan_class c : c <> 0 -> isws c = false -> wordchar c = false ->
  c ∈ [124; 40; 41; 59; 38; 60] \/ c = 62.
Proof.
  intros H0 Hw Hc. unfold wordchar in Hc. rewrite (proj2 (Z.eqb_neq c 0)), Hw in Hc by done.
  cbn in Hc. apply negb_false_iff, isin_spec in Hc; [|done]. revert Hc.
  change symbols with [60; 124; 62; 38; 59; 40; 41]. set_solver.
Qed.

Lemma symbol_not_word c : c ∈ [124; 40; 41; 59; 38; 60; 62] -> wordchar c = false.
Proof. intros H. repeat (apply elem_of_cons in H as [->|H]; [reflexivity|]). now apply elem_of_nil in H. Qed.

(** ** Words of a line *)

Section Line.
Context (buf : list Z) (es : nat).

(** [es] is where the string in the buffer ends. *)
Definition ends_at : Prop := (forall i, (i < es)%nat -> ch buf i <> 0) /\ ch buf es = 0.
Hypothesis line : ends_at.

(** A maximal run of word characters. *)
Definition is_word (s : span) : Prop :=
  (s.1 < s.2 <= es)%nat /\ (forall i, (s.1 <= i < s.2)%nat -> wordchar (ch buf i) = true) /\
  wordchar (ch buf s.2) = false.

Lemma skip_spec n : forall s, (s + n = es)%nat ->
  (s <= skip buf n s <= es)%nat /\
  (forall i, (s <= i < skip buf n s)%nat -> isws (ch buf i) = true) /\
  isws (ch buf (skip buf n s)) = false.
Proof.
  induction n as [|n IH]; intros s Hs; cbn [skip].
  - split; [lia|]. split; [lia|]. replace s with es by lia. rewrite (proj2 line). now apply isin_0.
  - destruct (isin whitespace (ch buf s)) eqn:E; fold (isws (ch buf s)) in E.
    + destruct (IH (S s) ltac:(lia)) as (H1 & H2 & H3). split; [lia|]. split; [|done].
      intros i Hi. destruct (decide (i = s)) as [->|]; [done|]. apply H2. lia.
    + split; [lia|]. split; [lia|done].
Qed.

Lemma word_end_spec n : forall s, (s + n = es)%nat ->
  (s <= word_end buf n s <= es)%nat /\
  (forall i, (s <= i < word_end buf n s)%nat -> wordchar (ch buf i) = true) /\
  wordchar (ch buf (word_end buf n s)) = false.
Proof.
  induction n as [|n IH]; intros s Hs; cbn [word_end].
  - split; [lia|]. split; [lia|]. replace s with es by lia. now rewrite (proj2 line).
  - assert (Hw : negb (isin whitespace (ch buf s)) && negb (isin symbols (ch buf s)) = wordchar (ch buf s)).
    { unfold wordchar, isws. rewrite (proj2 (Z.eqb_neq (ch buf s) 0)) by (apply line; lia). done. }
    rewrite Hw. destruct (wordchar (ch buf s)) eqn:E.
    + destruct (IH (S s) ltac:(lia)) as (H1 & H2 & H3). split; [lia|]. split; [|done].
      intros i Hi. destruct (decide (i = s)) as [->|]; [done|]. apply H2. lia.
    + split; [lia|]. split; [lia|done].
Qed.

(** ** A parsing function that ends, at or after where it began *)

Definition ok {A} (Q : A -> nat -> Prop) (ps : nat) (r : parsed A) : Prop :=
  match r with
  | Parsed a ps' => (ps <= ps' <= es)%nat /\ Q a ps'
  | Panicked _ => True
  | NoFuel => False
  end.

Lemma ok_bind {A B} (Q : A -> nat -> Prop) (R : B -> nat -> Prop) (p : P A) (f : A -> P B) ps :
  ok Q ps (p ps) ->
  (forall a ps', (ps <= ps' <= es)%nat -> Q a ps' -> ok R ps' (f a ps')) ->
  ok R ps (andthen p f ps).
Proof.
  unfold andthen. destruct (p ps) as [a ps'| |]; cbn; try done. intros [Hp HQ] Hf.
  specialize (Hf a ps' Hp HQ). destruct (f a ps'); cbn in *; [|done|done]. split; [lia|tauto].
Qed.

Lemma ok_yield {A} (Q : A -> nat -> Prop) a ps : (ps <= es)%nat -> Q a ps -> ok Q ps (pyield a ps).
Proof. cbn. intros. split; [lia|done]. Qed.

Lemma ok_mono {A} (Q R : A -> nat -> Prop) ps r :
  ok Q ps r -> (forall a ps', (ps <= ps' <= es)%nat -> Q a ps' -> R a ps') -> ok R ps r.
Proof. destruct r; cbn; naive_solver. Qed.

(** [peek] moves to the next character that is not white space. *)
Lemma peek_ok toks ps : is_str toks -> (ps <= es)%nat ->
  ok (fun b s => isws (ch buf s) = false /\ (b = true -> (s < es)%nat /\ ch buf s ∈ toks))
    ps (peek buf es toks ps).
Proof.
  intros Ht Hp. destruct (skip_spec (es - ps) ps ltac:(lia)) as (H1 & H2 & H3).
  unfold peek. split; [done|]. split; [done|]. intros Hb. apply andb_true_iff in Hb as [Hb Hi].
  apply isin_spec in Hi; [|done]. split; [|done].
  apply negb_true_iff, Z.eqb_neq in Hb. destruct (decide (skip buf (es - ps) ps = es)) as [E|]; [|lia].
  rewrite E in Hb. now rewrite (proj2 line) in Hb.
Qed.

Lemma scan_spec s : (s <= es)%nat -> isws (ch buf s) = false ->
  (s <= (scan buf es s).2 <= es)%nat /\
  ((scan buf es s).1 = 0 \/ (s < (scan buf es s).2)%nat) /\
  ((scan buf es s).1 = 97 -> is_word (s, (scan buf es s).2)).
Proof.
  intros Hs Hw. unfold scan. set (c := ch buf s) in *.
  destruct (Z.eqb_spec c 0) as [E0|E0]; [cbn; split; [lia|]; split; [now left|done]|].
  assert (Hlt : (s < es)%nat).
  { destruct (decide (s = es)) as [->|]; [|lia]. unfold c in E0. now rewrite (proj2 line) in E0. }
  destruct (_ || _) eqn:Es.
  { cbn. split; [lia|]. split; [right; lia|]. intros E. rewrite E in Es. done. }
  destruct (Z.eqb_spec c 62) as [E62|E62].
  { destruct (Z.eqb_spec (ch buf (S s)) 62) as [E2|E2]; cbn; (split; [|split; [right; lia|done]]); [|lia].
    destruct (decide (S s = es)) as [E|]; [|lia]. rewrite E, (proj2 line) in E2. done. }
  destruct (word_end_spec (es - s) s ltac:(lia)) as (H1 & H2 & H3). cbn.
  assert (Hwc : wordchar c = true).
  { destruct (wordchar c) eqn:E; [done|]. destruct (scan_class c E0 Hw E) as [Hin|]; [|done].
    repeat (apply elem_of_cons in Hin as [->|Hin]; [done|]). now apply elem_of_nil in Hin. }
  assert (Hne : word_end buf (es - s) s <> s).
  { intros E. rewrite E in H3. fold c in H3. congruence. }
  split; [lia|]. split; [right; lia|]. intros _. split; [cbn; lia|]. now split.
Qed.

Lemma gettoken_ok ps : (ps <= es)%nat ->
  ok (fun t ps' => (t.1 = 0 \/ (ps < ps')%nat) /\ (t.1 = 97 -> is_word t.2)) ps (gettoken buf es ps).
Proof.
  intros Hp. destruct (skip_spec (es - ps) ps ltac:(lia)) as (H1 & H2 & H3).
  unfold gettoken. set (q := skip buf (es - ps) ps) in *.
  destruct (scan_spec q ltac:(lia) H3) as (S1 & S2 & S3).
  destruct (scan buf es q) as [ret s]. cbn [fst snd] in *.
  destruct (skip_spec (es - s) s ltac:(lia)) as (T1 & _ & _).
  split; [lia|]. cbn [fst snd]. split; [|done]. destruct S2; [now left|right; lia].
Qed.

(** After a successful [peek] the next token is not the end of the line. *)
Lemma gettoken_advances ps : (ps < es)%nat -> isws (ch buf ps) = false ->
  ok (fun t ps' => (ps < ps')%nat) ps (gettoken buf es ps).
Proof.
  intros Hp Hw. assert (Hq : skip buf (es - ps) ps = ps).
  { destruct (es - ps)%nat; [done|]. cbn [skip]. fold (isws (ch buf ps)). now rewrite Hw. }
  unfold gettoken. rewrite Hq.
  destruct (scan_spec ps ltac:(lia) Hw) as (S1 & S2 & _). destruct (scan buf es ps) as [ret s] eqn:E.
  cbn [fst snd] in *. destruct (skip_spec (es - s) s ltac:(lia)) as (T1 & _ & _).
  split; [lia|]. destruct S2 as [->|]; [|lia]. unfold scan in E.
  destruct (Z.eqb_spec (ch buf ps) 0) as [E0|E0]; [now apply line in E0|].
  repeat case_match; simplify_eq.
Qed.

Definition words_ok (rs : list redirection) : Prop := Forall (fun r => is_word r.1.1) rs.

Fixpoint cmd_words (c : cmd) : Prop :=
  match c with
  | EXEC argv => Forall is_word argv
  | REDIR c file _ _ => cmd_words c /\ is_word file
  | PIPE l r => cmd_words l /\ cmd_words r
  | LIST l r => cmd_words l /\ cmd_words r
  | BACK c => cmd_words c
  end.

Lemma wrap_words c rs : cmd_words c -> words_ok rs -> cmd_words (wrap c rs).
Proof.
  revert c. induction rs as [|[[f m] fd] rs IH]; intros c Hc Hr; [done|].
  apply Forall_cons in Hr as [Hf Hr]. apply IH; [|done]. now split.
Qed.

Ltac peeked toks := eapply ok_bind; [apply (peek_ok toks); [repeat constructor|lia]|]; cbv beta;
  intros [|] ?ps ? [?Hws ?Hpk]; [destruct (Hpk eq_refl) as [?Hlt ?Hin]|]; cbn [negb].

Lemma parseredirs_ok fuel : forall rs ps, (es - ps < fuel)%nat -> (ps <= es)%nat -> words_ok rs ->
  ok (fun rs' _ => words_ok rs') ps (parseredirs_loop buf es fuel rs ps).
Proof.
  induction fuel as [|fuel IH]; intros rs ps Hf Hp Hr; [lia|]. cbn [parseredirs_loop].
  peeked (str "<>").
  - eapply ok_bind; [apply gettoken_advances; [lia|done]|]. cbv beta. intros t1 ps1 H1 A1.
    eapply ok_bind; [apply gettoken_ok; lia|]. cbv beta. intros t2 ps2 H2 [A2 W2].
    destruct (Z.eqb_spec t2.1 97) as [E|]; [|done]. cbn [negb].
    eapply ok_mono; [apply IH; [lia|lia|]|done].
    apply Forall_app. split; [done|]. apply Forall_singleton. unfold redir_of.
    destruct (_ =? 60); now apply W2.
  - apply ok_yield; [lia|done].
Qed.

Lemma parseexec_loop_ok fuel : forall argv rs ps, (es - ps < fuel)%nat -> (ps <= es)%nat ->
  Forall is_word argv -> words_ok rs ->
  ok (fun c _ => cmd_words c) ps (parseexec_loop buf es fuel argv rs ps).
Proof.
  induction fuel as [|fuel IH]; intros argv rs ps Hf Hp Ha Hr; [lia|]. cbn [parseexec_loop].
  peeked (str "|)&;").
  - apply ok_yield; [lia|]. now apply wrap_words.
  - eapply ok_bind; [apply gettoken_ok; lia|]. cbv beta. intros t ps1 H1 [A1 W1].
    destruct (Z.eqb_spec t.1 0); [apply ok_yield; [lia|]; now apply wrap_words|].
    destruct (Z.eqb_spec t.1 97) as [E|]; [|done]. cbn [negb].
    cbv zeta. destruct (MAXARGS <=? length (argv ++ [t.2]))%nat; [done|].
    assert (Ha' : Forall is_word (argv ++ [t.2]))
      by (apply Forall_app; split; [done|]; apply Forall_singleton; now apply W1).
    eapply ok_bind; [apply parseredirs_ok; [lia|lia|exact Hr]|]. cbv beta. intros rs' ps2 H2 Hr'.
    eapply ok_mono; [apply IH; [destruct A1; [done|lia]|lia|done|done]|done].
Qed.

Lemma amps_ok fuel : forall c ps, (es - ps < fuel)%nat -> (ps <= es)%nat -> cmd_words c ->
  ok (fun c _ => cmd_words c) ps (amps_loop buf es fuel c ps).
Proof.
  induction fuel as [|fuel IH]; intros c ps Hf Hp Hc; [lia|]. cbn [amps_loop].
  peeked (str "&").
  - eapply ok_bind; [apply gettoken_advances; [lia|done]|]. cbv beta. intros t ps1 H1 A1.
    eapply ok_mono; [apply (IH (BACK c)); [lia|lia|done]|done].
  - apply ok_yield; [lia|done].
Qed.

(** The four mutually recursive functions, with the fuel each call needs. *)
Lemma parse_ok fuel :
  (forall ps, (4 * (es - ps) + 4 <= fuel)%nat -> (ps <= es)%nat ->
    ok (fun c _ => cmd_words c) ps (parseline buf es fuel ps)) /\
  (forall ps, (4 * (es - ps) + 3 <= fuel)%nat -> (ps <= es)%nat ->
    ok (fun c _ => cmd_words c) ps (parsepipe buf es fuel ps)) /\
  (forall ps, (4 * (es - ps) + 2 <= fuel)%nat -> (ps <= es)%nat ->
    ok (fun c _ => cmd_words c) ps (parseexec buf es fuel ps)) /\
  (forall ps, (4 * (es - ps) + 1 <= fuel)%nat -> (ps <= es)%nat ->
    ok (fun c _ => cmd_words c) ps (parseblock buf es fuel ps)).
Proof.
  induction fuel as [|fuel (IHl & IHp & IHe & IHb)].
  { repeat split; intros; lia. }
  split; [|split; [|split]]; intros ps Hf Hp.
  - cbn [parseline]. eapply ok_bind; [apply IHp; lia|]. cbv beta. intros c ps1 H1 Hc.
    eapply ok_bind; [apply amps_ok; [lia|lia|done]|]. cbv beta. intros c' ps2 H2 Hc'.
    peeked (str ";").
    + eapply ok_bind; [apply gettoken_advances; [lia|done]|]. cbv beta. intros t ps3 H3 A3.
      eapply ok_bind; [apply IHl; lia|]. cbv beta. intros r ps4 H4 Hr. apply ok_yield; [lia|]. now split.
    + apply ok_yield; [lia|done].
  - cbn [parsepipe]. eapply ok_bind; [apply IHe; lia|]. cbv beta. intros c ps1 H1 Hc.
    peeked (str "|").
    + eapply ok_bind; [apply gettoken_advances; [lia|done]|]. cbv beta. intros t ps3 H3 A3.
      eapply ok_bind; [apply IHp; lia|]. cbv beta. intros r ps4 H4 Hr. apply ok_yield; [lia|]. now split.
    + apply ok_yield; [lia|done].
  - cbn [parseexec]. peeked (str "(").
    + apply IHb; lia.
    + eapply ok_bind; [apply parseredirs_ok; [lia|lia|constructor]|]. cbv beta. intros rs ps1 H1 Hr.
      apply parseexec_loop_ok; [lia|lia|constructor|done].
  - cbn [parseblock]. peeked (str "("); [|done].
    eapply ok_bind; [apply gettoken_advances; [lia|done]|]. cbv beta. intros t ps3 H3 A3.
    eapply ok_bind; [apply IHl; lia|]. cbv beta. intros c ps4 H4 Hc.
    peeked (str ")"); [|done].
    eapply ok_bind; [apply gettoken_ok; lia|]. cbv beta. intros t' ps6 H6 _.
    unfold parseredirs. eapply ok_bind; [apply parseredirs_ok; [lia|lia|constructor]|]. cbv beta.
    intros rs ps7 H7 Hr. apply ok_yield; [lia|]. now apply wrap_words.
Qed.
End Line.

Lemma strlen_ends buf : ends_at buf (Ulib.strlen buf).
Proof.
  unfold ends_at. induction buf as [|c buf [IH1 IH2]]; cbn [Ulib.strlen].
  { split; [lia|done]. }
  destruct (Z.eqb_spec c 0) as [->|Hc]; [split; [lia|done]|]. split; [|done].
  intros [|i] Hi; [done|]. apply IH1. lia.
Qed.

(** ** Commands with their words as strings *)

Inductive command : Type :=
| Cexec (argv : list (list Z))
| Credir (c : command) (file : list Z) (mode fd : Z)
| Cpipe (left right : command)
| Clist (left right : command)
| Cback (c : command).

Fixpoint strings (rd : span -> list Z) (c : cmd) : command :=
  match c with
  | EXEC argv => Cexec (rd <$> argv)
  | REDIR c file mode fd => Credir (strings rd c) (rd file) mode fd
  | PIPE l r => Cpipe (strings rd l) (strings rd r)
  | LIST l r => Clist (strings rd l) (strings rd r)
  | BACK c => Cback (strings rd c)
  end.

(** The text between the two offsets of a word. *)
Definition text_at (buf : list Z) (s : span) : list Z := take (s.2 - s.1) (drop s.1 buf).

(** ** nulterminate *)

Lemma ch_insert b e i : ch (<[e := 0]> b) i = if decide (i = e) then 0 else ch b i.
Proof.
  unfold ch. destruct (decide (i = e)) as [->|Hne].
  - destruct (decide (e < length b)%nat); [now rewrite list_lookup_insert_eq|].
    now rewrite lookup_ge_None_2 by (rewrite length_insert; lia).
  - now rewrite list_lookup_insert_ne by congruence.
Qed.

Fixpoint ends (c : cmd) : list nat :=
  match c with
  | EXEC argv => snd <$> argv
  | REDIR c file _ _ => ends c ++ [file.2]
  | PIPE l r => ends l ++ ends r
  | LIST l r => ends l ++ ends r
  | BACK c => ends c
  end.

Lemma nulterminate_ch c : forall b i,
  ch (nulterminate c b) i = if decide (i ∈ ends c) then 0 else ch b i.
Proof.
  induction c as [argv|c IH [q e] m fd|l IHl r IHr|l IHl r IHr|c IH]; intros b i; cbn [nulterminate ends].
  - revert b. induction argv as [|[q e] argv IH]; intros b; cbn [fold_left fmap list_fmap snd]; [done|].
    rewrite IH, ch_insert. repeat case_decide; set_solver.
  - rewrite ch_insert, IH. cbn [snd]. repeat case_decide; set_solver.
  - rewrite IHr, IHl. repeat case_decide; set_solver.
  - rewrite IHr, IHl. repeat case_decide; set_solver.
  - apply IH.
Qed.

Lemma ends_not_word buf es c i : cmd_words buf es c -> i ∈ ends c -> wordchar (ch buf i) = false.
Proof.
  induction c as [argv|c IH f m fd|l IHl r IHr|l IHl r IHr|c IH]; cbn [cmd_words ends]; intros H Hi.
  - apply list_elem_of_fmap in Hi as (s & -> & Hs). now apply (proj1 (Forall_forall _ _) H s Hs).
  - destruct H as [H Hf]. apply elem_of_app in Hi as [Hi|Hi]; [now apply IH|].
    apply list_elem_of_singleton in Hi as ->. apply Hf.
  - destruct H as [Hl Hr]. apply elem_of_app in Hi as [Hi|Hi]; auto.
  - destruct H as [Hl Hr]. apply elem_of_app in Hi as [Hi|Hi]; auto.
  - auto.
Qed.

Lemma ch_lookup b i : ch b i <> 0 -> b !! i = Some (ch b i).
Proof. unfold ch. now destruct (b !! i). Qed.

(** A word whose end holds a NUL is a C string. *)
Lemma cstr_word b q e : (forall i, (q <= i < e)%nat -> ch b i <> 0) -> ch b e = 0 -> (q <= e)%nat ->
  cstr (drop q b) = take (e - q) (drop q b).
Proof.
  intros Hn He Hq. remember (e - q)%nat as n eqn:En. revert q Hn Hq En.
  induction n as [|n IH]; intros q Hn Hq En.
  - replace e with q in He by lia. unfold ch in He. destruct (b !! q) as [x|] eqn:E.
    + rewrite (drop_S _ _ _ E). cbn in He. subst x. done.
    + now rewrite drop_ge by now apply lookup_ge_None.
  - pose proof (ch_lookup b q (Hn q ltac:(lia))) as E. rewrite (drop_S _ _ _ E). cbn [cstr take].
    rewrite (proj2 (Z.eqb_neq _ 0)) by (apply Hn; lia). f_equal. apply IH; [|lia|lia].
    intros i Hi. apply Hn. lia.
Qed.

Lemma text_at_ext b b' s : (forall i, (s.1 <= i < s.2)%nat -> b !! i = b' !! i) ->
  text_at b s = text_at b' s.
Proof.
  intros H. apply list_eq. intros i. unfold text_at.
  destruct (decide (i < s.2 - s.1)%nat).
  - rewrite !lookup_take_lt, !lookup_drop by lia. apply H. lia.
  - now rewrite !lookup_take_ge by lia.
Qed.

Lemma wordchar_nz c : wordchar c = true -> c <> 0.
Proof. intros H ->. now rewrite wordchar_0 in H. Qed.

Lemma strat_word buf es c s : cmd_words buf es c -> is_word buf es s -> s.2 ∈ ends c ->
  strat (nulterminate c buf) s = text_at buf s.
Proof.
  intros Hc (Hlt & Hw & He) Hi. unfold strat.
  assert (Hsame : forall i, (s.1 <= i < s.2)%nat -> ch (nulterminate c buf) i = ch buf i).
  { intros i Hi'. rewrite nulterminate_ch, decide_False; [done|]. intros Hin.
    apply (ends_not_word buf es) in Hin; [|done]. rewrite Hw in Hin by lia. done. }
  assert (Hnz : forall i, (s.1 <= i < s.2)%nat -> ch buf i <> 0).
  { intros i Hi'. apply wordchar_nz, Hw. lia. }
  rewrite (cstr_word _ _ s.2).
  - fold (text_at (nulterminate c buf) s). apply text_at_ext. intros i Hi'.
    rewrite (ch_lookup buf) by auto. rewrite ch_lookup, Hsame; auto. now rewrite Hsame; auto.
  - intros i Hi'. rewrite Hsame by done. auto.
  - rewrite nulterminate_ch. now rewrite decide_True.
  - lia.
Qed.

(** [nulterminate] makes a C string of every word. *)
Lemma strings_terminated buf es c : cmd_words buf es c ->
  strings (strat (nulterminate c buf)) c = strings (text_at buf) c.
Proof.
  intros Hc. enough (forall c', cmd_words buf es c' -> (forall i, i ∈ ends c' -> i ∈ ends c) ->
    strings (strat (nulterminate c buf)) c' = strings (text_at buf) c') by auto.
  induction c' as [argv|c' IH f m fd|l IHl r IHr|l IHl r IHr|c' IH]; cbn [cmd_words ends strings];
    intros Hw Hi.
  - f_equal. apply list_fmap_ext. intros i s Hs. apply list_elem_of_lookup_2 in Hs.
    apply (strat_word buf es); [done|now apply (proj1 (Forall_forall _ _) Hw)|].
    apply Hi, list_elem_of_fmap. eauto.
  - destruct Hw as [Hw Hf]. f_equal; [apply IH; [done|]; set_solver|].
    apply (strat_word buf es); [done|done|set_solver].
  - destruct Hw. f_equal; [apply IHl|apply IHr]; try done; set_solver.
  - destruct Hw. f_equal; [apply IHl|apply IHr]; try done; set_solver.
  - f_equal. now apply IH.
Qed.

(** C26. sh.c parseline and the functions it calls, nulterminate: on every line
    the parser comes to an end, within a recursion depth linear in the length of
    the line: it panics, or it returns a command and a position in the line.
    Every word of that command is a maximal run of word characters of the line,
    and after [nulterminate] the C string at its beginning is exactly that run:
    no terminator falls inside a word. *)
Theorem parse_terminates : forall buf,
  let es := Ulib.strlen buf in
  (exists msg, parseline buf es (parse_fuel es) 0%nat = Panicked msg) \/
  (exists c ps, parseline buf es (parse_fuel es) 0%nat = Parsed c ps /\ (ps <= es)%nat /\
    cmd_words buf es c /\
    strings (strat (nulterminate c buf)) c = strings (text_at buf) c).
Proof.
  intros buf es. destruct (parse_ok buf es (strlen_ends buf) (parse_fuel es)) as [H _].
  specialize (H 0%nat). rewrite Nat.sub_0_r in H. specialize (H (le_n _) (Nat.le_0_l _)).
  destruct (parseline _ _ _ _) as [c ps|msg|]; [right|left; eauto|done].
  destruct H as [Hp Hc]. exists c, ps. split; [done|]. split; [lia|]. split; [done|].
  now apply (strings_terminated buf es).
Qed.
