(* ===== verification/ShSpec.v ===== *)
(** * What the shell's parser accepts

    A grammar of command lines, as trees; the tokens of a tree; and the command
    it stands for.  Every line that spells the tokens of a tree, with any white
    space, is parsed to the command of the tree. *)

From S2P Require Import Prelude Strings Bytes User Sh ShParse.

(** ** Tokens *)

Inductive token : Type :=
| TWord (w : list Z) | TLt | TGt | TGtGt | TPipe | TAmp | TSemi | TOpen | TClose.

Definition code (t : token) : Z :=
  match t with
  | TWord _ => 97 | TLt => 60 | TGt => 62 | TGtGt => 43 | TPipe => 124 | TAmp => 38
  | TSemi => 59 | TOpen => 40 | TClose => 41
  end.

Definition toktext (t : token) : list Z :=
  match t with TWord w => w | TGtGt => [62; 62] | t => [code t] end.

(** What may follow a token without white space. *)
Definition separated (t : token) (rest : list Z) : Prop :=
  match t with
  | TWord _ => wordchar (default 0 (head rest)) = false
  | TGt => default 0 (head rest) <> 62
  | _ => True
  end.

Definition token_ok (t : token) : Prop :=
  match t with TWord w => w <> [] /\ Forall (fun c => wordchar c = true) w | _ => True end.

(** [s] spells the tokens: white space may come before each and at the end. *)
Inductive spelled : list Z -> list token -> Prop :=
| spelled_nil ws : Forall (fun c => isws c = true) ws -> spelled ws []
| spelled_cons ws t rest ts :
    Forall (fun c => isws c = true) ws -> token_ok t -> separated t rest ->
    spelled rest ts -> spelled (ws ++ toktext t ++ rest) (t :: ts).

(** ** Command lines *)

Inductive rop : Type := In | Out | Append.
Definition redir : Type := rop * list Z.

(** A line is pipelines separated by [;], each possibly followed by [&]s; a
    pipeline is commands separated by [|]; a command is words and redirections,
    or a line in parentheses with redirections. *)
Inductive line : Type :=
| Last (p : pipeline) (amps : nat)
| Seq (p : pipeline) (amps : nat) (l : line)
with pipeline : Type :=
| Single (s : simple)
| Piped (s : simple) (p : pipeline)
with simple : Type :=
| Words (rs : list redir) (args : list (list Z * list redir))
| Block (l : line) (rs : list redir).

Definition rop_token (o : rop) : token := match o with In => TLt | Out => TGt | Append => TGtGt end.
Definition redir_tokens (rs : list redir) : list token :=
  concat ((fun r => [rop_token r.1; TWord r.2]) <$> rs).
Definition arg_tokens (args : list (list Z * list redir)) : list token :=
  concat ((fun a => TWord a.1 :: redir_tokens a.2) <$> args).

Fixpoint line_tokens (l : line) : list token :=
  match l with
  | Last p n => pipe_tokens p ++ replicate n TAmp
  | Seq p n l => pipe_tokens p ++ replicate n TAmp ++ TSemi :: line_tokens l
  end
with pipe_tokens (p : pipeline) : list token :=
  match p with
  | Single s => simple_tokens s
  | Piped s p => simple_tokens s ++ TPipe :: pipe_tokens p
  end
with simple_tokens (s : simple) : list token :=
  match s with
  | Words rs args => redir_tokens rs ++ arg_tokens args
  | Block l rs => TOpen :: line_tokens l ++ TClose :: redir_tokens rs
  end.

(** The command a tree stands for: redirections nest in the order written, and
    an [&] puts the pipeline before it in the background. *)
Definition with_redirs (c : command) (rs : list redir) : command :=
  fold_left (fun c '(o, file) =>
    match o with
    | In => Credir c file O_RDONLY 0
    | _ => Credir c file (Z.lor O_WRONLY O_CREATE) 1
    end) rs c.

Fixpoint line_command (l : line) : command :=
  match l with
  | Last p n => Nat.iter n Cback (pipe_command p)
  | Seq p n l => Clist (Nat.iter n Cback (pipe_command p)) (line_command l)
  end
with pipe_command (p : pipeline) : command :=
  match p with
  | Single s => simple_command s
  | Piped s p => Cpipe (simple_command s) (pipe_command p)
  end
with simple_command (s : simple) : command :=
  match s with
  | Words rs args => with_redirs (Cexec (fst <$> args)) (rs ++ concat (snd <$> args))
  | Block l rs => with_redirs (line_command l) rs
  end.

(** No command has more arguments than [execcmd] has room for. *)
Fixpoint line_fits (l : line) : Prop :=
  match l with
  | Last p _ => pipe_fits p
  | Seq p _ l => pipe_fits p /\ line_fits l
  end
with pipe_fits (p : pipeline) : Prop :=
  match p with
  | Single s => simple_fits s
  | Piped s p => simple_fits s /\ pipe_fits p
  end
with simple_fits (s : simple) : Prop :=
  match s with
  | Words _ args => (length args < MAXARGS)%nat
  | Block l _ => line_fits l
  end.

Scheme line_mind := Induction for line Sort Prop
  with pipeline_mind := Induction for pipeline Sort Prop
  with simple_mind := Induction for simple Sort Prop.
Combined Scheme grammar_mind from line_mind, pipeline_mind, simple_mind.

(** ** Lexing by positions *)

Section Lexer.
Context (buf : list Z) (es : nat).
Hypothesis ends : ends_at buf es.

(** Token [t] stands at [q, e). *)
Definition tok_at (t : token) (q e : nat) : Prop :=
  match t with
  | TWord w => is_word buf es (q, e) /\ text_at buf (q, e) = w
  | TGt => ch buf q = 62 /\ e = S q /\ ch buf e <> 62
  | TGtGt => ch buf q = 62 /\ ch buf (S q) = 62 /\ e = S (S q)
  | t => ch buf q = code t /\ e = S q
  end.

(** The rest of the line from [ps] on is the tokens. *)
Fixpoint lexed (ps : nat) (ts : list token) : Prop :=
  match ts with
  | [] => (ps <= es)%nat /\ forall i, (ps <= i < es)%nat -> isws (ch buf i) = true
  | t :: ts' => exists q e, (ps <= q < es)%nat /\ (forall i, (ps <= i < q)%nat -> isws (ch buf i) = true) /\
      isws (ch buf q) = false /\ tok_at t q e /\ lexed e ts'
  end.

Lemma skip_to q : forall n ps, (ps + n = es)%nat -> (ps <= q <= es)%nat ->
  (forall i, (ps <= i < q)%nat -> isws (ch buf i) = true) -> isws (ch buf q) = false -> skip buf n ps = q.
Proof.
  induction n as [|n IH]; intros ps Hn Hq Hw Hs; cbn [skip]; [lia|]. fold (isws (ch buf ps)).
  destruct (decide (ps = q)) as [->|Hne]; [now rewrite Hs|].
  rewrite Hw by lia. apply IH; [lia|lia| |done]. intros i Hi. apply Hw. lia.
Qed.

Lemma isws_end : isws (ch buf es) = false.
Proof. rewrite (proj2 ends). reflexivity. Qed.

Lemma skip_lexed_nil ps : lexed ps [] -> skip buf (es - ps) ps = es.
Proof. intros [Hp Hw]. apply skip_to; [lia|lia|done|apply isws_end]. Qed.

Lemma lexed_le ts : forall ps, lexed ps ts -> (ps <= es)%nat.
Proof. destruct ts; intros ps H; [apply H|]. destruct H as (q & e & H & _). lia. Qed.

(** White space may be skipped before the rest. *)
Lemma lexed_skip ps ts : lexed ps ts -> lexed (skip buf (es - ps) ps) ts.
Proof.
  destruct ts as [|t ts]; intros H.
  - rewrite skip_lexed_nil by done. split; [lia|]. intros; lia.
  - destruct H as (q & e & H1 & H2 & H3 & H4). rewrite (skip_to q) by (done || lia).
    exists q, e. split; [lia|]. split; [intros; lia|]. done.
Qed.

Lemma word_end_to q e : is_word buf es (q, e) -> forall n s, (s + n = es)%nat -> (q <= s <= e)%nat ->
  word_end buf n s = e.
Proof.
  intros (H1 & H2 & H3) n. cbn [fst snd] in *.
  induction n as [|n IH]; intros s Hn Hs; cbn [word_end]; [lia|].
  assert (Hw : negb (isin whitespace (ch buf s)) && negb (isin symbols (ch buf s)) = wordchar (ch buf s)).
  { unfold wordchar, isws. rewrite (proj2 (Z.eqb_neq (ch buf s) 0)) by (apply ends; lia). done. }
  rewrite Hw. destruct (decide (s = e)) as [->|Hne]; [now rewrite H3|].
  rewrite H2 by lia. apply IH; lia.
Qed.

(** [scan] finds the token. *)
Lemma scan_tok t q e : (q < es)%nat -> tok_at t q e -> scan buf es q = (code t, e).
Proof.
  intros Hq Ht. unfold scan.
  destruct t as [w| | | | | | | |]; cbn [tok_at code] in Ht.
  1:{ destruct Ht as [Hw _]. pose proof Hw as (H1 & H2 & _). cbn [fst snd] in *.
      specialize (H2 q ltac:(lia)). rewrite (word_end_to q e Hw) by lia.
      assert (N : forall c, c ∈ [124; 40; 41; 59; 38; 60; 62] -> (ch buf q =? c) = false).
      { intros c Hc. apply Z.eqb_neq. intros E. rewrite E, symbol_not_word in H2 by done. done. }
      rewrite (proj2 (Z.eqb_neq (ch buf q) 0)) by now apply wordchar_nz.
      rewrite !N by set_solver. done. }
  2:{ destruct Ht as (E & -> & Hn). rewrite E. cbn. now rewrite (proj2 (Z.eqb_neq _ _) Hn). }
  2:{ destruct Ht as (E & E2 & ->). rewrite E. cbn. now rewrite E2. }
  all: destruct Ht as [E ->]; now rewrite E.
Qed.

Lemma tok_at_end t q e ts : (q < es)%nat -> tok_at t q e -> lexed e ts -> (q < e <= es)%nat.
Proof.
  intros Hq Ht Hl. apply lexed_le in Hl. destruct t; cbn in Ht; unfold is_word in Ht; cbn in Ht; lia.
Qed.

Lemma gettoken_lexed ps t ts : lexed ps (t :: ts) ->
  exists sp ps', gettoken buf es ps = Parsed (code t, sp) ps' /\ lexed ps' ts /\
    forall w, t = TWord w -> text_at buf sp = w.
Proof.
  intros (q & e & H1 & H2 & H3 & H4 & H5). unfold gettoken.
  rewrite (skip_to q) by (done || lia). rewrite (scan_tok t q e) by (done || lia).
  exists (q, e), (skip buf (es - e) e). split; [done|]. split; [now apply lexed_skip|].
  intros w ->. apply H4.
Qed.

Lemma gettoken_end ps : lexed ps [] -> exists sp, gettoken buf es ps = Parsed (0, sp) es /\ lexed es [].
Proof.
  intros H. unfold gettoken. rewrite skip_lexed_nil by done. unfold scan.
  rewrite (proj2 ends), Z.eqb_refl. exists (es, es).
  split; [now rewrite Nat.sub_diag|]. split; [lia|]. intros; lia.
Qed.

(** What [peek] finds: whether the next token begins with one of the symbols. *)
Definition starts (toks : list Z) (ts : list token) : bool :=
  match ts with
  | [] => false
  | TWord _ :: _ => false
  | TGtGt :: _ => isin toks 62
  | t :: _ => isin toks (code t)
  end.

Lemma peek_lexed toks ps ts : is_str toks -> (forall c, c ∈ toks -> c ∈ symbols) -> lexed ps ts ->
  exists s, peek buf es toks ps = Parsed (starts toks ts) s /\ lexed s ts.
Proof.
  intros Ht Hs H. exists (skip buf (es - ps) ps). split; [|now apply lexed_skip].
  unfold peek. f_equal. destruct ts as [|t ts].
  - rewrite skip_lexed_nil by done. now rewrite (proj2 ends).
  - destruct H as (q & e & H1 & H2 & H3 & H4 & _). rewrite (skip_to q) by (done || lia).
    rewrite (proj2 (Z.eqb_neq (ch buf q) 0)) by (apply ends; lia). cbn [negb andb].
    destruct t as [w| | | | | | | |]; cbn [tok_at] in H4; cbn [starts].
    1:{ destruct H4 as [(Hl & Hw & _) _]. cbn [fst snd] in *. specialize (Hw q ltac:(lia)).
        apply not_true_iff_false. rewrite isin_spec by done. intros Hin. apply Hs in Hin.
        unfold wordchar in Hw. apply andb_true_iff in Hw as [_ Hw]. apply negb_true_iff in Hw.
        apply isin_spec in Hin; [|done]. congruence. }
    all: now destruct H4 as [-> _].
Qed.

(** ** The parser on tokens *)

(** The call returns a value with [Q], unless its fuel ran out. *)
Definition gives {A} (Q : A -> nat -> Prop) (r : parsed A) : Prop :=
  match r with Parsed a ps => Q a ps | Panicked _ => False | NoFuel => True end.

Lemma gives_bind {A B} (Q : A -> nat -> Prop) (R : B -> nat -> Prop) (p : P A) (f : A -> P B) ps :
  gives Q (p ps) -> (forall a ps', Q a ps' -> gives R (f a ps')) -> gives R (andthen p f ps).
Proof. unfold andthen. destruct (p ps); cbn; auto. Qed.

Lemma gives_peek {B} toks ts (R : B -> nat -> Prop) (f : bool -> P B) ps :
  is_str toks -> (forall c, c ∈ toks -> c ∈ symbols) -> lexed ps ts ->
  (forall s, lexed s ts -> gives R (f (starts toks ts) s)) ->
  gives R (andthen (peek buf es toks) f ps).
Proof.
  intros Ht Hs H Hf. destruct (peek_lexed toks ps ts Ht Hs H) as (s & E & Hl).
  unfold andthen. rewrite E. now apply Hf.
Qed.

Lemma gives_token {B} t ts (R : B -> nat -> Prop) (f : Z * span -> P B) ps :
  lexed ps (t :: ts) ->
  (forall sp s, lexed s ts -> (forall w, t = TWord w -> text_at buf sp = w) -> gives R (f (code t, sp) s)) ->
  gives R (andthen (gettoken buf es) f ps).
Proof.
  intros H Hf. destruct (gettoken_lexed ps t ts H) as (sp & s & E & Hl & Ht).
  unfold andthen. rewrite E. now apply Hf.
Qed.

(** The redirections and commands found, with their words as strings. *)
Definition rstring (r : redirection) : list Z * Z * Z := (text_at buf r.1.1, r.1.2, r.2).
Definition rmeaning (r : redir) : list Z * Z * Z :=
  match r.1 with In => (r.2, O_RDONLY, 0) | _ => (r.2, Z.lor O_WRONLY O_CREATE, 1) end.

Lemma wrap_strings rs rs' c m : rstring <$> rs = rmeaning <$> rs' -> strings (text_at buf) c = m ->
  strings (text_at buf) (wrap c rs) = with_redirs m rs'.
Proof.
  revert rs' c m. induction rs as [|[[f md] fd] rs IH]; intros [|[o f'] rs'] c m Hr Hc; try done.
  cbn [fmap list_fmap] in Hr. injection Hr as E Hr. cbn [wrap with_redirs fold_left].
  apply (IH rs'); [done|]. cbn [strings]. rewrite Hc.
  destruct o; unfold rstring, rmeaning in E; cbn in E; injection E as -> -> ->; done.
Qed.

(** [<] or [>] may not follow: the redirections end there. *)
Definition no_redir (ts : list token) : Prop := starts (str "<>") ts = false.

Lemma symbol_set toks : bool_decide (Forall (fun c => c ∈ symbols) toks) = true ->
  is_str toks /\ forall c, c ∈ toks -> c ∈ symbols.
Proof.
  intros H. apply bool_decide_eq_true in H. split.
  - eapply Forall_impl; [exact H|]. intros c Hc. now apply (proj1 (Forall_forall _ _) symbols_str).
  - now apply Forall_forall.
Qed.

Ltac peeks ts := eapply (gives_peek _ ts);
  [apply symbol_set; reflexivity|apply symbol_set; reflexivity|eassumption|]; intros ?s ?Hl.

Lemma redirs_gives fuel : forall rs rs0 rs1 ts ps,
  lexed ps (redir_tokens rs ++ ts) -> no_redir ts -> rstring <$> rs0 = rmeaning <$> rs1 ->
  gives (fun rs' s => lexed s ts /\ rstring <$> rs' = rmeaning <$> (rs1 ++ rs))
    (parseredirs_loop buf es fuel rs0 ps).
Proof.
  induction fuel as [|fuel IH]; intros rs rs0 rs1 ts ps H Hn Hr; [done|]. cbn [parseredirs_loop].
  peeks (redir_tokens rs ++ ts). destruct rs as [|[o f] rs].
  - cbn [redir_tokens fmap list_fmap concat app] in *. rewrite Hn. cbn. now rewrite app_nil_r.
  - cbn [redir_tokens fmap list_fmap concat app] in Hl. fold (redir_tokens rs) in Hl.
    replace (starts _ _) with true by now destruct o.
    apply (gives_token _ _ _ _ _ Hl). intros sp s1 Hl1 _.
    apply (gives_token _ _ _ _ _ Hl1). intros sp2 s2 Hl2 Ht. cbn [fst snd code negb Z.eqb].
    eapply (IH rs) in Hl2; [|done|]; [|rewrite fmap_app, Hr; instantiate (1 := rs1 ++ [(o, f)])].
    + rewrite <- app_assoc in Hl2. exact Hl2.
    + rewrite fmap_app. f_equal. cbn. f_equal. unfold redir_of, rstring, rmeaning.
      destruct o; cbn; now rewrite (Ht f).
Qed.

(** What may follow a command, a pipeline and a line. *)
Definition ends_simple (ts : list token) : Prop :=
  match ts with [] => True | t :: _ => t ∈ [TPipe; TAmp; TSemi; TClose] end.
Definition ends_pipe (ts : list token) : Prop :=
  match ts with [] => True | t :: _ => t ∈ [TAmp; TSemi; TClose] end.
Definition ends_line (ts : list token) : Prop :=
  match ts with [] => True | t :: _ => t = TClose end.

Lemma ends_simple_spec ts : ends_simple ts ->
  no_redir ts /\ (ts = [] \/ starts (str "|)&;") ts = true).
Proof.
  destruct ts as [|t ts]; [split; [done|now left]|]. intros H.
  repeat (apply elem_of_cons in H as [->|H]; [split; [done|now right]|]). now apply elem_of_nil in H.
Qed.

Lemma args_gives fuel : forall args argv rs0 argm rs1 ts ps,
  lexed ps (arg_tokens args ++ ts) -> ends_simple ts -> (length argv + length args < MAXARGS)%nat ->
  text_at buf <$> argv = argm -> rstring <$> rs0 = rmeaning <$> rs1 ->
  gives (fun c s => lexed s ts /\
      strings (text_at buf) c =
        with_redirs (Cexec (argm ++ (fst <$> args))) (rs1 ++ concat (snd <$> args)))
    (parseexec_loop buf es fuel argv rs0 ps).
Proof.
  induction fuel as [|fuel IH]; intros args argv rs0 argm rs1 ts ps H He Hlen Ha Hr; [done|].
  cbn [parseexec_loop]. destruct (ends_simple_spec ts He) as [Hnr Hts].
  peeks (arg_tokens args ++ ts). destruct args as [|[w rs] args].
  - cbn [arg_tokens fmap list_fmap concat app] in *. rewrite !app_nil_r.
    assert (Hdone : strings (text_at buf) (wrap (EXEC argv) rs0) = with_redirs (Cexec argm) rs1)
      by (apply wrap_strings; [done|]; cbn; now rewrite Ha).
    destruct Hts as [->| ->]; [|done]. cbn [starts].
    destruct (gettoken_end _ Hl) as (sp & E & Hl'). unfold andthen. rewrite E. done.
  - cbn [arg_tokens fmap list_fmap concat app fst snd] in Hl |- *. fold (arg_tokens args) in Hl.
    cbn [starts]. rewrite <- app_assoc in Hl.
    apply (gives_token _ _ _ _ _ Hl). intros sp s1 Hl1 Ht. cbn [fst snd code negb Z.eqb]. cbv zeta.
    cbn [length] in Hlen.
    rewrite (proj2 (Nat.leb_gt _ _)) by (rewrite length_app; cbn [length]; lia).
    assert (Hnr' : no_redir (arg_tokens args ++ ts)) by (destruct args; [exact Hnr|done]).
    eapply gives_bind; [exact (redirs_gives _ rs rs0 rs1 _ _ Hl1 Hnr' Hr)|]. cbv beta.
    intros rs' s2 [Hl2 Hr2].
    pose proof (IH args (argv ++ [sp]) rs' (argm ++ [w]) (rs1 ++ rs) ts s2 Hl2 He) as HI.
    rewrite <- !app_assoc in HI. apply HI; [rewrite length_app; cbn [length]; lia| |done].
    rewrite fmap_app, Ha. cbn. now rewrite (Ht w).
Qed.

Lemma amps_gives fuel : forall n c m ts ps, lexed ps (replicate n TAmp ++ ts) ->
  starts (str "&") ts = false -> strings (text_at buf) c = m ->
  gives (fun c s => lexed s ts /\ strings (text_at buf) c = Nat.iter n Cback m)
    (amps_loop buf es fuel c ps).
Proof.
  induction fuel as [|fuel IH]; intros n c m ts ps H Hn Hc; [done|]. cbn [amps_loop].
  peeks (replicate n TAmp ++ ts). destruct n as [|n].
  - cbn [replicate app] in *. now rewrite Hn.
  - cbn [replicate app] in Hl |- *. change (starts _ _) with true. cbv iota.
    apply (gives_token _ _ _ _ _ Hl). intros sp s1 Hl1 _.
    pose proof (IH n (BACK c) (Cback m) ts s1 Hl1 Hn ltac:(cbn; now rewrite Hc)) as HI.
    rewrite Nat.iter_succ_r. exact HI.
Qed.

Definition parses (p : nat -> P cmd) (ts : list token) (m : command) (follow : list token -> Prop) : Prop :=
  forall fuel ps rest, lexed ps (ts ++ rest) -> follow rest ->
  gives (fun c s => lexed s rest /\ strings (text_at buf) c = m) (p fuel ps).

Lemma words_parse rs args : simple_fits (Words rs args) ->
  parses (parseexec buf es) (simple_tokens (Words rs args)) (simple_command (Words rs args)) ends_simple.
Proof.
  intros Hfit [|fuel] ps rest H He; [done|]. cbn [parseexec simple_tokens] in *.
  rewrite <- app_assoc in H. destruct (ends_simple_spec rest He) as [Hnr _].
  assert (Hnr' : no_redir (arg_tokens args ++ rest)) by (destruct args; [exact Hnr|done]).
  peeks (redir_tokens rs ++ arg_tokens args ++ rest).
  replace (starts _ _) with false.
  - eapply gives_bind; [exact (redirs_gives _ rs [] [] _ _ Hl Hnr' eq_refl)|]. cbv beta.
    intros rs' s2 [Hl2 Hr2]. exact (args_gives _ args [] rs' [] rs rest s2 Hl2 He Hfit eq_refl Hr2).
  - destruct rs as [|[[| |] f] rs]; [|done|done|done]. destruct args as [|[w rs'] args]; [|done].
    destruct rest as [|t rest]; [done|]. cbn in He.
    repeat (apply elem_of_cons in He as [->|He]; [done|]). now apply elem_of_nil in He.
Qed.

Lemma block_parse l rs : parses (parseline buf es) (line_tokens l) (line_command l) ends_line ->
  parses (parseexec buf es) (simple_tokens (Block l rs)) (simple_command (Block l rs)) ends_simple.
Proof.
  intros IH [|fuel] ps rest H He; [done|]. cbn [parseexec simple_tokens app] in *.
  rewrite <- app_assoc in H. cbn [app] in H. destruct (ends_simple_spec rest He) as [Hnr _].
  peeks (TOpen :: line_tokens l ++ TClose :: redir_tokens rs ++ rest).
  change (starts _ _) with true. cbv iota. destruct fuel as [|fuel]; [done|]. cbn [parseblock].
  peeks (TOpen :: line_tokens l ++ TClose :: redir_tokens rs ++ rest).
  change (starts _ _) with true. cbn [negb].
  apply (gives_token _ _ _ _ _ Hl0). intros sp s2 Hl2 _.
  eapply gives_bind; [exact (IH fuel s2 _ Hl2 eq_refl)|]. cbv beta. intros c s3 [Hl3 Hc].
  peeks (TClose :: redir_tokens rs ++ rest). change (starts _ _) with true. cbn [negb].
  apply (gives_token _ _ _ _ _ Hl1). intros sp' s5 Hl5 _. unfold parseredirs.
  eapply gives_bind; [exact (redirs_gives _ rs [] [] _ _ Hl5 Hnr eq_refl)|]. cbv beta.
  intros rs' s6 [Hl6 Hr6]. split; [done|]. now apply wrap_strings.
Qed.

Lemma pipe_parse s p : parses (parseexec buf es) (simple_tokens s) (simple_command s) ends_simple ->
  parses (parsepipe buf es) (pipe_tokens p) (pipe_command p) ends_pipe ->
  parses (parsepipe buf es) (pipe_tokens (Piped s p)) (pipe_command (Piped s p)) ends_pipe.
Proof.
  intros IHs IHp [|fuel] ps rest H He; [done|]. cbn [parsepipe pipe_tokens] in *.
  rewrite <- app_assoc in H. cbn [app] in H.
  eapply gives_bind; [refine (IHs fuel ps _ H _); now cbn; set_solver|]. cbv beta. intros c s1 [Hl1 Hc].
  peeks (TPipe :: pipe_tokens p ++ rest). change (starts _ _) with true. cbv iota.
  apply (gives_token _ _ _ _ _ Hl). intros sp s3 Hl3 _.
  eapply gives_bind; [exact (IHp fuel s3 _ Hl3 He)|]. cbv beta. intros r s4 [Hl4 Hr].
  split; [done|]. cbn. now rewrite Hc, Hr.
Qed.

(** The pipeline and the [&]s that begin every line. *)
Lemma line_begin {B} p n (R : B -> nat -> Prop) (f : cmd -> P B) fuel rest ps :
  parses (parsepipe buf es) (pipe_tokens p) (pipe_command p) ends_pipe ->
  lexed ps (pipe_tokens p ++ replicate n TAmp ++ rest) ->
  match rest with [] => True | t :: _ => t = TSemi \/ t = TClose end ->
  (forall c s, lexed s rest -> strings (text_at buf) c = Nat.iter n Cback (pipe_command p) ->
    gives R (f c s)) ->
  gives R (andthen (parsepipe buf es fuel) (fun c => andthen (amps_loop buf es (S es) c) f) ps).
Proof.
  intros IHp H Hrest Hf.
  eapply gives_bind; [refine (IHp fuel ps _ H _)|].
  { destruct n as [|n]; [|cbn; set_solver]. destruct rest as [|t rest]; [done|].
    cbn. destruct Hrest as [->| ->]; set_solver. }
  cbv beta. intros c s1 [Hl1 Hc]. eapply gives_bind; [refine (amps_gives _ n c _ rest s1 Hl1 _ Hc)|].
  { destruct rest as [|t rest]; [done|]. now destruct Hrest as [->| ->]. }
  cbv beta. intros c' s2 [Hl2 Hc']. now apply Hf.
Qed.

Lemma grammar_parse :
  (forall l, line_fits l -> parses (parseline buf es) (line_tokens l) (line_command l) ends_line) /\
  (forall p, pipe_fits p -> parses (parsepipe buf es) (pipe_tokens p) (pipe_command p) ends_pipe) /\
  (forall s, simple_fits s -> parses (parseexec buf es) (simple_tokens s) (simple_command s) ends_simple).
Proof.
  apply grammar_mind.
  - intros p IHp n Hfit [|fuel] ps rest H He; [done|]. cbn [parseline line_tokens] in *.
    rewrite <- app_assoc in H. eapply (line_begin p n); [now apply IHp|exact H| |].
    { destruct rest; [done|]. now right. }
    intros c s Hl Hc. peeks rest. replace (starts _ _) with false; [done|].
    destruct rest as [|t rest]; [done|]. cbn in He. now subst t.
  - intros p IHp n l IHl [Hp Hl] [|fuel] ps rest H He; [done|]. cbn [parseline line_tokens] in *.
    rewrite <- !app_assoc in H. cbn [app] in H.
    eapply (line_begin p n); [now apply IHp|exact H|now left|].
    intros c s Hs Hc. peeks (TSemi :: line_tokens l ++ rest). change (starts _ _) with true. cbv iota.
    apply (gives_token _ _ _ _ _ Hl0). intros sp s1 Hl1 _.
    eapply gives_bind; [exact (IHl Hl fuel s1 _ Hl1 He)|]. cbv beta. intros r s2 [Hl2 Hr].
    split; [done|]. cbn. now rewrite Hc, Hr.
  - intros s IHs Hfit [|fuel] ps rest H He; [done|]. cbn [parsepipe pipe_tokens] in *.
    eapply gives_bind; [refine (IHs Hfit fuel ps _ H _)|].
    { destruct rest; [done|]. cbn in *. set_solver. }
    cbv beta. intros c s1 [Hl1 Hc]. peeks rest. replace (starts _ _) with false; [done|].
    destruct rest as [|t rest]; [done|]. cbn in He.
    repeat (apply elem_of_cons in He as [->|He]; [done|]). now apply elem_of_nil in He.
  - intros s IHs p IHp [Hs Hp]. now apply pipe_parse; [apply IHs|apply IHp].
  - intros rs args Hfit. now apply words_parse.
  - intros l IHl rs Hfit. now apply block_parse, IHl.
Qed.
End Lexer.

(** ** Lines that spell a tree *)

Lemma isws_nz c : isws c = true -> c <> 0.
Proof. intros H ->. discriminate. Qed.

Lemma isws_not_symbol c : c ∈ symbols -> isws c = false.
Proof.
  change symbols with [60; 124; 62; 38; 59; 40; 41]. intros H.
  repeat (apply elem_of_cons in H as [->|H]; [reflexivity|]). now apply elem_of_nil in H.
Qed.

Lemma toktext_chars t : token_ok t ->
  Forall (fun c => c <> 0 /\ isws c = false) (toktext t) /\ toktext t <> [].
Proof.
  intros H. destruct t as [w| | | | | | | |]; cbn.
  1:{ destruct H as [H Hw]. split; [|done]. eapply Forall_impl; [exact Hw|]. cbn. intros c Hc.
      split; [now apply wordchar_nz|]. destruct (isws c) eqn:E; [|done]. apply isws_wordchar in E. congruence. }
  all: split; [|done]; repeat constructor; done.
Qed.

Lemma spelled_nz s ts : spelled s ts -> Forall (fun c => c <> 0) s.
Proof.
  induction 1 as [ws H|ws t rest ts H Ht _ _ IH].
  - eapply Forall_impl; [exact H|]. cbn. intros c. apply isws_nz.
  - apply Forall_app. split; [eapply Forall_impl; [exact H|]; cbn; intros c; apply isws_nz|].
    apply Forall_app. split; [|done]. destruct (toktext_chars t Ht) as [Hc _].
    eapply Forall_impl; [exact Hc|]. cbn. tauto.
Qed.

Lemma strlen_str s r : Forall (fun c => c <> 0) s -> Ulib.strlen (s ++ 0 :: r) = length s.
Proof.
  induction s as [|c s IH]; intros H; [done|]. apply Forall_cons in H as [Hc H]. cbn.
  rewrite (proj2 (Z.eqb_neq c 0)) by done. now rewrite IH.
Qed.

(** A byte of the middle part of the buffer. *)
Lemma ch_mid pre s r i : (i < length s)%nat -> ch (pre ++ s ++ r) (length pre + i) = s !!! i.
Proof.
  intros Hi. unfold ch. rewrite lookup_app_r by lia. replace (length pre + i - length pre)%nat with i by lia.
  rewrite lookup_app_l by done. destruct (lookup_lt_is_Some_2 s i Hi) as [x E].
  now rewrite E, (list_lookup_total_correct _ _ _ E).
Qed.

Lemma ch_next pre s : ch (pre ++ s) (length pre) = default 0 (head s).
Proof. unfold ch. rewrite lookup_app_r by lia. rewrite Nat.sub_diag. now destruct s. Qed.

(** A token in the buffer. *)
Lemma tok_at_spelled pre t rest r : token_ok t -> separated t rest ->
  let buf := pre ++ toktext t ++ rest ++ 0 :: r in
  let es := (length pre + length (toktext t) + length rest)%nat in
  tok_at buf es t (length pre) (length pre + length (toktext t)).
Proof.
  intros Hok Hsep buf es.
  assert (Hend : ch buf (length pre + length (toktext t)) = default 0 (head rest)).
  { unfold buf. rewrite app_assoc, <- length_app, ch_next. now destruct rest. }
  assert (Hin : forall i, (i < length (toktext t))%nat -> ch buf (length pre + i) = toktext t !!! i).
  { intros i Hi. now apply ch_mid. }
  assert (H0 : (0 < length (toktext t))%nat -> ch buf (length pre) = toktext t !!! 0%nat).
  { intros Hl. rewrite <- (Hin 0%nat) by done. f_equal. lia. }
  destruct t as [w| | | | | | | |]; cbn [toktext code] in *.
  1:{ destruct Hok as [Hne Hw]. cbn [tok_at]. split.
      - split; [cbn; destruct w; [done|cbn [length]; unfold es; cbn [length toktext]; lia]|].
        cbn [fst snd]. split; [|now rewrite Hend]. intros i Hi.
        replace i with (length pre + (i - length pre))%nat by lia. rewrite Hin by lia.
        apply (proj1 (Forall_lookup_total _ _) Hw). lia.
      - unfold text_at, buf. cbn [fst snd]. rewrite drop_app_length.
        replace (length pre + length w - length pre)%nat with (length w) by lia. apply take_app_length. }
  2:{ cbn [tok_at length] in *. rewrite H0, Hend by lia. repeat split; [lia|done]. }
  2:{ cbn [tok_at length] in *. rewrite H0 by lia. split; [done|].
      split; [|lia]. replace (S (length pre)) with (length pre + 1)%nat by lia. now rewrite Hin by lia. }
  all: cbn [tok_at length code] in *; rewrite H0 by lia; split; [done|lia].
Qed.

Lemma spelled_lexed s ts : spelled s ts -> forall pre r,
  lexed (pre ++ s ++ 0 :: r) (length pre + length s) (length pre) ts.
Proof.
  induction 1 as [ws H|ws t rest ts Hws Hok Hsep _ IH]; intros pre r.
  - split; [lia|]. intros i Hi. replace i with (length pre + (i - length pre))%nat by lia.
    rewrite ch_mid by lia. apply (proj1 (Forall_lookup_total _ _) H). lia.
  - destruct (toktext_chars t Hok) as [Hc Hne].
    assert (Hlen : (0 < length (toktext t))%nat) by (destruct (toktext t); [done|cbn; lia]).
    pose proof (tok_at_spelled (pre ++ ws) t rest r Hok Hsep) as Ht. cbv zeta in Ht.
    pose proof (IH ((pre ++ ws) ++ toktext t) r) as Hl.
    rewrite !length_app in Ht. rewrite !length_app in Hl.
    exists (length pre + length ws)%nat, (length pre + length ws + length (toktext t))%nat.
    rewrite !length_app. repeat rewrite <- app_assoc in Ht. repeat rewrite <- app_assoc in Hl.
    repeat rewrite <- app_assoc.
    rewrite !Nat.add_assoc. split; [lia|]. split; [|split; [|split; [exact Ht|exact Hl]]].
    + intros i Hi. replace i with (length pre + (i - length pre))%nat by lia.
      rewrite ch_mid by lia. apply (proj1 (Forall_lookup_total _ _) Hws). lia.
    + rewrite app_assoc, <- length_app, ch_next. destruct (toktext t) as [|c tx]; [done|].
      apply Forall_cons in Hc as [Hc _]. apply Hc.
Qed.

(** C19. sh.c parsecmd: every line that spells the tokens of a command line of the
    grammar, with any white space between the tokens, is accepted, and the
    command that results, read with the C strings [nulterminate] leaves in the
    buffer, is the one the grammar gives it: pipes and lists associate to the
    right, [&] puts the pipeline before it in the background, redirections
    nest in the order written, and a block in parentheses is one command.  What
    the buffer holds after the line does not matter. *)
Theorem parse_correct : forall l s r,
  line_fits l -> spelled s (line_tokens l) ->
  exists c buf', parsecmd (s ++ 0 :: r) = Ret (c, buf') /\
    strings (strat buf') c = line_command l.
Proof.
  intros l s r Hfit Hs. unfold parsecmd. set (buf := s ++ 0 :: r).
  assert (Hes : Ulib.strlen buf = length s) by (apply strlen_str; now apply spelled_nz in Hs).
  pose proof (strlen_ends buf) as He.
  pose proof (parse_ok buf _ He (parse_fuel (Ulib.strlen buf))) as [Hok _].
  specialize (Hok 0%nat). rewrite Nat.sub_0_r in Hok. specialize (Hok (le_n _) (Nat.le_0_l _)).
  destruct (grammar_parse buf _ He) as [Hg _].
  specialize (Hg l Hfit (parse_fuel (Ulib.strlen buf)) 0%nat []). rewrite app_nil_r in Hg.
  assert (Hl : lexed buf (Ulib.strlen buf) 0 (line_tokens l))
    by (rewrite Hes; exact (spelled_lexed s _ Hs [] r)).
  specialize (Hg Hl I).
  destruct (parseline _ _ _ _) as [c ps|msg|]; [|done|done].
  destruct Hok as [_ Hw], Hg as [Hn Hc].
  rewrite (skip_lexed_nil buf _ He ps Hn), Nat.eqb_refl. cbn [negb].
  eexists _, _. split; [reflexivity|]. rewrite <- Hc. now apply (strings_terminated buf (Ulib.strlen buf)).
Qed.

(** "ls | (wc >f) & ;" with the spaces left out where they may be. *)
Definition ex_line : line :=
  Seq (Piped (Words [] [(str "ls", [])])
        (Single (Block (Last (Single (Words [] [(str "wc", [(Out, str "f")])])) 0) []))) 1
    (Last (Single (Words [] [])) 0).

Lemma parse_correct_witness :
  exists c buf', parsecmd (str "ls |(wc>f)&;" ++ [0; 7]) = Ret (c, buf') /\
    strings (strat buf') c =
      Clist (Cback (Cpipe (Cexec [str "ls"]) (Credir (Cexec [str "wc"]) (str "f") 0x201 1))) (Cexec []).
Proof.
  apply (parse_correct ex_line (str "ls |(wc>f)&;") [7]).
  - cbn. unfold MAXARGS. lia.
  - apply (spelled_cons [] (TWord (str "ls")) (str " |(wc>f)&;")); [constructor|split; [done|repeat constructor]|done|].
    apply (spelled_cons [32] TPipe (str "(wc>f)&;")); [repeat constructor|done|done|].
    apply (spelled_cons [] TOpen (str "wc>f)&;")); [constructor|done|done|].
    apply (spelled_cons [] (TWord (str "wc")) (str ">f)&;")); [constructor|split; [done|repeat constructor]|done|].
    apply (spelled_cons [] TGt (str "f)&;")); [constructor|done|done|].
    apply (spelled_cons [] (TWord (str "f")) (str ")&;")); [constructor|split; [done|repeat constructor]|done|].
    apply (spelled_cons [] TClose (str "&;")); [constructor|done|done|].
    apply (spelled_cons [] TAmp (str ";")); [constructor|done|done|].
    apply (spelled_cons [] TSemi []); [constructor|done|done|].
    constructor. constructor.
Defined.
