(* ===== verification/ShRun.v ===== *)
(** * Running shell commands

    [runcmd] starts a family of processes.  The theorem says what that family is for
    every command: which processes there are, what they wait for, and with which
    descriptors they execute their programs.  It holds for every kernel whose calls
    treat the descriptor tables as the class [Fds] says. *)

From stdpp Require Import fin_maps.
From S2P Require Import Prelude Strings Bytes User Sh.
Import Printf.

(** What a descriptor refers to. *)
Inductive obj : Type :=
| Opened (path : list Z) (mode : Z)
| ReadEnd (pipe : Z)
| WriteEnd (pipe : Z)
| Other (id : Z).

(** [n] is the lowest descriptor that is not open. *)
Definition lowest (t : gmap Z obj) (n : Z) : Prop :=
  0 <= n < 16 /\ t !! n = None /\ forall m, 0 <= m < n -> is_Some (t !! m).

(** There are two descriptors left. *)
Definition room (t : gmap Z obj) : Prop :=
  exists a b, a <> b /\ 0 <= a < 16 /\ 0 <= b < 16 /\ t !! a = None /\ t !! b = None.

(** No descriptor refers to the pipe [k]. *)
Definition new_pipe (t : gmap Z obj) (k : Z) : Prop :=
  forall n, t !! n <> Some (ReadEnd k) /\ t !! n <> Some (WriteEnd k).

(** ** Families of processes *)

(** What a process does that others can see: it ends, executes a program (with its
    descriptors) and goes on if that fails, forks a child, or waits for one. *)
Inductive life : Type :=
| Ends
| Execs (path : list Z) (argv : list (list Z)) (t : gmap Z obj) (rest : life)
| Forks (kid rest : life)
| Waits (rest : life).

(** What the shell relies on, for a kernel with room for its processes and pipes.
    [fdt w] is the descriptor table of the process that makes the calls, [kid w] the
    state in which its child starts, [opens] says which files can be opened. *)
Class Fds {W : Type} (os : kernel_fn W) := {
  fdt : W -> gmap Z obj;
  kid : W -> W;
  opens : list Z -> Z -> bool;
  close_law : forall w fd, exists r w', os _ (Close fd) w = (Some r, w') /\ fdt w' = delete fd (fdt w);
  dup_law : forall w fd o n, fdt w !! fd = Some o -> lowest (fdt w) n ->
    exists w', os _ (Dup fd) w = (Some n, w') /\ fdt w' = <[n := o]> (fdt w);
  open_law : forall w path mode n, lowest (fdt w) n ->
    exists r w', os _ (Open path mode) w = (Some r, w') /\
      if opens path mode then r = n /\ fdt w' = <[n := Opened path mode]> (fdt w) else r = -1;
  pipe_law : forall w, room (fdt w) -> exists p0 p1 w' k, os _ Pipe w = (Some (0, p0, p1), w') /\
    p0 <> p1 /\ fdt w !! p0 = None /\ fdt w !! p1 = None /\ new_pipe (fdt w) k /\
    fdt w' = <[p1 := WriteEnd k]> (<[p0 := ReadEnd k]> (fdt w));
  fork_law : forall w, exists pid w', os _ Fork w = (Some pid, w') /\ 0 < pid /\ fdt w' = fdt w;
  kid_law : forall w, fdt (kid w) = fdt w;
  wait_law : forall w, exists r w', os _ Wait w = (Some r, w') /\ fdt w' = fdt w }.

Section Run.
Context {W : Type} (os : kernel_fn W) `{!Fds os}.

(** The family of the process that runs [p]: at a [fork], both go on. *)
Fixpoint life_of {A} (p : prog A) (w : W) : life :=
  match p with
  | Ret _ | Exit | Spin => Ends
  | @Call _ R c k =>
      let after (r : R) (w' : W) := life_of (k r) w' in
      match c in call R' return (R' -> W -> life) -> life with
      | Fork => fun after =>
          match os _ Fork w with
          | (Some pid, w') => if 0 <? pid then Forks (after 0 (kid w)) (after pid w') else after pid w'
          | (None, _) => Ends
          end
      | Wait => fun after =>
          match os _ Wait w with (Some r, w') => Waits (after r w') | (None, _) => Waits Ends end
      | Exec path argv => fun after =>
          Execs path argv (fdt w)
            match os _ (Exec path argv) w with (Some r, w') => after r w' | (None, _) => Ends end
      | c' => fun after =>
          match os _ c' w with (Some r, w') => after r w' | (None, _) => Ends end
      end after
  end.

(** ** What a command should do *)

(** The family of the command [c], run by a process with the descriptors [t]. *)
Inductive family (buf : list Z) : cmd -> gmap Z obj -> life -> Prop :=
| family_empty t : family buf (EXEC []) t Ends
| family_exec a argv t :
    family buf (EXEC (a :: argv)) t (Execs (strat buf a) (strat buf <$> a :: argv) t Ends)
| family_redir c file mode fd t x :
    opens (strat buf file) mode = true ->
    family buf c (<[fd := Opened (strat buf file) mode]> t) x -> family buf (REDIR c file mode fd) t x
| family_no_file c file mode fd t :
    opens (strat buf file) mode = false -> family buf (REDIR c file mode fd) t Ends
| family_list l r t x y :
    family buf l t x -> family buf r t y -> family buf (LIST l r) t (Forks x (Waits y))
| family_pipe l r t k x y :
    new_pipe t k -> family buf l (<[1 := WriteEnd k]> t) x -> family buf r (<[0 := ReadEnd k]> t) y ->
    family buf (PIPE l r) t (Forks x (Forks y (Waits (Waits Ends))))
| family_back c t x : family buf c t x -> family buf (BACK c) t (Forks x Ends).

(** The redirections are of descriptors 0 and 1, as the parser makes them. *)
Fixpoint standard (c : cmd) : Prop :=
  match c with
  | EXEC _ => True
  | REDIR c _ _ fd => (fd = 0 \/ fd = 1) /\ standard c
  | PIPE l r | LIST l r => standard l /\ standard r
  | BACK c => standard c
  end.

(** Descriptors 0 and 1 are open, as [main] makes sure, and a pipe fits. *)
Definition ready (t : gmap Z obj) : Prop := is_Some (t !! 0) /\ is_Some (t !! 1) /\ room t.

(** ** Lemmas *)

(** The calls that change the process alone. *)
Definition private {R} (c : call R) : bool :=
  match c with Fork | Wait | Exec _ _ => false | _ => true end.

Lemma life_sys {R A} (c : call R) (f : R -> prog A) w r w' :
  os R c w = (Some r, w') -> private c = true -> life_of (pbind (sys c) f) w = life_of (f r) w'.
Proof using. intros E Hc. destruct c; try discriminate; cbn; now rewrite E. Qed.

(** A program that makes only such calls and then returns or ends. *)
Fixpoint quiet {A} (p : prog A) : Prop :=
  match p with
  | Ret _ | Exit | Spin => True
  | Call c k => private c = true /\ forall r, quiet (k r)
  end.

Lemma quiet_bind {A B} (p : prog A) (f : A -> prog B) : quiet p -> (forall a, quiet (f a)) -> quiet (pbind p f).
Proof using. intros Hp Hf. induction p as [a| |R c k IH|]; cbn in *; [auto|done| |done]. destruct Hp. split; auto. Qed.

Lemma life_quiet {A} (p : prog A) : quiet p -> forall w, life_of p w = Ends.
Proof using.
  induction p as [a| |R c k IH|]; intros Hq w; try done. destruct Hq as [Hc Hk].
  destruct c; try discriminate; cbn; destruct (os _ _ w) as [[]]; auto.
Qed.

(** A program that does not come back to its caller. *)
Fixpoint leaves {A} (p : prog A) : Prop :=
  match p with
  | Ret _ => False
  | Exit | Spin => True
  | Call _ k => forall r, leaves (k r)
  end.

Lemma leaves_exit {A} (p : prog A) : leaves (pbind p (fun _ => @Exit unit)).
Proof using. induction p; cbn; auto. Qed.

Lemma runcmd_leaves buf c : leaves (runcmd buf c).
Proof using. destruct c; apply leaves_exit. Qed.

Lemma leaves_call {R A} (c : call R) (f : R -> prog A) : (forall r, leaves (f r)) -> leaves (pbind (sys c) f).
Proof using. intros H. exact H. Qed.

(** What follows such a program does not matter. *)
Lemma life_leaving {A B} (p : prog A) (f : A -> prog B) : leaves p -> forall w, life_of (pbind p f) w = life_of p w.
Proof using.
  induction p as [a| |R c k IH|]; intros Hp w; try done. cbn in Hp.
  destruct c; cbn; destruct (os _ _ w) as [[r|] w']; rewrite ?IH by auto; done.
Qed.

Lemma quiet_putc fd c : quiet (putc fd c).
Proof using. cbn. auto. Qed.

Lemma quiet_puts fd cs : quiet (puts fd cs).
Proof using. induction cs; [done|]. cbn [puts]. apply quiet_bind; [apply quiet_putc|auto]. Qed.

Lemma quiet_printf_loop fd args fmt : forall pct ap, quiet (printf_loop fd fmt pct args ap).
Proof using.
  induction fmt as [|c fmt IH]; intros pct ap; cbn [printf_loop]; [done|].
  repeat case_match; unfold printint;
    repeat first [exact I | apply IH | apply quiet_putc | apply quiet_puts | apply quiet_bind; [|intros []]].
Qed.

Lemma quiet_print fd fmt args : quiet (print fd fmt args).
Proof using. apply quiet_printf_loop. Qed.

(** [fork1] starts the child and goes on. *)
Lemma life_fork1 (f : Z -> prog unit) w : exists pid w',
  0 < pid /\ fdt w' = fdt w /\ life_of (pbind fork1 f) w = Forks (life_of (f 0) (kid w)) (life_of (f pid) w').
Proof using.
  destruct (fork_law w) as (pid & w' & E & Hp & T). exists pid, w'. split_and!; [done|done|].
  cbn. rewrite E, (proj2 (Z.ltb_lt 0 pid)) by done. now rewrite (proj2 (Z.eqb_neq pid (-1))) by lia.
Qed.

Lemma life_wait (f : Z -> prog unit) w : exists r w',
  fdt w' = fdt w /\ life_of (pbind (sys Wait) f) w = Waits (life_of (f r) w').
Proof using. destruct (wait_law w) as (r & w' & E & T). exists r, w'. split; [done|]. cbn. now rewrite E. Qed.

Lemma life_exec path argv (f : Z -> prog unit) w : life_of (pbind (sys (Exec path argv)) f) w =
  Execs path argv (fdt w) match os _ (Exec path argv) w with (Some r, w') => life_of (f r) w' | (None, _) => Ends end.
Proof using. reflexivity. Qed.

(** The branch of the child, which never comes back, and that of the parent. *)
Lemma life_child (p : prog unit) (f : unit -> prog unit) w :
  leaves p -> life_of (pbind (child 0 p) f) w = life_of p w.
Proof using. intros H. now apply life_leaving. Qed.

Lemma life_parent pid (p : prog unit) (f : unit -> prog unit) w :
  0 < pid -> life_of (pbind (child pid p) f) w = life_of (f tt) w.
Proof using. intros H. unfold child. now rewrite (proj2 (Z.eqb_neq pid 0)) by lia. Qed.

(** A final [exit] changes nothing. *)
Lemma life_exit {A} (p : prog A) : forall w, life_of (pbind p (fun _ => @Exit unit)) w = life_of p w.
Proof using.
  induction p as [a| |R c k IH|]; intros w; try done.
  destruct c; cbn; destruct (os _ _ w) as [[r|] w']; rewrite ?IH; done.
Qed.

(** [close(n); dup(p); close(p0); close(p1)] puts what [p] refers to at [n]. *)
Lemma plumb t n p p0 p1 o (q : prog unit) w :
  fdt w = <[p1 := WriteEnd o]> (<[p0 := ReadEnd o]> t) -> p0 <> p1 -> t !! p0 = None -> t !! p1 = None ->
  0 <= n < 2 -> (forall m, 0 <= m <= n -> is_Some (t !! m)) -> p = p0 \/ p = p1 ->
  exists w', life_of (pbind (sys (Close n)) (fun _ => pbind (sys (Dup p)) (fun _ =>
      pbind (sys (Close p0)) (fun _ => pbind (sys (Close p1)) (fun _ => q))))) w = life_of q w' /\
    fdt w' = <[n := if decide (p = p0) then ReadEnd o else WriteEnd o]> t.
Proof using.
  intros Ht Hne H0 H1 Hn Hopen Hp.
  assert (Hd : forall m, 0 <= m <= n -> m <> p0 /\ m <> p1).
  { intros m Hm. destruct (Hopen m Hm). split; congruence. }
  destruct (Hd n ltac:(lia)) as [Hn0 Hn1].
  destruct (close_law w n) as (r1 & w1 & E1 & T1). rewrite (life_sys _ _ _ _ _ E1 eq_refl).
  assert (Hl : lowest (fdt w1) n).
  { rewrite T1. split; [lia|]. split; [apply lookup_delete_eq|]. intros m Hm.
    destruct (Hd m ltac:(lia)). rewrite lookup_delete_ne by lia.
    rewrite Ht, !lookup_insert_ne by congruence. apply Hopen. lia. }
  assert (Hp1 : fdt w1 !! p = Some (if decide (p = p0) then ReadEnd o else WriteEnd o)).
  { rewrite T1, Ht. destruct Hp as [->| ->].
    - rewrite lookup_delete_ne, lookup_insert_ne, lookup_insert_eq, decide_True; done.
    - rewrite lookup_delete_ne, lookup_insert_eq, decide_False by congruence. done. }
  destruct (dup_law w1 p _ n Hp1 Hl) as (w2 & E2 & T2). rewrite (life_sys _ _ _ _ _ E2 eq_refl).
  destruct (close_law w2 p0) as (r3 & w3 & E3 & T3). rewrite (life_sys _ _ _ _ _ E3 eq_refl).
  destruct (close_law w3 p1) as (r4 & w4 & E4 & T4). rewrite (life_sys _ _ _ _ _ E4 eq_refl).
  exists w4. split; [done|]. rewrite T4, T3, T2, T1, Ht. set (x := if decide _ then _ else _).
  apply map_eq. intros i.
  destruct (decide (i = p1)) as [->|]; [rewrite lookup_delete_eq, lookup_insert_ne by congruence; done|].
  rewrite lookup_delete_ne by congruence.
  destruct (decide (i = p0)) as [->|]; [rewrite lookup_delete_eq, lookup_insert_ne by congruence; done|].
  rewrite lookup_delete_ne by congruence.
  destruct (decide (i = n)) as [->|]; [now rewrite !lookup_insert_eq|].
  rewrite !lookup_insert_ne, lookup_delete_ne, !lookup_insert_ne by congruence. done.
Qed.

Lemma ready_insert t n o : ready t -> n = 0 \/ n = 1 -> ready (<[n := o]> t).
Proof using.
  intros (H0 & H1 & a & b & Hab & Ha & Hb & Na & Nb) Hn. split_and!.
  - destruct Hn as [->| ->]; [rewrite lookup_insert_eq; eauto|now rewrite lookup_insert_ne].
  - destruct Hn as [->| ->]; [now rewrite lookup_insert_ne|rewrite lookup_insert_eq; eauto].
  - assert (Hne : forall m, t !! m = None -> n <> m).
    { intros m Hm ->. destruct Hn as [->| ->]; [destruct H0|destruct H1]; congruence. }
    exists a, b. split_and!; [done|lia..|now rewrite lookup_insert_ne by auto|now rewrite lookup_insert_ne by auto].
Qed.

Lemma ready_open t n m : ready t -> 0 <= n < 2 -> 0 <= m <= n -> is_Some (t !! m).
Proof using. intros (H0 & H1 & _) Hn Hm. assert (m = 0 \/ m = 1) as [->| ->] by lia; done. Qed.

(** ** The cases *)

Section Cases.
Context (buf : list Z).

(** [runcmd] of [c] does what it should, from every state. *)
Definition runs (c : cmd) : Prop := forall w, ready (fdt w) -> family buf c (fdt w) (life_of (runcmd buf c) w).

Lemma runs_redir c file mode fd : fd = 0 \/ fd = 1 -> runs c -> runs (REDIR c file mode fd).
Proof using.
  intros Hfd IH w Hr. cbn [runcmd]. rewrite life_exit.
  destruct (close_law w fd) as (r1 & w1 & E1 & T1). rewrite (life_sys _ _ _ _ _ E1 eq_refl).
  assert (Hl : lowest (fdt w1) fd).
  { rewrite T1. split; [lia|]. split; [apply lookup_delete_eq|]. intros m Hm.
    rewrite lookup_delete_ne by lia. apply (ready_open _ fd m Hr); lia. }
  destruct (open_law w1 (strat buf file) mode fd Hl) as (r2 & w2 & E2 & H2). rewrite (life_sys _ _ _ _ _ E2 eq_refl).
  destruct (opens (strat buf file) mode) eqn:Eo.
  - destruct H2 as [-> T2]. rewrite (proj2 (Z.ltb_ge fd 0)) by lia. apply family_redir; [done|].
    assert (T : fdt w2 = <[fd := Opened (strat buf file) mode]> (fdt w)) by (rewrite T2, T1; apply insert_delete_eq).
    rewrite <- T. apply IH. rewrite T. now apply ready_insert.
  - subst r2. cbn [Z.ltb Z.compare]. rewrite life_exit, (life_quiet _ (quiet_print _ _ _)). now apply family_no_file.
Qed.

Lemma runs_list l r : runs l -> runs r -> runs (LIST l r).
Proof using.
  intros IHl IHr w Hr. cbn [runcmd]. rewrite life_exit.
  destruct (life_fork1 (fun pid => child pid (runcmd buf l) ;; sys Wait ;; runcmd buf r) w) as (pid & w1 & Hp & T1 & R1).
  rewrite R1, life_child, life_parent by (done || apply runcmd_leaves).
  destruct (life_wait (fun _ => runcmd buf r) w1) as (e & w2 & T2 & R2). rewrite R2.
  apply family_list.
  - rewrite <- (kid_law w). apply IHl. now rewrite kid_law.
  - rewrite <- T1, <- T2. apply IHr. now rewrite T2, T1.
Qed.

Lemma runs_back c : runs c -> runs (BACK c).
Proof using.
  intros IH w Hr. cbn [runcmd]. rewrite life_exit.
  destruct (life_fork1 (fun pid => child pid (runcmd buf c)) w) as (pid & w1 & Hp & T1 & R1). rewrite R1.
  unfold child. cbn [Z.eqb]. rewrite (proj2 (Z.eqb_neq pid 0)) by lia. apply family_back.
  rewrite <- (kid_law w). apply IH. now rewrite kid_law.
Qed.

Lemma runs_pipe l r : runs l -> runs r -> runs (PIPE l r).
Proof using.
  intros IHl IHr w Hr. pose proof Hr as (_ & _ & Hroom). cbn [runcmd]. rewrite life_exit.
  destruct (pipe_law w Hroom) as (p0 & p1 & w1 & k & E1 & Hne & N0 & N1 & Hk & T1).
  rewrite (life_sys _ _ _ _ _ E1 eq_refl). cbn [Z.ltb Z.compare].
  match goal with |- context [life_of (pbind fork1 ?f) w1] => destruct (life_fork1 f w1) as (pid & w2 & Hp & T2 & R2) end.
  rewrite R2. clear R2. rewrite life_child by (repeat (apply leaves_call; intros _); apply runcmd_leaves).
  rewrite life_parent by done.
  match goal with |- context [life_of (pbind fork1 ?f) w2] => destruct (life_fork1 f w2) as (pid' & w3 & Hp' & T3 & R3) end.
  rewrite R3. clear R3. rewrite life_child by (repeat (apply leaves_call; intros _); apply runcmd_leaves).
  rewrite life_parent by done.
  destruct (plumb (fdt w) 1 p1 p0 p1 k (runcmd buf l) (kid w1)) as (wl & Rl & Tl);
    [now rewrite kid_law|done..|lia|intros m Hm; now apply (ready_open _ 1)|now right|].
  destruct (plumb (fdt w) 0 p0 p0 p1 k (runcmd buf r) (kid w2)) as (wr & Rr & Tr);
    [now rewrite kid_law, T2|done..|lia|intros m Hm; now apply (ready_open _ 0)|now left|].
  rewrite decide_False in Tl by congruence. rewrite decide_True in Tr by done. rewrite Rl, Rr.
  destruct (close_law w3 p0) as (r4 & w4 & E4 & _). rewrite (life_sys _ _ _ _ _ E4 eq_refl).
  destruct (close_law w4 p1) as (r5 & w5 & E5 & _). rewrite (life_sys _ _ _ _ _ E5 eq_refl).
  destruct (life_wait (fun _ => sys Wait ;; Ret tt) w5) as (r6 & w6 & _ & R6). rewrite R6.
  destruct (life_wait (fun _ => Ret tt) w6) as (r7 & w7 & _ & R7). rewrite R7.
  apply (family_pipe _ _ _ _ k); [done|..].
  - rewrite <- Tl. apply IHl. rewrite Tl. apply ready_insert; [done|now right].
  - rewrite <- Tr. apply IHr. rewrite Tr. apply ready_insert; [done|now left].
Qed.

Lemma runs_exec argv : runs (EXEC argv).
Proof using.
  intros w _. cbn [runcmd]. rewrite life_exit. destruct argv as [|a argv]; [apply family_empty|].
  rewrite life_exec. destruct (os _ (Exec _ _) w) as [[r|] w']; [|apply family_exec].
  rewrite (life_quiet _ (quiet_print _ _ _)). apply family_exec.
Qed.
End Cases.

End Run.

(** ** A kernel with a descriptor table

    Its only file that cannot be opened is the one with the empty name. *)
Record proc_view : Type := mkView { tab : gmap Z obj; pids : Z }.

Fixpoint first_free (t : gmap Z obj) (k : nat) (i : Z) : option Z :=
  match k with
  | O => None
  | S k' => match t !! i with None => Some i | Some _ => first_free t k' (i + 1) end
  end.

Lemma first_free_lowest t n : forall k i, i <= n < i + Z.of_nat k -> t !! n = None ->
  (forall m, i <= m < n -> is_Some (t !! m)) -> first_free t k i = Some n.
Proof.
  induction k as [|k IH]; intros i Hi Hn Hm; [lia|]. cbn [first_free].
  destruct (decide (i = n)) as [->|Hne]; [now rewrite Hn|].
  destruct (Hm i ltac:(lia)) as [o ->]. apply IH; [lia|done|]. intros m H. apply Hm. lia.
Qed.

Lemma first_free_none t n : forall k i, first_free t k i = Some n -> t !! n = None.
Proof.
  induction k as [|k IH]; intros i; [done|]. cbn [first_free].
  destruct (t !! i) eqn:E; [apply IH|]. now intros [= <-].
Qed.

Lemma first_free_found t a : forall k i, i <= a < i + Z.of_nat k -> t !! a = None -> is_Some (first_free t k i).
Proof.
  induction k as [|k IH]; intros i Hi Ha; [lia|]. cbn [first_free].
  destruct (t !! i) as [o|] eqn:E; [|eauto]. apply IH; [|done].
  destruct (decide (i = a)) as [->|]; [congruence|lia].
Qed.

#[local] Arguments first_free : simpl never.

(** The pipes a table refers to, and one that it does not. *)
Definition pipe_id (o : obj) : Z := match o with ReadEnd k | WriteEnd k => k | _ => 0 end.
Definition unused_pipe (t : gmap Z obj) : Z := fresh (list_to_set (pipe_id <$> (map_to_list t).*2) : gset Z).

Lemma unused_pipe_new t : new_pipe t (unused_pipe t).
Proof.
  assert (H : forall n o, t !! n = Some o -> pipe_id o <> unused_pipe t).
  { intros n o Ho E. apply (is_fresh (list_to_set (pipe_id <$> (map_to_list t).*2) : gset Z)). fold (unused_pipe t). rewrite <- E.
    apply elem_of_list_to_set, list_elem_of_fmap_2. apply (list_elem_of_fmap_2 snd _ (n, o)). now apply elem_of_map_to_list. }
  intros n. split; intros E; exact (H n _ E eq_refl).
Qed.

Definition view_os : kernel_fn proc_view := fun R c w =>
  let t := tab w in
  match c in call R return option R * proc_view with
  | Close fd => (Some 0, mkView (delete fd t) (pids w))
  | Dup fd =>
      match t !! fd, first_free t 16 0 with
      | Some o, Some n => (Some n, mkView (<[n := o]> t) (pids w))
      | _, _ => (Some (-1), w)
      end
  | Open path mode =>
      match path, first_free t 16 0 with
      | _ :: _, Some n => (Some n, mkView (<[n := Opened path mode]> t) (pids w))
      | _, _ => (Some (-1), w)
      end
  | Pipe =>
      match first_free t 16 0 with
      | Some p0 =>
          match first_free (<[p0 := ReadEnd (unused_pipe t)]> t) 16 0 with
          | Some p1 => (Some (0, p0, p1),
              mkView (<[p1 := WriteEnd (unused_pipe t)]> (<[p0 := ReadEnd (unused_pipe t)]> t)) (pids w))
          | None => (Some (-1, 0, 0), w)
          end
      | None => (Some (-1, 0, 0), w)
      end
  | Fork => (Some (1 + Z.abs (pids w)), mkView t (1 + Z.abs (pids w)))
  | Wait => (Some 1, w)
  | _ => (None, w)
  end.

Definition openable (path : list Z) (mode : Z) : bool := match path with [] => false | _ => true end.

#[export] Program Instance view_fds : Fds view_os := {|
  fdt := tab;
  kid := fun w => w;
  opens := openable |}.
Next Obligation. intros w fd. eexists _, _. split; reflexivity. Qed.
Next Obligation.
  intros w fd o n Ho (Hn & H1 & H2). cbn. rewrite Ho, (first_free_lowest (tab w) n 16 0) by done.
  eexists. split; reflexivity.
Qed.
Next Obligation.
  intros w path mode n (Hn & H1 & H2). cbn. rewrite (first_free_lowest (tab w) n 16 0) by done.
  destruct path; eexists _, _; (split; [reflexivity|done]).
Qed.
Next Obligation.
  intros w (a & b & Hab & Ha & Hb & Na & Nb). cbn beta in *. cbn [view_os]. cbn.
  destruct (first_free_found (tab w) a 16 0 ltac:(lia) Na) as [p0 E0]. rewrite E0. pose proof (first_free_none _ _ _ _ E0) as N0.
  set (k := unused_pipe (tab w)).
  assert (Hf : is_Some (first_free (<[p0 := ReadEnd k]> (tab w)) 16 0)).
  { destruct (decide (p0 = a)) as [->|].
    - apply (first_free_found _ b); [lia|now rewrite lookup_insert_ne].
    - apply (first_free_found _ a); [lia|now rewrite lookup_insert_ne]. }
  destruct Hf as [p1 E1]. rewrite E1. pose proof (first_free_none _ _ _ _ E1) as N1.
  assert (Hne : p0 <> p1) by (intros ->; now rewrite lookup_insert_eq in N1). rewrite lookup_insert_ne in N1 by done.
  eexists p0, p1, _, k. split_and!; [reflexivity|done..|apply unused_pipe_new|done].
Qed.
Next Obligation. intros w. eexists _, _. split_and!; [reflexivity|lia|reflexivity]. Qed.
Next Obligation. reflexivity. Qed.
Next Obligation. intros w. eexists _, _. split; reflexivity. Qed.

(** The shell's descriptors 0, 1 and 2, and [a | b > c ; a &] with the words in the
    buffer. *)
Definition ex_table : gmap Z obj := <[0 := Other 0]> (<[1 := Other 1]> (<[2 := Other 2]> ∅)).
Definition ex_buf : list Z := [97; 0; 98; 0; 99; 0].
Definition ex_cmd : cmd :=
  LIST (PIPE (EXEC [(0%nat, 1%nat)]) (REDIR (EXEC [(2%nat, 3%nat)]) (4%nat, 5%nat) O_WRONLY 1)) (BACK (EXEC [(0%nat, 1%nat)])).

