(* ===== verification/Umalloc.v ===== *)
(** * The user-level allocator (umalloc.c)

    Memory is the address space of the process; a [Header] is 8 bytes, [ptr] at
    offset 0 and [size] at offset 4, and [size] counts headers.  [base] is the
    address of the static header, [freep] the static pointer.  The walks of the
    circular free list run within a bound [fuel]. *)

From S2P Require Import Prelude CMem User.

Record heap : Type := mkHeap { hmem : gmap Z Z; freep : Z }.

Section Allocator.
Context (base : Z).

Definition hptr (m : gmap Z Z) (p : Z) : Z := load32 m p.
Definition hsize (m : gmap Z Z) (p : Z) : Z := load32 m (p + 4).
Definition set_ptr (m : gmap Z Z) (p v : Z) : gmap Z Z := store32 m p v.
Definition set_size (m : gmap Z Z) (p v : Z) : gmap Z Z := store32 m (p + 4) v.

(** [p + n] for a [Header *p]. *)
Definition hadd (p n : Z) : Z := u32 (p + 8 * n).

(** The [for] loop of [free]: where to insert [bp]. *)
Fixpoint free_loop (fuel : nat) (m : gmap Z Z) (bp p : Z) : option Z :=
  match fuel with
  | O => None
  | S fuel' =>
      let next := hptr m p in
      if (p <? bp) && (bp <? next) then Some p
      else if (next <=? p) && ((p <? bp) || (bp <? next)) then Some p
      else free_loop fuel' m bp next
  end.

Definition free (fuel : nat) (h : heap) (ap : Z) : option heap :=
  let m := hmem h in
  let bp := u32 (ap - 8) in
  match free_loop fuel m bp (freep h) with
  | None => None
  | Some p =>
      let next := hptr m p in
      let m :=
        if hadd bp (hsize m bp) =? next then
          let m := set_size m bp (hsize m bp + hsize m next) in
          set_ptr m bp (hptr m next)
        else set_ptr m bp next in
      let m :=
        if hadd p (hsize m p) =? bp then
          let m := set_size m p (hsize m p + hsize m bp) in
          set_ptr m p (hptr m bp)
        else set_ptr m p bp in
      Some (mkHeap m p)
  end.

(** The result is 0 or the new [freep]. *)
Definition morecore (fuel : nat) (h : heap) (nu : Z) : prog (Z * heap) :=
  let nu := if nu <? 4096 then 4096 else nu in
  p <- sys (Sbrk (s32 (nu * 8))) ;;
  if p =? u32 (-1) then Ret (0, h)
  else
    let h := mkHeap (set_size (hmem h) p nu) (freep h) in
    match free fuel h (hadd p 1) with
    | None => Spin
    | Some h => Ret (freep h, h)
    end.

(** The [for] loop of [malloc]. *)
Fixpoint malloc_loop (fuel : nat) (h : heap) (nunits prevp p : Z) : prog (Z * heap) :=
  match fuel with
  | O => Spin
  | S fuel' =>
      let m := hmem h in
      if nunits <=? hsize m p then
        if hsize m p =? nunits then
          Ret (hadd p 1, mkHeap (set_ptr m prevp (hptr m p)) prevp)
        else
          let m := set_size m p (hsize m p - nunits) in
          let p := hadd p (hsize m p) in
          Ret (hadd p 1, mkHeap (set_size m p nunits) prevp)
      else if p =? freep h then
        r <- morecore fuel h nunits ;;
        let '(p, h) := r in
        if p =? 0 then Ret (0, h)
        else malloc_loop fuel' h nunits p (hptr (hmem h) p)
      else malloc_loop fuel' h nunits p (hptr m p)
  end.

(** [(nbytes + sizeof(Header) - 1)/sizeof(Header) + 1] in 32-bit arithmetic. *)
Definition units (nbytes : Z) : Z := u32 (nbytes + 8 - 1) / 8 + 1.

Definition malloc (fuel : nat) (h : heap) (nbytes : Z) : prog (Z * heap) :=
  let nunits := units nbytes in
  let h :=
    if freep h =? 0 then mkHeap (set_size (set_ptr (hmem h) base base) base 0) base else h in
  let prevp := freep h in
  malloc_loop fuel h nunits prevp (hptr (hmem h) prevp).
End Allocator.
