(* ===== verification/UmallocSpec.v ===== *)
(** * The free list of the user-level allocator

    The free list is a circle of headers in memory.  Seen from the static header
    [base] it is a list of blocks in increasing order of address; the walks of
    [malloc] and [free] start anywhere in the circle. *)

From S2P Require Import Prelude CMem User Umalloc.

(** A block is a pair of an address and a number of headers. *)

(** The address of the first block of a list, or [e] when it is empty. *)
Definition first (L : list (Z * Z)) (e : Z) : Z := match L with [] => e | b :: _ => b.1 end.

(** In memory, the blocks of [L] are linked in order and the last points to [e]. *)
Fixpoint seg (m : gmap Z Z) (L : list (Z * Z)) (e : Z) : Prop :=
  match L with
  | [] => True
  | b :: L' => hptr m b.1 = first L' e /\ hsize m b.1 = b.2 /\ seg m L' e
  end.

Definition circ (m : gmap Z Z) (L : list (Z * Z)) : Prop := seg m L (first L 0).

Lemma first_app L1 L2 e : first (L1 ++ L2) e = first L1 (first L2 e).
Proof. now destruct L1. Qed.

Lemma hseg_app m L1 : forall L2 e, seg m (L1 ++ L2) e <-> seg m L1 (first L2 e) /\ seg m L2 e.
Proof.
  induction L1 as [|b L1 IH]; intros L2 e; cbn [app seg]; [tauto|].
  rewrite IH, first_app. tauto.
Qed.

(** The circle may be entered anywhere. *)
Lemma circ_rotate m L1 L2 : circ m (L1 ++ L2) -> circ m (L2 ++ L1).
Proof.
  unfold circ. destruct L1 as [|b1 L1]; [now rewrite app_nil_r|].
  destruct L2 as [|b2 L2]; [now rewrite app_nil_r|].
  rewrite !hseg_app. cbn [first app]. tauto.
Qed.

(** ** Stores next to the list *)

(** The 4 bytes at [x] are in no header of [L]. *)
Definition away (x : Z) (L : list (Z * Z)) : Prop := Forall (fun b => x + 4 <= b.1 \/ b.1 + 8 <= x) L.

Lemma seg_away m x v L e : away x L -> seg m L e -> seg (store32 m x v) L e.
Proof.
  induction L as [|b L IH]; intros Ha; [done|]. apply Forall_cons in Ha as [Hb Ha].
  cbn [seg]. unfold hptr, hsize. rewrite !load32_store32_ne by lia. intros (H1 & H2 & H3).
  split; [done|]. split; [done|]. now apply IH.
Qed.

(** Changing where the last block of a segment points. *)
Lemma seg_relink m L b e v : 0 <= v < 2 ^ 32 -> away b.1 L -> seg m (L ++ [b]) e ->
  seg (set_ptr m b.1 v) (L ++ [b]) v.
Proof.
  intros Hv Ha H. apply hseg_app in H as [H1 H2]. cbn [seg first] in H1, H2. destruct H2 as (_ & H2 & _).
  apply hseg_app. split; [now apply seg_away|]. cbn [seg first]. unfold hptr, hsize, set_ptr in *.
  rewrite load32_store32_eq, u32_small, load32_store32_ne by lia. done.
Qed.

(** Changing the size of a block. *)
Lemma seg_resize m L1 a n L2 e n' : 0 <= n' < 2 ^ 32 -> away (a + 4) L1 -> away (a + 4) L2 ->
  seg m (L1 ++ (a, n) :: L2) e -> seg (set_size m a n') (L1 ++ (a, n') :: L2) e.
Proof.
  intros Hn H1 H2. rewrite !hseg_app. cbn [seg first fst snd]. intros (S1 & P & _ & S2).
  split; [now apply seg_away|]. unfold hptr, hsize, set_size in *.
  rewrite load32_store32_ne, load32_store32_eq, u32_small by lia.
  split; [done|]. split; [done|]. now apply seg_away.
Qed.

(** ** Blocks in increasing order *)

(** The blocks of [F] lie between [lo] and [hi], in order and disjoint. *)
Fixpoint ordered (lo : Z) (F : list (Z * Z)) (hi : Z) : Prop :=
  match F with
  | [] => lo <= hi
  | b :: F' => lo <= b.1 /\ 1 <= b.2 /\ ordered (b.1 + 8 * b.2) F' hi
  end.

Lemma ordered_app F1 : forall lo F2 hi,
  ordered lo (F1 ++ F2) hi <-> exists mid, ordered lo F1 mid /\ ordered mid F2 hi.
Proof.
  induction F1 as [|b F1 IH]; intros lo F2 hi; cbn [app ordered].
  - split; [intros H; now exists lo|]. intros (mid & H1 & H2). revert H1 H2. clear.
    destruct F2 as [|b F2]; cbn [ordered]; intros; lia || (intuition lia).
  - setoid_rewrite IH. naive_solver.
Qed.

Lemma ordered_le F : forall lo hi, ordered lo F hi -> lo <= hi.
Proof.
  induction F as [|b F IH]; intros lo hi; cbn [ordered]; [done|]. intros (H1 & H2 & H3).
  apply IH in H3. lia.
Qed.

Lemma ordered_weaken F : forall lo lo' hi hi', lo' <= lo -> hi <= hi' -> ordered lo F hi -> ordered lo' F hi'.
Proof.
  induction F as [|b F IH]; intros lo lo' hi hi' Hl Hh; cbn [ordered]; [lia|]. intros (H1 & H2 & H3).
  split; [lia|]. split; [done|]. now apply (IH _ _ hi hi' (Z.le_refl _) Hh).
Qed.

(** Every block of the list lies inside the bounds. *)
Lemma ordered_bounds F : forall lo hi, ordered lo F hi ->
  Forall (fun b => lo <= b.1 /\ 1 <= b.2 /\ b.1 + 8 * b.2 <= hi) F.
Proof.
  induction F as [|b F IH]; intros lo hi; cbn [ordered]; [constructor|]. intros (H1 & H2 & H3).
  pose proof (ordered_le _ _ _ H3). constructor; [lia|].
  eapply Forall_impl; [exact (IH _ _ H3)|]. cbn. lia.
Qed.

Lemma ordered_away F lo hi x : ordered lo F hi -> x + 4 <= lo \/ hi <= x -> away x F.
Proof.
  intros H Hx. eapply Forall_impl; [exact (ordered_bounds _ _ _ H)|]. cbn. lia.
Qed.

(** The addresses a list of blocks covers. *)
Definition covers (F : list (Z * Z)) (x : Z) : Prop := exists b, b ∈ F /\ b.1 <= x < b.1 + 8 * b.2.

Lemma covers_cons b F x : covers (b :: F) x <-> b.1 <= x < b.1 + 8 * b.2 \/ covers F x.
Proof.
  unfold covers. split.
  - intros (c & Hc & Hx). apply elem_of_cons in Hc as [->|Hc]; eauto.
  - intros [Hx|(c & Hc & Hx)]; eexists; (split; [|eassumption]); set_solver.
Qed.

Lemma covers_app F1 F2 x : covers (F1 ++ F2) x <-> covers F1 x \/ covers F2 x.
Proof. unfold covers. set_solver. Qed.

Lemma covers_nil x : ~ covers [] x.
Proof. intros (b & Hb & _). now apply elem_of_nil in Hb. Qed.

Lemma covers_bounds F lo hi x : ordered lo F hi -> covers F x -> lo <= x < hi.
Proof.
  intros H (b & Hb & Hx). apply ordered_bounds in H.
  pose proof (proj1 (Forall_forall _ _) H b Hb). cbn in *. lia.
Qed.

(** ** The walk of [free] *)

Definition below (x y : Z * Z) : Prop := x.1 + 8 <= y.1.

Lemma ordered_sorted F : forall b hi, ordered (b.1 + 8) F hi -> StronglySorted below (b :: F).
Proof.
  induction F as [|c F IH]; intros b hi H; [repeat constructor|].
  destruct H as (H1 & H2 & H3). constructor.
  - apply (IH c hi). eapply ordered_weaken; [| |exact H3]; lia.
  - constructor; [unfold below; lia|]. eapply Forall_impl; [exact (ordered_bounds _ _ _ H3)|].
    unfold below. cbn. lia.
Qed.

Lemma sorted_mid L1 b L2 : StronglySorted below (L1 ++ b :: L2) ->
  Forall (fun c => below c b) L1 /\ Forall (below b) L2 /\ StronglySorted below (b :: L2).
Proof.
  induction L1 as [|c L1 IH]; cbn [app]; intros H.
  - apply StronglySorted_inv in H as [H1 H2]. split; [constructor|]. split; [done|]. now constructor.
  - apply StronglySorted_inv in H as [H1 H2]. destruct (IH H1) as (G1 & G2 & G3).
    apply Forall_app in H2 as [_ H2]. apply Forall_cons in H2 as [H2 _].
    split; [now constructor|done].
Qed.

Section Walk.
Context (m : gmap Z Z) (base bp : Z).
Hypothesis base_bp : base < bp.

(** From a block below [p] the walk goes on to [p]. *)
Lemma walk_before p pn L2 e fuel : p < bp -> free_loop (S fuel) m bp p = Some p -> forall L,
  StronglySorted below (L ++ (p, pn) :: L2) -> seg m (L ++ (p, pn) :: L2) e ->
  free_loop (length L + S fuel) m bp (first (L ++ [(p, pn)]) 0) = Some p.
Proof.
  intros Hp Hstop. induction L as [|b L IH]; intros Hs Hseg; [exact Hstop|].
  cbn [app seg] in Hseg. destruct Hseg as (E & _ & Hseg).
  cbn [app] in Hs. apply StronglySorted_inv in Hs as [Hs Hb].
  assert (Hnext : first (L ++ (p, pn) :: L2) e = first (L ++ [(p, pn)]) 0) by now destruct L.
  assert (Hlt : b.1 < first (L ++ [(p, pn)]) 0 <= p).
  { destruct L as [|c L]; cbn [app first fst] in *.
    - apply Forall_cons in Hb as [Hb _]. unfold below in Hb. cbn in Hb. lia.
    - apply Forall_cons in Hb as [Hb _]. unfold below in Hb.
      apply StronglySorted_inv in Hs as [_ Hs]. apply Forall_app in Hs as [_ Hs].
      apply Forall_cons in Hs as [Hs _]. unfold below in Hs. cbn in Hs. lia. }
  cbn [app first length Nat.add free_loop]. rewrite E, Hnext.
  rewrite (proj2 (Z.ltb_ge bp _)), andb_false_r by lia.
  rewrite (proj2 (Z.leb_gt _ b.1)), andb_false_l by lia. now apply IH.
Qed.

(** From a block above [bp] the walk goes on to the end and to [base]. *)
Lemma walk_after fuel : forall L, StronglySorted below L -> seg m L base ->
  Forall (fun b => bp < b.1) L ->
  free_loop (length L + fuel) m bp (first L base) = free_loop fuel m bp base.
Proof.
  induction L as [|b L IH]; intros Hs Hseg Hb; [done|].
  destruct Hseg as (E & _ & Hseg). apply StronglySorted_inv in Hs as [Hs Hbs].
  apply Forall_cons in Hb as [Hb HL]. cbn [first length Nat.add free_loop]. rewrite E.
  rewrite (proj2 (Z.ltb_ge b.1 bp)) by lia. cbn [andb orb].
  replace ((first L base <=? b.1) && (bp <? first L base)) with false; [now apply IH|].
  destruct L as [|c L]; cbn [first].
  - rewrite (proj2 (Z.ltb_ge bp base)) by lia. now rewrite andb_false_r.
  - apply Forall_cons in Hbs as [Hbs _]. unfold below in Hbs.
    rewrite (proj2 (Z.leb_gt c.1 b.1)) by lia. done.
Qed.

(** The position found: the last block below [bp]. *)
Lemma free_loop_spec F hi L1 p pn L2 q fuel :
  ordered (base + 8) F hi -> (base, 0) :: F = L1 ++ (p, pn) :: L2 ->
  circ m ((base, 0) :: F) -> p < bp -> Forall (fun b => bp < b.1) L2 ->
  q ∈ ((base, 0) :: F).*1 -> (length ((base, 0%Z) :: F) <= fuel)%nat ->
  free_loop fuel m bp q = Some p.
Proof.
  intros Ho EL Hc Hp H2 Hq Hf. pose proof (ordered_sorted F (base, 0) hi Ho) as Hs.
  unfold circ in Hc. cbn [first fst] in Hc. rewrite EL in Hs, Hc, Hq, Hf. clear Ho.
  assert (Hstop : forall f, free_loop (S f) m bp p = Some p).
  { intros f. cbn [free_loop]. apply hseg_app in Hc as [_ (E & _)]. cbn [fst] in E. rewrite E.
    destruct L2 as [|c L2]; cbn [first].
    - rewrite (proj2 (Z.ltb_ge bp base)), andb_false_r by lia.
      assert (base <= p).
      { destruct L1 as [|b L1]; [injection EL as -> _; lia|]. injection EL as <- _.
        destruct (sorted_mid ((base, 0) :: L1) (p, pn) [] Hs) as (H & _).
        apply Forall_cons in H as [H _]. unfold below in H. cbn in H. lia. }
      rewrite (proj2 (Z.leb_le base p)), (proj2 (Z.ltb_lt p bp)) by lia. done.
    - apply Forall_cons in H2 as [H2 _]. rewrite (proj2 (Z.ltb_lt p bp)), (proj2 (Z.ltb_lt bp c.1)) by lia. done. }
  assert (Hbase : first (L1 ++ [(p, pn)]) 0 = base).
  { destruct L1 as [|b L1]; injection EL as E _; [now subst|]. now subst. }
  rewrite fmap_app in Hq. apply elem_of_app in Hq as [Hq|Hq].
  - apply list_elem_of_fmap in Hq as (b & -> & Hb). apply list_elem_of_split in Hb as (X & Y & ->).
    rewrite <- app_assoc in Hs, Hc. cbn [app] in Hs, Hc.
    destruct (sorted_mid _ _ _ Hs) as (_ & _ & Hs'). apply hseg_app in Hc as [_ Hc].
    rewrite !length_app in Hf. cbn [length] in Hf.
    replace fuel with (length (b :: Y) + S (fuel - S (length (b :: Y))))%nat by (cbn [length]; lia).
    exact (walk_before p pn L2 base _ Hp (Hstop _) (b :: Y) Hs' Hc).
  - cbn [fmap list_fmap fst] in Hq. apply elem_of_cons in Hq as [->|Hq].
    { destruct fuel; [rewrite length_app in Hf; cbn in Hf; lia|]. apply Hstop. }
    apply list_elem_of_fmap in Hq as (b & -> & Hb). apply list_elem_of_split in Hb as (X & Y & ->).
    pose proof Hs as Hs0. pose proof Hc as Hc0.
    rewrite app_comm_cons, app_assoc in Hs, Hc.
    destruct (sorted_mid _ _ _ Hs) as (_ & _ & Hs'). apply hseg_app in Hc as [_ Hc].
    apply Forall_app in H2 as [_ H2].
    rewrite !length_app in Hf. cbn [length] in Hf. rewrite length_app in Hf. cbn [length] in Hf.
    replace fuel with (length (b :: Y) + (length L1 + S (fuel - S (length (b :: Y) + length L1))))%nat
      by (cbn [length]; lia).
    change b.1 with (first (b :: Y) base).
    rewrite (walk_after _ (b :: Y) Hs' Hc H2), <- Hbase.
    exact (walk_before p pn _ base _ Hp (Hstop _) L1 Hs0 Hc0).
Qed.
End Walk.

(** ** What [free] stores *)

(** A free region is found for every block that is not covered. *)
Lemma ordered_place bp bn hi : 1 <= bn -> bp + 8 * bn <= hi -> forall F lo,
  ordered lo F hi -> lo <= bp -> (forall x, covers F x -> ~ bp <= x < bp + 8 * bn) ->
  exists F1 F2 : list (Z * Z), F = F1 ++ F2 /\ ordered lo F1 bp /\ ordered (bp + 8 * bn) F2 hi.
Proof.
  intros Hn Hhi. induction F as [|b F IH]; intros lo Ho Hlo Hc.
  { exists [], []. now repeat split. }
  pose proof Ho as (H1 & H2 & H3). destruct (decide (b.1 < bp)) as [Hlt|Hge].
  - assert (b.1 + 8 * b.2 <= bp).
    { destruct (decide (b.1 + 8 * b.2 <= bp)); [done|].
      destruct (Hc bp); [|lia]. apply covers_cons. left. lia. }
    destruct (IH (b.1 + 8 * b.2) H3 ltac:(lia)) as (F1 & F2 & -> & O1 & O2).
    { intros x Hx. apply Hc, covers_cons. now right. }
    exists (b :: F1), F2. now repeat split.
  - exists [], (b :: F). split; [done|]. split; [done|].
    assert (bp + 8 * bn <= b.1).
    { destruct (decide (bp + 8 * bn <= b.1)); [done|].
      destruct (Hc b.1); [|lia]. apply covers_cons. left. lia. }
    split; [lia|done].
Qed.

(** Memory is unchanged outside the header at [a]. *)
Definition only_header (m m' : gmap Z Z) (a : Z) : Prop :=
  forall x, x < a \/ a + 8 <= x -> load8 m' x = load8 m x.

Lemma only_header_set m a v w :
  only_header m (set_ptr m a v) a /\ only_header m (set_ptr (set_size m a w) a v) a.
Proof.
  unfold only_header, set_ptr, set_size.
  split; intros x Hx; rewrite !load8_store32_ne by lia; done.
Qed.

Lemma only_header_seg m m' a L e : only_header m m' a ->
  Forall (fun b => a + 8 <= b.1 \/ b.1 + 8 <= a) L -> seg m L e -> seg m' L e.
Proof.
  intros Hm. induction L as [|b L IH]; intros Ha; [done|]. apply Forall_cons in Ha as [Hb Ha].
  cbn [seg]. unfold hptr, hsize. intros (H1 & H2 & H3).
  rewrite !(load32_ext m m') by (intros i Hi; apply Hm; lia). now split; [|split; [|apply IH]].
Qed.

Section FreeStores.
Context (base hi : Z).
Hypothesis (Hbase : 0 <= base) (Hhi : hi < 2 ^ 32).

(** The first [if]: the block above is joined when it is adjacent. *)
Definition join_up (m : gmap Z Z) (bp next : Z) : gmap Z Z :=
  if hadd bp (hsize m bp) =? next then
    let m := set_size m bp (hsize m bp + hsize m next) in set_ptr m bp (hptr m next)
  else set_ptr m bp next.

Lemma join_up_spec m bp bn F2 :
  base + 8 <= bp -> 1 <= bn -> hsize m bp = bn -> ordered (bp + 8 * bn) F2 hi -> seg m F2 base ->
  let m1 := join_up m bp (first F2 base) in
  only_header m m1 bp /\
  exists (bn' : Z) (F2' : list (Z * Z)), seg m1 ((bp, bn') :: F2') base /\ ordered bp ((bp, bn') :: F2') hi /\
    (forall x, covers ((bp, bn') :: F2') x <-> covers ((bp, bn) :: F2) x) /\ bn <= bn' /\
    (length F2' <= length F2)%nat.
Proof.
  intros Hbp Hbn Hsz Ho Hseg. unfold join_up. rewrite Hsz.
  pose proof (ordered_le _ _ _ Ho) as Hle.
  assert (Hadd : hadd bp bn = bp + 8 * bn) by (unfold hadd; apply u32_small; lia).
  rewrite Hadd. cbv zeta. destruct (Z.eqb_spec (bp + 8 * bn) (first F2 base)) as [E|E].
  - split; [apply only_header_set|]. destruct F2 as [|[a n] F3]; cbn [first fst] in *; [lia|]. subst a.
    destruct Ho as (_ & Hn & Ho). destruct Hseg as (P & Sz & Hseg). cbn [fst snd] in *.
    pose proof (ordered_le _ _ _ Ho). exists (bn + n), F3.
    rewrite Sz. unfold set_ptr, set_size, hptr, hsize in *.
    assert (P' : load32 (store32 m (bp + 4) (bn + n)) (bp + 8 * bn) = first F3 base)
      by (rewrite load32_store32_ne by lia; done).
    rewrite P'. split; [|split; [|split]]; [|split; [cbn; lia|split; [cbn; lia|]]| |split; [lia|cbn [length]; lia]].
    + cbn [seg fst snd]. unfold hptr, hsize.
      assert (0 <= first F3 base < 2 ^ 32).
      { destruct F3 as [|c F3]; cbn [first]; [lia|]. destruct Ho as (G1 & G2 & G3).
        apply ordered_le in G3. lia. }
      rewrite load32_store32_eq, u32_small, load32_store32_ne, load32_store32_eq, u32_small by lia.
      split; [done|]. split; [done|]. apply seg_away, seg_away; [| |done];
        eapply ordered_away; [exact Ho| |exact Ho|]; lia.
    + cbn [fst snd]. apply (ordered_weaken F3 (bp + 8 * bn + 8 * n) _ hi hi); [lia|lia|exact Ho].
    + intros x. rewrite !covers_cons. cbn [fst snd].
      assert (bp <= x < bp + 8 * (bn + n) <->
        bp <= x < bp + 8 * bn \/ bp + 8 * bn <= x < bp + 8 * bn + 8 * n) by lia. tauto.
  - split; [apply (proj1 (only_header_set m bp _ 0))|]. exists bn, F2.
    split; [|split; [split; [cbn; lia|split; [cbn; lia|exact Ho]]|split; [done|split; [lia|done]]]].
    cbn [seg fst snd]. unfold set_ptr, hptr, hsize in *.
    assert (0 <= first F2 base < 2 ^ 32).
    { destruct F2 as [|c F3]; cbn [first]; [lia|]. destruct Ho as (G1 & G2 & G3).
      apply ordered_le in G3. lia. }
    rewrite load32_store32_eq, u32_small, load32_store32_ne by lia.
    split; [done|]. split; [done|]. apply seg_away; [|done]. eapply ordered_away; [exact Ho|]. lia.
Qed.

(** The second [if]: the block below, [p], is joined or linked. *)
Definition join_down (m : gmap Z Z) (p bp : Z) : gmap Z Z :=
  if hadd p (hsize m p) =? bp then
    let m := set_size m p (hsize m p + hsize m bp) in set_ptr m p (hptr m bp)
  else set_ptr m p bp.

(** [p] is the static header or the last free block below [bp]. *)
Lemma last_below F1 L1 p pn bp :
  (base, 0) :: F1 = L1 ++ [(p, pn)] -> ordered (base + 8) F1 bp ->
  base <= p /\ 0 <= pn /\ p + 8 <= bp /\ p + 8 * pn <= bp /\
  Forall (fun b => b.1 + 8 <= p) L1 /\
  ((F1 = [] /\ pn = 0) \/
   exists F1' : list (Z * Z), F1 = F1' ++ [(p, pn)] /\ L1 = (base, 0) :: F1' /\ ordered (base + 8) F1' p /\ 1 <= pn).
Proof.
  intros EL O1. pose proof (ordered_le _ _ _ O1) as Hle1.
  pose proof (ordered_sorted F1 (base, 0) bp O1) as Hs. rewrite EL in Hs.
  destruct (sorted_mid _ _ _ Hs) as (Hbel & _ & _).
  destruct L1 as [|b L1].
  { injection EL as <- <- ->. repeat split; try lia; [constructor|now left]. }
  injection EL as <- ->. pose proof O1 as O. apply ordered_app in O1 as (mid & G1 & G2 & G3 & G4).
  cbn [fst snd ordered] in *. pose proof (ordered_le _ _ _ G1). repeat split; try lia; [exact Hbel|].
  right. exists L1. repeat split; try done. eapply ordered_weaken; [| |exact G1]; [reflexivity|done].
Qed.

Lemma link_spec m F1 L1 p pn e bp bn F2 :
  (base, 0) :: F1 = L1 ++ [(p, pn)] -> ordered (base + 8) F1 bp -> ordered bp ((bp, bn) :: F2) hi ->
  seg m (L1 ++ [(p, pn)]) e -> seg m ((bp, bn) :: F2) base ->
  circ (set_ptr m p bp) ((base, 0) :: F1 ++ (bp, bn) :: F2) /\
  ordered (base + 8) (F1 ++ (bp, bn) :: F2) hi.
Proof.
  intros EL O1 O2 S1 S2. destruct (last_below F1 L1 p pn bp EL O1) as (R1 & R2 & R3 & R4 & Hb & _).
  pose proof O2 as (_ & Hb2 & O3). cbn [fst snd] in *. pose proof (ordered_le _ _ _ O3).
  split; [|apply ordered_app; exists bp; now split].
  unfold circ. cbn [first fst]. rewrite app_comm_cons, EL. apply hseg_app. split.
  - cbn [first fst]. apply (seg_relink m L1 (p, pn) e bp); [lia| |done].
    eapply Forall_impl; [exact Hb|]. cbn. lia.
  - apply seg_away; [|done]. eapply ordered_away; [exact O2|]. lia.
Qed.

Lemma join_spec m F1 L1 p pn e bp bn F2 :
  (base, 0) :: F1 = L1 ++ [(p, pn)] -> ordered (base + 8) F1 bp -> ordered bp ((bp, bn) :: F2) hi ->
  seg m (L1 ++ [(p, pn)]) e -> seg m ((bp, bn) :: F2) base -> p + 8 * pn = bp ->
  exists F1' : list (Z * Z), F1 = F1' ++ [(p, pn)] /\
    circ (set_ptr (set_size m p (pn + bn)) p (hptr (set_size m p (pn + bn)) bp))
      ((base, 0) :: F1' ++ (p, pn + bn) :: F2) /\
    ordered (base + 8) (F1' ++ (p, pn + bn) :: F2) hi.
Proof.
  intros EL O1 O2 S1 (P2 & _ & S2) E.
  destruct (last_below F1 L1 p pn bp EL O1) as (R1 & R2 & R3 & _ & Hb & HF).
  destruct O2 as (_ & Hb2 & O2). cbn [fst snd] in *. pose proof (ordered_le _ _ _ O2) as Hle.
  destruct HF as [[_ ->]|(F1' & -> & -> & O1' & Hpn)]; [lia|]. exists F1'. split; [done|].
  assert (Hnext : 0 <= first F2 base < 2 ^ 32).
  { destruct F2 as [|c F3]; cbn [first]; [lia|]. destruct O2 as (G1 & G2 & G3). apply ordered_le in G3. lia. }
  assert (P2' : hptr (set_size m p (pn + bn)) bp = first F2 base)
    by (unfold hptr, set_size in *; rewrite load32_store32_ne by lia; done).
  rewrite P2'. split.
  - unfold circ. cbn [first fst]. change ((base, 0) :: F1' ++ ?L) with (((base, 0) :: F1') ++ L).
    rewrite (cons_middle (p, pn + bn)), app_assoc. apply hseg_app. split.
    + apply (seg_relink _ _ (p, pn + bn) e); [done| |].
      * eapply Forall_impl; [exact Hb|]. cbn. lia.
      * apply (seg_resize m _ p pn []); [lia| |constructor|done].
        eapply Forall_impl; [exact Hb|]. cbn. lia.
    + apply seg_away, seg_away; [| |done]; (eapply ordered_away; [exact O2|]); cbn [fst]; lia.
  - apply ordered_app. exists p. split; [done|]. cbn [ordered fst snd]. split; [lia|]. split; [lia|].
    apply (ordered_weaken F2 (bp + 8 * bn) _ hi hi); [lia|lia|exact O2].
Qed.

Lemma join_down_spec m F1 L1 p pn e bp bn F2 :
  (base, 0) :: F1 = L1 ++ [(p, pn)] -> ordered (base + 8) F1 bp -> ordered bp ((bp, bn) :: F2) hi ->
  seg m (L1 ++ [(p, pn)]) e -> seg m ((bp, bn) :: F2) base ->
  only_header m (join_down m p bp) p /\
  exists F' : list (Z * Z), circ (join_down m p bp) ((base, 0) :: F') /\ ordered (base + 8) F' hi /\
    (forall x, covers F' x <-> covers F1 x \/ covers ((bp, bn) :: F2) x) /\
    p ∈ ((base, 0) :: F').*1 /\ (exists b, b ∈ F' /\ bn <= b.2) /\
    (length F' <= length F1 + S (length F2))%nat.
Proof.
  intros EL O1 O2 S1 S2. unfold join_down.
  destruct (last_below F1 L1 p pn bp EL O1) as (R1 & R2 & R3 & R4 & _ & _).
  pose proof S1 as S1'. apply hseg_app in S1' as [_ (_ & Hpn & _)]. cbn [fst snd] in Hpn.
  pose proof O2 as (_ & Hb2 & O3). cbn [fst snd] in *. pose proof (ordered_le _ _ _ O3).
  rewrite Hpn. assert (hadd p pn = p + 8 * pn) as -> by (unfold hadd; apply u32_small; lia).
  destruct (Z.eqb_spec (p + 8 * pn) bp) as [E|E]; cbv zeta.
  - pose proof S2 as (_ & Hbn & _). cbn [fst snd] in Hbn. rewrite Hbn.
    split; [apply (proj2 (only_header_set m p _ _))|].
    destruct (join_spec m F1 L1 p pn e bp bn F2 EL O1 O2 S1 S2 E) as (F1' & -> & C & O).
    exists (F1' ++ (p, pn + bn) :: F2). split; [done|]. split; [done|].
    split; [|split; [apply list_elem_of_fmap; exists (p, pn + bn); split; [done|set_solver]|]].
    + intros x. rewrite !covers_app, !covers_cons. cbn [fst snd].
      pose proof (covers_nil x).
      assert (p <= x < p + 8 * (pn + bn) <-> p <= x < p + 8 * pn \/ bp <= x < bp + 8 * bn) by lia. tauto.
    + split; [exists (p, pn + bn); split; [set_solver|cbn; lia]|].
      rewrite !length_app. cbn [length]. lia.
  - split; [apply (proj1 (only_header_set m p _ 0))|].
    destruct (link_spec m F1 L1 p pn e bp bn F2 EL O1 O2 S1 S2) as (C & O).
    exists (F1 ++ (bp, bn) :: F2). split; [done|]. split; [done|].
    split; [intros x; now rewrite covers_app|]. split; [|split].
    + rewrite app_comm_cons, EL. apply list_elem_of_fmap. exists (p, pn). split; [done|set_solver].
    + exists (bp, bn). split; [set_solver|cbn; lia].
    + rewrite length_app. cbn [length]. lia.
Qed.

(** The headers of a list of free blocks with the static header are covered. *)
Lemma header_covered F p x : Forall (fun b => 1 <= b.2) F -> p ∈ ((base, 0) :: F).*1 ->
  ~ covers F x -> x < base \/ base + 8 <= x -> x < p \/ p + 8 <= x.
Proof.
  intros HF Hp Hx Hb. cbn [fmap list_fmap fst] in Hp. apply elem_of_cons in Hp as [->|Hp]; [done|].
  apply list_elem_of_fmap in Hp as (b & -> & Hin).
  pose proof (proj1 (Forall_forall _ _) HF b Hin) as Hn. cbn in Hn.
  destruct (decide (x < b.1 \/ b.1 + 8 <= x)); [done|]. destruct Hx. exists b. split; [done|lia].
Qed.

Lemma ordered_pos F lo : ordered lo F hi -> Forall (fun b => 1 <= b.2) F.
Proof. intros H. eapply Forall_impl; [exact (ordered_bounds _ _ _ H)|]. cbn. lia. Qed.

(** [free] puts a block on the free list, joined with its neighbours. *)
Lemma free_run fuel h F bp bn :
  circ (hmem h) ((base, 0) :: F) -> ordered (base + 8) F hi -> freep h ∈ ((base, 0) :: F).*1 ->
  base + 8 <= bp -> 1 <= bn -> bp + 8 * bn <= hi -> hsize (hmem h) bp = bn ->
  (forall x, covers F x -> ~ bp <= x < bp + 8 * bn) -> (length F < fuel)%nat ->
  exists h' (F' : list (Z * Z)), free fuel h (bp + 8) = Some h' /\
    circ (hmem h') ((base, 0) :: F') /\ ordered (base + 8) F' hi /\ freep h' ∈ ((base, 0) :: F').*1 /\
    (forall x, covers F' x <-> covers F x \/ bp <= x < bp + 8 * bn) /\
    (forall x, ~ covers F' x -> x < base \/ base + 8 <= x -> load8 (hmem h') x = load8 (hmem h) x) /\
    (exists b, b ∈ F' /\ bn <= b.2) /\ (length F' <= S (length F))%nat.
Proof.
  intros Hc Ho Hf Hbp Hbn Hhi' Hsz Hcov Hfuel.
  destruct (ordered_place bp bn hi Hbn Hhi' F (base + 8) Ho Hbp Hcov) as (F1 & F2 & -> & O1 & O2).
  destruct (exists_last (A := Z * Z) (l := (base, 0) :: F1) ltac:(done)) as (L1 & [p pn] & EL).
  destruct (last_below F1 L1 p pn bp EL O1) as (R1 & R2 & R3 & R4 & Hlow & _).
  assert (EL' : (base, 0) :: F1 ++ F2 = L1 ++ (p, pn) :: F2)
    by (change (((base, 0) :: F1) ++ F2 = L1 ++ (p, pn) :: F2); rewrite EL, <- app_assoc; done).
  pose proof Hc as Hseg. unfold circ in Hseg. cbn [first fst] in Hseg.
  change (seg (hmem h) (((base, 0) :: F1) ++ F2) base) in Hseg. rewrite EL in Hseg. apply hseg_app in Hseg as [S1 S2].
  assert (Hbounds : Forall (fun b => bp < b.1) F2)
    by (eapply Forall_impl; [exact (ordered_bounds _ _ _ O2)|]; cbn; lia).
  unfold free. rewrite u32_small by lia. replace (bp + 8 - 8) with bp by lia.
  rewrite (free_loop_spec (hmem h) base bp ltac:(lia) (F1 ++ F2) hi L1 p pn F2 (freep h) fuel Ho EL' Hc
    ltac:(lia) Hbounds Hf) by (cbn [length]; lia).
  assert (Hnext : hptr (hmem h) p = first F2 base) by (apply hseg_app in S1 as [_ (E & _)]; exact E).
  rewrite Hnext. fold (join_up (hmem h) bp (first F2 base)).
  destruct (join_up_spec (hmem h) bp bn F2 Hbp Hbn Hsz O2 S2) as (J1 & bn' & F2' & S2' & O2' & C2 & Hbn' & Hlen2).
  set (m1 := join_up (hmem h) bp (first F2 base)) in *. fold (join_down m1 p bp).
  assert (S1' : seg m1 (L1 ++ [(p, pn)]) (first F2 base)).
  { eapply only_header_seg; [exact J1| |exact S1]. apply Forall_app. split.
    - eapply Forall_impl; [exact Hlow|]. cbn. lia.
    - apply Forall_singleton. cbn. lia. }
  destruct (join_down_spec m1 F1 L1 p pn _ bp bn' F2' EL O1 O2' S1' S2')
    as (J2 & F' & C & O & Cov & Hp & (b & Hb & Hbig) & Hlen).
  eexists _, F'. split; [reflexivity|]. split; [done|]. split; [done|]. split; [done|].
  assert (Hcov' : forall x, covers F' x <-> covers (F1 ++ F2) x \/ bp <= x < bp + 8 * bn).
  { intros x. rewrite Cov, C2, covers_cons, covers_app. cbn [fst snd]. tauto. }
  split; [done|]. split; [|split; [exists b; split; [done|lia]|rewrite length_app; lia]].
  intros x Hx Hxb. cbn [hmem]. rewrite J2, J1; [done| |].
  - destruct (decide (x < bp \/ bp + 8 <= x)); [done|]. destruct Hx. apply Hcov'. right. lia.
  - apply (header_covered F'); try done. now apply (ordered_pos F' (base + 8)).
Qed.
End FreeStores.
