(* ===== verification/UmallocRun.v ===== *)
(** * malloc and free keep blocks apart

    The invariant of the heap: the free list is a circle of disjoint blocks in
    order of address, and the blocks handed out are disjoint from it and from
    each other. *)

From S2P Require Import Prelude CMem User Umalloc UmallocSpec.

(** ** Headers that do not overlap *)

Definition far (x y : Z * Z) : Prop := x.1 + 8 <= y.1 \/ y.1 + 8 <= x.1.

Fixpoint all_far (L : list (Z * Z)) : Prop :=
  match L with [] => True | b :: L' => Forall (far b) L' /\ all_far L' end.

Lemma all_far_app L1 L2 :
  all_far (L1 ++ L2) <-> all_far L1 /\ all_far L2 /\ Forall (fun x => Forall (far x) L2) L1.
Proof.
  induction L1 as [|b L1 IH]; cbn [app all_far].
  - split; [intros H; split; [done|]; split; [done|constructor]|tauto].
  - rewrite IH, Forall_app, Forall_cons. tauto.
Qed.

Lemma far_sym x y : far x y -> far y x.
Proof. unfold far. tauto. Qed.

Lemma all_far_rotate L1 L2 : all_far (L1 ++ L2) -> all_far (L2 ++ L1).
Proof.
  rewrite !all_far_app. intros (H1 & H2 & H3). split; [done|]. split; [done|].
  apply Forall_forall. intros y Hy. apply Forall_forall. intros x Hx. apply far_sym.
  exact (proj1 (Forall_forall _ _) (proj1 (Forall_forall _ _) H3 x Hx) y Hy).
Qed.

Lemma sorted_far L : StronglySorted below L -> all_far L.
Proof.
  induction 1 as [|b L _ IH Hb]; [done|]. split; [|done].
  eapply Forall_impl; [exact Hb|]. intros c Hc. now left.
Qed.

(** The block before the first block of a circle, which may be the only one. *)
Definition before (x : Z * Z) (Q : list (Z * Z)) : Z := (List.last Q x).1.

Lemma before_app x y Q : before x (Q ++ [y]) = y.1.
Proof. unfold before. now rewrite List.last_last. Qed.

(** Taking a block out of the circle. *)
Lemma unlink m x Q : Q <> [] -> all_far (x :: Q) -> Forall (fun b => 0 <= b.1 < 2 ^ 32) Q ->
  circ m (x :: Q) -> circ (set_ptr m (before x Q) (hptr m x.1)) Q.
Proof.
  intros HQ Hf Hr Hc. destruct (exists_last HQ) as (Q' & b & ->). rewrite before_app.
  unfold circ in *. destruct Hc as (P & _ & Hc). cbn [first] in *. rewrite P.
  assert (Hfirst : first (Q' ++ [b]) x.1 = first (Q' ++ [b]) 0) by now destruct Q'.
  rewrite Hfirst. apply seg_relink with (e := x.1); [| |done].
  - destruct Q' as [|c Q']; cbn [app first] in *; now apply Forall_cons in Hr as [? _].
  - destruct Hf as [_ Hf]. apply all_far_app in Hf as (_ & _ & Hf).
    eapply Forall_impl; [exact Hf|]. intros c Hc'. rewrite Forall_singleton in Hc'.
    unfold far in Hc'. cbn beta. lia.
Qed.

(** ** The search of [malloc] *)

(** What [malloc] returns when the block at [p] is large enough. *)
Definition take_block (h : heap) (nunits prevp p : Z) : Z * heap :=
  let m := hmem h in
  if hsize m p =? nunits then (hadd p 1, mkHeap (set_ptr m prevp (hptr m p)) prevp)
  else
    let m := set_size m p (hsize m p - nunits) in
    let p := hadd p (hsize m p) in
    (hadd p 1, mkHeap (set_size m p nunits) prevp).

Definition grow (fuel : nat) (h : heap) (nunits : Z) (fuel' : nat) : prog (Z * heap) :=
  pbind (morecore fuel h nunits) (fun r =>
    let '(p, h) := r in
    if p =? 0 then Ret (0, h) else malloc_loop fuel' h nunits p (hptr (hmem h) p)).

Lemma malloc_loop_eq fuel h nunits prevp p :
  malloc_loop (S fuel) h nunits prevp p =
    if nunits <=? hsize (hmem h) p then Ret (take_block h nunits prevp p)
    else if p =? freep h then grow (S fuel) h nunits fuel
    else malloc_loop fuel h nunits p (hptr (hmem h) p).
Proof.
  cbn [malloc_loop]. unfold take_block, grow. destruct (_ <=? _); [|done].
  now destruct (_ =? nunits).
Qed.

Lemma last_default (Q : list (Z * Z)) d d' : Q <> [] -> List.last Q d = List.last Q d'.
Proof. induction Q as [|b [|c Q] IH]; intros H; try done. now apply IH. Qed.

Lemma last_in (Q : list (Z * Z)) d : Q <> [] -> List.last Q d ∈ Q.
Proof.
  induction Q as [|b Q IH]; intros H; [done|]. destruct Q as [|c Q]; [set_solver|].
  apply elem_of_cons. right. now apply IH.
Qed.

(** The blocks of the circle, from the one after [freep] to [freep] itself: the
    search takes the first that is large enough, or grows the heap at [freep]. *)
Lemma search h nunits : forall R V x fuel,
  circ (hmem h) (V ++ x :: R) -> all_far (V ++ x :: R) -> (List.last (x :: R) x).1 = freep h ->
  (length (x :: R) <= fuel)%nat ->
  (exists V' x' R', V ++ x :: R = V' ++ x' :: R' /\ nunits <= x'.2 /\
    malloc_loop fuel h nunits (before x (R ++ V)) x.1 =
      Ret (take_block h nunits (before x' (R' ++ V')) x'.1)) \/
  (Forall (fun b => b.2 < nunits) (x :: R) /\ exists fuel', (fuel = length R + S fuel')%nat /\
    malloc_loop fuel h nunits (before x (R ++ V)) x.1 = grow (S fuel') h nunits fuel').
Proof.
  induction R as [|y R IH]; intros V x fuel Hc Hf Hl Hfuel; (destruct fuel as [|fuel]; [cbn in Hfuel; lia|]).
  all: rewrite malloc_loop_eq; pose proof Hc as Hseg; unfold circ in Hseg; apply hseg_app in Hseg as [_ (P & Sz & _)].
  all: rewrite Sz; destruct (Z.leb_spec nunits x.2) as [Hle|Hlt].
  1,3: left; eexists V, x, _; split; [reflexivity|]; split; [done|reflexivity].
  - right. split; [constructor; [done|constructor]|]. cbn in Hl.
    rewrite Hl, Z.eqb_refl. exists fuel. split; [cbn; lia|done].
  - assert (Hne : x.1 <> freep h).
    { rewrite <- Hl. apply all_far_app in Hf as (_ & [Hf _] & _).
      assert (Hin : List.last (y :: R) x ∈ y :: R) by now apply last_in.
      pose proof (proj1 (Forall_forall _ _) Hf _ Hin) as Hfar. unfold far in Hfar. cbn in *. lia. }
    rewrite (proj2 (Z.eqb_neq _ _) Hne), P. cbn [first].
    assert (Hassoc : (V ++ [x]) ++ y :: R = V ++ x :: y :: R) by now rewrite <- app_assoc.
    destruct (IH (V ++ [x]) y fuel) as [(V' & x' & R' & E1 & E2 & E3)|(Hall & fuel' & -> & E3)].
    + now rewrite Hassoc.
    + now rewrite Hassoc.
    + rewrite <- Hl. cbn [List.last]. destruct R; [done|]. f_equal. now apply last_default.
    + cbn [length] in *. lia.
    + left. rewrite app_assoc, before_app in E3. exists V', x', R'. rewrite <- Hassoc. done.
    + right. rewrite app_assoc, before_app in E3. split; [now constructor|].
      exists fuel'. split; [cbn [length]; lia|done].
Qed.

Lemma rotation_split (X Y V R : list (Z * Z)) x : Y ++ X = V ++ x :: R ->
  exists L1 L2, X ++ Y = L1 ++ x :: L2 /\ R ++ V = L2 ++ L1.
Proof.
  intros E. apply app_eq_app in E as (Z & [[-> E]|[-> E]]).
  - destruct Z as [|z Z]; cbn in E.
    + subst X. exists [], (R ++ V). rewrite !app_nil_r. split; [done|]. done.
    + injection E as <- ->. exists (X ++ V), Z. rewrite <- !app_assoc. done.
  - subst X. exists Z, (R ++ Y). rewrite <- !app_assoc. done.
Qed.

Section Heap.
Context (base : Z).
Hypothesis base_pos : 0 < base.

Definition apart (x y : Z * Z) : Prop := x.1 + 8 * x.2 <= y.1 \/ y.1 + 8 * y.2 <= x.1.

(** [F] is the free list and [A] the blocks handed out; all lie between the
    static header and [hi]. *)
Record heap_inv (hi : Z) (h : heap) (F A : list (Z * Z)) : Prop := {
  iv_circ : circ (hmem h) ((base, 0) :: F);
  iv_ordered : ordered (base + 8) F hi;
  iv_freep : freep h ∈ ((base, 0) :: F).*1;
  iv_blocks : Forall (fun b => 1 <= b.2 /\ base + 8 <= b.1 /\ b.1 + 8 * b.2 <= hi /\
    hsize (hmem h) b.1 = b.2) A;
  iv_apart : ForallOrdPairs apart A;
  iv_sep : forall x, covers F x -> covers A x -> False }.

(** Blocks handed out keep their size when their memory is unchanged. *)
Lemma blocks_frame hi m m' A :
  (forall x, covers A x -> load8 m' x = load8 m x) ->
  Forall (fun b => 1 <= b.2 /\ base + 8 <= b.1 /\ b.1 + 8 * b.2 <= hi /\ hsize m b.1 = b.2) A ->
  Forall (fun b => 1 <= b.2 /\ base + 8 <= b.1 /\ b.1 + 8 * b.2 <= hi /\ hsize m' b.1 = b.2) A.
Proof.
  intros Hm HA. apply Forall_forall. intros b Hb.
  pose proof (proj1 (Forall_forall _ _) HA b Hb) as (H1 & H2 & H3 & H4). cbn in *.
  split; [done|]. split; [done|]. split; [done|]. rewrite <- H4. unfold hsize. apply load32_ext.
  intros x Hx. apply Hm. exists b. split; [done|lia].
Qed.

(** A piece of a free block is apart from every block handed out. *)
Lemma piece_apart F A a n hi : 1 <= n -> (forall x, a <= x < a + 8 * n -> covers F x) ->
  (forall x, covers F x -> covers A x -> False) ->
  Forall (fun b => 1 <= b.2 /\ base + 8 <= b.1 /\ b.1 + 8 * b.2 <= hi) A ->
  Forall (apart (a, n)) A.
Proof.
  intros Hn Hp Hsep HA. apply Forall_forall. intros b Hb.
  pose proof (proj1 (Forall_forall _ _) HA b Hb) as (H1 & H2 & H3). unfold apart. cbn in *.
  destruct (decide (a + 8 * n <= b.1 \/ b.1 + 8 * b.2 <= a)); [done|].
  destruct (Hsep (Z.max a b.1)); [apply Hp; lia|]. exists b. split; [done|lia].
Qed.

(** ** Taking a block *)

Lemma far_list F hi : ordered (base + 8) F hi -> all_far ((base, 0) :: F).
Proof. intros H. exact (sorted_far _ (ordered_sorted F (base, 0) hi H)). Qed.

(** [prevp] is one of the headers. *)
Lemma before_in x Q : Q <> [] -> before x Q ∈ Q.*1.
Proof.
  intros HQ. unfold before. apply list_elem_of_fmap. eexists. split; [reflexivity|]. now apply last_in.
Qed.

Lemma take_exact hi h F1 x F2 : hi < 2 ^ 32 ->
  circ (hmem h) ((base, 0) :: F1 ++ x :: F2) -> ordered (base + 8) (F1 ++ x :: F2) hi ->
  let prevp := before x (F2 ++ (base, 0) :: F1) in
  circ (set_ptr (hmem h) prevp (hptr (hmem h) x.1)) ((base, 0) :: F1 ++ F2) /\
  ordered (base + 8) (F1 ++ F2) hi /\ prevp ∈ ((base, 0) :: F1 ++ F2).*1.
Proof.
  intros Hhi Hc Ho prevp. pose proof (far_list _ _ Ho) as Hf. pose proof (ordered_bounds _ _ _ Ho) as Hb.
  change ((base, 0) :: F1 ++ ?L) with (((base, 0) :: F1) ++ L) in *.
  apply circ_rotate in Hc. apply all_far_rotate in Hf. cbn [app] in Hc, Hf.
  set (Q := F2 ++ (base, 0) :: F1) in *. assert (HQ : Q <> []) by (unfold Q; now destruct F2).
  pose proof (ordered_le _ _ _ Ho). split; [|split].
  - apply circ_rotate. apply unlink; [done|done| |done]. unfold Q.
    apply Forall_app in Hb as [Hb1 Hb2]. apply Forall_cons in Hb2 as [_ Hb2].
    apply Forall_app. split; [|constructor; [cbn; lia|]]; (eapply Forall_impl; [eassumption|]); cbn; lia.
  - apply ordered_app in Ho as (mid & O1 & G1 & G2 & O2). apply ordered_app. exists mid. split; [done|].
    eapply ordered_weaken; [|reflexivity|exact O2]. lia.
  - pose proof (before_in x Q HQ) as Hin. fold prevp in Hin. unfold Q in Hin.
    apply list_elem_of_fmap in Hin as (b & -> & Hin). apply list_elem_of_fmap. exists b.
    split; [done|]. set_solver.
Qed.

Lemma take_split hi h F1 x F2 n a : hi < 2 ^ 32 ->
  circ (hmem h) ((base, 0) :: F1 ++ x :: F2) -> ordered (base + 8) (F1 ++ x :: F2) hi ->
  1 <= n < x.2 -> a = x.1 + 8 * (x.2 - n) ->
  circ (set_size (set_size (hmem h) x.1 (x.2 - n)) a n) ((base, 0) :: F1 ++ (x.1, x.2 - n) :: F2) /\
  ordered (base + 8) (F1 ++ (x.1, x.2 - n) :: F2) hi.
Proof.
  intros Hhi Hc Ho Hn ->. apply ordered_app in Ho as (mid & O1 & G1 & G2 & O2).
  pose proof (ordered_le _ _ _ O1). pose proof (ordered_le _ _ _ O2).
  assert (Ho' : ordered (base + 8) (F1 ++ (x.1, x.2 - n) :: F2) hi).
  { apply ordered_app. exists mid. split; [done|]. cbn [ordered fst snd]. split; [lia|]. split; [lia|].
    eapply ordered_weaken; [|reflexivity|exact O2]. lia. }
  split; [|done]. destruct x as [p pn]. cbn [fst snd] in *.
  change ((base, 0) :: F1 ++ ?L) with (((base, 0) :: F1) ++ L) in *. unfold circ in *.
  cbn [app first fst] in *. unfold set_size at 1. apply seg_away.
  - constructor; [cbn; lia|]. apply Forall_app. split; [|constructor; [cbn; lia|]].
    + eapply ordered_away; [exact O1|]. lia.
    + eapply ordered_away; [exact O2|]. lia.
  - apply (seg_resize _ ((base, 0) :: F1) p pn F2); [lia| | |done].
    + constructor; [cbn; lia|]. eapply ordered_away; [exact O1|]. lia.
    + eapply ordered_away; [exact O2|]. lia.
Qed.

(** A piece of the free memory becomes a block handed out. *)
Lemma hand_out hi h h' F F' A a n : heap_inv hi h F A ->
  circ (hmem h') ((base, 0) :: F') -> ordered (base + 8) F' hi -> freep h' ∈ ((base, 0) :: F').*1 ->
  hsize (hmem h') a = n -> 1 <= n ->
  (forall y, covers F y <-> covers F' y \/ a <= y < a + 8 * n) ->
  (forall y, a <= y < a + 8 * n -> ~ covers F' y) ->
  (forall y, covers A y -> load8 (hmem h') y = load8 (hmem h) y) ->
  base + 8 <= a /\ heap_inv hi h' F' ((a, n) :: A).
Proof.
  intros [Hc Ho Hf HA Hap Hsep] Hc' Ho' Hf' Hsz Hn Hcov Hnot Hfr.
  assert (Hin : forall y, a <= y < a + 8 * n -> base + 8 <= y < hi).
  { intros y Hy. apply (covers_bounds F); [done|]. apply Hcov. now right. }
  pose proof (Hin a ltac:(lia)). pose proof (Hin (a + 8 * n - 1) ltac:(lia)).
  split; [lia|]. split; try done.
  - constructor; [cbn; lia|]. now apply (blocks_frame hi (hmem h)).
  - constructor; [|done]. apply (piece_apart F A a n hi); [done| |done|].
    + intros y Hy. apply Hcov. now right.
    + eapply Forall_impl; [exact HA|]. cbn. tauto.
  - intros y Hy. rewrite covers_cons. cbn [fst snd]. intros [Hin'|HyA]; [now apply (Hnot y)|].
    apply (Hsep y); [|done]. apply Hcov. now left.
Qed.

(** The bytes of a header of the list are in no block handed out. *)
Lemma header_free hi h F A p y : heap_inv hi h F A -> p ∈ ((base, 0) :: F).*1 -> covers A y ->
  y < p \/ p + 8 <= y.
Proof.
  intros [Hc Ho Hf HA Hap Hsep] Hp Hy. apply (header_covered base F); [|done|intros HF; now apply (Hsep y)|].
  - now apply (ordered_pos hi F (base + 8)).
  - destruct Hy as (b & Hb & Hy). pose proof (proj1 (Forall_forall _ _) HA b Hb) as (_ & H & _). cbn in H. lia.
Qed.

(** The blocks around one of the list do not cover it. *)
Lemma others_apart F1 x F2 hi y : ordered (base + 8) (F1 ++ x :: F2) hi ->
  covers (F1 ++ F2) y -> y < x.1 \/ x.1 + 8 * x.2 <= y.
Proof.
  intros Ho Hy. apply ordered_app in Ho as (mid & O1 & G1 & G2 & O2).
  apply covers_app in Hy as [Hy|Hy]; [apply (covers_bounds _ _ _ _ O1) in Hy|apply (covers_bounds _ _ _ _ O2) in Hy]; lia.
Qed.

Lemma take_exact_inv hi h F1 x F2 A : hi < 2 ^ 32 -> heap_inv hi h (F1 ++ x :: F2) A ->
  let prevp := before x (F2 ++ (base, 0) :: F1) in
  let h' := mkHeap (set_ptr (hmem h) prevp (hptr (hmem h) x.1)) prevp in
  base + 8 <= x.1 /\ heap_inv hi h' (F1 ++ F2) (x :: A) /\
  (forall y, covers A y -> load8 (hmem h') y = load8 (hmem h) y).
Proof.
  intros Hhi Hinv prevp h'. pose proof Hinv as [Hc Ho Hf HA Hap Hsep].
  destruct (take_exact hi h F1 x F2 Hhi Hc Ho) as (Hc' & Ho' & Hp). fold prevp in Hc', Hp.
  assert (Hfar : prevp + 8 <= x.1 \/ x.1 + 8 <= prevp).
  { pose proof (far_list _ _ Ho) as Hfar. change ((base, 0) :: F1 ++ ?L) with (((base, 0) :: F1) ++ L) in Hfar.
    apply all_far_rotate in Hfar. destruct Hfar as [Hfar _].
    set (Q := F2 ++ (base, 0) :: F1) in *. assert (HQ : Q <> []) by (unfold Q; now destruct F2).
    pose proof (proj1 (Forall_forall _ _) Hfar _ (last_in Q x HQ)) as H. unfold far in H.
    unfold prevp, before. lia. }
  assert (Hsz : hsize (hmem h) x.1 = x.2).
  { unfold circ in Hc. change ((base, 0) :: F1 ++ ?L) with (((base, 0) :: F1) ++ L) in Hc.
    apply hseg_app in Hc as [_ (_ & E & _)]. exact E. }
  pose proof (ordered_bounds _ _ _ Ho) as Hb. rewrite Forall_app, Forall_cons in Hb. destruct Hb as (_ & Hx & _).
  assert (Hfr : forall y, covers A y -> load8 (hmem h') y = load8 (hmem h) y).
  { intros y Hy. unfold h', set_ptr. cbn [hmem]. apply load8_store32_ne.
    assert (Hp' : prevp ∈ ((base, 0) :: F1 ++ x :: F2).*1).
    { apply list_elem_of_fmap in Hp as (b & -> & Hb). apply list_elem_of_fmap. exists b. split; [done|]. set_solver. }
    pose proof (header_free hi h _ A _ y Hinv Hp' Hy). lia. }
  destruct x as [p pn]. cbn [fst snd] in *.
  destruct (hand_out hi h h' _ (F1 ++ F2) A p pn Hinv Hc' Ho' Hp) as [H1 H2]; try done; [|lia| |].
  - unfold h', hsize, set_ptr in *. cbn [hmem]. rewrite load32_store32_ne by lia. done.
  - intros y. rewrite !covers_app, covers_cons. cbn [fst snd]. tauto.
  - intros y Hy Hcv. pose proof (others_apart F1 (p, pn) F2 hi y Ho Hcv) as H. cbn in H. lia.
Qed.

Lemma take_split_inv hi h F1 x F2 A n : hi < 2 ^ 32 -> heap_inv hi h (F1 ++ x :: F2) A -> 1 <= n < x.2 ->
  let prevp := before x (F2 ++ (base, 0) :: F1) in
  let a := x.1 + 8 * (x.2 - n) in
  let h' := mkHeap (set_size (set_size (hmem h) x.1 (x.2 - n)) a n) prevp in
  base + 8 <= a /\ heap_inv hi h' (F1 ++ (x.1, x.2 - n) :: F2) ((a, n) :: A) /\
  (forall y, covers A y -> load8 (hmem h') y = load8 (hmem h) y).
Proof.
  intros Hhi Hinv Hn prevp a h'. pose proof Hinv as [Hc Ho Hf HA Hap Hsep].
  destruct (take_split hi h F1 x F2 n a Hhi Hc Ho Hn eq_refl) as (Hc' & Ho').
  assert (Hp : prevp ∈ ((base, 0) :: F1 ++ (x.1, x.2 - n) :: F2).*1).
  { assert (HQ : F2 ++ (base, 0) :: F1 <> []) by now destruct F2.
    pose proof (before_in x _ HQ) as Hin. fold prevp in Hin.
    apply list_elem_of_fmap in Hin as (b & -> & Hb). apply list_elem_of_fmap. exists b. split; [done|]. set_solver. }
  pose proof (ordered_bounds _ _ _ Ho) as Hb. rewrite Forall_app, Forall_cons in Hb. destruct Hb as (_ & Hx & _).
  assert (Hfr : forall y, covers A y -> load8 (hmem h') y = load8 (hmem h) y).
  { intros y Hy. assert (y < x.1 \/ x.1 + 8 * x.2 <= y).
    { destruct (decide (y < x.1 \/ x.1 + 8 * x.2 <= y)); [done|]. destruct (Hsep y); [|done].
      rewrite covers_app, covers_cons. right. left. lia. }
    unfold h', set_size. cbn [hmem]. rewrite !load8_store32_ne by lia. done. }
  destruct (hand_out hi h h' _ (F1 ++ (x.1, x.2 - n) :: F2) A a n Hinv Hc' Ho' Hp) as [H1 H2]; try done.
  - unfold h', hsize, set_size. cbn [hmem]. rewrite load32_store32_eq. apply u32_small. lia.
  - lia.
  - intros y. rewrite !covers_app, !covers_cons. cbn [fst snd].
    assert (x.1 <= y < x.1 + 8 * x.2 <-> x.1 <= y < x.1 + 8 * (x.2 - n) \/ a <= y < a + 8 * n) by lia. tauto.
  - intros y Hy. rewrite covers_app, covers_cons. cbn [fst snd]. intros Hcv.
    assert (Hcv' : covers (F1 ++ F2) y \/ x.1 <= y < x.1 + 8 * (x.2 - n)) by (rewrite covers_app; tauto).
    destruct Hcv' as [Hcv'|Hcv']; [|lia]. apply (others_apart F1 x F2 hi y Ho) in Hcv'. lia.
Qed.

(** What is left of the free list, and the new block. *)
Lemma take_inv hi h F1 x F2 A n : hi < 2 ^ 32 -> heap_inv hi h (F1 ++ x :: F2) A -> 1 <= n <= x.2 ->
  exists a F' h', take_block h n (before x (F2 ++ (base, 0) :: F1)) x.1 = (a + 8, h') /\
    base + 8 <= a /\ heap_inv hi h' F' ((a, n) :: A) /\
    (forall y, covers (F1 ++ x :: F2) y -> covers F' y \/ a <= y < a + 8 * n) /\
    (forall y, covers A y -> load8 (hmem h') y = load8 (hmem h) y).
Proof.
  intros Hhi Hinv Hn. pose proof Hinv as [Hc Ho _ _ _ _].
  assert (Hsz : hsize (hmem h) x.1 = x.2).
  { unfold circ in Hc. change ((base, 0) :: F1 ++ ?L) with (((base, 0) :: F1) ++ L) in Hc.
    apply hseg_app in Hc as [_ (_ & E & _)]. exact E. }
  pose proof (ordered_bounds _ _ _ Ho) as Hb. rewrite Forall_app, Forall_cons in Hb. destruct Hb as (_ & Hx & _).
  unfold take_block. rewrite Hsz. destruct (Z.eqb_spec x.2 n) as [E|E].
  - destruct (take_exact_inv hi h F1 x F2 A Hhi Hinv) as (H1 & H2 & H3).
    eexists x.1, (F1 ++ F2), _. split; [unfold hadd; rewrite u32_small by lia; reflexivity|].
    split; [done|]. split; [rewrite <- E; now destruct x|]. split; [|done].
    intros y. rewrite !covers_app, covers_cons, E. tauto.
  - destruct (take_split_inv hi h F1 x F2 A n Hhi Hinv ltac:(lia)) as (H1 & H2 & H3).
    assert (Hs2 : hsize (set_size (hmem h) x.1 (x.2 - n)) x.1 = x.2 - n)
      by (unfold hsize, set_size; rewrite load32_store32_eq; apply u32_small; lia).
    cbv zeta. rewrite Hs2. unfold hadd. rewrite (u32_small (x.1 + 8 * (x.2 - n))), u32_small by lia.
    eexists _, (F1 ++ (x.1, x.2 - n) :: F2), _. split; [reflexivity|]. split; [done|]. split; [done|].
    split; [|done]. intros y. rewrite !covers_app, !covers_cons. cbn [fst snd].
    assert (x.1 <= y < x.1 + 8 * x.2 <-> x.1 <= y < x.1 + 8 * (x.2 - n) \/
      x.1 + 8 * (x.2 - n) <= y < x.1 + 8 * (x.2 - n) + 8 * n) by lia. tauto.
Qed.

Lemma inv_grow hi hi' h F A : hi <= hi' -> heap_inv hi h F A -> heap_inv hi' h F A.
Proof.
  intros Hle [Hc Ho Hf HA Hap Hsep]. split; try done.
  - eapply ordered_weaken; [reflexivity|exact Hle|exact Ho].
  - eapply Forall_impl; [exact HA|]. cbn. lia.
Qed.

(** Returning a block to the free list. *)
Lemma free_inv hi h F A a n fuel : hi < 2 ^ 32 -> heap_inv hi h F ((a, n) :: A) -> (length F < fuel)%nat ->
  exists h' F', free fuel h (a + 8) = Some h' /\ heap_inv hi h' F' A /\
    (forall x, covers F' x <-> covers F x \/ a <= x < a + 8 * n) /\
    (forall x, covers A x -> load8 (hmem h') x = load8 (hmem h) x) /\
    (exists b, b ∈ F' /\ n <= b.2) /\ (length F' <= S (length F))%nat.
Proof.
  intros Hhi [Hc Ho Hf HA Hap Hsep] Hfuel. apply Forall_cons in HA as [Ha HA]. cbn [fst snd] in Ha.
  destruct (free_run base hi ltac:(lia) Hhi fuel h F a n Hc Ho Hf) as (h' & F' & E & C & O & Hp & Cov & Fr & Big & Len); try lia.
  { intros x Hx Hin. apply (Hsep x Hx). apply covers_cons. now left. }
  assert (HapA : forall x, covers A x -> ~ a <= x < a + 8 * n).
  { intros x (b & Hb & Hx). inversion Hap as [|? ? Hall _]; subst.
    pose proof (proj1 (Forall_forall _ _) Hall b Hb) as H. unfold apart in H. cbn in H. lia. }
  assert (HFA : forall x, covers F' x -> covers A x -> False).
  { intros x Hx HxA. apply Cov in Hx as [Hx|Hx]; [|now apply (HapA x)].
    apply (Hsep x Hx). apply covers_cons. now right. }
  assert (Hfr : forall x, covers A x -> load8 (hmem h') x = load8 (hmem h) x).
  { intros x Hx. apply Fr; [intros HF; now apply (HFA x)|]. destruct Hx as (b & Hb & Hx).
    pose proof (proj1 (Forall_forall _ _) HA b Hb) as (_ & H & _). cbn in H. lia. }
  exists h', F'. split; [done|]. split; [|done]. split; try done.
  - now apply (blocks_frame hi (hmem h)).
  - now inversion Hap.
Qed.
End Heap.

(** ** Growing the heap *)

(** [sbrk]: the break [brk w] moves up and its old value is returned, or nothing
    changes and the result is -1; user memory ends at KERNBASE. *)
Class Sbrks {W : Type} (os : kernel_fn W) := {
  brk : W -> Z;
  sbrk_law : forall w n, 0 < n -> exists r w', os _ (Sbrk n) w = (Some r, w') /\
    ((r = brk w /\ brk w' = brk w + n /\ brk w + n <= 2 ^ 31) \/ (r = u32 (-1) /\ brk w' = brk w)) }.

Section Malloc.
Context {W : Type} (os : kernel_fn W) `{!Sbrks os} (base : Z).
Hypothesis base_pos : 0 < base.

Lemma header_pos hi h F A p : heap_inv base hi h F A -> p ∈ ((base, 0) :: F).*1 -> 0 < p.
Proof.
  intros [_ Ho _ _ _ _] Hp. cbn [fmap list_fmap fst] in Hp. apply elem_of_cons in Hp as [->|Hp]; [done|].
  apply list_elem_of_fmap in Hp as (b & -> & Hb).
  pose proof (proj1 (Forall_forall _ _) (ordered_bounds _ _ _ Ho) b Hb) as H. cbn in H. lia.
Qed.

Lemma morecore_run fuel h F A hi n w :
  heap_inv base hi h F A -> hi <= brk w -> brk w <= 2 ^ 31 -> 1 <= n -> 8 * n < 2 ^ 31 -> (length F < fuel)%nat ->
  exists r h' w', run os (morecore fuel h n) w = Returned (r, h') w' /\
    ((r = 0 /\ h' = h /\ brk w' = brk w) \/
     (r = freep h' /\ 0 < r /\ brk w <= brk w' <= 2 ^ 31 /\ exists F', heap_inv base (brk w') h' F' A /\
        (forall x, covers F x -> covers F' x) /\
        (forall x, covers A x -> load8 (hmem h') x = load8 (hmem h) x) /\
        (exists b, b ∈ F' /\ n <= b.2) /\ (length F' <= S (length F))%nat)).
Proof.
  intros Hinv Hhi Hbrk Hn Hn8 Hfuel. unfold morecore. set (nu := if n <? 4096 then 4096 else n).
  assert (Hnu : n <= nu /\ 8 * nu < 2 ^ 31) by (unfold nu; destruct (Z.ltb_spec n 4096); lia).
  rewrite s32_small by lia.
  destruct (sbrk_law w (nu * 8) ltac:(lia)) as (r & w' & E & [(-> & Hb & Hk)|(-> & Hb)]);
    rewrite (run_sys os _ _ _ _ _ E).
  2:{ rewrite Z.eqb_refl. exists 0, h, w'. split; [done|]. now left. }
  pose proof Hinv as [Hc Ho Hf HA Hap Hsep]. pose proof (ordered_le _ _ _ Ho) as Hlo.
  rewrite (proj2 (Z.eqb_neq (brk w) (u32 (-1)))) by (change (u32 (-1)) with (2 ^ 32 - 1); lia).
  set (p := brk w) in *. set (m := set_size (hmem h) p nu).
  assert (Hnew : heap_inv base (brk w') (mkHeap m (freep h)) F ((p, nu) :: A)).
  { rewrite Hb. split; cbn [hmem freep].
    - apply seg_away; [|done]. constructor; [cbn; lia|]. eapply ordered_away; [exact Ho|]. lia.
    - eapply ordered_weaken; [reflexivity| |exact Ho]. lia.
    - done.
    - constructor.
      + cbn. unfold m, hsize, set_size. rewrite load32_store32_eq, u32_small by lia. lia.
      + apply (blocks_frame base (p + nu * 8) (hmem h)).
        * intros x (b & Hbin & Hx). pose proof (proj1 (Forall_forall _ _) HA b Hbin) as H. cbn in H.
          unfold m, set_size. rewrite load8_store32_ne by lia. done.
        * eapply Forall_impl; [exact HA|]. cbn. lia.
    - constructor; [|done]. eapply Forall_impl; [exact HA|]. unfold apart. cbn. lia.
    - intros x Hx. rewrite covers_cons. cbn [fst snd]. intros [Hin|HxA]; [|now apply (Hsep x)].
      apply (covers_bounds _ _ _ _ Ho) in Hx. lia. }
  assert (Hw : brk w' < 2 ^ 32) by (rewrite Hb; lia).
  destruct (free_inv base base_pos (brk w') _ F A p nu fuel Hw Hnew Hfuel)
    as (h' & F' & E' & Hinv' & Cov & Fr & (b & Hb1 & Hb2) & Len).
  unfold hadd. rewrite u32_small by lia. replace (p + 8 * 1) with (p + 8) by lia. rewrite E'.
  exists (freep h'), h', w'. split; [done|]. right. split; [done|].
  split; [exact (header_pos _ _ _ _ _ Hinv' (iv_freep _ _ _ _ _ Hinv'))|]. split; [lia|].
  exists F'. split; [done|]. split; [intros x Hx; apply Cov; now left|].
  split; [|split; [exists b; split; [done|lia]|done]].
  intros x Hx. rewrite Fr by done. cbn [hmem]. unfold m, set_size. destruct Hx as (c & Hbin & Hx).
  pose proof (proj1 (Forall_forall _ _) HA c Hbin) as H. cbn in H. now rewrite load8_store32_ne by lia.
Qed.

(** The search from [freep], when the free list is [F]. *)
Lemma search_from hi h F A n fuel : hi < 2 ^ 32 -> heap_inv base hi h F A -> 1 <= n ->
  (length F < fuel)%nat ->
  (exists a F' h', malloc_loop fuel h n (freep h) (hptr (hmem h) (freep h)) = Ret (a + 8, h') /\
    base + 8 <= a /\ heap_inv base hi h' F' ((a, n) :: A) /\
    (forall y, covers F y -> covers F' y \/ a <= y < a + 8 * n) /\
    (forall y, covers A y -> load8 (hmem h') y = load8 (hmem h) y)) \/
  (Forall (fun b => b.2 < n) F /\ exists fuel', (fuel = length F + S fuel')%nat /\
    malloc_loop fuel h n (freep h) (hptr (hmem h) (freep h)) = grow (S fuel') h n fuel').
Proof.
  intros Hhi Hinv Hn Hfuel. pose proof Hinv as [Hc Ho Hf _ _ _]. pose proof (far_list base F hi Ho) as Hfar.
  set (L := (base, 0) :: F) in *.
  apply list_elem_of_fmap in Hf as (b & Hb & Hin). apply list_elem_of_split in Hin as (X & Y & EL).
  assert (Hrot : circ (hmem h) (Y ++ X ++ [b]) /\ all_far (Y ++ X ++ [b])).
  { replace L with ((X ++ [b]) ++ Y) in Hc, Hfar by (rewrite <- app_assoc; done).
    split; [now apply circ_rotate|now apply all_far_rotate]. }
  destruct Hrot as [Hc' Hfar'].
  assert (Hlen : length L = length (Y ++ X ++ [b])).
  { rewrite EL, !length_app. cbn [length]. lia. }
  destruct (Y ++ X ++ [b]) as [|x R] eqn:ER; [apply app_nil in ER as [_ ER]; now destruct X|].
  assert (Hlast : List.last (x :: R) x = b) by (rewrite <- ER, app_assoc; apply List.last_last).
  assert (Hprev : before x (R ++ []) = freep h).
  { rewrite app_nil_r, Hb, <- Hlast. unfold before. now destruct R. }
  assert (Hnext : hptr (hmem h) (freep h) = x.1).
  { unfold circ in Hc'. rewrite <- ER, app_assoc in Hc'. apply hseg_app in Hc' as [_ (E & _)].
    rewrite Hb, E. rewrite <- app_assoc, ER. done. }
  rewrite Hnext, <- Hprev.
  destruct (search h n R [] x fuel) as [(V' & x' & R' & E1 & E2 & ->)|(Hall & fuel' & Ef & ->)]; try done.
  - now rewrite Hlast.
  - rewrite <- Hlen. unfold L. cbn [length]. lia.
  - left. cbn [app] in E1. rewrite <- ER in E1. apply rotation_split in E1 as (L1 & L2 & EL1 & ->).
    assert (EL' : L = L1 ++ x' :: L2) by (rewrite <- EL1, <- app_assoc; exact EL).
    destruct L1 as [|c F1]; [unfold L in EL'; injection EL' as <- _; cbn in E2; lia|].
    unfold L in EL'. injection EL' as <- ->.
    destruct (take_inv base base_pos hi h F1 x' L2 A n Hhi Hinv ltac:(lia)) as (a & F' & h' & E & H).
    exists a, F', h'. rewrite E. done.
  - right. split; [|exists fuel'; split; [|done]].
    + apply Forall_forall. intros c Hc1.
      apply (proj1 (Forall_forall _ _) Hall). rewrite <- ER.
      assert (Hc2 : c ∈ L) by (unfold L; set_solver). rewrite EL in Hc2. set_solver.
    + rewrite Ef. unfold L in Hlen. cbn [length] in Hlen. lia.
Qed.

(** The heap before the first call: [freep] is null. *)
Definition heap_state (hi : Z) (h : heap) (F A : list (Z * Z)) : Prop :=
  heap_inv base hi h F A \/ (freep h = 0 /\ F = [] /\ A = [] /\ base + 8 <= hi).

Lemma first_call hi h F A : hi < 2 ^ 32 -> heap_state hi h F A ->
  heap_inv base hi (if freep h =? 0 then mkHeap (set_size (set_ptr (hmem h) base base) base 0) base else h) F A.
Proof.
  intros Hhi [Hinv|(-> & -> & -> & Hb)].
  - pose proof (header_pos _ _ _ _ _ Hinv (iv_freep _ _ _ _ _ Hinv)).
    now rewrite (proj2 (Z.eqb_neq (freep h) 0)) by lia.
  - rewrite Z.eqb_refl. split; cbn [hmem freep].
    + unfold circ. cbn [seg first fst snd]. unfold hptr, hsize, set_ptr, set_size.
      rewrite load32_store32_ne, load32_store32_eq, u32_small, load32_store32_eq by lia. done.
    + done.
    + set_solver.
    + constructor.
    + constructor.
    + intros x Hx. now apply covers_nil in Hx.
Qed.

(** What a call of [malloc] that returns [r] has done: nothing but fail, or a
    new block of [n] headers at [r - 8]. *)
Definition malloced (hi : Z) (h h' : heap) (F A : list (Z * Z)) (n r : Z) (w w' : W) : Prop :=
  (r = 0 /\ brk w' = brk w /\ heap_inv base hi h' F A) \/
  (0 < r /\ brk w <= brk w' <= 2 ^ 31 /\ exists F',
    heap_inv base (brk w') h' F' ((r - 8, n) :: A) /\
    (forall x, covers F x -> covers F' x \/ r - 8 <= x < r - 8 + 8 * n) /\
    (forall x, covers A x -> load8 (hmem h') x = load8 (hmem h) x)).

Lemma malloc_loop_run fuel h F A hi n w :
  heap_inv base hi h F A -> hi <= brk w -> brk w <= 2 ^ 31 -> 1 <= n -> 8 * n < 2 ^ 31 ->
  (2 * length F + 3 <= fuel)%nat ->
  exists r h' w', run os (malloc_loop fuel h n (freep h) (hptr (hmem h) (freep h))) w = Returned (r, h') w' /\
    malloced hi h h' F A n r w w'.
Proof.
  intros Hinv Hhi Hbrk Hn Hn8 Hfuel.
  destruct (search_from hi h F A n fuel ltac:(lia) Hinv Hn ltac:(lia))
    as [(a & F' & h' & -> & Ha & Hinv' & Hcov & Hfr)|(Hsmall & fuel' & Ef & ->)].
  { exists (a + 8), h', w. split; [done|]. right. split; [lia|]. split; [lia|]. exists F'.
    replace (a + 8 - 8) with a by lia. split; [now apply (inv_grow base hi)|]. done. }
  unfold grow.
  destruct (morecore_run (S fuel') h F A hi n w Hinv Hhi Hbrk Hn Hn8 ltac:(lia))
    as (r & h1 & w1 & R1 & [(-> & -> & Hb)|(-> & Hr & Hb & F1 & Hinv1 & Cov1 & Fr1 & (b & Hb1 & Hb2) & Len)]);
    rewrite (run_returned os _ _ _ _ _ R1); cbv beta iota.
  - exists 0, h, w1. split; [done|]. now left.
  - rewrite (proj2 (Z.eqb_neq (freep h1) 0)) by lia.
    assert (Hw1 : brk w1 < 2 ^ 32) by lia.
    destruct (search_from (brk w1) h1 F1 A n fuel' Hw1 Hinv1 Hn ltac:(lia))
      as [(a & F' & h' & -> & Ha & Hinv' & Hcov & Hfr)|(Hsmall' & _)].
    + exists (a + 8), h', w1. split; [done|]. right. split; [lia|]. split; [lia|]. exists F'.
      replace (a + 8 - 8) with a by lia. split; [done|]. split; [intros x Hx; now apply Hcov, Cov1|].
      intros x Hx. now rewrite Hfr, Fr1.
    + pose proof (proj1 (Forall_forall _ _) Hsmall' b Hb1) as H. cbn in H. lia.
Qed.

Lemma units_spec nbytes : 0 <= nbytes < 2 ^ 31 - 16 ->
  1 <= units nbytes /\ nbytes <= 8 * (units nbytes - 1) < nbytes + 8.
Proof. intros H. unfold units. rewrite u32_small by lia. Z.div_mod_to_equations. lia. Qed.

(** C18. umalloc.c malloc, free, morecore: whatever calls were made before, the
    free list is a circle of disjoint blocks and the blocks handed out are
    disjoint from it and from each other.  [malloc] returns for every size
    below 2 GB: 0 with everything unchanged when [sbrk] fails, or a block with
    room for the bytes asked for (rounded up to 8) that overlaps no block in use;
    no free memory is lost, and the contents of the blocks in use are unchanged.
    [free] of a block in use returns its memory to the free list and changes no
    other block in use.  The walks visit the free list at most twice. *)
Theorem malloc_free_correct : forall fuel hi h F A w,
  heap_state hi h F A -> hi <= brk w -> brk w <= 2 ^ 31 -> (2 * length F + 3 <= fuel)%nat ->
  (forall nbytes, 0 <= nbytes < 2 ^ 31 - 16 ->
    exists r h' w', run os (malloc base fuel h nbytes) w = Returned (r, h') w' /\
      nbytes <= 8 * (units nbytes - 1) < nbytes + 8 /\
      malloced hi h h' F A (units nbytes) r w w') /\
  (forall a n A', A = (a, n) :: A' ->
    exists h' F', free fuel h (a + 8) = Some h' /\ heap_inv base hi h' F' A' /\
      (forall x, covers F' x <-> covers F x \/ a <= x < a + 8 * n) /\
      (forall x, covers A' x -> load8 (hmem h') x = load8 (hmem h) x)).
Proof.
  intros fuel hi h F A w Hst Hhi Hbrk Hfuel. split.
  - intros nbytes Hn. destruct (units_spec nbytes Hn) as [Hu1 Hu2]. unfold malloc.
    pose proof (first_call hi h F A ltac:(lia) Hst) as Hinv. set (h0 := if freep h =? 0 then _ else h) in *.
    destruct (malloc_loop_run fuel h0 F A hi (units nbytes) w Hinv Hhi Hbrk Hu1 ltac:(lia) Hfuel)
      as (r & h' & w' & R & H).
    exists r, h', w'. split; [exact R|]. split; [done|].
    destruct H as [H|(Hr & Hb & F' & H1 & H2 & H3)]; [now left|right]. split; [done|]. split; [done|].
    exists F'. split; [done|]. split; [done|]. intros x Hx. rewrite H3 by done. unfold h0.
    destruct (freep h =? 0) eqn:E; [|done]. destruct Hst as [Hst|(_ & _ & -> & _)].
    + pose proof (header_pos _ _ _ _ _ Hst (iv_freep _ _ _ _ _ Hst)). lia.
    + now apply covers_nil in Hx.
  - intros a n A' ->. destruct Hst as [Hst|(_ & _ & [=] & _)].
    destruct (free_inv base base_pos hi h F A' a n fuel ltac:(lia) Hst ltac:(lia))
      as (h' & F' & E & H1 & H2 & H3 & _). exists h', F'. done.
Qed.
End Malloc.

(** A kernel where [sbrk] moves a break below 1 MB. *)
Definition brk_os : kernel_fn Z := fun R c w =>
  match c in call R return option R * Z with
  | Sbrk n => if w + n <=? 2 ^ 20 then (Some w, w + n) else (Some (u32 (-1)), w)
  | _ => (None, w)
  end.

#[export] Program Instance brk_sbrks : Sbrks brk_os := {| brk := fun w => w |}.
Next Obligation.
  intros w n Hn. cbn. destruct (Z.leb_spec (w + n) (2 ^ 20)); eexists _, _; (split; [reflexivity|]).
  - left. split; [done|]. split; [done|]. lia.
  - now right.
Qed.

Lemma malloc_free_correct_witness :
  exists r h' w', run brk_os (malloc 4096 3 (mkHeap ∅ 0) 100) 8192 = Returned (r, h') w' /\
    100 <= 8 * (units 100 - 1) < 100 + 8 /\
    malloced brk_os 4096 8192 (mkHeap ∅ 0) h' [] [] (units 100) r 8192 w'.
Proof.
  destruct (malloc_free_correct brk_os 4096 ltac:(lia) 3 8192 (mkHeap ∅ 0) [] [] 8192) as [H _].
  - right. repeat split; lia.
  - cbn. lia.
  - cbn. lia.
  - cbn. lia.
  - apply H. lia.
Defined.

(** The size computation is done in 32 bits: the largest requests wrap around to
    a block of one header, without room for a single byte. *)
Lemma malloc_wraps : units (2 ^ 32 - 1) = 1 /\
  exists h' w', run brk_os (malloc 4096 3 (mkHeap ∅ 0) (2 ^ 32 - 1)) 8192 = Returned (8192 + 8 * 4095 + 8, h') w'.
Proof. split; [reflexivity|]. eexists _, _. vm_compute. reflexivity. Qed.
