(* ===== verification/Mkfs.v ===== *)
(** * Building a file system image (mkfs.c)

    The host program that writes the initial file system.  The image file is the
    list of its sectors; [din] is the 64 bytes of a [struct dinode].  A host
    call that fails, an [assert] that does not hold and [exit(1)] end the
    program ([None]).  The files named on the command line are given with what
    the [read] calls return for them. *)

From S2P Require Import Prelude State Strings Bytes Inode.

Definition NINODES : Z := 200.
Definition nbitmap : Z := FSSIZE / (BSIZE * 8) + 1.
Definition ninodeblocks : Z := NINODES / IPB + 1.
Definition nlog : Z := LOGSIZE.
Definition nmeta : Z := 2 + nlog + ninodeblocks + nbitmap.
Definition nblocks : Z := FSSIZE - nmeta.

(** The super block; its fields are stored little-endian by [xint]. *)
Definition sb : superblock :=
  mkSuperblock FSSIZE nblocks NINODES nlog 2 (2 + nlog) (2 + nlog + ninodeblocks).

Definition sb_bytes : list Z :=
  mjoin (le32 <$> [sb_size sb; sb_nblocks sb; sb_ninodes sb; sb_nlog sb; sb_logstart sb;
                   sb_inodestart sb; sb_bmapstart sb]).

(** The global variables. *)
Record mkfs_state : Type := mkState { img : list (list Z); freeinode : Z; freeblock : Z }.

(** A small monad: state, and the ways the program can give up. *)
Definition H (A : Type) : Type := mkfs_state -> option (A * mkfs_state).
Definition hret {A} (a : A) : H A := fun s => Some (a, s).
Definition hfail {A} : H A := fun _ => None.
Definition hbind {A B} (m : H A) (f : A -> H B) : H B := fun s =>
  match m s with Some (a, s') => f a s' | None => None end.

Declare Scope host_scope.
Delimit Scope host_scope with host.
Notation "x <- p ;; q" := (hbind p (fun x => q))
  (at level 100, p at next level, q at level 200, right associativity) : host_scope.
Notation "p ;; q" := (hbind p (fun _ => q))
  (at level 100, q at level 200, right associativity) : host_scope.
Open Scope host_scope.

Definition hassert (b : bool) : H unit := if b then hret tt else hfail.

Definition zeroes : list Z := replicate (Z.to_nat BSIZE) 0.

(** [lseek] and [write]: a sector past the end leaves a hole of zeroes. *)
Definition wsect (sec : Z) (buf : list Z) : H unit := fun s =>
  let n := Z.to_nat sec in
  let i := img s in
  let i' := if (n <? length i)%nat then <[n := buf]> i
            else i ++ replicate (n - length i) zeroes ++ [buf] in
  Some (tt, mkState i' (freeinode s) (freeblock s)).

(** [read] at or past the end of the file returns fewer bytes: [exit(1)]. *)
Definition rsect (sec : Z) : H (list Z) := fun s =>
  match img s !! Z.to_nat sec with Some b => Some (b, s) | None => None end.

(** ** Inodes *)

Definition winode (inum : Z) (ip : list Z) : H unit :=
  let bn := IBLOCK inum sb in
  buf <- rsect bn ;;
  wsect bn (put buf (inum mod IPB * DINODE) ip).

Definition rinode (inum : Z) : H (list Z) :=
  let bn := IBLOCK inum sb in
  buf <- rsect bn ;;
  hret (slice buf (inum mod IPB * DINODE) DINODE).

(** The fields of a [struct dinode]. *)
Definition din_size (din : list Z) : Z := ld32 din 8.
Definition set_din_size (din : list Z) (v : Z) : list Z := st32 din 8 v.
Definition din_addr (din : list Z) (i : Z) : Z := ld32 din (12 + 4 * i).
Definition set_din_addr (din : list Z) (i v : Z) : list Z := st32 din (12 + 4 * i) v.

Definition ialloc (type : Z) : H Z := fun s =>
  let inum := freeinode s in
  let s := mkState (img s) (u32 (inum + 1)) (freeblock s) in
  let din := replicate (Z.to_nat DINODE) 0 in
  let din := st16 din 0 type in
  let din := st16 din 6 1 in
  let din := set_din_size din 0 in
  (winode inum din ;; hret inum) s.

(** [freeblock++] *)
Definition next_block : H Z := fun s =>
  Some (freeblock s, mkState (img s) (freeinode s) (u32 (freeblock s + 1))).

(** ** balloc *)

Fixpoint balloc_loop (k : nat) (i : Z) (buf : list Z) : list Z :=
  match k with
  | O => buf
  | S k' => balloc_loop k' (i + 1) (st8 buf (i / 8) (Z.lor (ld8 buf (i / 8)) (Z.shiftl 1 (i mod 8))))
  end.

Definition balloc (used : Z) : H unit :=
  hassert (used <? BSIZE * 8) ;;
  wsect (sb_bmapstart sb) (balloc_loop (Z.to_nat used) 0 zeroes).

(** ** iappend *)

(** The block of the file that holds its block [fbn], allocated when needed:
    the new [din] and [x]. *)
Definition map_block (din : list Z) (fbn : Z) : H (list Z * Z) :=
  if fbn <? NDIRECT then
    din <- (if din_addr din fbn =? 0 then b <- next_block ;; hret (set_din_addr din fbn b)
            else hret din) ;;
    hret (din, din_addr din fbn)
  else
    din <- (if din_addr din NDIRECT =? 0 then b <- next_block ;; hret (set_din_addr din NDIRECT b)
            else hret din) ;;
    indirect <- rsect (din_addr din NDIRECT) ;;
    indirect <- (if ld32 indirect (4 * (fbn - NDIRECT)) =? 0 then
                   b <- next_block ;;
                   let indirect := st32 indirect (4 * (fbn - NDIRECT)) b in
                   wsect (din_addr din NDIRECT) indirect ;;
                   hret indirect
                 else hret indirect) ;;
    hret (din, ld32 indirect (4 * (fbn - NDIRECT))).

(** [while(n > 0) ...]: [p] is the bytes still to append.  Each round takes at
    least one of them. *)
Fixpoint iappend_loop (fuel : nat) (din : list Z) (off : Z) (p : list Z) : H (list Z * Z) :=
  match fuel with
  | O => hfail
  | S fuel' =>
      if bool_decide (p = []) then hret (din, off)
      else
        let fbn := off / BSIZE in
        hassert (fbn <? MAXFILE) ;;
        r <- map_block din fbn ;;
        let '(din, x) := r in
        let n1 := Z.min (Z.of_nat (length p)) ((fbn + 1) * BSIZE - off) in
        buf <- rsect x ;;
        wsect x (put buf (off - fbn * BSIZE) (take (Z.to_nat n1) p)) ;;
        iappend_loop fuel' din (u32 (off + n1)) (drop (Z.to_nat n1) p)
  end.

Definition iappend (inum : Z) (p : list Z) : H unit :=
  din <- rinode inum ;;
  r <- iappend_loop (S (length p)) din (din_size din) p ;;
  let '(din, off) := r in
  winode inum (set_din_size din off).

(** ** main *)

(** [struct dirent] *)
Definition dirent (inum : Z) (name : list Z) : list Z :=
  le16 inum ++ strncpy_arr (Z.to_nat DIRSIZ) name.

Fixpoint zero_image (k : nat) (i : Z) : H unit :=
  match k with
  | O => hret tt
  | S k' => wsect i zeroes ;; zero_image k' (i + 1)
  end.

(** A file of the command line: its name and the results of the reads, or [None]
    when it cannot be opened. *)
Definition input : Type := list Z * option (list (list Z)).

Fixpoint append_all (inum : Z) (chunks : list (list Z)) : H unit :=
  match chunks with
  | [] => hret tt
  | c :: chunks' => iappend inum c ;; append_all inum chunks'
  end.

Fixpoint add_files (rootino : Z) (files : list input) : H unit :=
  match files with
  | [] => hret tt
  | (name, contents) :: files' =>
      hassert (negb (bool_decide (47 ∈ name))) ;;
      match contents with
      | None => hfail
      | Some chunks =>
          let name := match name with 95 :: name' => name' | _ => name end in
          inum <- ialloc 2 ;;
          iappend rootino (dirent inum name) ;;
          append_all inum chunks ;;
          add_files rootino files'
      end
  end.

(** [main] after the image file was opened and truncated. *)
Definition main (files : list input) : H unit :=
  zero_image (Z.to_nat FSSIZE) 0 ;;
  wsect 1 (put zeroes 0 sb_bytes) ;;
  rootino <- ialloc 1 ;;
  hassert (rootino =? ROOTINO) ;;
  iappend rootino (dirent rootino (str ".")) ;;
  iappend rootino (dirent rootino (str "..")) ;;
  add_files rootino files ;;
  din <- rinode rootino ;;
  winode rootino (set_din_size din ((din_size din / BSIZE + 1) * BSIZE)) ;;
  used <- (fun s => Some (freeblock s, s)) ;;
  balloc used.

(** The initial values of the globals, with [freeblock] as [main] sets it. *)
Definition start : mkfs_state := mkState [] 1 nmeta.

Definition mkfs (files : list input) : option (list (list Z)) :=
  match main files start with Some (_, s) => Some (img s) | None => None end.
