(* ===== verification/MkfsSpec.v ===== *)
(** * The image mkfs builds

    The on-disk format read on its own terms: which block holds which part of
    which file.  Every block mkfs hands out gets one role, so no two files share
    a block, and the blocks of a file hold its bytes. *)

From S2P Require Import Prelude State Strings Bytes Inode Mkfs.

Definition blk (im : list (list Z)) (b : Z) : list Z := im !!! Z.to_nat b.

(** The block that holds block [k] of the file with dinode [din], or 0. *)
Definition entry (im : list (list Z)) (din : list Z) (k : Z) : Z :=
  if k <? NDIRECT then din_addr din k
  else if din_addr din NDIRECT =? 0 then 0
  else ld32 (blk im (din_addr din NDIRECT)) (4 * (k - NDIRECT)).

(** A file: its bytes, how many blocks it has, and whether it has an indirect
    block. *)
Record file : Type := mkFile { f_data : list Z; f_nb : Z; f_ind : bool }.

(** What a block is used for: block [k] of inode [i], or its indirect block for
    [k = -1]. *)
Definition roles : Type := Z -> option (Z * Z).

Definition size (f : file) : Z := Z.of_nat (length (f_data f)).

Record file_ok (im : list (list Z)) (fb : Z) (role : roles) (i : Z) (din : list Z) (f : file) : Prop := {
  fo_len : length din = 64%nat;
  fo_nb : 0 <= f_nb f <= MAXFILE /\ (NDIRECT < f_nb f -> f_ind f = true);
  fo_size : size f <= BSIZE * f_nb f;
  fo_entry : forall k, 0 <= k < f_nb f ->
    nmeta <= entry im din k < fb /\ role (entry im din k) = Some (i, k);
  fo_data : forall k j, 0 <= k < f_nb f -> 0 <= j < BSIZE ->
    ld8 (blk im (entry im din k)) j = default 0 (f_data f !! Z.to_nat (BSIZE * k + j));
  fo_rest : forall k, f_nb f <= k < MAXFILE -> entry im din k = 0;
  fo_ind : if f_ind f then nmeta <= din_addr din NDIRECT < fb /\ role (din_addr din NDIRECT) = Some (i, -1)
           else din_addr din NDIRECT = 0
}.

Lemma maxfile_140 : MAXFILE = 140. Proof. reflexivity. Qed.
Lemma nmeta_eq : nmeta = 59. Proof. reflexivity. Qed.

Ltac consts := unfold NDIRECT, BSIZE, FSSIZE in *; rewrite ?maxfile_140, ?nmeta_eq in *.

(** A file depends on its own blocks only. *)
Lemma file_ok_frame im im' fb fb' role role' i din f : file_ok im fb role i din f -> fb <= fb' ->
  (forall b k, role b = Some (i, k) -> blk im' b = blk im b /\ role' b = Some (i, k)) ->
  file_ok im' fb' role' i din f.
Proof.
  intros [H1 H2 H3 H4 H5 H6 H7] Hfb Hb.
  assert (He : forall k, entry im' din k = entry im din k).
  { intros k. unfold entry. destruct (k <? NDIRECT); [done|].
    destruct (Z.eqb_spec (din_addr din NDIRECT) 0) as [E|E]; [done|].
    destruct (f_ind f); [|done]. destruct H7 as [_ H7]. now rewrite (proj1 (Hb _ _ H7)). }
  split; try done.
  - intros k Hk. rewrite He. destruct (H4 k Hk) as [H4a H4b]. split; [lia|]. now apply Hb.
  - intros k j Hk Hj. rewrite He. destruct (H4 k Hk) as [_ H4b]. rewrite (proj1 (Hb _ _ H4b)). now apply H5.
  - intros k Hk. rewrite He. now apply H6.
  - destruct (f_ind f); [|done]. destruct H7 as [H7a H7b]. split; [lia|]. now apply Hb.
Qed.

Lemma din_addr_set din k k' v : length din = 64%nat -> 0 <= k <= 12 -> 0 <= k' <= 12 -> 0 <= v < 2 ^ 32 ->
  din_addr (set_din_addr din k v) k' = if decide (k' = k) then v else din_addr din k'.
Proof.
  intros Hd Hk Hk' Hv. unfold din_addr, set_din_addr. destruct (decide (k' = k)) as [->|Hne].
  - rewrite ld32_st32 by lia. now apply u32_small.
  - unfold st32. apply ld32_put_ne; cbn [length le32]; lia.
Qed.

Lemma length_set_addr din k v : length (set_din_addr din k v) = length din.
Proof. apply length_put. Qed.

Lemma blk_insert im a d b : 0 <= a < Z.of_nat (length im) -> 0 <= b ->
  blk (<[Z.to_nat a := d]> im) b = if decide (b = a) then d else blk im b.
Proof.
  intros Ha Hb. unfold blk. destruct (decide (b = a)) as [->|Hne].
  - rewrite list_lookup_total_insert_eq by lia. done.
  - rewrite list_lookup_total_insert_ne by lia. done.
Qed.

(** ** Handing out blocks *)

Section Grow.
Context (im : list (list Z)) (fb : Z) (role : roles) (i : Z) (din : list Z) (f : file).
Hypothesis (Hok : file_ok im fb role i din f) (Hfb : nmeta <= fb < FSSIZE)
  (Hfresh : blk im fb = zeroes) (Hnew : role fb = None).

Definition assign (x : Z * Z) : roles := fun b => if decide (b = fb) then Some x else role b.

Lemma assign_keeps x b y : role b = Some y -> assign x b = Some y.
Proof using Hnew. intros H. unfold assign. rewrite decide_False; [done|]. intros ->. congruence. Qed.

Lemma zero_byte j : 0 <= j < BSIZE -> ld8 (blk im fb) j = 0.
Proof using Hfresh. intros Hj. rewrite Hfresh. unfold ld8, zeroes. rewrite lookup_total_replicate_2; [done|]. unfold BSIZE in *. lia. Qed.

(** A direct block. *)
Lemma alloc_direct : f_nb f < NDIRECT ->
  file_ok im (fb + 1) (assign (i, f_nb f)) i (set_din_addr din (f_nb f) fb) (mkFile (f_data f) (f_nb f + 1) (f_ind f)).
Proof using All.
  intros Hnb. destruct Hok as [H1 [H2 H2'] H3 H4 H5 H6 H7]. set (n := f_nb f) in *. consts.
  assert (Ha : forall k, 0 <= k <= 12 -> din_addr (set_din_addr din n fb) k = if decide (k = n) then fb else din_addr din k).
  { intros k Hk. apply din_addr_set; lia || done. }
  assert (He : forall k, 0 <= k -> entry im (set_din_addr din n fb) k = if decide (k = n) then fb else entry im din k).
  { intros k Hk. unfold entry. consts. destruct (Z.ltb_spec k 12); [apply Ha; lia|].
    rewrite Ha by lia. rewrite !decide_False by lia. done. }
  split; cbn [f_data f_nb f_ind]; consts; try lia.
  - now rewrite length_set_addr.
  - unfold size in *. cbn [f_data]. lia.
  - intros k Hk. rewrite He by lia. destruct (decide (k = n)) as [->|Hne].
    + split; [lia|]. unfold assign. now rewrite decide_True.
    + destruct (H4 k ltac:(lia)) as [H4a H4b]. split; [lia|]. now apply assign_keeps.
  - intros k j Hk Hj. rewrite He by lia. destruct (decide (k = n)) as [->|Hne]; [|apply H5; lia].
    rewrite zero_byte by (unfold BSIZE; lia). rewrite lookup_ge_None_2; [done|].
    unfold size in H3. lia.
  - intros k Hk. rewrite He by lia. rewrite decide_False by lia. apply H6. lia.
  - rewrite Ha by lia. rewrite decide_False by lia. destruct (f_ind f); [|done].
    destruct H7 as [H7a H7b]. split; [lia|]. now apply assign_keeps.
Qed.

(** The indirect block, empty. *)
Lemma alloc_indirect : f_ind f = false -> f_nb f = NDIRECT ->
  file_ok im (fb + 1) (assign (i, -1)) i (set_din_addr din NDIRECT fb) (mkFile (f_data f) (f_nb f) true).
Proof using All.
  intros Hind Hnb. destruct Hok as [H1 [H2 H2'] H3 H4 H5 H6 H7]. rewrite Hind in H7. consts.
  assert (Ha : forall k, 0 <= k <= 12 -> din_addr (set_din_addr din 12 fb) k = if decide (k = 12) then fb else din_addr din k).
  { intros k Hk. apply din_addr_set; lia || done. }
  assert (He : forall k, 0 <= k < 12 -> entry im (set_din_addr din 12 fb) k = entry im din k).
  { intros k Hk. unfold entry. consts. rewrite (proj2 (Z.ltb_lt k 12)), Ha, decide_False by lia. done. }
  split; cbn [f_data f_nb f_ind]; consts; try done.
  - now rewrite length_set_addr.
  - intros k Hk. rewrite He by lia. destruct (H4 k ltac:(lia)) as [H4a H4b]. split; [lia|]. now apply assign_keeps.
  - intros k j Hk Hj. rewrite He by lia. now apply H5.
  - intros k Hk. unfold entry. consts. rewrite (proj2 (Z.ltb_ge k 12)), Ha, decide_True by lia.
    rewrite (proj2 (Z.eqb_neq fb 0)) by lia. unfold ld32. rewrite !zero_byte by (unfold BSIZE; lia). done.
  - rewrite Ha, decide_True by lia. split; [lia|]. unfold assign. now rewrite decide_True.
Qed.

(** A block whose number goes into the indirect block. *)
Lemma alloc_through : f_ind f = true -> NDIRECT <= f_nb f < MAXFILE ->
  length im = Z.to_nat FSSIZE -> length (blk im (din_addr din NDIRECT)) = Z.to_nat BSIZE ->
  let a := din_addr din NDIRECT in
  let im' := <[Z.to_nat a := st32 (blk im a) (4 * (f_nb f - NDIRECT)) fb]> im in
  file_ok im' (fb + 1) (assign (i, f_nb f)) i din (mkFile (f_data f) (f_nb f + 1) true) /\
  ld32 (blk im' a) (4 * (f_nb f - NDIRECT)) = fb.
Proof using All.
  intros Hind Hnb Him Hblk a im'. destruct Hok as [H1 [H2 H2'] H3 H4 H5 H6 H7]. rewrite Hind in H7.
  set (n := f_nb f) in *. consts. fold a in H7, Hblk. destruct H7 as [H7a H7b].
  assert (Hb : forall b, 0 <= b -> blk im' b = if decide (b = a) then st32 (blk im a) (4 * (n - 12)) fb else blk im b).
  { intros b Hb. apply blk_insert; [rewrite Him; lia|done]. }
  assert (Hw : forall k, 12 <= k < 140 -> ld32 (blk im' a) (4 * (k - 12)) = if decide (k = n) then fb else ld32 (blk im a) (4 * (k - 12))).
  { intros k Hk. rewrite Hb, decide_True by lia. destruct (decide (k = n)) as [->|Hne].
    - rewrite ld32_st32 by (rewrite ?Hblk; lia). apply u32_small. lia.
    - unfold st32. apply ld32_put_ne; cbn [length le32]; rewrite ?Hblk; lia. }
  assert (He : forall k, 0 <= k < 140 -> entry im' din k = if decide (k = n) then fb else entry im din k).
  { intros k Hk. unfold entry. consts. fold a. destruct (Z.ltb_spec k 12); [rewrite decide_False by lia; done|].
    rewrite (proj2 (Z.eqb_neq a 0)) by lia. apply Hw. lia. }
  assert (Hother : forall k, 0 <= k < n -> entry im din k <> a).
  { intros k Hk E. destruct (H4 k Hk) as [_ Hr]. rewrite E, H7b in Hr. injection Hr as Hr. lia. }
  assert (Hfba : fb <> a) by (intros E; congruence).
  split; [|rewrite Hw, decide_True by lia; done].
  split; cbn [f_data f_nb f_ind]; consts; try done.
  - lia.
  - unfold size in *. cbn [f_data]. lia.
  - intros k Hk. rewrite He by lia. destruct (decide (k = n)) as [->|Hne].
    + split; [lia|]. unfold assign. now rewrite decide_True.
    + destruct (H4 k ltac:(lia)) as [H4a H4b]. split; [lia|]. now apply assign_keeps.
  - intros k j Hk Hj. rewrite He by lia. destruct (decide (k = n)) as [->|Hne].
    + rewrite Hb, decide_False, zero_byte by (unfold BSIZE; lia || done).
      rewrite lookup_ge_None_2; [done|]. unfold size in H3. lia.
    + destruct (H4 k ltac:(lia)) as [H4a _]. rewrite Hb, decide_False by (lia || (apply Hother; lia)). apply H5; lia.
  - intros k Hk. rewrite He by lia. rewrite decide_False by lia. apply H6. lia.
  - split; [fold a; lia|]. now apply assign_keeps.
Qed.
End Grow.

(** Bytes appended in the last block of a file. *)
Lemma append_data im fb role i din f d :
  file_ok im fb role i din f -> length im = Z.to_nat FSSIZE -> fb <= FSSIZE ->
  (forall b, nmeta <= b < fb -> length (blk im b) = Z.to_nat BSIZE) ->
  BSIZE * (f_nb f - 1) <= size f -> size f + Z.of_nat (length d) <= BSIZE * f_nb f -> 1 <= f_nb f ->
  let x := entry im din (f_nb f - 1) in
  let im' := <[Z.to_nat x := put (blk im x) (size f - BSIZE * (f_nb f - 1)) d]> im in
  file_ok im' fb role i din (mkFile (f_data f ++ d) (f_nb f) (f_ind f)).
Proof.
  intros [H1 H2 H3 H4 H5 H6 H7] Him Hfb Hblk Hlo Hhi Hnb x im'.
  set (n := f_nb f) in *. destruct (H4 (n - 1) ltac:(lia)) as [Hx Hrx]. fold x in Hx, Hrx. consts.
  assert (Hb : forall b, 0 <= b -> blk im' b = if decide (b = x) then put (blk im x) (size f - 512 * (n - 1)) d else blk im b).
  { intros b Hb. apply blk_insert; [rewrite Him; lia|done]. }
  assert (Hox : f_ind f = true -> din_addr din 12 <> x).
  { intros E Ea. rewrite E in H7. destruct H7 as [_ H7]. rewrite Ea, Hrx in H7. injection H7 as H7. lia. }
  assert (He : forall k, entry im' din k = entry im din k).
  { intros k. unfold entry. consts. destruct (k <? 12); [done|]. destruct (Z.eqb_spec (din_addr din 12) 0) as [|Ha]; [done|].
    destruct (f_ind f) eqn:Ei; [|done]. rewrite Hb by lia. rewrite decide_False by auto. done. }
  split; cbn [f_data f_nb f_ind]; consts; try done.
  - unfold size in *. cbn [f_data]. rewrite length_app. lia.
  - intros k Hk. rewrite He. now apply H4.
  - intros k j Hk Hj. rewrite He. destruct (H4 k Hk) as [Hek Hrk]. rewrite Hb by lia.
    destruct (decide (entry im din k = x)) as [E|Hne].
    + rewrite E, Hrx in Hrk. injection Hrk as Hrk. subst k.
      pose proof (Hblk x Hx) as Hlx.
      rewrite ld8_put by (rewrite ?Hlx; unfold size in *; lia).
      unfold size in *. case_decide as Hin.
      * rewrite lookup_app_r by lia.
        replace (Z.to_nat (j - (Z.of_nat (length (f_data f)) - 512 * (n - 1)))) with
          (Z.to_nat (512 * (n - 1) + j) - length (f_data f))%nat by lia.
        destruct (lookup_lt_is_Some_2 d (Z.to_nat (512 * (n - 1) + j) - length (f_data f))) as [y Hy]; [lia|].
        now rewrite Hy, (list_lookup_total_correct _ _ _ Hy).
      * rewrite <- E, H5 by lia. destruct (decide (Z.to_nat (512 * (n - 1) + j) < length (f_data f))%nat).
        -- now rewrite lookup_app_l by lia.
        -- rewrite lookup_app_r by lia. rewrite !lookup_ge_None_2 by lia. done.
    + rewrite H5 by lia. assert (k <> n - 1) by (intros ->; done).
      rewrite lookup_app_l; [done|]. unfold size in *. lia.
  - intros k Hk. rewrite He. now apply H6.
Qed.

(** ** The whole image *)

Definition blocks_of (f : file) : Z := f_nb f + (if f_ind f then 1 else 0).
Definition total (fs : list file) : Z := foldr (fun f n => blocks_of f + n) 0 fs.

(** [fs] is the files of inodes 1, 2, ... and [D] gives their dinodes. *)
Record inv (im : list (list Z)) (fb : Z) (role : roles) (D : Z -> list Z) (fs : list file) : Prop := {
  in_img : length im = Z.to_nat FSSIZE;
  in_blk : forall b, 0 <= b < FSSIZE -> length (blk im b) = Z.to_nat BSIZE;
  in_fb : fb = nmeta + total fs /\ fb <= FSSIZE;
  in_zero : forall b, fb <= b < FSSIZE -> blk im b = zeroes;
  in_role : forall b, is_Some (role b) -> nmeta <= b < fb;
  in_file : forall j f, fs !! j = Some f -> file_ok im fb role (1 + Z.of_nat j) (D (1 + Z.of_nat j)) f
}.

Definition upd (D : Z -> list Z) (i : Z) (din : list Z) : Z -> list Z :=
  fun j => if decide (j = i) then din else D j.

Lemma total_insert fs j f f' : fs !! j = Some f -> total (<[j := f']> fs) = total fs - blocks_of f + blocks_of f'.
Proof.
  revert j. induction fs as [|g fs IH]; intros [|j] H; try done; cbn in *.
  - injection H as ->. lia.
  - fold (total (<[j := f']> fs)). fold (total fs). rewrite IH by done. lia.
Qed.

Lemma inv_ext im fb role D D' fs : (forall x, D x = D' x) -> inv im fb role D fs -> inv im fb role D' fs.
Proof. intros E [I1 I2 I3 I4 I5 I6]. split; try done. intros j f Hf. rewrite <- E. now apply I6. Qed.

Lemma total_pos im fb role D fs : inv im fb role D fs -> 0 <= total fs.
Proof.
  intros H. pose proof (in_file _ _ _ _ _ H) as Hf. clear H.
  assert (Hall : Forall (fun f => 0 <= blocks_of f) fs).
  { apply Forall_lookup. intros j f Hj. destruct (fo_nb _ _ _ _ _ _ (Hf j f Hj)). unfold blocks_of.
    destruct (f_ind f); lia. }
  clear Hf. induction Hall; cbn; [lia|]. unfold total in *. lia.
Qed.

(** One file changed, in blocks of its own or fresh ones. *)
Lemma inv_update im fb role D fs im' fb' role' j f din' f' :
  inv im fb role D fs -> fs !! j = Some f ->
  file_ok im' fb' role' (1 + Z.of_nat j) din' f' ->
  length im' = length im -> (forall b, 0 <= b < FSSIZE -> length (blk im' b) = Z.to_nat BSIZE) ->
  fb' = fb - blocks_of f + blocks_of f' -> fb <= fb' <= FSSIZE ->
  (forall b, fb' <= b < FSSIZE -> blk im' b = zeroes) ->
  (forall b, is_Some (role' b) -> nmeta <= b < fb') ->
  (forall b i k, role b = Some (i, k) -> i <> 1 + Z.of_nat j -> blk im' b = blk im b /\ role' b = Some (i, k)) ->
  inv im' fb' role' (upd D (1 + Z.of_nat j) din') (<[j := f']> fs).
Proof.
  intros [I1 I2 [I3 I3'] I4 I5 I6] Hj Hok Hlen Hblk Hfb Hle Hz Hr Hother.
  split; try done; try congruence.
  - rewrite (total_insert _ _ _ _ Hj). lia.
  - intros j' g Hg. unfold upd. destruct (decide (j' = j)) as [->|Hne].
    + rewrite list_lookup_insert_eq in Hg by (apply lookup_lt_Some in Hj; lia). injection Hg as <-.
      now rewrite decide_True.
    + rewrite list_lookup_insert_ne in Hg by done. rewrite decide_False by lia.
      apply (file_ok_frame im im' fb fb' role role'); [now apply I6|lia|].
      intros b k Hb. apply (Hother _ _ _ Hb). lia.
Qed.

(** The state of the program while it works on the image. *)
Definition at_state (s : mkfs_state) (im : list (list Z)) (fb : Z) : Prop := img s = im /\ freeblock s = fb.

Lemma bind_some {A B} (m : H A) (k : A -> H B) s a s' : m s = Some (a, s') -> hbind m k s = k a s'.
Proof. intros E. unfold hbind. now rewrite E. Qed.

Lemma rsect_run im b s : img s = im -> length im = Z.to_nat FSSIZE -> 0 <= b < FSSIZE ->
  rsect b s = Some (blk im b, s).
Proof.
  intros Hs Hl Hb. unfold rsect, blk. rewrite Hs, (list_lookup_lookup_total_lt im); [done|].
  unfold FSSIZE in *. lia.
Qed.

Lemma wsect_run b d s : length (img s) = Z.to_nat FSSIZE -> 0 <= b < FSSIZE ->
  wsect b d s = Some (tt, mkState (<[Z.to_nat b := d]> (img s)) (freeinode s) (freeblock s)).
Proof.
  intros Hl Hb. unfold wsect. rewrite (proj2 (Nat.ltb_lt _ _)); [done|]. unfold FSSIZE in *. lia.
Qed.

Lemma next_block_run s : nmeta <= freeblock s < FSSIZE ->
  next_block s = Some (freeblock s, mkState (img s) (freeinode s) (freeblock s + 1)).
Proof. intros H. unfold next_block. rewrite u32_small; [done|]. consts. lia. Qed.

Lemma role_fresh im fb role D fs : inv im fb role D fs -> role fb = None.
Proof. intros H. destruct (role fb) eqn:E; [|done]. apply in_role with (b := fb) in H; [lia|now rewrite E]. Qed.

(** The roles after a block is handed out. *)
Lemma assign_range role fb x : (forall b, is_Some (role b) -> nmeta <= b < fb) -> nmeta <= fb ->
  forall b, is_Some (assign fb role x b) -> nmeta <= b < fb + 1.
Proof.
  intros Hr Hfb b. unfold assign. destruct (decide (b = fb)) as [->|]; [lia|]. intros Hb. apply Hr in Hb. lia.
Qed.

(** ** map_block *)

Section MapBlock.
Context (im : list (list Z)) (fb : Z) (role : roles) (D : Z -> list Z) (fs : list file)
  (j : nat) (f : file) (s : mkfs_state).
Hypothesis (Hinv : inv im fb role D fs) (Hj : fs !! j = Some f) (Hs : at_state s im fb).

Let i := 1 + Z.of_nat j.
Let din := D i.

Lemma file_here : file_ok im fb role i din f.
Proof using Hinv Hj. now apply (in_file _ _ _ _ _ Hinv). Qed.

(** A block the file has. *)
Lemma map_existing k : 0 <= k < f_nb f -> map_block din k s = Some ((din, entry im din k), s).
Proof using All.
  intros Hk. pose proof file_here as [H1 [H2 H2'] H3 H4 H5 H6 H7]. destruct Hs as [Hs1 Hs2].
  destruct (in_fb _ _ _ _ _ Hinv) as [_ Hfb]. pose proof (in_img _ _ _ _ _ Hinv) as Him.
  destruct (H4 k Hk) as [H4a _]. unfold map_block, entry in *. consts.
  destruct (Z.ltb_spec k 12).
  - now rewrite (proj2 (Z.eqb_neq (din_addr din k) 0)) by lia.
  - rewrite H2' in H7 by lia. destruct H7 as [H7 _].
    rewrite (proj2 (Z.eqb_neq (din_addr din 12) 0)) in * by lia.
    unfold hbind, hret at 1. rewrite (rsect_run im) by (unfold FSSIZE; done || lia).
    now rewrite (proj2 (Z.eqb_neq (ld32 _ _) 0)) by lia.
Qed.

(** A block allocated through the indirect block. *)
Lemma map_through : f_ind f = true -> NDIRECT <= f_nb f < MAXFILE -> fb < FSSIZE ->
  exists im' role', map_block din (f_nb f) s =
      Some ((din, entry im' din (f_nb f)), mkState im' (freeinode s) (fb + 1)) /\
    inv im' (fb + 1) role' D (<[j := mkFile (f_data f) (f_nb f + 1) true]> fs) /\
    forall b, 0 <= b < nmeta -> blk im' b = blk im b.
Proof using All.
  intros Hind Hnb Hlt. pose proof file_here as Hok. pose proof Hok as [_ _ _ _ _ H6 H7]. rewrite Hind in H7.
  destruct H7 as [H7a H7b]. destruct Hs as [Hs1 Hs2]. pose proof (in_img _ _ _ _ _ Hinv) as Him.
  destruct (in_fb _ _ _ _ _ Hinv) as [Htot Hfb].
  set (a := din_addr din NDIRECT) in *. set (n := f_nb f) in *.
  assert (Hlb : length (blk im a) = Z.to_nat BSIZE) by (apply (in_blk _ _ _ _ _ Hinv); consts; lia).
  destruct (alloc_through im fb role i din f Hok ltac:(consts; lia) (in_zero _ _ _ _ _ Hinv fb ltac:(lia))
    (role_fresh _ _ _ _ _ Hinv) Hind Hnb Him Hlb) as [Hok' Hent]. fold n a in Hok', Hent.
  set (im' := <[Z.to_nat a := _]> im) in *. exists im', (assign fb role (i, n)).
  assert (Hb : forall b, 0 <= b -> b <> a -> blk im' b = blk im b).
  { intros b Hb Hne. unfold im'. rewrite blk_insert, decide_False by (rewrite ?Him; consts; lia || done). done. }
  pose proof (H6 n ltac:(lia)) as Hz. unfold entry in Hz. consts.
  rewrite (proj2 (Z.ltb_ge n 12)) in Hz by lia. fold a in Hz. rewrite (proj2 (Z.eqb_neq a 0)) in Hz by lia.
  split; [|split].
  - unfold map_block. consts. rewrite (proj2 (Z.ltb_ge n 12)) by lia. fold a.
    rewrite (proj2 (Z.eqb_neq a 0)) by lia. unfold hbind at 1, hret at 1.
    rewrite (bind_some _ _ s _ s (rsect_run im a s Hs1 Him ltac:(unfold FSSIZE; lia))).
    rewrite Hz, Z.eqb_refl. unfold hbind.
    rewrite next_block_run by (rewrite Hs2; consts; lia). rewrite Hs1, Hs2.
    rewrite wsect_run by (cbn [img]; rewrite ?Him; unfold FSSIZE; lia). cbn [img freeinode freeblock].
    unfold hret. do 3 f_equal. unfold entry. consts. rewrite (proj2 (Z.ltb_ge n 12)) by lia. fold a.
    rewrite (proj2 (Z.eqb_neq a 0)) by lia. unfold im'. rewrite blk_insert, decide_True by (rewrite ?Him; lia). done.
  - eapply (inv_ext _ _ _ (upd D i din) D); [|eapply (inv_update im fb role D fs _ _ _ j f); try done].
    + intros x. unfold upd. now destruct (decide (x = i)) as [->|].
    + unfold im'. now rewrite length_insert.
    + intros b Hb'. destruct (decide (b = a)) as [->|Hne].
      * unfold im'. rewrite blk_insert, decide_True by (rewrite ?Him; consts; lia). unfold st32. now rewrite length_put.
      * rewrite Hb by (lia || done). now apply (in_blk _ _ _ _ _ Hinv).
    + unfold blocks_of. cbn [f_nb f_ind]. rewrite Hind. fold n. lia.
    + consts. lia.
    + intros b Hb'. rewrite Hb by (consts; lia). apply (in_zero _ _ _ _ _ Hinv). lia.
    + apply assign_range; [apply (in_role _ _ _ _ _ Hinv)|consts; lia].
    + intros b i' k Hr Hne. pose proof (in_role _ _ _ _ _ Hinv b ltac:(now rewrite Hr)). split.
      * apply Hb; [consts; lia|]. intros ->. rewrite H7b in Hr. injection Hr as Hr _. now subst i'.
      * apply (assign_keeps fb role (role_fresh _ _ _ _ _ Hinv)). done.
  - intros b Hb'. apply Hb; consts; lia.
Qed.

(** A block handed out without a change of the image. *)
Lemma inv_assign x din' f' : fb < FSSIZE ->
  file_ok im (fb + 1) (assign fb role x) i din' f' -> blocks_of f' = blocks_of f + 1 ->
  inv im (fb + 1) (assign fb role x) (upd D i din') (<[j := f']> fs).
Proof using All.
  intros Hlt Hok' Hbl. destruct (in_fb _ _ _ _ _ Hinv) as [Htot Hfb].
  pose proof (in_role _ _ _ _ _ Hinv) as Hr.
  assert (Htot0 : nmeta <= fb).
  { rewrite Htot. enough (0 <= total fs) by lia. apply (total_pos im fb role D fs Hinv). }
  apply (inv_update im fb role D fs _ _ _ j f); try done.
  - apply (in_blk _ _ _ _ _ Hinv).
  - lia.
  - lia.
  - intros b Hb. apply (in_zero _ _ _ _ _ Hinv). lia.
  - now apply assign_range.
  - intros b i' k Hrb _. split; [done|]. now apply (assign_keeps fb role (role_fresh _ _ _ _ _ Hinv)).
Qed.

Lemma map_direct : f_nb f < NDIRECT -> fb < FSSIZE ->
  exists din' role', map_block din (f_nb f) s =
      Some ((din', entry im din' (f_nb f)), mkState im (freeinode s) (fb + 1)) /\
    inv im (fb + 1) role' (upd D i din') (<[j := mkFile (f_data f) (f_nb f + 1) (f_ind f)]> fs).
Proof using All.
  intros Hnb Hlt. pose proof file_here as Hok. destruct Hs as [Hs1 Hs2].
  destruct (in_fb _ _ _ _ _ Hinv) as [Htot Hfb]. pose proof (total_pos im fb role D fs Hinv) as Hpos.
  pose proof Hok as [H1 [H2 _] _ _ _ H6 _].
  exists (set_din_addr din (f_nb f) fb), (assign fb role (i, f_nb f)). split.
  - unfold map_block, entry. pose proof (H6 (f_nb f) ltac:(consts; lia)) as Hz. unfold entry in Hz. consts.
    rewrite (proj2 (Z.ltb_lt (f_nb f) 12)) in * by lia. rewrite Hz, Z.eqb_refl. unfold hbind.
    rewrite next_block_run by (rewrite Hs2; consts; lia). rewrite Hs1, Hs2. done.
  - apply inv_assign; [done| |unfold blocks_of; cbn; lia].
    apply (alloc_direct im fb role i din f Hok); [lia|apply (in_zero _ _ _ _ _ Hinv); lia| |done].
    now apply (role_fresh _ _ _ _ _ Hinv).
Qed.
End MapBlock.

(** The file with one more block. *)
Definition grown (f : file) : file := mkFile (f_data f) (f_nb f + 1) (f_ind f || (NDIRECT <=? f_nb f)).

(** [map_block] at the end of a file adds a block of zeroes to it. *)
Lemma map_new im fb role D fs j f s :
  inv im fb role D fs -> fs !! j = Some f -> at_state s im fb ->
  f_nb f < MAXFILE -> fb + blocks_of (grown f) - blocks_of f <= FSSIZE ->
  let i := 1 + Z.of_nat j in
  exists im' din' role', let fb' := fb + blocks_of (grown f) - blocks_of f in
    map_block (D i) (f_nb f) s =
      Some ((din', entry im' din' (f_nb f)), mkState im' (freeinode s) fb') /\
    inv im' fb' role' (upd D i din') (<[j := grown f]> fs) /\
    forall b, 0 <= b < nmeta -> blk im' b = blk im b.
Proof.
  intros Hinv Hj Hs Hnb Hfit i. cbv zeta.
  assert (Hok : file_ok im fb role i (D i) f) by now apply (in_file _ _ _ _ _ Hinv).
  pose proof (fo_nb _ _ _ _ _ _ Hok) as [Hn0 Hn1].
  destruct (Z.leb_spec NDIRECT (f_nb f)) as [Hge|Hlt0].
  2:{ assert (Hg : grown f = mkFile (f_data f) (f_nb f + 1) (f_ind f))
        by (unfold grown; rewrite (proj2 (Z.leb_gt _ _) Hlt0), orb_false_r; done).
      assert (Hb : blocks_of (grown f) = blocks_of f + 1) by (rewrite Hg; unfold blocks_of; cbn; lia).
      destruct (map_direct im fb role D fs j f s Hinv Hj Hs Hlt0 ltac:(lia)) as (din' & role' & E & I).
      exists im, din', role'. rewrite Hb, Hg. replace (fb + (blocks_of f + 1) - blocks_of f) with (fb + 1) by lia.
      done. }
  assert (Hg : grown f = mkFile (f_data f) (f_nb f + 1) true)
    by (unfold grown; rewrite (proj2 (Z.leb_le _ _) Hge), orb_true_r; done).
  destruct (f_ind f) eqn:Hind.
  - assert (Hb : blocks_of (grown f) = blocks_of f + 1) by (rewrite Hg; unfold blocks_of; rewrite Hind; cbn; lia).
    destruct (map_through im fb role D fs j f s Hinv Hj Hs Hind ltac:(lia) ltac:(lia)) as (im' & role' & E & I & Hbl).
    exists im', (D i), role'. rewrite Hb, Hg. replace (fb + (blocks_of f + 1) - blocks_of f) with (fb + 1) by lia.
    split; [exact E|]. split; [|done]. eapply inv_ext; [|exact I].
    intros x. unfold upd. now destruct (decide (x = i)) as [->|].
  - assert (Hb : blocks_of (grown f) = blocks_of f + 2) by (rewrite Hg; unfold blocks_of; rewrite Hind; cbn; lia).
    assert (Hnb12 : f_nb f = NDIRECT).
    { destruct (decide (NDIRECT < f_nb f)) as [Hgt|]; [|lia]. now apply Hn1 in Hgt. }
    destruct (in_fb _ _ _ _ _ Hinv) as [Htot Hfb]. pose proof (total_pos im fb role D fs Hinv) as Hpos.
    set (din1 := set_din_addr (D i) NDIRECT fb). set (f1 := mkFile (f_data f) (f_nb f) true).
    assert (Hok1 : file_ok im (fb + 1) (assign fb role (i, -1)) i din1 f1).
    { apply (alloc_indirect im fb role i (D i) f Hok); try done; [lia|apply (in_zero _ _ _ _ _ Hinv); lia|].
      now apply (role_fresh _ _ _ _ _ Hinv). }
    assert (I1 : inv im (fb + 1) (assign fb role (i, -1)) (upd D i din1) (<[j := f1]> fs)).
    { apply (inv_assign im fb role D fs j f s Hinv Hj Hs); [lia|done|].
      unfold blocks_of, f1. rewrite Hind. cbn. lia. }
    set (s1 := mkState im (freeinode s) (fb + 1)).
    destruct (map_through im (fb + 1) _ (upd D i din1) (<[j := f1]> fs) j f1 s1 I1) as (im' & role' & E & I & Hbl);
      try done; try (cbn [f1 f_nb]; lia); [apply list_lookup_insert_eq; apply lookup_lt_Some in Hj; lia|].
    cbn [f1 f_data f_nb] in E, I. fold i in E. change (freeinode s1) with (freeinode s) in E.
    replace (upd D i din1 i) with din1 in E by (unfold upd; now rewrite decide_True).
    exists im', din1, role'. rewrite Hb, Hg. replace (fb + (blocks_of f + 2) - blocks_of f) with (fb + 1 + 1) by lia.
    split; [|split; [|done]].
    + rewrite <- E. destruct Hs as [Hs1 Hs2]. pose proof (fo_ind _ _ _ _ _ _ Hok) as Hz. rewrite Hind in Hz.
      assert (Hd1 : din_addr din1 NDIRECT = fb).
      { unfold din1. rewrite din_addr_set by (consts; lia || apply (fo_len _ _ _ _ _ _ Hok)). now rewrite decide_True. }
      assert (Hd0 : (din_addr din1 NDIRECT =? 0) = false) by (rewrite Hd1; apply Z.eqb_neq; consts; lia).
      unfold map_block. rewrite (proj2 (Z.ltb_ge (f_nb f) NDIRECT)) by lia. rewrite Hz, Hd0, Z.eqb_refl.
      unfold hbind at 1 2. rewrite next_block_run by (rewrite Hs2; consts; lia). rewrite Hs1, Hs2. reflexivity.
    + rewrite list_insert_insert_eq in I. done.
Qed.
