(* ===== verification/MkfsRun.v ===== *)
(** * mkfs writes the files it is given

    [iappend] appends to a file, and [main] builds an image with a super block, a
    bitmap of the blocks in use, the root directory and the files. *)

From S2P Require Import Prelude State Strings Bytes Inode Mkfs MkfsSpec.

(** The file with contents [c] as mkfs lays it out. *)
Definition nblk (n : Z) : Z := (n + BSIZE - 1) / BSIZE.
Definition file_of (c : list Z) : file :=
  let nb := nblk (Z.of_nat (length c)) in mkFile c nb (NDIRECT <? nb).
Definition need (c : list Z) : Z := blocks_of (file_of c).

Lemma nblk_mono a b : a <= b -> nblk a <= nblk b.
Proof. intros H. unfold nblk, BSIZE. apply Z.div_le_mono; lia. Qed.

Lemma need_mono c d : (length c <= length d)%nat -> need c <= need d.
Proof.
  intros H. unfold need, blocks_of, file_of. cbn [f_nb f_ind].
  pose proof (nblk_mono (Z.of_nat (length c)) (Z.of_nat (length d)) ltac:(lia)).
  destruct (Z.ltb_spec NDIRECT (nblk (Z.of_nat (length c)))), (Z.ltb_spec NDIRECT (nblk (Z.of_nat (length d)))); lia.
Qed.

(** The block a round of [iappend] writes to is there, mapped if need be. *)
Lemma map_step im fb role D fs j c s k :
  inv im fb role D fs -> fs !! j = Some (file_of c) -> at_state s im fb ->
  k = Z.of_nat (length c) / BSIZE -> k < MAXFILE ->
  let f1 := mkFile c (k + 1) (NDIRECT <? k + 1) in
  let fb1 := fb - need c + blocks_of f1 in
  fb1 <= FSSIZE ->
  let i := 1 + Z.of_nat j in
  exists im1 din1 role1,
    map_block (D i) k s = Some ((din1, entry im1 din1 k), mkState im1 (freeinode s) fb1) /\
    inv im1 fb1 role1 (upd D i din1) (<[j := f1]> fs) /\
    forall b, 0 <= b < nmeta -> blk im1 b = blk im b.
Proof.
  intros Hinv Hj Hs Hk Hmax f1 fb1 Hfit i.
  destruct (decide (nblk (Z.of_nat (length c)) = k)) as [E|E].
  - assert (Hg : grown (file_of c) = f1).
    { unfold grown, file_of, f1. cbn [f_data f_nb f_ind]. rewrite E. f_equal.
      destruct (Z.ltb_spec NDIRECT k), (Z.leb_spec NDIRECT k), (Z.ltb_spec NDIRECT (k + 1)); cbn; lia || done. }
    pose proof (map_new im fb role D fs j (file_of c) s Hinv Hj Hs) as Hm. cbv zeta in Hm.
    rewrite Hg in Hm. cbn [file_of f_nb] in Hm. rewrite E in Hm.
    replace (fb + blocks_of f1 - blocks_of (file_of c)) with fb1 in Hm by (unfold fb1, need; lia).
    exact (Hm Hmax Hfit).
  - assert (E1 : nblk (Z.of_nat (length c)) = k + 1).
    { unfold nblk, BSIZE in *. subst k. Z.div_mod_to_equations. lia. }
    assert (Hf : file_of c = f1) by (unfold file_of, f1; now rewrite E1).
    assert (Hk0 : 0 <= k) by (subst k; unfold BSIZE; Z.div_mod_to_equations; lia).
    exists im, (D i), role. replace fb1 with fb by (unfold fb1, need; rewrite Hf; lia). split; [|split; [|done]].
    + etransitivity; [apply (map_existing im fb role D fs j (file_of c) s Hinv Hj Hs k); rewrite Hf; cbn; lia|].
      destruct Hs as [<- <-]. now destruct s.
    + eapply inv_ext; [|rewrite list_insert_id by (now rewrite <- Hf); exact Hinv].
      intros x. unfold upd. now destruct (decide (x = i)) as [->|].
Qed.

(** Writing the bytes. *)
Lemma append_inv im fb role D fs j f d : inv im fb role D fs -> fs !! j = Some f ->
  BSIZE * (f_nb f - 1) <= size f -> size f + Z.of_nat (length d) <= BSIZE * f_nb f -> 1 <= f_nb f ->
  let i := 1 + Z.of_nat j in
  let x := entry im (D i) (f_nb f - 1) in
  let im' := <[Z.to_nat x := put (blk im x) (size f - BSIZE * (f_nb f - 1)) d]> im in
  nmeta <= x < fb /\
  inv im' fb role D (<[j := mkFile (f_data f ++ d) (f_nb f) (f_ind f)]> fs) /\
  forall b, 0 <= b < nmeta -> blk im' b = blk im b.
Proof.
  intros Hinv Hj Hlo Hhi Hnb i x im'. pose proof Hinv as [I1 I2 [I3 I3'] I4 I5 I6].
  pose proof (I6 j f Hj) as Hok. fold i in Hok.
  destruct (fo_entry _ _ _ _ _ _ Hok (f_nb f - 1) ltac:(lia)) as [Hx Hrx]. fold x in Hx, Hrx.
  assert (Hb : forall b, 0 <= b -> b <> x -> blk im' b = blk im b).
  { intros b Hb Hne. unfold im'. rewrite blk_insert, decide_False by (rewrite ?I1; consts; lia || done). done. }
  split; [done|]. split; [|intros b Hb'; apply Hb; consts; lia].
  eapply (inv_ext _ _ _ (upd D i (D i)) D); [intros y; unfold upd; now destruct (decide (y = i)) as [->|]|].
  apply (inv_update im fb role D fs _ _ _ j f); try done; try lia.
  - apply (append_data im fb role i (D i) f d Hok I1 I3'); try done. intros b Hb'. apply I2. consts. lia.
  - unfold im'. now rewrite length_insert.
  - intros b Hb'. destruct (decide (b = x)) as [->|Hne]; [|rewrite Hb by (lia || done); now apply I2].
    unfold im'. rewrite blk_insert, decide_True by (rewrite ?I1; consts; lia). rewrite length_put. apply I2. consts. lia.
  - unfold blocks_of. cbn [f_nb f_ind]. lia.
  - intros b Hb'. rewrite Hb by (consts; lia). now apply I4.
  - intros b i' k Hr Hne. split; [|done]. apply Hb; [|].
    + pose proof (I5 b ltac:(now rewrite Hr)). consts. lia.
    + intros ->. rewrite Hrx in Hr. injection Hr as <- _. done.
Qed.

(** ** iappend *)

Lemma file_of_app c d k : k = Z.of_nat (length c) / BSIZE -> d <> [] ->
  Z.of_nat (length c) + Z.of_nat (length d) <= BSIZE * (k + 1) ->
  mkFile (c ++ d) (k + 1) (NDIRECT <? k + 1) = file_of (c ++ d).
Proof.
  intros -> Hd Hle. unfold file_of. assert (0 < length d)%nat by (destruct d; cbn; [done|lia]).
  assert (nblk (Z.of_nat (length (c ++ d))) = Z.of_nat (length c) / BSIZE + 1) as ->; [|done].
  rewrite length_app. unfold nblk, BSIZE in *. Z.div_mod_to_equations. lia.
Qed.

(** How many bytes a round takes. *)
Lemma round_size (c p : list Z) (k : Z) : p <> [] -> k = Z.of_nat (length c) / BSIZE ->
  let n1 := Z.min (Z.of_nat (length p)) ((k + 1) * BSIZE - Z.of_nat (length c)) in
  1 <= n1 <= Z.of_nat (length p) /\ Z.of_nat (length c) + n1 <= BSIZE * (k + 1) /\
  length (take (Z.to_nat n1) p) = Z.to_nat n1 /\ (length (drop (Z.to_nat n1) p) < length p)%nat.
Proof.
  intros Hp -> n1. assert (0 < length p)%nat by (destruct p; cbn; [done|lia]).
  assert (1 <= n1 <= Z.of_nat (length p)) by (unfold n1, BSIZE; Z.div_mod_to_equations; lia).
  rewrite length_take, length_drop. unfold n1 in *. lia.
Qed.

(** One round: the block is mapped, and the bytes go into it. *)
Lemma round_run {A} (K : list Z -> H A) d c im fb role D fs j s k :
  inv im fb role D fs -> fs !! j = Some (file_of c) -> at_state s im fb ->
  k = Z.of_nat (length c) / BSIZE -> k < MAXFILE -> d <> [] ->
  Z.of_nat (length c) + Z.of_nat (length d) <= BSIZE * (k + 1) ->
  let fb1 := fb - need c + need (c ++ d) in
  fb1 <= FSSIZE ->
  let i := 1 + Z.of_nat j in
  exists im2 din1 role1,
    hbind (map_block (D i) k) (fun r => let '(din, x) := r in
      hbind (rsect x) (fun buf => hbind (wsect x (put buf (Z.of_nat (length c) - k * BSIZE) d)) (fun _ => K din))) s =
      K din1 (mkState im2 (freeinode s) fb1) /\
    inv im2 fb1 role1 (upd D i din1) (<[j := file_of (c ++ d)]> fs) /\
    forall b, 0 <= b < nmeta -> blk im2 b = blk im b.
Proof.
  intros Hinv Hj Hs Hk Hmax Hd Hroom fb1 Hfit i.
  pose proof (file_of_app c d k Hk Hd Hroom) as Hf2. set (f1 := mkFile c (k + 1) (NDIRECT <? k + 1)).
  assert (Hb1 : blocks_of f1 = need (c ++ d)) by (unfold need; now rewrite <- Hf2).
  destruct (map_step im fb role D fs j c s k Hinv Hj Hs Hk Hmax) as (im1 & din1 & role1 & E1 & I1 & F1).
  { fold f1. now rewrite Hb1. }
  fold f1 in E1, I1. fold i in E1, I1. rewrite Hb1 in E1, I1. fold fb1 in E1, I1.
  assert (Hj1 : <[j := f1]> fs !! j = Some f1) by (apply list_lookup_insert_eq; apply lookup_lt_Some in Hj; lia).
  assert (Hin1 : 0 <= BSIZE * k <= Z.of_nat (length c)) by (subst k; consts; Z.div_mod_to_equations; lia).
  assert (Hk0 : 0 <= k) by (unfold BSIZE in Hin1; lia).
  destruct (append_inv im1 fb1 role1 _ _ j f1 d I1 Hj1) as (Hx & I2 & F2); try (unfold f1, size; cbn; lia).
  fold i in Hx, I2, F2. replace (upd D i din1 i) with din1 in Hx, I2, F2 by (unfold upd; now rewrite decide_True).
  change (f_nb f1) with (k + 1) in Hx, I2, F2. change (f_ind f1) with (NDIRECT <? k + 1) in I2.
  change (f_data f1) with c in I2. change (size f1) with (Z.of_nat (length c)) in I2, F2.
  rewrite Z.add_simpl_r in Hx, I2, F2. rewrite list_insert_insert_eq, Hf2 in I2. set (x := entry im1 din1 k) in *.
  set (im2 := <[Z.to_nat x := _]> im1) in *. pose proof (in_img _ _ _ _ _ I1) as Hl1.
  exists im2, din1, role1. split; [|split; [done|intros b Hb; rewrite F2, F1 by done; done]].
  rewrite (bind_some _ _ _ _ _ E1). cbv beta iota.
  erewrite bind_some; [|apply (rsect_run im1); [reflexivity|exact Hl1|consts; lia]].
  erewrite bind_some; [|apply wsect_run; [exact Hl1|consts; lia]].
  now rewrite (Z.mul_comm k).
Qed.

Lemma iappend_loop_run fuel : forall p c im fb role D fs j s,
  (length p < fuel)%nat -> inv im fb role D fs -> fs !! j = Some (file_of c) -> at_state s im fb ->
  Z.of_nat (length (c ++ p)) <= MAXFILE * BSIZE ->
  let fb' := fb - need c + need (c ++ p) in
  fb' <= FSSIZE ->
  let i := 1 + Z.of_nat j in
  exists im' din' role',
    iappend_loop fuel (D i) (Z.of_nat (length c)) p s =
      Some ((din', Z.of_nat (length (c ++ p))), mkState im' (freeinode s) fb') /\
    inv im' fb' role' (upd D i din') (<[j := file_of (c ++ p)]> fs) /\
    forall b, 0 <= b < nmeta -> blk im' b = blk im b.
Proof.
  induction fuel as [|fuel IH]; [lia|]. intros p c im fb role D fs j s Hfuel Hinv Hj Hs Hmax fb' Hfit i.
  cbn [iappend_loop]. case_bool_decide as Hp.
  { exists im, (D i), role. subst p fb'. rewrite app_nil_r, Z.sub_add. split; [|split; [|done]].
    - destruct Hs as [<- <-]. now destruct s.
    - rewrite list_insert_id by done. eapply inv_ext; [|exact Hinv].
      intros x. unfold upd. now destruct (decide (x = i)) as [->|]. }
  set (k := Z.of_nat (length c) / BSIZE).
  destruct (round_size c p k Hp eq_refl) as (Hn1 & Hroom & Htk & Hdr). cbv zeta in Hn1, Hroom, Htk, Hdr.
  set (n1 := Z.min _ _) in *. set (d := take (Z.to_nat n1) p) in *.
  assert (Hd : d <> []) by (intros E; rewrite E in Htk; cbn in Htk; lia).
  assert (Hcp : c ++ p = (c ++ d) ++ drop (Z.to_nat n1) p) by (rewrite <- app_assoc; unfold d; now rewrite take_drop).
  assert (Hneed : need (c ++ d) <= need (c ++ p)) by (apply need_mono; rewrite Hcp, !length_app; lia).
  assert (Hk0 : k < MAXFILE) by (rewrite length_app in Hmax; unfold k; consts; Z.div_mod_to_equations; lia).
  set (fb1 := fb - need c + need (c ++ d)).
  destruct (round_run (fun din => iappend_loop fuel din (u32 (Z.of_nat (length c) + n1)) (drop (Z.to_nat n1) p))
    d c im fb role D fs j s k Hinv Hj Hs eq_refl Hk0 Hd) as (im2 & din1 & role1 & E1 & I2 & F2).
  { rewrite Htk. lia. }
  { unfold fb' in Hfit. lia. }
  fold i fb1 in E1, I2. set (s2 := mkState im2 (freeinode s) fb1) in *.
  destruct (IH (drop (Z.to_nat n1) p) (c ++ d) im2 fb1 role1 _ _ j s2 ltac:(lia) I2) as (im' & din' & role' & E & I & F).
  { apply list_lookup_insert_eq. apply lookup_lt_Some in Hj. lia. }
  { done. }
  { now rewrite <- Hcp. }
  { rewrite <- Hcp. unfold fb1, fb' in *. lia. }
  rewrite <- Hcp in E, I. replace (fb1 - need (c ++ d) + need (c ++ p)) with fb' in E, I by (unfold fb1, fb'; lia).
  fold i in E, I. rewrite list_insert_insert_eq in I.
  replace (upd D i din1 i) with din1 in E by (unfold upd; now rewrite decide_True).
  exists im', din', role'. split; [|split].
  - rewrite (proj2 (Z.ltb_lt k MAXFILE)) by lia. unfold hassert. rewrite (bind_some _ _ s tt s eq_refl).
    etransitivity; [exact E1|]. rewrite u32_small; [|rewrite length_app in Hmax; consts; lia].
    rewrite length_app, Htk, Nat2Z.inj_add, Z2Nat.id in E by lia. exact E.
  - eapply inv_ext; [|exact I]. intros y. unfold upd. now destruct (decide (y = i)).
  - intros b Hb. rewrite F, F2 by done. done.
Qed.

(** ** The inode table *)

Definition NI : Z := ninodeblocks * IPB.
Lemma NI_eq : NI = 208. Proof. reflexivity. Qed.

(** The dinode of inode [i]. *)
Definition dino (im : list (list Z)) (i : Z) : list Z := slice (blk im (IBLOCK i sb)) (i mod IPB * DINODE) DINODE.

Lemma iblock_range i : 0 <= i < NI -> IBLOCK i sb = 32 + i / 8 /\ 32 <= IBLOCK i sb < 58.
Proof.
  intros Hi. rewrite NI_eq in Hi. assert (E : IBLOCK i sb = 32 + i / 8).
  { unfold IBLOCK. change IPB with 8. change (sb_inodestart sb) with 32.
    rewrite u32_small; [lia|]. Z.div_mod_to_equations. lia. }
  split; [done|]. rewrite E. Z.div_mod_to_equations. lia.
Qed.

Lemma slice_put_eq l o d : 0 <= o -> o + Z.of_nat (length d) <= Z.of_nat (length l) ->
  slice (put l o d) o (Z.of_nat (length d)) = d.
Proof.
  intros Ho Hl. unfold slice, put. rewrite Nat2Z.id. apply list_eq. intros k.
  destruct (decide (k < length d)%nat).
  - rewrite lookup_take_lt, lookup_drop, list_lookup_inserts by lia. f_equal. lia.
  - rewrite lookup_take_ge by lia. symmetry. apply lookup_ge_None. lia.
Qed.

Lemma slice_put_ne l o d a n : 0 <= o -> 0 <= a -> a + n <= o \/ o + Z.of_nat (length d) <= a ->
  slice (put l o d) a n = slice l a n.
Proof.
  intros Ho Ha Hd. unfold slice, put. apply list_eq. intros k.
  destruct (decide (k < Z.to_nat n)%nat).
  - rewrite !lookup_take_lt, !lookup_drop by lia. destruct Hd.
    + apply list_lookup_inserts_lt. lia.
    + apply list_lookup_inserts_ge. lia.
  - rewrite !lookup_take_ge by lia. done.
Qed.

Section Table.
Context (s : mkfs_state).
Hypothesis (Hlen : length (img s) = Z.to_nat FSSIZE)
  (Hblk : forall b, 0 <= b < FSSIZE -> length (blk (img s) b) = Z.to_nat BSIZE).

Lemma dino_length i : 0 <= i < NI -> length (dino (img s) i) = 64%nat.
Proof using Hblk.
  clear Hlen. intros Hi. destruct (iblock_range i Hi) as [_ Hb]. unfold dino, slice. change IPB with 8. change DINODE with 64.
  rewrite length_take, length_drop, Hblk by (unfold FSSIZE; lia). unfold BSIZE. Z.div_mod_to_equations. lia.
Qed.

Lemma rinode_run i : 0 <= i < NI -> rinode i s = Some (dino (img s) i, s).
Proof using All.
  intros Hi. destruct (iblock_range i Hi) as [_ Hb]. unfold rinode.
  erewrite bind_some by (apply (rsect_run (img s)); [done|done|unfold FSSIZE; lia]). done.
Qed.

(** [winode] replaces one dinode and leaves the rest of the image. *)
Lemma winode_run i din : 0 <= i < NI -> length din = 64%nat ->
  exists im', winode i din s = Some (tt, mkState im' (freeinode s) (freeblock s)) /\
    length im' = length (img s) /\
    (forall b, 0 <= b < FSSIZE -> length (blk im' b) = Z.to_nat BSIZE) /\
    (forall b, 0 <= b < 32 \/ 58 <= b -> blk im' b = blk (img s) b) /\
    (forall k, 0 <= k < NI -> dino im' k = if decide (k = i) then din else dino (img s) k).
Proof using All.
  intros Hi Hd. destruct (iblock_range i Hi) as [Eb Hb]. unfold winode.
  erewrite bind_some by (apply (rsect_run (img s)); [done|done|unfold FSSIZE; lia]).
  rewrite wsect_run by (done || unfold FSSIZE; lia).
  set (B := blk (img s) (IBLOCK i sb)). set (im' := <[_ := _]> (img s)). exists im'. split; [done|].
  assert (HB : length B = 512%nat) by (apply Hblk; unfold FSSIZE; lia).
  assert (Hb' : forall b, 0 <= b -> blk im' b =
    if decide (b = IBLOCK i sb) then put B (i mod IPB * DINODE) din else blk (img s) b).
  { intros b Hb0. apply blk_insert; [rewrite Hlen; unfold FSSIZE; lia|done]. }
  split; [unfold im'; apply length_insert|]. split; [|split].
  - intros b Hb0. rewrite Hb' by lia. case_decide; [|now apply Hblk]. now rewrite length_put, HB.
  - intros b Hb0. rewrite Hb', decide_False by lia. done.
  - intros k Hk. destruct (iblock_range k Hk) as [Ek Hbk]. unfold dino. rewrite Hb' by lia.
    change IPB with 8. change DINODE with 64. rewrite NI_eq in *. case_decide as E.
    + case_decide as Ek'.
      * subst k. etransitivity; [|apply (slice_put_eq B (i mod 8 * 64) din)]; [now rewrite Hd| |]; rewrite ?HB, ?Hd; Z.div_mod_to_equations; lia.
      * rewrite E. apply slice_put_ne; rewrite ?Hd; Z.div_mod_to_equations; lia.
    + rewrite decide_False; [done|]. intros ->. done.
Qed.
End Table.

(** The first 12 bytes of a dinode (type, numbers, links and size) are not touched
    by allocation. *)
Lemma map_block_head din k s din' x s' : length din = 64%nat -> 0 <= k -> map_block din k s = Some ((din', x), s') ->
  slice din' 0 12 = slice din 0 12.
Proof.
  intros Hd Hk. unfold map_block, hbind, next_block, rsect, wsect, hret, set_din_addr, NDIRECT.
  destruct (Z.ltb_spec k 12); repeat (case_match; try done); intros E; simplify_eq; try done;
    unfold st32; apply slice_put_ne; lia.
Qed.

Lemma map_block_length din k s din' x s' : map_block din k s = Some ((din', x), s') -> length din' = length din.
Proof.
  unfold map_block, hbind, next_block, rsect, wsect, hret, set_din_addr, st32.
  destruct (k <? NDIRECT); repeat (case_match; try done); intros E; simplify_eq; try done; now rewrite length_put.
Qed.

Lemma iappend_loop_head fuel : forall din off p s din' off' s', length din = 64%nat -> 0 <= off ->
  iappend_loop fuel din off p s = Some ((din', off'), s') -> slice din' 0 12 = slice din 0 12 /\ length din' = 64%nat.
Proof.
  induction fuel as [|fuel IH]; [done|]. intros din off p s din' off' s' Hd Hoff. cbn [iappend_loop].
  case_bool_decide; [intros E; injection E as <- _ _; done|].
  unfold hbind, hassert. destruct (off / BSIZE <? MAXFILE); [|done]. unfold hret at 1.
  destruct (map_block din (off / BSIZE) s) as [[[din1 x] s1]|] eqn:E1; [|done].
  repeat (case_match; try done). intros E.
  apply IH in E as [E El]; [|erewrite map_block_length by done; done|apply u32_range].
  split; [|done]. rewrite E. eapply map_block_head; [done| |exact E1]. unfold BSIZE. Z.div_mod_to_equations. lia.
Qed.
