(* ===== verification/MkfsMain.v ===== *)
(** * mkfs: the finished image

    [main] run on files that fit: every file is in the image with its bytes, the
    root directory names them, no block is used twice, and the bitmap, the super
    block and the empty log are what the kernel expects. *)

From S2P Require Import Prelude State Strings Bytes Log Inode Alloc Mkfs MkfsSpec MkfsRun.

(** The inodes of an image: type and contents of inode 1, 2, ... *)
Definition files_of (cs : list (Z * list Z)) : list file := (fun x => file_of x.2) <$> cs.

(** What the boot block, the super block, the log and the bitmap block hold while
    the files are written. *)
Definition base (b : Z) : list Z := if b =? 1 then put zeroes 0 sb_bytes else zeroes.

Definition no_dinode : list Z := replicate (Z.to_nat DINODE) 0.

Record built (s : mkfs_state) (cs : list (Z * list Z)) (role : roles) : Prop := {
  bu_inv : inv (img s) (freeblock s) role (dino (img s)) (files_of cs);
  bu_next : freeinode s = 1 + Z.of_nat (length cs);
  bu_head : forall j t c, cs !! j = Some (t, c) -> let din := dino (img s) (1 + Z.of_nat j) in
    ld16 din 0 = t /\ ld16 din 6 = 1 /\ din_size din = Z.of_nat (length c);
  bu_free : forall i, freeinode s <= i < NI -> dino (img s) i = no_dinode;
  bu_meta : forall b, 0 <= b < 32 \/ b = 58 -> blk (img s) b = base b
}.

(** The files fit: in the inode table, on the disk, and each in its inode. *)
Definition fits (cs : list (Z * list Z)) : Prop :=
  Z.of_nat (length cs) < NINODES /\ nmeta + total (files_of cs) <= FSSIZE /\
  Forall (fun x => Z.of_nat (length x.2) <= MAXFILE * BSIZE) cs.

(** [cs'] has all that [cs] has and more. *)
Definition grows (cs cs' : list (Z * list Z)) : Prop :=
  exists mid rest, cs' = mid ++ rest /\ Forall2 (fun a b => length a.2 <= length b.2)%nat cs mid.

Lemma total_app fs fs' : total (fs ++ fs') = total fs + total fs'.
Proof. induction fs as [|f fs IH]; cbn; [done|]. unfold total in *. rewrite IH. lia. Qed.

Lemma need_pos c : 0 <= need c.
Proof. etransitivity; [|apply (need_mono []); cbn; lia]. done. Qed.

Lemma total_files_pos cs : 0 <= total (files_of cs).
Proof. induction cs as [|[t c] cs IH]; cbn; [done|]. pose proof (need_pos c). unfold need, files_of, total in *. lia. Qed.

Lemma fits_grows cs cs' : grows cs cs' -> fits cs' -> fits cs.
Proof.
  intros (mid & rest & -> & Hf) (H1 & H2 & H3). rewrite length_app in H1.
  pose proof (Forall2_length _ _ _ Hf) as Hl. unfold files_of in H2. rewrite fmap_app, total_app in H2.
  pose proof (total_files_pos rest) as Hr. unfold files_of in Hr. apply Forall_app in H3 as [H3 _].
  assert (Ht : total (files_of cs) <= total (files_of mid) /\ Forall (fun x => Z.of_nat (length x.2) <= MAXFILE * BSIZE) cs).
  { clear H1 H2 Hl Hr. induction Hf as [|[t c] [t' c'] cs mid Hc Hf IH]; [split; [done|constructor]|].
    apply Forall_cons in H3 as [H3 H3']. destruct (IH H3') as [IH1 IH2]. cbn in *. split.
    - pose proof (need_mono c c' Hc). unfold need, files_of, total in *. lia.
    - constructor; [cbn; lia|done]. }
  destruct Ht as [Ht Ht']. split; [lia|]. split; [|done]. unfold files_of in *. lia.
Qed.

(** ** Changing a dinode *)

Lemma file_ok_addrs im fb role i din din' f : file_ok im fb role i din f -> length din' = 64%nat ->
  (forall k, 0 <= k <= NDIRECT -> din_addr din' k = din_addr din k) -> file_ok im fb role i din' f.
Proof.
  intros [H1 H2 H3 H4 H5 H6 H7] Hd Ha.
  assert (He : forall k, 0 <= k -> entry im din' k = entry im din k).
  { intros k Hk. unfold entry. rewrite (Ha NDIRECT) by (unfold NDIRECT; lia).
    destruct (Z.ltb_spec k NDIRECT); [|done]. apply Ha. lia. }
  split; try done.
  - intros k Hk. rewrite He by lia. now apply H4.
  - intros k j Hk Hj. rewrite He by lia. now apply H5.
  - intros k Hk. rewrite He by lia. now apply H6.
  - rewrite Ha by (unfold NDIRECT; lia). done.
Qed.

(** The inode table is written, the data blocks are not. *)
Lemma inv_meta im im' fb role D D' fs : inv im fb role D fs -> length im' = length im ->
  (forall b, 0 <= b < FSSIZE -> length (blk im' b) = Z.to_nat BSIZE) ->
  (forall b, nmeta <= b -> blk im' b = blk im b) ->
  (forall j f, fs !! j = Some f -> file_ok im fb role (1 + Z.of_nat j) (D (1 + Z.of_nat j)) f ->
     file_ok im fb role (1 + Z.of_nat j) (D' (1 + Z.of_nat j)) f) ->
  inv im' fb role D' fs.
Proof.
  intros Hi Hl Hb Hm Hf. pose proof (total_pos _ _ _ _ _ Hi) as Hp. destruct Hi as [I1 I2 [I3 I3'] I4 I5 I6].
  split; try done; try congruence.
  - intros b Hb'. rewrite Hm by lia. now apply I4.
  - intros j f Hj. apply (file_ok_frame im im' fb fb role role); [|lia|].
    + apply Hf; [done|]. now apply I6.
    + intros b k Hr. split; [|done]. apply Hm. apply I5. now rewrite Hr.
Qed.

Lemma ld8_slice l o n : 0 <= o < n -> ld8 (slice l 0 n) o = ld8 l o.
Proof.
  intros Ho. unfold ld8, slice. rewrite drop_0, !list_lookup_total_alt, lookup_take_lt by lia. done.
Qed.

Lemma head_eq l l' o : slice l 0 12 = slice l' 0 12 -> 0 <= o <= 10 -> ld16 l o = ld16 l' o.
Proof.
  intros E Ho. unfold ld16. rewrite <- !(ld8_slice l _ 12), <- !(ld8_slice l' _ 12), E by lia. done.
Qed.

Lemma dino_frame im im' i : (forall b, 0 <= b < nmeta -> blk im' b = blk im b) -> 0 <= i < NI -> dino im' i = dino im i.
Proof. intros H Hi. destruct (iblock_range i Hi) as [_ Hb]. unfold dino. rewrite H; [done|]. consts. lia. Qed.

Lemma files_of_lookup cs j t c : cs !! j = Some (t, c) -> files_of cs !! j = Some (file_of c).
Proof. intros H. unfold files_of. now rewrite list_lookup_fmap, H. Qed.

Lemma files_of_insert cs j t c : files_of (<[j := (t, c)]> cs) = <[j := file_of c]> (files_of cs).
Proof. unfold files_of. now rewrite list_fmap_insert. Qed.

(** ** The operations on the image *)

Lemma fits_insert cs j t c p : cs !! j = Some (t, c) -> fits (<[j := (t, c ++ p)]> cs) ->
  Z.of_nat (length (c ++ p)) <= MAXFILE * BSIZE /\
  nmeta + total (files_of cs) - need c + need (c ++ p) <= FSSIZE /\ 1 + Z.of_nat j < NI.
Proof.
  intros Hj (F1 & F2 & F3). pose proof (lookup_lt_Some _ _ _ Hj) as Hlt.
  rewrite length_insert in F1. rewrite files_of_insert, (total_insert _ _ _ _ (files_of_lookup _ _ _ _ Hj)) in F2.
  assert (Hin : <[j := (t, c ++ p)]> cs !! j = Some (t, c ++ p)) by now apply list_lookup_insert_eq.
  apply (proj1 (Forall_lookup _ _) F3) in Hin. cbn [snd] in Hin. split; [done|]. split; [unfold need; lia|].
  rewrite NI_eq. unfold NINODES in F1. lia.
Qed.

Lemma iappend_run s cs role j t c p : built s cs role -> cs !! j = Some (t, c) ->
  fits (<[j := (t, c ++ p)]> cs) ->
  exists s' role', iappend (1 + Z.of_nat j) p s = Some (tt, s') /\ built s' (<[j := (t, c ++ p)]> cs) role'.
Proof.
  intros [Binv Bnext Bhead Bfree Bmeta] Hj Hfit.
  destruct (fits_insert _ _ _ _ _ Hj Hfit) as (Fm & Ff & Fi). set (i := 1 + Z.of_nat j) in *.
  assert (Hi : 0 <= i < NI) by lia. destruct (Bhead j t c Hj) as (Ht & Hn & Hs). fold i in Ht, Hn, Hs.
  pose proof (in_img _ _ _ _ _ Binv) as Hl. pose proof (in_blk _ _ _ _ _ Binv) as Hb.
  pose proof (in_fb _ _ _ _ _ Binv) as [Htot _].
  destruct (iappend_loop_run (S (length p)) p c (img s) (freeblock s) role _ _ j s ltac:(lia) Binv
    (files_of_lookup _ _ _ _ Hj) (conj eq_refl eq_refl) Fm) as (im1 & din1 & role1 & E1 & I1 & F1); [lia|].
  fold i in E1, I1. rewrite <- files_of_insert with (t := t) in I1.
  destruct (iappend_loop_head _ _ (Z.of_nat (length c)) _ _ _ _ _ (dino_length s Hb i Hi) ltac:(lia) E1) as [Hh1 Hl1].
  set (s1 := mkState im1 (freeinode s) _) in E1.
  destruct (winode_run s1 (in_img _ _ _ _ _ I1) (in_blk _ _ _ _ _ I1) i
    (set_din_size din1 (Z.of_nat (length (c ++ p)))) Hi) as (im2 & E2 & L2 & B2 & M2 & D2);
    [unfold set_din_size, st32; now rewrite length_put|].
  change (img s1) with im1 in L2, M2, D2.
  exists (mkState im2 (freeinode s) (freeblock s1)), role1. split.
  { unfold iappend. rewrite (bind_some _ _ _ _ _ (rinode_run s Hl Hb i Hi)), Hs.
    rewrite (bind_some _ _ _ _ _ E1). exact E2. }
  assert (Hd : forall k, 0 <= k < NI -> k <> i -> dino im2 k = dino (img s) k).
  { intros k Hk Hne. rewrite D2, decide_False by done. now apply dino_frame. }
  assert (Hdi : dino im2 i = set_din_size din1 (Z.of_nat (length (c ++ p)))) by (rewrite D2, decide_True; done).
  pose proof (lookup_lt_Some _ _ _ Hj) as Hlt. destruct Hfit as [Fl _]. rewrite length_insert in Fl.
  split; cbn [img freeinode freeblock].
  - apply (inv_meta im1 im2 _ role1 (upd (dino (img s)) i din1)); try done.
    { intros b Hb'. apply M2. consts. lia. }
    intros k f Hk. assert (Hk' : 1 + Z.of_nat k < NI).
    { apply lookup_lt_Some in Hk. unfold files_of in Hk. rewrite length_fmap, length_insert in Hk. rewrite NI_eq.
      unfold NINODES in Fl. lia. }
    unfold upd. case_decide as Ek.
    + rewrite Ek, Hdi. intros Hok. apply (file_ok_addrs _ _ _ _ din1); [done|unfold set_din_size, st32; now rewrite length_put|].
      intros a Ha. unfold din_addr, set_din_size, st32, NDIRECT in *. apply ld32_put_ne; cbn [length le32]; lia.
    + rewrite Hd by lia. done.
  - now rewrite length_insert.
  - intros k t' c' Hk. destruct (decide (k = j)) as [->|Hne].
    + rewrite list_lookup_insert_eq in Hk by done. injection Hk as <- <-. fold i. rewrite Hdi.
      unfold set_din_size, din_size. rewrite ld32_st32, u32_small by (consts; lia).
      unfold st32. rewrite !ld16_put_ne by (cbn [length le32]; lia).
      rewrite <- Ht, <- Hn at 1. rewrite (head_eq din1 _ 0 Hh1), (head_eq din1 _ 6 Hh1) by lia. done.
    + rewrite list_lookup_insert_ne in Hk by done. pose proof (lookup_lt_Some _ _ _ Hk).
      rewrite Hd by (rewrite ?NI_eq; unfold NINODES in Fl; lia). now apply Bhead.
  - intros k Hk. rewrite Hd by lia. apply Bfree. lia.
  - intros b Hb'. rewrite M2 by lia. rewrite F1 by (consts; lia). now apply Bmeta.
Qed.

(** The dinode [ialloc] writes. *)
Definition new_dinode (type : Z) : list Z := set_din_size (st16 (st16 no_dinode 0 type) 6 1) 0.

Lemma new_dinode_fields type : 0 <= type < 2 ^ 16 ->
  length (new_dinode type) = 64%nat /\ ld16 (new_dinode type) 0 = type /\ ld16 (new_dinode type) 6 = 1 /\
  din_size (new_dinode type) = 0 /\ forall k, 0 <= k <= NDIRECT -> din_addr (new_dinode type) k = 0.
Proof.
  intros Ht. assert (L : length no_dinode = 64%nat) by done.
  assert (L1 : length (st16 no_dinode 0 type) = 64%nat) by (unfold st16; now rewrite length_put).
  assert (L2 : length (st16 (st16 no_dinode 0 type) 6 1) = 64%nat) by (unfold st16 at 1; now rewrite length_put).
  unfold new_dinode, set_din_size. unfold st32. split; [now rewrite length_put|].
  rewrite !ld16_put_ne by (cbn [length le32]; lia). split; [|split; [|split]].
  - unfold st16 at 1. rewrite ld16_put_ne by (cbn [length le16]; lia). rewrite ld16_st16 by lia. unfold u16. apply Z.mod_small. lia.
  - rewrite ld16_st16 by lia. done.
  - apply (ld32_st32 (st16 (st16 no_dinode 0 type) 6 1) 8 0); lia.
  - intros k Hk. unfold din_addr, NDIRECT in *. rewrite ld32_put_ne by (cbn [length le32]; lia).
    unfold st16. rewrite !ld32_put_ne by (rewrite ?length_put, ?L; cbn [length le16]; lia).
    unfold ld32, ld8, no_dinode. rewrite !lookup_total_replicate_2 by (change DINODE with 64; lia). done.
Qed.

(** An empty file. *)
Lemma file_ok_empty im fb role i din : length din = 64%nat -> (forall k, 0 <= k <= NDIRECT -> din_addr din k = 0) ->
  file_ok im fb role i din (file_of []).
Proof.
  intros Hd Ha. assert (E : file_of [] = mkFile [] 0 false) by reflexivity. rewrite E.
  assert (He : forall k, 0 <= k -> entry im din k = 0).
  { intros k Hk. unfold entry. rewrite (Ha NDIRECT) by (unfold NDIRECT; lia).
    destruct (Z.ltb_spec k NDIRECT); [apply Ha; lia|done]. }
  split; cbn [f_nb f_ind f_data].
  - done.
  - rewrite maxfile_140. unfold NDIRECT. lia.
  - done.
  - lia.
  - lia.
  - intros k Hk. apply He. lia.
  - apply Ha. unfold NDIRECT. lia.
Qed.

Lemma ialloc_run s cs role t : built s cs role -> fits (cs ++ [(t, [])]) -> 0 <= t < 2 ^ 16 ->
  exists s', ialloc t s = Some (1 + Z.of_nat (length cs), s') /\ built s' (cs ++ [(t, [])]) role.
Proof.
  intros [Binv Bnext Bhead Bfree Bmeta] (F1 & _ & _) Ht. rewrite length_app in F1. cbn [length] in F1.
  set (i := 1 + Z.of_nat (length cs)). assert (Hi : 0 <= i < NI) by (rewrite NI_eq; unfold NINODES, i in *; lia).
  destruct (new_dinode_fields t Ht) as (Nl & Nt & Nn & Ns & Na).
  set (s1 := mkState (img s) (u32 (i + 1)) (freeblock s)).
  destruct (winode_run s1 (in_img _ _ _ _ _ Binv) (in_blk _ _ _ _ _ Binv) i (new_dinode t) Hi Nl)
    as (im2 & E2 & L2 & B2 & M2 & D2). change (img s1) with (img s) in *.
  assert (Hu : u32 (i + 1) = i + 1) by (apply u32_small; rewrite NI_eq in Hi; lia).
  exists (mkState im2 (u32 (i + 1)) (freeblock s)). split.
  { unfold ialloc. rewrite Bnext. fold i. exact (bind_some _ _ _ _ _ E2). }
  assert (Hd : forall k, 0 <= k < NI -> k <> i -> dino im2 k = dino (img s) k).
  { intros k Hk Hne. now rewrite D2, decide_False by done. }
  assert (Hlk : forall k x, (cs ++ [(t, [])]) !! k = Some x ->
    (cs !! k = Some x /\ 1 + Z.of_nat k <> i) \/ (x = (t, []) /\ 1 + Z.of_nat k = i)).
  { intros k x Hk. apply lookup_app_Some in Hk as [Hk|[Hk Hx]].
    - left. split; [done|]. apply lookup_lt_Some in Hk. unfold i. lia.
    - right. apply list_lookup_singleton_Some in Hx as [Hx <-]. split; [done|]. unfold i. lia. }
  assert (Hin : forall k, is_Some ((cs ++ [(t, [])]) !! k) -> 0 <= 1 + Z.of_nat k < NI).
  { intros k Hk. apply lookup_lt_is_Some in Hk. rewrite length_app in Hk. cbn [length] in Hk. unfold i in Hi. lia. }
  split; cbn [img freeinode freeblock].
  - apply (inv_meta (img s) im2 _ role (upd (dino (img s)) i (new_dinode t))); try done.
    + destruct Binv as [I1 I2 [I3 I3'] I4 I5 I6]. split; try done.
      * unfold files_of. rewrite fmap_app, total_app. split; [|done]. change (freeblock s = nmeta + (total (files_of cs) + 0)). lia.
      * intros k f Hk. unfold files_of in Hk. rewrite list_lookup_fmap in Hk. apply fmap_Some in Hk as (x & Hx & ->).
        unfold upd. destruct (Hlk k x Hx) as [[Hc Hne]|[-> ->]].
        -- rewrite decide_False by done. apply I6. destruct x. now apply files_of_lookup in Hc.
        -- rewrite decide_True by done. now apply file_ok_empty.
    + intros b Hb. apply M2. consts. lia.
    + intros k f Hk. unfold files_of in Hk. rewrite list_lookup_fmap in Hk. apply fmap_Some in Hk as (x & Hx & ->).
      unfold upd. rewrite D2 by eauto. done.
  - rewrite Hu, length_app. cbn. unfold i. lia.
  - intros k t' c' Hk. rewrite D2 by eauto. destruct (Hlk k _ Hk) as [[Hc Hne]|[E ->]].
    + rewrite decide_False by done. now apply Bhead.
    + injection E as -> ->. rewrite decide_True by done. done.
  - intros k Hk. rewrite Hu in Hk. rewrite Hd by lia. apply Bfree. unfold i in Hk. lia.
  - intros b Hb. rewrite M2 by lia. now apply Bmeta.
Qed.

Lemma append_all_run inum t chunks : forall s cs role c j, built s cs role -> cs !! j = Some (t, c) ->
  inum = 1 + Z.of_nat j -> fits (<[j := (t, c ++ mjoin chunks)]> cs) ->
  exists s' role', append_all inum chunks s = Some (tt, s') /\ built s' (<[j := (t, c ++ mjoin chunks)]> cs) role'.
Proof.
  induction chunks as [|p chunks IH]; intros s cs role c j Hb Hj -> Hf.
  { exists s, role. cbn [append_all]. split; [done|]. cbn. rewrite app_nil_r, list_insert_id by done. done. }
  pose proof (lookup_lt_Some _ _ _ Hj) as Hlt. cbn [append_all]. change (mjoin (p :: chunks)) with (p ++ mjoin chunks) in *.
  destruct (iappend_run s cs role j t c p Hb Hj) as (s1 & r1 & E1 & B1).
  { eapply fits_grows; [|exact Hf]. exists (<[j := (t, c ++ p ++ mjoin chunks)]> cs), [].
    split; [now rewrite app_nil_r|]. apply Forall2_insert; [now apply Forall_Forall2_diag, Forall_true|].
    cbn. rewrite !length_app. lia. }
  destruct (IH s1 _ r1 (c ++ p) j B1) as (s' & r' & E' & B'); [now apply list_lookup_insert_eq|done| |].
  { rewrite list_insert_insert_eq, <- app_assoc. done. }
  exists s', r'. rewrite (bind_some _ _ _ _ _ E1). split; [done|].
  now rewrite list_insert_insert_eq, <- app_assoc in B'.
Qed.

(** ** The contents of the image *)

(** A leading [_] of a file name is skipped. *)
Definition strip (name : list Z) : list Z := match name with 95 :: name' => name' | _ => name end.

Definition contents (f : input) : Z * list Z := (T_FILE, mjoin (default [] f.2)).

(** The directory entries of the files, the first of which has inode [i]. *)
Fixpoint dirents (i : Z) (files : list input) : list Z :=
  match files with
  | [] => []
  | f :: files' => dirent i (strip f.1) ++ dirents (i + 1) files'
  end.

Definition root_dir (files : list input) : list Z :=
  dirent 1 (str ".") ++ dirent 1 (str "..") ++ dirents 2 files.

(** What mkfs is to write: the root directory, and the files in inodes 2, 3, ... *)
Definition tree (files : list input) : list (Z * list Z) := (T_DIR, root_dir files) :: (contents <$> files).

(** A file that can be opened, with a name mkfs accepts. *)
Definition usable (f : input) : Prop := is_Some f.2 /\ 47 ∉ f.1.

Lemma grows_file root root' rest x x' more : (length root <= length root')%nat -> (length x.2 <= length x'.2)%nat ->
  grows ((T_DIR, root) :: rest ++ [x]) ((T_DIR, root') :: rest ++ x' :: more).
Proof.
  intros Hr Hx. exists ((T_DIR, root') :: rest ++ [x']), more. split; [cbn; now rewrite <- app_assoc|].
  constructor; [done|]. apply Forall2_app; [now apply Forall_Forall2_diag, Forall_true|]. now repeat constructor.
Qed.

Lemma add_files_run files : forall s root rest role, built s ((T_DIR, root) :: rest) role -> Forall usable files ->
  let cs' := (T_DIR, root ++ dirents (2 + Z.of_nat (length rest)) files) :: rest ++ (contents <$> files) in
  fits cs' -> exists s' role', add_files 1 files s = Some (tt, s') /\ built s' cs' role'.
Proof.
  induction files as [|[name ch] files IH]; intros s root rest role Hb Hu cs' Hf.
  { exists s, role. split; [done|]. unfold cs'. cbn. now rewrite !app_nil_r. }
  apply Forall_cons in Hu as [[[chunks Hch] Hname] Hu]. cbn [fst snd] in Hch, Hname. subst ch.
  set (i := 2 + Z.of_nat (length rest)) in *. unfold cs' in *. clear cs'. rewrite fmap_cons in *.
  cbn [dirents fst] in *. set (de := dirent i (strip name)) in *. change (contents _) with (T_FILE, mjoin chunks) in *.
  set (more := contents <$> files) in *.
  destruct (ialloc_run s _ role T_FILE Hb) as (s1 & E1 & B1); [|unfold T_FILE; lia|].
  { eapply fits_grows; [|exact Hf]. apply grows_file; cbn [length snd app]; rewrite ?length_app; lia. }
  replace (1 + Z.of_nat (length ((T_DIR, root) :: rest))) with i in E1 by (unfold i; cbn [length]; lia).
  destruct (iappend_run s1 _ role 0 T_DIR root de B1 eq_refl) as (s2 & r2 & E2 & B2).
  { change (fits ((T_DIR, root ++ de) :: rest ++ [(T_FILE, [])])). eapply fits_grows; [|exact Hf]. apply grows_file; cbn [length snd app]; rewrite ?length_app; lia. }
  change (built s2 ((T_DIR, root ++ de) :: rest ++ [(T_FILE, [])]) r2) in B2.
  assert (Hins : forall y, <[S (length rest) := y]> ((T_DIR, root ++ de) :: rest ++ [(T_FILE, [])]) =
    (T_DIR, root ++ de) :: rest ++ [y]).
  { intros y. change (<[S ?n := y]> (?a :: ?l)) with (a :: <[n := y]> l). rewrite insert_app_r_alt, Nat.sub_diag by lia. done. }
  destruct (append_all_run i T_FILE chunks s2 _ r2 [] (S (length rest)) B2) as (s3 & r3 & E3 & B3).
  { change ((rest ++ [(T_FILE, [])]) !! length rest = Some (T_FILE, [])). rewrite lookup_app_r, Nat.sub_diag by lia. done. }
  { unfold i. lia. }
  { rewrite Hins. eapply fits_grows; [|exact Hf].
    apply grows_file; cbn [length snd app]; rewrite ?length_app; lia. }
  rewrite Hins in B3.
  assert (Hi : 2 + Z.of_nat (length (rest ++ [(T_FILE, [] ++ mjoin chunks)])) = i + 1)
    by (rewrite length_app; unfold i; cbn [length]; lia).
  destruct (IH s3 _ _ r3 B3 Hu) as (s' & r' & E' & B'); rewrite Hi, <- !app_assoc in *; [exact Hf|].
  exists s', r'. split; [|exact B']. cbn [add_files]. rewrite bool_decide_eq_false_2 by done. cbn [negb hassert].
  rewrite (bind_some _ _ s tt s eq_refl). fold (strip name). rewrite (bind_some _ _ _ _ _ E1).
  rewrite (bind_some _ _ _ _ _ E2). rewrite (bind_some _ _ _ _ _ E3). exact E'.
Qed.

(** ** The start and the end of main *)

Lemma zero_image_run k : forall s, zero_image k (Z.of_nat (length (img s))) s =
  Some (tt, mkState (img s ++ replicate k zeroes) (freeinode s) (freeblock s)).
Proof.
  induction k as [|k IH]; intros s; cbn [zero_image].
  - rewrite app_nil_r. now destruct s.
  - unfold wsect, hbind. rewrite Nat2Z.id, Nat.ltb_irrefl, Nat.sub_diag. cbn [replicate app].
    set (s1 := mkState _ _ _). replace (Z.of_nat (length (img s)) + 1) with (Z.of_nat (length (img s1))).
    + rewrite IH. unfold s1. cbn [img freeinode freeblock]. now rewrite <- app_assoc.
    + unfold s1. cbn [img]. rewrite length_app. cbn. lia.
Qed.

(** The image with no files. *)
Definition blank : list (list Z) := <[1%nat := put zeroes 0 sb_bytes]> (replicate (Z.to_nat FSSIZE) zeroes).

Lemma blk_blank b : 0 <= b < FSSIZE -> blk blank b = base b.
Proof.
  intros Hb. unfold blank. change 1%nat with (Z.to_nat 1).
  rewrite blk_insert by (rewrite ?length_replicate; unfold FSSIZE in *; lia). unfold base.
  destruct (Z.eqb_spec b 1), (decide (b = 1)); try done.
  unfold blk. apply lookup_total_replicate_2. unfold FSSIZE in *. lia.
Qed.

Lemma length_base b : length (base b) = Z.to_nat BSIZE.
Proof. unfold base. destruct (b =? 1); [rewrite length_put|]; unfold zeroes; apply length_replicate. Qed.

Lemma built_blank : built (mkState blank 1 nmeta) [] (fun _ => None).
Proof.
  split; cbn [img freeinode freeblock]; try done.
  - split; try done.
    + intros b Hb. rewrite blk_blank by done. apply length_base.
    + intros b Hb. rewrite blk_blank by (consts; lia). unfold base. destruct (Z.eqb_spec b 1); [consts; lia|done].
  - intros i Hi. destruct (iblock_range i ltac:(lia)) as [_ Hb]. unfold dino. rewrite blk_blank by (unfold FSSIZE; lia).
    unfold base. rewrite (proj2 (Z.eqb_neq _ _)) by lia. unfold slice, zeroes, no_dinode.
    rewrite drop_replicate, take_replicate. f_equal. change IPB with 8. change DINODE with 64. unfold BSIZE.
    Z.div_mod_to_equations. lia.
  - intros b Hb. apply blk_blank. unfold FSSIZE. lia.
Qed.

Lemma balloc_loop_bits k : forall i d b, length d = Z.to_nat BSIZE -> 0 <= i -> i + Z.of_nat k <= BPB -> 0 <= b < BPB ->
  length (balloc_loop k i d) = Z.to_nat BSIZE /\
  dbit (balloc_loop k i d) b = dbit d b || ((i <=? b) && (b <? i + Z.of_nat k)).
Proof.
  induction k as [|k IH]; intros i d b Hd Hi Hk Hb.
  { cbn [balloc_loop]. split; [done|]. destruct (Z.leb_spec i b), (Z.ltb_spec b (i + Z.of_nat 0)); cbn; rewrite ?orb_false_r; lia || done. }
  cbn [balloc_loop]. change (st8 d _ _) with (setbit i d).
  destruct (IH (i + 1) (setbit i d) b) as [IH1 IH2]; try lia; [unfold setbit, st8; now rewrite length_put|].
  split; [done|]. rewrite IH2, dbit_setbit by (done || lia).
  destruct (dbit d b), (Z.eqb_spec b i), (Z.leb_spec i b), (Z.leb_spec (i + 1) b),
    (Z.ltb_spec b (i + 1 + Z.of_nat k)), (Z.ltb_spec b (i + Z.of_nat (S k))); cbn; lia || done.
Qed.

Lemma length_dirent i name : length (dirent i name) = 16%nat.
Proof. unfold dirent. rewrite length_app, length_strncpy_arr. done. Qed.

(** Before the files are added the root directory has its two entries. *)
Lemma main_start files : fits (tree files) -> exists s role,
  built s [(T_DIR, dirent 1 (str ".") ++ dirent 1 (str ".."))] role /\
  main files start = hbind (add_files 1 files) (fun _ => hbind (rinode 1) (fun din =>
    hbind (winode 1 (set_din_size din ((din_size din / BSIZE + 1) * BSIZE))) (fun _ =>
    hbind (fun s => Some (freeblock s, s)) (fun used => balloc used)))) s.
Proof.
  intros Hf.
  assert (Hg : forall c, (length c <= length (root_dir files))%nat -> fits [(T_DIR, c)]).
  { intros c Hc. eapply fits_grows; [|exact Hf]. exists [(T_DIR, root_dir files)], (contents <$> files).
    split; [done|]. constructor; [done|constructor]. }
  assert (Hr : length (root_dir files) = (32 + length (dirents 2 files))%nat).
  { unfold root_dir. rewrite !length_app, !length_dirent. lia. }
  destruct (ialloc_run _ _ _ T_DIR built_blank (Hg [] ltac:(cbn; lia)) ltac:(unfold T_DIR; lia)) as (s1 & E1 & B1).
  destruct (iappend_run s1 _ _ 0 T_DIR [] (dirent 1 (str ".")) B1 eq_refl) as (s2 & r2 & E2 & B2).
  { apply Hg. rewrite Hr, ?length_app, !length_dirent. cbn [length]. lia. }
  destruct (iappend_run s2 _ _ 0 T_DIR (dirent 1 (str ".")) (dirent 1 (str "..")) B2 eq_refl) as (s3 & r3 & E3 & B3).
  { apply Hg. rewrite Hr, ?length_app, !length_dirent. cbn [length]. lia. }
  exists s3, r3. split; [exact B3|]. unfold main, start.
  rewrite (bind_some _ _ _ _ _ (zero_image_run (Z.to_nat FSSIZE) (mkState [] 1 nmeta))). cbn [img freeinode freeblock app].
  erewrite bind_some; [|apply wsect_run; [apply length_replicate|unfold FSSIZE; lia]]. cbn [img freeinode freeblock].
  rewrite (bind_some _ _ _ _ _ E1). cbn [length]. rewrite (bind_some _ _ s1 tt s1 eq_refl).
  rewrite (bind_some _ _ _ _ _ E2), (bind_some _ _ _ _ _ E3). reflexivity.
Qed.

(** The size mkfs stores in the inode of the root directory. *)
Definition root_size (n : Z) : Z := (n / BSIZE + 1) * BSIZE.

(** A finished image. *)
Record finished (im : list (list Z)) (cs : list (Z * list Z)) (role : roles) : Prop := {
  fi_img : length im = Z.to_nat FSSIZE /\ forall b, 0 <= b < FSSIZE -> length (blk im b) = Z.to_nat BSIZE;
  fi_sb : decode_sb (blk im 1) = sb;
  fi_log : forall b, sb_logstart sb <= b < sb_inodestart sb -> blk im b = zeroes;
  fi_inode : forall j t c, cs !! j = Some (t, c) -> let i := 1 + Z.of_nat j in
    ld16 (dino im i) 0 = t /\ ld16 (dino im i) 6 = 1 /\
    din_size (dino im i) = (if decide (i = ROOTINO) then root_size (Z.of_nat (length c)) else Z.of_nat (length c)) /\
    file_ok im (nmeta + total (files_of cs)) role i (dino im i) (file_of c);
  fi_free : forall i, Z.of_nat (length cs) < i < sb_ninodes sb -> dino im i = no_dinode;
  fi_bitmap : forall b, 0 <= b < sb_size sb ->
    dbit (blk im (BBLOCK b sb)) b = (b <? nmeta + total (files_of cs));
  fi_role : forall b, is_Some (role b) -> nmeta <= b < nmeta + total (files_of cs)
}.

(** The inodes after the last steps of [main]. *)
Lemma finished_inode s cs role im1 im2 v root :
  built s cs role -> fits cs -> cs !! 0%nat = Some (T_DIR, root) -> v = root_size (Z.of_nat (length root)) ->
  (forall b, 58 < b -> blk im2 b = blk im1 b) -> (forall b, 58 <= b -> blk im1 b = blk (img s) b) ->
  (forall k, 0 <= k < NI -> dino im2 k = dino im1 k) ->
  (forall k, 0 <= k < NI -> dino im1 k = if decide (k = 1) then set_din_size (dino (img s) 1) v else dino (img s) k) ->
  forall j t c, cs !! j = Some (t, c) -> let i := 1 + Z.of_nat j in
    ld16 (dino im2 i) 0 = t /\ ld16 (dino im2 i) 6 = 1 /\
    din_size (dino im2 i) = (if decide (i = ROOTINO) then root_size (Z.of_nat (length c)) else Z.of_nat (length c)) /\
    file_ok im2 (nmeta + total (files_of cs)) role i (dino im2 i) (file_of c).
Proof.
  intros [Binv Bnext Bhead _ _] (F1 & _ & F3) Hroot Hv Hb2 Hb1 Hd2 Hd1 j t c Hj i.
  assert (Hi : 0 <= i < NI). { apply lookup_lt_Some in Hj. rewrite NI_eq. unfold NINODES, i in *. lia. }
  destruct (Bhead j t c Hj) as (Ht & Hn & Hs). fold i in Ht, Hn, Hs.
  pose proof (in_file _ _ _ _ _ Binv j _ (files_of_lookup _ _ _ _ Hj)) as Hok. fold i in Hok.
  destruct (in_fb _ _ _ _ _ Binv) as [Hfb _]. rewrite <- Hfb.
  assert (Hok' : forall din, length din = 64%nat -> (forall k, 0 <= k <= NDIRECT -> din_addr din k = din_addr (dino (img s) i) k) ->
    file_ok im2 (freeblock s) role i din (file_of c)).
  { intros din Hl Ha. apply (file_ok_frame (img s) _ (freeblock s) _ role); [now apply (file_ok_addrs _ _ _ _ (dino (img s) i))|lia|].
    intros b k Hr. split; [|done]. pose proof (in_role _ _ _ _ _ Binv b ltac:(now rewrite Hr)). rewrite Hb2, Hb1 by (consts; lia). done. }
  pose proof (dino_length s (in_blk _ _ _ _ _ Binv) i Hi) as Ld.
  rewrite Hd2, Hd1 by done. change ROOTINO with 1. case_decide as E.
  - rewrite E in *. assert (j = 0%nat) as -> by (unfold i in E; lia). rewrite Hroot in Hj. injection Hj as Et Ec. subst t root.
    assert (Hlen : Z.of_nat (length c) <= MAXFILE * BSIZE) by exact (proj1 (Forall_lookup _ _) F3 _ _ Hroot).
    assert (Hv' : 0 <= v < 2 ^ 32) by (subst v; unfold root_size; consts; Z.div_mod_to_equations; lia).
    unfold set_din_size, din_size. rewrite ld32_st32, u32_small by lia. unfold st32.
    rewrite !ld16_put_ne by (cbn [length le32]; lia). split_and!; try done.
    apply Hok'; [now rewrite length_put|]. intros k Hk. unfold din_addr, NDIRECT in *.
    apply ld32_put_ne; cbn [length le32]; lia.
  - split_and!; try done. now apply Hok'.
Qed.

(** The last steps of [main]: the size of the root directory and the bitmap. *)
Lemma main_end s cs role root rest : built s cs role -> cs = (T_DIR, root) :: rest -> fits cs ->
  exists s', hbind (rinode 1) (fun din => hbind (winode 1 (set_din_size din ((din_size din / BSIZE + 1) * BSIZE))) (fun _ =>
    hbind (fun s => Some (freeblock s, s)) (fun used => balloc used))) s = Some (tt, s') /\
    finished (img s') cs role.
Proof.
  intros Hb0 Hcs Hf. pose proof Hb0 as [Binv Bnext Bhead Bfree Bmeta]. pose proof Hf as (F1 & F2 & F3).
  pose proof Binv as [I1 I2 [I3 I3'] I4 I5 I6]. set (used := nmeta + total (files_of cs)) in *.
  assert (H1 : 0 <= 1 < NI) by (rewrite NI_eq; lia).
  assert (Hj : cs !! 0%nat = Some (T_DIR, root)) by now rewrite Hcs. destruct (Bhead 0%nat _ _ Hj) as (Ht & Hn & Hs).
  change (1 + Z.of_nat 0) with 1 in *. set (v := root_size (Z.of_nat (length root))).
  assert (Hroot : Z.of_nat (length root) <= MAXFILE * BSIZE) by (rewrite Hcs in F3; now apply Forall_cons in F3 as [F3 _]).
  assert (Hv : 0 <= v < 2 ^ 32) by (unfold v, root_size; consts; Z.div_mod_to_equations; lia).
  pose proof (dino_length s I2 1 H1) as Ld.
  destruct (winode_run s I1 I2 1 (set_din_size (dino (img s) 1) v) H1) as (im1 & E1 & L1 & B1 & M1 & D1);
    [unfold set_din_size, st32; now rewrite length_put|].
  set (s1 := mkState im1 _ _) in E1.
  assert (Hu : 0 <= used < BSIZE * 8) by (pose proof (total_pos _ _ _ _ _ Binv); unfold used in *; consts; lia).
  assert (Hl1 : length im1 = Z.to_nat FSSIZE) by congruence.
  set (bm := balloc_loop (Z.to_nat used) 0 zeroes). set (im2 := <[Z.to_nat 58 := bm]> im1).
  assert (Hb2 : forall b, 0 <= b -> blk im2 b = if decide (b = 58) then bm else blk im1 b).
  { intros b Hb. apply blk_insert; [rewrite Hl1; unfold FSSIZE; lia|done]. }
  assert (Hd2 : forall k, 0 <= k < NI -> dino im2 k = dino im1 k).
  { intros k Hk. destruct (iblock_range k Hk) as [_ Hb]. unfold dino. rewrite Hb2, decide_False by lia. done. }
  assert (Hbits : forall b, 0 <= b < BPB -> length bm = Z.to_nat BSIZE /\ dbit bm b = (b <? used)).
  { intros b Hb. change BPB with (BSIZE * 8) in Hb.
    destruct (balloc_loop_bits (Z.to_nat used) 0 zeroes b) as [Hl Hd]; [apply length_replicate|lia|unfold BPB; lia|exact Hb|].
    split; [done|]. unfold bm. rewrite Hd. rewrite (proj2 (Z.leb_le 0 b)) by lia.
    replace (0 + Z.of_nat (Z.to_nat used)) with used by lia.
    assert (dbit zeroes b = false) as ->; [|done]. unfold dbit, ld8, zeroes.
    rewrite lookup_total_replicate_2 by (unfold BSIZE in *; Z.div_mod_to_equations; lia). apply Z.testbit_0_l. }
  exists (mkState im2 (freeinode s) (freeblock s)). split.
  { rewrite (bind_some _ _ _ _ _ (rinode_run s I1 I2 1 H1)), Hs. rewrite (bind_some _ _ _ _ _ E1).
    unfold hbind at 1. cbn [s1 freeblock]. rewrite I3. fold used. unfold balloc.
    rewrite (proj2 (Z.ltb_lt _ _)) by lia. unfold hassert. rewrite (bind_some _ _ s1 tt s1 eq_refl).
    rewrite wsect_run by (exact Hl1 || (change (sb_bmapstart sb) with 58; unfold FSSIZE; lia)).
    change (freeblock s1) with (freeblock s). rewrite I3. reflexivity. }
  cbn [img]. split.
  - split; [unfold im2; now rewrite length_insert|]. intros b Hb. rewrite Hb2 by lia.
    case_decide; [|now apply B1]. apply (Hbits 0). done.
  - rewrite Hb2, decide_False, M1, Bmeta by lia. reflexivity.
  - change (sb_logstart sb) with 2. change (sb_inodestart sb) with 32. intros b Hb.
    rewrite Hb2, decide_False, M1, Bmeta by lia. unfold base. now rewrite (proj2 (Z.eqb_neq b 1)) by lia.
  - apply (finished_inode s cs role im1 im2 v root); try done.
    + intros b Hb. rewrite Hb2, decide_False by lia. done.
    + intros b Hb. apply M1. lia.
  - change (sb_ninodes sb) with 200. intros i Hi. pose proof (lookup_lt_Some _ _ _ Hj). rewrite Hd2, D1, decide_False by (rewrite ?NI_eq; lia).
    apply Bfree. rewrite NI_eq. lia.
  - change (sb_size sb) with 1000. intros b Hb. assert (BBLOCK b sb = 58) as ->.
    { unfold BBLOCK. change BPB with 4096. change (sb_bmapstart sb) with 58. rewrite Z.div_small by lia. done. }
    rewrite Hb2, decide_True by lia. apply Hbits. change BPB with 4096. lia.
  - intros b Hb. apply I5 in Hb. rewrite I3 in Hb. exact Hb.
Qed.

Lemma mkfs_finished files : Forall usable files -> fits (tree files) ->
  exists im role, mkfs files = Some im /\ finished im (tree files) role.
Proof.
  intros Hu Hf. destruct (main_start files Hf) as (s & r & B & E).
  assert (Ht : tree files = (T_DIR, (dirent 1 (str ".") ++ dirent 1 (str "..")) ++ dirents (2 + Z.of_nat (length (@nil (Z * list Z)))) files)
    :: [] ++ (contents <$> files)).
  { unfold tree, root_dir. rewrite <- app_assoc. done. }
  destruct (add_files_run files s _ [] r B Hu) as (s1 & r1 & E1 & B1); [now rewrite <- Ht|].
  rewrite <- Ht in B1. destruct (main_end s1 _ r1 _ _ B1 eq_refl Hf) as (s2 & E2 & F).
  exists (img s2), r1. split; [|done]. unfold mkfs. rewrite E, (bind_some _ _ _ _ _ E1), E2. done.
Qed.

(** The size of a root directory that fills its last block is rounded up all the
    same, to a block the directory does not have. *)
Lemma root_block_missing im cs role c : finished im cs role -> cs !! 0%nat = Some (T_DIR, c) ->
  Z.of_nat (length c) mod BSIZE = 0 -> Z.of_nat (length c) < MAXFILE * BSIZE ->
  let n := Z.of_nat (length c) / BSIZE in
  n * BSIZE < din_size (dino im ROOTINO) /\ entry im (dino im ROOTINO) n = 0.
Proof.
  intros Hf Hc Hm Hlt n. destruct (fi_inode _ _ _ Hf 0%nat T_DIR c Hc) as (_ & _ & Hs & Hok).
  change (1 + Z.of_nat 0) with ROOTINO in *. rewrite decide_True in Hs by done. rewrite Hs. split.
  - unfold root_size, n, BSIZE. lia.
  - apply (fo_rest _ _ _ _ _ _ Hok). unfold n. cbn [file_of f_nb]. unfold nblk. consts. Z.div_mod_to_equations. lia.
Qed.

(** C22. mkfs builds the file system it is asked for.  Given files that can be opened
    and that fit (fewer than [NINODES] inodes, each file at most [MAXFILE] blocks,
    all blocks on the disk), [main] runs to the end, and the image has: the super
    block the kernel decodes, an empty log, an inode of the right type, with one link
    and the right size for the root directory and for every file, whose blocks
    (direct ones, and those in the indirect block) hold its bytes padded with zeroes;
    no block is used twice; the other inodes are free; and bit [b] of the bitmap is
    set exactly for the blocks in use. *)
Theorem mkfs_correct files : Forall usable files -> fits (tree files) ->
  exists im role, mkfs files = Some im /\ finished im (tree files) role.
Proof. apply mkfs_finished. Qed.

Definition ex_files : list input :=
  [(str "README", Some [str "hello "; str "world"]); (str "_big", Some [replicate 512 7; replicate 512 8; replicate 100 9])].

Lemma ex_inputs : Forall usable ex_files /\ fits (tree ex_files).
Proof.
  split.
  - repeat constructor; try (eexists; reflexivity); apply (bool_decide_unpack (47 ∉ _)); vm_compute; exact I.
  - split; [vm_compute; reflexivity|]. split; [vm_compute; discriminate|].
    repeat constructor; vm_compute; discriminate.
Qed.

Lemma mkfs_correct_witness : exists im role, mkfs ex_files = Some im /\ finished im (tree ex_files) role.
Proof. destruct ex_inputs as [H1 H2]. exact (mkfs_correct ex_files H1 H2). Defined.
