(* ===== verification/MkfsBoot.v ===== *)
(** * The kernel on the disk mkfs made

    The image satisfies the invariant of the kernel's file system, and [readi]
    returns the bytes of the files that were put in it. *)

From S2P Require Import Prelude State Strings Spinlock Bio Bytes Log LogCrash LogOps Inode FsTx Alloc FsExample FileData ConsoleIO Fs ReadSpec WriteSpec.
From S2P Require Import Mkfs MkfsSpec MkfsRun MkfsMain.

(** ** Every byte of the image is a byte *)

(** [m] leaves blocks of bytes in the image, and returns a value with [P]. *)
Definition keeps {A} (m : H A) (P : A -> Prop) : Prop :=
  forall s a s', Forall bytes_ok (img s) -> m s = Some (a, s') -> Forall bytes_ok (img s') /\ P a.

Lemma keeps_bind {A B} (m : H A) (k : A -> H B) P Q :
  keeps m P -> (forall a, P a -> keeps (k a) Q) -> keeps (hbind m k) Q.
Proof.
  intros Hm Hk s b s' Hs E. unfold hbind in E. destruct (m s) as [[a s1]|] eqn:E1; [|done].
  destruct (Hm _ _ _ Hs E1) as [H1 Pa]. exact (Hk a Pa _ _ _ H1 E).
Qed.

Lemma keeps_ret {A} (a : A) (P : A -> Prop) : P a -> keeps (hret a) P.
Proof. intros HP s x s' Hs E. injection E as <- <-. done. Qed.

Lemma keeps_assert b : keeps (hassert b) (fun _ => True).
Proof. unfold hassert. destruct b; [now apply keeps_ret|]. intros s a s' _ E. done. Qed.

Lemma keeps_next : keeps next_block (fun _ => True).
Proof. intros s a s' Hs E. unfold next_block in E. injection E as _ <-. done. Qed.

Lemma keeps_rsect b : keeps (rsect b) bytes_ok.
Proof.
  intros s a s' Hs E. unfold rsect in E. destruct (img s !! Z.to_nat b) eqn:Eb; [|done]. injection E as <- <-.
  split; [done|]. exact (proj1 (Forall_lookup _ _) Hs _ _ Eb).
Qed.

Lemma bytes_ok_zeroes : bytes_ok zeroes.
Proof. unfold bytes_ok, zeroes. apply Forall_replicate. lia. Qed.

Lemma keeps_wsect b d : bytes_ok d -> keeps (wsect b d) (fun _ => True).
Proof.
  intros Hd s a s' Hs E. unfold wsect in E. injection E as _ <-. split; [|done]. cbn [img].
  destruct (_ <? _)%nat; [now apply Forall_insert|]. rewrite !Forall_app. split_and!; [done| |now constructor].
  apply Forall_replicate, bytes_ok_zeroes.
Qed.

Create HintDb keeps.
#[local] Hint Resolve keeps_assert keeps_next keeps_rsect keeps_wsect keeps_ret bytes_ok_put bytes_ok_le32 bytes_ok_le16
  bytes_ok_zeroes : keeps.

(** Splits a program into its steps. *)
Ltac keeps_steps := repeat (eapply keeps_bind; [solve [eauto with keeps]|intros ? ?]).

Lemma keeps_winode i d : bytes_ok d -> keeps (winode i d) (fun _ => True).
Proof. intros Hd. unfold winode. keeps_steps. auto with keeps. Qed.

Lemma bytes_ok_st32 d o v : bytes_ok d -> bytes_ok (st32 d o v).
Proof. intros Hd. apply bytes_ok_put; [done|apply bytes_ok_le32]. Qed.
Lemma bytes_ok_st16 d o v : bytes_ok d -> bytes_ok (st16 d o v).
Proof. intros Hd. apply bytes_ok_put; [done|apply bytes_ok_le16]. Qed.

#[local] Hint Resolve bytes_ok_st32 bytes_ok_st16 bytes_ok_slice keeps_winode : keeps.

Lemma keeps_rinode i : keeps (rinode i) bytes_ok.
Proof. unfold rinode. keeps_steps. auto with keeps. Qed.

Lemma keeps_map_block din k : bytes_ok din -> keeps (map_block din k) (fun r => bytes_ok r.1).
Proof.
  intros Hd. unfold map_block. destruct (k <? NDIRECT).
  - eapply (keeps_bind _ _ bytes_ok); [|intros d Hd'; now apply keeps_ret].
    destruct (_ =? 0); [|auto with keeps]. keeps_steps. apply keeps_ret. now apply bytes_ok_st32.
  - eapply (keeps_bind _ _ bytes_ok).
    { destruct (_ =? 0); [|auto with keeps]. keeps_steps. apply keeps_ret. now apply bytes_ok_st32. }
    intros d Hd'. keeps_steps. eapply (keeps_bind _ _ (fun _ => True)); [|intros ? _; now apply keeps_ret].
    destruct (_ =? 0); [|auto with keeps]. keeps_steps. auto with keeps.
Qed.

Lemma keeps_loop fuel : forall din off p, bytes_ok din -> bytes_ok p ->
  keeps (iappend_loop fuel din off p) (fun r => bytes_ok r.1).
Proof.
  induction fuel as [|fuel IH]; intros din off p Hd Hp; [intros s a s' _ E; done|]. cbn [iappend_loop].
  case_bool_decide; [now apply keeps_ret|]. eapply keeps_bind; [apply keeps_assert|]. intros _ _.
  eapply keeps_bind; [now apply keeps_map_block|]. intros [d x] Hd'. cbn [fst] in Hd'.
  eapply keeps_bind; [apply keeps_rsect|]. intros buf Hbuf.
  eapply keeps_bind; [apply keeps_wsect, bytes_ok_put; [done|now apply Forall_take]|]. intros _ _.
  apply IH; [done|now apply Forall_drop].
Qed.

Lemma keeps_iappend i p : bytes_ok p -> keeps (iappend i p) (fun _ => True).
Proof.
  intros Hp. unfold iappend. eapply keeps_bind; [apply keeps_rinode|]. intros d Hd.
  eapply keeps_bind; [now apply keeps_loop|]. intros [d' off] Hd'. apply keeps_winode, bytes_ok_st32, Hd'.
Qed.

Lemma keeps_ialloc t : keeps (ialloc t) (fun _ => True).
Proof.
  intros s a s' Hs E. unfold ialloc in E. set (s1 := mkState _ _ _) in E.
  assert (K : keeps (hbind (winode (freeinode s) (new_dinode t)) (fun _ => hret (freeinode s))) (fun _ => True)).
  { eapply keeps_bind; [|intros; now apply keeps_ret]. apply keeps_winode. unfold new_dinode, set_din_size.
    apply bytes_ok_st32, bytes_ok_st16, bytes_ok_st16. unfold bytes_ok, no_dinode. apply Forall_replicate. lia. }
  exact (K s1 a s' Hs E).
Qed.

Lemma keeps_zero_image k : forall i, keeps (zero_image k i) (fun _ => True).
Proof.
  induction k as [|k IH]; intros i; cbn [zero_image]; [now apply keeps_ret|].
  eapply keeps_bind; [apply keeps_wsect, bytes_ok_zeroes|]. intros _ _. apply IH.
Qed.

Lemma bytes_ok_dirent i name : bytes_ok name -> bytes_ok (dirent i name).
Proof. intros Hn. unfold dirent. apply Forall_app. split; [apply bytes_ok_le16|now apply bytes_ok_strncpy]. Qed.

(** The names and the contents of the files are bytes. *)
Definition input_ok (f : input) : Prop := bytes_ok f.1 /\ Forall bytes_ok (default [] f.2).

Lemma keeps_append_all i chunks : Forall bytes_ok chunks -> keeps (append_all i chunks) (fun _ => True).
Proof.
  induction 1 as [|c chunks Hc _ IH]; cbn [append_all]; [now apply keeps_ret|].
  eapply keeps_bind; [now apply keeps_iappend|]. intros _ _. exact IH.
Qed.

Lemma keeps_add_files r files : Forall input_ok files -> keeps (add_files r files) (fun _ => True).
Proof.
  induction 1 as [|[name ch] files [Hn Hc] _ IH]; cbn [add_files]; [now apply keeps_ret|]. cbn [fst snd] in Hn, Hc.
  eapply keeps_bind; [apply keeps_assert|]. intros _ _. destruct ch as [chunks|]; [|intros s a s' _ E; done].
  eapply keeps_bind; [apply keeps_ialloc|]. intros i _.
  eapply keeps_bind; [apply keeps_iappend, bytes_ok_dirent|].
  { change (bytes_ok (strip name)). unfold strip. repeat case_match; subst; try done. now apply Forall_cons in Hn as [_ Hn]. }
  intros _ _. eapply keeps_bind; [now apply keeps_append_all|]. intros _ _. exact IH.
Qed.

Lemma bytes_ok_balloc k : forall i d, bytes_ok d -> bytes_ok (balloc_loop k i d).
Proof.
  induction k as [|k IH]; intros i d Hd; cbn [balloc_loop]; [done|]. apply IH, bytes_ok_put; [done|].
  constructor; [apply u8_range|constructor].
Qed.

Lemma bytes_ok_sb : bytes_ok sb_bytes.
Proof. unfold sb_bytes. repeat (apply Forall_app; split; [apply bytes_ok_le32|]). constructor. Qed.

Lemma bytes_ok_dots : bytes_ok (str ".") /\ bytes_ok (str "..").
Proof. change (bytes_ok [46] /\ bytes_ok [46; 46]). split; repeat (constructor; [lia|]); constructor. Qed.

Lemma keeps_main files : Forall input_ok files -> keeps (main files) (fun _ => True).
Proof.
  intros Hf. unfold main. eapply keeps_bind; [apply keeps_zero_image|]. intros _ _.
  eapply keeps_bind; [apply keeps_wsect, bytes_ok_put; [apply bytes_ok_zeroes|apply bytes_ok_sb]|]. intros _ _.
  eapply keeps_bind; [apply keeps_ialloc|]. intros r _. eapply keeps_bind; [apply keeps_assert|]. intros _ _.
  eapply keeps_bind; [apply keeps_iappend, bytes_ok_dirent, bytes_ok_dots|intros _ _].
  eapply keeps_bind; [apply keeps_iappend, bytes_ok_dirent, bytes_ok_dots|intros _ _].
  eapply keeps_bind; [now apply keeps_add_files|]. intros _ _. eapply keeps_bind; [apply keeps_rinode|]. intros d Hd.
  eapply keeps_bind; [apply keeps_winode, bytes_ok_st32, Hd|]. intros _ _.
  eapply (keeps_bind _ _ (fun _ => True)); [intros s1 a s' Hs E'; injection E' as _ <-; done|]. intros u _. unfold balloc.
  eapply keeps_bind; [apply keeps_assert|]. intros _ _. apply keeps_wsect, bytes_ok_balloc, bytes_ok_zeroes.
Qed.

Lemma mkfs_bytes files im : Forall input_ok files -> mkfs files = Some im -> Forall bytes_ok im.
Proof.
  intros Hf. pose proof (keeps_main files Hf) as K. unfold mkfs.
  destruct (main files start) as [[[] s]|] eqn:Em; intros E; [|done]. injection E as <-.
  exact (proj1 (K start tt s (List.Forall_nil _) Em)).
Qed.

(** ** A kernel on the image *)

(** The state of a kernel that runs on the image: the super block is loaded, the log
    is where it says, and the blocks are those of the image. *)
Record mounted (im : list (list Z)) (k : kernel) : Prop := {
  mo_tx : tx k [];
  mo_sb : k_sb k = sb;
  mo_log : lg_start (k_log k) = sb_logstart sb /\ lg_size (k_log k) = sb_nlog sb;
  mo_len : length (memdisk k) = length im;
  mo_view : forall b, in_range (memdisk k) b -> view k b = blk im b
}.

Lemma ld8_slice_at l o n a : 0 <= o -> 0 <= a < n -> ld8 (slice l o n) a = ld8 l (o + a).
Proof.
  intros Ho Ha. unfold ld8, slice. rewrite !list_lookup_total_alt, lookup_take_lt, lookup_drop by lia.
  do 2 f_equal. lia.
Qed.

Lemma ld32_slice l o n a : 0 <= o -> 0 <= a -> a + 4 <= n -> ld32 (slice l o n) a = ld32 l (o + a).
Proof.
  intros Ho Ha Hn. unfold ld32. rewrite !ld8_slice_at, !Z.add_assoc by lia. done.
Qed.

Lemma ld16_slice l o n a : 0 <= o -> 0 <= a -> a + 2 <= n -> ld16 (slice l o n) a = ld16 l (o + a).
Proof. intros Ho Ha Hn. unfold ld16. rewrite !ld8_slice_at, !Z.add_assoc by lia. done. Qed.

Section Mounted.
Context (im : list (list Z)) (cs : list (Z * list Z)) (role : roles) (k : kernel).
Hypothesis (Hfin : finished im cs role) (Hfits : MkfsMain.fits cs) (Hbytes : Forall bytes_ok im) (Hm : mounted im k).

Let top := nmeta + total (files_of cs).

Lemma top_range : nmeta <= top <= FSSIZE.
Proof using Hfits. destruct Hfits as (_ & F & _). pose proof (total_files_pos cs). unfold top. lia. Qed.

Lemma mounted_len : length (memdisk k) = Z.to_nat 1000.
Proof using Hfin Hm. rewrite (mo_len _ _ Hm). apply (fi_img _ _ _ Hfin). Qed.

Lemma mounted_view b : 0 <= b < 1000 -> view k b = blk im b.
Proof using Hfin Hm. intros Hb. apply (mo_view _ _ Hm). unfold in_range. rewrite mounted_len. lia. Qed.

Lemma mounted_used b : 0 <= b < 1000 -> used k b = (b <? top).
Proof using All.
  intros Hb. unfold used. rewrite (mo_sb _ _ Hm). change (sb_bmapstart sb) with 58. change BPB with 4096.
  rewrite Z.div_small, Z.mod_small by lia. rewrite mounted_view by lia.
  pose proof (fi_bitmap _ _ _ Hfin b Hb) as H. assert (E : BBLOCK b sb = 58).
  { unfold BBLOCK. change BPB with 4096. rewrite Z.div_small by lia. done. }
  rewrite E in H. exact H.
Qed.

(** The blocks from [nmeta] on are for files. *)
Lemma mounted_file_block b : nmeta <= b < 1000 -> file_block k b.
Proof using Hfin Hm.
  intros Hb. rewrite nmeta_eq in Hb. unfold file_block, data_block, Alloc.meta.
  destruct (mo_log _ _ Hm) as [-> ->]. rewrite mounted_len, (mo_sb _ _ Hm).
  change (sb_logstart sb) with 2. change (sb_nlog sb) with 30. change (sb_size sb) with 1000.
  change (sb_bmapstart sb) with 58. change (sb_inodestart sb) with 32. change (sb_ninodes sb) with 200.
  change BPB with 4096. change IPB with 8. split_and!; try lia.
  intros [(b' & Hb' & E)|(i & Hi & E)]; [rewrite Z.div_small in E by lia; lia|].
  assert (i / 8 < 25) by (Z.div_mod_to_equations; lia). lia.
Qed.

Lemma mounted_fs_ok : fs_ok k.
Proof using All.
  pose proof top_range as Ht. split.
  - destruct (mo_log _ _ Hm) as [L1 L2]. rewrite mounted_len, (mo_sb _ _ Hm). split;
      change (sb_size sb) with 1000; change (sb_bmapstart sb) with 58; change (sb_inodestart sb) with 32;
      change (sb_ninodes sb) with 200; change BPB with 4096; change IPB with 8; unfold data_block; rewrite ?L1, ?L2;
      change (sb_logstart sb) with 2; change (sb_nlog sb) with 30; try lia.
    + intros b Hb. rewrite Z.div_small by lia. lia.
    + intros i Hi. assert (0 <= i / 8 < 25) by (Z.div_mod_to_equations; lia). lia.
    + intros b i Hb Hi. rewrite Z.div_small by lia. assert (0 <= i / 8 < 25) by (Z.div_mod_to_equations; lia). lia.
  - intros b Hb. unfold in_range in Hb. rewrite mounted_len in Hb. rewrite mounted_view by lia.
    destruct (fi_img _ _ _ Hfin) as [Hl Hb']. split; [apply Hb'; unfold FSSIZE; lia|].
    unfold blk. apply (Forall_lookup_total_1 _ _ _ Hbytes). rewrite Hl. unfold FSSIZE. lia.
  - rewrite (mo_sb _ _ Hm). change (sb_size sb) with 1000. intros b Hb Hu. rewrite mounted_used in Hu by lia.
    apply mounted_file_block. apply Z.ltb_ge in Hu. consts. lia.
Qed.

(** ** The files *)

Section File.
Context (j : nat) (t : Z) (c : list Z) (nd : inode).
Hypothesis (Hj : cs !! j = Some (t, c)) (Hdev : i_dev nd = 1) (Hinum : i_inum nd = 1 + Z.of_nat j)
  (Hsync : synced k nd).

Let i := 1 + Z.of_nat j.
Let din := dino im i.

Lemma inum_range : 0 <= i < NI /\ i < 200.
Proof using Hfits Hj.
  destruct Hfits as [F _]. apply lookup_lt_Some in Hj. rewrite NI_eq. unfold NINODES, i in *. lia.
Qed.

Lemma disk_inode : view k (iblock k nd) = blk im (IBLOCK i sb) /\ ioff nd = i mod IPB * DINODE.
Proof using All.
  destruct inum_range as [Hi _]. destruct (iblock_range i Hi) as [E R]. unfold iblock, ioff. rewrite (mo_sb _ _ Hm), Hinum.
  fold i. change (sb_inodestart sb) with 32. split; [|done]. rewrite E. change IPB with 8. apply mounted_view; lia.
Qed.

(** The fields of the cached inode are those of the dinode. *)
Lemma inode_fields : i_type nd = s16 (ld16 din 0) /\ i_nlink nd = s16 (ld16 din 6) /\ i_size nd = din_size din /\
  length (i_addrs nd) = 13%nat /\ forall n, 0 <= n <= NDIRECT -> i_addrs nd !!! Z.to_nat n = din_addr din n.
Proof using All.
  destruct disk_inode as [Hv Ho]. pose proof Hsync as Hs. unfold synced, load_dinode in Hs. rewrite Hv, Ho in Hs.
  set (d := blk im (IBLOCK i sb)) in *. set (o := i mod IPB * DINODE) in *.
  assert (Ho' : 0 <= o) by (unfold o; change IPB with 8; change DINODE with 64; Z.div_mod_to_equations; lia).
  unfold din_size, din_addr, din, dino. fold d o. change DINODE with 64.
  rewrite !ld16_slice, !ld32_slice, Z.add_0_r by lia. rewrite <- Hs. cbn [i_type i_nlink i_size i_addrs].
  split_and!; try done. intros n Hn. unfold NDIRECT in Hn. rewrite ld32_slice by lia. unfold dip_addrs.
  apply list_lookup_total_correct. rewrite list_lookup_fmap, lookup_seq_lt by lia. cbn [fmap option_fmap option_map]. do 2 f_equal. lia.
Qed.

Lemma mounted_baddr n : 0 <= n < MAXFILE -> baddr k nd n = entry im din n.
Proof using All.
  intros Hn. destruct inode_fields as (_ & _ & _ & _ & Ha).
  destruct (fi_inode _ _ _ Hfin j t c Hj) as (_ & _ & _ & Hok). fold i din top in Hok.
  pose proof top_range as Ht. pose proof (fo_ind _ _ _ _ _ _ Hok) as Hi.
  unfold baddr, entry, ind. rewrite (Ha NDIRECT) by (unfold NDIRECT; lia).
  destruct (Z.ltb_spec n NDIRECT); [apply Ha; lia|].
  destruct (Z.eqb_spec (din_addr din NDIRECT) 0); [done|]. destruct (f_ind (file_of c)); [|done].
  rewrite mounted_view; [done|]. consts. lia.
Qed.

Lemma mounted_taken b : nmeta <= b < top -> taken k b.
Proof using All.
  intros Hb. pose proof top_range as Ht. consts. unfold taken. rewrite (mo_sb _ _ Hm). change (sb_size sb) with 1000.
  split_and!; [lia|lia|apply mounted_file_block; consts; lia|]. rewrite mounted_used by lia. apply Z.ltb_lt. lia.
Qed.

(** The file is one the kernel can work with. *)
Lemma mounted_file_ok : i_size nd <= BSIZE * nblk (Z.of_nat (length c)) -> FileData.file_ok k nd.
Proof using All.
  intros Hsz. destruct inode_fields as (_ & _ & Hs & Hl & Ha). destruct inum_range as [Hi Hi'].
  destruct (fi_inode _ _ _ Hfin j t c Hj) as (_ & _ & Hds & Hok). fold i din top in Hds, Hok.
  pose proof Hok as [_ [[H2 H2'] _] H3 H4 _ H6 H7]. cbn [file_of f_nb] in H2, H2', H3, H4, H6.
  set (nb := nblk (Z.of_nat (length c))) in *.
  assert (Hsize : 0 <= i_size nd <= MAXFILE * BSIZE).
  { split; [|consts; lia]. rewrite Hs, Hds. case_decide; [unfold root_size, BSIZE; Z.div_mod_to_equations; lia|lia]. }
  assert (He : forall n, 0 <= n < MAXFILE -> baddr k nd n <> 0 -> 0 <= n < nb).
  { intros n Hn Hb. rewrite mounted_baddr in Hb by done. destruct (decide (n < nb)); [lia|]. now rewrite H6 in Hb by lia. }
  assert (Hind : ind nd = din_addr din NDIRECT) by (apply Ha; unfold NDIRECT; lia).
  split; try done.
  - rewrite (mo_sb _ _ Hm), Hinum. change (sb_ninodes sb) with 200. fold i. lia.
  - intros n Hn Hb. pose proof (He n Hn Hb) as Hn'. rewrite mounted_baddr by done. apply mounted_taken. now apply H4.
  - intros Hb. rewrite Hind in *. destruct (f_ind (file_of c)); [|done]. now apply mounted_taken.
  - intros n m Hn Hm' Hne Hb E. pose proof (He n Hn Hb). pose proof (He m Hm' ltac:(congruence)).
    rewrite !mounted_baddr in E by done. destruct (H4 n ltac:(lia)) as [_ R1]. destruct (H4 m ltac:(lia)) as [_ R2].
    rewrite E, R2 in R1. injection R1 as R1. lia.
  - intros n Hn Hb E. pose proof (He n Hn Hb) as Hn'. rewrite mounted_baddr, Hind in E by done.
    destruct (H4 n ltac:(lia)) as [R0 R1]. rewrite E in R0, R1. destruct (f_ind (file_of c)); [|consts; lia].
    destruct H7 as [_ H7]. rewrite H7 in R1. injection R1 as R1. lia.
  - intros n Hn Hlt. assert (n < nb) by (unfold BSIZE in *; lia). rewrite mounted_baddr by lia.
    destruct (H4 n ltac:(lia)) as [R0 _]. consts. lia.
Qed.

(** Its bytes are the ones mkfs was given. *)
Lemma mounted_bytes : fdata k nd 0 (Z.of_nat (length c)) = c.
Proof using All.
  destruct (fi_inode _ _ _ Hfin j t c Hj) as (_ & _ & _ & Hok). fold i din top in Hok.
  pose proof Hok as [_ [[H2 H2'] _] H3 H4 H5 _ _]. cbn [file_of f_nb f_data] in H2, H2', H3, H4, H5.
  change (size (file_of c)) with (Z.of_nat (length c)) in H3. set (nb := nblk (Z.of_nat (length c))) in *.
  pose proof top_range as Ht.
  apply list_eq_same_length with (n := length c); [done|rewrite fdata_length; lia|].
  intros a x y Ha Hx Hy. rewrite <- (Nat2Z.id a), fdata_lookup in Hx by lia. injection Hx as <-. rewrite Z.add_0_l.
  unfold fbyte. set (q := Z.of_nat a / BSIZE). assert (Hq : 0 <= q < nb /\ Z.of_nat a = BSIZE * q + Z.of_nat a mod BSIZE /\ 0 <= Z.of_nat a mod BSIZE < BSIZE)
    by (unfold q; unfold BSIZE in *; Z.div_mod_to_equations; lia).
  destruct Hq as (Hq & Ea & Hr). destruct (H4 q Hq) as [R0 _]. rewrite mounted_baddr by lia. rewrite mounted_view by (consts; lia).
  rewrite H5 by done. rewrite <- Ea, Nat2Z.id, Hy. done.
Qed.
End File.
End Mounted.

Lemma tree_types files j t c : tree files !! j = Some (t, c) -> t = T_DIR \/ t = T_FILE.
Proof.
  unfold tree. rewrite lookup_cons. destruct j as [|j]; [intros E; left; congruence|]. intros E. right.
  rewrite list_lookup_fmap in E. destruct (files !! j) as [f|]; [|done]. cbn [fmap option_fmap option_map] in E.
  unfold contents in E. congruence.
Qed.

(** C16. A kernel on the disk mkfs made works, and reads the files back.  For every
    kernel whose disk holds the image (its super block loaded, its log in place and
    empty), the file system invariant [fs_ok] of the kernel holds; and for every
    inode of the image that is loaded in the inode cache, [readi] of the file returns
    the bytes mkfs was given and leaves the kernel's view of the disk as it was.  For
    the root directory this needs a length that is not a multiple of the block
    size. *)
Theorem mkfs_mounts files : Forall usable files -> Forall input_ok files -> MkfsMain.fits (tree files) ->
  exists im, mkfs files = Some im /\ forall k, mounted im k -> fs_ok k /\
    forall j t c ip nd, tree files !! j = Some (t, c) -> icache k !! ip = Some nd ->
      i_dev nd = 1 -> i_inum nd = 1 + Z.of_nat j -> synced k nd ->
      (j = 0%nat -> Z.of_nat (length c) mod BSIZE <> 0) ->
      i_type nd = t /\ i_nlink nd = 1 /\ FileData.file_ok k nd /\
      exists k', readi ip ToBuf 0 (Z.of_nat (length c)) k = Ok (Z.of_nat (length c), c) k' /\ undisturbed k k'.
Proof.
  intros Hu Hi Hf. destruct (mkfs_finished files Hu Hf) as (im & role & E & Hfin). exists im. split; [exact E|].
  pose proof (mkfs_bytes files im Hi E) as Hb. clear E. intros k Hm. pose proof (mounted_fs_ok im _ role k Hfin Hf Hb Hm) as Hfs.
  split; [done|]. intros j t c ip nd Hj Hip Hdev Hin Hs Hroot.
  destruct (fi_inode _ _ _ Hfin j t c Hj) as (Ht & Hn & Hsz & Hok).
  destruct (inode_fields im _ role k Hfin Hf Hb Hm j t c nd Hj Hdev Hin Hs) as (F1 & F2 & F3 & _).
  rewrite Ht in F1. rewrite Hn in F2. rewrite Hsz in F3.
  assert (Hty : i_type nd = t /\ t <> T_DEV).
  { rewrite F1. destruct (tree_types _ _ _ _ Hj) as [-> | ->]; done. }
  assert (Hle : Z.of_nat (length c) <= i_size nd <= BSIZE * nblk (Z.of_nat (length c))).
  { rewrite F3. case_decide as Hj0.
    - assert (j = 0%nat) as -> by (change ROOTINO with 1 in Hj0; lia). specialize (Hroot eq_refl).
      unfold root_size, nblk, BSIZE in *. Z.div_mod_to_equations. lia.
    - unfold nblk, BSIZE. Z.div_mod_to_equations. lia. }
  assert (Hfok : FileData.file_ok k nd) by (apply (mounted_file_ok im _ role k Hfin Hf Hb Hm j t c nd); done || lia).
  destruct Hty as [Hty Hnd]. split_and!; try done. pose proof (fl_size _ _ Hfok) as Hmax.
  destruct (readi_run k ip nd ToBuf [] 0 (Z.of_nat (length c)) (mo_tx _ _ Hm) Hfs Hfok Hip) as (k' & R & U & _);
    try done; try (now rewrite Hty); try (consts; lia).
  exists k'. split; [|done]. rewrite R. rewrite Z.min_l by lia.
  now rewrite (mounted_bytes im _ role k Hfin Hf Hb Hm j t c nd).
Qed.

(** ** An example *)

Definition boot_lg : log_t := mkLog 2 30 0 0 1 0 (replicate 30 0).

(** The kernel with the image on its disk and [nd] in the inode cache. *)
Definition boot_start (im : list (list Z)) (nd : inode) : kernel :=
  set_k_log boot_lg (set_k_sb sb (set_icache (<[0%nat := nd]> (icache kernel0)) (set_memdisk im kernel0))).

Lemma boot_mounted im cs role nd : finished im cs role ->
  exists k, mounted im k /\ icache k !! 0%nat = Some nd /\ forall b, view k b = blk im b.
Proof.
  intros Hfin. destruct (binit_blocks (boot_start im nd)) as (k & _ & Hbl & E & Hd & Hv).
  { reflexivity. } { split_and!; [cbn; lia|reflexivity|cbn; lia]. } { exists "ptable"%string. reflexivity. }
  assert (Em : memdisk k = im) by (rewrite E; reflexivity). assert (El : k_log k = boot_lg) by (rewrite E; reflexivity).
  assert (Es : k_sb k = sb) by (rewrite E; reflexivity).
  assert (Ei : icache k = <[0%nat := nd]> (icache kernel0)) by (rewrite E; reflexivity).
  assert (Hv' : forall b, view k b = blk im b) by (intros b; rewrite Hv; reflexivity).
  assert (Ek : k_locks k = <[Lbcache := unlocked "bcache"]> (k_locks kernel0)) by (rewrite E; reflexivity). clear E Hv.
  destruct (fi_img _ _ _ Hfin) as [Hl Hb].
  assert (H2 : dsk im 2 = zeroes) by (apply (fi_log _ _ _ Hfin); change (sb_logstart sb) with 2; change (sb_inodestart sb) with 32; lia).
  exists k. split; [split|split; [now rewrite Ei|done]]; try done; try congruence.
  - split; [|exists "log"%string; rewrite Ek; reflexivity].
    apply (log_inv_intro k boot_lg); rewrite ?Em, ?El; try done.
    + unfold geometry. rewrite Hl. change (1 < 2 /\ 2 + 30 <= Z.of_nat (Z.to_nat 1000) < 2 ^ 31 /\ 30 <= 30). lia.
    + split.
      * unfold sb_ok. assert (E1 : decode_sb (dsk im 1) = sb) by exact (fi_sb _ _ _ Hfin). rewrite E1. done.
      * change (lg_start boot_lg) with 2. rewrite H2. apply length_replicate.
      * change (lg_start boot_lg) with 2. rewrite H2. done.
      * change (lg_start boot_lg) with 2. rewrite H2. constructor.
    + change (lg_start boot_lg) with 2. rewrite H2. reflexivity.
  - now rewrite El.
Qed.

Lemma ex_bytes : Forall input_ok ex_files.
Proof.
  assert (D : forall l, forallb byte_ok l = true -> bytes_ok l).
  { intros l Hl. apply Forall_forall. intros x Hx. rewrite forallb_forall in Hl.
    specialize (Hl x (proj1 (list_elem_of_In _ _) Hx)). unfold byte_ok in Hl. lia. }
  assert (E : forallb (fun f => forallb byte_ok f.1 && forallb (forallb byte_ok) (default [] f.2)) ex_files = true)
    by (vm_compute; reflexivity).
  apply Forall_forall. intros f Hf. rewrite forallb_forall in E. apply list_elem_of_In in Hf.
  apply E, andb_true_iff in Hf as [H1 H2]. split; [now apply D|]. apply Forall_forall. intros x Hx.
  rewrite forallb_forall in H2. apply D, H2. now apply list_elem_of_In.
Qed.

Lemma mkfs_mounts_witness : exists k k' : kernel,
  readi 0 ToBuf 0 11 k = Ok (11, str "hello world") k' /\ undisturbed k k'.
Proof.
  destruct ex_inputs as (H1 & H2). assert (H3 : Forall input_ok ex_files).
  { apply ex_bytes. }
  destruct (mkfs_mounts ex_files H1 H3 H2) as (im & E & H).
  destruct (mkfs_finished ex_files H1 H2) as (im' & role & E' & Hfin).
  assert (im' = im) as -> by congruence. clear E E'.
  set (nd := load_dinode (blk im (IBLOCK 2 sb)) (2 * 64) (mkInode 1 2 1 3 0 0 0 0 0 [])).
  destruct (boot_mounted im _ role nd Hfin) as (k & Hm & Hi & Hv).
  destruct (H k Hm) as [_ Hr]. destruct (Hr 1%nat T_FILE (str "hello world") 0%nat nd) as (_ & _ & _ & k' & R & U); try done.
  - unfold synced, iblock, ioff. rewrite Hv, (mo_sb _ _ Hm). reflexivity.
  - exists k, k'. split; [exact R|exact U].
Defined.
