(* ===== verification/Ide.v ===== *)
(** * The IDE disk driver (ide.c)

    The driver talks to the controller through ports.  The controller is a
    parameter: any state machine with port operations that behaves as an ATA disk
    in programmed I/O does ([Ata]).  What happens under [idelock] is one step;
    [sleep] gives the lock up and has it again when it returns.  [wakeup] records
    which channel was woken. *)

From S2P Require Import Prelude State Bytes.

Definition SECTOR_SIZE : Z := 512.
Definition IDE_BSY : Z := 0x80.
Definition IDE_DRDY : Z := 0x40.
Definition IDE_DF : Z := 0x20.
Definition IDE_ERR : Z := 0x01.
Definition IDE_CMD_READ : Z := 0x20.
Definition IDE_CMD_WRITE : Z := 0x30.
Definition IDE_CMD_RDMUL : Z := 0xc4.
Definition IDE_CMD_WRMUL : Z := 0xc5.

(** The port instructions of x86.h on a controller. *)
Class Ports (D : Type) : Type := {
  inb : Z -> D -> Z * D;
  outb : Z -> Z -> D -> D;
  insl : Z -> Z -> D -> list Z * D;
  outsl : Z -> list Z -> Z -> D -> D
}.

Section Driver.
Context {D : Type} `{!Ports D}.

(** The buffers, [b->qnext], the static variables of ide.c, the controller and the
    channels that were woken. *)
Record ide : Type := mkIde {
  bufs : list buf;
  qnext : nat -> option nat;
  idequeue : option nat;
  idelock : bool;
  havedisk1 : bool;
  irq : bool;
  ctl : D;
  woken : list nat
}.

(** A call of the driver; it can sleep on a buffer. *)
Definition I (A : Type) : Type := M nat ide A.

Definition set_ctl (d : D) (s : ide) : ide :=
  mkIde (bufs s) (qnext s) (idequeue s) (idelock s) (havedisk1 s) (irq s) d (woken s).
Definition set_bufs (bs : list buf) (s : ide) : ide :=
  mkIde bs (qnext s) (idequeue s) (idelock s) (havedisk1 s) (irq s) (ctl s) (woken s).
Definition set_queue (q : option nat) (s : ide) : ide :=
  mkIde (bufs s) (qnext s) q (idelock s) (havedisk1 s) (irq s) (ctl s) (woken s).
Definition set_qnext (b : nat) (q : option nat) (s : ide) : ide :=
  mkIde (bufs s) (fun x => if decide (x = b) then q else qnext s x) (idequeue s) (idelock s) (havedisk1 s) (irq s) (ctl s) (woken s).
Definition set_idelock (l : bool) (s : ide) : ide :=
  mkIde (bufs s) (qnext s) (idequeue s) l (havedisk1 s) (irq s) (ctl s) (woken s).
Definition set_havedisk1 (l : bool) (s : ide) : ide :=
  mkIde (bufs s) (qnext s) (idequeue s) (idelock s) l (irq s) (ctl s) (woken s).
Definition set_irq (s : ide) : ide :=
  mkIde (bufs s) (qnext s) (idequeue s) (idelock s) (havedisk1 s) true (ctl s) (woken s).
Definition set_woken (w : list nat) (s : ide) : ide :=
  mkIde (bufs s) (qnext s) (idequeue s) (idelock s) (havedisk1 s) (irq s) (ctl s) w.

Definition rd (p : Z) : I Z := fun s => let '(v, d) := inb p (ctl s) in Ok v (set_ctl d s).
Definition wr (p v : Z) : I unit := modify (fun s => set_ctl (outb p v (ctl s)) s).
Definition rd_data (p n : Z) : I (list Z) := fun s => let '(v, d) := insl p n (ctl s) in Ok v (set_ctl d s).
Definition wr_data (p : Z) (l : list Z) (n : Z) : I unit := modify (fun s => set_ctl (outsl p l n (ctl s)) s).

Definition bufat (b : nat) : I buf := gets (fun s => bufs s !!! b).
Definition setbuf (b : nat) (f : buf -> buf) : I unit := modify (fun s => set_bufs (alter f b (bufs s)) s).

(** [acquire(&idelock)], [release(&idelock)], [wakeup(b)] and [sleep(b, &idelock)]. *)
Definition lock : I unit :=
  l <- gets idelock ;;
  if l then panic "acquire" else modify (set_idelock true).
Definition unlock : I unit :=
  l <- gets idelock ;;
  if l then modify (set_idelock false) else panic "release".
Definition wake (b : nat) : I unit := modify (fun s => set_woken (b :: woken s) s).
Definition sleep_on (b : nat) : I unit :=
  unlock ;;
  modify (fun s => set_woken (filter (fun x => x <> b) (woken s)) s) ;;
  block b ;;
  lock.

(** ** idewait *)

(** [while(((r = inb(0x1f7)) & (IDE_BSY|IDE_DRDY)) != IDE_DRDY);] *)
Fixpoint idewait_loop (fuel : nat) : I Z :=
  match fuel with
  | O => out_of_fuel
  | S fuel' =>
      r <- rd 0x1f7 ;;
      if Z.land r (Z.lor IDE_BSY IDE_DRDY) =? IDE_DRDY then ret r else idewait_loop fuel'
  end.

Definition idewait (fuel : nat) (checkerr : bool) : I Z :=
  r <- idewait_loop fuel ;;
  if checkerr && has r (Z.lor IDE_DF IDE_ERR) then ret (-1) else ret 0.

(** ** ideinit *)

(** The search for disk 1 makes at most 1000 rounds. *)
Fixpoint probe (n : nat) : I unit :=
  match n with
  | O => ret tt
  | S n' =>
      r <- rd 0x1f7 ;;
      if r =? 0 then probe n' else modify (set_havedisk1 true)
  end.

(** [picenable] and [ioapicenable] are recorded as [irq]. *)
Definition ideinit (fuel : nat) : I unit :=
  modify (set_idelock false) ;;
  modify set_irq ;;
  idewait fuel false ;;
  wr 0x1f6 (Z.lor 0xe0 (Z.shiftl 1 4)) ;;
  probe 1000 ;;
  wr 0x1f6 (Z.lor 0xe0 (Z.shiftl 0 4)).

(** ** idestart *)

Definition idestart (fuel : nat) (b : option nat) : I unit :=
  match b with
  | None => panic "idestart"
  | Some b =>
      bf <- bufat b ;;
      if FSSIZE <=? b_blockno bf then panic "incorrect blockno" else
      let sector_per_block := BSIZE / SECTOR_SIZE in
      let sector := b_blockno bf * sector_per_block in
      let read_cmd := if sector_per_block =? 1 then IDE_CMD_READ else IDE_CMD_RDMUL in
      let write_cmd := if sector_per_block =? 1 then IDE_CMD_WRITE else IDE_CMD_WRMUL in
      if 7 <? sector_per_block then panic "idestart" else
      idewait fuel false ;;
      wr 0x3f6 0 ;;
      wr 0x1f2 sector_per_block ;;
      wr 0x1f3 (Z.land sector 0xff) ;;
      wr 0x1f4 (Z.land (Z.shiftr sector 8) 0xff) ;;
      wr 0x1f5 (Z.land (Z.shiftr sector 16) 0xff) ;;
      wr 0x1f6 (Z.lor (Z.lor 0xe0 (Z.shiftl (Z.land (b_dev bf) 1) 4)) (Z.land (Z.shiftr sector 24) 0x0f)) ;;
      if has (b_flags bf) B_DIRTY then
        wr 0x1f7 write_cmd ;;
        wr_data 0x1f0 (b_data bf) (BSIZE / 4)
      else wr 0x1f7 read_cmd
  end.

(** ** ideintr *)

Definition ideintr (fuel : nat) : I unit :=
  lock ;;
  q <- gets idequeue ;;
  match q with
  | None => unlock
  | Some b =>
      nx <- gets (fun s => qnext s b) ;;
      modify (set_queue nx) ;;
      bf <- bufat b ;;
      (if has (b_flags bf) B_DIRTY then ret tt
       else
         r <- idewait fuel true ;;
         if 0 <=? r then l <- rd_data 0x1f0 (BSIZE / 4) ;; setbuf b (set_b_data l)
         else ret tt) ;;
      setbuf b (fun bf => set_b_flags (Z.lor (b_flags bf) B_VALID) bf) ;;
      setbuf b (fun bf => set_b_flags (Z.ldiff (b_flags bf) B_DIRTY) bf) ;;
      wake b ;;
      q <- gets idequeue ;;
      (match q with Some _ => idestart fuel q | None => ret tt end) ;;
      unlock
  end.

(** ** iderw *)

(** [for(pp=&idequeue; *pp; pp=&( *pp)->qnext);] and [*pp = b]: the walk is at the
    buffer [x]. *)
Fixpoint append_loop (n : nat) (x b : nat) : I unit :=
  match n with
  | O => out_of_fuel
  | S n' =>
      nx <- gets (fun s => qnext s x) ;;
      match nx with
      | Some y => append_loop n' y b
      | None => modify (set_qnext x (Some b))
      end
  end.

Definition append (n : nat) (b : nat) : I unit :=
  q <- gets idequeue ;;
  match q with
  | None => modify (set_queue (Some b))
  | Some x => append_loop n x b
  end.

(** [while((b->flags & (B_VALID|B_DIRTY)) != B_VALID) sleep(b, &idelock);] *)
Fixpoint iderw_wait (sleeps : nat) (b : nat) : I unit :=
  bf <- bufat b ;;
  if Z.land (b_flags bf) (Z.lor B_VALID B_DIRTY) =? B_VALID then ret tt
  else match sleeps with
       | O => out_of_fuel
       | S n => sleep_on b ;; iderw_wait n b
       end.

Definition iderw (fuel sleeps : nat) (b : nat) : I unit :=
  bf <- bufat b ;;
  if negb (has (b_flags bf) B_BUSY) then panic "iderw: buf not busy" else
  if Z.land (b_flags bf) (Z.lor B_VALID B_DIRTY) =? B_VALID then panic "iderw: nothing to do" else
  havedisk1 <- gets havedisk1 ;;
  if negb (b_dev bf =? 0) && negb havedisk1 then panic "iderw: ide disk 1 not present" else
  lock ;;
  modify (set_qnext b None) ;;
  n <- gets (fun s => length (bufs s)) ;;
  append n b ;;
  q <- gets idequeue ;;
  (if bool_decide (q = Some b) then idestart fuel (Some b) else ret tt) ;;
  iderw_wait sleeps b ;;
  unlock.
End Driver.

#[global] Arguments ide D : clear implicits.
#[global] Arguments I D A : clear implicits.
