(* ===== verification/IdeSpec.v ===== *)
(** * The IDE driver serves a queue

    With a disk that behaves as ATA says, the driver implements a queue of
    requests served one per interrupt, each with the effect [iderw] has on the
    memory disk unless the disk reports an error. *)

From S2P Require Import Prelude State Bytes Ide.

(** ** The disk *)

(** A data transfer the disk waits for: the direction, the drive and the sector. *)
Inductive transfer : Type := NoTransfer | FromDisk (drive sector : Z) | ToDisk (drive sector : Z).

(** The drive and the sector the registers select. *)
Definition sel_drive (reg : Z -> Z) : Z := Z.land (Z.shiftr (reg 0x1f6) 4) 1.
Definition sel_sector (reg : Z -> Z) : Z :=
  reg 0x1f3 + 2 ^ 8 * reg 0x1f4 + 2 ^ 16 * reg 0x1f5 + 2 ^ 24 * Z.land (reg 0x1f6) 0x0f.

Definition command_reg (p : Z) : Prop := p ∈ [0x3f6; 0x1f2; 0x1f3; 0x1f4; 0x1f5; 0x1f6].

(** Bit 1 of the device control register turns the interrupt off. *)
Definition intr_on (reg : Z -> Z) : bool := negb (has (reg 0x3f6) 2).

Definition upd_sect (f : Z -> Z -> list Z) (dr n : Z) (d : list Z) : Z -> Z -> list Z :=
  fun dr' n' => if decide (dr' = dr /\ n' = n) then d else f dr' n'.

(** The contents of the sectors after command [e] wrote [l]: a command that fails leaves any contents. *)
Definition put_sect (e : option (list Z)) (f : Z -> Z -> list Z) (dr n : Z) (l : list Z) : Z -> Z -> list Z :=
  upd_sect f dr n (default l e).

(** An ATA channel driven by programmed I/O.  Drive 0 is there, drive 1 when [two] is true; the status
    of a drive that is not there reads 0.  [polls] is how often the status register still has to be
    read until the channel is ready, at most [patience] times; the registers and the commands are
    used only when it is ready and no transfer is open.  Command number [i] fails when [error i] is
    [Some l], and a write that fails leaves [l] in the sector.  The status of a failed command has an
    error bit, and there is no data to read after a failed read.  [drq] says that the disk is ready
    to take the data of a write, [due] that the command in progress ends with an interrupt. *)
Class Ata (D : Type) `{!Ports D} : Type := {
  two : bool;
  error : nat -> option (list Z);
  patience : nat;
  sect : D -> Z -> Z -> list Z;
  reg : D -> Z -> Z;
  transf : D -> transfer;
  err : D -> bool;
  commands : D -> nat;
  polls : D -> nat;
  drq : D -> bool;
  due : D -> bool;
  present (dr : Z) : bool := (dr =? 0) || two;
  failed (i : nat) : bool := bool_decide (is_Some (error i));
  same (d d' : D) : Prop :=
    sect d' = sect d /\ transf d' = transf d /\ err d' = err d /\ commands d' = commands d;
  ata_patience : forall d, (polls d < patience)%nat;
  ata_status : forall d, exists r d', inb 0x1f7 d = (r, d') /\ same d d' /\ reg d' = reg d /\
    (present (sel_drive (reg d)) = false -> r = 0 /\ polls d' = polls d) /\
    (present (sel_drive (reg d)) = true ->
     match polls d with
     | O => Z.land r (Z.lor IDE_BSY IDE_DRDY) = IDE_DRDY /\ has r (Z.lor IDE_DF IDE_ERR) = err d /\ polls d' = O
     | S n => Z.land r (Z.lor IDE_BSY IDE_DRDY) <> IDE_DRDY /\ polls d' = n
     end);
  ata_register : forall d p v, command_reg p -> polls d = O -> transf d = NoTransfer -> let d' := outb p v d in
    reg d' p = v /\ (forall p', p' <> p -> reg d' p' = reg d p') /\ same d d' /\ polls d' = O;
  ata_read : forall d, polls d = O -> transf d = NoTransfer -> reg d 0x1f2 = 1 -> present (sel_drive (reg d)) = true ->
    let d' := outb 0x1f7 IDE_CMD_READ d in
    sect d' = sect d /\ reg d' = reg d /\ commands d' = S (commands d) /\ err d' = failed (commands d) /\
    transf d' = (if failed (commands d) then NoTransfer else FromDisk (sel_drive (reg d)) (sel_sector (reg d))) /\
    due d' = intr_on (reg d);
  ata_write : forall d, polls d = O -> transf d = NoTransfer -> reg d 0x1f2 = 1 -> present (sel_drive (reg d)) = true ->
    let d' := outb 0x1f7 IDE_CMD_WRITE d in
    sect d' = sect d /\ reg d' = reg d /\ commands d' = S (commands d) /\
    transf d' = ToDisk (sel_drive (reg d)) (sel_sector (reg d));
  ata_insl : forall d dr n, polls d = O -> transf d = FromDisk dr n -> err d = false -> exists d',
    insl 0x1f0 (BSIZE / 4) d = (sect d dr n, d') /\ transf d' = NoTransfer /\
    sect d' = sect d /\ reg d' = reg d /\ commands d' = commands d;
  ata_outsl : forall d i dr n l, drq d = true -> transf d = ToDisk dr n -> commands d = S i -> length l = Z.to_nat BSIZE ->
    let d' := outsl 0x1f0 l (BSIZE / 4) d in
    transf d' = NoTransfer /\ sect d' = put_sect (error i) (sect d) dr n l /\ reg d' = reg d /\
    commands d' = commands d /\ due d' = intr_on (reg d)
}.

#[global] Arguments two D {_ _}.
#[global] Arguments error D {_ _} i.
#[global] Arguments present D {_ _} dr.
#[global] Arguments failed D {_ _} i.

(** What [idestart] relies on beyond that: it sends the data of a write right behind the command, so
    the disk has to be ready to take it at once.  ATA lets a disk take its time and has the host wait
    for the [DRQ] bit. *)
Class Prompt (D : Type) `{!Ports D} `{!Ata D} : Prop :=
  prompt_drq : forall d, polls d = O -> transf d = NoTransfer -> drq (outb 0x1f7 IDE_CMD_WRITE d) = true.

(** ** The abstract device *)

(** The buffers, the requests in order, the calls whose request was served, how many requests were
    served, and the blocks of the two disks. *)
Record device : Type := mkDevice {
  d_bufs : list buf;
  d_queue : list nat;
  d_done : list nat;
  d_count : nat;
  d_disk : Z -> Z -> list Z
}.

(** What [iderw] does to a buffer and the disk, as memide.c has it; when the disk reports the error
    [e], a read leaves the old data in the buffer, and the buffer counts as valid all the same. *)
Definition drive (bf : buf) : Z := Z.land (b_dev bf) 1.
Definition served (e : option (list Z)) (dk : Z -> Z -> list Z) (bf : buf) : buf :=
  let bf := if has (b_flags bf) B_DIRTY then bf
            else match e with None => set_b_data (dk (drive bf) (b_blockno bf)) bf | Some _ => bf end in
  set_b_flags (Z.ldiff (Z.lor (b_flags bf) B_VALID) B_DIRTY) bf.
Definition stored (e : option (list Z)) (dk : Z -> Z -> list Z) (bf : buf) : Z -> Z -> list Z :=
  if has (b_flags bf) B_DIRTY then put_sect e dk (drive bf) (b_blockno bf) (b_data bf) else dk.

(** [es i] is the error of request number [i]. *)
Definition serve (es : nat -> option (list Z)) (a : device) : device :=
  match d_queue a with
  | [] => a
  | b :: q =>
      let bf := d_bufs a !!! b in let e := es (d_count a) in
      mkDevice (alter (served e (d_disk a)) b (d_bufs a)) q (b :: d_done a) (S (d_count a)) (stored e (d_disk a) bf)
  end.

(** A request the driver accepts. *)
Definition request_ok (two : bool) (bf : buf) : bool :=
  has (b_flags bf) B_BUSY && negb (Z.land (b_flags bf) (Z.lor B_VALID B_DIRTY) =? B_VALID) &&
  ((b_dev bf =? 0) || ((b_dev bf =? 1) && two)) && (0 <=? b_blockno bf) && (b_blockno bf <? FSSIZE) &&
  (length (b_data bf) =? 512)%nat.

(** What can happen: a process calls [iderw], the disk interrupts, a process that was
    woken goes on, and a process changes a buffer it owns. *)
Inductive event : Type := Request (b : nat) | Interrupt | Resume (b : nat) | Change (b : nat) (bf : buf).

Definition busy_with (a : device) (b : nat) : bool := bool_decide (b ∈ d_queue a) || bool_decide (b ∈ d_done a).

Definition device_step (es : nat -> option (list Z)) (two : bool) (a : device) (e : event) : option device :=
  match e with
  | Request b =>
      match d_bufs a !! b with
      | Some bf => if request_ok two bf && negb (busy_with a b)
                   then Some (mkDevice (d_bufs a) (d_queue a ++ [b]) (d_done a) (d_count a) (d_disk a)) else None
      | None => None
      end
  | Interrupt => Some (serve es a)
  | Resume b => if bool_decide (b ∈ d_done a)
                then Some (mkDevice (d_bufs a) (d_queue a) (filter (fun x => x <> b) (d_done a)) (d_count a) (d_disk a)) else None
  | Change b bf => if busy_with a b then None
                   else Some (mkDevice (<[b := bf]> (d_bufs a)) (d_queue a) (d_done a) (d_count a) (d_disk a))
  end.

(** ** The driver as a system of calls *)

Section System.
Context {D : Type} `{!Ports D} `{!Ata D}.

(** The driver and the calls that sleep, by the buffer they sleep on. *)
Record system : Type := mkSystem { drv : ide D; pool : gmap nat (ide D -> outcome nat (ide D) unit) }.

Definition system_step (sleeps : nat) (x : system) (e : event) : option system :=
  match e with
  | Request b =>
      match iderw patience sleeps b (drv x) with
      | Ok _ s => Some (mkSystem s (pool x))
      | Blocked w s k => Some (mkSystem s (<[w := k]> (pool x)))
      | Panic _ => None
      end
  | Interrupt =>
      match ideintr patience (drv x) with
      | Ok _ s => Some (mkSystem s (pool x))
      | _ => None
      end
  | Resume b =>
      if bool_decide (b ∈ woken (drv x)) then
        match pool x !! b with
        | Some k =>
            match k (drv x) with
            | Ok _ s => Some (mkSystem s (delete b (pool x)))
            | Blocked w s k' => Some (mkSystem s (<[w := k']> (delete b (pool x))))
            | Panic _ => None
            end
        | None => None
        end
      else None
  | Change b bf => Some (mkSystem (set_bufs (<[b := bf]> (bufs (drv x))) (drv x)) (pool x))
  end.
End System.
#[global] Arguments system D : clear implicits.
