(* ===== verification/IdeRun.v ===== *)
(** * The IDE driver refines the device *)

From S2P Require Import Prelude State Bytes Bio Ide IdeSpec.

Section Calls.
Context {D : Type} `{!Ports D}.
Implicit Types s : ide D.

(** ** The queue *)

(** [l] is the chain of [qnext] links from [q] on. *)
Fixpoint chain (nx : nat -> option nat) (q : option nat) (l : list nat) : Prop :=
  match l with
  | [] => q = None
  | b :: l' => q = Some b /\ chain nx (nx b) l'
  end.

Lemma chain_frame nx nx' l : forall q, (forall b, b ∈ l -> nx' b = nx b) -> chain nx q l -> chain nx' q l.
Proof.
  induction l as [|b l IH]; intros q Hf H; [done|]. destruct H as [-> H]. split; [done|].
  rewrite Hf by set_solver. apply IH; [|done]. intros x Hx. apply Hf. set_solver.
Qed.

(** Linking [b] behind the last element. *)
Lemma chain_snoc nx b l : forall x, chain nx (Some x) (x :: l) -> NoDup (x :: l) -> b ∉ x :: l -> nx b = None ->
  chain (fun y => if decide (y = default x (last (x :: l))) then Some b else nx y) (Some x) ((x :: l) ++ [b]).
Proof.
  induction l as [|y l IH]; intros x H Hd Hb Hn.
  - cbn. rewrite decide_True by done. split; [done|]. split; [done|]. rewrite decide_False by set_solver. done.
  - destruct H as [_ [Hx H]]. apply NoDup_cons in Hd as [Hxl Hd].
    destruct (proj2 (last_is_Some (y :: l)) ltac:(done)) as [z Hz].
    assert (E : default x (last (x :: y :: l)) = default y (last (y :: l))).
    { change (last (x :: y :: l)) with (last (y :: l)). now rewrite Hz. }
    rewrite E. change ((x :: y :: l) ++ [b]) with (x :: ((y :: l) ++ [b])). split; [done|].
    assert (Hl : default y (last (y :: l)) ∈ y :: l).
    { rewrite Hz. now apply last_Some_elem_of in Hz. }
    rewrite decide_False by (intros ->; done). rewrite Hx. apply IH; try done; set_solver.
Qed.

Lemma append_loop_run n b l : forall x s, chain (qnext s) (Some x) (x :: l) -> (length (x :: l) <= n)%nat ->
  append_loop n x b s = Ok tt (set_qnext (default x (last (x :: l))) (Some b) s).
Proof.
  revert n. induction l as [|y l IH]; intros n x s H Hn; (destruct n as [|n]; [cbn in Hn; lia|]); cbn [append_loop].
  - destruct H as [_ H]. rewrite bind_gets. cbn beta. cbn [chain] in H. rewrite H. reflexivity.
  - destruct H as [_ [Hx H]]. rewrite bind_gets. cbn beta. rewrite Hx. rewrite (IH n y).
    + change (last (x :: y :: l)) with (last (y :: l)).
      destruct (proj2 (last_is_Some (y :: l)) ltac:(done)) as [z Hz]. now rewrite Hz.
    + now split.
    + cbn in *. lia.
Qed.

Lemma append_run n b l s : chain (qnext s) (idequeue s) l -> NoDup l -> b ∉ l -> qnext s b = None -> (length l <= n)%nat ->
  exists nx q, append n b s = Ok tt (mkIde (bufs s) nx q (idelock s) (havedisk1 s) (irq s) (ctl s) (woken s)) /\
    chain nx q (l ++ [b]) /\ (l <> [] -> q = idequeue s) /\ (l = [] -> q = Some b).
Proof.
  intros H Hd Hb Hn Hlen. unfold append. rewrite bind_gets. cbn beta. destruct l as [|x l].
  - cbn [chain] in H. rewrite H. exists (qnext s), (Some b). now split_and!.
  - pose proof H as [Hq _]. rewrite Hq. rewrite (append_loop_run n b l x s) by (rewrite <- ?Hq; done).
    eexists _, (Some x). split; [unfold set_qnext; rewrite Hq; reflexivity|]. split_and!; try done.
    apply chain_snoc; try done. rewrite <- Hq. exact H.
Qed.

(** ** Calls that sleep *)

(** The call that sleeps on [b] goes on. *)
Definition resumed (n b : nat) : I D unit := lock ;; iderw_wait n b ;; unlock.

Definition is_served (bf : buf) : Prop := Z.land (b_flags bf) (Z.lor B_VALID B_DIRTY) = B_VALID.

Lemma busy_false a b : busy_with a b = false -> b ∉ d_queue a ++ d_done a.
Proof. unfold busy_with. intros H. apply orb_false_iff in H as [H1 H2]. rewrite elem_of_app. apply bool_decide_eq_false in H1, H2. tauto. Qed.

Lemma lock_run s : idelock s = false -> lock s = Ok tt (set_idelock true s).
Proof. intros H. unfold lock. rewrite bind_gets. cbn beta. now rewrite H. Qed.

Lemma unlock_run s : idelock s = true -> unlock s = Ok tt (set_idelock false s).
Proof. intros H. unfold unlock. rewrite bind_gets. cbn beta. now rewrite H. Qed.

(** A call that was woken returns. *)
Lemma resumed_run n b s bf : idelock s = false -> bufs s !! b = Some bf -> is_served bf ->
  resumed n b s = Ok tt s.
Proof.
  intros Hl Hb Hs. unfold resumed. mok (lock_run s Hl).
  assert (Hw : iderw_wait n b (set_idelock true s) = Ok tt (set_idelock true s)).
  { destruct n; cbn [iderw_wait]; unfold bufat; rewrite bind_gets; cbn beta; cbn [bufs set_idelock];
      rewrite (list_lookup_total_correct _ _ _ Hb), Hs, Z.eqb_refl; reflexivity. }
  mok Hw. rewrite unlock_run by done. destruct s. cbn in Hl. subst. reflexivity.
Qed.

(** A call whose request is queued goes to sleep. *)
Lemma wait_sleeps n b s bf : bufs s !! b = Some bf -> ~ is_served bf -> idelock s = true ->
  exists k, bind (iderw_wait (S n) b) (fun _ => unlock) s =
      Blocked b (set_woken (filter (fun y => y <> b) (woken s)) (set_idelock false s)) k /\
    forall s', k s' = resumed n b s'.
Proof.
  intros Hb Hn Hl. cbn [iderw_wait].
  assert (E : bind (bufat b) (fun bf => if Z.land (b_flags bf) (Z.lor B_VALID B_DIRTY) =? B_VALID then ret tt
    else sleep_on b ;; iderw_wait n b) s = (sleep_on b ;; iderw_wait n b) s).
  { unfold bufat. rewrite bind_gets. cbn beta. rewrite (list_lookup_total_correct _ _ _ Hb).
    rewrite (proj2 (Z.eqb_neq _ _)) by exact Hn. reflexivity. }
  unfold bind at 1. rewrite E. unfold sleep_on. unfold bind at 1 2. rewrite (unlock_run s Hl). cbn [obind].
  eexists. split; [reflexivity|]. intros s'. unfold resumed, bind. cbn [obind].
  destruct (lock s') as [[] s1| |w s1 k'] eqn:El; cbn [obind]; try reflexivity.
  unfold lock in El. rewrite bind_gets in El. cbn beta in El. destruct (idelock s'); discriminate El.
Qed.

Lemma request_facts two bf : request_ok two bf = true ->
  has (b_flags bf) B_BUSY = true /\ ~ is_served bf /\ (negb (b_dev bf =? 0) && negb two) = false.
Proof.
  unfold request_ok, is_served. rewrite !andb_true_iff. intros [[[[[H1 H2] H3] _] _] _].
  apply negb_true_iff, Z.eqb_neq in H2. split_and!; try done. destruct (b_dev bf =? 0), (b_dev bf =? 1), two; done.
Qed.

(** The queue is no longer than the array of buffers. *)
Lemma queue_fits (l : list nat) (bs : list buf) : NoDup l -> (forall b, b ∈ l -> is_Some (bs !! b)) -> (length l <= length bs)%nat.
Proof.
  intros Hd Hl. rewrite <- (length_seq (length bs) 0). apply submseteq_length, NoDup_submseteq; [done|].
  intros b Hb. apply elem_of_seq. apply Hl, lookup_lt_is_Some in Hb. lia.
Qed.

Lemma alter_at {A} (f : A -> A) (l : list A) i x : l !! i = Some x -> alter f i l = <[i := f x]> l.
Proof. revert i. induction l as [|y l IH]; intros [|i] H; try done; cbn in *; [congruence|]. f_equal. now apply IH. Qed.

Lemma served_is_served e dk bf : is_served (served e dk bf).
Proof.
  unfold is_served, served. cbn [b_flags set_b_flags]. set (f := b_flags _). unfold B_VALID, B_DIRTY.
  bitwise n Hn. rewrite Z.land_spec, Z.ldiff_spec, !Z.lor_spec. change 2 with (2 ^ 1). change 4 with (2 ^ 2).
  rewrite !Z.pow2_bits_eqb by lia. destruct (Z.eqb_spec 1 n), (Z.eqb_spec 2 n), (Z.testbit f n); cbn; lia || done.
Qed.

End Calls.

Section Run.
Context {D : Type} `{!Ports D} `{!Ata D} `{!Prompt D}.
Implicit Types s : ide D.

(** ** Port operations *)

(** The drive the registers select is there. *)
Definition selected (d : D) : Prop := present D (sel_drive (reg d)) = true.

Lemma same_trans d1 d2 d3 : same d1 d2 -> same d2 d3 -> same d1 d3.
Proof using All. intros (A1 & A2 & A3 & A4) (B1 & B2 & B3 & B4). split_and!; congruence. Qed.

Lemma idewait_loop_run fuel : forall s, (polls (ctl s) < fuel)%nat -> selected (ctl s) ->
  exists r d, idewait_loop fuel s = Ok r (set_ctl d s) /\ has r (Z.lor IDE_DF IDE_ERR) = err (ctl s) /\
    same (ctl s) d /\ reg d = reg (ctl s) /\ polls d = O.
Proof using All.
  induction fuel as [|fuel IH]; intros s Hf Hs; [lia|]. cbn [idewait_loop].
  destruct (ata_status (ctl s)) as (r & d & E & S1 & S2 & _ & S4). specialize (S4 Hs).
  assert (Er : rd 0x1f7 s = Ok r (set_ctl d s)) by (unfold rd; now rewrite E). mok Er.
  destruct (polls (ctl s)) as [|n] eqn:En.
  - destruct S4 as (S4 & S5 & S6). exists r, d. rewrite S4, Z.eqb_refl. done.
  - destruct S4 as [S4 S5]. rewrite (proj2 (Z.eqb_neq _ _) S4).
    destruct (IH (set_ctl d s)) as (r' & d' & E' & H1 & H2 & H3 & H4); [cbn; lia|unfold selected; cbn; now rewrite S2|].
    exists r', d'. cbn [ctl set_ctl] in *. split_and!; try done; [|now apply (same_trans _ d)|congruence].
    rewrite H1. apply S1.
Qed.

Lemma idewait_run chk s : selected (ctl s) ->
  exists d, idewait patience chk s = Ok (if chk && err (ctl s) then -1 else 0) (set_ctl d s) /\
  same (ctl s) d /\ reg d = reg (ctl s) /\ polls d = O.
Proof using All.
  intros Hs. destruct (idewait_loop_run patience s (ata_patience _) Hs) as (r & d & E & H1 & H). exists d. split; [|done].
  unfold idewait. mok E. rewrite H1. now destruct (chk && err (ctl s)).
Qed.

(** The registers [idestart] writes select the block. *)
Lemma selects bf (rg : Z -> Z) : request_ok (two D) bf = true ->
  rg 0x1f3 = Z.land (b_blockno bf) 0xff -> rg 0x1f4 = Z.land (Z.shiftr (b_blockno bf) 8) 0xff ->
  rg 0x1f5 = Z.land (Z.shiftr (b_blockno bf) 16) 0xff ->
  rg 0x1f6 = Z.lor (Z.lor 0xe0 (Z.shiftl (Z.land (b_dev bf) 1) 4)) (Z.land (Z.shiftr (b_blockno bf) 24) 0x0f) ->
  sel_drive rg = drive bf /\ sel_sector rg = b_blockno bf.
Proof.
  intros Hok H3 H4 H5 H6. unfold request_ok in Hok. rewrite !andb_true_iff in Hok.
  destruct Hok as [[[[_ Hdev] Hlo] Hhi] _].
  assert (Hb : 0 <= b_blockno bf < 1000) by (unfold FSSIZE in *; lia).
  assert (E24 : Z.shiftr (b_blockno bf) 24 = 0) by (rewrite Z.shiftr_div_pow2 by lia; apply Z.div_small; lia).
  assert (E16 : Z.shiftr (b_blockno bf) 16 = 0) by (rewrite Z.shiftr_div_pow2 by lia; apply Z.div_small; lia).
  assert (Ed : b_dev bf = 0 \/ b_dev bf = 1) by lia.
  assert (E6 : rg 0x1f6 = 0xe0 + 16 * b_dev bf).
  { rewrite H6, E24. destruct Ed as [-> | ->]; reflexivity. }
  split.
  - unfold sel_drive, drive. rewrite E6. destruct Ed as [-> | ->]; reflexivity.
  - unfold sel_sector. rewrite H3, H4, H5, E6, E16.
    change 0xff with (Z.ones 8). rewrite !Z.land_ones, Z.shiftr_div_pow2 by lia.
    assert (Z.land (0xe0 + 16 * b_dev bf) 0x0f = 0) as -> by (destruct Ed as [-> | ->]; reflexivity).
    rewrite Z.mod_0_l by lia. Z.div_mod_to_equations. lia.
Qed.

Lemma sectors : BSIZE / SECTOR_SIZE = 1. Proof. reflexivity. Qed.

(** The register writes of [idestart]: the channel stays ready, and the registers select the block
    with the interrupt on. *)
Lemma registers_run bf d0 : request_ok (two D) bf = true -> polls d0 = O -> transf d0 = NoTransfer ->
  let d1 := outb 0x3f6 0 d0 in let d2 := outb 0x1f2 1 d1 in let d3 := outb 0x1f3 (Z.land (b_blockno bf) 0xff) d2 in
  let d4 := outb 0x1f4 (Z.land (Z.shiftr (b_blockno bf) 8) 0xff) d3 in
  let d5 := outb 0x1f5 (Z.land (Z.shiftr (b_blockno bf) 16) 0xff) d4 in
  let d6 := outb 0x1f6 (Z.lor (Z.lor 0xe0 (Z.shiftl (Z.land (b_dev bf) 1) 4)) (Z.land (Z.shiftr (b_blockno bf) 24) 0x0f)) d5 in
  same d0 d6 /\ polls d6 = O /\ transf d6 = NoTransfer /\ reg d6 0x1f2 = 1 /\ intr_on (reg d6) = true /\
  sel_drive (reg d6) = drive bf /\ sel_sector (reg d6) = b_blockno bf.
Proof using All.
  intros Hok P0 T0 d1 d2 d3 d4 d5 d6.
  destruct (ata_register d0 0x3f6 0) as (G1 & N1 & S1 & P1); [unfold command_reg; set_solver|done..|]. fold d1 in G1, N1, S1, P1.
  assert (T1 : transf d1 = NoTransfer) by (rewrite (proj1 (proj2 S1)); done).
  destruct (ata_register d1 0x1f2 1) as (G2 & N2 & S2 & P2); [unfold command_reg; set_solver|done..|]. fold d2 in G2, N2, S2, P2.
  assert (T2 : transf d2 = NoTransfer) by (rewrite (proj1 (proj2 S2)); done).
  destruct (ata_register d2 0x1f3 (Z.land (b_blockno bf) 0xff)) as (G3 & N3 & S3 & P3); [unfold command_reg; set_solver|done..|]. fold d3 in G3, N3, S3, P3.
  assert (T3 : transf d3 = NoTransfer) by (rewrite (proj1 (proj2 S3)); done).
  destruct (ata_register d3 0x1f4 (Z.land (Z.shiftr (b_blockno bf) 8) 0xff)) as (G4 & N4 & S4 & P4); [unfold command_reg; set_solver|done..|]. fold d4 in G4, N4, S4, P4.
  assert (T4 : transf d4 = NoTransfer) by (rewrite (proj1 (proj2 S4)); done).
  destruct (ata_register d4 0x1f5 (Z.land (Z.shiftr (b_blockno bf) 16) 0xff)) as (G5 & N5 & S5 & P5); [unfold command_reg; set_solver|done..|]. fold d5 in G5, N5, S5, P5.
  assert (T5 : transf d5 = NoTransfer) by (rewrite (proj1 (proj2 S5)); done).
  destruct (ata_register d5 0x1f6 (Z.lor (Z.lor 0xe0 (Z.shiftl (Z.land (b_dev bf) 1) 4)) (Z.land (Z.shiftr (b_blockno bf) 24) 0x0f)))
    as (G6 & N6 & S6 & P6); [unfold command_reg; set_solver|done..|]. fold d6 in G6, N6, S6, P6.
  assert (T6 : transf d6 = NoTransfer) by (rewrite (proj1 (proj2 S6)); done).
  split; [|split_and!; try done].
  - apply (same_trans _ d1); [done|]. apply (same_trans _ d2); [done|]. apply (same_trans _ d3); [done|].
    apply (same_trans _ d4); [done|]. now apply (same_trans _ d5).
  - now rewrite N6, N5, N4, N3 by lia.
  - unfold intr_on. now rewrite N6, N5, N4, N3, N2, G1 by lia.
  - apply selects; [done|..|exact G6]; [now rewrite N6, N5, N4 by lia|now rewrite N6, N5 by lia|now rewrite N6 by lia].
  - apply selects; [done|..|exact G6]; [now rewrite N6, N5, N4 by lia|now rewrite N6, N5 by lia|now rewrite N6 by lia].
Qed.

(** The disk works on command number [i], the request of [bf], over the contents [dk]. *)
Record works (i : nat) (dk : Z -> Z -> list Z) (bf : buf) (d : D) : Prop := {
  wk_sect : sect d = stored (error D i) dk bf;
  wk_selected : selected d;
  wk_commands : commands d = S i;
  wk_due : due d = true;
  wk_write : has (b_flags bf) B_DIRTY = true -> transf d = NoTransfer;
  wk_read : has (b_flags bf) B_DIRTY = false -> err d = failed D i /\
    transf d = if failed D i then NoTransfer else FromDisk (drive bf) (b_blockno bf)
}.

Lemma request_present bf : request_ok (two D) bf = true -> present D (drive bf) = true.
Proof using All.
  unfold request_ok, present, drive. rewrite !andb_true_iff. intros [[[[_ H] _] _] _].
  apply orb_true_iff in H as [H|H]; [apply Z.eqb_eq in H as ->; done|].
  apply andb_true_iff in H as [H1 H2]. rewrite H2. apply orb_true_r.
Qed.

Lemma idestart_run b s : (b < length (bufs s))%nat -> request_ok (two D) (bufs s !!! b) = true ->
  selected (ctl s) -> transf (ctl s) = NoTransfer ->
  exists d, idestart patience (Some b) s = Ok tt (set_ctl d s) /\ works (commands (ctl s)) (sect (ctl s)) (bufs s !!! b) d.
Proof using All.
  intros Hlt Hok Hsel Hno. set (bf := bufs s !!! b) in *. pose proof Hok as Hok'. unfold request_ok in Hok'. rewrite !andb_true_iff in Hok'.
  destruct Hok' as [[[[_ Hdev] Hlo] Hhi] Hlen]. apply Nat.eqb_eq in Hlen.
  destruct (idewait_run false s Hsel) as (d0 & E0 & (S0 & T0 & _ & C0) & R0 & P0).
  destruct (registers_run bf d0 Hok P0 ltac:(congruence)) as ((S6 & _ & _ & C6) & P6 & T6 & H2 & Hin & Hdr & Hse).
  match type of P6 with polls ?x = _ => set (d6 := x) in * end.
  assert (Hpr : present D (sel_drive (reg d6)) = true) by (rewrite Hdr; now apply request_present).
  assert (Hrun : idestart patience (Some b) s =
    (if has (b_flags bf) B_DIRTY then wr 0x1f7 IDE_CMD_WRITE ;; wr_data 0x1f0 (b_data bf) (BSIZE / 4) else wr 0x1f7 IDE_CMD_READ)
      (set_ctl d6 s)).
  { unfold idestart, bufat. rewrite bind_gets. cbn beta. fold bf. rewrite (proj2 (Z.leb_gt _ _)) by lia.
    rewrite sectors, Z.mul_1_r. change (7 <? 1) with false. change (1 =? 1) with true. cbv iota. mok E0. reflexivity. }
  assert (Ec : commands d6 = commands (ctl s)) by congruence. assert (Es : sect d6 = sect (ctl s)) by congruence.
  rewrite <- Ec, <- Es. destruct (has (b_flags bf) B_DIRTY) eqn:Hd.
  - destruct (ata_write d6 P6 T6 H2 Hpr) as (S7 & R7 & C7 & T7). pose proof (prompt_drq d6 P6 T6) as Q7.
    set (d7 := outb 0x1f7 IDE_CMD_WRITE d6) in *. rewrite Hdr, Hse in T7.
    destruct (ata_outsl d7 _ _ _ (b_data bf) Q7 T7 C7 Hlen) as (T8 & S8 & R8 & C8 & U8). exists (outsl 0x1f0 (b_data bf) (BSIZE / 4) d7).
    split; [rewrite Hrun; reflexivity|]. split; try (unfold selected; congruence). unfold stored. now rewrite Hd, S8, S7.
  - destruct (ata_read d6 P6 T6 H2 Hpr) as (S7 & R7 & C7 & E7 & T7 & U7). rewrite Hdr, Hse in T7. exists (outb 0x1f7 IDE_CMD_READ d6).
    split; [rewrite Hrun; reflexivity|]. split; try (unfold selected; congruence); [unfold stored; now rewrite Hd, S7|done].
Qed.

(** ** Simulation *)

(** The disk is idle after [i] commands, with the contents [dk]. *)
Record rests (i : nat) (dk : Z -> Z -> list Z) (d : D) : Prop := {
  rs_sect : sect d = dk;
  rs_selected : selected d;
  rs_commands : commands d = i;
  rs_transf : transf d = NoTransfer
}.

Record sim (x : system D) (a : device) : Prop := {
  sim_bufs : bufs (drv x) = d_bufs a;
  sim_lock : idelock (drv x) = false;
  sim_two : havedisk1 (drv x) = two D;
  sim_chain : chain (qnext (drv x)) (idequeue (drv x)) (d_queue a);
  sim_nodup : NoDup (d_queue a ++ d_done a);
  sim_reqs : forall b, b ∈ d_queue a -> exists bf, d_bufs a !! b = Some bf /\ request_ok (two D) bf = true;
  sim_done : forall b, b ∈ d_done a -> b ∈ woken (drv x) /\ exists bf, d_bufs a !! b = Some bf /\ is_served bf;
  sim_pool : forall b, b ∈ d_queue a ++ d_done a -> exists k n, pool x !! b = Some k /\ forall s, k s = resumed n b s;
  sim_disk : match d_queue a with
             | [] => rests (d_count a) (d_disk a) (ctl (drv x))
             | b :: _ => works (d_count a) (d_disk a) (d_bufs a !!! b) (ctl (drv x))
             end
}.

(** A process changes a buffer that is not the driver's. *)
Lemma sim_change x a b bf : sim x a -> busy_with a b = false ->
  sim (mkSystem (set_bufs (<[b := bf]> (bufs (drv x))) (drv x)) (pool x))
    (mkDevice (<[b := bf]> (d_bufs a)) (d_queue a) (d_done a) (d_count a) (d_disk a)).
Proof using All.
  intros [H1 H2 H3 H4 H5 H6 H7 H8 H9] Hb. apply busy_false in Hb.
  assert (Hne : forall c, c ∈ d_queue a ++ d_done a -> <[b := bf]> (d_bufs a) !! c = d_bufs a !! c).
  { intros c Hc. apply list_lookup_insert_ne. set_solver. }
  split; cbn [drv pool d_bufs d_queue d_done d_count d_disk bufs set_bufs idelock havedisk1 qnext idequeue woken ctl]; try done.
  - now rewrite H1.
  - intros c Hc. rewrite Hne by set_solver. now apply H6.
  - intros c Hc. rewrite Hne by set_solver. now apply H7.
  - destruct (d_queue a) as [|h q] eqn:Eq; [done|]. rewrite list_lookup_total_insert_ne by set_solver. done.
Qed.

Lemma sim_resume x a b : sim x a -> b ∈ d_done a ->
  exists k, pool x !! b = Some k /\ b ∈ woken (drv x) /\ k (drv x) = Ok tt (drv x) /\
    sim (mkSystem (drv x) (delete b (pool x)))
      (mkDevice (d_bufs a) (d_queue a) (filter (fun y => y <> b) (d_done a)) (d_count a) (d_disk a)).
Proof using All.
  intros Hsim Hb. pose proof Hsim as [H1 H2 H3 H4 H5 H6 H7 H8 H9]. destruct (H7 b Hb) as [Hw (bf & Hbf & Hs)].
  destruct (H8 b ltac:(set_solver)) as (k & n & Hk & Ek). exists k. split_and!; try done.
  { rewrite Ek. apply (resumed_run n b (drv x) bf); try done. now rewrite H1. }
  assert (Hsub : forall c, c ∈ filter (fun y => y <> b) (d_done a) -> c ∈ d_done a /\ c <> b).
  { intros c Hc. apply list_elem_of_filter in Hc. tauto. }
  apply NoDup_app in H5 as (N1 & N2 & N3).
  split; cbn [drv pool d_bufs d_queue d_done d_count d_disk]; try done.
  - apply NoDup_app. split; [done|]. split; [|now apply NoDup_filter]. intros c Hc Hc'. apply Hsub in Hc'. apply (N2 c); tauto.
  - intros c Hc. apply H7. now apply Hsub.
  - intros c Hc. assert (Hc' : c ∈ d_queue a ++ d_done a /\ c <> b).
    { apply elem_of_app in Hc as [Hc|Hc]; [split; [set_solver|]|apply Hsub in Hc; set_solver].
      intros ->. apply (N2 b); done. }
    rewrite lookup_delete_ne by (intros ->; tauto). apply H8. tauto.
Qed.

(** The part of [iderw] before the wait. *)
Lemma iderw_enter x a n b bf : sim x a -> d_bufs a !! b = Some bf -> request_ok (two D) bf = true ->
  busy_with a b = false ->
  exists nx q d, let s4 := mkIde (bufs (drv x)) nx q true (havedisk1 (drv x)) (irq (drv x)) d (woken (drv x)) in
    iderw patience n b (drv x) = bind (iderw_wait n b) (fun _ => unlock) s4 /\
    chain nx q (d_queue a ++ [b]) /\
    (d_queue a <> [] -> d = ctl (drv x)) /\
    (d_queue a = [] -> works (d_count a) (d_disk a) bf d).
Proof using All.
  intros [H1 H2 H3 H4 H5 H6 H7 H8 H9] Hb Hok Hbusy. apply busy_false in Hbusy.
  destruct (request_facts (two D) bf Hok) as (F1 & F2 & F3). set (s := drv x) in *.
  assert (Hbs : bufs s !!! b = bf) by (rewrite H1; now apply list_lookup_total_correct).
  set (s2 := set_qnext b None (set_idelock true s)).
  assert (Hnd : NoDup (d_queue a)) by now apply NoDup_app in H5 as (H5 & _).
  destruct (append_run (length (bufs s)) b (d_queue a) s2) as (nx & q & E & C & Q1 & Q2).
  { unfold s2. cbn. apply (chain_frame (qnext s)); [|exact H4]. intros c Hc. rewrite decide_False by set_solver. done. }
  { done. } { set_solver. } { unfold s2. cbn. now rewrite decide_True. }
  { rewrite H1. apply (queue_fits (d_queue a)); [done|]. intros c Hc. destruct (H6 c Hc) as (bc & Hc' & _). now exists bc. }
  set (s3 := mkIde (bufs s2) nx q _ _ _ _ _) in E.
  assert (Hrun : iderw patience n b s = bind (if bool_decide (q = Some b) then idestart patience (Some b) else ret tt)
    (fun _ => bind (iderw_wait n b) (fun _ => unlock)) s3).
  { unfold iderw, bufat. rewrite bind_gets. cbn beta. rewrite Hbs, F1. rewrite (proj2 (Z.eqb_neq _ _)) by exact F2.
    cbn [negb]. rewrite bind_gets. cbn beta. rewrite H3, F3. mok (lock_run s H2). rewrite bind_modify, bind_gets. cbn beta.
    change (length (bufs (set_qnext b None (set_idelock true s)))) with (length (bufs s)). mok E. rewrite bind_gets. reflexivity. }
  destruct (d_queue a) as [|h l] eqn:Eq.
  - rewrite bool_decide_eq_true_2 in Hrun by now apply Q2.
    destruct H9 as [D1 D2 D3 D4]. destruct (idestart_run b s3) as (d & E4 & W4).
    { cbn. rewrite H1. now apply lookup_lt_Some in Hb. } { cbn. now rewrite Hbs. } { exact D2. } { exact D4. }
    cbn [s3 s2 bufs set_qnext set_idelock ctl] in W4. rewrite Hbs, D1, D3 in W4.
    exists nx, q, d. split; [rewrite Hrun; mok E4; reflexivity|]. split_and!; try done.
  - assert (Hq : q = Some h). { rewrite Q1 by done. cbn. exact (proj1 H4). }
    rewrite bool_decide_eq_false_2 in Hrun by (rewrite Hq; intros [= ->]; set_solver).
    exists nx, q, (ctl s). split; [rewrite Hrun; reflexivity|]. split_and!; done.
Qed.

Lemma sim_request x a n b bf : sim x a -> d_bufs a !! b = Some bf -> request_ok (two D) bf = true ->
  busy_with a b = false ->
  exists s' k, iderw patience (S n) b (drv x) = Blocked b s' k /\
    sim (mkSystem s' (<[b := k]> (pool x))) (mkDevice (d_bufs a) (d_queue a ++ [b]) (d_done a) (d_count a) (d_disk a)).
Proof using All.
  intros Hsim Hb Hok Hbusy. destruct (iderw_enter x a (S n) b bf Hsim Hb Hok Hbusy) as (nx & q & d & E & C & Dq & Dn).
  cbv zeta in E. destruct Hsim as [H1 H2 H3 H4 H5 H6 H7 H8 H9]. apply busy_false in Hbusy.
  destruct (request_facts (two D) bf Hok) as (_ & F2 & _). set (s4 := mkIde _ _ _ _ _ _ _ _) in E.
  destruct (wait_sleeps n b s4 bf) as (k & Ek & Hk); [cbn; now rewrite H1|done|done|].
  exists (set_woken (filter (fun y => y <> b) (woken s4)) (set_idelock false s4)), k. split; [now rewrite E|].
  split; cbn [drv pool d_bufs d_queue d_done d_count d_disk bufs set_woken set_idelock idelock havedisk1 qnext idequeue woken ctl s4]; try done.
  - rewrite <- app_assoc. apply NoDup_app. apply NoDup_app in H5 as (N1 & N2 & N3). split; [done|]. split; [set_solver|].
    cbn. apply NoDup_cons. split; [set_solver|done].
  - intros c Hc. apply elem_of_app in Hc as [Hc|Hc]; [now apply H6|]. apply list_elem_of_singleton in Hc as ->. now exists bf.
  - intros c Hc. destruct (H7 c Hc) as [Hw Hs]. split; [|done]. apply list_elem_of_filter. split; [set_solver|done].
  - intros c Hc. destruct (decide (c = b)) as [->|Hne]; [exists k, n; split; [apply lookup_insert_eq|done]|].
    rewrite lookup_insert_ne by done. apply H8. set_solver.
  - destruct (d_queue a) as [|h l] eqn:Eq; cbn [app].
    + rewrite (list_lookup_total_correct _ _ _ Hb). exact (Dn eq_refl).
    + rewrite (Dq ltac:(done)). exact H9.
Qed.

(** ** The interrupt *)

(** The buffer after the transfer of a read. *)
Definition loaded (e : option (list Z)) (dk : Z -> Z -> list Z) (bf : buf) : buf :=
  match e with None => set_b_data (dk (drive bf) (b_blockno bf)) bf | Some _ => bf end.

(** A read takes the data when the disk has any, and none when it reports an error. *)
Lemma read_data i dk b bf s : bufs s !! b = Some bf -> has (b_flags bf) B_DIRTY = false -> works i dk bf (ctl s) ->
  exists d, rests (S i) (stored (error D i) dk bf) d /\
    (r <- idewait patience true ;;
     if 0 <=? r then l <- rd_data 0x1f0 (BSIZE / 4) ;; setbuf b (set_b_data l) else ret tt) s =
    Ok tt (set_bufs (<[b := loaded (error D i) dk bf]> (bufs s)) (set_ctl d s)).
Proof using All.
  intros Hb Hd [W1 W2 W3 W4 _ W6]. destruct (W6 Hd) as [We Wt]. destruct (idewait_run true s W2) as (d0 & E0 & (S0 & T0 & Er & C0) & R0 & P0).
  rewrite We in E0, Er. rewrite Wt in T0. unfold failed in *. destruct (error D i) as [l|] eqn:Ee; cbn [loaded].
  - rewrite (bool_decide_true (is_Some (Some l))) in * by done. exists d0. split; [split; try congruence; unfold selected; congruence|]. mok E0.
    change (0 <=? -1) with false. cbv iota. unfold set_bufs, set_ctl. cbn [bufs qnext idequeue idelock havedisk1 irq ctl woken].
    rewrite list_insert_id by done. reflexivity.
  - rewrite (bool_decide_false (is_Some None)) in * by (intros [? [=]]).
    destruct (ata_insl d0 _ _ P0 T0 Er) as (d & E1 & T1 & S1 & R1 & C1). exists d.
    split; [split; try congruence; unfold selected; congruence|]. mok E0. change (0 <=? 0) with true. cbv iota.
    assert (Ed : rd_data 0x1f0 (BSIZE / 4) (set_ctl d0 s) = Ok (dk (drive bf) (b_blockno bf)) (set_ctl d s)).
    { unfold rd_data. cbn [ctl set_ctl]. rewrite E1, S0, W1. unfold stored. now rewrite Hd. }
    mok Ed. unfold setbuf, modify. f_equal. unfold set_bufs, set_ctl. cbn [bufs qnext idequeue idelock havedisk1 irq ctl woken].
    now rewrite (alter_at _ _ _ _ Hb).
Qed.

(** Reading the data of the head of the queue, and marking it served. *)
Lemma serve_buffer i dk b bf s : bufs s !! b = Some bf -> works i dk bf (ctl s) ->
  exists d, rests (S i) (stored (error D i) dk bf) d /\ forall (K : unit -> I D unit),
    bind (if has (b_flags bf) B_DIRTY then ret tt
          else r <- idewait patience true ;;
               if 0 <=? r then l <- rd_data 0x1f0 (BSIZE / 4) ;; setbuf b (set_b_data l) else ret tt)
      (fun _ => setbuf b (fun bf => set_b_flags (Z.lor (b_flags bf) B_VALID) bf) ;;
                setbuf b (fun bf => set_b_flags (Z.ldiff (b_flags bf) B_DIRTY) bf) ;; K tt) s =
      K tt (set_bufs (alter (served (error D i) dk) b (bufs s)) (set_ctl d s)).
Proof using All.
  intros Hb W. destruct (has (b_flags bf) B_DIRTY) eqn:Hd.
  - exists (ctl s). split; [split; try apply W; done|]. intros K. rewrite bind_ret. unfold setbuf. rewrite !bind_modify.
    f_equal. unfold set_bufs, set_ctl. cbn [bufs qnext idequeue idelock havedisk1 irq ctl woken]. unfold served.
    rewrite !(alter_at _ _ _ _ Hb). erewrite (alter_at _ (<[b := _]> _)) by (apply list_lookup_insert_eq; now apply lookup_lt_Some in Hb).
    rewrite list_insert_insert_eq, Hd. reflexivity.
  - destruct (read_data i dk b bf s Hb Hd W) as (d & Hr & E). exists d. split; [exact Hr|]. intros K. mok E. clear E.
    unfold setbuf. rewrite !bind_modify. f_equal. unfold set_bufs, set_ctl. cbn [bufs qnext idequeue idelock havedisk1 irq ctl woken].
    pose proof (lookup_lt_Some _ _ _ Hb) as Hlt. rewrite !(alter_at _ _ _ _ Hb).
    erewrite (alter_at _ (<[b := loaded _ _ _]> _)) by now apply list_lookup_insert_eq. rewrite list_insert_insert_eq.
    erewrite (alter_at _ (<[b := _]> _)) by now apply list_lookup_insert_eq. rewrite list_insert_insert_eq.
    unfold served, loaded. now rewrite Hd.
Qed.

(** The next request is started. *)
Lemma start_next i q s : rests i (sect (ctl s)) (ctl s) ->
  chain (qnext s) (idequeue s) q -> (forall c, c ∈ q -> exists bf, bufs s !! c = Some bf /\ request_ok (two D) bf = true) ->
  exists d, (match idequeue s with Some _ => idestart patience (idequeue s) | None => ret tt end) s = Ok tt (set_ctl d s) /\
    match q with
    | [] => rests i (sect (ctl s)) d
    | c :: _ => works i (sect (ctl s)) (bufs s !!! c) d
    end.
Proof using All.
  intros R Hc Hq. destruct q as [|c q].
  - cbn [chain] in Hc. rewrite Hc. exists (ctl s). split; [|done]. now destruct s.
  - destruct Hc as [Hc _]. rewrite Hc. destruct (Hq c ltac:(set_solver)) as (bf & Hb & Hok). destruct R as [_ R2 R3 R4].
    destruct (idestart_run c s) as (d & E & W); [now apply lookup_lt_Some in Hb|now rewrite (list_lookup_total_correct _ _ _ Hb)|done|done|].
    exists d. split; [done|]. now rewrite R3 in W.
Qed.

Lemma sim_interrupt x a : sim x a ->
  exists s', ideintr patience (drv x) = Ok tt s' /\ sim (mkSystem s' (pool x)) (serve (error D) a).
Proof using All.
  intros Hsim. pose proof Hsim as [H1 H2 H3 H4 H5 H6 H7 H8 H9]. set (s := drv x) in *. unfold ideintr, serve.
  destruct (d_queue a) as [|b q] eqn:Eq.
  - exists s. split; [|unfold s; now destruct x]. mok (lock_run s H2). rewrite bind_gets. cbn beta.
    cbn [chain] in H4. change (idequeue (set_idelock true s)) with (idequeue s). rewrite H4, unlock_run by done.
    destruct s. cbn in H2. subst. reflexivity.
  - destruct (H6 b ltac:(set_solver)) as (bf & Hb & Hok). destruct H4 as [Hq H4].
    rewrite (list_lookup_total_correct _ _ _ Hb) in *. set (e := error D (d_count a)).
    set (s2 := set_queue (qnext s b) (set_idelock true s)).
    destruct (serve_buffer (d_count a) (d_disk a) b bf s2) as (d & Rd & E); [cbn; now rewrite H1|done|]. fold e in Rd, E.
    set (s4 := set_woken (b :: woken s) (set_bufs (alter (served e (d_disk a)) b (bufs s)) (set_ctl d s2))).
    assert (Hne : forall c, c ∈ q ++ d_done a -> c <> b) by (intros c Hc ->; apply NoDup_cons in H5; tauto).
    assert (Hsame : forall c, c ∈ q ++ d_done a -> alter (served e (d_disk a)) b (d_bufs a) !! c = d_bufs a !! c).
    { intros c Hc. apply list_lookup_alter_ne. intros ->. now apply (Hne c). }
    destruct (start_next (S (d_count a)) q s4) as (d5 & E5 & S5).
    { destruct Rd as [D1 D2 D3 D4]. now split. } { exact H4. } { intros c Hc. cbn. rewrite H1, Hsame by set_solver. apply H6. set_solver. }
    exists (set_idelock false (set_ctl d5 s4)). split.
    { mok (lock_run s H2). rewrite bind_gets. cbn beta. change (idequeue (set_idelock true s)) with (idequeue s). rewrite Hq.
      rewrite bind_gets, bind_modify. cbn beta. change (qnext (set_idelock true s) b) with (qnext s b). fold s2.
      unfold bufat. rewrite bind_gets. cbn beta. change (bufs s2) with (bufs s). rewrite H1, (list_lookup_total_correct _ _ _ Hb).
      etransitivity; [apply (E (fun _ => wake b ;; q <- gets idequeue ;;
        (match q with Some _ => idestart patience q | None => ret tt end) ;; unlock))|].
      unfold wake. rewrite bind_modify, bind_gets. cbn beta. fold s4.
      change (set_woken _ _) with s4. mok E5. now rewrite unlock_run. }
    clear E. destruct Rd as [D1 _ _ _].
    split; cbn [drv pool d_bufs d_queue d_done d_count d_disk bufs set_woken set_idelock set_ctl set_bufs idelock havedisk1 qnext idequeue woken ctl s4 s2 set_queue] in *; try done.
    + now rewrite H1.
    + now rewrite <- Permutation_middle.
    + intros c Hc. rewrite Hsame by set_solver. apply H6. set_solver.
    + intros c Hc. apply elem_of_cons in Hc as [->|Hc].
      * split; [set_solver|]. exists (served e (d_disk a) bf). split; [|apply served_is_served].
        rewrite list_lookup_alter_eq, Hb. done.
      * rewrite Hsame by set_solver. destruct (H7 c Hc) as [Hw Hx]. split; [set_solver|done].
    + intros c Hc. apply H8. set_solver.
    + rewrite D1 in S5. destruct q as [|c q]; [exact S5|]. now rewrite H1 in S5.
Qed.

(** ** Start-up *)

(** The probe finds disk 1 when it is there, and only then. *)
Lemma probe_run n : forall s, polls (ctl s) = O -> sel_drive (reg (ctl s)) = 1 -> transf (ctl s) = NoTransfer ->
  exists d, probe (S n) s = Ok tt (set_havedisk1 (two D || havedisk1 s) (set_ctl d s)) /\
  same (ctl s) d /\ polls d = O.
Proof using All.
  induction n as [|n IH]; intros s Hp Hr Ht; cbn [probe];
    destruct (ata_status (ctl s)) as (r & d & E & S1 & S2 & S3 & S4); rewrite Hr, ?Hp in S3, S4; change (present D 1) with (two D) in S3, S4;
    assert (Er : rd 0x1f7 s = Ok r (set_ctl d s)) by (unfold rd; now rewrite E); mok Er; destruct (two D) eqn:E2.
  1, 3: destruct S4 as (S4 & _ & S5); [done|]; rewrite (proj2 (Z.eqb_neq r 0)) by (intros ->; discriminate S4);
    exists d; done.
  all: destruct S3 as [-> S5]; [done|]; change (0 =? 0) with true; cbv iota.
  - exists d. split; [|done]. now destruct s.
  - destruct (IH (set_ctl d s)) as (d' & E' & H1 & H2); [done|cbn; now rewrite S2|destruct S1 as (_ & S1 & _); cbn; congruence|].
    exists d'. cbn [ctl set_ctl] in *. cbn [probe] in E'. rewrite E'. split_and!; [done| |done]. now apply (same_trans _ d).
Qed.

(** The state the driver starts from: its variables are zero, and the boot loader has left drive 0
    selected with no transfer open. *)
Record powered (s : ide D) : Prop := {
  pw_queue : idequeue s = None;
  pw_two : havedisk1 s = false;
  pw_drive : sel_drive (reg (ctl s)) = 0;
  pw_transf : transf (ctl s) = NoTransfer;
  pw_commands : commands (ctl s) = O
}.

Lemma ideinit_run s : powered s -> exists s', ideinit patience s = Ok tt s' /\ irq s' = true /\ havedisk1 s' = two D /\
  forall bs, bs = bufs s -> sim (mkSystem s' ∅) (mkDevice bs [] [] 0 (sect (ctl s))).
Proof using All.
  intros [Hq H2 Hd Ht Hc]. set (s1 := set_irq (set_idelock false s)).
  destruct (idewait_run false s1) as (d0 & E0 & A0 & R0 & P0); [unfold selected; cbn; now rewrite Hd|].
  assert (Hr : command_reg 0x1f6) by (unfold command_reg; set_solver).
  assert (T0 : transf d0 = NoTransfer) by (destruct A0 as (_ & A0 & _); cbn in A0; congruence).
  destruct (ata_register d0 0x1f6 (Z.lor 0xe0 (Z.shiftl 1 4)) Hr P0 T0) as (G2 & _ & A2 & P2). set (d2 := outb 0x1f6 _ d0) in *.
  assert (T2 : transf d2 = NoTransfer) by (destruct A2 as (_ & A2 & _); congruence).
  destruct (probe_run 999 (set_ctl d2 s1) P2) as (d3 & E3 & A3 & P3); [unfold sel_drive; cbn; now rewrite G2|done|]. cbn [ctl set_ctl] in A3.
  assert (T3 : transf d3 = NoTransfer) by (destruct A3 as (_ & A3 & _); congruence).
  destruct (ata_register d3 0x1f6 (Z.lor 0xe0 (Z.shiftl 0 4)) Hr P3 T3) as (G4 & _ & A4 & _). set (d4 := outb 0x1f6 _ d3) in *.
  assert (A : same (ctl s) d4) by (apply (same_trans _ d0); [exact A0|]; apply (same_trans _ d2); [done|]; now apply (same_trans _ d3)).
  assert (Hh : havedisk1 (set_ctl d2 s1) = false) by exact H2. rewrite Hh, orb_false_r in E3.
  exists (set_ctl d4 (set_havedisk1 (two D) (set_ctl d3 (set_ctl d2 s1)))). split; [|split; [done|split; [done|]]].
  - unfold ideinit. rewrite !bind_modify. fold s1. mok E0. unfold wr. rewrite bind_modify. cbn beta.
    change (set_ctl (outb 0x1f6 _ (ctl (set_ctl d0 s1))) (set_ctl d0 s1)) with (set_ctl d2 s1).
    change 1000%nat with (S 999). mok E3. reflexivity.
  - intros bs ->. clear E0 E3. destruct A as (A5 & A6 & _ & A7).
    split; cbn [drv pool d_bufs d_queue d_done d_count d_disk bufs set_ctl set_havedisk1 idelock havedisk1 qnext idequeue woken ctl s1 set_irq set_idelock chain app]; try done.
    + constructor.
    + intros b Hb. destruct (not_elem_of_nil b Hb).
    + intros b Hb. destruct (not_elem_of_nil b Hb).
    + intros b Hb. destruct (not_elem_of_nil b Hb).
    + split; try congruence. unfold selected, sel_drive. now rewrite G4.
Qed.

(** ** Runs *)

Fixpoint device_run (errs : nat -> option (list Z)) (two : bool) (a : device) (es : list event) : option device :=
  match es with
  | [] => Some a
  | e :: es' => match device_step errs two a e with Some a' => device_run errs two a' es' | None => None end
  end.

Fixpoint system_run (sleeps : nat) (x : system D) (es : list event) : option (system D) :=
  match es with
  | [] => Some x
  | e :: es' => match system_step sleeps x e with Some x' => system_run sleeps x' es' | None => None end
  end.

Lemma step_simulates n x a e a' : sim x a -> device_step (error D) (two D) a e = Some a' ->
  exists x', system_step (S n) x e = Some x' /\ sim x' a'.
Proof using All.
  intros Hs E. destruct e as [b| |b|b bf]; cbn [device_step system_step] in *.
  - destruct (d_bufs a !! b) as [bf|] eqn:Eb; [|done]. destruct (request_ok (two D) bf) eqn:Er; [|done].
    destruct (busy_with a b) eqn:Ebu; [done|]. injection E as <-.
    destruct (sim_request x a n b bf Hs Eb Er Ebu) as (s' & k & Ei & Hs'). rewrite Ei. eauto.
  - injection E as <-. destruct (sim_interrupt x a Hs) as (s' & Ei & Hs'). rewrite Ei. eauto.
  - case_bool_decide as Hb; [|done]. injection E as <-.
    destruct (sim_resume x a b Hs Hb) as (k & Ek & Hw & Er & Hs'). rewrite bool_decide_eq_true_2 by done.
    rewrite Ek, Er. eauto.
  - destruct (busy_with a b) eqn:Eb; [done|]. injection E as <-. eexists. split; [reflexivity|]. now apply sim_change.
Qed.

Lemma run_simulates n es : forall x a a', sim x a -> device_run (error D) (two D) a es = Some a' ->
  exists x', system_run (S n) x es = Some x' /\ sim x' a'.
Proof using All.
  induction es as [|e es IH]; intros x a a' Hs E; cbn [device_run system_run] in *; [injection E as <-; eauto|].
  destruct (device_step (error D) (two D) a e) as [a1|] eqn:E1; [|done].
  destruct (step_simulates n x a e a1 Hs E1) as (x1 & Ex & Hs1). rewrite Ex. eauto.
Qed.

(** Without disk 1 a request for it stops the kernel. *)
Lemma no_disk1 x a b bf n : sim x a -> two D = false -> d_bufs a !! b = Some bf -> has (b_flags bf) B_BUSY = true ->
  ~ is_served bf -> b_dev bf <> 0 -> iderw patience n b (drv x) = Panic "iderw: ide disk 1 not present".
Proof using All.
  intros H H2 Hb Hf Hn Hd. unfold iderw, bufat. rewrite bind_gets. cbn beta.
  rewrite (sim_bufs _ _ H), (list_lookup_total_correct _ _ _ Hb), Hf. cbn [negb].
  rewrite (proj2 (Z.eqb_neq _ _)) by exact Hn. rewrite bind_gets. cbn beta.
  rewrite (sim_two _ _ H), H2, (proj2 (Z.eqb_neq _ _)) by exact Hd. reflexivity.
Qed.

End Run.

(** The memory disk serves a request in the same way. *)
Lemma memide_serves b bf k : bcache k !! b = Some bf -> request_ok true bf = true -> b_dev bf = 1 ->
  b_blockno bf < Z.of_nat (length (memdisk k)) ->
  exists k', Bio.iderw b k = Ok tt k' /\
    bcache k' = alter (served None (fun _ n => memdisk k !!! Z.to_nat n)) b (bcache k) /\
    forall n, 0 <= n < Z.of_nat (length (memdisk k)) ->
      memdisk k' !!! Z.to_nat n = stored None (fun _ n => memdisk k !!! Z.to_nat n) bf 1 n.
Proof.
  intros Hb Hok Hd Hn. destruct (request_facts true bf Hok) as (F1 & F2 & _).
  assert (H0 : 0 <= b_blockno bf) by (unfold request_ok in Hok; lia).
  assert (Hlt := lookup_lt_Some _ _ _ Hb).
  unfold Bio.iderw, getbuf. rewrite bind_gets. cbn beta. rewrite (list_lookup_total_correct _ _ _ Hb), F1.
  rewrite (proj2 (Z.eqb_neq _ _)) by exact F2. rewrite Hd. cbn [negb]. change (1 =? 1) with true. cbn [negb].
  rewrite bind_gets. cbn beta. rewrite (proj2 (Z.leb_gt _ _)) by lia. unfold served, stored, put_sect, drive. cbn [default]. rewrite Hd.
  change (Z.land 1 1) with 1. destruct (has (b_flags bf) B_DIRTY) eqn:Ed.
  - eexists. split; [reflexivity|]. cbn [bcache memdisk set_bcache set_memdisk set_diskwrites updbuf modify]. split.
    + rewrite !(alter_at _ _ _ _ Hb). erewrite (alter_at _ (<[b := _]> _)) by now apply list_lookup_insert_eq.
      rewrite list_insert_insert_eq, Ed. f_equal. unfold set_b_flags. cbn [b_flags]. f_equal.
      bitwise m Hm. rewrite Z.lor_spec, !Z.ldiff_spec, Z.lor_spec. unfold B_VALID, B_DIRTY. change 2 with (2 ^ 1). change 4 with (2 ^ 2).
      rewrite !Z.pow2_bits_eqb by lia. destruct (Z.eqb_spec 1 m), (Z.eqb_spec 2 m), (Z.testbit (b_flags bf) m); cbn; lia || done.
    + intros n Hn'. unfold upd_sect. case_decide as E; [destruct E as [_ ->]; now rewrite list_lookup_total_insert_eq by lia|].
      rewrite list_lookup_total_insert_ne by lia. done.
  - eexists. split; [reflexivity|]. cbn [bcache memdisk set_bcache updbuf modify]. split; [|done].
    rewrite !(alter_at _ _ _ _ Hb). erewrite (alter_at _ (<[b := _]> _)) by now apply list_lookup_insert_eq.
    rewrite list_insert_insert_eq, Ed. f_equal. unfold set_b_flags. cbn [b_flags set_b_data b_dev b_blockno b_prev b_next b_data]. f_equal.
    bitwise m Hm. rewrite Z.ldiff_spec, Z.lor_spec. unfold B_VALID, B_DIRTY in *. change 2 with (2 ^ 1). change 4 with (2 ^ 2) in *.
    rewrite has_pow2 in Ed by lia. rewrite !Z.pow2_bits_eqb by lia.
    destruct (Z.eqb_spec 1 m), (Z.eqb_spec 2 m), (Z.testbit (b_flags bf) m) eqn:Et; cbn; subst; lia || congruence || done.
Qed.

(** ** Example disks *)

(** What kind of disk: whether drive 1 is there, which commands fail, and whether the disk is slow to
    take the data of a write. *)
Record model : Type := mkModel { m_two : bool; m_error : nat -> option (list Z); m_slow : bool }.

(** It is busy for one poll of the status register after every command. *)
Record toy (m : model) : Type := mkToy {
  t_sect : Z -> Z -> list Z; t_reg : Z -> Z; t_tr : transfer; t_err : bool; t_n : nat; t_busy : bool; t_drq : bool
}.
#[global] Arguments mkToy {m}.
#[global] Arguments t_sect {m}.
#[global] Arguments t_reg {m}.
#[global] Arguments t_tr {m}.
#[global] Arguments t_err {m}.
#[global] Arguments t_n {m}.
#[global] Arguments t_busy {m}.
#[global] Arguments t_drq {m}.

Section Toy.
Context {m : model}.
Implicit Types d : toy m.

Definition toy_fails d : bool := bool_decide (is_Some (m_error m (t_n d))).

Definition toy_there d : bool := (sel_drive (t_reg d) =? 0) || m_two m.

Definition toy_command (v : Z) d : toy m :=
  let dr := sel_drive (t_reg d) in let n := sel_sector (t_reg d) in
  if v =? IDE_CMD_READ then
    mkToy (t_sect d) (t_reg d) (if toy_fails d then NoTransfer else FromDisk dr n) (toy_fails d) (S (t_n d)) true false
  else if v =? IDE_CMD_WRITE then
    mkToy (t_sect d) (t_reg d) (ToDisk dr n) (toy_fails d) (S (t_n d)) true (negb (m_slow m))
  else d.

Definition toy_inb (p : Z) d : Z * toy m :=
  if negb (p =? 0x1f7) then (0, d) else if negb (toy_there d) then (0, d)
  else if t_busy d then (IDE_BSY, mkToy (t_sect d) (t_reg d) (t_tr d) (t_err d) (t_n d) false true)
  else (if t_err d then Z.lor IDE_DRDY IDE_ERR else IDE_DRDY, d).

Definition toy_outb (p v : Z) d : toy m :=
  if p =? 0x1f7 then toy_command v d
  else mkToy (t_sect d) (fun q => if q =? p then v else t_reg d q) (t_tr d) (t_err d) (t_n d) (t_busy d) (t_drq d).

Definition toy_insl (p n : Z) d : list Z * toy m :=
  match t_tr d with
  | FromDisk dr n => (t_sect d dr n, mkToy (t_sect d) (t_reg d) NoTransfer (t_err d) (t_n d) (t_busy d) false)
  | _ => ([], d)
  end.

(** Data that come too early are lost. *)
Definition toy_outsl (p : Z) (l : list Z) (n : Z) d : toy m :=
  match t_tr d with
  | ToDisk dr n =>
      if t_drq d
      then mkToy (put_sect (m_error m (pred (t_n d))) (t_sect d) dr n l) (t_reg d) NoTransfer (t_err d) (t_n d) true false
      else d
  | _ => d
  end.

#[export] Instance toy_ports : Ports (toy m) := {| inb := toy_inb; outb := toy_outb; insl := toy_insl; outsl := toy_outsl |}.

Definition toy_polls d : nat := if t_busy d then 1%nat else 0%nat.

#[export] Program Instance toy_ata : Ata (toy m) := {|
  two := m_two m; error := m_error m; patience := 2%nat;
  sect := t_sect; reg := t_reg; transf := t_tr; err := t_err; commands := t_n; polls := toy_polls; drq := t_drq;
  due := fun d => intr_on (t_reg d)
|}.
Next Obligation. intros d. unfold toy_polls. destruct (t_busy d); repeat constructor. Qed.
Next Obligation.
  intros d. cbn. unfold toy_inb. cbn [negb Z.eqb Pos.eqb]. fold (toy_there d). unfold toy_polls.
  destruct (toy_there d); cbn [negb]; [|eexists _, _; split; [reflexivity|]; split_and!; done].
  destruct (t_busy d) eqn:Eb; [|destruct (t_err d) eqn:Ee]; eexists _, _; (split; [reflexivity|]); cbn; rewrite ?Eb, ?Ee; split_and!; try done.
Qed.
Next Obligation.
  intros d p v Hp Hb Ht. cbn in *. unfold toy_outb. assert (E : (p =? 0x1f7) = false).
  { apply Z.eqb_neq. intros ->. unfold command_reg in Hp. rewrite !elem_of_cons in Hp. intuition (discriminate || set_solver). }
  rewrite E. cbn. rewrite Z.eqb_refl. split_and!; try done. intros p' Hne. now rewrite (proj2 (Z.eqb_neq _ _)).
Qed.
Next Obligation. intros d Hb Ht Hr Hp. done. Qed.
Next Obligation. intros d Hb Ht Hr Hp. done. Qed.
Next Obligation. intros d dr n Hb Ht He. cbn in *. unfold toy_insl. rewrite Ht. eexists. split; [reflexivity|done]. Qed.
Next Obligation. intros d i dr n l Hq Ht Hc Hl. cbn in *. unfold toy_outsl. rewrite Ht, Hq, Hc. done. Qed.
End Toy.

(** A disk that takes the data at once. *)
Definition quick (t : bool) (e : nat -> option (list Z)) : model := mkModel t e false.

#[export] Instance quick_prompt t e : Prompt (toy (quick t e)).
Proof. intros d Hp Ht. reflexivity. Qed.

Definition ex_bufs : list buf :=
  [mkBuf 5 1 7 0 0 (replicate 512 9); mkBuf 1 1 7 0 0 (replicate 512 0); mkBuf 1 1 8 0 0 (replicate 512 4)].
Definition ex_toy (m : model) : toy m := mkToy (fun _ _ => replicate 512 0) (fun _ => 0) NoTransfer false 0 false false.
Definition ex_ide (m : model) : ide (toy m) := mkIde ex_bufs (fun _ => None) None false false false (ex_toy m) [].

(** Buffer 0 writes block 7 of disk 1, buffer 1 reads it, and the read of block 8 into buffer 2 fails. *)
Definition ex_events : list event :=
  [Request 0; Interrupt; Request 1; Request 2; Interrupt; Resume 1; Resume 0; Interrupt; Interrupt; Resume 2].
Definition ex_model : model := quick true (fun i => if (i =? 2)%nat then Some [] else None).

Definition ex_result : list buf :=
  [mkBuf 3 1 7 0 0 (replicate 512 9); mkBuf 3 1 7 0 0 (replicate 512 9); mkBuf 3 1 8 0 0 (replicate 512 4)].

Lemma ex_run : exists a,
  device_run (m_error ex_model) true (mkDevice ex_bufs [] [] 0 (fun _ _ => replicate 512 0)) ex_events = Some a /\
  d_bufs a = ex_result /\ d_queue a = [] /\ d_disk a 1 7 = replicate 512 9.
Proof. eexists. split; [vm_compute; reflexivity|]. vm_compute. split_and!; reflexivity. Qed.


(** On a disk that is slow to take the data, as ATA allows, the first write is lost: [idestart] does
    not wait for [DRQ]. *)
Definition slow_model : model := mkModel true (fun _ => None) true.

Lemma slow_disk_loses_write : exists s1 x,
  ideinit 2 (ex_ide slow_model) = Ok tt s1 /\ system_run 1 (mkSystem s1 ∅) [Request 0; Interrupt; Resume 0] = Some x /\
  bufs (drv x) !! 0%nat = Some (mkBuf 3 1 7 0 0 (replicate 512 9)) /\ sect (ctl (drv x)) 1 7 = replicate 512 0.
Proof. eexists _, _. split; [vm_compute; reflexivity|]. split; [vm_compute; reflexivity|]. vm_compute. split; reflexivity. Qed.
