(* ===== verification/IcacheSpec.v ===== *)
(** * The inode cache (fs.c)

    The entries of the cache are well typed, an entry that is locked is in use, and
    an inode has at most one entry in use; [iget], [idup], [iunlock] and [iput] keep
    it so. *)

From S2P Require Import Prelude State Spinlock Console Sched Bio Bytes Log Inode Dinode ForkSpec.

(** The entry is in use for inode [inum] of device [dev]. *)
Definition entry_for (dev inum : Z) (n : inode) : Prop := 0 < i_ref n /\ i_dev n = dev /\ i_inum n = inum.

#[export] Instance entry_for_dec dev inum n : Decision (entry_for dev inum n).
Proof. unfold entry_for. apply _. Defined.

(** The C types of the fields, and what the flags mean. *)
Record entry_wf (n : inode) : Prop := {
  ew_fields : inode_wf n;
  ew_id : 0 <= i_dev n < 2 ^ 32 /\ 0 <= i_inum n < 2 ^ 32;
  ew_ref : 0 <= i_ref n < 2 ^ 31;
  ew_flags : 0 <= i_flags n < 4 /\ (has (i_flags n) I_BUSY = true -> 0 < i_ref n)
}.

Record icache_wf (ic : list inode) : Prop := {
  ic_len : length ic = Z.to_nat NINODE;
  ic_entry : Forall entry_wf ic;
  ic_unique : forall i j n m, ic !! i = Some n -> ic !! j = Some m ->
    0 < i_ref n -> entry_for (i_dev n) (i_inum n) m -> i = j
}.

(** ** One entry changed *)

Lemma alter_lookup {A} (f : A -> A) (l : list A) i j :
  alter f i l !! j = if decide (j = i) then f <$> l !! j else l !! j.
Proof. destruct (decide (j = i)) as [->|Hne]; [apply list_lookup_alter_eq|now apply list_lookup_alter_ne]. Qed.

Lemma icache_wf_alter ic ip n f : icache_wf ic -> ic !! ip = Some n -> entry_wf (f n) ->
  (0 < i_ref (f n) -> forall j m, j <> ip -> ic !! j = Some m -> ~ entry_for (i_dev (f n)) (i_inum (f n)) m) ->
  icache_wf (alter f ip ic).
Proof.
  intros [H1 H2 H3] Hn Hw Hu. split.
  - now rewrite length_alter.
  - apply Forall_lookup. intros j m. rewrite alter_lookup. case_decide as E; [|now apply (proj1 (Forall_lookup _ _) H2)].
    subst j. rewrite Hn. intros [= <-]. exact Hw.
  - intros i j x y. rewrite !alter_lookup. intros Hx Hy Hr He.
    destruct (decide (i = ip)) as [->|Hi], (decide (j = ip)) as [->|Hj]; try done.
    + rewrite Hn in Hx. injection Hx as <-. exfalso. exact (Hu Hr j y Hj Hy He).
    + rewrite Hn in Hy. injection Hy as <-. exfalso. destruct He as (E1 & E2 & E3). apply (Hu E1 i x Hi Hx).
      split_and!; [done|congruence|congruence].
    + exact (H3 i j x y Hx Hy Hr He).
Qed.

(** A change that keeps the identity of an entry that stays in use. *)
Lemma icache_wf_same ic ip n f : icache_wf ic -> ic !! ip = Some n -> entry_wf (f n) ->
  i_dev (f n) = i_dev n -> i_inum (f n) = i_inum n -> (0 < i_ref (f n) -> 0 < i_ref n) -> icache_wf (alter f ip ic).
Proof.
  intros Hw Hn Hf E1 E2 Hr. apply (icache_wf_alter ic ip n); try done. rewrite E1, E2. intros Hp j m Hj Hm He.
  apply Hj. symmetry. exact (ic_unique ic Hw ip j n m Hn Hm (Hr Hp) He).
Qed.

(** ** The scan of iget *)

Lemma iget_scan_spec dev inum l : forall i e,
  match iget_scan l i dev inum e with
  | (Some j, _) => exists n, (i <= j)%nat /\ l !! (j - i)%nat = Some n /\ entry_for dev inum n
  | (None, r) => Forall (fun n => ~ entry_for dev inum n) l /\
      match e with
      | Some _ => r = e
      | None => match r with
                | Some j => exists n, (i <= j)%nat /\ l !! (j - i)%nat = Some n /\ i_ref n = 0 /\
                    forall x m, (x < j - i)%nat -> l !! x = Some m -> i_ref m <> 0
                | None => Forall (fun n => i_ref n <> 0) l
                end
      end
  end.
Proof.
  induction l as [|ip l IH]; intros i e; cbn [iget_scan]; [destruct e; (split; [constructor|]; try constructor; done)|].
  destruct ((0 <? i_ref ip) && (i_dev ip =? dev) && (i_inum ip =? inum)) eqn:E.
  { exists ip. split; [lia|]. rewrite Nat.sub_diag. split; [done|]. unfold entry_for. lia. }
  assert (Hn : ~ entry_for dev inum ip) by (unfold entry_for; lia).
  set (e' := match e with Some e0 => Some e0 | None => if i_ref ip =? 0 then Some i else None end).
  specialize (IH (S i) e'). destruct (iget_scan l (S i) dev inum e') as [[j|] r].
  { destruct IH as (n & Hj & Hl & He). exists n. split; [lia|]. replace (j - i)%nat with (S (j - S i)) by lia. done. }
  destruct IH as [Hall Hr]. split; [now constructor|]. unfold e' in Hr. destruct e as [e|]; [exact Hr|].
  destruct (Z.eqb_spec (i_ref ip) 0) as [E0|E0].
  - rewrite Hr. exists ip. rewrite Nat.sub_diag. split_and!; try done. lia.
  - destruct r as [j|]; [|now constructor]. destruct Hr as (n & Hj & Hl & H0 & Hbefore). exists n.
    replace (j - i)%nat with (S (j - S i)) by lia. split; [lia|]. split_and!; try done.
    intros [|x] m Hx Hm; [now injection Hm as <-|]. apply (Hbefore x m); [lia|done].
Qed.

(** ** The operations *)

Definition no_entry (k : kernel) (dev inum : Z) : Prop := Forall (fun n => ~ entry_for dev inum n) (icache k).

Section Ops.
Context (k : kernel).
Hypothesis (Hwf : icache_wf (icache k)) (Hl : lock_free Licache k) (Hp : lock_free Lptable k) (Hc : cpu_ok (k_cpu k)).

(** A change of one entry under the lock. *)
Lemma locked_change {A} f ip (a : A) :
  (acquire Licache ;; updinode ip f ;; release Licache ;; ret a) k = Ok a (set_icache (alter f ip (icache k)) k).
Proof using Hl Hc.
  mok (acquire_free Licache k Hl). unfold updinode. mred.
  change (set_icache ?ic (held Licache k)) with (held Licache (set_icache ic k)).
  mok (release_held Licache (set_icache (alter f ip (icache k)) k) Hc Hl). done.
Qed.

Definition more_ref (n : inode) : inode := set_i_ref (s32 (i_ref n + 1)) n.
Definition less_ref (n : inode) : inode := set_i_ref (s32 (i_ref n - 1)) n.
Definition recycled (dev inum : Z) (n : inode) : inode := set_i_flags 0 (set_i_ref 1 (set_i_inum inum (set_i_dev dev n))).

(** The count can go up without leaving its type. *)
Definition countable_ref (n : inode) : Prop := i_ref n < 2 ^ 31 - 1.

Lemma more_ref_count n : 0 <= i_ref n -> countable_ref n -> i_ref (more_ref n) = i_ref n + 1.
Proof using. unfold countable_ref. intros H1 H2. cbn. apply s32_small. lia. Qed.

Lemma less_ref_count n : 0 < i_ref n < 2 ^ 31 -> i_ref (less_ref n) = i_ref n - 1.
Proof using. intros H. cbn. apply s32_small. lia. Qed.

Lemma wf_more ip n : icache k !! ip = Some n -> 0 < i_ref n -> countable_ref n -> icache_wf (alter more_ref ip (icache k)).
Proof using Hwf.
  intros Hn Hr Hm. pose proof (more_ref_count n ltac:(lia) Hm) as E. apply (icache_wf_same _ ip n); try done.
  destruct (proj1 (Forall_lookup _ _) (ic_entry _ Hwf) ip n Hn) as [F1 F2 F3 F4]. unfold countable_ref in Hm.
  split; rewrite ?E; try done; [now destruct F1|lia|]. split; [apply F4|lia].
Qed.

Lemma wf_recycled ip n dev inum : icache k !! ip = Some n -> no_entry k dev inum -> 0 <= dev < 2 ^ 32 -> 0 <= inum < 2 ^ 32 ->
  icache_wf (alter (recycled dev inum) ip (icache k)).
Proof using Hwf.
  intros Hn Hno Hd Hi. apply (icache_wf_alter _ ip n); try done.
  - destruct (proj1 (Forall_lookup _ _) (ic_entry _ Hwf) ip n Hn) as [F1 F2 F3 F4]. split; cbn; try done; try lia. now destruct F1.
  - intros _ j m _ Hm. exact (proj1 (Forall_lookup _ _) Hno j m Hm).
Qed.

(** What [iget] does: the entry of the inode, or a free one, or a panic. *)
Lemma iget_run dev inum : 0 <= dev < 2 ^ 32 -> 0 <= inum < 2 ^ 32 ->
  (forall n, n ∈ icache k -> entry_for dev inum n -> countable_ref n) ->
  (exists ip n, icache k !! ip = Some n /\ entry_for dev inum n /\
     iget dev inum k = Ok ip (set_icache (alter more_ref ip (icache k)) k) /\ icache_wf (alter more_ref ip (icache k))) \/
  (no_entry k dev inum /\ exists ip n, icache k !! ip = Some n /\ i_ref n = 0 /\
     (forall j m, (j < ip)%nat -> icache k !! j = Some m -> i_ref m <> 0) /\
     iget dev inum k = Ok ip (set_icache (alter (recycled dev inum) ip (icache k)) k) /\
     icache_wf (alter (recycled dev inum) ip (icache k))) \/
  (no_entry k dev inum /\ Forall (fun n => i_ref n <> 0) (icache k) /\ iget dev inum k = Panic "iget: no inodes").
Proof using All.
  intros Hd Hi Hm. pose proof (iget_scan_spec dev inum (icache k) 0 None) as H.
  assert (Hrun : iget dev inum k = (match iget_scan (icache k) 0 dev inum None with
    | (Some ip, _) => updinode ip more_ref ;; release Licache ;; ret ip
    | (None, None) => panic "iget: no inodes"
    | (None, Some ip) => updinode ip (recycled dev inum) ;; release Licache ;; ret ip end) (held Licache k)).
  { unfold iget. mok (acquire_free Licache k Hl). rewrite bind_gets. cbn beta. change (icache (held Licache k)) with (icache k).
    destruct (iget_scan (icache k) 0 dev inum None) as [[j|] [r|]]; reflexivity. }
  assert (Hch : forall f ip, (updinode ip f ;; release Licache ;; ret ip) (held Licache k) = Ok ip (set_icache (alter f ip (icache k)) k)).
  { intros f ip. rewrite <- (locked_change f ip ip). mok (acquire_free Licache k Hl). reflexivity. }
  destruct (iget_scan (icache k) 0 dev inum None) as [[j|] r].
  - left. destruct H as (n & _ & Hn & He). rewrite Nat.sub_0_r in Hn. exists j, n. split_and!; [done|apply He..|now rewrite Hrun|apply (wf_more j n Hn); [apply He|]].
    apply Hm; [now apply list_elem_of_lookup_2 in Hn|done].
  - right. destruct H as [Hno H]. destruct r as [j|].
    + left. split; [done|]. destruct H as (n & _ & Hn & H0 & Hb). rewrite Nat.sub_0_r in *. exists j, n.
      split_and!; try done; [rewrite Hrun; apply Hch|now apply (wf_recycled j n)].
    + right. split_and!; [done|done|rewrite Hrun; reflexivity].
Qed.

Definition unbusy (n : inode) : inode := set_i_flags (Z.ldiff (i_flags n) I_BUSY) n.

Lemma unbusy_flags f : 0 <= f < 4 -> 0 <= Z.ldiff f I_BUSY < 4 /\ has (Z.ldiff f I_BUSY) I_BUSY = false.
Proof using.
  intros Hf. assert (f = 0 \/ f = 1 \/ f = 2 \/ f = 3) as [-> |[-> |[-> | ->]]] by lia; vm_compute; repeat split; done.
Qed.

Lemma iunlock_run ip n : icache k !! ip = Some n ->
  (has (i_flags n) I_BUSY = true -> exists k', iunlock ip k = Ok tt k' /\ icache k' = alter unbusy ip (icache k) /\
     icache_wf (icache k')) /\
  (has (i_flags n) I_BUSY = false -> iunlock ip k = Panic "iunlock").
Proof using All.
  intros Hn. destruct (proj1 (Forall_lookup _ _) (ic_entry _ Hwf) ip n Hn) as [F1 F2 F3 [F4 F5]]. unfold iunlock, getinode.
  rewrite bind_gets. cbn beta. rewrite (list_lookup_total_correct _ _ _ Hn). split; intros Hb; rewrite Hb; cbn [negb orb]; [|done].
  rewrite (proj2 (Z.ltb_ge _ _)) by (specialize (F5 Hb); lia).
  set (k1 := set_icache (alter unbusy ip (icache k)) k).
  set (k2 := set_ptable (wakeup1_proc (CInode ip) <$> ptable k1) k1).
  exists k2. split; [|split; [done|]].
  - mok (acquire_free Licache k Hl). unfold updinode. mred.
    change (set_icache _ (held Licache k)) with (held Licache k1).
    assert (Hp1 : lock_free Lptable (held Licache k1)) by now apply lock_free_held.
    mok (wakeup_run (CInode ip) (held Licache k1) (cpu_ok_pushed _ Hc) Hp1).
    exact (release_held Licache k2 Hc Hl).
  - destruct (unbusy_flags (i_flags n) F4) as [U1 U2]. apply (icache_wf_same _ ip n); try done.
    split; cbn; try done; [now destruct F1|]. split; [done|]. intros Hx. now rewrite U2 in Hx.
Qed.

(** [iput] of a reference that is not the last one to a file without links. *)
Lemma iput_drops ip n : icache k !! ip = Some n ->
  (i_ref n =? 1) && has (i_flags n) I_VALID && (i_nlink n =? 0) = false ->
  iput ip k = Ok tt (set_icache (alter less_ref ip (icache k)) k).
Proof using Hl Hc.
  intros Hn Hlast. unfold iput. mok (acquire_free Licache k Hl). unfold getinode. rewrite bind_gets. cbn beta.
  change (icache (held Licache k)) with (icache k). rewrite (list_lookup_total_correct _ _ _ Hn), Hlast. mred.
  unfold updinode. mred. change (set_icache _ (held Licache k)) with (held Licache (set_icache (alter less_ref ip (icache k)) k)).
  exact (release_held Licache (set_icache (alter less_ref ip (icache k)) k) Hc Hl).
Qed.

Lemma iput_run ip n : icache k !! ip = Some n -> 0 < i_ref n ->
  (i_ref n =? 1) && has (i_flags n) I_VALID && (i_nlink n =? 0) = false ->
  (i_ref n = 1 -> has (i_flags n) I_BUSY = false) ->
  iput ip k = Ok tt (set_icache (alter less_ref ip (icache k)) k) /\ icache_wf (alter less_ref ip (icache k)).
Proof using All.
  intros Hn Hr Hlast Hbusy. destruct (proj1 (Forall_lookup _ _) (ic_entry _ Hwf) ip n Hn) as [F1 F2 F3 [F4 F5]]. split.
  - now apply (iput_drops ip n).
  - pose proof (less_ref_count n ltac:(lia)) as E. apply (icache_wf_same _ ip n); try done; try lia.
    split; rewrite ?E; try done; [now destruct F1|lia|]. split; [done|]. intros Hb. destruct (decide (i_ref n = 1)) as [E1|E1]; [|lia]. cbn in Hb. now rewrite Hbusy in Hb.
Qed.
End Ops.

(** [iput] of the last reference to a file without links that is locked. *)
Lemma iput_busy k ip n : lock_free Licache k -> icache k !! ip = Some n ->
  i_ref n = 1 -> has (i_flags n) I_VALID = true -> i_nlink n = 0 -> has (i_flags n) I_BUSY = true ->
  iput ip k = Panic "iput busy".
Proof.
  intros Hl Hn H1 H2 H3 H4. unfold iput. mok (acquire_free Licache k Hl). unfold getinode. rewrite bind_gets. cbn beta.
  change (icache (held Licache k)) with (icache k). now rewrite (list_lookup_total_correct _ _ _ Hn), H1, H2, H3, H4.
Qed.


Lemma icache_wf_0 : icache_wf (icache kernel0).
Proof.
  split; [reflexivity| |].
  - apply (Forall_replicate entry_wf 50 inode0).
    assert (Hi : inode_wf inode0).
    { split; cbn [inode0 i_type i_major i_minor i_nlink i_size i_addrs]; try lia; [reflexivity|].
      apply (Forall_replicate _ 13 0). lia. }
    split; [exact Hi|cbn; lia|cbn; lia|cbn; split; [lia|done]].
  - intros i j n m Hi _ Hr. change (icache kernel0) with (replicate 50 inode0) in Hi. apply lookup_replicate in Hi as [-> _]. cbn in Hr. lia.
Qed.

(** Inode 1 is in entry 0, with two references and locked. *)
Definition ex_locked_inode : inode := mkInode 1 1 2 3 T_FILE 0 0 1 0 (replicate 13 0).
Definition ex_locked : kernel := set_icache (alter (fun _ => ex_locked_inode) 0%nat (icache kernel0)) kernel0.

Lemma ex_locked_wf : icache_wf (icache ex_locked).
Proof.
  apply (icache_wf_alter _ _ inode0 _ icache_wf_0); [reflexivity| |].
  - assert (Hi : inode_wf ex_locked_inode).
    { split; cbn [ex_locked_inode i_type i_major i_minor i_nlink i_size i_addrs]; unfold T_FILE; try lia; [reflexivity|].
      apply (Forall_replicate _ 13 0). lia. }
    split; [exact Hi|cbn; lia|cbn; lia|cbn; split; lia].
  - intros _ j m Hj Hm [Hr _]. change (icache kernel0) with (replicate 50 inode0) in Hm. apply lookup_replicate in Hm as [-> _]. cbn in Hr. lia.
Qed.

Lemma ex_locked_low n : n ∈ icache ex_locked -> i_ref n <= 2.
Proof.
  intros [j Hj]%list_elem_of_lookup. unfold ex_locked in Hj. cbn [icache set_icache] in Hj. rewrite alter_lookup in Hj.
  change (icache kernel0) with (replicate 50 inode0) in Hj. case_decide as E; [subst j; cbn in Hj; injection Hj as <-; cbn; lia|].
  apply lookup_replicate in Hj as [-> _]. cbn. lia.
Qed.

