(* ===== verification/ExitSpec.v ===== *)
(** * The end of a process (proc.c)

    What [exit] leaves behind when the files the process has open and its
    directory are in use elsewhere too, as the console and the directory it shares
    with its parent are: a zombie, which keeps its memory for [wait]. *)

From S2P Require Import Prelude State Spinlock Sched Bio Log LogOps Inode IcacheSpec File Proc ForkSpec WaitSpec.

(** ** What [exit] leaves *)

Definition dec_ref (ff : file) : file := set_f_ref (f_ref ff - 1) ff.

(** The file table after the files of a descriptor table have been closed. *)
Fixpoint drop_refs (l : list (option nat)) (ft : list file) : list file :=
  match l with
  | [] => ft
  | Some f :: l' => drop_refs l' (alter dec_ref f ft)
  | None :: l' => drop_refs l' ft
  end.

(** The processes that the exit of [c] wakes: those that wait for room in the log,
    the parent when it waits for a child, and init when it gets a dead child. *)
Definition woken_by (c : nat) (k : kernel) (p : proc) : Prop :=
  p_state p = SLEEPING /\
  (p_chan p = CLog \/ p_chan p = chan_of (p_parent (ptable k !!! c)) \/
   p_chan p = chan_of (initproc k) /\ Exists (zombie_child c) (ptable k)).

#[global] Instance woken_by_dec c k p : Decision (woken_by c k p).
Proof. unfold woken_by. apply _. Defined.

(** Another process after the exit of [c]. *)
Definition survivor (c : nat) (k : kernel) (p : proc) : proc :=
  set_p_parent (if decide (is_child c p) then initproc k else p_parent p)
    (if decide (woken_by c k p) then set_p_state RUNNABLE p else p).

(** The process itself. *)
Definition zombie (pr : proc) : proc :=
  set_p_state ZOMBIE (set_p_cwd None (set_p_ofile (replicate (length (p_ofile pr)) None) pr)).

Definition exited (c : nat) (pr : proc) (ip : nat) (k : kernel) : kernel :=
  set_ptable (<[c := zombie pr]> (survivor c k <$> ptable k))
    (set_icache (alter less_ref ip (icache k))
      (set_ftable (drop_refs (p_ofile pr) (ftable k)) k)).

(** Process [c] may exit without being the last user of a file or of its
    directory, and without having to wait for the log. *)
Record exitable (k : kernel) (c : nat) (pr : proc) (ip : nat) : Prop := {
  ex_idle : cpu_idle k;
  ex_locks : lock_free Lptable k /\ lock_free Lftable k /\ lock_free Licache k /\ lock_free Llog k;
  ex_cur : cpu_proc (k_cpu k) = Some c;
  ex_proc : ptable k !! c = Some pr;
  ex_len : length (ptable k) = Z.to_nat NPROC;
  ex_state : p_state pr = RUNNING;
  ex_init : initproc k <> Some c /\ p_parent pr <> Some c;
  ex_fds : length (p_ofile pr) = Z.to_nat NOFILE;
  ex_files : forall f, Some f ∈ p_ofile pr -> exists ff, ftable k !! f = Some ff /\ uses f (p_ofile pr) < f_ref ff;
  ex_cwd : p_cwd pr = Some ip;
  ex_dir : exists n, icache k !! ip = Some n /\ (i_ref n =? 1) && has (i_flags n) I_VALID && (i_nlink n =? 0) = false;
  ex_log : lg_committing (k_log k) = 0 /\ 0 <= lg_outstanding (k_log k) /\
    (lg_outstanding (k_log k) = 0 -> lh_n (k_log k) = 0) /\
    lh_n (k_log k) + (lg_outstanding (k_log k) + 1) * MAXOPBLOCKS <= LOGSIZE
}.

(** ** Closing the files *)

Lemma uses_cons_same f l : uses f (Some f :: l) = uses f l + 1.
Proof. unfold uses. rewrite filter_cons, decide_True by done. cbn. lia. Qed.

Lemma uses_cons_other f o l : o <> Some f -> uses f (o :: l) = uses f l.
Proof. intros H. unfold uses. now rewrite filter_cons, decide_False. Qed.

Lemma drop_refs_lookup l : forall ft f ff,
  ft !! f = Some ff -> drop_refs l ft !! f = Some (set_f_ref (f_ref ff - uses f l) ff).
Proof.
  induction l as [|[g|] l IH]; intros ft f ff Hf; cbn [drop_refs].
  - unfold uses. cbn. rewrite Z.sub_0_r, Hf. f_equal. now destruct ff.
  - destruct (decide (g = f)) as [->|Hne].
    + rewrite uses_cons_same, (IH _ _ (dec_ref ff)) by (rewrite list_lookup_alter_eq; now rewrite Hf).
      unfold dec_ref, set_f_ref. cbn. do 2 f_equal. lia.
    + rewrite uses_cons_other by congruence. apply IH. now rewrite list_lookup_alter_ne by congruence.
  - rewrite uses_cons_other by done. now apply IH.
Qed.

Lemma fileclose_run s f ff :
  lock_free Lftable s -> cpu_ok (k_cpu s) -> ftable s !! f = Some ff -> 1 < f_ref ff ->
  fileclose f s = Ok tt (set_ftable (alter dec_ref f (ftable s)) s).
Proof.
  intros Hl Hc Hf Hr. unfold fileclose. mok (acquire_free Lftable s Hl). unfold getfile, updfile. mred.
  change (ftable (held Lftable s)) with (ftable s). rewrite (list_lookup_total_correct _ _ _ Hf), (proj2 (Z.ltb_ge _ _)) by lia.
  mred. change (set_ftable ?ft (held Lftable s)) with (held Lftable (set_ftable ft s)).
  assert (E : alter dec_ref f (ftable s) !! f = Some (dec_ref ff)) by (rewrite list_lookup_alter_eq; now rewrite Hf).
  change (ftable (held Lftable (set_ftable ?ft s))) with ft.
  change (fun ff => set_f_ref (f_ref ff - 1) ff) with dec_ref.
  rewrite (list_lookup_total_correct _ _ _ E), (proj2 (Z.ltb_lt _ _)) by (cbn; lia).
  exact (release_held Lftable (set_ftable (alter dec_ref f (ftable s)) s) Hc Hl).
Qed.

Lemma uses_nonneg f l : 0 <= uses f l.
Proof. unfold uses. lia. Qed.

Lemma close_files_run c pt l : forall t s x,
  lock_free Lftable s -> cpu_ok (k_cpu s) -> (c < length pt)%nat -> p_ofile x = t ++ l ->
  (forall f, Some f ∈ l -> exists ff, ftable s !! f = Some ff /\ uses f l < f_ref ff) ->
  close_files (length l) c (length t) (entry c x pt s) =
    Ok tt (entry c (set_p_ofile (t ++ replicate (length l) None) x) pt (set_ftable (drop_refs l (ftable s)) s)).
Proof.
  induction l as [|o l IH]; intros t s x Hl Hc Hn Hx Hf; cbn [close_files length drop_refs replicate].
  - unfold ret. rewrite <- Hx. f_equal. now destruct x, s.
  - rewrite bind_getproc_new by done. rewrite Hx.
    assert (Ei : (t ++ o :: l) !!! length t = o) by now apply list_lookup_total_correct, list_lookup_middle.
    rewrite Ei. assert (El : S (length t) = length (t ++ [None : option nat])) by (rewrite length_app; cbn; lia).
    assert (Et : t ++ None :: replicate (length l) None = (t ++ [None : option nat]) ++ replicate (length l) None) by now rewrite <- app_assoc.
    rewrite El, Et. destruct o as [f|].
    + destruct (Hf f) as (ff & Hff & Hr); [left|]. rewrite uses_cons_same in Hr. pose proof (uses_nonneg f l) as Hu.
      pose proof (fileclose_run (entry c x pt s) f ff Hl Hc Hff ltac:(lia)) as R.
      set (s1 := set_ftable (alter dec_ref f (ftable s)) s).
      change (set_ftable _ (entry c x pt s)) with (entry c x pt s1) in R.
      rewrite bind_assoc by (unfold returns; now rewrite R). mok R. rewrite bind_updproc by done.
      rewrite IH; [now destruct x|done|done|done| |].
      { cbn. now rewrite Hx, <- app_assoc, insert_app_r_alt, Nat.sub_diag by lia. }
      intros g Hg. unfold s1. cbn [ftable set_ftable]. destruct (decide (g = f)) as [->|Hgf].
      * exists (dec_ref ff). rewrite list_lookup_alter_eq, Hff. split; [done|]. cbn. lia.
      * destruct (Hf g) as (gg & Hgg & Hgr); [now right|]. rewrite uses_cons_other in Hgr by congruence.
        exists gg. now rewrite list_lookup_alter_ne.
    + mred. apply IH; [done..|now rewrite <- app_assoc|]. intros g Hg.
      destruct (Hf g) as (gg & Hgg & Hgr); [now right|]. rewrite uses_cons_other in Hgr by done. eauto.
Qed.

(** ** The transaction around the release of the directory *)

Lemma commit_nothing k : lh_n (k_log k) = 0 -> commit k = Ok tt k.
Proof. intros H. unfold commit. mred. now rewrite H. Qed.

(** [end_op] when it has nothing to commit. *)
Lemma end_op_nothing k :
  cpu_ok (k_cpu k) -> lock_free Llog k -> lock_free Lptable k -> lg_committing (k_log k) = 0 ->
  (lg_outstanding (k_log k) = 1 -> lh_n (k_log k) = 0) ->
  end_op k = Ok tt (set_ptable (wakeup1_proc CLog <$> ptable k)
    (set_k_log (set_lg_outstanding (lg_outstanding (k_log k) - 1) (k_log k)) k)).
Proof.
  intros Hc Hl Hpt Hcm Hn. unfold end_op. mok (acquire_free Llog k Hl). unfold updlog. mred.
  change (k_log (held Llog k)) with (k_log k).
  cbn [k_log set_k_log lg_committing lg_outstanding set_lg_outstanding]. rewrite Hcm. cbn [negb Z.eqb].
  set (k1 := set_k_log (set_lg_outstanding (lg_outstanding (k_log k) - 1) (k_log k)) k).
  change (set_k_log _ (held Llog k)) with (held Llog k1).
  pose (k3 := set_ptable (wakeup1_proc CLog <$> ptable k) k1).
  pose proof (wakeup_run CLog (held Llog k1) (cpu_ok_pushed _ Hc) (lock_free_held Lptable Llog k ltac:(done) Hpt)) as W.
  destruct (Z.eqb_spec (lg_outstanding (k_log k) - 1) 0) as [E|E].
  - rewrite bind_assoc by exact I. mred. set (k2 := set_k_log (set_lg_committing 1 (k_log k1)) k1).
    change (set_k_log _ (held Llog k1)) with (held Llog k2).
    mok (release_held Llog k2 Hc Hl). unfold when.
    mok (commit_nothing k2 (Hn ltac:(lia))).
    mok (acquire_free Llog k2 Hl). mred. change (k_log (held Llog k2)) with (k_log k2).
    change (set_k_log (set_lg_committing 0 (k_log k2)) (held Llog k2)) with (held Llog (set_k_log (set_lg_committing 0 (k_log k2)) k2)).
    assert (E2 : set_k_log (set_lg_committing 0 (k_log k2)) k2 = k1).
    { unfold k2, k1. destruct k as [], k_log; cbn in *. now subst. }
    rewrite E2. mok W.
    exact (release_held Llog k3 Hc Hl).
  - rewrite bind_assoc by (unfold returns; now rewrite W).
    mok W. mred.
    mok (release_held Llog k3 Hc Hl). done.
Qed.

(** ** The children *)

(** What the loop does to an entry, and what [wakeup1] adds when [b]. *)
Definition adopt (c : nat) (ini : option nat) (p : proc) : proc :=
  if decide (is_child c p) then set_p_parent ini p else p.
Definition wake_if (b : bool) (ch : chan) (p : proc) : proc := if b then wakeup1_proc ch p else p.

Lemma adopt_wake c ini b ch p : adopt c ini (wake_if b ch p) = wake_if b ch (adopt c ini p).
Proof.
  destruct b; [|done]. unfold wake_if, wakeup1_proc.
  assert (E1 : p_state (adopt c ini p) = p_state p) by (unfold adopt; now case_decide).
  assert (E2 : p_chan (adopt c ini p) = p_chan p) by (unfold adopt; now case_decide). rewrite E1, E2.
  destruct (_ && _); [|done]. unfold adopt. destruct (decide (is_child c p)) as [H|H];
    [rewrite decide_True by exact H|rewrite decide_False by exact H]; done.
Qed.

Lemma wake_twice b b' ch p : wake_if b' ch (wake_if b ch p) = wake_if (b || b') ch p.
Proof.
  destruct b, b'; try done. unfold wake_if, wakeup1_proc. cbn [orb].
  destruct (bool_decide (p_state p = SLEEPING) && bool_decide (p_chan p = ch)) eqn:E; [|now rewrite E].
  now rewrite bool_decide_false by done.
Qed.

Lemma zombie_child_wake c b ch p : zombie_child c (wake_if b ch p) <-> zombie_child c p.
Proof.
  destruct b; [|done]. unfold zombie_child, wake_if, wakeup1_proc. destruct (_ && _) eqn:E; [|done].
  apply andb_true_iff in E as [E%bool_decide_eq_true _]. cbn. rewrite E. split; intros [_ H]; discriminate.
Qed.

Lemma Exists_zombie_wake c b ch l : Exists (zombie_child c) (wake_if b ch <$> l) <-> Exists (zombie_child c) l.
Proof.
  rewrite !Exists_exists. split.
  - intros (q & (p & -> & Hp)%list_elem_of_fmap & Hz). exists p. now rewrite zombie_child_wake in Hz.
  - intros (p & Hp & Hz). exists (wake_if b ch p). rewrite zombie_child_wake. split; [now apply list_elem_of_fmap_2|done].
Qed.

(** One round of the loop. *)
Definition reparent_step (c : nat) (ini : option nat) (i : nat) (p : proc) (pt : list proc) : list proc :=
  if decide (is_child c p) then
    wake_if (bool_decide (zombie_child c p)) (chan_of ini) <$> alter (set_p_parent ini) i pt
  else pt.

Lemma reparent_unfold c n i k p : ptable k !! i = Some p ->
  reparent (S n) c i k = reparent n c (S i) (set_ptable (reparent_step c (initproc k) i p (ptable k)) k).
Proof.
  intros Hp. cbn [reparent]. unfold getproc. mred. rewrite (list_lookup_total_correct _ _ _ Hp).
  fold (is_child c p). unfold reparent_step. case_bool_decide as Hch.
  - rewrite decide_True by done. rewrite bind_assoc by exact I. mred. unfold updproc. mred.
    case_bool_decide as Hz; unfold when, wakeup1; mred.
    + now rewrite bool_decide_true by done.
    + rewrite bool_decide_false by (intros [_ H]; done). unfold wake_if. now rewrite list_fmap_id.
  - rewrite decide_False by done. mred. f_equal. now destruct k.
Qed.

(** The table after one round and the rest of the loop. *)
Lemma reparent_table c ini i p pt : pt !! i = Some p ->
  let pt1 := reparent_step c ini i p pt in
  wake_if (bool_decide (Exists (zombie_child c) (drop (S i) pt1))) (chan_of ini) <$>
    (take (S i) pt1 ++ (adopt c ini <$> drop (S i) pt1)) =
  wake_if (bool_decide (Exists (zombie_child c) (drop i pt))) (chan_of ini) <$>
    (take i pt ++ (adopt c ini <$> drop i pt)).
Proof.
  intros Hp pt1. rewrite (drop_S _ _ _ Hp). rewrite fmap_cons. set (b := bool_decide (zombie_child c p)).
  assert (H1 : take (S i) pt1 = (if decide (is_child c p) then fmap (wake_if b (chan_of ini)) else id) (take i pt ++ [adopt c ini p]) /\
    drop (S i) pt1 = (if decide (is_child c p) then fmap (wake_if b (chan_of ini)) else id) (drop (S i) pt)).
  { unfold pt1, reparent_step, adopt. case_decide.
    - rewrite <- fmap_take, <- fmap_drop. split; f_equal.
      + rewrite (take_S_r _ _ (set_p_parent ini p)) by now rewrite list_lookup_alter_eq, Hp.
        now rewrite take_alter_ge by lia.
      + now rewrite drop_alter_lt by lia.
    - now rewrite (take_S_r _ _ _ Hp). }
  destruct H1 as [-> ->]. replace (take i pt ++ adopt c ini p :: (adopt c ini <$> drop (S i) pt))
    with ((take i pt ++ [adopt c ini p]) ++ (adopt c ini <$> drop (S i) pt)) by now rewrite <- app_assoc.
  generalize (take i pt ++ [adopt c ini p]) as X. intros X. case_decide as Hch; unfold id.
  - rewrite (bool_decide_ext _ _ (Exists_zombie_wake c b (chan_of ini) (drop (S i) pt))).
    assert (Eb : bool_decide (Exists (zombie_child c) (p :: drop (S i) pt)) = b || bool_decide (Exists (zombie_child c) (drop (S i) pt))).
    { unfold b. rewrite <- bool_decide_or. apply bool_decide_ext, Exists_cons. }
    rewrite Eb, !fmap_app, <- !list_fmap_compose. f_equal; apply list_fmap_ext; intros _ q _; unfold compose.
    + apply wake_twice.
    + now rewrite adopt_wake, wake_twice.
  - do 2 f_equal. apply bool_decide_ext. rewrite Exists_cons. unfold zombie_child at 2. tauto.
Qed.

Lemma reparent_run c n : forall i k,
  (i + n)%nat = length (ptable k) -> initproc k <> Some c ->
  reparent n c i k = Ok tt (set_ptable
    (wake_if (bool_decide (Exists (zombie_child c) (drop i (ptable k)))) (chan_of (initproc k)) <$>
      (take i (ptable k) ++ (adopt c (initproc k) <$> drop i (ptable k)))) k).
Proof.
  induction n as [|n IH]; intros i k Hl Hi.
  { cbn [reparent]. rewrite drop_ge, bool_decide_false by (lia || now rewrite Exists_nil). cbn.
    rewrite app_nil_r, take_ge, list_fmap_id by lia. now destruct k. }
  destruct (lookup_lt_is_Some_2 (ptable k) i ltac:(lia)) as [p Hp]. rewrite (reparent_unfold c n i k p Hp).
  set (pt := ptable k) in *. set (ini := initproc k) in *. set (pt1 := reparent_step c ini i p pt).
  rewrite (IH (S i) (set_ptable pt1 k)); [| |exact Hi].
  2:{ cbn. unfold pt1, reparent_step. case_decide; rewrite ?length_fmap, ?length_alter; lia. }
  change (ptable (set_ptable pt1 k)) with pt1. change (initproc (set_ptable pt1 k)) with ini.
  change (set_ptable ?x (set_ptable pt1 k)) with (set_ptable x k). do 2 f_equal.
  exact (reparent_table c ini i p pt Hp).
Qed.

(** ** The whole call *)

Lemma wakeup1_entry ch (c : nat) x (pt : list proc) :
  p_state x = RUNNING -> wakeup1_proc ch <$> <[c := x]> pt = <[c := x]> (wakeup1_proc ch <$> pt).
Proof.
  intros Hx. rewrite list_fmap_insert. f_equal. unfold wakeup1_proc. rewrite Hx. now rewrite bool_decide_false by done.
Qed.

Lemma wakeup1_if ch p :
  wakeup1_proc ch p = if decide (p_state p = SLEEPING /\ p_chan p = ch) then set_p_state RUNNABLE p else p.
Proof.
  unfold wakeup1_proc. case_decide as H.
  - destruct H as [H1 H2]. now rewrite !bool_decide_true by done.
  - destruct (bool_decide (p_state p = SLEEPING)) eqn:E1, (bool_decide (p_chan p = ch)) eqn:E2; try done.
    apply bool_decide_eq_true in E1, E2. tauto.
Qed.

Lemma survivor_eq c k p :
  wake_if (bool_decide (Exists (zombie_child c) (ptable k))) (chan_of (initproc k))
    (adopt c (initproc k) (wakeup1_proc (chan_of (p_parent (ptable k !!! c))) (wakeup1_proc CLog p))) = survivor c k p.
Proof.
  rewrite <- adopt_wake. unfold survivor.
  assert (Ew : wake_if (bool_decide (Exists (zombie_child c) (ptable k))) (chan_of (initproc k))
    (wakeup1_proc (chan_of (p_parent (ptable k !!! c))) (wakeup1_proc CLog p)) =
    if decide (woken_by c k p) then set_p_state RUNNABLE p else p).
  { unfold woken_by, wake_if. rewrite !wakeup1_if. case_bool_decide;
      repeat (case_decide; cbn [p_state p_chan set_p_state] in *); try done; intuition congruence. }
  rewrite Ew. clear Ew. set (q := if decide (woken_by c k p) then set_p_state RUNNABLE p else p).
  assert (Eq : p_parent q = p_parent p) by (unfold q; now case_decide). unfold adopt.
  destruct (decide (is_child c p)) as [H|H]; [rewrite decide_True|rewrite decide_False];
    [done|unfold is_child in *; congruence| |unfold is_child in *; congruence].
  rewrite <- Eq. now destruct q.
Qed.

Lemma exists_zombie_entry c x y (f : proc -> proc) (pt : list proc) :
  p_state x = RUNNING -> pt !! c = Some y -> p_state y = RUNNING -> (forall p, zombie_child c (f p) <-> zombie_child c p) ->
  Exists (zombie_child c) (<[c := x]> (f <$> pt)) <-> Exists (zombie_child c) pt.
Proof.
  intros Hx Hy Hs Hf. assert (Hlt : (c < length pt)%nat) by (eapply lookup_lt_Some; exact Hy).
  rewrite !Exists_exists. split; intros (p & [j Hj]%list_elem_of_lookup & Hz).
  - destruct (decide (j = c)) as [->|Hne].
    + rewrite list_lookup_insert_eq in Hj by now rewrite length_fmap. injection Hj as <-. destruct Hz. congruence.
    + rewrite list_lookup_insert_ne, list_lookup_fmap in Hj by done. apply fmap_Some in Hj as (q & Hq & ->).
      exists q. split; [now apply list_elem_of_lookup_2 in Hq|now apply Hf].
  - destruct (decide (j = c)) as [->|Hne]; [destruct Hz; congruence|].
    exists (f p). split; [|now apply Hf]. apply (list_elem_of_lookup_2 _ j).
    now rewrite list_lookup_insert_ne, list_lookup_fmap, Hj by done.
Qed.

Section Exit.
Context (k : kernel) (c : nat) (pr : proc) (ip : nat) (H : exitable k c pr ip).

(** The process without its files. *)
Definition closed (pr : proc) : proc := set_p_ofile (replicate (length (p_ofile pr)) None) pr.

(** The state with the files closed and the directory released. *)
Definition released (pr : proc) (ip : nat) (k : kernel) : kernel :=
  set_icache (alter less_ref ip (icache k)) (set_ftable (drop_refs (p_ofile pr) (ftable k)) k).

Lemma exit_closes {A} (f : unit -> K A) :
  bind (close_files (Z.to_nat NOFILE) c 0) f k =
  f tt (entry c (closed pr) (ptable k) (set_ftable (drop_refs (p_ofile pr) (ftable k)) k)).
Proof using H.
  destruct H as [[Hc _] (_ & Hl & _) _ Hp _ _ _ Hfd Hf _ _ _]. apply bind_ok.
  pose proof (close_files_run c (ptable k) (p_ofile pr) [] k pr Hl Hc (lookup_lt_Some _ _ _ Hp) eq_refl Hf) as R.
  rewrite Hfd in R. cbn [length app] in R. unfold closed. rewrite Hfd, <- R. f_equal.
  unfold entry. rewrite list_insert_id by done. now destruct k.
Qed.

Lemma exit_releases {A} (f : unit -> K A) :
  (begin_op ;; pr <- getproc c ;; ip <- cwd_of pr ;; iput ip ;; x <- end_op ;; f x)
    (entry c (closed pr) (ptable k) (set_ftable (drop_refs (p_ofile pr) (ftable k)) k)) =
  f tt (entry c (closed pr) (wakeup1_proc CLog <$> ptable k) (released pr ip k)).
Proof using H.
  destruct H as [[Hc _] (Hpt & _ & Hic & Hlg) _ Hp _ Hst _ _ _ Hcwd (n & Hn & Hlast) (L1 & L2 & L3 & L4)].
  pose proof (lookup_lt_Some _ _ _ Hp) as Hlt.
  set (s := set_ftable _ k). mok (begin_op_run (entry c (closed pr) (ptable k) s) Hc Hlg L1 L4).
  set (lg := set_lg_outstanding (lg_outstanding (k_log k) + 1) (k_log k)).
  change (set_k_log _ (entry c (closed pr) (ptable k) s)) with (entry c (closed pr) (ptable k) (set_k_log lg s)).
  rewrite bind_getproc_new by done. unfold cwd_of. change (p_cwd (closed pr)) with (p_cwd pr). rewrite Hcwd. mred.
  mok (iput_drops (entry c (closed pr) (ptable k) (set_k_log lg s)) Hic Hc ip n Hn Hlast).
  change (set_icache ?ic (entry c (closed pr) (ptable k) (set_k_log lg s)))
    with (entry c (closed pr) (ptable k) (set_k_log lg (released pr ip k))).
  mok (end_op_nothing (entry c (closed pr) (ptable k) (set_k_log lg (released pr ip k))) Hc Hlg Hpt L1
    (fun E => L3 ltac:(cbn in E; lia))). f_equal.
  change (ptable (entry c ?x ?pt ?s)) with (<[c := x]> pt). rewrite wakeup1_entry by done. unfold entry. cbn [k_log set_ptable set_k_log].
  assert (El : set_lg_outstanding (lg_outstanding lg - 1) lg = k_log k).
  { unfold lg. cbn. rewrite Z.add_simpl_r. now destruct (k_log k). }
  change (k_log (set_k_log lg (released pr ip k))) with lg. rewrite El. unfold released. now destruct k.
Qed.
(** The process table when the process becomes a zombie. *)
Lemma exit_table :
  wake_if (bool_decide (Exists (zombie_child c)
      (<[c := set_p_cwd None (closed pr)]> (wakeup1_proc (chan_of (p_parent pr)) <$> (wakeup1_proc CLog <$> ptable k)))))
    (chan_of (initproc k)) <$> (adopt c (initproc k) <$>
      <[c := set_p_cwd None (closed pr)]> (wakeup1_proc (chan_of (p_parent pr)) <$> (wakeup1_proc CLog <$> ptable k))) =
  <[c := set_p_cwd None (closed pr)]> (survivor c k <$> ptable k).
Proof using H.
  destruct H as [_ _ _ Hp _ Hst [_ Hpp] _ _ _ _ _].
  rewrite <- (list_fmap_compose (wakeup1_proc CLog)).
  assert (Hz : forall p, zombie_child c ((wakeup1_proc (chan_of (p_parent pr)) ∘ wakeup1_proc CLog) p) <-> zombie_child c p).
  { intros p. unfold compose. etransitivity; [apply (zombie_child_wake c true)|apply (zombie_child_wake c true)]. }
  rewrite (bool_decide_ext _ _ (exists_zombie_entry c (set_p_cwd None (closed pr)) pr _ (ptable k) Hst Hp Hst Hz)).
  rewrite !list_fmap_insert.
  assert (Ec : adopt c (initproc k) (set_p_cwd None (closed pr)) = set_p_cwd None (closed pr)) by (unfold adopt; now rewrite decide_False).
  rewrite Ec. f_equal.
  - destruct (bool_decide _); [|done]. unfold wake_if, wakeup1_proc. now rewrite bool_decide_false by (cbn; rewrite Hst; done).
  - rewrite <- !list_fmap_compose. apply list_fmap_ext. intros _ p _. unfold compose.
    rewrite <- survivor_eq. now rewrite (list_lookup_total_correct _ _ _ Hp).
Qed.

Lemma exit_run : exists cont,
  exit k = Blocked WSwtch (held Lptable (exited c pr ip k)) cont /\
  forall k3, cpu_ncli (k_cpu k3) = 0 -> cont (held Lptable k3) = Panic "zombie exit".
Proof using H.
  pose proof H as [Hid (Hpt & _) Hcur Hp Hlen Hst [Hi _] _ _ _ _ _]. pose proof (lookup_lt_Some _ _ _ Hp) as Hlt.
  unfold exit, curproc. mred. rewrite Hcur. cbn [default]. rewrite bool_decide_false by (intros E; apply Hi; symmetry; exact E).
  rewrite exit_closes, exit_releases. set (pt1 := wakeup1_proc CLog <$> ptable k). set (s := released pr ip k).
  assert (Hlt1 : (c < length pt1)%nat) by (unfold pt1; now rewrite length_fmap).
  rewrite bind_updproc by done. set (x := set_p_cwd None (closed pr)).
  mok (acquire_free Lptable (entry c x pt1 s) Hpt).
  change (held Lptable (entry c x pt1 s)) with (entry c x pt1 (held Lptable s)).
  rewrite bind_getproc_new by done. change (p_parent x) with (p_parent pr). unfold wakeup1 at 1. mred.
  change (ptable (entry c x pt1 ?s)) with (<[c := x]> pt1). rewrite wakeup1_entry by exact Hst.
  set (pt2 := wakeup1_proc (chan_of (p_parent pr)) <$> pt1).
  change (set_ptable (<[c := x]> pt2) (entry c x pt1 ?s)) with (entry c x pt2 s).
  pose proof (reparent_run c (Z.to_nat NPROC) 0 (entry c x pt2 (held Lptable s))) as R.
  change (ptable (entry c x pt2 ?s)) with (<[c := x]> pt2) in R. change (initproc (entry c x pt2 (held Lptable s))) with (initproc k) in R.
  rewrite drop_0, take_0, app_nil_l in R. pose proof exit_table as ET. fold x pt1 in ET. fold pt2 in ET. rewrite ET in R.
  assert (Hl2 : length pt2 = Z.to_nat NPROC) by (unfold pt2, pt1; now rewrite !length_fmap).
  mok (R ltac:(now rewrite length_insert, Hl2) Hi).
  change (set_ptable (<[c := x]> ?pt) (entry c x pt2 ?s)) with (entry c x pt s).
  rewrite bind_updproc by now rewrite length_fmap.
  change (entry c _ _ (held Lptable s)) with (held Lptable (exited c pr ip k)).
  destruct (sched_spec (exited c pr ip k) c) as (cont & Hrun & Hcont); [exact Hid|exact Hpt|exact Hcur| |].
  { unfold exited. cbn [ptable set_ptable]. rewrite list_lookup_total_insert_eq by now rewrite length_fmap. done. }
  rewrite (bind_blocked _ _ _ _ _ _ Hrun). eexists. split; [reflexivity|].
  intros k3 Hn3. cbv beta. rewrite (Hcont k3 Hn3). reflexivity.
Qed.
End Exit.

Lemma exited_lookup c pr ip k j p :
  j <> c -> ptable k !! j = Some p -> ptable (exited c pr ip k) !! j = Some (survivor c k p).
Proof. intros Hne Hp. cbn. now rewrite list_lookup_insert_ne, list_lookup_fmap, Hp by done. Qed.

Lemma exited_self k c pr ip : exitable k c pr ip -> ptable (exited c pr ip k) !! c = Some (zombie pr).
Proof.
  intros H. cbn. apply list_lookup_insert_eq. rewrite length_fmap. eapply lookup_lt_Some, (ex_proc _ _ _ _ H).
Qed.

Lemma exited_orphans k c pr ip : exitable k c pr ip -> Forall (fun p => ~ is_child c p) (ptable (exited c pr ip k)).
Proof.
  intros H. apply Forall_lookup. intros j p Hj. destruct (ex_init _ _ _ _ H) as [Hi Hpp].
  destruct (decide (j = c)) as [->|Hne].
  - rewrite (exited_self k c pr ip H) in Hj. now injection Hj as <-.
  - cbn in Hj. rewrite list_lookup_insert_ne, list_lookup_fmap in Hj by done. apply fmap_Some in Hj as (q & _ & ->).
    unfold survivor, is_child. cbn. case_decide; done.
Qed.

Lemma exited_found k c pr ip q :
  exitable k c pr ip -> p_parent pr = Some q -> is_Some (first_zombie q (ptable (exited c pr ip k))).
Proof.
  intros H Hq. apply list_find_elem_of with (x := zombie pr).
  - apply (list_elem_of_lookup_2 _ c). now apply exited_self.
  - now split.
Qed.

(** ** The theorem *)

(** C12. [exit] of a process whose files and directory are in use elsewhere too
    gives up the CPU for good (were it resumed, it would panic).  It leaves a zombie
    with its pid, stack and address space; each of its files has one reference less
    per descriptor; its children are children of init; the processes that become
    runnable are its parent if it waits for a child, init if it waits and gets a dead
    child, and those waiting for the log; nothing else changes.  So its parent finds
    a dead child and does not sleep in [wait], and no process has the dead one as
    parent.  When init calls [exit], the kernel stops. *)
Theorem exit_correct k c pr ip :
  exitable k c pr ip ->
  (exists cont, exit k = Blocked WSwtch (held Lptable (exited c pr ip k)) cont /\
     forall k3, cpu_ncli (k_cpu k3) = 0 -> cont (held Lptable k3) = Panic "zombie exit") /\
  (let k' := exited c pr ip k in
   (forall l T U, owns k pr l T U -> owns k' (zombie pr) l T U) /\
   (forall f ff, ftable k !! f = Some ff -> ftable k' !! f = Some (set_f_ref (f_ref ff - uses f (p_ofile pr)) ff)) /\
   Forall (fun p => ~ is_child c p) (ptable k') /\
   (forall q pq, p_parent pr = Some q -> ptable k !! q = Some pq ->
      is_Some (first_zombie q (ptable k')) /\
      (p_state pq = SLEEPING -> p_chan pq = CProc q -> p_state (ptable k' !!! q) = RUNNABLE))) /\
  (forall k0 c0, cpu_proc (k_cpu k0) = Some c0 -> initproc k0 = Some c0 -> exit k0 = Panic "init exiting").
Proof.
  intros H. split; [now apply exit_run|]. split; [intros k'; split_and!|].
  - intros l T U Ho. destruct (owns_same k k' pr l T U eq_refl eq_refl eq_refl Ho) as [O1 O2 O3 O4]. split; assumption.
  - intros f ff Hf. now apply drop_refs_lookup.
  - now apply exited_orphans.
  - intros q pq Hq Hpq. split; [now apply exited_found|]. intros Hs Hch.
    assert (Hne : q <> c) by (intros ->; now apply (ex_init _ _ _ _ H)).
    rewrite (list_lookup_total_correct _ _ _ (exited_lookup c pr ip k q pq Hne Hpq)).
    unfold survivor. rewrite (decide_True (P := woken_by c k pq)); [done|]. split; [done|]. right. left.
    now rewrite (list_lookup_total_correct _ _ _ (ex_proc _ _ _ _ H)), Hq.
  - intros k0 c0 Hc Hi. unfold exit, curproc. mred. rewrite Hc, Hi. now rewrite bool_decide_true by done.
Qed.

(** Process 1 runs, with the first file open twice, as is the directory it shares
    with its parent 0, which waits for it; 2 is its dead child and 3 is init. *)
Definition ex_exiting : proc :=
  set_p_parent (Some 0%nat) (set_p_state RUNNING (set_p_cwd (Some 0%nat)
    (set_p_ofile (Some 0%nat :: Some 0%nat :: replicate 14 None) proc0))).
Definition ex_waiting : proc := set_p_state SLEEPING (set_p_chan (CProc 0) proc0).
Definition ex_exit : kernel :=
  set_initproc (Some 3%nat) (set_k_cpu (set_cpu_proc (Some 1%nat) (k_cpu kernel0))
    (set_icache (alter (set_i_ref 2) 0%nat (icache kernel0))
      (set_ftable (alter (set_f_ref 4) 0%nat (ftable kernel0))
        (set_ptable (ex_waiting :: ex_exiting :: set_p_parent (Some 1%nat) (set_p_state ZOMBIE proc0) ::
          drop 3 (ptable kernel0)) kernel0)))).

Lemma ex_exitable : exitable ex_exit 1 ex_exiting 0.
Proof.
  split; try reflexivity.
  - split; [|reflexivity]. unfold cpu_ok. cbn. split_and!; [lia|reflexivity|lia].
  - split_and!; [exists "ptable"%string|exists "ftable"%string|exists "icache"%string|exists "log"%string]; reflexivity.
  - split; discriminate.
  - intros f Hf. assert (f = 0%nat) as ->.
    { change (p_ofile ex_exiting) with (Some 0%nat :: Some 0%nat :: replicate 14 (@None nat)) in Hf.
      rewrite !elem_of_cons, elem_of_replicate in Hf. destruct Hf as [Hf|[Hf|[Hf _]]]; congruence. }
    eexists. split; [reflexivity|]. vm_compute. reflexivity.
  - eexists. split; reflexivity.
  - split_and!; [reflexivity|vm_compute; discriminate|reflexivity|vm_compute; discriminate].
Qed.

Lemma exit_correct_witness : exists cont,
  exit ex_exit = Blocked WSwtch (held Lptable (exited 1 ex_exiting 0 ex_exit)) cont /\
  p_state (ptable (exited 1 ex_exiting 0 ex_exit) !!! 0%nat) = RUNNABLE.
Proof.
  destruct (exit_correct ex_exit 1 ex_exiting 0 ex_exitable) as ((cont & R & _) & (_ & _ & _ & Hq) & _).
  exists cont. split; [exact R|]. destruct (Hq 0%nat ex_waiting eq_refl eq_refl) as [_ Hw]. exact (Hw eq_refl eq_refl).
Defined.
