(* ===== verification/DirSpec.v ===== *)
(** * Directories (fs.c)

    A directory is a list of entries, an inode number and a name each.  [dirlookup]
    finds the first entry in use with the name; [dirlink] puts a new entry into the
    first free slot, or at the end. *)

From S2P Require Import Prelude State CMem Strings Spinlock Console Sched Bio Bytes Log LogCrash LogOps Umem Inode FsTx Alloc.
From S2P Require Import FsExample FileData ConsoleIO Fs Dinode ReadSpec WriteSpec ForkSpec IcacheSpec.

(** ** The abstract directory *)

(** A slot: its inode number, 0 when it is free, and its name. *)
Definition dslot : Type := Z * list Z.

Fixpoint dfind (es : list dslot) (name : list Z) (i : nat) : option (nat * Z) :=
  match es with
  | [] => None
  | (inum, nm) :: es' => if negb (inum =? 0) && bool_decide (nm = name) then Some (i, inum) else dfind es' name (S i)
  end.

Fixpoint free_slot (es : list dslot) : nat :=
  match es with
  | [] => 0
  | (inum, _) :: es' => if inum =? 0 then 0 else S (free_slot es')
  end.

Definition dput (e : dslot) (es : list dslot) : list dslot := take (free_slot es) es ++ e :: drop (S (free_slot es)) es.

Lemma free_slot_le es : (free_slot es <= length es)%nat.
Proof. induction es as [|[inum nm] es IH]; cbn; [done|]. destruct (inum =? 0); lia. Qed.

(** The entry put in is the one found under its name, and the other names find what
    they found before. *)
Lemma dfind_dput es inum name : inum <> 0 -> forall i, dfind es name i = None ->
  dfind (dput (inum, name) es) name i = Some ((i + free_slot es)%nat, inum) /\
  (forall nm, nm <> name -> dfind (dput (inum, name) es) nm i = dfind es nm i).
Proof.
  intros Hi. apply Z.eqb_neq in Hi. unfold dput.
  induction es as [|[x y] es IH]; intros i; cbn [dfind free_slot].
  - intros _. cbn. rewrite Hi, bool_decide_true, Nat.add_0_r by done. cbn. split; [done|].
    intros nm Hn. now rewrite bool_decide_false.
  - destruct (negb (x =? 0) && bool_decide (y = name)) eqn:E; [done|]. intros Hf.
    destruct (x =? 0) eqn:Ex; cbn [take drop app dfind].
    + rewrite Hi, bool_decide_true, Nat.add_0_r by done. cbn [negb andb]. split; [done|].
      intros nm Hn. now rewrite bool_decide_false.
    + destruct (IH (S i) Hf) as [H1 H2]. rewrite Ex. cbn [negb andb] in *. rewrite E, H1.
      split; [do 2 f_equal; lia|]. intros nm Hn. destruct (bool_decide (y = nm)); [done|now apply H2].
Qed.

Lemma dfind_lt es name : forall i j x, dfind es name i = Some (j, x) -> (i <= j < i + length es)%nat /\ x <> 0 /\ es !! (j - i)%nat = Some (x, name).
Proof.
  induction es as [|[inum nm] es IH]; intros i j x; cbn; [done|]. destruct (Z.eqb_spec inum 0) as [E|E]; cbn [negb andb].
  - intros H. destruct (IH _ _ _ H) as (H1 & H2 & H3). split_and!; [lia|lia|done|]. replace (j - i)%nat with (S (j - S i)) by lia. done.
  - case_bool_decide as En.
    + intros [= <- <-]. rewrite Nat.sub_diag, En. split_and!; [lia|lia|done|done].
    + intros H. destruct (IH _ _ _ H) as (H1 & H2 & H3). split_and!; [lia|lia|done|]. replace (j - i)%nat with (S (j - S i)) by lia. done.
Qed.

(** ** Names *)

Definition dname (l : list Z) : list Z := take (Z.to_nat DIRSIZ) (cstr l).

Lemma strncmp_arr_zero n : forall p q, bytes_ok p -> bytes_ok q -> (strncmp_arr n p q = 0 <-> take n (cstr p) = take n (cstr q)).
Proof.
  assert (Hd : forall l, bytes_ok l -> 0 <= default 0 (head l) < 256 /\ bytes_ok (tail l) /\
     cstr l = if default 0 (head l) =? 0 then [] else default 0 (head l) :: cstr (tail l)).
  { intros l Hl. destruct Hl; cbn; split_and!; try lia; try done; try constructor. }
  induction n as [|n IH]; intros p q Hp Hq; [done|]. cbn [strncmp_arr].
  destruct (Hd p Hp) as (Ra & Ta & ->), (Hd q Hq) as (Rb & Tb & ->).
  set (a := default 0 (head p)) in *. set (b := default 0 (head q)) in *. rewrite !u8_small by lia.
  destruct (Z.eqb_spec a 0) as [E|E]; cbn [negb andb].
  - destruct (Z.eqb_spec b 0) as [E'|E']; cbn [take]; split; intros H; try done; lia.
  - destruct (Z.eqb_spec b 0) as [E'|E'].
    + rewrite (proj2 (Z.eqb_neq a b)) by lia. cbn [take]. split; intros H; try done; lia.
    + cbn [take]. destruct (Z.eqb_spec a b) as [Eab|Eab].
      * rewrite IH by done. split; [congruence|]. now intros [= _ ->].
      * split; [lia|congruence].
Qed.

Lemma namecmp_eq s t : bytes_ok s -> bytes_ok t -> (namecmp s t =? 0) = bool_decide (dname t = dname s).
Proof.
  intros Hs Ht. pose proof (strncmp_arr_zero (Z.to_nat DIRSIZ) s t Hs Ht) as H. unfold namecmp, dname.
  case_bool_decide; [apply Z.eqb_eq|apply Z.eqb_neq]; rewrite H; congruence.
Qed.

Lemma cstr_strncpy_arr n : forall t, cstr (strncpy_arr n t) = take n (cstr t).
Proof.
  induction n as [|n IH]; intros t; [done|]. cbn [strncpy_arr]. destruct t as [|c t]; [done|]. cbn [head tail default cstr]. change (id c) with c.
  destruct (c =? 0) eqn:E; [reflexivity|]. cbn [cstr take]. now rewrite E, IH.
Qed.

(** The bytes [dirlink] writes. *)
Definition new_dirent (inum : Z) (name : list Z) : list Z := le16 inum ++ strncpy_arr (Z.to_nat DIRSIZ) name.

Definition entry_of (bs : list Z) : dslot := (de_inum bs, dname (de_name bs)).

Lemma entry_of_new inum name : 0 <= inum < 2 ^ 16 -> entry_of (new_dirent inum name) = (inum, dname name).
Proof.
  intros Hi. unfold entry_of, new_dirent. f_equal.
  - unfold de_inum, ld16, ld8, le16. change (Z.to_nat 0) with 0%nat. change (Z.to_nat (0 + 1)) with 1%nat.
    cbn [app lookup_total list_lookup_total]. unfold u8. Z.div_mod_to_equations. lia.
  - unfold de_name, slice. set (x := strncpy_arr (Z.to_nat DIRSIZ) name). change (drop (Z.to_nat 2) (le16 inum ++ x)) with x.
    rewrite (firstn_all2 x) by (unfold x; rewrite length_strncpy_arr; done). unfold dname, x.
    now rewrite cstr_strncpy_arr, take_take, Nat.min_id.
Qed.

(** ** The entries of a directory *)

Definition dent (k : kernel) (nd : inode) (i : nat) : list Z := fdata k nd (DIRENT * Z.of_nat i) DIRENT.

Definition nents (nd : inode) : nat := Z.to_nat (i_size nd / DIRENT).

Definition entries (k : kernel) (nd : inode) : list dslot := (fun i => entry_of (dent k nd i)) <$> seq 0 (nents nd).

(** The cached inode [dp] is a directory, in use by the caller. *)
Record dir_ok (k : kernel) (dp : nat) (nd : inode) : Prop := {
  do_tx : tx k [];
  do_fs : fs_ok k;
  do_file : file_ok k nd;
  do_nd : icache k !! dp = Some nd;
  do_type : i_type nd = T_DIR;
  do_size : i_size nd = DIRENT * Z.of_nat (nents nd);
  do_ref : 0 < i_ref nd
}.

Lemma DIRENT_eq : DIRENT = 16.
Proof. reflexivity. Qed.

Lemma fbyte_range k nd o : fs_ok k -> file_ok k nd -> 0 <= o < i_size nd -> 0 <= fbyte k nd o < 256.
Proof.
  intros Hfs Hfl Ho. pose proof (fl_size _ _ Hfl) as Hs. assert (HB : BSIZE = 512) by done.
  assert (Hq : 0 <= o / BSIZE < MAXFILE) by (rewrite HB in *; Z.div_mod_to_equations; lia).
  assert (Hz : baddr k nd (o / BSIZE) <> 0) by (apply (fl_mapped _ _ Hfl); rewrite HB in *; Z.div_mod_to_equations; lia).
  destruct (fl_taken _ _ Hfl _ Hq Hz) as (_ & ([Hr _] & _) & _). destruct (fo_blocks _ Hfs _ Hr) as [Hl Hb].
  unfold fbyte, ld8. apply (Forall_lookup_total_1 _ _ _ Hb). rewrite Hl, HB. Z.div_mod_to_equations. lia.
Qed.

Section Dir.
Context (dp : nat) (nd : inode).

Lemma dent_bytes k i : dir_ok k dp nd -> (i < nents nd)%nat -> bytes_ok (dent k nd i).
Proof using.
  intros [_ Hfs Hfl _ _ Hs _] Hi. apply Forall_fmap, Forall_forall. intros x Hx. apply elem_of_seqZ in Hx.
  apply fbyte_range; try done. rewrite Hs, DIRENT_eq in *. lia.
Qed.

Lemma entries_lookup k i : (i < nents nd)%nat -> entries k nd !! i = Some (entry_of (dent k nd i)).
Proof using. intros Hi. unfold entries. now rewrite list_lookup_fmap, lookup_seq_lt. Qed.

Lemma length_entries k : length (entries k nd) = nents nd.
Proof using. unfold entries. now rewrite length_fmap, length_seq. Qed.

Lemma drop_entries k i : (i < nents nd)%nat -> drop i (entries k nd) = entry_of (dent k nd i) :: drop (S i) (entries k nd).
Proof using. intros Hi. now apply drop_S, entries_lookup. Qed.

(** Reading changes nothing of the directory. *)
Lemma undisturbed_dir k k' : dir_ok k dp nd -> undisturbed k k' -> dir_ok k' dp nd /\ entries k' nd = entries k nd.
Proof using.
  intros [Ht Hfs Hfl Hn Hty Hs Hr] U. pose proof U as [T X]. pose proof (fl_size _ _ Hfl) as Hm. assert (HB : BSIZE = 512) by done.
  split.
  - split; try done; [exact (fs_ok_same _ _ _ _ _ _ _ X (fun _ _ => eq_refl) Hfs)|exact (file_ok_same _ _ _ _ _ _ _ X Hfs Hfl)|].
    now rewrite (fx_icache X).
  - apply list_fmap_ext. intros i x Hx. apply lookup_seq in Hx as [-> Hi]. f_equal. rewrite DIRENT_eq in Hs.
    apply undisturbed_data; try done; rewrite ?DIRENT_eq; [lia|lia|].
    intros o Ho. apply (fl_mapped _ _ Hfl); rewrite HB in *; Z.div_mod_to_equations; lia.
Qed.

(** Reading one entry. *)
Lemma read_dirent_run k i msg : dir_ok k dp nd -> (i < nents nd)%nat ->
  exists k', read_dirent dp (DIRENT * Z.of_nat i) msg k = Ok (dent k nd i) k' /\ undisturbed k k'.
Proof using.
  intros [Ht Hfs Hfl Hn Hty Hs Hr] Hi. pose proof (fl_size _ _ Hfl) as Hm. rewrite MAXFILE_eq in Hm. rewrite DIRENT_eq in *.
  assert (HB : BSIZE = 512) by done. rewrite HB in Hm.
  destruct (readi_run k dp nd ToBuf [] (16 * Z.of_nat i) 16 Ht Hfs Hfl Hn) as (k' & R & U & _); try done; try lia.
  { now rewrite Hty. }
  rewrite Z.min_l in R by lia. exists k'. split; [|done]. unfold read_dirent. rewrite DIRENT_eq. mok R. reflexivity.
Qed.

Lemma getdir k : dir_ok k dp nd -> getinode dp k = Ok nd k.
Proof using. intros H. unfold getinode, gets. cbn. now rewrite (list_lookup_total_correct _ _ _ (do_nd _ _ _ H)). Qed.

Lemma undisturbed_refl k : dir_ok k dp nd -> undisturbed k k.
Proof using. intros H. split; [apply H|apply fx_refl]. Qed.

Lemma at_end k i : dir_ok k dp nd -> (DIRENT * Z.of_nat i <? i_size nd) = bool_decide (i < nents nd)%nat.
Proof using.
  intros H. rewrite (do_size _ _ _ H), DIRENT_eq. case_bool_decide; [apply Z.ltb_lt|apply Z.ltb_ge]; lia.
Qed.

Lemma next_slot i : DIRENT * Z.of_nat i + DIRENT = DIRENT * Z.of_nat (S i).
Proof using. rewrite DIRENT_eq. lia. Qed.

Lemma drop_all_entries k i : (nents nd <= i)%nat -> drop i (entries k nd) = [].
Proof using. intros H. apply drop_ge. now rewrite length_entries. Qed.

(** The offset and inode number of an entry found. *)
Definition found (r : option (nat * Z)) : option (Z * Z) := (fun x => (DIRENT * Z.of_nat (fst x), snd x)) <$> r.

Lemma dirlookup_loop_run name : bytes_ok name -> forall fuel k i, dir_ok k dp nd -> (nents nd <= i + fuel)%nat ->
  exists k', dirlookup_loop fuel dp name (DIRENT * Z.of_nat i) k =
      Ok (found (dfind (drop i (entries k nd)) (dname name) i)) k' /\ undisturbed k k'.
Proof using.
  intros Hname. induction fuel as [|fuel IH]; intros k i Hk Hf; cbn [dirlookup_loop]; mok (getdir k Hk); rewrite (at_end k i Hk).
  all: case_bool_decide as Hi; [|exists k; rewrite drop_all_entries by lia; split; [done|now apply undisturbed_refl]].
  { exfalso. lia. }
  destruct (read_dirent_run k i "dirlink read" Hk Hi) as (k1 & R & U). destruct (undisturbed_dir k k1 Hk U) as [Hk1 He].
  mok R. rewrite drop_entries by done. cbn [dfind entry_of]. rewrite next_slot.
  destruct (IH k1 (S i) Hk1) as (k2 & R2 & U2); [lia|]. rewrite He in R2.
  assert (U' : undisturbed k k2) by now apply (undisturbed_trans k k1).
  assert (Hb : bytes_ok (de_name (dent k nd i))) by now apply bytes_ok_slice, dent_bytes.
  destruct (de_inum (dent k nd i) =? 0); cbn [negb andb]; [now exists k2|].
  rewrite namecmp_eq by done. case_bool_decide; [now exists k1|now exists k2].
Qed.

Lemma dirlink_loop_run fuel : forall k i, dir_ok k dp nd -> (i <= nents nd <= i + fuel)%nat ->
  exists k', dirlink_loop fuel dp (DIRENT * Z.of_nat i) k =
      Ok (DIRENT * Z.of_nat (i + free_slot (drop i (entries k nd)))) k' /\ undisturbed k k'.
Proof using.
  induction fuel as [|fuel IH]; intros k i Hk Hf; cbn [dirlink_loop]; mok (getdir k Hk); rewrite (at_end k i Hk).
  all: case_bool_decide as Hi; [|exists k; rewrite drop_all_entries, Nat.add_0_r by lia; split; [done|now apply undisturbed_refl]].
  { exfalso. lia. }
  destruct (read_dirent_run k i "dirlink read" Hk Hi) as (k1 & R & U). destruct (undisturbed_dir k k1 Hk U) as [Hk1 He].
  mok R. rewrite drop_entries by done. cbn [free_slot entry_of]. rewrite next_slot.
  destruct (de_inum (dent k nd i) =? 0); [exists k1; now rewrite Nat.add_0_r|].
  destruct (IH k1 (S i) Hk1) as (k2 & R2 & U2); [lia|]. rewrite He, Nat.add_succ_comm in R2.
  exists k2. split; [exact R2|]. now apply (undisturbed_trans k k1).
Qed.
End Dir.

(** ** dirlookup *)

(** The inode cache can be used, and is well formed; no count of references is at its limit. *)
Definition calm (k : kernel) : Prop :=
  (icache_wf (icache k) /\ Forall countable_ref (icache k)) /\ lock_free Licache k /\ lock_free Lptable k /\ cpu_ok (k_cpu k).

(** The cache has an entry for the inode, or room for one. *)
Definition can_get (k : kernel) (inum : Z) : Prop := Exists (fun n => entry_for 1 inum n \/ i_ref n = 0) (icache k).

(** The cache [ic] after [iget] returned entry [ip]. *)
Definition gotten (k : kernel) (inum : Z) (ip : nat) (ic : list inode) : Prop := exists n, icache k !! ip = Some n /\
  ((entry_for 1 inum n /\ ic = alter more_ref ip (icache k)) \/
   (no_entry k 1 inum /\ i_ref n = 0 /\ ic = alter (recycled 1 inum) ip (icache k))).

Lemma calm_undisturbed k k' : calm k -> undisturbed k k' -> calm k'.
Proof.
  intros (H1 & H2 & H3 & H4) [_ X]. destruct (fs_frame_fields _ _ (fx_frame X)) as (_ & _ & _ & Ec & El & _).
  unfold calm, lock_free in *. now rewrite (fx_icache X), Ec, El.
Qed.

Lemma iget_gotten k inum : calm k -> 0 <= inum < 2 ^ 32 ->
  (can_get k inum -> exists ip ic, iget 1 inum k = Ok ip (set_icache ic k) /\ gotten k inum ip ic /\ icache_wf ic) /\
  (~ can_get k inum -> iget 1 inum k = Panic "iget: no inodes").
Proof.
  intros ((H1 & Hlow) & H2 & H3 & H4) Hi.
  destruct (iget_run k H1 H2 H3 H4 1 inum ltac:(lia) Hi (fun n Hn _ => proj1 (Forall_forall _ _) Hlow n Hn)) as [(ip & n & Hn & He & E & W)|[(Hno & ip & n & Hn & H0 & _ & E & W)|(Hno & Hf & E)]].
  - split; [intros _; exists ip, (alter more_ref ip (icache k)); split_and!; [done| |done]; exists n; auto|].
    intros Hc. exfalso. apply Hc, Exists_exists. exists n. split; [now apply list_elem_of_lookup_2 in Hn|now left].
  - split; [intros _; exists ip, (alter (recycled 1 inum) ip (icache k)); split_and!; [done| |done]; exists n; auto|].
    intros Hc. exfalso. apply Hc, Exists_exists. exists n. split; [now apply list_elem_of_lookup_2 in Hn|now right].
  - split; [|done]. intros Hc. apply Exists_exists in Hc as (n & Hn & Hc). exfalso.
    destruct Hc as [Hc|Hc]; [exact (proj1 (Forall_forall _ _) Hno n Hn Hc)|exact (proj1 (Forall_forall _ _) Hf n Hn Hc)].
Qed.

Lemma dfind_inum k dp nd name i j x : dir_ok k dp nd -> dfind (entries k nd) name i = Some (j, x) -> 0 < x < 2 ^ 16.
Proof.
  intros Hk Hf. apply dfind_lt in Hf as (Hj & Hx & Hl). rewrite length_entries in Hj.
  rewrite entries_lookup in Hl by lia. injection Hl as Hd _.
  pose proof (dent_bytes dp nd k (j - i)%nat Hk ltac:(lia)) as Hb. unfold de_inum, ld16, ld8 in Hd.
  assert (Hlen : length (dent k nd (j - i)) = 16%nat) by (unfold dent; now rewrite fdata_length).
  pose proof (Forall_lookup_total_1 _ _ (Z.to_nat 0) Hb ltac:(rewrite Hlen; cbn; lia)) as B0.
  pose proof (Forall_lookup_total_1 _ _ (Z.to_nat (0 + 1)) Hb ltac:(rewrite Hlen; cbn; lia)) as B1.
  cbv beta in B0, B1. lia.
Qed.

(** The search, before the entry's inode is brought into the cache. *)
Lemma dirlookup_search k dp nd name : dir_ok k dp nd -> bytes_ok name ->
  exists k1, undisturbed k k1 /\ dirlookup dp name k =
    match dfind (entries k nd) (dname name) 0 with
    | None => Ok None k1
    | Some (i, inum) => (ip <- iget 1 inum ;; ret (Some (ip, DIRENT * Z.of_nat i))) k1
    end.
Proof.
  intros Hk Hb. destruct (dirlookup_loop_run dp nd name Hb (dir_rounds nd) k 0 Hk) as (k1 & R & U).
  { unfold dir_rounds, nents. lia. }
  destruct (undisturbed_dir dp nd k k1 Hk U) as [Hk1 _]. exists k1. split; [done|].
  unfold dirlookup. mok (getdir dp nd k Hk). rewrite (do_type _ _ _ Hk). cbn [negb Z.eqb Pos.eqb T_DIR].
  change (DIRENT * Z.of_nat 0) with 0 in R. rewrite drop_0 in R. mok R.
  destruct (dfind (entries k nd) (dname name) 0) as [[i x]|]; cbn [found fmap option_fmap option_map fst snd]; [|done].
  mok (getdir dp nd k1 Hk1). now rewrite (fl_dev _ _ (do_file _ _ _ Hk)).
Qed.

(** ** dirlink *)

Section Written.
Context (k : kernel) (dp : nat) (nd : inode) (k' : kernel) (nd' : inode) (i : nat) (de : list Z).
Context (Hk : dir_ok k dp nd) (Hi : (i <= nents nd)%nat) (Hl : length de = Z.to_nat DIRENT).
Context (W : written dp k nd k' nd' (DIRENT * Z.of_nat i) de).

Lemma written_size : i_size nd' = DIRENT * Z.of_nat (Nat.max (nents nd) (S i)).
Proof using All.
  rewrite (wn_nd _ _ _ _ _ _ _ W). cbn [set_i_size i_size]. rewrite (do_size _ _ _ Hk), Hl, DIRENT_eq. lia.
Qed.

Lemma written_nents : nents nd' = Nat.max (nents nd) (S i).
Proof using All. unfold nents at 1. rewrite written_size, (Z.mul_comm DIRENT), Z.div_mul by done. lia. Qed.

Lemma written_dir_ok : dir_ok k' dp nd'.
Proof using All.
  pose proof (do_nd _ _ _ Hk) as Hnd. pose proof (wn_nd _ _ _ _ _ _ _ W) as End. split; try apply W.
  - rewrite (wn_icache _ _ _ _ _ _ _ W). apply list_lookup_insert_eq. now apply lookup_lt_Some in Hnd.
  - rewrite End. apply Hk.
  - now rewrite written_size, written_nents.
  - rewrite End. apply Hk.
Qed.

Lemma written_dent j : (j < nents nd')%nat -> dent k' nd' j = if decide (j = i) then de else dent k nd j.
Proof using All.
  intros Hj. assert (Hlz : Z.of_nat (length de) = 16) by (rewrite Hl; done). apply list_eq_same_length with (n := 16%nat).
  - now case_decide; [rewrite Hl|unfold dent; rewrite fdata_length].
  - unfold dent. now rewrite fdata_length.
  - intros o x y Ho. unfold dent at 1. rewrite <- (Nat2Z.id o), fdata_lookup by (rewrite DIRENT_eq; lia).
    rewrite (wn_bytes _ _ _ _ _ _ _ W), Hlz by (rewrite written_size, <- written_nents, DIRENT_eq; lia). rewrite DIRENT_eq.
    intros [= <-]. destruct (decide (j = i)) as [->|Hne].
    + rewrite decide_True by lia. intros Hy. apply list_lookup_total_correct. rewrite <- Hy. f_equal. lia.
    + rewrite decide_False by lia. unfold dent. rewrite fdata_lookup by (rewrite DIRENT_eq; lia).
      rewrite DIRENT_eq. now intros [= <-].
Qed.

(** A slot overwritten, or added at the end. *)
Lemma written_entries : entries k' nd' = take i (entries k nd) ++ entry_of de :: drop (S i) (entries k nd).
Proof using All.
  pose proof (length_entries nd k) as El. apply list_eq. intros j.
  destruct (decide (j < nents nd')%nat) as [Hj|Hj].
  - rewrite entries_lookup, written_dent by done. rewrite written_nents in Hj.
    destruct (lt_eq_lt_dec j i) as [[Hlt|E]|Hgt].
    + rewrite decide_False, lookup_app_l, lookup_take_lt, entries_lookup by (rewrite ?length_take; lia). done.
    + subst j. rewrite decide_True, lookup_app_r, length_take_le, Nat.sub_diag by (rewrite ?length_take; lia). done.
    + rewrite decide_False, lookup_app_r, length_take_le by (rewrite ?length_take; lia).
      destruct (j - i)%nat as [|d] eqn:Ed; [lia|]. rewrite lookup_cons_ne_0, lookup_drop by lia. cbn [Nat.pred].
      replace (S i + d)%nat with j by lia. rewrite entries_lookup by lia. done.
  - rewrite !lookup_ge_None_2; [done| |]; rewrite ?length_app, ?length_take, ?length_entries; cbn [length];
      rewrite ?length_drop; rewrite ?written_nents in *; lia.
Qed.
End Written.

(** [iput] of what [iget] returned: the entries that were in use are as before. *)
Lemma get_put_run k inum ip ic : calm k -> gotten k inum ip ic -> icache_wf ic ->
  exists ic', iput ip (set_icache ic k) = Ok tt (set_icache ic' k) /\ (icache_wf ic' /\ Forall countable_ref ic') /\
    (forall j n, icache k !! j = Some n -> 0 < i_ref n -> ic' !! j = Some n).
Proof.
  intros ((Hw0 & Hlow) & H2 & H3 & H4) (n & Hn & Hc) Hw.
  pose proof (proj1 (Forall_lookup _ _) Hlow ip n Hn) as Hln.
  assert (Hput : forall m, ic !! ip = Some m -> 0 < i_ref m ->
    (i_ref m =? 1) && has (i_flags m) I_VALID && (i_nlink m =? 0) = false -> (i_ref m = 1 -> has (i_flags m) I_BUSY = false) ->
    iput ip (set_icache ic k) = Ok tt (set_icache (alter less_ref ip ic) k) /\ icache_wf (alter less_ref ip ic)).
  { intros m Hm Hr H1 Hb. exact (iput_run (set_icache ic k) Hw H2 H3 H4 ip m Hm Hr H1 Hb). }
  exists (alter less_ref ip ic). destruct Hc as [[(Hr & _) ->]|(_ & Hr & ->)].
  - pose proof (more_ref_count n ltac:(lia) Hln) as Ec.
    assert (Hsame : alter less_ref ip (alter more_ref ip (icache k)) = icache k).
    { apply list_eq. intros j. rewrite !alter_lookup. case_decide as Ej; [subst j|done]. rewrite Hn. cbn. f_equal.
      unfold less_ref. rewrite Ec, s32_small by (unfold countable_ref in Hln; lia). replace (i_ref n + 1 - 1) with (i_ref n) by lia. now destruct n. }
    destruct (Hput (more_ref n)) as [E W]; [now rewrite list_lookup_alter_eq, Hn|lia| |lia|].
    { rewrite Ec, (proj2 (Z.eqb_neq (i_ref n + 1) 1)) by lia. done. }
    split; [exact E|]. split; [split; [exact W|now rewrite Hsame]|]. intros j m Hj _. now rewrite Hsame.
  - destruct (Hput (recycled 1 inum n)) as [E W]; [now rewrite list_lookup_alter_eq, Hn|cbn; lia|done|done|].
    split; [exact E|]. split; [split; [exact W|]|].
    { apply Forall_lookup. intros j m. rewrite !alter_lookup. case_decide as Ej; [subst j; rewrite Hn; intros [= <-]; done|].
      exact (proj1 (Forall_lookup _ _) Hlow j m). }
    intros j m Hj Hm. rewrite !alter_lookup. case_decide as Ej; [|done]. subst j.
    rewrite Hn in Hj. injection Hj as ->. lia.
Qed.

Lemma dir_ok_set_icache k dp nd ic : dir_ok k dp nd -> ic !! dp = Some nd -> dir_ok (set_icache ic k) dp nd.
Proof.
  intros [H1 H2 H3 H4 H5 H6 H7] Hn. split; try done; [now apply tx_set_icache|now apply fs_ok_set_icache|now apply file_ok_set_icache].
Qed.

(** A name that is there already. *)
Lemma dirlink_exists_run k dp nd name inum i x :
  dir_ok k dp nd -> calm k -> bytes_ok name -> dfind (entries k nd) (dname name) 0 = Some (i, x) -> can_get k x ->
  exists k', dirlink dp name inum k = Ok (-1) k' /\ dir_ok k' dp nd /\ calm k' /\ entries k' nd = entries k nd.
Proof.
  intros Hk Hc Hb Hf Hg. destruct (dirlookup_search k dp nd name Hk Hb) as (k1 & U & R). rewrite Hf in R.
  destruct (undisturbed_dir dp nd k k1 Hk U) as [Hk1 He]. pose proof (calm_undisturbed k k1 Hc U) as Hc1.
  pose proof (dfind_inum k dp nd _ _ _ _ Hk Hf) as Hx. destruct (iget_gotten k1 x Hc1 ltac:(lia)) as [HG _].
  destruct HG as (ip & ic & E & G & Wf); [unfold can_get in *; now rewrite (fx_icache (proj2 U))|].
  destruct (get_put_run k1 x ip ic Hc1 G Wf) as (ic' & E' & Wf' & Hkeep).
  exists (set_icache ic' k1). split_and!.
  - unfold dirlink. assert (R' : dirlookup dp name k = Ok (Some (ip, DIRENT * Z.of_nat i)) (set_icache ic k1)).
    { rewrite R. mok E. done. }
    mok R'. mok E'. done.
  - apply dir_ok_set_icache; [done|]. apply Hkeep; apply Hk1.
  - destruct Hc1 as (_ & ? & ? & ?). done.
  - exact He.
Qed.

Lemma span_dirent i : span (DIRENT * Z.of_nat i) DIRENT = 1.
Proof. rewrite DIRENT_eq. unfold span, BSIZE. cbn [Z.leb Z.compare]. Z.div_mod_to_equations. lia. Qed.

Lemma length_new_dirent inum name : length (new_dirent inum name) = Z.to_nat DIRENT.
Proof. unfold new_dirent. now rewrite length_app, length_strncpy_arr. Qed.

(** The write of the entry. *)
Lemma write_dirent_run k dp nd inum name s :
  let de := new_dirent inum name in
  dir_ok k dp nd -> bytes_ok name -> (s <= nents nd)%nat ->
  (sb_size (k_sb k) <= BPB -> DIRENT * Z.of_nat (S s) <= MAXFILE * BSIZE -> cap k 9 -> (1 + slack nd <= frees k)%nat ->
   exists k' nd', writei dp (FromBuf de) (DIRENT * Z.of_nat s) DIRENT k = Ok DIRENT k' /\
     written dp k nd k' nd' (DIRENT * Z.of_nat s) de) /\
  (MAXFILE * BSIZE < DIRENT * Z.of_nat (S s) -> writei dp (FromBuf de) (DIRENT * Z.of_nat s) DIRENT k = Ok (-1) k).
Proof.
  intros de Hk Hb Hs. pose proof (fl_size _ _ (do_file _ _ _ Hk)) as Hmx. rewrite MAXFILE_eq in *.
  assert (HB : BSIZE = 512) by done. pose proof (do_size _ _ _ Hk) as Hsz. pose proof (do_nd _ _ _ Hk) as Hnd.
  assert (Hty : i_type nd <> T_DEV) by now rewrite (do_type _ _ _ Hk).
  assert (Hln : Z.of_nat (length de) = DIRENT) by (unfold de; now rewrite length_new_dirent).
  assert (Ho : 0 <= DIRENT * Z.of_nat s <= i_size nd) by (rewrite DIRENT_eq in *; lia). split.
  - intros H1 H2 H3 H4.
    destruct (writei_run k dp nd (FromBuf de) de (DIRENT * Z.of_nat s)) as (k' & nd' & R & W);
      rewrite ?Hln, ?span_dirent, ?MAXFILE_eq; try done; try apply Hk.
    + apply Forall_app. split; [apply bytes_ok_le16|now apply bytes_ok_strncpy].
    + rewrite DIRENT_eq in *. lia.
    + rewrite Hln in R. now exists k', nd'.
  - intros H. apply (writei_refused k dp nd); try done; rewrite ?MAXFILE_eq; rewrite HB, DIRENT_eq in *; lia.
Qed.

(** A new name. *)
Lemma dirlink_new_run k dp nd name inum :
  let es := entries k nd in
  dir_ok k dp nd -> bytes_ok name -> dfind es (dname name) 0 = None -> 0 <= inum < 2 ^ 16 ->
  (sb_size (k_sb k) <= BPB -> DIRENT * Z.of_nat (S (free_slot es)) <= MAXFILE * BSIZE -> cap k 9 -> (1 + slack nd <= frees k)%nat ->
   exists k' nd', dirlink dp name inum k = Ok 0 k' /\ dir_ok k' dp nd' /\ entries k' nd' = dput (inum, dname name) es) /\
  (MAXFILE * BSIZE < DIRENT * Z.of_nat (S (free_slot es)) -> dirlink dp name inum k = Panic "dirlink").
Proof.
  intros es Hk Hb Hf Hi. destruct (dirlookup_search k dp nd name Hk Hb) as (k1 & U1 & R1). fold es in R1. rewrite Hf in R1.
  destruct (undisturbed_dir dp nd k k1 Hk U1) as [Hk1 He1].
  destruct (dirlink_loop_run dp nd (dir_rounds nd) k1 0 Hk1) as (k2 & R2 & U2); [unfold dir_rounds, nents; lia|].
  change (DIRENT * Z.of_nat 0) with 0 in R2. rewrite drop_0, He1 in R2. fold es in R2. cbn [Nat.add] in R2.
  destruct (undisturbed_dir dp nd k1 k2 Hk1 U2) as [Hk2 He2]. pose proof (undisturbed_trans _ _ _ U1 U2) as [T2 X].
  assert (Hs : (free_slot es <= nents nd)%nat) by (rewrite <- (length_entries nd k); apply free_slot_le).
  assert (R : dirlink dp name inum k = (w <- writei dp (FromBuf (new_dirent inum name)) (DIRENT * Z.of_nat (free_slot es)) DIRENT ;;
    if negb (w =? DIRENT) then panic "dirlink" else ret 0) k2).
  { unfold dirlink. mok R1. mok (getdir dp nd k1 Hk1). mok R2. reflexivity. }
  rewrite R. clear R R1 R2. destruct (write_dirent_run k2 dp nd inum name (free_slot es) Hk2 Hb Hs) as [Hw Hp].
  destruct (fs_frame_fields _ _ (fx_frame X)) as (_ & _ & Es & _). split.
  - intros H1 H2 H3 H4. destruct Hw as (k' & nd' & R & W); rewrite ?Es; try done.
    + exact (cap_step k k2 [] [] 9 T2 (fx_log X) H3).
    + pose proof (frees_view _ _ _ _ _ _ X (do_fs _ _ _ Hk)). lia.
    + exists k', nd'. mok R. rewrite Z.eqb_refl. split; [done|].
      split; [exact (written_dir_ok k2 dp nd k' nd' _ _ Hk2 Hs (length_new_dirent _ _) W)|].
      rewrite (written_entries k2 dp nd k' nd' _ _ Hk2 Hs (length_new_dirent _ _) W), entry_of_new, He2, He1 by done. done.
  - intros H. mok (Hp H). done.
Qed.

(** ** An example *)

(** A directory of one entry: the name "!" with the inode number 26984. *)
Definition ex_dir_inode : inode := mkInode 1 1 1 3 T_DIR 0 0 1 16 (24 :: replicate 12 0).

Lemma ex_dir_wf : icache_wf (<[0%nat := ex_dir_inode]> (icache ex_start)).
Proof.
  assert (E : <[0%nat := ex_dir_inode]> (icache ex_start) = alter (fun _ => ex_dir_inode) 0%nat (icache kernel0)) by reflexivity.
  rewrite E. apply (icache_wf_alter _ _ inode0 _ icache_wf_0); [reflexivity| |].
  - assert (Hi : inode_wf ex_dir_inode).
    { split; cbn [ex_dir_inode i_type i_major i_minor i_nlink i_size i_addrs]; unfold T_DIR; try lia; [reflexivity|].
      constructor; [lia|]. apply (Forall_replicate _ 12 0). lia. }
    split; [exact Hi|cbn; lia|cbn; lia|cbn; split; [lia|lia]].
  - intros _ j m Hj Hm [Hr _]. change (icache kernel0) with (replicate 50 inode0) in Hm. apply lookup_replicate in Hm as [-> _]. cbn in Hr. lia.
Qed.

Lemma ex_dir_low : Forall countable_ref (<[0%nat := ex_dir_inode]> (icache ex_start)).
Proof.
  apply Forall_insert; [|unfold countable_ref; cbn; lia]. apply Forall_insert; [|unfold countable_ref; cbn; lia].
  apply (Forall_replicate countable_ref 50 inode0). unfold countable_ref. cbn. lia.
Qed.

Lemma ex_dir : exists k, dir_ok k 0 ex_dir_inode /\ calm k /\ entries k ex_dir_inode = [(26984, [33])] /\ k_sb k = ex_sb /\
  cap k 17 /\ frees k = 39%nat /\ Exists (fun n => i_ref n = 0) (icache k).
Proof.
  destruct ex_file_calm as (k0 & (Ei & L1 & L2 & L3) & Ht & Hfs & Hfl & Hip & Hc & Es & Hv & Hby).
  set (k := set_icache (<[0%nat := ex_dir_inode]> (icache k0)) k0). exists k. split_and!.
  - split; try done; [now apply tx_set_icache|now apply fs_ok_set_icache| |].
    + apply file_ok_set_icache. destruct Hfl as [F1 F2 F3 F4 F5 F6 F7 F8 F9]. split; try done.
      intros n Hn Hs. apply (F9 n Hn). cbn [ex_inode ex_dir_inode i_size] in *. unfold BSIZE in *. lia.
    + cbn [k icache set_icache]. rewrite Ei. reflexivity.
  - split; [|done]. cbn [k icache set_icache]. rewrite Ei. split; [apply ex_dir_wf|apply ex_dir_low].
  - unfold entries. change (seq 0 (nents ex_dir_inode)) with [0%nat]. cbn [fmap list_fmap].
    assert (E : dent k ex_dir_inode 0 = ld8 (dsk ex_img 24) <$> seqZ 0 16); [|rewrite E; vm_compute; reflexivity].
    unfold dent, fdata. apply list_fmap_ext. intros i x Hx. apply lookup_seqZ in Hx as [-> Hi].
    rewrite DIRENT_eq in *. apply Hby. lia.
  - done.
  - done.
  - exact (ex_frees k0 Es Hv).
  - apply Exists_exists. exists inode0. split; [|reflexivity]. cbn [k icache set_icache]. rewrite Ei.
    apply (list_elem_of_lookup_2 _ 1). reflexivity.
Qed.

(** ** Properties *)

(** C15. [dirlookup] finds the first entry in use with the name, names being compared
    on their first 14 characters, and reports nothing when there is none.  The
    entry's inode is then in the inode cache with one more reference (no count being
    at the limit of its type before; when the cache has neither an entry for it nor a
    free one, [iget] panics), and no block of
    the file system and no entry of the directory has changed.  Called on something
    else than a directory it panics. *)
Theorem dirlookup_correct k dp nd name : icache k !! dp = Some nd -> bytes_ok name ->
  (i_type nd <> T_DIR -> dirlookup dp name k = Panic "dirlookup not DIR") /\
  (dir_ok k dp nd -> calm k ->
   match dfind (entries k nd) (dname name) 0 with
   | None => exists k', dirlookup dp name k = Ok None k' /\ undisturbed k k' /\ entries k' nd = entries k nd
   | Some (i, inum) =>
       (can_get k inum -> exists k' ip ic,
          dirlookup dp name k = Ok (Some (ip, DIRENT * Z.of_nat i)) (set_icache ic k') /\ undisturbed k k' /\
          entries (set_icache ic k') nd = entries k nd /\ gotten k inum ip ic /\ icache_wf ic) /\
       (~ can_get k inum -> dirlookup dp name k = Panic "iget: no inodes")
   end).
Proof.
  intros Hn Hb. split.
  { intros Hty. unfold dirlookup, getinode. mred. rewrite (list_lookup_total_correct _ _ _ Hn), (proj2 (Z.eqb_neq _ _)) by done. done. }
  intros Hk Hc. destruct (dirlookup_search k dp nd name Hk Hb) as (k1 & U & R).
  destruct (undisturbed_dir dp nd k k1 Hk U) as [Hk1 He]. pose proof (calm_undisturbed k k1 Hc U) as Hc1.
  destruct (dfind (entries k nd) (dname name) 0) as [[i x]|] eqn:Hf; [|now exists k1].
  pose proof (dfind_inum k dp nd _ _ _ _ Hk Hf) as Hx. destruct (iget_gotten k1 x Hc1 ltac:(lia)) as [HG HP].
  unfold can_get, gotten, no_entry in *. rewrite (fx_icache (proj2 U)) in *. split.
  - intros Hg. destruct (HG Hg) as (ip & ic & E & G & Wf). exists k1, ip, ic. split_and!; try done. rewrite R. mok E. done.
  - intros Hg. rewrite R. now rewrite (bind_panic _ _ _ _ (HP Hg)).
Qed.

Lemma dirlookup_correct_witness : exists k k' ip ic, dirlookup 0 [33] k = Ok (Some (ip, 0)) (set_icache ic k') /\ gotten k 26984 ip ic.
Proof.
  destruct ex_dir as (k & Hk & Hc & He & _ & _ & _ & Hx).
  destruct (dirlookup_correct k 0 ex_dir_inode [33] (do_nd _ _ _ Hk)) as [_ H]; [repeat constructor; lia|].
  specialize (H Hk Hc). rewrite He in H. destruct H as [H _].
  destruct H as (k' & ip & ic & R & _ & _ & G & _); [|now exists k, k', ip, ic].
  apply (Exists_impl _ _ _ Hx). intros n Hn. now right.
Defined.

(** C14. [dirlink] adds a name to a directory: the entry goes into the first free
    slot, or at the end, every other entry stays, and from then on the name is found
    with its inode number while all other names find what they found before.  A name
    that is there already gives -1 and leaves the directory and the inodes in use as
    they were; a directory with no free slot that has reached the largest file size
    makes it panic. *)
Theorem dirlink_correct k dp nd name inum : dir_ok k dp nd -> calm k -> bytes_ok name -> 0 < inum < 2 ^ 16 ->
  let es := entries k nd in
  let nm := dname name in
  match dfind es nm 0 with
  | Some (_, x) =>
      can_get k x -> exists k', dirlink dp name inum k = Ok (-1) k' /\ dir_ok k' dp nd /\ calm k' /\ entries k' nd = es
  | None =>
      (sb_size (k_sb k) <= BPB -> DIRENT * Z.of_nat (S (free_slot es)) <= MAXFILE * BSIZE -> cap k 9 ->
       (1 + slack nd <= frees k)%nat ->
       exists k' nd', dirlink dp name inum k = Ok 0 k' /\ dir_ok k' dp nd' /\ entries k' nd' = dput (inum, nm) es /\
         dfind (entries k' nd') nm 0 = Some (free_slot es, inum) /\
         (forall other, other <> nm -> dfind (entries k' nd') other 0 = dfind es other 0)) /\
      (MAXFILE * BSIZE < DIRENT * Z.of_nat (S (free_slot es)) -> dirlink dp name inum k = Panic "dirlink")
  end.
Proof.
  intros Hk Hc Hb Hi es nm. destruct (dfind es nm 0) as [[i x]|] eqn:Hf.
  { intros Hg. now apply (dirlink_exists_run k dp nd name inum i x). }
  destruct (dirlink_new_run k dp nd name inum Hk Hb Hf ltac:(lia)) as [Hr Hp]. split; [|exact Hp].
  intros H1 H2 H3 H4. destruct (Hr H1 H2 H3 H4) as (k' & nd' & R & Hk' & He). exists k', nd'.
  destruct (dfind_dput es inum nm ltac:(lia) 0%nat Hf) as [D1 D2]. rewrite He. split_and!; try done.
Qed.

Lemma dirlink_correct_witness : exists k k' nd', dirlink 0 [97; 98] 7 k = Ok 0 k' /\
  entries k' nd' = [(26984, [33]); (7, [97; 98])] /\ dfind (entries k' nd') [97; 98] 0 = Some (1%nat, 7).
Proof.
  destruct ex_dir as (k & Hk & Hc & He & Es & Hcap & Hfr & _).
  pose proof (dirlink_correct k 0 ex_dir_inode [97; 98] 7 Hk Hc) as H. cbv zeta in H. rewrite He in H.
  destruct H as [H _]; [repeat constructor; lia|lia|].
  destruct H as (k' & nd' & R & _ & E & F & _); [rewrite Es; cbn; unfold BPB, BSIZE; lia|rewrite MAXFILE_eq, DIRENT_eq; cbn; unfold BSIZE; lia| | |].
  - unfold cap in *. lia.
  - rewrite Hfr. unfold slack. destruct (_ =? 0); lia.
  - exists k, k', nd'. split; [exact R|]. split; [exact E|exact F].
Defined.
