(* ===== verification/Usertests.v ===== *)
(** * The tests of the system calls (usertests.c)

    Every test is a program of system calls: it compares the kernel's answers with
    what it expects, and prints a line and exits at the first difference.  The array
    [buf] of 8192 bytes that the tests share is passed along; a test that changes it
    returns its new contents.  The child of a [fork] is the branch of the answer 0.

    [Spin] stands for [for(;;);], a process that makes no call any more.  The loops
    the kernel's answers end run within a bound [fuel]. *)

From S2P Require Import Prelude State Strings Bytes Inode User Umalloc.
Import Printf.

Definition O_RDONLY : Z := 0x000.
Definition O_WRONLY : Z := 0x001.
Definition O_RDWR : Z := 0x002.
Definition O_CREATE : Z := 0x200.

(** [for(i = i0; ...; i++)] with [n] rounds, and a loop that its body ends. *)
Fixpoint for_loop {S} (n : nat) (i : Z) (body : Z -> S -> prog S) (s : S) : prog S :=
  match n with
  | O => Ret s
  | Datatypes.S n' => s <- body i s ;; for_loop n' (i + 1) body s
  end.

Fixpoint while_loop {S B} (fuel : nat) (body : S -> prog (S + B)) (s : S) : prog B :=
  match fuel with
  | O => Spin
  | Datatypes.S fuel' =>
      r <- body s ;;
      match r with
      | inl s => while_loop fuel' body s
      | inr b => Ret b
      end
  end.

(** [if(c){ printf(fd, msg, args); exit(); }] *)
Definition fail_if (c : bool) (fd : Z) (msg : string) (args : list arg) : prog unit :=
  if c then print fd msg args ;; Exit else Ret tt.

Definition stdout : Z := 1.
Definition BUFSZ : Z := 8192.
Definition echoargv : list (list Z) := [str "echo"; str "ALL"; str "TESTS"; str "PASSED"].

(** A plain [char] as the C code compares it. *)
Definition schar (b : Z) : Z := if b <? 128 then b else b - 256.

(** The bytes [bs] stored from the start of an array on. *)
Definition fill (buf bs : list Z) : list Z := take (length buf) (bs ++ drop (length bs) buf).

(** [write(fd, buf, n)] and [read(fd, buf, n)] on an array. *)
Definition write_buf (fd : Z) (buf : list Z) (n : Z) : prog Z := sys (Write fd (take (Z.to_nat n) buf)).
Definition read_buf (fd : Z) (buf : list Z) (n : Z) : prog (Z * list Z) :=
  r <- sys (Read fd n) ;; Ret (fst r, fill buf (snd r)).

(** ** Inodes and transactions *)

Definition iputtest : prog unit :=
  print stdout "iput test
" [] ;;
  r <- sys (Mkdir (str "iputdir")) ;;
  fail_if (r <? 0) stdout "mkdir failed
" [] ;;
  r <- sys (Chdir (str "iputdir")) ;;
  fail_if (r <? 0) stdout "chdir iputdir failed
" [] ;;
  r <- sys (Unlink (str "../iputdir")) ;;
  fail_if (r <? 0) stdout "unlink ../iputdir failed
" [] ;;
  r <- sys (Chdir (str "/")) ;;
  fail_if (r <? 0) stdout "chdir / failed
" [] ;;
  print stdout "iput test ok
" [].

Definition exitiputtest : prog unit :=
  print stdout "exitiput test
" [] ;;
  pid <- sys Fork ;;
  fail_if (pid <? 0) stdout "fork failed
" [] ;;
  (if pid =? 0 then
     r <- sys (Mkdir (str "iputdir")) ;;
     fail_if (r <? 0) stdout "mkdir failed
" [] ;;
     r <- sys (Chdir (str "iputdir")) ;;
     fail_if (r <? 0) stdout "child chdir failed
" [] ;;
     r <- sys (Unlink (str "../iputdir")) ;;
     fail_if (r <? 0) stdout "unlink ../iputdir failed
" [] ;;
     Exit
   else Ret tt) ;;
  sys Wait ;;
  print stdout "exitiput test ok
" [].

Definition openiputtest : prog unit :=
  print stdout "openiput test
" [] ;;
  r <- sys (Mkdir (str "oidir")) ;;
  fail_if (r <? 0) stdout "mkdir oidir failed
" [] ;;
  pid <- sys Fork ;;
  fail_if (pid <? 0) stdout "fork failed
" [] ;;
  (if pid =? 0 then
     fd <- sys (Open (str "oidir") O_RDWR) ;;
     fail_if (0 <=? fd) stdout "open directory for write succeeded
" [] ;;
     Exit
   else Ret tt) ;;
  sys (Sleep 1) ;;
  r <- sys (Unlink (str "oidir")) ;;
  fail_if (negb (r =? 0)) stdout "unlink failed
" [] ;;
  sys Wait ;;
  print stdout "openiput test ok
" [].

(** ** Simple file system tests *)

Definition opentest : prog unit :=
  print stdout "open test
" [] ;;
  fd <- sys (Open (str "echo") 0) ;;
  fail_if (fd <? 0) stdout "open echo failed!
" [] ;;
  sys (Close fd) ;;
  fd <- sys (Open (str "doesnotexist") 0) ;;
  fail_if (0 <=? fd) stdout "open doesnotexist succeeded!
" [] ;;
  print stdout "open test ok
" [].

Definition writetest (buf : list Z) : prog (list Z) :=
  print stdout "small file test
" [] ;;
  fd <- sys (Open (str "small") (Z.lor O_CREATE O_RDWR)) ;;
  (if 0 <=? fd then print stdout "creat small succeeded; ok
" []
   else print stdout "error: creat small failed!
" [] ;; Exit) ;;
  for_loop 100 0 (fun i _ =>
    r <- sys (Write fd (str "aaaaaaaaaa")) ;;
    fail_if (negb (r =? 10)) stdout "error: write aa %d new file failed
" [Int i] ;;
    r <- sys (Write fd (str "bbbbbbbbbb")) ;;
    fail_if (negb (r =? 10)) stdout "error: write bb %d new file failed
" [Int i]) tt ;;
  print stdout "writes ok
" [] ;;
  sys (Close fd) ;;
  fd <- sys (Open (str "small") O_RDONLY) ;;
  (if 0 <=? fd then print stdout "open small succeeded ok
" []
   else print stdout "error: open small failed!
" [] ;; Exit) ;;
  r <- read_buf fd buf 2000 ;;
  let '(i, buf) := r in
  (if i =? 2000 then print stdout "read succeeded ok
" []
   else print stdout "read failed
" [] ;; Exit) ;;
  sys (Close fd) ;;
  r <- sys (Unlink (str "small")) ;;
  fail_if (r <? 0) stdout "unlink small failed
" [] ;;
  print stdout "small file test ok
" [] ;;
  Ret buf.

Definition writetest1 (fuel : nat) (buf : list Z) : prog (list Z) :=
  print stdout "big files test
" [] ;;
  fd <- sys (Open (str "big") (Z.lor O_CREATE O_RDWR)) ;;
  fail_if (fd <? 0) stdout "error: creat big failed!
" [] ;;
  buf <- for_loop (Z.to_nat MAXFILE) 0 (fun i buf =>
    let buf := fill buf (le32 i) in
    r <- write_buf fd buf 512 ;;
    fail_if (negb (r =? 512)) stdout "error: write big file failed
" [Int i] ;;
    Ret buf) buf ;;
  sys (Close fd) ;;
  fd <- sys (Open (str "big") O_RDONLY) ;;
  fail_if (fd <? 0) stdout "error: open big failed!
" [] ;;
  buf <- while_loop fuel (fun '(n, buf) =>
    r <- read_buf fd buf 512 ;;
    let '(i, buf) := r in
    if i =? 0 then
      fail_if (n =? MAXFILE - 1) stdout "read only %d blocks from big" [Int n] ;;
      Ret (inr buf)
    else
      fail_if (negb (i =? 512)) stdout "read failed %d
" [Int i] ;;
      fail_if (negb (s32 (ld32 buf 0) =? n)) stdout "read content of block %d is %d
" [Int n; Int (s32 (ld32 buf 0))] ;;
      Ret (inl (s32 (n + 1), buf))) (0, buf) ;;
  sys (Close fd) ;;
  r <- sys (Unlink (str "big")) ;;
  fail_if (r <? 0) stdout "unlink big failed
" [] ;;
  print stdout "big files ok
" [] ;;
  Ret buf.

(** The string in the global array [name]: the letter [c], then the character
    ['0' + i]. *)
Definition name2 (c i : Z) : list Z := [c; u8 (48 + i)].

Definition createtest : prog unit :=
  print stdout "many creates, followed by unlink test
" [] ;;
  for_loop 52 0 (fun i _ =>
    fd <- sys (Open (name2 97 i) (Z.lor O_CREATE O_RDWR)) ;;
    sys (Close fd) ;; Ret tt) tt ;;
  for_loop 52 0 (fun i _ => sys (Unlink (name2 97 i)) ;; Ret tt) tt ;;
  print stdout "many creates, followed by unlink; ok
" [].

Definition dirtest : prog unit :=
  print stdout "mkdir test
" [] ;;
  r <- sys (Mkdir (str "dir0")) ;;
  fail_if (r <? 0) stdout "mkdir failed
" [] ;;
  r <- sys (Chdir (str "dir0")) ;;
  fail_if (r <? 0) stdout "chdir dir0 failed
" [] ;;
  r <- sys (Chdir (str "..")) ;;
  fail_if (r <? 0) stdout "chdir .. failed
" [] ;;
  r <- sys (Unlink (str "dir0")) ;;
  fail_if (r <? 0) stdout "unlink dir0 failed
" [] ;;
  print stdout "mkdir test ok
" [].

Definition exectest : prog unit :=
  print stdout "exec test
" [] ;;
  r <- sys (Exec (str "echo") echoargv) ;;
  fail_if (r <? 0) stdout "exec echo failed
" [].

(** ** Processes and pipes *)

(** The bytes [seq], [seq + 1], ... that the child of [pipe1] stores in [buf]. *)
Definition seq_bytes (seq : Z) (n : nat) : list Z := (fun i => u8 (seq + i)) <$> seqZ 0 (Z.of_nat n).

(** The writing loop of the child, and one round of it. *)
Definition pipe1_send (fd : Z) (_ : Z) (s : list Z * Z) : prog (list Z * Z) :=
  let '(buf, seq) := s in
  let buf := fill buf (seq_bytes seq 1033) in
  r <- write_buf fd buf 1033 ;;
  fail_if (negb (r =? 1033)) 1 "pipe1 oops 1
" [] ;;
  Ret (buf, seq + 1033).

Definition pipe1_child (fd : Z) (buf : list Z) : prog (list Z * Z) := for_loop 5 0 (pipe1_send fd) (buf, 0).

(** The comparison of [n] bytes read with the sequence: [None] at a difference. *)
Fixpoint pipe1_check (bs : list Z) (seq : Z) : option Z :=
  match bs with
  | [] => Some seq
  | b :: bs' => if negb (Z.land b 0xff =? Z.land seq 0xff) then None else pipe1_check bs' (s32 (seq + 1))
  end.

(** The reading loop of the parent, and one round of it: the variables are [seq],
    [cc], [total] and [buf].  The result is [None] when it returns at a difference. *)
Definition pipe1_round (fd : Z) (s : Z * Z * Z * list Z) : prog (Z * Z * Z * list Z + option Z * list Z) :=
  let '(seq, cc, total, buf) := s in
  r <- read_buf fd buf cc ;;
  let '(n, buf) := r in
  if 0 <? n then
    match pipe1_check (take (Z.to_nat n) buf) seq with
    | None => print 1 "pipe1 oops 2
" [] ;; Ret (inr (None, buf))
    | Some seq =>
        let cc := cc * 2 in
        let cc := if BUFSZ <? cc then BUFSZ else cc in
        Ret (inl (seq, cc, s32 (total + n), buf))
    end
  else Ret (inr (Some total, buf)).

Definition pipe1_parent (fuel : nat) (fd : Z) (buf : list Z) : prog (option Z * list Z) :=
  while_loop fuel (pipe1_round fd) (0, 1, 0, buf).

Definition pipe1 (fuel : nat) (buf : list Z) : prog (list Z) :=
  r <- sys Pipe ;;
  let '(r, fd0, fd1) := r in
  fail_if (negb (r =? 0)) 1 "pipe() failed
" [] ;;
  pid <- sys Fork ;;
  if pid =? 0 then
    sys (Close fd0) ;;
    pipe1_child fd1 buf ;;
    Exit
  else if 0 <? pid then
    sys (Close fd1) ;;
    r <- pipe1_parent fuel fd0 buf ;;
    match r with
    | (None, buf) => Ret buf
    | (Some total, buf) =>
        fail_if (negb (total =? 5 * 1033)) 1 "pipe1 oops 3 total %d
" [Int total] ;;
        sys (Close fd0) ;;
        sys Wait ;;
        print 1 "pipe1 ok
" [] ;;
        Ret buf
    end
  else print 1 "fork() failed
" [] ;; Exit.

Definition preempt (buf : list Z) : prog (list Z) :=
  print 1 "preempt: " [] ;;
  pid1 <- sys Fork ;;
  if pid1 =? 0 then Spin else
  pid2 <- sys Fork ;;
  if pid2 =? 0 then Spin else
  r <- sys Pipe ;;
  let '(_, pfd0, pfd1) := r in
  pid3 <- sys Fork ;;
  if pid3 =? 0 then
    sys (Close pfd0) ;;
    r <- sys (Write pfd1 (str "x")) ;;
    (if negb (r =? 1) then print 1 "preempt write error" [] else Ret tt) ;;
    sys (Close pfd1) ;;
    Spin
  else
    sys (Close pfd1) ;;
    r <- read_buf pfd0 buf BUFSZ ;;
    let '(n, buf) := r in
    if negb (n =? 1) then print 1 "preempt read error" [] ;; Ret buf
    else
      sys (Close pfd0) ;;
      print 1 "kill... " [] ;;
      sys (Kill pid1) ;;
      sys (Kill pid2) ;;
      sys (Kill pid3) ;;
      print 1 "wait... " [] ;;
      sys Wait ;;
      sys Wait ;;
      sys Wait ;;
      print 1 "preempt ok
" [] ;;
      Ret buf.

(** The rounds of [exitwait] from [n] on; it returns early when [fork] or [wait] go
    wrong. *)
Fixpoint exitwait_loop (n : nat) : prog unit :=
  match n with
  | O => print 1 "exitwait ok
" []
  | S n' =>
      pid <- sys Fork ;;
      if pid <? 0 then print 1 "fork failed
" []
      else if negb (pid =? 0) then
        r <- sys Wait ;;
        if negb (r =? pid) then print 1 "wait wrong pid
" [] else exitwait_loop n'
      else Exit
  end.

Definition exitwait : prog unit := exitwait_loop 100.

(** [base] is the address of malloc's static header.  The child takes all the memory
    it gets as a list linked through the blocks, and gives it back. *)
Definition mem_child (fuel : nat) (base : Z) (h : heap) (ppid : Z) : prog unit :=
  r <- while_loop fuel (fun '(m1, h) =>
    r <- malloc base fuel h 10001 ;;
    let '(m2, h) := r in
    if m2 =? 0 then Ret (inr (m1, h))
    else Ret (inl (m2, mkHeap (set_ptr (hmem h) m2 m1) (freep h)))) (0, h) ;;
  let '(m1, h) := r in
  h <- while_loop fuel (fun '(m1, h) =>
    if m1 =? 0 then Ret (inr h)
    else
      let m2 := hptr (hmem h) m1 in
      match free fuel h m1 with
      | None => Spin
      | Some h => Ret (inl (m2, h))
      end) (m1, h) ;;
  r <- malloc base fuel h (1024 * 20) ;;
  let '(m1, h) := r in
  if m1 =? 0 then
    print 1 "couldn't allocate mem?!!
" [] ;;
    sys (Kill ppid) ;;
    Exit
  else
    match free fuel h m1 with
    | None => Spin
    | Some _ => print 1 "mem ok
" [] ;; Exit
    end.

Definition mem (fuel : nat) (base : Z) (h : heap) : prog unit :=
  print 1 "mem test
" [] ;;
  ppid <- sys Getpid ;;
  pid <- sys Fork ;;
  if pid =? 0 then mem_child fuel base h ppid
  else sys Wait ;; Ret tt.

(** ** More file system tests *)

(** The 1000 writes of [sharedfd]; a write that fails ends the loop. *)
Fixpoint sharedfd_writes (n : nat) (fd : Z) (buf : list Z) : prog unit :=
  match n with
  | O => Ret tt
  | S n' =>
      r <- sys (Write fd buf) ;;
      if negb (r =? 10) then print 1 "fstests: write sharedfd failed
" [] else sharedfd_writes n' fd buf
  end.

Definition count_byte (c : Z) (bs : list Z) (n : Z) : Z := fold_left (fun n b => if b =? c then s32 (n + 1) else n) bs n.

Definition sharedfd (fuel : nat) : prog unit :=
  print 1 "sharedfd test
" [] ;;
  sys (Unlink (str "sharedfd")) ;;
  fd <- sys (Open (str "sharedfd") (Z.lor O_CREATE O_RDWR)) ;;
  if fd <? 0 then print 1 "fstests: cannot open sharedfd for writing" [] else
  pid <- sys Fork ;;
  let buf := replicate 10 (if pid =? 0 then 99 else 112) in
  sharedfd_writes 1000 fd buf ;;
  (if pid =? 0 then Exit else sys Wait) ;;
  sys (Close fd) ;;
  fd <- sys (Open (str "sharedfd") 0) ;;
  if fd <? 0 then print 1 "fstests: cannot open sharedfd for reading
" [] else
  r <- while_loop fuel (fun '(nc, np, buf) =>
    r <- read_buf fd buf 10 ;;
    let '(n, buf) := r in
    if 0 <? n then Ret (inl (count_byte 99 buf nc, count_byte 112 buf np, buf))
    else Ret (inr (nc, np))) (0, 0, buf) ;;
  let '(nc, np) := r in
  sys (Close fd) ;;
  sys (Unlink (str "sharedfd")) ;;
  if (nc =? 10000) && (np =? 10000) then print 1 "sharedfd ok
" []
  else print 1 "sharedfd oops %d %d
" [Int nc; Int np] ;; Exit.

Definition fourfiles_names : list (list Z) := [str "f0"; str "f1"; str "f2"; str "f3"].

Definition fourfiles_child (fname : list Z) (pi : Z) (buf : list Z) : prog unit :=
  fd <- sys (Open fname (Z.lor O_CREATE O_RDWR)) ;;
  fail_if (fd <? 0) 1 "create failed
" [] ;;
  let buf := fill buf (replicate 512 (u8 (48 + pi))) in
  for_loop 12 0 (fun _ _ =>
    n <- write_buf fd buf 500 ;;
    fail_if (negb (n =? 500)) 1 "write failed %d
" [Int n]) tt ;;
  Exit.

Definition fourfiles (fuel : nat) (buf : list Z) : prog (list Z) :=
  print 1 "fourfiles test
" [] ;;
  for_loop 4 0 (fun pi _ =>
    let fname := fourfiles_names !!! Z.to_nat pi in
    sys (Unlink fname) ;;
    pid <- sys Fork ;;
    fail_if (pid <? 0) 1 "fork failed
" [] ;;
    if pid =? 0 then fourfiles_child fname pi buf else Ret tt) tt ;;
  for_loop 4 0 (fun _ _ => sys Wait ;; Ret tt) tt ;;
  buf <- for_loop 2 0 (fun i buf =>
    let fname := fourfiles_names !!! Z.to_nat i in
    fd <- sys (Open fname 0) ;;
    r <- while_loop fuel (fun '(total, buf) =>
      r <- read_buf fd buf BUFSZ ;;
      let '(n, buf) := r in
      if 0 <? n then
        fail_if (negb (forallb (fun b => schar b =? 48 + i) (take (Z.to_nat n) buf))) 1 "wrong char
" [] ;;
        Ret (inl (s32 (total + n), buf))
      else Ret (inr (total, buf))) (0, buf) ;;
    let '(total, buf) := r in
    sys (Close fd) ;;
    fail_if (negb (total =? 12 * 500)) 1 "wrong length %d
" [Int total] ;;
    sys (Unlink fname) ;;
    Ret buf) buf ;;
  print 1 "fourfiles ok
" [] ;;
  Ret buf.

Definition createdelete_N : Z := 20.

Definition createdelete_child (pi : Z) : prog unit :=
  for_loop (Z.to_nat createdelete_N) 0 (fun i _ =>
    fd <- sys (Open (name2 (112 + pi) i) (Z.lor O_CREATE O_RDWR)) ;;
    fail_if (fd <? 0) 1 "create failed
" [] ;;
    sys (Close fd) ;;
    if (0 <? i) && (i mod 2 =? 0) then
      r <- sys (Unlink (name2 (112 + pi) (i / 2))) ;;
      fail_if (r <? 0) 1 "unlink failed
" []
    else Ret tt) tt ;;
  Exit.

Definition createdelete : prog unit :=
  let N := createdelete_N in
  print 1 "createdelete test
" [] ;;
  for_loop 4 0 (fun pi _ =>
    pid <- sys Fork ;;
    fail_if (pid <? 0) 1 "fork failed
" [] ;;
    if pid =? 0 then createdelete_child pi else Ret tt) tt ;;
  for_loop 4 0 (fun _ _ => sys Wait ;; Ret tt) tt ;;
  for_loop (Z.to_nat N) 0 (fun i _ =>
    for_loop 4 0 (fun pi _ =>
      let name := name2 (112 + pi) i in
      fd <- sys (Open name 0) ;;
      (if ((i =? 0) || (N / 2 <=? i)) && (fd <? 0) then
         print 1 "oops createdelete %s didn't exist
" [Ptr name] ;; Exit
       else if ((1 <=? i) && (i <? N / 2)) && (0 <=? fd) then
         print 1 "oops createdelete %s did exist
" [Ptr name] ;; Exit
       else Ret tt) ;;
      if 0 <=? fd then sys (Close fd) ;; Ret tt else Ret tt) tt) tt ;;
  for_loop (Z.to_nat N) 0 (fun i _ =>
    for_loop 4 0 (fun _ _ => sys (Unlink (name2 (u8 (112 + i)) i)) ;; Ret tt) tt) tt ;;
  print 1 "createdelete ok
" [].

Definition unlinkread (buf : list Z) : prog (list Z) :=
  print 1 "unlinkread test
" [] ;;
  fd <- sys (Open (str "unlinkread") (Z.lor O_CREATE O_RDWR)) ;;
  fail_if (fd <? 0) 1 "create unlinkread failed
" [] ;;
  sys (Write fd (str "hello")) ;;
  sys (Close fd) ;;
  fd <- sys (Open (str "unlinkread") O_RDWR) ;;
  fail_if (fd <? 0) 1 "open unlinkread failed
" [] ;;
  r <- sys (Unlink (str "unlinkread")) ;;
  fail_if (negb (r =? 0)) 1 "unlink unlinkread failed
" [] ;;
  fd1 <- sys (Open (str "unlinkread") (Z.lor O_CREATE O_RDWR)) ;;
  sys (Write fd1 (str "yyy")) ;;
  sys (Close fd1) ;;
  r <- read_buf fd buf BUFSZ ;;
  let '(n, buf) := r in
  fail_if (negb (n =? 5)) 1 "unlinkread read failed" [] ;;
  fail_if (negb (schar (buf !!! 0%nat) =? 104)) 1 "unlinkread wrong data
" [] ;;
  r <- write_buf fd buf 10 ;;
  fail_if (negb (r =? 10)) 1 "unlinkread write failed
" [] ;;
  sys (Close fd) ;;
  sys (Unlink (str "unlinkread")) ;;
  print 1 "unlinkread ok
" [] ;;
  Ret buf.

Definition linktest (buf : list Z) : prog (list Z) :=
  print 1 "linktest
" [] ;;
  sys (Unlink (str "lf1")) ;;
  sys (Unlink (str "lf2")) ;;
  fd <- sys (Open (str "lf1") (Z.lor O_CREATE O_RDWR)) ;;
  fail_if (fd <? 0) 1 "create lf1 failed
" [] ;;
  r <- sys (Write fd (str "hello")) ;;
  fail_if (negb (r =? 5)) 1 "write lf1 failed
" [] ;;
  sys (Close fd) ;;
  r <- sys (Link (str "lf1") (str "lf2")) ;;
  fail_if (r <? 0) 1 "link lf1 lf2 failed
" [] ;;
  sys (Unlink (str "lf1")) ;;
  r <- sys (Open (str "lf1") 0) ;;
  fail_if (0 <=? r) 1 "unlinked lf1 but it is still there!
" [] ;;
  fd <- sys (Open (str "lf2") 0) ;;
  fail_if (fd <? 0) 1 "open lf2 failed
" [] ;;
  r <- read_buf fd buf BUFSZ ;;
  let '(n, buf) := r in
  fail_if (negb (n =? 5)) 1 "read lf2 failed
" [] ;;
  sys (Close fd) ;;
  r <- sys (Link (str "lf2") (str "lf2")) ;;
  fail_if (0 <=? r) 1 "link lf2 lf2 succeeded! oops
" [] ;;
  sys (Unlink (str "lf2")) ;;
  r <- sys (Link (str "lf2") (str "lf1")) ;;
  fail_if (0 <=? r) 1 "link non-existant succeeded! oops
" [] ;;
  r <- sys (Link (str ".") (str "lf1")) ;;
  fail_if (0 <=? r) 1 "link . lf1 succeeded! oops
" [] ;;
  print 1 "linktest ok
" [] ;;
  Ret buf.

(** [if(pid == 0) exit(); else wait();] *)
Definition exit_or_wait (pid : Z) : prog unit := if pid =? 0 then Exit else sys Wait ;; Ret tt.

(** The scan of the directory: [de] is the entry last read, [fa] the files seen. *)
Definition concreate_scan (fuel : nat) (fd : Z) (de fa : list Z) : prog Z :=
  while_loop fuel (fun '(de, fa, n) =>
    r <- read_buf fd de 16 ;;
    let '(cc, de) := r in
    if cc <=? 0 then Ret (inr n)
    else if ld16 de 0 =? 0 then Ret (inl (de, fa, n))
    else
      let name := slice de 2 14 in
      if (name !!! 0%nat =? 67) && (name !!! 2%nat =? 0) then
        let i := schar (name !!! 1%nat) - 48 in
        fail_if ((i <? 0) || (40 <=? i)) 1 "concreate weird file %s
" [Ptr name] ;;
        fail_if (negb (fa !!! Z.to_nat i =? 0)) 1 "concreate duplicate file %s
" [Ptr name] ;;
        Ret (inl (de, <[Z.to_nat i := 1]> fa, n + 1))
      else Ret (inl (de, fa, n))) (de, fa, 0).

(** [close(open(file, mode))] *)
Definition close_open (file : list Z) (mode : Z) : prog Z := fd <- sys (Open file mode) ;; sys (Close fd).

(** [de] starts with whatever the stack held. *)
Definition concreate (fuel : nat) (de : list Z) : prog unit :=
  print 1 "concreate test
" [] ;;
  for_loop 40 0 (fun i _ =>
    let file := name2 67 i in
    sys (Unlink file) ;;
    pid <- sys Fork ;;
    (if negb (pid =? 0) && (i mod 3 =? 1) then sys (Link (str "C0") file) ;; Ret tt
     else if (pid =? 0) && (i mod 5 =? 1) then sys (Link (str "C0") file) ;; Ret tt
     else
       fd <- sys (Open file (Z.lor O_CREATE O_RDWR)) ;;
       fail_if (fd <? 0) 1 "concreate create %s failed
" [Ptr file] ;;
       sys (Close fd) ;; Ret tt) ;;
    exit_or_wait pid) tt ;;
  fd <- sys (Open (str ".") 0) ;;
  n <- concreate_scan fuel fd de (replicate 40 0) ;;
  sys (Close fd) ;;
  fail_if (negb (n =? 40)) 1 "concreate not enough files in directory listing
" [] ;;
  for_loop 40 0 (fun i _ =>
    let file := name2 67 i in
    pid <- sys Fork ;;
    fail_if (pid <? 0) 1 "fork failed
" [] ;;
    for_loop 4 0 (fun _ _ =>
      (if ((i mod 3 =? 0) && (pid =? 0)) || ((i mod 3 =? 1) && negb (pid =? 0)) then close_open file 0
       else sys (Unlink file)) ;;
      Ret tt) tt ;;
    exit_or_wait pid) tt ;;
  print 1 "concreate ok
" [].

Definition linkunlink : prog unit :=
  print 1 "linkunlink test
" [] ;;
  sys (Unlink (str "x")) ;;
  pid <- sys Fork ;;
  fail_if (pid <? 0) 1 "fork failed
" [] ;;
  for_loop 100 0 (fun _ x =>
    let x := u32 (x * 1103515245 + 12345) in
    (if x mod 3 =? 0 then close_open (str "x") (Z.lor O_RDWR O_CREATE)
     else if x mod 3 =? 1 then sys (Link (str "cat") (str "x"))
     else sys (Unlink (str "x"))) ;;
    Ret x) (if pid =? 0 then 97 else 1) ;;
  (if negb (pid =? 0) then sys Wait ;; Ret tt else Exit) ;;
  print 1 "linkunlink ok
" [].

(** The name [x] with two digits to base 64. *)
Definition bigdir_name (i : Z) : list Z := [120; 48 + i / 64; 48 + i mod 64].

Definition bigdir : prog unit :=
  print 1 "bigdir test
" [] ;;
  sys (Unlink (str "bd")) ;;
  fd <- sys (Open (str "bd") O_CREATE) ;;
  fail_if (fd <? 0) 1 "bigdir create failed
" [] ;;
  sys (Close fd) ;;
  for_loop 500 0 (fun i _ =>
    r <- sys (Link (str "bd") (bigdir_name i)) ;;
    fail_if (negb (r =? 0)) 1 "bigdir link failed
" []) tt ;;
  sys (Unlink (str "bd")) ;;
  for_loop 500 0 (fun i _ =>
    r <- sys (Unlink (bigdir_name i)) ;;
    fail_if (negb (r =? 0)) 1 "bigdir unlink failed" []) tt ;;
  print 1 "bigdir ok
" [].

(** [if(call ...){ printf(1, msg); exit(); }] for the conditions [r >= 0], [r != 0],
    [r == 0] and [r < 0] on the result. *)
Definition check (c : call Z) (bad : Z -> bool) (msg : string) : prog unit := r <- sys c ;; fail_if (bad r) 1 msg [].
Definition ge0 (r : Z) : bool := 0 <=? r.
Definition ne0 (r : Z) : bool := negb (r =? 0).
Definition eq0 (r : Z) : bool := r =? 0.
Definition lt0 (r : Z) : bool := r <? 0.

Definition subdir (buf : list Z) : prog (list Z) :=
  print 1 "subdir test
" [] ;;
  sys (Unlink (str "ff")) ;;
  check (Mkdir (str "dd")) ne0 "subdir mkdir dd failed
" ;;
  fd <- sys (Open (str "dd/ff") (Z.lor O_CREATE O_RDWR)) ;;
  fail_if (fd <? 0) 1 "create dd/ff failed
" [] ;;
  sys (Write fd (str "ff")) ;;
  sys (Close fd) ;;
  check (Unlink (str "dd")) ge0 "unlink dd (non-empty dir) succeeded!
" ;;
  check (Mkdir (str "/dd/dd")) ne0 "subdir mkdir dd/dd failed
" ;;
  fd <- sys (Open (str "dd/dd/ff") (Z.lor O_CREATE O_RDWR)) ;;
  fail_if (fd <? 0) 1 "create dd/dd/ff failed
" [] ;;
  sys (Write fd (str "FF")) ;;
  sys (Close fd) ;;
  fd <- sys (Open (str "dd/dd/../ff") 0) ;;
  fail_if (fd <? 0) 1 "open dd/dd/../ff failed
" [] ;;
  r <- read_buf fd buf BUFSZ ;;
  let '(cc, buf) := r in
  fail_if (negb (cc =? 2) || negb (schar (buf !!! 0%nat) =? 102)) 1 "dd/dd/../ff wrong content
" [] ;;
  sys (Close fd) ;;
  check (Link (str "dd/dd/ff") (str "dd/dd/ffff")) ne0 "link dd/dd/ff dd/dd/ffff failed
" ;;
  check (Unlink (str "dd/dd/ff")) ne0 "unlink dd/dd/ff failed
" ;;
  check (Open (str "dd/dd/ff") O_RDONLY) ge0 "open (unlinked) dd/dd/ff succeeded
" ;;
  check (Chdir (str "dd")) ne0 "chdir dd failed
" ;;
  check (Chdir (str "dd/../../dd")) ne0 "chdir dd/../../dd failed
" ;;
  check (Chdir (str "dd/../../../dd")) ne0 "chdir dd/../../dd failed
" ;;
  check (Chdir (str "./..")) ne0 "chdir ./.. failed
" ;;
  fd <- sys (Open (str "dd/dd/ffff") 0) ;;
  fail_if (fd <? 0) 1 "open dd/dd/ffff failed
" [] ;;
  r <- read_buf fd buf BUFSZ ;;
  let '(n, buf) := r in
  fail_if (negb (n =? 2)) 1 "read dd/dd/ffff wrong len
" [] ;;
  sys (Close fd) ;;
  check (Open (str "dd/dd/ff") O_RDONLY) ge0 "open (unlinked) dd/dd/ff succeeded!
" ;;
  check (Open (str "dd/ff/ff") (Z.lor O_CREATE O_RDWR)) ge0 "create dd/ff/ff succeeded!
" ;;
  check (Open (str "dd/xx/ff") (Z.lor O_CREATE O_RDWR)) ge0 "create dd/xx/ff succeeded!
" ;;
  check (Open (str "dd") O_CREATE) ge0 "create dd succeeded!
" ;;
  check (Open (str "dd") O_RDWR) ge0 "open dd rdwr succeeded!
" ;;
  check (Open (str "dd") O_WRONLY) ge0 "open dd wronly succeeded!
" ;;
  check (Link (str "dd/ff/ff") (str "dd/dd/xx")) eq0 "link dd/ff/ff dd/dd/xx succeeded!
" ;;
  check (Link (str "dd/xx/ff") (str "dd/dd/xx")) eq0 "link dd/xx/ff dd/dd/xx succeeded!
" ;;
  check (Link (str "dd/ff") (str "dd/dd/ffff")) eq0 "link dd/ff dd/dd/ffff succeeded!
" ;;
  check (Mkdir (str "dd/ff/ff")) eq0 "mkdir dd/ff/ff succeeded!
" ;;
  check (Mkdir (str "dd/xx/ff")) eq0 "mkdir dd/xx/ff succeeded!
" ;;
  check (Mkdir (str "dd/dd/ffff")) eq0 "mkdir dd/dd/ffff succeeded!
" ;;
  check (Unlink (str "dd/xx/ff")) eq0 "unlink dd/xx/ff succeeded!
" ;;
  check (Unlink (str "dd/ff/ff")) eq0 "unlink dd/ff/ff succeeded!
" ;;
  check (Chdir (str "dd/ff")) eq0 "chdir dd/ff succeeded!
" ;;
  check (Chdir (str "dd/xx")) eq0 "chdir dd/xx succeeded!
" ;;
  check (Unlink (str "dd/dd/ffff")) ne0 "unlink dd/dd/ff failed
" ;;
  check (Unlink (str "dd/ff")) ne0 "unlink dd/ff failed
" ;;
  check (Unlink (str "dd")) eq0 "unlink non-empty dd succeeded!
" ;;
  check (Unlink (str "dd/dd")) lt0 "unlink dd/dd failed
" ;;
  check (Unlink (str "dd")) lt0 "unlink dd failed
" ;;
  print 1 "subdir ok
" [] ;;
  Ret buf.

(** ** Large files *)

(** The sizes of [for(sz = 499; sz < 12*512; sz += 471)]. *)
Definition bigwrite_sizes : list Z := (fun i => 499 + 471 * i) <$> seqZ 0 12.

Fixpoint bigwrite_loop (sizes : list Z) (buf : list Z) : prog unit :=
  match sizes with
  | [] => Ret tt
  | sz :: sizes' =>
      fd <- sys (Open (str "bigwrite") (Z.lor O_CREATE O_RDWR)) ;;
      fail_if (fd <? 0) 1 "cannot create bigwrite
" [] ;;
      for_loop 2 0 (fun _ _ =>
        cc <- write_buf fd buf sz ;;
        fail_if (negb (cc =? sz)) 1 "write(%d) ret %d
" [Int sz; Int cc]) tt ;;
      sys (Close fd) ;;
      sys (Unlink (str "bigwrite")) ;;
      bigwrite_loop sizes' buf
  end.

Definition bigwrite (buf : list Z) : prog unit :=
  print 1 "bigwrite test
" [] ;;
  sys (Unlink (str "bigwrite")) ;;
  bigwrite_loop bigwrite_sizes buf ;;
  print 1 "bigwrite ok
" [].

Definition bigfile (fuel : nat) (buf : list Z) : prog (list Z) :=
  print 1 "bigfile test
" [] ;;
  sys (Unlink (str "bigfile")) ;;
  fd <- sys (Open (str "bigfile") (Z.lor O_CREATE O_RDWR)) ;;
  fail_if (fd <? 0) 1 "cannot create bigfile" [] ;;
  buf <- for_loop 20 0 (fun i buf =>
    let buf := fill buf (replicate 600 (u8 i)) in
    r <- write_buf fd buf 600 ;;
    fail_if (negb (r =? 600)) 1 "write bigfile failed
" [] ;;
    Ret buf) buf ;;
  sys (Close fd) ;;
  fd <- sys (Open (str "bigfile") 0) ;;
  fail_if (fd <? 0) 1 "cannot open bigfile
" [] ;;
  r <- while_loop fuel (fun '(i, total, buf) =>
    r <- read_buf fd buf 300 ;;
    let '(cc, buf) := r in
    fail_if (cc <? 0) 1 "read bigfile failed
" [] ;;
    if cc =? 0 then Ret (inr (total, buf))
    else
      fail_if (negb (cc =? 300)) 1 "short read bigfile
" [] ;;
      fail_if (negb (schar (buf !!! 0%nat) =? i / 2) || negb (schar (buf !!! 299%nat) =? i / 2)) 1 "read bigfile wrong data
" [] ;;
      Ret (inl (i + 1, s32 (total + cc), buf))) (0, 0, buf) ;;
  let '(total, buf) := r in
  sys (Close fd) ;;
  fail_if (negb (total =? 20 * 600)) 1 "read bigfile wrong total
" [] ;;
  sys (Unlink (str "bigfile")) ;;
  print 1 "bigfile test ok
" [] ;;
  Ret buf.

(** ** Names *)

Definition fourteen : prog unit :=
  print 1 "fourteen test
" [] ;;
  check (Mkdir (str "12345678901234")) ne0 "mkdir 12345678901234 failed
" ;;
  check (Mkdir (str "12345678901234/123456789012345")) ne0 "mkdir 12345678901234/123456789012345 failed
" ;;
  fd <- sys (Open (str "123456789012345/123456789012345/123456789012345") O_CREATE) ;;
  fail_if (fd <? 0) 1 "create 123456789012345/123456789012345/123456789012345 failed
" [] ;;
  sys (Close fd) ;;
  fd <- sys (Open (str "12345678901234/12345678901234/12345678901234") 0) ;;
  fail_if (fd <? 0) 1 "open 12345678901234/12345678901234/12345678901234 failed
" [] ;;
  sys (Close fd) ;;
  check (Mkdir (str "12345678901234/12345678901234")) eq0 "mkdir 12345678901234/12345678901234 succeeded!
" ;;
  check (Mkdir (str "123456789012345/12345678901234")) eq0 "mkdir 12345678901234/123456789012345 succeeded!
" ;;
  print 1 "fourteen ok
" [].

Definition rmdot : prog unit :=
  print 1 "rmdot test
" [] ;;
  check (Mkdir (str "dots")) ne0 "mkdir dots failed
" ;;
  check (Chdir (str "dots")) ne0 "chdir dots failed
" ;;
  check (Unlink (str ".")) eq0 "rm . worked!
" ;;
  check (Unlink (str "..")) eq0 "rm .. worked!
" ;;
  check (Chdir (str "/")) ne0 "chdir / failed
" ;;
  check (Unlink (str "dots/.")) eq0 "unlink dots/. worked!
" ;;
  check (Unlink (str "dots/..")) eq0 "unlink dots/.. worked!
" ;;
  check (Unlink (str "dots")) ne0 "unlink dots failed!
" ;;
  print 1 "rmdot ok
" [].

Definition dirfile : prog unit :=
  print 1 "dir vs file
" [] ;;
  fd <- sys (Open (str "dirfile") O_CREATE) ;;
  fail_if (fd <? 0) 1 "create dirfile failed
" [] ;;
  sys (Close fd) ;;
  check (Chdir (str "dirfile")) eq0 "chdir dirfile succeeded!
" ;;
  check (Open (str "dirfile/xx") 0) ge0 "create dirfile/xx succeeded!
" ;;
  check (Open (str "dirfile/xx") O_CREATE) ge0 "create dirfile/xx succeeded!
" ;;
  check (Mkdir (str "dirfile/xx")) eq0 "mkdir dirfile/xx succeeded!
" ;;
  check (Unlink (str "dirfile/xx")) eq0 "unlink dirfile/xx succeeded!
" ;;
  check (Link (str "README") (str "dirfile/xx")) eq0 "link to dirfile/xx succeeded!
" ;;
  check (Unlink (str "dirfile")) ne0 "unlink dirfile failed!
" ;;
  check (Open (str ".") O_RDWR) ge0 "open . for writing succeeded!
" ;;
  fd <- sys (Open (str ".") 0) ;;
  r <- sys (Write fd (str "x")) ;;
  fail_if (0 <? r) 1 "write . succeeded!
" [] ;;
  sys (Close fd) ;;
  print 1 "dir vs file OK
" [].

Definition iref : prog unit :=
  print 1 "empty file name
" [] ;;
  for_loop 51 0 (fun _ _ =>
    check (Mkdir (str "irefd")) ne0 "mkdir irefd failed
" ;;
    check (Chdir (str "irefd")) ne0 "chdir irefd failed
" ;;
    sys (Mkdir []) ;;
    sys (Link (str "README") []) ;;
    fd <- sys (Open [] O_CREATE) ;;
    (if 0 <=? fd then sys (Close fd) ;; Ret tt else Ret tt) ;;
    fd <- sys (Open (str "xx") O_CREATE) ;;
    (if 0 <=? fd then sys (Close fd) ;; Ret tt else Ret tt) ;;
    sys (Unlink (str "xx")) ;;
    Ret tt) tt ;;
  sys (Chdir (str "/")) ;;
  print 1 "empty file name OK
" [].

(** ** Running out of processes and memory *)

(** The first loop of [forktest]: the value of [n] after it. *)
Fixpoint forktest_forks (k : nat) (n : Z) : prog Z :=
  match k with
  | O => Ret n
  | S k' =>
      pid <- sys Fork ;;
      if pid <? 0 then Ret n else if pid =? 0 then Exit else forktest_forks k' (n + 1)
  end.

Definition forktest : prog unit :=
  print 1 "fork test
" [] ;;
  n <- forktest_forks 1000 0 ;;
  fail_if (n =? 1000) 1 "fork claimed to work 1000 times!
" [] ;;
  for_loop (Z.to_nat n) 0 (fun _ _ =>
    r <- sys Wait ;;
    fail_if (r <? 0) 1 "wait stopped early
" []) tt ;;
  r <- sys Wait ;;
  fail_if (negb (r =? -1)) 1 "wait got too many
" [] ;;
  print 1 "fork test OK
" [].

Definition BIG : Z := 100 * 1024 * 1024.

(** The parts of [sbrktest], in order.  Addresses are 32-bit numbers. *)

(** Growing by one byte, here and after a fork. *)
Definition sbrk_bytes : prog unit :=
  a <- sys (Sbrk 0) ;;
  a <- for_loop 5000 0 (fun i a =>
    b <- sys (Sbrk 1) ;;
    fail_if (negb (b =? a)) stdout "sbrk test failed %d %x %x
" [Int i; Int a; Int b] ;;
    sys (Store b 1) ;;
    Ret (u32 (b + 1))) a ;;
  pid <- sys Fork ;;
  fail_if (pid <? 0) stdout "sbrk test fork failed
" [] ;;
  sys (Sbrk 1) ;;
  c <- sys (Sbrk 1) ;;
  fail_if (negb (c =? u32 (a + 1))) stdout "sbrk test failed post-fork
" [] ;;
  if pid =? 0 then Exit else sys Wait ;; Ret tt.

(** Growing to 100 MB, and giving a page back and taking it again. *)
Definition sbrk_big (oldbrk : Z) : prog unit :=
  a <- sys (Sbrk 0) ;;
  let amt := u32 (BIG - a) in
  p <- sys (Sbrk (s32 amt)) ;;
  fail_if (negb (p =? a)) stdout "sbrk test failed to grow big address space; enough phys mem?
" [] ;;
  let lastaddr := BIG - 1 in
  sys (Store lastaddr 99) ;;
  a <- sys (Sbrk 0) ;;
  c <- sys (Sbrk (-4096)) ;;
  fail_if (c =? 0xffffffff) stdout "sbrk could not deallocate
" [] ;;
  c <- sys (Sbrk 0) ;;
  fail_if (negb (c =? u32 (a - 4096))) stdout "sbrk deallocation produced wrong address, a %x c %x
" [Int a; Int c] ;;
  a <- sys (Sbrk 0) ;;
  c <- sys (Sbrk 4096) ;;
  bad <- (if negb (c =? a) then Ret true else e <- sys (Sbrk 0) ;; Ret (negb (e =? u32 (a + 4096)))) ;;
  fail_if bad stdout "sbrk re-allocation failed, a %x c %x
" [Int a; Int c] ;;
  v <- sys (Load lastaddr) ;;
  fail_if (v =? 99) stdout "sbrk de-allocation didn't really deallocate
" [] ;;
  a <- sys (Sbrk 0) ;;
  e <- sys (Sbrk 0) ;;
  c <- sys (Sbrk (s32 (- (e - oldbrk)))) ;;
  fail_if (negb (c =? a)) stdout "sbrk downsize failed, a %x c %x
" [Int a; Int c].

(** Reading the kernel's memory, each time in a child. *)
Definition sbrk_kernel : prog unit :=
  for_loop 40 0 (fun i _ =>
    let a := KERNBASE + 50000 * i in
    ppid <- sys Getpid ;;
    pid <- sys Fork ;;
    fail_if (pid <? 0) stdout "fork failed
" [] ;;
    if pid =? 0 then
      v <- sys (Load a) ;;
      print stdout "oops could read %x = %x
" [Int a; Int (schar v)] ;;
      sys (Kill ppid) ;;
      Exit
    else sys Wait ;; Ret tt) tt.

Fixpoint sleeps (fuel : nat) : prog unit :=
  match fuel with
  | O => Spin
  | S fuel' => sys (Sleep 1000) ;; sleeps fuel'
  end.

(** Ten children that take 100 MB each; the list is [pids]. *)
Fixpoint sbrk_children (n fuel : nat) (fd0 fd1 : Z) (pids : list Z) : prog (list Z) :=
  match n with
  | O => Ret pids
  | S n' =>
      pid <- sys Fork ;;
      (if pid =? 0 then
         e <- sys (Sbrk 0) ;;
         sys (Sbrk (s32 (BIG - e))) ;;
         sys (Write fd1 (str "x")) ;;
         sleeps fuel
       else if negb (pid =? -1) then sys (Read fd0 1) ;; Ret tt
       else Ret tt) ;;
      sbrk_children n' fuel fd0 fd1 (pids ++ [pid])
  end.

Fixpoint sbrk_kills (pids : list Z) : prog unit :=
  match pids with
  | [] => Ret tt
  | pid :: pids' =>
      (if pid =? -1 then Ret tt else sys (Kill pid) ;; sys Wait ;; Ret tt) ;;
      sbrk_kills pids'
  end.

Definition sbrk_exhaust (fuel : nat) : prog unit :=
  r <- sys Pipe ;;
  let '(r, fd0, fd1) := r in
  fail_if (negb (r =? 0)) 1 "pipe() failed
" [] ;;
  pids <- sbrk_children 10 fuel fd0 fd1 [] ;;
  c <- sys (Sbrk 4096) ;;
  sbrk_kills pids ;;
  fail_if (c =? 0xffffffff) stdout "failed sbrk leaked memory
" [].

Definition sbrktest (fuel : nat) : prog unit :=
  print stdout "sbrk test
" [] ;;
  oldbrk <- sys (Sbrk 0) ;;
  sbrk_bytes ;;
  sbrk_big oldbrk ;;
  sbrk_kernel ;;
  sbrk_exhaust fuel ;;
  e <- sys (Sbrk 0) ;;
  (if oldbrk <? e then e <- sys (Sbrk 0) ;; sys (Sbrk (s32 (- (e - oldbrk)))) ;; Ret tt else Ret tt) ;;
  print stdout "sbrk test OK
" [].

(** ** Bad pointers and arguments *)

Definition validateint (p : Z) : prog unit := sys (SleepAt p) ;; Ret tt.

Definition validatetest : prog unit :=
  print stdout "validate test
" [] ;;
  let hi := 1100 * 1024 in
  for_loop (Z.to_nat (hi / 4096 + 1)) 0 (fun i _ =>
    let p := 4096 * i in
    pid <- sys Fork ;;
    (if pid =? 0 then validateint p ;; Exit else Ret tt) ;;
    sys (Sleep 0) ;;
    sys (Sleep 0) ;;
    sys (Kill pid) ;;
    sys Wait ;;
    r <- sys (LinkAt (str "nosuchfile") p) ;;
    fail_if (negb (r =? -1)) stdout "link should not succeed
" []) tt ;;
  print stdout "validate ok
" [].

(** [uninit] is a static array of 10000 bytes. *)
Definition bsstest (uninit : list Z) : prog unit :=
  print stdout "bss test
" [] ;;
  fail_if (negb (forallb (fun b => b =? 0) uninit)) stdout "bss test failed
" [] ;;
  print stdout "bss test ok
" [].

(** The argument, 220 characters, 31 times. *)
Definition bigarg : list Z := str "bigargs test: failed
" ++ replicate 199 32.

Definition bigargtest : prog unit :=
  sys (Unlink (str "bigarg-ok")) ;;
  pid <- sys Fork ;;
  (if pid =? 0 then
     print stdout "bigarg test
" [] ;;
     sys (Exec (str "echo") (replicate (Z.to_nat (MAXARG - 1)) bigarg)) ;;
     print stdout "bigarg test ok
" [] ;;
     fd <- sys (Open (str "bigarg-ok") O_CREATE) ;;
     sys (Close fd) ;;
     Exit
   else fail_if (pid <? 0) stdout "bigargtest: fork failed
" []) ;;
  sys Wait ;;
  fd <- sys (Open (str "bigarg-ok") 0) ;;
  fail_if (fd <? 0) stdout "bigarg test failed!
" [] ;;
  sys (Close fd) ;;
  sys (Unlink (str "bigarg-ok")) ;;
  Ret tt.

(** ** Filling the disk *)

Definition fsfull_name (n : Z) : list Z :=
  [102; u8 (48 + Z.quot n 1000); u8 (48 + Z.quot (Z.rem n 1000) 100); u8 (48 + Z.quot (Z.rem n 100) 10); u8 (48 + Z.rem n 10)].

(** Writing a file until a write is short: the bytes written. *)
Definition fsfull_write (fuel : nat) (fd : Z) (buf : list Z) : prog Z :=
  while_loop fuel (fun total =>
    cc <- write_buf fd buf 512 ;;
    if cc <? 512 then Ret (inr total) else Ret (inl (s32 (total + cc)))) 0.

(** The removal of the files [nfiles], ..., 0. *)
Fixpoint fsfull_unlinks (n : nat) : prog unit :=
  sys (Unlink (fsfull_name (Z.of_nat n))) ;;
  match n with
  | O => Ret tt
  | S n' => fsfull_unlinks n'
  end.

Definition fsfull (fuel : nat) (buf : list Z) : prog unit :=
  print 1 "fsfull test
" [] ;;
  nfiles <- while_loop fuel (fun nfiles =>
    let name := fsfull_name nfiles in
    print 1 "writing %s
" [Ptr name] ;;
    fd <- sys (Open name (Z.lor O_CREATE O_RDWR)) ;;
    if fd <? 0 then
      print 1 "open %s failed
" [Ptr name] ;;
      Ret (inr nfiles)
    else
      total <- fsfull_write fuel fd buf ;;
      print 1 "wrote %d bytes
" [Int total] ;;
      sys (Close fd) ;;
      if total =? 0 then Ret (inr nfiles) else Ret (inl (nfiles + 1))) 0 ;;
  fsfull_unlinks (Z.to_nat nfiles) ;;
  print 1 "fsfull test finished
" [].

(** ** Ports *)

Definition RTC_ADDR : Z := 0x70.
Definition RTC_DATA : Z := 0x71.

Definition uio : prog unit :=
  print 1 "uio test
" [] ;;
  pid <- sys Fork ;;
  (if pid =? 0 then
     sys (OutPort RTC_ADDR 0x09) ;;
     sys (InPort RTC_DATA) ;;
     print 1 "uio: uio succeeded; test FAILED
" [] ;;
     Exit
   else fail_if (pid <? 0) 1 "fork failed
" []) ;;
  sys Wait ;;
  print 1 "uio test done
" [].

(** The new [randstate], which is also the value returned. *)
Definition rand (randstate : Z) : Z := u32 (randstate * 1664525 + 1013904223).

(** ** All the tests *)

(** [base] is the address of malloc's static header, [de] what the stack held at
    concreate's local. *)
Definition main (fuel : nat) (base : Z) (de : list Z) : prog unit :=
  let buf := replicate (Z.to_nat BUFSZ) 0 in
  print 1 "usertests starting
" [] ;;
  r <- sys (Open (str "usertests.ran") 0) ;;
  fail_if (0 <=? r) 1 "already ran user tests -- rebuild fs.img
" [] ;;
  close_open (str "usertests.ran") O_CREATE ;;
  createdelete ;;
  linkunlink ;;
  concreate fuel de ;;
  buf <- fourfiles fuel buf ;;
  sharedfd fuel ;;
  bigargtest ;;
  bigwrite buf ;;
  bigargtest ;;
  bsstest (replicate (Z.to_nat 10000) 0) ;;
  sbrktest fuel ;;
  validatetest ;;
  opentest ;;
  buf <- writetest buf ;;
  buf <- writetest1 fuel buf ;;
  createtest ;;
  openiputtest ;;
  exitiputtest ;;
  iputtest ;;
  mem fuel base (mkHeap ∅ 0) ;;
  buf <- pipe1 fuel buf ;;
  buf <- preempt buf ;;
  exitwait ;;
  rmdot ;;
  fourteen ;;
  buf <- bigfile fuel buf ;;
  buf <- subdir buf ;;
  buf <- linktest buf ;;
  unlinkread buf ;;
  dirfile ;;
  iref ;;
  forktest ;;
  bigdir ;;
  uio ;;
  exectest ;;
  Exit.
