(* ===== verification/UsertestsSpec.v ===== *)
(** * What the pipe test checks (usertests.c)

    The two processes of [pipe1], for every kernel whose [read] and [write] behave as
    the class [Stdio] says: the child writes a sequence of bytes, and the parent
    accepts exactly that sequence, however the kernel cuts it into pieces. *)

From S2P Require Import Prelude State Strings Bytes Inode User Utils UtilsSpec Usertests.
Import Printf.

(** ** The sequence *)

Lemma length_seq_bytes seq n : length (seq_bytes seq n) = n.
Proof. unfold seq_bytes. rewrite length_fmap, length_seqZ. lia. Qed.

Lemma seq_bytes_lookup seq n i : (i < n)%nat -> seq_bytes seq n !! i = Some (u8 (seq + Z.of_nat i)).
Proof. intros Hi. unfold seq_bytes. rewrite list_lookup_fmap, lookup_seqZ_lt by lia. cbn. do 2 f_equal. Qed.

Lemma seq_bytes_app seq n m : seq_bytes seq (n + m) = seq_bytes seq n ++ seq_bytes (seq + Z.of_nat n) m.
Proof.
  apply list_eq_same_length with (n := (n + m)%nat); [now rewrite length_app, !length_seq_bytes|apply length_seq_bytes|].
  intros i x y Hi. rewrite seq_bytes_lookup by done. intros [= <-]. destruct (decide (i < n)%nat).
  - rewrite lookup_app_l, seq_bytes_lookup by (rewrite ?length_seq_bytes; lia). now intros [= <-].
  - rewrite lookup_app_r, length_seq_bytes, seq_bytes_lookup by (rewrite ?length_seq_bytes; lia).
    intros [= <-]. f_equal. lia.
Qed.

Lemma seq_bytes_cons seq n : seq_bytes seq (S n) = u8 seq :: seq_bytes (seq + 1) n.
Proof.
  change (S n) with (1 + n)%nat. rewrite seq_bytes_app. change (seq_bytes seq 1) with [u8 (seq + 0)]. now rewrite Z.add_0_r.
Qed.

(** A prefix of the sequence followed by the rest of it. *)
Lemma seq_bytes_split seq a b :
  a ++ b = seq_bytes seq (length (a ++ b)) <->
  a = seq_bytes seq (length a) /\ b = seq_bytes (seq + Z.of_nat (length a)) (length b).
Proof.
  rewrite length_app, seq_bytes_app. split; [|now intros [<- <-]].
  intros H. apply app_inj_1 in H; [done|]. now rewrite length_seq_bytes.
Qed.

(** ** Arrays *)

Lemma take_fill buf bs : (length bs <= length buf)%nat -> take (length bs) (fill buf bs) = bs.
Proof. intros H. unfold fill. rewrite take_take, Nat.min_l by done. now rewrite take_app_length. Qed.

Lemma length_fill buf bs : length (fill buf bs) = length buf.
Proof. unfold fill. rewrite length_take, length_app, length_drop. lia. Qed.

(** ** The comparison *)

Lemma pipe1_check_spec bs : forall seq, bytes_ok bs -> 0 <= seq -> seq + Z.of_nat (length bs) < 2 ^ 31 ->
  pipe1_check bs seq = if decide (bs = seq_bytes seq (length bs)) then Some (seq + Z.of_nat (length bs)) else None.
Proof.
  induction bs as [|b bs IH]; intros seq Hb Hs Hl; cbn [pipe1_check length].
  - rewrite decide_True by done. f_equal. lia.
  - apply Forall_cons in Hb as [Hc Hb]. cbn [length] in Hl.
    rewrite seq_bytes_cons, !(Z.land_ones _ 8) by lia. change (2 ^ 8) with 256. change (seq mod 256) with (u8 seq).
    rewrite (Z.mod_small b) by lia. destruct (Z.eqb_spec b (u8 seq)) as [->|Hne]; cbn [negb].
    + rewrite s32_small, IH by (done || lia). destruct (decide (bs = seq_bytes (seq + 1) (length bs))) as [E|E].
      * rewrite decide_True by congruence. f_equal. lia.
      * rewrite decide_False; [done|]. intros [= H]. done.
    + rewrite decide_False; [done|]. congruence.
Qed.

(** ** The two processes *)

Section Processes.
Context {W : Type} (os : kernel_fn W) `{!Stdio os}.

Lemma read_buf_run fd buf n w : 0 < n -> exists bs rest w', run os (read_buf fd buf n) w = Returned (Z.of_nat (length bs), fill buf bs) w' /\
  pending w fd = bs ++ rest /\ Z.of_nat (length bs) <= n /\ (bs = [] -> rest = []) /\ pending w' fd = rest /\ output w' = output w.
Proof using Type*.
  intros Hn. destruct (read_law w fd n Hn) as (bs & rest & w' & E & Hp & Hl & He & Hp' & Ho). exists bs, rest, w'.
  split_and!; try done; [|now rewrite Hp', decide_True]. unfold read_buf. now rewrite (run_sys os _ _ _ _ _ E).
Qed.

(** The outcome of the parent's loop on the bytes [bs] that are left. *)
Definition verdict (seq : Z) (bs : list Z) : option Z :=
  if decide (bs = seq_bytes seq (length bs)) then Some (seq + Z.of_nat (length bs)) else None.

Lemma verdict_nil seq : verdict seq [] = Some seq.
Proof using. unfold verdict. rewrite decide_True by done. f_equal. cbn. lia. Qed.

Lemma verdict_app seq a b : bytes_ok a -> 0 <= seq -> seq + Z.of_nat (length a) < 2 ^ 31 ->
  verdict seq (a ++ b) = match pipe1_check a seq with Some seq' => verdict seq' b | None => None end.
Proof using.
  intros Ha Hs Hl. rewrite pipe1_check_spec by done. unfold verdict. pose proof (seq_bytes_split seq a b) as H.
  destruct (decide (a = seq_bytes seq (length a))) as [Ea|Ea].
  - destruct (decide (b = seq_bytes (seq + Z.of_nat (length a)) (length b))) as [Eb|Eb].
    + rewrite decide_True by now apply H. f_equal. rewrite length_app. lia.
    + rewrite decide_False; [done|]. intros E. now apply H in E as [_ E].
  - rewrite decide_False; [done|]. intros E. now apply H in E as [E _].
Qed.
Definition oops2 (v : option Z) : list Z := match v with Some _ => [] | None => str "pipe1 oops 2
" end.

Lemma pipe1_loop_run fd fuel : forall seq cc buf w, 0 < cc <= BUFSZ -> length buf = Z.to_nat BUFSZ -> bytes_ok (pending w fd) ->
  0 <= seq -> seq + Z.of_nat (length (pending w fd)) < 2 ^ 31 -> (length (pending w fd) < fuel)%nat ->
  exists buf' w', run os (while_loop fuel (pipe1_round fd) (seq, cc, seq, buf)) w = Returned (verdict seq (pending w fd), buf') w' /\
    forall f, output w' f = if decide (f = 1) then output w f ++ oops2 (verdict seq (pending w fd)) else output w f.
Proof using Type*.
  induction fuel as [|fuel IH]; intros seq cc buf w Hcc Hlen Hb Hs Hl Hf; [lia|]. cbn [while_loop]. unfold pipe1_round at 1.
  destruct (read_buf_run fd buf cc w ltac:(lia)) as (bs & rest & w1 & R1 & Hp & Hn & He & Hp1 & Ho1).
  rewrite Hp in *. apply Forall_app in Hb as [Hb Hr]. rewrite length_app in *. unfold BUFSZ in Hcc, Hlen.
  rewrite run_bind, (run_returned os _ _ _ _ _ R1), Nat2Z.id, take_fill by lia.
  destruct bs as [|b bs'] eqn:Eb.
  { rewrite He by done. rewrite app_nil_l, verdict_nil. cbn. exists (fill buf []), w1. split; [done|].
    intros f. rewrite Ho1, app_nil_r. now case_decide. }
  rewrite <- Eb in *. assert (Hlb : (0 < length bs)%nat) by (subst bs; cbn; lia). clear Eb.
  rewrite (proj2 (Z.ltb_lt 0 (Z.of_nat (length bs)))) by lia. rewrite verdict_app by (done || lia).
  rewrite pipe1_check_spec by (done || lia). destruct (decide (bs = seq_bytes seq (length bs))) as [E|E].
  - cbn [and_then run]. rewrite s32_small by lia.
    destruct (IH (seq + Z.of_nat (length bs)) (if BUFSZ <? cc * 2 then BUFSZ else cc * 2) (fill buf bs) w1) as (buf' & w' & R & Ho);
      rewrite ?Hp1, ?length_fill; try done; try (unfold BUFSZ; destruct (Z.ltb_spec 8192 (cc * 2)); lia); try lia.
    exists buf', w'. rewrite Hp1 in *. split; [exact R|]. intros f. rewrite Ho, Ho1. done.
  - destruct (print_run os 1 "pipe1 oops 2
" [] w1) as (w2 & R2 & _ & Ho2); [repeat constructor; lia|constructor|].
    rewrite (run_returned os _ _ _ _ _ R2). cbn [and_then run]. eexists _, w2. split; [reflexivity|].
    intros f. rewrite Ho2, Ho1. done.
Qed.

Lemma pipe1_send_run fd n : forall i buf seq w, (1033 <= length buf)%nat ->
  exists buf' w', run os (for_loop n i (pipe1_send fd) (buf, seq)) w = Returned (buf', seq + 1033 * Z.of_nat n) w' /\
    wrote os w fd (seq_bytes seq (n * 1033)) w'.
Proof using Type*.
  induction n as [|n IH]; intros i buf seq w Hl; cbn [for_loop].
  { exists buf, w. cbn. rewrite Z.add_0_r. split; [done|apply output_nil]. }
  set (buf1 := fill buf (seq_bytes seq 1033)).
  assert (E1 : take (Z.to_nat 1033) buf1 = seq_bytes seq 1033).
  { pose proof (take_fill buf (seq_bytes seq 1033)) as H. rewrite length_seq_bytes in H. exact (H Hl). }
  destruct (write_law w fd (seq_bytes seq 1033)) as (w1 & R1 & P1 & O1). rewrite length_seq_bytes in R1.
  destruct (IH (i + 1) buf1 (seq + 1033) w1) as (buf' & w' & R & Ho); [unfold buf1; now rewrite length_fill|].
  exists buf', w'. split.
  - rewrite run_bind. unfold pipe1_send at 1. fold buf1. unfold write_buf. rewrite E1, (run_sys os _ _ _ _ _ R1). cbn [and_then].
    change (negb (Z.of_nat 1033 =? 1033)) with false. cbn [fail_if pbind run and_then]. rewrite R. f_equal. f_equal. lia.
  - cbn [Nat.mul]. rewrite seq_bytes_app. change (seq + Z.of_nat 1033) with (seq + 1033).
    eapply output_app; [|exact Ho]. now split.
Qed.
End Processes.

(** The bytes the test sends. *)
Definition sent : list Z := seq_bytes 0 (Z.to_nat 5165).

(** The pipe test.  For every kernel whose reads and writes are those of byte
    streams, however it cuts them: the child writes the 5165 bytes 0, 1, 2, ... modulo
    256 and nothing else; the parent's loop ends, and it counts 5165 bytes, which is
    what the test goes on to require, exactly when the bytes it could read were that
    sequence, neither shorter nor longer nor different; at a difference it prints
    a message. *)
Theorem pipe1_correct {W : Type} (os : kernel_fn W) `{!Stdio os} fd buf w fuel :
  length buf = Z.to_nat BUFSZ -> bytes_ok (pending w fd) -> Z.of_nat (length (pending w fd)) < 2 ^ 31 ->
  (length (pending w fd) < fuel)%nat ->
  (exists buf' w', run os (pipe1_child fd buf) w = Returned (buf', 5165) w' /\ wrote os w fd (sent) w') /\
  (exists r buf' w', run os (pipe1_parent fuel fd buf) w = Returned (r, buf') w' /\
     (r = Some 5165 <-> pending w fd = sent) /\
     (forall f, output w' f = if decide (f = 1) then output w f ++ oops2 r else output w f)).
Proof.
  intros Hl Hb Hlen Hf. split.
  - destruct (pipe1_send_run os fd 5 0 buf 0 w) as (buf' & w' & R & Ho); [rewrite Hl; unfold BUFSZ; lia|].
    exists buf', w'. split; [exact R|]. replace (5 * 1033)%nat with (Z.to_nat 5165) in Ho by lia. exact Ho.
  - destruct (pipe1_loop_run os fd fuel 0 1 buf w) as (buf' & w' & R & Ho); [unfold BUFSZ; lia|exact Hl|exact Hb|lia|lia|exact Hf|].
    exists (verdict 0 (pending w fd)), buf', w'. split; [exact R|]. split; [|exact Ho]. unfold verdict, sent.
    destruct (decide (pending w fd = seq_bytes 0 (length (pending w fd)))) as [E|E].
    + split; [intros H; injection H as El; rewrite E; f_equal; lia|]. intros ->. now rewrite length_seq_bytes.
    + split; [discriminate|]. intros H. exfalso. apply E. rewrite H at 2. rewrite length_seq_bytes. exact H.
Qed.

Lemma pipe1_correct_witness :
  let w : streams := ({[3 := sent]}, ∅) in
  exists buf' w', run (stream_os 99) (pipe1_parent (Z.to_nat 6000) 3 (replicate (Z.to_nat BUFSZ) 0)) w = Returned (Some 5165, buf') w'.
Proof.
  intros w. assert (Hp : pending (os := stream_os 99) w 3 = sent) by reflexivity.
  destruct (pipe1_correct (stream_os 99) 3 (replicate (Z.to_nat BUFSZ) 0) w (Z.to_nat 6000)) as [_ (r & buf' & w' & R & Hr & _)];
    rewrite ?Hp.
  - apply length_replicate.
  - apply Forall_fmap, Forall_forall. intros x _. apply u8_range.
  - unfold sent. rewrite length_seq_bytes. lia.
  - unfold sent. rewrite length_seq_bytes. lia.
  - exists buf', w'. rewrite <- (proj2 Hr Hp). exact R.
Defined.
